(* ===== verification/_CoqProject ===== *)
-Q . S2P
Prelude.v
CxUtils.v
CxCrc.v
BlockStream.v
HashCtx.v
Sha2Ref.v
CxSha256.v
CxSha512.v
CxRipemd160.v
CxSha3.v
CxBlake2b.v
CxHash.v
CxHmac.v
CxHkdf.v
LedgerProtocol.v
Seph.v
UsbDevice.v
UsbCtlReq.v
UsbCore.v
LedgerHid.v
UsbLedger.v
OsIo.v
OpensslBn.v
BeBytes.v
CxMpi.v
CxBn.v
Field25519.v
Curve25519.v
ModArith.v
MpiSlots.v
CxEcTables.v
CxEcDomain.v
CxEcCurves.v
CxEcPoint.v
CxMontgomery.v
SigDer.v
HdPath.v
