(* ===== verification/Prelude.v ===== *)
(** Verification of the core of Speculos, the emulator of the Ledger devices.

    The launcher of Speculos runs the ELF file of an application in a process
    whose system calls it serves in C ([src/bolos/]). An application that
    receives a command goes through the channel to the screen and USB
    controller, the USB device stack and the transport protocol; it then calls
    the cryptographic functions. The development models both parts from the
    bottom up, each file requiring the ones it uses:

    - Prelude.v: machine words, byte buffers, outcomes of the code, lemmas
      and tactics that all files share;
    - CxUtils.v: [cx_utils.c], [cx_utils.h] (rotations, fields of a buffer,
      reversals); CxCrc.v: [cx_crc.c];
    - BlockStream.v, HashCtx.v, Sha2Ref.v: what the block hashes share (the
      interface [BlockCtx] of a context with its buffer, the records
      of [cx_hash.h], the compression function of FIPS 180-4);
      CxSha256.v, CxSha512.v, CxRipemd160.v, CxSha3.v, CxBlake2b.v: one file
      per hash, [cx_sha256.c] and so on;
    - CxHash.v: [cx_hash.c], [cx_scc.c], the dispatch over the union of the
      contexts and the interface of a streaming hash; CxHmac.v: [cx_hmac.c]
      over that interface; CxHkdf.v: [cx_hkdf.c];
    - LedgerProtocol.v: [ledger_protocol.c], the cutting of APDUs in packets;
    - Seph.v: [io.c], [seproxyhal.c], [touch.c], [os_io_seph_cmd.c], the
      channel over two file descriptors;
    - UsbDevice.v, UsbCtlReq.v, UsbCore.v: the USB device stack over the
      interface of a class ([usbd_conf.c], [usbd_ioreq.c], [usbd_ctlreq.c],
      [usbd_core.c]); LedgerHid.v: [usbd_ledger_hid.c], which carries the
      transport on two endpoints; UsbLedger.v: [usbd_ledger.c] and
      [usbd_desc.c], the instance of the interface that the device registers;
    - OsIo.v: [os_io.c], [os_io_seph_ux.c], the loop of the application that
      puts the channel, the stack and the transport together.
    - OpensslBn.v: the interface of the numbers of OpenSSL, which is not part
      of the program: its calls are the operations of a class, what its manual
      says of them the laws of another, and an instance on the integers meets
      both; BeBytes.v: big-endian numbers; CxMpi.v: [cx_mpi.c] over that
      interface; CxBn.v: [cx_bn.c], the system calls on handles;
    - Field25519.v, Curve25519.v: [cx_curve25519.c], the field on ten limbs
      and the Montgomery ladder;
    - SigDer.v: the DER signatures of [cx_ec.c]; HdPath.v: [hdkey_validate.c]
      and the check of the paths of [os_bip32.c], which decide what keys an
      application may derive.
    - ModArith.v: arithmetic modulo a prime and a criterion of primality;
      MpiSlots.v: how the code computes with temporary numbers of a context,
      and the rules that step through such computations; CxEcTables.v,
      CxEcDomain.v: the tables of [cx_ec_domain.c] and the system calls on
      them; CxEcCurves.v: the equations of the three kinds of curves
      ([cx_weierstrass.c], [cx_twisted_edwards.c], [cx_montgomery.c]) and the
      affine form of a point; CxEcPoint.v: the points of [cx_ecpoint.c];
      CxMontgomery.v: the rest of [cx_montgomery.c], X25519 and X448.

    ** Conventions

    The state of a component is a record, and an operation a function in the
    monad [M] of this file: [Ret] for a return, [Throw] for an exception of
    the [TRY]/[THROW] macros, [Fault] for a behaviour that C does not define
    (an access out of the bounds of its object, the use of a NULL pointer).
    That an operation does not fault is therefore a theorem. The target is
    32-bit ARM: words are [Z]s whose wrap-around is written out, lengths and
    pointers have 32 bits. A context that the C code takes by pointer is the
    state of the operation, a buffer argument is a list of bytes with its
    length beside it, and local arrays that the code does not initialise start
    as zeros, no theorem depending on it. A local or global buffer keeps its
    size in the model: an index out of it is a [Fault].

    The configuration is the one [CMakeLists.txt] builds: [HAVE_BOLOS],
    [HAVE_IO_USB] with the HID class alone, [NATIVE_64BITS]; no Bluetooth,
    NFC, U2F, WebUSB, CCID or CDC. [OS_IO_SEPH_BUFFER_SIZE] is 272,
    [IO_USB_MAX_ENDPOINTS] is 6. The bytes the file descriptors deliver are a
    list of events (data, an interruption, an error); an exhausted list is the
    end of the file.

    ** Theorems

    - Hashes: each streaming hash computes the digest of its standard for any
      cutting of the message into updates ([sha256_streaming] and the others,
      each by an invariant that relates the context to what it absorbed); the
      optimised block functions are those of the standards
      ([sha256_block_fips], [keccak_f_refines]); the limits on lengths are
      exact; HMAC and HKDF are RFC 2104 and RFC 5869 over any hash of the
      interface; the union of contexts stays coherent but for an
      initialisation that is refused ([hash_union_coherent],
      [hash_init_ex_refused]).
    - Transport: what one handle sends another one reassembles
      ([transport_roundtrip]); no packet makes it fault except for the APDU of
      exactly the size of the buffer ([rx_never_faults],
      [rx_length_off_by_one]).
    - Channel: packets are sent whole whatever the pieces and however slow the
      descriptor, events that come in whole reads are handed over whole and in
      order ([seph_tx_any_pieces], [seph_event_loop]; [readall_short_read] for
      the other reads).
    - USB: the state machine of chapter 9 of the USB specification is an
      abstract specification ([ch9_step]) that the core refines for every class
      that keeps its contract ([usb_run_refines]), and the instance of the
      device keeps it ([usb_stack_refines]). The sequences of events are those
      without a status request beyond the endpoints or a second suspension,
      on which the code fails ([get_status_out_of_bounds],
      [suspended_twice_stuck]).
    - Input and output: an APDU of the host reaches the buffer of the
      application, and its answer the host ([os_io_receives_apdu],
      [os_io_sends_apdu]).
    - What the code does not do as it means to is stated by theorems too; they
      are named in the findings of the manifest.
    - Big numbers: the memory of a context follows an abstract allocator under
      any sequence of system calls that returns, for sizes below 2^30
      ([bn_run_refines]; [bn_alloc_wraps] for larger ones); a handle that is
      accepted designates a number ([bn_handles]); the operations compute the
      integers they name, with the carries and the sizes of the code
      ([mpi_add], [mpi_sub], [mpi_bits], [mpi_modular], [mpi_mod_sqrt]); the
      loops over random numbers and primes end ([mpi_rng],
      [mpi_next_prime], which says when each error is returned). Every result is
      stated under the success of OpenSSL, an error being reported otherwise.
    - Curve25519: the limbs never overflow and the scalar multiplication is
      the ladder of the textbook modulo the prime
      ([scalarmult_curve25519_ok]); that this ladder is the group law of the
      curve is not restated. The other implementation of the program, on the
      numbers of OpenSSL, computes the same ([x25519_agrees]; [x448_ok] for the
      other curve).
    - Curves: every table is well formed, with the exceptions that are named
      ([domains_ok]), and the calls on them stay within their arrays
      ([ecdomain_calls]); a decompression finds the point exactly when there is
      one ([decompress_ok]) and undoes the compression
      ([compress_decompress]). The modulus is supposed prime, which
      [prime_25519] checks for the examples.
    - Signatures: what is written up to 127 bytes is DER and is read back
      ([der_roundtrip]), beyond that it is not ([der_long_refused]); what is
      read is DER, but for integers without contents ([der_decode_strict]).
    - Derivation paths: both checks implement one abstract authorisation, a
      request that an entry of the application permits ([bip32_path_refines],
      [hdkey_context_refines]); where they differ is stated by
      [hd_checks_agree].

    ** Bounds and fuel

    Recursion is structural, on the data or on a number of rounds. Where it is
    on a fuel, the theorems give the fuel: the loop of HKDF runs one round
    per digest ([hkdf_expand_rfc5869] shows it ends), the sender at most one
    packet per byte of the APDU, the class loop one round per class.
    The draw of a number takes one round per draw that is 0 ([mpi_rng]), the
    search of a prime at most one per odd number of the size of the start
    ([mpi_next_prime] shows that there is a fuel that is enough).

    ** Not modelled

    - The sums and multiples of points, the keys and the signatures ([cx_ec.c]
      and the others) call the groups of OpenSSL; AES calls OpenSSL.
    - The launcher, the loading of the ELF files, the signal handlers and the
      VNC server are input and output of the process.
    - The other USB classes, Bluetooth and NFC are not compiled.
    - The screens ([bagl.c], [nbgl.c]) and the events that only call them.
    - The 32-bit variants of the 64-bit operations are not compiled. *)

From Stdlib Require Export ZArith Lia ZifyBool ZifyNat.
From stdpp Require Export base numbers list.

Global Open Scope Z_scope.

(** * Machine words

    The launcher is built for 32-bit ARM ([-mthumb], [arm-linux-gnueabihf]):
    [unsigned int], [unsigned long], [size_t] and pointers are 32 bits wide.
    A word is a [Z]; the wrap-around of each operation is written out. *)

Definition w8 (x : Z) : Z := x mod 256.
Definition w16 (x : Z) : Z := x mod 65536.
Definition w32 (x : Z) : Z := x mod 4294967296.
Definition w64 (x : Z) : Z := x mod 18446744073709551616.

(** [~x] on an unsigned word. *)
Definition not32 (x : Z) : Z := Z.lxor x 4294967295.
Definition not64 (x : Z) : Z := Z.lxor x 18446744073709551615.

(** A C integer used as a condition. *)
Definition truthy (x : Z) : bool := negb (x =? 0).

(** * Byte buffers

    A buffer is the list of its bytes. Reads and writes whose offset depends
    on data are checked: they return [None] when the access leaves the
    buffer, which the operations turn into [Fault]. *)

Definition zlen {A} (l : list A) : Z := Z.of_nat (length l).

Definition is_byte (b : Z) : Prop := 0 <= b < 256.
Definition is_w32 (x : Z) : Prop := 0 <= x < 4294967296.
Definition is_w64 (x : Z) : Prop := 0 <= x < 18446744073709551616.
Definition bytes_ok (l : list Z) : Prop := Forall is_byte l.

Definition zeros (n : Z) : list Z := replicate (Z.to_nat n) 0.
Definition ztake {A} (n : Z) (l : list A) : list A := take (Z.to_nat n) l.
Definition zdrop {A} (n : Z) (l : list A) : list A := drop (Z.to_nat n) l.

(** Indexing with an index that the code keeps in range by construction (a
    constant, a loop counter below the size, or a masked value). *)
Definition znth (l : list Z) (i : Z) : Z := nth (Z.to_nat i) l 0.
Definition zupd (l : list Z) (i v : Z) : list Z := <[Z.to_nat i := v]> l.

(** [memcpy(dst + off, src, |src|)], with the bounds of [dst] checked. *)
Definition write_at {A} (dst : list A) (off : Z) (src : list A)
  : option (list A) :=
  if (0 <=? off) && (off + zlen src <=? zlen dst)
  then Some (ztake off dst ++ src ++ zdrop (off + zlen src) dst)
  else None.

(** The bytes [memcpy(_, src + off, n)] reads, with the bounds checked. *)
Definition read_at {A} (src : list A) (off n : Z) : option (list A) :=
  if (0 <=? off) && (0 <=? n) && (off + n <=? zlen src)
  then Some (ztake n (zdrop off src))
  else None.

(** [memset(dst + off, v, n)]: a negative [n] stands for a huge [size_t]. *)
Definition memset_at (dst : list Z) (off v n : Z) : option (list Z) :=
  if 0 <=? n then write_at dst off (replicate (Z.to_nat n) v) else None.

(** * Little- and big-endian values *)

Fixpoint le_combine (l : list Z) : Z :=
  match l with
  | [] => 0
  | b :: l' => b + 256 * le_combine l'
  end.

Fixpoint le_split (n : nat) (x : Z) : list Z :=
  match n with
  | O => []
  | S n' => x mod 256 :: le_split n' (x / 256)
  end.

Definition be_combine (l : list Z) : Z := le_combine (rev l).
Definition be_split (n : nat) (x : Z) : list Z := rev (le_split n x).

(** The consecutive [n]-element pieces of a list: [k] pieces are cut. *)
Fixpoint pieces {A} (k n : nat) (l : list A) : list (list A) :=
  match k with
  | O => []
  | S k' => take n l :: pieces k' n (drop n l)
  end.

(** Cuts a list in [n]-element pieces; a trailing shorter piece is dropped. *)
Definition chunks {A} (n : nat) (l : list A) : list (list A) :=
  pieces (length l / n) n l.

(** * Loops *)

(** [for (j = 0; j < n; j++) s = f(j, s)]. *)
Definition for_range {S} (n : nat) (f : Z -> S -> S) (s : S) : S :=
  fold_left (fun s j => f (Z.of_nat j) s) (seq 0 n) s.

(** * Outcomes

    The monad of the C functions that work on an object of type [S]: they
    return a value and the object they leave, raise an exception of the
    [THROW] macro with the object as it is at that point, or run into
    undefined behaviour (an access outside a buffer). *)

Inductive outcome (S A : Type) : Type :=
| Ret (a : A) (s : S)
| Throw (e : Z) (s : S)
| Fault.
Arguments Ret {S A}.
Arguments Throw {S A}.
Arguments Fault {S A}.

Definition M (S A : Type) : Type := S -> outcome S A.

Section monad.
Context {S : Type}.

Definition mret {A} (a : A) : M S A := fun s => Ret a s.
Definition mfault {A} : M S A := fun _ => Fault.
Definition mthrow {A} (e : Z) : M S A := fun s => Throw e s.
Definition mgets {A} (f : S -> A) : M S A := fun s => Ret (f s) s.
Definition mmodify (f : S -> S) : M S unit := fun s => Ret tt (f s).
Definition mbind {A B} (m : M S A) (k : A -> M S B) : M S B := fun s =>
  match m s with
  | Ret a s' => k a s'
  | Throw e s' => Throw e s'
  | Fault => Fault
  end.
(** An access that leaves its buffer is undefined behaviour. *)
Definition mlift {A} (o : option A) : M S A := fun s =>
  match o with
  | Some a => Ret a s
  | None => Fault
  end.
End monad.

Declare Scope c_scope.
Delimit Scope c_scope with c.
Notation "'let!' x ':=' m 'in' k" := (mbind m (fun x => k))
  (at level 10, x pattern, m at level 100, k at level 200,
   format "'[v' 'let!'  x  ':='  m  'in' '/' k ']'") : c_scope.
Notation "'do!' m 'in' k" := (mbind m (fun _ => k))
  (at level 10, m at level 100, k at level 200,
   format "'[v' 'do!'  m  'in' '/' k ']'") : c_scope.
Global Open Scope c_scope.

(** Runs [m] on a part of a larger object. *)
Definition zoom {S T A} (get : T -> S) (set : S -> T -> T) (m : M S A) : M T A :=
  fun t =>
    match m (get t) with
    | Ret a s => Ret a (set s t)
    | Throw e s => Throw e (set s t)
    | Fault => Fault
    end.

Definition INVALID_PARAMETER : Z := 2.

(** * Lemmas on buffers *)

Lemma zlen_nonneg {A} (l : list A) : 0 <= zlen l.
Proof. unfold zlen. lia. Qed.

Lemma zlen_nil {A} : zlen (@nil A) = 0.
Proof. reflexivity. Qed.

Lemma zlen_cons {A} (x : A) l : zlen (x :: l) = 1 + zlen l.
Proof. unfold zlen. cbn [length]. lia. Qed.

Lemma zlen_app {A} (l k : list A) : zlen (l ++ k) = zlen l + zlen k.
Proof. unfold zlen. rewrite length_app. lia. Qed.

Lemma zlen_replicate {A} n (x : A) : zlen (replicate n x) = Z.of_nat n.
Proof. unfold zlen. by rewrite length_replicate. Qed.

Lemma zlen_zeros n : 0 <= n -> zlen (zeros n) = n.
Proof. intros. unfold zeros. rewrite zlen_replicate. lia. Qed.

Lemma zlen_ztake {A} n (l : list A) : 0 <= n <= zlen l -> zlen (ztake n l) = n.
Proof. unfold zlen, ztake. intros. rewrite length_take. lia. Qed.

Lemma zlen_zdrop {A} n (l : list A) :
  0 <= n <= zlen l -> zlen (zdrop n l) = zlen l - n.
Proof. unfold zlen, zdrop. intros. rewrite length_drop. lia. Qed.

Lemma ztake_app_l {A} n (l k : list A) : n = zlen l -> ztake n (l ++ k) = l.
Proof. intros ->. unfold ztake, zlen. rewrite Nat2Z.id. apply take_app_length. Qed.

Lemma zdrop_app_l {A} n (l k : list A) : n = zlen l -> zdrop n (l ++ k) = k.
Proof. intros ->. unfold zdrop, zlen. rewrite Nat2Z.id. apply drop_app_length. Qed.

Lemma ztake_all {A} n (l : list A) : zlen l <= n -> ztake n l = l.
Proof. unfold ztake, zlen. intros. apply take_ge. lia. Qed.

Lemma zdrop_all {A} n (l : list A) : zlen l <= n -> zdrop n l = [].
Proof. unfold zdrop, zlen. intros. apply drop_ge. lia. Qed.

Lemma ztake_0 {A} (l : list A) : ztake 0 l = [].
Proof. done. Qed.

Lemma zdrop_0 {A} (l : list A) : zdrop 0 l = l.
Proof. done. Qed.

Lemma ztake_zdrop {A} n (l : list A) : ztake n l ++ zdrop n l = l.
Proof. unfold ztake, zdrop. apply take_drop. Qed.

Lemma ztake_ztake {A} n m (l : list A) :
  0 <= n <= m -> ztake n (ztake m l) = ztake n l.
Proof. intros. unfold ztake. rewrite take_take. f_equal. lia. Qed.

Lemma zdrop_zdrop {A} n m (l : list A) :
  0 <= n -> 0 <= m -> zdrop n (zdrop m l) = zdrop (m + n) l.
Proof. intros. unfold zdrop. rewrite drop_drop. f_equal. lia. Qed.

Lemma zlen_0_nil {A} (l : list A) : zlen l = 0 -> l = [].
Proof. destruct l; [done | rewrite zlen_cons; pose proof (zlen_nonneg l); lia]. Qed.

Create Rewrite HintDb zlen.
#[export] Hint Rewrite @zlen_nil @zlen_cons @zlen_app @zlen_replicate : zlen.

(** Splits [bytes_ok] of a cons into its head and its tail. *)
Ltac inv_bytes :=
  unfold bytes_ok in *;
  repeat match goal with
    | H : Forall _ (_ :: _) |- _ => apply Forall_cons_1 in H as [? H]
    end.

(** [lia] that knows division and remainder. *)
Ltac div_mod_lia := zify; Z.div_mod_to_equations; lia.

(** Normalises the lengths of buffers, then calls [lia]. *)
Ltac zlen_step :=
  first
    [ rewrite zlen_ztake by (zlen_lia)
    | rewrite zlen_zdrop by (zlen_lia)
    | rewrite zlen_zeros by (zlen_lia) ]
with zlen_lia :=
  repeat (autorewrite with zlen in *; try zlen_step);
  repeat match goal with
    | l : list _ |- _ =>
        lazymatch goal with
        | _ : 0 <= zlen l |- _ => fail
        | _ => pose proof (zlen_nonneg l)
        end
    end; lia.

Lemma write_at_ok {A} (dst : list A) off src :
  0 <= off -> off + zlen src <= zlen dst ->
  write_at dst off src = Some (ztake off dst ++ src ++ zdrop (off + zlen src) dst).
Proof.
  intros. unfold write_at. destruct (_ && _) eqn:E; [done | lia].
Qed.

Lemma write_at_end {A} (dst : list A) off src :
  0 <= off -> off + zlen src = zlen dst ->
  write_at dst off src = Some (ztake off dst ++ src).
Proof.
  intros. rewrite write_at_ok by lia. rewrite (zdrop_all _ dst) by lia.
  by rewrite app_nil_r.
Qed.

Lemma write_at_length {A} (dst : list A) off src dst' :
  write_at dst off src = Some dst' -> zlen dst' = zlen dst.
Proof.
  unfold write_at. destruct (_ && _) eqn:E; [|done]. intros [= <-].
  pose proof (zlen_nonneg src). rewrite !zlen_app, zlen_ztake, zlen_zdrop; lia.
Qed.

Lemma read_at_ok {A} (src : list A) off n :
  0 <= off -> 0 <= n -> off + n <= zlen src ->
  read_at src off n = Some (ztake n (zdrop off src)).
Proof. intros. unfold read_at. destruct (_ && _) eqn:E; [done | lia]. Qed.

(** Two consecutive copies are the copy of the concatenation. *)
Lemma write_at_app {A} (d d' : list A) off p q :
  write_at d off p = Some d' -> off + zlen p + zlen q <= zlen d ->
  write_at d' (off + zlen p) q = write_at d off (p ++ q).
Proof.
  unfold write_at at 1. destruct (_ && _) eqn:E; [|done]. intros [= <-] Hle.
  pose proof (zlen_nonneg p). pose proof (zlen_nonneg q).
  rewrite !write_at_ok; rewrite ?zlen_app, ?zlen_ztake, ?zlen_zdrop; try lia.
  f_equal. rewrite (app_assoc (ztake off d) p).
  assert (zlen (ztake off d ++ p) = off + zlen p) as Hl by (rewrite zlen_app, zlen_ztake; lia).
  rewrite ztake_app_l, <- zdrop_zdrop by lia. rewrite zdrop_app_l by lia.
  rewrite zdrop_zdrop by lia. rewrite <- !app_assoc. do 4 f_equal. lia.
Qed.

(** Copying the first [n] bytes of [src] over a buffer. *)
Lemma copy_prefix {A} (src dst : list A) n :
  0 <= n <= zlen src -> n <= zlen dst ->
  read_at src 0 n = Some (ztake n src) /\
  write_at dst 0 (ztake n src) = Some (ztake n src ++ zdrop n dst).
Proof.
  intros. split.
  - by rewrite read_at_ok, zdrop_0 by lia.
  - rewrite write_at_ok; rewrite ?zlen_ztake; by try lia.
Qed.

Lemma read_at_all {A} (src : list A) : read_at src 0 (zlen src) = Some src.
Proof.
  pose proof (zlen_nonneg src). rewrite read_at_ok by lia.
  by rewrite zdrop_0, ztake_all by lia.
Qed.

Lemma read_at_length {A} (src : list A) off n l :
  read_at src off n = Some l -> zlen l = n.
Proof.
  unfold read_at. destruct (_ && _) eqn:E; [|done]. intros [= <-].
  rewrite zlen_ztake; [done|]. rewrite zlen_zdrop; lia.
Qed.

Lemma memset_at_length dst off v n dst' :
  memset_at dst off v n = Some dst' -> zlen dst' = zlen dst.
Proof. unfold memset_at. destruct (0 <=? n); [|done]. apply write_at_length. Qed.

Lemma memset_at_end dst off v n :
  0 <= off -> 0 <= n -> off + n = zlen dst ->
  memset_at dst off v n = Some (ztake off dst ++ replicate (Z.to_nat n) v).
Proof.
  intros. unfold memset_at. destruct (Z.leb_spec 0 n); [|lia].
  apply write_at_end; [lia|]. rewrite zlen_replicate. lia.
Qed.

(** ** Words read from bytes *)

Lemma le_split_length n x : length (le_split n x) = n.
Proof. revert x. induction n; intros; simpl; [done | by rewrite IHn]. Qed.

Lemma le_split_bytes n x : bytes_ok (le_split n x).
Proof.
  revert x. induction n; intros; simpl; constructor; [|apply IHn].
  apply Z.mod_pos_bound. lia.
Qed.

Lemma le_combine_bound l :
  bytes_ok l -> 0 <= le_combine l < 256 ^ zlen l.
Proof.
  induction 1 as [|b l Hb _ IH]; [done|].
  rewrite zlen_cons, Z.pow_add_r by (pose proof (zlen_nonneg l); lia).
  simpl. unfold is_byte in Hb. lia.
Qed.

Lemma le_combine_split n x : le_combine (le_split n x) = x mod 256 ^ Z.of_nat n.
Proof.
  revert x. induction n; intros x; simpl.
  - by rewrite Z.mod_1_r.
  - rewrite IHn. replace (Z.of_nat (S n)) with (1 + Z.of_nat n) by lia.
    rewrite Z.pow_add_r, Z.pow_1_r, Z.rem_mul_r by lia. lia.
Qed.

Lemma le_split_combine l n :
  bytes_ok l -> length l = n -> le_split n (le_combine l) = l.
Proof.
  intros Hl <-. induction Hl as [|b l Hb _ IH]; simpl; [done|].
  unfold is_byte in Hb. rewrite (Z.mul_comm 256), Z.mod_add, Z.div_add by lia.
  by rewrite Z.mod_small, Z.div_small, Z.add_0_l, IH by lia.
Qed.

(** ** Zeros and prefixes *)

Lemma zeros_app n m : 0 <= n -> 0 <= m -> zeros (n + m) = zeros n ++ zeros m.
Proof. intros. unfold zeros. by rewrite Z2Nat.inj_add, replicate_add by lia. Qed.

Lemma zdrop_zeros n m : 0 <= n <= m -> zdrop n (zeros m) = zeros (m - n).
Proof.
  intros. replace m with (n + (m - n)) at 1 by lia. rewrite zeros_app by lia.
  apply zdrop_app_l. by rewrite zlen_zeros by lia.
Qed.

Lemma zeros_bytes n : bytes_ok (zeros n).
Proof. apply Forall_replicate. unfold is_byte. lia. Qed.

Lemma read_at_prefix (a r : list Z) n : zlen a = n -> read_at (a ++ r) 0 n = Some a.
Proof.
  intros <-. pose proof (zlen_nonneg a). pose proof (zlen_nonneg r).
  rewrite read_at_ok by (rewrite ?zlen_app; lia). by rewrite zdrop_0, ztake_app_l.
Qed.

Lemma write_at_zeros a n : zlen a <= n -> write_at (zeros n) 0 a = Some (a ++ zeros (n - zlen a)).
Proof.
  intros. pose proof (zlen_nonneg a). rewrite write_at_ok by (rewrite ?zlen_zeros; lia).
  by rewrite ztake_0, zdrop_zeros by lia.
Qed.

(** Writing in the zeros after what was written before. *)
Lemma write_at_tail (pre s : list Z) n off :
  off = zlen pre -> zlen s <= n ->
  write_at (pre ++ zeros n) off s = Some ((pre ++ s) ++ zeros (n - zlen s)).
Proof.
  intros -> Hn. pose proof (zlen_nonneg pre). pose proof (zlen_nonneg s).
  rewrite write_at_ok by (rewrite ?zlen_app, ?zlen_zeros; lia).
  rewrite ztake_app_l, <- zdrop_zdrop, zdrop_app_l by lia.
  assert (zdrop (zlen s) (zeros n) = zeros (n - zlen s)) as ->.
  { unfold zeros, zdrop. rewrite drop_replicate. f_equal. lia. }
  by rewrite app_assoc.
Qed.

Lemma ztake_add {A} n m (l : list A) :
  0 <= n -> 0 <= m -> ztake (n + m) l = ztake n l ++ ztake m (zdrop n l).
Proof.
  intros. unfold ztake, zdrop. rewrite take_drop_commute, Z2Nat.inj_add by lia.
  rewrite <- (take_drop (Z.to_nat n) (take (Z.to_nat n + Z.to_nat m) l)) at 1.
  by rewrite take_take, Nat.min_l by lia.
Qed.

(** ** Cutting a list in pieces *)

Lemma pieces_app {A} k n (l1 l2 : list A) :
  length l1 = (k * n)%nat -> forall j,
  pieces (k + j) n (l1 ++ l2) = pieces k n l1 ++ pieces j n l2.
Proof.
  revert l1. induction k as [|k IH]; intros l1 Hl j; simpl in *.
  - by destruct l1.
  - rewrite take_app_le, drop_app_le by lia. f_equal. apply IH.
    rewrite length_drop. lia.
Qed.

Lemma chunks_app {A} k n (l1 l2 : list A) :
  (0 < n)%nat -> length l1 = (k * n)%nat ->
  chunks n (l1 ++ l2) = chunks n l1 ++ chunks n l2.
Proof.
  intros Hn Hl. unfold chunks. rewrite length_app, Hl.
  rewrite (Nat.add_comm (k * n)), Nat.div_add, Nat.div_mul by lia.
  rewrite (Nat.add_comm _ k). by apply pieces_app.
Qed.

Lemma chunks_one {A} n (l : list A) :
  (0 < n)%nat -> length l = n -> chunks n l = [l].
Proof.
  intros Hn Hl. unfold chunks. rewrite Hl, Nat.div_same by lia. simpl.
  by rewrite take_ge by lia.
Qed.

Lemma chunks_short {A} n (l : list A) : (length l < n)%nat -> chunks n l = [].
Proof. intros. unfold chunks. by rewrite Nat.div_small. Qed.

Lemma pieces_Forall_length {A} k n (l : list A) :
  (k * n <= length l)%nat -> Forall (fun p => length p = n) (pieces k n l).
Proof.
  revert l. induction k as [|k IH]; intros l Hl; simpl in *; constructor.
  - rewrite length_take. lia.
  - apply IH. rewrite length_drop. lia.
Qed.

Lemma chunks_Forall_length {A} n (l : list A) :
  Forall (fun p => length p = n) (chunks n l).
Proof.
  apply pieces_Forall_length. rewrite Nat.mul_comm. apply Nat.Div0.mul_div_le.
Qed.

Lemma pieces_length {A} k n (l : list A) : length (pieces k n l) = k.
Proof. revert l. induction k; intros; simpl; [done | by rewrite IHk]. Qed.

Lemma pieces_bytes k n l : bytes_ok l -> Forall bytes_ok (pieces k n l).
Proof.
  revert l. induction k as [|k IH]; intros l Hl; simpl; constructor.
  - by apply Forall_take.
  - apply IH. by apply Forall_drop.
Qed.

Lemma pieces_concat {A} k n (l : list A) :
  length l = (k * n)%nat -> concat (pieces k n l) = l.
Proof.
  revert l. induction k as [|k IH]; intros l Hl; simpl in *.
  - by destruct l.
  - rewrite IH by (rewrite length_drop; lia). apply take_drop.
Qed.

(** ** Counting loops *)

Lemma for_range_S {S} n (f : Z -> S -> S) s :
  for_range (Datatypes.S n) f s = f (Z.of_nat n) (for_range n f s).
Proof. unfold for_range. by rewrite seq_S, fold_left_app. Qed.

(** The loop rule: an invariant indexed by the loop counter. *)
Lemma for_range_ind {S} (P : Z -> S -> Prop) n f s :
  P 0 s ->
  (forall i s', 0 <= i < Z.of_nat n -> P i s' -> P (i + 1) (f i s')) ->
  P (Z.of_nat n) (for_range n f s).
Proof.
  intros H0 HS. induction n as [|n IH]; [done|].
  rewrite for_range_S, Nat2Z.inj_succ, <- Z.add_1_r.
  apply HS; [lia|]. apply IH. intros. apply HS; [lia|done].
Qed.

Lemma for_range_ext {S} n (f g : Z -> S -> S) s :
  (forall i s', 0 <= i < Z.of_nat n -> f i s' = g i s') ->
  for_range n f s = for_range n g s.
Proof.
  intros H. induction n as [|n IH]; [done|].
  rewrite !for_range_S, IH by (intros; apply H; lia). apply H. lia.
Qed.

(** Two loops whose bodies agree under an invariant are equal. *)
Lemma for_range_ext_inv {S} (P : S -> Prop) n (f g : Z -> S -> S) s :
  P s ->
  (forall i s', 0 <= i < Z.of_nat n -> P s' -> f i s' = g i s' /\ P (f i s')) ->
  for_range n f s = for_range n g s /\ P (for_range n f s).
Proof.
  intros H0 H. induction n as [|n IH]; [done|].
  destruct IH as [IH1 IH2]; [intros; apply H; [lia|done]|].
  rewrite !for_range_S, <- IH1. apply H; [lia|done].
Qed.

(** ** Folds *)

(** A fold keeps an invariant of the accumulator. *)
Lemma fold_left_inv {A B} (P : A -> Prop) (Q : B -> Prop) (f : A -> B -> A) l a :
  (forall a b, P a -> Q b -> P (f a b)) ->
  Forall Q l -> P a -> P (fold_left f l a).
Proof.
  intros Hf Hl. revert a. induction Hl as [|b l Hb _ IH]; intros a Ha; simpl; [done|].
  by apply IH, Hf.
Qed.

(** Two folds whose steps agree under an invariant are equal. *)
Lemma fold_left_ext_inv {A B} (P : A -> Prop) (Q : B -> Prop) (f g : A -> B -> A) l a :
  (forall a b, P a -> Q b -> P (f a b)) ->
  (forall a b, P a -> Q b -> f a b = g a b) ->
  Forall Q l -> P a -> fold_left f l a = fold_left g l a.
Proof.
  intros Hf Hfg Hl. revert a. induction Hl as [|b l Hb _ IH]; intros a Ha; simpl; [done|].
  rewrite IH by (by apply Hf). by rewrite Hfg.
Qed.

(** ** The monad *)

Lemma mbind_ret {S A B} (m : M S A) (k : A -> M S B) s a s' :
  m s = Ret a s' -> mbind m k s = k a s'.
Proof. unfold mbind. by intros ->. Qed.

Lemma mbind_mret {S A B} (a : A) (k : A -> M S B) s : mbind (mret a) k s = k a s.
Proof. done. Qed.

Lemma mbind_assoc {S A B C} (m : M S A) (k : A -> M S B) (k' : B -> M S C) s :
  mbind (mbind m k) k' s = mbind m (fun a => mbind (k a) k') s.
Proof. unfold mbind. by destruct (m s). Qed.

Lemma mlift_some {S A B} (o : option A) (k : A -> M S B) s a :
  o = Some a -> mbind (mlift o) k s = k a s.
Proof. unfold mbind, mlift. by intros ->. Qed.

(** ** Invariants of computations *)

(** [m] leaves an object that satisfies [P], whether it returns or throws. *)
Definition keeps {S A} (P : S -> Prop) (m : M S A) : Prop := forall s, P s ->
  match m s with
  | Ret _ s' | Throw _ s' => P s'
  | Fault => True
  end.

Section keeps.
Context {S : Type} (P : S -> Prop).

Lemma keeps_ret {A} (a : A) : keeps P (mret a).
Proof. by intros s Hs. Qed.

Lemma keeps_throw {A} e : keeps P (@mthrow S A e).
Proof. by intros s Hs. Qed.

Lemma keeps_fault {A} : keeps P (@mfault S A).
Proof. by intros s Hs. Qed.

Lemma keeps_gets {A} (f : S -> A) : keeps P (mgets f).
Proof. by intros s Hs. Qed.

Lemma keeps_lift {A} (o : option A) : keeps P (mlift o).
Proof. intros s Hs. by destruct o. Qed.

Lemma keeps_modify f : (forall s, P s -> P (f s)) -> keeps P (mmodify f).
Proof. intros Hf s Hs. by apply Hf. Qed.

Lemma keeps_bind {A B} (m : M S A) (k : A -> M S B) :
  keeps P m -> (forall a, keeps P (k a)) -> keeps P (mbind m k).
Proof.
  intros Hm Hk s Hs. specialize (Hm s Hs). unfold mbind.
  destruct (m s) as [a s'|e s'|]; [by apply Hk | done | done].
Qed.

Lemma keeps_if {A} (b : bool) (m k : M S A) :
  keeps P m -> keeps P k -> keeps P (if b then m else k).
Proof. by destruct b. Qed.
End keeps.

Create HintDb keeps.
#[export] Hint Resolve keeps_ret keeps_throw keeps_fault keeps_gets keeps_lift : keeps.

(** Goes through the binds, conditionals and pairs of an operation. *)
Ltac keeps_step :=
  lazymatch goal with
  | |- forall _, _ => intro
  | |- keeps _ (mbind _ _) => apply keeps_bind
  | |- keeps _ (if _ then _ else _) => apply keeps_if
  | |- keeps _ (let '(_, _) := ?x in _) => destruct x
  | |- keeps _ (match ?x with _ => _ end) => destruct x
  | |- keeps _ (mmodify _) => apply keeps_modify
  | |- keeps _ _ => solve [auto with keeps]
  end.
Ltac keeps_auto := repeat keeps_step.

(** ** Total correctness *)

(** [m] returns, neither throws nor leaves a buffer, and its result and the
    object it leaves satisfy [Q]. *)
Definition wp {S A} (m : M S A) (Q : A -> S -> Prop) (s : S) : Prop :=
  match m s with
  | Ret a s' => Q a s'
  | Throw _ _ | Fault => False
  end.

Section wp.
Context {S : Type}.

Lemma wp_ret {A} (a : A) (Q : A -> S -> Prop) s : Q a s -> wp (mret a) Q s.
Proof. done. Qed.

Lemma wp_gets {A} (f : S -> A) (Q : A -> S -> Prop) s : Q (f s) s -> wp (mgets f) Q s.
Proof. done. Qed.

Lemma wp_modify f (Q : unit -> S -> Prop) s : Q tt (f s) -> wp (mmodify f) Q s.
Proof. done. Qed.

Lemma wp_lift {A} (o : option A) (a : A) (Q : A -> S -> Prop) s :
  o = Some a -> Q a s -> wp (mlift o) Q s.
Proof. by intros ->. Qed.

Lemma wp_bind {A B} (m : M S A) (k : A -> M S B) (Q : B -> S -> Prop) s :
  wp m (fun a => wp (k a) Q) s -> wp (mbind m k) Q s.
Proof. unfold wp, mbind. by destruct (m s). Qed.

Lemma wp_mono {A} (m : M S A) (Q Q' : A -> S -> Prop) s :
  wp m Q s -> (forall a s', Q a s' -> Q' a s') -> wp m Q' s.
Proof. unfold wp. destruct (m s); auto. Qed.

Lemma wp_if {A} (b : bool) (m k : M S A) (Q : A -> S -> Prop) s :
  (b = true -> wp m Q s) -> (b = false -> wp k Q s) -> wp (if b then m else k) Q s.
Proof. destruct b; auto. Qed.

Lemma wp_ret_inv {A} (m : M S A) (Q : A -> S -> Prop) s :
  wp m Q s -> exists a s', m s = Ret a s' /\ Q a s'.
Proof. unfold wp. destruct (m s) as [a s'| |]; [|done|done]. by exists a, s'. Qed.
End wp.

Lemma wp_assoc {S A B C} (m : M S A) (k : A -> M S B) (k' : B -> M S C) Q s :
  wp (mbind m (fun a => mbind (k a) k')) Q s -> wp (mbind (mbind m k) k') Q s.
Proof. unfold wp. by rewrite mbind_assoc. Qed.

(** Goes through an operation up to the accesses whose bounds must be
    proved. *)
Ltac wp_step :=
  lazymatch goal with
  | |- wp (mbind _ _) _ _ => apply wp_bind
  | |- wp (mret _) _ _ => apply wp_ret
  | |- wp (mgets _) _ _ => apply wp_gets
  | |- wp (mmodify _) _ _ => apply wp_modify
  | |- wp (if _ then _ else _) _ _ => apply wp_if; intro
  end.
Ltac wp_auto := repeat wp_step.

(** ** Safety *)

(** On an object that satisfies [P], [m] returns, and leaves one that
    satisfies [P]. *)
Definition safe {S A} (P : S -> Prop) (m : M S A) : Prop :=
  forall s, P s -> wp m (fun _ => P) s.

Section safe.
Context {S : Type} (P : S -> Prop).

Lemma safe_ret {A} (a : A) : safe P (mret a).
Proof. by intros s Hs. Qed.

Lemma safe_gets {A} (f : S -> A) : safe P (mgets f).
Proof. by intros s Hs. Qed.

Lemma safe_modify f : (forall s, P s -> P (f s)) -> safe P (mmodify f).
Proof. intros Hf s Hs. by apply Hf. Qed.

Lemma safe_lift {A} (o : option A) : is_Some o -> safe P (mlift o).
Proof. by intros [a ->] s Hs. Qed.

Lemma safe_bind {A B} (m : M S A) (k : A -> M S B) :
  safe P m -> (forall a, safe P (k a)) -> safe P (mbind m k).
Proof.
  intros Hm Hk s Hs. apply wp_bind. apply (wp_mono _ _ _ _ (Hm s Hs)). intros a s' Hs'. by apply Hk.
Qed.

Lemma safe_if {A} (b : bool) (m k : M S A) :
  (b = true -> safe P m) -> (b = false -> safe P k) -> safe P (if b then m else k).
Proof. destruct b; auto. Qed.

Lemma safe_wp {A} (m : M S A) (Q : A -> S -> Prop) s :
  safe P m -> P s -> (forall a s', P s' -> Q a s') -> wp m Q s.
Proof. intros Hm Hs HQ. apply (wp_mono _ _ _ _ (Hm s Hs)). auto. Qed.

(** Runs a safe operation first. *)
Lemma wp_safe_bind {A B} (m : M S A) (k : A -> M S B) Q s :
  safe P m -> P s -> (forall a s', P s' -> wp (k a) Q s') -> wp (mbind m k) Q s.
Proof. intros Hm Hs Hk. by apply wp_bind, (safe_wp _ _ _ Hm Hs). Qed.
End safe.

(** [returns P m Q]: [m] is safe, and its result satisfies [Q]. *)
Definition returns {S A} (P : S -> Prop) (m : M S A) (Q : A -> Prop) : Prop :=
  forall s, P s -> wp m (fun a s' => P s' /\ Q a) s.

Section returns.
Context {S : Type} (P : S -> Prop).

Lemma returns_ret {A} (a : A) (Q : A -> Prop) : Q a -> returns P (mret a) Q.
Proof. by intros HQ s Hs. Qed.

Lemma returns_safe {A} (m : M S A) Q : returns P m Q -> safe P m.
Proof. intros Hm s Hs. apply (wp_mono _ _ _ _ (Hm s Hs)). by intros a s' []. Qed.

Lemma safe_returns {A} (m : M S A) : safe P m -> returns P m (fun _ => True).
Proof. intros Hm s Hs. apply (wp_mono _ _ _ _ (Hm s Hs)). by intros a s' ?. Qed.

Lemma returns_mono {A} (m : M S A) (Q R : A -> Prop) :
  returns P m Q -> (forall a, Q a -> R a) -> returns P m R.
Proof. intros Hm HQ s Hs. apply (wp_mono _ _ _ _ (Hm s Hs)). intros a s' []. auto. Qed.

Lemma safe_bind_val {A B} (m : M S A) Q (k : A -> M S B) :
  returns P m Q -> (forall a, Q a -> safe P (k a)) -> safe P (mbind m k).
Proof.
  intros Hm Hk s Hs. apply wp_bind. apply (wp_mono _ _ _ _ (Hm s Hs)). intros a s' [Hs' HQ].
  by apply Hk.
Qed.

Lemma returns_bind {A B} (m : M S A) Q (k : A -> M S B) (R : B -> Prop) :
  returns P m Q -> (forall a, Q a -> returns P (k a) R) -> returns P (mbind m k) R.
Proof.
  intros Hm Hk s Hs. apply wp_bind. apply (wp_mono _ _ _ _ (Hm s Hs)). intros a s' [Hs' HQ].
  by apply Hk.
Qed.

Lemma returns_bind_safe {A B} (m : M S A) (k : A -> M S B) (R : B -> Prop) :
  safe P m -> (forall a, returns P (k a) R) -> returns P (mbind m k) R.
Proof. intros Hm Hk. apply (returns_bind _ (fun _ => True)); [by apply safe_returns|auto]. Qed.

Lemma returns_if {A} (b : bool) (m k : M S A) Q :
  (b = true -> returns P m Q) -> (b = false -> returns P k Q) -> returns P (if b then m else k) Q.
Proof. destruct b; auto. Qed.
End returns.

Lemma wp_keeps {S A} (P : S -> Prop) (m : M S A) Q s :
  wp m Q s -> keeps P m -> P s -> wp m (fun a s' => Q a s' /\ P s') s.
Proof. unfold wp, keeps. intros Hm Hk Hs. specialize (Hk s Hs). by destruct (m s). Qed.

Create HintDb safe.
#[export] Hint Resolve safe_ret safe_gets : safe.

(** Goes through the binds and conditionals of an operation. *)
Ltac safe_step :=
  lazymatch goal with
  | |- forall _, _ => intro
  | |- safe _ (mbind _ _) => apply safe_bind
  | |- safe _ (if _ then _ else _) => apply safe_if; intro
  | |- safe _ (let '(_, _) := ?x in _) => destruct x
  | |- safe _ (match ?x with _ => _ end) => destruct x eqn:?
  | |- safe _ _ => solve [auto with safe]
  end.
Ltac safe_auto := repeat safe_step.

Create HintDb defined.

(** ** Definedness *)

(** [m] does as [k] wherever it does not fault. *)
Definition defined_le {S A} (m k : M S A) : Prop := forall s, m s = Fault \/ m s = k s.

Section defined_le.
Context {S : Type}.

Lemma defined_refl {A} (m : M S A) : defined_le m m.
Proof. intros s. by right. Qed.

Lemma defined_bind {A B} (m m' : M S A) (k k' : A -> M S B) :
  defined_le m m' -> (forall a, defined_le (k a) (k' a)) -> defined_le (mbind m k) (mbind m' k').
Proof.
  intros Hm Hk s. unfold mbind. destruct (Hm s) as [-> | ->]; [by left|].
  destruct (m' s); [apply Hk|by right..].
Qed.

Lemma defined_lift {A} (o o' : option A) : o = None \/ o = o' -> defined_le (S := S) (mlift o) (mlift o').
Proof. intros [-> | ->] s; [by left|by right]. Qed.

Lemma defined_if {A} (b : bool) (m m' k k' : M S A) :
  defined_le m m' -> defined_le k k' -> defined_le (if b then m else k) (if b then m' else k').
Proof. by destruct b. Qed.

Lemma defined_ret {A} (m k : M S A) s a s' : defined_le m k -> m s = Ret a s' -> k s = Ret a s'.
Proof. intros Hm E. destruct (Hm s) as [F|F]; congruence. Qed.
End defined_le.

(** Reads of a longer buffer. *)
Lemma lookup_longer {A} (p q : list A) i : p `prefix_of` q -> p !! i = None \/ p !! i = q !! i.
Proof. intros [t ->]. destruct (p !! i) as [x|] eqn:E; [right; symmetry; by apply lookup_app_l_Some|by left]. Qed.

Lemma drop_longer {A} (p q : list A) n : p `prefix_of` q -> drop n p `prefix_of` drop n q.
Proof. intros [t ->]. rewrite drop_app. by eexists. Qed.

Lemma read_at_longer (p q : list Z) off n :
  p `prefix_of` q -> read_at p off n = None \/ read_at p off n = read_at q off n.
Proof.
  intros [t ->]. unfold read_at. destruct ((0 <=? off) && (0 <=? n) && (off + n <=? zlen p)) eqn:E; [|by left].
  right. rewrite zlen_app. pose proof (zlen_nonneg t). destruct (_ && _ && (off + n <=? zlen p + zlen t)) eqn:E'; [|lia].
  f_equal. unfold ztake, zdrop, zlen in *. rewrite drop_app_le by lia. rewrite take_app_le; [done|].
  rewrite length_drop. lia.
Qed.

#[export] Hint Resolve defined_lift lookup_longer read_at_longer drop_longer : defined.

Ltac defined_auto :=
  repeat lazymatch goal with
  | |- forall _, _ => intro
  | |- defined_le ?m ?m => apply defined_refl
  | |- defined_le (mbind _ _) (mbind _ _) => apply defined_bind
  | |- defined_le (if _ then _ else _) (if _ then _ else _) => apply defined_if
  end; auto with defined.
