(* ===== verification/CxUtils.v ===== *)
(** The byte and word helpers of [src/bolos/cx_utils.c] and [cx_utils.h],
    built with [OS_LITTLE_ENDIAN] and [NATIVE_64BITS]: rotations, byte
    swaps, big-endian fields of a buffer, byte reversal in place. *)

From S2P Require Import Prelude.

(** * Definitions *)

(** ** 32-bit and 64-bit manipulation *)

Definition cx_rotl (x n : Z) : Z :=
  Z.lor (w32 (Z.shiftl x n)) (Z.shiftr x (32 - n)).
Definition cx_rotr (x n : Z) : Z :=
  Z.lor (Z.shiftr x n) (w32 (Z.shiftl x (32 - n))).
Definition cx_shr (x n : Z) : Z := Z.shiftr x n.

Definition cx_rotr64 (x n : Z) : Z :=
  Z.lor (Z.shiftr x n) (w64 (Z.shiftl x (64 - n))).
Definition cx_rotl64 (x n : Z) : Z :=
  Z.lor (w64 (Z.shiftl x n)) (Z.shiftr x (64 - n)).
Definition cx_shr64 (x n : Z) : Z := Z.shiftr x n.

Definition spec_cx_swap_uint32 (v : Z) : Z :=
  Z.lor (Z.lor (Z.lor (Z.land (w32 (Z.shiftl v 24)) 0xFF000000)
                      (Z.land (w32 (Z.shiftl v 8)) 0x00FF0000))
               (Z.land (Z.shiftr v 8) 0x0000FF00))
        (Z.land (Z.shiftr v 24) 0x000000FF).

Definition spec_cx_swap_buffer32 (v : list Z) : list Z :=
  map spec_cx_swap_uint32 v.

Definition spec_cx_swap_uint64 (v : Z) : Z :=
  let h := w32 (Z.land (Z.shiftr v 32) 0xFFFFFFFF) in
  let l := w32 (Z.land v 0xFFFFFFFF) in
  let l := spec_cx_swap_uint32 l in
  let h := spec_cx_swap_uint32 h in
  Z.lor (w64 (Z.shiftl l 32)) h.

Definition spec_cx_swap_buffer64 (v : list Z) : list Z :=
  map spec_cx_swap_uint64 v.

(** The words a [uint32_t *] (resp. [uint64_t *]) cast of a byte buffer
    gives on the little-endian target, and the bytes of such words. *)
Definition load_words32 (b : list Z) : list Z := map le_combine (chunks 4 b).
Definition store_words32 (w : list Z) : list Z := concat (map (le_split 4) w).
Definition load_words64 (b : list Z) : list Z := map le_combine (chunks 8 b).
Definition store_words64 (w : list Z) : list Z := concat (map (le_split 8) w).

(** ** Big-endian fields *)

Definition U2BE (buf : list Z) (off : Z) : option Z :=
  match buf !! Z.to_nat off, buf !! Z.to_nat (off + 1) with
  | Some b0, Some b1 => Some (w16 (Z.lor (Z.shiftl b0 8) b1))
  | _, _ => None
  end.

Definition U4BE (buf : list Z) (off : Z) : option Z :=
  match buf !! Z.to_nat off, buf !! Z.to_nat (off + 1),
        buf !! Z.to_nat (off + 2), buf !! Z.to_nat (off + 3) with
  | Some b0, Some b1, Some b2, Some b3 =>
      Some (Z.lor (Z.lor (Z.lor (w32 (Z.shiftl b0 24)) (Z.shiftl b1 16))
                         (Z.shiftl b2 8)) b3)
  | _, _, _, _ => None
  end.

Definition U2BE_ENCODE (buf : list Z) (off value : Z) : option (list Z) :=
  write_at buf off [Z.land (Z.shiftr value 8) 0xFF; Z.land value 0xFF].

Definition U4BE_ENCODE (buf : list Z) (off value : Z) : option (list Z) :=
  write_at buf off [Z.land (Z.shiftr value 24) 0xFF;
                    Z.land (Z.shiftr value 16) 0xFF;
                    Z.land (Z.shiftr value 8) 0xFF; Z.land value 0xFF].

Definition U4LE_ENCODE (buf : list Z) (off value : Z) : option (list Z) :=
  write_at buf off [Z.land value 0xFF; Z.land (Z.shiftr value 8) 0xFF;
                    Z.land (Z.shiftr value 16) 0xFF;
                    Z.land (Z.shiftr value 24) 0xFF].

(** ** Byte buffers *)

(** [for (i = 0; i < len; i++) buf1[i] ^= buf2[i]] *)
Definition cx_memxor (buf1 buf2 : list Z) (len : Z) : option (list Z) :=
  match read_at buf1 0 len, read_at buf2 0 len with
  | Some a, Some b => write_at buf1 0 (zip_with Z.lxor a b)
  | _, _ => None
  end.

(** [t = v[i]; v[i] = v[j]; v[j] = t;] *)
Definition swap_at (v : list Z) (i j : nat) : option (list Z) :=
  match v !! i, v !! j with
  | Some a, Some b => Some (<[j := a]> (<[i := b]> v))
  | _, _ => None
  end.

(** The loop of [be2le]: the body moves [i] and [j] and so does the [for]
    header, which also counts [len] down. *)
Fixpoint be2le_loop (len : nat) (i j : Z) (v : list Z) : option (list Z) :=
  match len with
  | O => Some v
  | S len' =>
      if (i <? 0) || (j <? 0) then None else
      match swap_at v (Z.to_nat i) (Z.to_nat j) with
      | Some v' => be2le_loop len' (i + 1 + 1) (j - 1 - 1) v'
      | None => None
      end
  end.

Definition be2le (v : list Z) : option (list Z) :=
  be2le_loop (Nat.div (length v) 2) 0 (zlen v - 1) v.

Definition le2be (v : list Z) : option (list Z) := be2le v.

(** [while (i < j)] swap, moving [i] up and [j] down. *)
Fixpoint cx_swap_bytes_loop (fuel i j : nat) (b : list Z) : option (list Z) :=
  match fuel with
  | O => None
  | S fuel' =>
      if Nat.ltb i j then
        match swap_at b i j with
        | Some b' => cx_swap_bytes_loop fuel' (i + 1) (j - 1) b'
        | None => None
        end
      else Some b
  end.

Definition cx_swap_bytes (buffer : list Z) : option (list Z) :=
  if Nat.leb (length buffer) 1 then Some buffer
  else cx_swap_bytes_loop (S (length buffer)) 0 (length buffer - 1) buffer.

(** * Lemmas *)

(** ** Bits of words *)

Lemma w32_bits x i : 0 <= i < 32 -> Z.testbit (w32 x) i = Z.testbit x i.
Proof. intros. apply (Z.mod_pow2_bits_low x 32 i). lia. Qed.

Lemma w32_high x i : 32 <= i -> Z.testbit (w32 x) i = false.
Proof. intros. apply (Z.mod_pow2_bits_high x 32 i). lia. Qed.

Lemma w64_bits x i : 0 <= i < 64 -> Z.testbit (w64 x) i = Z.testbit x i.
Proof. intros. apply (Z.mod_pow2_bits_low x 64 i). lia. Qed.

Lemma w64_high x i : 64 <= i -> Z.testbit (w64 x) i = false.
Proof. intros. apply (Z.mod_pow2_bits_high x 64 i). lia. Qed.

Lemma small_high x n i : 0 <= x < 2 ^ n -> 0 <= n <= i -> Z.testbit x i = false.
Proof.
  intros Hx Hi. rewrite <- (Z.mod_small x (2 ^ n)) by done.
  by apply Z.mod_pow2_bits_high.
Qed.

Lemma word32_high x i : is_w32 x -> 32 <= i -> Z.testbit x i = false.
Proof. intros. by apply (small_high x 32). Qed.

Lemma word64_high x i : is_w64 x -> 64 <= i -> Z.testbit x i = false.
Proof. intros. by apply (small_high x 64). Qed.

Lemma bits_lt x n :
  0 <= n -> 0 <= x -> (forall i, n <= i -> Z.testbit x i = false) -> x < 2 ^ n.
Proof.
  intros Hn Hx Hb. destruct (decide (x < 2 ^ n)) as [|H]; [done|].
  assert (x <> 0) by (pose proof (Z.pow_pos_nonneg 2 n); lia).
  pose proof (Z.bit_log2 x ltac:(lia)) as Hl.
  rewrite Hb in Hl; [done|]. apply Z.log2_le_pow2; lia.
Qed.

Lemma w32_range x : is_w32 (w32 x).
Proof. apply Z.mod_pos_bound. lia. Qed.

Lemma w64_range x : is_w64 (w64 x).
Proof. apply Z.mod_pos_bound. lia. Qed.

Lemma w32_id x : is_w32 x -> w32 x = x.
Proof. apply Z.mod_small. Qed.

Lemma w64_id x : is_w64 x -> w64 x = x.
Proof. apply Z.mod_small. Qed.

Lemma is_w32_bits x :
  0 <= x -> (forall i, 32 <= i -> Z.testbit x i = false) -> is_w32 x.
Proof. intros. split; [done|]. by apply (bits_lt x 32). Qed.

Lemma is_w64_bits x :
  0 <= x -> (forall i, 64 <= i -> Z.testbit x i = false) -> is_w64 x.
Proof. intros. split; [done|]. by apply (bits_lt x 64). Qed.

Lemma is_w64_0 : is_w64 0.
Proof. unfold is_w64. lia. Qed.

Lemma lxor_w32 x y : is_w32 x -> is_w32 y -> is_w32 (Z.lxor x y).
Proof.
  intros Hx Hy. apply is_w32_bits.
  - unfold is_w32 in *. apply Z.lxor_nonneg. lia.
  - intros. rewrite Z.lxor_spec, !word32_high by done. done.
Qed.

Lemma lxor_w64 x y : is_w64 x -> is_w64 y -> is_w64 (Z.lxor x y).
Proof.
  intros Hx Hy. apply is_w64_bits.
  - unfold is_w64 in *. apply Z.lxor_nonneg. lia.
  - intros. rewrite Z.lxor_spec, !word64_high by done. done.
Qed.

Lemma rotl_bits x n i :
  is_w32 x -> 0 < n < 32 -> 0 <= i < 32 ->
  Z.testbit (cx_rotl x n) i = Z.testbit x ((i - n) mod 32).
Proof.
  intros Hx Hn Hi. unfold cx_rotl.
  rewrite Z.lor_spec, w32_bits, Z.shiftl_spec, Z.shiftr_spec by lia.
  destruct (decide (n <= i)).
  - rewrite (Z.mod_small (i - n)) by lia.
    rewrite (word32_high x (i + (32 - n))) by (done || lia).
    apply orb_false_r.
  - rewrite (Z.testbit_neg_r x (i - n)) by lia. rewrite orb_false_l. f_equal.
    rewrite <- (Z.mod_add (i - n) 1 32), Z.mod_small; lia.
Qed.

Lemma rotr_bits x n i :
  is_w32 x -> 0 < n < 32 -> 0 <= i < 32 ->
  Z.testbit (cx_rotr x n) i = Z.testbit x ((i + n) mod 32).
Proof.
  intros Hx Hn Hi. unfold cx_rotr.
  rewrite Z.lor_spec, w32_bits, Z.shiftl_spec, Z.shiftr_spec by lia.
  destruct (decide (i + n < 32)).
  - rewrite (Z.mod_small (i + n)) by lia.
    rewrite (Z.testbit_neg_r x (i - (32 - n))) by lia. apply orb_false_r.
  - rewrite (word32_high x (i + n)) by (done || lia). rewrite orb_false_l. f_equal.
    replace (i + n) with (i - (32 - n) + 1 * 32) by lia.
    rewrite Z.mod_add, Z.mod_small; lia.
Qed.

Lemma rotl_range x n : is_w32 x -> 0 < n < 32 -> is_w32 (cx_rotl x n).
Proof.
  intros Hx Hn. apply is_w32_bits.
  - unfold cx_rotl. apply Z.lor_nonneg. split; [apply w32_range|].
    apply Z.shiftr_nonneg, Hx.
  - intros i Hi. unfold cx_rotl.
    rewrite Z.lor_spec, w32_high, Z.shiftr_spec, word32_high by (done || lia). done.
Qed.

Lemma rotr_range x n : is_w32 x -> 0 < n < 32 -> is_w32 (cx_rotr x n).
Proof.
  intros Hx Hn. apply is_w32_bits.
  - unfold cx_rotr. apply Z.lor_nonneg. split; [apply Z.shiftr_nonneg, Hx|].
    apply w32_range.
  - intros i Hi. unfold cx_rotr.
    rewrite Z.lor_spec, w32_high, Z.shiftr_spec, word32_high by (done || lia). done.
Qed.

Lemma rotr_eq_rotl x n : cx_rotr x n = cx_rotl x (32 - n).
Proof.
  unfold cx_rotr, cx_rotl. rewrite Z.lor_comm. do 2 f_equal. lia.
Qed.

(** ** Shifts, masks and disjoint unions as arithmetic *)

Lemma land_byte_mask x k :
  0 <= k -> Z.land x (255 * 2 ^ k) = (x / 2 ^ k) mod 256 * 2 ^ k.
Proof.
  intros Hk. rewrite <- !Z.shiftl_mul_pow2, <- Z.shiftr_div_pow2 by done.
  apply Z.bits_inj'. intros i Hi.
  rewrite Z.land_spec, !Z.shiftl_spec by done.
  destruct (decide (i < k)).
  - rewrite !(Z.testbit_neg_r _ (i - k)) by lia. apply andb_false_r.
  - change 255 with (Z.ones 8). change 256 with (2 ^ 8).
    rewrite <- Z.land_ones, Z.land_spec, Z.shiftr_spec by lia.
    by replace (i - k + k) with i by lia.
Qed.

Lemma lor_disjoint a b k :
  0 <= k -> 0 <= a < 2 ^ k -> Z.lor (b * 2 ^ k) a = b * 2 ^ k + a.
Proof.
  intros Hk Ha. assert (Z.land (b * 2 ^ k) a = 0) as H.
  { rewrite <- Z.shiftl_mul_pow2 by done. apply Z.bits_inj'. intros i Hi.
    rewrite Z.land_spec, Z.bits_0. destruct (decide (i < k)).
    - by rewrite Z.shiftl_spec_low by lia.
    - rewrite (small_high a k) by lia. apply andb_false_r. }
  by rewrite Z.add_nocarry_lxor, Z.lxor_lor by done.
Qed.

Lemma lor_bytes a b : is_byte b -> Z.lor (Z.shiftl a 8) b = 256 * a + b.
Proof.
  intros Hb. rewrite Z.shiftl_mul_pow2 by done.
  rewrite (lor_disjoint b a 8); [lia | done | done].
Qed.

(** The swap of a 32-bit word reverses its four bytes. *)
Lemma swap_uint32_combine a b c d :
  is_byte a -> is_byte b -> is_byte c -> is_byte d ->
  spec_cx_swap_uint32 (le_combine [a; b; c; d]) = le_combine [d; c; b; a].
Proof.
  unfold is_byte. intros. unfold spec_cx_swap_uint32. simpl le_combine.
  set (v := a + 256 * _).
  change 4278190080 with (255 * 2 ^ 24). change 16711680 with (255 * 2 ^ 16).
  change 65280 with (255 * 2 ^ 8). change 255 with (255 * 2 ^ 0) at 4.
  rewrite !land_byte_mask, !Z.shiftr_div_pow2, !Z.shiftl_mul_pow2 by done.
  assert (w32 (v * 2 ^ 24) / 2 ^ 24 = a) as -> by (unfold w32, v; div_mod_lia).
  assert ((w32 (v * 2 ^ 8) / 2 ^ 16) mod 256 = b) as ->
    by (unfold w32, v; div_mod_lia).
  assert ((v / 2 ^ 8 / 2 ^ 8) mod 256 = c) as -> by (unfold v; div_mod_lia).
  assert ((v / 2 ^ 24 / 2 ^ 0) mod 256 = d) as -> by (unfold v; div_mod_lia).
  rewrite (Z.mod_small a) by lia. rewrite <- !Z.lor_assoc.
  rewrite (lor_disjoint (d * 2 ^ 0) c 8) by lia.
  rewrite (lor_disjoint (c * 2 ^ 8 + d * 2 ^ 0) b 16) by lia.
  rewrite (lor_disjoint _ a 24) by lia. lia.
Qed.

Lemma list4_eq {A} (l : list A) :
  length l = 4%nat -> exists a b c d, l = [a; b; c; d].
Proof.
  destruct l as [|a [|b [|c [|d [|]]]]]; try discriminate. by repeat eexists.
Qed.

Lemma swap_uint32_be l :
  bytes_ok l -> length l = 4%nat -> spec_cx_swap_uint32 (le_combine l) = be_combine l.
Proof.
  intros Hl (a & b & c & d & ->)%list4_eq.
  inv_bytes.
  by apply swap_uint32_combine.
Qed.

Lemma le_combine_app l k :
  le_combine (l ++ k) = le_combine l + 256 ^ zlen l * le_combine k.
Proof.
  induction l as [|b l IH]; cbn [app le_combine]; [rewrite (@zlen_nil Z); lia|].
  rewrite IH, zlen_cons, Z.pow_add_r by (pose proof (zlen_nonneg l); lia). lia.
Qed.

Lemma bytes_ok_rev l : bytes_ok l -> bytes_ok (rev l).
Proof. apply Forall_rev. Qed.

Lemma be_combine_bound l : bytes_ok l -> 0 <= be_combine l < 256 ^ zlen l.
Proof.
  intros Hl. pose proof (le_combine_bound _ (bytes_ok_rev _ Hl)) as B.
  unfold zlen in *. by rewrite length_rev in B.
Qed.

(** The 64-bit swap composes two 32-bit swaps: all eight bytes reversed. *)
Lemma swap_uint64_be l :
  bytes_ok l -> length l = 8%nat -> spec_cx_swap_uint64 (le_combine l) = be_combine l.
Proof.
  intros Hl Hn. rewrite <- (take_drop 4 l) in Hl |- *.
  assert (length (take 4 l) = 4%nat) as Hlo by (rewrite length_take; lia).
  assert (length (drop 4 l) = 4%nat) as Hhi by (rewrite length_drop; lia).
  apply Forall_app in Hl as [H1 H2].
  revert H1 H2 Hlo Hhi. generalize (take 4 l) (drop 4 l). intros lo hi H1 H2 Hlo Hhi.
  pose proof (le_combine_bound _ H1) as B1. pose proof (le_combine_bound _ H2) as B2.
  unfold zlen in B1, B2. rewrite Hlo in B1. rewrite Hhi in B2.
  change (256 ^ Z.of_nat 4) with 4294967296 in *.
  unfold spec_cx_swap_uint64, be_combine. rewrite rev_app_distr, !le_combine_app.
  unfold zlen. rewrite length_rev, Hlo, Hhi. change (256 ^ Z.of_nat 4) with (2 ^ 32).
  change 4294967295 with (Z.ones 32).
  rewrite !Z.land_ones, Z.shiftr_div_pow2 by done.
  replace (w32 (((le_combine lo + 2 ^ 32 * le_combine hi) / 2 ^ 32) mod 2 ^ 32))
    with (le_combine hi) by (unfold w32; div_mod_lia).
  replace (w32 ((le_combine lo + 2 ^ 32 * le_combine hi) mod 2 ^ 32))
    with (le_combine lo) by (unfold w32; div_mod_lia).
  rewrite !swap_uint32_be by done.
  pose proof (be_combine_bound hi H2) as Bh. pose proof (be_combine_bound lo H1) as Bl.
  unfold zlen in Bh, Bl. rewrite Hhi in Bh. rewrite Hlo in Bl.
  fold (be_combine lo) (be_combine hi).
  rewrite Z.shiftl_mul_pow2 by done.
  replace (w64 (be_combine lo * 2 ^ 32)) with (be_combine lo * 2 ^ 32)
    by (unfold w64; rewrite Z.mod_small; lia).
  rewrite lor_disjoint; lia.
Qed.

(** ** Buffers seen as words *)

Lemma map_ext_Forall {A B} (P : A -> Prop) (f g : A -> B) l :
  Forall P l -> (forall x, P x -> f x = g x) -> map f l = map g l.
Proof. intros H Hfg. induction H; simpl; [done|]. by rewrite Hfg, IHForall. Qed.

Lemma map_id_Forall {A} (P : A -> Prop) (f : A -> A) l :
  Forall P l -> (forall x, P x -> f x = x) -> map f l = l.
Proof. intros H Hf. rewrite <- (map_id l) at 2. by apply (map_ext_Forall P). Qed.

Lemma chunks_bytes n l : bytes_ok l -> Forall bytes_ok (chunks n l).
Proof. apply pieces_bytes. Qed.

(** Loading native words and swapping them reads big-endian words. *)
Lemma load_swap_be32 b :
  bytes_ok b ->
  spec_cx_swap_buffer32 (load_words32 b) = map be_combine (chunks 4 b).
Proof.
  intros Hb. unfold spec_cx_swap_buffer32, load_words32. rewrite map_map.
  apply (map_ext_Forall (fun p => bytes_ok p /\ length p = 4%nat)).
  - apply Forall_and. split; [by apply chunks_bytes | apply chunks_Forall_length].
  - intros p [Hp Hl]. by apply swap_uint32_be.
Qed.

Lemma load_swap_be64 b :
  bytes_ok b ->
  spec_cx_swap_buffer64 (load_words64 b) = map be_combine (chunks 8 b).
Proof.
  intros Hb. unfold spec_cx_swap_buffer64, load_words64. rewrite map_map.
  apply (map_ext_Forall (fun p => bytes_ok p /\ length p = 8%nat)).
  - apply Forall_and. split; [by apply chunks_bytes | apply chunks_Forall_length].
  - intros p [Hp Hl]. by apply swap_uint64_be.
Qed.

Lemma chunks_length {A} n (l : list A) : length (chunks n l) = (length l / n)%nat.
Proof. apply pieces_length. Qed.

Lemma chunks_take {A} k n (l : list A) :
  (0 < n)%nat -> (k * n <= length l)%nat -> chunks n (take (k * n) l) = take k (chunks n l).
Proof.
  intros Hn Hl. rewrite <- (take_drop (k * n) l) at 2.
  rewrite (chunks_app k) by (rewrite ?length_take; lia).
  rewrite take_app_length'; [done|]. rewrite chunks_length, length_take.
  rewrite Nat.min_l by lia. symmetry. by apply Nat.div_mul; lia.
Qed.

Lemma be_words32 b : bytes_ok b -> Forall is_w32 (map be_combine (chunks 4 b)).
Proof.
  intros Hb. apply Forall_map. pose proof (chunks_bytes 4 b Hb) as Hc.
  pose proof (chunks_Forall_length 4 b) as Hl. rewrite Forall_forall in *.
  intros l Hin. specialize (Hc l Hin). specialize (Hl l Hin). simpl in Hl.
  pose proof (be_combine_bound l Hc) as H. unfold zlen in H. rewrite Hl in H. exact H.
Qed.

Lemma be_words64 b : bytes_ok b -> Forall is_w64 (map be_combine (chunks 8 b)).
Proof.
  intros Hb. apply Forall_map. pose proof (chunks_bytes 8 b Hb) as Hc.
  pose proof (chunks_Forall_length 8 b) as Hl. rewrite Forall_forall in *.
  intros l Hin. specialize (Hc l Hin). specialize (Hl l Hin). simpl in Hl.
  pose proof (be_combine_bound l Hc) as H. unfold zlen in H. rewrite Hl in H. exact H.
Qed.

Lemma load_words64_ok b : bytes_ok b -> Forall is_w64 (load_words64 b).
Proof.
  intros Hb. apply Forall_map. pose proof (chunks_bytes 8 b Hb) as Hc.
  pose proof (chunks_Forall_length 8 b) as Hl. rewrite Forall_forall in *.
  intros l Hin. specialize (Hc l Hin). specialize (Hl l Hin). simpl in Hl.
  pose proof (le_combine_bound l Hc) as H. unfold zlen in H. rewrite Hl in H. exact H.
Qed.

Lemma concat_split_length k w : length (concat (map (le_split k) w)) = (length w * k)%nat.
Proof.
  induction w as [|x w IH]; simpl; [done|].
  by rewrite length_app, le_split_length, IH.
Qed.

Lemma chunks_concat_split k w :
  (0 < k)%nat -> chunks k (concat (map (le_split k) w)) = map (le_split k) w.
Proof.
  intros Hk. induction w as [|x w IH]; simpl; [by apply chunks_short|].
  rewrite (chunks_app 1) by (rewrite ?le_split_length; lia).
  rewrite chunks_one, IH by (rewrite ?le_split_length; done). done.
Qed.

Lemma load_store32 w : Forall is_w32 w -> load_words32 (store_words32 w) = w.
Proof.
  intros Hw. unfold load_words32, store_words32.
  rewrite chunks_concat_split, map_map by lia.
  apply (map_id_Forall is_w32); [done|]. intros x Hx.
  rewrite le_combine_split. by apply Z.mod_small.
Qed.

Lemma load_store64 w : Forall is_w64 w -> load_words64 (store_words64 w) = w.
Proof.
  intros Hw. unfold load_words64, store_words64.
  rewrite chunks_concat_split, map_map by lia.
  apply (map_id_Forall is_w64); [done|]. intros x Hx.
  rewrite le_combine_split. by apply Z.mod_small.
Qed.

Lemma store32_length w : length (store_words32 w) = (length w * 4)%nat.
Proof. apply concat_split_length. Qed.

Lemma store64_length w : length (store_words64 w) = (length w * 8)%nat.
Proof. apply concat_split_length. Qed.

(** A swapped word stored in memory is the big-endian encoding of the word. *)
Lemma store_swap_be32 x :
  is_w32 x -> le_split 4 (spec_cx_swap_uint32 x) = be_split 4 x.
Proof.
  intros Hx. assert (x = le_combine (le_split 4 x)) as Hx'.
  { rewrite le_combine_split. symmetry. by apply Z.mod_small. }
  rewrite Hx' at 1. rewrite swap_uint32_be by (apply le_split_bytes || done).
  apply le_split_combine; [|done]. apply bytes_ok_rev, le_split_bytes.
Qed.

Lemma store_swap_be64 x :
  is_w64 x -> le_split 8 (spec_cx_swap_uint64 x) = be_split 8 x.
Proof.
  intros Hx. assert (x = le_combine (le_split 8 x)) as Hx'.
  { rewrite le_combine_split. symmetry. by apply Z.mod_small. }
  rewrite Hx' at 1. rewrite swap_uint64_be by (apply le_split_bytes || done).
  apply le_split_combine; [|done]. apply bytes_ok_rev, le_split_bytes.
Qed.

(** Swapped words are stored in big-endian order. *)
Lemma store_swap_words32 w :
  Forall is_w32 w ->
  store_words32 (spec_cx_swap_buffer32 w) = concat (map (be_split 4) w).
Proof.
  intros Hw. unfold store_words32, spec_cx_swap_buffer32. rewrite map_map. f_equal.
  apply (map_ext_Forall is_w32); [done|]. apply store_swap_be32.
Qed.

Lemma store_swap_words64 w :
  Forall is_w64 w ->
  store_words64 (spec_cx_swap_buffer64 w) = concat (map (be_split 8) w).
Proof.
  intros Hw. unfold store_words64, spec_cx_swap_buffer64. rewrite map_map. f_equal.
  apply (map_ext_Forall is_w64); [done|]. apply store_swap_be64.
Qed.

Lemma be_split_length n x : length (be_split n x) = n.
Proof. unfold be_split. by rewrite length_rev, le_split_length. Qed.

Lemma be_split_bytes n x : bytes_ok (be_split n x).
Proof. apply bytes_ok_rev, le_split_bytes. Qed.

Lemma concat_be_split_length k w :
  length (concat (map (be_split k) w)) = (length w * k)%nat.
Proof.
  induction w as [|x w IH]; simpl; [done|]. by rewrite length_app, be_split_length, IH.
Qed.

(** ** Fields of a buffer *)

Lemma U2BE_split buf off hi lo :
  0 <= off -> is_byte hi -> is_byte lo ->
  buf !! Z.to_nat off = Some hi -> buf !! Z.to_nat (off + 1) = Some lo ->
  U2BE buf off = Some (256 * hi + lo).
Proof.
  unfold is_byte. intros Hoff Hh Hl H1 H2. unfold U2BE. rewrite H1, H2.
  rewrite lor_bytes by done. unfold w16. by rewrite Z.mod_small by lia.
Qed.

Lemma U2BE_drop buf n off :
  0 <= off -> U2BE (drop n buf) off = U2BE buf (Z.of_nat n + off).
Proof.
  intros Ho. unfold U2BE. rewrite !lookup_drop.
  by replace (n + Z.to_nat off)%nat with (Z.to_nat (Z.of_nat n + off)) by lia;
    replace (n + Z.to_nat (off + 1))%nat with (Z.to_nat (Z.of_nat n + off + 1)) by lia.
Qed.

Lemma write_at_lookup {A} (dst : list A) off src dst' i x :
  write_at dst off src = Some dst' -> src !! i = Some x ->
  dst' !! (Z.to_nat off + i)%nat = Some x.
Proof.
  unfold write_at. destruct (_ && _) eqn:E; [|done]. intros [= <-] Hi.
  assert (length (ztake off dst) = Z.to_nat off) as Hl.
  { unfold ztake. rewrite length_take. unfold zlen in E. lia. }
  rewrite lookup_app_r by lia. rewrite Hl, Nat.add_comm, Nat.add_sub.
  apply lookup_lt_Some in Hi as Hlt. by rewrite lookup_app_l.
Qed.

Lemma bytes_of_u16 v :
  0 <= v < 65536 ->
  Z.land (Z.shiftr v 8) 255 = v / 256 /\ Z.land v 255 = v mod 256.
Proof.
  intros. change 255 with (Z.ones 8).
  rewrite !Z.land_ones, Z.shiftr_div_pow2 by done. split; [|done].
  rewrite Z.mod_small; [done|]. change (2 ^ 8) with 256. div_mod_lia.
Qed.

Lemma U2BE_encode_decode buf off v buf' :
  0 <= off -> 0 <= v < 65536 ->
  U2BE_ENCODE buf off v = Some buf' -> U2BE buf' off = Some v.
Proof.
  intros Hoff Hv Hw. unfold U2BE_ENCODE in Hw.
  destruct (bytes_of_u16 v Hv) as [E1 E2]. rewrite E1, E2 in Hw.
  erewrite U2BE_split with (hi := v / 256) (lo := v mod 256).
  - f_equal. div_mod_lia.
  - done.
  - unfold is_byte. div_mod_lia.
  - unfold is_byte. div_mod_lia.
  - rewrite <- (Nat.add_0_r (Z.to_nat off)). by eapply write_at_lookup.
  - replace (Z.to_nat (off + 1)) with (Z.to_nat off + 1)%nat by lia.
    by eapply write_at_lookup.
Qed.

(** ** Reversal in place *)

Lemma swap_at_lookup v i j v' k :
  swap_at v i j = Some v' -> (k < length v)%nat ->
  v' !! k = if decide (k = j) then v !! i else
            if decide (k = i) then v !! j else v !! k.
Proof.
  unfold swap_at. destruct (v !! i) as [a|] eqn:Ei; [|done].
  destruct (v !! j) as [b|] eqn:Ej; [|done]. intros [= <-] Hk.
  destruct (decide (k = j)) as [->|].
  - rewrite list_lookup_insert_eq; [done|]. by rewrite length_insert.
  - rewrite list_lookup_insert_ne by done.
    destruct (decide (k = i)) as [->|].
    + by rewrite list_lookup_insert_eq.
    + by rewrite list_lookup_insert_ne.
Qed.

Lemma swap_at_length v i j v' : swap_at v i j = Some v' -> length v' = length v.
Proof.
  unfold swap_at. destruct (v !! i); [|done]. destruct (v !! j); [|done].
  intros [= <-]. by rewrite !length_insert.
Qed.

Lemma swap_at_some v i j :
  (i < length v)%nat -> (j < length v)%nat -> exists v', swap_at v i j = Some v'.
Proof.
  intros Hi Hj. unfold swap_at.
  destruct (lookup_lt_is_Some_2 v i Hi) as [a ->].
  destruct (lookup_lt_is_Some_2 v j Hj) as [b ->]. by eexists.
Qed.

Lemma lookup_rev {A} (v : list A) k :
  (k < length v)%nat -> rev v !! k = v !! (length v - 1 - k)%nat.
Proof.
  intros Hk. rewrite rev_alt. change (rev_append v []) with (reverse v).
  rewrite reverse_lookup by done. f_equal. lia.
Qed.

(** The state of the [be2le] loop with [r] swaps left, for [2 * q] bytes. *)
Lemma be2le_loop_even q r v0 v :
  length v0 = (2 * q)%nat -> length v = length v0 -> (r <= q)%nat ->
  (forall k, (k < 2 * q)%nat ->
     v !! k = if decide ((k mod 2 = 0 /\ k < 2 * (q - r)) \/
                         (k mod 2 = 1 /\ 2 * r <= k))%nat
              then v0 !! (2 * q - 1 - k)%nat else v0 !! k) ->
  be2le_loop r (2 * Z.of_nat (q - r)) (2 * Z.of_nat r - 1) v = Some (rev v0).
Proof.
  intros Hlen. revert v. induction r as [|r IH]; intros v Hv Hr Hinv; simpl.
  - f_equal. apply list_eq_same_length with (n := (2 * q)%nat); try done;
      [by rewrite length_rev | by rewrite Hv |].
    intros k x y Hk Hx Hy. rewrite Hinv in Hx by done.
    rewrite lookup_rev, Hlen in Hy by lia.
    rewrite decide_True in Hx by div_mod_lia. congruence.
  - destruct (orb _ _) eqn:E; [lia|]. clear E.
    destruct (swap_at_some v (Z.to_nat (2 * Z.of_nat (q - S r)))
                (Z.to_nat (2 * Z.of_nat (S r) - 1))) as [v' Hs]; [lia..|].
    rewrite Hs.
    replace (2 * Z.of_nat (q - S r) + 1 + 1) with (2 * Z.of_nat (q - r)) by lia.
    replace (2 * Z.of_nat (S r) - 1 - 1 - 1) with (2 * Z.of_nat r - 1) by lia.
    apply IH; [by rewrite (swap_at_length _ _ _ _ Hs) | lia |].
    intros k Hk. rewrite (swap_at_lookup _ _ _ _ k Hs) by lia.
    pose proof (Hinv (2 * (q - S r))%nat ltac:(lia)) as Hi.
    pose proof (Hinv (2 * r + 1)%nat ltac:(lia)) as Hj.
    rewrite decide_False in Hi by div_mod_lia. rewrite decide_False in Hj by div_mod_lia.
    replace (Z.to_nat (2 * Z.of_nat (S r) - 1)) with (2 * r + 1)%nat by lia.
    replace (Z.to_nat (2 * Z.of_nat (q - S r))) with (2 * (q - S r))%nat by lia.
    rewrite Hi, Hj, Hinv by done.
    destruct (decide (k = (2 * r + 1)%nat)) as [->|];
      [|destruct (decide (k = (2 * (q - S r))%nat)) as [->|]].
    + rewrite decide_True by div_mod_lia. f_equal. lia.
    + rewrite decide_True by div_mod_lia. f_equal. lia.
    + apply decide_ext. div_mod_lia.
Qed.

Lemma be2le_even v : Nat.Even (length v) -> be2le v = Some (rev v).
Proof.
  intros [q Hq]. unfold be2le. rewrite Hq, (Nat.mul_comm 2 q), Nat.div_mul by lia.
  pose proof (be2le_loop_even q q v v Hq eq_refl (le_n q)) as H.
  rewrite Nat.sub_diag in H. unfold zlen. rewrite Hq.
  replace (Z.of_nat (2 * q) - 1) with (2 * Z.of_nat q - 1) by lia.
  apply H. intros k Hk. by rewrite decide_False by div_mod_lia.
Qed.

(** The state of the [cx_swap_bytes] loop: the outer [i] bytes are done. *)
Lemma cx_swap_bytes_loop_rev fuel i v0 v :
  length v = length v0 -> (length v0 <= fuel + i)%nat -> (i <= length v0 - i)%nat ->
  (forall k, (k < length v0)%nat ->
     v !! k = if decide (k < i \/ length v0 - i <= k)%nat
              then v0 !! (length v0 - 1 - k)%nat else v0 !! k) ->
  cx_swap_bytes_loop (S fuel) i (length v0 - 1 - i) v = Some (rev v0).
Proof.
  revert i v. induction fuel as [|fuel IH]; intros i v Hv Hf Hi Hinv.
  - simpl. destruct (Nat.ltb_spec i (length v0 - 1 - i)); [lia|].
    destruct v0 as [|x v0]; [|simpl in *; lia]. by destruct v.
  - cbn [cx_swap_bytes_loop].
    destruct (Nat.ltb_spec i (length v0 - 1 - i)) as [Hij|Hij].
    + destruct (swap_at_some v i (length v0 - 1 - i)) as [v' Hs]; [lia..|].
      rewrite Hs, <- Nat.sub_add_distr.
      apply IH; [by rewrite (swap_at_length _ _ _ _ Hs) | lia | lia |].
      intros k Hk. rewrite (swap_at_lookup _ _ _ _ k Hs) by lia.
      rewrite !Hinv by lia.
      repeat case_decide; subst; first [lia | done | f_equal; lia].
    + f_equal. apply list_eq_same_length with (n := length v0); try done;
        [by rewrite length_rev|].
      intros k x y Hk Hx Hy. rewrite Hinv in Hx by done.
      rewrite lookup_rev in Hy by done.
      case_decide; [congruence|]. replace (length v0 - 1 - k)%nat with k in Hy by lia.
      congruence.
Qed.

Lemma cx_swap_bytes_rev v : cx_swap_bytes v = Some (rev v).
Proof.
  unfold cx_swap_bytes. destruct (Nat.leb_spec (length v) 1).
  - by destruct v as [|? [|]]; simpl in *; try lia.
  - rewrite <- (Nat.sub_0_r (length v - 1)).
    apply cx_swap_bytes_loop_rev; try lia. intros. by rewrite decide_False by lia.
Qed.

(** * Properties *)

(** [cx_swap_bytes] reverses every buffer. [be2le], whose loop
    moves both indices twice per iteration, reverses the buffers of even
    length, but not those of odd length: of five bytes it exchanges only the
    first and the last. *)
Theorem byte_reversals :
  (forall v, cx_swap_bytes v = Some (rev v)) /\
  (forall v, Nat.Even (length v) -> be2le v = Some (rev v)) /\
  (forall a b c d e, be2le [a; b; c; d; e] = Some [e; b; c; d; a]).
Proof. split; [exact cx_swap_bytes_rev|]. split; [exact be2le_even|done]. Qed.
