(* ===== verification/CxCrc.v ===== *)
(** The CRC-16 and CRC-32 of [src/bolos/cx_crc.c], and their equivalence with
    the bit-serial definition of the two polynomials. *)

From S2P Require Import Prelude CxUtils.

(** * Definitions *)

Definition CX_CRC32_INIT : Z := 0xFFFFFFFF.

Definition cx_ccitt16 : list Z := [
    0x0000; 0x1021; 0x2042; 0x3063; 0x4084; 0x50a5; 0x60c6; 0x70e7; 0x8108;
    0x9129; 0xa14a; 0xb16b; 0xc18c; 0xd1ad; 0xe1ce; 0xf1ef; 0x1231; 0x0210;
    0x3273; 0x2252; 0x52b5; 0x4294; 0x72f7; 0x62d6; 0x9339; 0x8318; 0xb37b;
    0xa35a; 0xd3bd; 0xc39c; 0xf3ff; 0xe3de; 0x2462; 0x3443; 0x0420; 0x1401;
    0x64e6; 0x74c7; 0x44a4; 0x5485; 0xa56a; 0xb54b; 0x8528; 0x9509; 0xe5ee;
    0xf5cf; 0xc5ac; 0xd58d; 0x3653; 0x2672; 0x1611; 0x0630; 0x76d7; 0x66f6;
    0x5695; 0x46b4; 0xb75b; 0xa77a; 0x9719; 0x8738; 0xf7df; 0xe7fe; 0xd79d;
    0xc7bc; 0x48c4; 0x58e5; 0x6886; 0x78a7; 0x0840; 0x1861; 0x2802; 0x3823;
    0xc9cc; 0xd9ed; 0xe98e; 0xf9af; 0x8948; 0x9969; 0xa90a; 0xb92b; 0x5af5;
    0x4ad4; 0x7ab7; 0x6a96; 0x1a71; 0x0a50; 0x3a33; 0x2a12; 0xdbfd; 0xcbdc;
    0xfbbf; 0xeb9e; 0x9b79; 0x8b58; 0xbb3b; 0xab1a; 0x6ca6; 0x7c87; 0x4ce4;
    0x5cc5; 0x2c22; 0x3c03; 0x0c60; 0x1c41; 0xedae; 0xfd8f; 0xcdec; 0xddcd;
    0xad2a; 0xbd0b; 0x8d68; 0x9d49; 0x7e97; 0x6eb6; 0x5ed5; 0x4ef4; 0x3e13;
    0x2e32; 0x1e51; 0x0e70; 0xff9f; 0xefbe; 0xdfdd; 0xcffc; 0xbf1b; 0xaf3a;
    0x9f59; 0x8f78; 0x9188; 0x81a9; 0xb1ca; 0xa1eb; 0xd10c; 0xc12d; 0xf14e;
    0xe16f; 0x1080; 0x00a1; 0x30c2; 0x20e3; 0x5004; 0x4025; 0x7046; 0x6067;
    0x83b9; 0x9398; 0xa3fb; 0xb3da; 0xc33d; 0xd31c; 0xe37f; 0xf35e; 0x02b1;
    0x1290; 0x22f3; 0x32d2; 0x4235; 0x5214; 0x6277; 0x7256; 0xb5ea; 0xa5cb;
    0x95a8; 0x8589; 0xf56e; 0xe54f; 0xd52c; 0xc50d; 0x34e2; 0x24c3; 0x14a0;
    0x0481; 0x7466; 0x6447; 0x5424; 0x4405; 0xa7db; 0xb7fa; 0x8799; 0x97b8;
    0xe75f; 0xf77e; 0xc71d; 0xd73c; 0x26d3; 0x36f2; 0x0691; 0x16b0; 0x6657;
    0x7676; 0x4615; 0x5634; 0xd94c; 0xc96d; 0xf90e; 0xe92f; 0x99c8; 0x89e9;
    0xb98a; 0xa9ab; 0x5844; 0x4865; 0x7806; 0x6827; 0x18c0; 0x08e1; 0x3882;
    0x28a3; 0xcb7d; 0xdb5c; 0xeb3f; 0xfb1e; 0x8bf9; 0x9bd8; 0xabbb; 0xbb9a;
    0x4a75; 0x5a54; 0x6a37; 0x7a16; 0x0af1; 0x1ad0; 0x2ab3; 0x3a92; 0xfd2e;
    0xed0f; 0xdd6c; 0xcd4d; 0xbdaa; 0xad8b; 0x9de8; 0x8dc9; 0x7c26; 0x6c07;
    0x5c64; 0x4c45; 0x3ca2; 0x2c83; 0x1ce0; 0x0cc1; 0xef1f; 0xff3e; 0xcf5d;
    0xdf7c; 0xaf9b; 0xbfba; 0x8fd9; 0x9ff8; 0x6e17; 0x7e36; 0x4e55; 0x5e74;
    0x2e93; 0x3eb2; 0x0ed1; 0x1ef0
  ].

Definition cx_ccitt32 : list Z := [
    0x00000000; 0x77073096; 0xee0e612c; 0x990951ba; 0x076dc419; 0x706af48f;
    0xe963a535; 0x9e6495a3; 0x0edb8832; 0x79dcb8a4; 0xe0d5e91e; 0x97d2d988;
    0x09b64c2b; 0x7eb17cbd; 0xe7b82d07; 0x90bf1d91; 0x1db71064; 0x6ab020f2;
    0xf3b97148; 0x84be41de; 0x1adad47d; 0x6ddde4eb; 0xf4d4b551; 0x83d385c7;
    0x136c9856; 0x646ba8c0; 0xfd62f97a; 0x8a65c9ec; 0x14015c4f; 0x63066cd9;
    0xfa0f3d63; 0x8d080df5; 0x3b6e20c8; 0x4c69105e; 0xd56041e4; 0xa2677172;
    0x3c03e4d1; 0x4b04d447; 0xd20d85fd; 0xa50ab56b; 0x35b5a8fa; 0x42b2986c;
    0xdbbbc9d6; 0xacbcf940; 0x32d86ce3; 0x45df5c75; 0xdcd60dcf; 0xabd13d59;
    0x26d930ac; 0x51de003a; 0xc8d75180; 0xbfd06116; 0x21b4f4b5; 0x56b3c423;
    0xcfba9599; 0xb8bda50f; 0x2802b89e; 0x5f058808; 0xc60cd9b2; 0xb10be924;
    0x2f6f7c87; 0x58684c11; 0xc1611dab; 0xb6662d3d; 0x76dc4190; 0x01db7106;
    0x98d220bc; 0xefd5102a; 0x71b18589; 0x06b6b51f; 0x9fbfe4a5; 0xe8b8d433;
    0x7807c9a2; 0x0f00f934; 0x9609a88e; 0xe10e9818; 0x7f6a0dbb; 0x086d3d2d;
    0x91646c97; 0xe6635c01; 0x6b6b51f4; 0x1c6c6162; 0x856530d8; 0xf262004e;
    0x6c0695ed; 0x1b01a57b; 0x8208f4c1; 0xf50fc457; 0x65b0d9c6; 0x12b7e950;
    0x8bbeb8ea; 0xfcb9887c; 0x62dd1ddf; 0x15da2d49; 0x8cd37cf3; 0xfbd44c65;
    0x4db26158; 0x3ab551ce; 0xa3bc0074; 0xd4bb30e2; 0x4adfa541; 0x3dd895d7;
    0xa4d1c46d; 0xd3d6f4fb; 0x4369e96a; 0x346ed9fc; 0xad678846; 0xda60b8d0;
    0x44042d73; 0x33031de5; 0xaa0a4c5f; 0xdd0d7cc9; 0x5005713c; 0x270241aa;
    0xbe0b1010; 0xc90c2086; 0x5768b525; 0x206f85b3; 0xb966d409; 0xce61e49f;
    0x5edef90e; 0x29d9c998; 0xb0d09822; 0xc7d7a8b4; 0x59b33d17; 0x2eb40d81;
    0xb7bd5c3b; 0xc0ba6cad; 0xedb88320; 0x9abfb3b6; 0x03b6e20c; 0x74b1d29a;
    0xead54739; 0x9dd277af; 0x04db2615; 0x73dc1683; 0xe3630b12; 0x94643b84;
    0x0d6d6a3e; 0x7a6a5aa8; 0xe40ecf0b; 0x9309ff9d; 0x0a00ae27; 0x7d079eb1;
    0xf00f9344; 0x8708a3d2; 0x1e01f268; 0x6906c2fe; 0xf762575d; 0x806567cb;
    0x196c3671; 0x6e6b06e7; 0xfed41b76; 0x89d32be0; 0x10da7a5a; 0x67dd4acc;
    0xf9b9df6f; 0x8ebeeff9; 0x17b7be43; 0x60b08ed5; 0xd6d6a3e8; 0xa1d1937e;
    0x38d8c2c4; 0x4fdff252; 0xd1bb67f1; 0xa6bc5767; 0x3fb506dd; 0x48b2364b;
    0xd80d2bda; 0xaf0a1b4c; 0x36034af6; 0x41047a60; 0xdf60efc3; 0xa867df55;
    0x316e8eef; 0x4669be79; 0xcb61b38c; 0xbc66831a; 0x256fd2a0; 0x5268e236;
    0xcc0c7795; 0xbb0b4703; 0x220216b9; 0x5505262f; 0xc5ba3bbe; 0xb2bd0b28;
    0x2bb45a92; 0x5cb36a04; 0xc2d7ffa7; 0xb5d0cf31; 0x2cd99e8b; 0x5bdeae1d;
    0x9b64c2b0; 0xec63f226; 0x756aa39c; 0x026d930a; 0x9c0906a9; 0xeb0e363f;
    0x72076785; 0x05005713; 0x95bf4a82; 0xe2b87a14; 0x7bb12bae; 0x0cb61b38;
    0x92d28e9b; 0xe5d5be0d; 0x7cdcefb7; 0x0bdbdf21; 0x86d3d2d4; 0xf1d4e242;
    0x68ddb3f8; 0x1fda836e; 0x81be16cd; 0xf6b9265b; 0x6fb077e1; 0x18b74777;
    0x88085ae6; 0xff0f6a70; 0x66063bca; 0x11010b5c; 0x8f659eff; 0xf862ae69;
    0x616bffd3; 0x166ccf45; 0xa00ae278; 0xd70dd2ee; 0x4e048354; 0x3903b3c2;
    0xa7672661; 0xd06016f7; 0x4969474d; 0x3e6e77db; 0xaed16a4a; 0xd9d65adc;
    0x40df0b66; 0x37d83bf0; 0xa9bcae53; 0xdebb9ec5; 0x47b2cf7f; 0x30b5ffe9;
    0xbdbdf21c; 0xcabac28a; 0x53b39330; 0x24b4a3a6; 0xbad03605; 0xcdd70693;
    0x54de5729; 0x23d967bf; 0xb3667a2e; 0xc4614ab8; 0x5d681b02; 0x2a6f2b94;
    0xb40bbe37; 0xc30c8ea1; 0x5a05df1b; 0x2d02ef8d
  ].

(** One turn of the loop of [sys_cx_crc16_update], for the byte [p]. *)
Definition crc16_step (crc p : Z) : Z :=
  Z.lxor (znth cx_ccitt16 (Z.lxor p (w16 (Z.shiftr crc 8)))) (w16 (Z.shiftl crc 8)).

Definition sys_cx_crc16_update (crc : Z) (buf : list Z) : Z :=
  fold_left crc16_step buf crc.

(** One turn of the loop of [sys_cx_crc32_update]. *)
Definition crc32_step (crc p : Z) : Z :=
  Z.lxor (znth cx_ccitt32 (Z.land (Z.lxor crc p) 0xff)) (Z.shiftr crc 8).

Definition sys_cx_crc32_update (crc : Z) (buf : list Z) : Z :=
  Z.lxor (fold_left crc32_step buf crc) CX_CRC32_INIT.

Definition reverse_32_bits (value : Z) : Z :=
  for_range 32 (fun i reverse_val =>
    if truthy (Z.land value (Z.shiftl 1 i))
    then Z.lor reverse_val (Z.shiftl 1 ((32 - 1) - i))
    else reverse_val) 0.

Inductive crc_type_t :=
| CRC_TYPE_CRC16_CCITT_FALSE
| CRC_TYPE_CRC32
| crc_type_other (value : Z).

Definition sys_cx_crc_hw (crc_type : crc_type_t) (crc_state : Z) (buf : list Z) : Z :=
  match crc_type with
  | CRC_TYPE_CRC16_CCITT_FALSE => sys_cx_crc16_update (w16 crc_state) buf
  | CRC_TYPE_CRC32 => sys_cx_crc32_update (reverse_32_bits crc_state) buf
  | crc_type_other _ => 0
  end.

(** * Reference: the polynomials, bit by bit *)

Module Serial.
(** x^16 + x^12 + x^5 + 1, most significant bit first. *)
Definition shift16 (x : Z) : Z :=
  Z.lxor (w16 (Z.shiftl x 1)) (if Z.testbit x 15 then 0x1021 else 0).

Definition byte16 (crc b : Z) : Z :=
  Nat.iter 8 shift16 (Z.lxor crc (Z.shiftl b 8)).

Definition crc16 (crc : Z) (buf : list Z) : Z := fold_left byte16 buf crc.

(** The reflected CRC-32 polynomial, least significant bit first. *)
Definition shift32 (x : Z) : Z :=
  Z.lxor (Z.shiftr x 1) (if Z.testbit x 0 then 0xEDB88320 else 0).

Definition byte32 (crc b : Z) : Z := Nat.iter 8 shift32 (Z.lxor crc b).

Definition crc32 (crc : Z) (buf : list Z) : Z :=
  Z.lxor (fold_left byte32 buf crc) 0xFFFFFFFF.
End Serial.

(** * Lemmas *)

(** ** Linearity of the shift registers *)

Lemma lxor_swap a b c d :
  Z.lxor (Z.lxor a b) (Z.lxor c d) = Z.lxor (Z.lxor a c) (Z.lxor b d).
Proof.
  rewrite !Z.lxor_assoc. f_equal. rewrite <- !Z.lxor_assoc. f_equal. apply Z.lxor_comm.
Qed.

Lemma w16_lxor x y : w16 (Z.lxor x y) = Z.lxor (w16 x) (w16 y).
Proof.
  unfold w16. change 65536 with (2 ^ 16). rewrite <- !Z.land_ones by done.
  apply Z.bits_inj'. intros i Hi. rewrite ?Z.land_spec, ?Z.lxor_spec, ?Z.land_spec.
  by destruct (Z.testbit x i), (Z.testbit y i), (Z.testbit (Z.ones 16) i).
Qed.

Lemma shift16_lxor x y :
  Serial.shift16 (Z.lxor x y) = Z.lxor (Serial.shift16 x) (Serial.shift16 y).
Proof.
  unfold Serial.shift16. rewrite Z.shiftl_lxor, w16_lxor, lxor_swap, Z.lxor_spec.
  f_equal. by destruct (Z.testbit x 15), (Z.testbit y 15).
Qed.

Lemma shift32_lxor x y :
  Serial.shift32 (Z.lxor x y) = Z.lxor (Serial.shift32 x) (Serial.shift32 y).
Proof.
  unfold Serial.shift32. rewrite Z.shiftr_lxor, lxor_swap, Z.lxor_spec. f_equal.
  by destruct (Z.testbit x 0), (Z.testbit y 0).
Qed.

Lemma iter_lxor (f : Z -> Z) n x y :
  (forall x y, f (Z.lxor x y) = Z.lxor (f x) (f y)) ->
  Nat.iter n f (Z.lxor x y) = Z.lxor (Nat.iter n f x) (Nat.iter n f y).
Proof. intros Hf. induction n as [|n IH]; simpl; [done|]. by rewrite IH, Hf. Qed.

(** ** The part of the register the table is not indexed with *)

Lemma shift32_shiftl h k :
  0 <= k -> Serial.shift32 (Z.shiftl h (k + 1)) = Z.shiftl h k.
Proof.
  intros Hk. unfold Serial.shift32. rewrite Z.shiftl_spec_low by lia.
  rewrite Z.lxor_0_r, Z.shiftr_shiftl_l by lia. f_equal. lia.
Qed.

Lemma iter_shift32_high h : Nat.iter 8 Serial.shift32 (Z.shiftl h 8) = h.
Proof.
  simpl. change 8 with (7 + 1). rewrite shift32_shiftl by done.
  change 7 with (6 + 1). rewrite shift32_shiftl by done.
  change 6 with (5 + 1). rewrite shift32_shiftl by done.
  change 5 with (4 + 1). rewrite shift32_shiftl by done.
  change 4 with (3 + 1). rewrite shift32_shiftl by done.
  change 3 with (2 + 1). rewrite shift32_shiftl by done.
  change 2 with (1 + 1). rewrite shift32_shiftl by done.
  change 1 with (0 + 1) at 1. rewrite shift32_shiftl by done.
  apply Z.shiftl_0_r.
Qed.

Lemma shift16_low x : 0 <= x < 32768 -> Serial.shift16 x = 2 * x.
Proof.
  intros Hx. unfold Serial.shift16. rewrite (small_high x 15) by (done || lia).
  rewrite Z.lxor_0_r, Z.shiftl_mul_pow2 by done.
  unfold w16. rewrite Z.mod_small; lia.
Qed.

Lemma iter_shift16_pow n x :
  0 <= x -> x * 2 ^ Z.of_nat n < 65536 ->
  Nat.iter n Serial.shift16 x = x * 2 ^ Z.of_nat n.
Proof.
  intros Hx. induction n as [|n IH]; intros Hn; [simpl; lia|].
  rewrite Nat2Z.inj_succ, Z.pow_succ_r in * by lia. rewrite Nat.iter_succ.
  rewrite IH, shift16_low by lia. lia.
Qed.

Lemma iter_shift16_low x : is_byte x -> Nat.iter 8 Serial.shift16 x = Z.shiftl x 8.
Proof.
  unfold is_byte. intros Hx. rewrite iter_shift16_pow by lia.
  by rewrite Z.shiftl_mul_pow2.
Qed.

(** ** The tables *)

Lemma forall_byte (P : Z -> bool) :
  forallb (fun i => P (Z.of_nat i)) (seq 0 256) = true ->
  forall i, is_byte i -> P i = true.
Proof.
  intros H i Hi. rewrite forallb_forall in H. unfold is_byte in Hi.
  specialize (H (Z.to_nat i)). rewrite Z2Nat.id in H by lia. apply H.
  apply in_seq. lia.
Qed.

Lemma table32_serial i :
  is_byte i -> znth cx_ccitt32 i = Nat.iter 8 Serial.shift32 i.
Proof.
  intros Hi. apply Z.eqb_eq.
  apply (forall_byte (fun i => znth cx_ccitt32 i =? Nat.iter 8 Serial.shift32 i)); [|done].
  vm_compute. reflexivity.
Qed.

Lemma table16_serial i :
  is_byte i -> znth cx_ccitt16 i = Nat.iter 8 Serial.shift16 (Z.shiftl i 8).
Proof.
  intros Hi. apply Z.eqb_eq.
  apply (forall_byte (fun i =>
    znth cx_ccitt16 i =? Nat.iter 8 Serial.shift16 (Z.shiftl i 8))); [|done].
  vm_compute. reflexivity.
Qed.

(** ** One byte: the table lookup equals eight shifts *)

Lemma split_low8 x : Z.lxor (Z.land x 255) (Z.shiftl (Z.shiftr x 8) 8) = x.
Proof.
  apply Z.bits_inj'. intros i Hi. rewrite Z.lxor_spec, Z.land_spec, Z.shiftl_spec by done.
  change 255 with (Z.ones 8). destruct (decide (i < 8)).
  - rewrite Z.ones_spec_low, (Z.testbit_neg_r _ (i - 8)) by lia.
    by destruct (Z.testbit x i).
  - rewrite Z.ones_spec_high, Z.shiftr_spec by lia. rewrite andb_false_r, xorb_false_l.
    f_equal. lia.
Qed.

Lemma land255_byte x : is_byte (Z.land x 255).
Proof. change 255 with (Z.ones 8). rewrite Z.land_ones by done. by apply Z.mod_pos_bound. Qed.

Lemma shiftr8_byte_lxor crc p :
  is_byte p -> Z.shiftr (Z.lxor crc p) 8 = Z.shiftr crc 8.
Proof.
  intros Hp. rewrite Z.shiftr_lxor. unfold is_byte in Hp.
  replace (Z.shiftr p 8) with 0; [apply Z.lxor_0_r|].
  rewrite Z.shiftr_div_pow2, Z.div_small by lia. done.
Qed.

Lemma crc32_step_serial crc p :
  is_byte p -> crc32_step crc p = Serial.byte32 crc p.
Proof.
  intros Hp. unfold crc32_step, Serial.byte32.
  rewrite <- (split_low8 (Z.lxor crc p)) at 2.
  rewrite iter_lxor by apply shift32_lxor. rewrite iter_shift32_high.
  rewrite shiftr8_byte_lxor by done. by rewrite table32_serial by apply land255_byte.
Qed.

Lemma crc16_step_serial crc p :
  0 <= crc < 65536 -> is_byte p -> crc16_step crc p = Serial.byte16 crc p.
Proof.
  intros Hc Hp. unfold crc16_step, Serial.byte16.
  assert (is_byte (Z.shiftr crc 8)) as Hh.
  { unfold is_byte. rewrite Z.shiftr_div_pow2 by done. change (2 ^ 8) with 256. div_mod_lia. }
  replace (w16 (Z.shiftr crc 8)) with (Z.shiftr crc 8)
    by (unfold w16, is_byte in *; rewrite Z.mod_small; lia).
  replace (w16 (Z.shiftl crc 8)) with (Z.shiftl (Z.land crc 255) 8).
  2:{ rewrite !Z.shiftl_mul_pow2 by done. change 255 with (Z.ones 8).
      rewrite Z.land_ones by done. unfold w16. change (2 ^ 8) with 256. div_mod_lia. }
  assert (is_byte (Z.lxor p (Z.shiftr crc 8))) as Hi.
  { split; [unfold is_byte in *; apply Z.lxor_nonneg; lia|].
    apply (bits_lt _ 8); [done | unfold is_byte in *; apply Z.lxor_nonneg; lia |].
    intros i H. rewrite Z.lxor_spec, !(small_high _ 8); done. }
  rewrite table16_serial by done.
  rewrite <- (iter_shift16_low (Z.land crc 255)) by apply land255_byte.
  rewrite <- iter_lxor by apply shift16_lxor. f_equal.
  rewrite Z.shiftl_lxor. rewrite <- (split_low8 crc) at 3.
  rewrite Z.lxor_comm, (Z.lxor_comm (Z.shiftl p 8)). symmetry. apply Z.lxor_assoc.
Qed.

(** ** Ranges *)

Lemma crc16_step_range crc p :
  0 <= crc < 65536 -> is_byte p -> 0 <= crc16_step crc p < 65536.
Proof.
  intros Hc Hp. rewrite crc16_step_serial by done. unfold Serial.byte16.
  cut (forall n x, 0 <= x -> 0 <= Nat.iter (S n) Serial.shift16 x < 65536).
  { intros H. apply (H 7%nat), Z.lxor_nonneg.
    rewrite Z.shiftl_nonneg. unfold is_byte in Hp. lia. }
  intros n x Hx. assert (forall y, 0 <= Serial.shift16 y < 65536) as Hs.
  { intros y. unfold Serial.shift16. change 65536 with (2 ^ 16).
    assert (0 <= w16 (Z.shiftl y 1) < 2 ^ 16) as Hy by (apply Z.mod_pos_bound; lia).
    assert (0 <= (if Z.testbit y 15 then 4129 else 0) < 2 ^ 16) as Hk
      by (destruct (Z.testbit y 15); lia).
    split; [apply Z.lxor_nonneg; lia|].
    apply bits_lt; [done | apply Z.lxor_nonneg; lia |].
    intros i Hi. by rewrite Z.lxor_spec, !(small_high _ 16). }
  rewrite Nat.iter_succ. apply Hs.
Qed.

Lemma crc16_update_serial crc buf :
  0 <= crc < 65536 -> bytes_ok buf ->
  sys_cx_crc16_update crc buf = Serial.crc16 crc buf.
Proof.
  intros Hc Hb. unfold sys_cx_crc16_update, Serial.crc16.
  apply (fold_left_ext_inv (fun c => 0 <= c < 65536) is_byte); try done.
  - intros. by apply crc16_step_range.
  - intros. by apply crc16_step_serial.
Qed.

Lemma fold_crc32_serial crc buf :
  bytes_ok buf -> fold_left crc32_step buf crc = fold_left Serial.byte32 buf crc.
Proof.
  intros Hb. apply (fold_left_ext_inv (fun _ => True) is_byte); try done.
  intros. by apply crc32_step_serial.
Qed.

(** ** The 32-bit register never forgets: one step is injective *)

Lemma shift32_zero x : is_w32 x -> Serial.shift32 x = 0 -> x = 0.
Proof.
  unfold is_w32, Serial.shift32. intros Hx. rewrite Z.shiftr_div_pow2 by done.
  rewrite Z.bit0_odd, Zodd_mod. change (2 ^ 1) with 2.
  destruct (Z.eqb_spec (x mod 2) 1) as [Hm|Hm].
  - intros H%Z.lxor_eq. div_mod_lia.
  - rewrite Z.lxor_0_r. div_mod_lia.
Qed.

Lemma shift32_range x : is_w32 x -> is_w32 (Serial.shift32 x).
Proof.
  intros Hx. unfold Serial.shift32. apply lxor_w32.
  - unfold is_w32 in *. rewrite Z.shiftr_div_pow2 by done. change (2 ^ 1) with 2. div_mod_lia.
  - unfold is_w32. destruct (Z.testbit x 0); lia.
Qed.

Lemma iter_shift32_zero n x :
  is_w32 x -> Nat.iter n Serial.shift32 x = 0 -> x = 0.
Proof.
  revert x. induction n as [|n IH]; intros x Hx; [done|].
  rewrite Nat.iter_succ_r. intros H%IH; [|by apply shift32_range].
  by apply shift32_zero.
Qed.

Lemma byte_w32 p : is_byte p -> is_w32 p.
Proof. unfold is_byte, is_w32. lia. Qed.

Lemma crc32_step_range crc p : is_w32 crc -> is_byte p -> is_w32 (crc32_step crc p).
Proof.
  intros Hc Hp. rewrite crc32_step_serial by done. unfold Serial.byte32.
  assert (is_w32 (Z.lxor crc p)) as H by (apply lxor_w32; [done | by apply byte_w32]).
  revert H. generalize (Z.lxor crc p). generalize 8%nat as n.
  induction n as [|n IH]; intros x Hx; [done|].
  rewrite Nat.iter_succ. by apply shift32_range, IH.
Qed.

Lemma crc32_step_inj c1 c2 p1 p2 :
  is_w32 c1 -> is_w32 c2 -> is_byte p1 -> is_byte p2 ->
  crc32_step c1 p1 = crc32_step c2 p2 -> Z.lxor c1 p1 = Z.lxor c2 p2.
Proof.
  intros H1 H2 Hp1 Hp2. rewrite !crc32_step_serial by done. unfold Serial.byte32.
  intros E. apply Z.lxor_eq. apply (iter_shift32_zero 8).
  - repeat apply lxor_w32; try done; by apply byte_w32.
  - rewrite iter_lxor by apply shift32_lxor. rewrite E. apply Z.lxor_nilpotent.
Qed.

Lemma lxor_cancel_r a b c : Z.lxor a c = Z.lxor b c -> a = b.
Proof.
  intros H. apply (f_equal (fun x => Z.lxor x c)) in H.
  by rewrite !Z.lxor_assoc, Z.lxor_nilpotent, !Z.lxor_0_r in H.
Qed.

Lemma fold_crc32_range c buf :
  is_w32 c -> bytes_ok buf -> is_w32 (fold_left crc32_step buf c).
Proof.
  intros Hc Hb. apply (fold_left_inv is_w32 is_byte); try done.
  intros. by apply crc32_step_range.
Qed.

Lemma fold_crc32_inj c1 c2 buf :
  is_w32 c1 -> is_w32 c2 -> bytes_ok buf ->
  fold_left crc32_step buf c1 = fold_left crc32_step buf c2 -> c1 = c2.
Proof.
  intros H1 H2 Hb. revert c1 c2 H1 H2. induction Hb as [|p buf Hp _ IH]; simpl; [done|].
  intros c1 c2 H1 H2 E. apply IH in E; try by apply crc32_step_range.
  apply crc32_step_inj in E; try done. by apply lxor_cancel_r in E.
Qed.

Lemma lxor_w32_involutive x : Z.lxor (Z.lxor x CX_CRC32_INIT) CX_CRC32_INIT = x.
Proof. by rewrite Z.lxor_assoc, Z.lxor_nilpotent, Z.lxor_0_r. Qed.

(** ** Bit reversal *)

Lemma truthy_land_bit v i :
  0 <= i -> truthy (Z.land v (Z.shiftl 1 i)) = Z.testbit v i.
Proof.
  intros Hi. unfold truthy. rewrite Z.shiftl_1_l.
  destruct (Z.testbit v i) eqn:E.
  - apply negb_true_iff, Z.eqb_neq. intros H. apply (f_equal (fun x => Z.testbit x i)) in H.
    by rewrite Z.land_spec, E, Z.pow2_bits_true, Z.bits_0 in H.
  - apply negb_false_iff, Z.eqb_eq. apply Z.bits_inj'. intros j Hj.
    rewrite Z.land_spec, Z.bits_0. destruct (decide (j = i)) as [->|].
    + by rewrite E.
    + by rewrite Z.pow2_bits_false, andb_false_r by lia.
Qed.

Lemma reverse_32_bits_spec v i :
  Z.testbit (reverse_32_bits v) i = (0 <=? i) && (i <? 32) && Z.testbit v (31 - i).
Proof.
  unfold reverse_32_bits.
  enough (forall n, (n <= 32)%nat ->
    Z.testbit (for_range n (fun i r => if truthy (Z.land v (Z.shiftl 1 i))
      then Z.lor r (Z.shiftl 1 ((32 - 1) - i)) else r) 0) i
    = (32 - Z.of_nat n <=? i) && (i <? 32) && Z.testbit v (31 - i)) as H.
  { rewrite (H 32%nat) by done. done. }
  intros n. induction n as [|n IH]; intros Hn.
  - change (for_range 0 _ 0) with 0. rewrite Z.bits_0.
    destruct (Z.leb_spec (32 - Z.of_nat 0) i), (Z.ltb_spec i 32); try done. lia.
  - rewrite for_range_S, truthy_land_bit by lia.
    replace (32 - 1 - Z.of_nat n) with (31 - Z.of_nat n) by lia.
    destruct (Z.testbit v (Z.of_nat n)) eqn:E.
    + rewrite Z.lor_spec, IH, Z.shiftl_1_l, Z.pow2_bits_eqb by lia.
      destruct (Z.eqb_spec (31 - Z.of_nat n) i) as [<-|].
      * replace (31 - (31 - Z.of_nat n)) with (Z.of_nat n) by lia. rewrite E. lia.
      * rewrite orb_false_r. f_equal. lia.
    + rewrite IH by lia. destruct (decide (i = 31 - Z.of_nat n)) as [->|].
      * replace (31 - (31 - Z.of_nat n)) with (Z.of_nat n) by lia. rewrite E.
        by rewrite !andb_false_r.
      * f_equal. lia.
Qed.

Lemma reverse_32_bits_involutive v :
  is_w32 v -> reverse_32_bits (reverse_32_bits v) = v.
Proof.
  intros Hv. apply Z.bits_inj'. intros i Hi. rewrite !reverse_32_bits_spec.
  destruct (Z.ltb_spec i 32) as [Hlt|Hge].
  - replace (31 - (31 - i)) with i by lia.
    destruct (Z.testbit v i); lia.
  - rewrite (word32_high v i) by done. lia.
Qed.

(** * Properties *)

(** The table-driven CRC-16 equals the bit-serial one, for every
    initial value and every buffer. *)
Theorem crc16_table_driven_correct crc buf :
  0 <= crc < 65536 -> bytes_ok buf ->
  sys_cx_crc16_update crc buf = Serial.crc16 crc buf.
Proof. apply crc16_update_serial. Qed.

Lemma crc16_table_driven_correct_witness :
  sys_cx_crc16_update 0xFFFF [0x31; 0x32; 0x33; 0x34; 0x35; 0x36; 0x37; 0x38; 0x39]
  = 0x29B1.
Proof.
  rewrite crc16_table_driven_correct; [vm_compute; reflexivity | lia |].
  repeat constructor; unfold is_byte; lia.
Defined.

(** The table-driven CRC-32 equals the bit-serial one, for every
    initial value and every buffer. *)
Theorem crc32_table_driven_correct crc buf :
  bytes_ok buf -> sys_cx_crc32_update crc buf = Serial.crc32 crc buf.
Proof.
  intros Hb. unfold sys_cx_crc32_update, Serial.crc32. by rewrite fold_crc32_serial.
Qed.

Lemma crc32_table_driven_correct_witness :
  sys_cx_crc32_update CX_CRC32_INIT
    [0x31; 0x32; 0x33; 0x34; 0x35; 0x36; 0x37; 0x38; 0x39] = 0xCBF43926.
Proof.
  rewrite crc32_table_driven_correct; [vm_compute; reflexivity |].
  repeat constructor; unfold is_byte; lia.
Defined.

(** The CRC-32 detects every corruption of a single byte,
    whatever surrounds it. *)
Theorem crc32_detects_byte_error crc pre b1 b2 post :
  is_w32 crc -> bytes_ok pre -> bytes_ok post -> is_byte b1 -> is_byte b2 ->
  b1 <> b2 ->
  sys_cx_crc32_update crc (pre ++ b1 :: post) <> sys_cx_crc32_update crc (pre ++ b2 :: post).
Proof.
  intros Hc Hpre Hpost H1 H2 Hne E. unfold sys_cx_crc32_update in E.
  apply lxor_cancel_r in E. rewrite !fold_left_app in E. cbn [fold_left] in E.
  assert (is_w32 (fold_left crc32_step pre crc)) as Hs by by apply fold_crc32_range.
  apply fold_crc32_inj in E; [| by apply crc32_step_range.. | done].
  apply crc32_step_inj in E; try done.
  rewrite !(Z.lxor_comm (fold_left _ _ _)) in E. by apply lxor_cancel_r in E.
Qed.

Lemma crc32_detects_byte_error_witness :
  sys_cx_crc32_update 0 ([1; 2] ++ 3 :: [4]) <> sys_cx_crc32_update 0 ([1; 2] ++ 7 :: [4]).
Proof.
  apply crc32_detects_byte_error; repeat constructor; unfold is_byte, is_w32; try lia.
Defined.

(** The hardware emulation can be chained: reversing and complementing the
    result gives the initial value for the next buffer. *)
Theorem crc_hw_chaining crc a b :
  is_w32 crc -> bytes_ok a ->
  sys_cx_crc_hw CRC_TYPE_CRC32
    (reverse_32_bits (Z.lxor (sys_cx_crc_hw CRC_TYPE_CRC32 crc a) CX_CRC32_INIT)) b
  = sys_cx_crc_hw CRC_TYPE_CRC32 crc (a ++ b).
Proof.
  intros Hc Ha. unfold sys_cx_crc_hw, sys_cx_crc32_update.
  rewrite lxor_w32_involutive, fold_left_app.
  rewrite reverse_32_bits_involutive; [done|].
  apply fold_crc32_range; [|done]. apply is_w32_bits.
  - apply Z.bits_iff_nonneg_ex. exists 32. intros i Hi.
    rewrite reverse_32_bits_spec. lia.
  - intros i Hi. rewrite reverse_32_bits_spec. lia.
Qed.
