(* ===== verification/BlockStream.v ===== *)
(** The block buffer shared by the hash contexts of [src/bolos/]: the
    "append input data and process all blocks" part of the update functions
    of [cx_sha256.c], [cx_sha512.c], [cx_ripemd160.c] and [cx_sha3.c], as
    operations over an interface of contexts, and the invariant that relates
    a context to the message it has absorbed. *)

From S2P Require Import Prelude.

Definition CX_HASH_MAX_BLOCK_COUNT : Z := 65535.

(** * Interface of a context *)

Class BlockCtx (C : Type) := {
  bc_blen : C -> Z;
  bc_set_blen : Z -> C -> C;
  bc_block : C -> list Z;
  bc_set_block : list Z -> C -> C;
  bc_counter : C -> Z;
  bc_set_counter : Z -> C -> C;
}.

(** * Operations *)

Section operations.
Context {C : Type} `{!BlockCtx C}.
(** Whether the copy checks [CX_HASH_MAX_BLOCK_COUNT], the block size and
    the block function. *)
Context (limited : bool) (block_size : Z) (block_fn : C -> C).

(** [memcpy(ctx->block + blen, src, |src|)] *)
Definition copy_block (blen : Z) (src : list Z) : M C unit :=
  let! block := mgets bc_block in
  let! block := mlift (write_at block blen src) in
  mmodify (bc_set_block block).

(** The [do { ... } while (len >= block_size)] loop. *)
Fixpoint process_blocks (fuel : nat) (blen r : Z) (data : list Z) (len : Z)
  : M C (list Z * Z) :=
  match fuel with
  | O => mfault
  | S fuel' =>
      let! counter := mgets bc_counter in
      if limited && (counter =? CX_HASH_MAX_BLOCK_COUNT)
      then mthrow INVALID_PARAMETER
      else
        let! chunk := mlift (read_at data 0 r) in
        do! copy_block blen chunk in
        do! mmodify block_fn in
        do! mmodify (fun c => bc_set_counter (w32 (bc_counter c + 1)) c) in
        let data := zdrop r data in
        let len := w32 (len - r) in
        if block_size <=? len
        then process_blocks fuel' 0 block_size data len
        else mret (data, len)
  end.

(** From "append input data" to the final [return 1]. *)
Definition append_data (blen : Z) (data : list Z) (len : Z) : M C Z :=
  let! (blen, data, len) :=
    if block_size <=? w32 (blen + len) then
      let! (data, len) :=
        process_blocks (S (Z.to_nat len)) blen (w32 (block_size - blen)) data len in
      mret (0, data, len)
    else mret (blen, data, len) in
  let! rest := mlift (read_at data 0 len) in
  do! copy_block blen rest in
  do! mmodify (bc_set_blen (w32 (blen + len))) in
  mret 1.

(** [memset(ctx->block + blen, 0, n)] *)
Definition clear_block (blen n : Z) : M C unit :=
  let! block := mgets bc_block in
  let! block := mlift (memset_at block blen 0 n) in
  mmodify (bc_set_block block).

(** The padding of the Merkle-Damgard final functions: the 0x80 byte, an
    extra block when the length does not fit, then the last block with the
    length field in its last 8 bytes. [track] says whether the function
    keeps the pending length in [ctx->blen] ([cx_sha256.c]) or in a local;
    [len_size] is the room it reserves, [bitlen] the length it computes
    from the counter and the pending length plus one. *)
Definition pad_blocks (track : bool) (len_size : Z) (bitlen : Z -> Z -> Z)
    (len_field : Z -> list Z) : M C unit :=
  let store n := if track then mmodify (bc_set_blen n) else mret tt in
  let! blen := mgets bc_blen in
  do! copy_block blen [0x80] in
  let blen := w32 (blen + 1) in
  do! store blen in
  let! counter := mgets bc_counter in
  let len := bitlen counter blen in
  let! blen :=
    if w32 (block_size - blen) <? len_size then
      do! clear_block blen (w32 (block_size - blen)) in
      do! mmodify block_fn in
      do! store 0 in
      mret 0
    else mret blen in
  do! clear_block blen (w32 (block_size - blen)) in
  do! copy_block (block_size - 8) (len_field len) in
  mmodify block_fn.
End operations.

(** * Laws of a context *)

Class BlockCtxLaws (C : Type) `{!BlockCtx C} := {
  blen_set_blen n c : bc_blen (bc_set_blen n c) = n;
  block_set_blen n c : bc_block (bc_set_blen n c) = bc_block c;
  counter_set_blen n c : bc_counter (bc_set_blen n c) = bc_counter c;
  block_set_block b c : bc_block (bc_set_block b c) = b;
  counter_set_block b c : bc_counter (bc_set_block b c) = bc_counter c;
  block_set_counter n c : bc_block (bc_set_counter n c) = bc_block c;
  counter_set_counter n c : bc_counter (bc_set_counter n c) = n;
}.

(** [accv] is the chaining value, [frame] the fields no update touches. *)
Class BlockView (C A F : Type) `{!BlockCtx C} := {
  accv : C -> A;
  frame : C -> F;
  acc_set_blen n c : accv (bc_set_blen n c) = accv c;
  frame_set_blen n c : frame (bc_set_blen n c) = frame c;
  acc_set_block b c : accv (bc_set_block b c) = accv c;
  frame_set_block b c : frame (bc_set_block b c) = frame c;
  acc_set_counter n c : accv (bc_set_counter n c) = accv c;
  frame_set_counter n c : frame (bc_set_counter n c) = frame c;
}.

(** * Whole blocks of a message *)

Section whole_blocks.
Context (bs : nat).
Implicit Types (m data : list Z).

(** The whole blocks of a message and what is left after them. *)
Definition whole (m : list Z) : nat := (length m / bs)%nat.
Definition partial (m : list Z) : list Z := drop (whole m * bs) m.

Context (Hbs : (0 < bs)%nat).

Lemma partial_length m : length m = (whole m * bs + length (partial m))%nat.
Proof.
  unfold partial, whole. rewrite length_drop.
  pose proof (Nat.Div0.mul_div_le (length m) bs). lia.
Qed.

Lemma partial_short m : (length (partial m) < bs)%nat.
Proof.
  pose proof (partial_length m). unfold whole in *.
  pose proof (Nat.mul_succ_div_gt (length m) bs). lia.
Qed.

Lemma whole_partial_unique m k p :
  length m = (k * bs + p)%nat -> (p < bs)%nat -> whole m = k.
Proof.
  intros H Hp. unfold whole. rewrite H, Nat.add_comm, Nat.div_add by lia.
  by rewrite Nat.div_small.
Qed.

Lemma chunks_whole m : chunks bs m = chunks bs (take (whole m * bs) m).
Proof.
  rewrite <- (take_drop (whole m * bs) m) at 1.
  rewrite (chunks_app (whole m)); [|done|].
  - fold (partial m). rewrite (chunks_short bs (partial m)) by apply partial_short.
    apply app_nil_r.
  - rewrite length_take. pose proof (partial_length m). lia.
Qed.

(** Bytes that do not fill the block stay pending. *)
Lemma append_short m data :
  (length (partial m) + length data < bs)%nat ->
  whole (m ++ data) = whole m /\ partial (m ++ data) = partial m ++ data /\
  chunks bs (m ++ data) = chunks bs m.
Proof.
  intros Hlt. pose proof (partial_length m) as Hm.
  assert (whole (m ++ data) = whole m) as Hw.
  { apply (whole_partial_unique _ _ (length (partial m) + length data)); [|done].
    rewrite length_app. lia. }
  repeat split; [done | |].
  - unfold partial. rewrite Hw, drop_app_le by lia. done.
  - rewrite (chunks_whole (m ++ data)), (chunks_whole m), Hw, take_app_le by lia. done.
Qed.

(** Bytes that fill the block complete one more chunk. *)
Lemma append_fill m data :
  (length (partial m) + length data = bs)%nat ->
  whole (m ++ data) = S (whole m) /\ partial (m ++ data) = [] /\
  chunks bs (m ++ data) = chunks bs m ++ [partial m ++ data].
Proof.
  intros Heq. pose proof (partial_length m) as Hm.
  assert (whole (m ++ data) = S (whole m)) as Hw.
  { apply (whole_partial_unique _ _ 0); [rewrite length_app; lia | done]. }
  repeat split; [done | |].
  - unfold partial. rewrite Hw. apply drop_ge. rewrite length_app. lia.
  - rewrite (chunks_whole m). rewrite <- (take_drop (whole m * bs) m) at 1.
    rewrite <- (app_assoc _ _ data). fold (partial m). rewrite (chunks_app (whole m)).
    + rewrite (chunks_one bs (partial m ++ data)); [done | done | rewrite length_app; lia].
    + done.
    + rewrite length_take. lia.
Qed.
End whole_blocks.

Section invariant.
Context {C A F : Type} `{!BlockCtx C} `{!BlockCtxLaws C} `{!BlockView C A F}.
(** The block size in bytes, the capacity of the block array (larger than a
    block for Keccak) and the compression function on chaining values. *)
Context (bs : nat) (cap : Z) (compress : A -> list Z -> A) (limited : bool).
Implicit Types (c : C) (m data : list Z).

(** A block function that compresses the first [bs] bytes of the block.
    What it leaves in the block is unspecified, only its size matters. *)
Definition block_fn_spec (f0 : F) (block_fn : C -> C) : Prop :=
  forall c, zlen (bc_block c) = cap -> frame c = f0 ->
    accv (block_fn c) = compress (accv c) (take bs (bc_block c)) /\
    zlen (bc_block (block_fn c)) = cap /\
    bc_counter (block_fn c) = bc_counter c /\
    frame (block_fn c) = f0.

(** [holds a0 blen c m]: from the chaining value [a0], the context has
    absorbed [m], with [blen] bytes pending in the block. *)
Record holds (a0 : A) (f0 : F) (blen : Z) (c : C) (m : list Z) : Prop := {
  h_cap : zlen (bc_block c) = cap;
  h_frame : frame c = f0;
  h_blen : blen = zlen (partial bs m);
  h_counter : bc_counter c = w32 (Z.of_nat (whole bs m));
  h_acc : accv c = fold_left compress (chunks bs m) a0;
  h_pending : ztake blen (bc_block c) = partial bs m;
}.

(** The context represents [m]. *)
Definition repr (a0 : A) (f0 : F) (c : C) (m : list Z) : Prop :=
  holds a0 f0 (bc_blen c) c m.

Context (Hbs : (0 < bs)%nat) (Hsmall : Z.of_nat bs < 65536) (Hcap : Z.of_nat bs <= cap).
Context (block_fn : C -> C) (a0 : A) (f0 : F) (Hblock : block_fn_spec f0 block_fn).

(** [ctx->blen] plays no part while its value is kept in a local. *)
Lemma holds_set_blen blen n c m :
  holds a0 f0 blen c m -> holds a0 f0 blen (bc_set_blen n c) m.
Proof.
  intros []. split; rewrite ?block_set_blen, ?counter_set_blen, ?acc_set_blen,
    ?frame_set_blen; done.
Qed.

Lemma holds_blen_range blen c m : holds a0 f0 blen c m -> 0 <= blen < Z.of_nat bs.
Proof.
  intros H. rewrite (h_blen _ _ _ _ _ H). pose proof (partial_short bs Hbs m).
  unfold zlen. lia.
Qed.

(** ** Copying bytes behind the pending ones *)

Lemma copy_block_ok blen c m data :
  holds a0 f0 blen c m -> blen + zlen data <= Z.of_nat bs ->
  exists c', copy_block blen data c = Ret tt c' /\ zlen (bc_block c') = cap /\
    ztake (blen + zlen data) (bc_block c') = partial bs m ++ data /\
    bc_counter c' = bc_counter c /\ accv c' = accv c /\ frame c' = frame c.
Proof.
  intros [Hc Hf Hb _ _ Hp] Hle. pose proof (zlen_nonneg data).
  assert (0 <= blen) by (rewrite Hb; apply zlen_nonneg).
  unfold copy_block, mbind, mgets, mlift, mmodify.
  rewrite write_at_ok by lia. eexists. split; [reflexivity|].
  rewrite block_set_block, counter_set_block, acc_set_block, frame_set_block.
  repeat split.
  - rewrite !zlen_app, zlen_ztake, zlen_zdrop by lia. lia.
  - rewrite Hp, app_assoc. apply ztake_app_l. rewrite zlen_app. lia.
Qed.

Lemma holds_append_short blen c m data :
  holds a0 f0 blen c m -> blen + zlen data < Z.of_nat bs ->
  exists c', copy_block blen data c = Ret tt c' /\
    holds a0 f0 (blen + zlen data) c' (m ++ data).
Proof.
  intros H Hlt. destruct (copy_block_ok _ _ _ data H) as (c' & Hc & Hl & Ht & Hn & Ha & Hf);
    [lia|]. exists c'. split; [done|]. destruct H as [? ? Hb ? ? ?].
  destruct (append_short bs Hbs m data) as (Ew & Ep & Ec); [unfold zlen in *; lia|].
  split; rewrite ?Ew, ?Ep, ?Ec; try congruence.
  rewrite zlen_app. lia.
Qed.

(** ** One turn of the loop *)

Lemma one_block blen c m chunk :
  holds a0 f0 blen c m -> blen + zlen chunk = Z.of_nat bs ->
  exists c1, copy_block blen chunk c = Ret tt c1 /\
    holds a0 f0 0 (bc_set_counter (w32 (bc_counter (block_fn c1) + 1)) (block_fn c1))
      (m ++ chunk).
Proof.
  intros H Heq. destruct (copy_block_ok _ _ _ chunk H) as (c1 & Hc & Hl & Ht & Hn & Ha & Hf);
    [lia|]. exists c1. split; [done|]. destruct H as [? Hfr Hb Hcnt Hacc ?].
  destruct (append_fill bs Hbs m chunk) as (Ew & Ep & Ec); [unfold zlen in *; lia|].
  destruct (Hblock c1) as (B1 & B2 & B3 & B4); [done | congruence |].
  split; rewrite ?block_set_counter, ?counter_set_counter, ?acc_set_counter,
    ?frame_set_counter, ?Ew, ?Ep, ?Ec; try done.
  - rewrite B3, Hn, Hcnt. unfold w32.
    rewrite Z.add_mod_idemp_l by lia. f_equal. lia.
  - rewrite fold_left_app, B1, Ha, Hacc. cbn [fold_left]. f_equal.
    rewrite <- Ht, Heq. unfold ztake. by rewrite Nat2Z.id.
Qed.

(** ** The loop *)

Lemma run_block blen c m chunk rest :
  holds a0 f0 blen c m -> blen + zlen chunk = Z.of_nat bs ->
  zlen (chunk ++ rest) < 4294967296 ->
  limited = false \/ Z.of_nat (whole bs m) < 65535 ->
  exists c', holds a0 f0 0 c' (m ++ chunk) /\
    forall fuel,
      process_blocks limited (Z.of_nat bs) block_fn (S fuel) blen (zlen chunk)
        (chunk ++ rest) (zlen (chunk ++ rest)) c
      = if Z.of_nat bs <=? zlen rest
        then process_blocks limited (Z.of_nat bs) block_fn fuel 0 (Z.of_nat bs)
               rest (zlen rest) c'
        else Ret (rest, zlen rest) c'.
Proof.
  intros H Heq Hlen Hlim. destruct (one_block _ _ _ _ H Heq) as (c1 & Hc & H').
  eexists. split; [exact H'|]. intros fuel.
  pose proof (zlen_nonneg chunk). pose proof (zlen_nonneg rest).
  cbn [process_blocks]. unfold mbind at 1. unfold mgets at 1.
  destruct (limited && (bc_counter c =? CX_HASH_MAX_BLOCK_COUNT)) eqn:El.
  { exfalso. apply andb_true_iff in El as [El Ec]. rewrite El in Hlim.
    rewrite (h_counter _ _ _ _ _ H) in Ec. unfold w32, CX_HASH_MAX_BLOCK_COUNT in Ec.
    destruct Hlim as [|Hw]; [done|]. rewrite Z.mod_small in Ec by lia. lia. }
  rewrite zlen_app in *.
  rewrite (mlift_some _ _ _ chunk)
    by (rewrite read_at_ok, zdrop_0, ztake_app_l; rewrite ?zlen_app; lia || done).
  rewrite (mbind_ret _ _ _ _ _ Hc). unfold mbind, mmodify, mret.
  rewrite zdrop_app_l by done.
  replace (w32 (zlen chunk + zlen rest - zlen chunk)) with (zlen rest)
    by (unfold w32; rewrite Z.mod_small; lia).
  by destruct (_ <=? _).
Qed.

Lemma split_fill blen c m data :
  holds a0 f0 blen c m -> Z.of_nat bs <= blen + zlen data ->
  exists chunk rest, data = chunk ++ rest /\ blen + zlen chunk = Z.of_nat bs /\
    zlen chunk = Z.of_nat bs - blen.
Proof.
  intros H Hle. exists (ztake (Z.of_nat bs - blen) data), (zdrop (Z.of_nat bs - blen) data).
  rewrite ztake_zdrop. pose proof (partial_short bs Hbs m).
  pose proof (h_blen _ _ _ _ _ H) as Hb. unfold zlen in Hb.
  split; [done|]. rewrite zlen_ztake by lia. lia.
Qed.

Lemma whole_fill m chunk rest :
  (length (partial bs m) + length chunk = bs)%nat ->
  (whole bs m < whole bs (m ++ chunk ++ rest))%nat.
Proof.
  intros Hf. destruct (append_fill bs Hbs _ _ Hf) as (Hw & _ & _).
  pose proof (partial_length bs Hbs (m ++ chunk)) as Hl. rewrite Hw in Hl.
  rewrite app_assoc. unfold whole at 2. rewrite length_app.
  apply Nat.div_le_lower_bound; lia.
Qed.

(** All the whole blocks are processed when the count stays in bounds. *)
Lemma process_blocks_ok fuel blen c m data :
  holds a0 f0 blen c m -> Z.of_nat bs <= blen + zlen data ->
  zlen data < 4294967296 -> (length data < fuel)%nat ->
  limited = false \/ Z.of_nat (whole bs (m ++ data)) <= 65535 ->
  exists c' done rest,
    process_blocks limited (Z.of_nat bs) block_fn fuel blen (Z.of_nat bs - blen)
      data (zlen data) c = Ret (rest, zlen rest) c' /\
    data = done ++ rest /\ zlen rest < Z.of_nat bs /\
    holds a0 f0 0 c' (m ++ done).
Proof.
  revert blen c m data. induction fuel as [|fuel IH];
    intros blen c m data H Hle Hlen Hfuel Hlim; [lia|].
  destruct (split_fill _ _ _ _ H Hle) as (chunk & rest & -> & Hck & Hck').
  pose proof (h_blen _ _ _ _ _ H) as Hb.
  assert (length (partial bs m) + length chunk = bs)%nat as Hfill by (unfold zlen in *; lia).
  destruct (run_block _ _ _ _ rest H Hck Hlen) as (c' & H' & Hrun).
  { destruct Hlim as [|Hw]; [by left|right].
    pose proof (whole_fill m chunk rest Hfill). lia. }
  rewrite <- Hck', Hrun. destruct (Z.leb_spec (Z.of_nat bs) (zlen rest)) as [Hr|Hr].
  - destruct (IH 0 c' (m ++ chunk) rest) as (c2 & d & r & Hp & -> & Hs & Hh); try done.
    + rewrite zlen_app in Hlen. pose proof (zlen_nonneg chunk). lia.
    + rewrite length_app in Hfuel. pose proof (partial_short bs Hbs m). lia.
    + by rewrite <- app_assoc.
    + exists c2, (chunk ++ d), r. rewrite Z.sub_0_r in Hp.
      rewrite <- !app_assoc in *. by rewrite Hp.
  - by exists c', chunk, rest.
Qed.

(** The block count limit: the loop throws, whatever was absorbed before. *)
Lemma process_blocks_limit fuel blen c m data :
  limited = true -> holds a0 f0 blen c m -> Z.of_nat bs <= blen + zlen data ->
  zlen data < 4294967296 -> (length data < fuel)%nat ->
  Z.of_nat (whole bs m) <= 65535 < Z.of_nat (whole bs (m ++ data)) ->
  exists c',
    process_blocks limited (Z.of_nat bs) block_fn fuel blen (Z.of_nat bs - blen)
      data (zlen data) c = Throw INVALID_PARAMETER c'.
Proof.
  intros Hl. revert blen c m data. induction fuel as [|fuel IH];
    intros blen c m data H Hle Hlen Hfuel Hw; [lia|].
  destruct (split_fill _ _ _ _ H Hle) as (chunk & rest & -> & Hck & Hck').
  pose proof (h_blen _ _ _ _ _ H) as Hb.
  assert (length (partial bs m) + length chunk = bs)%nat as Hfill by (unfold zlen in *; lia).
  destruct (decide (Z.of_nat (whole bs m) = 65535)) as [He|Hne].
  { exists c. cbn [process_blocks]. unfold mbind at 1. unfold mgets at 1.
    rewrite Hl, (h_counter _ _ _ _ _ H), He. done. }
  destruct (run_block _ _ _ _ rest H Hck Hlen) as (c' & H' & Hrun); [right; lia|].
  destruct (append_fill bs Hbs _ _ Hfill) as (Ew & Ep & _).
  rewrite <- Hck', Hrun. rewrite app_assoc in Hw.
  destruct (Z.leb_spec (Z.of_nat bs) (zlen rest)) as [Hr|Hr].
  - specialize (IH 0 c' (m ++ chunk) rest). rewrite Z.sub_0_r in IH. apply IH; try done.
    + rewrite zlen_app in Hlen. pose proof (zlen_nonneg chunk). lia.
    + rewrite length_app in Hfuel. pose proof (partial_short bs Hbs m). lia.
    + lia.
  - exfalso. destruct (append_short bs Hbs (m ++ chunk) rest) as (Ew' & _ & _);
      [rewrite Ep; simpl; unfold zlen in Hr; lia|]. lia.
Qed.

(** ** The whole update *)

Lemma append_data_ok blen c m data :
  holds a0 f0 blen c m -> zlen data + Z.of_nat bs < 4294967296 ->
  limited = false \/ Z.of_nat (whole bs (m ++ data)) <= 65535 ->
  exists c',
    append_data limited (Z.of_nat bs) block_fn blen data (zlen data) c = Ret 1 c' /\
    repr a0 f0 c' (m ++ data).
Proof.
  intros H Hlen Hlim. pose proof (zlen_nonneg data). pose proof (partial_short bs Hbs m).
  pose proof (h_blen _ _ _ _ _ H) as Hb. unfold zlen in Hb.
  assert (forall blen c m rest, holds a0 f0 blen c m -> blen + zlen rest < Z.of_nat bs ->
    exists c', mbind (mlift (read_at rest 0 (zlen rest))) (fun r =>
        mbind (copy_block blen r) (fun _ =>
        mbind (mmodify (bc_set_blen (w32 (blen + zlen rest)))) (fun _ => mret 1))) c
      = Ret 1 c' /\ repr a0 f0 c' (m ++ rest)) as Hend.
  { clear - BlockCtxLaws0 Hbs Hsmall Hcap. intros blen c m rest H Hlt.
    pose proof (h_blen _ _ _ _ _ H) as Hb.
    pose proof (zlen_nonneg rest). pose proof (zlen_nonneg (partial bs m)).
    rewrite (mlift_some _ _ _ rest) by apply read_at_all.
    destruct (holds_append_short _ _ _ _ H Hlt) as (c' & Hc & H').
    rewrite (mbind_ret _ _ _ _ _ Hc). unfold mbind, mmodify, mret.
    replace (w32 (blen + zlen rest)) with (blen + zlen rest)
      by (unfold w32; rewrite Z.mod_small; lia).
    eexists. split; [done|]. unfold repr. rewrite blen_set_blen.
    destruct H'. split; rewrite ?block_set_blen, ?counter_set_blen,
      ?acc_set_blen, ?frame_set_blen; done. }
  unfold append_data.
  replace (w32 (blen + zlen data)) with (blen + zlen data)
    by (unfold w32; rewrite Z.mod_small; lia).
  replace (w32 (Z.of_nat bs - blen)) with (Z.of_nat bs - blen)
    by (unfold w32; rewrite Z.mod_small; lia).
  destruct (Z.leb_spec (Z.of_nat bs) (blen + zlen data)).
  - destruct (process_blocks_ok (S (Z.to_nat (zlen data))) blen c m data)
      as (c1 & d & r & Hp & -> & Hr & Hh1); try done; [lia | unfold zlen; lia |].
    destruct (Hend 0 c1 (m ++ d) r) as (c2 & Hc2 & Hh2); [done | lia |].
    exists c2. rewrite <- app_assoc in Hh2. split; [|done].
    unfold mbind at 1 2. rewrite Hp. exact Hc2.
  - destruct (Hend blen c m data) as (c2 & Hc2 & Hh2); [done | lia |].
    exists c2. split; [|done]. exact Hc2.
Qed.

Lemma append_data_limit blen c m data :
  limited = true -> holds a0 f0 blen c m -> zlen data + Z.of_nat bs < 4294967296 ->
  Z.of_nat (whole bs m) <= 65535 < Z.of_nat (whole bs (m ++ data)) ->
  exists c',
    append_data limited (Z.of_nat bs) block_fn blen data (zlen data) c
    = Throw INVALID_PARAMETER c'.
Proof.
  intros Hl H Hlen Hw. pose proof (zlen_nonneg data). pose proof (partial_short bs Hbs m).
  pose proof (h_blen _ _ _ _ _ H) as Hb. unfold zlen in Hb.
  unfold append_data.
  replace (w32 (blen + zlen data)) with (blen + zlen data)
    by (unfold w32; rewrite Z.mod_small; lia).
  replace (w32 (Z.of_nat bs - blen)) with (Z.of_nat bs - blen)
    by (unfold w32; rewrite Z.mod_small; lia).
  destruct (Z.leb_spec (Z.of_nat bs) (blen + zlen data)) as [Hle|Hlt].
  - destruct (process_blocks_limit (S (Z.to_nat (zlen data))) blen c m data)
      as (c1 & Hp); try done; [lia | unfold zlen; lia |].
    exists c1. unfold mbind at 1 2. by rewrite Hp.
  - exfalso. destruct (append_short bs Hbs m data) as (Ew & _ & _); [unfold zlen in *; lia|].
    lia.
Qed.
End invariant.

(** * Merkle-Damgard padding *)

(** The message, the bit 1, the zeros that align, the length field. *)
Definition md_pad (bs lsz : nat) (len_field m : list Z) : list Z :=
  m ++ 0x80 :: replicate ((2 * bs - 1 - lsz - length m mod bs) mod bs)%nat 0 ++ len_field.

Section padding.
Context {C A F : Type} `{!BlockCtx C} `{!BlockCtxLaws C} `{!BlockView C A F}.
Context (bs lsz : nat) (compress : A -> list Z -> A).
Context (Hlsz : (8 <= lsz < bs)%nat) (Hsmall : Z.of_nat bs < 65536).
Context (block_fn : C -> C) (a0 : A) (f0 : F)
  (Hblock : block_fn_spec bs (Z.of_nat bs) compress f0 block_fn).
Implicit Types (c : C) (m : list Z).

Local Abbreviation holds := (holds bs (Z.of_nat bs) compress a0 f0).
Local Abbreviation repr := (repr bs (Z.of_nat bs) compress a0 f0).

(** The blocks of the padded message: those of the message, then one or
    two more. *)
Lemma md_pad_chunks m len_field :
  length len_field = lsz ->
  let p := partial bs m in
  chunks bs (md_pad bs lsz len_field m) = chunks bs m ++
    (if (bs - (length p + 1) <? lsz)%nat
     then [p ++ 0x80 :: replicate (bs - (length p + 1)) 0;
           replicate (bs - lsz) 0 ++ len_field]
     else [p ++ 0x80 :: replicate (bs - (length p + 1) - lsz) 0 ++ len_field]).
Proof.
  intros Hlen p. pose proof (partial_short bs ltac:(lia) m) as Hp.
  pose proof (partial_length bs ltac:(lia) m) as Hm. fold p in Hp, Hm.
  assert (length m mod bs = length p)%nat as Hmod.
  { rewrite Hm, Nat.add_comm, Nat.Div0.mod_add. by apply Nat.mod_small. }
  unfold md_pad. rewrite Hmod.
  rewrite (chunks_whole bs ltac:(lia) m). rewrite <- (take_drop (whole bs m * bs) m) at 1.
  rewrite <- app_assoc, (chunks_app (whole bs m));
    [|lia | rewrite length_take; lia]. f_equal.
  change (drop (whole bs m * bs) m) with p.
  destruct (Nat.ltb_spec (bs - (length p + 1)) lsz) as [Hlt|Hge].
  - rewrite Nat.mod_small by lia.
    replace (2 * bs - 1 - lsz - length p)%nat
      with ((bs - (length p + 1)) + (bs - lsz))%nat by lia.
    rewrite replicate_add, <- (app_assoc (replicate _ _)), app_comm_cons, (app_assoc p).
    rewrite (chunks_app 1); [|lia | rewrite length_app; simpl; rewrite length_replicate; lia].
    rewrite chunks_one, chunks_one; [done | lia | | lia |];
      rewrite length_app; simpl; rewrite ?length_replicate; lia.
  - rewrite <- (Nat.Div0.mod_add _ 0).
    replace ((2 * bs - 1 - lsz - length p + 0 * bs) mod bs)%nat
      with (bs - (length p + 1) - lsz)%nat.
    2:{ rewrite Nat.mul_0_l, Nat.add_0_r.
        replace (2 * bs - 1 - lsz - length p)%nat
          with (bs - (length p + 1) - lsz + 1 * bs)%nat by lia.
        rewrite Nat.Div0.mod_add. symmetry. apply Nat.mod_small. lia. }
    rewrite chunks_one; [done | lia |].
    rewrite length_app; simpl; rewrite length_app, length_replicate; lia.
Qed.

(** ** The memory operations of the padding *)

Lemma copy_block_write blen src c :
  0 <= blen -> blen + zlen src <= zlen (bc_block c) ->
  copy_block blen src c
  = Ret tt (bc_set_block (ztake blen (bc_block c) ++ src ++
                          zdrop (blen + zlen src) (bc_block c)) c).
Proof.
  intros. unfold copy_block, mbind, mgets, mlift, mmodify. by rewrite write_at_ok.
Qed.

Lemma clear_block_end blen c :
  0 <= blen <= zlen (bc_block c) ->
  clear_block blen (zlen (bc_block c) - blen) c
  = Ret tt (bc_set_block (ztake blen (bc_block c) ++ zeros (zlen (bc_block c) - blen)) c).
Proof.
  intros. unfold clear_block, mbind, mgets, mlift, mmodify.
  by rewrite memset_at_end by lia.
Qed.

(** Clearing the end of the block, then writing the length field. *)
Lemma last_block c blen p f :
  zlen (bc_block c) = Z.of_nat bs -> 0 <= blen -> blen + Z.of_nat lsz <= Z.of_nat bs ->
  ztake blen (bc_block c) = p -> frame c = f0 -> zlen f = 8 ->
  exists c', mbind (clear_block blen (Z.of_nat bs - blen)) (fun _ =>
      mbind (copy_block (Z.of_nat bs - 8) f) (fun _ => mmodify block_fn)) c = Ret tt c' /\
    accv c' = compress (accv c) (p ++ replicate (bs - Z.to_nat blen - 8) 0 ++ f) /\
    frame c' = f0 /\ zlen (bc_block c') = Z.of_nat bs.
Proof.
  intros Hb H0 Hle Hp Hf Hl. unfold mbind at 1. rewrite <- Hb, clear_block_end by lia.
  set (c1 := bc_set_block _ c).
  assert (bc_block c1 = p ++ zeros (Z.of_nat bs - blen)) as Hc1
    by (unfold c1; rewrite block_set_block, Hp, Hb; done).
  assert (zlen (bc_block c1) = Z.of_nat bs) as Hz1.
  { rewrite Hc1, zlen_app, zlen_zeros, <- Hp, zlen_ztake by lia. lia. }
  unfold mbind at 1. rewrite Hb, copy_block_write by lia.
  set (c2 := bc_set_block _ c1).
  assert (bc_block c2 = p ++ replicate (bs - Z.to_nat blen - 8) 0 ++ f) as Hc2.
  { unfold c2. rewrite block_set_block, (zdrop_all _ (bc_block c1)) by lia.
    rewrite app_nil_r, app_assoc. f_equal. rewrite Hc1.
    replace (zeros (Z.of_nat bs - blen))
      with (replicate (bs - Z.to_nat blen - 8) 0 ++ replicate 8 0)
      by (unfold zeros; rewrite <- replicate_add; f_equal; lia).
    rewrite app_assoc. apply ztake_app_l.
    rewrite zlen_app, zlen_replicate, <- Hp, zlen_ztake by lia. lia. }
  assert (zlen (bc_block c2) = Z.of_nat bs) as Hz2.
  { rewrite Hc2, !zlen_app, zlen_replicate, <- Hp, zlen_ztake by lia. lia. }
  destruct (Hblock c2 Hz2) as (B1 & B2 & _ & B4).
  { unfold c2, c1. by rewrite !frame_set_block. }
  eexists. split; [reflexivity|]. repeat split; try done.
  rewrite B1. unfold c2 at 1, c1. rewrite !acc_set_block. f_equal.
  rewrite Hc2. apply take_ge.
  rewrite <- Hc2. unfold zlen in Hz2. lia.
Qed.

Context (track : bool) (bitlen : Z -> Z -> Z) (len_field : Z -> list Z).
Context (Hfield : forall x, zlen (len_field x) = 8).

Lemma store_ret n c :
  (if track then mmodify (bc_set_blen n) else mret tt) c
  = Ret tt (if track then bc_set_blen n c else c).
Proof. by destruct track. Qed.

Lemma tracked_same n c :
  let c' := if track then bc_set_blen n c else c in
  bc_block c' = bc_block c /\ bc_counter c' = bc_counter c /\
  accv c' = accv c /\ frame c' = frame c.
Proof.
  destruct track; simpl; [|done].
  by rewrite block_set_blen, counter_set_blen, acc_set_blen, frame_set_blen.
Qed.

(** The two length-dependent shapes of the padding compute the chaining
    value of the padded message. *)
Lemma pad_blocks_ok c m :
  repr c m ->
  exists c',
    pad_blocks (Z.of_nat bs) block_fn track (Z.of_nat lsz) bitlen len_field c = Ret tt c' /\
    accv c' = fold_left compress
      (chunks bs (md_pad bs lsz
         (replicate (lsz - 8) 0 ++
          len_field (bitlen (bc_counter c) (zlen (partial bs m) + 1))) m)) a0 /\
    frame c' = f0 /\ zlen (bc_block c') = Z.of_nat bs.
Proof.
  intros [Hc Hf Hb Hcnt Hacc Hp]. pose proof (partial_short bs ltac:(lia) m) as Hlt.
  set (p := partial bs m) in *. set (len := bitlen _ _).
  assert (0 <= zlen p < Z.of_nat bs) as Hzp by (unfold zlen; lia).
  unfold pad_blocks. unfold mbind at 1, mgets at 1.
  rewrite Hb. unfold mbind at 1.
  rewrite copy_block_write by (rewrite ?zlen_cons, ?zlen_nil; simpl; unfold zlen in *; simpl; lia).
  set (c1 := bc_set_block _ c). replace (w32 (zlen p + 1)) with (zlen p + 1)
    by (unfold w32; rewrite Z.mod_small; lia).
  unfold mbind at 1. rewrite store_ret.
  destruct (tracked_same (zlen p + 1) c1) as (T1 & T2 & T3 & T4).
  set (c2 := if track then _ else _) in *. unfold mbind at 1, mgets at 1.
  assert (bc_counter c2 = bc_counter c) as -> by (rewrite T2; apply counter_set_block).
  fold len. unfold w32. rewrite Z.mod_small by lia.
  assert (zlen (bc_block c2) = Z.of_nat bs) as Hz2.
  { rewrite T1. unfold c1. rewrite block_set_block, !zlen_app, zlen_ztake by lia.
    change (zlen [128]) with 1. rewrite zlen_zdrop by lia. lia. }
  assert (ztake (zlen p + 1) (bc_block c2) = p ++ [128]) as Hp2.
  { rewrite T1. unfold c1. rewrite block_set_block, <- Hb, Hp, app_assoc.
    apply ztake_app_l. rewrite zlen_app. change (zlen [128]) with 1. lia. }
  assert (accv c2 = fold_left compress (chunks bs m) a0) as Ha2
    by (rewrite T3; unfold c1; rewrite acc_set_block; done).
  assert (frame c2 = f0) as Hf2 by (rewrite T4; unfold c1; rewrite frame_set_block; done).
  rewrite md_pad_chunks by (rewrite length_app, length_replicate; specialize (Hfield len);
    unfold zlen in Hfield; lia).
  fold p. rewrite fold_left_app, <- Ha2.
  destruct (Nat.ltb_spec (bs - (length p + 1)) lsz) as [Hshort|Hlong].
  - destruct (Z.ltb_spec (Z.of_nat bs - (zlen p + 1)) (Z.of_nat lsz)); [|unfold zlen in *; lia].
    unfold mbind at 1. unfold mbind at 1. rewrite <- Hz2, clear_block_end by lia.
    set (c3 := bc_set_block _ c2).
    assert (bc_block c3 = p ++ 128 :: replicate (bs - (length p + 1)) 0) as Hc3.
    { unfold c3. rewrite block_set_block, Hp2, <- app_assoc. simpl. do 2 f_equal.
      unfold zeros. f_equal. unfold zlen in *. lia. }
    assert (zlen (bc_block c3) = Z.of_nat bs) as Hz3.
    { rewrite Hc3, zlen_app, zlen_cons, zlen_replicate. unfold zlen. lia. }
    destruct (Hblock c3 Hz3) as (B1 & B2 & _ & B4); [unfold c3; by rewrite frame_set_block|].
    unfold mbind at 1, mmodify at 1. unfold mbind at 1. rewrite store_ret.
    destruct (tracked_same 0 (block_fn c3)) as (U1 & _ & U3 & U4).
    set (c4 := if track then bc_set_blen 0 (block_fn c3) else block_fn c3) in *. unfold mret at 1.
    rewrite Hz2, Z.sub_0_r, Z.mod_small by lia.
    destruct (last_block c4 0 [] (len_field len)) as (c' & Hr & Ha & Hfr & Hz);
      [by rewrite U1 | lia | lia | done | by rewrite U4 | done |].
    rewrite Z.sub_0_r in Hr. exists c'. split; [exact Hr|]. split; [|done].
    rewrite Ha, U3, B1. cbn [fold_left]. unfold c3 at 1. rewrite acc_set_block, Hc3.
    f_equal; [f_equal; apply take_ge; unfold zlen in Hz3; rewrite Hc3 in Hz3; lia|].
    simpl. rewrite app_assoc, <- replicate_add. do 2 f_equal. lia.
  - destruct (Z.ltb_spec (Z.of_nat bs - (zlen p + 1)) (Z.of_nat lsz)); [unfold zlen in *; lia|].
    unfold mbind at 1, mret. rewrite Z.mod_small by lia.
    destruct (last_block c2 (zlen p + 1) _ (len_field len) Hz2 ltac:(lia) ltac:(lia) Hp2 Hf2
      (Hfield len)) as (c' & Hr & Ha & Hfr & Hz).
    exists c'. split; [exact Hr|]. split; [|done]. rewrite Ha. cbn [fold_left]. f_equal.
    rewrite <- app_assoc. simpl. do 2 f_equal. rewrite app_assoc, <- replicate_add.
    do 2 f_equal. unfold zlen in *. lia.
Qed.
End padding.

(** * What the operations never touch *)

Section frames.
Context {C A F : Type} `{!BlockCtx C} `{!BlockCtxLaws C} `{!BlockView C A F}.
Context (f0 : F) (block_fn : C -> C) (Hblock : forall c, frame c = f0 -> frame (block_fn c) = f0).

Local Abbreviation framed := (fun c : C => frame c = f0).

Ltac frame_auto := keeps_auto;
  rewrite ?frame_set_counter, ?frame_set_block, ?frame_set_blen; auto.

Lemma copy_block_frame n src : keeps framed (copy_block n src).
Proof. unfold copy_block. frame_auto. Qed.

Lemma clear_block_frame n k : keeps framed (clear_block n k).
Proof. unfold clear_block. frame_auto. Qed.

Hint Resolve copy_block_frame clear_block_frame : keeps.

Lemma process_blocks_frame limited bs fuel n r data len :
  keeps framed (process_blocks limited bs block_fn fuel n r data len).
Proof.
  revert n r data len. induction fuel as [|fuel IH]; intros; simpl; [auto with keeps|].
  frame_auto.
Qed.

Hint Resolve process_blocks_frame : keeps.

Lemma append_data_frame limited bs n data len :
  keeps framed (append_data limited bs block_fn n data len).
Proof. unfold append_data. frame_auto. Qed.

Lemma pad_blocks_frame bs track lsz bitlen field :
  keeps framed (pad_blocks bs block_fn track lsz bitlen field).
Proof. unfold pad_blocks. frame_auto. Qed.
End frames.
