(* ===== verification/HashCtx.v ===== *)
(** The message digest identifiers, sizes and contexts of
    [src/bolos/cx_hash.h] that the SHA-2 and RIPEMD-160 files share. *)

From S2P Require Import Prelude CxUtils BlockStream.

Definition CX_RIPEMD160_SIZE : Z := 20.
Definition CX_SHA224_SIZE : Z := 28.
Definition CX_SHA256_SIZE : Z := 32.
Definition CX_SHA384_SIZE : Z := 48.
Definition CX_SHA512_SIZE : Z := 64.

Definition RIPEMD_BLOCK_SIZE : Z := 64.
Definition SHA256_BLOCK_SIZE : Z := 64.
Definition SHA512_BLOCK_SIZE : Z := 128.
Definition MAX_HASH_SIZE : Z := CX_SHA512_SIZE.
Definition MAX_HASH_BLOCK_SIZE : Z := SHA512_BLOCK_SIZE.

Inductive cx_md_t :=
| CX_NONE
| CX_RIPEMD160
| CX_SHA224
| CX_SHA256
| CX_SHA384
| CX_SHA512
| CX_KECCAK
| CX_SHA3
| CX_SHA3_XOF
| CX_GROESTL
| CX_BLAKE2B
| CX_SHAKE128
| CX_SHAKE256
| CX_SHA3_256.

(** The values of the enumeration. *)
Definition md_code (a : cx_md_t) : Z :=
  match a with
  | CX_NONE => 0
  | CX_RIPEMD160 => 1
  | CX_SHA224 => 2
  | CX_SHA256 => 3
  | CX_SHA384 => 4
  | CX_SHA512 => 5
  | CX_KECCAK => 6
  | CX_SHA3 => 7
  | CX_SHA3_XOF => 8
  | CX_GROESTL => 9
  | CX_BLAKE2B => 10
  | CX_SHAKE128 => 11
  | CX_SHAKE256 => 12
  | CX_SHA3_256 => 13
  end.

#[export] Instance cx_md_t_eq_dec : EqDecision cx_md_t.
Proof. solve_decision. Defined.

(** The fields of [cx_sha256_t], [cx_sha512_t] and [cx_ripemd160_t], which
    differ in the sizes of [block] (64, 128, 64 bytes) and of [acc] (8 32-bit
    words, 8 64-bit words, 5 32-bit words). [acc] is only accessed as words. *)
Record md_ctx := mk_md_ctx {
  algo : cx_md_t;
  counter : Z;
  blen : Z;
  block : list Z;
  acc : list Z;
}.

#[export] Instance md_ctx_eq_dec : EqDecision md_ctx.
Proof. solve_decision. Defined.

Definition set_counter (n : Z) (c : md_ctx) : md_ctx :=
  mk_md_ctx (algo c) n (blen c) (block c) (acc c).
Definition set_blen (n : Z) (c : md_ctx) : md_ctx :=
  mk_md_ctx (algo c) (counter c) n (block c) (acc c).
Definition set_block (b : list Z) (c : md_ctx) : md_ctx :=
  mk_md_ctx (algo c) (counter c) (blen c) b (acc c).
Definition set_acc (a : list Z) (c : md_ctx) : md_ctx :=
  mk_md_ctx (algo c) (counter c) (blen c) (block c) a.

#[export] Instance md_block_ctx : BlockCtx md_ctx := {|
  bc_blen := blen; bc_set_blen := set_blen;
  bc_block := block; bc_set_block := set_block;
  bc_counter := counter; bc_set_counter := set_counter;
|}.

#[export] Instance md_block_laws : BlockCtxLaws md_ctx.
Proof. by constructor. Qed.

#[export] Instance md_block_view : BlockView md_ctx (list Z) cx_md_t.
Proof. by refine {| accv := acc; frame := algo |}. Defined.

(** Replaces the interface's projections by the fields of the context. *)
Ltac md_cbn :=
  cbn [accv frame bc_blen bc_set_blen bc_block bc_set_block bc_counter bc_set_counter
       md_block_ctx md_block_view] in *.

(** [for (i = 0; i < n; i++) update(ctx, parts[i], len_i)]: a client that
    hands over a message in pieces. *)
Fixpoint feed_all {C} (update : option (list Z) -> Z -> M C Z) (parts : list (list Z))
  : M C Z :=
  match parts with
  | [] => mret 1
  | p :: parts' => do! update (Some p) (zlen p) in feed_all update parts'
  end.

(** When the update appends to what the context represents, feeding all the
    parts appends their concatenation. *)
Lemma feed_all_ok {C} update (R : C -> list Z -> Prop) (Q : list Z -> Prop) (N : Z) :
  (forall c m p, R c m -> Q p -> zlen (m ++ p) < N ->
     exists c', update (Some p) (zlen p) c = Ret 1 c' /\ R c' (m ++ p)) ->
  forall parts c m, R c m -> Forall Q parts -> zlen (m ++ concat parts) < N ->
    exists c', feed_all update parts c = Ret 1 c' /\ R c' (m ++ concat parts).
Proof.
  intros Hup parts. induction parts as [|p parts IH]; intros c m Hc HQ HN; simpl in *.
  - exists c. by rewrite app_nil_r.
  - apply Forall_cons in HQ as [Hp HQ]. rewrite app_assoc in HN.
    destruct (Hup c m p) as (c1 & E1 & H1); try done.
    { rewrite zlen_app in HN. pose proof (zlen_nonneg (concat parts)). lia. }
    destruct (IH c1 (m ++ p)) as (c2 & E2 & H2); try done.
    exists c2. rewrite (mbind_ret _ _ _ _ _ E1), app_assoc. done.
Qed.

(** A fresh context represents the empty message. *)
Lemma md_fresh bs compress a h0 :
  (0 < bs)%nat ->
  repr bs (Z.of_nat bs) compress h0 a (mk_md_ctx a 0 0 (zeros (Z.of_nat bs)) h0) [].
Proof.
  intros Hbs. unfold repr. split; cbn; try done.
  - apply zlen_zeros. lia.
  - unfold partial. by rewrite drop_nil.
  - unfold whole. by rewrite Nat.Div0.div_0_l.
  - by rewrite chunks_short by (simpl; lia).
  - unfold partial. by rewrite drop_nil.
Qed.

Lemma md_blen_valid bs compress a h0 c m :
  (0 < bs)%nat -> repr bs (Z.of_nat bs) compress h0 a c m -> 0 <= blen c < Z.of_nat bs.
Proof.
  intros Hbs Hc. pose proof (h_blen _ _ _ _ _ _ _ _ Hc) as Hb. cbn in Hb. rewrite Hb.
  pose proof (partial_short bs Hbs m). unfold zlen. lia.
Qed.

(** The counter and the pending bytes give the length of the message. *)
Lemma md_message_length bs compress a h0 c m :
  (0 < bs)%nat -> repr bs (Z.of_nat bs) compress h0 a c m ->
  zlen m < Z.of_nat bs * 4294967296 ->
  0 <= counter c /\ counter c * Z.of_nat bs + zlen (partial bs m) = zlen m.
Proof.
  intros Hbs Hc Hm. pose proof (h_counter _ _ _ _ _ _ _ _ Hc) as Hn.
  cbn [bc_counter md_block_ctx] in Hn. pose proof (partial_length bs Hbs m).
  rewrite Hn. unfold w32, zlen in *. split; [apply Z.mod_pos_bound; lia|].
  rewrite Z.mod_small; [lia|]. split; [lia|].
  apply (Z.mul_lt_mono_pos_l (Z.of_nat bs)); lia.
Qed.

Lemma md_holds_set_blen bs cap compress a h0 b n c m :
  holds bs cap compress h0 a b c m -> holds bs cap compress h0 a b (set_blen n c) m.
Proof.
  intros H. change (set_blen n c) with (bc_set_blen n c). by apply holds_set_blen.
Qed.

(** Folding the code's compression over blocks of bytes is folding a
    reference one that agrees with it on blocks of bytes. *)
Lemma fold_chunks_refine {A} (P : A -> Prop) bs (f g : A -> list Z -> A) l h0 :
  (forall h b, P h -> bytes_ok b -> length b = bs -> f h b = g h b /\ P (f h b)) ->
  P h0 -> bytes_ok l ->
  fold_left f (chunks bs l) h0 = fold_left g (chunks bs l) h0 /\
  P (fold_left f (chunks bs l) h0).
Proof.
  intros Hfg H0 Hl. assert (Forall (fun b => bytes_ok b /\ length b = bs) (chunks bs l)) as HQ.
  { apply Forall_and. split; [by apply chunks_bytes | apply chunks_Forall_length]. }
  split; [eapply (fold_left_ext_inv P); [| |exact HQ|done]
         |eapply fold_left_inv; [|exact HQ|done]]; cbn beta;
    intros h b Hh [Hb Hlb]; by apply Hfg.
Qed.

Lemma bytes_ok_md_pad bs lsz f m : bytes_ok f -> bytes_ok m -> bytes_ok (md_pad bs lsz f m).
Proof.
  intros Hf Hm. unfold md_pad. apply Forall_app. split; [done|].
  apply Forall_cons. split; [unfold is_byte; lia|]. apply Forall_app. split; [|done].
  apply Forall_replicate. unfold is_byte. lia.
Qed.

(** The context of a message: every message is represented. *)
Definition md_ctx_of (bs : nat) (compress : list Z -> list Z -> list Z)
    (a : cx_md_t) (h0 m : list Z) : md_ctx :=
  mk_md_ctx a (w32 (Z.of_nat (whole bs m))) (zlen (partial bs m))
    (partial bs m ++ zeros (Z.of_nat bs - zlen (partial bs m)))
    (fold_left compress (chunks bs m) h0).

Lemma md_ctx_of_repr bs compress a h0 m :
  (0 < bs)%nat ->
  repr bs (Z.of_nat bs) compress h0 a (md_ctx_of bs compress a h0 m) m.
Proof.
  intros Hbs. pose proof (partial_short bs Hbs m). unfold repr. split; try done; md_cbn.
  - unfold md_ctx_of. cbn [block]. rewrite zlen_app, zlen_zeros by (unfold zlen; lia). lia.
  - unfold md_ctx_of. cbn [block blen]. by apply ztake_app_l.
Qed.

(** The updates and the padding keep the algorithm when the block function
    does. *)
Lemma md_append_algo a (f : md_ctx -> md_ctx) limited bs n data len :
  (forall c, algo c = a -> algo (f c) = a) ->
  keeps (fun c => algo c = a) (append_data limited bs f n data len).
Proof. exact (fun Hf => append_data_frame (C := md_ctx) a f Hf limited bs n data len). Qed.

Lemma md_pad_algo a (f : md_ctx -> md_ctx) bs track lsz bitlen field :
  (forall c, algo c = a -> algo (f c) = a) ->
  keeps (fun c => algo c = a) (pad_blocks bs f track lsz bitlen field).
Proof. exact (fun Hf => pad_blocks_frame (C := md_ctx) a f Hf bs track lsz bitlen field). Qed.
