(* ===== verification/Sha2Ref.v ===== *)
(** The SHA-2 compression function as FIPS 180-4 states it, over the word
    size, and the equivalence of its 64- or 80-word message schedule with the
    16-word circular schedule that the code keeps in the block. *)

From S2P Require Import Prelude CxUtils.

(** * Reference *)

Section fips.
(** Reduction modulo 2^w, complement, the four sigma functions, the round
    constants and the number of rounds. *)
Context (wrap neg Sigma0 Sigma1 sigma0 sigma1 : Z -> Z) (K : list Z) (rounds : nat).

Definition Ch (x y z : Z) : Z := Z.lxor (Z.land x y) (Z.land (neg x) z).
Definition Maj (x y z : Z) : Z :=
  Z.lxor (Z.lxor (Z.land x y) (Z.land x z)) (Z.land y z).

(** W_t for t >= 16. *)
Definition next_word (w2 w7 w15 w16 : Z) : Z :=
  wrap (sigma1 w2 + w7 + sigma0 w15 + w16).

(** Adds [n] words to the schedule. *)
Fixpoint extend (n : nat) (W : list Z) : list Z :=
  match n with
  | O => W
  | S n' =>
      let t := zlen W in
      extend n' (W ++ [next_word (znth W (t - 2)) (znth W (t - 7))
                         (znth W (t - 15)) (znth W (t - 16))])
  end.

Definition schedule (M : list Z) : list Z := extend (rounds - 16) M.

(** One round on the working variables a..h. *)
Definition round (t w : Z) (st : list Z) : list Z :=
  match st with
  | [a; b; c; d; e; f; g; h] =>
      let T1 := wrap (h + Sigma1 e + Ch e f g + znth K t + w) in
      let T2 := wrap (Sigma0 a + Maj a b c) in
      [wrap (T1 + T2); a; b; c; wrap (d + T1); e; f; g]
  | _ => st
  end.

Definition compress_words (H M : list Z) : list Z :=
  let W := schedule M in
  let st := for_range rounds (fun t => round t (znth W t)) H in
  zip_with (fun x y => wrap (x + y)) H st.
End fips.

(** ** Sigma functions *)

(** Rotation to the right of a [w]-bit word, as arithmetic. *)
Definition ROTR (w n x : Z) : Z := x / 2 ^ n + x mod 2 ^ n * 2 ^ (w - n).
Definition SHR (n x : Z) : Z := x / 2 ^ n.

Definition Sigma_rot (w a b c x : Z) : Z :=
  Z.lxor (Z.lxor (ROTR w a x) (ROTR w b x)) (ROTR w c x).
Definition sigma_shr (w a b c x : Z) : Z :=
  Z.lxor (Z.lxor (ROTR w a x) (ROTR w b x)) (SHR c x).

(** ** Constants *)

Definition is_prime (n : Z) : bool :=
  (2 <=? n) &&
  forallb (fun d => negb (n mod d =? 0)) (map Z.of_nat (seq 2 (Z.to_nat n - 2))).

(** The primes below [n]. *)
Definition primes_below (n : nat) : list Z :=
  filter (fun p => is_prime p = true) (map Z.of_nat (seq 0 n)).

(** The integer [k]-th root, one bit at a time from bit [bits - 1]. *)
Fixpoint iroot (bits : nat) (k n acc : Z) : Z :=
  match bits with
  | O => acc
  | S b =>
      let t := acc + 2 ^ Z.of_nat b in
      iroot b k n (if t ^ k <=? n then t else acc)
  end.

(** The first [w] bits of the fractional part of the [k]-th root of [p]: the
    root of [p * 2^(k w)] has the root of [p] as its integer part. *)
Definition frac_root (w k p : Z) : Z :=
  iroot (Z.to_nat w + 8) k (p * 2 ^ (k * w)) 0 mod 2 ^ w.

Lemma iroot_spec bits k n acc :
  0 < k -> 0 <= acc -> acc ^ k <= n < (acc + 2 ^ Z.of_nat bits) ^ k ->
  iroot bits k n acc ^ k <= n < (iroot bits k n acc + 1) ^ k.
Proof.
  intros Hk. revert acc. induction bits as [|b IH]; intros acc Ha Hn; [done|].
  cbn [iroot]. cbv zeta. rewrite Nat2Z.inj_succ, Z.pow_succ_r in Hn by lia.
  apply IH; destruct (Z.leb_spec ((acc + 2 ^ Z.of_nat b) ^ k) n);
    pose proof (Z.pow_pos_nonneg 2 (Z.of_nat b)); try lia.
  split; [done|]. replace (_ + _ + _) with (acc + 2 * 2 ^ Z.of_nat b) by lia. lia.
Qed.

(** * The circular schedule *)

Section circular.
Context (next : Z -> Z -> Z -> Z -> Z) (step : Z -> Z -> list Z -> list Z).

(** The body of the round loop of [cx_sha256_block] and [cx_sha512_block]. *)
Definition circular_round (j : Z) (s : list Z * list Z) : list Z * list Z :=
  let (ACC, X) := s in
  let X :=
    if 16 <=? j then
      zupd X (Z.land j 15)
        (next (znth X (Z.land (j - 2) 15)) (znth X (Z.land (j - 7) 15))
              (znth X (Z.land (j - 15) 15)) (znth X (Z.land (j - 16) 15)))
    else X in
  (step j (znth X (Z.land j 15)) ACC, X).
End circular.

Lemma land15 j : Z.land j 15 = j mod 16.
Proof. change 15 with (Z.ones 4). by rewrite Z.land_ones. Qed.

Lemma znth_app_l (W V : list Z) t : 0 <= t < zlen W -> znth (W ++ V) t = znth W t.
Proof. intros. unfold znth. apply app_nth1. unfold zlen in *. lia. Qed.

Lemma znth_app_here (W : list Z) x : znth (W ++ [x]) (zlen W) = x.
Proof. unfold znth, zlen. rewrite Nat2Z.id, app_nth2, Nat.sub_diag by lia. done. Qed.

Lemma znth_zupd X i j v :
  0 <= i < zlen X -> 0 <= j -> znth (zupd X i v) j = if i =? j then v else znth X j.
Proof.
  unfold znth, zupd, zlen. intros Hi Hj. destruct (Z.eqb_spec i j) as [<-|Hne].
  - apply nth_lookup_Some, list_lookup_insert_eq. lia.
  - rewrite !nth_lookup, list_lookup_insert_ne by lia. done.
Qed.

Lemma zupd_length X i v : length (zupd X i v) = length X.
Proof. apply length_insert. Qed.

(** Adding words never changes the earlier ones. *)
Lemma extend_prefix wrap s0 s1 n W t :
  0 <= t < zlen W -> znth (extend wrap s0 s1 n W) t = znth W t.
Proof.
  revert W. induction n as [|n IH]; intros W Ht; simpl; [done|].
  rewrite IH by (rewrite zlen_app; change (zlen [_]) with 1; lia). by apply znth_app_l.
Qed.

Lemma extend_next wrap s0 s1 n W t :
  16 <= zlen W -> zlen W <= t < zlen W + Z.of_nat n ->
  let E := extend wrap s0 s1 n W in
  znth E t = next_word wrap s0 s1 (znth E (t - 2)) (znth E (t - 7))
               (znth E (t - 15)) (znth E (t - 16)).
Proof.
  revert W. induction n as [|n IH]; intros W H16 Ht; [lia|]. cbn [extend]. cbv zeta.
  set (x := next_word _ _ _ _ _ _ _).
  assert (zlen (W ++ [x]) = zlen W + 1) as Hl by (rewrite zlen_app; done).
  destruct (decide (t = zlen W)) as [->|].
  - rewrite extend_prefix by lia. rewrite znth_app_here.
    rewrite !extend_prefix, !znth_app_l by lia. done.
  - apply IH; lia.
Qed.


Section equivalence.
Context (wrap s0 s1 : Z -> Z) (step : Z -> Z -> list Z -> list Z).
Context (rounds : nat) (Hrounds : (16 <= rounds)%nat).
Implicit Types (H M X ACC : list Z).

Local Abbreviation next := (next_word wrap s0 s1).
Local Abbreviation W M := (schedule wrap s0 s1 rounds M).

(** Before round [j]: the working variables are those of the reference and
    the circular buffer holds the last 16 words of the schedule. *)
Definition circular_inv H M (j : Z) (s : list Z * list Z) : Prop :=
  fst s = for_range (Z.to_nat j) (fun t => step t (znth (W M) t)) H /\
  length (snd s) = 16%nat /\
  forall t, Z.max 0 (j - 16) <= t < Z.max 16 j ->
    znth (snd s) (t mod 16) = znth (W M) t.

Lemma circular_step H M j s :
  length M = 16%nat -> 0 <= j < Z.of_nat rounds ->
  circular_inv H M j s -> circular_inv H M (j + 1) (circular_round next step j s).
Proof.
  intros HM Hj. destruct s as [ACC X]. intros (HA & HX & Hw). cbn [fst snd] in *.
  unfold circular_round. rewrite !land15.
  set (X' := if 16 <=? j then _ else X).
  assert (length X' = 16%nat) as HX' by (unfold X'; destruct (16 <=? j); rewrite ?zupd_length; done).
  assert (forall t, Z.max 0 (j + 1 - 16) <= t < Z.max 16 (j + 1) ->
    znth X' (t mod 16) = znth (W M) t) as Hw'.
  { intros t Ht. unfold X'. destruct (Z.leb_spec 16 j) as [H16|H16].
    - pose proof (Z.mod_pos_bound j 16 ltac:(lia)). pose proof (Z.mod_pos_bound t 16 ltac:(lia)).
      rewrite znth_zupd by (unfold zlen; rewrite ?HX; lia).
      rewrite (Hw (j - 2)), (Hw (j - 7)), (Hw (j - 15)), (Hw (j - 16)) by lia.
      destruct (Z.eqb_spec (j mod 16) (t mod 16)) as [He|Hne].
      + assert (t = j) as -> by div_mod_lia. unfold schedule at 5.
        symmetry. apply extend_next; unfold zlen; rewrite HM; lia.
      + apply Hw. assert (t <> j) by congruence. lia.
    - apply Hw. lia. }
  repeat split; cbn [fst snd]; [|done|done].
  replace (Z.to_nat (j + 1)) with (S (Z.to_nat j)) by lia.
  rewrite for_range_S, Z2Nat.id by lia. rewrite <- HA. f_equal. apply Hw'. lia.
Qed.

(** The in-place computation of the schedule is the reference one. *)
Lemma circular_correct H M :
  length M = 16%nat ->
  let s := for_range rounds (circular_round next step) (H, M) in
  fst s = for_range rounds (fun t => step t (znth (W M) t)) H /\
  length (snd s) = 16%nat.
Proof.
  intros HM. cbv zeta.
  pose proof (for_range_ind (circular_inv H M) rounds (circular_round next step) (H, M))
    as (HA & HX & _).
  - repeat split; [exact HM |]. cbn [snd]. intros t Ht. unfold schedule.
    rewrite Z.mod_small, extend_prefix by (unfold zlen; rewrite ?HM; lia). done.
  - intros. by apply circular_step.
  - rewrite Nat2Z.id in HA. done.
Qed.
End equivalence.

(** * Refinement of the rounds

    The code's sigma functions and round agree with the reference ones on
    words; [P] says that a number is a word. *)

Section refinement.
Context (P : Z -> Prop) (wrap : Z -> Z) (Hwrap : forall x, P (wrap x)) (HP0 : P 0).
Context (s0 s1 s0' s1' : Z -> Z).
Context (Hs0 : forall x, P x -> s0 x = s0' x) (Hs1 : forall x, P x -> s1 x = s1' x).
Context (rounds : nat) (Hrounds : (16 <= rounds)%nat).
Context (step step' : Z -> Z -> list Z -> list Z).

Definition words_ok (n : nat) (l : list Z) : Prop := Forall P l /\ length l = n.

Context (Hstep : forall t w st, 0 <= t < Z.of_nat rounds -> P w -> words_ok 8 st ->
  step t w st = step' t w st /\ words_ok 8 (step t w st)).

Lemma znth_word W t : Forall P W -> P (znth W t).
Proof.
  intros HW. unfold znth. destruct (nth_in_or_default (Z.to_nat t) W 0) as [Hin| ->]; [|done].
  rewrite Forall_forall in HW. apply HW. by apply list_elem_of_In.
Qed.

Lemma zip_wrap_ok n H A :
  length H = n -> length A = n -> words_ok n (zip_with (fun x y => wrap (x + y)) H A).
Proof.
  intros HH HA. split.
  - clear HH HA. revert A. induction H as [|x H IH]; intros [|y A]; simpl; constructor;
      [apply Hwrap | apply IH].
  - by rewrite length_zip_with, HH, HA, Nat.min_id.
Qed.

Lemma extend_refine n W :
  Forall P W -> extend wrap s0 s1 n W = extend wrap s0' s1' n W /\
                Forall P (extend wrap s0 s1 n W).
Proof.
  revert W. induction n as [|n IH]; intros W HW; [done|]. cbn [extend].
  assert (next_word wrap s0 s1 (znth W (zlen W - 2)) (znth W (zlen W - 7))
            (znth W (zlen W - 15)) (znth W (zlen W - 16))
        = next_word wrap s0' s1' (znth W (zlen W - 2)) (znth W (zlen W - 7))
            (znth W (zlen W - 15)) (znth W (zlen W - 16))) as ->.
  { unfold next_word. by rewrite Hs0, Hs1 by by apply znth_word. }
  apply IH. apply Forall_app. split; [done|]. constructor; [apply Hwrap|done].
Qed.

Lemma rounds_refine H M :
  words_ok 16 M -> words_ok 8 H ->
  let s := for_range rounds (circular_round (next_word wrap s0 s1) step) (H, M) in
  fst s = for_range rounds (fun t => step' t (znth (schedule wrap s0' s1' rounds M) t)) H /\
  words_ok 8 (fst s) /\ length (snd s) = 16%nat.
Proof.
  intros [HM HMl] HH. destruct (circular_correct wrap s0 s1 step rounds Hrounds H M HMl)
    as [Ef El]. cbv zeta. rewrite Ef, El.
  destruct (extend_refine (rounds - 16) M HM) as [Ee He].
  destruct (for_range_ext_inv (words_ok 8) rounds
    (fun t => step t (znth (schedule wrap s0 s1 rounds M) t))
    (fun t => step' t (znth (schedule wrap s0 s1 rounds M) t)) H HH) as [E1 E2].
  { intros i st Hi Hst. apply Hstep; [done | by apply znth_word | done]. }
  split; [|done]. rewrite E1. unfold schedule. by rewrite Ee.
Qed.
End refinement.

(** ** Boolean functions and rotations of the code *)

Lemma rotr_ROTR w n x :
  0 <= x < 2 ^ w -> 0 < n < w ->
  Z.lor (Z.shiftr x n) (Z.shiftl x (w - n) mod 2 ^ w) = ROTR w n x.
Proof.
  intros Hx Hn. unfold ROTR.
  rewrite Z.shiftr_div_pow2, Z.shiftl_mul_pow2 by lia.
  replace (2 ^ w) with (2 ^ n * 2 ^ (w - n)) by (rewrite <- Z.pow_add_r by lia; f_equal; lia).
  pose proof (Z.pow_pos_nonneg 2 n). pose proof (Z.pow_pos_nonneg 2 (w - n)).
  rewrite Z.mul_mod_distr_r, Z.lor_comm by lia.
  rewrite (lor_disjoint _ _ (w - n)); [lia | lia |]. split; [apply Z.div_pos; lia|].
  apply Z.div_lt_upper_bound; [lia|]. rewrite <- Z.pow_add_r by lia.
  replace (n + (w - n)) with w by lia. lia.
Qed.

Lemma cx_rotr_ROTR x n : is_w32 x -> 0 < n < 32 -> cx_rotr x n = ROTR 32 n x.
Proof. apply (rotr_ROTR 32). Qed.

Lemma cx_rotr64_ROTR x n : is_w64 x -> 0 < n < 64 -> cx_rotr64 x n = ROTR 64 n x.
Proof. apply (rotr_ROTR 64). Qed.

Lemma cx_shr_SHR x n : 0 <= n -> cx_shr x n = SHR n x.
Proof. intros. by apply Z.shiftr_div_pow2. Qed.

Lemma cx_shr64_SHR x n : 0 <= n -> cx_shr64 x n = SHR n x.
Proof. intros. by apply Z.shiftr_div_pow2. Qed.

(** [~x & z] keeps the bits of [z] that [x] lacks. *)
Lemma land_not_bits x z w i :
  0 <= i -> 0 <= z < 2 ^ w -> 0 <= w ->
  Z.testbit (Z.land (Z.lxor x (Z.ones w)) z) i = negb (Z.testbit x i) && Z.testbit z i.
Proof.
  intros Hi Hz Hw. rewrite Z.land_spec, Z.lxor_spec. destruct (decide (i < w)).
  - rewrite Z.ones_spec_low by lia. by destruct (Z.testbit x i).
  - rewrite (small_high z w i) by lia. by rewrite !andb_false_r.
Qed.

Lemma ch_Ch w x y z :
  0 <= w -> 0 <= z < 2 ^ w ->
  Z.lxor z (Z.land x (Z.lxor y z)) = Ch (fun x => Z.lxor x (Z.ones w)) x y z.
Proof.
  intros Hw Hz. apply Z.bits_inj'. intros i Hi. unfold Ch.
  rewrite (Z.lxor_spec (Z.land x y)), (land_not_bits _ _ _ _ Hi Hz Hw).
  rewrite !Z.lxor_spec, !Z.land_spec, Z.lxor_spec.
  by destruct (Z.testbit x i), (Z.testbit y i), (Z.testbit z i).
Qed.

Lemma maj_Maj x y z : Z.lor (Z.land x y) (Z.land z (Z.lor x y)) = Maj x y z.
Proof.
  apply Z.bits_inj'. intros i Hi. unfold Maj.
  rewrite Z.lor_spec, !Z.lxor_spec, !Z.land_spec, Z.lor_spec.
  by destruct (Z.testbit x i), (Z.testbit y i), (Z.testbit z i).
Qed.

(** A list of eight working variables. *)
Lemma list8_eq {A} (l : list A) :
  length l = 8%nat -> exists a b c d e f g h, l = [a; b; c; d; e; f; g; h].
Proof.
  destruct l as [|? [|? [|? [|? [|? [|? [|? [|? [|]]]]]]]]]; try discriminate.
  by repeat eexists.
Qed.
