(* ===== verification/CxSha256.v ===== *)
(** SHA-256 and SHA-224: [src/bolos/cx_sha256.c]. The operations, the
    refinement of the block function to FIPS 180-4 and the digest computed by
    any sequence of updates. *)

From S2P Require Import Prelude CxUtils BlockStream HashCtx Sha2Ref.

(** * Definitions *)

Definition primeSqrt : list Z := Eval vm_compute in
  [ 0x428a2f98; 0x71374491; 0xb5c0fbcf; 0xe9b5dba5; 0x3956c25b; 0x59f111f1 ] ++
  [ 0x923f82a4; 0xab1c5ed5; 0xd807aa98; 0x12835b01; 0x243185be; 0x550c7dc3 ] ++
  [ 0x72be5d74; 0x80deb1fe; 0x9bdc06a7; 0xc19bf174; 0xe49b69c1; 0xefbe4786 ] ++
  [ 0x0fc19dc6; 0x240ca1cc; 0x2de92c6f; 0x4a7484aa; 0x5cb0a9dc; 0x76f988da ] ++
  [ 0x983e5152; 0xa831c66d; 0xb00327c8; 0xbf597fc7; 0xc6e00bf3; 0xd5a79147 ] ++
  [ 0x06ca6351; 0x14292967; 0x27b70a85; 0x2e1b2138; 0x4d2c6dfc; 0x53380d13 ] ++
  [ 0x650a7354; 0x766a0abb; 0x81c2c92e; 0x92722c85; 0xa2bfe8a1; 0xa81a664b ] ++
  [ 0xc24b8b70; 0xc76c51a3; 0xd192e819; 0xd6990624; 0xf40e3585; 0x106aa070 ] ++
  [ 0x19a4c116; 0x1e376c08; 0x2748774c; 0x34b0bcb5; 0x391c0cb3; 0x4ed8aa4a ] ++
  [ 0x5b9cca4f; 0x682e6ff3; 0x748f82ee; 0x78a5636f; 0x84c87814; 0x8cc70208 ] ++
  [ 0x90befffa; 0xa4506ceb; 0xbef9a3f7; 0xc67178f2 ].

Definition hzero_224 : list Z := [
  0xc1059ed8; 0x367cd507; 0x3070dd17; 0xf70e5939; 0xffc00b31; 0x68581511;
  0x64f98fa7; 0xbefa4fa4 ].

Definition hzero : list Z := [
  0x6a09e667; 0xbb67ae85; 0x3c6ef372; 0xa54ff53a; 0x510e527f; 0x9b05688c;
  0x1f83d9ab; 0x5be0cd19 ].

Definition sig256 (x a b c : Z) : Z :=
  Z.lxor (Z.lxor (cx_rotr x a) (cx_rotr x b)) (cx_shr x c).
Definition sum256 (x a b c : Z) : Z :=
  Z.lxor (Z.lxor (cx_rotr x a) (cx_rotr x b)) (cx_rotr x c).

Definition sigma0 (x : Z) : Z := sig256 x 7 18 3.
Definition sigma1 (x : Z) : Z := sig256 x 17 19 10.
Definition sum0 (x : Z) : Z := sum256 x 2 13 22.
Definition sum1 (x : Z) : Z := sum256 x 6 11 25.

Definition ch (x y z : Z) : Z := Z.lxor z (Z.land x (Z.lxor y z)).
Definition maj (x y z : Z) : Z := Z.lor (Z.land x y) (Z.land z (Z.lor x y)).

(** [memset(hash, 0, sizeof(cx_sha256_t))] *)
Definition sha256_zero (a : cx_md_t) : md_ctx :=
  mk_md_ctx a 0 0 (zeros SHA256_BLOCK_SIZE) (zeros 8).

Definition cx_sha224_init : M md_ctx cx_md_t := fun _ =>
  Ret CX_SHA224 (set_acc hzero_224 (sha256_zero CX_SHA224)).

Definition cx_sha256_init : M md_ctx cx_md_t := fun _ =>
  Ret CX_SHA256 (set_acc hzero (sha256_zero CX_SHA256)).

(** The new X[j & 0xF] from X[j-2], X[j-7], X[j-15] and X[j-16]. *)
Definition sha256_next (x2 x7 x15 x16 : Z) : Z :=
  w32 (sigma1 x2 + x7 + sigma0 x15 + x16).

(** t1, t2, the memmove of ACC, [E += t1; A = t1 + t2]. *)
Definition sha256_round (j x : Z) (ACC : list Z) : list Z :=
  let A := znth ACC 0 in let B := znth ACC 1 in let C := znth ACC 2 in
  let E := znth ACC 4 in let F := znth ACC 5 in let G := znth ACC 6 in
  let H := znth ACC 7 in
  let t1 := w32 (H + sum1 E + ch E F G + znth primeSqrt j + x) in
  let t2 := w32 (sum0 A + maj A B C) in
  let ACC := ztake 1 ACC ++ ztake 7 ACC in
  let ACC := zupd ACC 4 (w32 (znth ACC 4 + t1)) in
  zupd ACC 0 (w32 (t1 + t2)).

Definition cx_sha256_block (hash : md_ctx) : md_ctx :=
  let X := spec_cx_swap_buffer32 (load_words32 (block hash)) in
  let (ACC, X) :=
    for_range 64 (circular_round sha256_next sha256_round) (acc hash, X) in
  set_acc (zip_with (fun a b => w32 (a + b)) (acc hash) ACC)
    (set_block (store_words32 X) hash).

Definition spec_cx_sha256_update (data : option (list Z)) (len : Z) : M md_ctx Z :=
  if bool_decide (data = None) && negb (len =? 0) then mret 0
  else
    let! n := mgets blen in
    do! mmodify (set_blen 0) in
    if 64 <=? n then mthrow INVALID_PARAMETER
    else append_data false 64 cx_sha256_block n (default [] data) len.

Definition sha256_bitlen (counter blen : Z) : Z :=
  w64 (w64 (w64 (counter * 64) + blen - 1) * 8).

Definition spec_cx_sha256_final (digest : option (list Z))
  : M md_ctx (Z * option (list Z)) :=
  match digest with
  | None => mret (0, None)
  | Some digest =>
      do! pad_blocks 64 cx_sha256_block true 8 sha256_bitlen
            (fun bitlen => le_split 8 (spec_cx_swap_uint64 bitlen)) in
      do! mmodify (fun c => set_acc (spec_cx_swap_buffer32 (acc c)) c) in
      let! out := mgets (fun c => store_words32 (acc c)) in
      let! a := mgets algo in
      let size := if bool_decide (a = CX_SHA256) then CX_SHA256_SIZE else CX_SHA224_SIZE in
      let! out := mlift (read_at out 0 size) in
      let! digest := mlift (write_at digest 0 out) in
      mret (1, Some digest)
  end.

Definition cx_sha256_validate_context (ctx : md_ctx) : bool := blen ctx <? 64.

(** The object is the static context [G_cx.sha256]. *)
Definition sys_cx_hash_sha256 (in_ : option (list Z)) (len : Z)
    (out : option (list Z)) : M md_ctx (Z * option (list Z)) :=
  do! cx_sha256_init in
  do! spec_cx_sha256_update in_ len in
  let! (_, out) := spec_cx_sha256_final out in
  mret (CX_SHA256_SIZE, out).

(** * Reference: FIPS 180-4 *)

Definition fips_compress256 (H blk : list Z) : list Z :=
  compress_words w32 not32 (Sigma_rot 32 2 13 22) (Sigma_rot 32 6 11 25)
    (sigma_shr 32 7 18 3) (sigma_shr 32 17 19 10) primeSqrt 64 H
    (map be_combine (chunks 4 blk)).

Definition fips_hash256 (H0 m : list Z) : list Z :=
  concat (map (be_split 4)
    (fold_left fips_compress256 (chunks 64 (md_pad 64 8 (be_split 8 (8 * zlen m)) m)) H0)).

Definition SHA256 (m : list Z) : list Z := fips_hash256 hzero m.
Definition SHA224 (m : list Z) : list Z := ztake 28 (fips_hash256 hzero_224 m).

(** * The block function *)

Lemma is_w32_0 : is_w32 0.
Proof. unfold is_w32. lia. Qed.

Lemma sum256_Sigma x a b c :
  is_w32 x -> 0 < a < 32 -> 0 < b < 32 -> 0 < c < 32 ->
  sum256 x a b c = Sigma_rot 32 a b c x.
Proof. intros. unfold sum256, Sigma_rot. by rewrite !cx_rotr_ROTR. Qed.

Lemma sig256_sigma x a b c :
  is_w32 x -> 0 < a < 32 -> 0 < b < 32 -> 0 <= c ->
  sig256 x a b c = sigma_shr 32 a b c x.
Proof. intros. unfold sig256, sigma_shr. by rewrite !cx_rotr_ROTR, cx_shr_SHR. Qed.

Lemma sha256_round_eq j x A B C D E F G H :
  sha256_round j x [A; B; C; D; E; F; G; H] =
  let t1 := w32 (H + sum1 E + ch E F G + znth primeSqrt j + x) in
  let t2 := w32 (sum0 A + maj A B C) in
  [w32 (t1 + t2); A; B; C; w32 (D + t1); E; F; G].
Proof. reflexivity. Qed.

Lemma sha256_round_ok t w st :
  0 <= t < Z.of_nat 64 -> is_w32 w -> words_ok is_w32 8 st ->
  sha256_round t w st
  = round w32 not32 (Sigma_rot 32 2 13 22) (Sigma_rot 32 6 11 25) primeSqrt t w st /\
  words_ok is_w32 8 (sha256_round t w st).
Proof.
  intros _ Hw [Hst Hl]. destruct (list8_eq st Hl) as (a & b & c & d & e & f & g & h & ->).
  rewrite sha256_round_eq. unfold round. cbv zeta.
  repeat match goal with H : Forall _ (_ :: _) |- _ => apply Forall_cons_1 in H as [? H] end.
  replace (ch e f g) with (Ch not32 e f g) by (symmetry; by apply (ch_Ch 32)).
  replace (maj a b c) with (Maj a b c) by (symmetry; apply maj_Maj).
  unfold sum1, sum0. rewrite !sum256_Sigma by (done || lia).
  split; [done|]. split; [|done]. repeat apply Forall_cons_2; try done; apply w32_range.
Qed.

Definition sha256_compress (H blk : list Z) : list Z :=
  acc (cx_sha256_block (mk_md_ctx CX_NONE 0 0 blk H)).

Lemma load_words32_length b n : length b = (4 * n)%nat -> length (load_words32 b) = n.
Proof.
  intros Hb. unfold load_words32. rewrite length_map, chunks_length, Hb, Nat.mul_comm.
  by apply Nat.div_mul.
Qed.

Lemma sha256_block_acc c : acc (cx_sha256_block c) = sha256_compress (acc c) (block c).
Proof.
  unfold sha256_compress, cx_sha256_block. cbn [block acc]. by destruct (for_range _ _ _).
Qed.

Lemma sha256_block_keeps c :
  length (block c) = 64%nat ->
  algo (cx_sha256_block c) = algo c /\ counter (cx_sha256_block c) = counter c /\
  blen (cx_sha256_block c) = blen c /\ length (block (cx_sha256_block c)) = 64%nat.
Proof.
  intros Hc. unfold cx_sha256_block. set (X := spec_cx_swap_buffer32 _).
  assert (length X = 16%nat) as HX.
  { unfold X, spec_cx_swap_buffer32. rewrite length_map. by apply load_words32_length. }
  pose proof (circular_correct w32 sigma0 sigma1 sha256_round 64 ltac:(lia) (acc c) X HX)
    as [_ Hl]. change (next_word w32 sigma0 sigma1) with sha256_next in Hl.
  destruct (for_range 64 _ _) as [ACC X']. cbn [snd] in Hl.
  cbn [algo counter blen block set_acc set_block]. by rewrite store32_length, Hl.
Qed.

(** On bytes and words, the block function is the compression function of
    FIPS 180-4. *)
Lemma sha256_compress_fips H blk :
  bytes_ok blk -> length blk = 64%nat -> words_ok is_w32 8 H ->
  sha256_compress H blk = fips_compress256 H blk /\
  words_ok is_w32 8 (sha256_compress H blk).
Proof.
  intros Hb Hl HH. unfold sha256_compress, cx_sha256_block, fips_compress256, compress_words.
  cbn [block acc set_acc set_block]. unfold spec_cx_swap_buffer32.
  rewrite load_swap_be32 by done. set (M := map be_combine _).
  assert (words_ok is_w32 16 M) as HM.
  { split; [by apply be_words32|]. unfold M. by rewrite length_map, chunks_length, Hl. }
  pose proof (rounds_refine is_w32 w32 w32_range is_w32_0 sigma0 sigma1
    (sigma_shr 32 7 18 3) (sigma_shr 32 17 19 10)
    ltac:(intros; by apply sig256_sigma) ltac:(intros; by apply sig256_sigma)
    64 ltac:(lia) sha256_round _ sha256_round_ok H M HM HH) as (E & [_ E8] & _).
  change (next_word w32 sigma0 sigma1) with sha256_next in *.
  destruct (for_range 64 (circular_round _ _) _) as [ACC X']. cbn [fst] in *. cbn [acc].
  rewrite <- E. split; [done|]. destruct HH. by apply zip_wrap_ok; [apply w32_range|..].
Qed.

(** From here the block function is only known by its lemmas. *)
#[local] Opaque cx_sha256_block sha256_compress fips_compress256.

Lemma sha256_block_spec f0 : block_fn_spec 64 64 sha256_compress f0 cx_sha256_block.
Proof.
  intros c Hc Hf. md_cbn. assert (length (block c) = 64%nat) by (unfold zlen in Hc; lia).
  destruct (sha256_block_keeps c) as (K1 & K2 & _ & K4); [done|].
  rewrite sha256_block_acc, take_ge by lia. split; [reflexivity|].
  split; [unfold zlen; by rewrite K4|]. split; [exact K2|congruence].
Qed.

(** * Streaming *)

Local Abbreviation represents a h0 := (repr 64 64 sha256_compress h0 a).

Lemma sha256_init_ok st :
  exists c, cx_sha256_init st = Ret CX_SHA256 c /\ represents CX_SHA256 hzero c [].
Proof. eexists. split; [done|]. by apply (md_fresh 64); lia. Qed.

Lemma sha224_init_ok st :
  exists c, cx_sha224_init st = Ret CX_SHA224 c /\ represents CX_SHA224 hzero_224 c [].
Proof. eexists. split; [done|]. by apply (md_fresh 64); lia. Qed.

Lemma sha256_update_ok a h0 c m p :
  represents a h0 c m -> zlen p + 64 < 4294967296 ->
  exists c', spec_cx_sha256_update (Some p) (zlen p) c = Ret 1 c' /\
    represents a h0 c' (m ++ p).
Proof.
  intros Hc Hp. pose proof (md_blen_valid 64 _ _ _ _ _ ltac:(lia) Hc) as Hb.
  unfold spec_cx_sha256_update. rewrite bool_decide_eq_false_2 by done. cbn [andb default].
  unfold mbind at 1, mgets. unfold mbind at 1, mmodify.
  destruct (Z.leb_spec 64 (blen c)); [lia|].
  apply (append_data_ok 64 64 sha256_compress false ltac:(lia) ltac:(lia) ltac:(lia)
           cx_sha256_block h0 a (sha256_block_spec a)); [|done|by left].
  by apply md_holds_set_blen.
Qed.

Lemma sha256_feed_ok a h0 c parts :
  represents a h0 c [] -> Forall (fun p => zlen p + 64 < 4294967296) parts ->
  exists c', feed_all spec_cx_sha256_update parts c = Ret 1 c' /\
    represents a h0 c' (concat parts).
Proof.
  intros Hc HQ.
  apply (feed_all_ok spec_cx_sha256_update (represents a h0)
    (fun p => zlen p + 64 < 4294967296) (1 + zlen (concat parts))) with (m := []);
    [intros; by apply sha256_update_ok | done | done | simpl; lia].
Qed.

(** Folding the code's block function over blocks of bytes is folding the
    reference one. *)
Lemma sha256_fold_fips l h0 :
  words_ok is_w32 8 h0 -> bytes_ok l ->
  fold_left sha256_compress (chunks 64 l) h0 = fold_left fips_compress256 (chunks 64 l) h0 /\
  words_ok is_w32 8 (fold_left sha256_compress (chunks 64 l) h0).
Proof.
  intros H0 Hl. apply (fold_chunks_refine (words_ok is_w32 8)); [|done|done].
  intros. by apply sha256_compress_fips.
Qed.

Lemma fips_hash256_length m h0 :
  words_ok is_w32 8 h0 -> bytes_ok m -> zlen (fips_hash256 h0 m) = 32.
Proof.
  intros H0 Hm.
  destruct (sha256_fold_fips (md_pad 64 8 (be_split 8 (8 * zlen m)) m) h0 H0) as [E [_ W]].
  { apply bytes_ok_md_pad; [apply be_split_bytes | done]. }
  unfold fips_hash256. rewrite <- E. unfold zlen at 1. by rewrite concat_be_split_length, W.
Qed.

Lemma sha256_final_ok a h0 c m digest :
  words_ok is_w32 8 h0 -> bytes_ok m -> represents a h0 c m -> zlen m < 2 ^ 38 ->
  let n := if bool_decide (a = CX_SHA256) then 32 else 28 in
  n <= zlen digest ->
  exists c', spec_cx_sha256_final (Some digest) c
    = Ret (1, Some (ztake n (fips_hash256 h0 m) ++ zdrop n digest)) c' /\ algo c' = a.
Proof.
  intros H0 Hm Hc Hlen n Hn. unfold spec_cx_sha256_final.
  destruct (pad_blocks_ok 64 8 sha256_compress ltac:(lia) ltac:(lia) cx_sha256_block h0 a
    (sha256_block_spec a) true sha256_bitlen
    (fun bitlen => le_split 8 (spec_cx_swap_uint64 bitlen))
    ltac:(intros; done) c m Hc) as (c1 & Hp & Ha & Hf & _).
  rewrite (mbind_ret _ _ _ _ _ Hp). md_cbn.
  assert (sha256_bitlen (counter c) (zlen (partial 64 m) + 1) = 8 * zlen m) as Hbl.
  { pose proof (md_message_length 64 _ _ _ _ _ ltac:(lia) Hc ltac:(lia)) as [? E].
    pose proof (zlen_nonneg m). pose proof (zlen_nonneg (partial 64 m)).
    unfold sha256_bitlen, w64.
    rewrite !Z.mod_small; div_mod_lia. }
  pose proof (zlen_nonneg m). rewrite Hbl, store_swap_be64 in Ha by (unfold is_w64; lia).
  change (replicate (8 - 8) 0 ++ ?f) with f in Ha.
  destruct (sha256_fold_fips (md_pad 64 8 (be_split 8 (8 * zlen m)) m) h0 H0) as [E W].
  { apply bytes_ok_md_pad; [apply be_split_bytes | done]. }
  rewrite <- Ha in W. rewrite E in Ha. destruct W as [W1 W2]. 
  unfold mbind at 1, mmodify at 1, mbind at 1, mgets at 1, mbind at 1, mgets at 1.
  cbn [acc set_acc algo]. rewrite Hf.
  change (if bool_decide (a = CX_SHA256) then CX_SHA256_SIZE else CX_SHA224_SIZE) with n.
  rewrite store_swap_words32 by done.
  set (out := concat _). assert (out = fips_hash256 h0 m) as Ho.
  { unfold out, fips_hash256. by rewrite Ha. }
  assert (zlen out = 32) as Hout by (rewrite Ho; by apply fips_hash256_length).
  assert (0 <= n <= 32) by (unfold n; case_bool_decide; lia).
  destruct (copy_prefix out digest n) as [R1 R2]; [lia|done|].
  rewrite (mlift_some _ _ _ _ R1), (mlift_some _ _ _ _ R2), <- Ho. eexists. split; [reflexivity|].
  exact Hf.
Qed.

(** * Properties *)

(** C25: a SHA-256 (resp. SHA-224) context that is initialised,
    updated with any sequence of buffers of bytes and finalised gives, in the
    first 32 (resp. 28) bytes of the output buffer, the digest FIPS 180-4
    defines for the concatenation of the buffers, and leaves the rest of the
    output buffer unchanged. No access leaves a buffer and nothing is thrown. *)
Theorem sha256_streaming (parts : list (list Z)) (digest : list Z) (st : md_ctx) :
  Forall bytes_ok parts ->
  Forall (fun p => zlen p + 64 < 4294967296) parts ->
  zlen (concat parts) < 2 ^ 38 ->
  32 <= zlen digest ->
  (exists c, (do! cx_sha256_init in do! feed_all spec_cx_sha256_update parts in
      spec_cx_sha256_final (Some digest)) st
    = Ret (1, Some (SHA256 (concat parts) ++ zdrop 32 digest)) c) /\
  (exists c, (do! cx_sha224_init in do! feed_all spec_cx_sha256_update parts in
      spec_cx_sha256_final (Some digest)) st
    = Ret (1, Some (SHA224 (concat parts) ++ zdrop 28 digest)) c).
Proof.
  intros Hb Hp Hlen Hd.
  assert (bytes_ok (concat parts)) as Hc by by apply Forall_concat.
  assert (words_ok is_w32 8 hzero /\ words_ok is_w32 8 hzero_224) as [W1 W2].
  { unfold words_ok, is_w32. repeat split; repeat apply Forall_cons_2; done || lia. }
  split.
  - destruct (sha256_init_ok st) as (c0 & E0 & R0).
    destruct (sha256_feed_ok _ _ _ parts R0 Hp) as (c1 & E1 & R1).
    rewrite (mbind_ret _ _ _ _ _ E0), (mbind_ret _ _ _ _ _ E1).
    destruct (sha256_final_ok _ _ _ _ digest W1 Hc R1 Hlen) as (c2 & E2 & _); [done|].
    exists c2. rewrite E2. unfold SHA256.
    change (if bool_decide _ then 32 else 28) with 32.
    by rewrite ztake_all by (rewrite fips_hash256_length; done).
  - destruct (sha224_init_ok st) as (c0 & E0 & R0).
    destruct (sha256_feed_ok _ _ _ parts R0 Hp) as (c1 & E1 & R1).
    rewrite (mbind_ret _ _ _ _ _ E0), (mbind_ret _ _ _ _ _ E1).
    destruct (sha256_final_ok _ _ _ _ digest W2 Hc R1 Hlen) as (c2 & E2 & _);
      [simpl; lia|]. by exists c2.
Qed.

Definition abc_parts : list (list Z) := [[0x61]; []; [0x62; 0x63]].

Lemma sha256_streaming_witness :
  be_combine (SHA256 (concat abc_parts))
    = 0xba7816bf8f01cfea414140de5dae2223b00361a396177a9cb410ff61f20015ad /\
  be_combine (SHA224 (concat abc_parts))
    = 0x23097d223405d8228642a477bda255b32aadbce4bda0b3f7e36c9da7 /\
  exists c, (do! cx_sha256_init in do! feed_all spec_cx_sha256_update abc_parts in
      spec_cx_sha256_final (Some (zeros 40))) (sha256_zero CX_NONE)
    = Ret (1, Some (SHA256 (concat abc_parts) ++ zdrop 32 (zeros 40))) c.
Proof.
  split; [vm_compute; reflexivity|]. split; [vm_compute; reflexivity|].
  apply (sha256_streaming abc_parts (zeros 40) (sha256_zero CX_NONE)).
  - unfold bytes_ok, is_byte. repeat constructor; lia.
  - repeat constructor.
  - vm_compute. reflexivity.
  - vm_compute. discriminate.
Defined.

(** On a context whose block is 64 bytes and whose chaining
    value is eight 32-bit words, the block function, which computes the
    message schedule in place in a circular buffer of 16 words, replaces the
    chaining value by the compression of FIPS 180-4 and keeps the algorithm,
    the counter, the pending length and the size of the block. *)
Theorem sha256_block_fips (c : md_ctx) :
  bytes_ok (block c) -> length (block c) = 64%nat ->
  Forall is_w32 (acc c) -> length (acc c) = 8%nat ->
  let c' := cx_sha256_block c in
  acc c' = fips_compress256 (acc c) (block c) /\
  Forall is_w32 (acc c') /\ length (acc c') = 8%nat /\
  algo c' = algo c /\ counter c' = counter c /\ blen c' = blen c /\
  length (block c') = 64%nat.
Proof.
  intros Hb Hl Ha Hal. cbv zeta. rewrite sha256_block_acc.
  destruct (sha256_compress_fips (acc c) (block c) Hb Hl (conj Ha Hal)) as [E [W1 W2]].
  destruct (sha256_block_keeps c Hl) as (K1 & K2 & K3 & K4).
  exact (conj E (conj W1 (conj W2 (conj K1 (conj K2 (conj K3 K4)))))).
Qed.

Lemma sha256_block_fips_witness :
  let c := cx_sha256_block (mk_md_ctx CX_SHA256 7 3 (zeros 64) hzero) in
  acc c = fips_compress256 hzero (zeros 64) /\ hd 0 (acc c) = 0xda5698be.
Proof.
  split; [|vm_compute; reflexivity].
  apply (sha256_block_fips (mk_md_ctx CX_SHA256 7 3 (zeros 64) hzero)).
  - unfold bytes_ok. apply Forall_replicate. unfold is_byte. lia.
  - reflexivity.
  - unfold is_w32. cbn [acc]. repeat apply Forall_cons_2; done || lia.
  - reflexivity.
Defined.

(** The tables of the file are those of FIPS 180-4. The
    table named [primeSqrt] holds the first 32 bits of the fractional parts
    of the cube roots of the first 64 primes, [hzero] those of the square
    roots of the first 8 primes, and [hzero_224] the second 32 bits of the
    square roots of the 9th to the 16th primes. *)
Theorem sha256_constants :
  primeSqrt = map (frac_root 32 3) (primes_below 312) /\
  hzero = map (frac_root 32 2) (primes_below 20) /\
  hzero_224 = map (fun p => frac_root 64 2 p mod 2 ^ 32) (drop 8 (primes_below 54)).
Proof. vm_compute. done. Qed.

(** A context whose pending length is corrupt (64 or more)
    makes the update throw [INVALID_PARAMETER], with nothing written but the
    pending length, reset to 0; a NULL buffer with a non-zero length is
    refused with 0 and the context is unchanged; a NULL output is refused by
    the final function. *)
Theorem sha256_rejects (c : md_ctx) (p : list Z) (len : Z) :
  (cx_sha256_validate_context c = false ->
     spec_cx_sha256_update (Some p) len c = Throw INVALID_PARAMETER (set_blen 0 c)) /\
  (len <> 0 -> spec_cx_sha256_update None len c = Ret 0 c) /\
  spec_cx_sha256_final None c = Ret (0, None) c.
Proof.
  unfold cx_sha256_validate_context. repeat split.
  - intros H. unfold spec_cx_sha256_update. rewrite bool_decide_eq_false_2 by done.
    cbn [andb]. unfold mbind at 1, mgets, mbind at 1, mmodify.
    destruct (Z.leb_spec 64 (blen c)); [done|lia].
  - intros H. unfold spec_cx_sha256_update. by destruct (Z.eqb_spec len 0).
Qed.

Lemma sha256_rejects_witness :
  spec_cx_sha256_update (Some [1]) 1 (set_blen 64 (sha256_zero CX_SHA256))
    = Throw INVALID_PARAMETER (sha256_zero CX_SHA256).
Proof. apply (sha256_rejects (set_blen 64 (sha256_zero CX_SHA256)) [1] 1). reflexivity. Defined.
