(* ===== verification/CxSha512.v ===== *)
(** SHA-512 and SHA-384: [src/bolos/cx_sha512.c], with [NATIVE_64BITS]. The
    operations, the refinement of the block function to FIPS 180-4, the digest
    computed by any sequence of updates and the limit on the message size. *)

From S2P Require Import Prelude CxUtils BlockStream HashCtx Sha2Ref.

(** * Definitions *)

(** [_64BITS(h, l)] *)
Definition H64 (h l : Z) : Z := Z.lor (Z.shiftl h 32) l.

Definition hzero_384 : list Z := Eval vm_compute in [
  H64 0xcbbb9d5d 0xc1059ed8; H64 0x629a292a 0x367cd507;
  H64 0x9159015a 0x3070dd17; H64 0x152fecd8 0xf70e5939;
  H64 0x67332667 0xffc00b31; H64 0x8eb44a87 0x68581511;
  H64 0xdb0c2e0d 0x64f98fa7; H64 0x47b5481d 0xbefa4fa4 ].

Definition hzero : list Z := Eval vm_compute in [
  H64 0x6a09e667 0xf3bcc908; H64 0xbb67ae85 0x84caa73b;
  H64 0x3c6ef372 0xfe94f82b; H64 0xa54ff53a 0x5f1d36f1;
  H64 0x510e527f 0xade682d1; H64 0x9b05688c 0x2b3e6c1f;
  H64 0x1f83d9ab 0xfb41bd6b; H64 0x5be0cd19 0x137e2179 ].

Definition primeSqrt : list Z := Eval vm_compute in [
  H64 0x428a2f98 0xd728ae22; H64 0x71374491 0x23ef65cd;
  H64 0xb5c0fbcf 0xec4d3b2f; H64 0xe9b5dba5 0x8189dbbc;
  H64 0x3956c25b 0xf348b538; H64 0x59f111f1 0xb605d019;
  H64 0x923f82a4 0xaf194f9b; H64 0xab1c5ed5 0xda6d8118;
  H64 0xd807aa98 0xa3030242; H64 0x12835b01 0x45706fbe;
  H64 0x243185be 0x4ee4b28c; H64 0x550c7dc3 0xd5ffb4e2;
  H64 0x72be5d74 0xf27b896f; H64 0x80deb1fe 0x3b1696b1;
  H64 0x9bdc06a7 0x25c71235; H64 0xc19bf174 0xcf692694;
  H64 0xe49b69c1 0x9ef14ad2; H64 0xefbe4786 0x384f25e3;
  H64 0x0fc19dc6 0x8b8cd5b5; H64 0x240ca1cc 0x77ac9c65;
  H64 0x2de92c6f 0x592b0275; H64 0x4a7484aa 0x6ea6e483;
  H64 0x5cb0a9dc 0xbd41fbd4; H64 0x76f988da 0x831153b5;
  H64 0x983e5152 0xee66dfab; H64 0xa831c66d 0x2db43210;
  H64 0xb00327c8 0x98fb213f; H64 0xbf597fc7 0xbeef0ee4;
  H64 0xc6e00bf3 0x3da88fc2; H64 0xd5a79147 0x930aa725;
  H64 0x06ca6351 0xe003826f; H64 0x14292967 0x0a0e6e70;
  H64 0x27b70a85 0x46d22ffc; H64 0x2e1b2138 0x5c26c926;
  H64 0x4d2c6dfc 0x5ac42aed; H64 0x53380d13 0x9d95b3df;
  H64 0x650a7354 0x8baf63de; H64 0x766a0abb 0x3c77b2a8;
  H64 0x81c2c92e 0x47edaee6; H64 0x92722c85 0x1482353b;
  H64 0xa2bfe8a1 0x4cf10364; H64 0xa81a664b 0xbc423001;
  H64 0xc24b8b70 0xd0f89791; H64 0xc76c51a3 0x0654be30;
  H64 0xd192e819 0xd6ef5218; H64 0xd6990624 0x5565a910;
  H64 0xf40e3585 0x5771202a; H64 0x106aa070 0x32bbd1b8;
  H64 0x19a4c116 0xb8d2d0c8; H64 0x1e376c08 0x5141ab53;
  H64 0x2748774c 0xdf8eeb99; H64 0x34b0bcb5 0xe19b48a8;
  H64 0x391c0cb3 0xc5c95a63; H64 0x4ed8aa4a 0xe3418acb;
  H64 0x5b9cca4f 0x7763e373; H64 0x682e6ff3 0xd6b2b8a3;
  H64 0x748f82ee 0x5defb2fc; H64 0x78a5636f 0x43172f60;
  H64 0x84c87814 0xa1f0ab72; H64 0x8cc70208 0x1a6439ec;
  H64 0x90befffa 0x23631e28; H64 0xa4506ceb 0xde82bde9;
  H64 0xbef9a3f7 0xb2c67915; H64 0xc67178f2 0xe372532b;
  H64 0xca273ece 0xea26619c; H64 0xd186b8c7 0x21c0c207;
  H64 0xeada7dd6 0xcde0eb1e; H64 0xf57d4f7f 0xee6ed178;
  H64 0x06f067aa 0x72176fba; H64 0x0a637dc5 0xa2c898a6;
  H64 0x113f9804 0xbef90dae; H64 0x1b710b35 0x131c471b;
  H64 0x28db77f5 0x23047d84; H64 0x32caab7b 0x40c72493;
  H64 0x3c9ebe0a 0x15c9bebc; H64 0x431d67c4 0x9c100d4c;
  H64 0x4cc5d4be 0xcb3e42b6; H64 0x597f299c 0xfc657e2a;
  H64 0x5fcb6fab 0x3ad6faec; H64 0x6c44198c 0x4a475817 ].

Definition sig512 (x a b c : Z) : Z :=
  Z.lxor (Z.lxor (cx_rotr64 x a) (cx_rotr64 x b)) (cx_shr64 x c).
Definition sum512 (x a b c : Z) : Z :=
  Z.lxor (Z.lxor (cx_rotr64 x a) (cx_rotr64 x b)) (cx_rotr64 x c).

Definition sigma0 (x : Z) : Z := sig512 x 1 8 7.
Definition sigma1 (x : Z) : Z := sig512 x 19 61 6.
Definition sum0 (x : Z) : Z := sum512 x 28 34 39.
Definition sum1 (x : Z) : Z := sum512 x 14 18 41.

Definition ch (x y z : Z) : Z := Z.lxor (Z.land x y) (Z.land (not64 x) z).
Definition maj (x y z : Z) : Z :=
  Z.lxor (Z.lxor (Z.land x y) (Z.land x z)) (Z.land y z).

(** [memset(hash, 0, sizeof(cx_sha512_t))] *)
Definition sha512_zero (a : cx_md_t) : md_ctx :=
  mk_md_ctx a 0 0 (zeros SHA512_BLOCK_SIZE) (zeros 8).

Definition cx_sha384_init : M md_ctx cx_md_t := fun _ =>
  Ret CX_SHA384 (set_acc hzero_384 (sha512_zero CX_SHA384)).

Definition cx_sha512_init : M md_ctx cx_md_t := fun _ =>
  Ret CX_SHA512 (set_acc hzero (sha512_zero CX_SHA512)).

(** The new X[j & 0xF] from X[j-2], X[j-7], X[j-15] and X[j-16]. *)
Definition sha512_next (x2 x7 x15 x16 : Z) : Z :=
  w64 (sigma1 x2 + x7 + sigma0 x15 + x16).

(** t1, t2, the shift of the working variables, [E += t1; A = t1 + t2]. *)
Definition sha512_round (j x : Z) (ACC : list Z) : list Z :=
  let A := znth ACC 0 in let B := znth ACC 1 in let C := znth ACC 2 in
  let E := znth ACC 4 in let F := znth ACC 5 in let G := znth ACC 6 in
  let H := znth ACC 7 in
  let t1 := w64 (H + sum1 E + ch E F G + znth primeSqrt j + x) in
  let t2 := w64 (sum0 A + maj A B C) in
  let H := G in let G := F in let F := E in let E := znth ACC 3 in
  let D := C in let C := B in let B := A in
  let E := w64 (E + t1) in
  let A := w64 (t1 + t2) in
  [A; B; C; D; E; F; G; H].

Definition cx_sha512_block (hash : md_ctx) : md_ctx :=
  let X := spec_cx_swap_buffer64 (load_words64 (block hash)) in
  let (ACC, X) :=
    for_range 80 (circular_round sha512_next sha512_round) (acc hash, X) in
  set_acc (zip_with (fun a b => w64 (a + b)) (acc hash) ACC)
    (set_block (store_words64 X) hash).

Definition spec_cx_sha512_update (data : option (list Z)) (len : Z) : M md_ctx Z :=
  if bool_decide (data = None) && negb (len =? 0) then mret 0
  else
    let! n := mgets blen in
    do! mmodify (set_blen 0) in
    append_data true 128 cx_sha512_block n (default [] data) len.

(** [bitlen] is an [unsigned long int]. *)
Definition sha512_bitlen (counter blen : Z) : Z :=
  w32 (w64 (w64 (w64 (counter * 128) + blen - 1) * 8)).

Definition spec_cx_sha512_final (digest : option (list Z))
  : M md_ctx (Z * option (list Z)) :=
  match digest with
  | None => mret (0, None)
  | Some digest =>
      do! pad_blocks 128 cx_sha512_block false 16 sha512_bitlen
            (fun bitlen => le_split 8 (spec_cx_swap_uint64 bitlen)) in
      let! a := mgets algo in
      let len := if bool_decide (a = CX_SHA512) then Z.shiftr 512 3 else Z.shiftr 384 3 in
      do! mmodify (fun c => set_acc (spec_cx_swap_buffer64 (acc c)) c) in
      let! out := mgets (fun c => store_words64 (acc c)) in
      let! out := mlift (read_at out 0 len) in
      let! digest := mlift (write_at digest 0 out) in
      mret (1, Some digest)
  end.

(** The object is the static context [G_cx.sha512]. *)
Definition spec_cx_hash_sha512 (in_ : option (list Z)) (len : Z)
    (out : option (list Z)) : M md_ctx (Z * option (list Z)) :=
  do! cx_sha512_init in
  do! spec_cx_sha512_update in_ len in
  let! (_, out) := spec_cx_sha512_final out in
  mret (CX_SHA512_SIZE, out).

Definition cx_sha512_validate_context (ctx : md_ctx) : bool := blen ctx <? 128.

(** * Reference: FIPS 180-4 *)

Definition fips_compress512 (H blk : list Z) : list Z :=
  compress_words w64 not64 (Sigma_rot 64 28 34 39) (Sigma_rot 64 14 18 41)
    (sigma_shr 64 1 8 7) (sigma_shr 64 19 61 6) primeSqrt 80 H
    (map be_combine (chunks 8 blk)).

Definition fips_hash512 (H0 m : list Z) : list Z :=
  concat (map (be_split 8)
    (fold_left fips_compress512 (chunks 128 (md_pad 128 16 (be_split 16 (8 * zlen m)) m)) H0)).

Definition SHA512 (m : list Z) : list Z := fips_hash512 hzero m.
Definition SHA384 (m : list Z) : list Z := ztake 48 (fips_hash512 hzero_384 m).

(** * The block function *)

Lemma sum512_Sigma x a b c :
  is_w64 x -> 0 < a < 64 -> 0 < b < 64 -> 0 < c < 64 ->
  sum512 x a b c = Sigma_rot 64 a b c x.
Proof. intros. unfold sum512, Sigma_rot. by rewrite !cx_rotr64_ROTR. Qed.

Lemma sig512_sigma x a b c :
  is_w64 x -> 0 < a < 64 -> 0 < b < 64 -> 0 <= c ->
  sig512 x a b c = sigma_shr 64 a b c x.
Proof. intros. unfold sig512, sigma_shr. by rewrite !cx_rotr64_ROTR, cx_shr64_SHR. Qed.

Lemma sha512_round_eq j x A B C D E F G H :
  sha512_round j x [A; B; C; D; E; F; G; H] =
  let t1 := w64 (H + sum1 E + ch E F G + znth primeSqrt j + x) in
  let t2 := w64 (sum0 A + maj A B C) in
  [w64 (t1 + t2); A; B; C; w64 (D + t1); E; F; G].
Proof. reflexivity. Qed.

Lemma sha512_round_ok t w st :
  0 <= t < Z.of_nat 80 -> is_w64 w -> words_ok is_w64 8 st ->
  sha512_round t w st
  = round w64 not64 (Sigma_rot 64 28 34 39) (Sigma_rot 64 14 18 41) primeSqrt t w st /\
  words_ok is_w64 8 (sha512_round t w st).
Proof.
  intros _ Hw [Hst Hl]. destruct (list8_eq st Hl) as (a & b & c & d & e & f & g & h & ->).
  rewrite sha512_round_eq. unfold round. cbv zeta.
  repeat match goal with H : Forall _ (_ :: _) |- _ => apply Forall_cons_1 in H as [? H] end.
  change (ch e f g) with (Ch not64 e f g). change (maj a b c) with (Maj a b c).
  unfold sum1, sum0. rewrite !sum512_Sigma by (done || lia).
  split; [done|]. split; [|done]. repeat apply Forall_cons_2; try done; apply w64_range.
Qed.

Definition sha512_compress (H blk : list Z) : list Z :=
  acc (cx_sha512_block (mk_md_ctx CX_NONE 0 0 blk H)).

Lemma load_words64_length b n : length b = (8 * n)%nat -> length (load_words64 b) = n.
Proof.
  intros Hb. unfold load_words64. rewrite length_map, chunks_length, Hb, Nat.mul_comm.
  by apply Nat.div_mul.
Qed.

Lemma sha512_block_acc c : acc (cx_sha512_block c) = sha512_compress (acc c) (block c).
Proof.
  unfold sha512_compress, cx_sha512_block. cbn [block acc]. by destruct (for_range _ _ _).
Qed.

Lemma sha512_block_keeps c :
  length (block c) = 128%nat ->
  algo (cx_sha512_block c) = algo c /\ counter (cx_sha512_block c) = counter c /\
  blen (cx_sha512_block c) = blen c /\ length (block (cx_sha512_block c)) = 128%nat.
Proof.
  intros Hc. unfold cx_sha512_block. set (X := spec_cx_swap_buffer64 _).
  assert (length X = 16%nat) as HX.
  { unfold X, spec_cx_swap_buffer64. rewrite length_map. by apply load_words64_length. }
  pose proof (circular_correct w64 sigma0 sigma1 sha512_round 80 ltac:(lia) (acc c) X HX)
    as [_ Hl]. change (next_word w64 sigma0 sigma1) with sha512_next in Hl.
  destruct (for_range 80 _ _) as [ACC X']. cbn [snd] in Hl.
  cbn [algo counter blen block set_acc set_block]. by rewrite store64_length, Hl.
Qed.

(** On bytes and words, the block function is the compression function of
    FIPS 180-4. *)
Lemma sha512_compress_fips H blk :
  bytes_ok blk -> length blk = 128%nat -> words_ok is_w64 8 H ->
  sha512_compress H blk = fips_compress512 H blk /\
  words_ok is_w64 8 (sha512_compress H blk).
Proof.
  intros Hb Hl HH. unfold sha512_compress, cx_sha512_block, fips_compress512, compress_words.
  cbn [block acc set_acc set_block]. unfold spec_cx_swap_buffer64.
  rewrite load_swap_be64 by done. set (M := map be_combine _).
  assert (words_ok is_w64 16 M) as HM.
  { split; [by apply be_words64|]. unfold M. by rewrite length_map, chunks_length, Hl. }
  pose proof (rounds_refine is_w64 w64 w64_range is_w64_0 sigma0 sigma1
    (sigma_shr 64 1 8 7) (sigma_shr 64 19 61 6)
    ltac:(intros; by apply sig512_sigma) ltac:(intros; by apply sig512_sigma)
    80 ltac:(lia) sha512_round _ sha512_round_ok H M HM HH) as (E & [_ E8] & _).
  change (next_word w64 sigma0 sigma1) with sha512_next in *.
  destruct (for_range 80 (circular_round _ _) _) as [ACC X']. cbn [fst] in *. cbn [acc].
  rewrite <- E. split; [done|]. destruct HH. by apply zip_wrap_ok; [apply w64_range|..].
Qed.

(** From here the block function is only known by its lemmas. *)
#[local] Opaque cx_sha512_block sha512_compress fips_compress512.

Lemma sha512_block_spec f0 : block_fn_spec 128 128 sha512_compress f0 cx_sha512_block.
Proof.
  intros c Hc Hf. md_cbn. assert (length (block c) = 128%nat) by (unfold zlen in Hc; lia).
  destruct (sha512_block_keeps c) as (K1 & K2 & _ & K4); [done|].
  rewrite sha512_block_acc, take_ge by lia. split; [reflexivity|].
  split; [unfold zlen; by rewrite K4|]. split; [exact K2|congruence].
Qed.

(** * Streaming *)

Local Abbreviation represents a h0 := (repr 128 128 sha512_compress h0 a).

Lemma sha512_init_ok st :
  exists c, cx_sha512_init st = Ret CX_SHA512 c /\ represents CX_SHA512 hzero c [].
Proof. eexists. split; [done|]. by apply (md_fresh 128); lia. Qed.

Lemma sha384_init_ok st :
  exists c, cx_sha384_init st = Ret CX_SHA384 c /\ represents CX_SHA384 hzero_384 c [].
Proof. eexists. split; [done|]. by apply (md_fresh 128); lia. Qed.

Lemma sha512_update_unfold p c :
  spec_cx_sha512_update (Some p) (zlen p) c
  = append_data true 128 cx_sha512_block (blen c) p (zlen p) (set_blen 0 c).
Proof. unfold spec_cx_sha512_update. by rewrite bool_decide_eq_false_2. Qed.

(** The block counter stops at 65535: messages of 65536 blocks or more are
    refused. *)
Definition SHA512_LIMIT : Z := 65536 * 128.

Lemma whole_limit m : zlen m < SHA512_LIMIT <-> Z.of_nat (whole 128 m) <= 65535.
Proof.
  unfold SHA512_LIMIT. pose proof (partial_length 128 ltac:(lia) m).
  pose proof (partial_short 128 ltac:(lia) m). unfold zlen. lia.
Qed.

Lemma sha512_update_ok a h0 c m p :
  represents a h0 c m -> zlen (m ++ p) < SHA512_LIMIT ->
  exists c', spec_cx_sha512_update (Some p) (zlen p) c = Ret 1 c' /\
    represents a h0 c' (m ++ p).
Proof.
  intros Hc Hp. rewrite sha512_update_unfold.
  apply (append_data_ok 128 128 sha512_compress true ltac:(lia) ltac:(lia) ltac:(lia)
           cx_sha512_block h0 a (sha512_block_spec a)).
  - by apply md_holds_set_blen.
  - rewrite zlen_app in Hp. pose proof (zlen_nonneg m). unfold SHA512_LIMIT in Hp. lia.
  - right. by apply whole_limit.
Qed.

Lemma sha512_feed_ok a h0 c parts :
  represents a h0 c [] -> zlen (concat parts) < SHA512_LIMIT ->
  exists c', feed_all spec_cx_sha512_update parts c = Ret 1 c' /\
    represents a h0 c' (concat parts).
Proof.
  intros Hc HN.
  apply (feed_all_ok spec_cx_sha512_update (represents a h0) (fun _ => True) SHA512_LIMIT)
    with (m := []); [intros; by apply sha512_update_ok | done | by apply Forall_true | done].
Qed.

Lemma sha512_fold_fips l h0 :
  words_ok is_w64 8 h0 -> bytes_ok l ->
  fold_left sha512_compress (chunks 128 l) h0 = fold_left fips_compress512 (chunks 128 l) h0 /\
  words_ok is_w64 8 (fold_left sha512_compress (chunks 128 l) h0).
Proof.
  intros H0 Hl. apply (fold_chunks_refine (words_ok is_w64 8)); [|done|done].
  intros. by apply sha512_compress_fips.
Qed.

Lemma fips_hash512_length m h0 :
  words_ok is_w64 8 h0 -> bytes_ok m -> zlen (fips_hash512 h0 m) = 64.
Proof.
  intros H0 Hm.
  destruct (sha512_fold_fips (md_pad 128 16 (be_split 16 (8 * zlen m)) m) h0 H0) as [E [_ W]].
  { apply bytes_ok_md_pad; [apply be_split_bytes | done]. }
  unfold fips_hash512. rewrite <- E. unfold zlen at 1. by rewrite concat_be_split_length, W.
Qed.

(** The 128-bit length of FIPS 180-4 is the 64-bit field the code writes
    after 8 zero bytes. *)
Lemma be_split_16 x : is_w64 x -> be_split 16 x = replicate 8 0 ++ be_split 8 x.
Proof.
  intros Hx. unfold be_split.
  assert (le_split 16 x = le_split 8 x ++ le_split 8 (x / 2 ^ 64)) as ->.
  { cbn [le_split app]. rewrite !Z.div_div by done. done. }
  rewrite (Z.div_small x) by (unfold is_w64 in Hx; lia). by rewrite rev_app_distr.
Qed.

Lemma sha512_final_ok a h0 c m digest :
  words_ok is_w64 8 h0 -> bytes_ok m -> represents a h0 c m -> zlen m < SHA512_LIMIT ->
  let n := if bool_decide (a = CX_SHA512) then 64 else 48 in
  n <= zlen digest ->
  exists c', spec_cx_sha512_final (Some digest) c
    = Ret (1, Some (ztake n (fips_hash512 h0 m) ++ zdrop n digest)) c' /\ algo c' = a.
Proof.
  intros H0 Hm Hc Hlen n Hn. unfold spec_cx_sha512_final. unfold SHA512_LIMIT in Hlen.
  destruct (pad_blocks_ok 128 16 sha512_compress ltac:(lia) ltac:(lia) cx_sha512_block h0 a
    (sha512_block_spec a) false sha512_bitlen
    (fun bitlen => le_split 8 (spec_cx_swap_uint64 bitlen))
    ltac:(intros; done) c m Hc) as (c1 & Hp & Ha & Hf & _).
  rewrite (mbind_ret _ _ _ _ _ Hp). md_cbn.
  assert (sha512_bitlen (counter c) (zlen (partial 128 m) + 1) = 8 * zlen m) as Hbl.
  { pose proof (md_message_length 128 _ _ _ _ _ ltac:(lia) Hc ltac:(lia)) as [? E].
    pose proof (zlen_nonneg m). pose proof (zlen_nonneg (partial 128 m)).
    unfold sha512_bitlen, w64, w32. rewrite !Z.mod_small; div_mod_lia. }
  pose proof (zlen_nonneg m). rewrite Hbl, store_swap_be64 in Ha by (unfold is_w64; lia).
  change (16 - 8)%nat with 8%nat in Ha. rewrite <- be_split_16 in Ha by (unfold is_w64; lia).
  destruct (sha512_fold_fips (md_pad 128 16 (be_split 16 (8 * zlen m)) m) h0 H0) as [E W].
  { apply bytes_ok_md_pad; [apply be_split_bytes | done]. }
  rewrite <- Ha in W. rewrite E in Ha. destruct W as [W1 W2].
  unfold mbind at 1, mgets at 1, mbind at 1, mmodify at 1, mbind at 1, mgets at 1.
  cbn [acc set_acc algo]. rewrite Hf.
  change (if bool_decide (a = CX_SHA512) then Z.shiftr 512 3 else Z.shiftr 384 3) with n.
  rewrite store_swap_words64 by done.
  set (out := concat _). assert (out = fips_hash512 h0 m) as Ho.
  { unfold out, fips_hash512. by rewrite Ha. }
  assert (zlen out = 64) as Hout by (rewrite Ho; by apply fips_hash512_length).
  assert (0 <= n <= 64) by (unfold n; case_bool_decide; lia).
  destruct (copy_prefix out digest n) as [R1 R2]; [lia|done|].
  rewrite (mlift_some _ _ _ _ R1), (mlift_some _ _ _ _ R2), <- Ho. eexists. split; [reflexivity|].
  exact Hf.
Qed.

(** * Properties *)

(** A SHA-512 (resp. SHA-384) context that is initialised,
    updated with any sequence of buffers of bytes, less than 65536 blocks in
    all, and finalised gives the digest FIPS 180-4 defines for the
    concatenation of the buffers in the first 64 (resp. 48) bytes of the
    output buffer, and leaves the rest of it unchanged. No access leaves a
    buffer and nothing is thrown. *)
Theorem sha512_streaming (parts : list (list Z)) (digest : list Z) (st : md_ctx) :
  Forall bytes_ok parts ->
  zlen (concat parts) < SHA512_LIMIT ->
  64 <= zlen digest ->
  (exists c, (do! cx_sha512_init in do! feed_all spec_cx_sha512_update parts in
      spec_cx_sha512_final (Some digest)) st
    = Ret (1, Some (SHA512 (concat parts) ++ zdrop 64 digest)) c) /\
  (exists c, (do! cx_sha384_init in do! feed_all spec_cx_sha512_update parts in
      spec_cx_sha512_final (Some digest)) st
    = Ret (1, Some (SHA384 (concat parts) ++ zdrop 48 digest)) c).
Proof.
  intros Hb Hlen Hd.
  assert (bytes_ok (concat parts)) as Hc by by apply Forall_concat.
  assert (words_ok is_w64 8 hzero /\ words_ok is_w64 8 hzero_384) as [W1 W2].
  { unfold words_ok, is_w64. repeat split; repeat apply Forall_cons_2; done || lia. }
  split.
  - destruct (sha512_init_ok st) as (c0 & E0 & R0).
    destruct (sha512_feed_ok _ _ _ parts R0 Hlen) as (c1 & E1 & R1).
    rewrite (mbind_ret _ _ _ _ _ E0), (mbind_ret _ _ _ _ _ E1).
    destruct (sha512_final_ok _ _ _ _ digest W1 Hc R1 Hlen) as (c2 & E2 & _); [done|].
    exists c2. rewrite E2. unfold SHA512.
    change (if bool_decide _ then 64 else 48) with 64.
    by rewrite ztake_all by (rewrite fips_hash512_length; done).
  - destruct (sha384_init_ok st) as (c0 & E0 & R0).
    destruct (sha512_feed_ok _ _ _ parts R0 Hlen) as (c1 & E1 & R1).
    rewrite (mbind_ret _ _ _ _ _ E0), (mbind_ret _ _ _ _ _ E1).
    destruct (sha512_final_ok _ _ _ _ digest W2 Hc R1 Hlen) as (c2 & E2 & _);
      [simpl; lia|]. by exists c2.
Qed.

Definition abc_parts : list (list Z) := [[0x61]; [0x62; 0x63]; []].

Lemma sha512_streaming_witness :
  ztake 8 (SHA512 (concat abc_parts)) = [0xdd; 0xaf; 0x35; 0xa1; 0x93; 0x61; 0x7a; 0xba] /\
  ztake 8 (SHA384 (concat abc_parts)) = [0xcb; 0x00; 0x75; 0x3f; 0x45; 0xa3; 0x5e; 0x8b] /\
  exists c, (do! cx_sha512_init in do! feed_all spec_cx_sha512_update abc_parts in
      spec_cx_sha512_final (Some (zeros 64))) (sha512_zero CX_NONE)
    = Ret (1, Some (SHA512 (concat abc_parts) ++ zdrop 64 (zeros 64))) c.
Proof.
  split; [vm_compute; reflexivity|]. split; [vm_compute; reflexivity|].
  apply (sha512_streaming abc_parts (zeros 64) (sha512_zero CX_NONE)).
  - unfold bytes_ok, is_byte. repeat constructor; lia.
  - vm_compute. reflexivity.
  - vm_compute. discriminate.
Defined.

(** On a context whose block is 128 bytes and whose chaining
    value is eight 64-bit words, the block function replaces the chaining
    value by the compression of FIPS 180-4 and keeps the algorithm, the
    counter, the pending length and the size of the block. *)
Theorem sha512_block_fips (c : md_ctx) :
  bytes_ok (block c) -> length (block c) = 128%nat ->
  Forall is_w64 (acc c) -> length (acc c) = 8%nat ->
  let c' := cx_sha512_block c in
  acc c' = fips_compress512 (acc c) (block c) /\
  Forall is_w64 (acc c') /\ length (acc c') = 8%nat /\
  algo c' = algo c /\ counter c' = counter c /\ blen c' = blen c /\
  length (block c') = 128%nat.
Proof.
  intros Hb Hl Ha Hal. cbv zeta. rewrite sha512_block_acc.
  destruct (sha512_compress_fips (acc c) (block c) Hb Hl (conj Ha Hal)) as [E [W1 W2]].
  destruct (sha512_block_keeps c Hl) as (K1 & K2 & K3 & K4).
  exact (conj E (conj W1 (conj W2 (conj K1 (conj K2 (conj K3 K4)))))).
Qed.

Lemma sha512_block_fips_witness :
  let c := cx_sha512_block (mk_md_ctx CX_SHA512 7 3 (zeros 128) hzero) in
  acc c = fips_compress512 hzero (zeros 128).
Proof.
  apply (sha512_block_fips (mk_md_ctx CX_SHA512 7 3 (zeros 128) hzero)).
  - unfold bytes_ok. apply Forall_replicate. unfold is_byte. lia.
  - reflexivity.
  - unfold is_w64. cbn [acc]. repeat apply Forall_cons_2; done || lia.
  - reflexivity.
Defined.

(** The tables of the file are those of FIPS 180-4: the
    first 64 bits of the fractional parts of the cube roots of the first 80
    primes, and of the square roots of the first 8 and of the 9th to the 16th
    primes. *)
Theorem sha512_constants :
  primeSqrt = map (frac_root 64 3) (primes_below 410) /\
  hzero = map (frac_root 64 2) (primes_below 20) /\
  hzero_384 = map (frac_root 64 2) (drop 8 (primes_below 54)).
Proof. vm_compute. done. Qed.

(** A context that has absorbed less than 65536 blocks throws
    [INVALID_PARAMETER] for an update that would complete the 65536th one,
    and never wraps its counter. *)
Theorem sha512_update_limit (c : md_ctx) (a : cx_md_t) (h0 m p : list Z) :
  repr 128 128 sha512_compress h0 a c m ->
  zlen m < SHA512_LIMIT <= zlen (m ++ p) -> zlen p + 128 < 4294967296 ->
  exists c', spec_cx_sha512_update (Some p) (zlen p) c = Throw INVALID_PARAMETER c'.
Proof.
  intros Hc [Hm Hp] Hlen. rewrite sha512_update_unfold.
  apply (append_data_limit 128 128 sha512_compress true ltac:(lia) ltac:(lia) ltac:(lia)
           cx_sha512_block h0 a (sha512_block_spec a)) with (m := m); try done.
  - by apply md_holds_set_blen.
  - pose proof (whole_limit m). pose proof (whole_limit (m ++ p)). lia.
Qed.

Lemma sha512_update_limit_witness :
  let m := zeros (SHA512_LIMIT - 1) in
  exists c', spec_cx_sha512_update (Some [0]) 1
      (md_ctx_of 128 sha512_compress CX_SHA512 hzero m)
    = Throw INVALID_PARAMETER c'.
Proof.
  cbv zeta. assert (zlen (zeros (SHA512_LIMIT - 1)) = SHA512_LIMIT - 1) as Hl.
  { apply zlen_zeros. done. }
  apply (sha512_update_limit _ CX_SHA512 hzero (zeros (SHA512_LIMIT - 1)) [0]).
  - apply (md_ctx_of_repr 128). lia.
  - rewrite zlen_app, Hl. unfold SHA512_LIMIT, zlen. simpl. lia.
  - done.
Defined.
