(* ===== verification/CxRipemd160.v ===== *)
(** RIPEMD-160: [src/bolos/cx_ripemd160.c]. The operations, the refinement of
    the block function to the published algorithm and the digest computed by
    any sequence of updates. *)

From S2P Require Import Prelude CxUtils BlockStream HashCtx Sha2Ref.

(** * Definitions *)

Definition zL : list Z := [
  0; 1; 2; 3; 4; 5; 6; 7; 8; 9; 10; 11; 12; 13; 14; 15;
  7; 4; 13; 1; 10; 6; 15; 3; 12; 0; 9; 5; 2; 14; 11; 8;
  3; 10; 14; 4; 9; 15; 8; 1; 2; 7; 0; 6; 13; 11; 5; 12;
  1; 9; 11; 10; 0; 8; 12; 4; 13; 3; 7; 15; 14; 5; 6; 2;
  4; 0; 5; 9; 7; 12; 2; 10; 14; 1; 3; 8; 11; 6; 15; 13 ].

Definition zR : list Z := [
  5; 14; 7; 0; 9; 2; 11; 4; 13; 6; 15; 8; 1; 10; 3; 12;
  6; 11; 3; 7; 0; 13; 5; 10; 14; 15; 8; 12; 4; 9; 1; 2;
  15; 5; 1; 3; 7; 14; 6; 9; 11; 8; 12; 2; 10; 0; 4; 13;
  8; 6; 4; 1; 3; 11; 15; 0; 5; 12; 2; 13; 9; 7; 10; 14;
  12; 15; 10; 4; 1; 5; 8; 7; 6; 2; 13; 14; 0; 3; 9; 11 ].

Definition sL : list Z := [
  11; 14; 15; 12; 5; 8; 7; 9; 11; 13; 14; 15; 6; 7; 9; 8;
  7; 6; 8; 13; 11; 9; 7; 15; 7; 12; 15; 9; 11; 7; 13; 12;
  11; 13; 6; 7; 14; 9; 13; 15; 14; 8; 13; 6; 5; 12; 7; 5;
  11; 12; 14; 15; 14; 15; 9; 8; 9; 14; 5; 6; 8; 6; 5; 12;
  9; 15; 5; 11; 6; 8; 13; 12; 5; 12; 13; 14; 11; 8; 5; 6 ].

Definition sR : list Z := [
  8; 9; 9; 11; 13; 15; 15; 5; 7; 7; 8; 11; 14; 14; 12; 6;
  9; 13; 15; 7; 12; 8; 9; 11; 7; 7; 12; 7; 6; 15; 13; 11;
  9; 7; 15; 11; 8; 6; 6; 14; 12; 13; 5; 14; 13; 13; 7; 5;
  15; 5; 8; 11; 14; 14; 6; 14; 6; 9; 12; 9; 12; 5; 15; 8;
  8; 5; 12; 9; 12; 5; 14; 6; 8; 13; 6; 5; 15; 13; 11; 11 ].

Definition hzero : list Z :=
  [0x67452301; 0xEFCDAB89; 0x98BADCFE; 0x10325476; 0xC3D2E1F0].

Definition kL_0_15 : Z := 0x00000000.
Definition kL_16_31 : Z := 0x5A827999.
Definition kL_32_47 : Z := 0x6ED9EBA1.
Definition kL_48_63 : Z := 0x8F1BBCDC.
Definition kL_64_78 : Z := 0xA953FD4E.

Definition kR_0_15 : Z := 0x50A28BE6.
Definition kR_16_31 : Z := 0x5C4DD124.
Definition kR_32_47 : Z := 0x6D703EF3.
Definition kR_48_63 : Z := 0x7A6D76E9.
Definition kR_64_78 : Z := 0x00000000.

(** The functions of [BCD[0]], [BCD[1]] and [BCD[2]]. *)
Definition f1 (x y z : Z) : Z := Z.lxor (Z.lxor x y) z.
Definition f2 (x y z : Z) : Z := Z.lor (Z.land x y) (Z.land (not32 x) z).
Definition f3 (x y z : Z) : Z := Z.lxor (Z.lor x (not32 y)) z.
Definition f4 (x y z : Z) : Z := Z.lor (Z.land x z) (Z.land y (not32 z)).
Definition f5 (x y z : Z) : Z := Z.lxor x (Z.lor y (not32 z)).

Definition cx_ripemd160_init : M md_ctx cx_md_t := fun _ =>
  Ret CX_RIPEMD160
    (set_acc hzero (mk_md_ctx CX_RIPEMD160 0 0 (zeros RIPEMD_BLOCK_SIZE) (zeros 5))).

(** What the switch on [j >> 4] adds to Tl and to Tr. *)
Definition ripemd160_addL (j Bl Cl Dl : Z) : Z :=
  match Z.shiftr j 4 with
  | 0 => w32 (f1 Bl Cl Dl + kL_0_15)
  | 1 => w32 (f2 Bl Cl Dl + kL_16_31)
  | 2 => w32 (f3 Bl Cl Dl + kL_32_47)
  | 3 => w32 (f4 Bl Cl Dl + kL_48_63)
  | 4 => w32 (f5 Bl Cl Dl + kL_64_78)
  | _ => 0
  end.

Definition ripemd160_addR (j Br Cr Dr : Z) : Z :=
  match Z.shiftr j 4 with
  | 0 => w32 (f5 Br Cr Dr + kR_0_15)
  | 1 => w32 (f4 Br Cr Dr + kR_16_31)
  | 2 => w32 (f3 Br Cr Dr + kR_32_47)
  | 3 => w32 (f2 Br Cr Dr + kR_48_63)
  | 4 => w32 (f1 Br Cr Dr + kR_64_78)
  | _ => 0
  end.

(** One line of the round loop, on its five variables A..E. *)
Definition ripemd160_line (add : Z -> Z -> Z -> Z -> Z) (z s : list Z) (X : list Z)
    (j : Z) (ACC : list Z) : list Z :=
  let A := znth ACC 0 in let B := znth ACC 1 in let C := znth ACC 2 in
  let D := znth ACC 3 in let E := znth ACC 4 in
  let T := w32 (A + znth X (znth z j)) in
  let T := w32 (T + add j B C D) in
  let T := cx_rotl T (znth s j) in
  let T := w32 (T + E) in
  let A := E in let E := D in let D := cx_rotl C 10 in let C := B in let B := T in
  [A; B; C; D; E].

(** The body of the round loop. *)
Definition ripemd160_round (X : list Z) (j : Z) (s : list Z * list Z)
  : list Z * list Z :=
  let (ACCl, ACCr) := s in
  (ripemd160_line ripemd160_addL zL sL X j ACCl,
   ripemd160_line ripemd160_addR zR sR X j ACCr).

Definition cx_ripemd160_block (hash : md_ctx) : md_ctx :=
  let X := load_words32 (block hash) in
  let accumulator := acc hash in
  let (ACCl, ACCr) :=
    for_range 80 (ripemd160_round X) (accumulator, accumulator) in
  let acc i := znth accumulator i in
  let l i := znth ACCl i in
  let r i := znth ACCr i in
  let Tl := w32 (acc 1 + l 2 + r 3) in
  set_acc
    [Tl;
     w32 (acc 2 + l 3 + r 4);
     w32 (acc 3 + l 4 + r 0);
     w32 (acc 4 + l 0 + r 1);
     w32 (acc 0 + l 1 + r 2)] hash.

Definition spec_cx_ripemd160_update (data : option (list Z)) (len : Z)
  : M md_ctx Z :=
  if bool_decide (data = None) && negb (len =? 0) then mret 0
  else
    let! n := mgets blen in
    do! mmodify (set_blen 0) in
    if 64 <=? n then mret 0
    else append_data true 64 cx_ripemd160_block n (default [] data) len.

Definition ripemd160_bitlen (counter blen : Z) : Z :=
  w32 (w32 (w32 (counter * 64) + blen - 1) * 8).

Definition spec_cx_ripemd160_final (digest : option (list Z))
  : M md_ctx (Z * option (list Z)) :=
  match digest with
  | None => mret (0, None)
  | Some digest =>
      do! pad_blocks 64 cx_ripemd160_block false 8 ripemd160_bitlen (le_split 8) in
      let! out := mgets (fun c => store_words32 (acc c)) in
      let! out := mlift (read_at out 0 CX_RIPEMD160_SIZE) in
      let! digest := mlift (write_at digest 0 out) in
      mret (1, Some digest)
  end.

Definition cx_ripemd160_validate_context (ctx : md_ctx) : bool := blen ctx <? 64.

(** The context is a local: whatever it holds before the initialisation. *)
Definition sys_cx_hash_ripemd160 (in_ : option (list Z)) (in_len : Z)
    (out : option (list Z)) (out_len : Z) : M md_ctx (Z * option (list Z)) :=
  if out_len <? CX_RIPEMD160_SIZE then mret (0, out)
  else
    do! cx_ripemd160_init in
    do! spec_cx_ripemd160_update in_ in_len in
    let! (_, out) := spec_cx_ripemd160_final out in
    mret (CX_RIPEMD160_SIZE, out).

(** * Reference: Dobbertin, Bosselaers and Preneel *)

(** The permutations of the message words, and the rotation of each word in
    each of the five rounds. *)
Definition rho (i : Z) : Z :=
  znth [7; 4; 13; 1; 10; 6; 15; 3; 12; 0; 9; 5; 2; 14; 11; 8] i.
Definition pi (i : Z) : Z := (9 * i + 5) mod 16.

Definition rmd_shifts : list (list Z) := [
  [11; 14; 15; 12; 5; 8; 7; 9; 11; 13; 14; 15; 6; 7; 9; 8];
  [12; 13; 11; 15; 6; 9; 9; 7; 12; 15; 11; 13; 7; 8; 7; 7];
  [13; 15; 14; 11; 7; 7; 6; 8; 13; 14; 13; 12; 5; 5; 6; 9];
  [14; 11; 12; 14; 8; 6; 5; 5; 15; 12; 15; 14; 9; 9; 8; 6];
  [15; 12; 13; 13; 9; 5; 8; 6; 14; 11; 12; 11; 8; 6; 5; 5] ].

(** The message word and the rotation of step [j] on the two lines. *)
Definition rmd_r (j : Z) : Z := Nat.iter (Z.to_nat (j / 16)) rho (j mod 16).
Definition rmd_r' (j : Z) : Z := Nat.iter (Z.to_nat (j / 16)) rho (pi (j mod 16)).
Definition rmd_shift (j i : Z) : Z := znth (nth (Z.to_nat (j / 16)) rmd_shifts []) i.
Definition rmd_s (j : Z) : Z := rmd_shift j (rmd_r j).
Definition rmd_s' (j : Z) : Z := rmd_shift j (rmd_r' j).

(** The integer parts of 2^30 times the square and cube roots of 2, 3, 5, 7. *)
Definition rmd_K (k : Z) : Z :=
  znth (0 :: map (fun p => iroot 40 2 (p * 2 ^ 60) 0) [2; 3; 5; 7]) k.
Definition rmd_K' (k : Z) : Z :=
  znth (map (fun p => iroot 40 3 (p * 2 ^ 90) 0) [2; 3; 5; 7] ++ [0]) k.

(** The Boolean function of round [k]. *)
Definition rmd_f (k x y z : Z) : Z :=
  match k with
  | 0 => Z.lxor (Z.lxor x y) z
  | 1 => Z.lor (Z.land x y) (Z.land (not32 x) z)
  | 2 => Z.lxor (Z.lor x (not32 y)) z
  | 3 => Z.lor (Z.land x z) (Z.land y (not32 z))
  | _ => Z.lxor x (Z.lor y (not32 z))
  end.

Definition ROL (n x : Z) : Z := ROTR 32 (32 - n) x.

Definition rmd_step (k K r s : Z) (X ACC : list Z) : list Z :=
  match ACC with
  | [A; B; C; D; E] =>
      let T := w32 (ROL s (w32 (A + rmd_f k B C D + znth X r + K)) + E) in
      [E; T; B; ROL 10 C; D]
  | _ => ACC
  end.

Definition rmd_line (X : list Z) (j : Z) : list Z -> list Z :=
  rmd_step (j / 16) (rmd_K (j / 16)) (rmd_r j) (rmd_s j) X.
Definition rmd_line' (X : list Z) (j : Z) : list Z -> list Z :=
  rmd_step (4 - j / 16) (rmd_K' (j / 16)) (rmd_r' j) (rmd_s' j) X.

Definition rmd_compress (h blk : list Z) : list Z :=
  let X := map le_combine (chunks 4 blk) in
  match h, for_range 80 (rmd_line X) h, for_range 80 (rmd_line' X) h with
  | [h0; h1; h2; h3; h4], [A; B; C; D; E], [A'; B'; C'; D'; E'] =>
      [w32 (h1 + C + D'); w32 (h2 + D + E'); w32 (h3 + E + A'); w32 (h4 + A + B');
       w32 (h0 + B + C')]
  | _, _, _ => h
  end.

(** The length field is little-endian. *)
Definition RIPEMD160 (m : list Z) : list Z :=
  store_words32
    (fold_left rmd_compress (chunks 64 (md_pad 64 8 (le_split 8 (8 * zlen m)) m)) hzero).

(** * The block function *)

Definition steps80 : list Z := map Z.of_nat (seq 0 80).

Lemma steps80_spec (p : Z -> bool) j :
  forallb p steps80 = true -> 0 <= j < 80 -> p j = true.
Proof.
  intros Hp Hj. rewrite forallb_forall in Hp. apply Hp. apply in_map_iff.
  exists (Z.to_nat j). split; [lia|]. apply in_seq. lia.
Qed.

(** The tables and the constants of the code are those of the reference. *)
Lemma ripemd160_tables_ok j :
  0 <= j < 80 ->
  znth zL j = rmd_r j /\ znth zR j = rmd_r' j /\
  znth sL j = rmd_s j /\ znth sR j = rmd_s' j /\
  0 < rmd_s j < 32 /\ 0 < rmd_s' j < 32.
Proof.
  intros Hj.
  pose proof (steps80_spec (fun j =>
    (znth zL j =? rmd_r j) && (znth zR j =? rmd_r' j) && (znth sL j =? rmd_s j) &&
    (znth sR j =? rmd_s' j) && (0 <? rmd_s j) && (rmd_s j <? 32) &&
    (0 <? rmd_s' j) && (rmd_s' j <? 32)) j ltac:(vm_compute; reflexivity) Hj) as H.
  cbv beta in H. lia.
Qed.

Lemma round_cases j : 0 <= j < 80 ->
  j / 16 = 0 \/ j / 16 = 1 \/ j / 16 = 2 \/ j / 16 = 3 \/ j / 16 = 4.
Proof. intros. div_mod_lia. Qed.

Lemma addL_ok j x y z :
  0 <= j < 80 ->
  ripemd160_addL j x y z = w32 (rmd_f (j / 16) x y z + rmd_K (j / 16)).
Proof.
  intros Hj. unfold ripemd160_addL. rewrite Z.shiftr_div_pow2 by done.
  change (2 ^ 4) with 16.
  by destruct (round_cases j Hj) as [-> |[-> |[-> |[-> | ->]]]].
Qed.

Lemma addR_ok j x y z :
  0 <= j < 80 ->
  ripemd160_addR j x y z = w32 (rmd_f (4 - j / 16) x y z + rmd_K' (j / 16)).
Proof.
  intros Hj. unfold ripemd160_addR. rewrite Z.shiftr_div_pow2 by done.
  change (2 ^ 4) with 16.
  by destruct (round_cases j Hj) as [-> |[-> |[-> |[-> | ->]]]].
Qed.

Lemma cx_rotl_ROL x n : is_w32 x -> 0 < n < 32 -> cx_rotl x n = ROL n x.
Proof.
  intros Hx Hn. unfold ROL. rewrite <- cx_rotr_ROTR by (done || lia).
  rewrite rotr_eq_rotl. f_equal. lia.
Qed.

Lemma list5_eq {A} (l : list A) :
  length l = 5%nat -> exists a b c d e, l = [a; b; c; d; e].
Proof.
  destruct l as [|? [|? [|? [|? [|? [|]]]]]]; try discriminate. by repeat eexists.
Qed.

(** One step of a line, given the table entries of the reference. *)
Lemma ripemd160_line_ok add z s X j ACC k K r sh :
  (forall x y z, add j x y z = w32 (rmd_f k x y z + K)) ->
  znth z j = r -> znth s j = sh -> 0 < sh < 32 -> words_ok is_w32 5 ACC ->
  ripemd160_line add z s X j ACC = rmd_step k K r sh X ACC /\
  words_ok is_w32 5 (ripemd160_line add z s X j ACC).
Proof.
  intros Hadd Hz Hs Hsh [Hw Hl]. destruct (list5_eq ACC Hl) as (A & B & C & D & E & ->).
  repeat apply Forall_cons_1 in Hw as [? Hw].
  unfold ripemd160_line, rmd_step.
  change (znth [A; B; C; D; E] 0) with A. change (znth [A; B; C; D; E] 1) with B.
  change (znth [A; B; C; D; E] 2) with C. change (znth [A; B; C; D; E] 3) with D.
  change (znth [A; B; C; D; E] 4) with E. cbv zeta.
  rewrite Hadd, Hz, Hs.
  assert (w32 (w32 (A + znth X r) + w32 (rmd_f k B C D + K))
        = w32 (A + rmd_f k B C D + znth X r + K)) as ->.
  { unfold w32. rewrite <- Z.add_mod by done. f_equal. lia. }
  rewrite !cx_rotl_ROL by (done || apply w32_range).
  split; [done|]. split; [|done]. repeat apply Forall_cons_2; try done; [apply w32_range|].
  rewrite <- cx_rotl_ROL by done. by apply rotl_range.
Qed.

Lemma ripemd160_round_ok X j s :
  0 <= j < 80 -> words_ok is_w32 5 (fst s) -> words_ok is_w32 5 (snd s) ->
  ripemd160_round X j s = (rmd_line X j (fst s), rmd_line' X j (snd s)) /\
  words_ok is_w32 5 (rmd_line X j (fst s)) /\ words_ok is_w32 5 (rmd_line' X j (snd s)).
Proof.
  intros Hj. destruct s as [l r]. cbn [fst snd]. intros Hl Hr.
  destruct (ripemd160_tables_ok j Hj) as (T1 & T2 & T3 & T4 & T5 & T6).
  destruct (ripemd160_line_ok ripemd160_addL zL sL X j l (j / 16) (rmd_K (j / 16))
    (rmd_r j) (rmd_s j)) as [E1 W1]; try done; [intros; by apply addL_ok|].
  destruct (ripemd160_line_ok ripemd160_addR zR sR X j r (4 - j / 16) (rmd_K' (j / 16))
    (rmd_r' j) (rmd_s' j)) as [E2 W2]; try done; [intros; by apply addR_ok|].
  unfold ripemd160_round, rmd_line, rmd_line'. rewrite E1 in *. rewrite E2 in *. done.
Qed.

(** The two lines of the code's loop run independently. *)
Lemma ripemd160_rounds_ok n X h :
  (n <= 80)%nat -> words_ok is_w32 5 h ->
  for_range n (ripemd160_round X) (h, h)
    = (for_range n (rmd_line X) h, for_range n (rmd_line' X) h) /\
  words_ok is_w32 5 (for_range n (rmd_line X) h) /\
  words_ok is_w32 5 (for_range n (rmd_line' X) h).
Proof.
  intros Hn Hh. induction n as [|n IH]; [done|].
  destruct IH as (E & W1 & W2); [lia|]. rewrite !for_range_S, E.
  destruct (ripemd160_round_ok X (Z.of_nat n)
    (for_range n (rmd_line X) h, for_range n (rmd_line' X) h)) as (E' & V1 & V2);
    [lia|done|done|]. done.
Qed.

Definition ripemd160_compress (h blk : list Z) : list Z :=
  acc (cx_ripemd160_block (mk_md_ctx CX_NONE 0 0 blk h)).

Lemma ripemd160_block_acc c :
  acc (cx_ripemd160_block c) = ripemd160_compress (acc c) (block c).
Proof.
  unfold ripemd160_compress, cx_ripemd160_block. cbn [block acc].
  by destruct (for_range _ _ _).
Qed.

Lemma ripemd160_block_keeps c :
  algo (cx_ripemd160_block c) = algo c /\ counter (cx_ripemd160_block c) = counter c /\
  blen (cx_ripemd160_block c) = blen c /\ block (cx_ripemd160_block c) = block c.
Proof. unfold cx_ripemd160_block. by destruct (for_range 80 _ _). Qed.

Lemma ripemd160_compress_ref h blk :
  words_ok is_w32 5 h ->
  ripemd160_compress h blk = rmd_compress h blk /\
  words_ok is_w32 5 (ripemd160_compress h blk).
Proof.
  intros Hh. unfold ripemd160_compress, cx_ripemd160_block, rmd_compress.
  cbn [block acc]. cbv zeta. change (map le_combine (chunks 4 blk)) with (load_words32 blk).
  destruct (ripemd160_rounds_ok 80 (load_words32 blk) h ltac:(lia) Hh) as (-> & [_ W1] & [_ W2]).
  destruct Hh as [_ Hl]. destruct (list5_eq h Hl) as (h0 & h1 & h2 & h3 & h4 & ->).
  destruct (list5_eq _ W1) as (a & b & c & d & e & ->).
  destruct (list5_eq _ W2) as (a' & b' & c' & d' & e' & ->).
  split; [reflexivity|]. split; [|reflexivity]. cbn [acc set_acc].
  repeat (apply Forall_cons_2; [apply w32_range|]). apply Forall_nil_2.
Qed.

#[local] Opaque cx_ripemd160_block ripemd160_compress rmd_compress.

Lemma ripemd160_block_spec f0 :
  block_fn_spec 64 64 ripemd160_compress f0 cx_ripemd160_block.
Proof.
  intros c Hc Hf. md_cbn. destruct (ripemd160_block_keeps c) as (K1 & K2 & _ & K4).
  rewrite ripemd160_block_acc, take_ge, K4 by (unfold zlen in Hc; lia).
  split; [reflexivity|]. split; [exact Hc|]. split; [exact K2|congruence].
Qed.

(** * Streaming *)

Local Abbreviation represents := (repr 64 64 ripemd160_compress hzero CX_RIPEMD160).

(** The block counter stops at 65535. *)
Definition RIPEMD160_LIMIT : Z := 65536 * 64.

Lemma ripemd160_whole_limit m : zlen m < RIPEMD160_LIMIT <-> Z.of_nat (whole 64 m) <= 65535.
Proof.
  unfold RIPEMD160_LIMIT. pose proof (partial_length 64 ltac:(lia) m).
  pose proof (partial_short 64 ltac:(lia) m). unfold zlen. lia.
Qed.

Lemma ripemd160_update_unfold p c :
  blen c < 64 ->
  spec_cx_ripemd160_update (Some p) (zlen p) c
  = append_data true 64 cx_ripemd160_block (blen c) p (zlen p) (set_blen 0 c).
Proof.
  intros Hb. unfold spec_cx_ripemd160_update. rewrite bool_decide_eq_false_2 by done.
  cbn [andb]. unfold mbind at 1, mgets, mbind at 1, mmodify.
  by destruct (Z.leb_spec 64 (blen c)); [lia|].
Qed.

Lemma ripemd160_init_ok st :
  exists c, cx_ripemd160_init st = Ret CX_RIPEMD160 c /\ represents c [].
Proof. eexists. split; [done|]. by apply (md_fresh 64); lia. Qed.

Lemma ripemd160_update_ok c m p :
  represents c m -> zlen (m ++ p) < RIPEMD160_LIMIT ->
  exists c', spec_cx_ripemd160_update (Some p) (zlen p) c = Ret 1 c' /\
    represents c' (m ++ p).
Proof.
  intros Hc Hp. pose proof (md_blen_valid 64 _ _ _ _ _ ltac:(lia) Hc).
  rewrite ripemd160_update_unfold by lia.
  apply (append_data_ok 64 64 ripemd160_compress true ltac:(lia) ltac:(lia) ltac:(lia)
           cx_ripemd160_block hzero CX_RIPEMD160 (ripemd160_block_spec _)).
  - by apply md_holds_set_blen.
  - rewrite zlen_app in Hp. pose proof (zlen_nonneg m). unfold RIPEMD160_LIMIT in Hp. lia.
  - right. by apply ripemd160_whole_limit.
Qed.

Lemma ripemd160_fold_ref l :
  fold_left ripemd160_compress (chunks 64 l) hzero = fold_left rmd_compress (chunks 64 l) hzero /\
  words_ok is_w32 5 (fold_left ripemd160_compress (chunks 64 l) hzero).
Proof.
  assert (words_ok is_w32 5 hzero) as H0.
  { unfold words_ok, is_w32. repeat split; repeat apply Forall_cons_2; done || lia. }
  split; [eapply (fold_left_ext_inv (words_ok is_w32 5) (fun _ => True))
         |eapply (fold_left_inv _ (fun _ => True))];
    try done; try (by apply Forall_true); intros; by apply ripemd160_compress_ref.
Qed.

Lemma RIPEMD160_length m : zlen (RIPEMD160 m) = 20.
Proof.
  unfold RIPEMD160. rewrite <- (proj1 (ripemd160_fold_ref _)).
  destruct (ripemd160_fold_ref (md_pad 64 8 (le_split 8 (8 * zlen m)) m)) as [_ [_ W]].
  unfold zlen at 1. by rewrite store32_length, W.
Qed.

Lemma ripemd160_final_ok c m digest :
  represents c m -> zlen m < RIPEMD160_LIMIT -> 20 <= zlen digest ->
  exists c', spec_cx_ripemd160_final (Some digest) c
    = Ret (1, Some (RIPEMD160 m ++ zdrop 20 digest)) c' /\ algo c' = CX_RIPEMD160.
Proof.
  intros Hc Hlen Hn. unfold spec_cx_ripemd160_final. unfold RIPEMD160_LIMIT in Hlen.
  destruct (pad_blocks_ok 64 8 ripemd160_compress ltac:(lia) ltac:(lia) cx_ripemd160_block
    hzero CX_RIPEMD160 (ripemd160_block_spec _) false ripemd160_bitlen (le_split 8)
    ltac:(intros; done) c m Hc) as (c1 & Hp & Ha & Hf & _).
  rewrite (mbind_ret _ _ _ _ _ Hp). md_cbn.
  assert (ripemd160_bitlen (counter c) (zlen (partial 64 m) + 1) = 8 * zlen m) as Hbl.
  { pose proof (md_message_length 64 _ _ _ _ _ ltac:(lia) Hc ltac:(lia)) as [? E].
    pose proof (zlen_nonneg m). pose proof (zlen_nonneg (partial 64 m)).
    unfold ripemd160_bitlen, w32. rewrite !Z.mod_small; div_mod_lia. }
  rewrite Hbl in Ha. change (replicate (8 - 8) 0 ++ ?f) with f in Ha.
  rewrite (proj1 (ripemd160_fold_ref _)) in Ha.
  unfold mbind at 1, mgets at 1. rewrite Ha. fold (RIPEMD160 m).
  destruct (copy_prefix (RIPEMD160 m) digest 20) as [R1 R2];
    [by rewrite RIPEMD160_length | done |].
  unfold CX_RIPEMD160_SIZE. rewrite (mlift_some _ _ _ _ R1), (mlift_some _ _ _ _ R2).
  rewrite ztake_all by (by rewrite RIPEMD160_length). eexists. split; [reflexivity|exact Hf].
Qed.

(** * Properties *)

(** An initialised RIPEMD-160 context updated with any
    sequence of buffers, less than 65536 blocks in all, and finalised gives
    the RIPEMD-160 digest of the concatenation of the buffers in the first 20
    bytes of the output buffer, and leaves the rest of it unchanged. The
    reference generates its message order from the permutations rho and pi,
    its shifts from the table by message word and its constants as integer
    parts of roots. *)
Theorem ripemd160_streaming (parts : list (list Z)) (digest : list Z) (st : md_ctx) :
  zlen (concat parts) < RIPEMD160_LIMIT ->
  20 <= zlen digest ->
  exists c, (do! cx_ripemd160_init in do! feed_all spec_cx_ripemd160_update parts in
      spec_cx_ripemd160_final (Some digest)) st
    = Ret (1, Some (RIPEMD160 (concat parts) ++ zdrop 20 digest)) c.
Proof.
  intros Hlen Hd. destruct (ripemd160_init_ok st) as (c0 & E0 & R0).
  destruct (feed_all_ok spec_cx_ripemd160_update represents (fun _ => True) RIPEMD160_LIMIT)
    with (c := c0) (m := @nil Z) (parts := parts) as (c1 & E1 & R1);
    [intros; by apply ripemd160_update_ok | done | by apply Forall_true | done |].
  rewrite (mbind_ret _ _ _ _ _ E0), (mbind_ret _ _ _ _ _ E1).
  destruct (ripemd160_final_ok c1 (concat parts) digest R1 Hlen Hd) as (c2 & E2 & _). by exists c2.
Qed.

Lemma ripemd160_streaming_witness :
  be_combine (RIPEMD160 [0x61; 0x62; 0x63]) = 0x8eb208f7e05d987a9b044a8e98c6b087f15a0bfc /\
  exists c, (do! cx_ripemd160_init in
      do! feed_all spec_cx_ripemd160_update [[0x61]; [0x62; 0x63]] in
      spec_cx_ripemd160_final (Some (zeros 20))) (mk_md_ctx CX_NONE 0 0 [] [])
    = Ret (1, Some (RIPEMD160 (concat [[0x61]; [0x62; 0x63]]) ++ zdrop 20 (zeros 20))) c.
Proof.
  split; [vm_compute; reflexivity|].
  apply (ripemd160_streaming [[0x61]; [0x62; 0x63]] (zeros 20) (mk_md_ctx CX_NONE 0 0 [] []));
    [vm_compute; reflexivity | vm_compute; discriminate].
Defined.

(** With a pending length of 64 or more the update returns
    0, without an exception, and the pending length is lost: the next update
    of the same context starts from an empty block. *)
Theorem ripemd160_update_corrupt (c : md_ctx) (p : list Z) (len : Z) :
  cx_ripemd160_validate_context c = false ->
  spec_cx_ripemd160_update (Some p) len c = Ret 0 (set_blen 0 c) /\
  cx_ripemd160_validate_context (set_blen 0 c) = true.
Proof.
  unfold cx_ripemd160_validate_context. intros H. split; [|done].
  unfold spec_cx_ripemd160_update. rewrite bool_decide_eq_false_2 by done. cbn [andb].
  unfold mbind at 1, mgets, mbind at 1, mmodify. destruct (Z.leb_spec 64 (blen c)); [done|lia].
Qed.

Lemma ripemd160_update_corrupt_witness :
  let c := mk_md_ctx CX_RIPEMD160 0 64 (zeros 64) hzero in
  spec_cx_ripemd160_update (Some [1]) 1 c = Ret 0 (set_blen 0 c).
Proof.
  apply (ripemd160_update_corrupt (mk_md_ctx CX_RIPEMD160 0 64 (zeros 64) hzero) [1] 1).
  reflexivity.
Defined.
