(* ===== verification/CxSha3.v ===== *)
(** SHA-3, Keccak and SHAKE: [src/bolos/cx_sha3.c]. The permutation and its
    refinement to FIPS 202, the sponge as operations on the context, and the
    digests computed by any sequence of updates. *)

From S2P Require Import Prelude CxUtils BlockStream HashCtx.

(** * Definitions *)

(** ** The permutation, on [state[25]] *)

(** [state[x + 5 * y]] *)
Definition S64 (state : list Z) (x y : Z) : Z := znth state (x + 5 * y).

Definition cx_sha3_theta (state : list Z) : list Z :=
  let C := for_range 5 (fun i C =>
    zupd C i (Z.lxor (Z.lxor (Z.lxor (Z.lxor (S64 state i 0) (S64 state i 1))
      (S64 state i 2)) (S64 state i 3)) (S64 state i 4))) (zeros 5) in
  for_range 5 (fun i state =>
    let D := Z.lxor (znth C ((i + 4) mod 5)) (cx_rotl64 (znth C ((i + 1) mod 5)) 1) in
    for_range 5 (fun j state =>
      zupd state (i + 5 * j) (Z.lxor (S64 state i j) D)) state) state.

Definition C_cx_pi_table : list Z :=
  [10; 7; 11; 17; 18; 3; 5; 16; 8; 21; 24; 4; 15; 23; 19; 13; 12; 2; 20; 14;
   22; 9; 6; 1].

Definition C_cx_rho_table : list Z :=
  [1; 3; 6; 10; 15; 21; 28; 36; 45; 55; 2; 14; 27; 41; 56; 8; 25; 43; 62; 18;
   39; 61; 20; 44].

Definition cx_sha3_rho_pi (state : list Z) : list Z :=
  snd (for_range 24 (fun i s =>
    let (A, state) := s : Z * list Z in
    let j := znth C_cx_pi_table i in
    let tmp := znth state j in
    (tmp, zupd state j (cx_rotl64 A (znth C_cx_rho_table i))))
    (znth state 1, state)).

Definition cx_sha3_chi (state : list Z) : list Z :=
  for_range 5 (fun j state =>
    let C := for_range 5 (fun i C => zupd C i (S64 state i j)) (zeros 5) in
    for_range 5 (fun i state =>
      zupd state (i + 5 * j)
        (Z.lxor (S64 state i j)
           (Z.land (not64 (znth C ((i + 1) mod 5))) (znth C ((i + 2) mod 5)))))
      state) state.

Definition C_cx_iota_RC : list Z := [
  0x0000000000000001; 0x0000000000008082; 0x800000000000808A; 0x8000000080008000;
  0x000000000000808B; 0x0000000080000001; 0x8000000080008081; 0x8000000000008009;
  0x000000000000008A; 0x0000000000000088; 0x0000000080008009; 0x000000008000000A;
  0x000000008000808B; 0x800000000000008B; 0x8000000000008089; 0x8000000000008003;
  0x8000000000008002; 0x8000000000000080; 0x000000000000800A; 0x800000008000000A;
  0x8000000080008081; 0x8000000000008080; 0x0000000080000001; 0x8000000080008008 ].

Definition cx_sha3_iota (state : list Z) (round : Z) : list Z :=
  zupd state 0 (Z.lxor (S64 state 0 0) (znth C_cx_iota_RC round)).

(** The [for (r = 0; r < 24; r++)] loop of [spec_cx_sha3_block]. *)
Definition sha3_rounds (acc : list Z) : list Z :=
  for_range 24 (fun r acc =>
    cx_sha3_iota (cx_sha3_chi (cx_sha3_rho_pi (cx_sha3_theta acc))) r) acc.

(** ** The context *)

Record sha3_ctx := mk_sha3_ctx {
  s3_algo : cx_md_t;
  s3_counter : Z;
  s3_output_size : Z;
  s3_block_size : Z;
  s3_blen : Z;
  s3_block : list Z;
  s3_acc : list Z;
}.

Definition s3_set_counter (n : Z) (c : sha3_ctx) : sha3_ctx :=
  mk_sha3_ctx (s3_algo c) n (s3_output_size c) (s3_block_size c) (s3_blen c)
    (s3_block c) (s3_acc c).
Definition s3_set_blen (n : Z) (c : sha3_ctx) : sha3_ctx :=
  mk_sha3_ctx (s3_algo c) (s3_counter c) (s3_output_size c) (s3_block_size c) n
    (s3_block c) (s3_acc c).
Definition s3_set_block (b : list Z) (c : sha3_ctx) : sha3_ctx :=
  mk_sha3_ctx (s3_algo c) (s3_counter c) (s3_output_size c) (s3_block_size c)
    (s3_blen c) b (s3_acc c).
Definition s3_set_acc (a : list Z) (c : sha3_ctx) : sha3_ctx :=
  mk_sha3_ctx (s3_algo c) (s3_counter c) (s3_output_size c) (s3_block_size c)
    (s3_blen c) (s3_block c) a.
Definition s3_set_algo (a : cx_md_t) (c : sha3_ctx) : sha3_ctx :=
  mk_sha3_ctx a (s3_counter c) (s3_output_size c) (s3_block_size c)
    (s3_blen c) (s3_block c) (s3_acc c).

#[export] Instance s3_block_ctx : BlockCtx sha3_ctx := {|
  bc_blen := s3_blen; bc_set_blen := s3_set_blen;
  bc_block := s3_block; bc_set_block := s3_set_block;
  bc_counter := s3_counter; bc_set_counter := s3_set_counter;
|}.

#[export] Instance s3_block_laws : BlockCtxLaws sha3_ctx.
Proof. by constructor. Qed.

(** The fields the updates leave alone: algorithm, output and block sizes. *)
#[export] Instance s3_block_view : BlockView sha3_ctx (list Z) (cx_md_t * Z * Z).
Proof.
  by refine {| accv := s3_acc;
    frame := fun c => (s3_algo c, s3_output_size c, s3_block_size c) |}.
Defined.

(** ** Operations *)

Definition check_hash_out_size (size : Z) : bool :=
  (size =? 128) || (size =? 224) || (size =? 256) || (size =? 384) || (size =? 512).

(** [memset(hash, 0, sizeof(cx_sha3_t))], then the algorithm and the sizes. *)
Definition sha3_fresh (a : cx_md_t) (output_size block_size : Z) : sha3_ctx :=
  mk_sha3_ctx a 0 output_size block_size 0 (zeros 200) (zeros 25).

Definition cx_sha3_init (size : Z) : M sha3_ctx Z := fun c =>
  if negb (check_hash_out_size size) then Throw INVALID_PARAMETER c
  else Ret (md_code CX_SHA3) (sha3_fresh CX_SHA3 (Z.shiftr size 3) (Z.shiftr (w32 (1600 - w32 (2 * size))) 3)).

Definition cx_keccak_init (size : Z) : M sha3_ctx Z :=
  if negb (check_hash_out_size size) then mthrow INVALID_PARAMETER
  else
    do! cx_sha3_init size in
    do! mmodify (s3_set_algo CX_KECCAK) in
    mret (md_code CX_KECCAK).

Definition cx_shake128_init (size : Z) : M sha3_ctx Z := fun _ =>
  if negb (size mod 8 =? 0) then Ret 0 (sha3_fresh CX_NONE 0 0)
  else Ret (md_code CX_SHAKE128) (sha3_fresh CX_SHAKE128 (size / 8) (Z.shiftr (1600 - 2 * 128) 3)).

Definition cx_shake256_init (size : Z) : M sha3_ctx Z := fun _ =>
  if negb (size mod 8 =? 0) then Ret 0 (sha3_fresh CX_NONE 0 0)
  else Ret (md_code CX_SHAKE256) (sha3_fresh CX_SHAKE256 (size / 8) (Z.shiftr (1600 - 2 * 256) 3)).

Definition cx_sha3_xof_init (size out_length : Z) : M sha3_ctx Z := fun c =>
  if negb (size =? 128) && negb (size =? 256) then Throw INVALID_PARAMETER c
  else
    let algo := if size =? 128 then CX_SHAKE128 else CX_SHAKE256 in
    Ret (md_code algo)
      (sha3_fresh algo out_length (Z.shiftr (w32 (1600 - w32 (2 * size))) 3)).

(** The number of lanes of the block that are merged. *)
Definition sha3_lanes (block_size : Z) : nat :=
  if 144 <? block_size then 21
  else if 136 <? block_size then 18
  else if 104 <? block_size then 17
  else if 72 <? block_size then 13
  else 9.

(** [for (i = 0; i < n; i++) acc[i] ^= block[i];] *)
Definition sha3_merge (n : nat) (block acc : list Z) : list Z :=
  for_range n (fun i acc => zupd acc i (Z.lxor (znth acc i) (znth block i))) acc.

Definition spec_cx_sha3_block (hash : sha3_ctx) : sha3_ctx :=
  let n := sha3_lanes (s3_block_size hash) in
  s3_set_acc (sha3_rounds (sha3_merge n (load_words64 (s3_block hash)) (s3_acc hash))) hash.

Definition spec_cx_sha3_update (data : option (list Z)) (len : Z) : M sha3_ctx Z :=
  if bool_decide (data = None) && negb (len =? 0) then mret 0
  else
    let! block_size := mgets s3_block_size in
    if 200 <? block_size then mret 0
    else
      let! blen := mgets s3_blen in
      do! mmodify (s3_set_blen 0) in
      if block_size <=? blen then mret 0
      else append_data true block_size spec_cx_sha3_block blen (default [] data) len.

(** [block[i] |= v;] *)
Definition or_byte (i v : Z) : M sha3_ctx unit :=
  let! block := mgets s3_block in
  let! b := mlift (read_at block i 1) in
  let! block := mlift (write_at block i [Z.lor (znth b 0) v]) in
  mmodify (s3_set_block block).

(** [memcpy(digest + off, hash->acc, n);] *)
Definition put_acc (digest : list Z) (off n : Z) : M sha3_ctx (list Z) :=
  let! out := mgets (fun c => store_words64 (s3_acc c)) in
  let! out := mlift (read_at out 0 n) in
  mlift (write_at digest off out).

(** [while (blen > block_size)]: squeezes one block per turn. *)
Fixpoint sha3_squeeze (fuel : nat) (block_size : Z) (digest : list Z) (off blen : Z)
  : M sha3_ctx (list Z * Z * Z) :=
  match fuel with
  | O => mfault
  | S fuel' =>
      if block_size <? blen then
        let! digest := put_acc digest off block_size in
        do! mmodify spec_cx_sha3_block in
        sha3_squeeze fuel' block_size digest (off + block_size) (w32 (blen - block_size))
      else mret (digest, off, blen)
  end.

Definition spec_cx_sha3_final (digest : option (list Z))
  : M sha3_ctx (Z * option (list Z)) :=
  match digest with
  | None => mret (0, None)
  | Some digest =>
      let! block_size := mgets s3_block_size in
      let! blen := mgets s3_blen in
      let! algo := mgets s3_algo in
      if bool_decide (algo = CX_KECCAK) || bool_decide (algo = CX_SHA3) then
        do! clear_block blen (200 - blen) in
        do! or_byte blen (if bool_decide (algo = CX_KECCAK) then 1 else 6) in
        do! or_byte (block_size - 1) 0x80 in
        do! mmodify spec_cx_sha3_block in
        let! len := mgets s3_output_size in
        let! digest := put_acc digest 0 len in
        mret (1, Some digest)
      else
        do! clear_block blen (200 - blen) in
        do! or_byte blen 0x1F in
        do! or_byte (block_size - 1) 0x80 in
        do! mmodify spec_cx_sha3_block in
        let! len := mgets s3_output_size in
        do! clear_block 0 200 in
        let! (digest, off, blen) :=
          sha3_squeeze (S (Z.to_nat len)) block_size digest 0 len in
        let! digest := put_acc digest off blen in
        mret (1, Some digest)
  end.

Definition spec_cx_sha3_get_output_size (ctx : sha3_ctx) : Z := s3_output_size ctx.

Definition cx_sha3_validate_context (ctx : sha3_ctx) : bool :=
  let output_size := s3_output_size ctx in
  let block_size := s3_block_size ctx in
  if negb (output_size =? 128 / 8) && negb (output_size =? 224 / 8) &&
     negb (output_size =? 256 / 8) && negb (output_size =? 384 / 8) &&
     negb (output_size =? 512 / 8) then false
  else if negb (block_size =? w32 (Z.shiftr 1600 3 - w32 (2 * output_size))) then false
  else if 200 <=? s3_blen ctx then false
  else true.

Definition cx_shake_validate_context (ctx : sha3_ctx) : bool :=
  let block_size := s3_block_size ctx in
  if negb (block_size =? Z.shiftr (1600 - 2 * 256) 3) &&
     negb (block_size =? Z.shiftr (1600 - 2 * 128) 3) then false
  else if 200 <=? s3_blen ctx then false
  else true.

(** * Reference: FIPS 202 *)

(** ** Step mappings, on the 25 lanes A[x, y] at index x + 5 y *)

Definition lane (A : list Z) (x y : Z) : Z := znth A (x mod 5 + 5 * (y mod 5)).
Definition lanes (f : Z -> Z -> Z) : list Z :=
  map (fun i => f (i mod 5) (i / 5)) (map Z.of_nat (seq 0 25)).

(** Rotation of a lane to the left, as arithmetic. *)
Definition ROT (n x : Z) : Z := x mod 2 ^ (64 - n) * 2 ^ n + x / 2 ^ (64 - n).

Definition xor5 (a b c d e : Z) : Z := Z.lxor (Z.lxor (Z.lxor (Z.lxor a b) c) d) e.
Definition parity (A : list Z) (x : Z) : Z :=
  xor5 (lane A x 0) (lane A x 1) (lane A x 2) (lane A x 3) (lane A x 4).

Definition theta (A : list Z) : list Z :=
  lanes (fun x y =>
    Z.lxor (lane A x y) (Z.lxor (parity A (x - 1)) (ROT 1 (parity A (x + 1))))).

(** The offset of lane (x, y) is (t + 1)(t + 2) / 2 when t steps of
    (x, y) -> (y, 2 x + 3 y) lead from (1, 0) to (x, y), and 0 for (0, 0). *)
Fixpoint rho_search (fuel : nat) (t x' y' x y : Z) : Z :=
  match fuel with
  | O => 0
  | S fuel' =>
      if (x' =? x) && (y' =? y) then ((t + 1) * (t + 2) / 2) mod 64
      else rho_search fuel' (t + 1) y' ((2 * x' + 3 * y') mod 5) x y
  end.
Definition rho_offset (x y : Z) : Z := rho_search 24 0 1 0 x y.

Definition rho (A : list Z) : list Z := lanes (fun x y => ROT (rho_offset x y) (lane A x y)).
Definition pi (A : list Z) : list Z := lanes (fun x y => lane A (x + 3 * y) x).
Definition chi (A : list Z) : list Z :=
  lanes (fun x y => Z.lxor (lane A x y) (Z.land (not64 (lane A (x + 1) y)) (lane A (x + 2) y))).

(** The round constants, from the linear feedback shift register. *)
Definition lfsr_step (R : Z) : Z :=
  let R := 2 * R in if Z.testbit R 8 then Z.lxor R 0x171 else R.
Definition rc (t : Z) : Z := Z.b2z (Z.testbit (Nat.iter (Z.to_nat t) lfsr_step 1) 0).
Definition RC (ir : Z) : Z :=
  fold_left (fun acc j => acc + rc (j + 7 * ir) * 2 ^ (2 ^ j - 1)) [0; 1; 2; 3; 4; 5; 6] 0.

Definition iota (ir : Z) (A : list Z) : list Z := zupd A 0 (Z.lxor (lane A 0 0) (RC ir)).

Definition keccak_f (A : list Z) : list Z :=
  for_range 24 (fun ir A => iota ir (chi (pi (rho (theta A))))) A.

(** ** Sponge *)

(** Merging a block of [8 n] bytes, the rate, in the state. *)
Definition xor_block (A blk : list Z) : list Z :=
  let P := map le_combine (chunks 8 blk) in
  zip_with Z.lxor A (P ++ zeros (25 - zlen P)).

Definition absorb (A blk : list Z) : list Z := keccak_f (xor_block A blk).

(** The domain bits and the first 1 of the padding are the byte [d], the last
    1 of the padding is the top bit of the last byte of the rate. *)
Definition sponge_pad (rate : nat) (d : Z) (m : list Z) : list Z :=
  let q := (rate - length m mod rate)%nat in
  m ++ (if (q =? 1)%nat then [Z.lor d 0x80] else d :: replicate (q - 2) 0 ++ [0x80]).

Definition state_bytes (A : list Z) : list Z := concat (map (le_split 8) A).

(** The output of [k] squeezing steps. *)
Definition keystream (rate k : nat) (A : list Z) : list Z :=
  concat (map (fun i => take rate (state_bytes (Nat.iter i keccak_f A))) (seq 0 k)).

Definition sponge (rate : nat) (d : Z) (m : list Z) (len : Z) : list Z :=
  let A := fold_left absorb (chunks rate (sponge_pad rate d m)) (zeros 25) in
  ztake len (keystream rate (S (Z.to_nat len / rate)) A).

(** The functions of FIPS 202 and of Keccak before it: a digest of [n] bytes
    has capacity [2 n]. *)
Definition SHA3 (n : Z) (m : list Z) : list Z := sponge (Z.to_nat (200 - 2 * n)) 0x06 m n.
Definition KECCAK (n : Z) (m : list Z) : list Z := sponge (Z.to_nat (200 - 2 * n)) 0x01 m n.
Definition SHAKE128 (m : list Z) (n : Z) : list Z := sponge 168 0x1F m n.
Definition SHAKE256 (m : list Z) (n : Z) : list Z := sponge 136 0x1F m n.

(** * The permutation *)

Definition state_ok (A : list Z) : Prop := Forall is_w64 A /\ length A = 25%nat.

Lemma list25_eq (A : list Z) :
  length A = 25%nat ->
  exists a0 a1 a2 a3 a4 a5 a6 a7 a8 a9 a10 a11 a12 a13 a14 a15 a16 a17 a18 a19 a20 a21 a22
    a23 a24,
  A = [a0; a1; a2; a3; a4; a5; a6; a7; a8; a9; a10; a11; a12; a13; a14; a15; a16; a17; a18;
       a19; a20; a21; a22; a23; a24].
Proof.
  intros H. do 25 (destruct A as [|? A]; [discriminate|]). destruct A; [|discriminate].
  by repeat eexists.
Qed.

Ltac split_state H := apply list25_eq in H;
  destruct H as (? & ? & ? & ? & ? & ? & ? & ? & ? & ? & ? & ? & ? & ? & ? & ? & ? & ? &
                 ? & ? & ? & ? & ? & ? & ? & ->).

(** ** The loops as mappings on lanes, with the code's rotation *)

Lemma theta_lanes A : length A = 25%nat ->
  cx_sha3_theta A = lanes (fun x y =>
    Z.lxor (lane A x y) (Z.lxor (parity A (x - 1)) (cx_rotl64 (parity A (x + 1)) 1))).
Proof. intros H. split_state H. cbv -[Z.lxor cx_rotl64]. reflexivity. Qed.

Lemma rho_pi_lanes A : length A = 25%nat ->
  cx_sha3_rho_pi A = pi (lanes (fun x y =>
    if rho_offset x y =? 0 then lane A x y else cx_rotl64 (lane A x y) (rho_offset x y))).
Proof. intros H. split_state H. cbv -[cx_rotl64]. reflexivity. Qed.

Lemma chi_lanes A : length A = 25%nat -> cx_sha3_chi A = chi A.
Proof. intros H. split_state H. cbv -[Z.lxor Z.land not64]. reflexivity. Qed.

(** ** Words *)

Lemma cx_rotl64_ROT x n : is_w64 x -> 0 < n < 64 -> cx_rotl64 x n = ROT n x.
Proof.
  intros Hx Hn. unfold cx_rotl64, ROT, w64.
  change 18446744073709551616 with (2 ^ 64).
  rewrite Z.shiftr_div_pow2, Z.shiftl_mul_pow2 by lia.
  assert (2 ^ 64 = 2 ^ (64 - n) * 2 ^ n) as E by (rewrite <- Z.pow_add_r by lia; f_equal; lia).
  rewrite E. pose proof (Z.pow_pos_nonneg 2 n). pose proof (Z.pow_pos_nonneg 2 (64 - n)).
  rewrite Z.mul_mod_distr_r by lia. apply lor_disjoint; [lia|].
  unfold is_w64 in Hx. change 18446744073709551616 with (2 ^ 64) in Hx.
  split; [apply Z.div_pos; lia|]. apply Z.div_lt_upper_bound; lia.
Qed.

Lemma cx_rotl64_range x n : is_w64 x -> 0 < n < 64 -> is_w64 (cx_rotl64 x n).
Proof.
  intros Hx Hn. apply is_w64_bits.
  - unfold cx_rotl64. apply Z.lor_nonneg. split; [apply w64_range|].
    apply Z.shiftr_nonneg, Hx.
  - intros i Hi. unfold cx_rotl64.
    rewrite Z.lor_spec, w64_high, Z.shiftr_spec, word64_high by (done || lia). done.
Qed.

Lemma ROT_0 x : is_w64 x -> ROT 0 x = x.
Proof.
  intros Hx. unfold ROT. change (2 ^ (64 - 0)) with 18446744073709551616.
  unfold is_w64 in Hx. rewrite Z.mod_small, Z.div_small by lia. lia.
Qed.

Lemma land_w64 x y : 0 <= x -> is_w64 y -> is_w64 (Z.land x y).
Proof.
  intros Hx Hy. apply is_w64_bits.
  - apply Z.land_nonneg. by left.
  - intros. rewrite Z.land_spec, (word64_high y) by done. apply andb_false_r.
Qed.

Lemma not64_nonneg x : 0 <= x -> 0 <= not64 x.
Proof. intros. unfold not64. apply Z.lxor_nonneg. lia. Qed.

Lemma lane_w64 A x y : Forall is_w64 A -> is_w64 (lane A x y).
Proof.
  intros HA. unfold lane, znth.
  destruct (nth_in_or_default (Z.to_nat (x mod 5 + 5 * (y mod 5))) A 0) as [Hin| ->].
  - rewrite Forall_forall in HA. apply HA. by apply list_elem_of_In.
  - unfold is_w64. lia.
Qed.

Lemma xor5_w64 a b c d e :
  is_w64 a -> is_w64 b -> is_w64 c -> is_w64 d -> is_w64 e -> is_w64 (xor5 a b c d e).
Proof. intros. unfold xor5. repeat apply lxor_w64; done. Qed.

Lemma parity_w64 A x : Forall is_w64 A -> is_w64 (parity A x).
Proof. intros. apply xor5_w64; by apply lane_w64. Qed.

Lemma lanes_range i : In i (map Z.of_nat (seq 0 25)) -> 0 <= i < 25.
Proof. intros (k & <- & Hk)%in_map_iff. apply in_seq in Hk. lia. Qed.

Lemma lanes_ext f g :
  (forall x y, 0 <= x < 5 -> 0 <= y < 5 -> f x y = g x y) -> lanes f = lanes g.
Proof.
  intros H. apply map_ext_in. intros i Hi%lanes_range. apply H; div_mod_lia.
Qed.

Lemma lanes_ok f :
  (forall x y, 0 <= x < 5 -> 0 <= y < 5 -> is_w64 (f x y)) -> state_ok (lanes f).
Proof.
  intros H. split; [|done]. apply Forall_forall. intros w Hw%list_elem_of_In.
  apply in_map_iff in Hw as (i & <- & Hi%lanes_range). apply H; div_mod_lia.
Qed.

Lemma rho_offset_range x y : 0 <= x < 5 -> 0 <= y < 5 -> 0 <= rho_offset x y < 64.
Proof.
  intros. assert (forallb (fun i => (0 <=? rho_offset (i mod 5) (i / 5)) &&
    (rho_offset (i mod 5) (i / 5) <? 64)) (map Z.of_nat (seq 0 25)) = true) as Hf
    by (vm_compute; reflexivity).
  rewrite forallb_forall in Hf. specialize (Hf (x + 5 * y)).
  replace ((x + 5 * y) mod 5) with x in Hf by div_mod_lia.
  replace ((x + 5 * y) / 5) with y in Hf by div_mod_lia.
  assert (In (x + 5 * y) (map Z.of_nat (seq 0 25))) as Hin.
  { apply in_map_iff. exists (Z.to_nat (x + 5 * y)). split; [lia|]. apply in_seq. lia. }
  specialize (Hf Hin). lia.
Qed.

(** ** The steps refine FIPS 202 *)

Lemma theta_ok A : state_ok A -> cx_sha3_theta A = theta A /\ state_ok (theta A).
Proof.
  intros [Hw Hl]. split.
  - rewrite theta_lanes by done. apply lanes_ext. intros.
    rewrite cx_rotl64_ROT; [done | by apply parity_w64 | lia].
  - apply lanes_ok. intros. apply lxor_w64; [by apply lane_w64|].
    apply lxor_w64; [by apply parity_w64|].
    rewrite <- cx_rotl64_ROT by (lia || by apply parity_w64).
    by apply cx_rotl64_range; [apply parity_w64|].
Qed.

Lemma rho_ok A : state_ok A -> state_ok (rho A).
Proof.
  intros [Hw Hl]. apply lanes_ok. intros x y Hx Hy. pose proof (rho_offset_range x y Hx Hy).
  pose proof (lane_w64 A x y Hw). destruct (decide (rho_offset x y = 0)) as [->|].
  - by rewrite ROT_0.
  - rewrite <- cx_rotl64_ROT by (done || lia). apply cx_rotl64_range; [done|lia].
Qed.

Lemma rho_pi_ok A : state_ok A -> cx_sha3_rho_pi A = pi (rho A) /\ state_ok (pi (rho A)).
Proof.
  intros HA. split.
  - destruct HA as [Hw Hl]. rewrite rho_pi_lanes by done. f_equal. apply lanes_ext.
    intros x y Hx Hy. pose proof (rho_offset_range x y Hx Hy).
    pose proof (lane_w64 A x y Hw). destruct (Z.eqb_spec (rho_offset x y) 0) as [->|].
    + by rewrite ROT_0.
    + apply cx_rotl64_ROT; [done|lia].
  - apply lanes_ok. intros. apply lane_w64. by apply rho_ok.
Qed.

Lemma chi_ok A : state_ok A -> cx_sha3_chi A = chi A /\ state_ok (chi A).
Proof.
  intros [Hw Hl]. split; [by apply chi_lanes|]. apply lanes_ok. intros.
  apply lxor_w64; [by apply lane_w64|]. apply land_w64; [|by apply lane_w64].
  apply not64_nonneg. by apply lane_w64.
Qed.

Lemma RC_table r : 0 <= r < 24 -> znth C_cx_iota_RC r = RC r /\ is_w64 (RC r).
Proof.
  intros Hr. assert (forallb (fun r => (znth C_cx_iota_RC r =? RC r) && (0 <=? RC r) &&
    (RC r <? 18446744073709551616)) (map Z.of_nat (seq 0 24)) = true) as Hf
    by (vm_compute; reflexivity).
  rewrite forallb_forall in Hf. assert (In r (map Z.of_nat (seq 0 24))) as Hin.
  { apply in_map_iff. exists (Z.to_nat r). split; [lia|]. apply in_seq. lia. }
  specialize (Hf r Hin). unfold is_w64. lia.
Qed.

Lemma iota_ok A r :
  state_ok A -> 0 <= r < 24 -> cx_sha3_iota A r = iota r A /\ state_ok (iota r A).
Proof.
  intros [Hw Hl] Hr. destruct (RC_table r Hr) as [E Hrc].
  unfold cx_sha3_iota, iota. rewrite E. change (S64 A 0 0) with (lane A 0 0).
  split; [done|]. split; [|unfold zupd; by rewrite length_insert].
  apply Forall_insert; [done|]. apply lxor_w64; [by apply lane_w64|done].
Qed.

Lemma keccak_ok A : state_ok A -> sha3_rounds A = keccak_f A /\ state_ok (keccak_f A).
Proof.
  intros HA.
  set (f := fun r acc => cx_sha3_iota (cx_sha3_chi (cx_sha3_rho_pi (cx_sha3_theta acc))) r).
  set (g := fun r A => iota r (chi (pi (rho (theta A))))).
  assert (forall r B, 0 <= r < Z.of_nat 24 -> state_ok B -> f r B = g r B /\ state_ok (f r B)) as H.
  { intros r B Hr HB. unfold f, g. destruct (theta_ok B HB) as [-> H1].
    destruct (rho_pi_ok _ H1) as [-> H2]. destruct (chi_ok _ H2) as [-> H3].
    destruct (iota_ok _ r H3 Hr) as [-> H4]. exact (conj eq_refl H4). }
  destruct (for_range_ext_inv state_ok 24 f g A HA H) as [E W].
  rewrite E in W. exact (conj E W).
Qed.

#[local] Opaque sha3_rounds keccak_f.

(** * The block function *)

(** The rates the initialisations give. *)
Definition rate_ok (rate : nat) : Prop := In rate [72; 104; 136; 144; 168]%nat.

Lemma rate_bounds rate : rate_ok rate -> (8 < rate <= 168)%nat.
Proof. unfold rate_ok. simpl. intuition lia. Qed.

Lemma rate_lanes rate :
  rate_ok rate -> rate = (sha3_lanes (Z.of_nat rate) * 8)%nat /\
                  (sha3_lanes (Z.of_nat rate) <= 25)%nat.
Proof. unfold rate_ok. simpl. intuition (subst; cbv; lia). Qed.

(** The merge only reads the first [n] words of the block. *)
Lemma sha3_merge_take n W A :
  (n <= length W)%nat -> sha3_merge n W A = sha3_merge n (take n W) A.
Proof.
  intros Hn. apply for_range_ext. intros i s Hi. do 2 f_equal. unfold znth.
  rewrite <- (take_drop n W) at 1. rewrite app_nth1; [done|]. rewrite length_take. lia.
Qed.

Lemma sha3_merge_xor n W A :
  (n <= 25)%nat -> length W = n -> length A = 25%nat ->
  sha3_merge n W A = zip_with Z.lxor A (W ++ zeros (25 - zlen W)).
Proof.
  intros Hn HW HA. unfold zlen. rewrite HW. split_state HA.
  do 26 (destruct n as [|n]; [
    repeat (destruct W as [|? W]; try discriminate);
    cbv -[Z.lxor]; rewrite ?Z.lxor_0_r; reflexivity |]). lia.
Qed.

(** The chaining value after a block of [rate] bytes. *)
Definition sha3_compress (A blk : list Z) : list Z :=
  sha3_rounds (sha3_merge (length blk / 8) (load_words64 blk) A).

Lemma sha3_block_spec rate a out :
  rate_ok rate ->
  block_fn_spec rate 200 sha3_compress (a, out, Z.of_nat rate) spec_cx_sha3_block.
Proof.
  intros Hr c Hc Hf. cbn [accv bc_block bc_counter frame s3_block_ctx s3_block_view] in *.
  injection Hf as Ha Ho Hb. destruct (rate_lanes rate Hr) as [E Hn].
  split; [|split; [exact Hc|]; split; [reflexivity|]].
  - unfold spec_cx_sha3_block. rewrite Hb. set (n := sha3_lanes _) in *.
    change (s3_acc (s3_set_acc ?a _)) with a. unfold sha3_compress.
    assert (length (take rate (s3_block c)) = (n * 8)%nat) as Hl.
    { rewrite length_take. unfold zlen in Hc. lia. }
    rewrite Hl, Nat.div_mul by lia. rewrite sha3_merge_take.
    + unfold load_words64.
      rewrite E, chunks_take by (unfold zlen in Hc; lia). by rewrite firstn_map.
    + unfold load_words64. rewrite length_map, chunks_length.
      replace (length (s3_block c)) with 200%nat by (unfold zlen in Hc; lia). exact Hn.
  - unfold spec_cx_sha3_block. cbn. congruence.
Qed.

(** On bytes and lanes, the block function absorbs a block as FIPS 202 does. *)
Lemma sha3_compress_absorb rate A blk :
  rate_ok rate -> state_ok A -> bytes_ok blk -> length blk = rate ->
  sha3_compress A blk = absorb A blk /\ state_ok (sha3_compress A blk).
Proof.
  intros Hr HA Hb Hl. destruct (rate_lanes rate Hr) as [E Hn].
  set (n := sha3_lanes _) in *. unfold sha3_compress, absorb. rewrite Hl, E, Nat.div_mul by lia.
  assert (length (load_words64 blk) = n) as HW.
  { unfold load_words64. rewrite length_map, chunks_length, Hl, E. by apply Nat.div_mul. }
  rewrite sha3_merge_xor by (done || apply HA).
  change (zip_with Z.lxor A (load_words64 blk ++ zeros (25 - zlen (load_words64 blk))))
    with (xor_block A blk).
  assert (state_ok (xor_block A blk)) as HX; [|destruct (keccak_ok _ HX) as [-> ?]; done].
  unfold xor_block. change (map le_combine (chunks 8 blk)) with (load_words64 blk).
  set (W := load_words64 blk ++ _).
  assert (Forall is_w64 W) as HWw.
  { apply Forall_app. split; [by apply load_words64_ok|]. apply Forall_replicate.
    unfold is_w64. lia. }
  assert (length W = 25%nat) as HWl.
  { unfold W, zeros. rewrite length_app, length_replicate. unfold zlen. lia. }
  destruct HA as [HAw HAl]. split.
  - revert HAw HWw. clearbody W. clear. intros HA. revert W.
    induction HA as [|a A Ha _ IH]; intros [|w W] HW; try apply Forall_nil_2.
    apply Forall_cons_1 in HW as [??]. apply Forall_cons_2; [by apply lxor_w64 | by apply IH].
  - by rewrite length_zip_with, HAl, HWl.
Qed.

Lemma sha3_fold_absorb rate l :
  rate_ok rate -> bytes_ok l ->
  fold_left sha3_compress (chunks rate l) (zeros 25) = fold_left absorb (chunks rate l) (zeros 25) /\
  state_ok (fold_left sha3_compress (chunks rate l) (zeros 25)).
Proof.
  intros Hr Hl. apply (fold_chunks_refine state_ok); [|split; [|done]|done].
  - intros. by apply (sha3_compress_absorb rate).
  - apply Forall_replicate. unfold is_w64. lia.
Qed.

#[local] Opaque sha3_compress absorb.

(** Merging a block of zeros only runs the permutation. *)
Lemma sha3_block_zeros c :
  s3_block c = zeros 200 -> state_ok (s3_acc c) ->
  spec_cx_sha3_block c = s3_set_acc (keccak_f (s3_acc c)) c.
Proof.
  intros Hb HA. unfold spec_cx_sha3_block. rewrite Hb. f_equal.
  destruct (keccak_ok _ HA) as [<- _]. f_equal. destruct HA as [_ Hl].
  change (load_words64 (zeros 200)) with (zeros 25).
  assert (sha3_lanes (s3_block_size c) <= 25)%nat as Hn
    by (unfold sha3_lanes; repeat (destruct (_ <? _); [lia|]); lia).
  rewrite sha3_merge_take by exact Hn. rewrite sha3_merge_xor; [|done| |done].
  - generalize dependent (s3_acc c). intros A HlA. split_state HlA.
    revert Hn. generalize (sha3_lanes (s3_block_size c)). intros n Hn.
    do 26 (destruct n as [|n]; [cbv -[Z.lxor]; rewrite !Z.lxor_0_r; reflexivity|]). lia.
  - rewrite length_take. unfold zeros. rewrite length_replicate. lia.
Qed.

(** * Streaming *)

Section stream.
Context (rate : nat) (Hrate : rate_ok rate) (a : cx_md_t) (out : Z).

(** The context has absorbed [m] from the zero state. *)
Definition s3_repr (c : sha3_ctx) (m : list Z) : Prop :=
  repr rate 200 sha3_compress (zeros 25) (a, out, Z.of_nat rate) c m.

(** The block counter stops at 65535. *)
Definition SHA3_LIMIT : Z := 65536 * Z.of_nat rate.

Lemma sha3_whole_limit m : zlen m < SHA3_LIMIT -> Z.of_nat (whole rate m) <= 65535.
Proof.
  unfold SHA3_LIMIT. pose proof (rate_bounds rate Hrate).
  pose proof (partial_length rate ltac:(lia) m). unfold zlen. intros.
  assert (Z.of_nat (whole rate m) * Z.of_nat rate < 65536 * Z.of_nat rate) by lia.
  assert (Z.of_nat (whole rate m) < 65536) by nia. lia.
Qed.

Lemma s3_repr_fields c m :
  s3_repr c m -> s3_algo c = a /\ s3_output_size c = out /\
  s3_block_size c = Z.of_nat rate /\ zlen (s3_block c) = 200 /\
  0 <= s3_blen c < Z.of_nat rate /\ s3_blen c = zlen (partial rate m).
Proof.
  intros H. pose proof (h_frame _ _ _ _ _ _ _ _ H) as Hf. injection Hf as -> -> ->.
  pose proof (rate_bounds rate Hrate).
  pose proof (h_blen _ _ _ _ _ _ _ _ H) as Hb.
  pose proof (partial_short rate ltac:(lia) m).
  change (bc_blen c) with (s3_blen c) in Hb.
  assert (0 <= s3_blen c < Z.of_nat rate) by (rewrite Hb; unfold zlen; lia).
  split; [done|]. split; [done|]. split; [done|]. split; [|done].
  exact (h_cap _ _ _ _ _ _ _ _ H).
Qed.

Lemma sha3_fresh_repr : s3_repr (sha3_fresh a out (Z.of_nat rate)) [].
Proof.
  pose proof (rate_bounds rate Hrate). split; try done.
  - unfold partial. by rewrite drop_nil.
  - unfold whole. by rewrite Nat.Div0.div_0_l.
  - by rewrite chunks_short by (simpl; lia).
  - unfold partial. by rewrite drop_nil.
Qed.

Lemma sha3_update_ok c m p :
  s3_repr c m -> zlen (m ++ p) < SHA3_LIMIT ->
  exists c', spec_cx_sha3_update (Some p) (zlen p) c = Ret 1 c' /\ s3_repr c' (m ++ p).
Proof.
  intros Hc Hp. destruct (s3_repr_fields c m Hc) as (_ & _ & Hbs & _ & Hb & _).
  pose proof (rate_bounds rate Hrate). unfold spec_cx_sha3_update.
  rewrite bool_decide_eq_false_2 by done. cbn [andb default].
  unfold mbind at 1, mgets at 1. rewrite Hbs. destruct (Z.ltb_spec 200 (Z.of_nat rate)); [lia|].
  unfold mbind at 1, mgets. unfold mbind at 1, mmodify.
  destruct (Z.leb_spec (Z.of_nat rate) (s3_blen c)); [lia|].
  apply (append_data_ok rate 200 sha3_compress true ltac:(lia) ltac:(lia) ltac:(lia)
    spec_cx_sha3_block (zeros 25) _ (sha3_block_spec rate a out Hrate)).
  - change (s3_set_blen 0 c) with (bc_set_blen 0 c). by apply holds_set_blen.
  - rewrite zlen_app in Hp. pose proof (zlen_nonneg m). unfold SHA3_LIMIT in Hp. lia.
  - right. by apply sha3_whole_limit.
Qed.

Lemma sha3_feed_ok c parts :
  s3_repr c [] -> zlen (concat parts) < SHA3_LIMIT ->
  exists c', feed_all spec_cx_sha3_update parts c = Ret 1 c' /\ s3_repr c' (concat parts).
Proof.
  intros Hc HN.
  apply (feed_all_ok spec_cx_sha3_update s3_repr (fun _ => True) SHA3_LIMIT) with (m := []);
    [intros; by apply sha3_update_ok | done | by apply Forall_true | done].
Qed.

(** ** Padding *)

Lemma or_byte_ok i v c l x k :
  s3_block c = l ++ x :: k -> i = zlen l ->
  or_byte i v c = Ret tt (s3_set_block (l ++ Z.lor x v :: k) c).
Proof.
  intros Hb ->. pose proof (zlen_nonneg l). pose proof (zlen_nonneg k).
  unfold or_byte, mbind, mgets, mlift, mmodify. rewrite Hb.
  rewrite read_at_ok by (rewrite ?zlen_app, ?zlen_cons; lia). rewrite zdrop_app_l by done.
  rewrite write_at_ok by (rewrite ?zlen_app, ?zlen_cons; change (zlen (@nil Z)) with 0; lia).
  change (zlen [_]) with 1. rewrite ztake_app_l by done.
  rewrite <- zdrop_zdrop, zdrop_app_l by lia. done.
Qed.

(** The last block: the pending bytes, the domain byte, zeros, the last bit. *)
Definition last_bytes (d : Z) (q : nat) : list Z :=
  if (q =? 1)%nat then [Z.lor d 0x80] else d :: replicate (q - 2) 0 ++ [0x80].

Lemma sponge_pad_chunks d m :
  chunks rate (sponge_pad rate d m)
  = chunks rate m ++ [partial rate m ++ last_bytes d (rate - length (partial rate m))].
Proof.
  pose proof (rate_bounds rate Hrate). pose proof (partial_short rate ltac:(lia) m).
  pose proof (partial_length rate ltac:(lia) m) as Hm.
  unfold sponge_pad. fold (last_bytes d (rate - length m mod rate)).
  replace (length m mod rate)%nat with (length (partial rate m)).
  2:{ rewrite Hm, Nat.add_comm, Nat.Div0.mod_add. symmetry. by apply Nat.mod_small. }
  destruct (append_fill rate ltac:(lia) m (last_bytes d (rate - length (partial rate m))))
    as (_ & _ & ->); [|done].
  unfold last_bytes. destruct (Nat.eqb_spec (rate - length (partial rate m)) 1); simpl; [lia|].
  rewrite length_app, length_replicate. simpl. lia.
Qed.

Lemma sponge_pad_bytes d m : is_byte d -> bytes_ok m -> bytes_ok (sponge_pad rate d m).
Proof.
  intros Hd Hm. apply Forall_app. split; [done|].
  destruct (_ =? 1)%nat.
  - apply Forall_singleton. unfold is_byte in *. split; [apply Z.lor_nonneg; lia|].
    apply (bits_lt _ 8); [lia | apply Z.lor_nonneg; lia |]. intros i Hi.
    rewrite Z.lor_spec, (small_high d 8), (small_high 128 8) by lia. done.
  - apply Forall_cons. split; [done|]. apply Forall_app. split.
    + apply Forall_replicate. unfold is_byte. lia.
    + apply Forall_singleton. unfold is_byte. lia.
Qed.

(** The three memory operations of the padding fill the block. *)
Lemma sha3_pad_block d c m :
  s3_repr c m ->
  exists c1 c2 c3,
    clear_block (s3_blen c) (200 - s3_blen c) c = Ret tt c1 /\
    or_byte (s3_blen c) d c1 = Ret tt c2 /\
    or_byte (Z.of_nat rate - 1) 0x80 c2 = Ret tt c3 /\
    exists k, c3 = s3_set_block
      (partial rate m ++ last_bytes d (rate - length (partial rate m)) ++ k) c /\
      length k = (200 - rate)%nat.
Proof.
  intros Hc. destruct (s3_repr_fields c m Hc) as (_ & _ & _ & Hl & Hb & Hp).
  pose proof (rate_bounds rate Hrate) as Hr.
  set (p := partial rate m) in *. set (q := (rate - length p)%nat).
  assert (length p < rate)%nat as Hlp by (unfold zlen in Hp; lia).
  pose proof (h_pending _ _ _ _ _ _ _ _ Hc) as Hpend. fold p in Hpend.
  change (bc_block c) with (s3_block c) in Hpend. change (bc_blen c) with (s3_blen c) in Hpend.
  set (z := replicate (199 - length p) 0).
  assert (clear_block (s3_blen c) (200 - s3_blen c) c
    = Ret tt (s3_set_block (p ++ 0 :: z) c)) as E1.
  { unfold clear_block, mbind, mgets, mlift, mmodify.
    change (bc_block c) with (s3_block c). rewrite memset_at_end by lia. rewrite Hpend.
    replace (Z.to_nat (200 - s3_blen c)) with (S (199 - length p))
      by (unfold zlen in Hp; lia). done. }
  pose proof (or_byte_ok (s3_blen c) d (s3_set_block (p ++ 0 :: z) c) p 0 z eq_refl Hp) as E2.
  rewrite Z.lor_0_l in E2. unfold last_bytes. fold q.
  destruct (Nat.eqb_spec q 1) as [Hq|Hq].
  - pose proof (or_byte_ok (Z.of_nat rate - 1) 0x80
      (s3_set_block (p ++ d :: z) (s3_set_block (p ++ 0 :: z) c)) p d z eq_refl
      ltac:(unfold zlen; lia)) as E3.
    do 3 eexists. split; [exact E1|]. split; [exact E2|]. split; [exact E3|].
    exists z. split; [done|]. unfold z. rewrite length_replicate. lia.
  - assert (z = replicate (q - 2) 0 ++ 0 :: replicate (200 - rate) 0) as Hz.
    { unfold z. replace (199 - length p)%nat with ((q - 2) + S (200 - rate))%nat by lia.
      by rewrite replicate_add. }
    pose proof (or_byte_ok (Z.of_nat rate - 1) 0x80
      (s3_set_block (p ++ d :: z) (s3_set_block (p ++ 0 :: z) c))
      (p ++ d :: replicate (q - 2) 0) 0 (replicate (200 - rate) 0)) as E3.
    do 3 eexists. split; [exact E1|]. split; [exact E2|]. split; [apply E3|].
    + cbn [s3_block s3_set_block]. rewrite Hz, <- app_assoc. done.
    + rewrite zlen_app, zlen_cons, zlen_replicate. unfold zlen. lia.
    + exists (replicate (200 - rate) 0). split; [|by rewrite length_replicate].
      change (Z.lor 0 128) with 128. unfold s3_set_block. cbn. f_equal.
      by rewrite <- !app_assoc.
Qed.

(** After the padding the state is that of the sponge. *)
Lemma sha3_pad_ok d c m :
  is_byte d -> bytes_ok m -> s3_repr c m ->
  exists c1 c2 c3,
    clear_block (s3_blen c) (200 - s3_blen c) c = Ret tt c1 /\
    or_byte (s3_blen c) d c1 = Ret tt c2 /\
    or_byte (Z.of_nat rate - 1) 0x80 c2 = Ret tt c3 /\
    let c4 := spec_cx_sha3_block c3 in
    s3_acc c4 = fold_left absorb (chunks rate (sponge_pad rate d m)) (zeros 25) /\
    state_ok (s3_acc c4) /\ s3_output_size c4 = out /\
    s3_block_size c4 = Z.of_nat rate /\ zlen (s3_block c4) = 200.
Proof.
  intros Hd Hm Hc. destruct (sha3_pad_block d c m Hc) as (c1 & c2 & c3 & E1 & E2 & E3 & k & Hc3 & Hk).
  exists c1, c2, c3. do 3 (split; [done|]). cbv zeta.
  destruct (s3_repr_fields c m Hc) as (Ha & Ho & Hbs & Hl & _ & _).
  pose proof (rate_bounds rate Hrate). pose proof (partial_short rate ltac:(lia) m).
  set (last := partial rate m ++ last_bytes d (rate - length (partial rate m))).
  assert (length last = rate) as Hlast.
  { unfold last, last_bytes. rewrite length_app.
    destruct (Nat.eqb_spec (rate - length (partial rate m)) 1); simpl; [lia|].
    rewrite length_app, length_replicate. simpl. lia. }
  assert (s3_block c3 = last ++ k) as Hb3 by (rewrite Hc3; cbn; apply app_assoc).
  assert (zlen (s3_block c3) = 200) as Hz3
    by (rewrite Hb3; unfold zlen; rewrite length_app; lia).
  destruct (sha3_block_spec rate a out Hrate c3) as (B1 & B2 & _ & B4).
  - exact Hz3.
  - rewrite Hc3. cbn. by rewrite Ha, Ho, Hbs.
  - cbn [accv bc_block frame s3_block_ctx s3_block_view] in *.
    rewrite Hb3, take_app_length' in B1 by done.
    assert (s3_acc c3 = fold_left sha3_compress (chunks rate m) (zeros 25)) as Hacc
      by (rewrite Hc3; exact (h_acc _ _ _ _ _ _ _ _ Hc)).
    destruct (sha3_fold_absorb rate (sponge_pad rate d m) Hrate) as [F W];
      [by apply sponge_pad_bytes|].
    rewrite <- F. rewrite sponge_pad_chunks, fold_left_app in W |- *. fold last in W |- *.
    cbn [fold_left] in W |- *. rewrite Hacc in B1. rewrite B1.
    injection B4 as _ O1 O2.
    split; [reflexivity|]. split; [exact W|]. split; [exact O1|]. split; [exact O2|exact B2].
Qed.

(** ** Squeezing *)

Lemma keystream_S k A :
  keystream rate (S k) A = take rate (state_bytes A) ++ keystream rate k (keccak_f A).
Proof.
  unfold keystream. simpl. f_equal. f_equal. rewrite <- seq_shift, map_map.
  apply map_ext. intros i. by rewrite Nat.iter_succ_r.
Qed.

Lemma state_bytes_length A : state_ok A -> zlen (state_bytes A) = 200.
Proof. intros [_ H]. unfold zlen, state_bytes. by rewrite concat_split_length, H. Qed.

Lemma put_acc_ok digest off n c :
  state_ok (s3_acc c) -> 0 <= n <= 200 -> 0 <= off -> off + n <= zlen digest ->
  put_acc digest off n c
  = Ret (ztake off digest ++ ztake n (state_bytes (s3_acc c)) ++ zdrop (off + n) digest) c.
Proof.
  intros HA Hn Ho Hd. unfold put_acc, mbind, mgets, mlift.
  change (store_words64 (s3_acc c)) with (state_bytes (s3_acc c)).
  pose proof (state_bytes_length _ HA) as Hl.
  rewrite read_at_ok, zdrop_0 by lia. by rewrite write_at_ok; rewrite ?zlen_ztake by lia.
Qed.

(** The loop and the last copy write the key stream. *)
Lemma sha3_squeeze_ok fuel digest off len c :
  s3_block c = zeros 200 -> state_ok (s3_acc c) ->
  0 <= len < Z.of_nat fuel -> len < 4294967296 -> 0 <= off -> off + len <= zlen digest ->
  exists c' off' n digest' w,
    sha3_squeeze fuel (Z.of_nat rate) digest off len c = Ret (digest', off', n) c' /\
    put_acc digest' off' n c' = Ret w c' /\
    write_at digest off (ztake len (keystream rate (S (Z.to_nat len / rate)) (s3_acc c)))
    = Some w.
Proof.
  pose proof (rate_bounds rate Hrate) as Hr.
  revert digest off len c. induction fuel as [|fuel IH];
    intros digest off len c Hb HA Hlen H32 Hoff Hd; [lia|].
  cbn [sha3_squeeze]. pose proof (state_bytes_length _ HA) as Hsl.
  assert (zlen (take rate (state_bytes (s3_acc c))) = Z.of_nat rate) as Htl.
  { unfold zlen in *. rewrite length_take. lia. }
  destruct (Z.ltb_spec (Z.of_nat rate) len) as [Hlt|Hge].
  - set (chunk := take rate (state_bytes (s3_acc c))) in *.
    pose proof (put_acc_ok digest off (Z.of_nat rate) c HA ltac:(lia) Hoff ltac:(lia)) as Ep.
    unfold ztake at 2 in Ep. rewrite Nat2Z.id in Ep. fold chunk in Ep.
    rewrite (mbind_ret _ _ _ _ _ Ep). unfold mbind at 1, mmodify.
    set (digest1 := _ ++ _ ++ _).
    assert (write_at digest off chunk = Some digest1) as Ew
      by (rewrite write_at_ok, Htl by lia; done).
    rewrite sha3_block_zeros by done. set (c1 := s3_set_acc _ c).
    unfold w32. rewrite Z.mod_small by lia.
    destruct (keccak_ok _ HA) as [_ HA1].
    pose proof (write_at_length _ _ _ _ Ew) as Hdl.
    destruct (IH digest1 (off + Z.of_nat rate) (len - Z.of_nat rate) c1)
      as (c' & off' & n & digest' & w & E1 & E2 & E3); try done; try lia.
    exists c', off', n, digest', w. split; [exact E1|]. split; [exact E2|].
    assert (Z.to_nat len / rate = S (Z.to_nat (len - Z.of_nat rate) / rate))%nat as ->.
    { replace (Z.to_nat len) with (Z.to_nat (len - Z.of_nat rate) + 1 * rate)%nat by lia.
      rewrite Nat.div_add by lia. lia. }
    rewrite keystream_S. fold chunk. change (s3_acc c1) with (keccak_f (s3_acc c)) in E3.
    rewrite <- E3, <- Htl. rewrite <- Htl in E3.
    set (ks := keystream _ _ _) in *.
    assert (ztake len (chunk ++ ks) = chunk ++ ztake (len - zlen chunk) ks) as ->.
    { unfold ztake, zlen in *. rewrite take_app_ge by lia. do 2 f_equal. lia. }
    symmetry. apply write_at_app; [exact Ew|].
    assert (zlen (ztake (len - zlen chunk) ks) <= len - zlen chunk); [|lia].
    unfold zlen, ztake. rewrite length_take. unfold zlen in Htl. lia.
  - pose proof (put_acc_ok digest off len c HA ltac:(lia) Hoff Hd) as Ep.
    do 5 eexists. split; [reflexivity|]. split; [exact Ep|].
    rewrite keystream_S. assert (ztake len (take rate (state_bytes (s3_acc c)) ++
      keystream rate (Z.to_nat len / rate) (keccak_f (s3_acc c)))
      = ztake len (state_bytes (s3_acc c))) as ->.
    { unfold ztake. rewrite take_app_le by (unfold zlen in Htl; lia).
      rewrite take_take. f_equal. lia. }
    rewrite write_at_ok; rewrite ?zlen_ztake by lia; done || lia.
Qed.

(** ** The final function *)

Lemma sponge_length d m :
  bytes_ok m -> is_byte d -> 0 <= out -> zlen (sponge rate d m out) = out.
Proof.
  intros Hm Hd Ho. unfold sponge.
  destruct (sha3_fold_absorb rate (sponge_pad rate d m) Hrate) as [F W];
    [by apply sponge_pad_bytes|]. rewrite F in W. clear F.
  generalize dependent (fold_left absorb (chunks rate (sponge_pad rate d m)) (zeros 25)).
  intros A HA. pose proof (rate_bounds rate Hrate).
  assert (forall k A, state_ok A -> length (keystream rate k A) = (k * rate)%nat) as Hk.
  { clear - Hrate H. intros k. induction k as [|k IH]; intros A HA; [done|].
    rewrite keystream_S, length_app, IH by (by apply keccak_ok).
    pose proof (state_bytes_length A HA) as Hl. unfold zlen in Hl.
    rewrite length_take. lia. }
  apply zlen_ztake. unfold zlen. rewrite Hk by done.
  pose proof (Nat.mul_succ_div_gt (Z.to_nat out) rate). lia.
Qed.

Lemma sha3_final_ok c m digest :
  bytes_ok m -> s3_repr c m -> a = CX_KECCAK \/ a = CX_SHA3 ->
  0 <= out < Z.of_nat rate -> out <= zlen digest ->
  exists c', spec_cx_sha3_final (Some digest) c
    = Ret (1, Some (sponge rate (if bool_decide (a = CX_KECCAK) then 1 else 6) m out
                    ++ zdrop out digest)) c'.
Proof.
  intros Hm Hc Ha Hout Hd. destruct (s3_repr_fields c m Hc) as (Fa & _ & Fb & _).
  unfold spec_cx_sha3_final. unfold mbind at 1, mgets at 1, mbind at 1, mgets at 1.
  unfold mbind at 1, mgets at 1. rewrite Fa, Fb.
  assert (bool_decide (a = CX_KECCAK) || bool_decide (a = CX_SHA3) = true) as ->.
  { destruct Ha as [-> | ->]; reflexivity. }
  set (d := if bool_decide _ then 1 else 6).
  assert (is_byte d) by (unfold d, is_byte; case_bool_decide; lia).
  destruct (sha3_pad_ok d c m) as (c1 & c2 & c3 & E1 & E2 & E3 & Ac & Aok & Ao & _);
    [done|done|done|].
  rewrite (mbind_ret _ _ _ _ _ E1), (mbind_ret _ _ _ _ _ E2), (mbind_ret _ _ _ _ _ E3).
  unfold mbind at 1, mmodify at 1. set (c4 := spec_cx_sha3_block c3) in *. clearbody c4.
  unfold mbind at 1, mgets at 1. rewrite Ao.
  pose proof (rate_bounds rate Hrate).
  rewrite (mbind_ret _ _ _ _ _ (put_acc_ok digest 0 out c4 Aok ltac:(lia) ltac:(lia) ltac:(lia))).
  exists c4. unfold mret. rewrite ztake_0, Z.add_0_l. cbn [app]. do 4 f_equal.
  unfold sponge. rewrite <- Ac. rewrite keystream_S. unfold ztake.
  pose proof (state_bytes_length _ Aok) as Hl. unfold zlen in Hl.
  rewrite take_app_le by (rewrite length_take; lia). rewrite take_take. f_equal. lia.
Qed.

Lemma shake_final_ok c m digest :
  bytes_ok m -> s3_repr c m -> a <> CX_KECCAK -> a <> CX_SHA3 ->
  0 <= out < 4294967296 -> out <= zlen digest ->
  exists c', spec_cx_sha3_final (Some digest) c
    = Ret (1, Some (sponge rate 0x1F m out ++ zdrop out digest)) c'.
Proof.
  intros Hm Hc Ha1 Ha2 Hout Hd. destruct (s3_repr_fields c m Hc) as (Fa & _ & Fb & _).
  unfold spec_cx_sha3_final. unfold mbind at 1, mgets at 1, mbind at 1, mgets at 1.
  unfold mbind at 1, mgets at 1. rewrite Fa, Fb. rewrite !bool_decide_eq_false_2 by done.
  cbn [orb].
  destruct (sha3_pad_ok 0x1F c m) as (c1 & c2 & c3 & E1 & E2 & E3 & Ac & Aok & Ao & Ab & Al);
    [unfold is_byte; lia|done|done|].
  rewrite (mbind_ret _ _ _ _ _ E1), (mbind_ret _ _ _ _ _ E2), (mbind_ret _ _ _ _ _ E3).
  unfold mbind at 1, mmodify at 1. set (c4 := spec_cx_sha3_block c3) in *. clearbody c4.
  unfold mbind at 1, mgets at 1. rewrite Ao.
  assert (clear_block 0 200 c4 = Ret tt (s3_set_block (zeros 200) c4)) as Ec.
  { unfold clear_block, mbind, mgets, mlift, mmodify. change (bc_block c4) with (s3_block c4).
    rewrite memset_at_end by lia. by rewrite ztake_0. }
  rewrite (mbind_ret _ _ _ _ _ Ec). set (c5 := s3_set_block (zeros 200) c4).
  destruct (sha3_squeeze_ok (S (Z.to_nat out)) digest 0 out c5)
    as (c' & off' & n & digest' & w & S1 & S2 & S3); [done|exact Aok|lia|lia|lia|lia|].
  rewrite (mbind_ret _ _ _ _ _ S1), (mbind_ret _ _ _ _ _ S2). exists c'. unfold mret.
  assert (s3_acc c5 = s3_acc c4) as E5 by reflexivity. rewrite E5, Ac in S3.
  assert (sponge rate 0x1F m out = ztake out (keystream rate (S (Z.to_nat out / rate))
    (fold_left absorb (chunks rate (sponge_pad rate 0x1F m)) (zeros 25)))) as Esp
    by (unfold sponge; reflexivity).
  rewrite <- Esp in S3. do 3 f_equal.
  rewrite write_at_ok in S3 by (rewrite ?sponge_length; done || lia).
  rewrite sponge_length in S3 by (done || lia). by injection S3 as <-.
Qed.
End stream.

(** * Properties *)

Lemma sha3_init_ok size st :
  check_hash_out_size size = true ->
  let rate := Z.to_nat (200 - 2 * (size / 8)) in
  rate_ok rate /\ 0 <= size / 8 < Z.of_nat rate /\
  (exists c, cx_sha3_init size st = Ret (md_code CX_SHA3) c /\
     s3_repr rate CX_SHA3 (size / 8) c []) /\
  (exists c, cx_keccak_init size st = Ret (md_code CX_KECCAK) c /\
     s3_repr rate CX_KECCAK (size / 8) c []).
Proof.
  intros Hs. assert (In size [128; 224; 256; 384; 512]) as Hin.
  { unfold check_hash_out_size in Hs. simpl. lia. }
  cbv zeta. assert (rate_ok (Z.to_nat (200 - 2 * (size / 8))) /\
    0 <= size / 8 < Z.of_nat (Z.to_nat (200 - 2 * (size / 8))) /\
    Z.shiftr size 3 = size / 8 /\ Z.shiftr (w32 (1600 - w32 (2 * size))) 3
      = Z.of_nat (Z.to_nat (200 - 2 * (size / 8)))) as (Hr & Ho & E1 & E2).
  { simpl in Hin. destruct Hin as [<-|[<-|[<-|[<-|[<-|[]]]]]]; repeat split; vm_compute;
      (reflexivity || discriminate || auto 10). }
  split; [done|]. split; [done|]. split.
  - eexists. split; [unfold cx_sha3_init; rewrite Hs, E1, E2; reflexivity|].
    by apply sha3_fresh_repr.
  - eexists. split.
    + unfold cx_keccak_init, cx_sha3_init, mbind, mmodify, mret. rewrite Hs, E1, E2. reflexivity.
    + by apply sha3_fresh_repr.
Qed.

(** C26: for each size the initialisation accepts, a SHA-3 (resp.
    Keccak) context updated with any sequence of buffers of bytes, less than
    65536 blocks in all, and finalised gives the digest FIPS 202 (resp. the
    original Keccak padding) defines for the concatenation of the buffers in
    the first [size / 8] bytes of the output buffer and leaves the rest of it
    unchanged. No access leaves a buffer and nothing is thrown. *)
Theorem sha3_streaming (size : Z) (parts : list (list Z)) (digest : list Z) (st : sha3_ctx) :
  check_hash_out_size size = true ->
  Forall bytes_ok parts ->
  zlen (concat parts) < 65536 * (200 - 2 * (size / 8)) ->
  size / 8 <= zlen digest ->
  (exists c, (do! cx_sha3_init size in do! feed_all spec_cx_sha3_update parts in
      spec_cx_sha3_final (Some digest)) st
    = Ret (1, Some (SHA3 (size / 8) (concat parts) ++ zdrop (size / 8) digest)) c) /\
  (exists c, (do! cx_keccak_init size in do! feed_all spec_cx_sha3_update parts in
      spec_cx_sha3_final (Some digest)) st
    = Ret (1, Some (KECCAK (size / 8) (concat parts) ++ zdrop (size / 8) digest)) c).
Proof.
  intros Hs Hb Hlen Hd. assert (bytes_ok (concat parts)) as Hc by by apply Forall_concat.
  destruct (sha3_init_ok size st Hs) as (Hr & Ho & (c0 & E0 & R0) & (c0' & E0' & R0')).
  unfold SHA3, KECCAK. set (rate := Z.to_nat _) in *.
  assert (zlen (concat parts) < SHA3_LIMIT rate) as HN by (unfold SHA3_LIMIT; lia).
  split.
  - destruct (sha3_feed_ok rate Hr _ _ _ parts R0 HN) as (c1 & E1 & R1).
    rewrite (mbind_ret _ _ _ _ _ E0), (mbind_ret _ _ _ _ _ E1).
    destruct (sha3_final_ok rate Hr _ _ _ _ digest Hc R1 (or_intror eq_refl) Ho Hd) as (c2 & ->).
    by exists c2.
  - destruct (sha3_feed_ok rate Hr _ _ _ parts R0' HN) as (c1 & E1 & R1).
    rewrite (mbind_ret _ _ _ _ _ E0'), (mbind_ret _ _ _ _ _ E1).
    destruct (sha3_final_ok rate Hr _ _ _ _ digest Hc R1 (or_introl eq_refl) Ho Hd) as (c2 & ->).
    by exists c2.
Qed.

Lemma sha3_streaming_witness :
  be_combine (SHA3 32 [0x61; 0x62; 0x63])
    = 0x3a985da74fe225b2045c172d6bd390bd855f086e3e9d525b46bfe24511431532 /\
  be_combine (KECCAK 32 [0x61; 0x62; 0x63])
    = 0x4e03657aea45a94fc7d47ba826c8d667c0d1e6e33a64a036ec44f58fa12d6c45 /\
  exists c, (do! cx_sha3_init 256 in
      do! feed_all spec_cx_sha3_update [[0x61]; [0x62; 0x63]] in
      spec_cx_sha3_final (Some (zeros 40))) (sha3_fresh CX_NONE 0 0)
    = Ret (1, Some (SHA3 (256 / 8) (concat [[0x61]; [0x62; 0x63]]) ++ zdrop (256 / 8) (zeros 40))) c.
Proof.
  split; [vm_compute; reflexivity|]. split; [vm_compute; reflexivity|].
  refine (proj1 (sha3_streaming 256 [[0x61]; [0x62; 0x63]] (zeros 40)
    (sha3_fresh CX_NONE 0 0) _ _ _ _)).
  - reflexivity.
  - unfold bytes_ok, is_byte. repeat constructor; lia.
  - vm_compute. reflexivity.
  - vm_compute. discriminate.
Defined.

(** A SHAKE context for [len] bytes of output, initialised
    through either interface, updated with any sequence of buffers of bytes,
    less than 65536 blocks in all, and finalised gives the first [len] bytes
    of the SHAKE128 (resp. SHAKE256) output of FIPS 202 on the concatenation
    of the buffers, however many squeezing steps that takes, and leaves the
    rest of the output buffer unchanged. *)
Theorem shake_streaming (len : Z) (parts : list (list Z)) (digest : list Z) (st : sha3_ctx) :
  0 <= 8 * len < 4294967296 ->
  Forall bytes_ok parts ->
  zlen (concat parts) < 65536 * 136 ->
  len <= zlen digest ->
  let run (init : M sha3_ctx Z) := (do! init in
    do! feed_all spec_cx_sha3_update parts in spec_cx_sha3_final (Some digest)) st in
  let out128 := Some (SHAKE128 (concat parts) len ++ zdrop len digest) in
  let out256 := Some (SHAKE256 (concat parts) len ++ zdrop len digest) in
  (exists c, run (cx_shake128_init (8 * len)) = Ret (1, out128) c) /\
  (exists c, run (cx_sha3_xof_init 128 len) = Ret (1, out128) c) /\
  (exists c, run (cx_shake256_init (8 * len)) = Ret (1, out256) c) /\
  (exists c, run (cx_sha3_xof_init 256 len) = Ret (1, out256) c).
Proof.
  intros Hl Hb Hlen Hd. assert (bytes_ok (concat parts)) as Hc by by apply Forall_concat.
  cbv zeta. assert (forall rate a init, rate_ok rate -> zlen (concat parts) < SHA3_LIMIT rate ->
    a <> CX_KECCAK -> a <> CX_SHA3 ->
    init st = Ret (md_code a) (sha3_fresh a len (Z.of_nat rate)) ->
    exists c, (do! init in do! feed_all spec_cx_sha3_update parts in
      spec_cx_sha3_final (Some digest)) st
    = Ret (1, Some (sponge rate 0x1F (concat parts) len ++ zdrop len digest)) c) as Hrun.
  { intros rate a init Hr HN N1 N2 E0. rewrite (mbind_ret _ _ _ _ _ E0).
    destruct (sha3_feed_ok rate Hr a len _ parts (sha3_fresh_repr rate Hr a len) HN)
      as (c1 & E1 & R1). rewrite (mbind_ret _ _ _ _ _ E1).
    apply (shake_final_ok rate Hr a len c1); done || lia. }
  assert (8 * len mod 8 = 0 /\ 8 * len / 8 = len) as [M1 M2] by div_mod_lia.
  assert (rate_ok 168 /\ rate_ok 136) as [R1 R2] by (unfold rate_ok; simpl; tauto).
  repeat split.
  - apply (Hrun 168%nat CX_SHAKE128); [done | unfold SHA3_LIMIT; lia | done | done |].
    unfold cx_shake128_init. by rewrite M1, M2.
  - by apply (Hrun 168%nat CX_SHAKE128); [done | unfold SHA3_LIMIT; lia | done | done |].
  - apply (Hrun 136%nat CX_SHAKE256); [done | unfold SHA3_LIMIT; lia | done | done |].
    unfold cx_shake256_init. by rewrite M1, M2.
  - by apply (Hrun 136%nat CX_SHAKE256); [done | unfold SHA3_LIMIT; lia | done | done |].
Qed.

Lemma shake_streaming_witness :
  ztake 4 (SHAKE128 [] 200) = [0x7f; 0x9c; 0x2b; 0xa4] /\
  exists c, (do! cx_sha3_xof_init 128 200 in
      do! feed_all spec_cx_sha3_update [[]; []] in
      spec_cx_sha3_final (Some (zeros 200))) (sha3_fresh CX_NONE 0 0)
    = Ret (1, Some (SHAKE128 (concat [[]; []]) 200 ++ zdrop 200 (zeros 200))) c.
Proof.
  split; [vm_compute; reflexivity|].
  refine (proj1 (proj2 (shake_streaming 200 [[]; []] (zeros 200) (sha3_fresh CX_NONE 0 0)
    _ _ _ _))).
  - lia.
  - unfold bytes_ok. repeat constructor.
  - vm_compute. reflexivity.
  - vm_compute. discriminate.
Defined.

(** On 25 lanes of 64 bits, the 24 rounds of the code, with their
    in-place updates, their lane tables and their constants, are the
    permutation Keccak-f[1600] of FIPS 202, whose rotation offsets and round
    constants are generated by the recurrence and the shift register of the
    standard. *)
Theorem keccak_f_refines (A : list Z) :
  Forall is_w64 A -> length A = 25%nat ->
  sha3_rounds A = keccak_f A /\ Forall is_w64 (keccak_f A) /\ length (keccak_f A) = 25%nat.
Proof. exact (fun Hw Hl => keccak_ok A (conj Hw Hl)). Qed.

Lemma keccak_f_refines_witness :
  hd 0 (keccak_f (zeros 25)) = 0xF1258F7940E1DDE7 /\ sha3_rounds (zeros 25) = keccak_f (zeros 25).
Proof.
  split; [vm_compute; reflexivity|].
  refine (proj1 (keccak_f_refines (zeros 25) _ eq_refl)).
  apply Forall_replicate. unfold is_w64. lia.
Defined.

(** The validation of the sponges bounds the pending length by
    200 and not by the rate. A context whose pending length is between the
    rate and 199 is accepted (for SHA-3 and Keccak, or for SHAKE), yet its
    update returns 0 and drops the pending data by resetting the length. *)
Theorem sha3_validated_update (c : sha3_ctx) (p : list Z) :
  cx_sha3_validate_context c = true \/ cx_shake_validate_context c = true ->
  s3_block_size c <= s3_blen c ->
  0 <= s3_output_size c ->
  spec_cx_sha3_update (Some p) (zlen p) c = Ret 0 (s3_set_blen 0 c) /\
  s3_blen c < 200.
Proof.
  intros Hv Hb Ho.
  assert (s3_blen c < 200 /\ s3_block_size c <= 200) as [H1 H2].
  { destruct Hv as [Hv|Hv].
    - unfold cx_sha3_validate_context in Hv. repeat case_match; try discriminate.
      change (Z.shiftr 1600 3) with 200 in *. unfold w32 in *. div_mod_lia.
    - unfold cx_shake_validate_context in Hv. repeat case_match; try discriminate.
      change (Z.shiftr (1600 - 2 * 256) 3) with 136 in *.
      change (Z.shiftr (1600 - 2 * 128) 3) with 168 in *. lia. }
  split; [|done]. unfold spec_cx_sha3_update. rewrite bool_decide_eq_false_2 by done.
  cbn [andb]. unfold mbind at 1, mgets at 1.
  destruct (Z.ltb_spec 200 (s3_block_size c)); [lia|].
  unfold mbind at 1, mgets, mbind at 1, mmodify.
  destruct (Z.leb_spec (s3_block_size c) (s3_blen c)); [done|lia].
Qed.

Lemma sha3_validated_update_witness :
  let c := s3_set_blen 150 (sha3_fresh CX_SHA3 32 136) in
  cx_sha3_validate_context c = true /\
  spec_cx_sha3_update (Some [1]) 1 c = Ret 0 (s3_set_blen 0 c).
Proof.
  split; [reflexivity|].
  apply (sha3_validated_update (s3_set_blen 150 (sha3_fresh CX_SHA3 32 136)) [1]).
  - left. reflexivity.
  - vm_compute. discriminate.
  - vm_compute. discriminate.
Defined.
