(* ===== verification/CxBlake2b.v ===== *)
(** BLAKE2b: [src/bolos/cx_blake2b.c], without the code that is only compiled
    with [BLAKE2_UNUSED]. The operations, the refinement of the compression
    function to RFC 7693 and the digest computed by any sequence of updates. *)

From S2P Require Import Prelude CxUtils HashCtx Sha2Ref.

(** * Definitions *)

Definition BLAKE2B_BLOCKBYTES : Z := 128.
Definition BLAKE2B_OUTBYTES : Z := 64.
Definition BLAKE2B_KEYBYTES : Z := 64.

Definition blake2b_IV : list Z := [
  0x6a09e667f3bcc908; 0xbb67ae8584caa73b; 0x3c6ef372fe94f82b; 0xa54ff53a5f1d36f1;
  0x510e527fade682d1; 0x9b05688c2b3e6c1f; 0x1f83d9abfb41bd6b; 0x5be0cd19137e2179 ].

Definition blake2b_sigma : list (list Z) := [
  [ 0;  1;  2;  3;  4;  5;  6;  7;  8;  9; 10; 11; 12; 13; 14; 15];
  [14; 10;  4;  8;  9; 15; 13;  6;  1; 12;  0;  2; 11;  7;  5;  3];
  [11;  8; 12;  0;  5;  2; 15; 13; 10; 14;  3;  6;  7;  1;  9;  4];
  [ 7;  9;  3;  1; 13; 12; 11; 14;  2;  6;  5; 10;  4;  0; 15;  8];
  [ 9;  0;  5;  7;  2;  4; 10; 15; 14;  1; 11; 12;  6;  8;  3; 13];
  [ 2; 12;  6; 10;  0; 11;  8;  3;  4; 13;  7;  5; 15; 14;  1;  9];
  [12;  5;  1; 15; 14; 13;  4; 10;  0;  7;  6;  3;  9;  2;  8; 11];
  [13; 11;  7; 14; 12;  1;  3;  9;  5;  0; 15;  4;  8;  6;  2; 10];
  [ 6; 15; 14;  9; 11;  3;  0;  8; 12;  2; 13;  7;  1;  4; 10;  5];
  [10;  2;  8;  4;  7;  6;  1;  5; 15; 11;  9; 14;  3; 12; 13;  0];
  [ 0;  1;  2;  3;  4;  5;  6;  7;  8;  9; 10; 11; 12; 13; 14; 15];
  [14; 10;  4;  8;  9; 15; 13;  6;  1; 12;  0;  2; 11;  7;  5;  3] ].

Record blake2b_state := mk_blake2b_state {
  b2_h : list Z;
  b2_t : Z * Z;
  b2_f : Z * Z;
  b2_buf : list Z;
  b2_buflen : Z;
  b2_outlen : Z;
  b2_last_node : Z;
}.

Definition b2_set_h (h : list Z) (S : blake2b_state) : blake2b_state :=
  mk_blake2b_state h (b2_t S) (b2_f S) (b2_buf S) (b2_buflen S) (b2_outlen S) (b2_last_node S).
Definition b2_set_t (t : Z * Z) (S : blake2b_state) : blake2b_state :=
  mk_blake2b_state (b2_h S) t (b2_f S) (b2_buf S) (b2_buflen S) (b2_outlen S) (b2_last_node S).
Definition b2_set_f (f : Z * Z) (S : blake2b_state) : blake2b_state :=
  mk_blake2b_state (b2_h S) (b2_t S) f (b2_buf S) (b2_buflen S) (b2_outlen S) (b2_last_node S).
Definition b2_set_buf (b : list Z) (S : blake2b_state) : blake2b_state :=
  mk_blake2b_state (b2_h S) (b2_t S) (b2_f S) b (b2_buflen S) (b2_outlen S) (b2_last_node S).
Definition b2_set_buflen (n : Z) (S : blake2b_state) : blake2b_state :=
  mk_blake2b_state (b2_h S) (b2_t S) (b2_f S) (b2_buf S) n (b2_outlen S) (b2_last_node S).
Definition b2_set_outlen (n : Z) (S : blake2b_state) : blake2b_state :=
  mk_blake2b_state (b2_h S) (b2_t S) (b2_f S) (b2_buf S) (b2_buflen S) n (b2_last_node S).

Definition rotr64 (w c : Z) : Z := Z.lor (Z.shiftr w c) (w64 (Z.shiftl w (64 - c))).

Definition UINT64_MAX : Z := 18446744073709551615.

Definition blake2b_set_lastnode (S : blake2b_state) : blake2b_state :=
  b2_set_f (fst (b2_f S), UINT64_MAX) S.

Definition blake2b_is_lastblock (S : blake2b_state) : bool := negb (fst (b2_f S) =? 0).

Definition blake2b_set_lastblock (S : blake2b_state) : blake2b_state :=
  let S := if truthy (b2_last_node S) then blake2b_set_lastnode S else S in
  b2_set_f (UINT64_MAX, snd (b2_f S)) S.

Definition blake2b_increment_counter (inc : Z) (S : blake2b_state) : blake2b_state :=
  let t0 := w64 (fst (b2_t S) + inc) in
  b2_set_t (t0, w64 (snd (b2_t S) + Z.b2z (t0 <? inc))) S.

Definition spec_blake2b_init0 : blake2b_state :=
  mk_blake2b_state blake2b_IV (0, 0) (0, 0) (zeros 128) 0 0 0.

(** [P] is the 64-byte parameter block; [digest_length] is its first byte. *)
Definition spec_blake2b_init_param (P : list Z) : blake2b_state :=
  let S := spec_blake2b_init0 in
  let S := b2_set_h (zip_with Z.lxor (b2_h S) (load_words64 P)) S in
  b2_set_outlen (znth P 0) S.

(** The parameter block filled by [spec_blake2b_init] (no key) and
    [spec_blake2b_init_key] (no salt, no personalisation). *)
Definition blake2b_param (outlen keylen : Z) (salt personal : list Z) : list Z :=
  [w8 outlen; w8 keylen; 1; 1] ++ le_split 4 0 ++ le_split 4 0 ++ le_split 4 0 ++
  [0; 0] ++ zeros 14 ++ salt ++ personal.

(** [memset(dst, 0, 16); if (src) memcpy(dst, src, len);] *)
Definition param_field (src : option (list Z)) (len : Z) : option (list Z) :=
  match src with
  | Some s =>
      match read_at s 0 len with
      | Some b => write_at (zeros 16) 0 b
      | None => None
      end
  | None => Some (zeros 16)
  end.

Definition spec_blake2b_init (outlen : Z) (salt : option (list Z)) (salt_len : Z)
    (personal : option (list Z)) (personal_len : Z) : M blake2b_state Z :=
  if (outlen =? 0) || (BLAKE2B_OUTBYTES <? outlen) then mret (-1)
  else
    let! salt := mlift (param_field salt salt_len) in
    let! personal := mlift (param_field personal personal_len) in
    do! mmodify (fun _ => spec_blake2b_init_param (blake2b_param outlen 0 salt personal)) in
    mret 0.

(** ** Compression *)

(** The macro [G]: [r], [i] and the positions of its four words in [v]. *)
Definition blake2b_G (m : list Z) (r i a b c d : Z) (v : list Z) : list Z :=
  let s k := znth m (znth (nth (Z.to_nat r) blake2b_sigma []) k) in
  let v := zupd v a (w64 (znth v a + znth v b + s (2 * i + 0))) in
  let v := zupd v d (rotr64 (Z.lxor (znth v d) (znth v a)) 32) in
  let v := zupd v c (w64 (znth v c + znth v d)) in
  let v := zupd v b (rotr64 (Z.lxor (znth v b) (znth v c)) 24) in
  let v := zupd v a (w64 (znth v a + znth v b + s (2 * i + 1))) in
  let v := zupd v d (rotr64 (Z.lxor (znth v d) (znth v a)) 16) in
  let v := zupd v c (w64 (znth v c + znth v d)) in
  zupd v b (rotr64 (Z.lxor (znth v b) (znth v c)) 63).

Definition blake2b_round (m : list Z) (r : Z) (v : list Z) : list Z :=
  let v := for_range 4 (fun i v =>
    blake2b_G m r i i (4 + i) (8 + i) (12 + i) v) v in
  for_range 4 (fun i v =>
    blake2b_G m r (4 + i) i (4 + Z.land (i + 1) 3) (8 + Z.land (i + 2) 3)
      (12 + Z.land (i + 3) 3) v) v.

(** [block] is 128 bytes; the scratch arrays [m] and [v] of [G_cx] are
    written before they are read. *)
Definition blake2b_compress (block : list Z) (S : blake2b_state) : blake2b_state :=
  let m := load_words64 block in
  let IV i := znth blake2b_IV i in
  let v := b2_h S ++
    [IV 0; IV 1; IV 2; IV 3;
     Z.lxor (IV 4) (fst (b2_t S)); Z.lxor (IV 5) (snd (b2_t S));
     Z.lxor (IV 6) (fst (b2_f S)); Z.lxor (IV 7) (snd (b2_f S))] in
  let v := for_range 12 (blake2b_round m) v in
  b2_set_h (zip_with Z.lxor (zip_with Z.lxor (b2_h S) (ztake 8 v)) (zdrop 8 v)) S.

(** ** Operations *)

(** [memcpy(S->buf + off, src, |src|)] *)
Definition b2_copy (off : Z) (src : list Z) : M blake2b_state unit :=
  let! buf := mgets b2_buf in
  let! buf := mlift (write_at buf off src) in
  mmodify (b2_set_buf buf).

(** [while (inlen > BLAKE2B_BLOCKBYTES)]: blocks compressed in place. *)
Fixpoint blake2b_blocks (fuel : nat) (inp : list Z) (inlen : Z)
  : M blake2b_state (list Z * Z) :=
  match fuel with
  | O => mfault
  | S fuel' =>
      if BLAKE2B_BLOCKBYTES <? inlen then
        do! mmodify (blake2b_increment_counter BLAKE2B_BLOCKBYTES) in
        let! block := mlift (read_at inp 0 BLAKE2B_BLOCKBYTES) in
        do! mmodify (blake2b_compress block) in
        blake2b_blocks fuel' (zdrop BLAKE2B_BLOCKBYTES inp) (w32 (inlen - BLAKE2B_BLOCKBYTES))
      else mret (inp, inlen)
  end.

Definition spec_blake2b_update (inp : list Z) (inlen : Z) : M blake2b_state Z :=
  if 0 <? inlen then
    let! buflen := mgets b2_buflen in
    let fill := w32 (BLAKE2B_BLOCKBYTES - buflen) in
    let! (inp, inlen) :=
      if fill <? inlen then
        do! mmodify (b2_set_buflen 0) in
        let! chunk := mlift (read_at inp 0 fill) in
        do! b2_copy buflen chunk in
        do! mmodify (blake2b_increment_counter BLAKE2B_BLOCKBYTES) in
        do! mmodify (fun S => blake2b_compress (b2_buf S) S) in
        blake2b_blocks (S (Z.to_nat inlen)) (zdrop fill inp) (w32 (inlen - fill))
      else mret (inp, inlen) in
    let! rest := mlift (read_at inp 0 inlen) in
    let! off := mgets b2_buflen in
    do! b2_copy off rest in
    do! mmodify (fun S => b2_set_buflen (w32 (b2_buflen S + inlen)) S) in
    mret 0
  else mret 0.

(** The key is padded to one block, which is absorbed first. *)
Definition spec_blake2b_init_key (outlen : Z) (key : option (list Z)) (keylen : Z)
  : M blake2b_state Z :=
  if (outlen =? 0) || (BLAKE2B_OUTBYTES <? outlen) then mret (-1)
  else if bool_decide (key = None) || (keylen =? 0) || (BLAKE2B_KEYBYTES <? keylen)
  then mret (-1)
  else
    do! mmodify (fun _ =>
      spec_blake2b_init_param (blake2b_param outlen keylen (zeros 16) (zeros 16))) in
    let! key := mlift (read_at (default [] key) 0 keylen) in
    let! block := mlift (write_at (zeros BLAKE2B_BLOCKBYTES) 0 key) in
    do! spec_blake2b_update block BLAKE2B_BLOCKBYTES in
    mret 0.

Definition spec_blake2b_final (out : option (list Z)) (outlen : Z)
  : M blake2b_state (Z * option (list Z)) :=
  let! n := mgets b2_outlen in
  if bool_decide (out <> None) && (outlen <? n) then mret (-1, out)
  else
    let! last := mgets blake2b_is_lastblock in
    if last then mret (-1, out)
    else
      do! mmodify (fun S => blake2b_increment_counter (b2_buflen S) S) in
      do! mmodify blake2b_set_lastblock in
      let! buf := mgets b2_buf in
      let! len := mgets b2_buflen in
      let! buf := mlift (memset_at buf len 0 (BLAKE2B_BLOCKBYTES - len)) in
      do! mmodify (b2_set_buf buf) in
      do! mmodify (fun S => blake2b_compress (b2_buf S) S) in
      let! buffer := mgets (fun S => store_words64 (b2_h S)) in
      let! digest := mlift (read_at buffer 0 n) in
      do! b2_copy 0 digest in
      match out with
      | Some out =>
          let! out := mlift (write_at out 0 digest) in
          mret (0, Some out)
      | None => mret (0, None)
      end.

(** ** The context of [cx_hash.h] *)

Record blake2b_ctx := mk_blake2b_ctx {
  bk_algo : cx_md_t;
  bk_counter : Z;
  bk_output_size : Z;
  bk_ctx : blake2b_state;
}.

Definition bk_set_ctx (S : blake2b_state) (c : blake2b_ctx) : blake2b_ctx :=
  mk_blake2b_ctx (bk_algo c) (bk_counter c) (bk_output_size c) S.

Definition b2_zero : blake2b_state :=
  mk_blake2b_state (zeros 8) (0, 0) (0, 0) (zeros 128) 0 0 0.

Definition cx_blake2b_init2 (size : Z) (salt : option (list Z)) (salt_len : Z)
    (perso : option (list Z)) (perso_len : Z) : M blake2b_ctx Z :=
  if bool_decide (salt = None) && negb (salt_len =? 0) then mthrow INVALID_PARAMETER
  else if bool_decide (perso = None) && negb (perso_len =? 0) then mthrow INVALID_PARAMETER
  else if (16 <? salt_len) || (16 <? perso_len) then mthrow INVALID_PARAMETER
  else if negb (size mod 8 =? 0) || (size <? 8) || (512 <? size)
  then mthrow INVALID_PARAMETER
  else
    let size := size / 8 in
    do! mmodify (fun _ => mk_blake2b_ctx CX_BLAKE2B 0 size b2_zero) in
    let! r := zoom bk_ctx bk_set_ctx (spec_blake2b_init size salt salt_len perso perso_len) in
    if r <? 0 then mthrow INVALID_PARAMETER else mret (md_code CX_BLAKE2B).

Definition cx_blake2b_init (size : Z) : M blake2b_ctx Z :=
  cx_blake2b_init2 size None 0 None 0.

Definition spec_cx_blake2b_update (data : option (list Z)) (len : Z) : M blake2b_ctx Z :=
  if bool_decide (data = None) && negb (len =? 0) then mret 0
  else
    let! r := zoom bk_ctx bk_set_ctx (spec_blake2b_update (default [] data) len) in
    mret (Z.b2z (r =? 0)).

Definition spec_cx_blake2b_final (digest : option (list Z))
  : M blake2b_ctx (Z * option (list Z)) :=
  let! size := mgets bk_output_size in
  let! (r, digest) := zoom bk_ctx bk_set_ctx (spec_blake2b_final digest size) in
  mret (Z.b2z (r =? 0), digest).

Definition spec_cx_blake2b_get_output_size (c : blake2b_ctx) : Z := bk_output_size c.

Definition cx_blake2b_validate_context (c : blake2b_ctx) : bool :=
  let output_size := bk_output_size c in
  if (output_size <? 1) || (512 / 8 <? output_size) then false
  else if (BLAKE2B_BLOCKBYTES <? b2_buflen (bk_ctx c)) ||
          (BLAKE2B_BLOCKBYTES <? b2_outlen (bk_ctx c)) then false
  else true.

(** [CX_LAST] is bit 0 of the mode. *)
Definition CX_LAST : Z := 1.

Definition spec_cx_blake2b (mode : Z) (inp : list Z) (len : Z)
    (out : option (list Z)) (out_len : Z) : M blake2b_ctx (Z * option (list Z)) :=
  let! r := zoom bk_ctx bk_set_ctx (spec_blake2b_update inp len) in
  if r <? 0 then mthrow INVALID_PARAMETER
  else if truthy (Z.land mode CX_LAST) then
    let! sz := mgets bk_output_size in
    if bool_decide (out <> None) && (out_len <? sz) then mthrow INVALID_PARAMETER
    else
      let! (r, out) := zoom bk_ctx bk_set_ctx (spec_blake2b_final out out_len) in
      if r <? 0 then mthrow INVALID_PARAMETER else mret (sz, out)
  else mret (0, out).

(** * Reference: RFC 7693 *)

(** The mixing function on positions [a], [b], [c], [d] of [v]. *)
Definition rfc_G (v : list Z) (a b c d x y : Z) : list Z :=
  let v := zupd v a (w64 (znth v a + znth v b + x)) in
  let v := zupd v d (ROTR 64 32 (Z.lxor (znth v d) (znth v a))) in
  let v := zupd v c (w64 (znth v c + znth v d)) in
  let v := zupd v b (ROTR 64 24 (Z.lxor (znth v b) (znth v c))) in
  let v := zupd v a (w64 (znth v a + znth v b + y)) in
  let v := zupd v d (ROTR 64 16 (Z.lxor (znth v d) (znth v a))) in
  let v := zupd v c (w64 (znth v c + znth v d)) in
  zupd v b (ROTR 64 63 (Z.lxor (znth v b) (znth v c))).

Definition rfc_round (m : list Z) (i : Z) (v : list Z) : list Z :=
  let s k := znth m (znth (nth (Z.to_nat (i mod 10)) blake2b_sigma []) k) in
  let v := rfc_G v 0 4 8 12 (s 0) (s 1) in
  let v := rfc_G v 1 5 9 13 (s 2) (s 3) in
  let v := rfc_G v 2 6 10 14 (s 4) (s 5) in
  let v := rfc_G v 3 7 11 15 (s 6) (s 7) in
  let v := rfc_G v 0 5 10 15 (s 8) (s 9) in
  let v := rfc_G v 1 6 11 12 (s 10) (s 11) in
  let v := rfc_G v 2 7 8 13 (s 12) (s 13) in
  rfc_G v 3 4 9 14 (s 14) (s 15).

(** The compression function: state, message words, 128-bit offset, final
    block flag. *)
Definition rfc_F (h m : list Z) (t : Z) (final : bool) : list Z :=
  let v := h ++ blake2b_IV in
  let v := zupd v 12 (Z.lxor (znth v 12) (t mod 2 ^ 64)) in
  let v := zupd v 13 (Z.lxor (znth v 13) (t / 2 ^ 64)) in
  let v := if final then zupd v 14 (Z.lxor (znth v 14) UINT64_MAX) else v in
  let v := for_range 12 (rfc_round m) v in
  zip_with Z.lxor (zip_with Z.lxor h (ztake 8 v)) (zdrop 8 v).

(** The words of the block of [m] that starts at byte [128 i]. *)
Definition rfc_block (m : list Z) (i : Z) : list Z :=
  map le_combine (chunks 8 (ztake 128 (zdrop (128 * i) m))).

(** The number of blocks before the last one. *)
Definition rfc_full (m : list Z) : nat := ((length m - 1) / 128)%nat.

Definition rfc_blake2b (h0 : list Z) (nn : Z) (m : list Z) : list Z :=
  let k := rfc_full m in
  let h := for_range k (fun i h => rfc_F h (rfc_block m i) (128 * (i + 1)) false) h0 in
  let padded := m ++ zeros (128 * (Z.of_nat k + 1) - zlen m) in
  let h := rfc_F h (rfc_block padded (Z.of_nat k)) (zlen m) true in
  ztake nn (concat (map (le_split 8) h)).

(** The initial state: the parameter block has the digest length, no key,
    fanout and depth 1, the salt and the personalisation. *)
Definition rfc_h0 (nn : Z) (salt personal : list Z) : list Z :=
  zip_with Z.lxor blake2b_IV
    ([Z.lxor 0x01010000 nn; 0; 0; 0] ++ load_words64 salt ++ load_words64 personal).

(** * The compression function *)

Definition v_ok : list Z -> Prop := words_ok is_w64 16.
Definition h_ok : list Z -> Prop := words_ok is_w64 8.

Lemma znth_w64 v i : Forall is_w64 v -> is_w64 (znth v i).
Proof. apply (znth_word is_w64). apply is_w64_0. Qed.

Lemma zupd_ok n v i x :
  words_ok is_w64 n v -> is_w64 x -> words_ok is_w64 n (zupd v i x).
Proof.
  intros [Hv Hl] Hx. split; [by apply Forall_insert|]. by rewrite zupd_length.
Qed.

Lemma rotr64_range x n : is_w64 x -> 0 < n < 64 -> is_w64 (rotr64 x n).
Proof.
  intros Hx Hn. apply is_w64_bits.
  - unfold rotr64. apply Z.lor_nonneg. split; [apply Z.shiftr_nonneg, Hx|]. apply w64_range.
  - intros i Hi. unfold rotr64.
    rewrite Z.lor_spec, w64_high, Z.shiftr_spec, word64_high by (done || lia). done.
Qed.

Lemma rotr64_ROTR x n : is_w64 x -> 0 < n < 64 -> rotr64 x n = ROTR 64 n x.
Proof. apply (rotr_ROTR 64). Qed.

(** One line of [G]: an addition, or a rotation of an exclusive or. *)
Lemma G_rot v d a n :
  v_ok v -> 0 < n < 64 ->
  zupd v d (rotr64 (Z.lxor (znth v d) (znth v a)) n)
    = zupd v d (ROTR 64 n (Z.lxor (znth v d) (znth v a))) /\
  v_ok (zupd v d (ROTR 64 n (Z.lxor (znth v d) (znth v a)))).
Proof.
  intros Hv Hn. destruct Hv as [Hw Hl].
  assert (is_w64 (Z.lxor (znth v d) (znth v a))) by (apply lxor_w64; by apply znth_w64).
  rewrite <- rotr64_ROTR by done. split; [done|]. apply zupd_ok; [done|].
  by apply rotr64_range.
Qed.

Lemma G_add v a x : v_ok v -> v_ok (zupd v a (w64 x)).
Proof. intros. apply zupd_ok; [done|apply w64_range]. Qed.

Lemma sigma_mod r : 0 <= r < 12 ->
  nth (Z.to_nat r) blake2b_sigma [] = nth (Z.to_nat (r mod 10)) blake2b_sigma [].
Proof.
  intros Hr. assert (forallb (fun r => bool_decide (nth (Z.to_nat r) blake2b_sigma []
    = nth (Z.to_nat (r mod 10)) blake2b_sigma [])) (map Z.of_nat (seq 0 12)) = true) as Hf
    by (vm_compute; reflexivity).
  rewrite forallb_forall in Hf. specialize (Hf r). apply bool_decide_eq_true in Hf; [done|].
  apply in_map_iff. exists (Z.to_nat r). split; [lia|]. apply in_seq. lia.
Qed.

(** Goes past the line that the code and the reference execute next, keeping
    that [v] is made of words. *)
Ltac add_line v Hv a x :=
  generalize (G_add v a x Hv); generalize (zupd v a (w64 x)); clear v Hv; intros v Hv.
Ltac rot_line v Hv d a n :=
  let E := fresh in let H := fresh in
  destruct (G_rot v d a n Hv ltac:(lia)) as [E H]; rewrite E; clear E; revert H;
  generalize (zupd v d (ROTR 64 n (Z.lxor (znth v d) (znth v a)))); clear v Hv; intros v Hv.

Lemma G_ok m r i a b c d v :
  v_ok v ->
  let s k := znth m (znth (nth (Z.to_nat r) blake2b_sigma []) k) in
  blake2b_G m r i a b c d v = rfc_G v a b c d (s (2 * i + 0)) (s (2 * i + 1)) /\
  v_ok (blake2b_G m r i a b c d v).
Proof.
  intros Hv. cbv zeta. unfold blake2b_G, rfc_G. cbv zeta.
  generalize (znth m (znth (nth (Z.to_nat r) blake2b_sigma []) (2 * i + 0))). intros x.
  generalize (znth m (znth (nth (Z.to_nat r) blake2b_sigma []) (2 * i + 1))). intros y.
  add_line v Hv a (znth v a + znth v b + x). rot_line v Hv d a 32.
  add_line v Hv c (znth v c + znth v d). rot_line v Hv b c 24.
  add_line v Hv a (znth v a + znth v b + y). rot_line v Hv d a 16.
  add_line v Hv c (znth v c + znth v d). rot_line v Hv b c 63.
  done.
Qed.

Lemma round_ok m r v :
  0 <= r < 12 -> v_ok v ->
  blake2b_round m r v = rfc_round m r v /\ v_ok (blake2b_round m r v).
Proof.
  intros Hr Hv. unfold rfc_round. rewrite <- (sigma_mod r Hr).
  unfold blake2b_round, for_range. cbn [seq fold_left].
  do 8 match goal with
  | H : v_ok ?w |- context [blake2b_G m r ?i ?a ?b ?c ?d ?w] =>
      let E := fresh in let W := fresh in
      destruct (G_ok m r i a b c d w H) as [E W]; cbv beta zeta in E;
      rewrite E in *; clear E H
  end.
  split; [reflexivity|done].
Qed.

Lemma rounds_ok m v :
  v_ok v ->
  for_range 12 (blake2b_round m) v = for_range 12 (rfc_round m) v /\
  v_ok (for_range 12 (blake2b_round m) v).
Proof.
  intros Hv. apply (for_range_ext_inv v_ok); [done|]. intros. by apply round_ok.
Qed.

Lemma zip_lxor_ok n l k :
  words_ok is_w64 n l -> words_ok is_w64 n k -> words_ok is_w64 n (zip_with Z.lxor l k).
Proof.
  intros [Hl Hn] [Hk Hm]. split; [|by rewrite length_zip_with, Hn, Hm, Nat.min_id].
  clear Hn Hm. revert k Hk. induction Hl as [|x l Hx _ IH]; intros [|y k] Hk;
    try apply Forall_nil_2. apply Forall_cons_1 in Hk as [??].
  apply Forall_cons_2; [by apply lxor_w64 | by apply IH].
Qed.

(** The offset and the finalisation words of the code, for a message of less
    than 2^64 bytes. *)
Definition f_words (final : bool) : Z * Z := (if final then UINT64_MAX else 0, 0).

Lemma IV_ok : Forall is_w64 blake2b_IV.
Proof. unfold is_w64. repeat apply Forall_cons_2; try apply Forall_nil_2; lia. Qed.

Lemma compress_rfc S t final blk :
  h_ok (b2_h S) -> 0 <= t < 2 ^ 64 -> b2_t S = (t, 0) -> b2_f S = f_words final ->
  b2_h (blake2b_compress blk S) = rfc_F (b2_h S) (load_words64 blk) t final /\
  h_ok (b2_h (blake2b_compress blk S)).
Proof.
  intros [Hh Hl] Ht Et Ef. destruct (list8_eq _ Hl) as (h0 & h1 & h2 & h3 & h4 & h5 & h6 & h7 & E).
  unfold blake2b_compress, rfc_F. cbn [b2_h b2_set_h]. rewrite Et, Ef. cbn [fst snd f_words].
  rewrite (Z.mod_small t), (Z.div_small t) by done. set (m := load_words64 blk).
  rewrite E in *. clear E.
  match goal with |- context [for_range 12 (blake2b_round m) ?v] => set (v0 := v) end.
  assert (v_ok v0) as Hv.
  { split; [|done]. apply Forall_app. split; [done|].
    repeat first [ apply Forall_cons_2 | apply Forall_nil_2 | apply lxor_w64
                 | apply (znth_w64 _ _ IV_ok) ]; unfold is_w64; [lia|lia| |lia].
    destruct final; unfold UINT64_MAX; lia. }
  destruct (rounds_ok m v0 Hv) as [Er Hr].
  match goal with |- context [for_range 12 (rfc_round m) ?v] => replace v with v0 end.
  2:{ unfold v0. destruct final; [reflexivity|].
      cbv -[Z.lxor]. reflexivity. }
  rewrite <- Er. clear Er. revert Hr. generalize (for_range 12 (blake2b_round m) v0).
  clear - Hh Hl. intros v [Hw Hn]. split; [reflexivity|].
  apply zip_lxor_ok; [apply zip_lxor_ok; [exact (conj Hh Hl)|]|].
  - split; [by apply Forall_take|]. unfold ztake. by rewrite length_take, Hn.
  - split; [by apply Forall_drop|]. unfold zdrop. by rewrite length_drop, Hn.
Qed.

#[local] Opaque blake2b_compress rfc_F.

Lemma compress_fields blk S :
  let S' := blake2b_compress blk S in
  b2_t S' = b2_t S /\ b2_f S' = b2_f S /\ b2_buf S' = b2_buf S /\
  b2_buflen S' = b2_buflen S /\ b2_outlen S' = b2_outlen S /\ b2_last_node S' = b2_last_node S.
Proof. cbv zeta. Transparent blake2b_compress. by unfold blake2b_compress. Qed.
#[local] Opaque blake2b_compress.

(** * Streaming *)

Section stream.
Context (h0 : list Z) (Hh0 : h_ok h0) (nn : Z).
Implicit Types (w m data : list Z) (S : blake2b_state).

(** The state after the first [k] blocks of [w]. *)
Definition chain (k : nat) w : list Z :=
  for_range k (fun i h => rfc_F h (rfc_block w i) (128 * (i + 1)) false) h0.

(** [absorbed S k w]: the first [k] blocks of [w] are compressed. *)
Record absorbed S (k : nat) w : Prop := {
  ab_h : b2_h S = chain k w;
  ab_hok : h_ok (b2_h S);
  ab_t : b2_t S = (128 * Z.of_nat k, 0);
  ab_f : b2_f S = (0, 0);
  ab_buf : zlen (b2_buf S) = 128;
  ab_outlen : b2_outlen S = nn;
  ab_node : b2_last_node S = 0;
}.

(** The context has absorbed [m]: all blocks but the last one are
    compressed, the last one is in the buffer. *)
Definition b2_repr S m : Prop :=
  absorbed S (rfc_full m) m /\
  b2_buflen S = zlen m - 128 * Z.of_nat (rfc_full m) /\
  ztake (b2_buflen S) (b2_buf S) = zdrop (128 * Z.of_nat (rfc_full m)) m.

Lemma full_spec m :
  (m = [] /\ rfc_full m = 0%nat) \/
  1 <= zlen m - 128 * Z.of_nat (rfc_full m) <= 128.
Proof.
  unfold rfc_full, zlen. destruct m as [|x m]; [by left|right]. cbn [length].
  rewrite Nat2Z.inj_div. change (Z.of_nat 128) with 128. div_mod_lia.
Qed.

Lemma full_unique m k :
  1 <= zlen m - 128 * Z.of_nat k <= 128 -> rfc_full m = k.
Proof. intros H. destruct (full_spec m) as [[-> _]|H']; unfold zlen in *; simpl in *; lia. Qed.

(** The first blocks do not depend on what follows. *)
Lemma block_prefix m d i :
  0 <= i -> 128 * (i + 1) <= zlen m -> rfc_block (m ++ d) i = rfc_block m i.
Proof.
  intros Hi Hm. unfold rfc_block. do 2 f_equal. unfold ztake, zdrop, zlen in *.
  rewrite drop_app_le by lia. rewrite take_app_le; [done|]. rewrite length_drop. lia.
Qed.

Lemma chain_prefix k m d :
  128 * Z.of_nat k <= zlen m -> chain k (m ++ d) = chain k m.
Proof. intros Hk. apply for_range_ext. intros i h Hi. by rewrite block_prefix by lia. Qed.

Lemma absorbed_prefix S k m d :
  128 * Z.of_nat k <= zlen m -> absorbed S k m -> absorbed S k (m ++ d).
Proof. intros Hk []. split; rewrite ?chain_prefix; done. Qed.

(** Compressing block [k]. *)
Lemma absorb_block S k w blk :
  absorbed S k w -> 128 * (Z.of_nat k + 1) < 2 ^ 64 ->
  load_words64 blk = rfc_block w (Z.of_nat k) ->
  let S' := blake2b_compress blk (blake2b_increment_counter 128 S) in
  absorbed S' (k + 1) w /\ b2_buf S' = b2_buf S /\ b2_buflen S' = b2_buflen S.
Proof.
  intros [Hh Hok Ht Hf Hb Ho Hn] Hk Hblk. cbv zeta.
  destruct (compress_fields blk (blake2b_increment_counter 128 S)) as (C1 & C2 & C3 & C4 & C5 & C6).
  change (b2_f (blake2b_increment_counter 128 S)) with (b2_f S) in *.
  change (b2_buf (blake2b_increment_counter 128 S)) with (b2_buf S) in *.
  change (b2_buflen (blake2b_increment_counter 128 S)) with (b2_buflen S) in *.
  change (b2_outlen (blake2b_increment_counter 128 S)) with (b2_outlen S) in *.
  change (b2_last_node (blake2b_increment_counter 128 S)) with (b2_last_node S) in *.
  assert (b2_t (blake2b_increment_counter 128 S) = (128 * (Z.of_nat k + 1), 0)) as Et.
  { unfold blake2b_increment_counter. rewrite Ht. cbn [fst snd b2_t b2_set_t]. unfold w64.
    rewrite Z.mod_small by lia. destruct (Z.ltb_spec (128 * Z.of_nat k + 128) 128); [lia|].
    f_equal. lia. }
  destruct (compress_rfc (blake2b_increment_counter 128 S) (128 * (Z.of_nat k + 1)) false blk)
    as [E W]; [exact Hok|lia|exact Et|exact Hf|].
  split; [|done]. split; try congruence.
  - rewrite E. replace (k + 1)%nat with (Datatypes.S k) by lia. unfold chain.
    rewrite for_range_S. change (b2_h (blake2b_increment_counter 128 S)) with (b2_h S).
    rewrite Hblk, Hh. done.
  - rewrite C1, Et. f_equal. lia.
Qed.

Lemma block_take w k blk rest :
  zdrop (128 * k) w = blk ++ rest -> zlen blk = 128 -> load_words64 blk = rfc_block w k.
Proof.
  intros E Hl. unfold rfc_block, load_words64. rewrite E. by rewrite ztake_app_l.
Qed.

(** The loop leaves between 1 and 128 bytes. *)
Lemma blocks_ok fuel S k w inp :
  absorbed S k w -> zdrop (128 * Z.of_nat k) w = inp -> 128 * Z.of_nat k <= zlen w ->
  1 <= zlen inp < 4294967296 -> (length inp < fuel)%nat -> zlen w < 2 ^ 64 ->
  exists S' k' inp',
    blake2b_blocks fuel inp (zlen inp) S = Ret (inp', zlen inp') S' /\
    absorbed S' k' w /\ zdrop (128 * Z.of_nat k') w = inp' /\ 1 <= zlen inp' <= 128 /\
    128 * Z.of_nat k' <= zlen w /\ b2_buf S' = b2_buf S /\ b2_buflen S' = b2_buflen S.
Proof.
  revert S k inp. induction fuel as [|fuel IH]; intros S k inp Hab Hd Hk Hi Hfuel Hw; [lia|].
  assert (zlen inp = zlen w - 128 * Z.of_nat k) as Hl by (rewrite <- Hd; apply zlen_zdrop; lia).
  cbn [blake2b_blocks]. unfold BLAKE2B_BLOCKBYTES. destruct (Z.ltb_spec 128 (zlen inp)).
  - unfold mbind at 1, mmodify at 1.
    rewrite (mlift_some _ _ _ (ztake 128 inp)) by (rewrite read_at_ok, zdrop_0 by lia; done).
    unfold mbind at 1, mmodify at 1.
    destruct (absorb_block S k w (ztake 128 inp)) as (Hab' & Hbuf & Hlen); [done|lia| |].
    { apply (block_take w _ _ (zdrop 128 inp)); [by rewrite ztake_zdrop|].
      by rewrite zlen_ztake by lia. }
    set (S1 := blake2b_compress _ _) in *.
    replace (w32 (zlen inp - 128)) with (zlen (zdrop 128 inp))
      by (rewrite zlen_zdrop by lia; unfold w32; rewrite Z.mod_small; lia).
    assert (zlen (zdrop 128 inp) = zlen inp - 128) by (apply zlen_zdrop; lia).
    destruct (IH S1 (k + 1)%nat (zdrop 128 inp)) as (S' & k' & inp' & R1 & R2 & R3 & R4 & R5 & R6 & R7);
      try done; try lia.
    + rewrite <- Hd, zdrop_zdrop by lia. f_equal. lia.
    + unfold zlen in *. lia.
    + exists S', k', inp'. rewrite R6, R7. done.
  - exists S, k, inp. split; [done|]. split; [done|]. split; [done|]. split; [lia|].
    split; [lia|]. done.
Qed.

Lemma b2_copy_ok off src S :
  0 <= off -> off + zlen src <= zlen (b2_buf S) ->
  exists S', b2_copy off src S = Ret tt S' /\
    S' = b2_set_buf (ztake off (b2_buf S) ++ src ++ zdrop (off + zlen src) (b2_buf S)) S.
Proof.
  intros. unfold b2_copy, mbind, mgets, mlift, mmodify. rewrite write_at_ok by lia.
  by eexists.
Qed.

(** What follows the loop: the rest is copied in the buffer. *)
Lemma b2_rest_ok S k w off rest pre :
  absorbed S k w -> b2_buflen S = off -> ztake off (b2_buf S) = pre ->
  zdrop (128 * Z.of_nat k) w = pre ++ rest -> zlen pre = off ->
  1 <= off + zlen rest <= 128 -> 128 * Z.of_nat k <= zlen w ->
  exists S', (let! r := mlift (read_at rest 0 (zlen rest)) in
     let! off := mgets b2_buflen in
     do! b2_copy off r in
     do! mmodify (fun S => b2_set_buflen (w32 (b2_buflen S + zlen rest)) S) in
     mret 0) S = Ret 0 S' /\ b2_repr S' w.
Proof.
  intros Hab Hoff Hpre Hd Hp Hlen Hk. pose proof (zlen_nonneg rest). pose proof (zlen_nonneg pre).
  rewrite (mlift_some _ _ _ rest) by apply read_at_all.
  unfold mbind at 1, mgets at 1. rewrite Hoff. destruct Hab.
  destruct (b2_copy_ok off rest S) as (S1 & E1 & HS1); [lia|lia|].
  rewrite (mbind_ret _ _ _ _ _ E1). unfold mbind, mmodify, mret. eexists. split; [reflexivity|].
  assert (zlen w - 128 * Z.of_nat k = off + zlen rest) as Hl.
  { rewrite <- zlen_zdrop, Hd, zlen_app by lia. lia. }
  assert (rfc_full w = k) as Hfull by (apply full_unique; lia).
  unfold b2_repr. rewrite Hfull. subst S1. cbn [b2_buflen b2_set_buflen b2_buf b2_set_buf].
  rewrite Hoff. unfold w32. rewrite Z.mod_small by lia.
  split; [split; try done|split; [lia|]].
  - cbn. rewrite !zlen_app, zlen_ztake, zlen_zdrop by lia. lia.
  - rewrite Hpre, app_assoc, Hd. apply ztake_app_l. rewrite zlen_app. lia.
Qed.

Lemma b2_update_ok S m data :
  b2_repr S m -> zlen (m ++ data) < 2 ^ 64 -> zlen data < 4294967296 ->
  exists S', spec_blake2b_update data (zlen data) S = Ret 0 S' /\ b2_repr S' (m ++ data).
Proof.
  intros (Hab & Hlen & Hpend) Hw Hd. pose proof (zlen_nonneg data). pose proof (zlen_nonneg m).
  unfold spec_blake2b_update. destruct (Z.ltb_spec 0 (zlen data)) as [Hpos|Hz].
  2:{ exists S. rewrite (zlen_0_nil data), app_nil_r by lia. done. }
  assert (0 <= b2_buflen S <= 128) as Hb.
  { rewrite Hlen. destruct (full_spec m) as [[-> ->]|]; [done|lia]. }
  set (k := rfc_full m) in *. set (pre := zdrop (128 * Z.of_nat k) m) in *.
  assert (zlen pre = b2_buflen S) as Hpre by (unfold pre; rewrite zlen_zdrop; lia).
  assert (zdrop (128 * Z.of_nat k) (m ++ data) = pre ++ data) as Hdrop.
  { unfold pre, zdrop. apply drop_app_le. unfold zlen in *. lia. }
  assert (absorbed S k (m ++ data)) as Hab' by (apply absorbed_prefix; [lia|done]).
  unfold mbind at 1, mgets at 1. unfold BLAKE2B_BLOCKBYTES, w32. rewrite Z.mod_small by lia.
  destruct (Z.ltb_spec (128 - b2_buflen S) (zlen data)) as [Hgt|Hle].
  - (* the buffer is filled and compressed *)
    set (fill := 128 - b2_buflen S) in *. unfold mbind at 1. unfold mbind at 1, mmodify at 1.
    rewrite (mlift_some _ _ _ (ztake fill data)) by (rewrite read_at_ok, zdrop_0 by lia; done).
    set (S1 := b2_set_buflen 0 S). assert (zlen (ztake fill data) = fill) as Hc by (apply zlen_ztake; lia).
    destruct (b2_copy_ok (b2_buflen S) (ztake fill data) S1) as (S2 & E2 & HS2);
      [lia | change (b2_buf S1) with (b2_buf S); rewrite (ab_buf _ _ _ Hab); lia |].
    rewrite (mbind_ret _ _ _ _ _ E2). unfold mbind at 1, mmodify at 1.
    unfold mbind at 1, mmodify at 1.
    assert (b2_buf S2 = pre ++ ztake fill data) as Hbuf2.
    { rewrite HS2. cbn [b2_buf b2_set_buf]. change (b2_buf S1) with (b2_buf S).
      rewrite Hpend, (zdrop_all _ (b2_buf S)) by (rewrite (ab_buf _ _ _ Hab); lia).
      by rewrite app_nil_r. }
    assert (absorbed S2 k (m ++ data)) as Hab2.
    { destruct Hab'. rewrite HS2. split; try done. rewrite <- HS2, Hbuf2, zlen_app. lia. }
    destruct (absorb_block S2 k (m ++ data) (pre ++ ztake fill data)) as (Hab3 & Hbuf3 & Hl3);
      [done | rewrite zlen_app in Hw; lia | |].
    { apply (block_take _ _ _ (zdrop fill data)); [|rewrite zlen_app; lia].
      by rewrite Hdrop, <- app_assoc, ztake_zdrop. }
    change (b2_buf (blake2b_increment_counter 128 S2)) with (b2_buf S2). rewrite Hbuf2.
    set (S3 := blake2b_compress _ _) in *.
    rewrite (Z.mod_small (zlen data - fill)) by lia.
    rewrite <- (zlen_zdrop fill data) by lia.
    assert (zlen (zdrop fill data) = zlen data - fill) by (apply zlen_zdrop; lia).
    destruct (blocks_ok (Datatypes.S (Z.to_nat (zlen data))) S3 (k + 1) (m ++ data) (zdrop fill data))
      as (S4 & k' & inp' & R1 & R2 & R3 & R4 & R5 & R6 & R7); try done; try lia.
    + replace (128 * Z.of_nat (k + 1)) with (128 * Z.of_nat k + 128) by lia.
      rewrite <- zdrop_zdrop, Hdrop by lia.
      rewrite <- (ztake_zdrop fill data) at 1. rewrite app_assoc. apply zdrop_app_l.
      rewrite zlen_app. lia.
    + rewrite zlen_app. lia.
    + unfold zlen in *. lia.
    + rewrite R1. apply (b2_rest_ok S4 k' (m ++ data) 0 inp' []); try done; try lia.
      rewrite R7, Hl3, HS2. done.
  - apply (b2_rest_ok S k (m ++ data) (b2_buflen S) data pre); try done; try lia.
    rewrite zlen_app. lia.
Qed.

(** ** The final function *)

Lemma set_last_eq S t :
  b2_t S = (t, 0) -> b2_f S = (0, 0) -> b2_last_node S = 0 ->
  blake2b_set_lastblock (blake2b_increment_counter (b2_buflen S) S)
  = mk_blake2b_state (b2_h S)
      (w64 (t + b2_buflen S), w64 (0 + Z.b2z (w64 (t + b2_buflen S) <? b2_buflen S)))
      (f_words true) (b2_buf S) (b2_buflen S) (b2_outlen S) 0.
Proof. destruct S as [h t' f bf bl ol ln]. cbn. by intros -> -> ->. Qed.

Lemma b2_final_ok S m out outlen :
  b2_repr S m -> bytes_ok m -> zlen m < 2 ^ 64 -> 0 <= nn <= 64 ->
  nn <= outlen -> nn <= zlen out ->
  exists S', spec_blake2b_final (Some out) outlen S
    = Ret (0, Some (rfc_blake2b h0 nn m ++ zdrop nn out)) S'.
Proof.
  intros (Hab & Hlen & Hpend) Hm Hw Hnn Hol Hout. pose proof (zlen_nonneg m).
  assert (0 <= b2_buflen S <= 128) as Hb.
  { rewrite Hlen. destruct (full_spec m) as [[-> ->]|]; [done|lia]. }
  destruct Hab as [Hh Hok Ht Hf Hbuf Ho Hn]. set (k := rfc_full m) in *.
  unfold spec_blake2b_final. unfold mbind at 1, mgets at 1. rewrite Ho.
  rewrite bool_decide_eq_true_2 by done. destruct (Z.ltb_spec outlen nn); [lia|]. cbn [andb].
  unfold mbind at 1, mgets at 1, blake2b_is_lastblock. rewrite Hf. cbn [fst Z.eqb negb].
  unfold mbind at 1, mmodify at 1, mbind at 1, mmodify at 1, mbind at 1, mgets at 1,
    mbind at 1, mgets at 1.
  set (S1 := blake2b_set_lastblock (blake2b_increment_counter (b2_buflen S) S)).
  assert (S1 = mk_blake2b_state (b2_h S) (zlen m, 0) (f_words true) (b2_buf S) (b2_buflen S) nn 0)
    as HS1.
  { unfold S1. rewrite (set_last_eq S (128 * Z.of_nat k)), Ho by done.
    replace (128 * Z.of_nat k + b2_buflen S) with (zlen m) by lia.
    unfold w64. rewrite (Z.mod_small (zlen m)) by lia.
    destruct (Z.ltb_spec (zlen m) (b2_buflen S)); [lia|done]. }
  rewrite HS1. cbn [b2_buf b2_buflen]. clear S1 HS1.
  set (padding := zeros (128 - b2_buflen S)).
  set (last := zdrop (128 * Z.of_nat k) m ++ padding).
  rewrite (mlift_some _ _ _ last) by (unfold BLAKE2B_BLOCKBYTES; rewrite memset_at_end by lia;
    by rewrite Hpend).
  unfold mbind at 1, mmodify at 1, mbind at 1, mmodify at 1, mbind at 1, mgets at 1.
  set (S2 := b2_set_buf last _). change (b2_buf S2) with last.
  destruct (compress_rfc S2 (zlen m) true last) as [E W]; [exact Hok|lia|done|done|].
  destruct (compress_fields last S2) as (_ & _ & Cb & _ & _ & _).
  set (S3 := blake2b_compress last S2) in *. clearbody S3.
  set (buffer := store_words64 (b2_h S3)).
  assert (zlen buffer = 64) as Hz.
  { unfold buffer, zlen. rewrite store64_length. by rewrite (proj2 W). }
  assert (zlen last = 128) as Hlast.
  { unfold last, padding. rewrite zlen_app, zlen_zeros, zlen_zdrop by lia. lia. }
  destruct (copy_prefix buffer out nn) as [R1 R2]; [lia|lia|].
  destruct (copy_prefix buffer last nn) as [_ R3]; [lia|lia|].
  rewrite (mlift_some _ _ _ _ R1). unfold mbind at 1, b2_copy, mbind at 1, mgets at 1.
  assert (b2_buf S3 = last) as -> by (rewrite Cb; done).
  rewrite (mlift_some _ _ _ _ R3). unfold mmodify at 1. rewrite (mlift_some _ _ _ _ R2).
  eexists. unfold mret. do 4 f_equal. unfold rfc_blake2b. fold k. f_equal.
  unfold buffer, store_words64. do 2 f_equal. rewrite E. change (b2_h S2) with (b2_h S).
  rewrite Hh. unfold chain. f_equal. unfold rfc_block, load_words64. do 2 f_equal.
  replace (128 * (Z.of_nat k + 1) - zlen m) with (128 - b2_buflen S) by lia.
  fold padding. assert (zdrop (128 * Z.of_nat k) (m ++ padding) = last) as ->.
  { unfold last, zdrop. apply drop_app_le. unfold zlen in *. lia. }
  symmetry. apply ztake_all. lia.
Qed.

Lemma b2_fresh_repr :
  b2_repr (mk_blake2b_state h0 (0, 0) (0, 0) (zeros 128) 0 nn 0) [].
Proof. split; [|done]. by split. Qed.
End stream.

(** * The generic context *)

Definition bk_repr (h0 : list Z) (nn : Z) (c : blake2b_ctx) (m : list Z) : Prop :=
  bk_output_size c = nn /\ b2_repr h0 nn (bk_ctx c) m.

Lemma zoom_ret {S T A} (get : T -> S) set (m : M S A) t a s :
  m (get t) = Ret a s -> zoom get set m t = Ret a (set s t).
Proof. unfold zoom. by intros ->. Qed.

Lemma bk_feed_ok h0 nn parts c :
  h_ok h0 -> bk_repr h0 nn c [] -> zlen (concat parts) < 2 ^ 64 ->
  Forall (fun p => zlen p < 4294967296) parts ->
  exists c', feed_all spec_cx_blake2b_update parts c = Ret 1 c' /\
    bk_repr h0 nn c' (concat parts).
Proof.
  intros Hh Hc HN HQ.
  apply (feed_all_ok spec_cx_blake2b_update (bk_repr h0 nn) (fun p => zlen p < 4294967296)
    (2 ^ 64)) with (m := []); [|done|done|done].
  intros c1 m p [Ho Hr] Hp Hl. destruct (b2_update_ok h0 nn _ m p Hr Hl Hp) as (S' & E & Hr').
  exists (bk_set_ctx S' c1). split; [|done].
  unfold spec_cx_blake2b_update. rewrite bool_decide_eq_false_2 by done. cbn [andb default].
  rewrite (mbind_ret _ _ _ _ _ (zoom_ret bk_ctx bk_set_ctx _ _ _ _ E)). done.
Qed.

(** The parameter block, as words. *)
Lemma param_words nn salt personal :
  1 <= nn <= 64 -> length salt = 16%nat -> length personal = 16%nat ->
  load_words64 (blake2b_param nn 0 salt personal)
  = [Z.lxor 0x01010000 nn; 0; 0; 0] ++ load_words64 salt ++ load_words64 personal.
Proof.
  intros Hn Hs Hp. unfold load_words64, blake2b_param.
  change ([w8 nn; w8 0; 1; 1] ++ le_split 4 0 ++ le_split 4 0 ++ le_split 4 0 ++ [0; 0] ++
    zeros 14 ++ salt ++ personal)
    with (([w8 nn; 0; 1; 1; 0; 0; 0; 0] ++ zeros 24) ++ salt ++ personal).
  rewrite (chunks_app 4), (chunks_app 2 8 salt), !map_app by (done || lia).
  f_equal. change (map le_combine (chunks 8 ([w8 nn; 0; 1; 1; 0; 0; 0; 0] ++ zeros 24)))
    with [le_combine [w8 nn; 0; 1; 1; 0; 0; 0; 0]; 0; 0; 0]. do 2 f_equal.
  assert (forallb (fun n => le_combine [w8 n; 0; 1; 1; 0; 0; 0; 0] =? Z.lxor 0x01010000 n)
    (map Z.of_nat (seq 1 64)) = true) as Hf by (vm_compute; reflexivity).
  rewrite forallb_forall in Hf. apply Z.eqb_eq, Hf. apply in_map_iff.
  exists (Z.to_nat nn). split; [lia|]. apply in_seq. lia.
Qed.

Lemma param_field_ok src n :
  0 <= n <= 16 -> n <= zlen src -> bytes_ok src ->
  exists f, param_field (Some src) n = Some f /\ f = ztake n src ++ zeros (16 - n) /\
    length f = 16%nat /\ bytes_ok f.
Proof.
  intros Hn Hs Hb. destruct (copy_prefix src (zeros 16) n) as [R1 R2]; [lia| |].
  { rewrite zlen_zeros; lia. }
  unfold param_field. rewrite R1, R2. eexists. split; [reflexivity|].
  assert (zdrop n (zeros 16) = zeros (16 - n)) as ->.
  { unfold zdrop, zeros. rewrite drop_replicate. f_equal. lia. }
  split; [done|]. split.
  - assert (zlen (ztake n src ++ zeros (16 - n)) = 16); [|unfold zlen in *; lia].
    rewrite zlen_app, zlen_ztake, zlen_zeros by lia. lia.
  - apply Forall_app. split; [by apply Forall_take|]. apply Forall_replicate. unfold is_byte. lia.
Qed.

(** * Properties *)

(** The salt and the personalisation of a call, padded with zeros. *)
Definition field16 (src : option (list Z)) (n : Z) : list Z :=
  match src with
  | Some s => ztake n s ++ zeros (16 - n)
  | None => zeros 16
  end.

Lemma field16_ok src n :
  0 <= n <= 16 -> (src = None -> n = 0) ->
  (forall s, src = Some s -> n <= zlen s /\ bytes_ok s) ->
  param_field src n = Some (field16 src n) /\ length (field16 src n) = 16%nat /\
  bytes_ok (field16 src n).
Proof.
  intros Hn Hnone Hsome. destruct src as [s|].
  - destruct (Hsome s eq_refl) as [Hs Hb].
    destruct (param_field_ok s n Hn Hs Hb) as (f & E & -> & Hl & Hf). done.
  - split; [done|]. split; [done|]. apply Forall_replicate. unfold is_byte. lia.
Qed.

(** C27: a BLAKE2b context initialised for a digest of [size]
    bits (a multiple of 8 from 8 to 512), with or without a salt and a
    personalisation string of at most 16 bytes, updated with any sequence of
    buffers of bytes and finalised gives the BLAKE2b digest of RFC 7693 of
    the concatenation of the buffers, with the salt and the personalisation
    in the parameter block, in the first [size / 8] bytes of the output
    buffer, and leaves the rest of it unchanged. *)
Theorem blake2b_streaming (size : Z) (salt perso : option (list Z)) (salt_len perso_len : Z)
    (parts : list (list Z)) (digest : list Z) (st : blake2b_ctx) :
  8 <= size <= 512 -> size mod 8 = 0 ->
  0 <= salt_len <= 16 -> (salt = None -> salt_len = 0) ->
  (forall s, salt = Some s -> salt_len <= zlen s /\ bytes_ok s) ->
  0 <= perso_len <= 16 -> (perso = None -> perso_len = 0) ->
  (forall s, perso = Some s -> perso_len <= zlen s /\ bytes_ok s) ->
  Forall bytes_ok parts -> Forall (fun p => zlen p < 4294967296) parts ->
  zlen (concat parts) < 2 ^ 64 -> size / 8 <= zlen digest ->
  exists c, (do! cx_blake2b_init2 size salt salt_len perso perso_len in
      do! feed_all spec_cx_blake2b_update parts in
      spec_cx_blake2b_final (Some digest)) st
    = Ret (1, Some (rfc_blake2b (rfc_h0 (size / 8) (field16 salt salt_len) (field16 perso perso_len))
                      (size / 8) (concat parts) ++ zdrop (size / 8) digest)) c.
Proof.
  intros Hs Hs8 Hl1 Hn1 Hb1 Hl2 Hn2 Hb2 Hb Hp HN Hd.
  destruct (field16_ok salt salt_len Hl1 Hn1 Hb1) as (P1 & L1 & B1).
  destruct (field16_ok perso perso_len Hl2 Hn2 Hb2) as (P2 & L2 & B2).
  set (nn := size / 8) in *. assert (1 <= nn <= 64) as Hnn by (unfold nn; div_mod_lia).
  set (h0 := rfc_h0 _ _ _).
  assert (h_ok h0) as Hh0.
  { apply zip_lxor_ok; [split; [apply IV_ok|done]|]. split.
    - apply Forall_app. split.
      + apply Forall_cons_2; [apply lxor_w64; unfold is_w64; lia|].
        repeat (apply Forall_cons_2; [apply is_w64_0|]). apply Forall_nil_2.
      + apply Forall_app. by split; apply load_words64_ok.
    - rewrite !length_app. unfold load_words64. by rewrite !length_map, !chunks_length, L1, L2. }
  assert (exists c0, cx_blake2b_init2 size salt salt_len perso perso_len st = Ret (md_code CX_BLAKE2B) c0
    /\ bk_repr h0 nn c0 []) as (c0 & E0 & R0).
  { eexists. split.
    - unfold cx_blake2b_init2.
      assert (bool_decide (salt = None) && negb (salt_len =? 0) = false) as ->.
      { case_bool_decide; [|done]. rewrite Hn1 by done. done. }
      assert (bool_decide (perso = None) && negb (perso_len =? 0) = false) as ->.
      { case_bool_decide; [|done]. rewrite Hn2 by done. done. }
      destruct (Z.ltb_spec 16 salt_len); [lia|]. destruct (Z.ltb_spec 16 perso_len); [lia|].
      destruct (Z.eqb_spec (size mod 8) 0); [|lia]. destruct (Z.ltb_spec size 8); [lia|].
      destruct (Z.ltb_spec 512 size); [lia|]. cbn [orb negb]. fold nn.
      unfold mbind at 1, mmodify at 1.
      unfold zoom, mbind at 1, spec_blake2b_init.
      destruct (Z.eqb_spec nn 0); [lia|]. unfold BLAKE2B_OUTBYTES.
      destruct (Z.ltb_spec 64 nn); [lia|]. cbn [orb].
      rewrite P1, P2. reflexivity.
    - split; [done|]. cbn [bk_ctx bk_set_ctx].
      unfold spec_blake2b_init_param. rewrite param_words by done. fold (rfc_h0 nn (field16 salt salt_len) (field16 perso perso_len)).
      replace (znth (blake2b_param nn 0 (field16 salt salt_len) (field16 perso perso_len)) 0)
        with nn by (symmetry; apply Z.mod_small; lia).
      by apply b2_fresh_repr. }
  rewrite (mbind_ret _ _ _ _ _ E0).
  destruct (bk_feed_ok h0 nn parts c0 Hh0 R0 HN Hp) as (c1 & E1 & Ho & R1).
  rewrite (mbind_ret _ _ _ _ _ E1). unfold spec_cx_blake2b_final.
  unfold mbind at 1, mgets at 1. rewrite Ho.
  destruct (b2_final_ok h0 nn (bk_ctx c1) (concat parts) digest nn R1) as (S' & E2);
    [by apply Forall_concat|done|lia|lia|done|].
  rewrite (mbind_ret _ _ _ _ _ (zoom_ret bk_ctx bk_set_ctx _ _ _ _ E2)). by eexists.
Qed.

Lemma blake2b_streaming_witness :
  ztake 8 (rfc_blake2b (rfc_h0 64 (zeros 16) (zeros 16)) 64 [0x61; 0x62; 0x63])
    = [0xBA; 0x80; 0xA5; 0x3F; 0x98; 0x1C; 0x4D; 0x0D] /\
  exists c, (do! cx_blake2b_init2 256 (Some [1; 2]) 2 None 0 in
      do! feed_all spec_cx_blake2b_update [[0x61]; []; [0x62; 0x63]] in
      spec_cx_blake2b_final (Some (zeros 40))) (mk_blake2b_ctx CX_NONE 0 0 b2_zero)
    = Ret (1, Some (rfc_blake2b (rfc_h0 (256 / 8) (field16 (Some [1; 2]) 2) (field16 None 0))
                      (256 / 8) (concat [[0x61]; []; [0x62; 0x63]])
                    ++ zdrop (256 / 8) (zeros 40))) c.
Proof.
  split; [vm_compute; reflexivity|].
  refine (blake2b_streaming 256 (Some [1; 2]) None 2 0 [[0x61]; []; [0x62; 0x63]] (zeros 40)
    (mk_blake2b_ctx CX_NONE 0 0 b2_zero) _ _ _ _ _ _ _ _ _ _ _ _);
    try lia; try done.
  - intros s [= <-]. split; [vm_compute; discriminate|].
    unfold bytes_ok, is_byte. repeat constructor; lia.
  - unfold bytes_ok, is_byte. repeat constructor; lia.
  - repeat constructor.
Defined.

(** On eight 64-bit words of state, a block, an offset below
    2^64 and the finalisation words the code uses, the compression function,
    which works in the scratch arrays with in-place additions and rotations,
    is the function F of RFC 7693. *)
Theorem blake2b_compress_refines (S : blake2b_state) (t : Z) (final : bool) (blk : list Z) :
  Forall is_w64 (b2_h S) -> length (b2_h S) = 8%nat ->
  0 <= t < 2 ^ 64 -> b2_t S = (t, 0) -> b2_f S = (if final then UINT64_MAX else 0, 0) ->
  b2_h (blake2b_compress blk S) = rfc_F (b2_h S) (load_words64 blk) t final.
Proof.
  intros Hh Hl Ht Et Ef. exact (proj1 (compress_rfc S t final blk (conj Hh Hl) Ht Et Ef)).
Qed.

Lemma blake2b_compress_refines_witness :
  let S := mk_blake2b_state blake2b_IV (3, 0) (UINT64_MAX, 0) (zeros 128) 3 64 0 in
  b2_h (blake2b_compress (zeros 128) S) = rfc_F blake2b_IV (zeros 16) 3 true.
Proof.
  refine (blake2b_compress_refines
    (mk_blake2b_state blake2b_IV (3, 0) (UINT64_MAX, 0) (zeros 128) 3 64 0) 3 true (zeros 128)
    IV_ok eq_refl _ eq_refl eq_refl). lia.
Defined.

(** After a successful final call the context is marked, and
    any further final call, whatever the output size, returns 0 and changes
    neither the context nor the output. *)
Theorem blake2b_final_once (c c' : blake2b_ctx) (d : list Z) (d' out : option (list Z)) :
  spec_cx_blake2b_final (Some d) c = Ret (1, d') c' ->
  spec_cx_blake2b_final out c' = Ret (0, out) c'.
Proof.
  intros H. assert (blake2b_is_lastblock (bk_ctx c') = true) as Hlast.
  { revert H. unfold spec_cx_blake2b_final, spec_blake2b_final, b2_copy, zoom, mbind, mgets, mret,
      mlift, mmodify. repeat case_match; intros; simplify_eq; try done. }
  destruct c' as [a n o S']. unfold spec_cx_blake2b_final, spec_blake2b_final.
  cbn [bk_ctx] in Hlast.
  unfold zoom, mbind, mgets, mret. cbn [bk_output_size bk_ctx].
  destruct (_ && _); [done|]. by rewrite Hlast.
Qed.

Lemma blake2b_final_once_witness :
  exists c' d',
    spec_cx_blake2b_final (Some (zeros 64)) (mk_blake2b_ctx CX_BLAKE2B 0 64 spec_blake2b_init0)
      = Ret (1, d') c' /\
    spec_cx_blake2b_final (Some (zeros 64)) c' = Ret (0, Some (zeros 64)) c'.
Proof.
  eexists _, _. split; [vm_compute; reflexivity|].
  eapply (blake2b_final_once (mk_blake2b_ctx CX_BLAKE2B 0 64 spec_blake2b_init0) _ (zeros 64)).
  vm_compute. reflexivity.
Defined.
