(* ===== verification/CxHash.v ===== *)
(** The generic hash interface: [src/bolos/cx_hash.c], and the context checks
    of [cx_scc.c] that its clients use. The dispatch over the algorithms, the
    interface a streaming hash offers to its clients and its instances. *)

From S2P Require Import Prelude CxUtils BlockStream HashCtx Sha2Ref.
From S2P Require Import CxSha256 CxSha512 CxRipemd160 CxSha3 CxBlake2b.

(** * The union of the contexts *)

(** [cx_hash_ctx]: the member that was written last. The header is common to
    all members. Reading the union through another member is not modelled:
    it is a [Fault]. *)
Inductive cx_hash_ctx :=
| U_sha256 (c : md_ctx)
| U_sha512 (c : md_ctx)
| U_ripemd160 (c : md_ctx)
| U_sha3 (c : sha3_ctx)
| U_blake2b (c : blake2b_ctx).

Definition header_algo (u : cx_hash_ctx) : cx_md_t :=
  match u with
  | U_sha256 c | U_sha512 c | U_ripemd160 c => algo c
  | U_sha3 c => s3_algo c
  | U_blake2b c => bk_algo c
  end.

Definition md_set_algo (a : cx_md_t) (c : md_ctx) : md_ctx :=
  mk_md_ctx a (counter c) (blen c) (block c) (acc c).

Definition set_header_algo (a : cx_md_t) (u : cx_hash_ctx) : cx_hash_ctx :=
  match u with
  | U_sha256 c => U_sha256 (md_set_algo a c)
  | U_sha512 c => U_sha512 (md_set_algo a c)
  | U_ripemd160 c => U_ripemd160 (md_set_algo a c)
  | U_sha3 c => U_sha3 (s3_set_algo a c)
  | U_blake2b c =>
      U_blake2b (mk_blake2b_ctx a (bk_counter c) (bk_output_size c) (bk_ctx c))
  end.

(** The members as parts of the union. *)
Record member (C : Type) := mk_member {
  put : C -> cx_hash_ctx;
  get : cx_hash_ctx -> option C;
  blank : C;
}.
Arguments mk_member {C}.
Arguments put {C}.
Arguments get {C}.
Arguments blank {C}.

Definition blank_md : md_ctx := mk_md_ctx CX_NONE 0 0 [] [].
Definition m_sha256 : member md_ctx :=
  mk_member U_sha256 (fun u => if u is U_sha256 c then Some c else None) blank_md.
Definition m_sha512 : member md_ctx :=
  mk_member U_sha512 (fun u => if u is U_sha512 c then Some c else None) blank_md.
Definition m_ripemd160 : member md_ctx :=
  mk_member U_ripemd160 (fun u => if u is U_ripemd160 c then Some c else None) blank_md.
Definition m_sha3 : member sha3_ctx :=
  mk_member U_sha3 (fun u => if u is U_sha3 c then Some c else None)
    (mk_sha3_ctx CX_NONE 0 0 0 0 [] []).
Definition m_blake2b : member blake2b_ctx :=
  mk_member U_blake2b (fun u => if u is U_blake2b c then Some c else None)
    (mk_blake2b_ctx CX_NONE 0 0 b2_zero).

(** Runs an operation on a member that the union holds. *)
Definition on {C A} (k : member C) (m : M C A) : M cx_hash_ctx A := fun u =>
  match get k u with
  | Some c =>
      match m c with
      | Ret a c' => Ret a (put k c')
      | Throw e c' => Throw e (put k c')
      | Fault => Fault
      end
  | None => Fault
  end.

(** Runs an initialisation, which writes the whole member whatever the union
    holds; it throws before it writes. *)
Definition init_as {C A} (k : member C) (m : M C A) : M cx_hash_ctx A := fun u =>
  match m (default (blank k) (get k u)) with
  | Ret a c' => Ret a (put k c')
  | Throw e c' => Throw e (match get k u with Some _ => put k c' | None => u end)
  | Fault => Fault
  end.

Definition test {C} (k : member C) (f : C -> bool) : M cx_hash_ctx bool := on k (mgets f).

(** * Algorithm descriptions *)

Record cx_hash_info_t := mk_info {
  md_type : cx_md_t;
  output_size : Z;
  block_size : Z;
  init_func : option (M cx_hash_ctx Z);
  update_func : option (list Z) -> Z -> M cx_hash_ctx Z;
  finish_func : option (list Z) -> M cx_hash_ctx (Z * option (list Z));
  init_ex_func : option (Z -> M cx_hash_ctx Z);
  validate_context : M cx_hash_ctx bool;
  output_size_func : option (M cx_hash_ctx Z);
}.

Definition ret_code (m : M md_ctx cx_md_t) : M md_ctx Z := let! a := m in mret (md_code a).

Definition cx_sha256_info : cx_hash_info_t :=
  mk_info CX_SHA256 CX_SHA256_SIZE SHA256_BLOCK_SIZE
    (Some (init_as m_sha256 (ret_code cx_sha256_init)))
    (fun data len => on m_sha256 (spec_cx_sha256_update data len))
    (fun digest => on m_sha256 (spec_cx_sha256_final digest))
    None (test m_sha256 cx_sha256_validate_context) None.

Definition cx_sha224_info : cx_hash_info_t :=
  mk_info CX_SHA224 CX_SHA224_SIZE SHA256_BLOCK_SIZE
    (Some (init_as m_sha256 (ret_code cx_sha224_init)))
    (fun data len => on m_sha256 (spec_cx_sha256_update data len))
    (fun digest => on m_sha256 (spec_cx_sha256_final digest))
    None (test m_sha256 cx_sha256_validate_context) None.

Definition cx_sha384_info : cx_hash_info_t :=
  mk_info CX_SHA384 CX_SHA384_SIZE SHA512_BLOCK_SIZE
    (Some (init_as m_sha512 (ret_code cx_sha384_init)))
    (fun data len => on m_sha512 (spec_cx_sha512_update data len))
    (fun digest => on m_sha512 (spec_cx_sha512_final digest))
    None (test m_sha512 cx_sha512_validate_context) None.

Definition cx_sha512_info : cx_hash_info_t :=
  mk_info CX_SHA512 CX_SHA512_SIZE SHA512_BLOCK_SIZE
    (Some (init_as m_sha512 (ret_code cx_sha512_init)))
    (fun data len => on m_sha512 (spec_cx_sha512_update data len))
    (fun digest => on m_sha512 (spec_cx_sha512_final digest))
    None (test m_sha512 cx_sha512_validate_context) None.

(** The descriptions of the sponges only differ in two functions. *)
Definition sponge_info (md : cx_md_t) (init_ex : Z -> M sha3_ctx Z)
    (validate : sha3_ctx -> bool) : cx_hash_info_t :=
  mk_info md 0 0 None
    (fun data len => on m_sha3 (spec_cx_sha3_update data len))
    (fun digest => on m_sha3 (spec_cx_sha3_final digest))
    (Some (fun size => init_as m_sha3 (init_ex size)))
    (test m_sha3 validate)
    (Some (on m_sha3 (mgets spec_cx_sha3_get_output_size))).

Definition cx_sha3_info : cx_hash_info_t :=
  sponge_info CX_SHA3 cx_sha3_init cx_sha3_validate_context.
Definition cx_keccak_info : cx_hash_info_t :=
  sponge_info CX_KECCAK cx_keccak_init cx_sha3_validate_context.
Definition cx_shake128_info : cx_hash_info_t :=
  sponge_info CX_SHAKE128 cx_shake128_init cx_shake_validate_context.
Definition cx_shake256_info : cx_hash_info_t :=
  sponge_info CX_SHAKE256 cx_shake256_init cx_shake_validate_context.

Definition cx_ripemd160_info : cx_hash_info_t :=
  mk_info CX_RIPEMD160 CX_RIPEMD160_SIZE RIPEMD_BLOCK_SIZE
    (Some (init_as m_ripemd160 (ret_code cx_ripemd160_init)))
    (fun data len => on m_ripemd160 (spec_cx_ripemd160_update data len))
    (fun digest => on m_ripemd160 (spec_cx_ripemd160_final digest))
    None (test m_ripemd160 cx_ripemd160_validate_context) None.

Definition cx_blake2b_info : cx_hash_info_t :=
  mk_info CX_BLAKE2B 0 BLAKE2B_BLOCKBYTES None
    (fun data len => on m_blake2b (spec_cx_blake2b_update data len))
    (fun digest => on m_blake2b (spec_cx_blake2b_final digest))
    (Some (fun size => init_as m_blake2b (cx_blake2b_init size)))
    (test m_blake2b cx_blake2b_validate_context)
    (Some (on m_blake2b (mgets spec_cx_blake2b_get_output_size))).

Definition spec_cx_hash_get_info (md : cx_md_t) : option cx_hash_info_t :=
  match md with
  | CX_SHA256 => Some cx_sha256_info
  | CX_RIPEMD160 => Some cx_ripemd160_info
  | CX_SHA224 => Some cx_sha224_info
  | CX_SHA384 => Some cx_sha384_info
  | CX_SHA512 => Some cx_sha512_info
  | CX_SHA3 | CX_SHA3_256 => Some cx_sha3_info
  | CX_KECCAK => Some cx_keccak_info
  | CX_SHAKE128 => Some cx_shake128_info
  | CX_SHAKE256 => Some cx_shake256_info
  | CX_BLAKE2B => Some cx_blake2b_info
  | _ => None
  end.

(** * Operations *)

(** Calling a NULL function pointer is undefined. *)
Definition call {S A} (f : option (M S A)) : M S A :=
  match f with
  | Some m => m
  | None => mfault
  end.

Definition spec_cx_hash_get_size : M cx_hash_ctx Z :=
  let! a := mgets header_algo in
  match spec_cx_hash_get_info a with
  | None => mret 0
  | Some info =>
      if truthy (output_size info) then mret (output_size info)
      else call (output_size_func info)
  end.

Definition spec_cx_hash_init (md : cx_md_t) : M cx_hash_ctx Z :=
  match spec_cx_hash_get_info md with
  | None => mret 0
  | Some info =>
      if output_size info =? 0 then mret 0
      else
        do! mmodify (set_header_algo md) in
        do! call (init_func info) in
        mret 1
  end.

Definition spec_cx_hash_init_ex (md : cx_md_t) (size : Z) : M cx_hash_ctx Z :=
  match spec_cx_hash_get_info md with
  | None => mret 0
  | Some info =>
      if negb (output_size info =? 0) then
        if negb (output_size info =? size) then mret 0 else spec_cx_hash_init md
      else
        do! mmodify (set_header_algo md) in
        do! match init_ex_func info with
            | Some f => f (w32 (size * 8))
            | None => mfault
            end in
        mret 1
  end.

Definition spec_cx_hash_update (data : option (list Z)) (len : Z) : M cx_hash_ctx Z :=
  let! a := mgets header_algo in
  match spec_cx_hash_get_info a with
  | None => mret 0
  | Some info =>
      let! valid := validate_context info in
      if negb valid then mret 0 else update_func info data len
  end.

Definition spec_cx_hash_final (digest : option (list Z))
  : M cx_hash_ctx (Z * option (list Z)) :=
  match digest with
  | None => mret (0, None)
  | Some _ =>
      let! a := mgets header_algo in
      match spec_cx_hash_get_info a with
      | None => mret (0, digest)
      | Some info =>
          let! valid := validate_context info in
          if negb valid then mret (0, digest) else finish_func info digest
      end
  end.

Definition cx_hash_validate_context : M cx_hash_ctx bool :=
  let! a := mgets header_algo in
  match spec_cx_hash_get_info a with
  | None => mret false
  | Some info => validate_context info
  end.

Definition sys_cx_hash (mode : Z) (in_ : option (list Z)) (len : Z)
    (out : option (list Z)) (out_len : Z) : M cx_hash_ctx (Z * option (list Z)) :=
  let! valid := cx_hash_validate_context in
  if negb valid then mthrow INVALID_PARAMETER
  else
    let! digest_len := spec_cx_hash_get_size in
    let! r := spec_cx_hash_update in_ len in
    if r =? 0 then mthrow INVALID_PARAMETER
    else if truthy (Z.land mode CX_LAST) then
      if out_len <? digest_len then mthrow INVALID_PARAMETER
      else
        let! (r, out) := spec_cx_hash_final out in
        if r =? 0 then mthrow INVALID_PARAMETER else mret (digest_len, out)
    else mret (0, out).

(** ** [cx_scc.c] *)

Definition cx_scc_assert_param (cond : bool) : M cx_hash_ctx unit :=
  if cond then mret tt else mthrow INVALID_PARAMETER.

Definition cx_scc_struct_check_hash : M cx_hash_ctx unit :=
  let! a := mgets header_algo in
  match a with
  | CX_SHA256 =>
      let! b := test m_sha256 (fun c => blen c <? 64) in cx_scc_assert_param b
  | CX_RIPEMD160 =>
      let! b := test m_ripemd160 (fun c => blen c <? 64) in cx_scc_assert_param b
  | CX_SHA512 =>
      let! b := test m_sha512 (fun c => blen c <? 128) in cx_scc_assert_param b
  | CX_BLAKE2B =>
      let! b := test m_blake2b (fun c =>
        (8 / 8 <=? bk_output_size c) && (bk_output_size c <=? 512 / 8)) in
      do! cx_scc_assert_param b in
      let! b := test m_blake2b (fun c =>
        (b2_buflen (bk_ctx c) <=? BLAKE2B_BLOCKBYTES) &&
        (b2_outlen (bk_ctx c) <=? BLAKE2B_BLOCKBYTES)) in
      cx_scc_assert_param b
  | _ => mthrow INVALID_PARAMETER
  end.

(** * What a streaming hash promises to its clients *)

(** Digest and block sizes in bytes, bounds on the length of a message and of
    one update, the digest function and the contexts that have absorbed a
    message. *)
Class StreamHash (md : cx_md_t) := {
  sh_size : Z;
  sh_block : Z;
  sh_limit : Z;
  sh_part : Z;
  sh_digest : list Z -> list Z;
  sh_repr : cx_hash_ctx -> list Z -> Prop;
}.

Class StreamHashLaws (md : cx_md_t) `{!StreamHash md} := {
  sh_sizes : 0 < sh_size <= 64 /\ sh_size < sh_block <= 128 /\
    2 ^ 20 <= sh_limit /\ 2 ^ 20 <= sh_part <= 4294967296;
  sh_info : exists info, spec_cx_hash_get_info md = Some info /\
    output_size info = sh_size /\ block_size info = sh_block;
  sh_algo u m : sh_repr u m -> header_algo u = md;
  sh_init u : exists u', spec_cx_hash_init md u = Ret 1 u' /\ sh_repr u' [];
  sh_update u m p :
    sh_repr u m -> zlen (m ++ p) < sh_limit -> zlen p < sh_part ->
    exists u', spec_cx_hash_update (Some p) (zlen p) u = Ret 1 u' /\ sh_repr u' (m ++ p);
  sh_final u m d :
    sh_repr u m -> bytes_ok m -> zlen m < sh_limit -> sh_size <= zlen d ->
    exists u', spec_cx_hash_final (Some d) u
      = Ret (1, Some (sh_digest m ++ zdrop sh_size d)) u' /\ header_algo u' = md;
  sh_valid u m : sh_repr u m -> cx_hash_validate_context u = Ret true u;
  sh_digest_ok m :
    bytes_ok m -> zlen (sh_digest m) = sh_size /\ bytes_ok (sh_digest m);
}.

Section clients.
Context (md : cx_md_t) `{!StreamHash md} `{!StreamHashLaws md}.

Lemma sh_get_size u m : sh_repr u m -> spec_cx_hash_get_size u = Ret sh_size u.
Proof.
  intros Hu. unfold spec_cx_hash_get_size, mbind, mgets. rewrite (sh_algo u m Hu).
  destruct sh_info as (info & -> & Hs & _). rewrite Hs. unfold truthy.
  destruct (Z.eqb_spec sh_size 0); [|done]. pose proof (sh_sizes (md := md)). lia.
Qed.

Lemma sh_feed u parts :
  sh_repr u [] -> zlen (concat parts) < sh_limit ->
  Forall (fun p => zlen p < sh_part) parts ->
  exists u', feed_all spec_cx_hash_update parts u = Ret 1 u' /\ sh_repr u' (concat parts).
Proof.
  intros Hu HN HQ.
  apply (feed_all_ok spec_cx_hash_update sh_repr (fun p => zlen p < sh_part) sh_limit)
    with (m := []); [|done|done|done]. intros. by apply sh_update.
Qed.
End clients.

(** * Instances *)

Lemma bytes_ok_split k w : bytes_ok (concat (map (be_split k) w)).
Proof.
  induction w as [|x w IH]; [constructor|]. apply Forall_app. split; [apply be_split_bytes|done].
Qed.

Lemma bytes_ok_store32 w : bytes_ok (store_words32 w).
Proof.
  induction w as [|x w IH]; [constructor|]. apply Forall_app. split; [apply le_split_bytes|done].
Qed.

(** The generic functions run the operation of the member. *)
Lemma on_ret {C A} (k : member C) (m : M C A) c a c' :
  get k (put k c) = Some c -> m c = Ret a c' -> on k m (put k c) = Ret a (put k c').
Proof. intros Hk Hm. unfold on. by rewrite Hk, Hm. Qed.

Lemma generic_update {C} (k : member C) info c valid data len a c' :
  get k (put k c) = Some c ->
  spec_cx_hash_get_info (header_algo (put k c)) = Some info ->
  validate_context info = test k valid -> valid c = true ->
  (forall m, update_func info data len = on k m -> m c = Ret a c' ->
    spec_cx_hash_update data len (put k c) = Ret a (put k c')).
Proof.
  intros Hk Hi Hv Hc m Hu Hm. unfold spec_cx_hash_update. unfold mbind at 1, mgets.
  rewrite Hi, Hv, Hu. unfold mbind, test.
  rewrite (on_ret k _ c true c) by (done || by unfold mgets; rewrite Hc). cbn [negb].
  by apply on_ret.
Qed.

Lemma generic_final {C} (k : member C) info c valid d a c' :
  get k (put k c) = Some c ->
  spec_cx_hash_get_info (header_algo (put k c)) = Some info ->
  validate_context info = test k valid -> valid c = true ->
  (forall m, finish_func info (Some d) = on k m -> m c = Ret a c' ->
    spec_cx_hash_final (Some d) (put k c) = Ret a (put k c')).
Proof.
  intros Hk Hi Hv Hc m Hu Hm. unfold spec_cx_hash_final. unfold mbind at 1, mgets.
  rewrite Hi, Hv, Hu. unfold mbind, test.
  rewrite (on_ret k _ c true c) by (done || by unfold mgets; rewrite Hc). cbn [negb].
  by apply on_ret.
Qed.

Lemma generic_valid {C} (k : member C) info c valid :
  get k (put k c) = Some c ->
  spec_cx_hash_get_info (header_algo (put k c)) = Some info ->
  validate_context info = test k valid -> valid c = true ->
  cx_hash_validate_context (put k c) = Ret true (put k c).
Proof.
  intros Hk Hi Hv Hc. unfold cx_hash_validate_context, mbind, mgets. rewrite Hi, Hv.
  apply on_ret; [done|]. unfold mgets. by rewrite Hc.
Qed.

(** An algorithm with a fixed digest size, from the lemmas on its member. *)
Section fixed.
Context (k : member md_ctx)
  (Hk : forall c, get k (put k c) = Some c /\ header_algo (put k c) = algo c).
Context (a : cx_md_t) (info : cx_hash_info_t) (Hinfo : spec_cx_hash_get_info a = Some info).
Context (n bs limit part : Z) (Hsizes : 0 < n <= 64 /\ n < bs <= 128 /\
  2 ^ 20 <= limit /\ 2 ^ 20 <= part <= 4294967296).
Context (init : M md_ctx cx_md_t) (update : option (list Z) -> Z -> M md_ctx Z)
  (final : option (list Z) -> M md_ctx (Z * option (list Z))) (valid : md_ctx -> bool).
Context (Hfun : info = mk_info a n bs (Some (init_as k (ret_code init)))
  (fun data len => on k (update data len)) (fun digest => on k (final digest))
  None (test k valid) None).
Context (R : md_ctx -> list Z -> Prop) (digest : list Z -> list Z).
Context (HR : forall c m, R c m -> algo c = a /\ valid c = true).
Context (Hinit : forall c, exists c', init c = Ret a c' /\ R c' []).
Context (Hupdate : forall c m p, R c m -> zlen (m ++ p) < limit -> zlen p < part ->
  exists c', update (Some p) (zlen p) c = Ret 1 c' /\ R c' (m ++ p)).
Context (Hfinal : forall c m d, R c m -> bytes_ok m -> zlen m < limit -> n <= zlen d ->
  exists c', final (Some d) c = Ret (1, Some (digest m ++ zdrop n d)) c' /\ algo c' = a).
Context (Hdigest : forall m, bytes_ok m -> zlen (digest m) = n /\ bytes_ok (digest m)).

Definition fixed_stream : StreamHash a := {|
  sh_size := n; sh_block := bs; sh_limit := limit; sh_part := part; sh_digest := digest;
  sh_repr u m := exists c, u = put k c /\ R c m;
|}.

Lemma fixed_stream_laws : @StreamHashLaws a fixed_stream.
Proof.
  assert (forall c, get k (put k c) = Some c) as Hget by apply Hk.
  assert (forall c, algo c = a -> spec_cx_hash_get_info (header_algo (put k c)) = Some info)
    as Hdesc by (intros c Hc; by rewrite (proj2 (Hk c)), Hc).
  split; cbn [sh_size sh_block sh_limit sh_part sh_digest sh_repr fixed_stream].
  - exact Hsizes.
  - exists info. split; [exact Hinfo|]. by rewrite Hfun.
  - intros u m (c & -> & Hc). rewrite (proj2 (Hk c)). by apply (HR c m).
  - intros u. unfold spec_cx_hash_init. rewrite Hinfo, Hfun. cbn [output_size init_func call].
    destruct (Z.eqb_spec n 0); [lia|]. unfold mbind at 1, mmodify, mbind at 1, init_as, ret_code.
    destruct (Hinit (default (blank k) (get k (set_header_algo a u)))) as (c' & E & Hr).
    rewrite (mbind_ret _ _ _ _ _ E). eexists. split; [reflexivity|]. by exists c'.
  - intros u m p (c & -> & Hc) Hl Hp. destruct (HR c m Hc) as [Ha Hv].
    destruct (Hupdate c m p Hc Hl Hp) as (c' & E & Hc').
    exists (put k c'). split; [|by exists c'].
    apply (generic_update k info c valid) with (m := update (Some p) (zlen p)); auto;
      by rewrite Hfun.
  - intros u m d (c & -> & Hc) Hm Hl Hd. destruct (HR c m Hc) as [Ha Hv].
    destruct (Hfinal c m d Hc Hm Hl Hd) as (c' & E & Hc').
    exists (put k c'). split; [|by rewrite (proj2 (Hk c'))].
    apply (generic_final k info c valid) with (m := final (Some d)); auto; by rewrite Hfun.
  - intros u m (c & -> & Hc). destruct (HR c m Hc) as [Ha Hv].
    apply (generic_valid k info c valid); auto; by rewrite Hfun.
  - exact Hdigest.
Qed.
End fixed.

(** ** SHA-2 and RIPEMD-160 *)

Definition sha2_stream256 (a : cx_md_t) (n : Z) (h0 : list Z) : StreamHash a :=
  fixed_stream m_sha256 a n 64 (2 ^ 38) (4294967296 - 64)
    (repr 64 64 sha256_compress h0 a) (fun m => ztake n (fips_hash256 h0 m)).

Lemma sha2_stream256_laws a n h0 info init :
  n = (if bool_decide (a = CX_SHA256) then 32 else 28) ->
  words_ok is_w32 8 h0 ->
  spec_cx_hash_get_info a = Some info ->
  info = mk_info a n 64 (Some (init_as m_sha256 (ret_code init)))
    (fun data len => on m_sha256 (spec_cx_sha256_update data len))
    (fun digest => on m_sha256 (spec_cx_sha256_final digest))
    None (test m_sha256 cx_sha256_validate_context) None ->
  (forall c, exists c', init c = Ret a c' /\ repr 64 64 sha256_compress h0 a c' []) ->
  @StreamHashLaws a (sha2_stream256 a n h0).
Proof.
  intros Hn Hh Hinfo Hfun Hinit.
  assert (n = 32 \/ n = 28) as Hn' by (rewrite Hn; case_bool_decide; tauto).
  apply (fixed_stream_laws m_sha256 (fun c => conj eq_refl eq_refl) a info
    Hinfo n 64 (2 ^ 38) (4294967296 - 64) ltac:(lia) init _ _ _ Hfun).
  - intros c m Hc. split; [exact (h_frame _ _ _ _ _ _ _ _ Hc)|].
    pose proof (md_blen_valid 64 _ _ _ _ _ ltac:(lia) Hc). unfold cx_sha256_validate_context. lia.
  - exact Hinit.
  - intros c m p Hc _ Hp. apply sha256_update_ok; [done|lia].
  - intros c m d Hc Hm Hl Hd. rewrite Hn in *. by apply (sha256_final_ok a h0 c m d).
  - intros m Hm. split; [rewrite zlen_ztake; [done|]; rewrite fips_hash256_length by done; lia|].
    apply Forall_take, bytes_ok_split.
Qed.

Definition sha2_stream512 (a : cx_md_t) (n : Z) (h0 : list Z) : StreamHash a :=
  fixed_stream m_sha512 a n 128 SHA512_LIMIT 4294967296
    (repr 128 128 sha512_compress h0 a) (fun m => ztake n (fips_hash512 h0 m)).

Lemma sha2_stream512_laws a n h0 info init :
  n = (if bool_decide (a = CX_SHA512) then 64 else 48) ->
  words_ok is_w64 8 h0 ->
  spec_cx_hash_get_info a = Some info ->
  info = mk_info a n 128 (Some (init_as m_sha512 (ret_code init)))
    (fun data len => on m_sha512 (spec_cx_sha512_update data len))
    (fun digest => on m_sha512 (spec_cx_sha512_final digest))
    None (test m_sha512 cx_sha512_validate_context) None ->
  (forall c, exists c', init c = Ret a c' /\ repr 128 128 sha512_compress h0 a c' []) ->
  @StreamHashLaws a (sha2_stream512 a n h0).
Proof.
  intros Hn Hh Hinfo Hfun Hinit.
  assert (n = 64 \/ n = 48) as Hn' by (rewrite Hn; case_bool_decide; tauto).
  apply (fixed_stream_laws m_sha512 (fun c => conj eq_refl eq_refl) a info
    Hinfo n 128 SHA512_LIMIT 4294967296 ltac:(unfold SHA512_LIMIT; lia) init _ _ _ Hfun).
  - intros c m Hc. split; [exact (h_frame _ _ _ _ _ _ _ _ Hc)|].
    pose proof (md_blen_valid 128 _ _ _ _ _ ltac:(lia) Hc). unfold cx_sha512_validate_context. lia.
  - exact Hinit.
  - intros c m p Hc Hl _. by apply sha512_update_ok.
  - intros c m d Hc Hm Hl Hd. rewrite Hn in *. by apply (sha512_final_ok a h0 c m d).
  - intros m Hm. split; [rewrite zlen_ztake; [done|]; rewrite fips_hash512_length by done; lia|].
    apply Forall_take, bytes_ok_split.
Qed.

#[export] Instance stream_sha256 : StreamHash CX_SHA256 := sha2_stream256 CX_SHA256 32 CxSha256.hzero.
#[export] Instance stream_sha224 : StreamHash CX_SHA224 := sha2_stream256 CX_SHA224 28 hzero_224.
#[export] Instance stream_sha512 : StreamHash CX_SHA512 := sha2_stream512 CX_SHA512 64 CxSha512.hzero.
#[export] Instance stream_sha384 : StreamHash CX_SHA384 := sha2_stream512 CX_SHA384 48 hzero_384.
#[export] Instance stream_ripemd160 : StreamHash CX_RIPEMD160 :=
  fixed_stream m_ripemd160 CX_RIPEMD160 20 64 RIPEMD160_LIMIT 4294967296
    (repr 64 64 ripemd160_compress CxRipemd160.hzero CX_RIPEMD160) RIPEMD160.

Ltac words_consts := unfold words_ok, is_w32, is_w64;
  split; [repeat (apply Forall_cons_2; [lia|]); apply Forall_nil_2 | reflexivity].

#[export] Instance stream_sha256_laws : StreamHashLaws CX_SHA256.
Proof.
  by apply (sha2_stream256_laws _ _ _ cx_sha256_info cx_sha256_init); [|words_consts| | |apply sha256_init_ok].
Qed.
#[export] Instance stream_sha224_laws : StreamHashLaws CX_SHA224.
Proof.
  by apply (sha2_stream256_laws _ _ _ cx_sha224_info cx_sha224_init); [|words_consts| | |apply sha224_init_ok].
Qed.
#[export] Instance stream_sha512_laws : StreamHashLaws CX_SHA512.
Proof.
  by apply (sha2_stream512_laws _ _ _ cx_sha512_info cx_sha512_init); [|words_consts| | |apply sha512_init_ok].
Qed.
#[export] Instance stream_sha384_laws : StreamHashLaws CX_SHA384.
Proof.
  by apply (sha2_stream512_laws _ _ _ cx_sha384_info cx_sha384_init); [|words_consts| | |apply sha384_init_ok].
Qed.
#[export] Instance stream_ripemd160_laws : StreamHashLaws CX_RIPEMD160.
Proof.
  apply (fixed_stream_laws m_ripemd160 (fun c => conj eq_refl eq_refl) CX_RIPEMD160 cx_ripemd160_info eq_refl 20 64
    RIPEMD160_LIMIT 4294967296 ltac:(unfold RIPEMD160_LIMIT; lia) cx_ripemd160_init _ _ _ eq_refl).
  - intros c m Hc. split; [exact (h_frame _ _ _ _ _ _ _ _ Hc)|].
    pose proof (md_blen_valid 64 _ _ _ _ _ ltac:(lia) Hc). unfold cx_ripemd160_validate_context. lia.
  - apply ripemd160_init_ok.
  - intros c m p Hc Hl _. by apply ripemd160_update_ok.
  - intros c m d Hc Hm Hl Hd. by apply ripemd160_final_ok.
  - intros m Hm. split; [apply RIPEMD160_length | apply bytes_ok_store32].
Qed.

(** * The union always holds the member of its algorithm *)

Definition coherent (u : cx_hash_ctx) : Prop :=
  match header_algo u, u with
  | (CX_SHA256 | CX_SHA224), U_sha256 _ => True
  | (CX_SHA384 | CX_SHA512), U_sha512 _ => True
  | CX_RIPEMD160, U_ripemd160 _ => True
  | (CX_SHA3 | CX_KECCAK | CX_SHAKE128 | CX_SHAKE256 | CX_SHA3_256), U_sha3 _ => True
  | CX_BLAKE2B, U_blake2b _ => True
  | (CX_NONE | CX_SHA3_XOF | CX_GROESTL), _ => True
  | _, _ => False
  end.

(** The operations of the members keep the algorithm. *)
Lemma sha256_block_algo a c : algo c = a -> algo (cx_sha256_block c) = a.
Proof. intros <-. unfold cx_sha256_block. by destruct (for_range _ _ _). Qed.
Lemma sha512_block_algo a c : algo c = a -> algo (cx_sha512_block c) = a.
Proof. intros <-. unfold cx_sha512_block. by destruct (for_range _ _ _). Qed.
Lemma ripemd160_block_algo a c : algo c = a -> algo (cx_ripemd160_block c) = a.
Proof. intros <-. unfold cx_ripemd160_block. by destruct (for_range _ _ _). Qed.

#[local] Hint Resolve md_append_algo md_pad_algo : keeps.
#[local] Hint Resolve sha256_block_algo sha512_block_algo ripemd160_block_algo : keeps.

Lemma sha256_keeps a data len :
  keeps (fun c => algo c = a) (spec_cx_sha256_update data len) /\
  keeps (fun c => algo c = a) (spec_cx_sha256_final data).
Proof.
  unfold spec_cx_sha256_update, spec_cx_sha256_final. split; keeps_auto; done.
Qed.

Lemma sha512_keeps a data len :
  keeps (fun c => algo c = a) (spec_cx_sha512_update data len) /\
  keeps (fun c => algo c = a) (spec_cx_sha512_final data).
Proof.
  unfold spec_cx_sha512_update, spec_cx_sha512_final. split; keeps_auto; done.
Qed.

Lemma ripemd160_keeps a data len :
  keeps (fun c => algo c = a) (spec_cx_ripemd160_update data len) /\
  keeps (fun c => algo c = a) (spec_cx_ripemd160_final data).
Proof.
  unfold spec_cx_ripemd160_update, spec_cx_ripemd160_final. split; keeps_auto; done.
Qed.

Lemma keeps_zoom {S T A} (P : T -> Prop) (get : T -> S) set (m : M S A) :
  (forall s t, P t -> P (set s t)) -> keeps P (zoom get set m).
Proof. intros H t Ht. unfold zoom. destruct (m (get t)); auto. Qed.

(** What keeps every value of the frame keeps the algorithm. *)
Lemma sha3_frame_algo {A} (m : M sha3_ctx A) a :
  (forall f, keeps (fun c => (s3_algo c, s3_output_size c, s3_block_size c) = f) m) ->
  keeps (fun c => s3_algo c = a) m.
Proof.
  intros H c <-. specialize (H _ c eq_refl). destruct (m c); congruence.
Qed.

Lemma sha3_keeps a data len :
  keeps (fun c => s3_algo c = a) (spec_cx_sha3_update data len) /\
  keeps (fun c => s3_algo c = a) (spec_cx_sha3_final data).
Proof.
  split; apply sha3_frame_algo; intros f.
  - unfold spec_cx_sha3_update. keeps_auto; [assumption|].
    exact (append_data_frame (C := sha3_ctx) f spec_cx_sha3_block (fun c H => H) _ _ _ _ _).
  - assert (forall n k, keeps (fun c => (s3_algo c, s3_output_size c, s3_block_size c) = f)
      (clear_block n k)) as Hclear by exact (clear_block_frame (C := sha3_ctx) f).
    assert (forall fuel bs d off n,
      keeps (fun c => (s3_algo c, s3_output_size c, s3_block_size c) = f)
        (sha3_squeeze fuel bs d off n)) as Hsq.
    { induction fuel as [|fuel IH]; intros; simpl; unfold put_acc; keeps_auto; assumption. }
    unfold spec_cx_sha3_final, or_byte, put_acc. keeps_auto; assumption.
Qed.

Lemma blake2b_keeps a data len :
  keeps (fun c => bk_algo c = a) (spec_cx_blake2b_update data len) /\
  keeps (fun c => bk_algo c = a) (spec_cx_blake2b_final data).
Proof.
  split; unfold spec_cx_blake2b_update, spec_cx_blake2b_final.
  - apply keeps_if; [apply keeps_ret|]. apply keeps_bind; [by apply keeps_zoom|].
    intros. apply keeps_ret.
  - apply keeps_bind; [apply keeps_gets|]. intros. apply keeps_bind; [by apply keeps_zoom|].
    intros [??]. apply keeps_ret.
Qed.

Lemma on_coherent {C A} (k : member C) (al : C -> cx_md_t) (m : M C A) :
  (forall u c, get k u = Some c -> u = put k c) ->
  (forall c c', al c' = al c -> coherent (put k c) -> coherent (put k c')) ->
  (forall a, keeps (fun c => al c = a) m) -> keeps coherent (on k m).
Proof.
  intros Hget Hco Hm u Hu. unfold on. destruct (get k u) as [c|] eqn:E; [|done].
  apply Hget in E as ->. specialize (Hm (al c) c eq_refl).
  destruct (m c); [by eapply Hco|by eapply Hco|done].
Qed.

Ltac member_coherent al H :=
  apply (on_coherent _ al);
  [ by intros [] ? [= <-]
  | unfold coherent; simpl; intros ?? ->; done
  | intros; first [ apply keeps_gets | apply (fun a d l => proj1 (H a d l))
                  | apply (fun a d => proj2 (H a d 0)) ] ].

Lemma infos_coherent a info data len digest :
  spec_cx_hash_get_info a = Some info ->
  keeps coherent (validate_context info) /\ keeps coherent (update_func info data len) /\
  keeps coherent (finish_func info digest).
Proof.
  intros H. destruct a; simplify_eq/=; (split; [|split]);
    first [ member_coherent algo sha256_keeps | member_coherent algo sha512_keeps
          | member_coherent algo ripemd160_keeps | member_coherent s3_algo sha3_keeps
          | member_coherent bk_algo blake2b_keeps ].
Qed.

Lemma update_coherent data len : keeps coherent (spec_cx_hash_update data len).
Proof.
  apply keeps_bind; [apply keeps_gets|]. intros a.
  destruct (spec_cx_hash_get_info a) as [info|] eqn:E; [|apply keeps_ret].
  destruct (infos_coherent a info data len None E) as (Hv & Hu & _).
  apply keeps_bind; [done|]. intros v. by apply keeps_if; [apply keeps_ret|].
Qed.

Lemma final_coherent digest : keeps coherent (spec_cx_hash_final digest).
Proof.
  unfold spec_cx_hash_final. destruct digest as [d|]; [|apply keeps_ret].
  apply keeps_bind; [apply keeps_gets|]. intros a.
  destruct (spec_cx_hash_get_info a) as [info|] eqn:E; [|apply keeps_ret].
  destruct (infos_coherent a info None 0 (Some d) E) as (Hv & _ & Hf).
  apply keeps_bind; [done|]. intros v. by apply keeps_if; [apply keeps_ret|].
Qed.

Lemma get_size_coherent : keeps coherent spec_cx_hash_get_size.
Proof.
  apply keeps_bind; [apply keeps_gets|]. intros a.
  destruct a; simpl; first [apply keeps_ret | apply (on_coherent _ s3_algo) | apply (on_coherent _ bk_algo)];
    try (intros; apply keeps_gets); try (by intros [] ? [= <-]);
    unfold coherent; simpl; by intros ?? ->.
Qed.

Lemma validate_coherent : keeps coherent cx_hash_validate_context.
Proof.
  apply keeps_bind; [apply keeps_gets|]. intros a.
  destruct (spec_cx_hash_get_info a) as [info|] eqn:E; [|apply keeps_ret].
  by destruct (infos_coherent a info None 0 None E) as (Hv & _).
Qed.

Lemma U_sha3_coherent c :
  In (s3_algo c) [CX_SHA3; CX_KECCAK; CX_SHAKE128; CX_SHAKE256; CX_NONE] -> coherent (U_sha3 c).
Proof. unfold coherent. simpl. by intros [<-|[<-|[<-|[<-|[<-|[]]]]]]. Qed.

Lemma sponge_inits_algo n c r c' :
  cx_sha3_init n c = Ret r c' \/ cx_keccak_init n c = Ret r c' \/
  cx_shake128_init n c = Ret r c' \/ cx_shake256_init n c = Ret r c' ->
  In (s3_algo c') [CX_SHA3; CX_KECCAK; CX_SHAKE128; CX_SHAKE256; CX_NONE].
Proof.
  unfold cx_keccak_init, cx_sha3_init, cx_shake128_init, cx_shake256_init, mbind, mmodify, mret, mthrow.
  simpl. intros H. destruct_or! H; repeat case_match; simplify_eq/=; auto 10.
Qed.

Lemma blake2b_init_algo n c r c' : cx_blake2b_init n c = Ret r c' -> bk_algo c' = CX_BLAKE2B.
Proof.
  unfold cx_blake2b_init, cx_blake2b_init2, mbind, mmodify, zoom, mret, mthrow. intros H.
  repeat case_match; simplify_eq/=; done.
Qed.

(** * Properties *)

(** The algorithms with a digest of fixed size. *)
Definition fixed_algorithms : list cx_md_t :=
  [CX_SHA256; CX_SHA224; CX_SHA384; CX_SHA512; CX_RIPEMD160].

Definition md_digest (md : cx_md_t) (m : list Z) : list Z :=
  match md with
  | CX_SHA256 => SHA256 m
  | CX_SHA224 => SHA224 m
  | CX_SHA384 => SHA384 m
  | CX_SHA512 => SHA512 m
  | CX_RIPEMD160 => RIPEMD160 m
  | _ => []
  end.

Definition md_size (md : cx_md_t) : Z :=
  match md with
  | CX_SHA256 => 32
  | CX_SHA224 => 28
  | CX_SHA384 => 48
  | CX_SHA512 => 64
  | CX_RIPEMD160 => 20
  | _ => 0
  end.

Definition md_limit (md : cx_md_t) : Z :=
  match md with
  | CX_SHA256 | CX_SHA224 => 2 ^ 32
  | CX_SHA384 | CX_SHA512 => SHA512_LIMIT
  | _ => RIPEMD160_LIMIT
  end.

(** Every fixed algorithm implements the interface, with its digest. *)
Lemma fixed_algorithms_stream md :
  In md fixed_algorithms ->
  exists (I : StreamHash md), StreamHashLaws md /\ sh_size = md_size md /\
    md_limit md <= sh_limit /\ 4294967296 - 64 <= sh_part /\
    forall m, bytes_ok m -> sh_digest m = md_digest md m.
Proof.
  assert (forall (h : list Z) n, zlen h = n -> ztake n h = h) as Htake
    by (intros; apply ztake_all; lia).
  intros [<-|[<-|[<-|[<-|[<-|[]]]]]].
  - exists stream_sha256. split; [exact stream_sha256_laws|]. split; [done|].
    split; [by vm_compute|]. split; [by vm_compute|].
    intros m Hm. apply Htake. by apply fips_hash256_length; [words_consts|].
  - exists stream_sha224. by split; [exact stream_sha224_laws|].
  - exists stream_sha384. by split; [exact stream_sha384_laws|].
  - exists stream_sha512. split; [exact stream_sha512_laws|]. split; [done|].
    split; [by vm_compute|]. split; [by vm_compute|].
    intros m Hm. apply Htake. by apply fips_hash512_length; [words_consts|].
  - exists stream_ripemd160. by split; [exact stream_ripemd160_laws|].
Qed.

Section sys.
Context (md : cx_md_t) `{!StreamHash md} `{!StreamHashLaws md}.

(** One call of the system call that absorbs [p]. *)
Lemma sys_absorb u m p mode out out_len :
  sh_repr u m -> zlen (m ++ p) < sh_limit -> zlen p < sh_part ->
  exists u', sh_repr u' (m ++ p) /\
    sys_cx_hash mode (Some p) (zlen p) out out_len u =
    (if truthy (Z.land mode CX_LAST) then
       if out_len <? sh_size then mthrow INVALID_PARAMETER
       else
         let! (r, out) := spec_cx_hash_final out in
         if r =? 0 then mthrow INVALID_PARAMETER else mret (sh_size, out)
     else mret (0, out)) u'.
Proof.
  intros Hu Hl Hp. destruct (sh_update u m p Hu Hl Hp) as (u' & E & Hu').
  exists u'. split; [done|]. unfold sys_cx_hash.
  rewrite (mbind_ret _ _ _ _ _ (sh_valid u m Hu)). cbn [negb].
  rewrite (mbind_ret _ _ _ _ _ (sh_get_size md u m Hu)).
  rewrite (mbind_ret _ _ _ _ _ E). done.
Qed.

Lemma sys_feed u parts :
  sh_repr u [] -> zlen (concat parts) < sh_limit ->
  Forall (fun p => zlen p < sh_part) parts ->
  exists u', feed_all (fun d n => do! sys_cx_hash 0 d n None 0 in mret 1) parts u = Ret 1 u' /\
    sh_repr u' (concat parts).
Proof.
  intros Hu HN HQ.
  apply (feed_all_ok (fun d n => do! sys_cx_hash 0 d n None 0 in mret 1) sh_repr
    (fun p => zlen p < sh_part) sh_limit) with (m := []); [|done|done|done].
  intros c m p Hc Hp Hl. destruct (sys_absorb c m p 0 None 0 Hc Hl Hp) as (u' & Hu' & E).
  exists u'. split; [|done]. unfold mbind. by rewrite E.
Qed.
End sys.

(** C24: for each algorithm with a fixed digest size, the generic
    interface computes its digest. A context initialised for the algorithm
    absorbs any sequence of buffers through calls of [sys_cx_hash] without
    [CX_LAST], and a call with [CX_LAST] whose output is large enough returns
    the digest size and writes the digest of everything absorbed, its own
    input included. *)
Theorem sys_cx_hash_streaming (md : cx_md_t) (parts : list (list Z)) (last out : list Z)
    (mode out_len : Z) (u : cx_hash_ctx) :
  In md fixed_algorithms ->
  Forall bytes_ok parts -> bytes_ok last ->
  Forall (fun p => zlen p < 4294967296 - 64) (parts ++ [last]) ->
  zlen (concat parts ++ last) < md_limit md ->
  Z.land mode CX_LAST = 1 -> md_size md <= out_len -> md_size md <= zlen out ->
  exists u', (do! spec_cx_hash_init md in
      do! feed_all (fun d n => do! sys_cx_hash 0 d n None 0 in mret 1) parts in
      sys_cx_hash mode (Some last) (zlen last) (Some out) out_len) u
    = Ret (md_size md, Some (md_digest md (concat parts ++ last) ++ zdrop (md_size md) out)) u'.
Proof.
  intros Hmd Hb Hlast HQ HN Hmode Hol Hout.
  destruct (fixed_algorithms_stream md Hmd) as (I & L & Hs & Hlim & Hpart & Hdig).
  rewrite <- Hs in *. apply Forall_app in HQ as [HQ Hql]. apply Forall_cons_1 in Hql as [Hql _].
  assert (bytes_ok (concat parts ++ last)) as Hc
    by (apply Forall_app; split; [by apply Forall_concat|done]).
  destruct (sh_init u) as (u0 & E0 & R0). rewrite (mbind_ret _ _ _ _ _ E0).
  destruct (sys_feed md u0 parts R0) as (u1 & E1 & R1).
  { rewrite zlen_app in HN. pose proof (zlen_nonneg last). lia. }
  { eapply Forall_impl; [exact HQ|]. cbn. lia. }
  rewrite (mbind_ret _ _ _ _ _ E1).
  destruct (sys_absorb md u1 (concat parts) last mode (Some out) out_len R1) as (u2 & R2 & ->);
    [lia|lia|]. rewrite Hmode. cbn [truthy Z.eqb negb].
  destruct (Z.ltb_spec out_len sh_size); [lia|].
  destruct (sh_final u2 (concat parts ++ last) out R2 Hc) as (u3 & E3 & _); [lia|lia|].
  rewrite (mbind_ret _ _ _ _ _ E3). exists u3. by rewrite Hdig.
Qed.

Lemma sys_cx_hash_streaming_witness :
  exists u', (do! spec_cx_hash_init CX_SHA224 in
      do! feed_all (fun d n => do! sys_cx_hash 0 d n None 0 in mret 1) [[0x61]; []] in
      sys_cx_hash CX_LAST (Some [0x62; 0x63]) 2 (Some (zeros 32)) 30) (U_sha256 blank_md)
    = Ret (28, Some (md_digest CX_SHA224 (concat [[0x61]; []] ++ [0x62; 0x63])
                     ++ zdrop 28 (zeros 32))) u'.
Proof.
  refine (sys_cx_hash_streaming CX_SHA224 [[0x61]; []] [0x62; 0x63] (zeros 32) CX_LAST 30
    (U_sha256 blank_md) _ _ _ _ _ _ _ _).
  - simpl. auto.
  - unfold bytes_ok, is_byte. repeat constructor; lia.
  - unfold bytes_ok, is_byte. repeat constructor; lia.
  - repeat constructor.
  - vm_compute. reflexivity.
  - reflexivity.
  - vm_compute. discriminate.
  - vm_compute. discriminate.
Defined.

(** With [CX_LAST] and an output shorter than the digest the
    call throws [INVALID_PARAMETER] after the input was absorbed and before
    anything is finalised: calling again with no input and a large enough
    output gives the digest of everything absorbed. *)
Theorem sys_cx_hash_short_output (md : cx_md_t) (p out out2 : list Z) (out_len : Z) (u : cx_hash_ctx) :
  In md fixed_algorithms -> bytes_ok p -> zlen p < 4294967296 - 64 -> zlen p < md_limit md ->
  out_len < md_size md -> md_size md <= zlen out2 ->
  exists u0 u1 u2,
    spec_cx_hash_init md u = Ret 1 u0 /\
    sys_cx_hash CX_LAST (Some p) (zlen p) (Some out) out_len u0 = Throw INVALID_PARAMETER u1 /\
    sys_cx_hash CX_LAST (Some []) 0 (Some out2) (zlen out2) u1
      = Ret (md_size md, Some (md_digest md p ++ zdrop (md_size md) out2)) u2.
Proof.
  intros Hmd Hb Hp Hl Hol Hout.
  destruct (fixed_algorithms_stream md Hmd) as (I & L & Hs & Hlim & Hpart & Hdig).
  rewrite <- Hs in *. destruct (sh_init u) as (u0 & E0 & R0).
  destruct (sys_absorb md u0 [] p CX_LAST (Some out) out_len R0) as (u1 & R1 & E1);
    [simpl; lia|lia|]. cbn [app] in R1.
  destruct (sys_absorb md u1 p [] CX_LAST (Some out2) (zlen out2) R1) as (u2 & R2 & E2);
    [rewrite app_nil_r; lia|change (zlen (@nil Z)) with 0; lia|]. rewrite app_nil_r in R2.
  destruct (sh_final u2 p out2 R2 Hb) as (u3 & E3 & _); [lia|lia|].
  exists u0, u1, u3. split; [exact E0|]. change (truthy (Z.land CX_LAST CX_LAST)) with true in *.
  cbv iota in E1, E2. split.
  - rewrite E1. destruct (Z.ltb_spec out_len sh_size); [done|lia].
  - change 0 with (zlen (@nil Z)). rewrite E2. destruct (Z.ltb_spec (zlen out2) sh_size); [lia|].
    rewrite (mbind_ret _ _ _ _ _ E3). by rewrite Hdig.
Qed.

Lemma sys_cx_hash_short_output_witness :
  exists u0 u1 u2,
    spec_cx_hash_init CX_RIPEMD160 (U_sha256 blank_md) = Ret 1 u0 /\
    sys_cx_hash CX_LAST (Some [0x61]) 1 (Some (zeros 32)) 19 u0 = Throw INVALID_PARAMETER u1 /\
    sys_cx_hash CX_LAST (Some []) 0 (Some (zeros 20)) 20 u1
      = Ret (20, Some (md_digest CX_RIPEMD160 [0x61] ++ zdrop 20 (zeros 20))) u2.
Proof.
  refine (sys_cx_hash_short_output CX_RIPEMD160 [0x61] (zeros 32) (zeros 20) 19
    (U_sha256 blank_md) _ _ _ _ _ _).
  - simpl. auto 6.
  - unfold bytes_ok, is_byte. repeat constructor; lia.
  - vm_compute. reflexivity.
  - vm_compute. reflexivity.
  - vm_compute. reflexivity.
  - vm_compute. discriminate.
Defined.

(** C38: the union of the contexts holds the member of the algorithm that its
    header names after every successful initialisation, whatever it held, and
    keeps it through [spec_cx_hash_init] when it returns, and through updates,
    finalisations and the system call, whether they return or throw. An
    initialisation with a size that is refused does not keep it
    ([hash_init_ex_refused]). *)
Theorem hash_union_coherent :
  (forall md u r u', spec_cx_hash_init md u = Ret r u' -> coherent u -> coherent u') /\
  (forall md u u', spec_cx_hash_init md u = Ret 1 u' -> coherent u') /\
  (forall md n u u', spec_cx_hash_init_ex md n u = Ret 1 u' -> coherent u') /\
  (forall data len, keeps coherent (spec_cx_hash_update data len)) /\
  (forall digest, keeps coherent (spec_cx_hash_final digest)) /\
  (forall mode data len out n, keeps coherent (sys_cx_hash mode data len out n)).
Proof.
  assert (forall md u u', spec_cx_hash_init md u = Ret 1 u' -> coherent u') as H1.
  { intros md u u'. by destruct md; intros [= <-]. }
  assert (forall md u r u', spec_cx_hash_init md u = Ret r u' -> r = 1 \/ u' = u) as H2.
  { intros md u r u'. destruct md; intros [= <- <-]; auto. }
  split; [intros md u r u' E Hu; destruct (H2 md u r u' E) as [-> | ->]; [by eapply H1|done]|].
  split; [exact H1|]. split; [|split; [exact update_coherent|split; [exact final_coherent|]]].
  - intros md n u u'. unfold spec_cx_hash_init_ex.
    destruct (spec_cx_hash_get_info md) as [info|] eqn:Ei; [|done].
    destruct (output_size info =? 0) eqn:Ez; cbn [negb].
    + pose proof (sponge_inits_algo (w32 (n * 8))) as Hs.
      pose proof (blake2b_init_algo (w32 (n * 8))) as Hb.
      destruct md; simplify_eq/=; unfold mbind, mmodify, init_as, mret; intros E;
        destruct (_ (w32 (n * 8)) _) as [r c'| |] eqn:E'; simplify_eq/=;
        first [ apply U_sha3_coherent; eapply Hs; eauto 10 | unfold coherent; simpl; by erewrite Hb ].
    + destruct (negb _); [done|]. apply H1.
  - intros. unfold sys_cx_hash. apply keeps_bind; [exact validate_coherent|]. intros v.
    apply keeps_if; [apply keeps_throw|]. apply keeps_bind; [exact get_size_coherent|].
    intros sz. apply keeps_bind; [apply update_coherent|]. intros r.
    keeps_auto. apply final_coherent.
Qed.

(** [spec_cx_hash_init_ex] writes the header before the size
    is checked. When the size is refused it throws [INVALID_PARAMETER] and
    leaves a context that names the new algorithm and still holds the member
    of the old one. *)
Theorem hash_init_ex_refused (u : cx_hash_ctx) (c : md_ctx) (n : Z) :
  u = U_sha256 c -> check_hash_out_size (w32 (n * 8)) = false ->
  spec_cx_hash_init_ex CX_SHA3 n u
    = Throw INVALID_PARAMETER (U_sha256 (md_set_algo CX_SHA3 c)) /\
  ~ coherent (U_sha256 (md_set_algo CX_SHA3 c)).
Proof.
  intros -> H. split; [|by intros []]. unfold spec_cx_hash_init_ex. cbn -[w32 check_hash_out_size].
  unfold mbind, mmodify, init_as, cx_sha3_init. rewrite H. done.
Qed.

(** A context of SHA-256 that becomes one of SHA-512, and is updated. *)
Lemma hash_union_coherent_witness :
  (exists u', spec_cx_hash_init CX_SHA512 (U_sha256 (sha256_zero CX_SHA256)) = Ret 1 u' /\ coherent u') /\
  (exists u', spec_cx_hash_init_ex CX_BLAKE2B 32 (U_sha256 (sha256_zero CX_SHA256)) = Ret 1 u' /\ coherent u').
Proof.
  destruct hash_union_coherent as (_ & H1 & H2 & _). split.
  - eexists. split; [reflexivity|]. by apply (H1 CX_SHA512 (U_sha256 (sha256_zero CX_SHA256))).
  - destruct (spec_cx_hash_init_ex CX_BLAKE2B 32 (U_sha256 (sha256_zero CX_SHA256))) as [r u'| |] eqn:E1; [|by vm_compute in E1..].
    assert (r = 1) as -> by (vm_compute in E1; congruence). exists u'. split; [done|]. by eapply H2.
Defined.

Lemma hash_init_ex_refused_witness :
  spec_cx_hash_init_ex CX_SHA3 31 (U_sha256 (sha256_zero CX_SHA256))
    = Throw INVALID_PARAMETER (U_sha256 (sha256_zero CX_SHA3)).
Proof.
  apply (hash_init_ex_refused (U_sha256 (sha256_zero CX_SHA256)) (sha256_zero CX_SHA256) 31);
    reflexivity.
Defined.
