(* ===== verification/CxHmac.v ===== *)
(** HMAC: [src/bolos/cx_hmac.c] (and the context check of [cx_scc.c]), over
    the interface of streaming hashes, and its refinement to RFC 2104. *)

From S2P Require Import Prelude CxUtils BlockStream HashCtx Sha2Ref CxSha256 CxSha512 CxRipemd160.
From S2P Require Import CxBlake2b CxHash.

(** * Definitions *)

Definition IPAD : Z := 0x36.
Definition OPAD : Z := 0x5c.
(** Bit 15 of the mode ([cx_common.h]). *)
Definition CX_NO_REINIT : Z := Z.shiftl 1 15.

(** [cx_hmac_ctx]; [key] is 128 bytes. *)
Record cx_hmac_ctx := mk_hmac_ctx {
  hash_ctx : cx_hash_ctx;
  key : list Z;
}.

Definition set_hash (u : cx_hash_ctx) (c : cx_hmac_ctx) : cx_hmac_ctx := mk_hmac_ctx u (key c).
Definition set_key (k : list Z) (c : cx_hmac_ctx) : cx_hmac_ctx := mk_hmac_ctx (hash_ctx c) k.

(** An operation on the hash context. *)
Definition hash {A} (m : M cx_hash_ctx A) : M cx_hmac_ctx A := zoom hash_ctx set_hash m.

Definition get_block_size (md : cx_md_t) : Z :=
  match spec_cx_hash_get_info md with
  | None => 0
  | Some info => if block_size info =? 0 then 0 else block_size info
  end.

Definition get_algorithm : M cx_hmac_ctx cx_md_t := mgets (fun c => header_algo (hash_ctx c)).

Definition is_allowed_digest (md : cx_md_t) : bool :=
  existsb (fun a => bool_decide (a = md))
    [CX_SHA256; CX_SHA224; CX_SHA384; CX_SHA512; CX_RIPEMD160].

(** Whether [get_hash_ctx] is not NULL. *)
Definition get_hash_ctx : M cx_hmac_ctx bool :=
  let! a := get_algorithm in mret (is_allowed_digest a).

(** [memset(ctx, 0, sizeof(cx_hmac_ctx))]: the algorithm is [CX_NONE]. *)
Definition hmac_zero : cx_hmac_ctx := mk_hmac_ctx (U_sha256 (sha256_zero CX_NONE)) (zeros 128).

(** [for (i = 0; i < n; i++) buf[i] ^= v;] *)
Definition xor_bytes (buf : list Z) (n v : Z) : option (list Z) :=
  match read_at buf 0 n with
  | Some b => write_at buf 0 (map (fun x => Z.lxor x v) b)
  | None => None
  end.

Definition spec_cx_hmac_init (hash_id : cx_md_t) (k : option (list Z)) (key_len : Z)
  : M cx_hmac_ctx Z :=
  if bool_decide (k = None) && negb (key_len =? 0) then mret 0
  else if negb (is_allowed_digest hash_id) then mret 0
  else
    do! mmodify (fun _ => hmac_zero) in
    let block_size := get_block_size hash_id in
    do! match k with
        | Some k =>
            do! (if block_size <? key_len then
                   do! hash (spec_cx_hash_init hash_id) in
                   do! hash (spec_cx_hash_update (Some k) key_len) in
                   let! dst := mgets key in
                   let! (_, dst') := hash (spec_cx_hash_final (Some dst)) in
                   mmodify (set_key (default dst dst'))
                 else
                   let! src := mlift (read_at k 0 key_len) in
                   let! dst := mgets key in
                   let! dst := mlift (write_at dst 0 src) in
                   mmodify (set_key dst)) in
            let! dst := mgets key in
            let! dst := mlift (xor_bytes dst block_size IPAD) in
            mmodify (set_key dst)
        | None => mret tt
        end in
    do! hash (spec_cx_hash_init hash_id) in
    let! dst := mgets key in
    let! pad := mlift (read_at dst 0 block_size) in
    do! hash (spec_cx_hash_update (Some pad) block_size) in
    mret 1.

Definition spec_cx_hmac_update (data : option (list Z)) (data_len : Z) : M cx_hmac_ctx Z :=
  match data with
  | None => mret 0
  | Some _ =>
      let! ok := get_hash_ctx in
      if negb ok then mret 0 else hash (spec_cx_hash_update data data_len)
  end.

(** The result, the output buffer and the output length. The local buffers
    [inner_hash] and [hkey] are not initialised in C; they start as zeros
    here, and what is read of them was written before. *)
Definition spec_cx_hmac_final (out : option (list Z)) (out_len : option Z)
  : M cx_hmac_ctx (Z * option (list Z) * option Z) :=
  match out, out_len with
  | Some dst, Some n =>
      let! ok := get_hash_ctx in
      if negb ok then mret (0, out, out_len)
      else
        let! hash_algorithm := get_algorithm in
        let block_size := get_block_size hash_algorithm in
        let! hash_output_size := hash spec_cx_hash_get_size in
        let inner_hash := zeros MAX_HASH_SIZE in
        let! (_, inner') := hash (spec_cx_hash_final (Some inner_hash)) in
        let inner_hash := default inner_hash inner' in
        let! k := mgets key in
        let! k := mlift (read_at k 0 block_size) in
        let! hkey := mlift (write_at (zeros MAX_HASH_BLOCK_SIZE) 0 k) in
        let! hkey := mlift (xor_bytes hkey block_size (Z.lxor OPAD IPAD)) in
        do! hash (spec_cx_hash_init hash_algorithm) in
        let! part := mlift (read_at hkey 0 block_size) in
        do! hash (spec_cx_hash_update (Some part) block_size) in
        let! part := mlift (read_at inner_hash 0 hash_output_size) in
        do! hash (spec_cx_hash_update (Some part) hash_output_size) in
        let! (_, hkey') := hash (spec_cx_hash_final (Some hkey)) in
        let hkey := default hkey hkey' in
        let n := if hash_output_size <=? n then hash_output_size else n in
        let! mac := mlift (read_at hkey 0 n) in
        let! dst := mlift (write_at dst 0 mac) in
        mret (1, Some dst, Some n)
  | _, _ => mret (0, out, out_len)
  end.

(** [cx_hmac_sha256_init], [cx_hmac_ripemd160_init], [cx_hmac_sha512_init]. *)
Definition hmac_init_or_throw (md : cx_md_t) (k : option (list Z)) (key_len : Z)
  : M cx_hmac_ctx Z :=
  let! r := spec_cx_hmac_init md k key_len in
  if r =? 0 then mthrow INVALID_PARAMETER else mret (md_code md).

Definition cx_hmac_sha256_init := hmac_init_or_throw CX_SHA256.
Definition cx_hmac_ripemd160_init := hmac_init_or_throw CX_RIPEMD160.
Definition cx_hmac_sha512_init := hmac_init_or_throw CX_SHA512.

Definition cx_scc_struct_check_hashmac : M cx_hmac_ctx unit :=
  let! a := get_algorithm in
  do! (if negb (bool_decide (a = CX_SHA256)) && negb (bool_decide (a = CX_SHA512)) &&
          negb (bool_decide (a = CX_RIPEMD160))
       then mthrow INVALID_PARAMETER else mret tt) in
  hash cx_scc_struct_check_hash.

Definition cx_hmac (mode : Z) (in_ : option (list Z)) (len : Z) (out : option (list Z))
    (out_len : Z) : M cx_hmac_ctx (Z * option (list Z)) :=
  if bool_decide (in_ = None) && negb (len =? 0) then mthrow INVALID_PARAMETER
  else if bool_decide (out = None) && negb (out_len =? 0) then mthrow INVALID_PARAMETER
  else
    do! cx_scc_struct_check_hashmac in
    do! spec_cx_hmac_update in_ len in
    if truthy (Z.land mode CX_LAST) then
      let! (_, out, n) := spec_cx_hmac_final out (Some out_len) in
      let ret := default out_len n in
      do! (if negb (truthy (Z.land mode CX_NO_REINIT)) then
             let! a := get_algorithm in spec_cx_hmac_init a None 0
           else mret 0) in
      mret (ret, out)
    else mret (0, out).

(** [spec_cx_hmac_sha256] and [spec_cx_hmac_sha512], on the static context. *)
Definition hmac_once (md : cx_md_t) (k : option (list Z)) (key_len : Z)
    (in_ : option (list Z)) (len : Z) (out : option (list Z)) (out_len : Z)
  : M cx_hmac_ctx (Z * option (list Z)) :=
  do! spec_cx_hmac_init md k key_len in
  do! spec_cx_hmac_update in_ len in
  let! (_, out, n) := spec_cx_hmac_final out (Some out_len) in
  mret (default out_len n, out).

Definition spec_cx_hmac_sha256 := hmac_once CX_SHA256.
Definition spec_cx_hmac_sha512 := hmac_once CX_SHA512.

(** * Reference: RFC 2104 *)

Definition hmac_block (md : cx_md_t) : Z :=
  match md with
  | CX_SHA384 | CX_SHA512 => 128
  | _ => 64
  end.

(** The key, hashed when it is longer than a block, padded with zeros. *)
Definition hmac_key (md : cx_md_t) (k : list Z) : list Z :=
  let k := if hmac_block md <? zlen k then md_digest md k else k in
  k ++ zeros (hmac_block md - zlen k).

Definition xor_pad (v : Z) (k : list Z) : list Z := map (fun x => Z.lxor x v) k.

Definition HMAC (md : cx_md_t) (k text : list Z) : list Z :=
  md_digest md (xor_pad 0x5c (hmac_key md k) ++
    md_digest md (xor_pad 0x36 (hmac_key md k) ++ text)).

(** * Proofs *)

Lemma hash_ret {A} (m : M cx_hash_ctx A) c a u :
  m (hash_ctx c) = Ret a u -> hash m c = Ret a (set_hash u c).
Proof. intros E. unfold hash, zoom. by rewrite E. Qed.

Lemma xor_pad_length v b : zlen (xor_pad v b) = zlen b.
Proof. unfold zlen, xor_pad. by rewrite length_map. Qed.

Lemma xor_bytes_prefix b r n v :
  zlen b = n -> xor_bytes (b ++ r) n v = Some (xor_pad v b ++ r).
Proof.
  intros <-. pose proof (zlen_nonneg b). pose proof (zlen_nonneg r). unfold xor_bytes.
  rewrite read_at_ok by (rewrite ?zlen_app; lia).
  rewrite zdrop_0, ztake_app_l by done.
  pose proof (xor_pad_length v b). unfold xor_pad in *. rewrite write_at_ok by (rewrite ?zlen_app; lia).
  by rewrite ztake_0, zdrop_app_l by lia.
Qed.

Lemma lxor_byte x y : is_byte x -> is_byte y -> is_byte (Z.lxor x y).
Proof.
  unfold is_byte. intros Hx Hy. split; [apply Z.lxor_nonneg; lia|].
  apply (bits_lt _ 8); [lia|apply Z.lxor_nonneg; lia|]. intros i Hi.
  rewrite Z.lxor_spec, !(small_high _ 8) by lia. done.
Qed.

Lemma xor_pad_bytes v b : is_byte v -> bytes_ok b -> bytes_ok (xor_pad v b).
Proof.
  intros Hv Hb. apply Forall_map. eapply Forall_impl; [exact Hb|]. intros x Hx.
  by apply lxor_byte.
Qed.

(** Removing the inner pad and adding the outer one. *)
Lemma xor_pad_pad u v b : xor_pad u (xor_pad v b) = xor_pad (Z.lxor u v) b.
Proof.
  unfold xor_pad. rewrite map_map. apply map_ext. intros x.
  by rewrite Z.lxor_assoc, (Z.lxor_comm v).
Qed.

(** The truncated copy of the result. *)
Lemma mac_output {S} (mac rest dst : list Z) m (s : S) :
  0 <= m <= zlen mac -> m <= zlen dst ->
  (let! mac := mlift (read_at (mac ++ rest) 0 m) in
   let! dst := mlift (write_at dst 0 mac) in
   mret (1, Some dst, Some m)) s
  = Ret (1, Some (ztake m mac ++ zdrop m dst), Some m) s.
Proof.
  intros Hm Hd. pose proof (zlen_nonneg rest).
  rewrite (mlift_some _ _ _ (ztake m mac)).
  - rewrite (mlift_some _ _ _ (ztake m mac ++ zdrop m dst)); [done|].
    rewrite write_at_ok; rewrite ?zlen_ztake; by try lia.
  - rewrite read_at_ok by (rewrite ?zlen_app; lia). rewrite zdrop_0. unfold ztake. f_equal.
    apply take_app_le. unfold zlen in *. lia.
Qed.

Section hmac.
Context (md : cx_md_t) `{!StreamHash md} `{!StreamHashLaws md}.
Context (Hallowed : is_allowed_digest md = true).

Definition block_key (k : list Z) : list Z :=
  let k := if sh_block <? zlen k then sh_digest k else k in
  k ++ zeros (sh_block - zlen k).

(** The hash context has absorbed the inner key block and the message, and
    [ctx->key] holds the inner key block. *)
Definition hmac_repr (K : list Z) (c : cx_hmac_ctx) (m : list Z) : Prop :=
  sh_repr (hash_ctx c) (xor_pad IPAD K ++ m) /\ bytes_ok K /\ zlen K = sh_block /\
  key c = xor_pad IPAD K ++ zeros (128 - sh_block).

Lemma block_size_ok : get_block_size md = sh_block.
Proof.
  unfold get_block_size. destruct sh_info as (info & -> & _ & Hb). rewrite Hb.
  pose proof sh_sizes. destruct (Z.eqb_spec sh_block 0); lia.
Qed.

Lemma block_key_ok k :
  bytes_ok k -> bytes_ok (block_key k) /\ zlen (block_key k) = sh_block.
Proof.
  intros Hk. pose proof sh_sizes. destruct (sh_digest_ok k Hk) as [Hl Hb].
  pose proof (zlen_nonneg k). unfold block_key.
  destruct (Z.ltb_spec sh_block (zlen k)) as [Hlt|Hle];
    (split; [apply Forall_app; split; [assumption|apply zeros_bytes]|]);
    rewrite zlen_app, zlen_zeros; lia.
Qed.

Lemma hmac_ready c K m : hmac_repr K c m -> get_hash_ctx c = Ret true c /\ get_algorithm c = Ret md c.
Proof.
  intros (Hr & _). unfold get_hash_ctx, get_algorithm, mbind, mgets, mret.
  by rewrite (sh_algo _ _ Hr), Hallowed.
Qed.

(** The two last steps of the initialisation. *)
Lemma hmac_start c K :
  bytes_ok K -> zlen K = sh_block -> key c = xor_pad IPAD K ++ zeros (128 - sh_block) ->
  exists c', (do! hash (spec_cx_hash_init md) in
    let! dst := mgets key in
    let! pad := mlift (read_at dst 0 sh_block) in
    do! hash (spec_cx_hash_update (Some pad) sh_block) in
    mret 1) c = Ret 1 c' /\ hmac_repr K c' [].
Proof.
  intros HK Hl Hkey. pose proof sh_sizes.
  destruct (sh_init (hash_ctx c)) as (u & E & R). rewrite (mbind_ret _ _ _ _ _ (hash_ret _ _ _ _ E)).
  set (c1 := set_hash u c). assert (key c1 = key c) as Hk1 by done.
  pose proof (xor_pad_length IPAD K) as Hxl.
  destruct (sh_update u [] (xor_pad IPAD K)) as (u' & E' & R'); [done|simpl; lia|lia|].
  rewrite Hxl, Hl in E'. unfold mbind at 1, mgets. rewrite Hk1, Hkey.
  rewrite (mlift_some _ _ _ (xor_pad IPAD K)).
  - rewrite (mbind_ret _ _ _ _ _ (hash_ret _ c1 _ _ E')). eexists. split; [reflexivity|].
    split; [cbn; by rewrite app_nil_r|]. done.
  - rewrite read_at_ok by (rewrite ?zlen_app, ?zlen_zeros; lia). rewrite zdrop_0.
    by rewrite ztake_app_l by lia.
Qed.

Lemma hmac_init_ok c k :
  bytes_ok k -> zlen k < sh_part -> zlen k < sh_limit ->
  exists c', spec_cx_hmac_init md (Some k) (zlen k) c = Ret 1 c' /\
    hmac_repr (block_key k) c' [].
Proof.
  intros Hk Hp Hl. pose proof sh_sizes. pose proof (zlen_nonneg k).
  destruct (sh_digest_ok k Hk) as [Hdl _]. destruct (block_key_ok k Hk) as [Hb Hbl].
  unfold spec_cx_hmac_init. rewrite Hallowed, block_size_ok. cbn [negb andb].
  rewrite bool_decide_false by done. cbn [negb andb].
  rewrite (mbind_ret (mmodify _) _ c tt hmac_zero) by done.
  enough (exists c1, key c1 = block_key k ++ zeros (128 - sh_block) /\ (forall K,
    mbind (if sh_block <? zlen k then
       do! hash (spec_cx_hash_init md) in
       do! hash (spec_cx_hash_update (Some k) (zlen k)) in
       let! dst := mgets key in
       let! (_, dst') := hash (spec_cx_hash_final (Some dst)) in
       mmodify (set_key (default dst dst'))
     else
       let! src := mlift (read_at k 0 (zlen k)) in
       let! dst := mgets key in
       let! dst := mlift (write_at dst 0 src) in
       mmodify (set_key dst)) (fun _ => K : M cx_hmac_ctx unit) hmac_zero = K c1))
    as (c1 & Hc1 & E1).
  { set (c2 := set_key (xor_pad IPAD (block_key k) ++ zeros (128 - sh_block)) c1).
    destruct (hmac_start c2 (block_key k) Hb Hbl eq_refl) as (c' & E & R).
    exists c'. split; [|exact R]. rewrite <- E. unfold mbind at 1. rewrite E1.
    unfold mgets. unfold mbind at 1. rewrite Hc1.
    by rewrite (mlift_some _ _ _ _ (xor_bytes_prefix _ _ _ _ Hbl)). }
  unfold block_key. destruct (Z.ltb_spec sh_block (zlen k)) as [Hlt|Hle].
  - destruct (sh_init (hash_ctx hmac_zero)) as (u1 & E1 & R1).
    destruct (sh_update u1 [] k R1 ltac:(simpl; lia) Hp) as (u2 & E2 & R2).
    destruct (sh_final u2 k (zeros 128) R2 Hk) as (u3 & E3 & _);
      [lia | rewrite zlen_zeros; lia |].
    rewrite zdrop_zeros in E3 by lia.
    exists (mk_hmac_ctx u3 (sh_digest k ++ zeros (128 - sh_size))). split.
    + cbn [key]. rewrite <- app_assoc, <- zeros_app by lia. do 2 f_equal. lia.
    + intros K. unfold mbind at 1. rewrite (mbind_ret _ _ _ _ _ (hash_ret _ _ _ _ E1)).
      rewrite (mbind_ret _ _ _ _ _ (hash_ret _ (set_hash u1 hmac_zero) _ _ E2)).
      unfold mbind at 1, mgets.
      by rewrite (mbind_ret _ _ _ _ _ (hash_ret _ (set_hash u2 _) _ _ E3)).
  - exists (mk_hmac_ctx (hash_ctx hmac_zero) (k ++ zeros (128 - zlen k))). split.
    + cbn [key]. rewrite <- app_assoc, <- zeros_app by lia. do 2 f_equal. lia.
    + intros K. unfold mbind at 1. rewrite (mlift_some _ _ _ _ (read_at_all k)).
      unfold mbind at 1, mgets. change (key hmac_zero) with (zeros 128).
      rewrite (mlift_some _ _ _ (k ++ zeros (128 - zlen k))); [done|].
      rewrite write_at_ok by (rewrite ?zlen_zeros; lia).
      by rewrite ztake_0, zdrop_zeros by lia.
Qed.

Lemma hmac_update_ok c K m p :
  hmac_repr K c m -> zlen (m ++ p) < sh_limit - sh_block -> zlen p < sh_part ->
  exists c', spec_cx_hmac_update (Some p) (zlen p) c = Ret 1 c' /\ hmac_repr K c' (m ++ p).
Proof.
  intros Hc Hl Hp. destruct (hmac_ready c K m Hc) as [Hg _].
  destruct Hc as (Hr & HK & Hb & Hkey).
  destruct (sh_update (hash_ctx c) (xor_pad IPAD K ++ m) p Hr) as (u & E & R);
    [rewrite <- app_assoc, zlen_app, xor_pad_length; lia | done |].
  exists (set_hash u c). unfold spec_cx_hmac_update. rewrite (mbind_ret _ _ _ _ _ Hg).
  cbn [negb]. split; [by apply hash_ret|]. unfold hmac_repr. rewrite app_assoc. done.
Qed.
(** The two hashes of RFC 2104. *)
Definition nested (K m : list Z) : list Z :=
  sh_digest (xor_pad OPAD K ++ sh_digest (xor_pad IPAD K ++ m)).

Lemma hmac_final_ok c K m dst n :
  hmac_repr K c m -> bytes_ok m -> zlen m < sh_limit - sh_block ->
  0 <= n -> Z.min n sh_size <= zlen dst ->
  exists c', spec_cx_hmac_final (Some dst) (Some n) c
    = Ret (1, Some (ztake (Z.min n sh_size) (nested K m) ++ zdrop (Z.min n sh_size) dst),
           Some (Z.min n sh_size)) c' /\ header_algo (hash_ctx c') = md /\ key c' = key c.
Proof.
  intros Hc Hm Hlim Hn Hdst. destruct (hmac_ready c K m Hc) as [Hg Ha].
  destruct Hc as (Hr & HK & Hb & Hkey). pose proof sh_sizes.
  pose proof (xor_pad_length IPAD K) as Hil. pose proof (xor_pad_length OPAD K) as Hol.
  assert (bytes_ok (xor_pad IPAD K ++ m)) as Hin by (apply Forall_app; split; [by apply xor_pad_bytes|done]).
  destruct (sh_digest_ok _ Hin) as [Hil' Hib'].
  set (inner := sh_digest (xor_pad IPAD K ++ m)) in *.
  assert (bytes_ok (xor_pad OPAD K ++ inner)) as Hout by (apply Forall_app; split; [by apply xor_pad_bytes|done]).
  destruct (sh_digest_ok _ Hout) as [Hol' _].
  unfold spec_cx_hmac_final, nested. rewrite (mbind_ret _ _ _ _ _ Hg). cbn [negb].
  rewrite (mbind_ret _ _ _ _ _ Ha), block_size_ok.
  rewrite (mbind_ret _ _ _ _ _ (hash_ret _ c _ _ (sh_get_size md _ _ Hr))).
  destruct (sh_final (hash_ctx c) _ (zeros MAX_HASH_SIZE) Hr Hin) as (u1 & E1 & _);
    [rewrite zlen_app; lia | rewrite zlen_zeros by done; change MAX_HASH_SIZE with 64; lia |].
  rewrite (mbind_ret _ _ _ _ _ (hash_ret _ (set_hash _ c) _ _ E1)).
  unfold mbind at 1, mgets. cbn [key set_hash default id]. fold inner. rewrite Hkey.
  rewrite (mlift_some _ _ _ _ (read_at_prefix (xor_pad IPAD K) _ sh_block ltac:(lia))).
  change MAX_HASH_BLOCK_SIZE with 128.
  rewrite (mlift_some _ _ _ _ (write_at_zeros (xor_pad IPAD K) 128 ltac:(lia))).
  rewrite (mlift_some _ _ _ _ (xor_bytes_prefix (xor_pad IPAD K) _ sh_block _ ltac:(lia))).
  rewrite xor_pad_pad. change (Z.lxor (Z.lxor OPAD IPAD) IPAD) with OPAD.
  destruct (sh_init u1) as (u2 & E2 & R2).
  rewrite (mbind_ret _ _ _ _ _ (hash_ret _ (set_hash u1 _) _ _ E2)).
  rewrite (mlift_some _ _ _ _ (read_at_prefix (xor_pad OPAD K) _ sh_block ltac:(lia))).
  destruct (sh_update u2 [] (xor_pad OPAD K) R2) as (u3 & E3 & R3); [simpl; lia|lia|].
  rewrite Hol, Hb in E3. rewrite (mbind_ret _ _ _ _ _ (hash_ret _ (set_hash u2 _) _ _ E3)).
  rewrite (mlift_some _ _ _ _ (read_at_prefix inner _ sh_size Hil')).
  destruct (sh_update u3 _ inner R3) as (u4 & E4 & R4); [rewrite zlen_app; cbn [app]; lia|lia|].
  rewrite Hil' in E4. rewrite (mbind_ret _ _ _ _ _ (hash_ret _ (set_hash u3 _) _ _ E4)).
  destruct (sh_final u4 _ (xor_pad OPAD K ++ zeros (128 - zlen (xor_pad IPAD K))) R4 Hout) as (u5 & E5 & Hu5);
    [cbn [app]; rewrite zlen_app; lia | rewrite zlen_app, zlen_zeros; lia |].
  rewrite (mbind_ret _ _ _ _ _ (hash_ret _ (set_hash u4 _) _ _ E5)). cbn [default id].
  replace (if sh_size <=? n then sh_size else n) with (Z.min n sh_size)
    by (destruct (Z.leb_spec sh_size n); lia).
  rewrite mac_output; [|cbn [app]; lia|done]. eexists. split; [reflexivity|]. done.
Qed.
Lemma hmac_feed c K parts :
  hmac_repr K c [] -> zlen (concat parts) < sh_limit - sh_block ->
  Forall (fun p => zlen p < sh_part) parts ->
  exists c', feed_all spec_cx_hmac_update parts c = Ret 1 c' /\ hmac_repr K c' (concat parts).
Proof.
  intros Hc HN HQ.
  apply (feed_all_ok spec_cx_hmac_update (hmac_repr K) (fun p => zlen p < sh_part)
    (sh_limit - sh_block)) with (m := []); [|done|done|done].
  intros. by apply hmac_update_ok.
Qed.

(** Without a key the block that is absorbed is the block of zeros, the
    inner block of the key whose bytes are all [IPAD]. *)
Lemma hmac_init_null c :
  exists c', spec_cx_hmac_init md None 0 c = Ret 1 c' /\
    hmac_repr (replicate (Z.to_nat sh_block) IPAD) c' [].
Proof.
  pose proof sh_sizes. unfold spec_cx_hmac_init. rewrite Hallowed, block_size_ok. cbn [negb].
  rewrite bool_decide_true by done. change (0 =? 0) with true. cbn [negb andb].
  rewrite (mbind_ret (mmodify _) _ c tt hmac_zero) by done.
  rewrite (mbind_ret (mret tt) _ hmac_zero tt hmac_zero) by done.
  apply hmac_start; [apply Forall_replicate; unfold is_byte, IPAD; lia| |].
  - rewrite zlen_replicate. lia.
  - unfold xor_pad. rewrite fmap_replicate. change (Z.lxor IPAD IPAD) with 0.
    fold (zeros sh_block). rewrite <- zeros_app by lia. cbn [key hmac_zero]. f_equal. lia.
Qed.

Lemma hmac_scc c K m :
  md = CX_SHA256 \/ md = CX_SHA512 \/ md = CX_RIPEMD160 ->
  hmac_repr K c m -> cx_scc_struct_check_hashmac c = Ret tt c.
Proof.
  intros Hmd Hc. destruct (hmac_ready c K m Hc) as [_ Ha]. destruct Hc as (Hr & _).
  pose proof (sh_valid _ _ Hr) as Hv. pose proof (sh_algo _ _ Hr) as Hal.
  unfold cx_scc_struct_check_hashmac. rewrite (mbind_ret _ _ _ _ _ Ha).
  assert (forall k : M cx_hmac_ctx unit, mbind (if negb (bool_decide (md = CX_SHA256)) &&
    negb (bool_decide (md = CX_SHA512)) && negb (bool_decide (md = CX_RIPEMD160))
    then mthrow INVALID_PARAMETER else mret tt) (fun _ => k) c = k c) as ->
    by (intros k; by destruct Hmd as [-> | [-> | ->]]).
  replace (Ret tt c) with (Ret tt (set_hash (hash_ctx c) c)) by (by destruct c).
  apply hash_ret. clear Ha Hr. revert Hv. unfold cx_hash_validate_context, cx_scc_struct_check_hash.
  unfold mbind, mgets, test, on, mgets. rewrite Hal.
  destruct Hmd as [-> | [-> | ->]]; cbn [spec_cx_hash_get_info validate_context
    cx_sha256_info cx_sha512_info cx_ripemd160_info]; unfold test, on, mgets;
    (destruct (get _ (hash_ctx c)) as [x|]; [|done]);
    cbn [cx_sha256_validate_context cx_sha512_validate_context cx_ripemd160_validate_context];
    intros [= Hb Hx]; unfold cx_sha256_validate_context, cx_sha512_validate_context,
      cx_ripemd160_validate_context in Hb; rewrite Hb, <- Hx; reflexivity.
Qed.
End hmac.

(** What the fixed algorithms give to the clients of HMAC. *)
Lemma fixed_algorithms_hmac md :
  In md fixed_algorithms ->
  exists (I : StreamHash md), StreamHashLaws md /\ is_allowed_digest md = true /\
    sh_size = md_size md /\ sh_block = hmac_block md /\
    md_limit md <= sh_limit /\ 4294967296 - 64 <= sh_part /\
    (forall k, bytes_ok k -> block_key md k = hmac_key md k) /\
    (forall K m, bytes_ok K -> bytes_ok m -> nested md K m
      = md_digest md (xor_pad OPAD K ++ md_digest md (xor_pad IPAD K ++ m))).
Proof.
  intros Hmd. destruct (fixed_algorithms_stream md Hmd) as (I & L & Hs & Hlim & Hpart & Hdig).
  assert (is_allowed_digest md = true) as Hal by (by destruct Hmd as [<-|[<-|[<-|[<-|[<-|[]]]]]]).
  assert (sh_block = hmac_block md) as Hb
    by (rewrite <- (block_size_ok md); by destruct Hmd as [<-|[<-|[<-|[<-|[<-|[]]]]]]).
  exists I. do 6 (split; [assumption|]). split.
  - intros k Hk. unfold block_key, hmac_key. by rewrite Hb, Hdig.
  - intros K m HK Hm. unfold nested.
    assert (bytes_ok (xor_pad IPAD K ++ m)) as H1
      by (apply Forall_app; split; [by apply xor_pad_bytes|done]).
    rewrite !Hdig; [done|exact H1|]. apply Forall_app. split; [by apply xor_pad_bytes|].
    by apply sh_digest_ok.
Qed.

(** * Properties *)

(** C23: the code computes the HMAC of RFC 2104 for each allowed hash.
    An initialisation with any key, of any length (a key longer than a block
    is hashed), updates with any sequence of buffers and a finalisation
    return 1 and write the MAC of the concatenation, truncated to the length
    the caller asked for, which is updated to the number of bytes written. *)
Theorem hmac_streaming (md : cx_md_t) (k : list Z) (parts : list (list Z)) (out : list Z)
    (out_len : Z) (c : cx_hmac_ctx) :
  In md fixed_algorithms -> bytes_ok k -> Forall bytes_ok parts ->
  zlen k < md_limit md -> zlen k < 4294967296 - 64 ->
  Forall (fun p => zlen p < 4294967296 - 64) parts ->
  zlen (concat parts) < md_limit md - hmac_block md ->
  0 <= out_len -> Z.min out_len (md_size md) <= zlen out ->
  exists c', (do! spec_cx_hmac_init md (Some k) (zlen k) in
      do! feed_all spec_cx_hmac_update parts in
      spec_cx_hmac_final (Some out) (Some out_len)) c
    = let n := Z.min out_len (md_size md) in
      Ret (1, Some (ztake n (HMAC md k (concat parts)) ++ zdrop n out), Some n) c'.
Proof.
  intros Hmd Hk Hp Hkl Hkp Hpp HN Hn Hout.
  destruct (fixed_algorithms_hmac md Hmd) as (I & L & Hal & Hs & Hb & Hlim & Hpart & Hkey & Hnest).
  rewrite <- Hs in *. destruct (hmac_init_ok md Hal c k Hk) as (c1 & E1 & R1); [lia|lia|].
  rewrite (mbind_ret _ _ _ _ _ E1).
  destruct (hmac_feed md Hal c1 _ parts R1) as (c2 & E2 & R2);
    [lia | eapply Forall_impl; [exact Hpp|]; cbn; lia |].
  rewrite (mbind_ret _ _ _ _ _ E2).
  destruct (hmac_final_ok md Hal c2 _ _ out out_len R2) as (c3 & E3 & _);
    [by apply Forall_concat | lia | done | done |].
  exists c3. rewrite E3, Hnest; [|by apply block_key_ok|by apply Forall_concat].
  by rewrite Hkey.
Qed.

Lemma hmac_streaming_witness :
  exists c', (do! spec_cx_hmac_init CX_SHA256 (Some [0x4a; 0x65; 0x66; 0x65]) 4 in
      do! feed_all spec_cx_hmac_update [[0x77; 0x68]; [0x61]] in
      spec_cx_hmac_final (Some (zeros 40)) (Some 16)) hmac_zero
    = Ret (1, Some (ztake 16 (HMAC CX_SHA256 [0x4a; 0x65; 0x66; 0x65] [0x77; 0x68; 0x61])
                    ++ zdrop 16 (zeros 40)), Some 16) c'.
Proof.
  refine (hmac_streaming CX_SHA256 [0x4a; 0x65; 0x66; 0x65] [[0x77; 0x68]; [0x61]] (zeros 40) 16
    hmac_zero _ _ _ _ _ _ _ _ _).
  - simpl. auto.
  - unfold bytes_ok, is_byte. repeat constructor; lia.
  - unfold bytes_ok, is_byte. repeat constructor; lia.
  - vm_compute. reflexivity.
  - vm_compute. reflexivity.
  - repeat constructor.
  - vm_compute. reflexivity.
  - lia.
  - vm_compute. discriminate.
Defined.

(** One call of [cx_hmac] with [CX_LAST] and without [CX_NO_REINIT]. *)
Lemma cx_hmac_last md `{!StreamHash md} `{!StreamHashLaws md} c K m p out n :
  is_allowed_digest md = true -> md = CX_SHA256 \/ md = CX_SHA512 \/ md = CX_RIPEMD160 ->
  hmac_repr md K c m -> bytes_ok (m ++ p) -> zlen (m ++ p) < sh_limit - sh_block ->
  zlen p < sh_part -> 0 <= n -> Z.min n sh_size <= zlen out ->
  exists c', cx_hmac CX_LAST (Some p) (zlen p) (Some out) n c
    = Ret (Z.min n sh_size, Some (ztake (Z.min n sh_size) (nested md K (m ++ p))
                                  ++ zdrop (Z.min n sh_size) out)) c' /\
    hmac_repr md (replicate (Z.to_nat sh_block) IPAD) c' [].
Proof.
  intros Hal Hmd Hc Hm Hl Hp Hn Hout.
  destruct (hmac_update_ok md Hal c K m p Hc Hl Hp) as (c1 & E1 & R1).
  destruct (hmac_final_ok md Hal c1 K (m ++ p) out n R1 Hm Hl Hn Hout) as (c2 & E2 & Ha2 & _).
  destruct (hmac_init_null md Hal c2) as (c3 & E3 & R3).
  exists c3. split; [|exact R3]. unfold cx_hmac.
  rewrite !bool_decide_false by done. cbn [andb].
  rewrite (mbind_ret _ _ _ _ _ (hmac_scc md Hal c K m Hmd Hc)), (mbind_ret _ _ _ _ _ E1).
  change (truthy (Z.land CX_LAST CX_LAST)) with true. cbv iota.
  change (truthy (Z.land CX_LAST CX_NO_REINIT)) with false. cbn [negb].
  rewrite (mbind_ret _ _ _ _ _ E2). unfold mbind at 1.
  unfold get_algorithm, mbind at 1, mgets. rewrite Ha2, E3. done.
Qed.

(** [cx_hmac] with [CX_LAST] and without [CX_NO_REINIT] loses the
    key. The first MAC is the one of the key the context was initialised
    with; the next one, computed on the context the call left, is the MAC
    under the constant key of [0x36] bytes, whatever the key was. *)
Theorem cx_hmac_reinit_loses_key (md : cx_md_t) (k p q out : list Z) (c : cx_hmac_ctx) :
  md = CX_SHA256 \/ md = CX_SHA512 \/ md = CX_RIPEMD160 ->
  bytes_ok k -> bytes_ok p -> bytes_ok q ->
  zlen k < 2 ^ 20 -> zlen p < 2 ^ 20 - 128 -> zlen q < 2 ^ 20 - 128 -> zlen out = md_size md ->
  exists c1 c2 c3,
    spec_cx_hmac_init md (Some k) (zlen k) c = Ret 1 c1 /\
    cx_hmac CX_LAST (Some p) (zlen p) (Some out) (md_size md) c1
      = Ret (md_size md, Some (HMAC md k p)) c2 /\
    cx_hmac CX_LAST (Some q) (zlen q) (Some out) (md_size md) c2
      = Ret (md_size md, Some (HMAC md (replicate (Z.to_nat (hmac_block md)) 0x36) q)) c3.
Proof.
  intros Hmd Hk Hp Hq Hkl Hpl Hql Hout.
  assert (In md fixed_algorithms) as Hin by (destruct Hmd as [-> | [-> | ->]]; simpl; auto 6).
  destruct (fixed_algorithms_hmac md Hin) as (I & L & Hal & Hs & Hb & Hlim & Hpart & Hkey & Hnest).
  rewrite <- Hs, <- Hb in *. pose proof (sh_sizes (md := md)).
  set (K0 := replicate (Z.to_nat sh_block) IPAD).
  assert (bytes_ok K0) as HK0 by (apply Forall_replicate; unfold is_byte, IPAD; lia).
  assert (hmac_key md K0 = K0) as Hself.
  { unfold hmac_key. rewrite <- Hb. unfold K0. rewrite zlen_replicate.
    destruct (Z.ltb_spec sh_block (Z.of_nat (Z.to_nat sh_block))); [lia|].
    rewrite zlen_replicate. replace (sh_block - _) with 0 by lia. apply app_nil_r. }
  assert (forall K m, bytes_ok K -> bytes_ok m ->
    ztake (Z.min sh_size sh_size) (nested md K m) ++ zdrop (Z.min sh_size sh_size) out = nested md K m)
    as Hfull.
  { intros K m HK Hm. rewrite Z.min_id, (zdrop_all sh_size out), app_nil_r by lia. apply ztake_all.
    unfold nested. refine (Z.eq_le_incl _ _ (proj1 (sh_digest_ok _ _))).
    apply Forall_app. split; [by apply xor_pad_bytes|]. apply sh_digest_ok.
    apply Forall_app. split; [by apply xor_pad_bytes|done]. }
  destruct (hmac_init_ok md Hal c k Hk) as (c1 & E1 & R1); [lia|lia|].
  destruct (cx_hmac_last md c1 _ [] p out sh_size Hal Hmd R1 Hp) as (c2 & E2 & R2);
    [cbn [app]; lia | lia | lia | lia |].
  destruct (cx_hmac_last md c2 _ [] q out sh_size Hal Hmd R2 Hq) as (c3 & E3 & _);
    [cbn [app]; lia | lia | lia | lia |].
  exists c1, c2, c3. split; [exact E1|]. destruct (block_key_ok md Hal k Hk) as [Hkb _].
  rewrite E2, E3. cbn [app]. rewrite !Hfull by done. rewrite Z.min_id, !Hnest by done. unfold HMAC.
  change (replicate (Z.to_nat sh_block) 54) with K0. change (replicate (Z.to_nat sh_block) IPAD) with K0.
  by rewrite Hkey, Hself by done.
Qed.

Lemma cx_hmac_reinit_loses_key_witness :
  exists c1 c2 c3,
    spec_cx_hmac_init CX_SHA256 (Some [1; 2; 3]) 3 hmac_zero = Ret 1 c1 /\
    cx_hmac CX_LAST (Some [0x61]) 1 (Some (zeros 32)) 32 c1
      = Ret (32, Some (HMAC CX_SHA256 [1; 2; 3] [0x61])) c2 /\
    cx_hmac CX_LAST (Some [0x62]) 1 (Some (zeros 32)) 32 c2
      = Ret (32, Some (HMAC CX_SHA256 (replicate 64 0x36) [0x62])) c3.
Proof.
  refine (cx_hmac_reinit_loses_key CX_SHA256 [1; 2; 3] [0x61] [0x62] (zeros 32) hmac_zero
    _ _ _ _ _ _ _ _).
  - auto.
  - unfold bytes_ok, is_byte. repeat constructor; lia.
  - unfold bytes_ok, is_byte. repeat constructor; lia.
  - unfold bytes_ok, is_byte. repeat constructor; lia.
  - vm_compute. reflexivity.
  - vm_compute. reflexivity.
  - vm_compute. reflexivity.
  - vm_compute. reflexivity.
Defined.
