(* ===== verification/CxHkdf.v ===== *)
(** HKDF: [cx_hkdf_extract] and [spec_cx_hkdf_expand] of
    [src/bolos/cx_hkdf.c], and their refinement to RFC 5869. The local HMAC
    context is the state; its initial content is arbitrary. *)

From S2P Require Import Prelude HashCtx Sha2Ref CxSha256 CxSha512 CxRipemd160 CxHash CxHmac.

(** * Definitions *)

(** [hash_info->output_size]; a NULL description is dereferenced. *)
Definition info_output_size (hash_id : cx_md_t) : option Z :=
  match spec_cx_hash_get_info hash_id with
  | Some info => Some (output_size info)
  | None => None
  end.

(** [salt == NULL]: the salt is the [key] field of the context itself, set to
    zeros. [spec_cx_hmac_init] clears the whole context before it reads the
    key, so that the aliased salt still holds zeros when it is read. *)
Definition cx_hkdf_extract (hash_id : cx_md_t) (ikm : option (list Z)) (ikm_len : Z)
    (salt : option (list Z)) (salt_len : Z) (prk : list Z) : M cx_hmac_ctx (list Z) :=
  let! md_len := mlift (info_output_size hash_id) in
  let! (salt, salt_len) :=
    match salt with
    | None =>
        let! k := mgets key in
        let! k := mlift (memset_at k 0 0 md_len) in
        do! mmodify (set_key k) in
        mret (zeros md_len, md_len)
    | Some s => mret (s, salt_len)
    end in
  do! spec_cx_hmac_init hash_id (Some salt) salt_len in
  do! spec_cx_hmac_update ikm ikm_len in
  let! (_, prk', _) := spec_cx_hmac_final (Some prk) (Some md_len) in
  mret (default prk prk').

(** One round of the loop: the block [T] it leaves. *)
Definition hkdf_round (hash_id : cx_md_t) (prk : list Z) (prk_len : Z)
    (info : option (list Z)) (info_len md_len i offset : Z) (T : list Z)
  : M cx_hmac_ctx (list Z) :=
  do! spec_cx_hmac_init hash_id (Some prk) prk_len in
  do! (if 1 <? i then
         let! t := mlift (read_at T 0 offset) in
         spec_cx_hmac_update (Some t) offset
       else mret 0) in
  do! spec_cx_hmac_update info info_len in
  do! spec_cx_hmac_update (Some [i]) 1 in
  let! (_, T', _) := spec_cx_hmac_final (Some T) (Some md_len) in
  mret (default T T').

(** [for (i = 1; okm_len > 0; i++)], with [i] an [unsigned char]. A digest
    size of zero makes the loop endless; a positive one ends it after at most
    [okm_len] rounds, the fuel. *)
Fixpoint hkdf_loop (fuel : nat) (hash_id : cx_md_t) (prk : list Z) (prk_len : Z)
    (info : option (list Z)) (info_len md_len : Z)
    (i offset okm_len : Z) (T okm : list Z) : M cx_hmac_ctx (list Z) :=
  if 0 <? okm_len then
    match fuel with
    | O => mfault
    | S fuel' =>
        let! T := hkdf_round hash_id prk prk_len info info_len md_len i offset T in
        let offset := if okm_len <? md_len then okm_len else md_len in
        let! t := mlift (read_at T 0 offset) in
        let! okm := mlift (write_at okm ((i - 1) * md_len) t) in
        hkdf_loop fuel' hash_id prk prk_len info info_len md_len
          (w8 (i + 1)) offset (okm_len - offset) T okm
    end
  else mret okm.

Definition spec_cx_hkdf_expand (hash_id : cx_md_t) (prk : list Z) (prk_len : Z)
    (info : option (list Z)) (info_len : Z) (okm : list Z) (okm_len : Z)
  : M cx_hmac_ctx (list Z) :=
  let! md_len := mlift (info_output_size hash_id) in
  hkdf_loop (Z.to_nat okm_len) hash_id prk prk_len info info_len md_len
    1 0 okm_len (zeros MAX_HASH_SIZE) okm.

(** * Reference: RFC 5869 *)

Definition HKDF_Extract (md : cx_md_t) (salt ikm : list Z) : list Z := HMAC md salt ikm.

(** [T(0)] is empty and [T(i)] is the MAC of [T(i-1) | info | i]. *)
Fixpoint HKDF_T (md : cx_md_t) (prk info : list Z) (i : nat) : list Z :=
  match i with
  | O => []
  | S j => HMAC md prk (HKDF_T md prk info j ++ info ++ [Z.of_nat i])
  end.

(** The first [L] bytes of [T(1) | T(2) | ... | T(N)], [N = ceil(L/HashLen)]. *)
Definition HKDF_Expand (md : cx_md_t) (prk info : list Z) (L : Z) : list Z :=
  let N := (L + md_size md - 1) / md_size md in
  ztake L (concat (map (HKDF_T md prk info) (seq 1 (Z.to_nat N)))).

(** * Proofs *)

(** The refinement's sequence of the blocks: [blocks md prk info k] is
    [T(1) | ... | T(k)]. *)
Definition hkdf_blocks (md : cx_md_t) (prk info : list Z) (k : nat) : list Z :=
  concat (map (HKDF_T md prk info) (seq 1 k)).

Lemma hkdf_blocks_S md prk info k :
  hkdf_blocks md prk info (S k) = hkdf_blocks md prk info k ++ HKDF_T md prk info (S k).
Proof.
  unfold hkdf_blocks. rewrite seq_S, map_app, concat_app. simpl. by rewrite app_nil_r.
Qed.

Section hkdf.
Context (md : cx_md_t) (Hmd : In md fixed_algorithms).
Context (prk : list Z) (Hprk : bytes_ok prk) (Hprkl : zlen prk < 2 ^ 19).
Context (info : option (list Z)) (info_len : Z).
Context (Hinfo : bytes_ok (default [] info)) (Hinfol : zlen (default [] info) < 2 ^ 19)
  (Hlen : info_len = zlen (default [] info)).

Local Abbreviation HT := (HKDF_T md prk (default [] info)).

Lemma HMAC_ok k m :
  bytes_ok k -> bytes_ok m -> zlen (HMAC md k m) = md_size md /\ bytes_ok (HMAC md k m).
Proof.
  destruct (fixed_algorithms_hmac md Hmd) as (I & L & Hal & Hs & Hb & _ & _ & Hkey & Hn).
  intros Hk Hm. unfold HMAC. rewrite <- Hkey by done.
  change 0x36 with IPAD. change 0x5c with OPAD.
  destruct (block_key_ok md Hal k Hk) as [Hkb _]. rewrite <- Hn, <- Hs by done.
  unfold nested. apply sh_digest_ok. apply Forall_app. split; [by apply xor_pad_bytes|].
  apply sh_digest_ok. apply Forall_app. split; [by apply xor_pad_bytes|done].
Qed.

Lemma md_size_pos : 0 < md_size md <= 64 /\ hmac_block md <= 128 /\ 2 ^ 20 <= md_limit md.
Proof.
  destruct Hmd as [<-|[<-|[<-|[<-|[<-|[]]]]]];
    unfold md_limit, SHA512_LIMIT, RIPEMD160_LIMIT; simpl; lia.
Qed.

Lemma HKDF_T_ok i : 0 <= Z.of_nat i < 256 ->
  (i = O \/ zlen (HT i) = md_size md) /\ bytes_ok (HT i).
Proof.
  induction i as [|i IH]; intros Hi; [split; [by left|constructor]|].
  destruct IH as [_ IH]; [lia|]. cbn [HKDF_T].
  destruct (HMAC_ok prk (HT i ++ default [] info ++ [Z.of_nat (S i)]) Hprk) as [H1 H2];
    [|split; [by right|done]].
  apply Forall_app. split; [done|]. apply Forall_app. split; [done|].
  by apply Forall_cons_2; [|constructor].
Qed.

Lemma hkdf_blocks_length k : Z.of_nat k < 256 ->
  zlen (hkdf_blocks md prk (default [] info) k) = Z.of_nat k * md_size md.
Proof.
  induction k as [|k IH]; intros Hk; [done|]. rewrite hkdf_blocks_S, zlen_app, IH by lia.
  destruct (HKDF_T_ok (S k)) as [[?|E] _]; lia.
Qed.

(** The optional parts of the message of a round. *)
Lemma hkdf_optional `{!StreamHash md} `{!StreamHashLaws md} K c m (o : option (list Z)) n :
  is_allowed_digest md = true -> hmac_repr md K c m ->
  n = zlen (default [] o) ->
  zlen (m ++ default [] o) < sh_limit - sh_block -> zlen (default [] o) < sh_part ->
  exists r c', spec_cx_hmac_update o n c = Ret r c' /\ hmac_repr md K c' (m ++ default [] o).
Proof.
  intros Hal Hc -> Hl Hp. destruct o as [o|]; cbn [default] in *.
  - destruct (hmac_update_ok md Hal c K m o Hc Hl Hp) as (c' & E & R). by exists 1, c'.
  - exists 0, c. by rewrite app_nil_r.
Qed.

Lemma hkdf_round_ok i offset t r c :
  0 <= i < 256 -> zlen t = offset -> offset <= 64 -> bytes_ok t -> (i <= 1 -> t = []) ->
  zlen (t ++ r) = MAX_HASH_SIZE ->
  exists c', hkdf_round md prk (zlen prk) info info_len (md_size md) i offset (t ++ r) c
    = Ret (HMAC md prk (t ++ default [] info ++ [i]) ++ zdrop (md_size md) (t ++ r)) c'.
Proof.
  intros Hi Ht Hoff Htb Hi1 HT. destruct md_size_pos as (Hsz & Hblk & Hlim0).
  destruct (fixed_algorithms_hmac md Hmd) as (I & L & Hal & Hs & Hb & Hlim & Hpart & Hkey & Hn).
  rewrite <- Hs, <- Hb in *. unfold hkdf_round.
  destruct (hmac_init_ok md Hal c prk Hprk) as (c1 & E1 & R1); [lia|lia|].
  rewrite (mbind_ret _ _ _ _ _ E1).
  assert (exists r2 c2, (if 1 <? i then
       let! t := mlift (read_at (t ++ r) 0 offset) in spec_cx_hmac_update (Some t) offset
     else mret 0) c1 = Ret r2 c2 /\ hmac_repr md (block_key md prk) c2 t) as (r2 & c2 & E2 & R2).
  { destruct (Z.ltb_spec 1 i) as [Hlt|Hge].
    - rewrite (mlift_some _ _ _ _ (read_at_prefix t r offset Ht)).
      destruct (hkdf_optional _ c1 [] (Some t) offset Hal R1) as (r2 & c2 & E2 & R2);
        cbn [default app id]; [lia|lia|lia|]. by exists r2, c2.
    - exists 0, c1. by rewrite (Hi1 Hge). }
  rewrite (mbind_ret _ _ _ _ _ E2).
  destruct (hkdf_optional _ c2 t info info_len Hal R2 Hlen) as (r3 & c3 & E3 & R3);
    [rewrite zlen_app; lia|lia|]. rewrite (mbind_ret _ _ _ _ _ E3).
  destruct (hmac_update_ok md Hal c3 _ (t ++ default [] info) [i] R3) as (c4 & E4 & R4);
    [rewrite !zlen_app, zlen_cons, zlen_nil; lia | rewrite zlen_cons, zlen_nil; lia |].
  change (zlen [i]) with 1 in E4. rewrite (mbind_ret _ _ _ _ _ E4).
  assert (bytes_ok ((t ++ default [] info) ++ [i])) as Hm.
  { apply Forall_app. split; [by apply Forall_app|]. by apply Forall_cons_2; [|constructor]. }
  destruct (hmac_final_ok md Hal c4 _ _ (t ++ r) sh_size R4 Hm) as (c5 & E5 & _);
    [rewrite !zlen_app, zlen_cons, zlen_nil; lia | lia | change MAX_HASH_SIZE with 64 in HT; lia |].
  rewrite (mbind_ret _ _ _ _ _ E5), Z.min_id. cbn [default id]. exists c5. unfold mret. do 2 f_equal.
  destruct (HMAC_ok prk _ Hprk Hm) as [Hl _]. rewrite Hs in *.
  rewrite <- app_assoc in *.
  assert (nested md (block_key md prk) (t ++ default [] info ++ [i])
    = HMAC md prk (t ++ default [] info ++ [i])) as ->.
  { rewrite Hn; [by rewrite Hkey|by apply block_key_ok|done]. }
  apply ztake_all. lia.
Qed.

(** The loop after [k] full blocks: the counter, the length of the block
    fed back, the number of bytes left, and the output so far. *)
Definition hkdf_at (fuel : nat) (L : Z) (okm : list Z) (k : nat) (r : list Z) : M cx_hmac_ctx (list Z) :=
  let n := md_size md in
  hkdf_loop fuel md prk (zlen prk) info info_len n (w8 (Z.of_nat k + 1)) (zlen (HT k))
    (L - Z.of_nat k * n) (HT k ++ r)
    (hkdf_blocks md prk (default [] info) k ++ zdrop (Z.of_nat k * n) okm).

(** Writing the next (possibly last and partial) block. *)
Lemma hkdf_write k (okm : list Z) m :
  Z.of_nat k < 255 -> 0 <= m <= md_size md -> Z.of_nat k * md_size md + m <= zlen okm ->
  write_at (hkdf_blocks md prk (default [] info) k ++ zdrop (Z.of_nat k * md_size md) okm)
    (Z.of_nat k * md_size md) (ztake m (HT (S k)))
  = Some (hkdf_blocks md prk (default [] info) k ++ ztake m (HT (S k)) ++
          zdrop (Z.of_nat k * md_size md + m) okm).
Proof.
  intros Hk Hm Hl. destruct md_size_pos as (Hsz & _).
  pose proof (hkdf_blocks_length k ltac:(lia)) as Hb.
  destruct (HKDF_T_ok (S k) ltac:(lia)) as [[?|Ht] _]; [done|].
  rewrite write_at_ok; rewrite ?zlen_app, ?zlen_zdrop, ?zlen_ztake, ?Hb; try lia.
  rewrite ztake_app_l by lia. do 3 f_equal.
  rewrite <- zdrop_zdrop by lia. rewrite zdrop_app_l by lia. by rewrite zdrop_zdrop by lia.
Qed.

Lemma hkdf_step fuel L okm k r c :
  Z.of_nat k < 255 -> zlen (HT k ++ r) = MAX_HASH_SIZE ->
  0 < L - Z.of_nat k * md_size md -> L <= zlen okm ->
  exists r' c', zlen (HT (S k) ++ r') = MAX_HASH_SIZE /\
    hkdf_at (S fuel) L okm k r c =
    if L - Z.of_nat k * md_size md <=? md_size md
    then Ret (ztake L (hkdf_blocks md prk (default [] info) (S k)) ++ zdrop L okm) c'
    else hkdf_at fuel L okm (S k) r' c'.
Proof.
  intros Hk HTl Hrem HL. destruct md_size_pos as (Hsz & _).
  destruct (HKDF_T_ok k ltac:(lia)) as [Htl Htb].
  destruct (HKDF_T_ok (S k) ltac:(lia)) as [[?|Ht'] _]; [done|].
  pose proof (hkdf_blocks_length k ltac:(lia)) as Hb.
  assert (w8 (Z.of_nat k + 1) = Z.of_nat (S k)) as Hi by (unfold w8; rewrite Z.mod_small; lia).
  unfold hkdf_at at 1. rewrite Hi. cbn [hkdf_loop].
  destruct (Z.ltb_spec 0 (L - Z.of_nat k * md_size md)); [|lia].
  destruct (hkdf_round_ok (Z.of_nat (S k)) (zlen (HT k)) (HT k) r c) as (c1 & E1); try done.
  { lia. } { destruct Htl as [H0|H0]; [rewrite H0; done|lia]. }
  { intros. by replace k with O by lia. }
  rewrite (mbind_ret _ _ _ _ _ E1). fold (HT (S k)). clear E1.
  change (HMAC md prk (HT k ++ default [] info ++ [Z.of_nat (S k)])) with (HT (S k)).
  exists (zdrop (md_size md) (HT k ++ r)), c1.
  assert (zlen (HT (S k) ++ zdrop (md_size md) (HT k ++ r)) = MAX_HASH_SIZE) as HT'.
  { rewrite zlen_app, zlen_zdrop; rewrite ?HTl; change MAX_HASH_SIZE with 64; lia. }
  split; [exact HT'|]. set (m := if _ <? _ then _ else _).
  assert (m = Z.min (L - Z.of_nat k * md_size md) (md_size md)) as Hm
    by (unfold m; destruct (Z.ltb_spec (L - Z.of_nat k * md_size md) (md_size md)); lia).
  assert (read_at (HT (S k) ++ zdrop (md_size md) (HT k ++ r)) 0 m = Some (ztake m (HT (S k)))) as ->.
  { rewrite read_at_ok by (change MAX_HASH_SIZE with 64 in HT'; lia). rewrite zdrop_0. f_equal.
    unfold ztake. apply take_app_le. unfold zlen in *. lia. }
  unfold mlift at 1, mbind at 1. replace (Z.of_nat (S k) - 1) with (Z.of_nat k) by lia.
  rewrite (mlift_some _ _ _ _ (hkdf_write k okm m ltac:(lia) ltac:(lia) ltac:(lia))).
  destruct (Z.leb_spec (L - Z.of_nat k * md_size md) (md_size md)) as [Hlast|Hmore].
  - replace m with (L - Z.of_nat k * md_size md) by lia.
    rewrite Z.sub_diag. rewrite app_assoc.
    replace (hkdf_blocks md prk (default [] info) k ++ ztake (L - Z.of_nat k * md_size md) (HT (S k)))
      with (ztake L (hkdf_blocks md prk (default [] info) (S k))).
    2:{ rewrite hkdf_blocks_S. unfold ztake. rewrite take_app_ge by (unfold zlen in Hb; lia).
        do 2 f_equal. unfold zlen in Hb. lia. }
    replace (Z.of_nat k * md_size md + (L - Z.of_nat k * md_size md)) with L by lia.
    by destruct fuel.
  - replace m with (md_size md) by lia. unfold hkdf_at. rewrite (ztake_all _ (HT (S k))) by lia.
    rewrite hkdf_blocks_S, <- app_assoc, Ht'.
    replace (L - Z.of_nat (S k) * md_size md) with (L - Z.of_nat k * md_size md - md_size md) by lia.
    by replace (Z.of_nat (S k) * md_size md) with (Z.of_nat k * md_size md + md_size md) by lia.
Qed.
(** [j] full blocks, as long as more bytes are asked for. *)
Lemma hkdf_rounds j fuel L okm k r c :
  Z.of_nat (k + j) <= 255 -> zlen (HT k ++ r) = MAX_HASH_SIZE ->
  0 < L - Z.of_nat (k + j) * md_size md -> L <= zlen okm ->
  exists r' c', zlen (HT (k + j) ++ r') = MAX_HASH_SIZE /\
    hkdf_at (j + fuel) L okm k r c = hkdf_at fuel L okm (k + j) r' c'.
Proof.
  destruct md_size_pos as (Hsz & _).
  revert k r c. induction j as [|j IH]; intros k r c Hk HTl Hrem HL.
  - exists r, c. by rewrite Nat.add_0_r.
  - destruct (hkdf_step (j + fuel) L okm k r c) as (r1 & c1 & HT1 & E1); [lia|done|nia|done|].
    destruct (IH (S k) r1 c1) as (r2 & c2 & HT2 & E2); [lia|done| |done|].
    { by replace (S k + j)%nat with (k + S j)%nat by lia. }
    exists r2, c2. replace (k + S j)%nat with (S k + j)%nat by lia. split; [done|].
    cbn [Nat.add] in *. rewrite E1. destruct (Z.leb_spec (L - Z.of_nat k * md_size md) (md_size md)); [nia|].
    exact E2.
Qed.

Lemma hkdf_start L okm c :
  spec_cx_hkdf_expand md prk (zlen prk) info info_len okm L c
  = hkdf_at (Z.to_nat L) L okm 0 (zeros MAX_HASH_SIZE) c.
Proof.
  unfold spec_cx_hkdf_expand. rewrite (mlift_some _ _ _ (md_size md));
    [|by destruct Hmd as [<-|[<-|[<-|[<-|[<-|[]]]]]]].
  unfold hkdf_at. change (w8 (Z.of_nat 0 + 1)) with 1. change (zlen (HT 0)) with 0.
  by rewrite !Z.mul_0_l, Z.sub_0_r, zdrop_0.
Qed.
End hkdf.

(** * Properties *)

(** C28: for any pseudo-random key, any optional [info] and any
    length up to 255 digests, the bound of RFC 5869, the loop ends and writes
    HKDF-Expand in the first [okm_len] bytes of the output, and nothing
    beyond. *)
Theorem hkdf_expand_rfc5869 (md : cx_md_t) (prk : list Z) (info : option (list Z)) (okm : list Z)
    (L : Z) (c : cx_hmac_ctx) :
  In md fixed_algorithms -> bytes_ok prk -> zlen prk < 2 ^ 19 ->
  bytes_ok (default [] info) -> zlen (default [] info) < 2 ^ 19 ->
  0 <= L <= 255 * md_size md -> L <= zlen okm ->
  exists c', spec_cx_hkdf_expand md prk (zlen prk) info (zlen (default [] info)) okm L c
    = Ret (HKDF_Expand md prk (default [] info) L ++ zdrop L okm) c'.
Proof.
  intros Hmd Hprk Hpl Hi Hil HL Hout. destruct (md_size_pos md Hmd) as (Hsz & _).
  rewrite hkdf_start by done. unfold HKDF_Expand. fold (hkdf_blocks md prk (default [] info)
    (Z.to_nat ((L + md_size md - 1) / md_size md))).
  set (n := md_size md) in *. set (N := (L + n - 1) / n).
  destruct (decide (L = 0)) as [-> | HL0].
  { exists c. by rewrite ztake_0. }
  assert (1 <= N <= 255 /\ (N - 1) * n < L <= N * n) as (HN & HNL).
  { unfold N. clearbody n. pose proof (Z.div_mod (L + n - 1) n ltac:(lia)).
    pose proof (Z.mod_pos_bound (L + n - 1) n ltac:(lia)).
    set (q := (L + n - 1) / n) in *. clearbody q. nia. }
  clearbody N. set (j := Z.to_nat (N - 1)).
  replace (Z.to_nat L) with (j + S (Z.to_nat L - S j))%nat by nia.
  destruct (hkdf_rounds md Hmd prk Hprk Hpl info _ Hi Hil eq_refl j (S (Z.to_nat L - S j)) L okm 0
    (zeros MAX_HASH_SIZE) c) as (r1 & c1 & HT1 & ->); [lia|done|fold n;nia|done|].
  destruct (hkdf_step md Hmd prk Hprk Hpl info _ Hi Hil eq_refl (Z.to_nat L - S j) L okm (0 + j) r1 c1)
    as (r2 & c2 & _ & ->); [lia|done|fold n;nia|done|].
  fold n. destruct (Z.leb_spec (L - Z.of_nat (0 + j) * n) n); [|nia].
  exists c2. by replace (S (0 + j)) with (Z.to_nat N) by lia.
Qed.

Lemma hkdf_expand_rfc5869_witness :
  exists c', spec_cx_hkdf_expand CX_SHA256 (zeros 32) 32 (Some [0xf0; 0xf1]) 2 (zeros 50) 42 hmac_zero
    = Ret (HKDF_Expand CX_SHA256 (zeros 32) [0xf0; 0xf1] 42 ++ zdrop 42 (zeros 50)) c'.
Proof.
  refine (hkdf_expand_rfc5869 CX_SHA256 (zeros 32) (Some [0xf0; 0xf1]) (zeros 50) 42 hmac_zero
    _ _ _ _ _ _ _).
  - simpl. auto.
  - apply zeros_bytes.
  - vm_compute. reflexivity.
  - unfold bytes_ok, is_byte. repeat constructor; lia.
  - vm_compute. reflexivity.
  - simpl. lia.
  - vm_compute. discriminate.
Defined.

(** The length is not checked, and the 8-bit block counter wraps.
    When more than 255 digests are asked for, the 256th block is written one
    digest before the start of the output, whatever the size of the output:
    the access leaves the buffer. *)
Theorem hkdf_expand_overflow (md : cx_md_t) (prk : list Z) (info : option (list Z)) (okm : list Z)
    (L : Z) (c : cx_hmac_ctx) :
  In md fixed_algorithms -> bytes_ok prk -> zlen prk < 2 ^ 19 ->
  bytes_ok (default [] info) -> zlen (default [] info) < 2 ^ 19 ->
  255 * md_size md < L -> L <= zlen okm ->
  spec_cx_hkdf_expand md prk (zlen prk) info (zlen (default [] info)) okm L c = Fault.
Proof.
  intros Hmd Hprk Hpl Hi Hil HL Hout. destruct (md_size_pos md Hmd) as (Hsz & _).
  rewrite hkdf_start by done.
  replace (Z.to_nat L) with (255 + S (Z.to_nat L - 256))%nat by lia.
  destruct (hkdf_rounds md Hmd prk Hprk Hpl info _ Hi Hil eq_refl 255 (S (Z.to_nat L - 256)) L okm 0
    (zeros MAX_HASH_SIZE) c) as (r1 & c1 & HT1 & ->); [lia|done|lia|done|].
  cbn [Nat.add] in *. unfold hkdf_at. change (w8 (Z.of_nat 255 + 1)) with 0.
  cbn [hkdf_loop]. destruct (Z.ltb_spec 0 (L - Z.of_nat 255 * md_size md)); [|lia].
  set (T := HKDF_T _ _ _ _ ++ _) in *.
  destruct (hkdf_round_ok md Hmd prk Hprk Hpl info _ Hi Hil eq_refl 0 0 [] T c1) as (c2 & E2);
    [lia|done|lia|constructor|done|done|].
  unfold mbind at 1. change (hkdf_round md prk (zlen prk) info (zlen (default [] info)) (md_size md) 0
    (zlen (HKDF_T md prk (default [] info) 255)) T c1) with
    (hkdf_round md prk (zlen prk) info (zlen (default [] info)) (md_size md) 0 0 ([] ++ T) c1).
  rewrite E2. unfold mbind at 1, mlift at 1. destruct (read_at _ 0 _) as [t|]; [|done].
  unfold mbind, mlift, write_at. by destruct (Z.leb_spec 0 ((0 - 1) * md_size md)); [lia|].
Qed.

Lemma hkdf_expand_overflow_witness :
  spec_cx_hkdf_expand CX_RIPEMD160 [1] 1 None 0 (zeros 5200) 5101 hmac_zero = Fault.
Proof.
  refine (hkdf_expand_overflow CX_RIPEMD160 [1] None (zeros 5200) 5101 hmac_zero _ _ _ _ _ _ _).
  - simpl. auto 6.
  - unfold bytes_ok, is_byte. repeat constructor; lia.
  - vm_compute. reflexivity.
  - constructor.
  - vm_compute. reflexivity.
  - simpl. lia.
  - vm_compute. discriminate.
Defined.

(** HKDF-Extract is the MAC of the input under the salt;
    without a salt, under a digest of zeros. *)
Theorem hkdf_extract_rfc5869 (md : cx_md_t) (ikm prk : list Z) (salt : option (list Z))
    (c : cx_hmac_ctx) :
  In md fixed_algorithms -> bytes_ok ikm -> zlen ikm < 2 ^ 19 ->
  bytes_ok (default [] salt) -> zlen (default [] salt) < 2 ^ 19 -> zlen prk = md_size md ->
  zlen (key c) = 128 ->
  exists c', cx_hkdf_extract md (Some ikm) (zlen ikm) salt (zlen (default [] salt)) prk c
    = Ret (HKDF_Extract md (default (zeros (md_size md)) salt) ikm) c'.
Proof.
  intros Hmd Hikm Hil Hsalt Hsl Hprk Hkey. destruct (md_size_pos md Hmd) as (Hsz & Hblk & Hlim).
  assert (forall s c1, bytes_ok s -> zlen s < 2 ^ 19 -> exists c',
    (do! spec_cx_hmac_init md (Some s) (zlen s) in do! spec_cx_hmac_update (Some ikm) (zlen ikm) in
     let! (_, prk', _) := spec_cx_hmac_final (Some prk) (Some (md_size md)) in
     mret (default prk prk')) c1 = Ret (HMAC md s ikm) c') as Hmac.
  { intros s c1 Hs Hsl'. destruct (HMAC_ok md Hmd s ikm Hs Hikm) as [Hm _]. revert Hm. unfold HMAC.
    destruct (fixed_algorithms_hmac md Hmd) as (I & L & Hal & Hsize & Hb & Hl & Hpart & Hk & Hn).
    change 0x36 with IPAD. change 0x5c with OPAD. pose proof (block_key_ok md Hal s Hs) as [Hkb _].
    rewrite <- Hk, <- Hn, <- Hsize in * by done. rewrite <- Hb in Hblk. intros Hm.
    destruct (hmac_init_ok md Hal c1 s Hs) as (c2 & E2 & R2); [lia|lia|].
    destruct (hmac_update_ok md Hal c2 _ [] ikm R2) as (c3 & E3 & R3); [cbn [app]; lia|lia|].
    destruct (hmac_final_ok md Hal c3 _ _ prk sh_size R3 Hikm) as (c4 & E4 & _); [cbn [app]; lia|lia|lia|].
    exists c4. rewrite (mbind_ret _ _ _ _ _ E2), (mbind_ret _ _ _ _ _ E3), (mbind_ret _ _ _ _ _ E4).
    rewrite Z.min_id, (zdrop_all _ prk), app_nil_r by lia. cbn [default id app].
    by rewrite ztake_all by (cbn [app]; lia). }
  unfold cx_hkdf_extract, HKDF_Extract.
  rewrite (mlift_some _ _ _ (md_size md)); [|by destruct Hmd as [<-|[<-|[<-|[<-|[<-|[]]]]]]].
  destruct salt as [s|]; cbn [default id] in *; [exact (Hmac s c Hsalt Hsl)|].
  unfold mbind at 1. unfold mgets at 1, mbind at 1. unfold memset_at.
  destruct (Z.leb_spec 0 (md_size md)); [|lia].
  rewrite write_at_ok by (rewrite ?zlen_replicate; lia). unfold mlift at 1, mbind at 1.
  unfold mmodify, mbind at 1, mret at 1.
  set (c1 := set_key _ c). destruct (Hmac (zeros (md_size md)) c1) as (c' & E);
    [apply zeros_bytes | rewrite zlen_zeros; lia|].
  rewrite zlen_zeros in E by lia. exists c'. exact E.
Qed.

Lemma hkdf_extract_rfc5869_witness :
  exists c', cx_hkdf_extract CX_SHA256 (Some [0x0b; 0x0b]) 2 None 0 (zeros 32) hmac_zero
    = Ret (HKDF_Extract CX_SHA256 (zeros 32) [0x0b; 0x0b]) c'.
Proof.
  refine (hkdf_extract_rfc5869 CX_SHA256 [0x0b; 0x0b] (zeros 32) None hmac_zero _ _ _ _ _ _ _).
  - simpl. auto.
  - unfold bytes_ok, is_byte. repeat constructor; lia.
  - vm_compute. reflexivity.
  - constructor.
  - vm_compute. reflexivity.
  - reflexivity.
  - reflexivity.
Defined.
