(* ===== verification/LedgerProtocol.v ===== *)
(** The Ledger transport protocol: [src/bolos/io/sdk/protocol/src/
    ledger_protocol.c]. It cuts the APDUs a device sends in chunks and
    reassembles the ones it receives. The main theorem sends an APDU with one
    handle and receives it with another. *)

From S2P Require Import Prelude CxUtils.

(** * Definitions *)

Definition TAG_GET_PROTOCOL_VERSION : Z := 0x00.
Definition TAG_ALLOCATE_CHANNEL : Z := 0x01.
Definition TAG_PING : Z := 0x02.
Definition TAG_ABORT : Z := 0x03.
Definition TAG_APDU : Z := 0x05.
Definition TAG_MTU : Z := 0x08.

Definition protocol_version : list Z := [0x00; 0x00; 0x00; 0x00].

Inductive apdu_status := APDU_STATUS_WAITING | APDU_STATUS_NEED_MORE_DATA | APDU_STATUS_COMPLETE.

#[export] Instance apdu_status_eq_dec : EqDecision apdu_status.
Proof. solve_decision. Defined.

(** The buffers a handle points to are part of it. [tx_apdu_buffer] is [None]
    for NULL; otherwise it is what the caller's buffer holds, which the
    caller leaves unchanged until the last chunk is sent. *)
Record ledger_protocol_t := mk_ledger_protocol {
  type : Z;
  tx_apdu_buffer : option (list Z);
  tx_apdu_length : Z;
  tx_apdu_sequence_number : Z;
  tx_apdu_offset : Z;
  tx_chunk_buffer : list Z;
  tx_chunk_buffer_size : Z;
  tx_chunk_length : Z;
  rx_apdu_buffer : list Z;
  rx_apdu_buffer_size : Z;
  rx_apdu_status : apdu_status;
  rx_apdu_sequence_number : Z;
  rx_apdu_length : Z;
  rx_apdu_offset : Z;
  mtu : Z;
  mtu_negotiated : Z;
}.

(** Assignments to the fields. *)
Definition set_type (x : Z) (h : ledger_protocol_t) : ledger_protocol_t :=
  mk_ledger_protocol x (tx_apdu_buffer h) (tx_apdu_length h) (tx_apdu_sequence_number h)
    (tx_apdu_offset h) (tx_chunk_buffer h) (tx_chunk_buffer_size h) (tx_chunk_length h)
    (rx_apdu_buffer h) (rx_apdu_buffer_size h) (rx_apdu_status h) (rx_apdu_sequence_number h)
    (rx_apdu_length h) (rx_apdu_offset h) (mtu h) (mtu_negotiated h).

(** [tx_apdu_buffer], [tx_apdu_length], [tx_apdu_sequence_number] and
    [tx_apdu_offset]. *)
Definition set_tx_apdu (b : option (list Z)) (len seq off : Z) (h : ledger_protocol_t)
  : ledger_protocol_t :=
  mk_ledger_protocol (type h) b len seq off
    (tx_chunk_buffer h) (tx_chunk_buffer_size h) (tx_chunk_length h)
    (rx_apdu_buffer h) (rx_apdu_buffer_size h) (rx_apdu_status h) (rx_apdu_sequence_number h)
    (rx_apdu_length h) (rx_apdu_offset h) (mtu h) (mtu_negotiated h).

Definition set_tx_chunk_buffer (b : list Z) (h : ledger_protocol_t) : ledger_protocol_t :=
  mk_ledger_protocol (type h) (tx_apdu_buffer h) (tx_apdu_length h) (tx_apdu_sequence_number h)
    (tx_apdu_offset h) b (tx_chunk_buffer_size h) (tx_chunk_length h)
    (rx_apdu_buffer h) (rx_apdu_buffer_size h) (rx_apdu_status h) (rx_apdu_sequence_number h)
    (rx_apdu_length h) (rx_apdu_offset h) (mtu h) (mtu_negotiated h).

(** An [uint8_t] field. *)
Definition set_tx_chunk_length (x : Z) (h : ledger_protocol_t) : ledger_protocol_t :=
  mk_ledger_protocol (type h) (tx_apdu_buffer h) (tx_apdu_length h) (tx_apdu_sequence_number h)
    (tx_apdu_offset h) (tx_chunk_buffer h) (tx_chunk_buffer_size h) (w8 x)
    (rx_apdu_buffer h) (rx_apdu_buffer_size h) (rx_apdu_status h) (rx_apdu_sequence_number h)
    (rx_apdu_length h) (rx_apdu_offset h) (mtu h) (mtu_negotiated h).

Definition set_rx_apdu_buffer (b : list Z) (h : ledger_protocol_t) : ledger_protocol_t :=
  mk_ledger_protocol (type h) (tx_apdu_buffer h) (tx_apdu_length h) (tx_apdu_sequence_number h)
    (tx_apdu_offset h) (tx_chunk_buffer h) (tx_chunk_buffer_size h) (tx_chunk_length h)
    b (rx_apdu_buffer_size h) (rx_apdu_status h) (rx_apdu_sequence_number h)
    (rx_apdu_length h) (rx_apdu_offset h) (mtu h) (mtu_negotiated h).

Definition set_rx_status (x : apdu_status) (h : ledger_protocol_t) : ledger_protocol_t :=
  mk_ledger_protocol (type h) (tx_apdu_buffer h) (tx_apdu_length h) (tx_apdu_sequence_number h)
    (tx_apdu_offset h) (tx_chunk_buffer h) (tx_chunk_buffer_size h) (tx_chunk_length h)
    (rx_apdu_buffer h) (rx_apdu_buffer_size h) x (rx_apdu_sequence_number h)
    (rx_apdu_length h) (rx_apdu_offset h) (mtu h) (mtu_negotiated h).

Definition set_rx_sequence_number (x : Z) (h : ledger_protocol_t) : ledger_protocol_t :=
  mk_ledger_protocol (type h) (tx_apdu_buffer h) (tx_apdu_length h) (tx_apdu_sequence_number h)
    (tx_apdu_offset h) (tx_chunk_buffer h) (tx_chunk_buffer_size h) (tx_chunk_length h)
    (rx_apdu_buffer h) (rx_apdu_buffer_size h) (rx_apdu_status h) (w16 x)
    (rx_apdu_length h) (rx_apdu_offset h) (mtu h) (mtu_negotiated h).

Definition set_rx_length (x : Z) (h : ledger_protocol_t) : ledger_protocol_t :=
  mk_ledger_protocol (type h) (tx_apdu_buffer h) (tx_apdu_length h) (tx_apdu_sequence_number h)
    (tx_apdu_offset h) (tx_chunk_buffer h) (tx_chunk_buffer_size h) (tx_chunk_length h)
    (rx_apdu_buffer h) (rx_apdu_buffer_size h) (rx_apdu_status h) (rx_apdu_sequence_number h)
    (w16 x) (rx_apdu_offset h) (mtu h) (mtu_negotiated h).

Definition set_rx_offset (x : Z) (h : ledger_protocol_t) : ledger_protocol_t :=
  mk_ledger_protocol (type h) (tx_apdu_buffer h) (tx_apdu_length h) (tx_apdu_sequence_number h)
    (tx_apdu_offset h) (tx_chunk_buffer h) (tx_chunk_buffer_size h) (tx_chunk_length h)
    (rx_apdu_buffer h) (rx_apdu_buffer_size h) (rx_apdu_status h) (rx_apdu_sequence_number h)
    (rx_apdu_length h) (w16 x) (mtu h) (mtu_negotiated h).

(** [memcpy(&rx_apdu_buffer[off], src, |src|)], [tx_chunk_buffer] alike. *)
Definition rx_write (off : Z) (src : list Z) : M ledger_protocol_t unit :=
  let! b := mgets rx_apdu_buffer in
  let! b := mlift (write_at b off src) in
  mmodify (set_rx_apdu_buffer b).

Definition tx_write (off : Z) (src : list Z) : M ledger_protocol_t unit :=
  let! b := mgets tx_chunk_buffer in
  let! b := mlift (write_at b off src) in
  mmodify (set_tx_chunk_buffer b).

Definition tx_clear (off n : Z) : M ledger_protocol_t unit :=
  let! b := mgets tx_chunk_buffer in
  let! b := mlift (memset_at b off 0 n) in
  mmodify (set_tx_chunk_buffer b).

Definition tx_encode (off v : Z) : M ledger_protocol_t unit :=
  let! b := mgets tx_chunk_buffer in
  let! b := mlift (U2BE_ENCODE b off v) in
  mmodify (set_tx_chunk_buffer b).

(** The bytes of the chunk from [from] on, the APDU data, are copied at the
    current offset, cut to the announced length. *)
Definition rx_store (buffer : list Z) (from length : Z) : M ledger_protocol_t unit :=
  let! off := mgets rx_apdu_offset in
  let! total := mgets rx_apdu_length in
  let length := if total <? off + length then w16 (total - off) else length in
  let! data := mlift (read_at buffer from length) in
  do! rx_write (1 + off) data in
  do! mmodify (set_rx_offset (off + length)) in
  let! off := mgets rx_apdu_offset in
  let! seq := mgets rx_apdu_sequence_number in
  if off =? total then
    do! mmodify (set_rx_length (total + 1)) in
    do! mmodify (set_rx_sequence_number 0) in
    mmodify (set_rx_status APDU_STATUS_COMPLETE)
  else
    do! mmodify (set_rx_sequence_number (seq + 1)) in
    mmodify (set_rx_status APDU_STATUS_NEED_MORE_DATA).

Definition process_apdu_chunk (buffer : list Z) (length : Z) : M ledger_protocol_t unit :=
  let! seq := mgets rx_apdu_sequence_number in
  let! bad_seq :=
    (if length <? 2 then mret true
     else let! s := mlift (U2BE buffer 0) in mret (negb (s =? seq))) in
  if bad_seq then mmodify (set_rx_status APDU_STATUS_WAITING)
  else if (length <? 4) && (seq =? 0) then mmodify (set_rx_status APDU_STATUS_WAITING)
  else if seq =? 0 then
    let! t := mgets type in
    do! rx_write 0 [t] in
    do! mmodify (set_rx_status APDU_STATUS_NEED_MORE_DATA) in
    let! total := mlift (U2BE buffer 2) in
    do! mmodify (set_rx_length total) in
    let! size := mgets rx_apdu_buffer_size in
    if size <? total then
      do! mmodify (set_rx_status APDU_STATUS_WAITING) in
      mmodify (set_rx_length size)
    else
      do! mmodify (set_rx_offset 0) in
      rx_store buffer 4 (length - 4)
  else rx_store buffer 2 (length - 2).

Definition LEDGER_PROTOCOL_init (t : Z) : M ledger_protocol_t unit :=
  do! mmodify (set_rx_status APDU_STATUS_WAITING) in
  do! mmodify (set_rx_sequence_number 0) in
  mmodify (set_type t).

(** [switch (buffer[2])]; [size] is [tx_chunk_buffer_size]. *)
Definition rx_switch (buffer : list Z) (length size tag : Z) : M ledger_protocol_t unit :=
  if tag =? TAG_GET_PROTOCOL_VERSION then
    do! tx_write 2 [TAG_GET_PROTOCOL_VERSION] in
    let n := Z.min (zlen protocol_version) (size - 3) in
    do! mmodify (set_tx_chunk_length n) in
    let! v := mlift (read_at protocol_version 0 (w8 n)) in
    do! tx_write 3 v in
    mmodify (set_tx_chunk_length (w8 n + 3))
  else if tag =? TAG_ALLOCATE_CHANNEL then
    do! tx_write 2 [TAG_ALLOCATE_CHANNEL] in
    mmodify (set_tx_chunk_length 3)
  else if tag =? TAG_PING then
    let n := Z.min size length in
    do! mmodify (set_tx_chunk_length n) in
    let! echo := mlift (read_at buffer 0 (w8 n)) in
    tx_write 0 echo
  else if tag =? TAG_APDU then
    process_apdu_chunk (drop 3 buffer) (length - 3)
  else if tag =? TAG_MTU then
    let! m := mgets mtu in
    do! tx_write 2 [TAG_MTU; 0; 0; 0; 1; w8 (m - 2)] in
    do! mmodify (set_tx_chunk_length 8) in
    tx_encode 4 (m - 2)
  else mret tt.

Definition LEDGER_PROTOCOL_rx (buffer : option (list Z)) (length : Z) : M ledger_protocol_t unit :=
  match buffer with
  | None => mret tt
  | Some buffer =>
      if length <? 3 then mret tt
      else
        let! size := mgets tx_chunk_buffer_size in
        do! tx_clear 0 size in
        let! channel := mlift (read_at buffer 0 2) in
        do! tx_write 0 channel in
        let! tag := mlift (buffer !! 2%nat) in
        rx_switch buffer length size tag
  end.

(** The first chunk of an APDU ([buffer] is not NULL), or the next one. *)
Definition LEDGER_PROTOCOL_tx (buffer : option (list Z)) (length : Z) : M ledger_protocol_t unit :=
  let! pending := mgets tx_apdu_buffer in
  if bool_decide (buffer = None) && bool_decide (pending = None) then mret tt
  else
    do! match buffer with
        | Some b => mmodify (set_tx_apdu (Some b) length 0 0)
        | None => mret tt
        end in
    let! size := mgets tx_chunk_buffer_size in
    do! tx_clear 2 (size - 2) in
    do! tx_write 2 [TAG_APDU] in
    let! seq := mgets tx_apdu_sequence_number in
    do! tx_encode 3 seq in
    let! total := mgets tx_apdu_length in
    let! chunk_offset :=
      (if seq =? 0 then do! tx_encode 5 total in mret 7 else mret 5) in
    let! m := mgets mtu in
    let! off := mgets tx_apdu_offset in
    let! apdu := mgets tx_apdu_buffer in
    let! apdu := mlift apdu in
    if m + off <? total + chunk_offset then
      let! data := mlift (read_at apdu off (m - chunk_offset)) in
      do! tx_write chunk_offset data in
      do! mmodify (set_tx_apdu (Some apdu) total (w16 (seq + 1)) (w16 (off + (m - chunk_offset)))) in
      mmodify (set_tx_chunk_length m)
    else
      let! data := mlift (read_at apdu off (total - off)) in
      do! tx_write chunk_offset data in
      do! mmodify (set_tx_apdu None total seq total) in
      mmodify (set_tx_chunk_length (w16 (chunk_offset + (total - off)))).

(** ** A host and a device

    The driver sends the chunks one after the other: the first with the APDU,
    the next ones with a NULL buffer as long as the APDU is pending; each
    time the first [mtu] bytes of the chunk buffer go to the peer. *)
Definition packet : M ledger_protocol_t (list Z) :=
  let! b := mgets tx_chunk_buffer in
  let! m := mgets mtu in
  mret (ztake m b).

Fixpoint send_rest (fuel : nat) : M ledger_protocol_t (list (list Z)) :=
  let! pending := mgets tx_apdu_buffer in
  match pending, fuel with
  | None, _ => mret []
  | Some _, O => mfault
  | Some _, S fuel' =>
      do! LEDGER_PROTOCOL_tx None 0 in
      let! p := packet in
      let! ps := send_rest fuel' in
      mret (p :: ps)
  end.

Definition send (apdu : list Z) : M ledger_protocol_t (list (list Z)) :=
  do! LEDGER_PROTOCOL_tx (Some apdu) (zlen apdu) in
  let! p := packet in
  let! ps := send_rest (length apdu) in
  mret (p :: ps).

Fixpoint receive (packets : list (list Z)) : M ledger_protocol_t unit :=
  match packets with
  | [] => mret tt
  | p :: ps => do! LEDGER_PROTOCOL_rx (Some p) (zlen p) in receive ps
  end.

(** * Chunks *)

Definition be16 (v : Z) : list Z := [v / 256; v mod 256].

(** What precedes the data in a chunk: the tag, the sequence number and, in
    the first chunk, the length of the APDU. *)
Definition chunk_header (k total : Z) : list Z :=
  [TAG_APDU] ++ be16 k ++ (if k =? 0 then be16 total else []).

Definition header_end (k : Z) : Z := if k =? 0 then 7 else 5.

(** A chunk: the channel, the header and the data, padded with zeros. *)
Definition chunk (channel : list Z) (k total : Z) (data : list Z) (size : Z) : list Z :=
  channel ++ chunk_header k total ++ data ++ zeros (size - header_end k - zlen data).

Lemma be16_encode v : 0 <= v < 65536 ->
  [Z.land (Z.shiftr v 8) 0xFF; Z.land v 0xFF] = be16 v.
Proof. intros H. destruct (bytes_of_u16 v H) as [-> ->]. done. Qed.

Lemma U2BE_be16 pre v rest off :
  0 <= v < 65536 -> off = zlen pre -> U2BE (pre ++ be16 v ++ rest) off = Some v.
Proof.
  intros Hv ->. pose proof (zlen_nonneg pre).
  rewrite (U2BE_split _ _ (v / 256) (v mod 256)); [f_equal; div_mod_lia|done| | | |].
  - unfold is_byte. div_mod_lia.
  - unfold is_byte. div_mod_lia.
  - unfold zlen. rewrite Nat2Z.id, lookup_app_r by lia. by rewrite Nat.sub_diag.
  - unfold zlen. rewrite lookup_app_r by lia.
    by replace (Z.to_nat (Z.of_nat (length pre) + 1) - length pre)%nat with 1%nat by lia.
Qed.

Lemma tx_write_ok h pre n off s :
  tx_chunk_buffer h = pre ++ zeros n -> off = zlen pre -> zlen s <= n ->
  tx_write off s h = Ret tt (set_tx_chunk_buffer ((pre ++ s) ++ zeros (n - zlen s)) h).
Proof.
  intros Hb Hoff Hs. unfold tx_write, mbind, mgets. rewrite Hb. unfold mlift.
  by rewrite write_at_tail.
Qed.

Lemma tx_encode_ok h pre n off v :
  tx_chunk_buffer h = pre ++ zeros n -> off = zlen pre -> 2 <= n -> 0 <= v < 65536 ->
  tx_encode off v h = Ret tt (set_tx_chunk_buffer ((pre ++ be16 v) ++ zeros (n - 2)) h).
Proof.
  intros Hb Hoff Hs Hv. unfold tx_encode, mbind, mgets, U2BE_ENCODE, mlift. rewrite Hb, be16_encode by done.
  rewrite write_at_tail; [done|done|]. by change (zlen (be16 v)) with 2.
Qed.

Lemma tx_clear_ok h size :
  zlen (tx_chunk_buffer h) = size -> 2 <= size ->
  tx_clear 2 (size - 2) h
  = Ret tt (set_tx_chunk_buffer (ztake 2 (tx_chunk_buffer h) ++ zeros (size - 2)) h).
Proof.
  intros Hl Hs. unfold tx_clear, mbind, mgets, mlift. by rewrite memset_at_end by lia.
Qed.

(** ** Sending *)

(** A handle whose chunk buffer and MTU are usable. *)
Definition tx_ready (h : ledger_protocol_t) : Prop :=
  zlen (tx_chunk_buffer h) = tx_chunk_buffer_size h /\
  8 <= mtu h <= tx_chunk_buffer_size h /\ tx_chunk_buffer_size h < 256.

(** The number of bytes of data of the next chunk. *)
Definition tx_room (h : ledger_protocol_t) (k off total : Z) : Z :=
  Z.min (mtu h - header_end k) (total - off).

(** The buffer after the header was written. *)
Lemma tx_header_ok {A} h k total (K : Z -> Z -> Z -> M ledger_protocol_t A) :
  tx_ready h -> tx_apdu_sequence_number h = k -> 0 <= k < 65536 ->
  tx_apdu_length h = total -> 0 <= total < 65536 ->
  (do! tx_clear 2 (tx_chunk_buffer_size h - 2) in
   do! tx_write 2 [TAG_APDU] in
   let! seq := mgets tx_apdu_sequence_number in
   do! tx_encode 3 seq in
   let! total := mgets tx_apdu_length in
   let! chunk_offset := (if seq =? 0 then do! tx_encode 5 total in mret 7 else mret 5) in
   K seq total chunk_offset) h
  = K k total (header_end k) (set_tx_chunk_buffer
      ((ztake 2 (tx_chunk_buffer h) ++ chunk_header k total)
       ++ zeros (tx_chunk_buffer_size h - header_end k)) h).
Proof.
  intros (Hl & Hm & Hs) Hk Hkr Ht Htr.
  set (n := tx_chunk_buffer_size h) in *. set (c := ztake 2 (tx_chunk_buffer h)).
  assert (zlen c = 2) as Hc by (apply zlen_ztake; lia).
  assert (forall s1 s2 m, c ++ s1 ++ s2 ++ zeros m = (c ++ s1 ++ s2) ++ zeros m) as Hassoc
    by (intros; by rewrite <- !app_assoc).
  rewrite (mbind_ret _ _ _ _ _ (tx_clear_ok h _ Hl ltac:(lia))).
  rewrite (mbind_ret _ _ _ _ _ (tx_write_ok (set_tx_chunk_buffer (c ++ zeros (n - 2)) h) c (n - 2) 2
    [TAG_APDU] eq_refl (eq_sym Hc) ltac:(rewrite zlen_cons, zlen_nil; lia))).
  change (n - 2 - zlen [TAG_APDU]) with (n - 2 - 1).
  unfold mbind at 1, mgets at 1. cbn [tx_apdu_sequence_number set_tx_chunk_buffer]. rewrite Hk.
  rewrite (mbind_ret _ _ _ _ _ (tx_encode_ok (set_tx_chunk_buffer ((c ++ [TAG_APDU]) ++ zeros (n - 2 - 1)) h)
    (c ++ [TAG_APDU]) (n - 2 - 1) 3 k eq_refl
    ltac:(rewrite zlen_app, Hc; reflexivity) ltac:(lia) Hkr)).
  unfold mbind at 1, mgets at 1. cbn [tx_apdu_length set_tx_chunk_buffer]. rewrite Ht.
  unfold chunk_header, header_end. destruct (Z.eqb_spec k 0) as [Hk0|Hk0].
  - unfold mbind at 1. rewrite (mbind_ret _ _ _ _ _ (tx_encode_ok
      (set_tx_chunk_buffer (((c ++ [TAG_APDU]) ++ be16 k) ++ zeros (n - 2 - 1 - 2)) h)
      ((c ++ [TAG_APDU]) ++ be16 k) (n - 2 - 1 - 2) 5 total eq_refl
      ltac:(rewrite !zlen_app, Hc; reflexivity) ltac:(lia) Htr)).
    unfold mret. rewrite <- !app_assoc. by replace (n - 2 - 1 - 2 - 2) with (n - 7) by lia.
  - unfold mbind at 1, mret. rewrite <- !app_assoc. by replace (n - 2 - 1 - 2) with (n - 5) by lia.
Qed.

Definition after_tx (h : ledger_protocol_t) (a : list Z) (k off : Z) : ledger_protocol_t :=
  let n := tx_room h k off (zlen a) in
  set_tx_chunk_length (header_end k + n)
    (set_tx_chunk_buffer (chunk (ztake 2 (tx_chunk_buffer h)) k (zlen a)
        (ztake n (zdrop off a)) (tx_chunk_buffer_size h))
      (if n <? zlen a - off then set_tx_apdu (Some a) (zlen a) (k + 1) (off + n) h
       else set_tx_apdu None (zlen a) k (zlen a) h)).

Lemma chunk_eq c k total d n :
  (c ++ chunk_header k total) ++ d ++ zeros (n - header_end k - zlen d) = chunk c k total d n.
Proof. unfold chunk. by rewrite <- app_assoc. Qed.

Lemma tx_next_ok h a k off :
  tx_ready h -> tx_apdu_buffer h = Some a -> tx_apdu_length h = zlen a -> zlen a < 65536 ->
  tx_apdu_sequence_number h = k -> 0 <= k < 65535 -> tx_apdu_offset h = off -> 0 <= off <= zlen a ->
  LEDGER_PROTOCOL_tx None 0 h = Ret tt (after_tx h a k off).
Proof.
  intros Hr Ha Hl Hlr Hk Hkr Ho Hor. pose proof Hr as (Hb & Hm & Hs).
  assert (header_end k = 5 \/ header_end k = 7) as He by (unfold header_end; destruct (k =? 0); auto).
  unfold LEDGER_PROTOCOL_tx. unfold mbind at 1, mgets at 1. rewrite Ha, (bool_decide_false (Some a = None)), andb_false_r by done.
  rewrite (mbind_ret (mret tt) _ h tt h) by done.
  unfold mbind at 1, mgets at 1.
  rewrite (tx_header_ok h k (zlen a)) by (done || lia).
  set (b := (ztake 2 _ ++ chunk_header k (zlen a)) ++ _).
  unfold mbind at 1, mgets at 1, mbind at 1, mgets at 1, mbind at 1, mgets at 1.
  cbn [mtu tx_apdu_offset tx_apdu_buffer set_tx_chunk_buffer]. rewrite Ha, Ho.
  unfold mbind at 1, mlift at 1.
  set (n := tx_room h k off (zlen a)).
  assert (forall m, 0 <= m -> m = n -> read_at a off m = Some (ztake n (zdrop off a))) as Hread.
  { intros m Hm0 ->. apply read_at_ok; unfold n, tx_room in *; lia. }
  assert (forall s, s = ztake n (zdrop off a) ->
    tx_write (header_end k) s (set_tx_chunk_buffer b h)
    = Ret tt (set_tx_chunk_buffer (chunk (ztake 2 (tx_chunk_buffer h)) k (zlen a) s
        (tx_chunk_buffer_size h)) h)) as Hwrite.
  { intros s ->. rewrite <- chunk_eq, app_assoc.
    apply (tx_write_ok (set_tx_chunk_buffer b h)); [done| |].
    - rewrite zlen_app, zlen_ztake by lia. unfold chunk_header, header_end. by destruct (k =? 0).
    - rewrite zlen_ztake; [unfold n, tx_room; lia|]. rewrite zlen_zdrop; unfold n, tx_room; lia. }
  unfold after_tx. fold n. clearbody b.
  destruct (Z.ltb_spec (mtu h + off) (zlen a + header_end k)); destruct (Z.ltb_spec n (zlen a - off));
    unfold n, tx_room in *; try lia; rewrite Hread, (mlift_some _ _ _ _ eq_refl), (mbind_ret _ _ _ _ _ (Hwrite _ eq_refl)) by lia.
  - unfold mbind at 1, mmodify. rewrite (Z.min_l (mtu h - header_end k)) by lia.
    unfold w16. rewrite !Z.mod_small by lia. by replace (header_end k + (mtu h - header_end k)) with (mtu h) by lia.
  - unfold mbind at 1, mmodify. rewrite (Z.min_r (mtu h - header_end k)) by lia.
    unfold w16. by rewrite Z.mod_small by lia.
Qed.

(** ** Receiving *)

(** The buffer holds the type and the first [off] bytes of the APDU. *)
Definition rx_holds (g : ledger_protocol_t) (a : list Z) (off : Z) : Prop :=
  exists rest, rx_apdu_buffer g = type g :: ztake off a ++ rest /\
    zlen a <= off + zlen rest.

Lemma rx_write_ok g a off n :
  rx_holds g a off -> 0 <= off -> 0 <= n -> off + n <= zlen a ->
  exists b, rx_write (1 + off) (ztake n (zdrop off a)) g = Ret tt (set_rx_apdu_buffer b g) /\
    rx_holds (set_rx_apdu_buffer b g) a (off + n) /\ zlen b = zlen (rx_apdu_buffer g).
Proof.
  intros (rest & Hb & Hr) Ho Hn Hl. unfold rx_write, mbind, mgets, mlift.
  assert (zlen (ztake off a) = off) as H1 by (apply zlen_ztake; lia).
  assert (zlen (ztake n (zdrop off a)) = n) as H2 by (rewrite zlen_ztake; [done|]; rewrite zlen_zdrop; lia).
  destruct (write_at (rx_apdu_buffer g) (1 + off) (ztake n (zdrop off a))) as [b|] eqn:E.
  - exists b. split; [done|]. split; [|by apply write_at_length in E].
    rewrite Hb in E. revert E. rewrite app_comm_cons.
    rewrite write_at_ok by (rewrite ?zlen_app, ?zlen_cons; lia).
    rewrite ztake_app_l, <- zdrop_zdrop, zdrop_app_l by (rewrite ?zlen_cons; lia). intros [= <-].
    exists (zdrop n rest). cbn [rx_apdu_buffer set_rx_apdu_buffer type]. split.
    + rewrite ztake_add, H2, <- app_assoc by done. done.
    + rewrite zlen_zdrop; lia.
  - exfalso. rewrite write_at_ok in E; [done|lia|]. rewrite Hb, H2, zlen_cons, zlen_app. lia.
Qed.

Lemma rx_store_ok g a off n pre pad :
  rx_holds g a off -> rx_apdu_offset g = off -> rx_apdu_length g = zlen a ->
  0 <= off -> 0 <= n -> off + n <= zlen a -> zlen a < 65535 ->
  (off + n < zlen a -> pad = []) ->
  exists b, rx_holds (set_rx_apdu_buffer b g) a (off + n) /\ zlen b = zlen (rx_apdu_buffer g) /\
    rx_store (pre ++ ztake n (zdrop off a) ++ pad) (zlen pre) (n + zlen pad) g
    = Ret tt (let g' := set_rx_offset (off + n) (set_rx_apdu_buffer b g) in
        if off + n =? zlen a
        then set_rx_status APDU_STATUS_COMPLETE (set_rx_sequence_number 0 (set_rx_length (zlen a + 1) g'))
        else set_rx_status APDU_STATUS_NEED_MORE_DATA
               (set_rx_sequence_number (rx_apdu_sequence_number g + 1) g')).
Proof.
  intros Hh Ho Ht Ho0 Hn Hl Hlim Hpad.
  destruct (rx_write_ok g a off n Hh Ho0 Hn Hl) as (b & E & Hh' & Hbl). exists b.
  split; [exact Hh'|]. split; [exact Hbl|].
  assert (zlen (ztake n (zdrop off a)) = n) as H2 by (rewrite zlen_ztake; [done|]; rewrite zlen_zdrop; lia).
  unfold rx_store. unfold mbind at 1, mgets at 1, mbind at 1, mgets at 1. rewrite Ho, Ht.
  assert ((if zlen a <? off + (n + zlen pad) then w16 (zlen a - off) else n + zlen pad) = n) as ->.
  { pose proof (zlen_nonneg pad). destruct (Z.ltb_spec (zlen a) (off + (n + zlen pad))).
    - unfold w16. rewrite Z.mod_small by lia. destruct (Z.lt_ge_cases (off + n) (zlen a)); [|lia].
      rewrite Hpad, zlen_nil in * by done. lia.
    - destruct (Z.lt_ge_cases (off + n) (zlen a)); [|lia]. rewrite Hpad, zlen_nil by done. lia. }
  assert (read_at (pre ++ ztake n (zdrop off a) ++ pad) (zlen pre) n = Some (ztake n (zdrop off a))) as Hrd.
  { pose proof (zlen_nonneg pre). pose proof (zlen_nonneg pad).
    rewrite read_at_ok by (rewrite ?zlen_app; lia). by rewrite zdrop_app_l, ztake_app_l by lia. }
  rewrite (mlift_some _ _ _ _ Hrd), (mbind_ret _ _ _ _ _ E).
  unfold mbind, mmodify, mgets. cbn [rx_apdu_offset set_rx_offset set_rx_apdu_buffer rx_apdu_sequence_number].
  unfold w16 at 1. rewrite Z.mod_small by lia. by destruct (off + n =? zlen a).
Qed.

(** What the reassembly relies on besides the data: the size of the buffers. *)
Definition rx_ready (g : ledger_protocol_t) (a : list Z) : Prop :=
  zlen (tx_chunk_buffer g) = tx_chunk_buffer_size g /\ 2 <= tx_chunk_buffer_size g /\
  1 + zlen a <= zlen (rx_apdu_buffer g) /\ zlen a <= rx_apdu_buffer_size g.

(** The handle waits for chunk [k] of the APDU, the bytes from [off] on. *)
Definition receiving (g : ledger_protocol_t) (a : list Z) (k off : Z) : Prop :=
  rx_ready g a /\ rx_apdu_sequence_number g = k /\ (k = 0 -> off = 0) /\
  (k <> 0 -> rx_apdu_length g = zlen a /\ rx_apdu_offset g = off /\ rx_holds g a off).

Definition received (g : ledger_protocol_t) (a : list Z) : Prop :=
  rx_apdu_status g = APDU_STATUS_COMPLETE /\ rx_apdu_length g = 1 + zlen a /\
  rx_apdu_sequence_number g = 0 /\ rx_holds g a (zlen a).

(** The answer buffer after the channel identifier was copied. *)
Lemma rx_channel_ok (g : ledger_protocol_t) (c p : list Z) {A} (K : Z -> M ledger_protocol_t A) :
  zlen (tx_chunk_buffer g) = tx_chunk_buffer_size g -> 2 <= tx_chunk_buffer_size g -> zlen c = 2 ->
  (do! tx_clear 0 (tx_chunk_buffer_size g) in
   let! channel := mlift (read_at (c ++ [TAG_APDU] ++ p) 0 2) in
   do! tx_write 0 channel in
   let! tag := mlift ((c ++ [TAG_APDU] ++ p) !! 2%nat) in K tag) g
  = K TAG_APDU (set_tx_chunk_buffer (c ++ zeros (tx_chunk_buffer_size g - 2)) g).
Proof.
  intros Hl Hs Hc. unfold tx_clear, tx_write, mbind, mgets, mmodify, mlift.
  rewrite memset_at_end by lia.
  rewrite read_at_ok by (rewrite ?zlen_app, ?zlen_cons, ?(@zlen_nil Z); pose proof (zlen_nonneg p); lia).
  rewrite zdrop_0, ztake_app_l, ztake_0 by done. cbn [tx_chunk_buffer set_tx_chunk_buffer app].
  change (replicate (Z.to_nat (tx_chunk_buffer_size g)) 0) with ([] ++ zeros (tx_chunk_buffer_size g)).
  rewrite (write_at_tail [] c) by (done || lia). rewrite Hc.
  rewrite lookup_app_r by (unfold zlen in Hc; lia). by replace (2 - length c)%nat with O by (unfold zlen in Hc; lia).
Qed.

(** A chunk of an APDU is handed to the reassembly. *)
Lemma rx_apdu_dispatch g c q :
  zlen (tx_chunk_buffer g) = tx_chunk_buffer_size g -> 2 <= tx_chunk_buffer_size g -> zlen c = 2 ->
  LEDGER_PROTOCOL_rx (Some (c ++ [TAG_APDU] ++ q)) (zlen (c ++ [TAG_APDU] ++ q)) g
  = process_apdu_chunk q (zlen q) (set_tx_chunk_buffer (c ++ zeros (tx_chunk_buffer_size g - 2)) g).
Proof.
  intros Hb Hs Hc. assert (zlen (c ++ [TAG_APDU] ++ q) = 3 + zlen q) as Hl.
  { rewrite zlen_app. cbn [app]. rewrite zlen_cons. lia. }
  pose proof (zlen_nonneg q). unfold LEDGER_PROTOCOL_rx.
  destruct (Z.ltb_spec (zlen (c ++ [TAG_APDU] ++ q)) 3); [lia|].
  unfold mbind at 1, mgets at 1. rewrite rx_channel_ok by done. unfold rx_switch.
  change (TAG_APDU =? TAG_GET_PROTOCOL_VERSION) with false.
  change (TAG_APDU =? TAG_ALLOCATE_CHANNEL) with false. change (TAG_APDU =? TAG_PING) with false.
  change (TAG_APDU =? TAG_APDU) with true. cbv iota. rewrite Hl, Z.add_simpl_l. f_equal.
  rewrite drop_app_ge by (unfold zlen in Hc; lia).
  by replace (3 - length c)%nat with 1%nat by (unfold zlen in Hc; lia).
Qed.

(** The effect of the header of a chunk. *)
Lemma process_first_ok g total data :
  rx_apdu_sequence_number g = 0 -> 0 <= total < 65536 -> total <= rx_apdu_buffer_size g ->
  1 <= zlen (rx_apdu_buffer g) ->
  process_apdu_chunk (be16 0 ++ be16 total ++ data) (zlen (be16 0 ++ be16 total ++ data)) g
  = rx_store (be16 0 ++ be16 total ++ data) 4 (zlen data)
      (set_rx_offset 0 (set_rx_length total (set_rx_status APDU_STATUS_NEED_MORE_DATA
        (set_rx_apdu_buffer (type g :: drop 1 (rx_apdu_buffer g)) g)))).
Proof.
  intros Hk Ht Hs Hb. pose proof (zlen_nonneg data). unfold process_apdu_chunk.
  assert (zlen (be16 0 ++ be16 total ++ data) = 4 + zlen data) as Hl
    by (unfold be16; cbn [app]; rewrite !zlen_cons; lia).
  unfold mbind at 1, mgets at 1. rewrite Hl, Hk.
  destruct (Z.ltb_spec (4 + zlen data) 2); [lia|]. unfold mbind at 1.
  rewrite (mlift_some _ _ _ 0) by (by apply (U2BE_be16 [])). unfold mret at 1. cbn [Z.eqb negb].
  destruct (Z.ltb_spec (4 + zlen data) 4); [lia|]. cbn [andb].
  unfold mbind at 1, mgets at 1, rx_write at 1. unfold mbind at 1, mbind at 1, mgets at 1.
  rewrite (mlift_some _ _ _ (type g :: drop 1 (rx_apdu_buffer g)))
    by (rewrite write_at_ok by (rewrite ?zlen_cons, ?(@zlen_nil Z); lia); by rewrite ztake_0).
  unfold mmodify at 1, mbind at 1, mmodify at 1.
  rewrite (mlift_some _ _ _ total) by (by apply (U2BE_be16 (be16 0))).
  unfold mbind at 1, mmodify at 1, mbind at 1, mgets at 1.
  cbn [rx_apdu_buffer_size set_rx_length set_rx_status set_rx_apdu_buffer].
  destruct (Z.ltb_spec (rx_apdu_buffer_size g) total); [lia|].
  unfold mbind at 1, mmodify at 1. by rewrite Z.add_simpl_l.
Qed.

Lemma process_next_ok g k data :
  rx_apdu_sequence_number g = k -> 0 < k < 65536 ->
  process_apdu_chunk (be16 k ++ data) (zlen (be16 k ++ data)) g
  = rx_store (be16 k ++ data) 2 (zlen data) g.
Proof.
  intros Hk Hkr. pose proof (zlen_nonneg data). unfold process_apdu_chunk.
  assert (zlen (be16 k ++ data) = 2 + zlen data) as Hl
    by (unfold be16; cbn [app]; rewrite !zlen_cons; lia).
  unfold mbind at 1, mgets at 1. rewrite Hl, Hk.
  destruct (Z.ltb_spec (2 + zlen data) 2); [lia|]. unfold mbind at 1.
  rewrite (mlift_some _ _ _ k) by (apply (U2BE_be16 []); [lia|done]). unfold mret at 1.
  rewrite Z.eqb_refl. cbn [negb]. destruct (Z.eqb_spec k 0); [lia|].
  by rewrite andb_false_r, Z.add_simpl_l.
Qed.

Lemma rx_chunk_ok g a k off c pad n :
  receiving g a k off -> zlen c = 2 -> 0 <= k < 65535 -> 0 <= off -> 0 <= n -> off + n <= zlen a ->
  zlen a < 65535 -> (off + n < zlen a -> pad = []) ->
  let p := c ++ chunk_header k (zlen a) ++ ztake n (zdrop off a) ++ pad in
  exists g', LEDGER_PROTOCOL_rx (Some p) (zlen p) g = Ret tt g' /\ type g' = type g /\
    ztake 2 (tx_chunk_buffer g') = c /\
    if off + n =? zlen a then received g' a
    else receiving g' a (k + 1) (off + n) /\ rx_apdu_status g' = APDU_STATUS_NEED_MORE_DATA.
Proof.
  intros ((Hb & Hsz & Hl1 & Hl2) & Hk & Hk0 & Hk1) Hc Hkr Ho0 Hn Hle Hlim Hpad p.
  assert (zlen (ztake n (zdrop off a)) = n) as H2 by (rewrite zlen_ztake; [done|]; rewrite zlen_zdrop; lia).
  unfold p, chunk_header. rewrite <- !app_assoc, rx_apdu_dispatch by done. clear p.
  set (g1 := set_tx_chunk_buffer _ g).
  assert (exists g2 pre, process_apdu_chunk
      (be16 k ++ (if k =? 0 then be16 (zlen a) else []) ++ ztake n (zdrop off a) ++ pad)
      (zlen (be16 k ++ (if k =? 0 then be16 (zlen a) else []) ++ ztake n (zdrop off a) ++ pad)) g1
    = rx_store (pre ++ ztake n (zdrop off a) ++ pad) (zlen pre) (n + zlen pad) g2 /\
    rx_holds g2 a off /\ rx_apdu_offset g2 = off /\ rx_apdu_length g2 = zlen a /\
    rx_apdu_sequence_number g2 = k /\ rx_ready g2 a /\ type g2 = type g /\
    ztake 2 (tx_chunk_buffer g2) = c) as (g2 & pre & -> & Hh & Ho & Ht & Hs2 & Hr2 & Hty & Hch).
  { assert (zlen (tx_chunk_buffer g1) = tx_chunk_buffer_size g /\ ztake 2 (tx_chunk_buffer g1) = c) as [Hg1 Hg2].
    { cbn. rewrite zlen_app, zlen_zeros, ztake_app_l by lia. split; [lia|done]. }
    assert (zlen (ztake n (zdrop off a) ++ pad) = n + zlen pad) as Hlen by (rewrite zlen_app; lia).
    destruct (Z.eqb_spec k 0) as [E0|E0].
    - specialize (Hk0 E0). clear Hk1. rewrite E0 in *. clear E0 k. subst off. eexists _, (be16 0 ++ be16 (zlen a)).
      rewrite process_first_ok, Hlen by (cbn; lia). rewrite <- app_assoc. split; [reflexivity|].
      assert (zlen (drop 1 (rx_apdu_buffer g)) = zlen (rx_apdu_buffer g) - 1) as Hd
        by (unfold zlen in *; rewrite length_drop; lia).
      split; [exists (drop 1 (rx_apdu_buffer g)); split; [done|lia]|].
      split; [done|]. split; [cbn; unfold w16; rewrite Z.mod_small; lia|]. split; [done|].
      split; [|done]. split; [done|]. split; [done|]. cbn. rewrite zlen_cons. lia.
    - destruct (Hk1 E0) as (Ht & Ho & Hh). exists g1, (be16 k). cbn [app].
      rewrite process_next_ok, Hlen by (done || lia). split; [done|]. split; [exact Hh|].
      done. }
  destruct (rx_store_ok g2 a off n pre pad Hh Ho Ht Ho0 Hn Hle Hlim Hpad) as (b & Hh' & Hbl & ->).
  eexists. split; [reflexivity|]. destruct Hr2 as (Hr1 & Hr2 & Hr3 & Hr4).
  destruct (Z.eqb_spec (off + n) (zlen a)) as [E|E]; (split; [exact Hty|split; [exact Hch|]]).
  - split; [done|]. split; [cbn; unfold w16; rewrite Z.mod_small; lia|]. split; [done|].
    by rewrite <- E.
  - split; [|done]. split; [split; [exact Hr1|split; [exact Hr2|split; [cbn; lia|exact Hr4]]]|].
    split; [cbn; unfold w16; rewrite Hs2, Z.mod_small; lia|]. split; [lia|]. intros _.
    split; [exact Ht|]. split; [cbn; unfold w16; rewrite Z.mod_small; lia|]. exact Hh'.
Qed.

(** ** One APDU from end to end *)

Lemma chunk_packet c k total d n m :
  zlen c = 2 -> header_end k + zlen d <= m <= n ->
  ztake m (chunk c k total d n) = c ++ chunk_header k total ++ d ++ zeros (m - header_end k - zlen d) /\
  zlen (chunk c k total d n) = n.
Proof.
  intros Hc Hm. pose proof (zlen_nonneg d).
  assert (2 + zlen (chunk_header k total) = header_end k) as Hh
    by (unfold chunk_header, header_end; by destruct (k =? 0)).
  split.
  - unfold chunk. replace (n - header_end k - zlen d) with ((m - header_end k - zlen d) + (n - m)) by lia.
    assert (forall x y, 0 <= x -> 0 <= y -> zeros (x + y) = zeros x ++ zeros y) as Hz
      by (intros; unfold zeros; by rewrite Z2Nat.inj_add, replicate_add by lia).
    rewrite Hz by lia.
    rewrite !app_assoc. apply ztake_app_l. rewrite !zlen_app, zlen_zeros by lia. lia.
  - unfold chunk. rewrite !zlen_app, zlen_zeros by lia. lia.
Qed.

(** ** Longer buffers *)

Section longer.
Context (p q : list Z) (Hpq : p `prefix_of` q).

Lemma U2BE_longer (p' q' : list Z) off : p' `prefix_of` q' -> U2BE p' off = None \/ U2BE p' off = U2BE q' off.
Proof.
  intros H. unfold U2BE. destruct (lookup_longer p' q' (Z.to_nat off) H) as [-> | ->]; [by left|].
  destruct (lookup_longer p' q' (Z.to_nat (off + 1)) H) as [-> | ->]; [|by right].
  left. by destruct (q' !! _).
Qed.

Lemma rx_store_longer (p' q' : list Z) from length :
  p' `prefix_of` q' -> defined_le (rx_store p' from length) (rx_store q' from length).
Proof. intros H. unfold rx_store. defined_auto. Qed.

Lemma chunk_longer (p' q' : list Z) length :
  p' `prefix_of` q' -> defined_le (process_apdu_chunk p' length) (process_apdu_chunk q' length).
Proof.
  intros H. pose proof (fun off => U2BE_longer p' q' off H) as HU.
  pose proof (fun from n => rx_store_longer p' q' from n H) as HS. unfold process_apdu_chunk. defined_auto.
Qed.

Lemma rx_longer length g x g' :
  LEDGER_PROTOCOL_rx (Some p) length g = Ret x g' -> LEDGER_PROTOCOL_rx (Some q) length g = Ret x g'.
Proof.
  pose proof (fun n => chunk_longer _ _ n (drop_longer _ _ 3 Hpq)) as HC.
  apply defined_ret. unfold LEDGER_PROTOCOL_rx, rx_switch. defined_auto.
Qed.
End longer.


(** Before the last packet the receiver waits for more. *)
Definition incomplete (ps : list (list Z)) (g : ledger_protocol_t) : Prop :=
  forall ps1 ps2, ps = ps1 ++ ps2 -> ps1 <> [] -> ps2 <> [] ->
  exists g1, receive ps1 g = Ret tt g1 /\ rx_apdu_status g1 = APDU_STATUS_NEED_MORE_DATA.

Lemma incomplete_one p g : incomplete [p] g.
Proof. intros [|q [|]] ps2 E H1 H2; simplify_eq/=; done. Qed.

Lemma incomplete_cons p ps g g1 :
  LEDGER_PROTOCOL_rx (Some p) (zlen p) g = Ret tt g1 -> rx_apdu_status g1 = APDU_STATUS_NEED_MORE_DATA ->
  incomplete ps g1 -> incomplete (p :: ps) g.
Proof.
  intros E Hs Hi [|q qs] ps2 Eq H1 H2; [done|]. injection Eq as <- ->. cbn [receive].
  rewrite (mbind_ret _ _ _ _ _ E). destruct qs as [|q' qs]; [by exists g1|]. by apply (Hi (q' :: qs) ps2).
Qed.

Lemma send_rest_ok a fuel h g k off :
  tx_ready h -> tx_apdu_buffer h = Some a -> tx_apdu_length h = zlen a ->
  tx_apdu_sequence_number h = k -> tx_apdu_offset h = off ->
  receiving g a k off -> 0 <= k <= off -> off <= zlen a < 65535 -> zlen a - off < Z.of_nat fuel ->
  exists ps h' g', send_rest fuel h = Ret ps h' /\ receive ps g = Ret tt g' /\
    tx_apdu_buffer h' = None /\ received g' a /\ type g' = type g /\
    ztake 2 (tx_chunk_buffer g') = ztake 2 (tx_chunk_buffer h) /\
    Forall (fun p => zlen p = mtu h) ps /\ incomplete ps g.
Proof.
  revert h g k off. induction fuel as [|fuel IH]; intros h g k off Hr Ha Hl Hk Ho Hg Hkr Hor Hf; [lia|].
  pose proof (tx_next_ok h a k off Hr Ha Hl ltac:(lia) Hk ltac:(lia) Ho ltac:(lia)) as Htx.
  destruct Hr as (Hb & Hm & Hs).
  assert (header_end k = 5 \/ header_end k = 7) as He by (unfold header_end; destruct (k =? 0); auto).
  set (n := tx_room h k off (zlen a)) in *. set (c := ztake 2 (tx_chunk_buffer h)) in *.
  assert (zlen c = 2) as Hc by (apply zlen_ztake; lia).
  assert (zlen (ztake n (zdrop off a)) = n) as Hn.
  { rewrite zlen_ztake; [done|]. rewrite zlen_zdrop; unfold n, tx_room; lia. }
  destruct (chunk_packet c k (zlen a) (ztake n (zdrop off a)) (tx_chunk_buffer_size h) (mtu h) Hc)
    as [Hp Hcl]; [unfold n, tx_room in *; lia|]. rewrite Hn in Hp.
  destruct (rx_chunk_ok g a k off c (zeros (mtu h - header_end k - n)) n Hg Hc)
    as (g1 & Erx & Hty & Hch & Hcase); [lia|lia|unfold n, tx_room; lia|unfold n, tx_room; lia|lia| |].
  { intros Hlt. unfold n, tx_room in *. replace (mtu h - _ - _) with 0 by lia. done. }
  rewrite <- Hp in Erx. set (p := ztake (mtu h) (chunk _ _ _ _ _)) in *.
  assert (zlen p = mtu h) as Hpl by (unfold p; apply zlen_ztake; lia).
  assert (forall ps h2, send_rest fuel (after_tx h a k off) = Ret ps h2 ->
    send_rest (S fuel) h = Ret (p :: ps) h2) as Hsend.
  { intros ps h2 E. cbn [send_rest]. unfold mbind at 1, mgets at 1. rewrite Ha.
    rewrite (mbind_ret _ _ _ _ _ Htx). rewrite (mbind_ret _ _ _ p (after_tx h a k off)).
    - by rewrite (mbind_ret _ _ _ _ _ E).
    - unfold packet, mbind, mgets, mret, after_tx. fold n. by destruct (n <? zlen a - off). }
  destruct (Z.eqb_spec (off + n) (zlen a)) as [E|E].
  - exists [p], (after_tx h a k off), g1. split; [|split; [|split]].
    + apply Hsend. unfold after_tx. fold n. destruct (Z.ltb_spec n (zlen a - off)); [lia|].
      by destruct fuel.
    + cbn [receive]. by rewrite (mbind_ret _ _ _ _ _ Erx).
    + unfold after_tx. fold n. by destruct (Z.ltb_spec n (zlen a - off)); [lia|].
    + split; [exact Hcase|]. split; [exact Hty|]. split; [exact Hch|].
      split; [by apply Forall_cons_2; [|constructor]|]. apply incomplete_one.
  - destruct Hcase as [Hrec Hmore]. assert (n < zlen a - off) as Hlt by (unfold n, tx_room in *; lia).
    assert (after_tx h a k off = set_tx_chunk_length (header_end k + n) (set_tx_chunk_buffer
      (chunk c k (zlen a) (ztake n (zdrop off a)) (tx_chunk_buffer_size h))
      (set_tx_apdu (Some a) (zlen a) (k + 1) (off + n) h))) as Hafter.
    { unfold after_tx. fold n. by destruct (Z.ltb_spec n (zlen a - off)); [|lia]. }
    destruct (IH (after_tx h a k off) g1 (k + 1) (off + n)) as (ps & h2 & g2 & E1 & E2 & E3 & E4 & E5 & E6 & E7 & E8);
      try (rewrite Hafter; done); [exact Hrec| | | |].
    { unfold n, tx_room in *. lia. } { unfold n, tx_room in *. lia. } { unfold n, tx_room in *. lia. }
    exists (p :: ps), h2, g2. split; [by apply Hsend|]. split.
    { cbn [receive]. by rewrite (mbind_ret _ _ _ _ _ Erx). }
    split; [done|]. split; [done|]. split; [congruence|]. split.
    { rewrite E6, Hafter. cbn. by apply (ztake_app_l 2 c). }
    split; [|by apply (incomplete_cons p ps g g1)]. apply Forall_cons_2; [done|]. by rewrite Hafter in E7.
Qed.

(** ** Safety of the reception *)

(** A well-formed handle: the APDU that is received fits the buffer with its
    type. *)
Record rx_wf (g : ledger_protocol_t) : Prop := {
  wf_tx : zlen (tx_chunk_buffer g) = tx_chunk_buffer_size g;
  wf_tx_size : 8 <= tx_chunk_buffer_size g < 256;
  wf_rx : rx_apdu_buffer_size g <= zlen (rx_apdu_buffer g);
  wf_rx_buffer : 1 <= zlen (rx_apdu_buffer g);
  wf_rx_size : 0 <= rx_apdu_buffer_size g < 65535;
  wf_seq : 0 <= rx_apdu_sequence_number g < 65536;
  wf_partial : rx_apdu_sequence_number g <> 0 ->
    0 <= rx_apdu_offset g <= rx_apdu_length g /\ rx_apdu_length g < zlen (rx_apdu_buffer g) /\
    rx_apdu_length g < 65535;
  wf_complete : rx_apdu_status g = APDU_STATUS_COMPLETE ->
    0 <= rx_apdu_length g <= zlen (rx_apdu_buffer g);
}.

(** A packet that starts an APDU of [total] bytes. The check of the length
    accepts [rx_apdu_buffer_size] bytes; an APDU fits the buffer when there is
    room for its type as well. *)
Definition announces (p : list Z) (total : Z) : Prop :=
  p !! 2%nat = Some TAG_APDU /\ U2BE p 3 = Some 0 /\ U2BE p 5 = Some total.

Definition apdu_fits (g : ledger_protocol_t) (p : list Z) : Prop :=
  forall total, announces p total -> total <= rx_apdu_buffer_size g -> total < zlen (rx_apdu_buffer g).

Local Abbreviation keeps_wf m g := (wp m (fun _ g' => rx_wf g') g).

(** What the setters of the other fields leave. *)
Lemma rx_wf_frame (g g' : ledger_protocol_t) :
  rx_wf g -> zlen (tx_chunk_buffer g') = zlen (tx_chunk_buffer g) ->
  tx_chunk_buffer_size g' = tx_chunk_buffer_size g ->
  zlen (rx_apdu_buffer g') = zlen (rx_apdu_buffer g) ->
  rx_apdu_buffer_size g' = rx_apdu_buffer_size g ->
  rx_apdu_sequence_number g' = rx_apdu_sequence_number g ->
  rx_apdu_offset g' = rx_apdu_offset g -> rx_apdu_length g' = rx_apdu_length g ->
  rx_apdu_status g' = rx_apdu_status g -> rx_wf g'.
Proof. intros [] ? ? ? ? ? ? ? Hst. split; rewrite ?Hst; congruence || lia || by rewrite H1, H5. Qed.

(** The reassembly is given up, or goes on. *)
Lemma set_rx_status_wf g x : x <> APDU_STATUS_COMPLETE -> rx_wf g -> rx_wf (set_rx_status x g).
Proof. intros Hx []. by split. Qed.

Lemma tx_write_wf g off s :
  rx_wf g -> 0 <= off -> off + zlen s <= tx_chunk_buffer_size g -> keeps_wf (tx_write off s) g.
Proof.
  intros Hg Ho Hs. unfold tx_write. wp_auto.
  destruct (write_at (tx_chunk_buffer g) off s) as [b|] eqn:E.
  - apply (wp_lift _ b); [done|]. wp_auto. apply write_at_length in E.
    apply (rx_wf_frame g); by try (cbn; lia).
  - rewrite write_at_ok in E; [done|lia|]. rewrite (wf_tx g Hg). lia.
Qed.

Lemma tx_clear_wf g : rx_wf g -> keeps_wf (tx_clear 0 (tx_chunk_buffer_size g)) g.
Proof.
  intros Hg. unfold tx_clear. wp_auto. pose proof (wf_tx g Hg). pose proof (wf_tx_size g Hg).
  eapply wp_lift; [apply memset_at_end; lia|]. wp_auto.
  apply (rx_wf_frame g); try done. cbn [tx_chunk_buffer set_tx_chunk_buffer]. rewrite ztake_0. cbn [app]. rewrite zlen_replicate. lia.
Qed.

(** The tail of the reassembly, when the length of the APDU is in range. *)
Lemma rx_store_wf g buffer from length :
  rx_wf g -> 0 <= rx_apdu_offset g <= rx_apdu_length g ->
  rx_apdu_length g < zlen (rx_apdu_buffer g) -> rx_apdu_length g < 65535 ->
  0 <= from -> 0 <= length < 65536 -> from + length <= zlen buffer ->
  keeps_wf (rx_store buffer from length) g.
Proof.
  intros Hg Ho Hl Hlim Hf Hlen Hb. pose proof (wf_rx_size g Hg). pose proof (wf_rx g Hg).
  pose proof (wf_seq g Hg). unfold rx_store. do 4 wp_step.
  set (m := if _ <? _ then _ else _).
  assert (0 <= m <= length /\ rx_apdu_offset g + m <= rx_apdu_length g) as [Hm Hm'].
  { unfold m. destruct (Z.ltb_spec (rx_apdu_length g) (rx_apdu_offset g + length)); [|lia].
    unfold w16. rewrite Z.mod_small by lia. lia. }
  wp_step. apply (wp_lift _ (ztake m (zdrop from buffer))); [apply read_at_ok; lia|].
  unfold rx_write. do 3 wp_step.
  assert (zlen (ztake m (zdrop from buffer)) = m) as Hz
    by (rewrite zlen_ztake; [done|]; rewrite zlen_zdrop; lia).
  destruct (write_at (rx_apdu_buffer g) (1 + rx_apdu_offset g) (ztake m (zdrop from buffer))) as [b|] eqn:E.
  2:{ rewrite write_at_ok in E; [done|lia|lia]. }
  wp_step. apply (wp_lift _ b); [done|]. apply write_at_length in E.
  pose proof (Z.mod_pos_bound (rx_apdu_sequence_number g + 1) 65536 ltac:(lia)) as Hmod.
  assert (w16 (rx_apdu_offset g + m) = rx_apdu_offset g + m) as Hw by (apply Z.mod_small; lia).
  wp_auto; cbn in *; rewrite ?Hw in *; destruct Hg; split; cbn; try lia; try exact Hmod.
  - done.
  - by intros [].
  - intros _. unfold w16. rewrite Z.mod_small; lia.
Qed.

Lemma process_apdu_chunk_wf g buffer length :
  rx_wf g -> 0 <= length <= zlen buffer -> length < 65536 ->
  (forall total, U2BE buffer 0 = Some 0 -> U2BE buffer 2 = Some total ->
    total <= rx_apdu_buffer_size g -> total < zlen (rx_apdu_buffer g)) ->
  keeps_wf (process_apdu_chunk buffer length) g.
Proof.
  intros Hg Hl Hl' Hfits. pose proof (wf_seq g Hg). pose proof (wf_rx_size g Hg). pose proof (wf_rx g Hg).
  pose proof (wf_rx_buffer g Hg).
  assert (forall i, 0 <= i -> i + 1 < zlen buffer -> exists v, U2BE buffer i = Some v /\ 0 <= v < 65536) as Hu.
  { intros i Hi Hlt. unfold U2BE. unfold zlen in *.
    destruct (lookup_lt_is_Some_2 buffer (Z.to_nat i)) as [x ->]; [lia|].
    destruct (lookup_lt_is_Some_2 buffer (Z.to_nat (i + 1))) as [y ->]; [lia|].
    eexists. split; [reflexivity|]. apply Z.mod_pos_bound. lia. }
  unfold process_apdu_chunk. do 3 wp_step.
  assert (rx_wf (set_rx_status APDU_STATUS_WAITING g)) as Hst by (by apply set_rx_status_wf).
  destruct (Z.ltb_spec length 2) as [Hlt|Hge]; [wp_auto; apply Hst|].
  destruct (Hu 0 ltac:(lia) ltac:(lia)) as (v & Ev & Hv). wp_step.
  apply (wp_lift _ v); [done|]. wp_step.
  destruct (Z.eqb_spec v (rx_apdu_sequence_number g)) as [Es|Es]; cbn [negb]; [|wp_auto; apply Hst].
  apply wp_if; [intros _; wp_auto; apply Hst|]. intros H4.
  destruct (Z.eqb_spec (rx_apdu_sequence_number g) 0) as [E0|E0].
  - do 2 wp_step. unfold rx_write. do 3 wp_step.
    destruct (write_at (rx_apdu_buffer g) 0 [type g]) as [b|] eqn:E.
    2:{ rewrite write_at_ok in E; [done|lia|]. rewrite zlen_cons, (@zlen_nil Z). lia. }
    wp_step. apply (wp_lift _ b); [done|]. apply write_at_length in E. do 3 wp_step.
    destruct (Hu 2 ltac:(lia) ltac:(lia)) as (total & Et & Ht). wp_step.
    apply (wp_lift _ total); [done|]. do 4 wp_step. wp_step.
    + wp_auto. split; cbn; try apply Hg; done || lia.
    + wp_step. wp_step. cbn in *. assert (w16 total = total) as Hw by (apply Z.mod_small; lia).
      pose proof (Hfits total ltac:(congruence) Et ltac:(lia)).
      apply rx_store_wf; cbn; rewrite ?Hw; try lia; [|unfold w16; rewrite Z.mod_small; lia].
      split; cbn; try apply Hg; done || lia.
  - destruct (wf_partial g Hg E0) as (? & ? & ?). apply rx_store_wf; try done; lia.
Qed.

Lemma tx_encode_wf g off v :
  rx_wf g -> 0 <= off -> off + 2 <= tx_chunk_buffer_size g -> keeps_wf (tx_encode off v) g.
Proof. intros. by apply (tx_write_wf g off [_; _]). Qed.

Lemma set_tx_chunk_length_wf g n : rx_wf g -> rx_wf (set_tx_chunk_length n g).
Proof. intros. by apply (rx_wf_frame g). Qed.

(** ** What remains to be sent *)

(** An APDU under way has bytes left. *)
Definition tx_pending_ok (g : ledger_protocol_t) : Prop :=
  forall a, tx_apdu_buffer g = Some a ->
  tx_apdu_length g = zlen a /\ zlen a < 65536 /\
  0 <= tx_apdu_sequence_number g <= tx_apdu_offset g /\ tx_apdu_offset g < zlen a.

Lemma after_tx_wf h a k off :
  rx_wf h -> tx_ready h -> 0 <= k <= off -> off <= zlen a < 65536 ->
  rx_wf (after_tx h a k off) /\ tx_ready (after_tx h a k off) /\ tx_pending_ok (after_tx h a k off).
Proof.
  intros Hw (Hb & Hm & Hs) Hk Ho. unfold after_tx. set (n := tx_room h k off (zlen a)).
  assert (header_end k = 5 \/ header_end k = 7) as He by (unfold header_end; destruct (k =? 0); auto).
  assert (zlen (ztake n (zdrop off a)) = n) as Hn.
  { rewrite zlen_ztake; [done|]. rewrite zlen_zdrop; unfold n, tx_room; lia. }
  destruct (chunk_packet (ztake 2 (tx_chunk_buffer h)) k (zlen a) (ztake n (zdrop off a))
    (tx_chunk_buffer_size h) (mtu h)) as [_ Hc]; [apply zlen_ztake; lia|unfold n, tx_room in *; lia|].
  destruct (Z.ltb_spec n (zlen a - off)).
  - split; [apply (rx_wf_frame h); try done; cbn; by rewrite Hc|]. split; [done|].
    intros a' [= <-]. cbn. unfold n, tx_room in *. lia.
  - split; [apply (rx_wf_frame h); try done; cbn; by rewrite Hc|]. split; [done|]. by intros a' [=].
Qed.

(** What a transmission leaves alone. *)
Lemma after_tx_static h a k off :
  let h' := after_tx h a k off in
  type h' = type h /\ tx_chunk_buffer_size h' = tx_chunk_buffer_size h /\
  rx_apdu_buffer h' = rx_apdu_buffer h /\ rx_apdu_buffer_size h' = rx_apdu_buffer_size h /\
  mtu h' = mtu h.
Proof. unfold after_tx. by destruct (_ <? _). Qed.

(** What the reception leaves alone. *)
Definition rx_static (g : ledger_protocol_t) :=
  (type g, tx_chunk_buffer_size g, zlen (tx_chunk_buffer g), rx_apdu_buffer_size g,
   zlen (rx_apdu_buffer g), mtu g,
   (tx_apdu_buffer g, tx_apdu_length g, tx_apdu_sequence_number g, tx_apdu_offset g)).

Section rx_frame.
Context (g0 : ledger_protocol_t).
Abbreviation framed := (fun g => rx_static g = rx_static g0).

Lemma rx_write_frame off d : keeps framed (rx_write off d).
Proof.
  intros g Hg. unfold rx_write, mbind, mgets, mlift, mmodify. destruct (write_at _ _ _) as [b|] eqn:E; [|done].
  apply write_at_length in E. cbn beta. rewrite <- Hg. unfold rx_static. cbn. by rewrite E.
Qed.

Lemma tx_write_frame off d : keeps framed (tx_write off d).
Proof.
  intros g Hg. unfold tx_write, mbind, mgets, mlift, mmodify. destruct (write_at _ _ _) as [b|] eqn:E; [|done].
  apply write_at_length in E. cbn beta. rewrite <- Hg. unfold rx_static. cbn. by rewrite E.
Qed.

Lemma tx_encode_frame off v : keeps framed (tx_encode off v).
Proof. apply (tx_write_frame off [_; _]). Qed.

Lemma tx_clear_frame off n : keeps framed (tx_clear off n).
Proof.
  intros g Hg. unfold tx_clear, mbind, mgets, mlift, mmodify. destruct (memset_at _ _ _ _) as [b|] eqn:E; [|done].
  apply memset_at_length in E. cbn beta. rewrite <- Hg. unfold rx_static. cbn. by rewrite E.
Qed.
Hint Resolve rx_write_frame tx_write_frame tx_encode_frame tx_clear_frame : keeps.

Lemma rx_store_frame b from n : keeps framed (rx_store b from n).
Proof. unfold rx_store. keeps_auto; done. Qed.
Hint Resolve rx_store_frame : keeps.

Lemma process_frame b n : keeps framed (process_apdu_chunk b n).
Proof. unfold process_apdu_chunk. keeps_auto; done. Qed.
Hint Resolve process_frame : keeps.

Lemma rx_frame b n : keeps framed (LEDGER_PROTOCOL_rx b n).
Proof. unfold LEDGER_PROTOCOL_rx, rx_switch. keeps_auto; done. Qed.
End rx_frame.

Lemma static_eq g g' :
  rx_static g' = rx_static g ->
  tx_chunk_buffer_size g' = tx_chunk_buffer_size g /\ rx_apdu_buffer_size g' = rx_apdu_buffer_size g /\
  zlen (rx_apdu_buffer g') = zlen (rx_apdu_buffer g).
Proof. by intros [=]. Qed.

Lemma tx_write_wp g off s :
  rx_wf g -> 0 <= off -> off + zlen s <= tx_chunk_buffer_size g ->
  wp (tx_write off s) (fun _ g' => rx_wf g' /\ rx_static g' = rx_static g) g.
Proof.
  intros. apply (wp_keeps (fun g' => rx_static g' = rx_static g)); [by apply tx_write_wf|apply tx_write_frame|done].
Qed.

(** An answer, after the channel. *)
Lemma rx_switch_wf g b length tag :
  rx_wf g -> 3 <= length < 65536 -> length <= zlen b -> b !! 2%nat = Some tag -> apdu_fits g b ->
  keeps_wf (rx_switch b length (tx_chunk_buffer_size g) tag) g.
Proof.
  intros Hg Hl Hb Ht Hfits. pose proof (wf_tx_size g Hg) as Hsz. unfold rx_switch.
  wp_step; [|wp_step; [|wp_step; [|wp_step; [|wp_step]]]].
  - wp_step. eapply wp_mono; [apply tx_write_wp; [done|lia|change (zlen _) with 1; lia]|].
    intros _ g3 (W3 & (S3 & _)%static_eq). do 2 wp_step.
    replace (Z.min _ _) with 4 by (change (zlen protocol_version) with 4; lia).
    wp_step. apply (wp_lift _ protocol_version); [done|]. wp_step.
    eapply wp_mono; [apply tx_write_wp; [by apply set_tx_chunk_length_wf|lia|]|].
    { cbn. change (zlen protocol_version) with 4. lia. }
    intros _ g4 [W4 _]. by apply set_tx_chunk_length_wf.
  - wp_step. eapply wp_mono; [apply tx_write_wp; [done|lia|change (zlen _) with 1; lia]|].
    intros _ g3 [W3 _]. by apply set_tx_chunk_length_wf.
  - do 2 wp_step. wp_step. unfold w8. rewrite Z.mod_small by lia.
    apply (wp_lift _ (ztake (Z.min (tx_chunk_buffer_size g) length) b));
      [by rewrite read_at_ok, zdrop_0 by lia|].
    apply tx_write_wf; [by apply set_tx_chunk_length_wf|lia|]. rewrite zlen_ztake by lia. cbn. lia.
  - apply process_apdu_chunk_wf; [done| |lia|].
    { unfold zlen in *. rewrite length_drop. lia. }
    intros total. rewrite !U2BE_drop by lia. intros E1 E2. apply Hfits. split; [|done].
    rewrite Ht. f_equal. lia.
  - do 2 wp_step. wp_step. eapply wp_mono; [apply tx_write_wp; [done|lia|change (zlen _) with 6; lia]|].
    intros _ g3 [W3 (S3 & _)%static_eq]. do 2 wp_step.
    apply tx_encode_wf; [by apply set_tx_chunk_length_wf|lia|cbn; lia].
  - exact Hg.
Qed.

(** The reception of a packet. *)
Lemma rx_wp (g : ledger_protocol_t) (buffer : option (list Z)) (length : Z) :
  rx_wf g -> 0 <= length < 65536 -> length <= zlen (default [] buffer) ->
  apdu_fits g (default [] buffer) ->
  wp (LEDGER_PROTOCOL_rx buffer length) (fun _ g' => rx_wf g' /\ rx_static g' = rx_static g) g.
Proof.
  intros Hg Hl Hb Hfits.
  apply (wp_keeps (fun g' => rx_static g' = rx_static g)); [|apply rx_frame|done].
  unfold LEDGER_PROTOCOL_rx. destruct buffer as [b|]; [|exact Hg]. cbn [default id] in *.
  destruct (Z.ltb_spec length 3); [exact Hg|]. pose proof (wf_tx_size g Hg) as Hsz.
  do 3 wp_step. eapply wp_mono; [apply (wp_keeps (fun g' => rx_static g' = rx_static g));
    [by apply tx_clear_wf|apply tx_clear_frame|done]|].
  intros _ g1 [W1 S1]. pose proof (static_eq _ _ S1) as (T1 & _).
  wp_step. apply (wp_lift _ (ztake 2 b)); [by rewrite read_at_ok, zdrop_0 by lia|].
  wp_step. eapply wp_mono; [apply tx_write_wp; [done|lia|rewrite zlen_ztake; lia]|].
  intros _ g2 [W2 S2]. wp_step. rewrite S1 in S2. apply static_eq in S2 as (T2 & T3 & T4).
  destruct (lookup_lt_is_Some_2 b 2) as [tag Et]; [unfold zlen in *; lia|].
  apply (wp_lift _ tag); [done|]. rewrite <- T2. apply rx_switch_wf; [done|lia|done|done|].
  unfold apdu_fits. by rewrite T3, T4.
Qed.

(** * Properties *)

(** C1: an APDU of any content and any length up to 65534 bytes
    that one handle sends is what another one receives. The sender ends with
    nothing pending after finitely many packets of [mtu] bytes; the receiver
    accepts them in order without leaving its buffers and ends with the
    status [APDU_STATUS_COMPLETE], the length of the APDU plus one and a
    buffer that holds its type and the APDU; it answers on the channel of the
    sender. *)
Theorem transport_roundtrip (h g : ledger_protocol_t) (a : list Z) :
  tx_ready h -> rx_ready g a -> rx_apdu_sequence_number g = 0 -> zlen a < 65535 ->
  exists ps h' g', send a h = Ret ps h' /\ receive ps g = Ret tt g' /\
    tx_apdu_buffer h' = None /\ Forall (fun p => zlen p = mtu h) ps /\
    rx_apdu_status g' = APDU_STATUS_COMPLETE /\ rx_apdu_sequence_number g' = 0 /\
    rx_apdu_length g' = 1 + zlen a /\ ztake (1 + zlen a) (rx_apdu_buffer g') = type g :: a /\
    ztake 2 (tx_chunk_buffer g') = ztake 2 (tx_chunk_buffer h).
Proof.
  intros Hh Hg Hs Ha. pose proof (zlen_nonneg a).
  set (h0 := set_tx_apdu (Some a) (zlen a) 0 0 h).
  assert (send a h = send_rest (S (length a)) h0) as Hsend by done.
  destruct (send_rest_ok a (S (length a)) h0 g 0 0) as (ps & h' & g' & E1 & E2 & E3 & E4 & E5 & E6 & E7 & _);
    [exact Hh|done|done|done|done| |lia|lia|unfold zlen; lia|].
  { split; [exact Hg|]. split; [exact Hs|]. split; [done|]. by intros []. }
  destruct E4 as (R1 & R2 & R3 & rest & R4 & _).
  exists ps, h', g'. rewrite Hsend. split; [exact E1|]. split; [exact E2|]. split; [exact E3|].
  split; [exact E7|]. split; [exact R1|]. split; [exact R3|]. split; [exact R2|]. split; [|exact E6].
  rewrite R4, (ztake_all (zlen a) a), E5 by lia. rewrite app_comm_cons. apply ztake_app_l.
  by rewrite zlen_cons.
Qed.

(** A handle set up for a transport with chunks of [m] bytes and APDUs of at
    most [n] bytes. *)
Definition example_handle (m n : Z) (channel : list Z) : ledger_protocol_t :=
  mk_ledger_protocol 1 None 0 0 0 (channel ++ zeros (m - 2)) m 0
    (zeros (n + 1)) n APDU_STATUS_WAITING 0 0 0 m 0.

Lemma transport_roundtrip_witness :
  exists ps h' g', send (repeat 7 100) (example_handle 64 260 [1; 1]) = Ret ps h' /\
    receive ps (example_handle 64 260 [0; 0]) = Ret tt g' /\
    tx_apdu_buffer h' = None /\ Forall (fun p => zlen p = 64) ps /\
    rx_apdu_status g' = APDU_STATUS_COMPLETE /\ rx_apdu_sequence_number g' = 0 /\
    rx_apdu_length g' = 101 /\ ztake 101 (rx_apdu_buffer g') = 1 :: repeat 7 100 /\
    ztake 2 (tx_chunk_buffer g') = [1; 1].
Proof.
  refine (transport_roundtrip (example_handle 64 260 [1; 1]) (example_handle 64 260 [0; 0])
    (repeat 7 100) _ _ _ _).
  - split; [reflexivity|]. vm_compute. repeat split; discriminate.
  - split; [reflexivity|]. vm_compute. repeat split; discriminate.
  - reflexivity.
  - reflexivity.
Defined.

(** C31: whatever the packet, the reception keeps the handle well
    formed and stays within the buffers, provided the packet does not start
    an APDU that passes the check of the length without fitting the buffer
    with its type. *)
Theorem rx_never_faults (g : ledger_protocol_t) (buffer : option (list Z)) (length : Z) :
  rx_wf g -> 0 <= length < 65536 -> length <= zlen (default [] buffer) ->
  apdu_fits g (default [] buffer) ->
  exists g', LEDGER_PROTOCOL_rx buffer length g = Ret tt g' /\ rx_wf g'.
Proof.
  intros Hg Hl Hb Hf. pose proof (rx_wp g buffer length Hg Hl Hb Hf) as H.
  apply wp_ret_inv in H as ([] & g' & E & H' & _). by exists g'.
Qed.

(** The set-up of the USB transport: the buffer of the APDU has no spare
    byte. *)
Definition usb_handle : ledger_protocol_t :=
  mk_ledger_protocol 0x20 None 0 0 0 (zeros 64) 64 0 (zeros 273) 273 APDU_STATUS_WAITING 0 0 0 64 0.

Lemma usb_handle_wf : rx_wf usb_handle.
Proof. split; vm_compute; repeat split; try discriminate; by intros []. Qed.

Lemma rx_never_faults_witness :
  exists g', LEDGER_PROTOCOL_rx (Some ([1; 1; 5; 0; 0; 0; 100] ++ repeat 7 57)) 64 usb_handle = Ret tt g' /\
    rx_wf g'.
Proof.
  refine (rx_never_faults usb_handle (Some ([1; 1; 5; 0; 0; 0; 100] ++ repeat 7 57)) 64 usb_handle_wf _ _ _).
  - lia.
  - vm_compute. discriminate.
  - intros total (_ & _ & H) _. vm_compute in H. injection H as <-. reflexivity.
Defined.

(** C40: the check of the length leaves no room for the type. When
    the announced length is exactly the size of the buffer, as the USB
    transports set it up ([rx_apdu_buffer_size = sizeof(buffer)]), the APDU is
    accepted and its last byte is written past the end of the buffer. *)
Theorem rx_length_off_by_one (g : ledger_protocol_t) (c a : list Z) :
  zlen (tx_chunk_buffer g) = tx_chunk_buffer_size g -> 2 <= tx_chunk_buffer_size g -> zlen c = 2 ->
  rx_apdu_sequence_number g = 0 -> 0 < zlen a < 65536 ->
  rx_apdu_buffer_size g = zlen (rx_apdu_buffer g) -> zlen a = rx_apdu_buffer_size g ->
  let p := c ++ chunk_header 0 (zlen a) ++ a in
  LEDGER_PROTOCOL_rx (Some p) (zlen p) g = Fault.
Proof.
  intros Hb Hs Hc Hk Ha Hsz Hl p. unfold p, chunk_header. cbn [Z.eqb]. rewrite <- !app_assoc.
  rewrite rx_apdu_dispatch, process_first_ok by (cbn; done || lia).
  set (g2 := set_rx_offset _ _). unfold rx_store. unfold mbind at 1, mgets at 1, mbind at 1, mgets at 1.
  change (rx_apdu_offset g2) with 0. assert (rx_apdu_length g2 = zlen a) as -> by (apply Z.mod_small; lia).
  destruct (Z.ltb_spec (zlen a) (0 + zlen a)); [lia|].
  rewrite (mlift_some _ _ _ a).
  - unfold rx_write. unfold mbind at 1, mbind at 1, mgets at 1.
    change (rx_apdu_buffer g2) with (type g :: drop 1 (rx_apdu_buffer g)).
    unfold mbind at 1, mlift at 1, write_at.
    assert (zlen (type g :: drop 1 (rx_apdu_buffer g)) = zlen a) as ->
      by (rewrite zlen_cons; unfold zlen in *; rewrite length_drop; lia).
    destruct (Z.leb_spec (1 + 0 + zlen a) (zlen a)); [lia|]. by rewrite andb_false_r.
  - rewrite app_assoc, read_at_ok by (rewrite ?zlen_app; change (zlen (be16 0)) with 2;
      change (zlen (be16 (zlen a))) with 2; lia).
    rewrite zdrop_app_l by done. by rewrite ztake_all by lia.
Qed.

Lemma rx_length_off_by_one_witness :
  let g := mk_ledger_protocol 1 None 0 0 0 (zeros 64) 64 0 (zeros 273) 273 APDU_STATUS_WAITING 0 0 0 64 0 in
  let p := [1; 1] ++ chunk_header 0 273 ++ zeros 273 in
  LEDGER_PROTOCOL_rx (Some p) (zlen p) g = Fault.
Proof.
  refine (rx_length_off_by_one (mk_ledger_protocol 1 None 0 0 0 (zeros 64) 64 0 (zeros 273) 273
    APDU_STATUS_WAITING 0 0 0 64 0) [1; 1] (zeros 273) _ _ _ _ _ _ _); try reflexivity.
  - vm_compute. discriminate.
  - vm_compute. split; reflexivity.
Defined.

(** A chunk of an APDU that is not the expected one (or is too
    short to hold a sequence number) is dropped: the status goes back to
    [APDU_STATUS_WAITING] and nothing of the reassembly changes. In
    particular the expected sequence number is not reset, so that in the
    middle of an APDU the first chunk of a new one is refused as well, any
    number of times. *)
Theorem rx_out_of_sequence (g : ledger_protocol_t) (c : list Z) (s : Z) (data : list Z) :
  zlen (tx_chunk_buffer g) = tx_chunk_buffer_size g -> 2 <= tx_chunk_buffer_size g -> zlen c = 2 ->
  0 <= s < 65536 -> s <> rx_apdu_sequence_number g ->
  let p := c ++ [TAG_APDU] ++ be16 s ++ data in
  LEDGER_PROTOCOL_rx (Some p) (zlen p) g = Ret tt (set_rx_status APDU_STATUS_WAITING
    (set_tx_chunk_buffer (c ++ zeros (tx_chunk_buffer_size g - 2)) g)).
Proof.
  intros Hb Hs Hc Hsr Hne p. unfold p. rewrite rx_apdu_dispatch by done.
  unfold process_apdu_chunk. unfold mbind at 1, mgets at 1.
  assert (zlen (be16 s ++ data) = 2 + zlen data) as ->
    by (unfold be16; cbn [app]; rewrite !zlen_cons; lia).
  pose proof (zlen_nonneg data). destruct (Z.ltb_spec (2 + zlen data) 2); [lia|].
  unfold mbind at 1. rewrite (mlift_some _ _ _ s) by (by apply (U2BE_be16 [])). unfold mret at 1.
  cbn [rx_apdu_sequence_number set_tx_chunk_buffer].
  by destruct (Z.eqb_spec s (rx_apdu_sequence_number g)).
Qed.

Lemma rx_out_of_sequence_witness :
  let g := set_rx_sequence_number 1 (example_handle 64 260 [1; 1]) in
  let p := [1; 1] ++ [TAG_APDU] ++ be16 0 ++ [0; 5; 1; 2; 3; 4; 5] in
  LEDGER_PROTOCOL_rx (Some p) (zlen p) g
  = Ret tt (set_rx_status APDU_STATUS_WAITING (set_tx_chunk_buffer ([1; 1] ++ zeros 62) g)).
Proof.
  refine (rx_out_of_sequence (set_rx_sequence_number 1 (example_handle 64 260 [1; 1])) [1; 1] 0
    [0; 5; 1; 2; 3; 4; 5] _ _ _ _ _); try reflexivity.
  - vm_compute. discriminate.
  - lia.
  - vm_compute. discriminate.
Defined.

(** The answer to a control packet starts with its channel. *)
Lemma rx_reply_start g c t q (K : Z -> M ledger_protocol_t unit) :
  rx_wf g -> zlen c = 2 ->
  (do! tx_clear 0 (tx_chunk_buffer_size g) in
   let! channel := mlift (read_at (c ++ t :: q) 0 2) in
   do! tx_write 0 channel in
   let! tag := mlift ((c ++ t :: q) !! 2%nat) in K tag) g
  = K t (set_tx_chunk_buffer (c ++ zeros (tx_chunk_buffer_size g - 2)) g).
Proof.
  intros Hg Hc. pose proof (wf_tx g Hg). pose proof (wf_tx_size g Hg). pose proof (zlen_nonneg q).
  unfold tx_clear, tx_write, mbind, mgets, mmodify, mlift.
  rewrite memset_at_end by lia. rewrite read_at_ok by (rewrite ?zlen_app, ?zlen_cons; lia).
  rewrite zdrop_0, ztake_app_l, ztake_0 by done. cbn [tx_chunk_buffer set_tx_chunk_buffer app].
  change (replicate (Z.to_nat (tx_chunk_buffer_size g)) 0) with ([] ++ zeros (tx_chunk_buffer_size g)).
  rewrite (write_at_tail [] c) by (done || lia). rewrite Hc.
  rewrite lookup_app_r by (unfold zlen in Hc; lia). by replace (2 - length c)%nat with O by (unfold zlen in Hc; lia).
Qed.

(** Writing an answer after the channel. *)
Lemma reply_write g c n s :
  zlen c = 2 -> zlen s <= n ->
  tx_write 2 s (set_tx_chunk_buffer (c ++ zeros n) g)
  = Ret tt (set_tx_chunk_buffer ((c ++ s) ++ zeros (n - zlen s)) g).
Proof. intros Hc Hs. by rewrite (tx_write_ok _ c n 2 s). Qed.

(** The state a control packet leaves: the answer [d] on its channel. *)
Definition reply_state (g : ledger_protocol_t) (c d : list Z) (n : Z) : outcome ledger_protocol_t unit :=
  Ret tt (set_tx_chunk_length (2 + zlen d)
    (set_tx_chunk_buffer ((c ++ d) ++ zeros (n - 2 - zlen d)) g)).

Lemma reply_ping g c q n :
  zlen c = 2 -> 8 <= n < 256 -> 3 + zlen q <= n ->
  rx_switch (c ++ TAG_PING :: q) (3 + zlen q) n TAG_PING (set_tx_chunk_buffer (c ++ zeros (n - 2)) g)
  = reply_state g c (TAG_PING :: q) n.
Proof.
  intros Hc H Hq. pose proof (zlen_nonneg q). unfold reply_state.
  replace (rx_switch _ _ _ TAG_PING) with (
    do! mmodify (set_tx_chunk_length (Z.min n (3 + zlen q))) in
    let! echo := mlift (read_at (c ++ TAG_PING :: q) 0 (w8 (Z.min n (3 + zlen q)))) in
    tx_write 0 echo) by reflexivity.
  unfold mbind at 1, mmodify. rewrite Z.min_r by lia.
  assert (zlen (c ++ TAG_PING :: q) = 3 + zlen q) as Hl by (rewrite zlen_app, zlen_cons; lia).
  replace (w8 (3 + zlen q)) with (zlen (c ++ TAG_PING :: q)) by (unfold w8; rewrite Z.mod_small; lia).
  rewrite (mlift_some _ _ _ _ (read_at_all _)), zlen_cons.
  unfold tx_write, mbind, mgets, mlift, mmodify. cbn [tx_chunk_buffer set_tx_chunk_buffer set_tx_chunk_length].
  rewrite write_at_ok by (rewrite ?Hl, ?zlen_app, ?zlen_zeros; lia).
  rewrite ztake_0, Hl. replace (0 + (3 + zlen q)) with (2 + (1 + zlen q)) by lia.
  rewrite <- zdrop_zdrop by lia. rewrite zdrop_app_l by done.
  replace (zdrop (1 + zlen q) (zeros (n - 2))) with (zeros (n - 2 - (1 + zlen q)));
    [by replace (2 + (1 + zlen q)) with (3 + zlen q) by lia|].
  unfold zeros, zdrop. rewrite drop_replicate. f_equal. lia.
Qed.

Lemma reply_version g c q n :
  zlen c = 2 -> 8 <= n < 256 -> 
  rx_switch (c ++ TAG_GET_PROTOCOL_VERSION :: q) (3 + zlen q) n TAG_GET_PROTOCOL_VERSION (set_tx_chunk_buffer (c ++ zeros (n - 2)) g)
  = reply_state g c (TAG_GET_PROTOCOL_VERSION :: protocol_version) n.
Proof.
  intros Hc H. pose proof (zlen_nonneg q). unfold reply_state.
  replace (rx_switch _ _ _ TAG_GET_PROTOCOL_VERSION) with (
    do! tx_write 2 [TAG_GET_PROTOCOL_VERSION] in
    do! mmodify (set_tx_chunk_length (Z.min 4 (n - 3))) in
    let! v := mlift (read_at protocol_version 0 (w8 (Z.min 4 (n - 3)))) in
    do! tx_write 3 v in
    mmodify (set_tx_chunk_length (w8 (Z.min 4 (n - 3)) + 3))) by reflexivity.
  rewrite (mbind_ret _ _ _ _ _ (reply_write g c (n - 2) [TAG_GET_PROTOCOL_VERSION] Hc ltac:(change (zlen _) with 1; lia))).
  rewrite Z.min_l by lia. unfold mbind at 1, mmodify at 1. change (zlen [TAG_GET_PROTOCOL_VERSION]) with 1.
  rewrite (mlift_some _ _ _ protocol_version) by done.
  rewrite (mbind_ret _ _ _ _ _ (tx_write_ok (set_tx_chunk_length 4 (set_tx_chunk_buffer
    ((c ++ [TAG_GET_PROTOCOL_VERSION]) ++ zeros (n - 2 - 1)) g)) _ _ 3 protocol_version eq_refl
    ltac:(rewrite zlen_app, Hc; reflexivity) ltac:(change (zlen _) with 4; lia))).
  unfold mmodify. rewrite <- (app_assoc c). change (zlen protocol_version) with 4.
  change (zlen (_ :: protocol_version)) with 5. by replace (n - 2 - 1 - 4) with (n - 2 - 5) by lia.
Qed.

Lemma reply_channel g c q n :
  zlen c = 2 -> 8 <= n < 256 -> 
  rx_switch (c ++ TAG_ALLOCATE_CHANNEL :: q) (3 + zlen q) n TAG_ALLOCATE_CHANNEL (set_tx_chunk_buffer (c ++ zeros (n - 2)) g)
  = reply_state g c [TAG_ALLOCATE_CHANNEL] n.
Proof.
  intros Hc H. pose proof (zlen_nonneg q). unfold reply_state.
  replace (rx_switch _ _ _ TAG_ALLOCATE_CHANNEL) with (
    do! tx_write 2 [TAG_ALLOCATE_CHANNEL] in mmodify (set_tx_chunk_length 3)) by reflexivity.
  by rewrite (mbind_ret _ _ _ _ _ (reply_write g c (n - 2) [TAG_ALLOCATE_CHANNEL] Hc ltac:(change (zlen _) with 1; lia))).
Qed.

Lemma reply_mtu g c q n :
  zlen c = 2 -> 8 <= n < 256 -> 2 <= mtu g < 258 ->
  rx_switch (c ++ TAG_MTU :: q) (3 + zlen q) n TAG_MTU (set_tx_chunk_buffer (c ++ zeros (n - 2)) g)
  = reply_state g c [TAG_MTU; 0; 0; mtu g - 2; 1; mtu g - 2] n.
Proof.
  intros Hc H Hm. pose proof (zlen_nonneg q). unfold reply_state.
  replace (rx_switch _ _ _ TAG_MTU) with (
    let! m := mgets mtu in
    do! tx_write 2 [TAG_MTU; 0; 0; 0; 1; w8 (m - 2)] in
    do! mmodify (set_tx_chunk_length 8) in
    tx_encode 4 (m - 2)) by reflexivity.
  unfold mbind at 1, mgets at 1. cbn [mtu set_tx_chunk_buffer].
  replace (w8 (mtu g - 2)) with (mtu g - 2) by (unfold w8; rewrite Z.mod_small; lia).
  set (m := mtu g - 2) in *.
  rewrite (mbind_ret _ _ _ _ _ (reply_write g c (n - 2) [TAG_MTU; 0; 0; 0; 1; m] Hc ltac:(change (zlen _) with 6; lia))).
  unfold mbind at 1, mmodify, tx_encode, mbind, mgets, mlift, U2BE_ENCODE, mmodify.
  cbn [tx_chunk_buffer set_tx_chunk_buffer set_tx_chunk_length]. rewrite be16_encode by lia.
  change (zlen [TAG_MTU; 0; 0; 0; 1; m]) with 6. change (zlen [TAG_MTU; 0; 0; m; 1; m]) with 6.
  set (z := zeros _).
  replace ((c ++ [TAG_MTU; 0; 0; 0; 1; m]) ++ z) with ((c ++ [TAG_MTU; 0]) ++ [0; 0] ++ [1; m] ++ z)
    by (by rewrite <- !app_assoc).
  pose proof (zlen_nonneg z). rewrite write_at_ok by (unfold be16; rewrite ?zlen_app, ?zlen_cons, ?(@zlen_nil Z); lia).
  rewrite ztake_app_l by (rewrite zlen_app, Hc; reflexivity).
  change (4 + zlen (be16 m)) with (4 + 2). rewrite <- zdrop_zdrop by lia.
  rewrite zdrop_app_l by (rewrite zlen_app, Hc; reflexivity). rewrite zdrop_app_l by done.
  unfold be16. rewrite Z.div_small, Z.mod_small by lia. by rewrite <- !app_assoc.
Qed.

(** The answers to the control packets. A ping is echoed, the
    version, the channel allocation and the MTU are answered on the channel
    of the packet, the rest of the answer being zeros; nothing of the
    reassembly changes. *)
Theorem rx_control_replies (g : ledger_protocol_t) (c q : list Z) :
  rx_wf g -> zlen c = 2 -> 3 + zlen q <= tx_chunk_buffer_size g -> 2 <= mtu g < 258 ->
  let answer t := LEDGER_PROTOCOL_rx (Some (c ++ t :: q)) (3 + zlen q) g in
  let reply d := reply_state g c d (tx_chunk_buffer_size g) in
  answer TAG_PING = reply (TAG_PING :: q) /\
  answer TAG_GET_PROTOCOL_VERSION = reply (TAG_GET_PROTOCOL_VERSION :: protocol_version) /\
  answer TAG_ALLOCATE_CHANNEL = reply [TAG_ALLOCATE_CHANNEL] /\
  answer TAG_MTU = reply [TAG_MTU; 0; 0; mtu g - 2; 1; mtu g - 2].
Proof.
  intros Hg Hc Hq Hm answer reply. pose proof (wf_tx_size g Hg). pose proof (zlen_nonneg q).
  set (n := tx_chunk_buffer_size g) in *.
  assert (forall t, answer t = rx_switch (c ++ t :: q) (3 + zlen q) n t
    (set_tx_chunk_buffer (c ++ zeros (n - 2)) g)) as Hstart.
  { intros t. unfold answer, LEDGER_PROTOCOL_rx. destruct (Z.ltb_spec (3 + zlen q) 3); [lia|].
    unfold mbind at 1, mgets at 1. by rewrite rx_reply_start. }
  rewrite !Hstart. split; [by apply reply_ping|]. split; [by apply reply_version|].
  split; [by apply reply_channel|by apply reply_mtu].
Qed.

Lemma rx_control_replies_witness :
  LEDGER_PROTOCOL_rx (Some ([1; 2] ++ TAG_MTU :: [])) 3 (example_handle 64 260 [0; 0])
  = Ret tt (set_tx_chunk_length 8 (set_tx_chunk_buffer
      (([1; 2] ++ [TAG_MTU; 0; 0; 62; 1; 62]) ++ zeros 56) (example_handle 64 260 [0; 0]))).
Proof.
  refine (proj2 (proj2 (proj2 (rx_control_replies (example_handle 64 260 [0; 0]) [1; 2] [] _ _ _ _)))).
  - split; vm_compute; repeat split; try discriminate; by intros [].
  - reflexivity.
  - vm_compute. discriminate.
  - vm_compute. split; [discriminate|reflexivity].
Defined.
