(* ===== verification/Seph.v ===== *)
(** The channel to the screen and USB controller (SEPROXYHAL):
    [src/bolos/io/io.c], [src/bolos/seproxyhal.c] (its version for older
    SDKs), [src/bolos/touch.c], the commands of [os_io_seph_cmd.c] and the
    branch of [os_io_tx_cmd] ([os_io.c]) they use.

    A packet is a tag, a 16-bit length and its data. The application sends
    commands and then a status; after a status it may only wait for an
    event. *)

From S2P Require Import Prelude CxUtils.

(** * Definitions *)

(** ** The file descriptor

    What the successive [read] calls deliver ([RdData] of nothing, or the end
    of the list, is the end of file), and what the [write] calls accept (the
    whole buffer once the list is exhausted). *)
Inductive rd_event := RdData (d : list Z) | RdIntr | RdError.
Inductive wr_event := WrCount (n : Z) | WrIntr | WrError.

Record fd_t := mk_fd {
  fd_in : list rd_event;
  fd_wr : list wr_event;
  fd_out : list Z;
}.

Definition set_fd_in (x : list rd_event) (s : fd_t) : fd_t :=
  mk_fd x (fd_wr s) (fd_out s).

Definition set_fd_wr (x : list wr_event) (s : fd_t) : fd_t :=
  mk_fd (fd_in s) x (fd_out s).

Definition set_fd_out (x : list Z) (s : fd_t) : fd_t :=
  mk_fd (fd_in s) (fd_wr s) x.

(** The loop of [readall]: every piece is stored at the start of [buf], which
    the code does not advance. *)
Fixpoint read_loop (evs : list rd_event) (buf : list Z) (count : Z)
  : option (Z * list Z * list rd_event) :=
  if count =? 0 then Some (0, buf, evs)
  else match evs with
  | [] => Some (-1, buf, [])
  | RdIntr :: evs => read_loop evs buf count
  | RdError :: evs => Some (-1, buf, evs)
  | RdData d :: evs =>
      if zlen d =? 0 then Some (-1, buf, evs)
      else
        buf ← write_at buf 0 (ztake (Z.min (zlen d) count) d);
        if zlen d <=? count then read_loop evs buf (count - zlen d)
        else Some (0, buf, RdData (zdrop count d) :: evs)
  end.

(** Returns the result and the buffer. *)
Definition readall (buf : list Z) (count : Z) : M fd_t (Z * list Z) :=
  let! evs := mgets fd_in in
  let! (res, buf, evs) := mlift (read_loop evs buf count) in
  do! mmodify (set_fd_in evs) in
  mret (res, buf).

(** The loop of [writeall] on the bytes that remain: the result, the events
    that remain and the bytes written. *)
Fixpoint write_loop (evs : list wr_event) (p : list Z) : Z * list wr_event * list Z :=
  match evs with
  | [] => (0, [], p)
  | WrIntr :: evs => write_loop evs p
  | WrError :: evs => (-1, evs, [])
  | WrCount n :: evs =>
      if n =? 0 then (-1, evs, [])
      else if n <? zlen p then
        let '(res, evs, out) := write_loop evs (zdrop n p) in (res, evs, ztake n p ++ out)
      else (0, evs, p)
  end.

Definition writeall (buf : list Z) (count : Z) : M fd_t Z :=
  if count =? 0 then mret 0
  else
    let! p := mlift (read_at buf 0 count) in
    let! evs := mgets fd_wr in
    let '(res, evs, out) := write_loop evs p in
    let! before := mgets fd_out in
    do! mmodify (set_fd_wr evs) in
    do! mmodify (set_fd_out (before ++ out)) in
    mret res.

(** ** State *)

Definition OS_IO_SEPH_BUFFER_SIZE : Z := 272.
Definition OS_IO_PACKET_TYPE_SEPH : Z := 0x01.
Definition OS_IO_FLAG_CACHE : Z := 1.
Definition OS_IO_FLAG_NO_ITC : Z := 2.
Definition SEPROXYHAL_TAG_STATUS_MASK : Z := 0x60.
Definition SEPROXYHAL_TAG_GENERAL_STATUS : Z := 0x60.
Definition SEPROXYHAL_TAG_FINGER_EVENT : Z := 0x0C.

Definition SEPH_STATE_IDLE : Z := 0.
Definition SEPH_STATE_WAIT_EVENT : Z := 1.
Definition SEPH_STATE_SEND_CMD : Z := 2.

Record seph_info_t := mk_seph_info {
  tx_packet_length : Z;
  tx_packet_offset : Z;
  tx_packet_max_length : Z;
  tx_packet_tag : Z;
  seph_state : Z;
  rx_packet_length : Z;
  rx_packet_max_length : Z;
  rx_packet : list Z;
}.

Record io_touch_info_t := mk_touch_info { touch_x : Z; touch_y : Z; touch_state : Z }.

Record io_t := mk_io {
  G_seph_info : seph_info_t;
  seph_fd : fd_t;
  last_touch_infos : io_touch_info_t;
  G_io_seph_buffer : list Z;
  G_io_seph_buffer_size : Z;
}.

Definition set_tx_packet_length (x : Z) (s : seph_info_t) : seph_info_t :=
  mk_seph_info x (tx_packet_offset s) (tx_packet_max_length s) (tx_packet_tag s)
    (seph_state s) (rx_packet_length s) (rx_packet_max_length s) (rx_packet s).

Definition set_tx_packet_offset (x : Z) (s : seph_info_t) : seph_info_t :=
  mk_seph_info (tx_packet_length s) x (tx_packet_max_length s) (tx_packet_tag s)
    (seph_state s) (rx_packet_length s) (rx_packet_max_length s) (rx_packet s).

Definition set_tx_packet_tag (x : Z) (s : seph_info_t) : seph_info_t :=
  mk_seph_info (tx_packet_length s) (tx_packet_offset s) (tx_packet_max_length s) x
    (seph_state s) (rx_packet_length s) (rx_packet_max_length s) (rx_packet s).

Definition set_seph_state (x : Z) (s : seph_info_t) : seph_info_t :=
  mk_seph_info (tx_packet_length s) (tx_packet_offset s) (tx_packet_max_length s)
    (tx_packet_tag s) x (rx_packet_length s) (rx_packet_max_length s) (rx_packet s).

Definition set_rx_packet_length (x : Z) (s : seph_info_t) : seph_info_t :=
  mk_seph_info (tx_packet_length s) (tx_packet_offset s) (tx_packet_max_length s)
    (tx_packet_tag s) (seph_state s) x (rx_packet_max_length s) (rx_packet s).

Definition set_rx_packet (x : list Z) (s : seph_info_t) : seph_info_t :=
  mk_seph_info (tx_packet_length s) (tx_packet_offset s) (tx_packet_max_length s)
    (tx_packet_tag s) (seph_state s) (rx_packet_length s) (rx_packet_max_length s) x.

Definition set_G_seph_info (x : seph_info_t) (s : io_t) : io_t :=
  mk_io x (seph_fd s) (last_touch_infos s) (G_io_seph_buffer s) (G_io_seph_buffer_size s).

Definition set_seph_fd (x : fd_t) (s : io_t) : io_t :=
  mk_io (G_seph_info s) x (last_touch_infos s) (G_io_seph_buffer s) (G_io_seph_buffer_size
    s).

Definition set_last_touch_infos (x : io_touch_info_t) (s : io_t) : io_t :=
  mk_io (G_seph_info s) (seph_fd s) x (G_io_seph_buffer s) (G_io_seph_buffer_size s).

Definition set_G_io_seph_buffer (x : list Z) (s : io_t) : io_t :=
  mk_io (G_seph_info s) (seph_fd s) (last_touch_infos s) x (G_io_seph_buffer_size s).

Definition set_G_io_seph_buffer_size (x : Z) (s : io_t) : io_t :=
  mk_io (G_seph_info s) (seph_fd s) (last_touch_infos s) (G_io_seph_buffer s) x.

Definition initial_seph_info : seph_info_t :=
  mk_seph_info 0 0 OS_IO_SEPH_BUFFER_SIZE 0 SEPH_STATE_SEND_CMD 0 OS_IO_SEPH_BUFFER_SIZE
    (zeros OS_IO_SEPH_BUFFER_SIZE).

Definition initial_io (fd : fd_t) : io_t :=
  mk_io initial_seph_info fd (mk_touch_info 0 0 0) (zeros (OS_IO_SEPH_BUFFER_SIZE + 1)) 0.

Definition seph {A} (f : seph_info_t -> A) : M io_t A := mgets (fun s => f (G_seph_info s)).
Definition seph_modify (f : seph_info_t -> seph_info_t) : M io_t unit :=
  mmodify (fun s => set_G_seph_info (f (G_seph_info s)) s).
Definition on_fd {A} (m : M fd_t A) : M io_t A := zoom seph_fd set_seph_fd m.

(** The process ends ([_exit], [errx]). *)
Definition EXIT : Z := 0x100.

(** ** touch.c *)

Definition touch_from_seph (buffer : list Z) (size : Z) (t : io_touch_info_t)
  : option io_touch_info_t :=
  if size <? 5 then Some t
  else
    b0 ← buffer !! 0%nat;
    if negb (b0 =? SEPROXYHAL_TAG_FINGER_EVENT) then Some t
    else
      b3 ← buffer !! 3%nat; b4 ← buffer !! 4%nat; b5 ← buffer !! 5%nat;
      b6 ← buffer !! 6%nat; b7 ← buffer !! 7%nat;
      Some (mk_touch_info (w16 (Z.shiftl b4 8 + b5)) (w16 (Z.shiftl b6 8 + b7)) b3).

Definition catch_touch_info_from_seph (buffer : list Z) (size : Z) : M io_t unit :=
  let! t := mgets last_touch_infos in
  let! t := mlift (touch_from_seph buffer size t) in
  mmodify (set_last_touch_infos t).

Definition sys_touch_get_last_info : M io_t (Z * io_touch_info_t) :=
  let! t := mgets last_touch_infos in mret (0, t).

(** ** io.c *)

(** The start of a packet: 0, or the error. *)
Definition seph_tx_start (b : list Z) (length : Z) : M io_t Z :=
  if length <? 3 then mret (-23)
  else
    let! n := mlift (U2BE b 1) in
    do! seph_modify (set_tx_packet_length (w16 (n + 3))) in
    let! total := seph tx_packet_length in
    let! limit := seph tx_packet_max_length in
    if limit <? total then do! seph_modify (set_tx_packet_length 0) in mret (-25)
    else
      let! tag := mlift (b !! 0%nat) in
      do! seph_modify (set_tx_packet_tag tag) in
      do! seph_modify (set_tx_packet_offset 0) in
      mret 0.

Definition is_status (tag : Z) : bool :=
  Z.land tag SEPROXYHAL_TAG_STATUS_MASK =? SEPROXYHAL_TAG_GENERAL_STATUS.

(** The bytes are written and the packet advances. *)
Definition seph_tx_write (b : list Z) (length : Z) : M io_t Z :=
  let! off := seph tx_packet_offset in
  let! total := seph tx_packet_length in
  if total <? off + length then mret (-24)
  else
    do! on_fd (writeall b length) in
    let! tag := seph tx_packet_tag in
    let is_status_packet := is_status tag in
    do! seph_modify (set_tx_packet_offset (w16 (off + length))) in
    let! off := seph tx_packet_offset in
    do! (if off =? total then
           do! seph_modify (set_tx_packet_length 0) in
           do! seph_modify (set_tx_packet_tag 0) in
           if is_status_packet then seph_modify (set_seph_state SEPH_STATE_WAIT_EVENT)
           else mret tt
         else mret tt) in
    mret length.

Definition sys_os_io_seph_tx (buffer : option (list Z)) (length : Z) : M io_t Z :=
  match buffer with
  | None => mret (-22)
  | Some b =>
      if length =? 0 then mret (-22)
      else
        let! st := seph seph_state in
        let! pending := seph tx_packet_length in
        if st =? SEPH_STATE_WAIT_EVENT then
          let! again :=
            (if pending =? 0 then let! tag := mlift (b !! 0%nat) in mret (is_status tag)
             else mret false) in
          if again then mret length else mret (-1)
        else
          let! res := (if pending =? 0 then seph_tx_start b length else mret 0) in
          if res <? 0 then mret res else seph_tx_write b length
  end.

(** Reads a packet: its length with the type byte, or the error. *)
Definition seph_rx_read (buffer : list Z) : M io_t (Z * list Z) :=
  let! p := seph rx_packet in
  let! (res, p) := on_fd (readall p 3) in
  do! seph_modify (set_rx_packet p) in
  if res <? 0 then mthrow EXIT
  else
    let! n := mlift (U2BE p 1) in
    do! seph_modify (set_rx_packet_length n) in
    let! limit := seph rx_packet_max_length in
    if limit - 3 <? n then mret (-12, buffer)
    else
      do! seph_modify (set_rx_packet_length (w16 (n + 3))) in
      let! (res, body) := on_fd (readall (zdrop 3 p) n) in
      do! seph_modify (set_rx_packet (ztake 3 p ++ body)) in
      if res <? 0 then mthrow EXIT
      else
        let! len := seph rx_packet_length in
        let! data := mlift (read_at (ztake 3 p ++ body) 0 len) in
        let! buffer := mlift (write_at buffer 0 (OS_IO_PACKET_TYPE_SEPH :: data)) in
        do! seph_modify (set_seph_state SEPH_STATE_SEND_CMD) in
        do! seph_modify (set_tx_packet_length 0) in
        mret (len + 1, buffer).

(** Returns the length and the caller's buffer; [None] is the NULL pointer, which has no bytes. *)
Definition sys_os_io_seph_se_rx_event (buffer : option (list Z)) (max_length flags : Z)
  : M io_t (Z * list Z) :=
  match buffer with
  | None => mret (-26, [])
  | Some buffer =>
      let! limit := seph rx_packet_max_length in
      if max_length <? limit then mret (-26, buffer)
      else
        let! st := seph seph_state in
        let! (len, buffer) :=
          (if truthy (Z.land flags OS_IO_FLAG_CACHE) then
             let! p := seph rx_packet in
             let! n := seph rx_packet_length in
             let! data := mlift (read_at p 0 n) in
             let! buffer := mlift (write_at buffer 0 data) in
             mret (n, buffer)
           else if negb (st =? SEPH_STATE_WAIT_EVENT) then mret (-1, buffer)
           else seph_rx_read buffer) in
        do! (if 0 <=? len then catch_touch_info_from_seph (zdrop 1 buffer) (w16 (len - 1))
             else mret tt) in
        mret (len, buffer)
  end.

(** ** os_io.c: a command for the controller

    When the application may only wait for an event, the event is read and
    kept for the next reception, and the command sent again. *)
Definition os_io_tx_seph (buffer : option (list Z)) (length : Z) : M io_t Z :=
  let! status := sys_os_io_seph_tx buffer length in
  if status =? -1 then
    let! b := mgets G_io_seph_buffer in
    let! (status, b) := sys_os_io_seph_se_rx_event (Some b) (OS_IO_SEPH_BUFFER_SIZE + 1) OS_IO_FLAG_NO_ITC in
    do! mmodify (set_G_io_seph_buffer b) in
    if 0 <=? status then
      do! mmodify (set_G_io_seph_buffer_size status) in
      sys_os_io_seph_tx buffer length
    else mret status
  else mret status.

(** ** os_io_seph_cmd.c *)

Definition seph_io_general_status : list Z := [SEPROXYHAL_TAG_GENERAL_STATUS; 0; 2; 0; 0].
Definition seph_io_request_status : list Z := [0x52; 0; 0].
Definition seph_io_se_power_off : list Z := [0x46; 0; 0].
Definition seph_io_usb_disconnect : list Z := [0x4F; 0; 1; 0x02].
Definition seph_io_cmd_mcu_bootloader : list Z := [0x31; 0; 1; 0x00].
Definition seph_io_cmd_mcu_lock : list Z := [0x31; 0; 1; 0x01].
Definition seph_io_mcu_protect : list Z := [0x31; 0; 1; 0x02].
Definition seph_io_cmd_more_time : list Z := [0x4C; 0; 0].

Definition seph_cmd (b : list Z) : M io_t Z := os_io_tx_seph (Some b) (zlen b).

Definition os_io_seph_cmd_general_status : M io_t Z := seph_cmd seph_io_general_status.
Definition os_io_seph_cmd_more_time : M io_t Z := seph_cmd seph_io_cmd_more_time.
Definition os_io_seph_cmd_setup_ticker (interval_ms : Z) : M io_t Z :=
  seph_cmd [0x4E; 0; 2; Z.land (Z.shiftr interval_ms 8) 0xff; Z.land interval_ms 0xff].
Definition os_io_seph_cmd_device_shutdown (critical_battery : Z) : M io_t Z :=
  seph_cmd [0x4B; 0; 1; critical_battery].
Definition os_io_seph_cmd_se_reset : M io_t Z := seph_cmd seph_io_se_power_off.
Definition os_io_seph_cmd_usb_disconnect : M io_t Z := seph_cmd seph_io_usb_disconnect.
Definition os_io_seph_cmd_mcu_status : M io_t Z := seph_cmd seph_io_request_status.
Definition os_io_seph_cmd_mcu_go_to_bootloader : M io_t Z := seph_cmd seph_io_cmd_mcu_bootloader.
Definition os_io_seph_cmd_mcu_lock : M io_t Z := seph_cmd seph_io_cmd_mcu_lock.
Definition os_io_seph_cmd_mcu_protect : M io_t Z := seph_cmd seph_io_mcu_protect.

Definition os_io_seph_cmd_raw_apdu (buffer : option (list Z)) (length : Z) : M io_t unit :=
  if length =? 0 then mret tt
  else
    do! seph_cmd [0x53; w8 (Z.shiftr length 8); w8 length] in
    do! os_io_tx_seph buffer length in
    mret tt.

(** ** seproxyhal.c *)

Module Spi.
Definition SPI_STATUS_MASK : Z := 0xF0.

Record spi_t := mk_spi {
  tx_status : bool;
  rx_length : Z;
  last_tag : Z;
  next_length : Z;
  spi_fd : fd_t;
  spi_touch : io_touch_info_t;
}.

Definition set_tx_status (x : bool) (s : spi_t) : spi_t :=
  mk_spi x (rx_length s) (last_tag s) (next_length s) (spi_fd s) (spi_touch s).

Definition set_rx_length (x : Z) (s : spi_t) : spi_t :=
  mk_spi (tx_status s) x (last_tag s) (next_length s) (spi_fd s) (spi_touch s).

Definition set_last_tag (x : Z) (s : spi_t) : spi_t :=
  mk_spi (tx_status s) (rx_length s) x (next_length s) (spi_fd s) (spi_touch s).

Definition set_next_length (x : Z) (s : spi_t) : spi_t :=
  mk_spi (tx_status s) (rx_length s) (last_tag s) x (spi_fd s) (spi_touch s).

Definition set_spi_fd (x : fd_t) (s : spi_t) : spi_t :=
  mk_spi (tx_status s) (rx_length s) (last_tag s) (next_length s) x (spi_touch s).

Definition set_spi_touch (x : io_touch_info_t) (s : spi_t) : spi_t :=
  mk_spi (tx_status s) (rx_length s) (last_tag s) (next_length s) (spi_fd s) x.

Definition initial_spi (fd : fd_t) : spi_t := mk_spi false 0 0 0 fd (mk_touch_info 0 0 0).

Definition spi_fd_op {A} (m : M fd_t A) : M spi_t A := zoom spi_fd set_spi_fd m.

Definition sys_io_seproxyhal_spi_is_status_sent : M spi_t bool := mgets tx_status.

Definition spi_is_status (tag : Z) : bool :=
  Z.land tag SPI_STATUS_MASK =? SEPROXYHAL_TAG_GENERAL_STATUS.

(** The bytes are written; [next_length] is a 32-bit [size_t]. *)
Definition spi_write (buffer : list Z) (length : Z) : M spi_t Z :=
  let! ret := spi_fd_op (writeall buffer length) in
  let! n := mgets next_length in
  do! mmodify (set_next_length (w32 (n - length))) in
  let! n := mgets next_length in
  let! tag := mgets last_tag in
  do! (if (n =? 0) && spi_is_status tag then
         do! mmodify (set_tx_status true) in mmodify (set_rx_length 0)
       else mret tt) in
  mret (w32 ret).

Definition sys_io_seproxyhal_spi_send (buffer : list Z) (length : Z) : M spi_t Z :=
  if length =? 0 then mret 0
  else
    let! n := mgets next_length in
    if n =? 0 then
      if length <? 3 then mthrow INVALID_PARAMETER
      else
        let! sent := sys_io_seproxyhal_spi_is_status_sent in
        let! tag := mlift (buffer !! 0%nat) in
        if sent && spi_is_status tag then mret 0
        else
          do! mmodify (set_last_tag tag) in
          let! n := mlift (U2BE buffer 1) in
          do! mmodify (set_next_length n) in
          do! mmodify (set_next_length (w32 (n + 3))) in
          spi_write buffer length
    else if n <? length then mthrow INVALID_PARAMETER
    else spi_write buffer length.

(** Returns the length and the caller's buffer. *)
Definition sys_io_seproxyhal_spi_recv (buffer : list Z) (maxlength : Z) : M spi_t (Z * list Z) :=
  let! n := mgets rx_length in
  if negb (n =? 0) then mret (n, buffer)
  else if maxlength <? 3 then mthrow EXIT
  else
    let! (res, buffer) := spi_fd_op (readall buffer 3) in
    if res <? 0 then mthrow EXIT
    else
      let! size := mlift (U2BE buffer 1) in
      let packet_size := if maxlength - 3 <? size then w16 (maxlength - 3) else size in
      let! (res, body) := spi_fd_op (readall (zdrop 3 buffer) packet_size) in
      let buffer := ztake 3 buffer ++ body in
      if res <? 0 then mthrow EXIT
      else
        do! mmodify (set_tx_status false) in
        do! mmodify (set_rx_length (3 + packet_size)) in
        let! t := mgets spi_touch in
        let! t := mlift (touch_from_seph buffer packet_size t) in
        do! mmodify (set_spi_touch t) in
        mret (3 + packet_size, buffer).
End Spi.

(** * Reading and writing the descriptor *)

Lemma writeall_ok b n s :
  fd_wr s = [] -> 0 < n <= zlen b -> writeall b n s = Ret 0 (set_fd_out (fd_out s ++ ztake n b) s).
Proof.
  intros Hw Hn. unfold writeall. destruct (Z.eqb_spec n 0); [lia|].
  rewrite (mlift_some _ _ _ _ (read_at_ok b 0 n ltac:(lia) ltac:(lia) ltac:(lia))), zdrop_0.
  unfold mbind, mgets. rewrite Hw. cbn. destruct s; cbn in *. by subst.
Qed.

(** [delivers evs d evs']: a [readall] of the bytes [d] gets them from a
    single [read], besides interrupted ones. *)
Inductive delivers : list rd_event -> list Z -> list rd_event -> Prop :=
| delivers_none evs : delivers evs [] evs
| delivers_intr evs d evs' : d <> [] -> delivers evs d evs' -> delivers (RdIntr :: evs) d evs'
| delivers_all d evs : d <> [] -> delivers (RdData d :: evs) d evs
| delivers_more d m evs :
    d <> [] -> m <> [] -> delivers (RdData (d ++ m) :: evs) d (RdData m :: evs).

Lemma zlen_pos {A} (d : list A) : d <> [] -> 0 < zlen d.
Proof. destruct d; [done|]. rewrite zlen_cons. pose proof (zlen_nonneg d). lia. Qed.

Lemma read_loop_0 evs buf : read_loop evs buf 0 = Some (0, buf, evs).
Proof. by destruct evs. Qed.

Lemma read_loop_delivers evs d evs' buf :
  delivers evs d evs' -> zlen d <= zlen buf ->
  read_loop evs buf (zlen d) = Some (0, d ++ zdrop (zlen d) buf, evs').
Proof.
  intros Hd Hl.
  assert (write_at buf 0 d = Some (d ++ zdrop (zlen d) buf)) as Hw.
  { rewrite write_at_ok by lia. by rewrite ztake_0. }
  induction Hd as [evs|evs d evs' Hne Hd IH|d evs Hne|d m evs Hne Hm]; [apply read_loop_0|..];
    cbn [read_loop]; pose proof (zlen_pos d Hne); (destruct (Z.eqb_spec (zlen d) 0); [lia|]).
  - by apply IH.
  - rewrite Z.min_id, (ztake_all (zlen d) d) by lia. rewrite Hw. cbn.
    by rewrite Z.leb_refl, Z.sub_diag, read_loop_0.
  - pose proof (zlen_pos m Hm). rewrite zlen_app. destruct (Z.eqb_spec (zlen d + zlen m) 0); [lia|].
    rewrite Z.min_r by lia. rewrite ztake_app_l by done. rewrite Hw. cbn.
    destruct (Z.leb_spec (zlen d + zlen m) (zlen d)); [lia|]. by rewrite zdrop_app_l.
Qed.

Lemma readall_ok s d evs' buf :
  delivers (fd_in s) d evs' -> zlen d <= zlen buf ->
  readall buf (zlen d) s = Ret (0, d ++ zdrop (zlen d) buf) (set_fd_in evs' s).
Proof.
  intros Hd Hl. unfold readall. unfold mbind at 1, mgets at 1.
  by rewrite (mlift_some _ _ _ _ (read_loop_delivers _ _ _ _ Hd Hl)).
Qed.

(** [readall] does not advance its buffer: when the bytes arrive
    in two pieces, it reports success with the second piece written over the
    first. *)
Theorem readall_short_read s p q evs buf :
  fd_in s = RdData p :: RdData q :: evs -> p <> [] -> q <> [] ->
  zlen p + zlen q <= zlen buf ->
  readall buf (zlen p + zlen q) s
  = Ret (0, q ++ zdrop (zlen q) (p ++ zdrop (zlen p) buf)) (set_fd_in evs s).
Proof.
  intros Hin Hp Hne Hl. pose proof (zlen_pos q Hne) as Hq. apply zlen_pos in Hp.
  unfold readall. unfold mbind at 1, mgets at 1. rewrite Hin.
  rewrite (mlift_some _ _ _ (0, q ++ zdrop (zlen q) (p ++ zdrop (zlen p) buf), evs)); [done|].
  assert (forall (d b : list Z), zlen d <= zlen b -> write_at b 0 d = Some (d ++ zdrop (zlen d) b))
    as Hw by (intros; by rewrite write_at_ok, ztake_0 by lia).
  change (read_loop (RdData p :: RdData q :: evs) buf (zlen p + zlen q)) with
    (if zlen p + zlen q =? 0 then Some (0, buf, RdData p :: RdData q :: evs)
     else if zlen p =? 0 then Some (-1, buf, RdData q :: evs)
     else write_at buf 0 (ztake (Z.min (zlen p) (zlen p + zlen q)) p) ≫= fun b =>
       if zlen p <=? zlen p + zlen q then read_loop (RdData q :: evs) b (zlen p + zlen q - zlen p)
       else Some (0, b, RdData (zdrop (zlen p + zlen q) p) :: RdData q :: evs)).
  destruct (Z.eqb_spec (zlen p + zlen q) 0); [lia|]. destruct (Z.eqb_spec (zlen p) 0); [lia|].
  rewrite Z.min_l, ztake_all, Hw by lia. cbn [option_bind].
  destruct (Z.leb_spec (zlen p) (zlen p + zlen q)); [|lia].
  replace (zlen p + zlen q - zlen p) with (zlen q) by lia.
  apply (read_loop_delivers (RdData q :: evs) q evs); [|zlen_lia].
  by apply delivers_all.
Qed.

Lemma readall_short_read_witness :
  readall [0; 0; 0] 3 (mk_fd [RdData [1]; RdData [2; 3]] [] [])
  = Ret (0, [2; 3; 0]) (mk_fd [] [] []).
Proof.
  apply (readall_short_read (mk_fd [RdData [1]; RdData [2; 3]] [] []) [1] [2; 3] [] [0; 0; 0]);
    [reflexivity | discriminate | discriminate | vm_compute; discriminate].
Defined.

(** * Sending packets *)

(** A whole packet: the length it announces is the one of its data. *)
Definition packet_ok (p : list Z) : Prop :=
  3 <= zlen p <= OS_IO_SEPH_BUFFER_SIZE /\ U2BE p 1 = Some (zlen p - 3).

Definition packet_tag (p : list Z) : Z := hd 0 p.

(** Commands may be sent and none is under way. *)
Definition seph_ready (s : io_t) : Prop :=
  seph_state (G_seph_info s) = SEPH_STATE_SEND_CMD /\ tx_packet_length (G_seph_info s) = 0 /\
  tx_packet_max_length (G_seph_info s) = OS_IO_SEPH_BUFFER_SIZE /\ fd_wr (seph_fd s) = [].

Definition io_out (s : io_t) : list Z := fd_out (seph_fd s).

Definition put_out (d : list Z) (s : io_t) : io_t :=
  set_seph_fd (set_fd_out (io_out s ++ d) (seph_fd s)) s.

(** The first [off] bytes of the packet [p] were sent. *)
Definition sending (p : list Z) (off : Z) (s : io_t) : io_t :=
  put_out (ztake off p)
    (set_G_seph_info
       (set_tx_packet_offset off (set_tx_packet_tag (packet_tag p)
          (set_tx_packet_length (zlen p) (G_seph_info s)))) s).

(** The whole packet was sent. *)
Definition io_sent (p : list Z) (s : io_t) : io_t :=
  put_out p
    (set_G_seph_info
       (set_seph_state
          (if is_status (packet_tag p) then SEPH_STATE_WAIT_EVENT else seph_state (G_seph_info s))
          (set_tx_packet_offset (zlen p) (set_tx_packet_tag 0
             (set_tx_packet_length 0 (G_seph_info s))))) s).

Lemma seph_run {A} (f : seph_info_t -> A) {B} (k : A -> M io_t B) s :
  mbind (seph f) k s = k (f (G_seph_info s)) s.
Proof. done. Qed.

Lemma seph_modify_run f {B} (k : unit -> M io_t B) s :
  mbind (seph_modify f) k s = k tt (set_G_seph_info (f (G_seph_info s)) s).
Proof. done. Qed.

Lemma on_fd_writeall {B} b n (k : Z -> M io_t B) s :
  fd_wr (seph_fd s) = [] -> 0 < n <= zlen b ->
  mbind (on_fd (writeall b n)) k s = k 0 (put_out (ztake n b) s).
Proof.
  intros Hw Hn. unfold on_fd, zoom, mbind. by rewrite (writeall_ok b n (seph_fd s)).
Qed.

Lemma seph_tx_write_ok p off d s :
  fd_wr (seph_fd s) = [] -> zlen p <= OS_IO_SEPH_BUFFER_SIZE ->
  0 <= off -> d <> [] -> ztake (zlen d) (zdrop off p) = d -> off + zlen d <= zlen p ->
  seph_tx_write d (zlen d) (sending p off s)
  = Ret (zlen d) (if off + zlen d =? zlen p then io_sent p s else sending p (off + zlen d) s).
Proof.
  intros Hw Hp Hoff Hne Hd Hl. pose proof (zlen_pos d Hne). unfold OS_IO_SEPH_BUFFER_SIZE in Hp.
  unfold seph_tx_write. rewrite !seph_run. cbn [G_seph_info sending put_out set_seph_fd
    set_G_seph_info tx_packet_offset tx_packet_length set_tx_packet_offset set_tx_packet_tag
    set_tx_packet_length].
  destruct (Z.ltb_spec (zlen p) (off + zlen d)); [lia|].
  rewrite on_fd_writeall by (done || lia).
  rewrite !seph_run, seph_modify_run, !seph_run.
  assert (ztake (off + zlen d) p = ztake off p ++ d) as Ht by (rewrite ztake_add, Hd by lia; done).
  assert (off + zlen d = zlen p -> p = ztake off p ++ d) as Hall.
  { intros He. by rewrite <- Ht, ztake_all by lia. }
  cbn [G_seph_info put_out set_seph_fd set_G_seph_info tx_packet_offset set_tx_packet_offset].
  unfold w16. rewrite Z.mod_small, (ztake_all (zlen d)) by lia.
  destruct (Z.eqb_spec (off + zlen d) (zlen p)) as [He|].
  - unfold io_sent, put_out, io_out. unfold mbind. destruct s as [[] []]; cbn.
    rewrite <- app_assoc, <- (Hall He), He. by destruct (is_status _).
  - unfold sending, put_out, io_out. rewrite Ht. destruct s as [[] []]; cbn.
    by rewrite app_assoc.
Qed.

(** The first piece of a packet starts it. *)
Lemma U2BE_prefix a b : 3 <= zlen a -> U2BE (a ++ b) 1 = U2BE a 1.
Proof.
  intros Ha. unfold U2BE, zlen in *.
  by rewrite !lookup_app_l by lia.
Qed.

Lemma packet_tag_prefix a b : 0 < zlen a -> packet_tag (a ++ b) = packet_tag a.
Proof. destruct a; [rewrite (@zlen_nil Z); lia|done]. Qed.

Lemma seph_tx_start_ok p d rest s :
  seph_ready s -> packet_ok p -> p = d ++ rest -> 3 <= zlen d ->
  seph_tx_start d (zlen d) s = Ret 0 (sending p 0 s).
Proof.
  intros (Hst & Hlen & Hmax & Hw) [Hp HU] -> Hd. rewrite U2BE_prefix in HU by done.
  unfold seph_tx_start. destruct (Z.ltb_spec (zlen d) 3); [lia|].
  rewrite (mlift_some _ _ _ _ HU), seph_modify_run, !seph_run.
  cbn [G_seph_info set_G_seph_info tx_packet_length set_tx_packet_length tx_packet_max_length].
  rewrite Hmax. unfold OS_IO_SEPH_BUFFER_SIZE in *. unfold w16.
  replace (zlen (d ++ rest) - 3 + 3) with (zlen (d ++ rest)) by lia.
  rewrite Z.mod_small by lia. destruct (Z.ltb_spec 272 (zlen (d ++ rest))); [lia|].
  rewrite (mlift_some (d !! 0%nat) _ _ (packet_tag d)) by
    (destruct d; [rewrite (@zlen_nil Z) in Hd; lia|done]).
  rewrite !seph_modify_run. unfold sending, put_out, io_out. rewrite packet_tag_prefix by lia.
  rewrite ztake_0. destruct s as [[] []]; cbn. by rewrite app_nil_r.
Qed.

(** One call on a ready channel, or in the middle of a packet. *)
Lemma seph_tx_first_ok p d rest s :
  seph_ready s -> packet_ok p -> p = d ++ rest -> 3 <= zlen d ->
  sys_os_io_seph_tx (Some d) (zlen d) s
  = Ret (zlen d) (if zlen d =? zlen p then io_sent p s else sending p (zlen d) s).
Proof.
  intros Hr Hp Hpd Hd. pose proof Hr as (Hst & Hlen & Hmax & Hw). pose proof Hp as [Hpl _].
  assert (zlen p = zlen d + zlen rest) as Hl by (rewrite Hpd; apply zlen_app).
  pose proof (zlen_nonneg rest).
  unfold sys_os_io_seph_tx. destruct (Z.eqb_spec (zlen d) 0); [lia|].
  rewrite !seph_run, Hst, Hlen. cbn [Z.eqb]. change (SEPH_STATE_SEND_CMD =? SEPH_STATE_WAIT_EVENT) with false.
  cbn [Z.eqb]. rewrite (mbind_ret _ _ _ _ _ (seph_tx_start_ok p d rest s Hr Hp Hpd Hd)). cbn [Z.ltb].
  change (0 <? 0) with false. cbv iota.
  rewrite (seph_tx_write_ok p 0 d s); [done|done|lia|lia| |by rewrite zdrop_0, Hpd, ztake_app_l|lia].
  intros ->. rewrite (@zlen_nil Z) in Hd. lia.
Qed.

Lemma seph_tx_next_ok p off d s :
  seph_ready s -> packet_ok p -> 0 < off -> d <> [] -> ztake (zlen d) (zdrop off p) = d ->
  off + zlen d <= zlen p ->
  sys_os_io_seph_tx (Some d) (zlen d) (sending p off s)
  = Ret (zlen d) (if off + zlen d =? zlen p then io_sent p s else sending p (off + zlen d) s).
Proof.
  intros Hr Hp Hoff Hne Hd Hl. pose proof Hr as (Hst & Hlen & Hmax & Hw). pose proof Hp as [Hpl _].
  pose proof (zlen_pos d Hne).
  unfold sys_os_io_seph_tx. destruct (Z.eqb_spec (zlen d) 0); [lia|].
  rewrite !seph_run. cbn [G_seph_info sending put_out set_seph_fd set_G_seph_info seph_state
    tx_packet_length set_tx_packet_offset set_tx_packet_tag set_tx_packet_length].
  rewrite Hst. change (SEPH_STATE_SEND_CMD =? SEPH_STATE_WAIT_EVENT) with false.
  destruct (Z.eqb_spec (zlen p) 0); [lia|]. unfold mbind, mret at 1.
  change (0 <? 0) with false. cbv iota.
  rewrite (seph_tx_write_ok p off d s); [done|done|lia|lia|done|done|done].
Qed.

(** Sends the pieces one after the other. *)
Fixpoint seph_tx_pieces (ps : list (list Z)) : M io_t (list Z) :=
  match ps with
  | [] => mret []
  | d :: ps =>
      let! n := sys_os_io_seph_tx (Some d) (zlen d) in
      let! ns := seph_tx_pieces ps in
      mret (n :: ns)
  end.

Lemma seph_tx_pieces_rest p off ps s :
  seph_ready s -> packet_ok p -> 0 < off <= zlen p -> zdrop off p = concat ps ->
  Forall (fun d => d <> []) ps ->
  seph_tx_pieces ps (if off =? zlen p then io_sent p s else sending p off s)
  = Ret (map zlen ps) (io_sent p s).
Proof.
  intros Hr Hp Hoff Hps Hne. revert off Hoff Hps.
  induction Hne as [|d ps Hd _ IH]; intros off Hoff Hps; cbn [concat seph_tx_pieces map] in *.
  - assert (zlen (zdrop off p) = 0) as Hl by (by rewrite Hps).
    rewrite zlen_zdrop in Hl by lia. destruct (Z.eqb_spec off (zlen p)); [done|lia].
  - pose proof (zlen_pos d Hd). pose proof (zlen_nonneg (concat ps)).
    assert (zlen (zdrop off p) = zlen d + zlen (concat ps)) as Hl by (rewrite Hps; apply zlen_app).
    rewrite zlen_zdrop in Hl by lia. destruct (Z.eqb_spec off (zlen p)); [lia|].
    rewrite (mbind_ret _ _ _ _ _ (seph_tx_next_ok p off d s Hr Hp ltac:(lia) Hd
      ltac:(rewrite Hps; by apply ztake_app_l) ltac:(lia))).
    rewrite (mbind_ret _ _ _ _ _ (IH (off + zlen d) ltac:(lia)
      ltac:(rewrite <- zdrop_zdrop, Hps by lia; by apply zdrop_app_l))). done.
Qed.

(** *** A descriptor that is slow

    A [write] may be interrupted, or take a part of the bytes only: [writeall]
    calls it again. *)

Definition slow_write (e : wr_event) : Prop :=
  match e with WrIntr => True | WrCount n => 0 < n | WrError => False end.

Definition slow (s : io_t) : Prop := Forall slow_write (fd_wr (seph_fd s)).

(** The same channel over a descriptor that takes everything at once. *)
Definition fast (s : io_t) : io_t := set_seph_fd (set_fd_wr [] (seph_fd s)) s.

Lemma write_loop_slow evs p : Forall slow_write evs -> exists evs', write_loop evs p = (0, evs', p) /\ Forall slow_write evs'.
Proof.
  intros H. revert p. induction H as [|e evs He H IH]; intros p; [by exists []|]. destruct e as [n| |]; cbn [write_loop slow_write] in *.
  - destruct (Z.eqb_spec n 0); [lia|]. destruct (Z.ltb_spec n (zlen p)); [|by exists evs].
    destruct (IH (zdrop n p)) as (evs' & -> & H'). exists evs'. by rewrite ztake_zdrop.
  - destruct (IH p) as (evs' & -> & H'). by exists evs'.
  - done.
Qed.

(** An operation that gives the same on both. *)
Definition paced {A} (m : M io_t A) : Prop := forall s, slow s ->
  match m (fast s) with
  | Ret r t => exists s', m s = Ret r s' /\ slow s' /\ fast s' = t
  | Throw x t => exists s', m s = Throw x s' /\ slow s' /\ fast s' = t
  | Fault => m s = Fault
  end.

Lemma paced_ret {A} (a : A) : paced (mret a).
Proof. intros s Hs. by exists s. Qed.

Lemma paced_lift {A} (o : option A) : paced (mlift o).
Proof. intros s Hs. destruct o; [by exists s|done]. Qed.

Lemma paced_seph {A} (f : seph_info_t -> A) : paced (seph f).
Proof. intros s Hs. by exists s. Qed.

Lemma paced_modify f : paced (seph_modify f).
Proof. intros s Hs. by exists (set_G_seph_info (f (G_seph_info s)) s). Qed.

Lemma paced_bind {A B} (m : M io_t A) (k : A -> M io_t B) : paced m -> (forall a, paced (k a)) -> paced (mbind m k).
Proof.
  intros Hm Hk s Hs. specialize (Hm s Hs). unfold mbind. destruct (m (fast s)) as [a t|x t|].
  - destruct Hm as (s' & -> & Hs' & <-). by apply Hk.
  - destruct Hm as (s' & -> & Hs' & <-). by exists s'.
  - by rewrite Hm.
Qed.

Lemma paced_writeall b n : paced (on_fd (writeall b n)).
Proof.
  intros s Hs. unfold on_fd, zoom, writeall. destruct (n =? 0); [by exists s; destruct s as [? []]|].
  destruct (read_at b 0 n) as [p|]; [|done]. unfold mbind, mgets, mlift, mmodify, slow in *.
  destruct (write_loop_slow _ p Hs) as (evs & E & H). destruct s as [g [rd wr out] t b' k]. cbn in *. rewrite E.
  eexists. split; [done|]. by split.
Qed.

Ltac paced_auto :=
  repeat first
    [ apply paced_ret | apply paced_lift | apply paced_seph | apply paced_modify | apply paced_writeall
    | apply paced_bind; [|intros]
    | match goal with |- paced (if ?b then _ else _) => destruct b end ].

Lemma paced_tx b n : paced (sys_os_io_seph_tx b n).
Proof. unfold sys_os_io_seph_tx, seph_tx_start, seph_tx_write. destruct b; paced_auto. Qed.

Lemma paced_pieces ps : paced (seph_tx_pieces ps).
Proof. induction ps as [|d ps IH]; cbn [seph_tx_pieces]; [apply paced_ret|]. apply paced_bind; [apply paced_tx|]. intros n. by apply paced_bind; [|intros; apply paced_ret]. Qed.

(** C18: a packet cut in pieces that are not empty, the first with the three
    bytes of its header, is written byte for byte, even when the descriptor is
    interrupted or takes the bytes in several times, as long as it does not
    fail; after a status the channel waits for an event, after a command it is
    ready for the next one. *)
Theorem seph_tx_any_pieces s p d ps :
  seph_ready (fast s) -> slow s -> packet_ok p -> p = concat (d :: ps) -> 3 <= zlen d ->
  Forall (fun q => q <> []) ps ->
  exists s', seph_tx_pieces (d :: ps) s = Ret (map zlen (d :: ps)) s' /\ slow s' /\
    io_out s' = io_out s ++ p /\ tx_packet_length (G_seph_info s') = 0 /\
    seph_state (G_seph_info s')
    = if is_status (packet_tag p) then SEPH_STATE_WAIT_EVENT else SEPH_STATE_SEND_CMD.
Proof.
  intros Hr Hs Hp Hcat Hd Hne. pose proof Hr as (Hst & _ & _ & Hw). cbn [concat] in Hcat.
  pose proof (zlen_nonneg (concat ps)).
  assert (zlen p = zlen d + zlen (concat ps)) as Hl by (rewrite Hcat; apply zlen_app).
  assert (seph_tx_pieces (d :: ps) (fast s) = Ret (map zlen (d :: ps)) (io_sent p (fast s))) as E.
  { cbn [seph_tx_pieces map]. rewrite (mbind_ret _ _ _ _ _ (seph_tx_first_ok p d (concat ps) (fast s) Hr Hp Hcat Hd)).
    rewrite (mbind_ret _ _ _ _ _ (seph_tx_pieces_rest p (zlen d) ps (fast s) Hr Hp ltac:(lia)
      ltac:(rewrite Hcat; by apply zdrop_app_l) Hne)). done. }
  pose proof (paced_pieces (d :: ps) s Hs) as H'. rewrite E in H'. destruct H' as (s' & E' & Hs' & Hf).
  exists s'. split; [done|]. split; [done|]. apply (f_equal (fun t => (io_out t, G_seph_info t))) in Hf.
  injection Hf as Ho Hg. change (io_out (fast s')) with (io_out s') in Ho. change (G_seph_info (fast s')) with (G_seph_info s') in Hg.
  rewrite Ho, Hg. split; [done|]. split; [done|]. change (seph_state (G_seph_info s) = SEPH_STATE_SEND_CMD) in Hst. cbn. by rewrite Hst.
Qed.

(** The answer of a ready channel, [mk_fd [] [] []] being one that accepts
    everything. *)
Definition fresh_io (evs : list rd_event) : io_t := initial_io (mk_fd evs [] []).

Lemma fresh_io_ready evs : seph_ready (fresh_io evs).
Proof. done. Qed.

(** A descriptor that is interrupted and takes two bytes, one byte, then the rest. *)
Definition slow_io : io_t := initial_io (mk_fd [] [WrIntr; WrCount 2; WrCount 1] []).

Lemma seph_tx_any_pieces_witness :
  exists s', seph_tx_pieces [[0x60; 0; 2; 0]; [0]] slow_io = Ret [4; 1] s' /\ slow s' /\
    io_out s' = [0x60; 0; 2; 0; 0] /\ tx_packet_length (G_seph_info s') = 0 /\
    seph_state (G_seph_info s') = SEPH_STATE_WAIT_EVENT.
Proof.
  apply (seph_tx_any_pieces slow_io [0x60; 0; 2; 0; 0] [0x60; 0; 2; 0] [[0]]).
  - repeat split.
  - repeat (apply Forall_cons; split; [cbn; lia || done|]). apply Forall_nil_2.
  - split; [split; vm_compute; discriminate | reflexivity].
  - reflexivity.
  - vm_compute; discriminate.
  - constructor; [discriminate | constructor].
Defined.

(** ** Commands *)

Lemma io_sent_ready p s :
  seph_ready s -> is_status (packet_tag p) = false -> seph_ready (io_sent p s).
Proof. intros (Hst & Hlen & Hmax & Hw) Hp. unfold seph_ready, io_sent. cbn. by rewrite Hp. Qed.

Lemma io_sent_out p s : io_out (io_sent p s) = io_out s ++ p.
Proof. done. Qed.

Lemma os_io_tx_seph_ready b n s r s' :
  sys_os_io_seph_tx b n s = Ret r s' -> r <> -1 -> os_io_tx_seph b n s = Ret r s'.
Proof.
  intros H Hr. unfold os_io_tx_seph. rewrite (mbind_ret _ _ _ _ _ H).
  by destruct (Z.eqb_spec r (-1)).
Qed.

(** A whole packet in a call. *)
Lemma seph_cmd_ok p s :
  seph_ready s -> packet_ok p -> os_io_tx_seph (Some p) (zlen p) s = Ret (zlen p) (io_sent p s).
Proof.
  intros Hr Hp. pose proof Hp as [Hl _]. apply os_io_tx_seph_ready; [|lia].
  rewrite (seph_tx_first_ok p p [] s); [by rewrite Z.eqb_refl|done|done|by rewrite app_nil_r|lia].
Qed.

(** A packet in two calls, the header then the data, which may be empty. *)
Lemma seph_cmd_split_ok h d s :
  seph_ready s -> packet_ok (h ++ d) -> 3 <= zlen h ->
  exists n, (do! os_io_tx_seph (Some h) (zlen h) in os_io_tx_seph (Some d) (zlen d)) s
  = Ret n (io_sent (h ++ d) s).
Proof.
  intros Hr Hp Hh. pose proof Hp as [Hl _].
  pose proof (os_io_tx_seph_ready _ _ _ _ _ (seph_tx_first_ok (h ++ d) h d s Hr Hp eq_refl Hh)
    ltac:(lia)) as Hfirst.
  rewrite (mbind_ret _ _ _ _ _ Hfirst). clear Hfirst.
  rewrite zlen_app in *. destruct (decide (d = [])) as [->|Hd].
  - exists (-22). rewrite app_nil_r. change (zlen []) with 0. by rewrite Z.add_0_r, Z.eqb_refl.
  - pose proof (zlen_pos d Hd). exists (zlen d).
    destruct (Z.eqb_spec (zlen h) (zlen h + zlen d)); [lia|].
    apply os_io_tx_seph_ready; [|lia].
    rewrite (seph_tx_next_ok (h ++ d) (zlen h) d s); rewrite ?zlen_app; try (done || lia).
    + by rewrite Z.eqb_refl.
    + rewrite zdrop_app_l by done. by rewrite ztake_all by lia.
Qed.

(** Only the [n] first bytes of the buffer matter. *)
Lemma seph_tx_ztake b n s :
  0 <= n <= zlen b -> sys_os_io_seph_tx (Some (ztake n b)) n s = sys_os_io_seph_tx (Some b) n s.
Proof.
  intros Hn. unfold sys_os_io_seph_tx. destruct (Z.eqb_spec n 0); [done|].
  assert (forall i, (i < Z.to_nat n)%nat -> ztake n b !! i = b !! i) as Hi
    by (intros; by apply lookup_take_lt).
  assert (forall t, seph_tx_start (ztake n b) n t = seph_tx_start b n t) as Hs.
  { intros t. unfold seph_tx_start. destruct (Z.ltb_spec n 3); [done|].
    unfold U2BE. rewrite !Hi by lia. done. }
  assert (forall t, seph_tx_write (ztake n b) n t = seph_tx_write b n t) as Hw.
  { intros t. unfold seph_tx_write, on_fd, zoom, writeall. destruct (Z.eqb_spec n 0); [lia|].
    assert (read_at (ztake n b) 0 n = read_at b 0 n) as Hr.
    { rewrite !read_at_ok, !zdrop_0, ztake_ztake by (rewrite ?zlen_ztake; lia). done. }
    by rewrite Hr. }
  rewrite Hi by lia. unfold mbind, mret, seph, mgets. destruct (_ =? SEPH_STATE_WAIT_EVENT); [done|].
  destruct (_ =? 0); [rewrite Hs; destruct (seph_tx_start b n s)|]; try done; destruct (_ <? 0); done.
Qed.

Lemma os_io_tx_seph_ztake b n s :
  0 <= n <= zlen b -> os_io_tx_seph (Some (ztake n b)) n s = os_io_tx_seph (Some b) n s.
Proof.
  intros Hn. unfold os_io_tx_seph, mbind. rewrite seph_tx_ztake by done.
  destruct (sys_os_io_seph_tx (Some b) n s) as [r t| |]; [|done|done].
  destruct (r =? -1); [|done]. unfold mgets. destruct (sys_os_io_seph_se_rx_event _ _ _ t) as [[r' b'] t'| |];
    [|done|done]. unfold mmodify. destruct (0 <=? r'); [|done]. by rewrite seph_tx_ztake.
Qed.

(** * Receiving packets *)

(** The channel waits for an event. *)
Definition seph_waiting (s : io_t) : Prop :=
  seph_state (G_seph_info s) = SEPH_STATE_WAIT_EVENT /\ tx_packet_length (G_seph_info s) = 0 /\
  tx_packet_max_length (G_seph_info s) = OS_IO_SEPH_BUFFER_SIZE /\
  rx_packet_max_length (G_seph_info s) = OS_IO_SEPH_BUFFER_SIZE /\
  zlen (rx_packet (G_seph_info s)) = OS_IO_SEPH_BUFFER_SIZE /\ fd_wr (seph_fd s) = [].

(** The state after the packet [p] was received. *)
Definition io_received (p : list Z) (evs : list rd_event) (s : io_t) : io_t :=
  set_G_seph_info
    (set_tx_packet_length 0 (set_seph_state SEPH_STATE_SEND_CMD
       (set_rx_packet_length (zlen p)
          (set_rx_packet (p ++ zdrop (zlen p) (rx_packet (G_seph_info s))) (G_seph_info s)))))
    (set_seph_fd (set_fd_in evs (seph_fd s)) s).

Lemma on_fd_readall {B} buf d evs (k : Z * list Z -> M io_t B) s :
  delivers (fd_in (seph_fd s)) d evs -> zlen d <= zlen buf ->
  mbind (on_fd (readall buf (zlen d))) k s
  = k (0, d ++ zdrop (zlen d) buf) (set_seph_fd (set_fd_in evs (seph_fd s)) s).
Proof. intros Hd Hl. unfold on_fd, zoom, mbind. by rewrite (readall_ok (seph_fd s) d evs buf). Qed.

Lemma seph_rx_read_ok h d evs evs' buffer s :
  seph_waiting s -> packet_ok (h ++ d) -> zlen h = 3 ->
  delivers (fd_in (seph_fd s)) h evs -> delivers evs d evs' ->
  zlen (h ++ d) < zlen buffer ->
  seph_rx_read buffer s
  = Ret (zlen (h ++ d) + 1,
         (OS_IO_PACKET_TYPE_SEPH :: h ++ d) ++ zdrop (1 + zlen (h ++ d)) buffer)
        (io_received (h ++ d) evs' s).
Proof.
  intros (Hst & Hlen & Hmax & Hrm & Hrx & Hw) [Hp HU] Hh Hd1 Hd2 Hb.
  pose proof HU as HU'. rewrite U2BE_prefix in HU by lia.
  rewrite zlen_app in *. pose proof (zlen_nonneg d). unfold OS_IO_SEPH_BUFFER_SIZE in *.
  unfold seph_rx_read. rewrite seph_run. replace 3 with (zlen h) at 1.
  rewrite (on_fd_readall _ h evs) by (done || lia). cbv beta iota. rewrite seph_modify_run.
  change (0 <? 0) with false. cbv iota.
  set (rp := rx_packet (G_seph_info s)) in *.
  rewrite (mlift_some (U2BE (h ++ zdrop (zlen h) rp) 1) _ _ (zlen d)) by
    (rewrite U2BE_prefix by lia; rewrite HU; f_equal; lia).
  rewrite seph_modify_run, seph_run.
  cbn [G_seph_info set_G_seph_info set_seph_fd rx_packet_max_length set_rx_packet_length set_rx_packet].
  rewrite Hrm. destruct (Z.ltb_spec (272 - 3) (zlen d)); [lia|].
  rewrite seph_modify_run. rewrite zdrop_app_l by done.
  rewrite (on_fd_readall _ d evs') by (done || (rewrite zlen_zdrop; lia)). cbv beta iota.
  rewrite seph_modify_run. change (0 <? 0) with false. cbv iota. rewrite seph_run.
  rewrite ztake_app_l by done.
  cbn [G_seph_info set_G_seph_info set_seph_fd rx_packet_length set_rx_packet_length set_rx_packet].
  unfold w16. rewrite Z.mod_small by lia.
  rewrite (mlift_some _ _ _ (h ++ d)) by (rewrite app_assoc; apply read_at_prefix; rewrite zlen_app; lia).
  rewrite (mlift_some _ _ _ ((OS_IO_PACKET_TYPE_SEPH :: h ++ d) ++ zdrop (1 + zlen (h ++ d)) buffer)) by
    (rewrite write_at_ok, ztake_0 by (rewrite ?zlen_cons, ?zlen_app; lia); by rewrite zlen_cons).
  unfold io_received. rewrite zlen_app.
  assert (zdrop (zlen d) (zdrop (zlen h) rp) = zdrop (zlen h + zlen d) rp) as Hz
    by (apply zdrop_zdrop; lia).
  rewrite Hz. fold rp. rewrite <- (app_assoc h d).
  replace (zlen d + 3) with (zlen h + zlen d) by lia.
  subst rp. destruct s as [[] []]; done.
Qed.

Lemma touch_from_seph_ok (p b : list Z) t n :
  8 <= zlen (p ++ b) -> exists t', touch_from_seph (p ++ b) n t = Some t'.
Proof.
  generalize (p ++ b). intros l Hl. unfold touch_from_seph. destruct (n <? 5); [by eexists|].
  assert (forall i, (i < 8)%nat -> exists x, l !! i = Some x) as Hx.
  { intros i Hi. apply lookup_lt_is_Some. unfold zlen in Hl. lia. }
  destruct (Hx 0%nat) as [b0 ->]; [lia|]. destruct (Hx 3%nat) as [b3 ->]; [lia|].
  destruct (Hx 4%nat) as [b4 ->]; [lia|]. destruct (Hx 5%nat) as [b5 ->]; [lia|].
  destruct (Hx 6%nat) as [b6 ->]; [lia|]. destruct (Hx 7%nat) as [b7 ->]; [lia|].
  cbn. destruct (negb _); by eexists.
Qed.

(** The touch state is read from the packet and what the buffer held after
    it. *)
Lemma catch_touch_ok p b n s :
  8 <= zlen (p ++ b) -> exists t,
  catch_touch_info_from_seph (p ++ b) n s = Ret tt (set_last_touch_infos t s).
Proof.
  intros Hl. destruct (touch_from_seph_ok p b (last_touch_infos s) n Hl) as [t Ht].
  exists t. unfold catch_touch_info_from_seph. unfold mbind at 1, mgets at 1.
  by rewrite (mlift_some _ _ _ _ Ht).
Qed.

(** An event whose header and data each come from a single [read] is received
    whole behind the type byte, and the channel accepts commands again. *)
Lemma seph_rx_event_run s h d evs evs' buffer max_length flags :
  seph_waiting s -> packet_ok (h ++ d) -> zlen h = 3 ->
  delivers (fd_in (seph_fd s)) h evs -> delivers evs d evs' ->
  OS_IO_SEPH_BUFFER_SIZE < zlen buffer -> OS_IO_SEPH_BUFFER_SIZE <= max_length ->
  Z.land flags OS_IO_FLAG_CACHE = 0 ->
  exists s',
    sys_os_io_seph_se_rx_event (Some buffer) max_length flags s
    = Ret (zlen (h ++ d) + 1,
           (OS_IO_PACKET_TYPE_SEPH :: h ++ d) ++ zdrop (1 + zlen (h ++ d)) buffer) s' /\
    seph_ready s' /\ fd_in (seph_fd s') = evs' /\ io_out s' = io_out s /\
    rx_packet_max_length (G_seph_info s') = OS_IO_SEPH_BUFFER_SIZE /\
    zlen (rx_packet (G_seph_info s')) = zlen (rx_packet (G_seph_info s)) /\
    G_io_seph_buffer_size s' = G_io_seph_buffer_size s.
Proof.
  intros Hs Hp Hh Hd1 Hd2 Hb Hm Hf. pose proof Hs as (Hst & Hlen & Hmax & Hrm & Hrx & Hw).
  pose proof Hp as [Hpl _].
  pose proof (seph_rx_read_ok h d evs evs' buffer s Hs Hp Hh Hd1 Hd2 ltac:(lia)) as Hread.
  set (p := h ++ d) in *. unfold OS_IO_SEPH_BUFFER_SIZE in *.
  destruct (catch_touch_ok p (zdrop (1 + zlen p) buffer) (w16 (zlen p + 1 - 1)) (io_received p evs' s))
    as [t Ht]; [rewrite zlen_app, zlen_zdrop; lia|].
  exists (set_last_touch_infos t (io_received p evs' s)). split.
  - unfold sys_os_io_seph_se_rx_event. rewrite seph_run, Hrm.
    destruct (Z.ltb_spec max_length 272); [lia|]. rewrite seph_run, Hf, Hst.
    cbn [truthy Z.eqb negb]. change (SEPH_STATE_WAIT_EVENT =? SEPH_STATE_WAIT_EVENT) with true. cbn [negb].
    rewrite (mbind_ret _ _ _ _ _ Hread). cbv beta iota.
    destruct (Z.leb_spec 0 (zlen p + 1)); [|lia].
    change (zdrop 1 (_ :: p ++ ?x)) with (p ++ x). by rewrite (mbind_ret _ _ _ _ _ Ht).
  - repeat split; try done. cbn. rewrite zlen_app, zlen_zdrop; lia.
Qed.

(** No event is read when a command is due. *)
Lemma seph_rx_refused s buffer :
  seph_ready s -> rx_packet_max_length (G_seph_info s) = OS_IO_SEPH_BUFFER_SIZE ->
  sys_os_io_seph_se_rx_event (Some buffer) (OS_IO_SEPH_BUFFER_SIZE + 1) 0 s = Ret (-1, buffer) s.
Proof.
  intros (Hst & _) Hrm. unfold sys_os_io_seph_se_rx_event. rewrite seph_run, Hrm.
  change (OS_IO_SEPH_BUFFER_SIZE + 1 <? OS_IO_SEPH_BUFFER_SIZE) with false. cbv iota.
  rewrite seph_run. change (truthy (Z.land 0 OS_IO_FLAG_CACHE)) with false. by rewrite Hst.
Qed.

(** The packets [ps] that arrive from the channel, each in two reads. *)
Inductive arrives : list rd_event -> list (list Z) -> list rd_event -> Prop :=
  | arrives_nil evs : arrives evs [] evs
  | arrives_cons evs h d evs1 evs2 ps evs3 :
      packet_ok (h ++ d) -> zlen h = 3 -> delivers evs h evs1 -> delivers evs1 d evs2 ->
      arrives evs2 ps evs3 -> arrives evs ((h ++ d) :: ps) evs3.

Lemma arrives_inv evs p ps evs' : arrives evs (p :: ps) evs' ->
  exists h d evs1 evs2, p = h ++ d /\ packet_ok p /\ zlen h = 3 /\
    delivers evs h evs1 /\ delivers evs1 d evs2 /\ arrives evs2 ps evs'.
Proof. intros H. inversion H. subst. by eexists _, _, _, _. Qed.

Lemma arrives_nil_inv evs evs' : arrives evs [] evs' -> evs' = evs.
Proof. intros H. by inversion H. Qed.

(** The loop of an application: an event, then the status that asks for the
    next one. *)
Fixpoint event_loop (n : nat) (buffer : list Z) : M io_t (list (list Z)) :=
  match n with
  | O => mret []
  | S n =>
      let! (len, buffer) := sys_os_io_seph_se_rx_event (Some buffer) (OS_IO_SEPH_BUFFER_SIZE + 1) 0 in
      do! os_io_seph_cmd_general_status in
      let! l := event_loop n buffer in
      mret (ztake len buffer :: l)
  end.

Lemma event_loop_run s ps evs evs' buffer :
  seph_waiting s -> fd_in (seph_fd s) = evs -> arrives evs ps evs' ->
  zlen buffer = OS_IO_SEPH_BUFFER_SIZE + 1 ->
  exists s', event_loop (length ps) buffer s = Ret (map (cons OS_IO_PACKET_TYPE_SEPH) ps) s' /\
    seph_waiting s' /\ fd_in (seph_fd s') = evs' /\
    io_out s' = io_out s ++ concat (map (fun _ => seph_io_general_status) ps).
Proof.
  intros Hs Hevs Ha. revert s Hs Hevs buffer.
  induction Ha as [evs|evs h d evs1 evs2 ps evs3 Hp Hh Hd1 Hd2 Ha IH]; intros s Hs Hevs buffer Hb.
  - exists s. cbn. by rewrite app_nil_r.
  - rewrite <- Hevs in Hd1. pose proof Hp as [Hl _].
    destruct (seph_rx_event_run s h d evs1 evs2 buffer (OS_IO_SEPH_BUFFER_SIZE + 1) 0 Hs Hp Hh Hd1 Hd2
      ltac:(lia) ltac:(lia) eq_refl) as (s1 & Hrx & Hr1 & Hin1 & Hout1 & Hm1 & Hrl1 & _).
    set (b := _ ++ zdrop _ buffer) in Hrx.
    assert (zlen b = OS_IO_SEPH_BUFFER_SIZE + 1) as Hbl
      by (unfold b; rewrite zlen_app, zlen_cons, zlen_zdrop; lia).
    assert (os_io_seph_cmd_general_status s1 = Ret 5 (io_sent seph_io_general_status s1)) as Hst
      by (apply seph_cmd_ok; [done|by split]).
    destruct (IH (io_sent seph_io_general_status s1)) with (buffer := b) as (s' & Hrun & Hw & Hin & Hout); try done.
    { destruct Hr1 as (_ & _ & Hmax & Hwr). destruct Hs as (_ & _ & _ & _ & Hrl & _).
      split_and!; try done. change (zlen (rx_packet (G_seph_info s1)) = OS_IO_SEPH_BUFFER_SIZE). by rewrite Hrl1. }
    exists s'. split; [|split; [done|split; [done|]]].
    + cbn [length event_loop]. rewrite (mbind_ret _ _ _ _ _ Hrx). cbv beta iota.
      rewrite (mbind_ret _ _ _ _ _ Hst), (mbind_ret _ _ _ _ _ Hrun). unfold mret. cbn [map]. do 2 f_equal.
      unfold b. apply ztake_app_l. rewrite zlen_cons. lia.
    + rewrite Hout, io_sent_out, Hout1. cbn [map concat]. by rewrite <- app_assoc.
Qed.

Lemma paced_gets {A} (f : io_t -> A) : (forall s, f (fast s) = f s) -> paced (mgets f).
Proof. intros H s Hs. exists s. unfold mgets. by rewrite H. Qed.

Lemma paced_mmodify (f : io_t -> io_t) : (forall s, f (fast s) = fast (f s)) -> (forall s, slow s -> slow (f s)) -> paced (mmodify f).
Proof. intros H H' s Hs. exists (f s). split; [done|]. split; [auto|done]. Qed.

Lemma paced_throw {A} x : paced (mthrow (A := A) x).
Proof. intros s Hs. by exists s. Qed.

Lemma paced_readall b n : paced (on_fd (readall b n)).
Proof.
  intros s Hs. destruct s as [g [rd wr out] t b' k]. unfold on_fd, zoom, readall, mbind, mgets, mlift, mmodify, slow in *. cbn in *.
  destruct (read_loop rd b n) as [[[r p] evs]|]; [|done]. eexists. split; [done|]. by split.
Qed.

Ltac paced_more :=
  repeat first
    [ progress paced_auto | apply paced_throw | apply paced_readall | apply paced_tx
    | apply paced_gets; done | apply paced_mmodify; done
    | match goal with |- paced (let '(_, _) := ?p in _) => destruct p end ].

Lemma paced_rx b max flags : paced (sys_os_io_seph_se_rx_event b max flags).
Proof. unfold sys_os_io_seph_se_rx_event, seph_rx_read, catch_touch_info_from_seph. destruct b; paced_more. Qed.

Lemma paced_tx_seph b n : paced (os_io_tx_seph b n).
Proof. unfold os_io_tx_seph. repeat (progress paced_more || apply paced_rx). Qed.

Lemma paced_loop n b : paced (event_loop n b).
Proof.
  revert b. induction n as [|n IH]; intros b; cbn [event_loop]; [apply paced_ret|]. apply paced_bind; [apply paced_rx|]. intros [len b'].
  apply paced_bind; [apply paced_tx_seph|]. intros _. apply paced_bind; [apply IH|]. intros l. apply paced_ret.
Qed.

(** C19: in the loop of an application over a channel that waits for an event,
    the events that arrive are all handed over, whole and in order, each behind
    its type, and each is answered by a status, provided that the header of each
    and its data come from one [read] each, besides the interrupted ones
    ([readall_short_read] shows what happens otherwise), and that the writes do
    not fail. *)
Theorem seph_event_loop s ps evs evs' buffer :
  seph_waiting (fast s) -> slow s -> fd_in (seph_fd s) = evs -> arrives evs ps evs' ->
  zlen buffer = OS_IO_SEPH_BUFFER_SIZE + 1 ->
  exists s', event_loop (length ps) buffer s = Ret (map (cons OS_IO_PACKET_TYPE_SEPH) ps) s' /\
    seph_waiting (fast s') /\ slow s' /\ fd_in (seph_fd s') = evs' /\
    io_out s' = io_out s ++ concat (map (fun _ => seph_io_general_status) ps).
Proof.
  intros Hw Hs He Ha Hb. destruct (event_loop_run (fast s) ps evs evs' buffer Hw He Ha Hb) as (t & E & Ht & Hin & Hout).
  pose proof (paced_loop (length ps) buffer s Hs) as H. rewrite E in H. destruct H as (s' & E' & Hs' & Hf). exists s'. by subst t.
Qed.

Definition slow_events : io_t :=
  io_sent seph_io_general_status (initial_io (mk_fd [RdIntr; RdData [0x0E; 0; 1; 7; 0x0E; 0; 1]; RdData [8]] [WrCount 3; WrIntr] [])).

Lemma seph_event_loop_witness :
  exists s', event_loop 2 (zeros 273) slow_events = Ret [[1; 0x0E; 0; 1; 7]; [1; 0x0E; 0; 1; 8]] s' /\
    seph_waiting (fast s') /\ slow s' /\ fd_in (seph_fd s') = [] /\
    io_out s' = seph_io_general_status ++ seph_io_general_status ++ seph_io_general_status.
Proof.
  refine (seph_event_loop slow_events [[0x0E; 0; 1; 7]; [0x0E; 0; 1; 8]] _ [] (zeros 273) _ _ eq_refl _ _);
    [repeat split|by repeat constructor| |reflexivity].
  apply (arrives_cons _ [0x0E; 0; 1] [7] [RdData [7; 0x0E; 0; 1]; RdData [8]] [RdData [0x0E; 0; 1]; RdData [8]]).
  - split; [split; vm_compute; discriminate | reflexivity].
  - reflexivity.
  - apply delivers_intr; [discriminate|]. apply (delivers_more [0x0E; 0; 1] [7; 0x0E; 0; 1]); discriminate.
  - apply (delivers_more [7] [0x0E; 0; 1]); discriminate.
  - apply (arrives_cons _ [0x0E; 0; 1] [8] [RdData [8]] []).
    + split; [split; vm_compute; discriminate | reflexivity].
    + reflexivity.
    + apply delivers_all; discriminate.
    + apply delivers_all; discriminate.
    + constructor.
Defined.

(** A command issued while an event is expected is not lost: the
    event is read first and kept for the next reception, then the command is
    sent. *)
Theorem seph_tx_after_event s p h d evs evs' :
  seph_waiting s -> packet_ok p -> is_status (packet_tag p) = false ->
  packet_ok (h ++ d) -> zlen h = 3 ->
  delivers (fd_in (seph_fd s)) h evs -> delivers evs d evs' ->
  zlen (G_io_seph_buffer s) = OS_IO_SEPH_BUFFER_SIZE + 1 ->
  exists s', os_io_tx_seph (Some p) (zlen p) s = Ret (zlen p) s' /\
    io_out s' = io_out s ++ p /\ seph_ready s' /\ fd_in (seph_fd s') = evs' /\
    G_io_seph_buffer_size s' = zlen (h ++ d) + 1 /\
    ztake (G_io_seph_buffer_size s') (G_io_seph_buffer s') = OS_IO_PACKET_TYPE_SEPH :: h ++ d.
Proof.
  intros Hs Hpk Htag Hp Hh Hd1 Hd2 Hb. pose proof Hs as (Hst & Hlen & _).
  pose proof Hpk as [Hpkl _].
  destruct (seph_rx_event_run s h d evs evs' (G_io_seph_buffer s) (OS_IO_SEPH_BUFFER_SIZE + 1)
    OS_IO_FLAG_NO_ITC Hs Hp Hh Hd1 Hd2 ltac:(lia) ltac:(lia) eq_refl)
    as (s1 & Hrx & Hr1 & Hin1 & Hout1 & _).
  set (b := (OS_IO_PACKET_TYPE_SEPH :: h ++ d) ++ _) in *.
  set (s2 := set_G_io_seph_buffer_size (zlen (h ++ d) + 1) (set_G_io_seph_buffer b s1)).
  assert (seph_ready s2) as Hr2 by exact Hr1.
  exists (io_sent p s2). split; [|split; [|split; [|split; [|split]]]].
  - unfold os_io_tx_seph.
    assert (sys_os_io_seph_tx (Some p) (zlen p) s = Ret (-1) s) as Hwait.
    { unfold sys_os_io_seph_tx. destruct (Z.eqb_spec (zlen p) 0); [lia|].
      rewrite !seph_run, Hst, Hlen. cbn [Z.eqb].
      change (SEPH_STATE_WAIT_EVENT =? SEPH_STATE_WAIT_EVENT) with true. cbv iota.
      unfold mbind at 1. rewrite (mlift_some (p !! 0%nat) _ _ (packet_tag p)) by
        (destruct p; [rewrite (@zlen_nil Z) in Hpkl; lia|done]).
      by rewrite Htag. }
    rewrite (mbind_ret _ _ _ _ _ Hwait). change (-1 =? -1) with true. cbv iota.
    unfold mbind at 1, mgets at 1. rewrite (mbind_ret _ _ _ _ _ Hrx). cbv beta iota.
    unfold mbind at 1, mmodify at 1.
    pose proof (zlen_nonneg (h ++ d)). destruct (Z.leb_spec 0 (zlen (h ++ d) + 1)); [|lia].
    unfold mbind at 1, mmodify at 1. fold s2.
    rewrite (seph_tx_first_ok p p [] s2); [by rewrite Z.eqb_refl|done|done|by rewrite app_nil_r|lia].
  - rewrite io_sent_out. change (io_out s2) with (io_out s1). by rewrite Hout1.
  - by apply io_sent_ready.
  - done.
  - done.
  - change (ztake (zlen (h ++ d) + 1) b = OS_IO_PACKET_TYPE_SEPH :: h ++ d). subst b.
    apply ztake_app_l. rewrite zlen_cons. lia.
Qed.

Lemma seph_tx_after_event_witness :
  exists s', os_io_tx_seph (Some seph_io_cmd_more_time) 3
      (io_sent seph_io_general_status (fresh_io [RdData [0x0E; 0; 1; 7]])) = Ret 3 s' /\
    io_out s' = seph_io_general_status ++ seph_io_cmd_more_time /\ seph_ready s' /\
    fd_in (seph_fd s') = [] /\ G_io_seph_buffer_size s' = 5 /\
    ztake (G_io_seph_buffer_size s') (G_io_seph_buffer s')
    = OS_IO_PACKET_TYPE_SEPH :: [0x0E; 0; 1; 7].
Proof.
  apply (seph_tx_after_event (io_sent seph_io_general_status (fresh_io [RdData [0x0E; 0; 1; 7]]))
    seph_io_cmd_more_time [0x0E; 0; 1] [7] [RdData [7]] []).
  - repeat split.
  - split; [split; vm_compute; discriminate | reflexivity].
  - reflexivity.
  - split; [split; vm_compute; discriminate | reflexivity].
  - reflexivity.
  - apply (delivers_more [0x0E; 0; 1] [7]); discriminate.
  - apply delivers_all; discriminate.
  - reflexivity.
Defined.

(** * The older interface *)

Section spi.
Import Spi.

(** The first piece of a packet is not compared with the length it
    announces: when it is longer, [next_length] wraps around and every later
    packet is taken for the end of that one. *)
Theorem spi_send_overrun s b n :
  next_length s = 0 -> tx_status s = false -> fd_wr (spi_fd s) = [] ->
  U2BE b 1 = Some n -> 0 <= n -> n + 3 < zlen b < 65536 ->
  exists s', sys_io_seproxyhal_spi_send b (zlen b) s = Ret 0 s' /\
    next_length s' = 4294967296 + (n + 3) - zlen b /\
    forall c, 0 < zlen c < 65536 -> exists s'',
      sys_io_seproxyhal_spi_send c (zlen c) s' = Ret 0 s'' /\ tx_status s'' = false /\
      fd_out (spi_fd s'') = fd_out (spi_fd s) ++ b ++ c.
Proof.
  intros Hn Hst Hw HU Hn0 Hl.
  assert (forall c (t : spi_t), fd_wr (spi_fd t) = [] -> 0 < zlen c -> tx_status t = false ->
    0 < w32 (next_length t - zlen c) ->
    spi_write c (zlen c) t = Ret 0 (set_next_length (w32 (next_length t - zlen c))
      (set_spi_fd (set_fd_out (fd_out (spi_fd t) ++ c) (spi_fd t)) t))) as Hwrite.
  { intros c t Htw Hc Hts Hpos. unfold spi_write, spi_fd_op. unfold zoom, mbind at 1.
    rewrite writeall_ok, ztake_all by (done || lia).
    unfold mbind, mgets, mmodify. cbn.
    by destruct (Z.eqb_spec (w32 (next_length t - zlen c)) 0); [lia|]. }
  assert (exists tag, b !! 0%nat = Some tag) as [tag Htag].
  { apply lookup_lt_is_Some. unfold zlen in Hl. lia. }
  assert (w32 (n + 3) = n + 3) as E1 by (unfold w32; apply Z.mod_small; lia).
  assert (w32 (n + 3 - zlen b) = 4294967296 + (n + 3) - zlen b) as E2.
  { unfold w32. symmetry. apply Z.mod_unique with (-1); lia. }
  set (s1 := set_next_length (n + 3) (set_next_length n (set_last_tag tag s))).
  eexists. split; [|split].
  - unfold sys_io_seproxyhal_spi_send. destruct (Z.eqb_spec (zlen b) 0); [lia|].
    unfold mbind at 1, mgets at 1. rewrite Hn. cbn [Z.eqb].
    destruct (Z.ltb_spec (zlen b) 3); [lia|].
    unfold mbind at 1, sys_io_seproxyhal_spi_is_status_sent, mgets at 1. rewrite Hst.
    rewrite (mlift_some _ _ _ _ Htag). cbn [andb].
    unfold mbind at 1, mmodify at 1. rewrite (mlift_some _ _ _ _ HU).
    unfold mbind at 1, mmodify at 1, mbind at 1, mmodify at 1. rewrite E1. fold s1.
    apply (Hwrite b s1); [done|lia|done|]. change (next_length s1) with (n + 3). lia.
  - exact E2.
  - intros c Hc. change (next_length s1) with (n + 3). rewrite E2.
    set (s2 := set_next_length _ _).
    assert (w32 (next_length s2 - zlen c) = 4294967296 + (n + 3) - zlen b - zlen c) as E3.
    { unfold w32. apply Z.mod_small. cbn. lia. }
    eexists. split.
    + unfold sys_io_seproxyhal_spi_send. destruct (Z.eqb_spec (zlen c) 0); [lia|].
      unfold mbind at 1, mgets at 1.
      change (next_length s2) with (4294967296 + (n + 3) - zlen b).
      destruct (Z.eqb_spec (4294967296 + (n + 3) - zlen b) 0); [lia|].
      destruct (Z.ltb_spec (4294967296 + (n + 3) - zlen b) (zlen c)); [lia|].
      apply (Hwrite c s2); [done|lia|done|]. lia.
    + split; [done|]. cbn. by rewrite app_assoc.
Qed.

Lemma spi_send_overrun_witness :
  exists s', sys_io_seproxyhal_spi_send [0x4C; 0; 0; 0] 4 (initial_spi (mk_fd [] [] [])) = Ret 0 s' /\
    next_length s' = 4294967295 /\
    forall c, 0 < zlen c < 65536 -> exists s'',
      sys_io_seproxyhal_spi_send c (zlen c) s' = Ret 0 s'' /\ tx_status s'' = false /\
      fd_out (spi_fd s'') = [0x4C; 0; 0; 0] ++ c.
Proof.
  apply (spi_send_overrun (initial_spi (mk_fd [] [] [])) [0x4C; 0; 0; 0] 0);
    [reflexivity | reflexivity | reflexivity | reflexivity | discriminate | split; reflexivity].
Defined.
End spi.
