(* ===== verification/UsbDevice.v ===== *)
(** The USB device: its state ([usbd_def.h]), the low-level driver
    ([usbd_conf.c]), which turns each operation into packets for the
    controller, and the transfers of the control endpoint ([usbd_ioreq.c]),
    all under [src/bolos/io/sdk/lib_stusb/]. *)

From S2P Require Import Prelude CxUtils Seph.

(** * Data *)

Definition USBD_OK : Z := 0.
Definition USBD_BUSY : Z := 1.
Definition USBD_EMEM : Z := 2.
Definition USBD_FAIL : Z := 3.
Definition USBD_TIMEOUT : Z := 4.
Definition TIMEOUT : Z := 0xC.

Definition IO_USB_MAX_ENDPOINTS : Z := 6.
Definition USBD_MAX_NUM_INTERFACES : Z := 4.
Definition USBD_MAX_NUM_CONFIGURATION : Z := 1.
Definition USB_MAX_EP0_SIZE : Z := 64.

Definition USBD_STATE_DEFAULT : Z := 0x01.
Definition USBD_STATE_ADDRESSED : Z := 0x02.
Definition USBD_STATE_CONFIGURED : Z := 0x03.
Definition USBD_STATE_SUSPENDED : Z := 0x04.

Definition USBD_EP0_IDLE : Z := 0x00.
Definition USBD_EP0_SETUP : Z := 0x01.
Definition USBD_EP0_DATA_IN : Z := 0x02.
Definition USBD_EP0_DATA_OUT : Z := 0x03.
Definition USBD_EP0_STATUS_IN : Z := 0x04.
Definition USBD_EP0_STATUS_OUT : Z := 0x05.

Definition USBD_EP_TYPE_CTRL : Z := 0x00.
Definition USBD_EP_TYPE_ISOC : Z := 0x01.
Definition USBD_EP_TYPE_BULK : Z := 0x02.
Definition USBD_EP_TYPE_INTR : Z := 0x03.

Inductive USBD_SpeedTypeDef := USBD_SPEED_HIGH | USBD_SPEED_FULL | USBD_SPEED_LOW.

#[export] Instance speed_eq_dec : EqDecision USBD_SpeedTypeDef.
Proof. solve_decision. Defined.

Record USBD_SetupReqTypedef := mk_request {
  bmRequest : Z;
  bRequest : Z;
  wValue : Z;
  wIndex : Z;
  wLength : Z;
}.

Record USBD_EndpointTypeDef := mk_endpoint {
  status : Z;
  total_length : Z;
  rem_length : Z;
  maxpacket : Z;
  is_used : Z;
}.

(** The handle, without the fields that are only written. [pDesc], [pClass]
    and [pClassData] tell whether the pointer is not NULL: there is one table
    of descriptors, one class and one class state. [pData] is the content of
    the object that is sent, from the pointer on. *)
Record USBD_HandleTypeDef := mk_device {
  dev_id : Z;
  dev_config : Z;
  dev_default_config : Z;
  dev_config_status : Z;
  dev_speed : USBD_SpeedTypeDef;
  ep_in : list USBD_EndpointTypeDef;
  ep_out : list USBD_EndpointTypeDef;
  ep0_state : Z;
  ep0_data_len : Z;
  dev_state : Z;
  dev_old_state : Z;
  dev_address : Z;
  dev_remote_wakeup : Z;
  request : USBD_SetupReqTypedef;
  pDesc : bool;
  pClass : bool;
  pClassData : bool;
  pData : list Z;
}.


Definition set_status (x : Z) (s : USBD_EndpointTypeDef) : USBD_EndpointTypeDef :=
  mk_endpoint x (total_length s) (rem_length s) (maxpacket s) (is_used s).

Definition set_total_length (x : Z) (s : USBD_EndpointTypeDef) : USBD_EndpointTypeDef :=
  mk_endpoint (status s) x (rem_length s) (maxpacket s) (is_used s).

Definition set_rem_length (x : Z) (s : USBD_EndpointTypeDef) : USBD_EndpointTypeDef :=
  mk_endpoint (status s) (total_length s) x (maxpacket s) (is_used s).

Definition set_maxpacket (x : Z) (s : USBD_EndpointTypeDef) : USBD_EndpointTypeDef :=
  mk_endpoint (status s) (total_length s) (rem_length s) x (is_used s).

Definition set_is_used (x : Z) (s : USBD_EndpointTypeDef) : USBD_EndpointTypeDef :=
  mk_endpoint (status s) (total_length s) (rem_length s) (maxpacket s) x.

Definition set_dev_id (x : Z) (s : USBD_HandleTypeDef) : USBD_HandleTypeDef :=
  mk_device x (dev_config s) (dev_default_config s) (dev_config_status s) (dev_speed s)
    (ep_in s) (ep_out s) (ep0_state s) (ep0_data_len s) (dev_state s) (dev_old_state s)
    (dev_address s) (dev_remote_wakeup s) (request s) (pDesc s) (pClass s) (pClassData s)
    (pData s).

Definition set_dev_config (x : Z) (s : USBD_HandleTypeDef) : USBD_HandleTypeDef :=
  mk_device (dev_id s) x (dev_default_config s) (dev_config_status s) (dev_speed s) (ep_in s)
    (ep_out s) (ep0_state s) (ep0_data_len s) (dev_state s) (dev_old_state s) (dev_address
    s) (dev_remote_wakeup s) (request s) (pDesc s) (pClass s) (pClassData s) (pData s).

Definition set_dev_default_config (x : Z) (s : USBD_HandleTypeDef) : USBD_HandleTypeDef :=
  mk_device (dev_id s) (dev_config s) x (dev_config_status s) (dev_speed s) (ep_in s) (ep_out
    s) (ep0_state s) (ep0_data_len s) (dev_state s) (dev_old_state s) (dev_address s)
    (dev_remote_wakeup s) (request s) (pDesc s) (pClass s) (pClassData s) (pData s).

Definition set_dev_config_status (x : Z) (s : USBD_HandleTypeDef) : USBD_HandleTypeDef :=
  mk_device (dev_id s) (dev_config s) (dev_default_config s) x (dev_speed s) (ep_in s) (ep_out
    s) (ep0_state s) (ep0_data_len s) (dev_state s) (dev_old_state s) (dev_address s)
    (dev_remote_wakeup s) (request s) (pDesc s) (pClass s) (pClassData s) (pData s).

Definition set_dev_speed (x : USBD_SpeedTypeDef) (s : USBD_HandleTypeDef) : USBD_HandleTypeDef :=
  mk_device (dev_id s) (dev_config s) (dev_default_config s) (dev_config_status s) x (ep_in s)
    (ep_out s) (ep0_state s) (ep0_data_len s) (dev_state s) (dev_old_state s) (dev_address
    s) (dev_remote_wakeup s) (request s) (pDesc s) (pClass s) (pClassData s) (pData s).

Definition set_ep_in (x : list USBD_EndpointTypeDef) (s : USBD_HandleTypeDef) : USBD_HandleTypeDef :=
  mk_device (dev_id s) (dev_config s) (dev_default_config s) (dev_config_status s) (dev_speed
    s) x (ep_out s) (ep0_state s) (ep0_data_len s) (dev_state s) (dev_old_state s)
    (dev_address s) (dev_remote_wakeup s) (request s) (pDesc s) (pClass s) (pClassData s)
    (pData s).

Definition set_ep_out (x : list USBD_EndpointTypeDef) (s : USBD_HandleTypeDef) : USBD_HandleTypeDef :=
  mk_device (dev_id s) (dev_config s) (dev_default_config s) (dev_config_status s) (dev_speed
    s) (ep_in s) x (ep0_state s) (ep0_data_len s) (dev_state s) (dev_old_state s)
    (dev_address s) (dev_remote_wakeup s) (request s) (pDesc s) (pClass s) (pClassData s)
    (pData s).

Definition set_ep0_state (x : Z) (s : USBD_HandleTypeDef) : USBD_HandleTypeDef :=
  mk_device (dev_id s) (dev_config s) (dev_default_config s) (dev_config_status s) (dev_speed
    s) (ep_in s) (ep_out s) x (ep0_data_len s) (dev_state s) (dev_old_state s)
    (dev_address s) (dev_remote_wakeup s) (request s) (pDesc s) (pClass s) (pClassData s)
    (pData s).

Definition set_ep0_data_len (x : Z) (s : USBD_HandleTypeDef) : USBD_HandleTypeDef :=
  mk_device (dev_id s) (dev_config s) (dev_default_config s) (dev_config_status s) (dev_speed
    s) (ep_in s) (ep_out s) (ep0_state s) x (dev_state s) (dev_old_state s) (dev_address
    s) (dev_remote_wakeup s) (request s) (pDesc s) (pClass s) (pClassData s) (pData s).

Definition set_dev_state (x : Z) (s : USBD_HandleTypeDef) : USBD_HandleTypeDef :=
  mk_device (dev_id s) (dev_config s) (dev_default_config s) (dev_config_status s) (dev_speed
    s) (ep_in s) (ep_out s) (ep0_state s) (ep0_data_len s) x (dev_old_state s)
    (dev_address s) (dev_remote_wakeup s) (request s) (pDesc s) (pClass s) (pClassData s)
    (pData s).

Definition set_dev_old_state (x : Z) (s : USBD_HandleTypeDef) : USBD_HandleTypeDef :=
  mk_device (dev_id s) (dev_config s) (dev_default_config s) (dev_config_status s) (dev_speed
    s) (ep_in s) (ep_out s) (ep0_state s) (ep0_data_len s) (dev_state s) x (dev_address s)
    (dev_remote_wakeup s) (request s) (pDesc s) (pClass s) (pClassData s) (pData s).

Definition set_dev_address (x : Z) (s : USBD_HandleTypeDef) : USBD_HandleTypeDef :=
  mk_device (dev_id s) (dev_config s) (dev_default_config s) (dev_config_status s) (dev_speed
    s) (ep_in s) (ep_out s) (ep0_state s) (ep0_data_len s) (dev_state s) (dev_old_state s)
    x (dev_remote_wakeup s) (request s) (pDesc s) (pClass s) (pClassData s) (pData s).

Definition set_dev_remote_wakeup (x : Z) (s : USBD_HandleTypeDef) : USBD_HandleTypeDef :=
  mk_device (dev_id s) (dev_config s) (dev_default_config s) (dev_config_status s) (dev_speed
    s) (ep_in s) (ep_out s) (ep0_state s) (ep0_data_len s) (dev_state s) (dev_old_state s)
    (dev_address s) x (request s) (pDesc s) (pClass s) (pClassData s) (pData s).

Definition set_request (x : USBD_SetupReqTypedef) (s : USBD_HandleTypeDef) : USBD_HandleTypeDef :=
  mk_device (dev_id s) (dev_config s) (dev_default_config s) (dev_config_status s) (dev_speed
    s) (ep_in s) (ep_out s) (ep0_state s) (ep0_data_len s) (dev_state s) (dev_old_state s)
    (dev_address s) (dev_remote_wakeup s) x (pDesc s) (pClass s) (pClassData s) (pData s).

Definition set_pDesc (x : bool) (s : USBD_HandleTypeDef) : USBD_HandleTypeDef :=
  mk_device (dev_id s) (dev_config s) (dev_default_config s) (dev_config_status s) (dev_speed
    s) (ep_in s) (ep_out s) (ep0_state s) (ep0_data_len s) (dev_state s) (dev_old_state s)
    (dev_address s) (dev_remote_wakeup s) (request s) x (pClass s) (pClassData s) (pData
    s).

Definition set_pClass (x : bool) (s : USBD_HandleTypeDef) : USBD_HandleTypeDef :=
  mk_device (dev_id s) (dev_config s) (dev_default_config s) (dev_config_status s) (dev_speed
    s) (ep_in s) (ep_out s) (ep0_state s) (ep0_data_len s) (dev_state s) (dev_old_state s)
    (dev_address s) (dev_remote_wakeup s) (request s) (pDesc s) x (pClassData s) (pData
    s).

Definition set_pClassData (x : bool) (s : USBD_HandleTypeDef) : USBD_HandleTypeDef :=
  mk_device (dev_id s) (dev_config s) (dev_default_config s) (dev_config_status s) (dev_speed
    s) (ep_in s) (ep_out s) (ep0_state s) (ep0_data_len s) (dev_state s) (dev_old_state s)
    (dev_address s) (dev_remote_wakeup s) (request s) (pDesc s) (pClass s) x (pData s).

Definition set_pData (x : list Z) (s : USBD_HandleTypeDef) : USBD_HandleTypeDef :=
  mk_device (dev_id s) (dev_config s) (dev_default_config s) (dev_config_status s) (dev_speed
    s) (ep_in s) (ep_out s) (ep0_state s) (ep0_data_len s) (dev_state s) (dev_old_state s)
    (dev_address s) (dev_remote_wakeup s) (request s) (pDesc s) (pClass s) (pClassData s)
    x.

Definition initial_endpoint : USBD_EndpointTypeDef := mk_endpoint 0 0 0 0 0.

(** Static storage. *)
Definition initial_device : USBD_HandleTypeDef :=
  mk_device 0 0 0 0 USBD_SPEED_HIGH
    (replicate (Z.to_nat IO_USB_MAX_ENDPOINTS) initial_endpoint)
    (replicate (Z.to_nat IO_USB_MAX_ENDPOINTS) initial_endpoint)
    0 0 0 0 0 0 (mk_request 0 0 0 0 0) false false false [].

(** The device, the stall status of its endpoints, the channel to the
    controller and the state of the class. *)
Record usb (C : Type) := mk_usb {
  pdev : USBD_HandleTypeDef;
  ep_in_stall_status : Z;
  ep_out_stall_status : Z;
  usb_io : io_t;
  usb_class : C;
}.
Arguments mk_usb {C}.
Arguments pdev {C}.
Arguments ep_in_stall_status {C}.
Arguments ep_out_stall_status {C}.
Arguments usb_io {C}.
Arguments usb_class {C}.

Section usb_setters.
Context {C : Type}.
Definition set_pdev (x : USBD_HandleTypeDef) (u : usb C) : usb C :=
  mk_usb x (ep_in_stall_status u) (ep_out_stall_status u) (usb_io u) (usb_class u).
Definition set_stall (i o : Z) (u : usb C) : usb C :=
  mk_usb (pdev u) i o (usb_io u) (usb_class u).
Definition set_usb_io (x : io_t) (u : usb C) : usb C :=
  mk_usb (pdev u) (ep_in_stall_status u) (ep_out_stall_status u) x (usb_class u).
Definition set_usb_class (x : C) (u : usb C) : usb C :=
  mk_usb (pdev u) (ep_in_stall_status u) (ep_out_stall_status u) (usb_io u) x.
End usb_setters.

(** * Operations *)

Section operations.
Context {C : Type}.
Abbreviation U := (M (usb C)).

Definition dev {A} (f : USBD_HandleTypeDef -> A) : U A := mgets (fun u => f (pdev u)).
Definition upd (f : USBD_HandleTypeDef -> USBD_HandleTypeDef) : U unit :=
  mmodify (fun u => set_pdev (f (pdev u)) u).

(** The endpoint [i] of an array, read and changed. *)
Definition ep_get (eps : USBD_HandleTypeDef -> list USBD_EndpointTypeDef) (i : Z)
  : U USBD_EndpointTypeDef :=
  let! l := dev eps in mlift (l !! Z.to_nat i).

Definition ep_in_change (i : Z) (f : USBD_EndpointTypeDef -> USBD_EndpointTypeDef) : U unit :=
  let! e := ep_get ep_in i in
  upd (fun d => set_ep_in (<[Z.to_nat i := f e]> (ep_in d)) d).

Definition ep_out_change (i : Z) (f : USBD_EndpointTypeDef -> USBD_EndpointTypeDef) : U unit :=
  let! e := ep_get ep_out i in
  upd (fun d => set_ep_out (<[Z.to_nat i := f e]> (ep_out d)) d).

(** [os_io_tx_cmd(OS_IO_PACKET_TYPE_SEPH, buffer, length, _)]. *)
Definition tx_cmd (buffer : option (list Z)) (length : Z) : U Z :=
  zoom usb_io set_usb_io (os_io_tx_seph buffer (w16 length)).
Definition tx_bytes (b : list Z) : U Z := tx_cmd (Some b) (zlen b).

(** ** usbd_conf.c *)

Definition USBD_LL_Init : U Z := do! mmodify (set_stall 0 0) in mret USBD_OK.
Definition USBD_LL_DeInit : U Z := mret USBD_OK.

Definition USBD_LL_Start : U Z :=
  do! tx_bytes [0x4F; 0; 2; 0x03; 0] in
  do! tx_bytes [0x4F; 0; 1; 0x01] in
  mret USBD_OK.

Definition USBD_LL_Stop : U Z := do! tx_bytes [0x4F; 0; 1; 0x02] in mret USBD_OK.

(** [SEPROXYHAL_TAG_USB_CONFIG_TYPE_*]. *)
Definition seph_ep_type (ep_type : Z) : Z :=
  if ep_type =? USBD_EP_TYPE_CTRL then 0x01
  else if ep_type =? USBD_EP_TYPE_ISOC then 0x04
  else if ep_type =? USBD_EP_TYPE_BULK then 0x03
  else 0x02.

Definition bad_ep (ep_addr : Z) : bool := 8 <=? Z.land ep_addr 0x7F.

Definition USBD_LL_OpenEP (ep_addr ep_type ep_mps : Z) : U Z :=
  if bad_ep ep_addr then mret USBD_FAIL
  else
    do! mmodify (set_stall 0 0) in
    do! tx_bytes [0x4F; 0; 5; 0x04; 1; ep_addr; seph_ep_type ep_type; w8 ep_mps] in
    mret USBD_OK.

Definition USBD_LL_CloseEP (ep_addr : Z) : U Z :=
  if bad_ep ep_addr then mret USBD_FAIL
  else
    do! tx_bytes [0x4F; 0; 5; 0x04; 1; ep_addr; 0x00; 0] in
    mret USBD_OK.

Definition USBD_LL_FlushEP (ep_addr : Z) : U Z :=
  if bad_ep ep_addr then mret USBD_FAIL else mret USBD_OK.

Definition ep_is_in (ep_addr : Z) : bool := truthy (Z.land ep_addr 0x80).
Definition ep_bit (ep_addr : Z) : Z := Z.shiftl 1 (Z.land ep_addr 0x7F).

Definition USBD_LL_StallEP (ep_addr : Z) : U Z :=
  if bad_ep ep_addr then mret USBD_FAIL
  else
    do! mmodify (fun u =>
      if ep_is_in ep_addr
      then set_stall (w8 (Z.lor (ep_in_stall_status u) (ep_bit ep_addr))) (ep_out_stall_status u) u
      else set_stall (ep_in_stall_status u) (w8 (Z.lor (ep_out_stall_status u) (ep_bit ep_addr))) u) in
    do! tx_bytes [0x50; 0; 3; ep_addr; 0x40; 0] in
    mret USBD_OK.

Definition USBD_LL_ClearStallEP (ep_addr : Z) : U Z :=
  if bad_ep ep_addr then mret USBD_FAIL
  else
    do! mmodify (fun u =>
      if ep_is_in ep_addr
      then set_stall (w8 (Z.ldiff (ep_in_stall_status u) (ep_bit ep_addr))) (ep_out_stall_status u) u
      else set_stall (ep_in_stall_status u) (w8 (Z.ldiff (ep_out_stall_status u) (ep_bit ep_addr))) u) in
    do! tx_bytes [0x50; 0; 3; ep_addr; 0x80; 0] in
    mret USBD_OK.

Definition USBD_LL_IsStallEP (ep_addr : Z) : U Z :=
  if bad_ep ep_addr then mret 0
  else if ep_is_in ep_addr then
    let! s := mgets ep_in_stall_status in mret (w8 (Z.land s (ep_bit ep_addr)))
  else let! s := mgets ep_out_stall_status in mret (w8 (Z.land s (ep_bit ep_addr))).

Definition USBD_LL_SetUSBAddress (dev_addr : Z) : U Z :=
  do! tx_bytes [0x4F; 0; 2; 0x03; dev_addr] in mret USBD_OK.

Definition USBD_LL_Transmit (ep_addr : Z) (pbuf : option (list Z)) (size timeout_ms : Z) : U Z :=
  if bad_ep ep_addr then mret USBD_FAIL
  else
    let buffer := [0x50; w8 (Z.shiftr (3 + size) 8); w8 (3 + size); ep_addr; 0x20; w8 size] in
    if truthy timeout_ms then
      let! r := tx_bytes buffer in
      if negb (r =? TIMEOUT) then do! tx_cmd pbuf size in mret USBD_OK
      else mret USBD_TIMEOUT
    else
      do! tx_bytes buffer in
      do! tx_cmd pbuf size in
      mret USBD_OK.

Definition USBD_LL_PrepareReceive (ep_addr size : Z) : U Z :=
  if bad_ep ep_addr then mret USBD_FAIL
  else do! tx_bytes [0x50; 0; 3; ep_addr; 0x30; w8 size] in mret USBD_OK.

Definition USBD_LL_BatteryCharging : U Z := mret USBD_FAIL.

(** ** usbd_ioreq.c *)

Definition USBD_CtlSendData (pbuf : list Z) (len : Z) : U Z :=
  do! upd (set_ep0_state USBD_EP0_DATA_IN) in
  do! ep_in_change 0 (set_total_length len) in
  do! ep_in_change 0 (set_rem_length len) in
  do! upd (set_pData pbuf) in
  let! e := ep_get ep_in 0 in
  do! USBD_LL_Transmit 0x00 (Some pbuf) (Z.min len (maxpacket e)) 0 in
  mret USBD_OK.

Definition USBD_CtlContinueSendData (pbuf : option (list Z)) (len : Z) : U Z :=
  let! e := ep_get ep_in 0 in
  do! USBD_LL_Transmit 0x00 pbuf (Z.min len (maxpacket e)) 0 in
  mret USBD_OK.

Definition USBD_CtlPrepareRx (len : Z) : U Z :=
  do! upd (set_ep0_state USBD_EP0_DATA_OUT) in
  do! ep_out_change 0 (set_total_length len) in
  do! ep_out_change 0 (set_rem_length len) in
  do! USBD_LL_PrepareReceive 0 len in
  mret USBD_OK.

Definition USBD_CtlContinueRx (len : Z) : U Z :=
  do! USBD_LL_PrepareReceive 0 len in mret USBD_OK.

Definition USBD_CtlSendStatus : U Z :=
  do! upd (set_ep0_state USBD_EP0_STATUS_IN) in
  do! USBD_LL_Transmit 0x00 None 0 0 in
  mret USBD_OK.

Definition USBD_CtlReceiveStatus : U Z :=
  do! upd (set_ep0_state USBD_EP0_STATUS_OUT) in
  do! USBD_LL_PrepareReceive 0 0 in
  mret USBD_OK.
End operations.

(** * The invariant of the device *)

Definition ep_ok (e : USBD_EndpointTypeDef) : Prop :=
  0 <= maxpacket e <= USB_MAX_EP0_SIZE /\ 0 <= rem_length e.

Definition eps_ok (l : list USBD_EndpointTypeDef) : Prop :=
  zlen l = IO_USB_MAX_ENDPOINTS /\ Forall ep_ok l.

(** The bytes that remain to be sent on the control endpoint are those of
    [pData]. *)
Definition pending_ok (d : USBD_HandleTypeDef) : Prop :=
  ep0_state d = USBD_EP0_DATA_IN ->
  forall e, ep_in d !! 0%nat = Some e -> rem_length e <= zlen (pData d).

(** A configured device, suspended or not, has a configuration. *)
Definition config_ok (d : USBD_HandleTypeDef) : Prop :=
  dev_state d = USBD_STATE_CONFIGURED \/
  (dev_state d = USBD_STATE_SUSPENDED /\ dev_old_state d = USBD_STATE_CONFIGURED) ->
  0 < dev_config d.

Record dev_inv (d : USBD_HandleTypeDef) : Prop := mk_dev_inv {
  inv_pDesc : pDesc d = true;
  inv_pClass : pClass d = true;
  inv_ep_in : eps_ok (ep_in d);
  inv_ep_out : eps_ok (ep_out d);
  inv_pending : pending_ok d;
  inv_config : config_ok d;
  inv_state : USBD_STATE_DEFAULT <= dev_state d <= USBD_STATE_SUSPENDED;
}.

(** The device is well formed, its state is [x], its old state and its
    configuration are [y]. *)
Record usb_at {C} (P : C -> Prop) (x : Z) (y : Z * Z) (u : usb C) : Prop := mk_usb_at {
  at_io : seph_ready (usb_io u);
  at_dev : dev_inv (pdev u);
  at_class : P (usb_class u);
  at_state : dev_state (pdev u) = x;
  at_old : (dev_old_state (pdev u), dev_config (pdev u)) = y;
}.

Lemma eps_lookup l i : eps_ok l -> 0 <= i < IO_USB_MAX_ENDPOINTS ->
  exists e, l !! Z.to_nat i = Some e /\ ep_ok e.
Proof.
  intros [Hl Hf] Hi. unfold zlen in Hl.
  destruct (lookup_lt_is_Some_2 l (Z.to_nat i)) as [e He]; [lia|].
  exists e. split; [done|]. by apply (Forall_lookup_1 _ _ _ _ Hf He).
Qed.

Lemma eps_insert l i e :
  eps_ok l -> ep_ok e ->
  eps_ok (<[Z.to_nat i := e]> l).
Proof.
  intros [Hl Hf] He. split; [unfold zlen in *; by rewrite length_insert|].
  by apply Forall_insert.
Qed.

Section device.
Context {C : Type} (P : C -> Prop).
Implicit Types (u : usb C).

(** ** Packets sent by the device *)

Definition usb_sent (p : list Z) (u : usb C) : usb C := set_usb_io (io_sent p (usb_io u)) u.
Definition usb_out (u : usb C) : list Z := io_out (usb_io u).

Lemma usb_sent_at x y p u :
  is_status (packet_tag p) = false -> usb_at P x y u -> usb_at P x y (usb_sent p u).
Proof. intros Hp []. constructor; try done. by apply io_sent_ready. Qed.

Lemma tx_bytes_ok p u :
  seph_ready (usb_io u) -> packet_ok p -> tx_bytes p u = Ret (zlen p) (usb_sent p u).
Proof.
  intros Hr Hp. pose proof Hp as [Hl _]. unfold OS_IO_SEPH_BUFFER_SIZE in Hl.
  unfold tx_bytes, tx_cmd, zoom, w16. rewrite Z.mod_small by lia.
  by rewrite (seph_cmd_ok p (usb_io u)).
Qed.

Lemma tx_bytes_wp p (Q : Z -> usb C -> Prop) u :
  seph_ready (usb_io u) -> packet_ok p -> Q (zlen p) (usb_sent p u) -> wp (tx_bytes p) Q u.
Proof. intros Hr Hp HQ. unfold wp. by rewrite tx_bytes_ok. Qed.

Lemma tx_bytes_safe x y p :
  packet_ok p -> is_status (packet_tag p) = false -> safe (usb_at P x y) (tx_bytes p).
Proof.
  intros Hp Ht u Hu. pose proof Hu as []. apply tx_bytes_wp; [done..|]. by apply usb_sent_at.
Qed.

(** A packet given with its bytes. *)
Lemma packet_ok_cons t h l d :
  0 <= h < 256 -> 0 <= l < 256 -> 256 * h + l = zlen d -> 3 + zlen d <= OS_IO_SEPH_BUFFER_SIZE ->
  packet_ok (t :: h :: l :: d).
Proof.
  intros Hh Hl He Hd. pose proof (zlen_nonneg d). split; [rewrite !zlen_cons; lia|].
  rewrite (U2BE_split _ _ h l); [f_equal; rewrite !zlen_cons; lia|lia|done|done|done|done].
Qed.

(** The packet of a transmission. *)
Definition transmit_packet (ep : Z) (d : list Z) : list Z :=
  [0x50; w8 (Z.shiftr (3 + zlen d) 8); w8 (3 + zlen d); ep; 0x20; w8 (zlen d)] ++ d.

Definition receive_packet (ep n : Z) : list Z := [0x50; 0; 3; ep; 0x30; w8 n].

Lemma transmit_packet_ok ep d : zlen d <= 266 -> packet_ok (transmit_packet ep d).
Proof.
  intros Hd. pose proof (zlen_nonneg d). unfold transmit_packet. cbn [app].
  rewrite Z.shiftr_div_pow2 by lia. change (2 ^ 8) with 256. unfold w8.
  apply packet_ok_cons; unfold OS_IO_SEPH_BUFFER_SIZE; rewrite ?zlen_cons; div_mod_lia.
Qed.

(** What [pbuf] points to: the data, or nothing for NULL. *)
Definition pbuf_data (pbuf : option (list Z)) (size : Z) : list Z := ztake size (default [] pbuf).

Definition pbuf_ok (pbuf : option (list Z)) (size : Z) : Prop := 0 <= size <= zlen (default [] pbuf).

Lemma transmit_ok ep pbuf size u :
  seph_ready (usb_io u) -> bad_ep ep = false -> pbuf_ok pbuf size -> size <= 266 ->
  USBD_LL_Transmit ep pbuf size 0 u = Ret USBD_OK (usb_sent (transmit_packet ep (pbuf_data pbuf size)) u).
Proof.
  intros Hr Hep [Hs0 Hs] Hs1. unfold USBD_LL_Transmit. rewrite Hep. cbn [truthy Z.eqb negb].
  set (d := pbuf_data pbuf size). assert (zlen d = size) as Hd by (by apply zlen_ztake).
  set (h := [0x50; w8 (Z.shiftr (3 + size) 8); w8 (3 + size); ep; 0x20; w8 size]).
  destruct (seph_cmd_split_ok h d (usb_io u) Hr) as [n Hn].
  { subst h. rewrite <- Hd. apply transmit_packet_ok. lia. }
  { done. }
  assert (forall t, os_io_tx_seph pbuf size t = os_io_tx_seph (Some d) size t) as Hp.
  { intros t. unfold d, pbuf_data. destruct pbuf as [b|]; cbn [default id] in *.
    - by rewrite os_io_tx_seph_ztake.
    - rewrite (@zlen_nil Z) in Hs. by assert (size = 0) as -> by lia. }
  unfold mbind in Hn |- *. unfold tx_bytes, tx_cmd, zoom, w16.
  rewrite !Z.mod_small by (try change (zlen h) with 6; lia).
  destruct (os_io_tx_seph (Some h) (zlen h) (usb_io u)) as [r t| |]; [|done|done].
  cbn [usb_io set_usb_io]. rewrite Hp. rewrite Hd in Hn. rewrite Hn.
  unfold transmit_packet. rewrite Hd. by destruct u.
Qed.

Lemma receive_ok ep n u :
  seph_ready (usb_io u) -> bad_ep ep = false ->
  USBD_LL_PrepareReceive ep n u = Ret USBD_OK (usb_sent (receive_packet ep n) u).
Proof.
  intros Hr Hep. unfold USBD_LL_PrepareReceive. rewrite Hep.
  rewrite (mbind_ret _ _ _ _ _ (tx_bytes_ok (receive_packet ep n) u Hr
    ltac:(by apply packet_ok_cons))). done.
Qed.

(** ** Running operations on the handle *)

Lemma dev_run {A B} (f : USBD_HandleTypeDef -> A) (k : A -> M (usb C) B) u :
  mbind (dev f) k u = k (f (pdev u)) u.
Proof. done. Qed.

Lemma upd_run f {B} (k : unit -> M (usb C) B) u :
  mbind (upd f) k u = k tt (set_pdev (f (pdev u)) u).
Proof. done. Qed.

Lemma ep_get_run {B} eps i e (k : USBD_EndpointTypeDef -> M (usb C) B) u :
  eps (pdev u) !! Z.to_nat i = Some e -> mbind (ep_get eps i) k u = k e u.
Proof. intros He. unfold ep_get, dev, mbind, mgets, mlift. by rewrite He. Qed.

Definition ep_in_put (i : Z) (e : USBD_EndpointTypeDef) (u : usb C) : usb C :=
  set_pdev (set_ep_in (<[Z.to_nat i := e]> (ep_in (pdev u))) (pdev u)) u.

Definition ep_out_put (i : Z) (e : USBD_EndpointTypeDef) (u : usb C) : usb C :=
  set_pdev (set_ep_out (<[Z.to_nat i := e]> (ep_out (pdev u))) (pdev u)) u.

Lemma ep_in_change_run {B} i f e (k : unit -> M (usb C) B) u :
  ep_in (pdev u) !! Z.to_nat i = Some e ->
  mbind (ep_in_change i f) k u = k tt (ep_in_put i (f e) u).
Proof. intros He. unfold ep_in_change. unfold mbind at 1. by rewrite (ep_get_run ep_in i e _ u He). Qed.

Lemma ep_out_change_run {B} i f e (k : unit -> M (usb C) B) u :
  ep_out (pdev u) !! Z.to_nat i = Some e ->
  mbind (ep_out_change i f) k u = k tt (ep_out_put i (f e) u).
Proof. intros He. unfold ep_out_change. unfold mbind at 1. by rewrite (ep_get_run ep_out i e _ u He). Qed.

(** ** Transfers of the control endpoint *)

(** The handle once the transmission of [len] bytes of [pbuf] has started;
    [e] is the control endpoint. *)
Definition ctl_started (pbuf : list Z) (len : Z) (e : USBD_EndpointTypeDef) (u : usb C) : usb C :=
  set_pdev
    (set_pData pbuf
       (set_ep_in (<[0%nat := set_rem_length len (set_total_length len e)]> (ep_in (pdev u)))
          (set_ep0_state USBD_EP0_DATA_IN (pdev u)))) u.

Lemma ctl_send_ok pbuf len e u :
  seph_ready (usb_io u) -> ep_in (pdev u) !! 0%nat = Some e ->
  0 <= maxpacket e <= USB_MAX_EP0_SIZE -> 0 <= len <= zlen pbuf ->
  USBD_CtlSendData pbuf len u
  = Ret USBD_OK (usb_sent (transmit_packet 0 (ztake (Z.min len (maxpacket e)) pbuf))
                   (ctl_started pbuf len e u)).
Proof.
  intros Hr He Hm Hl. assert (0 < length (ep_in (pdev u)))%nat as Hlen by (by apply lookup_lt_Some in He).
  unfold USBD_CtlSendData. rewrite upd_run.
  rewrite (ep_in_change_run 0 _ e) by done.
  rewrite (ep_in_change_run 0 _ (set_total_length len e)) by (cbn; by rewrite list_lookup_insert_eq).
  rewrite upd_run.
  rewrite (ep_get_run ep_in 0 (set_rem_length len (set_total_length len e))) by
    (cbn; rewrite list_insert_insert_eq; by rewrite list_lookup_insert_eq).
  transitivity ((do! USBD_LL_Transmit 0 (Some pbuf) (Z.min len (maxpacket e)) 0 in mret USBD_OK)
    (ctl_started pbuf len e u)).
  { unfold ep_in_put, ctl_started. cbn. by rewrite list_insert_insert_eq. }
  by rewrite (mbind_ret _ _ _ _ _ (transmit_ok 0 (Some pbuf) (Z.min len (maxpacket e))
    (ctl_started pbuf len e u) Hr eq_refl ltac:(unfold pbuf_ok; cbn; lia)
    ltac:(unfold USB_MAX_EP0_SIZE in *; lia))).
Qed.

Lemma ctl_continue_ok pbuf len e u :
  seph_ready (usb_io u) -> ep_in (pdev u) !! 0%nat = Some e ->
  0 <= maxpacket e <= USB_MAX_EP0_SIZE -> pbuf_ok pbuf len ->
  USBD_CtlContinueSendData pbuf len u
  = Ret USBD_OK (usb_sent (transmit_packet 0 (pbuf_data pbuf (Z.min len (maxpacket e)))) u).
Proof.
  intros Hr He Hm Hl. unfold USBD_CtlContinueSendData. rewrite (ep_get_run ep_in 0 e) by done.
  unfold pbuf_ok in *.
  assert (pbuf_ok pbuf (Z.min len (maxpacket e))) as Hp by (unfold pbuf_ok; lia).
  by rewrite (mbind_ret _ _ _ _ _ (transmit_ok 0 pbuf (Z.min len (maxpacket e)) u Hr eq_refl Hp
    ltac:(unfold USB_MAX_EP0_SIZE in *; lia))).
Qed.

Definition status_in (u : usb C) : usb C :=
  usb_sent (transmit_packet 0 []) (set_pdev (set_ep0_state USBD_EP0_STATUS_IN (pdev u)) u).

Definition status_out (u : usb C) : usb C :=
  usb_sent (receive_packet 0 0) (set_pdev (set_ep0_state USBD_EP0_STATUS_OUT (pdev u)) u).

Lemma ctl_status_in_ok u :
  seph_ready (usb_io u) -> USBD_CtlSendStatus u = Ret USBD_OK (status_in u).
Proof.
  intros Hr. unfold USBD_CtlSendStatus. rewrite upd_run.
  by rewrite (mbind_ret _ _ _ _ _ (transmit_ok 0 None 0 (set_pdev _ u) Hr eq_refl
    ltac:(done) ltac:(lia))).
Qed.

Lemma ctl_status_out_ok u :
  seph_ready (usb_io u) -> USBD_CtlReceiveStatus u = Ret USBD_OK (status_out u).
Proof.
  intros Hr. unfold USBD_CtlReceiveStatus. rewrite upd_run.
  by rewrite (mbind_ret _ _ _ _ _ (receive_ok 0 0 (set_pdev _ u) Hr eq_refl)).
Qed.

(** ** Safety of the operations *)

Section safety.
Context (x : Z) (y : Z * Z).
Abbreviation I := (usb_at P x y).

Lemma upd_safe f :
  (forall d, dev_inv d -> dev_inv (f d) /\ dev_state (f d) = dev_state d /\
     dev_old_state (f d) = dev_old_state d /\ dev_config (f d) = dev_config d) ->
  safe I (upd f).
Proof.
  intros Hf. apply safe_modify. intros u []. destruct (Hf (pdev u)) as (H1 & H2 & H3 & H4); [done|].
  constructor; cbn; congruence || done.
Qed.

Lemma dev_safe {A} (f : USBD_HandleTypeDef -> A) : safe I (dev f).
Proof. apply safe_gets. Qed.

Lemma set_stall_safe f g : safe I (mmodify (fun u => set_stall (f u) (g u) u)).
Proof. apply safe_modify. by intros u []. Qed.

Lemma packet_6 t l b1 b2 b3 : l = 3 -> packet_ok [t; 0; l; b1; b2; b3].
Proof. intros ->. by apply packet_ok_cons. Qed.

Lemma stall_safe ep : safe I (USBD_LL_StallEP ep).
Proof.
  unfold USBD_LL_StallEP. safe_auto.
  - apply safe_modify. intros u []. by destruct (ep_is_in ep).
  - by apply tx_bytes_safe; [apply packet_6|].
Qed.

Lemma unstall_safe ep : safe I (USBD_LL_ClearStallEP ep).
Proof.
  unfold USBD_LL_ClearStallEP. safe_auto.
  - apply safe_modify. intros u []. by destruct (ep_is_in ep).
  - by apply tx_bytes_safe; [apply packet_6|].
Qed.

Lemma is_stall_safe ep : safe I (USBD_LL_IsStallEP ep).
Proof. unfold USBD_LL_IsStallEP. safe_auto. Qed.

Lemma open_safe ep t mps : safe I (USBD_LL_OpenEP ep t mps).
Proof.
  unfold USBD_LL_OpenEP. safe_auto; [apply (set_stall_safe (fun _ => 0) (fun _ => 0))|].
  by apply tx_bytes_safe; [apply packet_ok_cons|].
Qed.

Lemma close_safe ep : safe I (USBD_LL_CloseEP ep).
Proof. unfold USBD_LL_CloseEP. safe_auto. by apply tx_bytes_safe; [apply packet_ok_cons|]. Qed.

Lemma set_address_safe a : safe I (USBD_LL_SetUSBAddress a).
Proof. unfold USBD_LL_SetUSBAddress. safe_auto. by apply tx_bytes_safe; [apply packet_ok_cons|]. Qed.

Lemma stop_safe : safe I USBD_LL_Stop.
Proof. unfold USBD_LL_Stop. safe_auto. by apply tx_bytes_safe; [apply packet_ok_cons|]. Qed.

Lemma start_safe : safe I USBD_LL_Start.
Proof. unfold USBD_LL_Start. safe_auto; by apply tx_bytes_safe; [apply packet_ok_cons|]. Qed.

Lemma receive_safe ep n : safe I (USBD_LL_PrepareReceive ep n).
Proof. unfold USBD_LL_PrepareReceive. safe_auto. by apply tx_bytes_safe; [apply packet_6|]. Qed.

Lemma transmit_safe ep pbuf size :
  pbuf_ok pbuf size -> size <= 266 -> safe I (USBD_LL_Transmit ep pbuf size 0).
Proof.
  intros Hp Hs u Hu. pose proof Hu as []. destruct (bad_ep ep) eqn:E.
  - unfold USBD_LL_Transmit. by rewrite E.
  - unfold wp. rewrite transmit_ok by done. by apply usb_sent_at.
Qed.

Lemma ep0_in_lookup u : I u -> exists e, ep_in (pdev u) !! 0%nat = Some e /\
  0 <= maxpacket e <= USB_MAX_EP0_SIZE /\ 0 <= rem_length e.
Proof. intros []. by apply (eps_lookup _ 0 (inv_ep_in _ at_dev0)). Qed.

Lemma ctl_send_safe pbuf len : 0 <= len <= zlen pbuf -> safe I (USBD_CtlSendData pbuf len).
Proof.
  intros Hl u Hu. destruct (ep0_in_lookup u Hu) as (e & He & Hm & Hrem).
  pose proof Hu as [Hio [] Hc Hx Hy]. unfold wp. rewrite (ctl_send_ok pbuf len e u) by done.
  assert (0 < length (ep_in (pdev u)))%nat as Hlen by (by apply lookup_lt_Some in He).
  apply usb_sent_at; [done|]. constructor; try done. constructor; try done.
  - apply (eps_insert _ 0); [done|]. unfold ep_ok. cbn. lia.
  - intros _ e'. cbn. rewrite list_lookup_insert_eq by done. intros [= <-]. cbn. lia.
Qed.

Lemma ep0_state_inv s d : s <> USBD_EP0_DATA_IN -> dev_inv d -> dev_inv (set_ep0_state s d).
Proof. intros Hs []. constructor; try done. intros E. by destruct Hs. Qed.

Lemma status_in_safe : safe I USBD_CtlSendStatus.
Proof.
  unfold USBD_CtlSendStatus. safe_auto.
  - apply upd_safe. intros d Hd. split; [by apply ep0_state_inv|done].
  - by apply transmit_safe.
Qed.

Lemma status_out_safe : safe I USBD_CtlReceiveStatus.
Proof.
  unfold USBD_CtlReceiveStatus. safe_auto.
  - apply upd_safe. intros d Hd. split; [by apply ep0_state_inv|done].
  - apply receive_safe.
Qed.

(** A change of an endpoint that keeps its transfer. *)
Lemma ep_in_change_safe i f :
  0 <= i < IO_USB_MAX_ENDPOINTS ->
  (forall e, ep_ok e -> ep_ok (f e) /\ rem_length (f e) = rem_length e) ->
  safe I (ep_in_change i f).
Proof.
  intros Hi Hf u Hu. pose proof Hu as [Hio [] Hc Hx Hy].
  destruct (eps_lookup _ i inv_ep_in0 Hi) as (e & He & Hok). destruct (Hf e Hok) as [Hf1 Hf2].
  unfold wp, ep_in_change. rewrite (ep_get_run ep_in i e) by done.
  constructor; try done. constructor; try done.
  - by apply eps_insert.
  - intros Hs e'. cbn in *. destruct (decide (Z.to_nat i = 0%nat)) as [Hi0|Hi0].
    + rewrite Hi0 in *. rewrite list_lookup_insert_eq by (by apply lookup_lt_Some in He).
      intros [= <-]. rewrite Hf2. by apply inv_pending0.
    + rewrite list_lookup_insert_ne by done. by apply inv_pending0.
Qed.

Lemma ep_out_change_safe i f :
  0 <= i < IO_USB_MAX_ENDPOINTS -> (forall e, ep_ok e -> ep_ok (f e)) ->
  safe I (ep_out_change i f).
Proof.
  intros Hi Hf u Hu. pose proof Hu as [Hio [] Hc Hx Hy].
  destruct (eps_lookup _ i inv_ep_out0 Hi) as (e & He & Hok).
  unfold wp, ep_out_change. rewrite (ep_get_run ep_out i e) by done.
  constructor; try done. constructor; try done. apply eps_insert; auto.
Qed.

Lemma ep_get_in_safe i : 0 <= i < IO_USB_MAX_ENDPOINTS -> safe I (ep_get ep_in i).
Proof.
  intros Hi u Hu. pose proof Hu as [Hio [] Hc Hx Hy].
  destruct (eps_lookup _ i inv_ep_in0 Hi) as (e & He & _). unfold wp, ep_get.
  rewrite dev_run. unfold mlift. by rewrite He.
Qed.

Lemma ep_get_out_safe i : 0 <= i < IO_USB_MAX_ENDPOINTS -> safe I (ep_get ep_out i).
Proof.
  intros Hi u Hu. pose proof Hu as [Hio [] Hc Hx Hy].
  destruct (eps_lookup _ i inv_ep_out0 Hi) as (e & He & _). unfold wp, ep_get.
  rewrite dev_run. unfold mlift. by rewrite He.
Qed.
Lemma ctl_zlp_safe : safe I (USBD_CtlContinueSendData None 0).
Proof.
  intros u Hu. destruct (ep0_in_lookup u Hu) as (e & He & Hm & _). pose proof Hu as [].
  unfold wp. rewrite (ctl_continue_ok None 0 e) by done. by apply usb_sent_at.
Qed.
End safety.
End device.

#[export] Hint Resolve ctl_zlp_safe dev_safe stall_safe unstall_safe is_stall_safe open_safe close_safe
  set_address_safe stop_safe start_safe receive_safe status_in_safe status_out_safe : safe.
