(* ===== verification/UsbCtlReq.v ===== *)
(** The standard requests of the control endpoint ([usbd_ctlreq.c] under
    [src/bolos/io/sdk/lib_stusb/src/]), over the interface of a class and of
    its descriptors ([USBD_ClassTypeDef], [USBD_DescriptorsTypeDef] of
    [usbd_def.h]). *)

From S2P Require Import Prelude CxUtils Seph UsbDevice.

(** * The callbacks

    [None] is a NULL pointer; calling it is undefined. The callbacks work on
    the whole device, whose part [usb_class] is the state of the class. A
    descriptor is its buffer and its length, empty for a NULL buffer. *)
Class USBD_ClassTypeDef (C : Type) := {
  class_Init : option (Z -> M (usb C) Z);
  class_DeInit : option (Z -> M (usb C) Z);
  class_Setup : option (USBD_SetupReqTypedef -> M (usb C) Z);
  class_EP0_TxSent : option (M (usb C) Z);
  class_EP0_RxReady : option (M (usb C) Z);
  class_DataIn : option (Z -> M (usb C) Z);
  class_DataOut : option (Z -> M (usb C) Z);
  class_SOF : option (M (usb C) Z);
  class_IsoINIncomplete : option (Z -> M (usb C) Z);
  class_IsoOUTIncomplete : option (Z -> M (usb C) Z);
  class_GetHSConfigDescriptor : option (M (usb C) (list Z * Z));
  class_GetFSConfigDescriptor : option (M (usb C) (list Z * Z));
  class_GetOtherSpeedConfigDescriptor : option (M (usb C) (list Z * Z));
  class_GetDeviceQualifierDescriptor : option (M (usb C) (list Z * Z));
}.

Class USBD_DescriptorsTypeDef (C : Type) := {
  GetDeviceDescriptor : option (USBD_SpeedTypeDef -> M (usb C) (list Z * Z));
  GetLangIDStrDescriptor : option (USBD_SpeedTypeDef -> M (usb C) (list Z * Z));
  GetManufacturerStrDescriptor : option (USBD_SpeedTypeDef -> M (usb C) (list Z * Z));
  GetProductStrDescriptor : option (USBD_SpeedTypeDef -> M (usb C) (list Z * Z));
  GetSerialStrDescriptor : option (USBD_SpeedTypeDef -> M (usb C) (list Z * Z));
  GetConfigurationStrDescriptor : option (USBD_SpeedTypeDef -> M (usb C) (list Z * Z));
  GetInterfaceStrDescriptor : option (USBD_SpeedTypeDef -> M (usb C) (list Z * Z));
  GetBOSDescriptor : option (USBD_SpeedTypeDef -> M (usb C) (list Z * Z));
}.

(** * Definitions *)

Definition USB_REQ_TYPE_STANDARD : Z := 0x00.
Definition USB_REQ_TYPE_CLASS : Z := 0x20.
Definition USB_REQ_TYPE_VENDOR : Z := 0x40.
Definition USB_REQ_TYPE_MASK : Z := 0x60.
Definition USB_REQ_RECIPIENT_DEVICE : Z := 0x00.
Definition USB_REQ_RECIPIENT_INTERFACE : Z := 0x01.
Definition USB_REQ_RECIPIENT_ENDPOINT : Z := 0x02.
Definition USB_REQ_RECIPIENT_MASK : Z := 0x03.

Definition USB_REQ_GET_STATUS : Z := 0x00.
Definition USB_REQ_CLEAR_FEATURE : Z := 0x01.
Definition USB_REQ_SET_FEATURE : Z := 0x03.
Definition USB_REQ_SET_ADDRESS : Z := 0x05.
Definition USB_REQ_GET_DESCRIPTOR : Z := 0x06.
Definition USB_REQ_GET_CONFIGURATION : Z := 0x08.
Definition USB_REQ_SET_CONFIGURATION : Z := 0x09.
Definition USB_REQ_GET_INTERFACE : Z := 0x0A.
Definition USB_REQ_SET_INTERFACE : Z := 0x0B.

Definition USB_DESC_TYPE_DEVICE : Z := 0x01.
Definition USB_DESC_TYPE_CONFIGURATION : Z := 0x02.
Definition USB_DESC_TYPE_STRING : Z := 0x03.
Definition USB_DESC_TYPE_INTERFACE : Z := 0x04.
Definition USB_DESC_TYPE_ENDPOINT : Z := 0x05.
Definition USB_DESC_TYPE_DEVICE_QUALIFIER : Z := 0x06.
Definition USB_DESC_TYPE_OTHER_SPEED_CONFIGURATION : Z := 0x07.
Definition USB_DESC_TYPE_BOS : Z := 0x0F.

Definition USBD_IDX_LANGID_STR : Z := 0x00.
Definition USBD_IDX_MFC_STR : Z := 0x01.
Definition USBD_IDX_PRODUCT_STR : Z := 0x02.
Definition USBD_IDX_SERIAL_STR : Z := 0x03.
Definition USBD_IDX_CONFIG_STR : Z := 0x04.
Definition USBD_IDX_INTERFACE_STR : Z := 0x05.
Definition USBD_IDX_WINUSB_STR : Z := 0xEE.

Definition USB_FEATURE_EP_HALT : Z := 0x00.
Definition USB_FEATURE_REMOTE_WAKEUP : Z := 0x01.
Definition USB_CONFIG_REMOTE_WAKEUP : Z := 0x02.
Definition USB_CONFIG_SELF_POWERED : Z := 0x01.

Definition LOBYTE (x : Z) : Z := Z.land x 0xFF.
Definition HIBYTE (x : Z) : Z := Z.shiftr (Z.land x 0xFF00) 8.

(** The two bytes at [addr], the low one first. *)
Definition SWAPBYTE (pdata : list Z) (addr : nat) : option Z :=
  match pdata !! addr, pdata !! S addr with
  | Some b1, Some b2 => Some (Z.lor (w16 (Z.shiftl b2 8)) b1)
  | _, _ => None
  end.

Definition USBD_ParseSetupRequest (pdata : list Z) : option USBD_SetupReqTypedef :=
  match pdata !! 0%nat, pdata !! 1%nat, SWAPBYTE pdata 2, SWAPBYTE pdata 4, SWAPBYTE pdata 6 with
  | Some bm, Some b, Some value, Some index, Some len => Some (mk_request bm b value index len)
  | _, _, _, _, _ => None
  end.

(** The string up to its null byte: [pdesc] points in the list. *)
Fixpoint USBD_GetLen (buf : list Z) : option Z :=
  match buf with
  | [] => None
  | c :: buf => if c =? 0 then Some 0 else len ← USBD_GetLen buf; Some (w8 (len + 1))
  end.

(** The loop of [USBD_GetString]; [idx] is an [uint8_t]. *)
Fixpoint getstring_loop (pdesc unicode : list Z) (idx : Z) : option (list Z) :=
  match pdesc with
  | [] => None
  | c :: pdesc =>
      if c =? 0 then Some unicode
      else
        unicode ← write_at unicode idx [c];
        unicode ← write_at unicode (w8 (idx + 1)) [0];
        getstring_loop pdesc unicode (w8 (idx + 2))
  end.

(** The buffer and the length; [desc] is not NULL. *)
Definition USBD_GetString (desc unicode : list Z) : option (list Z * Z) :=
  n ← USBD_GetLen desc;
  let len := w16 (n * 2 + 2) in
  unicode ← write_at unicode 0 [w8 len];
  unicode ← write_at unicode 1 [USB_DESC_TYPE_STRING];
  unicode ← getstring_loop desc unicode 2;
  Some (unicode, len).

Section requests.
Context {C : Type} `{!USBD_ClassTypeDef C, !USBD_DescriptorsTypeDef C}.
Abbreviation U := (M (usb C)).

Definition USBD_CtlError : U unit :=
  do! USBD_LL_StallEP 0x80 in
  do! USBD_LL_StallEP 0 in
  mret tt.

(** [pdev->pClass->Setup(pdev, req)], and the other callbacks of the class. *)
Definition with_class {F A} (f : option F) (k : F -> U A) : U A :=
  let! linked := dev pClass in
  if linked then let! f := mlift f in k f else mfault.

Definition class_setup (req : USBD_SetupReqTypedef) : U Z := with_class class_Setup (fun f => f req).

Definition USBD_SetClassConfig (cfgidx : Z) : U Z :=
  let! linked := dev pClass in
  if linked then let! f := mlift class_Init in f cfgidx else mret USBD_FAIL.

Definition USBD_ClrClassConfig (cfgidx : Z) : U Z :=
  let! linked := dev pClass in
  do! (if linked then let! f := mlift class_DeInit in f cfgidx else mret 0) in
  mret USBD_OK.

Definition from_desc (get : option (USBD_SpeedTypeDef -> U (list Z * Z))) : U (list Z * Z) :=
  let! linked := dev pDesc in
  let! speed := dev dev_speed in
  if linked then let! f := mlift get in f speed else mfault.

(** A descriptor whose callback may be missing: [None] after an error. *)
Definition from_desc_opt (get : option (USBD_SpeedTypeDef -> U (list Z * Z)))
  : U (option (list Z * Z)) :=
  let! linked := dev pDesc in
  let! speed := dev dev_speed in
  if linked then
    match get with
    | Some f => let! d := f speed in mret (Some d)
    | None => do! USBD_CtlError in mret None
    end
  else mfault.

Definition from_class (get : option (U (list Z * Z))) : U (list Z * Z) := with_class get (fun f => f).

Definition ctl_refused : U (option (list Z * Z)) := do! USBD_CtlError in mret None.

(** [switch ((uint8_t)(req->wValue))]. *)
Definition string_descriptor (idx : Z) : U (option (list Z * Z)) :=
  if idx =? USBD_IDX_LANGID_STR then from_desc_opt GetLangIDStrDescriptor
  else if idx =? USBD_IDX_MFC_STR then from_desc_opt GetManufacturerStrDescriptor
  else if idx =? USBD_IDX_PRODUCT_STR then from_desc_opt GetProductStrDescriptor
  else if idx =? USBD_IDX_SERIAL_STR then from_desc_opt GetSerialStrDescriptor
  else if idx =? USBD_IDX_CONFIG_STR then from_desc_opt GetConfigurationStrDescriptor
  else if idx =? USBD_IDX_INTERFACE_STR then from_desc_opt GetInterfaceStrDescriptor
  else if idx =? USBD_IDX_WINUSB_STR then mret (Some ([], 0))
  else ctl_refused.

(** [switch (req->wValue >> 8)]. *)
Definition find_descriptor (wValue : Z) : U (option (list Z * Z)) :=
  let t := Z.shiftr wValue 8 in
  let! speed := dev dev_speed in
  let high := bool_decide (speed = USBD_SPEED_HIGH) in
  if t =? USB_DESC_TYPE_BOS then from_desc_opt GetBOSDescriptor
  else if t =? USB_DESC_TYPE_DEVICE then
    let! d := from_desc GetDeviceDescriptor in mret (Some d)
  else if t =? USB_DESC_TYPE_CONFIGURATION then
    let! d := from_class (if high then class_GetHSConfigDescriptor else class_GetFSConfigDescriptor) in
    mret (Some d)
  else if t =? USB_DESC_TYPE_STRING then string_descriptor (w8 wValue)
  else if t =? USB_DESC_TYPE_DEVICE_QUALIFIER then
    if high then let! d := from_class class_GetDeviceQualifierDescriptor in mret (Some d)
    else ctl_refused
  else if t =? USB_DESC_TYPE_OTHER_SPEED_CONFIGURATION then
    if high then
      let! (pbuf, len) := from_class class_GetOtherSpeedConfigDescriptor in
      let! pbuf := mlift (write_at pbuf 1 [USB_DESC_TYPE_OTHER_SPEED_CONFIGURATION]) in
      mret (Some (pbuf, len))
    else ctl_refused
  else ctl_refused.

Definition USBD_GetDescriptor (req : USBD_SetupReqTypedef) : U unit :=
  let! found := find_descriptor (wValue req) in
  match found with
  | None => mret tt
  | Some (pbuf, len) =>
      if negb (wLength req =? 0) then
        if negb (len =? 0) then
          do! USBD_CtlSendData pbuf (Z.min len (wLength req)) in mret tt
        else USBD_CtlError
      else do! USBD_CtlSendStatus in mret tt
  end.

Definition USBD_SetAddress (req : USBD_SetupReqTypedef) : U unit :=
  if (wIndex req =? 0) && (wLength req =? 0) && (wValue req <? 128) then
    let dev_addr := Z.land (w8 (wValue req)) 0x7F in
    let! st := dev dev_state in
    if st =? USBD_STATE_CONFIGURED then USBD_CtlError
    else
      do! upd (set_dev_address dev_addr) in
      do! USBD_LL_SetUSBAddress dev_addr in
      do! USBD_CtlSendStatus in
      if negb (dev_addr =? 0) then upd (set_dev_state USBD_STATE_ADDRESSED)
      else upd (set_dev_state USBD_STATE_DEFAULT)
  else USBD_CtlError.

Definition USBD_SetConfig (req : USBD_SetupReqTypedef) : U Z :=
  let cfgidx := w8 (wValue req) in
  if USBD_MAX_NUM_CONFIGURATION <? cfgidx then do! USBD_CtlError in mret USBD_FAIL
  else
    let! st := dev dev_state in
    let! config := dev dev_config in
    if st =? USBD_STATE_ADDRESSED then
      if negb (cfgidx =? 0) then
        do! upd (set_dev_config cfgidx) in
        let! ret := USBD_SetClassConfig cfgidx in
        do! (if negb (ret =? USBD_OK) then USBD_CtlError
             else do! USBD_CtlSendStatus in upd (set_dev_state USBD_STATE_CONFIGURED)) in
        mret ret
      else do! USBD_CtlSendStatus in mret USBD_OK
    else if st =? USBD_STATE_CONFIGURED then
      if cfgidx =? 0 then
        do! upd (set_dev_state USBD_STATE_ADDRESSED) in
        do! upd (set_dev_config cfgidx) in
        do! USBD_ClrClassConfig cfgidx in
        do! USBD_CtlSendStatus in
        mret USBD_OK
      else if negb (cfgidx =? config) then
        do! USBD_ClrClassConfig (w8 config) in
        do! upd (set_dev_config cfgidx) in
        let! ret := USBD_SetClassConfig cfgidx in
        do! (if negb (ret =? USBD_OK) then
               do! USBD_CtlError in
               let! config := dev dev_config in
               do! USBD_ClrClassConfig (w8 config) in
               upd (set_dev_state USBD_STATE_ADDRESSED)
             else do! USBD_CtlSendStatus in mret tt) in
        mret ret
      else do! USBD_CtlSendStatus in mret USBD_OK
    else
      do! USBD_CtlError in
      do! USBD_ClrClassConfig cfgidx in
      mret USBD_FAIL.

(** [DEFAULT], [ADDRESSED] or [CONFIGURED]. *)
Definition awake (st : Z) : bool :=
  (st =? USBD_STATE_DEFAULT) || (st =? USBD_STATE_ADDRESSED) || (st =? USBD_STATE_CONFIGURED).

Definition USBD_GetConfig (req : USBD_SetupReqTypedef) : U unit :=
  if negb (wLength req =? 1) then USBD_CtlError
  else
    let! st := dev dev_state in
    if (st =? USBD_STATE_DEFAULT) || (st =? USBD_STATE_ADDRESSED) then
      do! upd (set_dev_default_config 0) in
      let! x := dev dev_default_config in
      do! USBD_CtlSendData (le_split 4 x) 1 in mret tt
    else if st =? USBD_STATE_CONFIGURED then
      let! x := dev dev_config in
      do! USBD_CtlSendData (le_split 4 x) 1 in mret tt
    else USBD_CtlError.

Definition USBD_GetStatus (req : USBD_SetupReqTypedef) : U unit :=
  let! st := dev dev_state in
  if awake st then
    if negb (wLength req =? 2) then USBD_CtlError
    else
      do! upd (set_dev_config_status USB_CONFIG_SELF_POWERED) in
      let! wakeup := dev dev_remote_wakeup in
      do! (if negb (wakeup =? 0)
           then upd (fun d => set_dev_config_status (Z.lor (dev_config_status d) USB_CONFIG_REMOTE_WAKEUP) d)
           else mret tt) in
      let! x := dev dev_config_status in
      do! USBD_CtlSendData (le_split 4 x) 2 in mret tt
  else USBD_CtlError.

Definition USBD_SetFeature (req : USBD_SetupReqTypedef) : U unit :=
  if wValue req =? USB_FEATURE_REMOTE_WAKEUP then
    do! upd (set_dev_remote_wakeup 1) in
    do! USBD_CtlSendStatus in mret tt
  else mret tt.

Definition USBD_ClrFeature (req : USBD_SetupReqTypedef) : U unit :=
  let! st := dev dev_state in
  if awake st then
    if wValue req =? USB_FEATURE_REMOTE_WAKEUP then
      do! upd (set_dev_remote_wakeup 0) in
      do! USBD_CtlSendStatus in mret tt
    else mret tt
  else USBD_CtlError.

(** A function without a result, in a switch that returns [USBD_OK]. *)
Definition void (m : U unit) : U Z := do! m in mret USBD_OK.

Definition req_type (req : USBD_SetupReqTypedef) : Z := Z.land (bmRequest req) USB_REQ_TYPE_MASK.
Definition is_class_or_vendor (t : Z) : bool := (t =? USB_REQ_TYPE_CLASS) || (t =? USB_REQ_TYPE_VENDOR).

Definition USBD_StdDevReq (req : USBD_SetupReqTypedef) : U Z :=
  if is_class_or_vendor (req_type req) then class_setup req
  else if req_type req =? USB_REQ_TYPE_STANDARD then
    let r := bRequest req in
    if r =? USB_REQ_GET_DESCRIPTOR then void (USBD_GetDescriptor req)
    else if r =? USB_REQ_SET_ADDRESS then void (USBD_SetAddress req)
    else if r =? USB_REQ_SET_CONFIGURATION then USBD_SetConfig req
    else if r =? USB_REQ_GET_CONFIGURATION then void (USBD_GetConfig req)
    else if r =? USB_REQ_GET_STATUS then void (USBD_GetStatus req)
    else if r =? USB_REQ_SET_FEATURE then void (USBD_SetFeature req)
    else if r =? USB_REQ_CLEAR_FEATURE then void (USBD_ClrFeature req)
    else class_setup req
  else void USBD_CtlError.

Definition USBD_StdItfReq (req : USBD_SetupReqTypedef) : U Z :=
  if is_class_or_vendor (req_type req) || (req_type req =? USB_REQ_TYPE_STANDARD) then
    let! st := dev dev_state in
    if awake st then
      if LOBYTE (wIndex req) <=? USBD_MAX_NUM_INTERFACES then
        let! ret := class_setup req in
        do! (if (wLength req =? 0) && (ret =? USBD_OK)
             then do! USBD_CtlSendStatus in mret tt else mret tt) in
        mret ret
      else void USBD_CtlError
    else void USBD_CtlError
  else void USBD_CtlError.

(** [SET_FEATURE] and [CLEAR_FEATURE] of an endpoint before configuration. *)
Definition addressed_feature (ep_addr : Z) : U unit :=
  if negb (ep_addr =? 0) && negb (ep_addr =? 0x80) then
    do! USBD_LL_StallEP ep_addr in
    do! USBD_LL_StallEP 0x80 in
    mret tt
  else USBD_CtlError.

Definition ep_set_feature (req : USBD_SetupReqTypedef) (ep_addr : Z) : U unit :=
  let! st := dev dev_state in
  if st =? USBD_STATE_ADDRESSED then addressed_feature ep_addr
  else if st =? USBD_STATE_CONFIGURED then
    do! (if wValue req =? USB_FEATURE_EP_HALT then
           if negb (ep_addr =? 0) && negb (ep_addr =? 0x80) && (wLength req =? 0)
           then do! USBD_LL_StallEP ep_addr in mret tt else mret tt
         else mret tt) in
    do! USBD_CtlSendStatus in mret tt
  else USBD_CtlError.

Definition ep_clear_feature (req : USBD_SetupReqTypedef) (ep_addr : Z) : U Z :=
  let! st := dev dev_state in
  if st =? USBD_STATE_ADDRESSED then void (addressed_feature ep_addr)
  else if st =? USBD_STATE_CONFIGURED then
    if wValue req =? USB_FEATURE_EP_HALT then
      do! (if negb (Z.land ep_addr 0x7F =? 0)
           then do! USBD_LL_ClearStallEP ep_addr in mret tt else mret tt) in
      do! USBD_CtlSendStatus in
      class_setup req
    else mret USBD_OK
  else void USBD_CtlError.

(** [pep->status = v], then the two bytes of the status are sent. *)
Definition ep_send_status (ep_addr v : Z) : U unit :=
  let i := Z.land ep_addr 0x7F in
  let is_in := Z.land ep_addr 0x80 =? 0x80 in
  do! (if is_in then ep_in_change i (set_status v) else ep_out_change i (set_status v)) in
  do! USBD_CtlSendData (le_split 4 v) 2 in mret tt.

Definition ep_get_status (ep_addr : Z) : U unit :=
  let! st := dev dev_state in
  if st =? USBD_STATE_ADDRESSED then
    if negb (ep_addr =? 0) && negb (ep_addr =? 0x80) then USBD_CtlError
    else ep_send_status ep_addr 0
  else if st =? USBD_STATE_CONFIGURED then
    let! e := (if Z.land ep_addr 0x80 =? 0x80 then ep_get ep_in (Z.land ep_addr 0xF)
               else ep_get ep_out (Z.land ep_addr 0xF)) in
    if is_used e =? 0 then USBD_CtlError
    else if (ep_addr =? 0) || (ep_addr =? 0x80) then ep_send_status ep_addr 0
    else
      let! stalled := USBD_LL_IsStallEP ep_addr in
      ep_send_status ep_addr (if negb (stalled =? 0) then 1 else 0)
  else USBD_CtlError.

Definition USBD_StdEPReq (req : USBD_SetupReqTypedef) : U Z :=
  let ep_addr := LOBYTE (wIndex req) in
  if is_class_or_vendor (req_type req) then class_setup req
  else if req_type req =? USB_REQ_TYPE_STANDARD then
    let r := bRequest req in
    if r =? USB_REQ_SET_FEATURE then void (ep_set_feature req ep_addr)
    else if r =? USB_REQ_CLEAR_FEATURE then ep_clear_feature req ep_addr
    else if r =? USB_REQ_GET_STATUS then void (ep_get_status ep_addr)
    else void USBD_CtlError
  else void USBD_CtlError.
End requests.

(** * The contract of a class

    What the core relies on: the callbacks return, keep the device well
    formed and leave its state alone, and the descriptors have the length
    they announce. *)

Definition req_ok (req : USBD_SetupReqTypedef) : Prop :=
  0 <= wValue req < 65536 /\ 0 <= wIndex req < 65536 /\ 0 <= wLength req < 65536.

Definition desc_ok (d : list Z * Z) : Prop := 0 <= d.2 <= zlen d.1.

(** The state of a class keeps [inv], and [ready] once the class was
    initialised. *)
Definition class_at {C} (inv ready : C -> Prop) (r : bool) (c : C) : Prop :=
  inv c /\ (r = true -> ready c).

Class USBD_ClassLaws (C : Type) `{!USBD_ClassTypeDef C, !USBD_DescriptorsTypeDef C} := {
  class_inv : C -> Prop;
  class_ready : C -> Prop;
  init_law : exists f, class_Init = Some f /\
    forall r x y cfg u, usb_at (class_at class_inv class_ready r) x y u ->
    wp (f cfg) (fun a u' => a = USBD_OK /\ usb_at (class_at class_inv class_ready true) x y u') u;
  deinit_law : exists f, class_DeInit = Some f /\
    forall r x y cfg, safe (usb_at (class_at class_inv class_ready r) x y) (f cfg);
  setup_law : exists f, class_Setup = Some f /\
    forall r x y req, req_ok req -> safe (usb_at (class_at class_inv class_ready r) x y) (f req);
  tx_sent_law : forall f, class_EP0_TxSent = Some f ->
    forall r x y, safe (usb_at (class_at class_inv class_ready r) x y) f;
  rx_ready_law : forall f, class_EP0_RxReady = Some f ->
    forall r x y, safe (usb_at (class_at class_inv class_ready r) x y) f;
  data_in_law : forall f, class_DataIn = Some f ->
    forall x y ep, 0 <= ep < IO_USB_MAX_ENDPOINTS ->
    safe (usb_at (class_at class_inv class_ready true) x y) (f ep);
  data_out_law : forall f, class_DataOut = Some f ->
    forall x y ep, 0 <= ep < IO_USB_MAX_ENDPOINTS ->
    safe (usb_at (class_at class_inv class_ready true) x y) (f ep);
  sof_law : forall f, class_SOF = Some f ->
    forall r x y, safe (usb_at (class_at class_inv class_ready r) x y) f;
  config_desc_law : forall get, get = class_GetHSConfigDescriptor \/ get = class_GetFSConfigDescriptor \/
      get = class_GetOtherSpeedConfigDescriptor \/ get = class_GetDeviceQualifierDescriptor ->
    exists f, get = Some f /\
    forall r x y, returns (usb_at (class_at class_inv class_ready r) x y) f
      (fun d => desc_ok d /\ 2 <= zlen d.1);
  device_desc_law : exists f, GetDeviceDescriptor = Some f /\
    forall r x y speed, returns (usb_at (class_at class_inv class_ready r) x y) (f speed) desc_ok;
  string_desc_law : forall get, get = GetBOSDescriptor \/ get = GetLangIDStrDescriptor \/
      get = GetManufacturerStrDescriptor \/ get = GetProductStrDescriptor \/
      get = GetSerialStrDescriptor \/ get = GetConfigurationStrDescriptor \/
      get = GetInterfaceStrDescriptor ->
    forall f, get = Some f ->
    forall r x y speed, returns (usb_at (class_at class_inv class_ready r) x y) (f speed) desc_ok;
}.

Section safety.
Context {C : Type} `{HL : USBD_ClassLaws C} (r : bool) (x : Z) (y : Z * Z).
Abbreviation I := (usb_at (C := C) (class_at class_inv class_ready r) x y).

Lemma ctl_error_safe : safe I USBD_CtlError.
Proof. unfold USBD_CtlError. safe_auto. Qed.
Hint Resolve ctl_error_safe : safe.

Lemma at_pDesc u : I u -> pDesc (pdev u) = true.
Proof. by intros [? []]. Qed.

Lemma at_pClass u : I u -> pClass (pdev u) = true.
Proof. by intros [? []]. Qed.

Lemma with_class_safe {F A} (f : option F) g (k : F -> M (usb C) A) :
  f = Some g -> safe I (k g) -> safe I (with_class f k).
Proof.
  intros -> Hk u Hu. unfold with_class, wp. rewrite dev_run, (at_pClass u Hu).
  cbn. by apply Hk.
Qed.

Lemma class_setup_safe req : req_ok req -> safe I (class_setup req).
Proof.
  intros Hr. destruct setup_law as (f & Hf & Hs). apply (with_class_safe _ f); [done|]. by apply Hs.
Qed.

Lemma set_class_config_wp cfg u : I u ->
  wp (USBD_SetClassConfig cfg) (fun a u' => a = USBD_OK /\
    usb_at (C := C) (class_at class_inv class_ready true) x y u') u.
Proof.
  intros Hu. destruct init_law as (f & Hf & Hs).
  unfold USBD_SetClassConfig, wp. rewrite dev_run, (at_pClass u Hu), (mlift_some _ _ _ _ Hf). by apply (Hs r).
Qed.

Lemma clr_class_config_safe cfg : safe I (USBD_ClrClassConfig cfg).
Proof.
  intros u Hu. destruct deinit_law as (f & Hf & Hs).
  unfold USBD_ClrClassConfig. apply wp_bind, wp_gets. rewrite (at_pClass u Hu). apply wp_bind, wp_bind.
  apply (wp_lift _ f); [done|]. apply (safe_wp _ _ _ _ (Hs r x y cfg) Hu). intros a u' Hu'. done.
Qed.

Lemma upd_field_safe f :
  (forall d, dev_inv d -> dev_inv (f d)) ->
  (forall d, dev_state (f d) = dev_state d /\ dev_old_state (f d) = dev_old_state d /\
     dev_config (f d) = dev_config d) ->
  safe I (upd f).
Proof. intros H1 H2. apply upd_safe. intros d Hd. destruct (H2 d) as (? & ? & ?). auto. Qed.

(** Goes through the conditionals of an operation. *)
Ltac returns_ifs :=
  repeat lazymatch goal with
    | |- returns _ (if _ then _ else _) _ => apply returns_if; intro
    end.

Ltac field_safe := apply upd_field_safe; [intros ? []; constructor; done | done].

(** ** Descriptors *)

Definition found_ok (d : option (list Z * Z)) : Prop :=
  match d with Some d => desc_ok d | None => True end.

Lemma refused_returns : returns I ctl_refused found_ok.
Proof. apply returns_bind_safe; [apply ctl_error_safe|]. intros _. by apply returns_ret. Qed.

Lemma from_desc_opt_returns get :
  (forall f, get = Some f -> forall speed, returns I (f speed) desc_ok) ->
  returns I (from_desc_opt get) found_ok.
Proof.
  intros Hget u Hu. unfold from_desc_opt. apply wp_bind, wp_gets, wp_bind, wp_gets.
  rewrite (at_pDesc u Hu). destruct get as [f|] eqn:Hf.
  - apply wp_bind, (wp_mono _ _ _ _ (Hget f eq_refl _ u Hu)). by intros d u' [].
  - by apply refused_returns.
Qed.

Lemma from_desc_returns get f :
  get = Some f -> (forall speed, returns I (f speed) desc_ok) ->
  returns I (let! d := from_desc get in mret (Some d)) found_ok.
Proof.
  intros -> Hf u Hu. unfold from_desc. apply wp_bind, wp_bind, wp_gets, wp_bind, wp_gets.
  rewrite (at_pDesc u Hu). cbn. by apply Hf.
Qed.

Lemma from_class_returns get f Q :
  get = Some f -> returns I f Q -> returns I (from_class get) Q.
Proof.
  intros -> Hf u Hu. unfold from_class, with_class. apply wp_bind, wp_gets.
  rewrite (at_pClass u Hu). cbn. by apply Hf.
Qed.

Lemma config_desc_returns get :
  get = class_GetHSConfigDescriptor \/ get = class_GetFSConfigDescriptor \/
  get = class_GetOtherSpeedConfigDescriptor \/ get = class_GetDeviceQualifierDescriptor ->
  returns I (from_class get) (fun d => desc_ok d /\ 2 <= zlen d.1).
Proof.
  intros Hget. destruct (config_desc_law get Hget) as (f & Hf & Hr).
  by apply (from_class_returns get f).
Qed.

Lemma config_found get :
  get = class_GetHSConfigDescriptor \/ get = class_GetFSConfigDescriptor \/
  get = class_GetOtherSpeedConfigDescriptor \/ get = class_GetDeviceQualifierDescriptor ->
  returns I (let! d := from_class get in mret (Some d)) found_ok.
Proof.
  intros Hget. apply (returns_bind _ _ _ _ _ (config_desc_returns get Hget)).
  intros d [Hd _]. by apply returns_ret.
Qed.

Lemma string_found get :
  get = GetBOSDescriptor \/ get = GetLangIDStrDescriptor \/
  get = GetManufacturerStrDescriptor \/ get = GetProductStrDescriptor \/
  get = GetSerialStrDescriptor \/ get = GetConfigurationStrDescriptor \/
  get = GetInterfaceStrDescriptor -> returns I (from_desc_opt get) found_ok.
Proof.
  intros Hget. apply from_desc_opt_returns. intros f Hf. by apply (string_desc_law get Hget f Hf).
Qed.

Lemma string_descriptor_returns idx : returns I (string_descriptor idx) found_ok.
Proof.
  unfold string_descriptor. returns_ifs;
    try (apply string_found; tauto); [|apply refused_returns].
  by apply returns_ret.
Qed.

Hint Resolve refused_returns string_descriptor_returns : safe.

Lemma find_descriptor_returns v : returns I (find_descriptor v) found_ok.
Proof.
  unfold find_descriptor. apply returns_bind_safe; [apply dev_safe|]. intros speed.
  returns_ifs; auto with safe.
  - apply string_found. tauto.
  - destruct device_desc_law as (f & Hf & Hr). by apply (from_desc_returns _ f).
  - apply config_found. destruct (bool_decide _); tauto.
  - apply config_found. tauto.
  - apply (returns_bind _ _ _ _ _ (config_desc_returns
      class_GetOtherSpeedConfigDescriptor ltac:(tauto))). intros [b len] [Hd Hb].
    cbn in Hb. pose proof (write_at_ok b 1 [USB_DESC_TYPE_OTHER_SPEED_CONFIGURATION]) as Hw.
    change (zlen [USB_DESC_TYPE_OTHER_SPEED_CONFIGURATION]) with 1 in Hw.
    specialize (Hw ltac:(lia) ltac:(lia)). intros u Hu. apply wp_bind, (wp_lift _ _ _ _ Hw).
    split; [done|]. unfold found_ok, desc_ok in *. cbn in *. by rewrite (write_at_length _ _ _ _ Hw).
Qed.

Hint Resolve find_descriptor_returns : safe.

Lemma get_descriptor_safe req : req_ok req -> safe I (USBD_GetDescriptor req).
Proof.
  intros (_ & _ & Hl). unfold USBD_GetDescriptor.
  apply (safe_bind_val _ _ _ _ (find_descriptor_returns _)). intros [[b len]|] Hd; [|apply safe_ret].
  unfold found_ok, desc_ok in Hd. cbn in Hd. safe_auto. apply ctl_send_safe. lia.
Qed.

(** ** The requests that leave the state of the device alone *)

Lemma le_split_zlen n v : zlen (le_split n v) = Z.of_nat n.
Proof. unfold zlen. by rewrite le_split_length. Qed.

Lemma send_word_safe v n : 0 <= n <= 4 -> safe I (USBD_CtlSendData (le_split 4 v) n).
Proof. intros Hn. apply ctl_send_safe. rewrite le_split_zlen. lia. Qed.

Lemma get_config_safe req : safe I (USBD_GetConfig req).
Proof.
  unfold USBD_GetConfig. safe_auto; try (apply send_word_safe; lia). field_safe.
Qed.

Lemma get_status_safe req : safe I (USBD_GetStatus req).
Proof.
  unfold USBD_GetStatus. safe_auto; try (apply send_word_safe; lia); field_safe.
Qed.

Lemma set_feature_safe req : safe I (USBD_SetFeature req).
Proof. unfold USBD_SetFeature. safe_auto. field_safe. Qed.

Lemma clr_feature_safe req : safe I (USBD_ClrFeature req).
Proof. unfold USBD_ClrFeature. safe_auto. field_safe. Qed.

Lemma void_safe m : safe I m -> safe I (void m).
Proof. intros Hm. unfold void. by safe_auto. Qed.

Hint Resolve void_safe class_setup_safe : safe.

Lemma itf_req_safe req : req_ok req -> safe I (USBD_StdItfReq req).
Proof.
  intros Hr. unfold USBD_StdItfReq. safe_auto.
Qed.

Lemma addressed_feature_safe ep : safe I (addressed_feature ep).
Proof. unfold addressed_feature. safe_auto. Qed.

Hint Resolve addressed_feature_safe : safe.

Lemma ep_send_status_safe ep v :
  0 <= Z.land ep 0x7F < IO_USB_MAX_ENDPOINTS -> safe I (ep_send_status ep v).
Proof.
  intros Hep. unfold ep_send_status. safe_auto; [by apply ep_in_change_safe|by apply ep_out_change_safe|].
  apply send_word_safe. lia.
Qed.

Lemma land_low ep :
  0 <= ep -> Z.land ep 0x7F < IO_USB_MAX_ENDPOINTS -> 0 <= Z.land ep 0xF < IO_USB_MAX_ENDPOINTS.
Proof.
  intros Hep Hl. split; [apply Z.land_nonneg; lia|].
  assert (Z.land ep 0xF = Z.land (Z.land ep 0x7F) 0xF) as -> by (rewrite <- Z.land_assoc; done).
  change 0xF with (Z.ones 4) at 1. rewrite Z.land_ones by lia.
  assert (0 <= Z.land ep 0x7F) by (apply Z.land_nonneg; lia).
  unfold IO_USB_MAX_ENDPOINTS in *. rewrite Z.mod_small; lia.
Qed.

Lemma ep_get_status_safe ep :
  0 <= ep -> Z.land ep 0x7F < IO_USB_MAX_ENDPOINTS -> safe I (ep_get_status ep).
Proof.
  intros Hep Hl. pose proof (land_low ep Hep Hl).
  assert (0 <= Z.land ep 0x7F) by (apply Z.land_nonneg; lia).
  unfold ep_get_status. safe_auto; try (apply ep_send_status_safe; lia).
  - by apply ep_get_in_safe.
  - by apply ep_get_out_safe.
Qed.

(** The request for the status of an endpoint the device has not. *)
Definition bad_status_request (req : USBD_SetupReqTypedef) : Prop :=
  req_type req = USB_REQ_TYPE_STANDARD /\ bRequest req = USB_REQ_GET_STATUS /\
  IO_USB_MAX_ENDPOINTS <= Z.land (LOBYTE (wIndex req)) 0x7F.

Lemma ep_req_safe req :
  req_ok req -> ~ bad_status_request req -> safe I (USBD_StdEPReq req).
Proof.
  intros Hr Hb. pose proof Hr as (_ & Hi & _).
  assert (0 <= LOBYTE (wIndex req)) by (apply Z.land_nonneg; lia).
  unfold USBD_StdEPReq. safe_auto.
  - unfold ep_set_feature. apply void_safe. safe_auto.
  - unfold ep_clear_feature. safe_auto.
  - apply void_safe, ep_get_status_safe; [done|].
    destruct (Z.lt_ge_cases (Z.land (LOBYTE (wIndex req)) 0x7F) IO_USB_MAX_ENDPOINTS); [done|].
    destruct Hb. repeat split; [lia|lia|done].
Qed.
End safety.

#[export] Hint Resolve ctl_error_safe clr_class_config_safe void_safe class_setup_safe
  get_descriptor_safe get_config_safe get_status_safe set_feature_safe clr_feature_safe
  itf_req_safe ep_req_safe : safe.

(** * Strings *)

Lemma some_bind {A B} (a : A) (f : A -> option B) : (Some a ≫= f) = f a.
Proof. done. Qed.

(** The string descriptor: its length, its type and the characters on two
    bytes each. *)
Definition utf16 (s : list Z) : list Z := concat (map (fun c => [c; 0]) s).
Definition string_desc_bytes (s : list Z) : list Z :=
  [2 * zlen s + 2; USB_DESC_TYPE_STRING] ++ utf16 s.

Lemma utf16_zlen s : zlen (utf16 s) = 2 * zlen s.
Proof.
  induction s as [|c s IH]; [done|]. unfold utf16. cbn [map concat].
  rewrite zlen_app, !zlen_cons. fold (utf16 s). rewrite IH, (@zlen_nil Z). lia.
Qed.

Lemma get_len_ok s rest :
  Forall (fun c => c <> 0) s -> zlen s < 256 -> USBD_GetLen (s ++ 0 :: rest) = Some (zlen s).
Proof.
  induction 1 as [|c s Hc Hs IH]; intros Hl; [done|]. rewrite zlen_cons in Hl. pose proof (zlen_nonneg s).
  cbn [app USBD_GetLen]. destruct (Z.eqb_spec c 0); [done|]. rewrite IH by lia. cbn.
  rewrite zlen_cons. unfold w8. rewrite Z.mod_small by lia. f_equal. lia.
Qed.

(** The next character is written after [pre]. *)
Lemma getstring_loop_ok s rest pre tail :
  Forall (fun c => c <> 0) s -> 2 * zlen s <= zlen tail -> zlen pre + 2 * zlen s < 256 ->
  getstring_loop (s ++ 0 :: rest) (pre ++ tail) (zlen pre) = Some (pre ++ utf16 s ++ zdrop (2 * zlen s) tail).
Proof.
  intros Hs. revert pre tail. induction Hs as [|c s Hc Hs IH]; intros pre tail Ht Hl.
  - cbn [app getstring_loop Z.eqb]. by rewrite (@zlen_nil Z), zdrop_0.
  - rewrite zlen_cons in *. pose proof (zlen_nonneg s). pose proof (zlen_nonneg pre).
    cbn [app getstring_loop]. destruct (Z.eqb_spec c 0); [done|].
    assert (forall d : Z, forall t : list Z, 1 <= zlen t -> forall p : list Z,
      write_at (p ++ t) (zlen p) [d] = Some ((p ++ [d]) ++ zdrop 1 t)) as Hw.
    { intros d t Hlt p. pose proof (zlen_nonneg p).
      rewrite write_at_ok by (rewrite ?zlen_app, ?zlen_cons, ?(@zlen_nil Z); lia).
      rewrite ztake_app_l by done. change (zlen [d]) with 1. rewrite <- zdrop_zdrop, zdrop_app_l by (done || lia).
      by rewrite <- app_assoc. }
    rewrite Hw, some_bind by lia.
    assert (zlen (pre ++ [c]) = zlen pre + 1) as H1 by (rewrite zlen_app; done).
    replace (w8 (zlen pre + 1)) with (zlen (pre ++ [c])) by (unfold w8; rewrite Z.mod_small; lia).
    rewrite Hw, some_bind by (rewrite zlen_zdrop; lia).
    assert (zlen ((pre ++ [c]) ++ [0]) = zlen pre + 2) as H2 by (rewrite zlen_app, H1; change (zlen [0]) with 1; lia).
    replace (w8 (zlen pre + 2)) with (zlen ((pre ++ [c]) ++ [0])) by (unfold w8; rewrite Z.mod_small; lia).
    rewrite zdrop_zdrop by lia. change (1 + 1) with 2.
    rewrite IH by (rewrite ?zlen_zdrop; lia). rewrite zdrop_zdrop by lia.
    replace (2 + 2 * zlen s) with (2 * (1 + zlen s)) by lia. by rewrite <- !app_assoc.
Qed.

Lemma get_string_ok s rest buf :
  Forall (fun c => c <> 0) s -> 2 * zlen s + 2 <= zlen buf -> 2 * zlen s + 2 < 256 ->
  USBD_GetString (s ++ 0 :: rest) buf
  = Some (string_desc_bytes s ++ zdrop (2 * zlen s + 2) buf, 2 * zlen s + 2).
Proof.
  intros Hs Hb Hl. pose proof (zlen_nonneg s). unfold USBD_GetString. rewrite get_len_ok, some_bind by (done || lia). cbv zeta.
  replace (w16 (zlen s * 2 + 2)) with (2 * zlen s + 2) by (unfold w16; rewrite Z.mod_small; lia).
  replace (w8 (2 * zlen s + 2)) with (2 * zlen s + 2) by (unfold w8; rewrite Z.mod_small; lia).
  set (n := 2 * zlen s + 2) in *.
  rewrite (write_at_ok buf 0 [n]), some_bind by (rewrite ?zlen_cons, ?(@zlen_nil Z); lia).
  rewrite ztake_0. cbn [app]. change (0 + zlen [n]) with 1.
  rewrite (write_at_ok (n :: zdrop 1 buf) 1 [USB_DESC_TYPE_STRING]), some_bind
    by (rewrite ?zlen_cons, ?zlen_zdrop, ?(@zlen_nil Z); lia).
  change (1 + zlen [USB_DESC_TYPE_STRING]) with 2. change (n :: zdrop 1 buf) with ([n] ++ zdrop 1 buf).
  rewrite ztake_app_l by done. assert (zdrop 2 ([n] ++ zdrop 1 buf) = zdrop 2 buf) as ->.
  { change 2 with (1 + 1). by rewrite <- zdrop_zdrop, zdrop_app_l, zdrop_zdrop by (done || lia). }
  pose proof (getstring_loop_ok s rest [n; USB_DESC_TYPE_STRING] (zdrop 2 buf) Hs
    ltac:(rewrite zlen_zdrop; lia) ltac:(change (zlen [n; USB_DESC_TYPE_STRING]) with 2; lia)) as E.
  change (zlen [n; USB_DESC_TYPE_STRING]) with 2 in E. cbn [app] in *.
  rewrite E, some_bind, zdrop_zdrop by lia. replace (2 + 2 * zlen s) with n by lia. done.
Qed.
