(* ===== verification/UsbCore.v ===== *)
(** The core of the USB device ([usbd_core.c] under
    [src/bolos/io/sdk/lib_stusb/src/]): the events of the bus, the stages of
    the control transfers, and the theorems on the state of the device. *)

From S2P Require Import Prelude CxUtils Seph UsbDevice UsbCtlReq.

(** * Definitions *)

Section core.
Context {C : Type} `{!USBD_ClassTypeDef C, !USBD_DescriptorsTypeDef C}.
Abbreviation U := (M (usb C)).

(** A callback that may be missing. *)
Definition call_opt {F} (f : option F) (k : F -> U Z) : U Z :=
  let! linked := dev pClass in
  if linked then match f with Some f => k f | None => mret USBD_OK end else mfault.

(** The handle is not NULL; [pdesc] tells whether descriptors are given. *)
Definition USBD_Init (pdesc : bool) (id : Z) : U Z :=
  do! upd (set_pClass false) in
  do! (if pdesc then upd (set_pDesc true) else mret tt) in
  do! upd (set_dev_state USBD_STATE_DEFAULT) in
  do! upd (set_dev_id id) in
  USBD_LL_Init.

Definition USBD_DeInit : U Z :=
  do! USBD_LL_Stop in
  do! upd (set_dev_state USBD_STATE_DEFAULT) in
  let! linked := dev pClass in
  do! (if linked then
         let! config := dev dev_config in
         let! f := mlift class_DeInit in
         do! f (w8 config) in
         upd (set_pClass false)
       else mret tt) in
  do! upd (set_pDesc false) in
  USBD_LL_DeInit.

(** [pclass] tells whether a class is given. *)
Definition USBD_RegisterClass (pclass : bool) : U Z :=
  if negb pclass then mret USBD_FAIL
  else
    do! upd (set_pClass true) in
    do! match class_GetFSConfigDescriptor with
        | Some f => do! f in mret tt
        | None => mret tt
        end in
    mret USBD_OK.

Definition USBD_Start : U Z := USBD_LL_Start.
Definition USBD_Stop : U Z := do! USBD_LL_Stop in mret USBD_OK.
Definition USBD_RunTestMode : U Z := mret USBD_OK.

Definition USBD_LL_SetupStage (psetup : list Z) : U Z :=
  let! req := mlift (USBD_ParseSetupRequest psetup) in
  do! upd (set_request req) in
  do! upd (set_ep0_state USBD_EP0_SETUP) in
  do! upd (set_ep0_data_len (wLength req)) in
  let recipient := Z.land (bmRequest req) 0x1F in
  if recipient =? USB_REQ_RECIPIENT_DEVICE then USBD_StdDevReq req
  else if recipient =? USB_REQ_RECIPIENT_INTERFACE then USBD_StdItfReq req
  else if recipient =? USB_REQ_RECIPIENT_ENDPOINT then USBD_StdEPReq req
  else USBD_LL_StallEP (Z.land (bmRequest req) 0x80).

Definition USBD_LL_DataOutStage (epnum : Z) : U Z :=
  let! st := dev dev_state in
  if epnum =? 0 then
    let! pep := ep_get ep_out 0 in
    let! s := dev ep0_state in
    do! (if s =? USBD_EP0_DATA_OUT then
           if maxpacket pep <? rem_length pep then
             let left := rem_length pep - maxpacket pep in
             do! ep_out_change 0 (set_rem_length left) in
             USBD_CtlContinueRx (Z.min left (maxpacket pep))
           else
             do! (if st =? USBD_STATE_CONFIGURED then call_opt class_EP0_RxReady (fun f => f)
                  else mret USBD_OK) in
             USBD_CtlSendStatus
         else mret USBD_OK) in
    mret USBD_OK
  else if st =? USBD_STATE_CONFIGURED then call_opt class_DataOut (fun f => f epnum)
  else mret USBD_OK.

(** The end of the data stage: a zero-length packet when the host expects
    more than the whole packets it received. *)
Definition data_in_last (st : Z) (pep : USBD_EndpointTypeDef) : U Z :=
  let! expected := dev ep0_data_len in
  if (maxpacket pep =? rem_length pep) && (maxpacket pep <=? total_length pep)
     && (total_length pep <? expected) then
    do! USBD_CtlContinueSendData None 0 in
    do! upd (set_ep0_data_len 0) in
    USBD_LL_PrepareReceive 0 0
  else
    do! (if st =? USBD_STATE_CONFIGURED then call_opt class_EP0_TxSent (fun f => f)
         else mret USBD_OK) in
    USBD_CtlReceiveStatus.

Definition USBD_LL_DataInStage (epnum : Z) : U Z :=
  let! st := dev dev_state in
  if epnum =? 0 then
    let! pep := ep_get ep_in 0 in
    let! s := dev ep0_state in
    do! (if s =? USBD_EP0_DATA_IN then
           if maxpacket pep <? rem_length pep then
             let left := rem_length pep - maxpacket pep in
             do! ep_in_change 0 (set_rem_length left) in
             do! upd (fun d => set_pData (zdrop (maxpacket pep) (pData d)) d) in
             let! p := dev pData in
             do! USBD_CtlContinueSendData (Some p) left in
             USBD_LL_PrepareReceive 0 0
           else data_in_last st pep
         else mret USBD_OK) in
    mret USBD_OK
  else if st =? USBD_STATE_CONFIGURED then call_opt class_DataIn (fun f => f epnum)
  else mret USBD_OK.

Definition USBD_LL_Reset : U Z :=
  do! upd (set_dev_state USBD_STATE_DEFAULT) in
  do! upd (set_ep0_state USBD_EP0_IDLE) in
  do! upd (set_dev_config 0) in
  do! upd (set_dev_remote_wakeup 0) in
  let! data := dev pClassData in
  let! linked := dev pClass in
  let! config := dev dev_config in
  do! (if data && linked then
         match class_DeInit with Some f => f (w8 config) | None => mret USBD_OK end
       else mret USBD_OK) in
  do! USBD_LL_OpenEP 0x00 USBD_EP_TYPE_CTRL USB_MAX_EP0_SIZE in
  do! ep_out_change 0 (set_is_used 1) in
  do! ep_out_change 0 (set_maxpacket USB_MAX_EP0_SIZE) in
  do! USBD_LL_OpenEP 0x80 USBD_EP_TYPE_CTRL USB_MAX_EP0_SIZE in
  do! ep_in_change 0 (set_is_used 1) in
  do! ep_in_change 0 (set_maxpacket USB_MAX_EP0_SIZE) in
  mret USBD_OK.

Definition USBD_LL_SetSpeed (speed : USBD_SpeedTypeDef) : U Z :=
  do! upd (set_dev_speed speed) in mret USBD_OK.

Definition USBD_LL_Suspend : U Z :=
  do! upd (fun d => set_dev_old_state (dev_state d) d) in
  do! upd (set_dev_state USBD_STATE_SUSPENDED) in
  mret USBD_OK.

Definition USBD_LL_Resume : U Z :=
  let! st := dev dev_state in
  do! (if st =? USBD_STATE_SUSPENDED then upd (fun d => set_dev_state (dev_old_state d) d)
       else mret tt) in
  mret USBD_OK.

(** The callbacks of a configured device, when a class is linked. *)
Definition class_event {F} (f : option F) (k : F -> U Z) : U Z :=
  let! linked := dev pClass in
  if negb linked then mret USBD_FAIL
  else
    let! st := dev dev_state in
    do! (if st =? USBD_STATE_CONFIGURED then call_opt f k else mret USBD_OK) in
    mret USBD_OK.

Definition USBD_LL_SOF : U Z := class_event class_SOF (fun f => f).
Definition USBD_LL_IsoINIncomplete (epnum : Z) : U Z :=
  class_event class_IsoINIncomplete (fun f => f epnum).
Definition USBD_LL_IsoOUTIncomplete (epnum : Z) : U Z :=
  class_event class_IsoOUTIncomplete (fun f => f epnum).

Definition USBD_LL_DevConnected : U Z := mret USBD_OK.

Definition USBD_LL_DevDisconnected : U Z :=
  do! upd (set_dev_state USBD_STATE_DEFAULT) in
  let! linked := dev pClass in
  do! (if linked then
         let! config := dev dev_config in
         let! f := mlift class_DeInit in f (w8 config)
       else mret USBD_OK) in
  mret USBD_OK.
End core.

(** ** The events of the bus *)

Inductive usb_event :=
| EvReset
| EvSpeed (speed : USBD_SpeedTypeDef)
| EvSetup (psetup : list Z)
| EvDataIn (epnum : Z)
| EvDataOut (epnum : Z)
| EvSOF
| EvSuspend
| EvResume
| EvConnected
| EvDisconnected.

Definition usb_step {C} `{!USBD_ClassTypeDef C, !USBD_DescriptorsTypeDef C} (e : usb_event)
  : M (usb C) Z :=
  match e with
  | EvReset => USBD_LL_Reset
  | EvSpeed speed => USBD_LL_SetSpeed speed
  | EvSetup psetup => USBD_LL_SetupStage psetup
  | EvDataIn epnum => USBD_LL_DataInStage epnum
  | EvDataOut epnum => USBD_LL_DataOutStage epnum
  | EvSOF => USBD_LL_SOF
  | EvSuspend => USBD_LL_Suspend
  | EvResume => USBD_LL_Resume
  | EvConnected => USBD_LL_DevConnected
  | EvDisconnected => USBD_LL_DevDisconnected
  end.

Fixpoint usb_run {C} `{!USBD_ClassTypeDef C, !USBD_DescriptorsTypeDef C} (es : list usb_event)
  : M (usb C) unit :=
  match es with
  | [] => mret tt
  | e :: es => do! usb_step e in usb_run es
  end.

(** * The device states of chapter 9 of the USB specification *)

(** The visible device states; a suspended device remembers where from. *)
Inductive ch9_state := Default | Address | Configured | Suspended (from : ch9_state).

#[export] Instance ch9_eq_dec : EqDecision ch9_state.
Proof. solve_decision. Defined.

(** The state that [dev_state] and [dev_old_state] stand for. *)
Definition ch9_awake (x : Z) : option ch9_state :=
  if x =? USBD_STATE_DEFAULT then Some Default
  else if x =? USBD_STATE_ADDRESSED then Some Address
  else if x =? USBD_STATE_CONFIGURED then Some Configured
  else None.

Definition ch9_of (x y : Z) : option ch9_state :=
  if x =? USBD_STATE_SUSPENDED then s ← ch9_awake y; Some (Suspended s) else ch9_awake x.

(** What the requests that change the state do. A configured device refuses
    another address, and there is one configuration. *)
Definition ch9_set_address (s : ch9_state) (req : USBD_SetupReqTypedef) : ch9_state :=
  if (wIndex req =? 0) && (wLength req =? 0) && (wValue req <? 128) then
    match s with
    | Configured => Configured
    | _ => if wValue req =? 0 then Default else Address
    end
  else s.

Definition ch9_set_config (s : ch9_state) (req : USBD_SetupReqTypedef) : ch9_state :=
  match s, w8 (wValue req) with
  | Address, 1 => Configured
  | Configured, 0 => Address
  | _, _ => s
  end.

Definition ch9_setup (s : ch9_state) (req : USBD_SetupReqTypedef) : ch9_state :=
  if (Z.land (bmRequest req) 0x1F =? USB_REQ_RECIPIENT_DEVICE)
     && (req_type req =? USB_REQ_TYPE_STANDARD) then
    if bRequest req =? USB_REQ_SET_ADDRESS then ch9_set_address s req
    else if bRequest req =? USB_REQ_SET_CONFIGURATION then ch9_set_config s req
    else s
  else s.

Definition ch9_step (s : ch9_state) (e : usb_event) : ch9_state :=
  match e with
  | EvReset | EvDisconnected => Default
  | EvSetup p => match USBD_ParseSetupRequest p with Some req => ch9_setup s req | None => s end
  | EvSuspend => Suspended s
  | EvResume => match s with Suspended s => s | _ => s end
  | _ => s
  end.

(** * Proofs *)

Section device_state.
Context {C : Type} `{HL : USBD_ClassLaws C}.
Abbreviation at_xy r x y := (usb_at (C := C) (class_at class_inv class_ready r) x y).

Lemma at_eq {r} x y u : at_xy r x y u -> dev_state (pdev u) = x.
Proof. by intros []. Qed.

(** Runs a safe operation first. *)
Lemma wp_safe {r} {A B} x y (m : M (usb C) A) (k : A -> M (usb C) B) Q u :
  safe (at_xy r x y) m -> at_xy r x y u ->
  (forall a u', at_xy r x y u' -> wp (k a) Q u') -> wp (mbind m k) Q u.
Proof. intros Hm Hu Hk. by apply wp_bind, (safe_wp _ _ _ _ Hm Hu). Qed.

Lemma set_state_at {r} x y x' u :
  at_xy r x y u -> USBD_STATE_DEFAULT <= x' <= USBD_STATE_CONFIGURED ->
  (x' = USBD_STATE_CONFIGURED -> 0 < y.2) ->
  at_xy r x' y (set_pdev (set_dev_state x' (pdev u)) u).
Proof.
  unfold USBD_STATE_DEFAULT, USBD_STATE_CONFIGURED.
  intros [Hio [] Hc Hx <-] Hr Hcfg. constructor; try done. constructor; try done; cbn.
  - unfold config_ok, USBD_STATE_CONFIGURED, USBD_STATE_SUSPENDED. cbn. intros [E|[E _]]; [auto|lia].
  - unfold USBD_STATE_DEFAULT, USBD_STATE_SUSPENDED. lia.
Qed.

Lemma set_config_at {r} x y c u :
  at_xy r x y u -> (0 < c \/ x <= USBD_STATE_ADDRESSED) ->
  at_xy r x (y.1, c) (set_pdev (set_dev_config c (pdev u)) u).
Proof.
  intros [Hio [] Hc Hx <-] Hcfg. constructor; try done. constructor; try done; cbn.
  unfold config_ok, USBD_STATE_CONFIGURED, USBD_STATE_SUSPENDED, USBD_STATE_ADDRESSED in *. cbn. lia.
Qed.

Lemma set_state_wp {r} {A} x y x' (k : unit -> M (usb C) A) Q u :
  at_xy r x y u -> USBD_STATE_DEFAULT <= x' <= USBD_STATE_CONFIGURED ->
  (x' = USBD_STATE_CONFIGURED -> 0 < y.2) ->
  (forall u', at_xy r x' y u' -> wp (k tt) Q u') ->
  wp (mbind (upd (set_dev_state x')) k) Q u.
Proof. intros Hu Hr Hcfg Hk. apply wp_bind, wp_modify, Hk. by apply (set_state_at x y). Qed.

(** ** SET_ADDRESS and SET_CONFIGURATION *)

Lemma set_address_wp {r} req x y u :
  req_ok req -> at_xy r x y u ->
  wp (USBD_SetAddress req) (fun _ u' => at_xy r
    (if (wIndex req =? 0) && (wLength req =? 0) && (wValue req <? 128) then
       if x =? USBD_STATE_CONFIGURED then x
       else if wValue req =? 0 then USBD_STATE_DEFAULT else USBD_STATE_ADDRESSED
     else x) y u') u.
Proof.
  intros (Hv & _) Hu. unfold USBD_SetAddress.
  destruct ((wIndex req =? 0) && (wLength req =? 0) && (wValue req <? 128)) eqn:E;
    [|by apply ctl_error_safe].
  assert (Z.land (w8 (wValue req)) 0x7F = wValue req) as ->.
  { unfold w8. rewrite Z.mod_small by lia. change 0x7F with (Z.ones 7). rewrite Z.land_ones by lia.
    apply Z.mod_small. lia. }
  apply wp_bind, wp_gets. rewrite (at_eq _ _ _ Hu).
  destruct (Z.eqb_spec x USBD_STATE_CONFIGURED) as [->|]; [by apply ctl_error_safe|].
  apply (wp_safe (r := r) x y); [apply upd_field_safe; [intros ? []; constructor; done|done]|done|].
  intros _ u1 Hu1. apply (wp_safe (r := r) x y); [apply set_address_safe|done|]. intros _ u2 Hu2.
  apply (wp_safe (r := r) x y); [apply status_in_safe|done|]. intros _ u3 Hu3.
  apply wp_if; intros Ha; apply wp_modify.
  - destruct (Z.eqb_spec (wValue req) 0); [lia|]. by apply (set_state_at (r := r) x y).
  - destruct (Z.eqb_spec (wValue req) 0); [|lia]. by apply (set_state_at (r := r) x y).
Qed.

(** A configured device, suspended or not. *)
Definition configured (x o : Z) : Prop :=
  x = USBD_STATE_CONFIGURED \/ (x = USBD_STATE_SUSPENDED /\ o = USBD_STATE_CONFIGURED).

(** The state [x] and the old state [o], whatever the configuration: the class
    of a configured device was initialised. *)
Definition at_dev (x o : Z) (u : usb C) : Prop :=
  exists r c, at_xy r x (o, c) u /\ (configured x o -> r = true).

Lemma at_dev_intro {r} x y u : at_xy r x y u -> (configured x y.1 -> r = true) -> at_dev x y.1 u.
Proof. destruct y as [o c]. intros Hu Hc. by exists r, c. Qed.

Lemma at_dev_awake {r} x y u :
  at_xy r x y u -> x <= USBD_STATE_ADDRESSED -> at_dev x y.1 u.
Proof.
  intros Hu Hx. apply (at_dev_intro x y u Hu). unfold configured.
  unfold USBD_STATE_ADDRESSED, USBD_STATE_CONFIGURED, USBD_STATE_SUSPENDED in *. lia.
Qed.

Lemma set_config_wp {r} req x y u :
  at_xy r x y u -> (configured x y.1 -> r = true) ->
  wp (USBD_SetConfig req) (fun _ u' => at_dev
    (if (x =? USBD_STATE_ADDRESSED) && (w8 (wValue req) =? 1) then USBD_STATE_CONFIGURED
     else if (x =? USBD_STATE_CONFIGURED) && (w8 (wValue req) =? 0) then USBD_STATE_ADDRESSED
     else x) y.1 u') u.
Proof.
  intros Hu Hrd. unfold USBD_SetConfig. assert (0 <= w8 (wValue req)) as Hc by (apply Z.mod_pos_bound; lia).
  generalize dependent (w8 (wValue req)). intros c Hc. unfold USBD_MAX_NUM_CONFIGURATION.
  assert (forall r x y u (m : M (usb C) Z), at_xy r x y u -> (configured x y.1 -> r = true) ->
    safe (at_xy r x y) m -> wp m (fun _ => at_dev x y.1) u) as Hlast.
  { intros r' x' y' u' m Hu' Hc' Hm. apply (safe_wp _ _ _ _ Hm Hu'). intros _ u'' Hu''.
    by apply (at_dev_intro (r := r')). }
  assert (forall r x y u (a : Z), at_xy r x y u -> (configured x y.1 -> r = true) ->
    wp (do! USBD_CtlSendStatus in mret a) (fun _ => at_dev x y.1) u)
    as Hstatus by (intros r' ??????; apply (Hlast r'); [done..|]; by safe_auto).
  apply wp_if; intros Hc1.
  { destruct (Z.eqb_spec c 1), (Z.eqb_spec c 0); try lia. rewrite !andb_false_r.
    apply (Hlast r); [done..|]. by safe_auto. }
  apply wp_bind, wp_gets, wp_bind, wp_gets. rewrite (at_eq _ _ _ Hu).
  destruct (Z.eqb_spec x USBD_STATE_ADDRESSED) as [->|Hx1]; [|destruct (Z.eqb_spec x USBD_STATE_CONFIGURED) as [->|Hx2]].
  - change (USBD_STATE_ADDRESSED =? USBD_STATE_CONFIGURED) with false. cbn [andb].
    destruct (Z.eqb_spec c 0) as [->|Hc0]; cbn [negb]; [by apply (Hstatus r)|].
    assert (c = 1) as -> by lia. rewrite Z.eqb_refl.
    apply wp_bind, wp_modify. pose proof (set_config_at _ y 1 u Hu ltac:(lia)) as Hu1.
    apply wp_bind, (wp_mono _ _ _ _ (set_class_config_wp _ _ _ 1 _ Hu1)).
    intros a u2 [-> Hu2]. change (USBD_OK =? USBD_OK) with true. cbn [negb].
    apply wp_bind, (wp_safe (r := true) USBD_STATE_ADDRESSED (y.1, 1)); [apply status_in_safe|done|].
    intros _ u3 Hu3. apply wp_modify, wp_ret. exists true, 1. split; [|done].
    by apply (set_state_at USBD_STATE_ADDRESSED).
  - cbn [andb]. destruct (Z.eqb_spec c 0) as [->|Hc0].
    + apply (set_state_wp (r := r) USBD_STATE_CONFIGURED y); [done|done|done|]. intros u1 Hu1.
      apply wp_bind, wp_modify. pose proof (set_config_at _ y 0 u1 Hu1 ltac:(lia)) as Hu2.
      apply (wp_safe _ _ _ _ _ _ (clr_class_config_safe _ _ _ 0) Hu2). intros _ u3 Hu3.
      apply (Hstatus r USBD_STATE_ADDRESSED (y.1, 0)); [done|by intros [|[]]].
    + apply wp_if; intros Hneq; [|by apply (Hstatus r)].
      apply (wp_safe _ _ _ _ _ _ (clr_class_config_safe _ _ _ _) Hu). intros _ u1 Hu1.
      apply wp_bind, wp_modify. pose proof (set_config_at _ y c u1 Hu1 ltac:(lia)) as Hu2.
      apply wp_bind, (wp_mono _ _ _ _ (set_class_config_wp _ _ _ c _ Hu2)).
      intros a u3 [-> Hu3]. change (USBD_OK =? USBD_OK) with true. cbn [negb].
      apply wp_bind. apply (wp_safe _ _ _ _ _ _ (status_in_safe _ _ _) Hu3). intros _ u4 Hu4.
      apply wp_ret, wp_ret. by apply (at_dev_intro (r := true) _ (y.1, c)).
  - cbn [andb]. apply (Hlast r); [done..|]. by safe_auto.
Qed.

(** ** Setup packets *)

Lemma SWAPBYTE_range p i v : bytes_ok p -> SWAPBYTE p i = Some v -> 0 <= v < 65536.
Proof.
  unfold SWAPBYTE. intros Hp. destruct (p !! i) as [b1|] eqn:E1; [|done].
  destruct (p !! S i) as [b2|] eqn:E2; [|done]. intros [= <-].
  pose proof (Forall_lookup_1 _ _ _ _ Hp E1) as H1. pose proof (Forall_lookup_1 _ _ _ _ Hp E2) as H2.
  unfold is_byte in *. unfold w16. rewrite Z.mod_small by (rewrite Z.shiftl_mul_pow2; lia).
  rewrite lor_bytes by done. lia.
Qed.

Lemma parse_req_ok p req : bytes_ok p -> USBD_ParseSetupRequest p = Some req -> req_ok req.
Proof.
  unfold USBD_ParseSetupRequest. intros Hp.
  destruct (p !! 0%nat), (p !! 1%nat); try done.
  destruct (SWAPBYTE p 2) eqn:E2; [|done]. destruct (SWAPBYTE p 4) eqn:E4; [|done].
  destruct (SWAPBYTE p 6) eqn:E6; [|done]. intros [= <-].
  repeat split; cbn; eapply SWAPBYTE_range; done.
Qed.

Lemma parse_some p : 8 <= zlen p -> exists req, USBD_ParseSetupRequest p = Some req.
Proof.
  intros Hl. assert (forall i, (i < 8)%nat -> exists b, p !! i = Some b) as Hi.
  { intros i Hi. apply lookup_lt_is_Some. unfold zlen in Hl. lia. }
  unfold USBD_ParseSetupRequest, SWAPBYTE.
  destruct (Hi 0%nat) as [b0 ->]; [lia|]. destruct (Hi 1%nat) as [b1 ->]; [lia|].
  destruct (Hi 2%nat) as [b2 ->]; [lia|]. destruct (Hi 3%nat) as [b3 ->]; [lia|].
  destruct (Hi 4%nat) as [b4 ->]; [lia|]. destruct (Hi 5%nat) as [b5 ->]; [lia|].
  destruct (Hi 6%nat) as [b6 ->]; [lia|]. destruct (Hi 7%nat) as [b7 ->]; [lia|]. by eexists.
Qed.

(** The device is well formed and in the state [s] of chapter 9. *)
Definition dev_is (s : ch9_state) (u : usb C) : Prop :=
  exists x o, at_dev x o u /\ ch9_of x o = Some s.

Lemma ch9_cases x o s : ch9_of x o = Some s ->
  (x = USBD_STATE_DEFAULT /\ s = Default) \/ (x = USBD_STATE_ADDRESSED /\ s = Address) \/
  (x = USBD_STATE_CONFIGURED /\ s = Configured) \/
  (x = USBD_STATE_SUSPENDED /\ exists t, s = Suspended t /\ ch9_awake o = Some t).
Proof.
  unfold ch9_of, ch9_awake at 2. destruct (Z.eqb_spec x USBD_STATE_SUSPENDED) as [->|].
  { destruct (ch9_awake o) as [t|]; [|done]. intros [= <-]. do 3 right. split; [done|]. by exists t. }
  destruct (Z.eqb_spec x USBD_STATE_DEFAULT); [intros [= <-]; tauto|].
  destruct (Z.eqb_spec x USBD_STATE_ADDRESSED); [intros [= <-]; tauto|].
  destruct (Z.eqb_spec x USBD_STATE_CONFIGURED); [intros [= <-]; tauto|done].
Qed.

Lemma at_dev_is x o s u : at_dev x o u -> ch9_of x o = Some s -> dev_is s u.
Proof. intros Hu Hs. by exists x, o. Qed.

Lemma safe_dev_is {r} {A} x y s (m : M (usb C) A) u :
  safe (at_xy r x y) m -> at_xy r x y u -> (configured x y.1 -> r = true) ->
  ch9_of x y.1 = Some s -> wp m (fun _ => dev_is s) u.
Proof.
  intros Hm Hu Hc Hs. apply (safe_wp _ _ _ _ Hm Hu). intros _ u' Hu'. exists x, y.1.
  split; [by apply (at_dev_intro (r := r))|done].
Qed.

Lemma dev_req_refines {r} req x y s u :
  req_ok req -> at_xy r x y u -> (configured x y.1 -> r = true) -> ch9_of x y.1 = Some s ->
  wp (USBD_StdDevReq req) (fun _ => dev_is
    (if req_type req =? USB_REQ_TYPE_STANDARD then
       if bRequest req =? USB_REQ_SET_ADDRESS then ch9_set_address s req
       else if bRequest req =? USB_REQ_SET_CONFIGURATION then ch9_set_config s req
       else s
     else s)) u.
Proof.
  intros Hr Hu Hrd Hs. unfold USBD_StdDevReq.
  destruct (is_class_or_vendor (req_type req)) eqn:Ht.
  { assert ((req_type req =? USB_REQ_TYPE_STANDARD) = false) as ->.
    { unfold is_class_or_vendor, USB_REQ_TYPE_CLASS, USB_REQ_TYPE_VENDOR, USB_REQ_TYPE_STANDARD in *. lia. }
    apply (safe_dev_is (r := r) x y); auto with safe. }
  destruct (req_type req =? USB_REQ_TYPE_STANDARD); [|apply (safe_dev_is (r := r) x y); auto with safe].
  destruct (Z.eqb_spec (bRequest req) USB_REQ_GET_DESCRIPTOR) as [E|_].
  { rewrite E. apply (safe_dev_is (r := r) x y); auto with safe. }
  destruct (Z.eqb_spec (bRequest req) USB_REQ_SET_ADDRESS) as [_|_].
  { apply wp_bind, (wp_mono _ _ _ _ (set_address_wp req x y u Hr Hu)). intros _ u' Hu'.
    apply wp_ret. eapply at_dev_is; [apply (at_dev_intro (r := r) _ y u' Hu')|].
    { destruct (_ && _); [|done]. destruct (Z.eqb_spec x USBD_STATE_CONFIGURED) as [->|]; [done|].
      destruct (wValue req =? 0); by intros [|[]]. }
    unfold ch9_set_address. destruct (_ && _); [|done]. destruct (ch9_cases _ _ _ Hs) as [[-> ->]|[[-> ->]|[[-> ->]|[-> (t & -> & _)]]]];
      cbn; by destruct (wValue req =? 0). }
  destruct (Z.eqb_spec (bRequest req) USB_REQ_SET_CONFIGURATION) as [_|_].
  { apply (wp_mono _ _ _ _ (set_config_wp req x y u Hu Hrd)). intros _ u' Hu'.
    apply (at_dev_is _ _ _ _ Hu'). unfold ch9_set_config.
    destruct (ch9_cases _ _ _ Hs) as [[-> ->]|[[-> ->]|[[-> ->]|[-> (t & -> & Ht')]]]]; cbn [Z.eqb andb].
    - done.
    - destruct (Z.eqb_spec (w8 (wValue req)) 1) as [->|]; [done|]. cbn. destruct (w8 _) as [|[]|]; done.
    - change (USBD_STATE_CONFIGURED =? USBD_STATE_ADDRESSED) with false.
      change (USBD_STATE_CONFIGURED =? USBD_STATE_CONFIGURED) with true. cbn [andb].
      destruct (Z.eqb_spec (w8 (wValue req)) 0) as [->|]; [done|]. by destruct (w8 _).
    - change (USBD_STATE_SUSPENDED =? USBD_STATE_ADDRESSED) with false.
      change (USBD_STATE_SUSPENDED =? USBD_STATE_CONFIGURED) with false. cbn [andb].
      unfold ch9_of. cbn. by rewrite Ht'. }
  apply (safe_dev_is (r := r) x y); try done. safe_auto.
Qed.

(** The setup packets the device answers within its arrays. *)
Definition setup_ok (p : list Z) : Prop :=
  8 <= zlen p /\ bytes_ok p /\
  forall req, USBD_ParseSetupRequest p = Some req ->
  Z.land (bmRequest req) 0x1F = USB_REQ_RECIPIENT_ENDPOINT -> ~ bad_status_request req.

Lemma setup_refines {r} p x y s u :
  setup_ok p -> at_xy r x y u -> (configured x y.1 -> r = true) -> ch9_of x y.1 = Some s ->
  wp (USBD_LL_SetupStage p) (fun _ => dev_is (ch9_step s (EvSetup p))) u.
Proof.
  intros (Hl & Hb & Hbad) Hu Hrd Hs. destruct (parse_some p Hl) as [req Hreq].
  pose proof (parse_req_ok p req Hb Hreq) as Hr. specialize (Hbad req Hreq).
  unfold USBD_LL_SetupStage, ch9_step. rewrite Hreq.
  apply wp_bind, (wp_lift _ req); [done|].
  apply (wp_safe (r := r) x y); [apply upd_field_safe; [intros ? []; constructor; done|done]|done|].
  intros _ u1 Hu1. apply (wp_safe (r := r) x y); [|done|].
  { apply upd_safe. intros d Hd. split; [by apply ep0_state_inv|done]. }
  intros _ u2 Hu2.
  apply (wp_safe (r := r) x y); [apply upd_field_safe; [intros ? []; constructor; done|done]|done|].
  intros _ u3 Hu3. unfold ch9_setup.
  destruct (Z.eqb_spec (Z.land (bmRequest req) 0x1F) USB_REQ_RECIPIENT_DEVICE) as [E|E]; cbn [andb].
  - by apply (dev_req_refines (r := r) req x y s).
  - apply (safe_dev_is (r := r) x y); [|done..].
    destruct (_ =? USB_REQ_RECIPIENT_INTERFACE); [auto with safe|].
    destruct (Z.eqb_spec (Z.land (bmRequest req) 0x1F) USB_REQ_RECIPIENT_ENDPOINT); auto with safe.
Qed.

(** ** The other events *)

Lemma call_opt_safe {r} {F} (f : option F) (k : F -> M (usb C) Z) x y :
  (forall g, f = Some g -> safe (at_xy r x y) (k g)) -> safe (at_xy r x y) (call_opt f k).
Proof.
  intros Hk u Hu. unfold call_opt. apply wp_bind, wp_gets. rewrite (at_pClass r x y u Hu).
  destruct f as [g|]; [by apply Hk|done].
Qed.

Lemma class_event_safe {r} {F} (f : option F) (k : F -> M (usb C) Z) x y :
  (forall g, f = Some g -> safe (at_xy r x y) (k g)) -> safe (at_xy r x y) (class_event f k).
Proof. intros Hk. unfold class_event. safe_auto. by apply call_opt_safe. Qed.

Lemma tx_sent_safe {r} x y : safe (at_xy r x y) (call_opt class_EP0_TxSent (fun f => f)).
Proof. apply call_opt_safe. intros f Hf. by apply tx_sent_law. Qed.

Lemma rx_ready_safe {r} x y : safe (at_xy r x y) (call_opt class_EP0_RxReady (fun f => f)).
Proof. apply call_opt_safe. intros f Hf. by apply rx_ready_law. Qed.
Hint Resolve tx_sent_safe rx_ready_safe : safe.

(** The handle when the next packet of a transfer is sent; [e] is the control
    endpoint. *)
Definition ctl_advanced (e : USBD_EndpointTypeDef) (u : usb C) : usb C :=
  set_pdev
    (set_pData (zdrop (maxpacket e) (pData (pdev u)))
       (set_ep_in (<[0%nat := set_rem_length (rem_length e - maxpacket e) e]> (ep_in (pdev u)))
          (pdev u))) u.

Definition ctl_next (e : USBD_EndpointTypeDef) (u : usb C) : usb C :=
  usb_sent (receive_packet 0 0)
    (usb_sent (transmit_packet 0 (ztake (Z.min (rem_length e - maxpacket e) (maxpacket e))
                                    (zdrop (maxpacket e) (pData (pdev u)))))
       (ctl_advanced e u)).

Lemma data_in_next_ok e u :
  seph_ready (usb_io u) -> ep_in (pdev u) !! 0%nat = Some e ->
  ep0_state (pdev u) = USBD_EP0_DATA_IN -> 0 <= maxpacket e <= USB_MAX_EP0_SIZE ->
  maxpacket e < rem_length e <= zlen (pData (pdev u)) ->
  USBD_LL_DataInStage 0 u = Ret USBD_OK (ctl_next e u).
Proof.
  intros Hr He Hs Hm Hrem. assert (0 < length (ep_in (pdev u)))%nat as Hlen by (by apply lookup_lt_Some in He).
  unfold USBD_LL_DataInStage. rewrite dev_run. cbn [Z.eqb]. rewrite (ep_get_run ep_in 0 e) by done.
  rewrite dev_run, Hs. change (USBD_EP0_DATA_IN =? USBD_EP0_DATA_IN) with true. cbv iota.
  destruct (Z.ltb_spec (maxpacket e) (rem_length e)); [|lia].
  rewrite (mbind_ret _ _ u USBD_OK (ctl_next e u)); [done|].
  rewrite (ep_in_change_run 0 _ e) by done. rewrite upd_run, dev_run.
  set (e' := set_rem_length (rem_length e - maxpacket e) e).
  transitivity ((do! USBD_CtlContinueSendData (Some (zdrop (maxpacket e) (pData (pdev u))))
    (rem_length e - maxpacket e) in USBD_LL_PrepareReceive 0 0) (ctl_advanced e u)); [done|].
  assert (ep_in (pdev (ctl_advanced e u)) !! 0%nat = Some e') as He'.
  { cbn. by rewrite list_lookup_insert_eq. }
  rewrite (mbind_ret _ _ _ _ _ (ctl_continue_ok (Some (zdrop (maxpacket e) (pData (pdev u))))
    (rem_length e - maxpacket e) e' (ctl_advanced e u) Hr He' Hm
    ltac:(unfold pbuf_ok; cbn; rewrite zlen_zdrop; lia))).
  apply (receive_ok 0 0 (usb_sent _ (ctl_advanced e u))); [|done].
  by apply io_sent_ready.
Qed.

Lemma ctl_next_at {r} x y e u :
  at_xy r x y u -> ep_in (pdev u) !! 0%nat = Some e -> maxpacket e < rem_length e <= zlen (pData (pdev u)) ->
  at_xy r x y (ctl_next e u).
Proof.
  intros Hu He Hrem. apply usb_sent_at, usb_sent_at; [done|done|]. pose proof Hu as [Hio [] Hc Hx Hy].
  assert (0 < length (ep_in (pdev u)))%nat as Hlen by (by apply lookup_lt_Some in He).
  pose proof (Forall_lookup_1 _ _ _ _ (proj2 inv_ep_in) He) as [Hm Hrem0].
  constructor; try done. constructor; try done.
  - apply (eps_insert _ 0); [done|]. unfold ep_ok. cbn. lia.
  - intros _ e'. cbn. rewrite list_lookup_insert_eq by done. intros [= <-]. cbn.
    rewrite zlen_zdrop; lia.
Qed.

Lemma data_in_last_safe {r} x y st pep : safe (at_xy r x y) (data_in_last st pep).
Proof.
  unfold data_in_last. safe_auto. apply upd_field_safe; [intros ? []; constructor; done|done].
Qed.

(** A callback of a configured device. *)
Lemma configured_wp {r} (m : M (usb C) Z) x y u :
  at_xy r x y u -> (configured x y.1 -> r = true) ->
  (x = USBD_STATE_CONFIGURED -> at_xy true x y u -> wp m (fun _ => at_xy true x y) u) ->
  wp (let! st := dev dev_state in if st =? USBD_STATE_CONFIGURED then m else mret USBD_OK)
    (fun _ => at_xy r x y) u.
Proof.
  intros Hu Hc Hm. apply wp_bind, wp_gets. rewrite (at_eq _ _ _ Hu).
  destruct (Z.eqb_spec x USBD_STATE_CONFIGURED) as [->|]; [|done].
  assert (r = true) as -> by (by apply Hc; left). by apply Hm.
Qed.

Lemma call_opt_wp {r} {F} (f : option F) (k : F -> M (usb C) Z) x y u :
  at_xy r x y u -> (forall g, f = Some g -> wp (k g) (fun _ => at_xy r x y) u) ->
  wp (call_opt f k) (fun _ => at_xy r x y) u.
Proof.
  intros Hu Hk. unfold call_opt. apply wp_bind, wp_gets. rewrite (at_pClass r x y u Hu).
  destruct f as [g|]; [by apply Hk|done].
Qed.

Lemma data_in_safe {r} x y ep :
  0 <= ep < IO_USB_MAX_ENDPOINTS -> (configured x y.1 -> r = true) -> safe (at_xy r x y) (USBD_LL_DataInStage ep).
Proof.
  intros Hep Hrd u Hu. destruct (Z.eqb_spec ep 0) as [->|Hne].
  - destruct (ep0_in_lookup _ x y u Hu) as (e & He & Hm & Hrem0). pose proof Hu as [Hio [] Hc Hx Hy].
    destruct (Z.eqb_spec (ep0_state (pdev u)) USBD_EP0_DATA_IN) as [Hs|Hs].
    + destruct (Z.lt_ge_cases (maxpacket e) (rem_length e)) as [Hlt|Hge].
      * pose proof (inv_pending Hs e He). unfold wp. rewrite (data_in_next_ok e u) by (done || lia).
        by apply ctl_next_at.
      * unfold USBD_LL_DataInStage. apply wp_bind, wp_gets. cbn [Z.eqb]. apply wp_bind.
        unfold wp at 1. unfold ep_get. rewrite dev_run. unfold mlift. change (Z.to_nat 0) with 0%nat.
        rewrite He. apply wp_bind, wp_gets. rewrite Hs, Z.eqb_refl.
        destruct (Z.ltb_spec (maxpacket e) (rem_length e)); [lia|].
        apply (wp_safe (r := r) x y _ _ _ _ (data_in_last_safe x y _ e) Hu). by intros.
    + unfold USBD_LL_DataInStage. apply wp_bind, wp_gets. cbn [Z.eqb]. apply wp_bind.
      unfold wp at 1. unfold ep_get. rewrite dev_run. unfold mlift. change (Z.to_nat 0) with 0%nat.
      rewrite He. apply wp_bind, wp_gets.
      by destruct (Z.eqb_spec (ep0_state (pdev u)) USBD_EP0_DATA_IN).
  - unfold USBD_LL_DataInStage. destruct (Z.eqb_spec ep 0); [done|].
    apply configured_wp; [done..|]. intros -> Hu'. apply call_opt_wp; [done|].
    intros f Hf. by apply (data_in_law f Hf USBD_STATE_CONFIGURED y ep Hep).
Qed.

Lemma data_out_safe {r} x y ep :
  0 <= ep < IO_USB_MAX_ENDPOINTS -> (configured x y.1 -> r = true) ->
  safe (at_xy r x y) (USBD_LL_DataOutStage ep).
Proof.
  intros Hep Hrd. destruct (Z.eqb_spec ep 0) as [->|Hne].
  - unfold USBD_LL_DataOutStage. cbn [Z.eqb]. safe_auto.
    + by apply ep_get_out_safe.
    + apply ep_out_change_safe; [done|]. intros e [Hm _]. unfold ep_ok. cbn. lia.
    + unfold USBD_CtlContinueRx. safe_auto.
  - unfold USBD_LL_DataOutStage. destruct (Z.eqb_spec ep 0); [done|]. intros u Hu.
    apply configured_wp; [done..|]. intros -> Hu'. apply call_opt_wp; [done|].
    intros f Hf. by apply (data_out_law f Hf USBD_STATE_CONFIGURED y ep Hep).
Qed.

Lemma field_safe {r} f x y :
  (forall d, dev_inv d -> dev_inv (f d)) ->
  (forall d, dev_state (f d) = dev_state d /\ dev_old_state (f d) = dev_old_state d /\
     dev_config (f d) = dev_config d) ->
  safe (at_xy r x y) (upd f).
Proof. apply upd_field_safe. Qed.

Lemma reset_wp {r} x y u :
  at_xy r x y u -> wp USBD_LL_Reset (fun _ => at_dev USBD_STATE_DEFAULT y.1) u.
Proof.
  intros Hu. unfold USBD_LL_Reset. apply (set_state_wp (r := r) x y); [done|done|done|]. intros u1 Hu1.
  apply (wp_safe (r := r) USBD_STATE_DEFAULT y); [|done|].
  { apply upd_safe. intros d Hd. split; [by apply ep0_state_inv|done]. }
  intros _ u2 Hu2. apply wp_bind, wp_modify.
  pose proof (set_config_at (r := r) _ y 0 u2 Hu2 ltac:(unfold USBD_STATE_DEFAULT, USBD_STATE_ADDRESSED; lia)) as Hu3.
  apply (safe_wp (at_xy r USBD_STATE_DEFAULT (y.1, 0)) _ _ _); [|done|].
  2: { intros _ u' Hu'. by apply (at_dev_awake (r := r) _ (y.1, 0)). }
  destruct deinit_law as (f & Hf & Hs). safe_auto.
  - apply field_safe; [intros ? []; constructor; done|done].
  - injection Hf as ->. apply Hs.
  - by apply ep_out_change_safe.
  - apply ep_out_change_safe; [done|]. intros e [Hm Hrem]. unfold ep_ok, USB_MAX_EP0_SIZE in *. cbn. lia.
  - by apply ep_in_change_safe.
  - apply ep_in_change_safe; [done|]. intros e [Hm Hrem]. unfold ep_ok, USB_MAX_EP0_SIZE in *. cbn. lia.
Qed.

Lemma suspend_wp {r} x y s u :
  at_xy r x y u -> (configured x y.1 -> r = true) -> ch9_awake x = Some s ->
  wp USBD_LL_Suspend (fun _ => dev_is (Suspended s)) u.
Proof.
  intros Hu Hrd Hs. apply wp_bind, wp_modify, wp_bind, wp_modify, wp_ret.
  destruct Hu as [Hio [] Hc Hx <-]. exists USBD_STATE_SUSPENDED, x. split.
  - exists r, (dev_config (pdev u)). split.
    + constructor; try done; [|by cbn; rewrite Hx]. constructor; try done.
      unfold config_ok, USBD_STATE_CONFIGURED, USBD_STATE_SUSPENDED in *. cbn. lia.
    + intros [|[_ ->]]; [done|]. by apply Hrd; left.
  - unfold ch9_of. cbn. by rewrite Hs.
Qed.

Lemma resume_wp {r} x y s u :
  at_xy r x y u -> (configured x y.1 -> r = true) -> ch9_of x y.1 = Some s ->
  wp USBD_LL_Resume (fun _ => dev_is (match s with Suspended t => t | _ => s end)) u.
Proof.
  intros Hu Hrd Hs. unfold USBD_LL_Resume. apply wp_bind, wp_gets. rewrite (at_eq _ _ _ Hu).
  destruct (ch9_cases _ _ _ Hs) as [[-> ->]|[[-> ->]|[[-> ->]|[-> (t & -> & Ht)]]]];
    try (apply wp_bind, wp_ret, wp_ret; eapply at_dev_is; [by apply (at_dev_intro (r := r) _ y)|done]).
  change (USBD_STATE_SUSPENDED =? USBD_STATE_SUSPENDED) with true. cbv iota.
  apply wp_bind, wp_modify, wp_ret. destruct Hu as [Hio [] Hc Hx <-]. cbn in Ht.
  exists (dev_old_state (pdev u)), (dev_old_state (pdev u)).
  assert (USBD_STATE_DEFAULT <= dev_old_state (pdev u) < USBD_STATE_SUSPENDED) as Hold.
  { unfold ch9_awake, USBD_STATE_DEFAULT, USBD_STATE_ADDRESSED, USBD_STATE_CONFIGURED, USBD_STATE_SUSPENDED in *.
    destruct (Z.eqb_spec (dev_old_state (pdev u)) 1), (Z.eqb_spec (dev_old_state (pdev u)) 2),
      (Z.eqb_spec (dev_old_state (pdev u)) 3); (lia || done). }
  split.
  - exists r, (dev_config (pdev u)). split.
    + constructor; try done. constructor; try done; [|cbn; lia].
      unfold config_ok in *. cbn. intros [E|[E1 E2]]; auto.
    + intros E. apply Hrd. right. split; [done|]. by destruct E as [|[]].
  - unfold ch9_of. cbn. destruct (Z.eqb_spec (dev_old_state (pdev u)) USBD_STATE_SUSPENDED); [lia|done].
Qed.

Lemma disconnect_wp {r} x y u :
  at_xy r x y u -> wp USBD_LL_DevDisconnected (fun _ => dev_is Default) u.
Proof.
  intros Hu. unfold USBD_LL_DevDisconnected. apply (set_state_wp (r := r) x y); [done|done|done|].
  intros u1 Hu1. apply (safe_dev_is (r := r) USBD_STATE_DEFAULT y); [|done|by intros [|[]]|done].
  destruct deinit_law as (f & Hf & Hs). intros u2 Hu2. apply wp_bind, wp_gets.
  rewrite (at_pClass r _ _ _ Hu2). apply wp_bind, wp_bind, wp_gets, wp_bind, (wp_lift _ f); [done|].
  apply (safe_wp _ _ _ _ (Hs r USBD_STATE_DEFAULT y _) Hu2). by intros.
Qed.

(** The events the controller may send in the state [s]. *)
Definition event_ok (s : ch9_state) (e : usb_event) : Prop :=
  match e with
  | EvSetup p => setup_ok p
  | EvDataIn ep | EvDataOut ep => 0 <= ep < IO_USB_MAX_ENDPOINTS
  | EvSuspend => match s with Suspended _ => False | _ => True end
  | _ => True
  end.

Lemma step_refines e s u :
  dev_is s u -> event_ok s e -> wp (usb_step e) (fun _ => dev_is (ch9_step s e)) u.
Proof.
  intros (x & o & (r & c & Hu & Hrd) & Hs) He. destruct e; cbn [usb_step ch9_step event_ok] in *.
  - apply (wp_mono _ _ _ _ (reset_wp x (o, c) u Hu)). intros _ u' Hu'. by apply (at_dev_is _ _ _ _ Hu').
  - apply (safe_dev_is (r := r) x (o, c)); [|done..]. unfold USBD_LL_SetSpeed. safe_auto.
    apply field_safe; [intros ? []; constructor; done|done].
  - by apply (setup_refines (r := r) psetup x (o, c) s).
  - apply (safe_dev_is (r := r) x (o, c)); [by apply data_in_safe|done..].
  - apply (safe_dev_is (r := r) x (o, c)); [by apply data_out_safe|done..].
  - apply (safe_dev_is (r := r) x (o, c)); [|done..]. apply class_event_safe. intros f Hf. by apply sof_law.
  - apply (suspend_wp (r := r) x (o, c)); [done..|].
    destruct (ch9_cases _ _ _ Hs) as [[-> ->]|[[-> ->]|[[-> ->]|[-> (t & -> & _)]]]]; done.
  - by apply (resume_wp (r := r) x (o, c)).
  - apply (safe_dev_is (r := r) x (o, c)); [apply safe_ret|done..].
  - by apply (disconnect_wp (r := r) x (o, c)).
Qed.

Fixpoint events_ok (s : ch9_state) (es : list usb_event) : Prop :=
  match es with
  | [] => True
  | e :: es => event_ok s e /\ events_ok (ch9_step s e) es
  end.

(** C5: over any class that keeps its contract, the device follows the state
    machine of chapter 9 for every sequence of bus events that [events_ok]
    admits: setup packets of 8 bytes at least, transfers on the endpoints of the
    device, no request of the status of an endpoint beyond them, no suspension
    of a suspended device ([get_status_out_of_bounds] and
    [suspended_twice_stuck] show the last two otherwise). No such event leaves
    its arrays, and the well-formedness of the handle is kept. *)
Theorem usb_run_refines es s u :
  dev_is s u -> events_ok s es ->
  wp (usb_run es) (fun _ => dev_is (fold_left ch9_step es s)) u.
Proof.
  revert s u. induction es as [|e es IH]; intros s u Hu Hes; cbn [usb_run fold_left]; [done|].
  destruct Hes as [He Hes]. apply wp_bind, (wp_mono _ _ _ _ (step_refines e s u Hu He)).
  intros _ u' Hu'. by apply IH.
Qed.

(** A device suspended twice forgets the state to resume. *)
Lemma suspended_twice_stuck (u : usb C) :
  wp (do! USBD_LL_Suspend in do! USBD_LL_Suspend in USBD_LL_Resume)
    (fun _ u' => dev_state (pdev u') = USBD_STATE_SUSPENDED) u.
Proof. done. Qed.

(** An access to an endpoint the device has not. *)
Lemma ep_get_fault eps {B} i (k : USBD_EndpointTypeDef -> M (usb C) B) (u : usb C) :
  eps_ok (eps (pdev u)) -> IO_USB_MAX_ENDPOINTS <= i -> mbind (ep_get eps i) k u = Fault.
Proof.
  intros [Hl _] Hi. unfold ep_get, dev, mbind, mgets, mlift, zlen, IO_USB_MAX_ENDPOINTS in *.
  by rewrite lookup_ge_None_2 by lia.
Qed.

Lemma ep_send_status_fault ep v (u : usb C) :
  dev_inv (pdev u) -> IO_USB_MAX_ENDPOINTS <= Z.land ep 0x7F -> ep_send_status ep v u = Fault.
Proof.
  intros [] Hi. unfold ep_send_status, ep_in_change, ep_out_change. unfold mbind at 1.
  destruct (Z.land ep 0x80 =? 0x80); by rewrite ep_get_fault.
Qed.

Lemma ep_get_status_fault {r} ep y u :
  at_xy r USBD_STATE_CONFIGURED y u -> IO_USB_MAX_ENDPOINTS <= Z.land ep 0x7F ->
  (forall e, ep_in (pdev u) !! Z.to_nat (Z.land ep 0xF) = Some e -> is_used e <> 0) ->
  (forall e, ep_out (pdev u) !! Z.to_nat (Z.land ep 0xF) = Some e -> is_used e <> 0) ->
  ep_get_status ep u = Fault.
Proof.
  intros Hu Hi Hin Hout. pose proof Hu as [_ Hd _ Hx _]. unfold ep_get_status. rewrite dev_run, Hx.
  change (USBD_STATE_CONFIGURED =? USBD_STATE_ADDRESSED) with false.
  change (USBD_STATE_CONFIGURED =? USBD_STATE_CONFIGURED) with true. cbv iota.
  assert (forall e, is_used e <> 0 -> (if is_used e =? 0 then USBD_CtlError
    else if (ep =? 0) || (ep =? 128) then ep_send_status ep 0
    else let! stalled := USBD_LL_IsStallEP ep in ep_send_status ep (if negb (stalled =? 0) then 1 else 0)) u
    = Fault) as Hend.
  { intros e He. destruct (Z.eqb_spec (is_used e) 0); [done|].
    destruct (_ || _); [by apply ep_send_status_fault|].
    unfold USBD_LL_IsStallEP. unfold mbind at 1.
    destruct (bad_ep ep); [|destruct (ep_is_in ep)]; by apply ep_send_status_fault. }
  unfold mbind at 1, ep_get, dev, mbind, mgets, mlift.
  destruct (Z.land ep 0x80 =? 0x80);
    [destruct (ep_in (pdev u) !! _) as [e|] eqn:He|destruct (ep_out (pdev u) !! _) as [e|] eqn:He];
    try done; [apply (Hend e), (Hin e eq_refl)|apply (Hend e), (Hout e eq_refl)].
Qed.

(** The status of an endpoint whose low four bits name a used
    one, but not its low seven bits, is written out of the array of
    endpoints. *)
Theorem get_status_out_of_bounds {r} p req y u :
  at_xy r USBD_STATE_CONFIGURED y u -> USBD_ParseSetupRequest p = Some req ->
  Z.land (bmRequest req) 0x1F = USB_REQ_RECIPIENT_ENDPOINT -> bad_status_request req ->
  (forall e, ep_in (pdev u) !! Z.to_nat (Z.land (wIndex req) 0xF) = Some e -> is_used e <> 0) ->
  (forall e, ep_out (pdev u) !! Z.to_nat (Z.land (wIndex req) 0xF) = Some e -> is_used e <> 0) ->
  0 <= wIndex req -> USBD_LL_SetupStage p u = Fault.
Proof.
  intros Hu Hreq Hrec (Ht & Hb & Hi) Hin Hout Hnn. unfold USBD_LL_SetupStage.
  rewrite (mlift_some _ _ _ _ Hreq), !upd_run, Hrec. cbn [Z.eqb USB_REQ_RECIPIENT_DEVICE].
  change (USB_REQ_RECIPIENT_ENDPOINT =? USB_REQ_RECIPIENT_DEVICE) with false.
  change (USB_REQ_RECIPIENT_ENDPOINT =? USB_REQ_RECIPIENT_INTERFACE) with false.
  change (USB_REQ_RECIPIENT_ENDPOINT =? USB_REQ_RECIPIENT_ENDPOINT) with true. cbv iota.
  set (u1 := set_pdev _ _).
  assert (at_xy r USBD_STATE_CONFIGURED y u1) as Hu1.
  { subst u1. destruct Hu as [Hio [] Hc Hx Hy]. by constructor. }
  unfold USBD_StdEPReq. rewrite Ht, Hb. cbn [Z.eqb].
  change (is_class_or_vendor USB_REQ_TYPE_STANDARD) with false.
  change (USB_REQ_TYPE_STANDARD =? USB_REQ_TYPE_STANDARD) with true.
  change (USB_REQ_GET_STATUS =? USB_REQ_SET_FEATURE) with false.
  change (USB_REQ_GET_STATUS =? USB_REQ_CLEAR_FEATURE) with false.
  change (USB_REQ_GET_STATUS =? USB_REQ_GET_STATUS) with true. cbv iota.
  unfold void. unfold mbind at 1.
  assert (Z.land (LOBYTE (wIndex req)) 0xF = Z.land (wIndex req) 0xF) as Hlow
    by (unfold LOBYTE; rewrite <- Z.land_assoc; done).
  by rewrite (ep_get_status_fault _ y u1) by (rewrite ?Hlow; done).
Qed.
End device_state.

(** * The data stage of a control read *)

Section control_read.
Context {C : Type} `{!USBD_ClassTypeDef C, !USBD_DescriptorsTypeDef C}.
Implicit Types (u : usb C).

(** The host acknowledges [n] packets. *)
Fixpoint data_in_times (n : nat) : M (usb C) unit :=
  match n with
  | O => mret tt
  | S n => do! USBD_LL_DataInStage 0 in data_in_times n
  end.

(** What the device sends after an acknowledgement: the next packet, and it
    prepares for an early end of the transfer. *)
Definition next_packet (d : list Z) : list Z := transmit_packet 0 d ++ receive_packet 0 0.

(** A transfer under way with [k] full packets left before the last one. *)
Lemma data_in_run k u e mp :
  seph_ready (usb_io u) -> ep_in (pdev u) !! 0%nat = Some e ->
  ep0_state (pdev u) = USBD_EP0_DATA_IN -> maxpacket e = mp -> 0 < mp <= USB_MAX_EP0_SIZE ->
  rem_length e = zlen (pData (pdev u)) ->
  Z.of_nat k * mp < rem_length e <= (Z.of_nat k + 1) * mp ->
  exists u' e', data_in_times k u = Ret tt u' /\ seph_ready (usb_io u') /\
    ep_in (pdev u') !! 0%nat = Some e' /\ ep0_state (pdev u') = USBD_EP0_DATA_IN /\
    maxpacket e' = mp /\ total_length e' = total_length e /\
    rem_length e' = rem_length e - Z.of_nat k * mp /\
    ep0_data_len (pdev u') = ep0_data_len (pdev u) /\ pClass (pdev u') = pClass (pdev u) /\
    usb_out u' = usb_out u ++
      concat (map next_packet (pieces k (Z.to_nat mp) (zdrop mp (pData (pdev u))))).
Proof.
  revert u e. induction k as [|k IH]; intros u e Hr He Hs Hmp Hm Hrem Hk.
  - exists u, e. cbn [data_in_times pieces map concat]. rewrite app_nil_r.
    split_and!; (done || lia).
  - assert (0 < length (ep_in (pdev u)))%nat as Hlen by (by apply lookup_lt_Some in He).
    pose proof (data_in_next_ok e u Hr He Hs ltac:(lia) ltac:(lia)) as Hnext.
    destruct (IH (ctl_next e u) (set_rem_length (rem_length e - maxpacket e) e))
      as (u' & e' & Hrun & Hr' & He' & Hs' & Hmp' & Ht' & Hrem' & Hdl' & Hc' & Hout'); try done.
    + by apply io_sent_ready; [apply io_sent_ready|].
    + cbn. by rewrite list_lookup_insert_eq.
    + cbn. rewrite zlen_zdrop; lia.
    + cbn. lia.
    + exists u', e'. cbn [data_in_times]. rewrite (mbind_ret _ _ _ _ _ Hnext).
      split_and!; try done.
      * rewrite Hrem'. cbn [rem_length set_rem_length]. lia.
      * rewrite Hout'. cbn [pieces map concat]. unfold usb_out, ctl_next, usb_sent.
        cbn [usb_io set_usb_io]. rewrite !io_sent_out, Hmp. unfold next_packet at 2.
        rewrite <- !app_assoc. f_equal. f_equal.
        { f_equal. unfold ztake, zdrop. rewrite <- (take_ge (drop (Z.to_nat mp) (pData (pdev u)))
            (Z.to_nat (rem_length e - mp))) at 2 by (rewrite length_drop; unfold zlen in Hrem; lia).
          rewrite take_take. f_equal. lia. }
        do 2 f_equal. cbn. rewrite Hmp. done.
Qed.

(** The whole data of a transfer were sent: a zero-length packet is due or
    not. *)
Definition zlp_due (e : USBD_EndpointTypeDef) (u : usb C) : bool :=
  (maxpacket e =? rem_length e) && (maxpacket e <=? total_length e)
  && (total_length e <? ep0_data_len (pdev u)).

Lemma data_in_stage_last e u :
  ep_in (pdev u) !! 0%nat = Some e -> ep0_state (pdev u) = USBD_EP0_DATA_IN ->
  rem_length e <= maxpacket e ->
  USBD_LL_DataInStage 0 u = (do! data_in_last (dev_state (pdev u)) e in mret USBD_OK) u.
Proof.
  intros He Hs Hrem. unfold USBD_LL_DataInStage. rewrite dev_run. cbn [Z.eqb].
  rewrite (ep_get_run ep_in 0 e) by done. rewrite dev_run, Hs.
  change (USBD_EP0_DATA_IN =? USBD_EP0_DATA_IN) with true. cbv iota.
  by destruct (Z.ltb_spec (maxpacket e) (rem_length e)); [lia|].
Qed.

Lemma data_in_end_ok e u :
  seph_ready (usb_io u) -> ep_in (pdev u) !! 0%nat = Some e ->
  ep0_state (pdev u) = USBD_EP0_DATA_IN -> rem_length e <= maxpacket e -> zlp_due e u = false ->
  class_EP0_TxSent (C := C) = None -> pClass (pdev u) = true ->
  USBD_LL_DataInStage 0 u = Ret USBD_OK (status_out u).
Proof.
  intros Hr He Hs Hrem Hz Htx Hc. rewrite (data_in_stage_last e u) by done.
  unfold data_in_last. unfold mbind at 1. rewrite dev_run. unfold zlp_due in Hz. rewrite Hz.
  assert ((if dev_state (pdev u) =? USBD_STATE_CONFIGURED
    then call_opt class_EP0_TxSent (fun f => f) else mret USBD_OK) u = Ret USBD_OK u) as Hcall.
  { destruct (dev_state (pdev u) =? USBD_STATE_CONFIGURED); [|done]. unfold call_opt. rewrite dev_run, Hc. by rewrite Htx. }
  rewrite (mbind_ret _ _ _ _ _ Hcall). by rewrite (ctl_status_out_ok u Hr).
Qed.

Definition zlp_sent (u : usb C) : usb C :=
  let u1 := usb_sent (transmit_packet 0 []) u in
  usb_sent (receive_packet 0 0) (set_pdev (set_ep0_data_len 0 (pdev u1)) u1).

Lemma data_in_zlp_ok e u :
  seph_ready (usb_io u) -> ep_in (pdev u) !! 0%nat = Some e ->
  ep0_state (pdev u) = USBD_EP0_DATA_IN -> rem_length e <= maxpacket e ->
  0 < maxpacket e <= USB_MAX_EP0_SIZE -> zlp_due e u = true ->
  USBD_LL_DataInStage 0 u = Ret USBD_OK (zlp_sent u).
Proof.
  intros Hr He Hs Hrem Hm Hz. rewrite (data_in_stage_last e u) by done.
  unfold data_in_last. unfold mbind at 1. rewrite dev_run. unfold zlp_due in Hz. rewrite Hz.
  rewrite (mbind_ret _ _ _ _ _ (ctl_continue_ok None 0 e u Hr He ltac:(lia) ltac:(done))).
  rewrite Z.min_l by lia. rewrite upd_run.
  rewrite (receive_ok 0 0 (set_pdev _ (usb_sent (transmit_packet 0 []) u))); [done| |done].
  by apply io_sent_ready.
Qed.

Lemma pieces_take {A} k n (l : list A) : concat (pieces k n l) = take (k * n) l.
Proof.
  revert l. induction k as [|k IH]; intros l; [done|]. cbn [pieces concat Nat.mul].
  by rewrite IH, take_take_drop.
Qed.

Lemma data_in_times_add n m u u' :
  data_in_times n u = Ret tt u' -> data_in_times (n + m) u = data_in_times m u'.
Proof.
  revert u. induction n as [|n IH]; intros u; cbn [data_in_times Nat.add].
  - by intros [= ->].
  - unfold mbind. destruct (USBD_LL_DataInStage 0 u) as [r u1| |]; [apply IH|done|done].
Qed.

(** The last acknowledgements. *)
Lemma data_in_finish e u :
  seph_ready (usb_io u) -> ep_in (pdev u) !! 0%nat = Some e ->
  ep0_state (pdev u) = USBD_EP0_DATA_IN -> rem_length e <= maxpacket e ->
  0 < maxpacket e <= USB_MAX_EP0_SIZE -> 0 < total_length e ->
  class_EP0_TxSent (C := C) = None -> pClass (pdev u) = true ->
  exists u', data_in_times (if zlp_due e u then 2 else 1) u = Ret tt u' /\
    ep0_state (pdev u') = USBD_EP0_STATUS_OUT /\
    usb_out u' = usb_out u ++ (if zlp_due e u then next_packet [] else []) ++ receive_packet 0 0.
Proof.
  intros Hr He Hs Hrem Hm Ht Htx Hc. destruct (zlp_due e u) eqn:Hz.
  - exists (status_out (zlp_sent u)). split; [|split; [done|]].
    + cbn [data_in_times]. rewrite (mbind_ret _ _ _ _ _ (data_in_zlp_ok e u Hr He Hs Hrem Hm Hz)).
      assert (zlp_due e (zlp_sent u) = false) as Hz' by (unfold zlp_due; cbn; lia).
      assert (seph_ready (usb_io (zlp_sent u))) as Hr' by (apply io_sent_ready; [by apply io_sent_ready|done]).
      by rewrite (mbind_ret _ _ _ _ _ (data_in_end_ok e (zlp_sent u) Hr' He Hs Hrem Hz' Htx Hc)).
    + unfold usb_out, next_packet, status_out, zlp_sent, usb_sent. cbv zeta.
      cbn [usb_io set_usb_io set_pdev]. rewrite !io_sent_out. by rewrite <- !app_assoc.
  - exists (status_out u). split; [|split; [done|]]; [|done].
    cbn [data_in_times].
    by rewrite (mbind_ret _ _ _ _ _ (data_in_end_ok e u Hr He Hs Hrem Hz Htx Hc)).
Qed.

Lemma last_piece n mp k :
  0 < mp -> k * mp < n <= (k + 1) * mp -> (n mod mp =? 0) = (mp =? n - k * mp).
Proof.
  intros Hm Hk. remember (n - k * mp) as r eqn:E. assert (n = r + k * mp) as -> by lia.
  rewrite Z.mod_add by lia. assert (0 < r <= mp) as Hr by lia.
  destruct (Z.eqb_spec mp r) as [<-|]; [by rewrite Z.mod_same by lia|].
  rewrite Z.mod_small by lia. destruct (Z.eqb_spec r 0); lia.
Qed.

(** C17: a control read sends exactly the data, in packets of the size
    of the control endpoint, adds a zero-length packet when they fill whole
    packets but fall short of what the host asked, and ends in the status
    stage. *)
Theorem control_read_transfer u e data :
  seph_ready (usb_io u) -> ep_in (pdev u) !! 0%nat = Some e ->
  0 < maxpacket e <= USB_MAX_EP0_SIZE -> class_EP0_TxSent (C := C) = None ->
  pClass (pdev u) = true -> data <> [] ->
  exists u' ps,
    let zlp := (zlen data mod maxpacket e =? 0) && (zlen data <? ep0_data_len (pdev u)) in
    let sent := ps ++ (if zlp then [[]] else []) in
    concat ps = data /\ Forall (fun p => zlen p <= maxpacket e) ps /\
    (do! USBD_CtlSendData data (zlen data) in data_in_times (length sent)) u = Ret tt u' /\
    ep0_state (pdev u') = USBD_EP0_STATUS_OUT /\
    usb_out u' = usb_out u ++ transmit_packet 0 (hd [] sent) ++
      concat (map next_packet (tail sent)) ++ receive_packet 0 0.
Proof.
  intros Hr He Hm Htx Hc Hd. set (mp := maxpacket e) in *. set (n := zlen data).
  pose proof (zlen_pos data Hd) as Hn. fold n in Hn.
  set (k := Z.to_nat ((n - 1) / mp)).
  assert (Z.of_nat k = (n - 1) / mp) as Hk by (apply Z2Nat.id, Z.div_pos; lia).
  assert (Z.of_nat k * mp < n <= (Z.of_nat k + 1) * mp) as Hkn by (rewrite Hk; nia || (Z.div_mod_to_equations; nia)).
  set (ps := pieces (S k) (Z.to_nat mp) data).
  (* the transfer starts *)
  set (u1 := usb_sent (transmit_packet 0 (ztake (Z.min n mp) data)) (ctl_started data n e u)).
  assert (0 < length (ep_in (pdev u)))%nat as Hlen by (by apply lookup_lt_Some in He).
  set (e1 := set_rem_length n (set_total_length n e)).
  assert (ep_in (pdev u1) !! 0%nat = Some e1) as He1 by (cbn; by rewrite list_lookup_insert_eq).
  assert (USBD_CtlSendData data n u = Ret USBD_OK u1) as Hstart by (apply ctl_send_ok; done || lia).
  assert (seph_ready (usb_io u1)) as Hr1 by (by apply io_sent_ready).
  destruct (data_in_run k u1 e1 mp Hr1 He1 eq_refl eq_refl Hm eq_refl Hkn)
    as (u2 & e2 & Hrun & Hr2 & He2 & Hs2 & Hmp2 & Ht2 & Hrem2 & Hdl2 & Hc2 & Hout2).
  destruct (data_in_finish e2 u2) as (u3 & Hrun3 & Hs3 & Hout3); try done; try lia.
  { rewrite Hrem2, Hmp2. cbn. lia. }
  { rewrite Ht2. cbn. lia. }
  { by rewrite Hc2. }
  assert (zlp_due e2 u2 = ((n mod mp =? 0) && (n <? ep0_data_len (pdev u)))) as Hz.
  { unfold zlp_due. rewrite Hmp2, Ht2, Hrem2, Hdl2. cbn. fold n.
    rewrite (last_piece n mp (Z.of_nat k)) by lia. destruct (Z.eqb_spec mp (n - Z.of_nat k * mp)); [|done].
    cbn [andb]. destruct (Z.leb_spec mp n); [done|nia]. }
  rewrite Hz in Hrun3, Hout3.
  exists u3, ps. cbv zeta. fold mp n. split; [|split; [|split; [|split]]].
  - unfold ps. rewrite pieces_take, take_ge; [done|]. unfold zlen in n. nia.
  - unfold ps. generalize (S k) as j. intros j. clear - Hm. revert data.
    induction j as [|j IH]; intros data; cbn [pieces]; constructor; [|apply IH].
    unfold zlen. rewrite length_take. lia.
  - rewrite (mbind_ret _ _ _ _ _ Hstart), length_app. unfold ps. rewrite pieces_length.
    transitivity (data_in_times (k + (if (n mod mp =? 0) && (n <? ep0_data_len (pdev u)) then 2 else 1)) u1);
      [f_equal; destruct (_ && _); cbn; lia|].
    by rewrite (data_in_times_add _ _ _ _ Hrun).
  - done.
  - rewrite Hout3, Hout2. unfold u1, usb_out, usb_sent, ps. cbn [usb_io set_usb_io]. rewrite io_sent_out.
    cbn [pieces app hd tail]. rewrite map_app, concat_app.
    assert (ztake (Z.min n mp) data = take (Z.to_nat mp) data) as ->.
    { unfold ztake. rewrite Z2Nat.inj_min. unfold n, zlen. rewrite Nat2Z.id.
      rewrite <- take_take. apply take_ge. rewrite length_take. lia. }
    rewrite <- !app_assoc. do 3 f_equal. destruct (_ && _); [|done]. cbn [map concat].
    by rewrite app_nil_r.
Qed.
End control_read.
