(* ===== verification/LedgerHid.v ===== *)
(** The HID class of the device ([usbd_ledger_hid.c] under
    [src/bolos/io/sdk/lib_stusb/src/]): it carries the packets of the
    transport protocol of LedgerProtocol.v on two interrupt endpoints. *)

From S2P Require Import Prelude CxUtils Seph UsbDevice UsbCtlReq LedgerProtocol.

(** * Data *)

Definition LEDGER_HID_EPIN_ADDR : Z := 0x82.
Definition LEDGER_HID_EPIN_SIZE : Z := 0x40.
Definition LEDGER_HID_EPOUT_ADDR : Z := 0x02.
Definition LEDGER_HID_EPOUT_SIZE : Z := 0x40.

Definition HID_DESCRIPTOR_TYPE : Z := 0x21.
Definition HID_REPORT_DESCRIPTOR_TYPE : Z := 0x22.

Definition REQ_SET_IDLE : Z := 0x0A.
Definition REQ_GET_IDLE : Z := 0x02.
Definition REQ_SET_PROTOCOL : Z := 0x0B.
Definition REQ_GET_PROTOCOL : Z := 0x03.

Definition OS_IO_PACKET_TYPE_USB_HID_APDU : Z := 0x20.

(** [sizeof(USBD_LEDGER_io_buffer)] and
    [sizeof(USBD_LEDGER_protocol_chunk_buffer)]. *)
Definition io_buffer_size : Z := OS_IO_SEPH_BUFFER_SIZE + 1.
Definition chunk_buffer_size : Z := 0x40.

Inductive ledger_hid_state_t := LEDGER_HID_STATE_IDLE | LEDGER_HID_STATE_BUSY.

#[export] Instance hid_state_eq_dec : EqDecision ledger_hid_state_t.
Proof. solve_decision. Defined.

Record ledger_hid_handle_t := mk_hid {
  protocol : Z;
  idle_state : Z;
  alt_setting : Z;
  hid_state : ledger_hid_state_t;
  protocol_data : ledger_protocol_t;
}.

Definition set_protocol (x : Z) (h : ledger_hid_handle_t) : ledger_hid_handle_t :=
  mk_hid x (idle_state h) (alt_setting h) (hid_state h) (protocol_data h).
Definition set_idle_state (x : Z) (h : ledger_hid_handle_t) : ledger_hid_handle_t :=
  mk_hid (protocol h) x (alt_setting h) (hid_state h) (protocol_data h).
Definition set_alt_setting (x : Z) (h : ledger_hid_handle_t) : ledger_hid_handle_t :=
  mk_hid (protocol h) (idle_state h) x (hid_state h) (protocol_data h).
Definition set_hid_state (x : ledger_hid_state_t) (h : ledger_hid_handle_t) : ledger_hid_handle_t :=
  mk_hid (protocol h) (idle_state h) (alt_setting h) x (protocol_data h).
Definition set_protocol_data (x : ledger_protocol_t) (h : ledger_hid_handle_t) : ledger_hid_handle_t :=
  mk_hid (protocol h) (idle_state h) (alt_setting h) (hid_state h) x.

(** The two static buffers outlive the handle, whose fields [init] clears. *)
Definition cleared_handle (chunk io : list Z) : ledger_hid_handle_t :=
  mk_hid 0 0 0 LEDGER_HID_STATE_IDLE
    (mk_ledger_protocol 0 None 0 0 0 chunk 0 0 io 0 APDU_STATUS_WAITING 0 0 0 0 0).

(** The pointers to the buffers and their sizes. *)
Definition set_buffers (p : ledger_protocol_t) : ledger_protocol_t :=
  mk_ledger_protocol (type p) (tx_apdu_buffer p) (tx_apdu_length p) (tx_apdu_sequence_number p)
    (tx_apdu_offset p) (tx_chunk_buffer p) chunk_buffer_size (tx_chunk_length p)
    (rx_apdu_buffer p) io_buffer_size (rx_apdu_status p) (rx_apdu_sequence_number p)
    (rx_apdu_length p) (rx_apdu_offset p) chunk_buffer_size (mtu_negotiated p).

(** Static storage. *)
Definition initial_hid : ledger_hid_handle_t := cleared_handle (zeros chunk_buffer_size) (zeros io_buffer_size).

Definition LEDGER_HID_report_descriptor : list Z :=
  [0x06; 0xA0; 0xFF; 0x09; 0x01; 0xA1; 0x01;
   0x09; 0x03; 0x15; 0x00; 0x26; 0xFF; 0x00; 0x75; 0x08; 0x95; LEDGER_HID_EPIN_SIZE; 0x81; 0x08;
   0x09; 0x04; 0x15; 0x00; 0x26; 0xFF; 0x00; 0x75; 0x08; 0x95; LEDGER_HID_EPOUT_SIZE; 0x91; 0x08;
   0xC0].

Definition LEDGER_HID_descriptors : list Z :=
  [0x09; USB_DESC_TYPE_INTERFACE; 0x00; 0x00; 0x02; 0x03; 0x00; 0x00; USBD_IDX_PRODUCT_STR;
   0x09; HID_DESCRIPTOR_TYPE; 0x11; 0x01; 0x00; 0x01; HID_REPORT_DESCRIPTOR_TYPE;
   zlen LEDGER_HID_report_descriptor; 0x00;
   0x07; USB_DESC_TYPE_ENDPOINT; LEDGER_HID_EPIN_ADDR; USBD_EP_TYPE_INTR; LEDGER_HID_EPIN_SIZE; 0x00; 0x01;
   0x07; USB_DESC_TYPE_ENDPOINT; LEDGER_HID_EPOUT_ADDR; USBD_EP_TYPE_INTR; LEDGER_HID_EPOUT_SIZE; 0x00; 0x01].

(** * Operations

    The cookie is the address of the handle, [pdev] and [req] are not NULL:
    the checks of the arguments do not fire. A packet is [None] for NULL. *)
Abbreviation H := (M (usb ledger_hid_handle_t)).

Definition hid {A} (f : ledger_hid_handle_t -> A) : H A := mgets (fun u => f (usb_class u)).
Definition hid_upd (f : ledger_hid_handle_t -> ledger_hid_handle_t) : H unit :=
  mmodify (fun u => set_usb_class (f (usb_class u)) u).
(** [&handle->protocol_data]. *)
Definition hid_protocol {A} (m : M ledger_protocol_t A) : H A :=
  zoom (fun u => protocol_data (usb_class u))
    (fun p u => set_usb_class (set_protocol_data p (usb_class u)) u) m.

Definition USBD_LEDGER_HID_init : H Z :=
  do! hid_upd (fun h => cleared_handle (tx_chunk_buffer (protocol_data h)) (rx_apdu_buffer (protocol_data h))) in
  do! hid_protocol (mmodify set_buffers) in
  do! hid_protocol (LEDGER_PROTOCOL_init OS_IO_PACKET_TYPE_USB_HID_APDU) in
  do! USBD_LL_PrepareReceive LEDGER_HID_EPOUT_ADDR LEDGER_HID_EPOUT_SIZE in
  mret USBD_OK.

Definition USBD_LEDGER_HID_de_init : H Z := mret USBD_OK.
Definition USBD_LEDGER_HID_ep0_rx_ready : H Z := mret USBD_OK.

(** [USBD_CtlSendData], then [ret] is still [USBD_OK]. *)
Definition answer (d : list Z) (len : Z) : H Z := do! USBD_CtlSendData d len in mret USBD_OK.

Definition hid_standard_request (req : USBD_SetupReqTypedef) : H Z :=
  let! st := dev dev_state in
  let configured := st =? USBD_STATE_CONFIGURED in
  let r := bRequest req in
  if r =? USB_REQ_GET_STATUS then
    if configured then answer (le_split 2 0) 2 else mret USBD_FAIL
  else if r =? USB_REQ_GET_DESCRIPTOR then
    if wValue req =? Z.shiftl HID_DESCRIPTOR_TYPE 8 then
      let! len := mlift (LEDGER_HID_descriptors !! 9%nat) in
      answer (drop 9 LEDGER_HID_descriptors) (Z.min len (wLength req))
    else if wValue req =? Z.shiftl HID_REPORT_DESCRIPTOR_TYPE 8 then
      answer LEDGER_HID_report_descriptor (Z.min (zlen LEDGER_HID_report_descriptor) (wLength req))
    else mret USBD_FAIL
  else if r =? USB_REQ_GET_INTERFACE then
    if configured then let! a := hid alt_setting in answer [a] 1 else mret USBD_FAIL
  else if r =? USB_REQ_SET_INTERFACE then
    if configured then do! hid_upd (set_alt_setting (w8 (wValue req))) in mret USBD_OK
    else mret USBD_FAIL
  else if r =? USB_REQ_CLEAR_FEATURE then mret USBD_OK
  else mret USBD_FAIL.

Definition hid_class_request (req : USBD_SetupReqTypedef) : H Z :=
  let r := bRequest req in
  if r =? REQ_SET_PROTOCOL then do! hid_upd (set_protocol (w8 (wValue req))) in mret USBD_OK
  else if r =? REQ_GET_PROTOCOL then let! p := hid protocol in answer [p] 1
  else if r =? REQ_SET_IDLE then
    do! hid_upd (set_idle_state (w8 (Z.shiftr (wValue req) 8))) in mret USBD_OK
  else if r =? REQ_GET_IDLE then let! i := hid idle_state in answer [i] 1
  else mret USBD_FAIL.

Definition USBD_LEDGER_HID_setup (req : USBD_SetupReqTypedef) : H Z :=
  let request := Z.land (bmRequest req) (Z.lor USB_REQ_TYPE_MASK USB_REQ_RECIPIENT_MASK) in
  if request =? Z.lor USB_REQ_TYPE_STANDARD USB_REQ_RECIPIENT_INTERFACE then hid_standard_request req
  else if request =? Z.lor USB_REQ_TYPE_CLASS USB_REQ_RECIPIENT_INTERFACE then hid_class_request req
  else mret USBD_FAIL.

(** [USBD_LL_Transmit] of the chunk buffer. *)
Definition transmit_chunk (timeout_ms : Z) : H Z :=
  do! hid_upd (set_hid_state LEDGER_HID_STATE_BUSY) in
  let! b := hid_protocol (mgets tx_chunk_buffer) in
  USBD_LL_Transmit LEDGER_HID_EPIN_ADDR (Some b) LEDGER_HID_EPIN_SIZE timeout_ms.

Definition USBD_LEDGER_HID_data_in : H Z :=
  let! pending := hid_protocol (mgets tx_apdu_buffer) in
  do! (if bool_decide (pending = None) then mret tt
       else
         do! hid_protocol (LEDGER_PROTOCOL_tx None 0) in
         let! len := hid_protocol (mgets tx_chunk_length) in
         if 2 <=? len then do! transmit_chunk 0 in mret tt else mret tt) in
  let! pending := hid_protocol (mgets tx_apdu_buffer) in
  do! (if bool_decide (pending = None) then
         do! hid_protocol (mmodify (set_tx_chunk_length 0)) in
         hid_upd (set_hid_state LEDGER_HID_STATE_IDLE)
       else mret tt) in
  mret USBD_OK.

Definition USBD_LEDGER_HID_data_out (packet : option (list Z)) (packet_length : Z) : H Z :=
  if bool_decide (packet = None) then mret USBD_FAIL
  else
    do! hid_protocol (LEDGER_PROTOCOL_rx packet packet_length) in
    do! USBD_LL_PrepareReceive LEDGER_HID_EPOUT_ADDR LEDGER_HID_EPOUT_SIZE in
    mret USBD_OK.

Definition USBD_LEDGER_HID_send_packet (packet : option (list Z)) (packet_length timeout_ms : Z) : H Z :=
  if bool_decide (packet = None) then mret USBD_FAIL
  else
    do! hid_protocol (LEDGER_PROTOCOL_tx packet packet_length) in
    let! st := dev dev_state in
    if st =? USBD_STATE_CONFIGURED then
      let! s := hid hid_state in
      if bool_decide (s = LEDGER_HID_STATE_IDLE) then
        let! len := hid_protocol (mgets tx_chunk_length) in
        if 2 <=? len then transmit_chunk timeout_ms else mret USBD_FAIL
      else mret USBD_BUSY
    else mret USBD_FAIL.

Definition USBD_LEDGER_HID_is_busy : H Z :=
  let! s := hid hid_state in
  mret (if bool_decide (s = LEDGER_HID_STATE_BUSY) then 1 else 0).

(** The status and the caller's buffer, which is not NULL. *)
Definition USBD_LEDGER_HID_data_ready (buffer : list Z) (max_length : Z) : H (Z * list Z) :=
  let! st := hid_protocol (mgets rx_apdu_status) in
  if bool_decide (st = APDU_STATUS_COMPLETE) then
    let! len := hid_protocol (mgets rx_apdu_length) in
    let! (status, buffer) :=
      (if max_length <? len then mret (-1, buffer)
       else
         let! apdu := hid_protocol (mgets rx_apdu_buffer) in
         let! d := mlift (read_at apdu 0 len) in
         let! buffer := mlift (write_at buffer 0 d) in
         mret (len, buffer)) in
    do! hid_protocol (mmodify (set_rx_status APDU_STATUS_WAITING)) in
    mret (status, buffer)
  else mret (0, buffer).

(** * The invariant of the handle *)

(** The static buffers keep their sizes, and hold the APDU that was received;
    [init] makes the handle usable. *)
Definition hid_inv (h : ledger_hid_handle_t) : Prop :=
  zlen (tx_chunk_buffer (protocol_data h)) = chunk_buffer_size /\
  zlen (rx_apdu_buffer (protocol_data h)) = io_buffer_size /\
  (rx_apdu_status (protocol_data h) = APDU_STATUS_COMPLETE ->
   0 <= rx_apdu_length (protocol_data h) <= io_buffer_size).

Definition hid_ready (h : ledger_hid_handle_t) : Prop :=
  let p := protocol_data h in
  rx_wf p /\ tx_chunk_buffer_size p = chunk_buffer_size /\ mtu p = chunk_buffer_size /\
  rx_apdu_buffer_size p = io_buffer_size /\ type p = OS_IO_PACKET_TYPE_USB_HID_APDU /\ tx_pending_ok p.

(** A packet from the host, within its buffer, that does not announce an APDU
    of exactly the size of the buffer. *)
Definition packet_fits (packet : option (list Z)) (len : Z) : Prop :=
  forall p, packet = Some p -> 0 <= len < 65536 /\ len <= zlen p /\ ~ announces p io_buffer_size.

Lemma initial_hid_inv : hid_inv initial_hid.
Proof. done. Qed.

Lemma hid_tx_ready h : hid_ready h -> hid_inv h -> tx_ready (protocol_data h).
Proof.
  intros (_ & Hs & Hm & _) (Hc & _). unfold tx_ready. rewrite Hs, Hm, Hc.
  unfold chunk_buffer_size. lia.
Qed.

Lemma hid_apdu_fits h p :
  hid_inv h -> hid_ready h -> ~ announces p io_buffer_size -> apdu_fits (protocol_data h) p.
Proof.
  intros (_ & Hb & _) (_ & _ & _ & Hs & _) Hp total Ht Hle. rewrite Hs in Hle. rewrite Hb.
  destruct (Z.eqb_spec total io_buffer_size) as [->|]; [done|lia].
Qed.

(** The handle after an operation of the protocol. *)
Definition put_protocol (p : ledger_protocol_t) (u : usb ledger_hid_handle_t) : usb ledger_hid_handle_t :=
  set_usb_class (set_protocol_data p (usb_class u)) u.

Definition protocol_of (u : usb ledger_hid_handle_t) : ledger_protocol_t := protocol_data (usb_class u).

Lemma hid_protocol_run {A B} (m : M ledger_protocol_t A) (k : A -> H B) u a p :
  m (protocol_of u) = Ret a p -> mbind (hid_protocol m) k u = k a (put_protocol p u).
Proof. unfold protocol_of. intros E. unfold mbind, hid_protocol, zoom. by rewrite E. Qed.

Lemma hid_field_run {A B} (f : ledger_protocol_t -> A) (k : A -> H B) u :
  mbind (hid_protocol (mgets f)) k u = k (f (protocol_of u)) u.
Proof.
  rewrite (hid_protocol_run _ _ u (f (protocol_of u)) (protocol_of u)) by done.
  f_equal. unfold put_protocol, protocol_of. destruct u as [d i o io []]. done.
Qed.

Lemma hid_run {A B} (f : ledger_hid_handle_t -> A) (k : A -> H B) u :
  mbind (hid f) k u = k (f (usb_class u)) u.
Proof. done. Qed.

Lemma hid_upd_run {B} f (k : unit -> H B) u :
  mbind (hid_upd f) k u = k tt (set_usb_class (f (usb_class u)) u).
Proof. done. Qed.

(** ** What the callbacks do *)

Definition fresh_handle (h : ledger_hid_handle_t) : ledger_hid_handle_t :=
  set_protocol_data
    (set_type OS_IO_PACKET_TYPE_USB_HID_APDU (set_buffers
      (protocol_data (cleared_handle (tx_chunk_buffer (protocol_data h)) (rx_apdu_buffer (protocol_data h))))))
    (cleared_handle [] []).

Lemma fresh_handle_ready h : hid_inv h -> hid_inv (fresh_handle h) /\ hid_ready (fresh_handle h).
Proof.
  intros (Hc & Hb & _). split; [done|]. unfold hid_ready. cbn.
  split_and!; try done. constructor; cbn; rewrite ?Hc, ?Hb; unfold chunk_buffer_size, io_buffer_size,
    OS_IO_SEPH_BUFFER_SIZE; lia.
Qed.

Lemma hid_init_ok u : seph_ready (usb_io u) ->
  USBD_LEDGER_HID_init u
  = Ret USBD_OK (usb_sent (receive_packet LEDGER_HID_EPOUT_ADDR LEDGER_HID_EPOUT_SIZE)
      (set_usb_class (fresh_handle (usb_class u)) u)).
Proof.
  intros Hr. unfold USBD_LEDGER_HID_init. rewrite hid_upd_run.
  set (u1 := set_usb_class (fresh_handle (usb_class u)) u).
  transitivity ((do! USBD_LL_PrepareReceive LEDGER_HID_EPOUT_ADDR LEDGER_HID_EPOUT_SIZE in mret USBD_OK) u1);
    [done|].
  by rewrite (mbind_ret _ _ _ _ _ (receive_ok LEDGER_HID_EPOUT_ADDR LEDGER_HID_EPOUT_SIZE u1 Hr eq_refl)).
Qed.

Lemma data_out_ok p len g u :
  seph_ready (usb_io u) -> LEDGER_PROTOCOL_rx (Some p) len (protocol_of u) = Ret tt g ->
  USBD_LEDGER_HID_data_out (Some p) len u
  = Ret USBD_OK (usb_sent (receive_packet LEDGER_HID_EPOUT_ADDR LEDGER_HID_EPOUT_SIZE) (put_protocol g u)).
Proof.
  intros Hr E. unfold USBD_LEDGER_HID_data_out. rewrite (bool_decide_false (Some p = None)) by done.
  rewrite (hid_protocol_run _ _ _ _ _ E).
  by rewrite (mbind_ret _ _ _ _ _ (receive_ok LEDGER_HID_EPOUT_ADDR LEDGER_HID_EPOUT_SIZE
    (put_protocol g u) Hr eq_refl)).
Qed.

(** The packet of the chunk buffer. *)
Definition hid_packet (g : ledger_protocol_t) : list Z :=
  transmit_packet LEDGER_HID_EPIN_ADDR (ztake LEDGER_HID_EPIN_SIZE (tx_chunk_buffer g)).

Definition hid_busy (u : usb ledger_hid_handle_t) : usb ledger_hid_handle_t :=
  set_usb_class (set_hid_state LEDGER_HID_STATE_BUSY (usb_class u)) u.
Definition hid_idle (u : usb ledger_hid_handle_t) : usb ledger_hid_handle_t :=
  set_usb_class (set_hid_state LEDGER_HID_STATE_IDLE (usb_class u)) u.

Lemma transmit_chunk_ok u :
  seph_ready (usb_io u) -> LEDGER_HID_EPIN_SIZE <= zlen (tx_chunk_buffer (protocol_of u)) ->
  transmit_chunk 0 u = Ret USBD_OK (usb_sent (hid_packet (protocol_of u)) (hid_busy u)).
Proof.
  intros Hr Hl. unfold transmit_chunk. rewrite hid_upd_run, hid_field_run.
  exact (transmit_ok LEDGER_HID_EPIN_ADDR (Some (tx_chunk_buffer (protocol_of u))) LEDGER_HID_EPIN_SIZE
    (hid_busy u) Hr eq_refl ltac:(unfold pbuf_ok; cbn; unfold LEDGER_HID_EPIN_SIZE in *; lia)
    ltac:(unfold LEDGER_HID_EPIN_SIZE; lia)).
Qed.

(** The end of [data_in]. *)
Definition data_in_done (u : usb ledger_hid_handle_t) : usb ledger_hid_handle_t :=
  if bool_decide (tx_apdu_buffer (protocol_of u) = None)
  then hid_idle (put_protocol (set_tx_chunk_length 0 (protocol_of u)) u) else u.

Lemma data_in_rest_ok u :
  (let! pending := hid_protocol (mgets tx_apdu_buffer) in
   do! (if bool_decide (pending = None) then
          do! hid_protocol (mmodify (set_tx_chunk_length 0)) in
          hid_upd (set_hid_state LEDGER_HID_STATE_IDLE)
        else mret tt) in
   mret USBD_OK) u = Ret USBD_OK (data_in_done u).
Proof.
  rewrite hid_field_run. unfold data_in_done. by destruct (bool_decide _).
Qed.

Lemma data_in_idle_ok u :
  tx_apdu_buffer (protocol_of u) = None -> USBD_LEDGER_HID_data_in u = Ret USBD_OK (data_in_done u).
Proof.
  intros E. unfold USBD_LEDGER_HID_data_in. rewrite hid_field_run, E, (bool_decide_true (None = None)) by done.
  apply data_in_rest_ok.
Qed.

(** The next chunk of an APDU under way is sent. *)
Definition next_chunk (a : list Z) (u : usb ledger_hid_handle_t) : usb ledger_hid_handle_t :=
  let g := after_tx (protocol_of u) a (tx_apdu_sequence_number (protocol_of u)) (tx_apdu_offset (protocol_of u)) in
  usb_sent (hid_packet g) (hid_busy (put_protocol g u)).

Lemma after_tx_length h a k off :
  tx_ready h -> 0 <= off <= zlen a -> 2 <= tx_chunk_length (after_tx h a k off).
Proof.
  intros (Hb & Hm & Hs) Ho. unfold after_tx, tx_room.
  assert (header_end k = 5 \/ header_end k = 7) as He by (unfold header_end; destruct (k =? 0); auto).
  cbn. unfold w8. rewrite Z.mod_small; lia.
Qed.

Lemma data_in_chunk_ok a u :
  seph_ready (usb_io u) -> hid_inv (usb_class u) -> hid_ready (usb_class u) ->
  tx_apdu_buffer (protocol_of u) = Some a ->
  USBD_LEDGER_HID_data_in u = Ret USBD_OK (data_in_done (next_chunk a u)).
Proof.
  intros Hr Hi Hrd Ha. pose proof (hid_tx_ready _ Hrd Hi) as Htx. fold (protocol_of u) in Htx.
  pose proof Hrd as (Hwf & Hs & Hm & Hbs & _ & Hp). fold (protocol_of u) in Hwf, Hs, Hm, Hbs, Hp.
  destruct (Hp a Ha) as (Hl & Hlim & Hk & Ho).
  unfold USBD_LEDGER_HID_data_in. rewrite hid_field_run, Ha, (bool_decide_false (Some a = None)) by done.
  set (k := tx_apdu_sequence_number (protocol_of u)) in *. set (off := tx_apdu_offset (protocol_of u)) in *.
  pose proof (tx_next_ok (protocol_of u) a k off Htx Ha Hl Hlim eq_refl ltac:(lia) eq_refl ltac:(lia)) as E.
  pose proof (after_tx_length (protocol_of u) a k off Htx ltac:(lia)) as Hlen.
  destruct (after_tx_wf (protocol_of u) a k off Hwf Htx ltac:(lia) ltac:(lia)) as (_ & (Hc & _) & _).
  destruct (after_tx_static (protocol_of u) a k off) as (_ & Hs' & _).
  unfold next_chunk. fold k off. set (g := after_tx (protocol_of u) a k off) in *.
  rewrite (mbind_ret _ _ u tt (usb_sent (hid_packet g) (hid_busy (put_protocol g u)))).
  { apply data_in_rest_ok. }
  rewrite (hid_protocol_run _ _ _ _ _ E), hid_field_run.
  destruct (Z.leb_spec 2 (tx_chunk_length (protocol_of (put_protocol g u)))); [|by cbn in *; lia].
  rewrite (mbind_ret _ _ _ _ _ (transmit_chunk_ok (put_protocol g u) Hr
    ltac:(change (protocol_of (put_protocol g u)) with g; rewrite Hc, Hs', Hs; done))). done.
Qed.

(** ** The callbacks keep the device well formed *)

Lemma class_put_at {C} (P : C -> Prop) x y c u :
  usb_at P x y u -> P c -> usb_at P x y (set_usb_class c u).
Proof. by intros []. Qed.

Section safety.
Context (x : Z) (y : Z * Z).
Abbreviation I r := (usb_at (class_at hid_inv hid_ready r) x y).

Lemma at_ready u : I true u -> hid_inv (usb_class u) /\ hid_ready (usb_class u).
Proof. intros [_ _ [H1 H2] _ _]. auto. Qed.

Lemma hid_init_wp r u : I r u -> wp USBD_LEDGER_HID_init (fun a u' => a = USBD_OK /\ I true u') u.
Proof.
  intros Hu. pose proof Hu as [Hr _ [Hi _] _ _]. unfold wp. rewrite hid_init_ok by done.
  destruct (fresh_handle_ready _ Hi). split; [done|]. apply usb_sent_at; [done|].
  destruct Hu. constructor; done.
Qed.

Lemma after_tx_at u a :
  hid_inv (usb_class u) -> hid_ready (usb_class u) -> tx_apdu_buffer (protocol_of u) = Some a ->
  let h := usb_class (put_protocol (after_tx (protocol_of u) a (tx_apdu_sequence_number (protocol_of u))
    (tx_apdu_offset (protocol_of u))) u) in
  hid_inv h /\ hid_ready h.
Proof.
  intros Hi Hrd Ha. pose proof (hid_tx_ready _ Hrd Hi) as Htx.
  destruct Hi as (Hc & Hb & _). destruct Hrd as (Hwf & Hs & Hm & Hbs & Ht & Hp).
  change (protocol_data (usb_class u)) with (protocol_of u) in *.
  destruct (Hp a Ha) as (Hl & Hlim & Hk & Ho).
  destruct (after_tx_wf (protocol_of u) a _ _ Hwf Htx Hk ltac:(lia)) as (W & (T & _) & P).
  destruct (after_tx_static (protocol_of u) a (tx_apdu_sequence_number (protocol_of u))
    (tx_apdu_offset (protocol_of u))) as (E1 & E2 & E3 & E4 & E5).
  pose proof (wf_complete _ W) as Wc. rewrite E3, Hb in Wc.
  cbv zeta. unfold hid_inv, hid_ready. cbn [protocol_data set_protocol_data usb_class set_usb_class put_protocol].
  split_and!; congruence || done.
Qed.

Lemma data_in_done_at u : I true u -> I true (data_in_done u).
Proof.
  intros Hu. unfold data_in_done. destruct (bool_decide _) eqn:E; [|done].
  pose proof (at_ready u Hu) as [Hi (Hwf & Hs & Hm & Hbs & Ht & Hp)].
  destruct Hu. constructor; try done. split; [done|]. intros _. split_and!; try done.
  by apply set_tx_chunk_length_wf.
Qed.

Lemma hid_data_in_safe : safe (I true) USBD_LEDGER_HID_data_in.
Proof.
  intros u Hu. pose proof Hu as [Hr _ _ _ _]. pose proof (at_ready u Hu) as [Hi Hrd]. unfold wp.
  destruct (tx_apdu_buffer (protocol_of u)) as [a|] eqn:Ha.
  - rewrite (data_in_chunk_ok a) by done. apply data_in_done_at, usb_sent_at; [done|].
    destruct (after_tx_at u a Hi Hrd Ha). by apply (class_put_at _ x y _ u Hu).
  - rewrite data_in_idle_ok by done. by apply data_in_done_at.
Qed.

Lemma rx_at u g :
  hid_inv (usb_class u) -> hid_ready (usb_class u) -> rx_wf g -> rx_static g = rx_static (protocol_of u) ->
  hid_inv (usb_class (put_protocol g u)) /\ hid_ready (usb_class (put_protocol g u)).
Proof.
  intros (Hc & Hb & _) (Hwf & Hs & Hm & Hbs & Ht & Hp) Hg [= E1 E2 E3 E4 E5 E6 E7 E8 E9 E10].
  change (protocol_data (usb_class u)) with (protocol_of u) in *.
  pose proof (wf_complete _ Hg) as Wc. rewrite E5, Hb in Wc.
  unfold hid_inv, hid_ready. cbn [protocol_data set_protocol_data usb_class set_usb_class put_protocol].
  split_and!; try (congruence || done). unfold tx_pending_ok. by rewrite E7, E8, E9, E10.
Qed.

Lemma hid_data_out_safe packet len :
  packet_fits packet len -> safe (I true) (USBD_LEDGER_HID_data_out packet len).
Proof.
  intros Hp u Hu. pose proof Hu as [Hr _ _ _ _]. pose proof (at_ready u Hu) as [Hi Hrd].
  destruct packet as [p|]; [|done]. destruct (Hp p eq_refl) as (Hl & Hle & Ha).
  pose proof Hrd as (Hwf & _).
  destruct (wp_ret_inv _ _ _ (rx_wp (protocol_of u) (Some p) len Hwf Hl Hle (hid_apdu_fits _ p Hi Hrd Ha)))
    as ([] & g & E & Hg & Hst).
  unfold wp. rewrite (data_out_ok p len g u Hr E). apply usb_sent_at; [done|].
  destruct (rx_at u g Hi Hrd Hg Hst). by apply (class_put_at _ x y _ u Hu).
Qed.

Lemma hid_upd_safe r f :
  (forall h, protocol_data (f h) = protocol_data h) -> safe (I r) (hid_upd f).
Proof.
  intros Hf. apply safe_modify. intros u Hu. apply class_put_at; [done|]. destruct Hu as [_ _ [H1 H2] _ _].
  unfold class_at, hid_inv, hid_ready in *. by rewrite !Hf.
Qed.

Lemma answer_safe r d len : 0 <= len <= zlen d -> safe (I r) (answer d len).
Proof. intros Hl. unfold answer. safe_auto. by apply ctl_send_safe. Qed.

Lemma hid_safe r {A} (f : ledger_hid_handle_t -> A) : safe (I r) (hid f).
Proof. apply safe_gets. Qed.

Lemma hid_descriptor_safe r n :
  0 <= n ->
  safe (I r) (let! len := mlift (LEDGER_HID_descriptors !! 9%nat) in
              answer (drop 9 LEDGER_HID_descriptors) (Z.min len n)).
Proof.
  intros Hn u Hu. apply wp_bind, (wp_lift _ 9); [done|]. apply (answer_safe r); [|done].
  change (zlen (drop 9 LEDGER_HID_descriptors)) with 23. lia.
Qed.

Lemma hid_data_ready_returns r buffer max_length :
  max_length <= zlen buffer ->
  returns (I r) (USBD_LEDGER_HID_data_ready buffer max_length) (fun p => zlen p.2 = zlen buffer).
Proof.
  intros Hmax u Hu. pose proof Hu as [Hr _ [(Hc & Hb & Hl) Hrd] _ _].
  change (protocol_data (usb_class u)) with (protocol_of u) in *.
  unfold USBD_LEDGER_HID_data_ready, wp. rewrite hid_field_run. destruct (bool_decide _) eqn:E; [|done].
  apply bool_decide_eq_true in E. specialize (Hl E). rewrite hid_field_run.
  assert (forall b a, I r (put_protocol (set_rx_status APDU_STATUS_WAITING (protocol_of u)) u) /\
    (zlen b = zlen buffer -> zlen (a : Z, b : list Z).2 = zlen buffer)) as Hend.
  { intros b a. split; [|done]. apply (class_put_at _ x y _ u Hu). split; [done|]. intros ->.
    destruct (Hrd eq_refl) as (Hwf & ?). split; [by apply set_rx_status_wf|]. done. }
  destruct (Z.ltb_spec max_length (rx_apdu_length (protocol_of u))).
  { by destruct (Hend buffer (-1)) as [H1 H2]. }
  assert (read_at (rx_apdu_buffer (protocol_of u)) 0 (rx_apdu_length (protocol_of u))
    = Some (ztake (rx_apdu_length (protocol_of u)) (rx_apdu_buffer (protocol_of u)))) as E1
    by (rewrite read_at_ok by lia; by rewrite zdrop_0).
  assert (zlen (ztake (rx_apdu_length (protocol_of u)) (rx_apdu_buffer (protocol_of u)))
    = rx_apdu_length (protocol_of u)) as Hz by (apply zlen_ztake; lia).
  destruct (write_at buffer 0 (ztake (rx_apdu_length (protocol_of u)) (rx_apdu_buffer (protocol_of u))))
    as [b|] eqn:E2; [|rewrite write_at_ok in E2; [done|lia|lia]].
  rewrite (mbind_ret _ _ u (rx_apdu_length (protocol_of u), b) u).
  - destruct (Hend b (rx_apdu_length (protocol_of u))) as [H1 H2]. split; [exact H1|].
    apply H2. by apply write_at_length in E2.
  - by rewrite hid_field_run, (mlift_some _ _ _ _ E1), (mlift_some _ _ _ _ E2).
Qed.

Ltac hid_step :=
  lazymatch goal with
  | |- safe _ (if _ then _ else _) => apply safe_if; intro
  | |- safe _ (mret _) => apply safe_ret
  | |- safe _ (answer _ _) => apply answer_safe; rewrite ?le_split_zlen, ?zlen_cons, ?(@zlen_nil Z); lia
  | |- safe _ (mbind (mlift _) _) => apply hid_descriptor_safe; lia
  | |- safe _ (mbind (dev _) _) => apply safe_bind; [apply dev_safe|intro]
  | |- safe _ (mbind (hid _) _) => apply safe_bind; [apply hid_safe|intro]
  | |- safe _ (mbind (hid_upd _) _) => apply safe_bind; [by apply hid_upd_safe|intro]
  end.

Lemma hid_setup_safe r req : req_ok req -> safe (I r) (USBD_LEDGER_HID_setup req).
Proof.
  intros (_ & _ & Hl). pose proof (zlen_nonneg LEDGER_HID_report_descriptor).
  unfold USBD_LEDGER_HID_setup, hid_standard_request, hid_class_request. repeat hid_step.
Qed.
End safety.

(** * Whole APDUs *)

(** The packets of the host, and its acknowledgements. *)
Fixpoint hid_packets (ps : list (list Z)) : H unit :=
  match ps with
  | [] => mret tt
  | p :: ps => do! USBD_LEDGER_HID_data_out (Some p) (zlen p) in hid_packets ps
  end.

Fixpoint hid_acks (n : nat) : H unit :=
  match n with
  | O => mret tt
  | S n => do! USBD_LEDGER_HID_data_in in hid_acks n
  end.

Lemma put_protocol_put g g' u : put_protocol g' (put_protocol g u) = put_protocol g' u.
Proof. done. Qed.

Lemma hid_packets_ok ps g u :
  seph_ready (usb_io u) -> receive ps (protocol_of u) = Ret tt g ->
  exists u', hid_packets ps u = Ret tt u' /\ protocol_of u' = g /\ seph_ready (usb_io u') /\
    usb_out u' = usb_out u ++
      concat (map (fun _ => receive_packet LEDGER_HID_EPOUT_ADDR LEDGER_HID_EPOUT_SIZE) ps).
Proof.
  revert u. induction ps as [|p ps IH]; intros u Hr E; cbn [hid_packets receive map concat] in *.
  - injection E as <-. exists u. by rewrite app_nil_r.
  - unfold mbind in E at 1.
    destruct (LEDGER_PROTOCOL_rx (Some p) (zlen p) (protocol_of u)) as [[] g1| |] eqn:E1; [|done|done].
    rewrite (mbind_ret _ _ _ _ _ (data_out_ok p (zlen p) g1 u Hr E1)).
    destruct (IH (usb_sent (receive_packet LEDGER_HID_EPOUT_ADDR LEDGER_HID_EPOUT_SIZE) (put_protocol g1 u)))
      as (u' & H1 & H2 & H3 & H4); [by apply io_sent_ready|done|].
    exists u'. split_and!; try done. rewrite H4. unfold usb_out, usb_sent. cbn [usb_io set_usb_io].
    rewrite io_sent_out. by rewrite <- app_assoc.
Qed.

Lemma data_ready_ok a buffer max_length u :
  received (protocol_of u) a -> type (protocol_of u) = OS_IO_PACKET_TYPE_USB_HID_APDU ->
  max_length <= zlen buffer ->
  USBD_LEDGER_HID_data_ready buffer max_length u
  = Ret (if max_length <? 1 + zlen a then (-1, buffer)
         else (1 + zlen a, OS_IO_PACKET_TYPE_USB_HID_APDU :: a ++ zdrop (1 + zlen a) buffer))
      (put_protocol (set_rx_status APDU_STATUS_WAITING (protocol_of u)) u).
Proof.
  intros (Hs & Hl & _ & rest & Hb & _) Ht Hmax. pose proof (zlen_nonneg a).
  unfold USBD_LEDGER_HID_data_ready. rewrite hid_field_run, Hs.
  change (bool_decide (APDU_STATUS_COMPLETE = APDU_STATUS_COMPLETE)) with true. cbv iota.
  rewrite hid_field_run, Hl. destruct (Z.ltb_spec max_length (1 + zlen a)); [done|].
  rewrite ztake_all, Ht in Hb by lia.
  assert (read_at (rx_apdu_buffer (protocol_of u)) 0 (1 + zlen a)
    = Some (OS_IO_PACKET_TYPE_USB_HID_APDU :: a)) as Hrd.
  { rewrite Hb, read_at_ok by (rewrite ?zlen_cons, ?zlen_app; pose proof (zlen_nonneg rest); lia).
    rewrite zdrop_0, app_comm_cons. f_equal. apply ztake_app_l. by rewrite zlen_cons. }
  assert (write_at buffer 0 (OS_IO_PACKET_TYPE_USB_HID_APDU :: a)
    = Some (OS_IO_PACKET_TYPE_USB_HID_APDU :: a ++ zdrop (1 + zlen a) buffer)) as Hw.
  { rewrite write_at_ok by (rewrite ?zlen_cons; lia). by rewrite ztake_0, zlen_cons. }
  rewrite (mbind_ret _ _ u (1 + zlen a, OS_IO_PACKET_TYPE_USB_HID_APDU :: a ++ zdrop (1 + zlen a) buffer) u);
    [done|].
  by rewrite hid_field_run, (mlift_some _ _ _ _ Hrd), (mlift_some _ _ _ _ Hw).
Qed.

(** C20: an APDU that a host sends in packets is handed out in one
    piece, after its type, whatever its length up to what the buffer holds; a
    caller with too small a buffer gets -1 and the APDU is dropped. The device
    prepares for one more packet after each one. *)
Theorem hid_receives_apdu u (h : ledger_protocol_t) (a buffer : list Z) (max_length : Z) :
  seph_ready (usb_io u) -> hid_inv (usb_class u) -> hid_ready (usb_class u) ->
  rx_apdu_sequence_number (protocol_of u) = 0 -> tx_ready h ->
  1 + zlen a <= io_buffer_size -> max_length <= zlen buffer ->
  exists ps h' u', send a h = Ret ps h' /\
    (do! hid_packets ps in USBD_LEDGER_HID_data_ready buffer max_length) u
    = Ret (if max_length <? 1 + zlen a then (-1, buffer)
           else (1 + zlen a, OS_IO_PACKET_TYPE_USB_HID_APDU :: a ++ zdrop (1 + zlen a) buffer)) u' /\
    rx_apdu_status (protocol_of u') = APDU_STATUS_WAITING /\
    rx_apdu_sequence_number (protocol_of u') = 0 /\
    usb_out u' = usb_out u ++
      concat (map (fun _ => receive_packet LEDGER_HID_EPOUT_ADDR LEDGER_HID_EPOUT_SIZE) ps).
Proof.
  intros Hr (Hc & Hb & _) (Hwf & Hs & Hm & Hbs & Ht & _) Hseq Hh Ha Hmax. pose proof (zlen_nonneg a).
  change (protocol_data (usb_class u)) with (protocol_of u) in *.
  unfold io_buffer_size, OS_IO_SEPH_BUFFER_SIZE, chunk_buffer_size in *.
  destruct (send_rest_ok a (S (length a)) (set_tx_apdu (Some a) (zlen a) 0 0 h) (protocol_of u) 0 0)
    as (ps & h' & g & E1 & E2 & _ & Hrec & Hty & _); try done; try (unfold zlen in *; lia).
  { split; [split_and!; lia|]. split; [done|]. split; [done|]. by intros []. }
  destruct (hid_packets_ok ps g u Hr E2) as (u' & F1 & F2 & F3 & F4).
  exists ps, h', (put_protocol (set_rx_status APDU_STATUS_WAITING (protocol_of u')) u').
  split; [exact E1|]. rewrite (mbind_ret _ _ _ _ _ F1).
  rewrite (data_ready_ok a) by (rewrite ?F2; congruence || done).
  split; [done|]. split; [done|]. split; [|done]. change (rx_apdu_sequence_number (protocol_of u') = 0).
  rewrite F2. by destruct Hrec as (_ & _ & -> & _).
Qed.

(** ** Sending *)

(** What the sending relies on. *)
Definition sender (u : usb ledger_hid_handle_t) : Prop :=
  seph_ready (usb_io u) /\ hid_inv (usb_class u) /\ hid_ready (usb_class u).

Definition hid_out (ps : list (list Z)) : list Z := concat (map (transmit_packet LEDGER_HID_EPIN_ADDR) ps).

Lemma packet_run g : packet g = Ret (ztake (mtu g) (tx_chunk_buffer g)) g.
Proof. done. Qed.

(** One acknowledgement in the middle of an APDU: the next packet of
    [send_rest] is sent. *)
Lemma ack_ok a u :
  sender u -> tx_apdu_buffer (protocol_of u) = Some a ->
  exists u', USBD_LEDGER_HID_data_in u = Ret USBD_OK u' /\ sender u' /\
    usb_out u' = usb_out u ++ hid_packet (protocol_of (next_chunk a u)) /\
    (tx_apdu_buffer (protocol_of (next_chunk a u)) = None -> tx_apdu_buffer (protocol_of u') = None) /\
    (tx_apdu_buffer (protocol_of (next_chunk a u)) <> None -> u' = next_chunk a u).
Proof.
  intros (Hr & Hi & Hrd) Ha. exists (data_in_done (next_chunk a u)).
  split; [by apply data_in_chunk_ok|]. destruct (after_tx_at u a Hi Hrd Ha) as [Hi' Hrd'].
  assert (sender (next_chunk a u)) as Hs by (split; [by apply io_sent_ready|done]).
  unfold data_in_done. destruct (bool_decide _) eqn:E.
  - apply bool_decide_eq_true in E. split; [|by split_and!].
    destruct Hs as (H1 & H2 & (H3 & H4)). split; [done|]. split; [done|].
    split; [by apply set_tx_chunk_length_wf|]. done.
  - apply bool_decide_eq_false in E. by split_and!.
Qed.

Lemma hid_acks_ok fuel u ps g :
  sender u -> send_rest fuel (protocol_of u) = Ret ps g ->
  exists u', hid_acks (length ps) u = Ret tt u' /\ sender u' /\
    tx_apdu_buffer (protocol_of u') = None /\ usb_out u' = usb_out u ++ hid_out ps.
Proof.
  revert u ps. induction fuel as [|fuel IH]; intros u ps Hu E; cbn [send_rest] in E;
    unfold mbind at 1, mgets at 1 in E; destruct (tx_apdu_buffer (protocol_of u)) as [a|] eqn:Ha;
    try done; try (injection E as <- <-; exists u; split_and!; try done; by rewrite app_nil_r).
  destruct (ack_ok a u Hu Ha) as (u1 & H1 & Hs1 & Hout & Hend & Hmid).
  pose proof Hu as (Hr & Hi & Hrd). pose proof (hid_tx_ready _ Hrd Hi) as Htx.
  pose proof Hrd as (Hwf & Hsz & Hm & _ & _ & Hp).
  change (protocol_data (usb_class u)) with (protocol_of u) in *.
  destruct (Hp a Ha) as (Hl & Hlim & Hk & Ho).
  rewrite (mbind_ret _ _ _ _ _ (tx_next_ok (protocol_of u) a _ _ Htx Ha Hl Hlim eq_refl ltac:(lia)
    eq_refl ltac:(lia))) in E.
  change (after_tx (protocol_of u) a _ _) with (protocol_of (next_chunk a u)) in E.
  rewrite (mbind_ret _ _ _ _ _ (packet_run _)) in E.
  assert (mtu (protocol_of (next_chunk a u)) = LEDGER_HID_EPIN_SIZE) as Hmtu.
  { destruct (after_tx_static (protocol_of u) a (tx_apdu_sequence_number (protocol_of u))
      (tx_apdu_offset (protocol_of u))) as (_ & _ & _ & _ & E5).
    change (mtu (protocol_of (next_chunk a u)) = mtu (protocol_of u)) in E5. by rewrite E5, Hm. }
  rewrite Hmtu in E. unfold mbind in E.
  destruct (send_rest fuel (protocol_of (next_chunk a u))) as [ps' g'| |] eqn:Er; [|done|done].
  injection E as <- <-. cbn [length hid_acks]. rewrite (mbind_ret _ _ _ _ _ H1).
  assert (exists u', hid_acks (length ps') u1 = Ret tt u' /\ sender u' /\
    tx_apdu_buffer (protocol_of u') = None /\ usb_out u' = usb_out u1 ++ hid_out ps')
    as (u' & F1 & F2 & F3 & F4).
  { destruct (tx_apdu_buffer (protocol_of (next_chunk a u))) as [b|] eqn:Hb.
    - rewrite <- (Hmid ltac:(done)) in Er. by apply IH.
    - assert (ps' = []) as -> by (destruct fuel; cbn [send_rest] in Er; unfold mbind, mgets in Er;
        rewrite Hb in Er; by injection Er).
      exists u1. split_and!; try done; [by apply Hend|]. by rewrite app_nil_r. }
  exists u'. split_and!; try done. rewrite F4, Hout, <- app_assoc. done.
Qed.

(** The first packet of an APDU. *)
Definition first_chunk (a : list Z) (u : usb ledger_hid_handle_t) : ledger_protocol_t :=
  after_tx (set_tx_apdu (Some a) (zlen a) 0 0 (protocol_of u)) a 0 0.

Lemma tx_first_ok a u :
  sender u -> zlen a < 65535 ->
  LEDGER_PROTOCOL_tx (Some a) (zlen a) (protocol_of u) = Ret tt (first_chunk a u) /\
  hid_inv (usb_class (put_protocol (first_chunk a u) u)) /\
  hid_ready (usb_class (put_protocol (first_chunk a u) u)) /\
  2 <= tx_chunk_length (first_chunk a u).
Proof.
  intros (Hr & Hi & Hrd) Ha. pose proof (zlen_nonneg a).
  pose proof (hid_tx_ready _ Hrd Hi) as Htx. destruct Hi as (Hc & Hb & _).
  destruct Hrd as (Hwf & Hs & Hm & Hbs & Hty & _).
  change (protocol_data (usb_class u)) with (protocol_of u) in *.
  set (h0 := set_tx_apdu (Some a) (zlen a) 0 0 (protocol_of u)).
  assert (rx_wf h0) as Hwf0 by (by apply (rx_wf_frame (protocol_of u))).
  destruct (after_tx_wf h0 a 0 0 Hwf0 Htx ltac:(lia) ltac:(lia)) as (W & (T & _) & P).
  destruct (after_tx_static h0 a 0 0) as (E1 & E2 & E3 & E4 & E5).
  split.
  - change (LEDGER_PROTOCOL_tx (Some a) (zlen a) (protocol_of u)) with (LEDGER_PROTOCOL_tx None 0 h0).
    apply tx_next_ok; (done || lia).
  - unfold hid_inv, hid_ready, first_chunk. fold h0.
    cbn [protocol_data set_protocol_data usb_class set_usb_class put_protocol].
    assert (2 <= tx_chunk_length (after_tx h0 a 0 0)) by (apply after_tx_length; [done|lia]).
    pose proof (wf_complete _ W) as Wc. rewrite E3 in *. change (rx_apdu_buffer h0) with (rx_apdu_buffer (protocol_of u)) in *.
    rewrite Hb in *. rewrite T, E1, E2, E4, E5. by split_and!.
Qed.

Definition first_sent (a : list Z) (u : usb ledger_hid_handle_t) : usb ledger_hid_handle_t :=
  usb_sent (hid_packet (first_chunk a u)) (hid_busy (put_protocol (first_chunk a u) u)).

Lemma send_packet_ok a u :
  sender u -> dev_state (pdev u) = USBD_STATE_CONFIGURED ->
  hid_state (usb_class u) = LEDGER_HID_STATE_IDLE -> zlen a < 65535 ->
  USBD_LEDGER_HID_send_packet (Some a) (zlen a) 0 u = Ret USBD_OK (first_sent a u).
Proof.
  intros Hu Hx Hst Ha. destruct (tx_first_ok a u Hu Ha) as (Etx & Hi1 & Hrd1 & Hlen).
  pose proof Hu as (Hr & _). pose proof (hid_tx_ready _ Hrd1 Hi1) as (Hc1 & _).
  pose proof Hrd1 as (_ & Hs1 & _).
  cbn [protocol_data set_protocol_data usb_class set_usb_class put_protocol] in Hc1, Hs1.
  unfold USBD_LEDGER_HID_send_packet. rewrite (bool_decide_false (Some a = None)) by done.
  rewrite (hid_protocol_run _ _ _ _ _ Etx), dev_run.
  change (dev_state (pdev (put_protocol (first_chunk a u) u))) with (dev_state (pdev u)). rewrite Hx.
  change (USBD_STATE_CONFIGURED =? USBD_STATE_CONFIGURED) with true. cbv iota. rewrite hid_run.
  change (hid_state (usb_class (put_protocol (first_chunk a u) u))) with (hid_state (usb_class u)). rewrite Hst.
  change (bool_decide (LEDGER_HID_STATE_IDLE = LEDGER_HID_STATE_IDLE)) with true. cbv iota.
  rewrite hid_field_run. change (protocol_of (put_protocol _ u)) with (first_chunk a u).
  destruct (Z.leb_spec 2 (tx_chunk_length (first_chunk a u))); [|lia].
  apply (transmit_chunk_ok (put_protocol (first_chunk a u) u) Hr).
  change (protocol_of (put_protocol _ u)) with (first_chunk a u). by rewrite Hc1, Hs1.
Qed.

Lemma hid_acks_add n m v w : hid_acks n v = Ret tt w -> hid_acks (n + m) v = hid_acks m w.
Proof.
  revert v. induction n as [|n IH]; intros v; cbn [hid_acks Nat.add]; [by intros [= ->]|].
  unfold mbind. destruct (USBD_LEDGER_HID_data_in v); [apply IH|done|done].
Qed.

(** The packets of an APDU, and the host that receives them. *)
Lemma sender_packets u (g : ledger_protocol_t) (a : list Z) :
  sender u -> zlen a < 65535 -> rx_ready g a -> rx_apdu_sequence_number g = 0 ->
  exists ps h g', send_rest (length a) (first_chunk a u) = Ret ps h /\
    receive (ztake LEDGER_HID_EPIN_SIZE (tx_chunk_buffer (first_chunk a u)) :: ps) g = Ret tt g' /\
    received g' a /\ type g' = type g.
Proof.
  intros Hu Ha Hg Hseq. pose proof (zlen_nonneg a).
  destruct (tx_first_ok a u Hu Ha) as (Etx & _ & Hrd1 & _). pose proof Hu as (Hr & Hi & Hrd).
  pose proof (hid_tx_ready _ Hrd Hi) as Htx.
  pose proof Hrd1 as (_ & _ & Hm1 & _). cbn [protocol_data set_protocol_data usb_class set_usb_class put_protocol] in Hm1.
  change (protocol_data (usb_class u)) with (protocol_of u) in *.
  destruct (send_rest_ok a (S (length a)) (set_tx_apdu (Some a) (zlen a) 0 0 (protocol_of u)) g 0 0)
    as (ps & h' & g' & E1 & E2 & _ & Hrec & Hty & _); try done; try (unfold zlen in *; lia).
  cbn [send_rest] in E1. unfold mbind at 1, mgets at 1 in E1.
  cbn [tx_apdu_buffer set_tx_apdu] in E1.
  assert (LEDGER_PROTOCOL_tx None 0 (set_tx_apdu (Some a) (zlen a) 0 0 (protocol_of u))
    = Ret tt (first_chunk a u)) as Etx' by done.
  rewrite (mbind_ret _ _ _ _ _ Etx'), (mbind_ret _ _ _ _ _ (packet_run _)), Hm1 in E1.
  unfold mbind in E1. destruct (send_rest (length a) (first_chunk a u)) as [ps' h2| |] eqn:Er; [|done|done].
  injection E1 as <- <-. by exists ps', h2, g'.
Qed.

(** C22: an APDU handed to an idle class of a configured device goes out
    in packets, one per acknowledgement of the host, from which a host with
    room for it gets back the APDU; the class is idle again at the end. *)
Theorem hid_sends_apdu u (g : ledger_protocol_t) (a : list Z) :
  sender u -> dev_state (pdev u) = USBD_STATE_CONFIGURED ->
  hid_state (usb_class u) = LEDGER_HID_STATE_IDLE -> zlen a < 65535 ->
  rx_ready g a -> rx_apdu_sequence_number g = 0 ->
  exists ps u' g',
    (do! USBD_LEDGER_HID_send_packet (Some a) (zlen a) 0 in hid_acks (length ps)) u = Ret tt u' /\
    usb_out u' = usb_out u ++ hid_out ps /\
    hid_state (usb_class u') = LEDGER_HID_STATE_IDLE /\ tx_apdu_buffer (protocol_of u') = None /\
    receive ps g = Ret tt g' /\ rx_apdu_status g' = APDU_STATUS_COMPLETE /\
    rx_apdu_length g' = 1 + zlen a /\ ztake (1 + zlen a) (rx_apdu_buffer g') = type g :: a.
Proof.
  intros Hu Hx Hst Ha Hg Hseq. destruct (tx_first_ok a u Hu Ha) as (_ & Hi1 & Hrd1 & _). pose proof Hu as (Hr & _).
  destruct (sender_packets u g a Hu Ha Hg Hseq) as (ps' & h2 & g' & Er & E2 & (R1 & R2 & _ & rest & R3 & _) & Hty).
  set (u1 := first_sent a u).
  assert (sender u1) as Hu1 by (split; [by apply io_sent_ready|done]).
  destruct (hid_acks_ok (length a) u1 ps' h2 Hu1 Er) as (u2 & F1 & F2 & F3 & F4).
  exists (ztake LEDGER_HID_EPIN_SIZE (tx_chunk_buffer (first_chunk a u)) :: ps'), (data_in_done u2), g'.
  rewrite (mbind_ret _ _ _ _ _ (send_packet_ok a u Hu Hx Hst Ha)). cbn [length].
  split.
  { replace (S (length ps')) with (length ps' + 1)%nat by lia.
    rewrite (hid_acks_add _ _ _ _ F1). cbn [hid_acks].
    by rewrite (mbind_ret _ _ _ _ _ (data_in_idle_ok u2 F3)). }
  unfold data_in_done. rewrite F3, (bool_decide_true (None = None)) by done.
  split; [|split; [done|split; [done|]]].
  { change (usb_out u2 = usb_out u ++ hid_out (ztake LEDGER_HID_EPIN_SIZE (tx_chunk_buffer (first_chunk a u)) :: ps')).
    rewrite F4. unfold u1, first_sent, usb_out, usb_sent. cbn [usb_io set_usb_io hid_busy put_protocol set_usb_class].
    by rewrite io_sent_out, <- app_assoc. }
  split; [exact E2|]. split; [done|]. split; [done|]. rewrite R3, (ztake_all (zlen a) a), Hty by lia.
  rewrite app_comm_cons. apply ztake_app_l. by rewrite zlen_cons.
Qed.

(** Handed to a class that is sending, an APDU of one packet is
    answered by [USBD_BUSY], but the handle was prepared for it first: the
    rest of the APDU under way is never sent, and neither is the new one. *)
Theorem hid_busy_send_truncates u (a b : list Z) :
  sender u -> dev_state (pdev u) = USBD_STATE_CONFIGURED ->
  hid_state (usb_class u) = LEDGER_HID_STATE_BUSY ->
  tx_apdu_buffer (protocol_of u) = Some a -> zlen b <= LEDGER_HID_EPIN_SIZE - 7 ->
  exists u' u'', USBD_LEDGER_HID_send_packet (Some b) (zlen b) 0 u = Ret USBD_BUSY u' /\
    USBD_LEDGER_HID_data_in u' = Ret USBD_OK u'' /\ usb_out u'' = usb_out u /\
    tx_apdu_buffer (protocol_of u'') = None /\ hid_state (usb_class u'') = LEDGER_HID_STATE_IDLE.
Proof.
  intros Hu Hx Hst Ha Hb. pose proof (zlen_nonneg b). unfold LEDGER_HID_EPIN_SIZE in Hb.
  destruct (tx_first_ok b u Hu ltac:(lia)) as (Etx & _ & _ & _). pose proof Hu as (_ & _ & Hrd).
  pose proof Hrd as (_ & _ & Hm & _).
  assert (tx_apdu_buffer (first_chunk b u) = None) as Hnone.
  { unfold first_chunk, after_tx, tx_room. change (protocol_data (usb_class u)) with (protocol_of u) in Hm.
    cbn [mtu set_tx_apdu]. rewrite Hm. unfold chunk_buffer_size, header_end. cbn [Z.eqb].
    by destruct (Z.ltb_spec (Z.min (64 - 7) (zlen b - 0)) (zlen b - 0)); [lia|]. }
  exists (put_protocol (first_chunk b u) u), (data_in_done (put_protocol (first_chunk b u) u)).
  split.
  { unfold USBD_LEDGER_HID_send_packet. rewrite (bool_decide_false (Some b = None)) by done.
    rewrite (hid_protocol_run _ _ _ _ _ Etx), dev_run.
    change (dev_state (pdev (put_protocol (first_chunk b u) u))) with (dev_state (pdev u)). rewrite Hx.
    change (USBD_STATE_CONFIGURED =? USBD_STATE_CONFIGURED) with true. cbv iota. rewrite hid_run.
    change (hid_state (usb_class (put_protocol (first_chunk b u) u))) with (hid_state (usb_class u)).
    by rewrite Hst. }
  split; [by apply data_in_idle_ok|]. unfold data_in_done.
  change (protocol_of (put_protocol _ u)) with (first_chunk b u).
  by rewrite Hnone, (bool_decide_true (None = None)).
Qed.

(** ** On a configured device *)

Definition configured_hid : usb ledger_hid_handle_t :=
  mk_usb (set_dev_config 1 (set_dev_state USBD_STATE_CONFIGURED initial_device)) 0 0 (fresh_io [])
    (fresh_handle initial_hid).

Lemma configured_hid_sender : sender configured_hid.
Proof. split; [apply fresh_io_ready|]. apply fresh_handle_ready, initial_hid_inv. Qed.

Lemma first_sent_sender a u : sender u -> zlen a < 65535 -> sender (first_sent a u).
Proof.
  intros Hu Ha. destruct (tx_first_ok a u Hu Ha) as (_ & Hi & Hr & _). destruct Hu as [Hio _].
  split; [by apply io_sent_ready|]. done.
Qed.

Lemma hid_receives_apdu_witness :
  exists ps h' u', send (repeat 7 100) (example_handle 64 260 [1; 1]) = Ret ps h' /\
    (do! hid_packets ps in USBD_LEDGER_HID_data_ready (zeros 273) 273) configured_hid
    = Ret (101, 0x20 :: repeat 7 100 ++ zeros 172) u' /\
    rx_apdu_status (protocol_of u') = APDU_STATUS_WAITING /\
    rx_apdu_sequence_number (protocol_of u') = 0 /\
    usb_out u' = usb_out configured_hid ++
      concat (map (fun _ => receive_packet LEDGER_HID_EPOUT_ADDR LEDGER_HID_EPOUT_SIZE) ps).
Proof.
  refine (hid_receives_apdu configured_hid (example_handle 64 260 [1; 1]) (repeat 7 100) (zeros 273) 273
    _ _ _ _ _ _ _); try apply configured_hid_sender; reflexivity || (vm_compute; repeat split; discriminate).
Defined.

Lemma hid_sends_apdu_witness :
  exists ps u' g',
    (do! USBD_LEDGER_HID_send_packet (Some (repeat 7 100)) 100 0 in hid_acks (length ps)) configured_hid
    = Ret tt u' /\ usb_out u' = hid_out ps /\
    hid_state (usb_class u') = LEDGER_HID_STATE_IDLE /\ tx_apdu_buffer (protocol_of u') = None /\
    receive ps (example_handle 64 260 [0; 0]) = Ret tt g' /\ rx_apdu_status g' = APDU_STATUS_COMPLETE /\
    rx_apdu_length g' = 101 /\ ztake 101 (rx_apdu_buffer g') = 1 :: repeat 7 100.
Proof.
  refine (hid_sends_apdu configured_hid (example_handle 64 260 [0; 0]) (repeat 7 100)
    configured_hid_sender _ _ _ _ _); try reflexivity.
  split; [reflexivity|]. vm_compute. repeat split; discriminate.
Defined.

Lemma hid_busy_send_truncates_witness :
  exists u' u'', USBD_LEDGER_HID_send_packet (Some [0x90; 0x00]) 2 0
      (first_sent (repeat 7 100) configured_hid) = Ret USBD_BUSY u' /\
    USBD_LEDGER_HID_data_in u' = Ret USBD_OK u'' /\
    usb_out u'' = usb_out (first_sent (repeat 7 100) configured_hid) /\
    tx_apdu_buffer (protocol_of u'') = None /\ hid_state (usb_class u'') = LEDGER_HID_STATE_IDLE.
Proof.
  refine (hid_busy_send_truncates (first_sent (repeat 7 100) configured_hid) (repeat 7 100) [0x90; 0x00]
    (first_sent_sender _ _ configured_hid_sender _) _ _ _ _); try reflexivity.
  vm_compute. discriminate.
Defined.
