(* ===== verification/UsbLedger.v ===== *)
(** The USB stack of the device ([usbd_ledger.c] and [usbd_desc.c] under
    [src/bolos/io/sdk/lib_stusb/src/]): the class that the core calls, which
    dispatches to the linked classes, the descriptors, and the events of the
    controller. The theorems put the core, the HID class and the transport
    protocol together. *)

From S2P Require Import Prelude CxUtils Seph UsbDevice UsbCtlReq UsbCore LedgerProtocol LedgerHid.

(** * Data *)

Definition USBD_LEDGER_STATE_INITIALIZED : Z := 0xA0.
Definition USBD_LEDGER_STATE_RUNNING : Z := 0xA1.
Definition USBD_LEDGER_STATE_STOPPED : Z := 0xA2.

Definition USBD_LEDGER_CLASS_HID : Z := 0x0001.
Definition USBD_LEDGER_CLASS_HID_KBD : Z := 0x0002.
Definition USBD_LEDGER_CLASS_HID_U2F : Z := 0x0004.
Definition USBD_LEDGER_CLASS_CCID_BULK : Z := 0x0008.
Definition USBD_LEDGER_CLASS_WEBUSB : Z := 0x0010.
Definition USBD_LEDGER_CLASS_CDC_CONTROL : Z := 0x0020.
Definition USBD_LEDGER_CLASS_CDC : Z := 0x0060.

Definition USBD_LEDGER_VID : Z := 0x2C97.
Definition MAX_DESCRIPTOR_SIZE : Z := 256.
Definition USBD_MAX_STR_DESC_SIZ : Z := 48.
Definition SWO_SUCCESS : Z := 0x9000.

(** The linked classes, whose addresses [class] holds. *)
Inductive usbd_class := USBD_LEDGER_HID_class_info.

Record os_io_init_usb_t := mk_init_usb {
  init_pid : Z;
  init_vid : Z;
  init_name : list Z;
  init_class_mask : Z;
}.

Definition set_init_class_mask (x : Z) (i : os_io_init_usb_t) : os_io_init_usb_t :=
  mk_init_usb (init_pid i) (init_vid i) (init_name i) x.

(** [usbd_ledger_data], but for the handle of the device, and the other static
    variables of the two files: [usbd_ledger_init_data],
    [usbd_ledger_descriptor] and its size; [desc_*] for those of
    [usbd_desc.c], where [desc_product_str] and [desc_bos] tell whether the
    pointers were set: they only ever point to [usbd_ledger_data.name] and to
    [get_bos_desc]. [hid_handle] is the handle of the HID class. *)
Record usbd_ledger_t := mk_ledger {
  ledger_state : Z;
  product : Z;
  vid : Z;
  pid : Z;
  name : list Z;
  bcdusb : Z;
  usbd_iad : Z;
  nb_of_class : Z;
  class_list : list (option usbd_class);
  classes : Z;
  xfer_len : list Z;
  xfer_buffer : list (option (list Z));
  init_data : os_io_init_usb_t;
  descriptor : list Z;
  descriptor_size : Z;
  desc_bcdusb : Z;
  desc_vid : Z;
  desc_pid : Z;
  desc_product_str : bool;
  desc_iad : Z;
  desc_bos : bool;
  device_desc : list Z;
  string_desc : list Z;
  serial_desc : list Z;
  hid_handle : ledger_hid_handle_t;
}.

Definition set_ledger_state (x : Z) (l : usbd_ledger_t) : usbd_ledger_t :=
  mk_ledger x (product l) (vid l) (pid l) (name l) (bcdusb l) (usbd_iad l) (nb_of_class l)
    (class_list l) (classes l) (xfer_len l) (xfer_buffer l) (init_data l) (descriptor l)
    (descriptor_size l) (desc_bcdusb l) (desc_vid l) (desc_pid l) (desc_product_str l)
    (desc_iad l) (desc_bos l) (device_desc l) (string_desc l) (serial_desc l) (hid_handle l).
Definition set_product (x : Z) (l : usbd_ledger_t) : usbd_ledger_t :=
  mk_ledger (ledger_state l) x (vid l) (pid l) (name l) (bcdusb l) (usbd_iad l) (nb_of_class l)
    (class_list l) (classes l) (xfer_len l) (xfer_buffer l) (init_data l) (descriptor l)
    (descriptor_size l) (desc_bcdusb l) (desc_vid l) (desc_pid l) (desc_product_str l)
    (desc_iad l) (desc_bos l) (device_desc l) (string_desc l) (serial_desc l) (hid_handle l).
Definition set_vid (x : Z) (l : usbd_ledger_t) : usbd_ledger_t :=
  mk_ledger (ledger_state l) (product l) x (pid l) (name l) (bcdusb l) (usbd_iad l)
    (nb_of_class l) (class_list l) (classes l) (xfer_len l) (xfer_buffer l) (init_data l)
    (descriptor l) (descriptor_size l) (desc_bcdusb l) (desc_vid l) (desc_pid l)
    (desc_product_str l) (desc_iad l) (desc_bos l) (device_desc l) (string_desc l) (serial_desc l)
    (hid_handle l).
Definition set_pid (x : Z) (l : usbd_ledger_t) : usbd_ledger_t :=
  mk_ledger (ledger_state l) (product l) (vid l) x (name l) (bcdusb l) (usbd_iad l)
    (nb_of_class l) (class_list l) (classes l) (xfer_len l) (xfer_buffer l) (init_data l)
    (descriptor l) (descriptor_size l) (desc_bcdusb l) (desc_vid l) (desc_pid l)
    (desc_product_str l) (desc_iad l) (desc_bos l) (device_desc l) (string_desc l) (serial_desc l)
    (hid_handle l).
Definition set_name (x : list Z) (l : usbd_ledger_t) : usbd_ledger_t :=
  mk_ledger (ledger_state l) (product l) (vid l) (pid l) x (bcdusb l) (usbd_iad l) (nb_of_class l)
    (class_list l) (classes l) (xfer_len l) (xfer_buffer l) (init_data l) (descriptor l)
    (descriptor_size l) (desc_bcdusb l) (desc_vid l) (desc_pid l) (desc_product_str l)
    (desc_iad l) (desc_bos l) (device_desc l) (string_desc l) (serial_desc l) (hid_handle l).
Definition set_bcdusb (x : Z) (l : usbd_ledger_t) : usbd_ledger_t :=
  mk_ledger (ledger_state l) (product l) (vid l) (pid l) (name l) x (usbd_iad l) (nb_of_class l)
    (class_list l) (classes l) (xfer_len l) (xfer_buffer l) (init_data l) (descriptor l)
    (descriptor_size l) (desc_bcdusb l) (desc_vid l) (desc_pid l) (desc_product_str l)
    (desc_iad l) (desc_bos l) (device_desc l) (string_desc l) (serial_desc l) (hid_handle l).
Definition set_usbd_iad (x : Z) (l : usbd_ledger_t) : usbd_ledger_t :=
  mk_ledger (ledger_state l) (product l) (vid l) (pid l) (name l) (bcdusb l) x (nb_of_class l)
    (class_list l) (classes l) (xfer_len l) (xfer_buffer l) (init_data l) (descriptor l)
    (descriptor_size l) (desc_bcdusb l) (desc_vid l) (desc_pid l) (desc_product_str l)
    (desc_iad l) (desc_bos l) (device_desc l) (string_desc l) (serial_desc l) (hid_handle l).
Definition set_nb_of_class (x : Z) (l : usbd_ledger_t) : usbd_ledger_t :=
  mk_ledger (ledger_state l) (product l) (vid l) (pid l) (name l) (bcdusb l) (usbd_iad l) x
    (class_list l) (classes l) (xfer_len l) (xfer_buffer l) (init_data l) (descriptor l)
    (descriptor_size l) (desc_bcdusb l) (desc_vid l) (desc_pid l) (desc_product_str l)
    (desc_iad l) (desc_bos l) (device_desc l) (string_desc l) (serial_desc l) (hid_handle l).
Definition set_class_list (x : list (option usbd_class)) (l : usbd_ledger_t) : usbd_ledger_t :=
  mk_ledger (ledger_state l) (product l) (vid l) (pid l) (name l) (bcdusb l) (usbd_iad l)
    (nb_of_class l) x (classes l) (xfer_len l) (xfer_buffer l) (init_data l) (descriptor l)
    (descriptor_size l) (desc_bcdusb l) (desc_vid l) (desc_pid l) (desc_product_str l)
    (desc_iad l) (desc_bos l) (device_desc l) (string_desc l) (serial_desc l) (hid_handle l).
Definition set_classes (x : Z) (l : usbd_ledger_t) : usbd_ledger_t :=
  mk_ledger (ledger_state l) (product l) (vid l) (pid l) (name l) (bcdusb l) (usbd_iad l)
    (nb_of_class l) (class_list l) x (xfer_len l) (xfer_buffer l) (init_data l) (descriptor l)
    (descriptor_size l) (desc_bcdusb l) (desc_vid l) (desc_pid l) (desc_product_str l)
    (desc_iad l) (desc_bos l) (device_desc l) (string_desc l) (serial_desc l) (hid_handle l).
Definition set_xfer_len (x : list Z) (l : usbd_ledger_t) : usbd_ledger_t :=
  mk_ledger (ledger_state l) (product l) (vid l) (pid l) (name l) (bcdusb l) (usbd_iad l)
    (nb_of_class l) (class_list l) (classes l) x (xfer_buffer l) (init_data l) (descriptor l)
    (descriptor_size l) (desc_bcdusb l) (desc_vid l) (desc_pid l) (desc_product_str l)
    (desc_iad l) (desc_bos l) (device_desc l) (string_desc l) (serial_desc l) (hid_handle l).
Definition set_xfer_buffer (x : list (option (list Z))) (l : usbd_ledger_t) : usbd_ledger_t :=
  mk_ledger (ledger_state l) (product l) (vid l) (pid l) (name l) (bcdusb l) (usbd_iad l)
    (nb_of_class l) (class_list l) (classes l) (xfer_len l) x (init_data l) (descriptor l)
    (descriptor_size l) (desc_bcdusb l) (desc_vid l) (desc_pid l) (desc_product_str l)
    (desc_iad l) (desc_bos l) (device_desc l) (string_desc l) (serial_desc l) (hid_handle l).
Definition set_init_data (x : os_io_init_usb_t) (l : usbd_ledger_t) : usbd_ledger_t :=
  mk_ledger (ledger_state l) (product l) (vid l) (pid l) (name l) (bcdusb l) (usbd_iad l)
    (nb_of_class l) (class_list l) (classes l) (xfer_len l) (xfer_buffer l) x (descriptor l)
    (descriptor_size l) (desc_bcdusb l) (desc_vid l) (desc_pid l) (desc_product_str l)
    (desc_iad l) (desc_bos l) (device_desc l) (string_desc l) (serial_desc l) (hid_handle l).
Definition set_descriptor (x : list Z) (l : usbd_ledger_t) : usbd_ledger_t :=
  mk_ledger (ledger_state l) (product l) (vid l) (pid l) (name l) (bcdusb l) (usbd_iad l)
    (nb_of_class l) (class_list l) (classes l) (xfer_len l) (xfer_buffer l) (init_data l) x
    (descriptor_size l) (desc_bcdusb l) (desc_vid l) (desc_pid l) (desc_product_str l)
    (desc_iad l) (desc_bos l) (device_desc l) (string_desc l) (serial_desc l) (hid_handle l).
Definition set_descriptor_size (x : Z) (l : usbd_ledger_t) : usbd_ledger_t :=
  mk_ledger (ledger_state l) (product l) (vid l) (pid l) (name l) (bcdusb l) (usbd_iad l)
    (nb_of_class l) (class_list l) (classes l) (xfer_len l) (xfer_buffer l) (init_data l)
    (descriptor l) x (desc_bcdusb l) (desc_vid l) (desc_pid l) (desc_product_str l) (desc_iad l)
    (desc_bos l) (device_desc l) (string_desc l) (serial_desc l) (hid_handle l).
Definition set_desc_bcdusb (x : Z) (l : usbd_ledger_t) : usbd_ledger_t :=
  mk_ledger (ledger_state l) (product l) (vid l) (pid l) (name l) (bcdusb l) (usbd_iad l)
    (nb_of_class l) (class_list l) (classes l) (xfer_len l) (xfer_buffer l) (init_data l)
    (descriptor l) (descriptor_size l) x (desc_vid l) (desc_pid l) (desc_product_str l)
    (desc_iad l) (desc_bos l) (device_desc l) (string_desc l) (serial_desc l) (hid_handle l).
Definition set_desc_vid (x : Z) (l : usbd_ledger_t) : usbd_ledger_t :=
  mk_ledger (ledger_state l) (product l) (vid l) (pid l) (name l) (bcdusb l) (usbd_iad l)
    (nb_of_class l) (class_list l) (classes l) (xfer_len l) (xfer_buffer l) (init_data l)
    (descriptor l) (descriptor_size l) (desc_bcdusb l) x (desc_pid l) (desc_product_str l)
    (desc_iad l) (desc_bos l) (device_desc l) (string_desc l) (serial_desc l) (hid_handle l).
Definition set_desc_pid (x : Z) (l : usbd_ledger_t) : usbd_ledger_t :=
  mk_ledger (ledger_state l) (product l) (vid l) (pid l) (name l) (bcdusb l) (usbd_iad l)
    (nb_of_class l) (class_list l) (classes l) (xfer_len l) (xfer_buffer l) (init_data l)
    (descriptor l) (descriptor_size l) (desc_bcdusb l) (desc_vid l) x (desc_product_str l)
    (desc_iad l) (desc_bos l) (device_desc l) (string_desc l) (serial_desc l) (hid_handle l).
Definition set_desc_product_str (x : bool) (l : usbd_ledger_t) : usbd_ledger_t :=
  mk_ledger (ledger_state l) (product l) (vid l) (pid l) (name l) (bcdusb l) (usbd_iad l)
    (nb_of_class l) (class_list l) (classes l) (xfer_len l) (xfer_buffer l) (init_data l)
    (descriptor l) (descriptor_size l) (desc_bcdusb l) (desc_vid l) (desc_pid l) x (desc_iad l)
    (desc_bos l) (device_desc l) (string_desc l) (serial_desc l) (hid_handle l).
Definition set_desc_iad (x : Z) (l : usbd_ledger_t) : usbd_ledger_t :=
  mk_ledger (ledger_state l) (product l) (vid l) (pid l) (name l) (bcdusb l) (usbd_iad l)
    (nb_of_class l) (class_list l) (classes l) (xfer_len l) (xfer_buffer l) (init_data l)
    (descriptor l) (descriptor_size l) (desc_bcdusb l) (desc_vid l) (desc_pid l)
    (desc_product_str l) x (desc_bos l) (device_desc l) (string_desc l) (serial_desc l)
    (hid_handle l).
Definition set_desc_bos (x : bool) (l : usbd_ledger_t) : usbd_ledger_t :=
  mk_ledger (ledger_state l) (product l) (vid l) (pid l) (name l) (bcdusb l) (usbd_iad l)
    (nb_of_class l) (class_list l) (classes l) (xfer_len l) (xfer_buffer l) (init_data l)
    (descriptor l) (descriptor_size l) (desc_bcdusb l) (desc_vid l) (desc_pid l)
    (desc_product_str l) (desc_iad l) x (device_desc l) (string_desc l) (serial_desc l)
    (hid_handle l).
Definition set_device_desc (x : list Z) (l : usbd_ledger_t) : usbd_ledger_t :=
  mk_ledger (ledger_state l) (product l) (vid l) (pid l) (name l) (bcdusb l) (usbd_iad l)
    (nb_of_class l) (class_list l) (classes l) (xfer_len l) (xfer_buffer l) (init_data l)
    (descriptor l) (descriptor_size l) (desc_bcdusb l) (desc_vid l) (desc_pid l)
    (desc_product_str l) (desc_iad l) (desc_bos l) x (string_desc l) (serial_desc l)
    (hid_handle l).
Definition set_string_desc (x : list Z) (l : usbd_ledger_t) : usbd_ledger_t :=
  mk_ledger (ledger_state l) (product l) (vid l) (pid l) (name l) (bcdusb l) (usbd_iad l)
    (nb_of_class l) (class_list l) (classes l) (xfer_len l) (xfer_buffer l) (init_data l)
    (descriptor l) (descriptor_size l) (desc_bcdusb l) (desc_vid l) (desc_pid l)
    (desc_product_str l) (desc_iad l) (desc_bos l) (device_desc l) x (serial_desc l)
    (hid_handle l).
Definition set_serial_desc (x : list Z) (l : usbd_ledger_t) : usbd_ledger_t :=
  mk_ledger (ledger_state l) (product l) (vid l) (pid l) (name l) (bcdusb l) (usbd_iad l)
    (nb_of_class l) (class_list l) (classes l) (xfer_len l) (xfer_buffer l) (init_data l)
    (descriptor l) (descriptor_size l) (desc_bcdusb l) (desc_vid l) (desc_pid l)
    (desc_product_str l) (desc_iad l) (desc_bos l) (device_desc l) (string_desc l) x
    (hid_handle l).
Definition set_hid_handle (x : ledger_hid_handle_t) (l : usbd_ledger_t) : usbd_ledger_t :=
  mk_ledger (ledger_state l) (product l) (vid l) (pid l) (name l) (bcdusb l) (usbd_iad l)
    (nb_of_class l) (class_list l) (classes l) (xfer_len l) (xfer_buffer l) (init_data l)
    (descriptor l) (descriptor_size l) (desc_bcdusb l) (desc_vid l) (desc_pid l)
    (desc_product_str l) (desc_iad l) (desc_bos l) (device_desc l) (string_desc l) (serial_desc l)
    x.

(** Static storage. *)
Definition initial_ledger : usbd_ledger_t :=
  mk_ledger 0 0 0 0 (zeros 20) 0 0 0 (replicate 4 None) 0 (zeros IO_USB_MAX_ENDPOINTS)
    (replicate (Z.to_nat IO_USB_MAX_ENDPOINTS) None) (mk_init_usb 0 0 (zeros 20) 0)
    (zeros MAX_DESCRIPTOR_SIZE) 0 0 0 0 false 0 false (zeros 18) (zeros USBD_MAX_STR_DESC_SIZ) (zeros 30)
    initial_hid.

(** [memset(&usbd_ledger_data, 0, sizeof(usbd_ledger_data))]. *)
Definition cleared_ledger (l : usbd_ledger_t) : usbd_ledger_t :=
  mk_ledger 0 0 0 0 (zeros 20) 0 0 0 (replicate 4 None) 0 (zeros IO_USB_MAX_ENDPOINTS)
    (replicate (Z.to_nat IO_USB_MAX_ENDPOINTS) None) (init_data l)
    (descriptor l) (descriptor_size l) (desc_bcdusb l) (desc_vid l) (desc_pid l) (desc_product_str l)
    (desc_iad l) (desc_bos l) (device_desc l) (string_desc l) (serial_desc l) (hid_handle l).

Definition interface_descriptor : list Z :=
  [0x09; USB_DESC_TYPE_CONFIGURATION; 0x00; 0x00; 0x00; 0x01; USBD_IDX_PRODUCT_STR; 0xC0; 0x32].

Definition device_qualifier_decriptor : list Z :=
  [0x0A; USB_DESC_TYPE_DEVICE_QUALIFIER; 0x00; 0x02; 0x00; 0x00; 0x00; 0x40; 0x01; 0x00].

Definition bos_descriptor : list Z := [0x05; USB_DESC_TYPE_BOS; 0x00; 0x00; 0x00].

Definition USBD_desc_device_desc : list Z :=
  [0x12; USB_DESC_TYPE_DEVICE; 0x00; 0x02; 0x00; 0x00; 0x00; USB_MAX_EP0_SIZE;
   LOBYTE USBD_LEDGER_VID; HIBYTE USBD_LEDGER_VID; 0x00; 0x00; 0x01; 0x02;
   USBD_IDX_MFC_STR; USBD_IDX_PRODUCT_STR; USBD_IDX_SERIAL_STR; 1].

Definition USBD_desc_lang_id_desc : list Z := [0x04; USB_DESC_TYPE_STRING; LOBYTE 0x409; HIBYTE 0x409].

(** "Ledger", with its null byte. *)
Definition USBD_MANUFACTURER_STRING : list Z := [0x4C; 0x65; 0x64; 0x67; 0x65; 0x72; 0].

(** [strlen]: [None] when there is no null byte. *)
Fixpoint strlen (s : list Z) : option Z :=
  match s with
  | [] => None
  | c :: s => if c =? 0 then Some 0 else n ← strlen s; Some (n + 1)
  end.

(** [strlcpy(dst, src, sizeof(dst))]. *)
Definition strlcpy (dst src : list Z) : option (list Z) :=
  n ← strlen src; write_at dst 0 (ztake (Z.min n (zlen dst - 1)) src ++ [0]).

(** * Operations *)

Abbreviation L := (M (usb usbd_ledger_t)).

Definition led {A} (f : usbd_ledger_t -> A) : L A := mgets (fun u => f (usb_class u)).
Definition led_upd (f : usbd_ledger_t -> usbd_ledger_t) : L unit :=
  mmodify (fun u => set_usb_class (f (usb_class u)) u).

(** The device as the HID class sees it, and back. *)
Definition hid_view (u : usb usbd_ledger_t) : usb ledger_hid_handle_t :=
  mk_usb (pdev u) (ep_in_stall_status u) (ep_out_stall_status u) (usb_io u) (hid_handle (usb_class u)).
Definition put_hid (v : usb ledger_hid_handle_t) (u : usb usbd_ledger_t) : usb usbd_ledger_t :=
  mk_usb (pdev v) (ep_in_stall_status v) (ep_out_stall_status v) (usb_io v)
    (set_hid_handle (usb_class v) (usb_class u)).
Definition with_hid {A} (m : M (usb ledger_hid_handle_t) A) : L A := zoom hid_view put_hid m.

(** [usbd_class_info_t]; [None] for a NULL pointer. *)
Record usbd_class_info_t := mk_class_info {
  ci_type : Z;
  ep_in_addr : Z;
  ep_in_size : Z;
  ep_out_addr : Z;
  ep_out_size : Z;
  ep_type : Z;
  ci_init : option (L Z);
  ci_de_init : option (L Z);
  ci_setup : option (USBD_SetupReqTypedef -> L Z);
  ci_data_in : option (Z -> L Z);
  ci_data_out : option (Z -> option (list Z) -> Z -> L Z);
  ci_send_packet : option (Z -> option (list Z) -> Z -> Z -> L Z);
  ci_is_busy : option (L Z);
  ci_data_ready : option (list Z -> Z -> L (Z * list Z));
  ci_setting : option (Z -> list Z -> Z -> L unit);
  ci_interface_descriptor : list Z;
  ci_association_descriptor : option (list Z);
  ci_bos_descriptor : option (list Z);
}.

Definition class_info (c : usbd_class) : usbd_class_info_t :=
  match c with
  | USBD_LEDGER_HID_class_info =>
      mk_class_info USBD_LEDGER_CLASS_HID
        LEDGER_HID_EPIN_ADDR LEDGER_HID_EPIN_SIZE LEDGER_HID_EPOUT_ADDR LEDGER_HID_EPOUT_SIZE
        USBD_EP_TYPE_INTR
        (Some (with_hid USBD_LEDGER_HID_init))
        (Some (with_hid USBD_LEDGER_HID_de_init))
        (Some (fun req => with_hid (USBD_LEDGER_HID_setup req)))
        (Some (fun _ => with_hid USBD_LEDGER_HID_data_in))
        (Some (fun _ packet len => with_hid (USBD_LEDGER_HID_data_out packet len)))
        (Some (fun _ packet len timeout => with_hid (USBD_LEDGER_HID_send_packet packet len timeout)))
        (Some (with_hid USBD_LEDGER_HID_is_busy))
        (Some (fun buffer max => with_hid (USBD_LEDGER_HID_data_ready buffer max)))
        None LEDGER_HID_descriptors None None
  end.

(** A loop over the classes: [body] returns the accumulator and whether the
    loop goes on. *)
Fixpoint class_loop {A} (body : Z -> option usbd_class -> A -> L (bool * A)) (n : nat) (index : Z)
  (acc : A) : L A :=
  match n with
  | O => mret acc
  | S n =>
      let! l := led class_list in
      let! c := mlift (l !! Z.to_nat index) in
      let! (more, acc) := body index c acc in
      if more then class_loop body n (index + 1) acc else mret acc
  end.

Definition for_classes {A} (body : Z -> option usbd_class -> A -> L (bool * A)) (acc : A) : L A :=
  let! nb := led nb_of_class in class_loop body (Z.to_nat nb) 0 acc.

(** The loop goes on. *)
Definition next {A} (acc : A) : L (bool * A) := mret (true, acc).

(** ** usbd_ledger.c *)

Definition open_endpoint (addr size type : Z) (mark : Z -> L unit) : L unit :=
  if negb (addr =? 0xFF) then
    do! USBD_LL_OpenEP addr type size in mark (Z.land addr 0x0F)
  else mret tt.

Definition close_endpoint (addr : Z) (mark : Z -> L unit) : L unit :=
  if negb (addr =? 0xFF) then do! USBD_LL_CloseEP addr in mark (Z.land addr 0x0F)
  else mret tt.

Definition init (cfg_idx : Z) : L Z :=
  do! upd (set_pClassData true) in
  for_classes (fun _ c ret =>
    match c with
    | None => next ret
    | Some c =>
        let ci := class_info c in
        do! open_endpoint (ep_in_addr ci) (ep_in_size ci) (ep_type ci)
              (fun i => ep_in_change i (set_is_used 1)) in
        do! open_endpoint (ep_out_addr ci) (ep_out_size ci) (ep_type ci)
              (fun i => ep_out_change i (set_is_used 1)) in
        match ci_init ci with Some f => let! ret := f in next ret | None => next ret end
    end) USBD_OK.

Definition de_init (cfg_idx : Z) : L Z :=
  let! ret := for_classes (fun _ c ret =>
    match c with
    | None => next ret
    | Some c =>
        let ci := class_info c in
        do! close_endpoint (ep_in_addr ci) (fun i => ep_in_change i (set_is_used 0)) in
        do! close_endpoint (ep_out_addr ci) (fun i => ep_out_change i (set_is_used 0)) in
        match ci_de_init ci with Some f => let! ret := f in next ret | None => next ret end
    end) USBD_OK in
  do! upd (set_pClassData false) in
  mret ret.

Definition setup (req : USBD_SetupReqTypedef) : L Z :=
  let index := wIndex req in
  let! nb := led nb_of_class in
  if index <? nb then
    let! l := led class_list in
    let! c := mlift (l !! Z.to_nat index) in
    let! c := mlift c in
    let! f := mlift (ci_setup (class_info c)) in
    f req
  else do! USBD_CtlError in mret USBD_FAIL.

Definition data_in (ep_num : Z) : L Z :=
  for_classes (fun _ c ret =>
    let! c := mlift c in
    let ci := class_info c in
    match ci_data_in ci with
    | Some f =>
        if Z.land (ep_in_addr ci) 0x7F =? Z.land ep_num 0x7F then let! ret := f ep_num in next ret
        else next ret
    | None => next ret
    end) USBD_OK.

Definition data_out (ep_num : Z) : L Z :=
  for_classes (fun _ c ret =>
    let! c := mlift c in
    let ci := class_info c in
    match ci_data_out ci with
    | Some f =>
        if Z.land (ep_out_addr ci) 0x7F =? Z.land ep_num 0x7F then
          let! bs := led xfer_buffer in
          let! ls := led xfer_len in
          let! b := mlift (bs !! Z.to_nat (Z.land ep_num 0x7F)) in
          let! len := mlift (ls !! Z.to_nat (Z.land ep_num 0x7F)) in
          let! ret := f ep_num b len in next ret
        else next ret
    | None => next ret
    end) USBD_OK.

Definition ep0_rx_ready : L Z := mret USBD_OK.

(** [usbd_ledger_descriptor[off]]. *)
Definition desc_write (off : Z) (src : list Z) : L unit :=
  let! d := led descriptor in
  let! d := mlift (write_at d off src) in
  led_upd (set_descriptor d).

Definition desc_count : L unit :=
  let! d := led descriptor in
  let! n := mlift (d !! 4%nat) in
  desc_write 4 [w8 (n + 1)].

Definition forge_configuration_descriptor : L unit :=
  do! led_upd (set_descriptor (zeros MAX_DESCRIPTOR_SIZE)) in
  do! desc_write 0 interface_descriptor in
  let! offset := for_classes (fun index c offset =>
    match c with
    | None => next offset
    | Some c =>
        let ci := class_info c in
        let! offset :=
          match ci_association_descriptor ci with
          | Some d =>
              do! desc_write offset d in
              do! desc_write (offset + 2) [w8 index] in
              mret (w8 (offset + zlen d))
          | None => mret offset
          end in
        do! desc_write offset (ci_interface_descriptor ci) in
        do! desc_write (offset + 2) [w8 index] in
        do! (if ci_type ci =? USBD_LEDGER_CLASS_CDC_CONTROL then
               do! desc_write (offset + 18) [w8 (index + 1)] in
               do! desc_write (offset + 26) [w8 index] in
               desc_write (offset + 27) [w8 (index + 1)]
             else mret tt) in
        do! desc_count in
        next (w8 (offset + zlen (ci_interface_descriptor ci)))
    end) (zlen interface_descriptor) in
  do! desc_write 2 [w8 offset] in
  do! desc_write 3 [w8 (Z.shiftr offset 8)] in
  led_upd (set_descriptor_size offset).

Definition forge_bos_descriptor : L unit :=
  do! led_upd (set_descriptor (zeros MAX_DESCRIPTOR_SIZE)) in
  do! desc_write 0 bos_descriptor in
  let! offset := for_classes (fun _ c offset =>
    match c with
    | None => next offset
    | Some c =>
        match ci_bos_descriptor (class_info c) with
        | Some d =>
            do! desc_write offset d in
            do! desc_count in
            next (w8 (offset + zlen d))
        | None => next offset
        end
    end) (zlen bos_descriptor) in
  do! desc_write 2 [w8 offset] in
  do! desc_write 3 [w8 (Z.shiftr offset 8)] in
  do! desc_write 4 [2] in
  led_upd (set_descriptor_size offset).

(** The buffer, from its start on, and the length. *)
Definition forged : L (list Z * Z) :=
  let! d := led descriptor in let! n := led descriptor_size in mret (d, n).

Definition get_cfg_desc : L (list Z * Z) := do! forge_configuration_descriptor in forged.
Definition get_dev_qualifier_desc : L (list Z * Z) :=
  mret (device_qualifier_decriptor, zlen device_qualifier_decriptor).
Definition get_bos_desc (speed : USBD_SpeedTypeDef) : L (list Z * Z) := do! forge_bos_descriptor in forged.

(** ** usbd_desc.c *)

Definition USBD_get_descriptor_device (speed : USBD_SpeedTypeDef) : L (list Z * Z) :=
  let! bcdusb := led desc_bcdusb in
  let! iad := led desc_iad in
  let! vid := led desc_vid in
  let! pid := led desc_pid in
  let! d := mlift (write_at USBD_desc_device_desc 2 [bcdusb]) in
  let! d := mlift (write_at d 4 (if truthy iad then [0xEF; 0x02; 0x01] else [0x00; 0x00; 0x00])) in
  let! d := mlift (write_at d 8 [LOBYTE vid; HIBYTE vid; LOBYTE pid; HIBYTE pid]) in
  do! led_upd (set_device_desc d) in
  mret (d, zlen d).

Definition USBD_get_descriptor_lang_id (speed : USBD_SpeedTypeDef) : L (list Z * Z) :=
  mret (USBD_desc_lang_id_desc, zlen USBD_desc_lang_id_desc).

(** [USBD_GetString] in [USBD_StrDesc]. *)
Definition string_in (s : list Z) : L (list Z * Z) :=
  let! buf := led string_desc in
  let! (buf, len) := mlift (USBD_GetString s buf) in
  do! led_upd (set_string_desc buf) in
  mret (buf, len).

Definition USBD_get_descriptor_manufacturer (speed : USBD_SpeedTypeDef) : L (list Z * Z) :=
  string_in USBD_MANUFACTURER_STRING.

(** A NULL string leaves the buffer and the length 0 alone. *)
Definition USBD_get_descriptor_product (speed : USBD_SpeedTypeDef) : L (list Z * Z) :=
  let! linked := led desc_product_str in
  if linked then let! s := led name in string_in s
  else let! buf := led string_desc in mret (buf, 0).

Definition USBD_get_descriptor_serial (speed : USBD_SpeedTypeDef) : L (list Z * Z) :=
  let! buf := led serial_desc in
  let! buf := mlift (write_at buf 0 [10; USB_DESC_TYPE_STRING; 0x30; 0x00; 0x30; 0x00; 0x30; 0x00; 0x31; 0x00]) in
  do! led_upd (set_serial_desc buf) in
  mret (buf, 10).

Definition USBD_get_descriptor_BOS (speed : USBD_SpeedTypeDef) : L (list Z * Z) :=
  let! linked := led desc_bos in
  if linked then get_bos_desc speed else mret ([], 0).

(** [product_str] is the name of [usbd_ledger_data], and the last argument
    [get_bos_desc]. *)
Definition USBD_DESC_init (vid pid bcdusb iad : Z) : L unit :=
  led_upd (fun l => set_desc_bos true (set_desc_iad iad (set_desc_product_str true
    (set_desc_pid pid (set_desc_vid vid (set_desc_bcdusb bcdusb l)))))).

(** ** The class and the descriptors *)

#[export] Instance USBD_LEDGER_CLASS : USBD_ClassTypeDef usbd_ledger_t := {
  class_Init := Some init;
  class_DeInit := Some de_init;
  class_Setup := Some setup;
  class_EP0_TxSent := None;
  class_EP0_RxReady := Some ep0_rx_ready;
  class_DataIn := Some data_in;
  class_DataOut := Some data_out;
  class_SOF := None;
  class_IsoINIncomplete := None;
  class_IsoOUTIncomplete := None;
  class_GetHSConfigDescriptor := Some get_cfg_desc;
  class_GetFSConfigDescriptor := Some get_cfg_desc;
  class_GetOtherSpeedConfigDescriptor := Some get_cfg_desc;
  class_GetDeviceQualifierDescriptor := Some get_dev_qualifier_desc;
}.

#[export] Instance LEDGER_Desc : USBD_DescriptorsTypeDef usbd_ledger_t := {
  GetDeviceDescriptor := Some USBD_get_descriptor_device;
  GetLangIDStrDescriptor := Some USBD_get_descriptor_lang_id;
  GetManufacturerStrDescriptor := Some USBD_get_descriptor_manufacturer;
  GetProductStrDescriptor := Some USBD_get_descriptor_product;
  GetSerialStrDescriptor := Some USBD_get_descriptor_serial;
  GetConfigurationStrDescriptor := Some USBD_get_descriptor_product;
  GetInterfaceStrDescriptor := Some USBD_get_descriptor_product;
  GetBOSDescriptor := Some USBD_get_descriptor_BOS;
}.

(** ** The functions of the stack *)

(** [init] is not NULL. *)
Definition USBD_LEDGER_init (init : os_io_init_usb_t) (force_restart : Z) : L unit :=
  let! st := led ledger_state in
  do! (if truthy force_restart || (st <? USBD_LEDGER_STATE_INITIALIZED) then
         do! led_upd cleared_ledger in
         do! upd (fun _ => initial_device) in
         led_upd (set_ledger_state USBD_LEDGER_STATE_STOPPED)
       else mret tt) in
  led_upd (set_init_data init).

Definition USB_LEDGER_stop : L unit :=
  do! USBD_Stop in led_upd (set_ledger_state USBD_LEDGER_STATE_STOPPED).

(** The classes that are not linked are removed from the mask. *)
Definition linked_classes (mask : Z) : Z :=
  let mask := Z.ldiff mask USBD_LEDGER_CLASS_HID_KBD in
  let mask := Z.ldiff mask USBD_LEDGER_CLASS_HID_U2F in
  let mask := Z.ldiff mask USBD_LEDGER_CLASS_CCID_BULK in
  let mask := Z.ldiff mask USBD_LEDGER_CLASS_WEBUSB in
  Z.ldiff mask USBD_LEDGER_CLASS_CDC.

(** [usbd_ledger_data.class[usbd_ledger_data.nb_of_class++] = c]. *)
Definition add_class (c : usbd_class) : L unit :=
  let! nb := led nb_of_class in
  let! l := led class_list in
  let! l := mlift (write_at l nb [Some c]) in
  do! led_upd (set_class_list l) in
  led_upd (set_nb_of_class (w8 (nb + 1))).

Definition desc_init : L unit :=
  let! l := led (fun l => l) in USBD_DESC_init (vid l) (pid l) (bcdusb l) (usbd_iad l).

(** The device is set up again for the wanted classes. *)
Definition reconfigure (i : os_io_init_usb_t) : L unit :=
  let! st := led ledger_state in
  do! (if st =? USBD_LEDGER_STATE_RUNNING then
         do! USB_LEDGER_stop in led_upd (set_ledger_state USBD_LEDGER_STATE_STOPPED)
       else mret tt) in
  do! led_upd (fun l => set_nb_of_class 0 (set_usbd_iad 0 (set_bcdusb 0 l))) in
  let! _ := mlift (strlen (init_name i)) in
  let! n := led name in
  let! n := mlift (strlcpy n (init_name i)) in
  do! led_upd (set_name n) in
  do! led_upd (set_vid (if truthy (init_vid i) then init_vid i else USBD_LEDGER_VID)) in
  let! p := led product in
  do! led_upd (set_pid (if truthy (init_pid i) then init_pid i else w16 p)) in
  do! (if truthy (Z.land (init_class_mask i) USBD_LEDGER_CLASS_HID)
       then add_class USBD_LEDGER_HID_class_info else mret tt) in
  do! led_upd (set_classes (init_class_mask i)) in
  do! desc_init in
  do! USBD_Init true 0 in
  do! USBD_RegisterClass true in
  mret tt.

Definition USBD_LEDGER_start : L unit :=
  do! led_upd (fun l => set_init_data
        (set_init_class_mask (linked_classes (init_class_mask (init_data l))) (init_data l)) l) in
  let! i := led init_data in
  let! st := led ledger_state in
  let! cs := led classes in
  let! v := led vid in
  do! (if (st =? USBD_LEDGER_STATE_INITIALIZED) || negb (cs =? init_class_mask i)
          || (truthy (init_vid i) && negb (v =? init_vid i))
       then reconfigure i else mret tt) in
  let! st := led ledger_state in
  if (st =? USBD_LEDGER_STATE_STOPPED) || (st =? USBD_LEDGER_STATE_INITIALIZED) then
    do! USBD_Start in led_upd (set_ledger_state USBD_LEDGER_STATE_RUNNING)
  else mret tt.

Definition USBD_LEDGER_add_profile (c : usbd_class) (x iad : Z) : L unit :=
  do! add_class c in
  do! led_upd (fun l => set_bcdusb (Z.lor (bcdusb l) x) l) in
  do! (if truthy iad then led_upd (set_usbd_iad iad) else mret tt) in
  desc_init.

Definition USBD_LEDGER_rx_evt_reset : L unit :=
  do! USBD_LL_SetSpeed USBD_SPEED_FULL in do! USBD_LL_Reset in mret tt.
Definition USBD_LEDGER_rx_evt_sof : L unit := do! USBD_LL_SOF in mret tt.
Definition USBD_LEDGER_rx_evt_suspend : L unit := do! USBD_LL_Suspend in mret tt.
Definition USBD_LEDGER_rx_evt_resume : L unit := do! USBD_LL_Resume in mret tt.
Definition USBD_LEDGER_rx_evt_setup (buffer : list Z) : L unit := do! USBD_LL_SetupStage buffer in mret tt.
Definition USBD_LEDGER_rx_evt_data_in (ep_num : Z) : L unit := do! USBD_LL_DataInStage ep_num in mret tt.

Definition USBD_LEDGER_rx_evt_data_out (ep_num : Z) (buffer : list Z) (length : Z) : L unit :=
  let i := Z.land ep_num 0x7F in
  let! ls := led xfer_len in
  let! ls := mlift (write_at ls i [length]) in
  do! led_upd (set_xfer_len ls) in
  let! bs := led xfer_buffer in
  let! bs := mlift (write_at bs i [Some buffer]) in
  do! led_upd (set_xfer_buffer bs) in
  do! USBD_LL_DataOutStage ep_num in
  mret tt.

Definition USBD_LEDGER_send (class_type packet_type : Z) (packet : option (list Z))
  (packet_length timeout_ms : Z) : L Z :=
  let! usb_status := for_classes (fun _ c usb_status =>
    let! c := mlift c in
    let ci := class_info c in
    if ci_type ci =? class_type then
      let! f := mlift (ci_send_packet ci) in
      let! usb_status := f packet_type packet packet_length timeout_ms in
      mret (false, usb_status)
    else next usb_status) USBD_OK in
  mret (if usb_status =? USBD_OK then SWO_SUCCESS
        else if usb_status =? USBD_TIMEOUT then TIMEOUT else INVALID_PARAMETER).

(** The status and the buffer of the caller. *)
Definition USBD_LEDGER_data_ready (buffer : list Z) (max_length : Z) : L (Z * list Z) :=
  let! (status, buffer) := for_classes (fun _ c '(_, buffer) =>
    let! c := mlift c in
    match ci_data_ready (class_info c) with
    | Some f =>
        let! (status, buffer) := f buffer max_length in
        mret (negb (0 <? status), (status, buffer))
    | None => next (0, buffer)
    end) (0, buffer) in
  mret (if 0 <? status then status else 0, buffer).

Definition USBD_LEDGER_is_busy : L Z :=
  for_classes (fun _ c status =>
    let! c := mlift c in
    match ci_is_busy (class_info c) with
    | Some f => let! status := f in mret (negb (truthy status), status)
    | None => next status
    end) 0.

Definition USBD_LEDGER_setting (class_id setting_id : Z) (buffer : list Z) (length : Z) : L unit :=
  for_classes (fun _ c _ =>
    let! c := mlift c in
    match ci_setting (class_info c) with
    | Some f =>
        if ci_type (class_info c) =? class_id then do! f setting_id buffer length in next tt
        else next tt
    | None => next tt
    end) tt.

(** [SEPROXYHAL_TAG_USB_EVENT_*] and [SEPROXYHAL_TAG_USB_EP_XFER_*]. *)
Definition SEPROXYHAL_TAG_USB_EVENT : Z := 0x0F.
Definition SEPROXYHAL_TAG_USB_EVENT_RESET : Z := 0x01.
Definition SEPROXYHAL_TAG_USB_EVENT_SOF : Z := 0x02.
Definition SEPROXYHAL_TAG_USB_EVENT_SUSPENDED : Z := 0x04.
Definition SEPROXYHAL_TAG_USB_EVENT_RESUMED : Z := 0x08.
Definition SEPROXYHAL_TAG_USB_EP_XFER_EVENT : Z := 0x10.
Definition SEPROXYHAL_TAG_USB_EP_XFER_SETUP : Z := 0x01.
Definition SEPROXYHAL_TAG_USB_EP_XFER_IN : Z := 0x02.
Definition SEPROXYHAL_TAG_USB_EP_XFER_OUT : Z := 0x04.

Definition rx_usb_event (event : Z) : L Z :=
  if event =? SEPROXYHAL_TAG_USB_EVENT_RESET then do! USBD_LEDGER_rx_evt_reset in mret 0
  else if event =? SEPROXYHAL_TAG_USB_EVENT_SOF then do! USBD_LEDGER_rx_evt_sof in mret 0
  else if event =? SEPROXYHAL_TAG_USB_EVENT_SUSPENDED then do! USBD_LEDGER_rx_evt_suspend in mret 0
  else if event =? SEPROXYHAL_TAG_USB_EVENT_RESUMED then do! USBD_LEDGER_rx_evt_resume in mret 0
  else mret (-1).

(** [data] starts at [seph_buffer[7]]. *)
Definition rx_xfer_event (epnum kind : Z) (data : list Z) (length : Z) (apdu_buffer : list Z)
  (apdu_buffer_max_length : Z) : L (Z * list Z) :=
  if kind =? SEPROXYHAL_TAG_USB_EP_XFER_SETUP then
    do! USBD_LEDGER_rx_evt_setup data in mret (0, apdu_buffer)
  else if kind =? SEPROXYHAL_TAG_USB_EP_XFER_IN then
    if epnum <? IO_USB_MAX_ENDPOINTS then
      do! USBD_LEDGER_rx_evt_data_in epnum in mret (0, apdu_buffer)
    else mret (-1, apdu_buffer)
  else if kind =? SEPROXYHAL_TAG_USB_EP_XFER_OUT then
    if epnum <? IO_USB_MAX_ENDPOINTS then
      do! USBD_LEDGER_rx_evt_data_out epnum data length in
      USBD_LEDGER_data_ready apdu_buffer apdu_buffer_max_length
    else mret (-1, apdu_buffer)
  else mret (-1, apdu_buffer).

Definition USBD_LEDGER_rx_seph_evt (seph_buffer : list Z) (seph_buffer_length : Z)
  (apdu_buffer : list Z) (apdu_buffer_max_length : Z) : L (Z * list Z) :=
  let! tag := mlift (seph_buffer !! 1%nat) in
  if tag =? SEPROXYHAL_TAG_USB_EVENT then
    let! event := mlift (seph_buffer !! 4%nat) in
    let! status := rx_usb_event event in
    mret (status, apdu_buffer)
  else if tag =? SEPROXYHAL_TAG_USB_EP_XFER_EVENT then
    let! ep := mlift (seph_buffer !! 4%nat) in
    let! n := mlift (seph_buffer !! 6%nat) in
    let! kind := mlift (seph_buffer !! 5%nat) in
    rx_xfer_event (Z.land ep 0x7F) kind (drop 7 seph_buffer)
      (w16 (Z.min n (seph_buffer_length - 6))) apdu_buffer apdu_buffer_max_length
  else mret (-1, apdu_buffer).

(** * The class keeps its contract *)

Record ledger_inv (l : usbd_ledger_t) : Prop := {
  li_hid : hid_inv (hid_handle l);
  li_descriptor : zlen (descriptor l) = MAX_DESCRIPTOR_SIZE;
  li_nb : 0 <= nb_of_class l <= USBD_MAX_NUM_INTERFACES;
  li_classes : forall i, 0 <= i < nb_of_class l ->
    class_list l !! Z.to_nat i = Some (Some USBD_LEDGER_HID_class_info);
  li_string : zlen (string_desc l) = USBD_MAX_STR_DESC_SIZ;
  li_serial : zlen (serial_desc l) = 30;
  li_name : exists n, strlen (name l) = Some n /\ n <= 19;
  li_len : zlen (xfer_len l) = IO_USB_MAX_ENDPOINTS;
  li_buffer : zlen (xfer_buffer l) = IO_USB_MAX_ENDPOINTS;
  li_packets : forall i b n, xfer_buffer l !! i = Some b -> xfer_len l !! i = Some n -> packet_fits b n;
}.

(** The number of classes does not change once the device runs. *)
Definition ledger_nb (nb : Z) (l : usbd_ledger_t) : Prop := ledger_inv l /\ nb_of_class l = nb.
Definition ledger_ready (l : usbd_ledger_t) : Prop := 0 < nb_of_class l -> hid_ready (hid_handle l).

Lemma strlen_nonneg s n : strlen s = Some n -> 0 <= n.
Proof.
  revert n. induction s as [|c s IH]; intros n; cbn [strlen]; [done|].
  destruct (c =? 0); [by intros [= <-]|]. destruct (strlen s) as [k|]; [|done].
  cbn. intros [= <-]. specialize (IH k eq_refl). lia.
Qed.

Lemma strlen_split s n : strlen s = Some n ->
  exists t rest, s = t ++ 0 :: rest /\ Forall (fun c => c <> 0) t /\ zlen t = n.
Proof.
  revert n. induction s as [|c s IH]; intros n; cbn [strlen]; [done|].
  destruct (Z.eqb_spec c 0) as [->|Hc].
  - intros [= <-]. by exists [], s.
  - destruct (strlen s) as [k|]; [|done]. cbn. intros [= <-]. destruct (IH k eq_refl) as (t & rest & -> & Ht & Hl).
    exists (c :: t), rest. split; [done|]. split; [by constructor|]. rewrite zlen_cons. lia.
Qed.

Lemma usb_at_mono {C} (P Q : C -> Prop) x y u :
  (forall c, P c -> Q c) -> usb_at P x y u -> usb_at Q x y u.
Proof. intros HPQ []. constructor; auto. Qed.

(** The contract may be proved for a fixed number of classes. *)
Lemma safe_nb {A} r x y (m : L A) :
  (forall nb, safe (usb_at (class_at (ledger_nb nb) ledger_ready r) x y) m) ->
  safe (usb_at (class_at ledger_inv ledger_ready r) x y) m.
Proof.
  intros Hm u Hu. apply (safe_wp _ _ _ _ (Hm (nb_of_class (usb_class u)))).
  - destruct Hu as [? ? [] ? ?]. by constructor.
  - intros a u'. apply usb_at_mono. by intros c [[] ?].
Qed.

Lemma returns_nb {A} r x y (m : L A) Q :
  (forall nb, returns (usb_at (class_at (ledger_nb nb) ledger_ready r) x y) m Q) ->
  returns (usb_at (class_at ledger_inv ledger_ready r) x y) m Q.
Proof.
  intros Hm u Hu. apply (wp_mono _ _ _ _ (Hm (nb_of_class (usb_class u)) u
    ltac:(destruct Hu as [? ? [] ? ?]; by constructor))).
  intros a u' [Hu' Ha]. split; [|done]. revert Hu'. apply usb_at_mono. by intros c [[] ?].
Qed.

Section contract.
Context (nb : Z) (x : Z) (y : Z * Z).
Abbreviation I r := (usb_at (class_at (ledger_nb nb) ledger_ready r) x y).
Abbreviation IH r := (usb_at (class_at hid_inv hid_ready r) x y).

Lemma led_safe r {A} (f : usbd_ledger_t -> A) : safe (I r) (led f).
Proof. apply safe_gets. Qed.

Lemma led_get r {A B} (f : usbd_ledger_t -> A) (k : A -> L B) Q :
  (forall l, ledger_nb nb l -> returns (I r) (k (f l)) Q) -> returns (I r) (mbind (led f) k) Q.
Proof. intros Hk u Hu. apply wp_bind, wp_gets. apply Hk; [|done]. by destruct Hu as [_ _ [] _ _]. Qed.

(** A change of the state of the stack. *)
Lemma led_upd_safe r f :
  (forall l, ledger_inv l -> ledger_inv (f l) /\ nb_of_class (f l) = nb_of_class l /\
     hid_handle (f l) = hid_handle l) -> safe (I r) (led_upd f).
Proof.
  intros Hf. apply safe_modify. intros u Hu. apply class_put_at; [done|].
  destruct Hu as [_ _ [[H1 H2] H3] _ _]. destruct (Hf _ H1) as (F1 & F2 & F3).
  unfold class_at, ledger_nb, ledger_ready in *. by rewrite F2, F3.
Qed.

(** ** The HID class *)

Lemma hid_view_at r u : 0 < nb -> I r u -> IH r (hid_view u).
Proof.
  intros Hnb [Hio Hd [[H1 H2] H3] Hx Hy]. constructor; try done. split; [by apply li_hid|].
  intros E. apply H3; [done|lia].
Qed.

Lemma put_hid_at r r' v u : I r u -> IH r' v -> I r' (put_hid v u).
Proof.
  intros [_ _ [[[] H2] _] _ _] [Hio Hd [H1 H3] Hx Hy]. constructor; try done. split.
  - split; [|done]. by constructor.
  - intros E _. by apply H3.
Qed.

Lemma with_hid_wp {A} r r' (m : M (usb ledger_hid_handle_t) A) Q u :
  I r u -> wp m (fun a v => Q a /\ IH r' v) (hid_view u) ->
  wp (with_hid m) (fun a u' => Q a /\ I r' u') u.
Proof.
  unfold wp, with_hid, zoom. intros Hu. destruct (m (hid_view u)) as [a v| |]; [|done|done].
  intros [Ha Hv]. split; [done|]. by apply (put_hid_at r).
Qed.

Lemma with_hid_safe {A} r (m : M (usb ledger_hid_handle_t) A) :
  0 < nb -> safe (IH r) m -> safe (I r) (with_hid m).
Proof.
  intros Hnb Hm u Hu. eapply wp_mono; [apply (with_hid_wp r r _ (fun _ => True)); [done|]|].
  - apply (safe_wp _ _ _ _ Hm (hid_view_at r u Hnb Hu)). auto.
  - by intros a u' [].
Qed.

(** ** Loops over the classes *)

Lemma class_loop_returns r {A} (body : Z -> option usbd_class -> A -> L (bool * A)) (R : Z -> A -> Prop)
  n index acc :
  0 <= index -> index + Z.of_nat n <= nb -> R index acc ->
  (forall i a, 0 <= i < nb -> R i a ->
     returns (I r) (body i (Some USBD_LEDGER_HID_class_info) a) (fun p => R (i + 1) p.2)) ->
  returns (I r) (class_loop body n index acc) (fun a => exists j, 0 <= j <= nb /\ R j a).
Proof.
  intros Hi Hn Hacc Hbody. revert index acc Hi Hn Hacc.
  induction n as [|n IHn]; intros index acc Hi Hn Hacc; cbn [class_loop].
  - apply returns_ret. exists index. split; [lia|done].
  - apply led_get. intros l [Hl Hnb]. rewrite (li_classes l Hl) by lia. intros u Hu.
    apply wp_bind, (wp_lift _ (Some USBD_LEDGER_HID_class_info)); [done|].
    apply wp_bind, (wp_mono _ _ _ _ (Hbody index acc ltac:(lia) Hacc u Hu)).
    intros [more acc'] u' [Hu' HR]. cbn in HR. destruct more; [apply IHn; (done || lia)|].
    split; [done|]. exists (index + 1). split; [lia|done].
Qed.

Lemma for_classes_returns r {A} (body : Z -> option usbd_class -> A -> L (bool * A)) (R : Z -> A -> Prop) acc :
  R 0 acc ->
  (forall i a, 0 <= i < nb -> R i a ->
     returns (I r) (body i (Some USBD_LEDGER_HID_class_info) a) (fun p => R (i + 1) p.2)) ->
  returns (I r) (for_classes body acc) (fun a => exists j, 0 <= j <= nb /\ R j a).
Proof.
  intros Hacc Hbody. unfold for_classes. apply led_get. intros l [Hl Hnb].
  pose proof (li_nb l Hl). rewrite Hnb in *. apply class_loop_returns; (done || lia).
Qed.

Lemma for_classes_safe r {A} (body : Z -> option usbd_class -> A -> L (bool * A)) acc :
  (forall i a, 0 <= i < nb -> safe (I r) (body i (Some USBD_LEDGER_HID_class_info) a)) ->
  safe (I r) (for_classes body acc).
Proof.
  intros Hbody. eapply returns_safe. apply (for_classes_returns r body (fun _ _ => True)); [done|].
  intros i a Hi _. apply (returns_mono _ _ (fun _ => True)); [apply safe_returns; auto|auto].
Qed.

(** ** The callbacks *)

Definition ep_ok_index (addr : Z) : Prop := 0 <= Z.land addr 0x0F < IO_USB_MAX_ENDPOINTS.

Lemma mark_in_safe r b addr : ep_ok_index addr -> safe (I r) (ep_in_change (Z.land addr 0x0F) (set_is_used b)).
Proof. intros H. by apply ep_in_change_safe. Qed.

Lemma mark_out_safe r b addr : ep_ok_index addr -> safe (I r) (ep_out_change (Z.land addr 0x0F) (set_is_used b)).
Proof. intros H. by apply ep_out_change_safe. Qed.

Lemma open_endpoint_safe r addr size t mark :
  safe (I r) (mark (Z.land addr 0x0F)) -> safe (I r) (open_endpoint addr size t mark).
Proof. intros Hm. unfold open_endpoint. by safe_auto. Qed.

Lemma close_endpoint_safe r addr mark :
  safe (I r) (mark (Z.land addr 0x0F)) -> safe (I r) (close_endpoint addr mark).
Proof. intros Hm. unfold close_endpoint. by safe_auto. Qed.

Lemma pClassData_safe r b : safe (I r) (upd (set_pClassData b)).
Proof. apply upd_safe. by intros d []. Qed.

(** The class of one index is initialised. *)
Lemma init_body_wp r i ret u :
  0 <= i < nb -> I r u ->
  wp (let ci := class_info USBD_LEDGER_HID_class_info in
      do! open_endpoint (ep_in_addr ci) (ep_in_size ci) (ep_type ci)
            (fun i => ep_in_change i (set_is_used 1)) in
      do! open_endpoint (ep_out_addr ci) (ep_out_size ci) (ep_type ci)
            (fun i => ep_out_change i (set_is_used 1)) in
      match ci_init ci with Some f => let! ret := f in next ret | None => next ret end)
    (fun p u' => p = (true, USBD_OK) /\ I true u') u.
Proof.
  intros Hi Hu. cbn zeta.
  apply (wp_safe_bind (I r)); [by apply open_endpoint_safe, mark_in_safe|done|]. intros _ u1 Hu1.
  apply (wp_safe_bind (I r)); [by apply open_endpoint_safe, mark_out_safe|done|]. intros _ u2 Hu2.
  apply wp_bind. eapply wp_mono; [apply (with_hid_wp r true _ (fun a => a = USBD_OK)); [done|]|].
  - eapply wp_mono; [apply (hid_init_wp x y r); apply hid_view_at; [lia|done]|]. intros a v [-> Hv]. done.
  - by intros a u3 [-> Hu3].
Qed.

Lemma init_loop_wp body r n index u :
  (forall i ret r u, 0 <= i < nb -> I r u ->
     wp (body i (Some USBD_LEDGER_HID_class_info) ret) (fun p u' => p = (true, USBD_OK) /\ I true u') u) ->
  0 <= index -> index + Z.of_nat n <= nb -> I r u ->
  wp (class_loop body n index USBD_OK)
    (fun a u' => a = USBD_OK /\ I (if bool_decide (n = O) then r else true) u') u.
Proof.
  intros Hbody. revert r index u. induction n as [|n IHn]; intros r index u Hi Hn Hu; cbn [class_loop].
  - split; [done|]. by rewrite (bool_decide_true (0%nat = 0%nat)).
  - apply wp_bind, wp_gets. pose proof Hu as [_ _ [[Hl Hnb] _] _ _].
    rewrite (li_classes _ Hl) by lia. apply wp_bind, (wp_lift _ (Some USBD_LEDGER_HID_class_info)); [done|].
    apply wp_bind, (wp_mono _ _ _ _ (Hbody index USBD_OK r u ltac:(lia) Hu)). intros p u' [-> Hu'].
    apply (wp_mono _ _ _ _ (IHn true (index + 1) u' ltac:(lia) ltac:(lia) Hu')). intros a u'' [-> Hu''].
    split; [done|]. rewrite (bool_decide_false (S n = 0%nat)) by done. by destruct (bool_decide _).
Qed.

Lemma init_wp r cfg u : I r u -> wp (init cfg) (fun a u' => a = USBD_OK /\ I true u') u.
Proof.
  intros Hu. unfold init. apply (wp_safe_bind (I r)); [apply pClassData_safe|done|]. intros _ u1 Hu1.
  unfold for_classes. apply wp_bind, wp_gets. pose proof Hu1 as [_ _ [[Hl Hnb] _] _ _].
  pose proof (li_nb _ Hl). rewrite Hnb in *.
  eapply wp_mono; [apply (init_loop_wp _ r _ 0 u1); [|done|lia|done]|].
  - intros. by apply (init_body_wp r0 i).
  - intros a u2 [-> Hu2]. split; [done|]. destruct (bool_decide _) eqn:E; [|done].
    apply bool_decide_eq_true in E. destruct Hu2 as [? ? [[H1 H2] _] ? ?]. constructor; try done.
    split; [done|]. intros _ Hpos. lia.
Qed.

Lemma de_init_safe r cfg : safe (I r) (de_init cfg).
Proof.
  unfold de_init. apply safe_bind.
  - apply for_classes_safe. intros i ret Hi. cbn zeta.
    apply safe_bind; [by apply close_endpoint_safe, mark_in_safe|]. intros _.
    apply safe_bind; [by apply close_endpoint_safe, mark_out_safe|]. intros _.
    apply safe_bind; [|intro; apply safe_ret]. apply with_hid_safe; [lia|]. apply safe_ret.
  - intros ret. apply safe_bind; [apply pClassData_safe|]. intros _. apply safe_ret.
Qed.

Lemma setup_safe r req : req_ok req -> safe (I r) (setup req).
Proof.
  intros Hreq u Hu. unfold setup. apply wp_bind, wp_gets. pose proof Hu as [_ _ [[Hl Hnb] _] _ _].
  destruct (Z.ltb_spec (wIndex req) (nb_of_class (usb_class u))).
  - pose proof Hreq as (_ & Hi & _). apply wp_bind, wp_gets. rewrite (li_classes _ Hl) by lia.
    apply wp_bind, (wp_lift _ (Some USBD_LEDGER_HID_class_info)); [done|].
    apply wp_bind, (wp_lift _ USBD_LEDGER_HID_class_info); [done|].
    apply wp_bind, (wp_lift _ (fun req => with_hid (USBD_LEDGER_HID_setup req))); [done|].
    apply (with_hid_safe r); [lia| |done]. by apply hid_setup_safe.
  - apply (wp_safe_bind (I r)); [unfold USBD_CtlError; safe_auto|done|]. by intros.
Qed.

Lemma ledger_data_in_safe ep : safe (I true) (data_in ep).
Proof.
  apply for_classes_safe. intros i ret Hi. cbn zeta. apply safe_bind; [apply safe_lift; by eexists|].
  intros []. cbn [ci_data_in class_info]. apply safe_if; intros _; [|apply safe_ret].
  apply safe_bind; [|intro; apply safe_ret]. apply with_hid_safe; [lia|]. apply hid_data_in_safe.
Qed.

(** The packet of an endpoint. *)
Lemma xfer_returns r i :
  0 <= i < IO_USB_MAX_ENDPOINTS ->
  forall {B} (k : option (list Z) -> Z -> L B),
  (forall b n, packet_fits b n -> safe (I r) (k b n)) ->
  safe (I r) (let! bs := led xfer_buffer in
              let! ls := led xfer_len in
              let! b := mlift (bs !! Z.to_nat i) in
              let! len := mlift (ls !! Z.to_nat i) in k b len).
Proof.
  intros Hi B k Hk u Hu. apply wp_bind, wp_gets, wp_bind, wp_gets. pose proof Hu as [_ _ [[Hl Hnb] _] _ _].
  pose proof (li_buffer _ Hl) as H1. pose proof (li_len _ Hl) as H2. unfold zlen in *.
  destruct (lookup_lt_is_Some_2 (xfer_buffer (usb_class u)) (Z.to_nat i)) as [b Hb]; [lia|].
  destruct (lookup_lt_is_Some_2 (xfer_len (usb_class u)) (Z.to_nat i)) as [n Hn]; [lia|].
  apply wp_bind, (wp_lift _ _ _ _ Hb), wp_bind, (wp_lift _ _ _ _ Hn).
  apply Hk; [|done]. by apply (li_packets _ Hl (Z.to_nat i)).
Qed.

Lemma ledger_data_out_safe ep : safe (I true) (data_out ep).
Proof.
  apply for_classes_safe. intros i ret Hi. cbn zeta. apply safe_bind; [apply safe_lift; by eexists|].
  intros []. cbn [ci_data_out class_info ep_out_addr]. apply safe_if; [|intros _; apply safe_ret].
  intros E. apply Z.eqb_eq in E. rewrite <- E. apply xfer_returns; [done|]. intros b n Hb.
  apply safe_bind; [|intro; apply safe_ret]. apply with_hid_safe; [lia|]. by apply hid_data_out_safe.
Qed.

Lemma strings_ok r s n :
  strlen s = Some n -> n <= 19 -> returns (I r) (string_in s) desc_ok.
Proof.
  intros Hs Hn. pose proof (strlen_nonneg s n Hs). destruct (strlen_split s n Hs) as (t & rest & -> & Ht & Hl).
  apply led_get. intros l [Hinv _]. pose proof (li_string l Hinv) as Hb. unfold USBD_MAX_STR_DESC_SIZ in Hb.
  pose proof (get_string_ok t rest (string_desc l) Ht ltac:(lia) ltac:(lia)) as E. intros u Hu.
  apply wp_bind, (wp_lift _ _ _ _ E).
  assert (zlen (string_desc_bytes t ++ zdrop (2 * zlen t + 2) (string_desc l)) = 48) as Hlen.
  { unfold string_desc_bytes. rewrite !zlen_app, utf16_zlen, zlen_zdrop by lia.
    change (zlen [_; _]) with 2. lia. }
  apply (wp_safe_bind (I r)); [|done|].
  - apply led_upd_safe. intros l' []. by split; [constructor|].
  - intros _ u' Hu'. split; [done|]. unfold desc_ok. cbn [fst snd]. lia.
Qed.

Lemma product_ok r speed : returns (I r) (USBD_get_descriptor_product speed) desc_ok.
Proof.
  unfold USBD_get_descriptor_product. apply returns_bind_safe; [apply led_safe|]. intros [].
  - apply led_get. intros l [Hl _]. destruct (li_name l Hl) as (n & Hn & Hle). by apply (strings_ok r _ n).
  - apply led_get. intros l _. apply returns_ret. unfold desc_ok. cbn. pose proof (zlen_nonneg (string_desc l)). lia.
Qed.

Lemma device_desc_ok r speed : returns (I r) (USBD_get_descriptor_device speed) desc_ok.
Proof.
  unfold USBD_get_descriptor_device. do 4 (apply returns_bind_safe; [apply led_safe|]; intros ?).
  assert (forall d, zlen d = 18 -> returns (I r) (do! led_upd (set_device_desc d) in mret (d, zlen d)) desc_ok)
    as Hend.
  { intros d Hd. apply returns_bind_safe.
    - apply led_upd_safe. intros l' []. by split; [constructor|].
    - intros _. apply returns_ret. unfold desc_ok. cbn [fst snd]. lia. }
  destruct (truthy _); intros u Hu;
    (apply wp_bind; eapply wp_lift; [reflexivity|]; apply wp_bind; eapply wp_lift; [reflexivity|];
     apply wp_bind; eapply wp_lift; [reflexivity|]; by apply Hend).
Qed.
End contract.

(** ** The forged descriptors *)

(** The descriptors of the interface [i]. *)
Definition hid_interface (i : Z) : list Z :=
  ztake 2 LEDGER_HID_descriptors ++ [i] ++ zdrop 3 LEDGER_HID_descriptors.

Definition config_length (n : nat) : Z := 9 + 32 * Z.of_nat n.

Definition config_descriptor (n : nat) : list Z :=
  [0x09; USB_DESC_TYPE_CONFIGURATION; config_length n; 0x00; Z.of_nat n; 0x01; USBD_IDX_PRODUCT_STR; 0xC0; 0x32]
  ++ concat (map (fun i => hid_interface (Z.of_nat i)) (seq 0 n)).

Definition forged_state (d : list Z) (n : Z) (u : usb usbd_ledger_t) : usb usbd_ledger_t :=
  set_usb_class (set_descriptor_size n (set_descriptor d (usb_class u))) u.

Lemma cfg_desc_ok n rest u :
  (n <= 4)%nat -> nb_of_class (usb_class u) = Z.of_nat n ->
  class_list (usb_class u) = replicate n (Some USBD_LEDGER_HID_class_info) ++ rest ->
  let d := config_descriptor n ++ zeros (MAX_DESCRIPTOR_SIZE - config_length n) in
  get_cfg_desc u = Ret (d, config_length n) (forged_state d (config_length n) u).
Proof.
  destruct u as [p i o io []]. cbn [usb_class nb_of_class class_list]. intros Hn -> ->.
  do 5 (destruct n as [|n]; [reflexivity|]). lia.
Qed.

Lemma bos_desc_ok n rest speed u :
  (n <= 4)%nat -> nb_of_class (usb_class u) = Z.of_nat n ->
  class_list (usb_class u) = replicate n (Some USBD_LEDGER_HID_class_info) ++ rest ->
  let d := [0x05; USB_DESC_TYPE_BOS; 0x05; 0x00; 0x02] ++ zeros (MAX_DESCRIPTOR_SIZE - 5) in
  get_bos_desc speed u = Ret (d, 5) (forged_state d 5 u).
Proof.
  destruct u as [p i o io []]. cbn [usb_class nb_of_class class_list]. intros Hn -> ->.
  do 5 (destruct n as [|n]; [reflexivity|]). lia.
Qed.

Lemma classes_form l : ledger_inv l ->
  exists n rest, (n <= 4)%nat /\ nb_of_class l = Z.of_nat n /\
    class_list l = replicate n (Some USBD_LEDGER_HID_class_info) ++ rest.
Proof.
  intros Hl. pose proof (li_nb l Hl) as Hnb. unfold USBD_MAX_NUM_INTERFACES in Hnb.
  exists (Z.to_nat (nb_of_class l)), (drop (Z.to_nat (nb_of_class l)) (class_list l)).
  split; [lia|]. split; [lia|]. rewrite <- (take_drop (Z.to_nat (nb_of_class l)) (class_list l)) at 1. f_equal.
  apply list_eq. intros i. destruct (Nat.lt_ge_cases i (Z.to_nat (nb_of_class l))) as [Hi|Hi].
  - rewrite lookup_take_lt, lookup_replicate_2 by lia. rewrite <- (Nat2Z.id i). apply (li_classes l Hl). lia.
  - rewrite lookup_take_ge by lia. symmetry. apply lookup_ge_None_2. rewrite length_replicate. lia.
Qed.

Lemma forged_at r x y d n u :
  zlen d = MAX_DESCRIPTOR_SIZE -> usb_at (class_at ledger_inv ledger_ready r) x y u ->
  usb_at (class_at ledger_inv ledger_ready r) x y (forged_state d n u).
Proof. intros Hd Hu. apply class_put_at; [done|]. destruct Hu as [_ _ [[] H2] _ _]. by split; [constructor|]. Qed.

Lemma config_zlen n : (n <= 4)%nat -> zlen (config_descriptor n) = config_length n.
Proof. intros Hn. do 5 (destruct n as [|n]; [reflexivity|]). lia. Qed.

Lemma cfg_desc_returns r x y :
  returns (usb_at (class_at ledger_inv ledger_ready r) x y) get_cfg_desc (fun d => desc_ok d /\ 2 <= zlen d.1).
Proof.
  intros u Hu. pose proof Hu as [_ _ [Hl _] _ _]. destruct (classes_form _ Hl) as (n & rest & Hn & Hnb & Hc).
  unfold wp. rewrite (cfg_desc_ok n rest u Hn Hnb Hc).
  set (d := config_descriptor n ++ _). assert (zlen d = MAX_DESCRIPTOR_SIZE) as Hd.
  { unfold d. rewrite zlen_app, (config_zlen n Hn), zlen_zeros; unfold config_length, MAX_DESCRIPTOR_SIZE; lia. }
  split; [by apply forged_at|]. unfold desc_ok. cbn [fst snd]. rewrite Hd.
  unfold config_length, MAX_DESCRIPTOR_SIZE. lia.
Qed.

Lemma bos_desc_returns r x y speed :
  returns (usb_at (class_at ledger_inv ledger_ready r) x y) (get_bos_desc speed) desc_ok.
Proof.
  intros u Hu. pose proof Hu as [_ _ [Hl _] _ _]. destruct (classes_form _ Hl) as (n & rest & Hn & Hnb & Hc).
  unfold wp. rewrite (bos_desc_ok n rest speed u Hn Hnb Hc).
  split; [by apply forged_at|]. done.
Qed.

Lemma serial_ok r x y speed :
  returns (usb_at (class_at ledger_inv ledger_ready r) x y) (USBD_get_descriptor_serial speed) desc_ok.
Proof.
  apply returns_nb. intros nb. apply led_get. intros l [Hl _]. pose proof (li_serial l Hl) as Hs. intros u Hu.
  apply wp_bind. eapply wp_lift; [apply write_at_ok; [done|rewrite Hs; done]|].
  set (d := ztake _ _ ++ _). assert (zlen d = 30) as Hd.
  { unfold d. rewrite !zlen_app, zlen_zdrop by (rewrite Hs; done). rewrite Hs. done. }
  apply (wp_safe_bind (usb_at (class_at (ledger_nb nb) ledger_ready r) x y)); [|done|].
  - apply led_upd_safe. intros l' []. by split; [constructor|].
  - intros _ u' Hu'. split; [done|]. unfold desc_ok. cbn [fst snd]. rewrite Hd. done.
Qed.

(** The stack keeps the contract of the core. *)
#[export] Program Instance USBD_LEDGER_laws : USBD_ClassLaws usbd_ledger_t := {
  class_inv := ledger_inv;
  class_ready := ledger_ready;
}.
Next Obligation.
  exists init. split; [done|]. intros r x y cfg u Hu.
  eapply wp_mono; [apply (init_wp (nb_of_class (usb_class u)) x y r)|].
  - destruct Hu as [? ? [] ? ?]. by constructor.
  - intros a u' [-> Hu']. split; [done|]. revert Hu'. apply usb_at_mono. by intros c [[] ?].
Qed.
Next Obligation. exists de_init. split; [done|]. intros. apply safe_nb. intros. apply de_init_safe. Qed.
Next Obligation. exists setup. split; [done|]. intros. apply safe_nb. intros. by apply setup_safe. Qed.
Next Obligation. done. Qed.
Next Obligation. intros f [= <-] r x y. apply safe_ret. Qed.
Next Obligation. intros f [= <-] x y ep _. apply safe_nb. intros. apply ledger_data_in_safe. Qed.
Next Obligation. intros f [= <-] x y ep _. apply safe_nb. intros. apply ledger_data_out_safe. Qed.
Next Obligation. done. Qed.
Next Obligation.
  intros get Hget. destruct Hget as [->|[->|[->| ->]]]; (exists get_cfg_desc; split; [done|]; intros; apply cfg_desc_returns)
    || (exists get_dev_qualifier_desc; split; [done|]; intros; by apply returns_ret).
Qed.
Next Obligation.
  exists USBD_get_descriptor_device. split; [done|]. intros. apply returns_nb. intros. apply device_desc_ok.
Qed.
Next Obligation.
  intros get Hget f Hf r x y speed.
  destruct Hget as [->|[->|[->|[->|[->|[->| ->]]]]]]; injection Hf as <-.
  - unfold USBD_get_descriptor_BOS. apply returns_bind_safe; [apply safe_gets|]. intros [].
    + apply bos_desc_returns.
    + by apply returns_ret.
  - by apply returns_ret.
  - apply returns_nb. intros. by apply (strings_ok nb x y r _ 6).
  - apply returns_nb. intros. by apply product_ok.
  - apply serial_ok.
  - apply returns_nb. intros. by apply product_ok.
  - apply returns_nb. intros. by apply product_ok.
Qed.

(** * The events of the controller *)

Lemma insert_at {A} (l : list A) i v :
  zlen l = IO_USB_MAX_ENDPOINTS -> 0 <= i < IO_USB_MAX_ENDPOINTS ->
  write_at l i [v] = Some (<[Z.to_nat i := v]> l).
Proof.
  intros Hlen Hi. rewrite write_at_ok by (rewrite ?zlen_cons, ?(@zlen_nil A); lia).
  rewrite insert_take_drop by (unfold zlen in Hlen; lia). unfold ztake, zdrop. cbn [app].
  f_equal. f_equal. f_equal. rewrite (zlen_cons v []), (@zlen_nil A). f_equal. lia.
Qed.

Section events.
Context (r : bool) (x : Z) (y : Z * Z).
Abbreviation I := (usb_at (class_at ledger_inv ledger_ready r) x y).

Lemma with_hid_returns nb {A} (m : M (usb ledger_hid_handle_t) A) Q :
  0 < nb -> returns (usb_at (class_at hid_inv hid_ready r) x y) m Q ->
  returns (usb_at (class_at (ledger_nb nb) ledger_ready r) x y) (with_hid m) Q.
Proof.
  intros Hnb Hm u Hu. eapply wp_mono; [apply (with_hid_wp nb x y r r _ Q); [done|]|].
  - eapply wp_mono; [apply Hm; by apply (hid_view_at nb)|]. by intros a v [].
  - by intros a u' [].
Qed.

Lemma data_ready_returns buffer max_length :
  max_length <= zlen buffer ->
  returns I (USBD_LEDGER_data_ready buffer max_length) (fun p => zlen p.2 = zlen buffer).
Proof.
  intros Hmax. unfold USBD_LEDGER_data_ready.
  apply (returns_bind _ _ (fun p => zlen p.2 = zlen buffer)).
  - apply returns_nb. intros nb.
    eapply returns_mono; [apply (for_classes_returns nb x y r _ (fun _ p => zlen p.2 = zlen buffer)); [done|]|].
    + intros i [status b] Hi Hb. cbn in Hb. apply returns_bind_safe; [apply safe_lift; by eexists|]. intros [].
      cbn [ci_data_ready class_info]. apply (returns_bind _ _ (fun p => zlen p.2 = zlen buffer)).
      * apply with_hid_returns; [lia|]. rewrite <- Hb. apply hid_data_ready_returns. lia.
      * intros [st b'] Hb'. by apply returns_ret.
    + intros p (j & _ & Hp). done.
  - intros [st b] Hb. by apply returns_ret.
Qed.

(** The packet that was received is handed to the stack. *)
Lemma xfer_set_safe i (buffer : list Z) length {B} (k : L B) Q :
  0 <= i < IO_USB_MAX_ENDPOINTS -> packet_fits (Some buffer) length ->
  returns I k Q ->
  returns I (let! ls := led xfer_len in
             let! ls := mlift (write_at ls i [length]) in
             do! led_upd (set_xfer_len ls) in
             let! bs := led xfer_buffer in
             let! bs := mlift (write_at bs i [Some buffer]) in
             do! led_upd (set_xfer_buffer bs) in k) Q.
Proof.
  intros Hi Hp Hk u Hu. pose proof Hu as [_ _ [Hl _] _ _].
  pose proof (li_len _ Hl) as H1. pose proof (li_buffer _ Hl) as H2.
  apply wp_bind, wp_gets, wp_bind, (wp_lift _ _ _ _ (insert_at _ i length H1 Hi)), wp_bind, wp_modify.
  apply wp_bind, wp_gets, wp_bind, (wp_lift _ _ _ _ (insert_at _ i (Some buffer) H2 Hi)), wp_bind, wp_modify, Hk.
  destruct Hu as [Hio Hd [_ Hr] Hx Hy]. constructor; try done. split; [|done].
  destruct Hl. constructor; try done.
  - by rewrite <- li_len0; cbn; unfold zlen; rewrite length_insert.
  - by rewrite <- li_buffer0; cbn; unfold zlen; rewrite length_insert.
  - intros j b n. cbn. unfold zlen in *. intros Hb Hn. destruct (decide (Z.to_nat i = j)) as [<-|Hne].
    + rewrite list_lookup_insert_eq in Hb by lia. rewrite list_lookup_insert_eq in Hn by lia. by simplify_eq.
    + rewrite list_lookup_insert_ne in Hb by done. rewrite list_lookup_insert_ne in Hn by done. by apply (li_packets0 j).
Qed.
End events.

(** The events of the bus that a packet of the controller stands for. *)
Definition bus_events (b : list Z) : list usb_event :=
  match b !! 1%nat, b !! 4%nat, b !! 5%nat with
  | Some tag, Some ev, Some kind =>
      let ep := Z.land ev 0x7F in
      if tag =? SEPROXYHAL_TAG_USB_EVENT then
        if ev =? SEPROXYHAL_TAG_USB_EVENT_RESET then [EvSpeed USBD_SPEED_FULL; EvReset]
        else if ev =? SEPROXYHAL_TAG_USB_EVENT_SOF then [EvSOF]
        else if ev =? SEPROXYHAL_TAG_USB_EVENT_SUSPENDED then [EvSuspend]
        else if ev =? SEPROXYHAL_TAG_USB_EVENT_RESUMED then [EvResume]
        else []
      else if tag =? SEPROXYHAL_TAG_USB_EP_XFER_EVENT then
        if kind =? SEPROXYHAL_TAG_USB_EP_XFER_SETUP then [EvSetup (drop 7 b)]
        else if kind =? SEPROXYHAL_TAG_USB_EP_XFER_IN then
          if ep <? IO_USB_MAX_ENDPOINTS then [EvDataIn ep] else []
        else if kind =? SEPROXYHAL_TAG_USB_EP_XFER_OUT then
          if ep <? IO_USB_MAX_ENDPOINTS then [EvDataOut ep] else []
        else []
      else []
  | _, _, _ => []
  end.

(** A packet the stack answers in the state [s]: it has the bytes that are
    read, the events it stands for may happen, and the data of the host fit
    the buffers. *)
Definition seph_event_ok (s : ch9_state) (b : list Z) (len : Z) : Prop :=
  7 <= zlen b /\ events_ok s (bus_events b) /\
  (b !! 5%nat = Some SEPROXYHAL_TAG_USB_EP_XFER_OUT ->
   forall n, b !! 6%nat = Some n -> packet_fits (Some (drop 7 b)) (w16 (Z.min n (len - 6)))).

Lemma dev_is_returns {A} (m : L A) Q s u :
  (forall r x y, returns (usb_at (class_at ledger_inv ledger_ready r) x y) m Q) ->
  dev_is s u -> wp m (fun a u' => dev_is s u' /\ Q a) u.
Proof.
  intros Hm (x & o & (r & c & Hu & Hrd) & Hs). apply (wp_mono _ _ _ _ (Hm r x (o, c) u Hu)).
  intros a u' [Hu' Ha]. split; [|done]. exists x, o. split; [|done]. by exists r, c.
Qed.

(** One event of the bus, whatever follows it. *)
Lemma event_wp {A} (e : usb_event) (k : L A) s Q u :
  dev_is s u -> event_ok s e -> (forall u', dev_is (ch9_step s e) u' -> wp k Q u') ->
  wp (do! usb_step e in k) Q u.
Proof.
  intros Hu He Hk. apply wp_bind, (wp_mono _ _ _ _ (step_refines e s u Hu He)). intros _ u' Hu'. by apply Hk.
Qed.

Lemma byte_at (b : list Z) i : (i < 7)%nat -> 7 <= zlen b -> exists v, b !! i = Some v.
Proof. intros Hi Hb. apply lookup_lt_is_Some. unfold zlen in Hb. lia. Qed.

Lemma rx_usb_event_wp ev s u :
  dev_is s u ->
  let es := (if ev =? SEPROXYHAL_TAG_USB_EVENT_RESET then [EvSpeed USBD_SPEED_FULL; EvReset]
        else if ev =? SEPROXYHAL_TAG_USB_EVENT_SOF then [EvSOF]
        else if ev =? SEPROXYHAL_TAG_USB_EVENT_SUSPENDED then [EvSuspend]
        else if ev =? SEPROXYHAL_TAG_USB_EVENT_RESUMED then [EvResume]
        else []) in
  events_ok s es -> wp (rx_usb_event ev) (fun _ => dev_is (fold_left ch9_step es s)) u.
Proof.
  intros Hu. unfold rx_usb_event. destruct (ev =? SEPROXYHAL_TAG_USB_EVENT_RESET); [|
    destruct (ev =? SEPROXYHAL_TAG_USB_EVENT_SOF); [|
    destruct (ev =? SEPROXYHAL_TAG_USB_EVENT_SUSPENDED); [|
    destruct (ev =? SEPROXYHAL_TAG_USB_EVENT_RESUMED)]]]; cbn [events_ok fold_left].
  - intros (H1 & H2 & _). apply wp_bind, (event_wp (EvSpeed USBD_SPEED_FULL) _ s); [done..|]. intros u1 Hu1.
    by apply (event_wp EvReset _ s).
  - intros (H1 & _). by apply wp_bind, (event_wp EvSOF _ s).
  - intros (H1 & _). by apply wp_bind, (event_wp EvSuspend _ s).
  - intros (H1 & _). by apply wp_bind, (event_wp EvResume _ s).
  - done.
Qed.

Lemma rx_data_out_returns r x y ep data len apdu max :
  (configured x y.1 -> r = true) ->
  0 <= ep < IO_USB_MAX_ENDPOINTS -> packet_fits (Some data) len -> max <= zlen apdu ->
  Z.land ep 0x7F = ep ->
  returns (usb_at (class_at ledger_inv ledger_ready r) x y)
    (do! USBD_LEDGER_rx_evt_data_out ep data len in USBD_LEDGER_data_ready apdu max)
    (fun p => zlen p.2 = zlen apdu).
Proof.
  intros Hrd Hep Hp Hmax Hl. apply returns_bind_safe; [|intros _; by apply data_ready_returns].
  unfold USBD_LEDGER_rx_evt_data_out. rewrite Hl. eapply returns_safe.
  apply (xfer_set_safe r x y ep data len _ (fun _ => True)); [done..|]. apply safe_returns.
  apply safe_bind; [|intros; apply safe_ret]. exact (data_out_safe (C := usbd_ledger_t) (r := r) x y ep Hep Hrd).
Qed.

Lemma rx_xfer_event_wp b ev kind len apdu max s u :
  dev_is s u -> max <= zlen apdu ->
  let ep := Z.land ev 0x7F in
  let es := (if kind =? SEPROXYHAL_TAG_USB_EP_XFER_SETUP then [EvSetup (drop 7 b)]
        else if kind =? SEPROXYHAL_TAG_USB_EP_XFER_IN then
          if ep <? IO_USB_MAX_ENDPOINTS then [EvDataIn ep] else []
        else if kind =? SEPROXYHAL_TAG_USB_EP_XFER_OUT then
          if ep <? IO_USB_MAX_ENDPOINTS then [EvDataOut ep] else []
        else []) in
  events_ok s es -> (kind = SEPROXYHAL_TAG_USB_EP_XFER_OUT -> packet_fits (Some (drop 7 b)) len) ->
  wp (rx_xfer_event ep kind (drop 7 b) len apdu max)
    (fun p u' => dev_is (fold_left ch9_step es s) u' /\ zlen p.2 = zlen apdu) u.
Proof.
  intros Hu Hmax ep. unfold rx_xfer_event.
  destruct (kind =? SEPROXYHAL_TAG_USB_EP_XFER_SETUP).
  { intros (H1 & _) _. by apply wp_bind, (event_wp (EvSetup (drop 7 b)) _ s). }
  destruct (kind =? SEPROXYHAL_TAG_USB_EP_XFER_IN).
  { destruct (ep <? IO_USB_MAX_ENDPOINTS); [|done]. intros (H1 & _) _.
    by apply wp_bind, (event_wp (EvDataIn ep) _ s). }
  destruct (Z.eqb_spec kind SEPROXYHAL_TAG_USB_EP_XFER_OUT) as [E|]; [|done].
  destruct (ep <? IO_USB_MAX_ENDPOINTS); [|done]. intros (H1 & _) Hp. cbn [fold_left ch9_step].
  destruct Hu as (x & o & (r & c & Hu & Hrd) & Hs).
  assert (Z.land ep 0x7F = ep) as Hep by (unfold ep; by rewrite <- Z.land_assoc).
  apply (wp_mono _ _ _ _ (rx_data_out_returns r x (o, c) ep (drop 7 b) len apdu max Hrd H1 (Hp E) Hmax Hep u Hu)).
  intros p u' [Hu' Hz]. split; [|done]. exists x, o. split; [by exists r, c|done].
Qed.

Lemma seph_evt_wp b len apdu max s u :
  dev_is s u -> seph_event_ok s b len -> max <= zlen apdu ->
  wp (USBD_LEDGER_rx_seph_evt b len apdu max)
    (fun p u' => dev_is (fold_left ch9_step (bus_events b) s) u' /\ zlen p.2 = zlen apdu) u.
Proof.
  intros Hu (Hb & Hes & Hp) Hmax. unfold USBD_LEDGER_rx_seph_evt, bus_events in *.
  destruct (byte_at b 1) as [tag E1]; [lia|done|]. destruct (byte_at b 4) as [ev E4]; [lia|done|].
  destruct (byte_at b 5) as [kind E5]; [lia|done|]. destruct (byte_at b 6) as [n E6]; [lia|done|].
  rewrite E1, E4, E5 in *. cbv zeta in *. apply wp_bind, (wp_lift _ tag); [done|].
  destruct (tag =? SEPROXYHAL_TAG_USB_EVENT).
  - apply wp_bind, (wp_lift _ ev); [done|]. apply wp_bind, (wp_mono _ _ _ _ (rx_usb_event_wp ev s u Hu Hes)).
    by intros st u' Hu'.
  - destruct (tag =? SEPROXYHAL_TAG_USB_EP_XFER_EVENT); [|done].
    apply wp_bind, (wp_lift _ ev); [done|]. apply wp_bind, (wp_lift _ n); [done|].
    apply wp_bind, (wp_lift _ kind); [done|]. apply (rx_xfer_event_wp b ev kind _ apdu max s u); [done..|].
    intros ->. by apply Hp.
Qed.

(** The packets of the controller, one after the other; [apdu] is the buffer
    of the caller. *)
Fixpoint seph_run (bs : list (list Z * Z)) (apdu : list Z) (max : Z) : L (list Z) :=
  match bs with
  | [] => mret apdu
  | (b, len) :: bs =>
      let! (_, apdu) := USBD_LEDGER_rx_seph_evt b len apdu max in seph_run bs apdu max
  end.

Fixpoint seph_run_ok (s : ch9_state) (bs : list (list Z * Z)) : Prop :=
  match bs with
  | [] => True
  | (b, len) :: bs => seph_event_ok s b len /\ seph_run_ok (fold_left ch9_step (bus_events b) s) bs
  end.

Lemma seph_run_wp bs apdu max s u :
  dev_is s u -> seph_run_ok s bs -> max <= zlen apdu ->
  wp (seph_run bs apdu max)
    (fun apdu' u' => dev_is (fold_left ch9_step (concat (map (fun b => bus_events b.1) bs)) s) u' /\
       zlen apdu' = zlen apdu) u.
Proof.
  revert apdu s u. induction bs as [|[b len] bs IHb]; intros apdu s u Hu Hok Hmax; cbn [seph_run]; [done|].
  destruct Hok as [Hb Hok]. cbn [map concat]. rewrite fold_left_app.
  apply wp_bind, (wp_mono _ _ _ _ (seph_evt_wp b len apdu max s u Hu Hb Hmax)).
  intros [st apdu'] u' [Hu' Hz]. cbn in Hz. rewrite <- Hz. apply IHb; [done|done|lia].
Qed.

(** * The start of the stack *)

(** The buffers of the stack, which a restart keeps. *)
Definition static_ok (l : usbd_ledger_t) : Prop :=
  hid_inv (hid_handle l) /\ zlen (descriptor l) = MAX_DESCRIPTOR_SIZE /\
  zlen (string_desc l) = USBD_MAX_STR_DESC_SIZ /\ zlen (serial_desc l) = 30.

Lemma strlcpy_ok dst src n : strlen src = Some n -> 1 <= zlen dst ->
  exists d k, strlcpy dst src = Some d /\ zlen d = zlen dst /\ strlen d = Some k /\ k <= zlen dst - 1.
Proof.
  intros Hn Hd. pose proof (strlen_nonneg _ _ Hn). destruct (strlen_split _ _ Hn) as (t & rest & -> & Ht & Hl).
  unfold strlcpy. rewrite Hn. cbn. set (k := Z.min n (zlen dst - 1)).
  assert (ztake k (t ++ 0 :: rest) = ztake k t) as ->
    by (unfold ztake; rewrite take_app_le; [done|unfold zlen, k in *; lia]).
  assert (zlen (ztake k t) = k) as Hk by (apply zlen_ztake; lia).
  assert (zlen (ztake k t ++ [0]) = k + 1) as Hk' by (rewrite zlen_app, Hk; done).
  assert (write_at dst 0 (ztake k t ++ [0]) = Some (ztake k t ++ 0 :: zdrop (k + 1) dst)) as E.
  { rewrite write_at_ok by lia. rewrite ztake_0, Hk'. by rewrite <- app_assoc. }
  exists (ztake k t ++ 0 :: zdrop (k + 1) dst), k. rewrite E. split; [done|].
  split; [by apply write_at_length in E|]. split; [|lia].
  assert (forall p q, Forall (fun c => c <> 0) p -> strlen (p ++ 0 :: q) = Some (zlen p)) as Hs.
  { clear. intros p q. induction 1 as [|c p Hc Hp IH]; [done|]. cbn [app strlen].
    destruct (Z.eqb_spec c 0); [done|]. rewrite IH, zlen_cons. cbn. f_equal. lia. }
  rewrite Hs, Hk; [done|]. by apply Forall_take.
Qed.

(** The device and the stack once the classes were set up. *)
Definition started_device : USBD_HandleTypeDef :=
  set_pClass true (set_dev_id 0 (set_dev_state USBD_STATE_DEFAULT (set_pDesc true (set_pClass false initial_device)))).

Definition start_vid (i : os_io_init_usb_t) : Z := if truthy (init_vid i) then init_vid i else USBD_LEDGER_VID.
Definition start_pid (i : os_io_init_usb_t) : Z := if truthy (init_pid i) then init_pid i else 0.

Lemma linked_hid mask : 0 <= mask < 65536 -> Z.testbit mask 0 = true ->
  linked_classes mask <> 0 /\ truthy (Z.land (linked_classes mask) USBD_LEDGER_CLASS_HID) = true.
Proof.
  intros Hm Hb. assert (Z.testbit (linked_classes mask) 0 = true) as Hb'
    by (unfold linked_classes; by rewrite !Z.ldiff_spec, Hb).
  split; [by intros E; rewrite E in Hb'|]. unfold truthy. destruct (Z.eqb_spec (Z.land (linked_classes mask) USBD_LEDGER_CLASS_HID) 0) as [E|]; [|done].
  assert (Z.testbit (Z.land (linked_classes mask) USBD_LEDGER_CLASS_HID) 0 = true) as Ht
    by (by rewrite Z.land_spec, Hb'). by rewrite E in Ht.
Qed.

Lemma led_run {A B} (f : usbd_ledger_t -> A) (k : A -> L B) u :
  mbind (led f) k u = k (f (usb_class u)) u.
Proof. done. Qed.

Lemma led_upd_run {B} f (k : unit -> L B) u :
  mbind (led_upd f) k u = k tt (set_usb_class (f (usb_class u)) u).
Proof. done. Qed.

(** The stack after a forced restart, and once it is set up with the name
    [d]. *)
Definition restarted (i : os_io_init_usb_t) (u : usb usbd_ledger_t) : usb usbd_ledger_t :=
  set_usb_class (set_init_data i (set_ledger_state USBD_LEDGER_STATE_STOPPED (cleared_ledger (usb_class u))))
    (set_pdev initial_device u).

Definition with_descriptors (l : usbd_ledger_t) : usbd_ledger_t :=
  set_desc_bos true (set_desc_iad (usbd_iad l) (set_desc_product_str true
    (set_desc_pid (pid l) (set_desc_vid (vid l) (set_desc_bcdusb (bcdusb l) l))))).

Definition ready_ledger (i : os_io_init_usb_t) (d : list Z) (l : usbd_ledger_t) : usbd_ledger_t :=
  with_descriptors (set_classes (init_class_mask i) (set_nb_of_class 1
    (set_class_list [Some USBD_LEDGER_HID_class_info; None; None; None]
      (set_pid (start_pid i) (set_vid (start_vid i) (set_name d
        (set_nb_of_class 0 (set_usbd_iad 0 (set_bcdusb 0 l))))))))).

Lemma desc_init_ok u : desc_init u = Ret tt (set_usb_class (with_descriptors (usb_class u)) u).
Proof. reflexivity. Qed.

Definition config_bytes (n : nat) : list Z := config_descriptor n ++ zeros (MAX_DESCRIPTOR_SIZE - config_length n).

Definition reconfigured (i : os_io_init_usb_t) (d : list Z) (u : usb usbd_ledger_t) : usb usbd_ledger_t :=
  forged_state (config_bytes 1) (config_length 1)
    (mk_usb started_device 0 0 (usb_io u) (ready_ledger i d (usb_class u))).

Lemma reconfigure_ok i n d u :
  strlen (init_name i) = Some n -> strlcpy (zeros 20) (init_name i) = Some d ->
  truthy (Z.land (init_class_mask i) USBD_LEDGER_CLASS_HID) = true ->
  name (usb_class u) = zeros 20 -> class_list (usb_class u) = replicate 4 None ->
  ledger_state (usb_class u) = USBD_LEDGER_STATE_STOPPED -> product (usb_class u) = 0 ->
  pdev u = initial_device ->
  reconfigure i u = Ret tt (reconfigured i d u).
Proof.
  intros Hn Hd Hm Hname Hcl Hst Hp Hdev. destruct u as [p si so io l]. cbn [usb_class pdev] in *. subst p.
  unfold reconfigure. rewrite led_run. cbn [usb_class]. rewrite Hst.
  change (USBD_LEDGER_STATE_STOPPED =? USBD_LEDGER_STATE_RUNNING) with false. cbv iota.
  rewrite (mbind_ret (mret tt) _ _ tt _) by done.
  rewrite led_upd_run, (mlift_some _ _ _ _ Hn), led_run. cbn [usb_class set_usb_class].
  change (name (set_nb_of_class 0 (set_usbd_iad 0 (set_bcdusb 0 l)))) with (name l).
  rewrite Hname, (mlift_some _ _ _ _ Hd), !led_upd_run, led_run.
  rewrite led_upd_run, Hm. cbn [usb_class set_usb_class].
  change (product _) with (product l). rewrite Hp. change (w16 0) with 0.
  fold (start_vid i) (start_pid i).
  set (l1 := set_pid _ _).
  rewrite (mbind_ret _ _ _ tt (mk_usb initial_device si so io
    (set_nb_of_class 1 (set_class_list [Some USBD_LEDGER_HID_class_info; None; None; None] l1)))).
  2: { unfold add_class. rewrite !led_run. cbn [usb_class set_usb_class].
    change (nb_of_class l1) with 0. change (class_list l1) with (class_list l). by rewrite Hcl. }
  rewrite led_upd_run. cbn [usb_class set_usb_class].
  change (set_usb_class ?l (mk_usb initial_device si so io _)) with (mk_usb initial_device si so io l).
  set (l2 := set_classes _ _). set (l3 := ready_ledger i d l).
  rewrite (mbind_ret _ _ _ _ _ (desc_init_ok _)). cbn [usb_class set_usb_class].
  change (with_descriptors l2) with l3.
  change (set_usb_class l3 (mk_usb initial_device si so io l2)) with (mk_usb initial_device si so io l3).
  set (p := set_dev_id 0 (set_dev_state USBD_STATE_DEFAULT (set_pDesc true (set_pClass false initial_device)))).
  rewrite (mbind_ret (USBD_Init true 0) _ _ USBD_OK (mk_usb p 0 0 io l3)) by done.
  rewrite (mbind_ret (USBD_RegisterClass true) _ _ USBD_OK (reconfigured i d (mk_usb initial_device si so io l))).
  { done. }
  unfold USBD_RegisterClass. cbn [negb]. rewrite upd_run.
  pose proof (cfg_desc_ok 1 [None; None; None] (mk_usb started_device 0 0 io l3) ltac:(lia) eq_refl eq_refl) as E.
  cbn [class_GetFSConfigDescriptor USBD_LEDGER_CLASS].
  change (set_pdev (set_pClass true (pdev (mk_usb p 0 0 io l3))) (mk_usb p 0 0 io l3)) with (mk_usb started_device 0 0 io l3).
  unfold mbind at 1. rewrite (mbind_ret _ _ _ _ _ E). done.
Qed.

Definition start_packets : list Z := [0x4F; 0; 2; 0x03; 0] ++ [0x4F; 0; 1; 0x01].

Lemma start_ok (u : usb usbd_ledger_t) : seph_ready (usb_io u) ->
  USBD_Start u = Ret USBD_OK (usb_sent [0x4F; 0; 1; 0x01] (usb_sent [0x4F; 0; 2; 0x03; 0] u)).
Proof.
  intros Hr. unfold USBD_Start, USBD_LL_Start.
  rewrite (mbind_ret _ _ _ _ _ (tx_bytes_ok [0x4F; 0; 2; 0x03; 0] u Hr ltac:(by apply packet_ok_cons))).
  by rewrite (mbind_ret _ _ _ _ _ (tx_bytes_ok [0x4F; 0; 1; 0x01] (usb_sent [0x4F; 0; 2; 0x03; 0] u)
    ltac:(by apply io_sent_ready) ltac:(by apply packet_ok_cons))).
Qed.

Lemma started_inv i j d k l :
  static_ok l -> zlen d = 20 -> strlen d = Some k -> k <= 19 ->
  ledger_inv (set_ledger_state USBD_LEDGER_STATE_RUNNING
    (set_descriptor_size (config_length 1) (set_descriptor (config_bytes 1)
      (ready_ledger i d (set_init_data i (set_init_data j
        (set_ledger_state USBD_LEDGER_STATE_STOPPED (cleared_ledger l)))))))).
Proof.
  intros (H1 & H2 & H3 & H4) Hd Hk Hle. constructor; try done.
  - intros m Hm. change (0 <= m < 1) in Hm. by replace m with 0 by lia.
  - by exists k.
  - intros m b n Hb _. change (replicate 6 None !! m = Some b) in Hb.
    apply lookup_replicate_1 in Hb as [-> _]. by intros p.
Qed.

Lemma started_device_inv : dev_inv started_device.
Proof.
  constructor; try done; try (split; [done|]; by apply Forall_replicate).
  by intros [|[]].
Qed.

(** The stack after a start with the classes and the names of [i]; [d] is the
    buffer of the name. *)
Definition start_init (i : os_io_init_usb_t) : os_io_init_usb_t :=
  set_init_class_mask (linked_classes (init_class_mask i)) i.

Definition started (i : os_io_init_usb_t) (d : list Z) (u : usb usbd_ledger_t) : usb usbd_ledger_t :=
  let u1 := set_usb_class (set_init_data (start_init i) (usb_class (restarted i u))) (restarted i u) in
  let u2 := usb_sent [0x4F; 0; 1; 0x01] (usb_sent [0x4F; 0; 2; 0x03; 0] (reconfigured (start_init i) d u1)) in
  set_usb_class (set_ledger_state USBD_LEDGER_STATE_RUNNING (usb_class u2)) u2.

Lemma start_run i d n u :
  seph_ready (usb_io u) -> strlen (init_name i) = Some n -> strlcpy (zeros 20) (init_name i) = Some d ->
  0 <= init_class_mask i < 65536 -> Z.testbit (init_class_mask i) 0 = true ->
  (do! USBD_LEDGER_init i 1 in USBD_LEDGER_start) u = Ret tt (started i d u).
Proof.
  intros Hr Hn Hd Hm Hb. destruct (linked_hid _ Hm Hb) as [Hnz Hhid].
  unfold started. fold (start_init i).
  set (u1 := set_usb_class (set_init_data (start_init i) (usb_class (restarted i u))) (restarted i u)).
  transitivity (USBD_LEDGER_start (restarted i u)); [reflexivity|].
  unfold USBD_LEDGER_start. rewrite led_upd_run, !led_run.
  change (init_data (usb_class (restarted i u))) with i. fold (start_init i). fold u1.
  change (init_data (usb_class u1)) with (start_init i). change (classes (usb_class u1)) with 0.
  assert ((0 =? init_class_mask (start_init i)) = false) as -> by (apply Z.eqb_neq; cbn; congruence).
  rewrite orb_true_r. cbn [negb orb].
  rewrite (mbind_ret _ _ _ _ _ (reconfigure_ok (start_init i) n d u1 Hn Hd Hhid eq_refl eq_refl eq_refl eq_refl eq_refl)).
  rewrite led_run. change (ledger_state (usb_class _)) with USBD_LEDGER_STATE_STOPPED.
  change (USBD_LEDGER_STATE_STOPPED =? USBD_LEDGER_STATE_STOPPED) with true. cbn [orb].
  by rewrite (mbind_ret _ _ _ _ _ (start_ok (reconfigured (start_init i) d u1) Hr)).
Qed.

Lemma started_default i d k u :
  seph_ready (usb_io u) -> static_ok (usb_class u) -> zlen d = 20 -> strlen d = Some k -> k <= 19 ->
  dev_is Default (started i d u).
Proof.
  intros Hr Hst Hl Hk Hle. exists USBD_STATE_DEFAULT, 0. split; [|done].
  exists false, 0. split; [|by intros [|[]]]. constructor; try done.
  - by apply io_sent_ready; [apply io_sent_ready|].
  - apply started_device_inv.
  - split; [|done]. exact (started_inv (start_init i) i d k (usb_class u) Hst Hl Hk Hle).
Qed.

(** A forced restart with the HID class wanted sets the device up
    whatever its state was: the class is registered, the device is in the
    default state, and the controller is told to connect. *)
Theorem usb_start u (i : os_io_init_usb_t) n :
  seph_ready (usb_io u) -> static_ok (usb_class u) -> strlen (init_name i) = Some n ->
  0 <= init_class_mask i < 65536 -> Z.testbit (init_class_mask i) 0 = true ->
  exists u', (do! USBD_LEDGER_init i 1 in USBD_LEDGER_start) u = Ret tt u' /\
    dev_is Default u' /\ ledger_state (usb_class u') = USBD_LEDGER_STATE_RUNNING /\
    nb_of_class (usb_class u') = 1 /\ vid (usb_class u') = start_vid i /\ pid (usb_class u') = start_pid i /\
    usb_out u' = usb_out u ++ start_packets.
Proof.
  intros Hr Hst Hn Hm Hb. destruct (strlcpy_ok (zeros 20) _ _ Hn ltac:(done)) as (d & k & Hd & Hl & Hk & Hle).
  exists (started i d u). split; [by apply (start_run i d n)|].
  split; [by apply (started_default i d k)|]. split_and!; try done.
  change (io_out (io_sent [0x4F; 0; 1; 0x01] (io_sent [0x4F; 0; 2; 0x03; 0] (usb_io u))) = usb_out u ++ start_packets).
  by rewrite !io_sent_out, <- app_assoc.
Qed.

(** C2: once the stack was started with the HID class, whatever its state was
    before, it answers within its buffers every sequence of packets of the
    controller that [seph_run_ok] admits, keeps every part of its state well
    formed and follows the state machine of chapter 9 from the default state.
    The packets have the seven bytes that are read, their events are admitted
    by [usb_run_refines], and the data from the host are within the packet and
    do not announce an APDU of exactly the size of the buffer. *)
Theorem usb_stack_refines u (i : os_io_init_usb_t) n bs apdu max :
  seph_ready (usb_io u) -> static_ok (usb_class u) -> strlen (init_name i) = Some n ->
  0 <= init_class_mask i < 65536 -> Z.testbit (init_class_mask i) 0 = true ->
  seph_run_ok Default bs -> max <= zlen apdu ->
  wp (do! USBD_LEDGER_init i 1 in do! USBD_LEDGER_start in seph_run bs apdu max)
    (fun apdu' u' => dev_is (fold_left ch9_step (concat (map (fun b => bus_events b.1) bs)) Default) u' /\
       zlen apdu' = zlen apdu) u.
Proof.
  intros Hr Hst Hn Hm Hb Hok Hmax.
  destruct (strlcpy_ok (zeros 20) _ _ Hn ltac:(done)) as (d & k & Hd & Hl & Hk & Hle).
  pose proof (start_run i d n u Hr Hn Hd Hm Hb) as E.
  assert ((do! USBD_LEDGER_init i 1 in do! USBD_LEDGER_start in seph_run bs apdu max) u
    = seph_run bs apdu max (started i d u)) as E'.
  { unfold mbind in *. destruct (USBD_LEDGER_init i 1 u) as [[] u1| |]; [|done..]. by rewrite E. }
  unfold wp. rewrite E'. apply seph_run_wp; [|done..]. by apply (started_default i d k).
Qed.

(** * An enumeration *)

(** Packets of the controller in the buffer of the stack, with their length. *)
Definition usb_event_packet (ev : Z) : list Z * Z :=
  ([OS_IO_PACKET_TYPE_SEPH; SEPROXYHAL_TAG_USB_EVENT; 0; 1; ev; 0; 0; 0], 5).
Definition setup_packet (p : list Z) : list Z * Z :=
  ([OS_IO_PACKET_TYPE_SEPH; SEPROXYHAL_TAG_USB_EP_XFER_EVENT; 0; 11; 0; SEPROXYHAL_TAG_USB_EP_XFER_SETUP; 8] ++ p, 15).
Definition in_packet (ep : Z) : list Z * Z :=
  ([OS_IO_PACKET_TYPE_SEPH; SEPROXYHAL_TAG_USB_EP_XFER_EVENT; 0; 3; ep; SEPROXYHAL_TAG_USB_EP_XFER_IN; 0], 7).
Definition out_packet (ep : Z) (p : list Z) : list Z * Z :=
  ([OS_IO_PACKET_TYPE_SEPH; SEPROXYHAL_TAG_USB_EP_XFER_EVENT; 0; 3 + zlen p; ep; SEPROXYHAL_TAG_USB_EP_XFER_OUT; zlen p] ++ p,
   7 + zlen p).

(** A control read: the request, the acknowledgement of one packet and the
    status. *)
Definition control_read (p : list Z) : list (list Z * Z) := [setup_packet p; in_packet 0; out_packet 0 []].
Definition control_write (p : list Z) : list (list Z * Z) := [setup_packet p; in_packet 0].

Definition enumeration : list (list Z * Z) :=
  [usb_event_packet SEPROXYHAL_TAG_USB_EVENT_RESET]
  ++ control_read [0x80; 0x06; 0x00; 0x01; 0x00; 0x00; 0x12; 0x00]
  ++ control_write [0x00; 0x05; 0x05; 0x00; 0x00; 0x00; 0x00; 0x00]
  ++ control_read [0x80; 0x06; 0x00; 0x02; 0x00; 0x00; 0xFF; 0x00]
  ++ control_write [0x00; 0x09; 0x01; 0x00; 0x00; 0x00; 0x00; 0x00]
  ++ control_read [0x81; 0x06; 0x00; 0x22; 0x00; 0x00; 0x22; 0x00].

Definition fresh_usb : usb usbd_ledger_t := mk_usb initial_device 0 0 (fresh_io []) initial_ledger.

(** "Flex" *)
Definition default_init : os_io_init_usb_t := mk_init_usb 0 0 ([0x46; 0x6C; 0x65; 0x78] ++ zeros 16) 1.

Definition usb_after {A} (m : L A) (u : usb usbd_ledger_t) : usb usbd_ledger_t :=
  match m u with Ret _ u' | Throw _ u' => u' | Fault => u end.

Definition started_usb : usb usbd_ledger_t :=
  usb_after (do! USBD_LEDGER_init default_init 1 in USBD_LEDGER_start) fresh_usb.

Definition configured_usb : usb usbd_ledger_t := usb_after (seph_run enumeration (zeros 273) 273) started_usb.

(** * An APDU through the stack *)

Definition ledger_protocol (u : usb usbd_ledger_t) : ledger_protocol_t := protocol_data (hid_handle (usb_class u)).

(** A configured device with the HID class only. *)
Record hid_device (u : usb usbd_ledger_t) : Prop := {
  hd_io : seph_ready (usb_io u);
  hd_state : dev_state (pdev u) = USBD_STATE_CONFIGURED;
  hd_class : pClass (pdev u) = true;
  hd_nb : nb_of_class (usb_class u) = 1;
  hd_list : class_list (usb_class u) !! 0%nat = Some (Some USBD_LEDGER_HID_class_info);
  hd_len : zlen (xfer_len (usb_class u)) = IO_USB_MAX_ENDPOINTS;
  hd_buffer : zlen (xfer_buffer (usb_class u)) = IO_USB_MAX_ENDPOINTS;
}.

(** The stack after a packet of the host, the [n] first bytes at [p], which the
    protocol answers with [g]. *)
Definition xfer_set (i : nat) (p : list Z) (n : Z) (u : usb usbd_ledger_t) : usb usbd_ledger_t :=
  set_usb_class (set_xfer_buffer (<[i := Some p]> (xfer_buffer (usb_class u)))
    (set_xfer_len (<[i := n]> (xfer_len (usb_class u))) (usb_class u))) u.

Definition put_ledger_protocol (g : ledger_protocol_t) (u : usb usbd_ledger_t) : usb usbd_ledger_t :=
  put_hid (put_protocol g (hid_view u)) u.

Definition packet_received (p : list Z) (n : Z) (g : ledger_protocol_t) (u : usb usbd_ledger_t) : usb usbd_ledger_t :=
  usb_sent (receive_packet LEDGER_HID_EPOUT_ADDR LEDGER_HID_EPOUT_SIZE)
    (put_ledger_protocol g (xfer_set 2 p n u)).

Lemma for_one_class {A} (body : Z -> option usbd_class -> A -> L (bool * A)) acc more a u u' :
  nb_of_class (usb_class u) = 1 ->
  class_list (usb_class u) !! 0%nat = Some (Some USBD_LEDGER_HID_class_info) ->
  body 0 (Some USBD_LEDGER_HID_class_info) acc u = Ret (more, a) u' ->
  for_classes body acc u = Ret a u'.
Proof.
  intros Hn Hl Hb. unfold for_classes. rewrite led_run, Hn. cbn [class_loop Z.to_nat Pos.to_nat Pos.iter_op].
  change (Z.to_nat 1) with 1%nat. cbn [class_loop]. rewrite led_run, (mlift_some _ _ _ _ Hl).
  rewrite (mbind_ret _ _ _ _ _ Hb). by destruct more.
Qed.

Lemma with_hid_run {A B} (m : M (usb ledger_hid_handle_t) A) (k : A -> L B) u a v :
  m (hid_view u) = Ret a v -> mbind (with_hid m) k u = k a (put_hid v u).
Proof. intros E. unfold mbind, with_hid, zoom. by rewrite E. Qed.

Lemma hid_data_out_event_ok p n g u :
  hid_device u -> LEDGER_PROTOCOL_rx (Some p) n (ledger_protocol u) = Ret tt g ->
  USBD_LEDGER_rx_evt_data_out 2 p n u = Ret tt (packet_received p n g u).
Proof.
  intros [] E. unfold USBD_LEDGER_rx_evt_data_out. change (Z.land 2 0x7F) with 2.
  rewrite led_run, (mlift_some _ _ _ _ (insert_at _ 2 n hd_len0 ltac:(done))), led_upd_run.
  rewrite led_run. cbn [usb_class set_usb_class].
  change (xfer_buffer (set_xfer_len _ _)) with (xfer_buffer (usb_class u)).
  rewrite (mlift_some _ _ _ _ (insert_at _ 2 (Some p) hd_buffer0 ltac:(done))), led_upd_run.
  change (set_usb_class _ (set_usb_class _ u)) with (xfer_set 2 p n u).
  rewrite (mbind_ret _ _ _ USBD_OK (packet_received p n g u)); [done|].
  unfold USBD_LL_DataOutStage. rewrite dev_run. cbn [Z.eqb].
  change (dev_state (pdev (xfer_set 2 p n u))) with (dev_state (pdev u)). rewrite hd_state0.
  change (USBD_STATE_CONFIGURED =? USBD_STATE_CONFIGURED) with true. cbv iota.
  unfold call_opt. rewrite dev_run. change (pClass (pdev (xfer_set 2 p n u))) with (pClass (pdev u)). rewrite hd_class0.
  change (class_DataOut (C := usbd_ledger_t)) with (Some data_out). cbv iota. unfold data_out.
  apply (for_one_class _ _ true); [done|done|].
  rewrite (mlift_some _ _ _ USBD_LEDGER_HID_class_info) by done.
  cbn [class_info ci_data_out ep_out_addr]. change (Z.land LEDGER_HID_EPOUT_ADDR 0x7F =? Z.land 2 0x7F) with true.
  cbv iota. rewrite !led_run.
  rewrite (mlift_some _ _ _ (Some p))
    by (cbn; apply list_lookup_insert_eq; unfold zlen, IO_USB_MAX_ENDPOINTS in *; lia).
  rewrite (mlift_some _ _ _ n)
    by (cbn; apply list_lookup_insert_eq; unfold zlen, IO_USB_MAX_ENDPOINTS in *; lia).
  by rewrite (with_hid_run _ _ _ _ _ (data_out_ok p n g (hid_view (xfer_set 2 p n u)) hd_io0 E)).
Qed.

Lemma packet_received_device p n g u : hid_device u -> hid_device (packet_received p n g u).
Proof.
  intros []. constructor; try done; [by apply io_sent_ready| |]; cbn; unfold zlen in *; by rewrite length_insert.
Qed.

Lemma packet_received_protocol p n g u : ledger_protocol (packet_received p n g u) = g.
Proof. done. Qed.

Lemma data_ready_one buffer max st b v u :
  hid_device u -> USBD_LEDGER_HID_data_ready buffer max (hid_view u) = Ret (st, b) v ->
  USBD_LEDGER_data_ready buffer max u = Ret (if 0 <? st then st else 0, b) (put_hid v u).
Proof.
  intros [] E. unfold USBD_LEDGER_data_ready.
  rewrite (mbind_ret _ _ u (st, b) (put_hid v u)); [done|].
  apply (for_one_class _ _ (negb (0 <? st))); [done|done|].
  rewrite (mlift_some _ _ _ USBD_LEDGER_HID_class_info) by done. cbn [class_info ci_data_ready].
  by rewrite (with_hid_run _ _ _ _ _ E).
Qed.

Lemma put_hid_view u : put_hid (hid_view u) u = u.
Proof. by destruct u as [? ? ? ? []]. Qed.

(** The device waits for the rest of the APDU. *)
Lemma data_ready_waiting buffer max u :
  rx_apdu_status (protocol_of u) <> APDU_STATUS_COMPLETE ->
  USBD_LEDGER_HID_data_ready buffer max u = Ret (0, buffer) u.
Proof.
  intros Hs. unfold USBD_LEDGER_HID_data_ready. rewrite hid_field_run.
  by rewrite (bool_decide_false (_ = APDU_STATUS_COMPLETE)).
Qed.

Lemma out_event_run p t apdu max u : zlen p < 256 ->
  USBD_LEDGER_rx_seph_evt (fst (out_packet LEDGER_HID_EPOUT_ADDR p) ++ t) (7 + zlen p) apdu max u
  = (do! USBD_LEDGER_rx_evt_data_out 2 (p ++ t) (zlen p) in USBD_LEDGER_data_ready apdu max) u.
Proof.
  intros Hp. pose proof (zlen_nonneg p). unfold USBD_LEDGER_rx_seph_evt, out_packet, rx_xfer_event. cbn [fst app].
  assert (w16 (Z.min (zlen p) (7 + zlen p - 6)) = zlen p) as E
    by (unfold w16; rewrite Z.min_l by lia; apply Z.mod_small; lia).
  rewrite (mlift_some _ _ _ SEPROXYHAL_TAG_USB_EP_XFER_EVENT) by done.
  change (SEPROXYHAL_TAG_USB_EP_XFER_EVENT =? SEPROXYHAL_TAG_USB_EVENT) with false.
  change (SEPROXYHAL_TAG_USB_EP_XFER_EVENT =? SEPROXYHAL_TAG_USB_EP_XFER_EVENT) with true. cbv iota.
  rewrite (mlift_some _ _ _ LEDGER_HID_EPOUT_ADDR), (mlift_some _ _ _ (zlen p)),
    (mlift_some _ _ _ SEPROXYHAL_TAG_USB_EP_XFER_OUT) by done. by rewrite E.
Qed.

(** A packet of the host in the buffer of the channel, which may be longer. *)
Lemma out_event_ready p t g apdu max u :
  hid_device u -> zlen p < 256 -> LEDGER_PROTOCOL_rx (Some p) (zlen p) (ledger_protocol u) = Ret tt g ->
  USBD_LEDGER_rx_seph_evt (fst (out_packet LEDGER_HID_EPOUT_ADDR p) ++ t) (7 + zlen p) apdu max u
  = USBD_LEDGER_data_ready apdu max (packet_received (p ++ t) (zlen p) g u).
Proof.
  intros Hu Hp E. rewrite (out_event_run p t apdu max u Hp).
  by rewrite (mbind_ret _ _ _ _ _ (hid_data_out_event_ok (p ++ t) (zlen p) g u Hu
    (rx_longer p (p ++ t) (prefix_app_r p p t ltac:(done)) _ _ _ _ E))).
Qed.

Lemma out_event_more p t g apdu max u :
  hid_device u -> zlen p < 256 -> LEDGER_PROTOCOL_rx (Some p) (zlen p) (ledger_protocol u) = Ret tt g ->
  rx_apdu_status g = APDU_STATUS_NEED_MORE_DATA ->
  USBD_LEDGER_rx_seph_evt (fst (out_packet LEDGER_HID_EPOUT_ADDR p) ++ t) (7 + zlen p) apdu max u
  = Ret (0, apdu) (packet_received (p ++ t) (zlen p) g u).
Proof.
  intros Hu Hp E Hs. rewrite (out_event_ready p t g apdu max u Hu Hp E).
  set (u1 := packet_received _ _ _ _).
  assert (rx_apdu_status (protocol_of (hid_view u1)) <> APDU_STATUS_COMPLETE) as Hw
    by (change (rx_apdu_status g <> APDU_STATUS_COMPLETE); by rewrite Hs).
  rewrite (data_ready_one _ _ _ _ _ u1 (packet_received_device _ _ _ _ Hu)
    (data_ready_waiting apdu max (hid_view u1) Hw)). by rewrite put_hid_view.
Qed.

(** The stack that handed an APDU over waits for the next one. *)
Definition apdu_taken (u : usb usbd_ledger_t) : usb usbd_ledger_t :=
  put_ledger_protocol (set_rx_status APDU_STATUS_WAITING (ledger_protocol u)) u.

Lemma out_event_last p t g a apdu max u :
  hid_device u -> zlen p < 256 -> LEDGER_PROTOCOL_rx (Some p) (zlen p) (ledger_protocol u) = Ret tt g ->
  received g a -> type g = OS_IO_PACKET_TYPE_USB_HID_APDU -> 1 + zlen a <= max -> max <= zlen apdu ->
  USBD_LEDGER_rx_seph_evt (fst (out_packet LEDGER_HID_EPOUT_ADDR p) ++ t) (7 + zlen p) apdu max u
  = Ret (1 + zlen a, OS_IO_PACKET_TYPE_USB_HID_APDU :: a ++ zdrop (1 + zlen a) apdu)
      (apdu_taken (packet_received (p ++ t) (zlen p) g u)).
Proof.
  intros Hu Hp E Hg Ht Hmax Hbuf. rewrite (out_event_ready p t g apdu max u Hu Hp E).
  set (u1 := packet_received _ _ _ _). pose proof (zlen_nonneg a).
  pose proof (data_ready_ok a apdu max (hid_view u1) Hg Ht ltac:(lia)) as Hd.
  destruct (Z.ltb_spec max (1 + zlen a)); [lia|].
  rewrite (data_ready_one _ _ _ _ _ u1 (packet_received_device _ _ _ _ Hu) Hd).
  by destruct (Z.ltb_spec 0 (1 + zlen a)); [|lia].
Qed.

Lemma incomplete_head p ps g g1 :
  ps <> [] -> incomplete (p :: ps) g -> LEDGER_PROTOCOL_rx (Some p) (zlen p) g = Ret tt g1 ->
  rx_apdu_status g1 = APDU_STATUS_NEED_MORE_DATA /\ incomplete ps g1.
Proof.
  intros Hne Hi E. split.
  - destruct (Hi [p] ps eq_refl) as (g1' & R & S); [done..|]. cbn [receive] in R.
    rewrite (mbind_ret _ _ _ _ _ E) in R. by injection R as ->.
  - intros ps1 ps2 Eq H1 H2. destruct (Hi (p :: ps1) ps2) as (g2 & R & S); [by rewrite Eq|done|done|].
    cbn [receive] in R. rewrite (mbind_ret _ _ _ _ _ E) in R. by exists g2.
Qed.

Lemma send_cons a h ps h' : send a h = Ret ps h' -> ps <> [].
Proof.
  unfold send, mbind. destruct (LEDGER_PROTOCOL_tx _ _ h) as [[] h1| |]; [|done|done]. rewrite packet_run.
  by destruct (send_rest _ h1) as [qs h2| |]; [injection 1 as <- <-|..].
Qed.

(** The packets of an APDU that the host sends, and what the stack makes of
    them. *)
Lemma host_sends u (h : ledger_protocol_t) (a : list Z) :
  hid_inv (hid_handle (usb_class u)) -> hid_ready (hid_handle (usb_class u)) ->
  rx_apdu_sequence_number (ledger_protocol u) = 0 -> tx_ready h -> 1 + zlen a <= io_buffer_size ->
  exists ps h' g, send a h = Ret ps h' /\ receive ps (ledger_protocol u) = Ret tt g /\
    incomplete ps (ledger_protocol u) /\ received g a /\ type g = OS_IO_PACKET_TYPE_USB_HID_APDU /\
    Forall (fun p => zlen p = mtu h) ps.
Proof.
  intros (Hc & Hb & _) (Hwf & Hs & Hm & Hbs & Ht & _) Hseq Hh Ha. pose proof (zlen_nonneg a).
  change (protocol_data (hid_handle (usb_class u))) with (ledger_protocol u) in *.
  unfold io_buffer_size, OS_IO_SEPH_BUFFER_SIZE, chunk_buffer_size in *.
  destruct (send_rest_ok a (S (length a)) (set_tx_apdu (Some a) (zlen a) 0 0 h) (ledger_protocol u) 0 0)
    as (ps & h' & g & E1 & E2 & _ & Hrec & Hty & _ & Hlen & Hinc); try done; try (unfold zlen in *; lia).
  { split; [split_and!; lia|]. split; [done|]. split; [done|]. by intros []. }
  exists ps, h', g. split_and!; try done. congruence.
Qed.

(** ** Sending through the stack *)

(** A packet for a class that the device has not is reported as
    sent. *)
Theorem send_absent_class u n rest class_type packet_type packet len timeout :
  nb_of_class (usb_class u) = Z.of_nat n ->
  class_list (usb_class u) = replicate n (Some USBD_LEDGER_HID_class_info) ++ rest ->
  class_type <> USBD_LEDGER_CLASS_HID ->
  USBD_LEDGER_send class_type packet_type packet len timeout u = Ret SWO_SUCCESS u.
Proof.
  intros Hn Hl Ht. unfold USBD_LEDGER_send. set (body := fun _ c usb_status => _).
  assert (forall m i, (i + m <= n)%nat -> class_loop body m (Z.of_nat i) USBD_OK u = Ret USBD_OK u) as Hloop.
  { induction m as [|m IH]; intros i Hi; cbn [class_loop]; [done|].
    rewrite led_run, Hl. rewrite (mlift_some _ _ _ (Some USBD_LEDGER_HID_class_info))
      by (rewrite Nat2Z.id, lookup_app_l, lookup_replicate_2 by (rewrite ?length_replicate; lia); done).
    unfold mbind at 1, body at 1. rewrite (mlift_some _ _ _ USBD_LEDGER_HID_class_info) by done.
    cbn [class_info ci_type]. destruct (Z.eqb_spec USBD_LEDGER_CLASS_HID class_type); [done|].
    unfold next, mret. replace (Z.of_nat i + 1) with (Z.of_nat (S i)) by lia. apply IH. lia. }
  assert (for_classes body USBD_OK u = Ret USBD_OK u) as E.
  { unfold for_classes. rewrite led_run, Hn, Nat2Z.id. exact (Hloop n 0%nat ltac:(lia)). }
  by rewrite (mbind_ret _ _ u USBD_OK u E).
Qed.

(** A packet sent before the device is configured leaves the chunk buffer: its
    size was not set yet. *)
Lemma send_unconfigured_faults (u : usb usbd_ledger_t) packet_type p len timeout :
  nb_of_class (usb_class u) = 1 ->
  class_list (usb_class u) !! 0%nat = Some (Some USBD_LEDGER_HID_class_info) ->
  tx_chunk_buffer_size (ledger_protocol u) = 0 ->
  USBD_LEDGER_send USBD_LEDGER_CLASS_HID packet_type (Some p) len timeout u = Fault.
Proof.
  intros Hn Hl Hs.
  assert (LEDGER_PROTOCOL_tx (Some p) len (ledger_protocol u) = Fault) as Htx.
  { unfold LEDGER_PROTOCOL_tx. unfold mbind at 1, mgets at 1. cbn [bool_decide andb].
    rewrite (bool_decide_false (Some p = None)) by done. cbn [andb].
    set (h1 := set_tx_apdu (Some p) len 0 0 (ledger_protocol u)).
    assert (tx_chunk_buffer_size h1 = 0) as Hs1 by done. rewrite (mbind_ret _ _ _ tt h1) by done.
    unfold mbind at 1, mgets at 1. rewrite Hs1.
    assert (tx_clear 2 (0 - 2) h1 = Fault) as E; [done|]. unfold mbind at 1. by rewrite E. }
  assert (USBD_LEDGER_HID_send_packet (Some p) len timeout (hid_view u) = Fault) as Hsend.
  { unfold USBD_LEDGER_HID_send_packet. rewrite bool_decide_false by done. unfold mbind at 1, hid_protocol, zoom.
    change (protocol_data (usb_class (hid_view u))) with (ledger_protocol u). by rewrite Htx. }
  unfold USBD_LEDGER_send. set (body := fun _ c usb_status => _).
  assert (for_classes body USBD_OK u = Fault) as E; [|by unfold mbind; rewrite E].
  unfold for_classes. rewrite led_run, Hn. change (Z.to_nat 1) with 1%nat. cbn [class_loop].
  rewrite led_run, (mlift_some _ _ _ _ Hl).
  assert (body 0 (Some USBD_LEDGER_HID_class_info) USBD_OK u = Fault) as Hb; [|by unfold mbind; rewrite Hb].
  unfold body. rewrite (mlift_some _ _ _ USBD_LEDGER_HID_class_info) by done.
  cbn [class_info ci_type ci_send_packet]. rewrite Z.eqb_refl.
  unfold mbind, mlift, with_hid, zoom. by rewrite Hsend.
Qed.

(** ** The descriptors the host reads *)

(** The descriptors in [d], cut by their [bLength]. *)
Fixpoint descriptor_list (fuel : nat) (d : list Z) : option (list (list Z)) :=
  match fuel, d with
  | _, [] => Some []
  | O, _ => None
  | S fuel, n :: _ =>
      if (n <? 2) || (zlen d <? n) then None
      else ds ← descriptor_list fuel (zdrop n d); Some (ztake n d :: ds)
  end.

Definition interface_list (i : Z) : list (list Z) :=
  [[9; USB_DESC_TYPE_INTERFACE; i; 0; 2; 3; 0; 0; USBD_IDX_PRODUCT_STR];
   [9; HID_DESCRIPTOR_TYPE; 0x11; 1; 0; 1; HID_REPORT_DESCRIPTOR_TYPE; zlen LEDGER_HID_report_descriptor; 0];
   [7; USB_DESC_TYPE_ENDPOINT; LEDGER_HID_EPIN_ADDR; USBD_EP_TYPE_INTR; LEDGER_HID_EPIN_SIZE; 0; 1];
   [7; USB_DESC_TYPE_ENDPOINT; LEDGER_HID_EPOUT_ADDR; USBD_EP_TYPE_INTR; LEDGER_HID_EPOUT_SIZE; 0; 1]].

(** The configuration that is forged is a sequence of whole
    descriptors: its header, with the length of the whole and the number of
    the interfaces, and for each class its interface, numbered in order, the
    HID descriptor with the size of the report descriptor, and the two
    endpoints. *)
Theorem config_descriptors (n : nat) rest u :
  (n <= 4)%nat -> nb_of_class (usb_class u) = Z.of_nat n ->
  class_list (usb_class u) = replicate n (Some USBD_LEDGER_HID_class_info) ++ rest ->
  exists d len u', get_cfg_desc u = Ret (d, len) u' /\ len <= zlen d /\
    descriptor_list (S (4 * n)) (ztake len d)
    = Some ([9; USB_DESC_TYPE_CONFIGURATION; w8 len; w8 (Z.shiftr len 8); Z.of_nat n; 1; USBD_IDX_PRODUCT_STR; 0xC0; 0x32]
            :: concat (map (fun i => interface_list (Z.of_nat i)) (seq 0 n))).
Proof.
  intros Hn Hnb Hl. eexists _, _, _. split; [by apply (cfg_desc_ok n rest)|].
  do 5 (destruct n as [|n]; [by split|]). lia.
Qed.

(** The BOS descriptor announces two capabilities and holds none. *)
Lemma bos_capabilities_missing (n : nat) rest speed u :
  (n <= 4)%nat -> nb_of_class (usb_class u) = Z.of_nat n ->
  class_list (usb_class u) = replicate n (Some USBD_LEDGER_HID_class_info) ++ rest ->
  exists d len u', get_bos_desc speed u = Ret (d, len) u' /\
    descriptor_list 1 (ztake len d) = Some [[5; USB_DESC_TYPE_BOS; 5; 0; 2]].
Proof. intros Hn Hnb Hl. eexists _, _, _. by split; [apply (bos_desc_ok n rest)|]. Qed.

(** ** Clearing the halt of an endpoint *)

Definition stall_set (ep_addr : Z) (u : usb usbd_ledger_t) : usb usbd_ledger_t :=
  if ep_is_in ep_addr
  then set_stall (w8 (Z.lor (ep_in_stall_status u) (ep_bit ep_addr))) (ep_out_stall_status u) u
  else set_stall (ep_in_stall_status u) (w8 (Z.lor (ep_out_stall_status u) (ep_bit ep_addr))) u.

Definition stall_cleared (ep_addr : Z) (u : usb usbd_ledger_t) : usb usbd_ledger_t :=
  if ep_is_in ep_addr
  then set_stall (w8 (Z.ldiff (ep_in_stall_status u) (ep_bit ep_addr))) (ep_out_stall_status u) u
  else set_stall (ep_in_stall_status u) (w8 (Z.ldiff (ep_out_stall_status u) (ep_bit ep_addr))) u.

Definition stall_packet (ep_addr : Z) : list Z := [0x50; 0; 3; ep_addr; 0x40; 0].
Definition unstall_packet (ep_addr : Z) : list Z := [0x50; 0; 3; ep_addr; 0x80; 0].

Lemma stall_ok ep_addr u : seph_ready (usb_io u) -> bad_ep ep_addr = false ->
  USBD_LL_StallEP ep_addr u = Ret USBD_OK (usb_sent (stall_packet ep_addr) (stall_set ep_addr u)).
Proof.
  intros Hr Hb. unfold USBD_LL_StallEP. rewrite Hb. unfold mbind at 1, mmodify. fold (stall_set ep_addr u).
  rewrite (mbind_ret _ _ _ _ _ (tx_bytes_ok (stall_packet ep_addr) (stall_set ep_addr u)
    ltac:(unfold stall_set; by destruct (ep_is_in ep_addr)) (packet_6 _ _ _ _ _ eq_refl))). done.
Qed.

Lemma clear_stall_ok ep_addr u : seph_ready (usb_io u) -> bad_ep ep_addr = false ->
  USBD_LL_ClearStallEP ep_addr u = Ret USBD_OK (usb_sent (unstall_packet ep_addr) (stall_cleared ep_addr u)).
Proof.
  intros Hr Hb. unfold USBD_LL_ClearStallEP. rewrite Hb. unfold mbind at 1, mmodify.
  fold (stall_cleared ep_addr u).
  rewrite (mbind_ret _ _ _ _ _ (tx_bytes_ok (unstall_packet ep_addr) (stall_cleared ep_addr u)
    ltac:(unfold stall_cleared; by destruct (ep_is_in ep_addr)) (packet_6 _ _ _ _ _ eq_refl))). done.
Qed.

Lemma usb_sent_out p (u : usb usbd_ledger_t) : usb_out (usb_sent p u) = usb_out u ++ p.
Proof. unfold usb_out, usb_sent. cbn [usb_io set_usb_io]. apply io_sent_out. Qed.

Lemma stall_set_out ep_addr u : usb_out (stall_set ep_addr u) = usb_out u.
Proof. unfold stall_set. by destruct (ep_is_in ep_addr). Qed.

Lemma pdev_out d (u : usb usbd_ledger_t) : usb_out (set_pdev d u) = usb_out u.
Proof. done. Qed.

(** The control endpoint refuses the transfer. *)
Definition ctl_error (u : usb usbd_ledger_t) : usb usbd_ledger_t :=
  let u1 := usb_sent (stall_packet 0x80) (stall_set 0x80 u) in
  usb_sent (stall_packet 0) (stall_set 0 u1).

Lemma ctl_error_ok u : seph_ready (usb_io u) -> USBD_CtlError u = Ret tt (ctl_error u).
Proof.
  intros Hr. unfold USBD_CtlError.
  rewrite (mbind_ret _ _ _ _ _ (stall_ok 0x80 u Hr eq_refl)).
  assert (seph_ready (usb_io (usb_sent (stall_packet 0x80) (stall_set 0x80 u)))) as Hr' by (by apply io_sent_ready).
  by rewrite (mbind_ret _ _ _ _ _ (stall_ok 0 _ Hr' eq_refl)).
Qed.

Lemma testbit_w8 x n : 0 <= n < 8 -> Z.testbit (w8 x) n = Z.testbit x n.
Proof. intros. apply (Z.mod_pow2_bits_low x 8 n). lia. Qed.

Definition clear_halt_request (ep_addr : Z) : USBD_SetupReqTypedef :=
  mk_request USB_REQ_RECIPIENT_ENDPOINT USB_REQ_CLEAR_FEATURE USB_FEATURE_EP_HALT ep_addr 0.

(** The request that clears the halt of an endpoint of the HID
    class clears it and is acknowledged, and then the control endpoint is
    stalled, because the class takes the address of the endpoint for the
    number of an interface. *)
Theorem clear_halt_stalls u ep_addr :
  hid_device u -> ep_addr = LEDGER_HID_EPIN_ADDR \/ ep_addr = LEDGER_HID_EPOUT_ADDR ->
  exists u', USBD_LL_SetupStage [USB_REQ_RECIPIENT_ENDPOINT; USB_REQ_CLEAR_FEATURE; 0; 0; ep_addr; 0; 0; 0] u
      = Ret USBD_FAIL u' /\
    usb_out u' = usb_out u ++ unstall_packet ep_addr ++ transmit_packet 0 []
      ++ stall_packet 0x80 ++ stall_packet 0 /\
    Z.testbit (if ep_is_in ep_addr then ep_in_stall_status u' else ep_out_stall_status u') 2 = false /\
    Z.testbit (ep_in_stall_status u') 0 = true /\ Z.testbit (ep_out_stall_status u') 0 = true.
Proof.
  intros [] Hep.
  set (u1 := set_pdev (set_ep0_data_len 0 (set_ep0_state USBD_EP0_SETUP (set_request (clear_halt_request ep_addr) (pdev u)))) u).
  set (u2 := status_in (usb_sent (unstall_packet ep_addr) (stall_cleared ep_addr u1))).
  exists (ctl_error u2). split.
  - transitivity (USBD_StdEPReq (clear_halt_request ep_addr) u1). { by destruct Hep as [->| ->]. }
    transitivity (ep_clear_feature (clear_halt_request ep_addr) ep_addr u1). { by destruct Hep as [->| ->]. }
    unfold ep_clear_feature. rewrite dev_run. change (dev_state (pdev u1)) with (dev_state (pdev u)). rewrite hd_state0.
    assert (negb (Z.land ep_addr 0x7F =? 0) = true) as -> by (by destruct Hep as [->| ->]).
    change (USBD_STATE_CONFIGURED =? USBD_STATE_ADDRESSED) with false.
    change (USBD_STATE_CONFIGURED =? USBD_STATE_CONFIGURED) with true. cbv iota.
    change (wValue (clear_halt_request ep_addr) =? USB_FEATURE_EP_HALT) with true. cbv iota.
    assert (bad_ep ep_addr = false) as Hb by (by destruct Hep as [->| ->]).
    rewrite (mbind_ret _ _ u1 tt (usb_sent (unstall_packet ep_addr) (stall_cleared ep_addr u1))).
    2: { by rewrite (mbind_ret _ _ _ _ _ (clear_stall_ok ep_addr u1 hd_io0 Hb)). }
    assert (seph_ready (usb_io (usb_sent (unstall_packet ep_addr) (stall_cleared ep_addr u1)))) as Hr2. { apply io_sent_ready; [by destruct Hep as [->| ->]|done]. }
    rewrite (mbind_ret _ _ _ _ _ (ctl_status_in_ok _ Hr2)). fold u2.
    assert (seph_ready (usb_io u2)) as Hr3 by (by apply io_sent_ready).
    unfold class_setup, with_class. rewrite dev_run.
    assert (pClass (pdev u2) = true) as -> by (by destruct Hep as [->| ->]).
    rewrite (mlift_some _ _ _ setup) by done.
    unfold setup. cbv zeta. cbn [wIndex clear_halt_request]. rewrite led_run.
    assert (nb_of_class (usb_class u2) = 1) as -> by (by destruct Hep as [->| ->]).
    assert ((ep_addr <? 1) = false) as -> by (by destruct Hep as [->| ->]).
    by rewrite (mbind_ret _ _ _ _ _ (ctl_error_ok u2 Hr3)).
  - unfold ctl_error, u2, status_in. cbv zeta. split.
    { repeat (rewrite usb_sent_out || rewrite stall_set_out || rewrite pdev_out).
      assert (usb_out (stall_cleared ep_addr u1) = usb_out u) as -> by (by destruct Hep as [->| ->]).
      by rewrite <- !app_assoc. }
    set (a := ep_in_stall_status u). set (b := ep_out_stall_status u). destruct Hep as [->| ->].
    + change (Z.testbit (w8 (Z.lor (w8 (Z.ldiff a 4)) 1)) 2 = false /\
        Z.testbit (w8 (Z.lor (w8 (Z.ldiff a 4)) 1)) 0 = true /\ Z.testbit (w8 (Z.lor b 1)) 0 = true).
      rewrite !testbit_w8, !Z.lor_spec, testbit_w8, Z.ldiff_spec by lia.
      cbn [Z.testbit Pos.testbit Pos.pred_N Pos.pred_double negb]. by rewrite andb_false_r, !orb_true_r.
    + change (Z.testbit (w8 (Z.lor (w8 (Z.ldiff b 4)) 1)) 2 = false /\
        Z.testbit (w8 (Z.lor a 1)) 0 = true /\ Z.testbit (w8 (Z.lor (w8 (Z.ldiff b 4)) 1)) 0 = true).
      rewrite !testbit_w8, !Z.lor_spec, testbit_w8, Z.ldiff_spec by lia.
      cbn [Z.testbit Pos.testbit Pos.pred_N Pos.pred_double negb]. by rewrite andb_false_r, !orb_true_r.
Qed.

(** ** On the device that was enumerated *)

Definition flex_name : list Z := [0x46; 0x6C; 0x65; 0x78] ++ zeros 16.

Lemma fresh_static : static_ok (usb_class fresh_usb).
Proof. by split_and!. Qed.

Lemma started_usb_eq : started_usb = started default_init flex_name fresh_usb.
Proof.
  unfold started_usb, usb_after.
  by rewrite (start_run default_init flex_name 4 fresh_usb (fresh_io_ready []) eq_refl eq_refl ltac:(done) eq_refl).
Qed.

Lemma started_usb_default : dev_is Default started_usb.
Proof.
  rewrite started_usb_eq.
  by apply (started_default default_init flex_name 4 fresh_usb (fresh_io_ready []) fresh_static).
Qed.

Lemma started_usb_ready : seph_ready (usb_io started_usb).
Proof. destruct started_usb_default as (x & o & (r & c & [] & _) & _). done. Qed.

(** A closed setup packet that is not for an endpoint, and a closed packet of
    the controller. *)
Ltac setup_ok_closed :=
  split; [by vm_compute|split; [repeat constructor; done|]]; intros ? [= <-]; by vm_compute.

Ltac seph_event_closed :=
  split; [by vm_compute|split];
  [ match goal with |- events_ok ?s ?l => let l' := eval vm_compute in l in change l with l' end;
    cbn [events_ok event_ok]; split_and!; try done; try setup_ok_closed
  | intros H n E; first [discriminate H | injection E as <-; intros ? [= <-]; split_and!; [done..|by intros (? & _)]] ].

Lemma enumeration_ok : seph_run_ok Default enumeration.
Proof.
  unfold enumeration, control_read, control_write. cbn [app].
  unfold setup_packet, in_packet, out_packet, usb_event_packet. cbn [seph_run_ok app].
  split_and!; try done; seph_event_closed.
Qed.

Lemma usb_after_wp {A} (m : L A) Q u : wp m Q u -> exists a, Q a (usb_after m u).
Proof. unfold wp, usb_after. destruct (m u) as [a u'| |]; [by exists a|done..]. Qed.

Lemma enumeration_states :
  fold_left ch9_step (concat (map (fun b => bus_events b.1) enumeration)) Default = Configured.
Proof. vm_compute. reflexivity. Qed.

Lemma configured_usb_configured : dev_is Configured configured_usb.
Proof.
  destruct (usb_after_wp _ _ _ (seph_run_wp enumeration (zeros 273) 273 Default started_usb started_usb_default
    enumeration_ok ltac:(done))) as (a & H & _).
  rewrite enumeration_states in H. exact H.
Qed.

Lemma configured_usb_at : exists y,
  usb_at (class_at ledger_inv ledger_ready true) USBD_STATE_CONFIGURED y configured_usb.
Proof.
  destruct configured_usb_configured as (x & o & (r & c & Hu & Hr) & Hs). exists (o, c).
  destruct (ch9_cases _ _ _ Hs) as [[_ E]|[[_ E]|[[-> _]|[_ (t & E & _)]]]]; [discriminate E..| |discriminate E].
  specialize (Hr (or_introl eq_refl)). subst r. exact Hu.
Qed.

Lemma configured_usb_device : hid_device configured_usb.
Proof.
  destruct configured_usb_at as [y [Hio _ _ _ _]]. constructor; [exact Hio|vm_compute; reflexivity..].
Qed.

Lemma configured_usb_ready : seph_ready (usb_io configured_usb).
Proof. apply configured_usb_device. Qed.

Lemma configured_usb_hid :
  hid_inv (hid_handle (usb_class configured_usb)) /\ hid_ready (hid_handle (usb_class configured_usb)).
Proof. destruct configured_usb_at as [y [_ _ [[] Hr] _ _]]. split; [done|]. by apply Hr. Qed.

#[local] Opaque started_usb configured_usb.

Lemma usb_run_refines_witness :
  dev_is Default started_usb /\
  wp (usb_run [EvReset; EvSuspend; EvResume; EvSetup [0x00; 0x05; 0x05; 0; 0; 0; 0; 0]])
    (fun _ => dev_is Address) started_usb.
Proof.
  split; [exact started_usb_default|].
  refine (usb_run_refines (C := usbd_ledger_t) _ Default started_usb started_usb_default _).
  cbn [events_ok event_ok]. split_and!; try done. setup_ok_closed.
Defined.

Lemma usb_start_witness :
  exists u', (do! USBD_LEDGER_init default_init 1 in USBD_LEDGER_start) fresh_usb = Ret tt u' /\
    dev_is Default u' /\ ledger_state (usb_class u') = USBD_LEDGER_STATE_RUNNING /\
    nb_of_class (usb_class u') = 1 /\ vid (usb_class u') = USBD_LEDGER_VID /\ pid (usb_class u') = 0 /\
    usb_out u' = start_packets.
Proof. by apply (usb_start fresh_usb default_init 4 (fresh_io_ready []) fresh_static). Defined.

Lemma usb_stack_refines_witness :
  wp (do! USBD_LEDGER_init default_init 1 in do! USBD_LEDGER_start in seph_run enumeration (zeros 273) 273)
    (fun apdu' u' => dev_is Configured u' /\ zlen apdu' = 273) fresh_usb.
Proof.
  by apply (usb_stack_refines fresh_usb default_init 4 enumeration (zeros 273) 273
    (fresh_io_ready []) fresh_static); [..|apply enumeration_ok|].
Defined.

Lemma control_read_transfer_witness :
  exists u' ps, concat ps = repeat 9 128 /\ Forall (fun p => zlen p <= 64) ps /\
    (do! USBD_CtlSendData (repeat 9 128) 128 in data_in_times (length ps)) configured_usb = Ret tt u' /\
    ep0_state (pdev u') = USBD_EP0_STATUS_OUT /\
    usb_out u' = usb_out configured_usb ++ transmit_packet 0 (hd [] ps) ++
      concat (map next_packet (tail ps)) ++ receive_packet 0 0.
Proof.
  assert (exists e, ep_in (pdev configured_usb) !! 0%nat = Some e /\ maxpacket e = 64) as (e & He & Hm)
    by (eexists; split; vm_compute; reflexivity).
  assert (pClass (pdev configured_usb) = true) as Hc by apply configured_usb_device.
  pose proof (control_read_transfer (C := usbd_ledger_t) configured_usb e (repeat 9 128)
    configured_usb_ready He ltac:(rewrite Hm; split; reflexivity || discriminate) eq_refl Hc ltac:(discriminate))
    as (u' & ps & H).
  cbv zeta in H. rewrite Hm in H. change (zlen (repeat 9 128)) with 128 in H.
  assert (ep0_data_len (pdev configured_usb) = 34) as Hd by (vm_compute; reflexivity). rewrite Hd in H.
  change ((128 mod 64 =? 0) && (128 <? 34)) with false in H. cbv iota in H. rewrite app_nil_r in H.
  exists u', ps. exact H.
Defined.

Lemma get_status_out_of_bounds_witness :
  USBD_LL_SetupStage [0x82; 0x00; 0x00; 0x00; 0x10; 0x00; 0x02; 0x00] configured_usb = Fault.
Proof.
  destruct configured_usb_at as [y Hy].
  assert (exists req, USBD_ParseSetupRequest [0x82; 0x00; 0x00; 0x00; 0x10; 0x00; 0x02; 0x00] = Some req /\
    bmRequest req = 0x82 /\ bRequest req = 0 /\ wIndex req = 0x10) as (req & Hreq & Hm & Hb & Hi)
    by (eexists; repeat split; reflexivity).
  assert (forall e, ep_in (pdev configured_usb) !! 0%nat = Some e -> is_used e <> 0) as Hin
    by (intros e; vm_compute; intros E; injection E as <-; discriminate).
  assert (forall e, ep_out (pdev configured_usb) !! 0%nat = Some e -> is_used e <> 0) as Hout
    by (intros e; vm_compute; intros E; injection E as <-; discriminate).
  refine (get_status_out_of_bounds (C := usbd_ledger_t) _ req y configured_usb Hy Hreq _ _ _ _ _);
    unfold bad_status_request, req_type; rewrite ?Hm, ?Hb, ?Hi;
    [reflexivity|repeat split; discriminate|exact Hin|exact Hout|discriminate].
Defined.

Lemma send_absent_class_witness :
  class_list (usb_class configured_usb) = [Some USBD_LEDGER_HID_class_info; None; None; None] /\
  USBD_LEDGER_send 2 0 (Some [0x90; 0x00]) 2 0 configured_usb = Ret SWO_SUCCESS configured_usb.
Proof.
  assert (class_list (usb_class configured_usb) = [Some USBD_LEDGER_HID_class_info; None; None; None]) as H
    by (vm_compute; reflexivity).
  split; [exact H|].
  by apply (send_absent_class configured_usb 1 [None; None; None]); [apply configured_usb_device| |].
Defined.

Lemma clear_halt_stalls_witness :
  exists u', USBD_LL_SetupStage [0x02; 0x01; 0; 0; 0x82; 0; 0; 0] configured_usb = Ret USBD_FAIL u' /\
    usb_out u' = usb_out configured_usb ++ [0x50; 0; 3; 0x82; 0x80; 0] ++ transmit_packet 0 []
      ++ [0x50; 0; 3; 0x80; 0x40; 0] ++ [0x50; 0; 3; 0; 0x40; 0] /\
    Z.testbit (ep_in_stall_status u') 2 = false /\
    Z.testbit (ep_in_stall_status u') 0 = true /\ Z.testbit (ep_out_stall_status u') 0 = true.
Proof. exact (clear_halt_stalls configured_usb 0x82 configured_usb_device (or_introl eq_refl)). Defined.

Lemma config_descriptors_witness :
  exists d len u', get_cfg_desc configured_usb = Ret (d, len) u' /\ len <= zlen d /\
    descriptor_list 5 (ztake len d)
    = Some ([9; USB_DESC_TYPE_CONFIGURATION; w8 len; w8 (Z.shiftr len 8); 1; 1; USBD_IDX_PRODUCT_STR; 0xC0; 0x32]
            :: interface_list 0).
Proof.
  refine (config_descriptors 1 [None; None; None] configured_usb _ _ _); [repeat constructor| |].
  - vm_compute. reflexivity.
  - vm_compute. reflexivity.
Defined.
