(* ===== verification/OsIo.v ===== *)
(** The input and output of the device library ([os_io.c] and
    [os_io_seph_ux.c] under [src/bolos/io/sdk/io/src/]): the events of the
    controller are received and dispatched by their tag, the packets of the
    application are sent by their type. The theorems put the channel, the USB
    stack and the transport protocol together. *)

From S2P Require Import Prelude CxUtils LedgerProtocol Seph UsbDevice UsbCtlReq UsbCore LedgerHid UsbLedger.

(** * Data *)

Definition OS_IO_STATE_IDLE : Z := 0x00.
Definition OS_IO_STATE_DASHBOARD : Z := 0x01.
Definition OS_IO_STATE_APP_HIGH_LEVEL_API : Z := 0x03.
Definition OS_IO_STATE_APP_LOW_LEVEL_API : Z := 0x04.

Definition OS_IO_PACKET_TYPE_RAW_APDU : Z := 0x10.
Definition OS_IO_PACKET_TYPE_USB_MASK : Z := 0x20.

Definition SEPROXYHAL_TAG_CAPDU_EVENT : Z := 0x16.
Definition SEPROXYHAL_TAG_ITC_EVENT : Z := 0x1A.

(** The stack holds the channel and its buffer [G_io_seph_buffer]; the buffer
    of the caller is a part of the state, so that the callee may write it
    byte by byte. *)
Record os_io_t := mk_os_io {
  stack : usb usbd_ledger_t;
  G_io_state : Z;
  G_io_init_syscall : Z;
  caller_buffer : list Z;
}.

Definition set_stack (x : usb usbd_ledger_t) (s : os_io_t) : os_io_t :=
  mk_os_io x (G_io_state s) (G_io_init_syscall s) (caller_buffer s).
Definition set_G_io_state (x : Z) (s : os_io_t) : os_io_t :=
  mk_os_io (stack s) x (G_io_init_syscall s) (caller_buffer s).
Definition set_G_io_init_syscall (x : Z) (s : os_io_t) : os_io_t :=
  mk_os_io (stack s) (G_io_state s) x (caller_buffer s).
Definition set_caller_buffer (x : list Z) (s : os_io_t) : os_io_t :=
  mk_os_io (stack s) (G_io_state s) (G_io_init_syscall s) x.

(** * Operations *)

Local Abbreviation OS := (M os_io_t).

Definition on_stack {A} (m : M (usb usbd_ledger_t) A) : OS A := zoom stack set_stack m.

Definition on_io {A} (m : M io_t A) : OS A :=
  zoom (fun s => usb_io (stack s)) (fun io s => set_stack (set_usb_io io (stack s)) s) m.

(** The buffer that is passed: the caller's, or [G_io_seph_buffer] itself. *)
Definition buf_get (own : bool) : OS (list Z) :=
  if own then on_io (mgets G_io_seph_buffer) else mgets caller_buffer.

Definition buf_put (own : bool) (b : list Z) : OS unit :=
  if own then on_io (mmodify (set_G_io_seph_buffer b)) else mmodify (set_caller_buffer b).

Definition buf_write (own : bool) (off : Z) (d : list Z) : OS unit :=
  let! b := buf_get own in
  let! b := mlift (write_at b off d) in
  buf_put own b.

(** [memmove(&buffer[off], &G_io_seph_buffer[from], n)]. *)
Definition move_seph (own : bool) (off from n : Z) : OS unit :=
  let! g := on_io (mgets G_io_seph_buffer) in
  let! d := mlift (read_at g from n) in
  buf_write own off d.

(** ** os_io_seph_ux.c *)

(** No event is handled here without Bluetooth. *)
Definition io_process_itc_ux_event (buffer_in : list Z) (buffer_in_length : Z) : OS Z :=
  let! _ := mlift (buffer_in !! 3%nat) in
  mret buffer_in_length.

(** ** os_io.c *)

Definition process_itc_event (buffer_in : list Z) (buffer_in_length : Z) : OS Z :=
  let! _ := mlift (buffer_in !! 3%nat) in
  let! st := mgets G_io_state in
  if truthy buffer_in_length && (st =? OS_IO_STATE_DASHBOARD)
  then io_process_itc_ux_event buffer_in buffer_in_length
  else mret buffer_in_length.

(** [None] for a NULL pointer. *)
Definition os_io_init (init : option os_io_init_usb_t) : OS Z :=
  match init with
  | None => mret (-1)
  | Some init =>
      let! st := mgets G_io_state in
      let! sys := mgets G_io_init_syscall in
      let! force_restart :=
        (if st =? OS_IO_STATE_IDLE then
           do! mmodify (set_G_io_state OS_IO_STATE_DASHBOARD) in mret 1
         else
           let force := if st =? OS_IO_STATE_APP_LOW_LEVEL_API then 1 else 0 in
           if negb (sys =? 0x42) then
             do! mmodify (set_G_io_state OS_IO_STATE_DASHBOARD) in mret force
           else
             do! mmodify (set_G_io_state OS_IO_STATE_APP_HIGH_LEVEL_API) in mret force) in
      do! mmodify (set_G_io_init_syscall 0) in
      do! on_stack (USBD_LEDGER_init init force_restart) in
      do! on_io (mmodify (set_G_io_seph_buffer_size 0)) in
      mret 0
  end.

Definition os_io_start : OS Z := do! on_stack USBD_LEDGER_start in mret 0.

Definition os_io_stop : OS Z := do! on_stack USB_LEDGER_stop in mret 0.

(** [os_io_seph_se_rx_event] in [G_io_seph_buffer]. *)
Definition rx_seph_buffer : OS Z :=
  on_io (
    let! b := mgets G_io_seph_buffer in
    let! (status, b) := sys_os_io_seph_se_rx_event (Some b) (OS_IO_SEPH_BUFFER_SIZE + 1) 0 in
    do! mmodify (set_G_io_seph_buffer b) in
    mret status).

(** The event that was kept, or the next one; the status that asks for it is
    sent when it is due. *)
Definition next_event : OS Z :=
  let! cached := on_io (mgets G_io_seph_buffer_size) in
  let! status :=
    (if cached =? 0 then rx_seph_buffer
     else do! on_io (mmodify (set_G_io_seph_buffer_size 0)) in mret cached) in
  if status =? -1 then
    let! status := on_io os_io_seph_cmd_general_status in
    if status <? 0 then mret status else rx_seph_buffer
  else mret status.

(** What fits the buffer of the caller. *)
Definition fit (buffer_max_length length : Z) : Z :=
  if buffer_max_length - 1 <=? length then w16 (buffer_max_length - 1) else length.

(** [switch (G_io_seph_buffer[1])]. The data that the stack hands over begin the
    buffer. *)
Definition dispatch_event (own : bool) (buffer_max_length status : Z) : OS Z :=
  let length := if 0 <? status then w16 status else 0 in
  let! g := on_io (mgets G_io_seph_buffer) in
  let! tag := mlift (g !! 1%nat) in
  if (tag =? SEPROXYHAL_TAG_USB_EVENT) || (tag =? SEPROXYHAL_TAG_USB_EP_XFER_EVENT) then
    let! b := buf_get own in
    let! (status, b) := on_stack (USBD_LEDGER_rx_seph_evt g length b buffer_max_length) in
    do! buf_write own 0 (ztake (Z.max 0 status) b) in
    mret status
  else if tag =? SEPROXYHAL_TAG_CAPDU_EVENT then
    let length := fit buffer_max_length length in
    do! buf_write own 0 [OS_IO_PACKET_TYPE_RAW_APDU] in
    do! move_seph own 1 4 length in
    mret (length - 3)
  else
    let length := fit buffer_max_length length in
    do! move_seph own 0 0 length in
    if tag =? SEPROXYHAL_TAG_ITC_EVENT then
      let! g := on_io (mgets G_io_seph_buffer) in
      let! status := process_itc_event (drop 1 g) (status - 1) in
      mret (if 0 <? status then length else status)
    else mret status.

Definition os_io_rx_evt (own : bool) (buffer_max_length : Z) : OS Z :=
  let! status := next_event in
  if status <? 0 then mret status else dispatch_event own buffer_max_length status.

(** [while ((count < 5) && USBD_LEDGER_is_busy())]: what is left of the count. *)
Fixpoint wait_idle (n : nat) : OS nat :=
  match n with
  | O => mret O
  | S n' =>
      let! busy := on_stack USBD_LEDGER_is_busy in
      if truthy busy then
        do! os_io_rx_evt true (OS_IO_SEPH_BUFFER_SIZE + 1) in wait_idle n'
      else mret n
  end.

Definition os_io_tx_cmd (type : Z) (buffer : option (list Z)) (length : Z) : OS Z :=
  let! status :=
    (if type =? OS_IO_PACKET_TYPE_USB_HID_APDU then
       do! on_stack (USBD_LEDGER_send USBD_LEDGER_CLASS_HID type buffer length 0) in mret 0
     else if type =? OS_IO_PACKET_TYPE_RAW_APDU then
       do! on_io (os_io_seph_cmd_raw_apdu buffer length) in mret 0
     else if type =? OS_IO_PACKET_TYPE_SEPH then on_io (os_io_tx_seph buffer length)
     else mret 0) in
  if truthy (Z.land type OS_IO_PACKET_TYPE_USB_MASK) then
    let! rest := wait_idle 5 in
    mret (if (0 <? rest)%nat then length else status)
  else mret status.

(** * Proofs *)

Definition put_io (io : io_t) (s : os_io_t) : os_io_t := set_stack (set_usb_io io (stack s)) s.

Lemma on_io_run {A B} (m : M io_t A) (k : A -> OS B) s a io :
  m (usb_io (stack s)) = Ret a io -> mbind (on_io m) k s = k a (put_io io s).
Proof. intros E. unfold mbind, on_io, zoom. by rewrite E. Qed.

Lemma on_io_gets {A B} (f : io_t -> A) (k : A -> OS B) s :
  mbind (on_io (mgets f)) k s = k (f (usb_io (stack s))) s.
Proof. by destruct s as [[] ? ? ?]. Qed.

Lemma on_stack_run {A B} (m : M (usb usbd_ledger_t) A) (k : A -> OS B) s a u :
  m (stack s) = Ret a u -> mbind (on_stack m) k s = k a (set_stack u s).
Proof. intros E. unfold mbind, on_stack, zoom. by rewrite E. Qed.

(** The channel takes commands, and no event is kept. *)
Record os_ready (s : os_io_t) : Prop := {
  or_ready : seph_ready (usb_io (stack s));
  or_rx_max : rx_packet_max_length (G_seph_info (usb_io (stack s))) = OS_IO_SEPH_BUFFER_SIZE;
  or_rx : zlen (rx_packet (G_seph_info (usb_io (stack s)))) = OS_IO_SEPH_BUFFER_SIZE;
  or_buffer : zlen (G_io_seph_buffer (usb_io (stack s))) = OS_IO_SEPH_BUFFER_SIZE + 1;
  or_cached : G_io_seph_buffer_size (usb_io (stack s)) = 0;
}.

(** The event is asked for and received. *)
Lemma next_event_ok s h d evs evs' :
  os_ready s -> packet_ok (h ++ d) -> zlen h = 3 ->
  delivers (fd_in (seph_fd (usb_io (stack s)))) h evs -> delivers evs d evs' ->
  exists io, next_event s = Ret (zlen (h ++ d) + 1) (put_io io s) /\ os_ready (put_io io s) /\
    fd_in (seph_fd io) = evs' /\ io_out io = io_out (usb_io (stack s)) ++ seph_io_general_status /\
    G_io_seph_buffer io
    = (OS_IO_PACKET_TYPE_SEPH :: h ++ d) ++ zdrop (1 + zlen (h ++ d)) (G_io_seph_buffer (usb_io (stack s))).
Proof.
  intros [Hr Hm Hrx Hb Hc] Hp Hh Hd1 Hd2. set (io0 := usb_io (stack s)) in *. pose proof Hp as [Hl _].
  set (io1 := io_sent seph_io_general_status io0).
  assert (os_io_seph_cmd_general_status io0 = Ret 5 io1) as Hst by (apply seph_cmd_ok; [done|by split]).
  assert (seph_waiting io1) as Hw by (destruct Hr as (_ & _ & Hmax & Hwr); by split_and!).
  destruct (seph_rx_event_run io1 h d evs evs' (G_io_seph_buffer io0) (OS_IO_SEPH_BUFFER_SIZE + 1) 0 Hw Hp Hh Hd1 Hd2
    ltac:(lia) ltac:(lia) eq_refl) as (io2 & Hrun & Hr2 & Hin2 & Hout2 & Hm2 & Hrx2 & Hc2).
  set (b := (OS_IO_PACKET_TYPE_SEPH :: h ++ d) ++ _) in *. exists (set_G_io_seph_buffer b io2).
  split; [|split; [|split_and!; [done|by rewrite <- (io_sent_out _ io0)|done]]].
  - unfold next_event. rewrite on_io_gets. fold io0. rewrite Hc. cbn [Z.eqb].
    rewrite (mbind_ret _ _ s (-1) s).
    + change (-1 =? -1) with true. cbv iota. rewrite (on_io_run _ _ _ _ _ Hst).
      change (5 <? 0) with false. cbv iota. unfold rx_seph_buffer, on_io, zoom.
      change (usb_io (stack (put_io io1 s))) with io1. unfold mbind at 1, mgets at 1.
      change (G_io_seph_buffer io1) with (G_io_seph_buffer io0). by rewrite (mbind_ret _ _ _ _ _ Hrun).
    + unfold rx_seph_buffer, on_io, zoom. fold io0. unfold mbind at 1, mgets at 1.
      rewrite (mbind_ret _ _ _ _ _ (seph_rx_refused io0 _ Hr Hm)).
      unfold mbind, mmodify, mret. unfold io0. by destruct s as [[? ? ? []] ? ? ?].
  - constructor; try done.
    + change (zlen (rx_packet (G_seph_info io2)) = OS_IO_SEPH_BUFFER_SIZE). by rewrite Hrx2.
    + change (zlen b = OS_IO_SEPH_BUFFER_SIZE + 1). unfold b. rewrite zlen_app, zlen_cons, zlen_zdrop; lia.
    + change (G_io_seph_buffer_size io2 = 0). by rewrite Hc2.
Qed.

(** ** An APDU from the host *)

(** The event of the controller that carries a packet of the host. *)
Definition host_event (p : list Z) : list Z := drop 1 (fst (out_packet LEDGER_HID_EPOUT_ADDR p)).

Fixpoint rx_evts (n : nat) (max : Z) : OS (list Z) :=
  match n with
  | 0%nat => mret []
  | S n =>
      let! status := os_io_rx_evt false max in
      let! l := rx_evts n max in
      mret (status :: l)
  end.

(** The stack answers the event that was received with the data [d]. *)
Lemma dispatch_usb_ok (tag : Z) n max status d s u :
  let b := caller_buffer s in
  G_io_seph_buffer (usb_io (stack s)) !! 1%nat = Some tag ->
  tag = SEPROXYHAL_TAG_USB_EVENT \/ tag = SEPROXYHAL_TAG_USB_EP_XFER_EVENT -> 0 < n < 65536 ->
  USBD_LEDGER_rx_seph_evt (G_io_seph_buffer (usb_io (stack s))) n b max (stack s)
  = Ret (status, d ++ zdrop (zlen d) b) u ->
  zlen d = Z.max 0 status -> zlen d <= zlen b ->
  dispatch_event false max n s = Ret status (set_caller_buffer (d ++ zdrop (zlen d) b) (set_stack u s)).
Proof.
  intros b Htag Ht Hn E Hd Hb. unfold dispatch_event. rewrite on_io_gets, (mlift_some _ _ _ _ Htag).
  assert ((tag =? SEPROXYHAL_TAG_USB_EVENT) || (tag =? SEPROXYHAL_TAG_USB_EP_XFER_EVENT) = true) as ->
    by (by destruct Ht as [-> | ->]).
  unfold buf_get at 1. unfold mbind at 1, mgets at 1. destruct (Z.ltb_spec 0 n); [|lia].
  assert (w16 n = n) as -> by (unfold w16; apply Z.mod_small; lia). fold b.
  rewrite (on_stack_run _ _ _ _ _ E). cbv beta iota. rewrite <- Hd, (ztake_app_l (zlen d) d) by done.
  unfold buf_write, buf_get, buf_put, mgets. unfold mbind at 2. cbn [caller_buffer set_stack]. fold b.
  assert (write_at b 0 d = Some (d ++ zdrop (zlen d) b)) as Hw by (by rewrite write_at_ok).
  unfold mbind at 1. by rewrite (mlift_some _ _ _ _ Hw).
Qed.

(** A packet of the host is received; [io] is the channel that holds its
    event. *)
Lemma rx_evt_packet s p h d evs evs' max status r u :
  os_ready s -> zlen p <= LEDGER_HID_EPOUT_SIZE -> host_event p = h ++ d -> zlen h = 3 ->
  delivers (fd_in (seph_fd (usb_io (stack s)))) h evs -> delivers evs d evs' ->
  zlen r = Z.max 0 status -> zlen r <= zlen (caller_buffer s) ->
  (forall io t, seph_ready io ->
    USBD_LEDGER_rx_seph_evt (fst (out_packet LEDGER_HID_EPOUT_ADDR p) ++ t) (7 + zlen p) (caller_buffer s) max
      (set_usb_io io (stack s))
    = Ret (status, r ++ zdrop (zlen r) (caller_buffer s)) (u io t)) ->
  exists io t, os_ready (put_io io s) /\ fd_in (seph_fd io) = evs' /\
    io_out io = usb_out (stack s) ++ seph_io_general_status /\
    os_io_rx_evt false max s
    = Ret status (set_caller_buffer (r ++ zdrop (zlen r) (caller_buffer s)) (set_stack (u io t) s)).
Proof.
  intros Hs Hp Hev Hh Hd1 Hd2 Hr Hrb Hu. unfold LEDGER_HID_EPOUT_SIZE in Hp. pose proof (zlen_nonneg p).
  assert (zlen (h ++ d) = 6 + zlen p) as Hl by (rewrite <- Hev; unfold host_event, out_packet; cbn [fst app drop]; rewrite !zlen_cons; lia).
  assert (packet_ok (h ++ d)) as Hpk.
  { split; [unfold OS_IO_SEPH_BUFFER_SIZE; lia|]. rewrite Hl, <- Hev. unfold U2BE, host_event, out_packet.
    change (Some (w16 (Z.lor (Z.shiftl 0 8) (3 + zlen p))) = Some (6 + zlen p - 3)).
    rewrite Z.shiftl_0_l, Z.lor_0_l. f_equal. unfold w16. rewrite Z.mod_small; lia. }
  destruct (next_event_ok s h d evs evs' Hs Hpk Hh Hd1 Hd2) as (io & E & Hio & Hin & Hout & Hb).
  set (t := zdrop (1 + zlen (h ++ d)) (G_io_seph_buffer (usb_io (stack s)))) in *.
  assert (G_io_seph_buffer io = fst (out_packet LEDGER_HID_EPOUT_ADDR p) ++ t) as Hb'
    by (rewrite Hb, <- Hev; done).
  exists io, t. split; [done|]. split; [done|]. split; [done|].
  unfold os_io_rx_evt. rewrite (mbind_ret _ _ _ _ _ E), Hl. destruct (Z.ltb_spec (6 + zlen p + 1) 0); [lia|].
  replace (6 + zlen p + 1) with (7 + zlen p) by lia.
  refine (dispatch_usb_ok SEPROXYHAL_TAG_USB_EP_XFER_EVENT (7 + zlen p) max status r (put_io io s) (u io t) _ _ _ _ Hr Hrb).
  - change (G_io_seph_buffer io !! 1%nat = Some SEPROXYHAL_TAG_USB_EP_XFER_EVENT). by rewrite Hb'.
  - by right.
  - lia.
  - change (G_io_seph_buffer (usb_io (stack (put_io io s)))) with (G_io_seph_buffer io). rewrite Hb'.
    apply Hu, Hio.
Qed.

(** The state that a packet of the host leaves. *)
Lemma out_state_ready io p n g s :
  os_ready (put_io io s) -> os_ready (set_stack (packet_received p n g (set_usb_io io (stack s))) s).
Proof. intros []. constructor; try done. by apply io_sent_ready. Qed.

Lemma rx_evts_ok ps g a max s evs' :
  let b := caller_buffer s in
  os_ready s -> hid_device (stack s) -> Forall (fun p => zlen p <= LEDGER_HID_EPOUT_SIZE) ps -> ps <> [] ->
  receive ps (ledger_protocol (stack s)) = Ret tt g -> incomplete ps (ledger_protocol (stack s)) ->
  received g a -> type g = OS_IO_PACKET_TYPE_USB_HID_APDU -> 1 + zlen a <= max -> max <= zlen b ->
  arrives (fd_in (seph_fd (usb_io (stack s)))) (map host_event ps) evs' ->
  exists s', rx_evts (length ps) max s = Ret (replicate (length ps - 1) 0 ++ [1 + zlen a]) s' /\
    caller_buffer s' = OS_IO_PACKET_TYPE_USB_HID_APDU :: a ++ zdrop (1 + zlen a) b /\
    os_ready s' /\ hid_device (stack s') /\ fd_in (seph_fd (usb_io (stack s'))) = evs' /\
    rx_apdu_status (ledger_protocol (stack s')) = APDU_STATUS_WAITING /\
    rx_apdu_sequence_number (ledger_protocol (stack s')) = 0 /\
    usb_out (stack s') = usb_out (stack s) ++
      concat (map (fun _ => seph_io_general_status ++ receive_packet LEDGER_HID_EPOUT_ADDR LEDGER_HID_EPOUT_SIZE) ps).
Proof.
  revert s. induction ps as [|p ps IH]; intros s b Hs Hu Hps Hne E Hi Hg Ht Hmax Hb Har; [done|].
  apply Forall_cons in Hps as [Hp Hps]. cbn [receive] in E. unfold mbind in E.
  destruct (LEDGER_PROTOCOL_rx (Some p) (zlen p) (ledger_protocol (stack s))) as [[] g1| |] eqn:E1; [|done|done].
  assert (zlen p < 256) as Hp' by (unfold LEDGER_HID_EPOUT_SIZE in Hp; lia).
  assert (forall io, seph_ready io -> hid_device (set_usb_io io (stack s))) as Hdev
    by (intros io Hio; destruct Hu; by constructor).
  cbn [map] in Har. destruct (arrives_inv _ _ _ _ Har) as (h & d & evs1 & evs2 & Eev & _ & Hh & Hd1 & Hd2 & Har').
  pose proof (zlen_nonneg a).
  destruct (decide (ps = [])) as [->|Hps'].
  - cbn [receive] in E. injection E as <-.
    destruct (rx_evt_packet s p h d evs1 evs2 max (1 + zlen a) (OS_IO_PACKET_TYPE_USB_HID_APDU :: a)
      (fun io t => apdu_taken (packet_received (p ++ t) (zlen p) g1 (set_usb_io io (stack s)))))
      as (io & t & Hio & Hin & Hout & Hrun); try done.
    { rewrite zlen_cons. lia. }
    { rewrite zlen_cons. unfold b in *. lia. }
    { intros io t Hio. rewrite zlen_cons.
      apply (out_event_last p t g1 a b max); [by apply Hdev|done..]. }
    apply arrives_nil_inv in Har' as ->.
    eexists. split; [|split; [|split; [|split; [|split; [|split; [|split]]]]]].
    + cbn [length rx_evts]. rewrite (mbind_ret _ _ _ _ _ Hrun). done.
    + by rewrite zlen_cons.
    + destruct (out_state_ready io (p ++ t) (zlen p) g1 s Hio). by constructor.
    + pose proof (packet_received_device (p ++ t) (zlen p) g1 _ (Hdev io (or_ready _ Hio))) as []. by constructor.
    + done.
    + done.
    + by destruct Hg as (_ & _ & ? & _).
    + cbn [map concat]. rewrite app_nil_r.
      change (io_out io ++ receive_packet LEDGER_HID_EPOUT_ADDR LEDGER_HID_EPOUT_SIZE =
        usb_out (stack s) ++ seph_io_general_status ++ receive_packet LEDGER_HID_EPOUT_ADDR LEDGER_HID_EPOUT_SIZE).
      by rewrite Hout, <- app_assoc.
  - destruct (incomplete_head p ps _ _ Hps' Hi E1) as [Hs1 Hi1].
    destruct (rx_evt_packet s p h d evs1 evs2 max 0 []
      (fun io t => packet_received (p ++ t) (zlen p) g1 (set_usb_io io (stack s))))
      as (io & t & Hio & Hin & Hout & Hrun); try done.
    { change (zlen []) with 0. unfold b in *. lia. }
    { intros io t Hio. apply (out_event_more p t g1 b max); [by apply Hdev|done..]. }
    set (s1 := set_caller_buffer _ _) in Hrun.
    destruct (IH s1) as (s' & F1 & F2 & F3 & F4 & F5 & F6 & F7 & F8); try done.
    { destruct (out_state_ready io (p ++ t) (zlen p) g1 s Hio). by constructor. }
    { by apply (packet_received_device (p ++ t) (zlen p) g1 _ (Hdev io (or_ready _ Hio))). }
    { change (arrives (fd_in (seph_fd io)) (map host_event ps) evs'). by rewrite Hin. }
    exists s'. split; [|split; [done|split; [done|split; [done|split; [done|split; [done|split; [done|]]]]]]].
    + cbn [length rx_evts]. rewrite (mbind_ret _ _ _ _ _ Hrun), (mbind_ret _ _ _ _ _ F1).
      destruct ps; [done|]. by replace (S (length (l :: ps)) - 1)%nat with (S (length (l :: ps) - 1)) by (cbn; lia).
    + rewrite F8. cbn [map concat].
      change (usb_out (stack s1)) with (io_out io ++ receive_packet LEDGER_HID_EPOUT_ADDR LEDGER_HID_EPOUT_SIZE).
      rewrite Hout. by rewrite <- !app_assoc.
Qed.

(** C3: an APDU that the host sends in packets, whose events come from
    the channel, reaches the buffer of the caller through [os_io_rx_evt]: each
    call but the last returns 0, the last one the length of the APDU and its
    type, each event is asked for by a status, and the endpoint is prepared
    again after each packet. *)
Theorem os_io_receives_apdu s (h : ledger_protocol_t) (a : list Z) (max : Z) :
  os_ready s -> hid_device (stack s) -> hid_inv (hid_handle (usb_class (stack s))) ->
  hid_ready (hid_handle (usb_class (stack s))) -> rx_apdu_sequence_number (ledger_protocol (stack s)) = 0 ->
  tx_ready h -> mtu h <= LEDGER_HID_EPOUT_SIZE ->
  1 + zlen a <= io_buffer_size -> 1 + zlen a <= max -> max <= zlen (caller_buffer s) ->
  exists ps h', send a h = Ret ps h' /\ forall evs',
    arrives (fd_in (seph_fd (usb_io (stack s)))) (map host_event ps) evs' ->
    exists s', rx_evts (length ps) max s = Ret (replicate (length ps - 1) 0 ++ [1 + zlen a]) s' /\
      caller_buffer s' = OS_IO_PACKET_TYPE_USB_HID_APDU :: a ++ zdrop (1 + zlen a) (caller_buffer s) /\
      os_ready s' /\ hid_device (stack s') /\ fd_in (seph_fd (usb_io (stack s'))) = evs' /\
      rx_apdu_sequence_number (ledger_protocol (stack s')) = 0 /\
      usb_out (stack s') = usb_out (stack s) ++
        concat (map (fun _ => seph_io_general_status ++ receive_packet LEDGER_HID_EPOUT_ADDR LEDGER_HID_EPOUT_SIZE) ps).
Proof.
  intros Hs Hu Hi Hr Hseq Hh Hm Ha Hmax Hb.
  destruct (host_sends (stack s) h a Hi Hr Hseq Hh Ha) as (ps & h' & g & E1 & E2 & Hinc & Hrec & Ht & Hlen).
  exists ps, h'. split; [done|]. intros evs' Har.
  destruct (rx_evts_ok ps g a max s evs') as (s' & F1 & F2 & F3 & F4 & F5 & _ & F6 & F7); try done.
  { eapply Forall_impl; [exact Hlen|]. by intros p ->. }
  { by apply (send_cons a h ps h'). }
  by exists s'.
Qed.

(** ** An answer to the host *)

(** The event that acknowledges a packet of the device. *)
Definition ack_event : list Z := drop 1 (fst (in_packet LEDGER_HID_EPIN_ADDR)).

Lemma data_in_event_ok u v :
  hid_device u -> USBD_LEDGER_HID_data_in (hid_view u) = Ret USBD_OK v ->
  USBD_LEDGER_rx_evt_data_in 2 u = Ret tt (put_hid v u).
Proof.
  intros [] E. unfold USBD_LEDGER_rx_evt_data_in.
  rewrite (mbind_ret _ _ _ USBD_OK (put_hid v u)); [done|].
  unfold USBD_LL_DataInStage. cbn [Z.eqb]. rewrite dev_run, hd_state.
  change (USBD_STATE_CONFIGURED =? USBD_STATE_CONFIGURED) with true. cbv iota.
  unfold call_opt. rewrite dev_run, hd_class.
  change (class_DataIn (C := usbd_ledger_t)) with (Some data_in). cbv iota. unfold data_in.
  apply (for_one_class _ _ true); [done|done|].
  rewrite (mlift_some _ _ _ USBD_LEDGER_HID_class_info) by done.
  cbn [class_info ci_data_in ep_in_addr]. change (Z.land LEDGER_HID_EPIN_ADDR 0x7F =? Z.land 2 0x7F) with true.
  cbv iota. by rewrite (with_hid_run _ _ _ _ _ E).
Qed.

Lemma is_busy_run u :
  hid_device u -> USBD_LEDGER_is_busy u
  = Ret (if bool_decide (hid_state (hid_handle (usb_class u)) = LEDGER_HID_STATE_BUSY) then 1 else 0) u.
Proof.
  intros []. unfold USBD_LEDGER_is_busy. set (b := if bool_decide _ then 1 else 0).
  apply (for_one_class _ _ (negb (truthy b))); [done|done|].
  rewrite (mlift_some _ _ _ USBD_LEDGER_HID_class_info) by done. cbn [class_info ci_is_busy].
  rewrite (with_hid_run _ _ _ b (hid_view u)) by done. by rewrite put_hid_view.
Qed.

Lemma buf_write_nil own s : buf_write own 0 [] s = Ret tt s.
Proof.
  unfold buf_write, buf_get, buf_put, on_io, zoom, mbind, mgets, mmodify, mlift.
  destruct own; rewrite write_at_ok; rewrite ?(@zlen_nil Z); try lia; try apply zlen_nonneg;
    rewrite ztake_0; by destruct s as [[? ? ? [] ?] ? ? ?].
Qed.

(** An acknowledgement is received while the stack waits. *)
Lemma rx_evt_ack s h d evs evs' :
  os_ready s -> hid_device (stack s) -> ack_event = h ++ d -> zlen h = 3 ->
  delivers (fd_in (seph_fd (usb_io (stack s)))) h evs -> delivers evs d evs' ->
  exists io, os_ready (put_io io s) /\ fd_in (seph_fd io) = evs' /\
    io_out io = usb_out (stack s) ++ seph_io_general_status /\
    forall v, USBD_LEDGER_HID_data_in (hid_view (set_usb_io io (stack s))) = Ret USBD_OK v ->
      os_io_rx_evt true (OS_IO_SEPH_BUFFER_SIZE + 1) s
      = Ret 0 (set_stack (put_hid v (set_usb_io io (stack s))) s).
Proof.
  intros Hs Hu Hev Hh Hd1 Hd2. assert (packet_ok (h ++ d)) as Hpk by (rewrite <- Hev; split; [by vm_compute|done]).
  destruct (next_event_ok s h d evs evs' Hs Hpk Hh Hd1 Hd2) as (io & E & Hio & Hin & Hout & Hb).
  rewrite <- Hev in Hb, E. set (t := zdrop _ _) in Hb.
  exists io. split; [done|]. split; [done|]. split; [done|]. intros v Hv.
  unfold os_io_rx_evt. rewrite (mbind_ret _ _ _ _ _ E). change (zlen ack_event + 1) with 7.
  change (7 <? 0) with false. cbv iota. unfold dispatch_event. rewrite on_io_gets.
  change (usb_io (stack (put_io io s))) with io. rewrite (mlift_some _ _ _ SEPROXYHAL_TAG_USB_EP_XFER_EVENT) by (by rewrite Hb).
  change ((SEPROXYHAL_TAG_USB_EP_XFER_EVENT =? SEPROXYHAL_TAG_USB_EVENT)
    || (SEPROXYHAL_TAG_USB_EP_XFER_EVENT =? SEPROXYHAL_TAG_USB_EP_XFER_EVENT)) with true. cbv iota.
  unfold buf_get at 1. rewrite on_io_gets. change (usb_io (stack (put_io io s))) with io.
  change (if 0 <? 7 then w16 7 else 0) with 7.
  assert (hid_device (set_usb_io io (stack s))) as Hu' by (destruct Hio, Hu; by constructor).
  rewrite (on_stack_run _ _ _ (0, G_io_seph_buffer io) (put_hid v (set_usb_io io (stack s)))).
  - change (Z.max 0 0) with 0. rewrite ztake_0. cbv beta iota.
    by rewrite (mbind_ret _ _ _ _ _ (buf_write_nil true _)).
  - rewrite Hb at 1. change (stack (put_io io s)) with (set_usb_io io (stack s)).
    transitivity ((do! USBD_LEDGER_rx_evt_data_in 2 in mret (0, G_io_seph_buffer io)) (set_usb_io io (stack s))); [done|].
    by rewrite (mbind_ret _ _ _ _ _ (data_in_event_ok _ v Hu' Hv)).
Qed.

Lemma ret_inj {S A} (a b : A) (s t : S) : Ret a s = Ret b t -> a = b /\ s = t.
Proof. by intros [= <- <-]. Qed.

Definition ack_packet (p : list Z) : list Z := seph_io_general_status ++ transmit_packet LEDGER_HID_EPIN_ADDR p.

(** The state after the acknowledgement that takes the HID class to [v]. *)
Definition acked (v : usb ledger_hid_handle_t) (io : io_t) (s : os_io_t) : os_io_t :=
  set_stack (put_hid v (set_usb_io io (stack s))) s.

Lemma acked_ok (a : list Z) io s :
  let v := data_in_done (next_chunk a (hid_view (set_usb_io io (stack s)))) in
  os_ready (put_io io s) -> hid_device (stack s) -> os_ready (acked v io s) /\ hid_device (stack (acked v io s)).
Proof.
  intros v Hio Hu. unfold v, data_in_done.
  destruct (bool_decide _), Hio, Hu; (split; constructor; try done; by apply io_sent_ready).
Qed.

Lemma wait_idle_stop n s :
  hid_device (stack s) -> hid_state (hid_handle (usb_class (stack s))) = LEDGER_HID_STATE_IDLE ->
  wait_idle n s = Ret n s.
Proof.
  intros Hu Hi. destruct n as [|n]; [done|]. cbn [wait_idle].
  pose proof (is_busy_run (stack s) Hu) as E. rewrite Hi in E.
  rewrite (on_stack_run _ _ _ _ _ E). by destruct s.
Qed.

Lemma wait_idle_ok fuel a ps s g n evs' :
  os_ready s -> hid_device (stack s) -> hid_inv (hid_handle (usb_class (stack s))) ->
  hid_ready (hid_handle (usb_class (stack s))) ->
  hid_state (hid_handle (usb_class (stack s))) = LEDGER_HID_STATE_BUSY ->
  tx_apdu_buffer (ledger_protocol (stack s)) = Some a ->
  send_rest fuel (ledger_protocol (stack s)) = Ret ps g -> (length ps <= n)%nat ->
  arrives (fd_in (seph_fd (usb_io (stack s)))) (replicate (length ps) ack_event) evs' ->
  exists s', wait_idle n s = Ret (n - length ps)%nat s' /\ os_ready s' /\ hid_device (stack s') /\
    hid_state (hid_handle (usb_class (stack s'))) = LEDGER_HID_STATE_IDLE /\
    tx_apdu_buffer (ledger_protocol (stack s')) = None /\ fd_in (seph_fd (usb_io (stack s'))) = evs' /\
    caller_buffer s' = caller_buffer s /\
    usb_out (stack s') = usb_out (stack s) ++ concat (map ack_packet ps).
Proof.
  revert a ps s n. induction fuel as [|fuel IH]; intros a ps s n Hs Hu Hi Hrd Hbusy Ha E Hn Har;
    cbn [send_rest] in E; unfold mbind at 1, mgets at 1 in E; rewrite Ha in E; [done|].
  pose proof (hid_tx_ready _ Hrd Hi) as Htx. pose proof Hrd as (Hwf & Hsz & Hm & _ & _ & Hp).
  change (protocol_data (hid_handle (usb_class (stack s)))) with (ledger_protocol (stack s)) in *.
  destruct (Hp a Ha) as (Hl & Hlim & Hk & Ho).
  rewrite (mbind_ret _ _ _ _ _ (tx_next_ok (ledger_protocol (stack s)) a _ _ Htx Ha Hl Hlim eq_refl ltac:(lia)
    eq_refl ltac:(lia))), (mbind_ret _ _ _ _ _ (packet_run _)) in E.
  set (g1 := after_tx (ledger_protocol (stack s)) a _ _) in E.
  destruct (send_rest fuel g1) as [ps' g'| |] eqn:Er; unfold mbind in E; rewrite Er in E; [|done|done].
  apply ret_inj in E as [<- <-]. destruct n as [|n]; [cbn in Hn; lia|]. cbn [length] in Hn, Har. cbn [replicate] in Har.
  destruct (arrives_inv _ _ _ _ Har) as (h & d & evs1 & evs2 & Eev & _ & Hh & Hd1 & Hd2 & Har').
  destruct (rx_evt_ack s h d evs1 evs2 Hs Hu Eev Hh Hd1 Hd2) as (io & Hio & Hin & Hout & Hrun).
  set (w := hid_view (set_usb_io io (stack s))) in *.
  pose proof (data_in_chunk_ok a w (or_ready _ Hio) Hi Hrd Ha) as Hv. specialize (Hrun _ Hv).
  change (protocol_of w) with (ledger_protocol (stack s)) in *.
  set (s1 := acked (data_in_done (next_chunk a w)) io s).
  destruct (acked_ok a io s Hio Hu) as [Hs1 Hu1]. fold w s1 in Hs1, Hu1.
  assert (mtu g1 = LEDGER_HID_EPIN_SIZE) as Hmtu.
  { destruct (after_tx_static (ledger_protocol (stack s)) a (tx_apdu_sequence_number (ledger_protocol (stack s)))
      (tx_apdu_offset (ledger_protocol (stack s)))) as (_ & _ & _ & _ & E5). fold g1 in E5. by rewrite E5, Hm. }
  rewrite Hmtu. set (p := ztake LEDGER_HID_EPIN_SIZE (tx_chunk_buffer g1)).
  assert (usb_out (stack s1) = usb_out (stack s) ++ ack_packet p) as Hout1.
  { unfold s1, data_in_done. destruct (bool_decide _);
      (transitivity (io_out io ++ transmit_packet LEDGER_HID_EPIN_ADDR p); [done|]; rewrite Hout;
       unfold ack_packet; by rewrite <- app_assoc). }
  assert (wait_idle (S n) s = wait_idle n s1) as Hstep.
  { cbn [wait_idle]. pose proof (is_busy_run (stack s) Hu) as E. rewrite Hbusy in E.
    rewrite (on_stack_run _ _ _ _ _ E). change (truthy _) with true. cbv iota.
    replace (set_stack (stack s) s) with s by (by destruct s). by rewrite (mbind_ret _ _ _ _ _ Hrun). }
  rewrite Hstep. cbn [length map concat]. rewrite Nat.sub_succ, app_assoc, <- Hout1.
  destruct (after_tx_at w a Hi Hrd Ha) as [Hi1 Hrd1].
  destruct (tx_apdu_buffer g1) as [b|] eqn:Hb.
  - assert (data_in_done (next_chunk a w) = next_chunk a w) as Ed.
    { unfold data_in_done. change (protocol_of (next_chunk a w)) with g1. by rewrite Hb. }
    assert (s1 = acked (next_chunk a w) io s) as Es1 by (unfold s1; by rewrite Ed).
    destruct (IH b ps' s1 n) as (s' & F); try (done || lia); try (rewrite Es1; done); [|by exists s'].
    rewrite Es1. change (arrives (fd_in (seph_fd io)) (replicate (length ps') ack_event) evs'). by rewrite Hin.
  - assert (ps' = []) as ->. { destruct fuel; cbn [send_rest] in Er; unfold mbind, mgets in Er;
        rewrite Hb in Er; by injection Er. }
    apply arrives_nil_inv in Har' as ->. exists s1. rewrite Nat.sub_0_r.
    assert (hid_state (hid_handle (usb_class (stack s1))) = LEDGER_HID_STATE_IDLE /\
      tx_apdu_buffer (ledger_protocol (stack s1)) = None /\ fd_in (seph_fd (usb_io (stack s1))) = evs2)
      as (Hi' & Ht' & Hf').
    { unfold s1, data_in_done. change (protocol_of (next_chunk a w)) with g1. rewrite Hb.
      split; [done|]. by split. }
    split; [by apply wait_idle_stop|]. split_and!; try done. by rewrite app_nil_r.
Qed.

Lemma usb_send_ok type buffer len u v :
  hid_device u -> USBD_LEDGER_HID_send_packet buffer len 0 (hid_view u) = Ret USBD_OK v ->
  USBD_LEDGER_send USBD_LEDGER_CLASS_HID type buffer len 0 u = Ret SWO_SUCCESS (put_hid v u).
Proof.
  intros [] E. unfold USBD_LEDGER_send. rewrite (mbind_ret _ _ u USBD_OK (put_hid v u)); [done|].
  apply (for_one_class _ _ false); [done|done|].
  rewrite (mlift_some _ _ _ USBD_LEDGER_HID_class_info) by done. cbn [class_info ci_type ci_send_packet].
  rewrite Z.eqb_refl, (mlift_some _ _ _ (fun _ b n t => with_hid (USBD_LEDGER_HID_send_packet b n t))) by done.
  by rewrite (with_hid_run _ _ _ _ _ E).
Qed.

(** The first packet went out. *)
Definition send_started (a : list Z) (s : os_io_t) : os_io_t :=
  set_stack (put_hid (first_sent a (hid_view (stack s))) (stack s)) s.

Lemma send_started_ok a s :
  os_ready s -> hid_device (stack s) -> os_ready (send_started a s) /\ hid_device (stack (send_started a s)).
Proof. intros [] []. split; constructor; try done; by apply io_sent_ready. Qed.

(** The class is idle after the acknowledgement of an APDU of one packet. *)
Lemma wait_idle_one n s evs' :
  os_ready s -> hid_device (stack s) -> hid_state (hid_handle (usb_class (stack s))) = LEDGER_HID_STATE_BUSY ->
  tx_apdu_buffer (ledger_protocol (stack s)) = None ->
  arrives (fd_in (seph_fd (usb_io (stack s)))) [ack_event] evs' ->
  exists s', wait_idle (S n) s = Ret n s' /\ os_ready s' /\ hid_device (stack s') /\
    hid_state (hid_handle (usb_class (stack s'))) = LEDGER_HID_STATE_IDLE /\
    fd_in (seph_fd (usb_io (stack s'))) = evs' /\ caller_buffer s' = caller_buffer s /\
    usb_out (stack s') = usb_out (stack s) ++ seph_io_general_status.
Proof.
  intros Hs Hu Hbusy Ha Har. destruct (arrives_inv _ _ _ _ Har) as (h & d & evs1 & evs2 & Eev & _ & Hh & Hd1 & Hd2 & Har').
  apply arrives_nil_inv in Har' as ->.
  destruct (rx_evt_ack s h d evs1 evs2 Hs Hu Eev Hh Hd1 Hd2) as (io & Hio & Hin & Hout & Hrun).
  set (w := hid_view (set_usb_io io (stack s))) in *. specialize (Hrun _ (data_in_idle_ok w Ha)).
  assert (data_in_done w = hid_idle (put_protocol (set_tx_chunk_length 0 (protocol_of w)) w)) as Ed.
  { unfold data_in_done. change (protocol_of w) with (ledger_protocol (stack s)). by rewrite Ha. }
  rewrite Ed in Hrun. set (s1 := set_stack _ _) in Hrun.
  assert (os_ready s1 /\ hid_device (stack s1)) as [Hs1 Hu1] by (destruct Hio, Hu; by split; constructor).
  exists s1. split; [|by split_and!].
  cbn [wait_idle]. pose proof (is_busy_run (stack s) Hu) as E. rewrite Hbusy in E.
  rewrite (on_stack_run _ _ _ _ _ E). change (truthy _) with true. cbv iota.
  replace (set_stack (stack s) s) with s by (by destruct s). rewrite (mbind_ret _ _ _ _ _ Hrun).
  by apply wait_idle_stop.
Qed.

Lemma send_rest_cons n g b ps h :
  tx_apdu_buffer g = Some b -> send_rest n g = Ret ps h -> ps <> [].
Proof.
  intros Hb E ->. destruct n; cbn [send_rest] in E; unfold mbind at 1, mgets at 1 in E; rewrite Hb in E; [done|].
  unfold mbind in E. destruct (LEDGER_PROTOCOL_tx None 0 g) as [[] g1| |]; [|done..].
  rewrite packet_run in E. by destruct (send_rest n g1).
Qed.

(** The acknowledgements that [os_io_tx_cmd] waits for, and what is sent
    meanwhile. *)
Definition waited_acks (ps : list (list Z)) : nat := Nat.max 1 (length ps).
Definition waited_out (ps : list (list Z)) : list Z :=
  match ps with [] => seph_io_general_status | _ => concat (map ack_packet ps) end.

(** The packets of an answer after the first one. *)
Definition answer_rest (a : list Z) (s : os_io_t) : list (list Z) :=
  match send_rest (length a) (first_chunk a (hid_view (stack s))) with Ret ps _ => ps | _ => [] end.

(** C4: an answer of at most six packets, handed to [os_io_tx_cmd], goes
    out one packet per acknowledgement, from which the host gets it back; the
    call waits for the acknowledgements and leaves the class idle, and returns
    the length, or 0 when it has waited for five events. *)
Theorem os_io_sends_apdu s (g : ledger_protocol_t) (a : list Z) :
  os_ready s -> hid_device (stack s) -> hid_inv (hid_handle (usb_class (stack s))) ->
  hid_ready (hid_handle (usb_class (stack s))) ->
  hid_state (hid_handle (usb_class (stack s))) = LEDGER_HID_STATE_IDLE -> zlen a < 65535 ->
  rx_ready g a -> rx_apdu_sequence_number g = 0 ->
  let ps := answer_rest a s in (length ps <= 5)%nat ->
  exists p g', receive (p :: ps) g = Ret tt g' /\ received g' a /\ forall evs',
    arrives (fd_in (seph_fd (usb_io (stack s)))) (replicate (waited_acks ps) ack_event) evs' ->
    exists s', os_io_tx_cmd OS_IO_PACKET_TYPE_USB_HID_APDU (Some a) (zlen a) s
        = Ret (if (length ps <? 5)%nat then zlen a else 0) s' /\
      os_ready s' /\ hid_device (stack s') /\
      hid_state (hid_handle (usb_class (stack s'))) = LEDGER_HID_STATE_IDLE /\
      fd_in (seph_fd (usb_io (stack s'))) = evs' /\ caller_buffer s' = caller_buffer s /\
      usb_out (stack s') = usb_out (stack s) ++ transmit_packet LEDGER_HID_EPIN_ADDR p ++ waited_out ps.
Proof.
  intros Hs Hu Hi Hrd Hidle Ha Hg Hseq. pose proof Hu as [Hio Hx _ _ _ _ _]. unfold answer_rest.
  set (v := hid_view (stack s)). assert (sender v) as Hv by (by split).
  destruct (tx_first_ok a v Hv Ha) as (_ & Hi1 & Hrd1 & _).
  destruct (sender_packets v g a Hv Ha Hg Hseq) as (ps & h & g' & Er & E2 & Hrec & _). rewrite Er. intros Hn.
  set (p := ztake LEDGER_HID_EPIN_SIZE (tx_chunk_buffer (first_chunk a v))) in *.
  exists p, g'. split; [done|]. split; [done|]. intros evs' Har.
  set (s1 := send_started a s). destruct (send_started_ok a s Hs Hu) as [Hs1 Hu1]. fold s1 in Hs1, Hu1.
  assert (usb_out (stack s1) = usb_out (stack s) ++ transmit_packet LEDGER_HID_EPIN_ADDR p) as Hout1 by done.
  assert (os_io_tx_cmd OS_IO_PACKET_TYPE_USB_HID_APDU (Some a) (zlen a) s
    = (let! rest := wait_idle 5 in mret (if (0 <? rest)%nat then zlen a else 0)) s1) as ->.
  { unfold os_io_tx_cmd. change (OS_IO_PACKET_TYPE_USB_HID_APDU =? OS_IO_PACKET_TYPE_USB_HID_APDU) with true. cbv iota.
    rewrite (mbind_ret _ _ s 0 s1); [done|].
    by rewrite (on_stack_run _ _ _ _ _ (usb_send_ok OS_IO_PACKET_TYPE_USB_HID_APDU _ _ _ _ Hu
      (send_packet_ok a v Hv Hx Hidle Ha))). }
  destruct (tx_apdu_buffer (first_chunk a v)) as [b|] eqn:Hb.
  - assert (ps <> []) as Hne by (by apply (send_rest_cons (length a) (first_chunk a v) b ps h)).
    destruct (wait_idle_ok (length a) b ps s1 h 5 evs') as (s' & F1 & F2 & F3 & F4 & _ & F5 & F6 & F7); try done.
    { destruct ps; [done|]. exact Har. }
    exists s'. rewrite (mbind_ret _ _ _ _ _ F1). unfold mret. split_and!; try done.
    + do 2 f_equal. destruct (Nat.ltb_spec 0 (5 - length ps)), (Nat.ltb_spec (length ps) 5); (done || lia).
    + rewrite F7, Hout1, <- app_assoc. by destruct ps.
  - assert (ps = []) as -> by (destruct (length a); cbn [send_rest] in Er; unfold mbind, mgets in Er;
      rewrite Hb in Er; by injection Er).
    destruct (wait_idle_one 4 s1 evs') as (s' & F1 & F2 & F3 & F4 & F5 & F6 & F7); try done.
    exists s'. rewrite (mbind_ret _ _ _ _ _ F1). split_and!; try done.
    by rewrite F7, Hout1, <- app_assoc.
Qed.

(** ** The other events *)

Lemma ztake_app_add {A} n (l k : list A) : 0 <= n -> ztake (n + zlen l) (l ++ k) = l ++ ztake n k.
Proof.
  intros Hn. unfold ztake, zlen. rewrite Z.add_comm, Z2Nat.inj_add, Nat2Z.id by lia. apply take_app_add.
Qed.

Lemma buf_write_run off d s : 0 <= off -> off + zlen d <= zlen (caller_buffer s) ->
  buf_write false off d s = Ret tt (set_caller_buffer
    (ztake off (caller_buffer s) ++ d ++ zdrop (off + zlen d) (caller_buffer s)) s).
Proof.
  intros H1 H2. unfold buf_write, buf_get, buf_put. unfold mbind at 1, mgets at 1.
  by rewrite (mlift_some _ _ _ _ (write_at_ok (caller_buffer s) off d H1 H2)).
Qed.

Lemma move_seph_run off from n s :
  let g := G_io_seph_buffer (usb_io (stack s)) in
  0 <= from -> 0 <= n -> from + n <= zlen g -> 0 <= off -> off + n <= zlen (caller_buffer s) ->
  move_seph false off from n s = Ret tt (set_caller_buffer
    (ztake off (caller_buffer s) ++ ztake n (zdrop from g) ++ zdrop (off + n) (caller_buffer s)) s).
Proof.
  intros g H1 H2 H3 H4 H5. unfold move_seph. rewrite on_io_gets. fold g.
  rewrite (mlift_some _ _ _ _ (read_at_ok g from n H1 H2 H3)).
  assert (zlen (ztake n (zdrop from g)) = n) as Hz by (rewrite zlen_ztake; rewrite ?zlen_zdrop; lia).
  rewrite buf_write_run by lia. by rewrite Hz.
Qed.

Lemma move_seph_fault own off from n s :
  zlen (G_io_seph_buffer (usb_io (stack s))) < from + n -> move_seph own off from n s = Fault.
Proof.
  intros H. unfold move_seph. rewrite on_io_gets. unfold read_at.
  destruct (_ && _ && (from + n <=? _)) eqn:E; [lia|done].
Qed.

(** The event of the controller that carries the command [a] as it is. *)
Definition capdu_event (a : list Z) : list Z :=
  SEPROXYHAL_TAG_CAPDU_EVENT :: w8 (Z.shiftr (zlen a) 8) :: w8 (zlen a) :: a.

(** A raw command is handed over behind its type, with its length;
    one of more than 265 bytes is copied from beyond the end of the buffer of
    the channel, since the four bytes before it are counted in the length. *)
Theorem os_io_rx_capdu s a h d evs evs' max :
  os_ready s -> capdu_event a = h ++ d -> zlen h = 3 -> packet_ok (capdu_event a) ->
  delivers (fd_in (seph_fd (usb_io (stack s)))) h evs -> delivers evs d evs' ->
  zlen a + 5 < max -> max <= zlen (caller_buffer s) -> max < 65536 ->
  if zlen a <=? 265 then
    exists s', os_io_rx_evt false max s = Ret (1 + zlen a) s' /\
      ztake (1 + zlen a) (caller_buffer s') = OS_IO_PACKET_TYPE_RAW_APDU :: a /\
      zlen (caller_buffer s') = zlen (caller_buffer s) /\ os_ready s' /\
      fd_in (seph_fd (usb_io (stack s'))) = evs' /\ usb_out (stack s') = usb_out (stack s) ++ seph_io_general_status
  else os_io_rx_evt false max s = Fault.
Proof.
  intros Hs Eev Hh Hpk Hd1 Hd2 Hmax Hb Hlim. rewrite Eev in Hpk. pose proof (zlen_nonneg a).
  assert (zlen (h ++ d) = 3 + zlen a) as Hl by (rewrite <- Eev; unfold capdu_event; rewrite !zlen_cons; lia).
  destruct (next_event_ok s h d evs evs' Hs Hpk Hh Hd1 Hd2) as (io & E & Hio & Hin & Hout & Hg).
  rewrite <- Eev in Hg. set (t := zdrop _ _) in Hg. pose proof (or_buffer _ Hio) as Hgl.
  change (usb_io (stack (put_io io s))) with io in Hgl. unfold OS_IO_SEPH_BUFFER_SIZE in Hgl.
  assert (os_io_rx_evt false max s
    = (do! buf_write false 0 [OS_IO_PACKET_TYPE_RAW_APDU] in
       do! move_seph false 1 4 (4 + zlen a) in mret (1 + zlen a)) (put_io io s)) as ->.
  { unfold os_io_rx_evt. rewrite (mbind_ret _ _ _ _ _ E), Hl. destruct (Z.ltb_spec (3 + zlen a + 1) 0); [lia|].
    unfold dispatch_event. rewrite on_io_gets. change (usb_io (stack (put_io io s))) with io.
    rewrite (mlift_some _ _ _ SEPROXYHAL_TAG_CAPDU_EVENT) by (by rewrite Hg).
    change ((SEPROXYHAL_TAG_CAPDU_EVENT =? SEPROXYHAL_TAG_USB_EVENT)
      || (SEPROXYHAL_TAG_CAPDU_EVENT =? SEPROXYHAL_TAG_USB_EP_XFER_EVENT)) with false.
    change (SEPROXYHAL_TAG_CAPDU_EVENT =? SEPROXYHAL_TAG_CAPDU_EVENT) with true. cbv iota.
    destruct (Z.ltb_spec 0 (3 + zlen a + 1)); [|lia].
    assert (fit max (w16 (3 + zlen a + 1)) = 4 + zlen a) as ->.
    { assert (w16 (3 + zlen a + 1) = 4 + zlen a) as -> by (unfold w16; rewrite Z.mod_small; lia).
      unfold fit. destruct (Z.leb_spec (max - 1) (4 + zlen a)); lia. }
    by replace (4 + zlen a - 3) with (1 + zlen a) by lia. }
  rewrite (mbind_ret _ _ _ _ _ (buf_write_run 0 [OS_IO_PACKET_TYPE_RAW_APDU] (put_io io s) ltac:(lia)
    ltac:(change (zlen [OS_IO_PACKET_TYPE_RAW_APDU]) with 1; change (caller_buffer (put_io io s)) with (caller_buffer s); lia))).
  set (s1 := set_caller_buffer _ _). destruct (Z.leb_spec (zlen a) 265) as [Ha|Ha].
  - change (os_ready (put_io io s)) in Hio. set (b := caller_buffer s) in *.
    assert (caller_buffer s1 = OS_IO_PACKET_TYPE_RAW_APDU :: zdrop 1 b) as Hb1 by done.
    assert (zlen (caller_buffer s1) = zlen b) as Hl1 by (rewrite Hb1, zlen_cons, zlen_zdrop; lia).
    rewrite (mbind_ret _ _ _ _ _ (move_seph_run 1 4 (4 + zlen a) s1 ltac:(lia) ltac:(lia)
      ltac:(change (usb_io (stack s1)) with io; lia) ltac:(lia) ltac:(lia))).
    change (G_io_seph_buffer (usb_io (stack s1))) with (G_io_seph_buffer io). rewrite Hg.
    change (zdrop 4 ((OS_IO_PACKET_TYPE_SEPH :: capdu_event a) ++ t)) with (a ++ t).
    assert (zlen (a ++ t) = 269) as Hat.
    { rewrite Hg, zlen_app in Hgl. unfold capdu_event in Hgl. rewrite !zlen_cons in Hgl. rewrite zlen_app. lia. }
    assert (ztake (1 + zlen a) (ztake 1 (caller_buffer s1) ++ ztake (4 + zlen a) (a ++ t)
      ++ zdrop (1 + (4 + zlen a)) (caller_buffer s1)) = OS_IO_PACKET_TYPE_RAW_APDU :: a) as Htk.
    { rewrite Hb1. change (ztake 1 (OS_IO_PACKET_TYPE_RAW_APDU :: zdrop 1 b)) with [OS_IO_PACKET_TYPE_RAW_APDU].
      rewrite (ztake_app_add 4 a t), <- app_assoc by lia. apply (ztake_app_l _ (OS_IO_PACKET_TYPE_RAW_APDU :: a)).
      rewrite zlen_cons. lia. }
    eexists. split; [reflexivity|]. split; [exact Htk|]. split_and!; try done.
    + change (zlen (ztake 1 (caller_buffer s1) ++ ztake (4 + zlen a) (a ++ t)
        ++ zdrop (1 + (4 + zlen a)) (caller_buffer s1)) = zlen b).
      rewrite !zlen_app, !zlen_ztake, zlen_zdrop; lia.
    + destruct Hio. by constructor.
  - unfold mbind at 1. rewrite move_seph_fault; [done|].
    change (usb_io (stack s1)) with io. lia.
Qed.

(** An event that is not for the stack is copied behind its type,
    but cut to the buffer of the caller, less a byte; the length that is
    returned is the one of the whole event all the same. *)
Theorem os_io_rx_other s h d evs evs' tag max :
  let p := h ++ d in let n := zlen p + 1 in
  os_ready s -> zlen h = 3 -> packet_ok p -> p !! 0%nat = Some tag ->
  tag <> SEPROXYHAL_TAG_USB_EVENT -> tag <> SEPROXYHAL_TAG_USB_EP_XFER_EVENT ->
  tag <> SEPROXYHAL_TAG_CAPDU_EVENT -> tag <> SEPROXYHAL_TAG_ITC_EVENT ->
  delivers (fd_in (seph_fd (usb_io (stack s)))) h evs -> delivers evs d evs' ->
  0 < max <= zlen (caller_buffer s) -> max < 65536 ->
  exists s', os_io_rx_evt false max s = Ret n s' /\
    caller_buffer s' = ztake (Z.min n (max - 1)) (OS_IO_PACKET_TYPE_SEPH :: p)
      ++ zdrop (Z.min n (max - 1)) (caller_buffer s) /\
    os_ready s' /\ fd_in (seph_fd (usb_io (stack s'))) = evs' /\
    usb_out (stack s') = usb_out (stack s) ++ seph_io_general_status.
Proof.
  intros p n Hs Hh Hpk Htag T1 T2 T3 T4 Hd1 Hd2 Hmax Hlim. pose proof Hpk as [Hl _].
  destruct (next_event_ok s h d evs evs' Hs Hpk Hh Hd1 Hd2) as (io & E & Hio & Hin & Hout & Hg). fold p n in E, Hg.
  set (t := zdrop _ _) in Hg. pose proof (or_buffer _ Hio) as Hgl.
  change (usb_io (stack (put_io io s))) with io in Hgl. unfold OS_IO_SEPH_BUFFER_SIZE in *.
  set (k := Z.min n (max - 1)).
  assert (os_io_rx_evt false max s = (do! move_seph false 0 0 k in mret n) (put_io io s)) as ->.
  { unfold os_io_rx_evt. rewrite (mbind_ret _ _ _ _ _ E). destruct (Z.ltb_spec n 0); [lia|].
    unfold dispatch_event. rewrite on_io_gets. change (usb_io (stack (put_io io s))) with io.
    rewrite (mlift_some _ _ _ tag) by (rewrite Hg; by apply lookup_app_l_Some).
    apply Z.eqb_neq in T1, T2, T3, T4. rewrite T1, T2, T3, T4. cbn [orb].
    destruct (Z.ltb_spec 0 n); [|lia].
    assert (fit max (w16 n) = k) as ->; [|done].
    assert (w16 n = n) as -> by (unfold w16; rewrite Z.mod_small; lia).
    unfold fit, k. destruct (Z.leb_spec (max - 1) n); [|lia].
    rewrite Z.min_r by lia. unfold w16. rewrite Z.mod_small; lia. }
  rewrite (mbind_ret _ _ _ _ _ (move_seph_run 0 0 k (put_io io s) ltac:(lia) ltac:(lia)
    ltac:(change (usb_io (stack (put_io io s))) with io; lia) ltac:(lia)
    ltac:(change (caller_buffer (put_io io s)) with (caller_buffer s); lia))).
  change (usb_io (stack (put_io io s))) with io. rewrite zdrop_0, ztake_0, Hg. cbn [app Z.add].
  change (caller_buffer (put_io io s)) with (caller_buffer s).
  assert (ztake k (OS_IO_PACKET_TYPE_SEPH :: p ++ t) = ztake k (OS_IO_PACKET_TYPE_SEPH :: p)) as ->.
  { unfold ztake. rewrite app_comm_cons, take_app_le; [done|]. cbn [length]. unfold zlen in *. lia. }
  eexists. split; [reflexivity|]. split; [done|]. split; [destruct Hio; by constructor|]. by split.
Qed.

(** ** The start of the library *)

Definition wanted_state (st sys : Z) : Z :=
  if st =? OS_IO_STATE_IDLE then OS_IO_STATE_DASHBOARD
  else if sys =? 0x42 then OS_IO_STATE_APP_HIGH_LEVEL_API else OS_IO_STATE_DASHBOARD.

(** The stack is set up again after power-on or an application that drove the
    controller itself. *)
Definition forced (st : Z) : bool := (st =? OS_IO_STATE_IDLE) || (st =? OS_IO_STATE_APP_LOW_LEVEL_API).

Definition os_started (u : usb usbd_ledger_t) (s : os_io_t) : os_io_t :=
  set_stack u (set_G_io_init_syscall 0 (set_G_io_state (wanted_state (G_io_state s) (G_io_init_syscall s)) s)).

(** The buffer of the channel is dropped. *)
Definition uncached (u : usb usbd_ledger_t) : usb usbd_ledger_t :=
  set_usb_io (set_G_io_seph_buffer_size 0 (usb_io u)) u.

Lemma os_io_init_run i s u :
  USBD_LEDGER_init i (if forced (G_io_state s) then 1 else 0) (stack s) = Ret tt u ->
  os_io_init (Some i) s = Ret 0 (os_started (uncached u) s).
Proof.
  intros E. unfold os_io_init, os_started, wanted_state, forced in *. unfold mbind at 1, mgets at 1.
  unfold mbind at 1, mgets at 1. set (st := G_io_state s) in *.
  set (s1 := set_G_io_state _ s) in *.
  rewrite (mbind_ret _ _ s (if (st =? OS_IO_STATE_IDLE) || (st =? OS_IO_STATE_APP_LOW_LEVEL_API) then 1 else 0) s1).
  - unfold mbind at 1, mmodify at 1. rewrite (on_stack_run _ _ _ tt u) by exact E.
    unfold mbind, mmodify, on_io, zoom, mret. done.
  - unfold s1. destruct (st =? OS_IO_STATE_IDLE); [done|]. cbn [orb].
    destruct (G_io_init_syscall s =? 0x42), (st =? OS_IO_STATE_APP_LOW_LEVEL_API); done.
Qed.

(** The stack is running with the classes and the vendor that are wanted. *)
Definition already_running (i : os_io_init_usb_t) (u : usb usbd_ledger_t) : Prop :=
  ledger_state (usb_class u) = USBD_LEDGER_STATE_RUNNING /\
  classes (usb_class u) = linked_classes (init_class_mask i) /\
  (init_vid i = 0 \/ init_vid i = vid (usb_class u)).

Lemma kept_run i u :
  already_running i u ->
  USBD_LEDGER_init i 0 u = Ret tt (set_usb_class (set_init_data i (usb_class u)) u) /\
  USBD_LEDGER_start (set_usb_class (set_init_data i (usb_class u)) u)
  = Ret tt (set_usb_class (set_init_data (start_init i) (usb_class u)) u).
Proof.
  intros (Hst & Hc & Hv). split.
  - unfold USBD_LEDGER_init. rewrite led_run, Hst.
    change (truthy 0 || (USBD_LEDGER_STATE_RUNNING <? USBD_LEDGER_STATE_INITIALIZED)) with false. done.
  - destruct u as [dev si so io l]. cbn in Hst, Hc, Hv.
    unfold USBD_LEDGER_start. rewrite led_upd_run, !led_run.
    set (l' := usb_class _).
    assert (l' = set_init_data (start_init i) l) as -> by reflexivity.
    change (ledger_state (set_init_data (start_init i) l)) with (ledger_state l).
    change (classes (set_init_data (start_init i) l)) with (classes l).
    change (vid (set_init_data (start_init i) l)) with (vid l).
    change (init_class_mask (init_data (set_init_data (start_init i) l))) with (linked_classes (init_class_mask i)).
    change (init_vid (init_data (set_init_data (start_init i) l))) with (init_vid i).
    rewrite Hst, Hc, Z.eqb_refl.
    assert (truthy (init_vid i) && negb (vid l =? init_vid i) = false) as ->.
    { destruct Hv as [-> | ->]; [done|]. rewrite Z.eqb_refl. apply andb_false_r. }
    change (USBD_LEDGER_STATE_RUNNING =? USBD_LEDGER_STATE_INITIALIZED) with false. cbn [negb orb].
    rewrite (mbind_ret (mret tt) _ _ tt _ eq_refl), led_run. cbn [usb_class set_usb_class].
    match goal with |- context [ledger_state ?x] => change (ledger_state x) with (ledger_state l) end.
    by rewrite Hst.
Qed.

(** After power-on, or after an application that drove the
    controller itself, the start sets the whole stack up and connects it;
    otherwise, a start with the classes and the vendor that are running
    leaves the device as it is and sends nothing, so that the host sees no
    disconnection. *)
Theorem os_io_init_start s i n :
  seph_ready (usb_io (stack s)) -> static_ok (usb_class (stack s)) -> strlen (init_name i) = Some n ->
  0 <= init_class_mask i < 65536 -> Z.testbit (init_class_mask i) 0 = true ->
  (forced (G_io_state s) = false -> already_running i (stack s)) ->
  exists s', (do! os_io_init (Some i) in os_io_start) s = Ret 0 s' /\
    G_io_state s' = wanted_state (G_io_state s) (G_io_init_syscall s) /\ G_io_init_syscall s' = 0 /\
    if forced (G_io_state s)
    then dev_is Default (stack s') /\ usb_out (stack s') = usb_out (stack s) ++ start_packets
    else pdev (stack s') = pdev (stack s) /\ usb_out (stack s') = usb_out (stack s) /\
      ledger_state (usb_class (stack s')) = USBD_LEDGER_STATE_RUNNING.
Proof.
  intros Hr Hst Hn Hm Hb Hk. destruct (forced (G_io_state s)) eqn:Hf.
  - destruct (strlcpy_ok (zeros 20) _ _ Hn ltac:(done)) as (d & k & Hd & Hl & Hk' & Hle).
    assert (USBD_LEDGER_init i (if forced (G_io_state s) then 1 else 0) (stack s)
      = Ret tt (restarted i (stack s))) as E by (rewrite Hf; reflexivity).
    rewrite (mbind_ret _ _ _ _ _ (os_io_init_run i s _ E)).
    set (u := stack s) in *.
    assert (USBD_LEDGER_start (uncached (restarted i u)) = Ret tt (started i d (uncached u))) as E2.
    { etransitivity; [|apply (start_run i d n (uncached u)); try done; by destruct Hr].
      reflexivity. }
    unfold os_io_start. eexists. split; [exact (on_stack_run _ (fun _ => mret 0) (os_started _ s) _ _ E2)|].
    split; [done|]. split; [done|]. split.
    + apply (started_default i d k); try done.
    + change (io_out (io_sent [0x4F; 0; 1; 0x01] (io_sent [0x4F; 0; 2; 0x03; 0]
        (set_G_io_seph_buffer_size 0 (usb_io u)))) = usb_out u ++ start_packets).
      by rewrite !io_sent_out, <- app_assoc.
  - destruct (kept_run i (stack s) (Hk eq_refl)) as [E1 E2].
    assert (USBD_LEDGER_init i (if forced (G_io_state s) then 1 else 0) (stack s)
      = Ret tt (set_usb_class (set_init_data i (usb_class (stack s))) (stack s))) as E by (rewrite Hf; exact E1).
    rewrite (mbind_ret _ _ _ _ _ (os_io_init_run i s _ E)).
    destruct (kept_run i (uncached (stack s)) (Hk eq_refl)) as [_ E3].
    unfold os_io_start. eexists. split; [exact (on_stack_run _ (fun _ => mret 0) (os_started _ s) _ _ E3)|]. split_and!; try done. apply (Hk eq_refl).
Qed.

(** ** On the device that was enumerated *)

#[local] Opaque started_usb configured_usb.

Lemma arrives_whole ps evs : Forall packet_ok ps -> arrives (map RdData ps ++ evs) ps evs.
Proof.
  induction 1 as [|p ps [Hl Hp] _ IH]; [constructor|].
  assert (p = ztake 3 p ++ zdrop 3 p) as Hs by (symmetry; apply take_drop).
  assert (zlen (ztake 3 p) = 3) as H3 by (rewrite zlen_ztake; lia).
  assert (ztake 3 p <> []) as Hne by (intros E; rewrite E in H3; discriminate H3).
  assert (packet_ok (ztake 3 p ++ zdrop 3 p)) as Hpk by (rewrite <- Hs; by split).
  cbn [map app]. rewrite Hs at 1 2. destruct (zdrop 3 p) as [|x d].
  - eapply arrives_cons; [exact Hpk|exact H3|rewrite app_nil_r; by apply delivers_all|constructor|exact IH].
  - eapply arrives_cons; [exact Hpk|exact H3|by apply delivers_more|by apply delivers_all|exact IH].
Qed.

Definition packet_okb (p : list Z) : bool :=
  (3 <=? zlen p) && (zlen p <=? OS_IO_SEPH_BUFFER_SIZE) &&
  match U2BE p 1 with Some n => n =? zlen p - 3 | None => false end.

Lemma packets_okb ps : forallb packet_okb ps = true -> Forall packet_ok ps.
Proof.
  intros H. apply Is_true_eq_left, forallb_True in H. eapply Forall_impl; [exact H|]. clear. intros p. unfold packet_okb, packet_ok.
  destruct (U2BE p 1) as [n|]; rewrite ?andb_false_r; [|done]. intros Hb%Is_true_eq_true.
  split; [lia|]. f_equal. lia.
Qed.

Definition os_with (u : usb usbd_ledger_t) (evs : list rd_event) : os_io_t :=
  mk_os_io (set_usb_io (set_seph_fd (set_fd_in evs (seph_fd (usb_io u))) (usb_io u)) u)
    OS_IO_STATE_DASHBOARD 0 (zeros 300).

Lemma os_with_ready u evs :
  hid_device u -> rx_packet_max_length (G_seph_info (usb_io u)) = OS_IO_SEPH_BUFFER_SIZE ->
  zlen (rx_packet (G_seph_info (usb_io u))) = OS_IO_SEPH_BUFFER_SIZE ->
  zlen (G_io_seph_buffer (usb_io u)) = OS_IO_SEPH_BUFFER_SIZE + 1 ->
  G_io_seph_buffer_size (usb_io u) = 0 ->
  os_ready (os_with u evs) /\ hid_device (stack (os_with u evs)).
Proof. intros []. by split; constructor. Qed.

Lemma configured_os_ready evs :
  os_ready (os_with configured_usb evs) /\ hid_device (stack (os_with configured_usb evs)).
Proof. apply os_with_ready; [exact configured_usb_device|vm_compute; reflexivity..]. Qed.

Lemma os_with_hid u evs (P : ledger_hid_handle_t -> Prop) :
  P (hid_handle (usb_class u)) -> P (hid_handle (usb_class (stack (os_with u evs)))).
Proof. done. Qed.

Lemma os_with_in u evs : fd_in (seph_fd (usb_io (stack (os_with u evs)))) = evs.
Proof. done. Qed.

Lemma os_with_sequence u evs (P : Z -> Prop) :
  P (rx_apdu_sequence_number (ledger_protocol u)) ->
  P (rx_apdu_sequence_number (ledger_protocol (stack (os_with u evs)))).
Proof. done. Qed.

Lemma configured_os_hid evs :
  hid_inv (hid_handle (usb_class (stack (os_with configured_usb evs)))) /\
  hid_ready (hid_handle (usb_class (stack (os_with configured_usb evs)))) /\
  rx_apdu_sequence_number (ledger_protocol (stack (os_with configured_usb evs))) = 0.
Proof.
  split; [|split].
  - apply os_with_hid. apply configured_usb_hid.
  - apply os_with_hid. apply configured_usb_hid.
  - apply (os_with_sequence configured_usb evs (fun n => n = 0)). vm_compute. reflexivity.
Qed.

(** What a host sends, and what acknowledges an answer of one packet. *)
Definition host_packets : list (list Z) :=
  match send (repeat 7 100) (example_handle 64 260 [1; 1]) with Ret ps _ => ps | _ => [] end.

Lemma os_io_receives_apdu_witness :
  exists s', rx_evts 2 300 (os_with configured_usb (map RdData (map host_event host_packets)))
      = Ret [0; 101] s' /\
    caller_buffer s' = OS_IO_PACKET_TYPE_USB_HID_APDU :: repeat 7 100 ++ zeros 199 /\
    fd_in (seph_fd (usb_io (stack s'))) = [].
Proof.
  set (evs := map RdData (map host_event host_packets)). set (s := os_with configured_usb evs).
  destruct (configured_os_ready evs) as [Hs Hu]. destruct (configured_os_hid evs) as (Hi & Hr & Hseq).
  destruct (os_io_receives_apdu s (example_handle 64 260 [1; 1]) (repeat 7 100) 300 Hs Hu Hi Hr Hseq)
    as (ps & h' & E & H).
  1-5: vm_compute; repeat split; discriminate.
  assert (ps = host_packets) as -> by (unfold host_packets; by rewrite E).
  destruct (H []) as (s' & F1 & F2 & _ & _ & F3 & _).
  { unfold s. rewrite os_with_in. rewrite <- (app_nil_r evs). apply arrives_whole.
    apply packets_okb. vm_compute. reflexivity. }
  assert (length host_packets = 2%nat) as Hn by (vm_compute; reflexivity). rewrite Hn in F1.
  exists s'. split; [exact F1|]. split; [exact F2|exact F3].
Defined.

Lemma os_io_sends_apdu_witness :
  exists p g' s', receive [p] (example_handle 64 260 [0; 0]) = Ret tt g' /\ received g' [0x90; 0x00] /\
    os_io_tx_cmd OS_IO_PACKET_TYPE_USB_HID_APDU (Some [0x90; 0x00]) 2 (os_with configured_usb [RdData ack_event])
    = Ret 2 s' /\ fd_in (seph_fd (usb_io (stack s'))) = [].
Proof.
  set (evs := [RdData ack_event]). set (s := os_with configured_usb evs).
  destruct (configured_os_ready evs) as [Hs Hu]. destruct (configured_os_hid evs) as (Hi & Hr & Hseq).
  assert (answer_rest [0x90; 0x00] s = []) as Ha by (vm_compute; reflexivity).
  assert (hid_state (hid_handle (usb_class (stack s))) = LEDGER_HID_STATE_IDLE) as Hst.
  { apply (os_with_hid configured_usb evs (fun h => hid_state h = LEDGER_HID_STATE_IDLE)). vm_compute. reflexivity. }
  pose proof (os_io_sends_apdu s (example_handle 64 260 [0; 0]) [0x90; 0x00] Hs Hu Hi Hr Hst) as H.
  cbv zeta in H. rewrite Ha in H.
  destruct H as (p & g' & E & Hrec & H); [reflexivity|vm_compute; repeat split; discriminate|reflexivity|cbn; lia|].
  destruct (H []) as (s' & F1 & _ & _ & _ & F2 & _).
  { apply (arrives_whole [ack_event] []). apply packets_okb. vm_compute. reflexivity. }
  exists p, g', s'. split; [exact E|]. split; [exact Hrec|]. split; [exact F1|exact F2].
Defined.

Lemma os_io_rx_capdu_witness :
  (exists s', os_io_rx_evt false 300 (os_with configured_usb [RdData (capdu_event [0xE0; 1; 2])]) = Ret 4 s' /\
    ztake 4 (caller_buffer s') = [OS_IO_PACKET_TYPE_RAW_APDU; 0xE0; 1; 2]) /\
  os_io_rx_evt false 300 (os_with configured_usb [RdData (capdu_event (repeat 7 266))]) = Fault.
Proof.
  split.
  - destruct (os_io_rx_capdu (os_with configured_usb [RdData (capdu_event [0xE0; 1; 2])]) [0xE0; 1; 2]
      [SEPROXYHAL_TAG_CAPDU_EVENT; 0; 3] [0xE0; 1; 2] [RdData [0xE0; 1; 2]] [] 300) as (s' & E1 & E2 & _).
    1: apply configured_os_ready.
    1-2: reflexivity.
    1: split; [by vm_compute|reflexivity].
    1: by apply (delivers_more [SEPROXYHAL_TAG_CAPDU_EVENT; 0; 3] [0xE0; 1; 2]).
    1: by apply delivers_all.
    1-3: vm_compute; done.
    exists s'. split; [exact E1|exact E2].
  - pose proof (os_io_rx_capdu (os_with configured_usb [RdData (capdu_event (repeat 7 266))]) (repeat 7 266)
      [SEPROXYHAL_TAG_CAPDU_EVENT; 1; 10] (repeat 7 266) [RdData (repeat 7 266)] [] 300) as H.
    change (zlen (repeat 7 266) <=? 265) with false in H. cbv iota in H. apply H; clear H.
    1: apply configured_os_ready.
    1-2: reflexivity.
    1: split; [by vm_compute|reflexivity].
    1: by apply (delivers_more [SEPROXYHAL_TAG_CAPDU_EVENT; 1; 10] (repeat 7 266)).
    1: by apply delivers_all.
    1-3: vm_compute; done.
Defined.

(** A ticker event of four bytes for a buffer of three. *)
Lemma os_io_rx_other_witness :
  exists s', os_io_rx_evt false 3 (os_with configured_usb [RdData [0x0E; 0; 1; 7]]) = Ret 5 s' /\
    caller_buffer s' = [OS_IO_PACKET_TYPE_SEPH; 0x0E] ++ zeros 298.
Proof.
  destruct (os_io_rx_other (os_with configured_usb [RdData [0x0E; 0; 1; 7]]) [0x0E; 0; 1] [7] [RdData [7]] [] 0x0E 3)
    as (s' & E1 & E2 & _).
  1: apply configured_os_ready.
  1: reflexivity.
  1: split; [by vm_compute|reflexivity].
  1: reflexivity.
  1-4: discriminate.
  1: by apply (delivers_more [0x0E; 0; 1] [7]).
  1: by apply delivers_all.
  1-2: vm_compute; done.
  exists s'. split; [exact E1|exact E2].
Defined.

Lemma os_io_init_start_witness :
  exists s', (do! os_io_init (Some default_init) in os_io_start) (mk_os_io fresh_usb OS_IO_STATE_IDLE 0 (zeros 300))
      = Ret 0 s' /\
    G_io_state s' = OS_IO_STATE_DASHBOARD /\ dev_is Default (stack s') /\ usb_out (stack s') = start_packets.
Proof.
  destruct (os_io_init_start (mk_os_io fresh_usb OS_IO_STATE_IDLE 0 (zeros 300)) default_init 4)
    as (s' & E & H1 & _ & H2 & H3).
  1: apply fresh_io_ready.
  1: apply fresh_static.
  1-4: done.
  exists s'. split; [exact E|split; [exact H1|split; [exact H2|exact H3]]].
Defined.
