(* ===== verification/OpensslBn.v ===== *)
(** The numbers of OpenSSL that [src/bolos/cx_mpi.c] and [cx_math.c] compute
    with. The library is not part of the program: its functions are parameters,
    the laws state what its manual says of a call that succeeds, and an
    instance on the integers shows that the laws can be met.

    A [BIGNUM] is the integer it holds. A call returns whether it succeeded,
    the number that it leaves in its result, and the state of the library (its
    memory and its random generator), on which success may depend. *)

From Stdlib Require Import Zdivisibility.
From S2P Require Import Prelude.

Abbreviation BIGNUM := Z (only parsing).

(** The size in bytes of the absolute value. *)
Definition num_bytes (n : Z) : Z := if n =? 0 then 0 else Z.log2 (Z.abs n) / 8 + 1.

Class OpensslBn (E : Type) := {
  BN_num_bytes : BIGNUM -> Z;
  BN_is_odd : BIGNUM -> bool;
  BN_is_one : BIGNUM -> bool;
  BN_is_zero : BIGNUM -> bool;
  BN_is_negative : BIGNUM -> bool;
  BN_is_bit_set : BIGNUM -> Z -> bool;
  BN_bn2bin : BIGNUM -> list Z;
  BN_bn2binpad : BIGNUM -> Z -> option (list Z);
  BN_set_negative : BIGNUM -> Z -> BIGNUM;
  BN_cmp : BIGNUM -> BIGNUM -> Z;
  BN_CTX_new : E -> bool * E;
  BN_new : E -> bool * E;
  BN_bin2bn : list Z -> E -> bool * BIGNUM * E;
  BN_copy : BIGNUM -> E -> bool * BIGNUM * E;
  BN_add : BIGNUM -> BIGNUM -> E -> bool * BIGNUM * E;
  BN_sub : BIGNUM -> BIGNUM -> E -> bool * BIGNUM * E;
  BN_mul : BIGNUM -> BIGNUM -> E -> bool * BIGNUM * E;
  BN_div_quotient : BIGNUM -> BIGNUM -> E -> bool * BIGNUM * E;
  BN_div_remainder : BIGNUM -> BIGNUM -> E -> bool * BIGNUM * E;
  BN_add_word : BIGNUM -> Z -> E -> bool * BIGNUM * E;
  BN_sub_word : BIGNUM -> Z -> E -> bool * BIGNUM * E;
  BN_lshift : BIGNUM -> Z -> E -> bool * BIGNUM * E;
  BN_rshift : BIGNUM -> Z -> E -> bool * BIGNUM * E;
  BN_set_bit : BIGNUM -> Z -> E -> bool * BIGNUM * E;
  BN_clear_bit : BIGNUM -> Z -> E -> bool * BIGNUM * E;
  BN_mask_bits : BIGNUM -> Z -> E -> bool * BIGNUM * E;
  BN_mod_add : BIGNUM -> BIGNUM -> BIGNUM -> E -> bool * BIGNUM * E;
  BN_mod_sub : BIGNUM -> BIGNUM -> BIGNUM -> E -> bool * BIGNUM * E;
  BN_mod_mul : BIGNUM -> BIGNUM -> BIGNUM -> E -> bool * BIGNUM * E;
  BN_mod_exp : BIGNUM -> BIGNUM -> BIGNUM -> E -> bool * BIGNUM * E;
  BN_mod_inverse : BIGNUM -> BIGNUM -> E -> bool * BIGNUM * E;
  BN_mod_sqrt : BIGNUM -> BIGNUM -> E -> bool * BIGNUM * E;
  BN_GF2m_mod_mul : BIGNUM -> BIGNUM -> BIGNUM -> E -> bool * BIGNUM * E;
  BN_rand : Z -> E -> bool * BIGNUM * E;
  BN_rand_range : BIGNUM -> E -> bool * BIGNUM * E;
  BN_is_prime_ex : BIGNUM -> E -> Z * E;
}.

(** What the manual says: the queries, and the results of the calls that
    succeed. *)
Class OpensslLaws (E : Type) `{!OpensslBn E} := {
  BN_num_bytes_spec n : BN_num_bytes n = num_bytes n;
  BN_is_odd_spec n : BN_is_odd n = Z.odd n;
  BN_is_one_spec n : BN_is_one n = (n =? 1);
  BN_is_zero_spec n : BN_is_zero n = (n =? 0);
  BN_is_negative_spec n : BN_is_negative n = (n <? 0);
  BN_is_bit_set_spec n i : 0 <= i -> BN_is_bit_set n i = Z.testbit (Z.abs n) i;
  BN_bn2bin_spec n : BN_bn2bin n = be_split (Z.to_nat (num_bytes n)) (Z.abs n);
  BN_bn2binpad_spec n len : 0 <= len -> BN_bn2binpad n len
    = if num_bytes n <=? len then Some (be_split (Z.to_nat len) (Z.abs n)) else None;
  BN_set_negative_0 n : BN_set_negative n 0 = Z.abs n;
  BN_cmp_spec a b : BN_cmp a b = if a <? b then -1 else if a =? b then 0 else 1;
  BN_bin2bn_spec l e n e' : BN_bin2bn l e = (true, n, e') -> n = be_combine l;
  BN_copy_spec a e n e' : BN_copy a e = (true, n, e') -> n = a;
  BN_add_spec a b e n e' : BN_add a b e = (true, n, e') -> n = a + b;
  BN_sub_spec a b e n e' : BN_sub a b e = (true, n, e') -> n = a - b;
  BN_mul_spec a b e n e' : BN_mul a b e = (true, n, e') -> n = a * b;
  BN_div_quotient_spec a b e n e' : BN_div_quotient a b e = (true, n, e') -> n = Z.quot a b;
  BN_div_remainder_spec a b e n e' : BN_div_remainder a b e = (true, n, e') -> n = Z.rem a b;
  BN_add_word_spec a w e n e' : BN_add_word a w e = (true, n, e') -> n = a + w;
  BN_sub_word_spec a w e n e' : BN_sub_word a w e = (true, n, e') -> n = a - w;
  BN_lshift_spec a i e n e' : 0 <= i -> BN_lshift a i e = (true, n, e') -> n = a * 2 ^ i;
  BN_rshift_spec a i e n e' : 0 <= i -> 0 <= a -> BN_rshift a i e = (true, n, e') -> n = a / 2 ^ i;
  BN_set_bit_spec a i e n e' : 0 <= i -> 0 <= a -> BN_set_bit a i e = (true, n, e') -> n = Z.setbit a i;
  BN_clear_bit_spec a i e n e' : 0 <= i -> 0 <= a -> BN_clear_bit a i e = (true, n, e') -> n = Z.clearbit a i;
  BN_mask_bits_spec a i e n e' : 0 <= i -> 0 <= a -> BN_mask_bits a i e = (true, n, e') -> n = a mod 2 ^ i;
  BN_mod_add_spec a b m e n e' : 0 < m -> BN_mod_add a b m e = (true, n, e') -> n = (a + b) mod m;
  BN_mod_sub_spec a b m e n e' : 0 < m -> BN_mod_sub a b m e = (true, n, e') -> n = (a - b) mod m;
  BN_mod_mul_spec a b m e n e' : 0 < m -> BN_mod_mul a b m e = (true, n, e') -> n = (a * b) mod m;
  BN_mod_exp_spec a p m e n e' : 0 < m -> 0 <= p -> BN_mod_exp a p m e = (true, n, e') -> n = a ^ p mod m;
  BN_mod_inverse_spec a m e n e' : 0 < m -> BN_mod_inverse a m e = (true, n, e') ->
    0 <= n < m /\ (a * n) mod m = 1 mod m;
  BN_mod_sqrt_spec a p e n e' : 0 < p -> BN_mod_sqrt a p e = (true, n, e') ->
    0 <= n < p /\ (n * n) mod p = a mod p;
  BN_rand_spec i e n e' : 0 <= i -> BN_rand i e = (true, n, e') -> 0 <= n < 2 ^ i;
  BN_rand_range_spec r e n e' : 0 < r -> BN_rand_range r e = (true, n, e') -> 0 <= n < r;
}.

(** A library that does not run out of memory: the calls that can fail for no
    other reason succeed. *)
Class OpensslReliable (E : Type) `{!OpensslBn E} := {
  BN_new_succeeds e : fst (BN_new e) = true;
  BN_bin2bn_succeeds l e : exists n e', BN_bin2bn l e = (true, n, e');
  BN_copy_succeeds a e : exists n e', BN_copy a e = (true, n, e');
  BN_sub_succeeds a b e : exists n e', BN_sub a b e = (true, n, e');
  BN_sub_word_succeeds a w e : exists n e', BN_sub_word a w e = (true, n, e');
  BN_rshift_succeeds a i e : 0 <= i -> exists n e', BN_rshift a i e = (true, n, e');
  BN_div_remainder_succeeds a b e : 0 < b -> exists n e', BN_div_remainder a b e = (true, n, e');
  BN_mod_add_succeeds a b m e : 0 < m -> exists n e', BN_mod_add a b m e = (true, n, e');
  BN_mod_sub_succeeds a b m e : 0 < m -> exists n e', BN_mod_sub a b m e = (true, n, e');
  BN_mod_mul_succeeds a b m e : 0 < m -> exists n e', BN_mod_mul a b m e = (true, n, e');
  BN_mod_exp_succeeds a p m e : 0 < m -> 0 <= p -> exists n e', BN_mod_exp a p m e = (true, n, e');
  BN_mod_sqrt_succeeds a p e : Z.prime p -> (exists r, (r * r) mod p = a mod p) -> exists n e', BN_mod_sqrt a p e = (true, n, e');
}.

(** * An instance on the integers *)

Module Integers.

(** The state is a sequence of random numbers; memory is unlimited. *)
Definition env : Type := list Z.

Definition done_with (n : Z) (e : env) : bool * BIGNUM * env := (true, n, e).

Definition powm (a p m : Z) : Z :=
  match p with
  | Zpos q => Pos.iter_op (fun x y => x * y mod m) q (a mod m) mod m
  | _ => 1 mod m
  end.

(** The first number below [n] that [f] accepts. *)
Fixpoint search (k : nat) (f : Z -> bool) (i : Z) : option Z :=
  match k with
  | O => None
  | S k => if f i then Some i else search k f (i + 1)
  end.

Definition searched (o : option Z) (e : env) : bool * BIGNUM * env :=
  match o with Some n => (true, n, e) | None => (false, 0, e) end.

Definition draw (n : Z) (e : env) : bool * BIGNUM * env :=
  match e with
  | [] => (true, 0, [])
  | x :: e => (true, x mod n, e)
  end.

Definition is_prime (n : Z) : bool :=
  (2 <=? n) && negb (existsb (fun d => n mod d =? 0) (seqZ 2 (Z.sqrt n - 1))).

(** The product of two polynomials over two elements, reduced. *)
Fixpoint gf2_shift_add (k : nat) (a b m acc : Z) : Z :=
  match k with
  | O => acc
  | S k =>
      let acc := if Z.odd b then Z.lxor acc a else acc in
      let a := 2 * a in
      let a := if Z.testbit a (Z.log2 m) then Z.lxor a m else a in
      gf2_shift_add k a (b / 2) m acc
  end.

#[export] Instance integers : OpensslBn env := {
  BN_num_bytes := num_bytes;
  BN_is_odd := Z.odd;
  BN_is_one n := n =? 1;
  BN_is_zero n := n =? 0;
  BN_is_negative n := n <? 0;
  BN_is_bit_set n := Z.testbit (Z.abs n);
  BN_bn2bin n := be_split (Z.to_nat (num_bytes n)) (Z.abs n);
  BN_bn2binpad n len := if num_bytes n <=? len then Some (be_split (Z.to_nat len) (Z.abs n)) else None;
  BN_set_negative n s := if truthy s then - Z.abs n else Z.abs n;
  BN_cmp a b := if a <? b then -1 else if a =? b then 0 else 1;
  BN_CTX_new e := (true, e);
  BN_new e := (true, e);
  BN_bin2bn l := done_with (be_combine l);
  BN_copy a := done_with a;
  BN_add a b := done_with (a + b);
  BN_sub a b := done_with (a - b);
  BN_mul a b := done_with (a * b);
  BN_div_quotient a b := done_with (Z.quot a b);
  BN_div_remainder a b := done_with (Z.rem a b);
  BN_add_word a w := done_with (a + w);
  BN_sub_word a w := done_with (a - w);
  BN_lshift a i := done_with (a * 2 ^ i);
  BN_rshift a i := done_with (a / 2 ^ i);
  BN_set_bit a i := done_with (Z.setbit a i);
  BN_clear_bit a i := done_with (Z.clearbit a i);
  BN_mask_bits a i := done_with (a mod 2 ^ i);
  BN_mod_add a b m := done_with ((a + b) mod m);
  BN_mod_sub a b m := done_with ((a - b) mod m);
  BN_mod_mul a b m := done_with ((a * b) mod m);
  BN_mod_exp a p m := done_with (powm a p m);
  BN_mod_inverse a m := searched (search (Z.to_nat m) (fun i => (a * i) mod m =? 1 mod m) 0);
  BN_mod_sqrt a p := searched (search (Z.to_nat p) (fun i => (i * i) mod p =? a mod p) 0);
  BN_GF2m_mod_mul a b m := done_with (gf2_shift_add (Z.to_nat (Z.log2 m + 1)) a b m 0);
  BN_rand i := draw (2 ^ i);
  BN_rand_range r := draw r;
  BN_is_prime_ex n e := (if is_prime n then 1 else 0, e);
}.

Lemma search_ok k f i n : search k f i = Some n -> i <= n < i + Z.of_nat k /\ f n = true.
Proof.
  revert i. induction k as [|k IH]; intros i; [done|]. cbn [search]. destruct (f i) eqn:Hf.
  - intros [= <-]. split; [lia|done].
  - intros H%IH. split; [lia|apply H].
Qed.

Lemma searched_ok m f e n e' : 0 < m ->
  searched (search (Z.to_nat m) f 0) e = (true, n, e') -> 0 <= n < m /\ f n = true.
Proof.
  intros Hm. destruct (search _ f 0) as [k|] eqn:E; [|done]. intros [= <- _]. apply search_ok in E. split; [lia|apply E].
Qed.

Lemma draw_ok r e n e' : 0 < r -> draw r e = (true, n, e') -> 0 <= n < r.
Proof.
  intros Hr. destruct e as [|x e]; intros [= <- _]; [lia|]. by apply Z.mod_pos_bound.
Qed.

Lemma powm_ok a p m : 0 < m -> 0 <= p -> powm a p m = a ^ p mod m.
Proof.
  intros Hm Hp. destruct p as [|q|q]; [done| |lia]. cbn [powm].
  assert (forall x y z, x * (y * z mod m) mod m = (x * y mod m) * z mod m) as Ha
    by (intros; by rewrite Z.mul_mod_idemp_r, Z.mul_mod_idemp_l, Z.mul_assoc by lia).
  set (f := fun x y => x * y mod m) in *.
  assert (forall x, Pos.iter_op f q x mod m = x ^ Zpos q mod m) as ->.
  { induction q as [|q IH] using Pos.peano_ind; intros x; [cbn; f_equal; lia|].
    rewrite Pos.iter_op_succ by (intros; apply Ha). rewrite Pos2Z.inj_succ, Z.pow_succ_r by lia.
    unfold f at 1. rewrite Z.mod_mod, <- Z.mul_mod_idemp_r, IH, Z.mul_mod_idemp_r by lia. done. }
  rewrite !(Z.mod_pow_l) by lia. done.
Qed.

#[export] Instance integers_laws : OpensslLaws env.
Proof.
  split; intros; cbn in *; try done; try (by injection H); try (by injection H0); try (by injection H1).
  - injection H1 as <- _. by apply powm_ok.
  - apply searched_ok in H0 as [? ?%Z.eqb_eq]; done.
  - apply searched_ok in H0 as [? ?%Z.eqb_eq]; done.
  - apply draw_ok in H0; [done|]. by apply Z.pow_pos_nonneg.
  - by apply draw_ok in H0.
Qed.

Lemma search_complete k f i r : i <= r < i + Z.of_nat k -> f r = true -> is_Some (search k f i).
Proof.
  revert i. induction k as [|k IH]; intros i Hr Hf; [lia|]. cbn [search]. destruct (f i) eqn:Hi; [by eexists|].
  apply IH; [|done]. assert (i <> r) by congruence. lia.
Qed.

#[export] Instance integers_reliable : OpensslReliable env.
Proof.
  split; intros; cbn; unfold done_with; try done; try by eexists _, _. destruct H0 as [r Hr]. destruct H as [H _].
  destruct (search_complete (Z.to_nat p) (fun i => (i * i) mod p =? a mod p) 0 (r mod p)) as [n ->]; [| |by eexists _, _].
  - pose proof (Z.mod_pos_bound r p). lia.
  - apply Z.eqb_eq. by rewrite <- Hr, Z.mul_mod_idemp_l, Z.mul_mod_idemp_r by lia.
Qed.

End Integers.
