(* ===== verification/BeBytes.v ===== *)
(** Big-endian numbers as lists of bytes: the lemmas that the multi-precision
    integers and the deterministic nonces share. *)

From S2P Require Import Prelude CxUtils.

Lemma be_combine_cons x l : be_combine (x :: l) = x * 256 ^ zlen l + be_combine l.
Proof.
  unfold be_combine. cbn [rev].
  assert (forall k : list Z, le_combine (k ++ [x]) = x * 256 ^ zlen k + le_combine k) as Hs.
  { induction k as [|b k IH]; cbn [app le_combine]; [rewrite (@zlen_nil Z); lia|].
    rewrite IH, zlen_cons, Z.pow_add_r by (pose proof (zlen_nonneg k); lia). lia. }
  rewrite Hs. unfold zlen. by rewrite length_rev.
Qed.

Lemma be_combine_app l k : be_combine (l ++ k) = be_combine l * 256 ^ zlen k + be_combine k.
Proof.
  induction l as [|x l IH]; [done|]. cbn [app]. rewrite !be_combine_cons, IH, zlen_app, Z.pow_add_r; [lia|apply zlen_nonneg..].
Qed.

Lemma be_combine_zeros n : be_combine (zeros n) = 0.
Proof.
  unfold zeros. induction (Z.to_nat n) as [|k IH]; [done|]. cbn [replicate]. rewrite be_combine_cons, IH. lia.
Qed.

Lemma be_combine_split n x : be_combine (be_split n x) = x mod 256 ^ Z.of_nat n.
Proof. unfold be_combine, be_split. rewrite rev_involutive. apply le_combine_split. Qed.

Lemma be_split_combine l n : bytes_ok l -> length l = n -> be_split n (be_combine l) = l.
Proof.
  intros Hl Hn. unfold be_combine, be_split. rewrite le_split_combine; [apply rev_involutive| |by rewrite length_rev].
  by apply Forall_rev.
Qed.

Lemma zlen_be_split n x : 0 <= n -> zlen (be_split (Z.to_nat n) x) = n.
Proof. intros. unfold zlen. rewrite be_split_length. lia. Qed.

(** A number is its last bytes and the higher ones. *)
Lemma be_split_app n m x :
  be_split (n + m) x = be_split n (x / 256 ^ Z.of_nat m) ++ be_split m x.
Proof.
  unfold be_split. rewrite <- rev_app_distr. f_equal. revert x.
  induction m as [|m IH]; intros x; [by rewrite Nat.add_0_r, Z.div_1_r|].
  rewrite Nat.add_succ_r. cbn [le_split app]. f_equal. rewrite IH.
  by rewrite Z.div_div, Nat2Z.inj_succ, Z.pow_succ_r by lia.
Qed.

Lemma be_split_small n m x : 0 <= x < 256 ^ Z.of_nat m ->
  be_split (n + m) x = replicate n 0 ++ be_split m x.
Proof.
  intros Hx. rewrite be_split_app, Z.div_small by done. f_equal. unfold be_split. induction n as [|n IH]; [done|].
  cbn [le_split rev]. rewrite Z.div_0_l, IH by lia. by rewrite <- replicate_S_end.
Qed.

(** The last bytes of a number. *)
Lemma be_split_drop n m x : drop n (be_split (n + m) x) = be_split m x.
Proof. rewrite be_split_app. apply drop_app_length'. by rewrite be_split_length. Qed.

Lemma be_split_mod n x : be_split n (x mod 256 ^ Z.of_nat n) = be_split n x.
Proof.
  rewrite <- (be_combine_split n x). apply be_split_combine; [apply be_split_bytes|apply be_split_length].
Qed.

(** ** Operations byte by byte *)

Section bitwise.
Context (op : Z -> Z -> Z) (f : bool -> bool -> bool).
Hypothesis Hop : forall x y i, Z.testbit (op x y) i = f (Z.testbit x i) (Z.testbit y i).
Hypothesis Hf : f false false = false.

Lemma op_bound A B k : 0 <= k -> 0 <= A < 2 ^ k -> 0 <= B < 2 ^ k -> 0 <= op A B < 2 ^ k.
Proof.
  intros Hk HA HB. assert (op A B = op A B mod 2 ^ k) as ->; [|by apply Z.mod_pos_bound, Z.pow_pos_nonneg].
  apply Z.bits_inj'. intros i Hi. destruct (Z.ltb_spec i k).
  - by rewrite Z.mod_pow2_bits_low.
  - rewrite Z.mod_pow2_bits_high, Hop by lia. by rewrite !(small_high _ k).
Qed.

Lemma op_split x y A B k : 0 <= k -> 0 <= A < 2 ^ k -> 0 <= B < 2 ^ k ->
  op (x * 2 ^ k + A) (y * 2 ^ k + B) = op x y * 2 ^ k + op A B.
Proof.
  intros Hk HA HB. pose proof (op_bound A B k Hk HA HB).
  assert (forall z C i, 0 <= C < 2 ^ k -> 0 <= i ->
    Z.testbit (z * 2 ^ k + C) i = if i <? k then Z.testbit C i else Z.testbit z (i - k)) as Hb.
  { intros z C i HC Hi. destruct (Z.ltb_spec i k).
    - rewrite <- (Z.mod_pow2_bits_low _ k) by lia. rewrite Z.add_comm, Z.mod_add by lia. by rewrite Z.mod_small.
    - replace i with (i - k + k) at 1 by lia. rewrite <- Z.div_pow2_bits by lia.
      rewrite Z.div_add_l, Z.div_small by lia. by rewrite Z.add_0_r. }
  apply Z.bits_inj'. intros i Hi. rewrite Hop, !Hb by done. destruct (i <? k); by rewrite Hop.
Qed.

Lemma be_combine_zip l k : bytes_ok l -> bytes_ok k -> length l = length k ->
  be_combine (zip_with op l k) = op (be_combine l) (be_combine k).
Proof.
  intros Hl. revert k. induction Hl as [|x l Hx Hl IH]; intros [|y k] Hk Hn; try done.
  - cbn. symmetry. pose proof (op_bound 0 0 0 ltac:(done) ltac:(done) ltac:(done)). lia.
  - injection Hn as Hn. apply Forall_cons_1 in Hk as [Hy Hk]. cbn [zip_with]. rewrite !be_combine_cons.
    rewrite IH by done. unfold zlen. rewrite length_zip_with, <- Hn, Nat.min_id. fold (zlen l).
    change 256 with (2 ^ 8). rewrite <- Z.pow_mul_r by (try apply zlen_nonneg; lia). symmetry.
    pose proof (be_combine_bound l Hl) as B1. pose proof (be_combine_bound k Hk) as B2.
    assert (zlen k = zlen l) as Hz by (unfold zlen; lia). rewrite Hz in B2.
    change 256 with (2 ^ 8) in B1, B2. rewrite <- Z.pow_mul_r in B1, B2 by (try apply zlen_nonneg; lia).
    apply op_split; [pose proof (zlen_nonneg l); lia|done|done].
Qed.
End bitwise.

(** [memcmp], of which only the sign is specified. *)
Fixpoint memcmp (a b : list Z) : Z :=
  match a, b with
  | x :: a, y :: b => if x =? y then memcmp a b else if x <? y then -1 else 1
  | _, _ => 0
  end.

Definition sign_of (a b : Z) : Z := if a <? b then -1 else if a =? b then 0 else 1.

Lemma memcmp_spec l k : bytes_ok l -> bytes_ok k -> length l = length k ->
  memcmp l k = sign_of (be_combine l) (be_combine k).
Proof.
  intros Hl. revert k. induction Hl as [|x l Hx Hl IH]; intros [|y k] Hk Hn; try done.
  injection Hn as Hn. apply Forall_cons_1 in Hk as [Hy Hk]. cbn [memcmp]. rewrite !be_combine_cons, IH by done.
  assert (zlen k = zlen l) as -> by (unfold zlen; lia).
  pose proof (be_combine_bound l Hl) as B1. pose proof (be_combine_bound k Hk) as B2.
  assert (zlen k = zlen l) as Hz by (unfold zlen; lia). rewrite Hz in B2. unfold sign_of.
  set (p := 256 ^ zlen l) in *. destruct (Z.eqb_spec x y) as [->|Hne].
  - destruct (Z.ltb_spec (be_combine l) (be_combine k)), (Z.ltb_spec (y * p + be_combine l) (y * p + be_combine k)); try lia.
    destruct (Z.eqb_spec (be_combine l) (be_combine k)), (Z.eqb_spec (y * p + be_combine l) (y * p + be_combine k)); lia.
  - destruct (Z.ltb_spec x y), (Z.ltb_spec (x * p + be_combine l) (y * p + be_combine k)); try nia.
    destruct (Z.eqb_spec (x * p + be_combine l) (y * p + be_combine k)); nia.
Qed.
