(* ===== verification/CxMpi.v ===== *)
(** Multi-precision integers: [src/bolos/cx_mpi.c], over the interface of
    OpensslBn.v. An array of 64 slots holds the numbers of a locked context
    and accounts for their memory; the operations take pointers to the numbers
    of the slots, which may be the same one. *)

From S2P Require Import Prelude CxUtils OpensslBn BeBytes.

(** * Data *)

Definition CX_OK : Z := 0x00000000.
Definition CX_CARRY : Z := 0xFFFFFF21.
Definition CX_NOT_LOCKED : Z := 0xFFFFFF83.
Definition CX_NOT_UNLOCKED : Z := 0xFFFFFF84.
Definition CX_INTERNAL_ERROR : Z := 0xFFFFFF85.
Definition CX_INVALID_PARAMETER_VALUE : Z := 0xFFFFFF87.
Definition CX_INVALID_PARAMETER : Z := 0xFFFFFF88.
Definition CX_OVERFLOW : Z := 0xFFFFFF8A.
Definition CX_MEMORY_FULL : Z := 0xFFFFFF8B.

Definition MAX_MPI_ARRAY_ENTRIES : Z := 64.
Definition MAX_MPI_BYTE_SIZE : Z := 2048.
Definition CX_MPI_WORD_BYTE_SIZE : Z := 16.

(** [None] for a NULL pointer. *)
Record cx_mpi := mk_mpi { mpi : option BIGNUM; size : Z }.

(** The static variables of the file, and the state of OpenSSL. *)
Record mpi_state (E : Type) := mk_mpi_state {
  local_bn_ctx : bool;
  cx_mpi_array : list cx_mpi;
  mpi_words_count : Z;
  mpi_word_size : Z;
  mpi_total_memory : Z;
  openssl : E;
}.
Arguments mk_mpi_state {E}.
Arguments local_bn_ctx {E}.
Arguments cx_mpi_array {E}.
Arguments mpi_words_count {E}.
Arguments mpi_word_size {E}.
Arguments mpi_total_memory {E}.
Arguments openssl {E}.

(** A [cx_mpi_t *] is the slot of its number: the access to a number that was
    freed is undefined. *)
Abbreviation mpi_ptr := nat (only parsing).

(** [(cx_bn_t)-1]. *)
Definition bn_none : Z := 0xFFFFFFFF.

Section mpi.
Context {E : Type}.

Definition set_local_bn_ctx (x : bool) (s : mpi_state E) : mpi_state E :=
  mk_mpi_state x (cx_mpi_array s) (mpi_words_count s) (mpi_word_size s) (mpi_total_memory s) (openssl s).
Definition set_cx_mpi_array (x : list cx_mpi) (s : mpi_state E) : mpi_state E :=
  mk_mpi_state (local_bn_ctx s) x (mpi_words_count s) (mpi_word_size s) (mpi_total_memory s) (openssl s).
Definition set_mpi_words_count (x : Z) (s : mpi_state E) : mpi_state E :=
  mk_mpi_state (local_bn_ctx s) (cx_mpi_array s) x (mpi_word_size s) (mpi_total_memory s) (openssl s).
Definition set_mpi_word_size (x : Z) (s : mpi_state E) : mpi_state E :=
  mk_mpi_state (local_bn_ctx s) (cx_mpi_array s) (mpi_words_count s) x (mpi_total_memory s) (openssl s).
Definition set_mpi_total_memory (x : Z) (s : mpi_state E) : mpi_state E :=
  mk_mpi_state (local_bn_ctx s) (cx_mpi_array s) (mpi_words_count s) (mpi_word_size s) x (openssl s).
Definition set_openssl (x : E) (s : mpi_state E) : mpi_state E :=
  mk_mpi_state (local_bn_ctx s) (cx_mpi_array s) (mpi_words_count s) (mpi_word_size s) (mpi_total_memory s) x.

Local Abbreviation P := (M (mpi_state E)).

(** ** Numbers and buffers *)

Definition bn_get (x : mpi_ptr) : P BIGNUM :=
  let! a := mgets cx_mpi_array in
  let! c := mlift (a !! x) in
  mlift (mpi c).

Definition bn_set (x : mpi_ptr) (n : BIGNUM) : P unit :=
  let! a := mgets cx_mpi_array in
  let! c := mlift (a !! x) in
  let! _ := mlift (mpi c) in
  mmodify (set_cx_mpi_array (<[x := mk_mpi (Some n) (size c)]> a)).

(** A call of OpenSSL, and one that leaves its result in [r]. *)
Definition call {A} (f : E -> A * E) : P A := fun s =>
  let (a, e) := f (openssl s) in Ret a (set_openssl e s).

Definition call_to (r : mpi_ptr) (f : E -> bool * BIGNUM * E) : P bool :=
  let! (ok, n) := call f in
  do! bn_set r n in
  mret ok.

(** The result of a call as an error code. *)
Definition internal (ok : bool) : Z := if ok then CX_OK else CX_INTERNAL_ERROR.

(** [CX_CHECK]. *)
Definition check (m k : P Z) : P Z := let! error := m in if truthy error then mret error else k.

(** A call that fills a local buffer of [MAX_MPI_BYTE_SIZE] bytes. *)
Definition local_bytes {A} (len : Z) (r : A) : P A := if len <=? MAX_MPI_BYTE_SIZE then mret r else mfault.

Context `{!OpensslBn E}.

(** ** Sizes *)

Definition size_to_mpi_bytes (size : Z) : Z :=
  let size := Z.land (w32 (w32 (size + CX_MPI_WORD_BYTE_SIZE) - 1)) (not32 (CX_MPI_WORD_BYTE_SIZE - 1)) in
  if size =? 0 then CX_MPI_WORD_BYTE_SIZE else size.

Definition size_to_mpi_word_bytes (size : Z) : P Z :=
  let! word := mgets mpi_word_size in
  if size =? 0 then mret word
  else
    let size := w32 (size + w32 (word - 1)) in
    if word =? 0 then mfault else mret (w32 (size / word * word)).

Definition cx_mpi_nbytes (x : mpi_ptr) : P Z :=
  let! n := bn_get x in
  size_to_mpi_word_bytes (size_to_mpi_bytes (BN_num_bytes n)).

(** ** Handles *)

Definition cx_bn_locked : P Z :=
  let! l := mgets local_bn_ctx in mret (if l then CX_OK else CX_NOT_LOCKED).

Definition cx_bn_unlocked : P Z :=
  let! l := mgets local_bn_ctx in mret (if l then CX_NOT_UNLOCKED else CX_OK).

(** The slot of a handle, when it is in the array, and whether it holds a
    number. *)
Definition slot_used (bn : Z) : P bool :=
  let! a := mgets cx_mpi_array in
  let! c := mlift (a !! Z.to_nat bn) in
  mret (bool_decide (is_Some (mpi c))).

Definition in_array (bn : Z) : bool := bn <? MAX_MPI_ARRAY_ENTRIES.

Definition no_slot (bns : list Z) : P Z :=
  mret (if existsb (fun bn => bn =? bn_none) bns then CX_MEMORY_FULL else CX_INVALID_PARAMETER).

Definition cx_bn_to_mpi (bn_x : Z) : P (Z * mpi_ptr) :=
  let x := Z.to_nat bn_x in
  let! error := check cx_bn_locked
    (if in_array bn_x then
       let! ux := slot_used bn_x in mret (if ux then CX_OK else CX_MEMORY_FULL)
     else no_slot [bn_x]) in
  mret (error, x).

Definition cx_bn_ab_to_mpi (bn_a bn_b : Z) : P (Z * (mpi_ptr * mpi_ptr)) :=
  let! error := check cx_bn_locked
    (if in_array bn_a && in_array bn_b then
       let! ua := slot_used bn_a in
       let! ub := slot_used bn_b in
       mret (if ua && ub then CX_OK else CX_MEMORY_FULL)
     else no_slot [bn_a; bn_b]) in
  mret (error, (Z.to_nat bn_a, Z.to_nat bn_b)).

Definition cx_bn_rab_to_mpi (bn_r bn_a bn_b : Z) : P (Z * (mpi_ptr * mpi_ptr * mpi_ptr)) :=
  let! error := check cx_bn_locked
    (if in_array bn_a && in_array bn_b && in_array bn_r then
       let! ua := slot_used bn_a in
       let! ub := slot_used bn_b in
       let! ur := slot_used bn_r in
       mret (if ua && ub && ur then CX_OK else CX_MEMORY_FULL)
     else no_slot [bn_a; bn_b; bn_r]) in
  mret (error, (Z.to_nat bn_r, Z.to_nat bn_a, Z.to_nat bn_b)).

Definition cx_bn_rabm_to_mpi (bn_r bn_a bn_b bn_m : Z)
  : P (Z * (mpi_ptr * mpi_ptr * mpi_ptr * mpi_ptr)) :=
  let! error := check cx_bn_locked
    (if in_array bn_a && in_array bn_b && in_array bn_r && in_array bn_m then
       let! ua := slot_used bn_a in
       let! ub := slot_used bn_b in
       let! ur := slot_used bn_r in
       let! um := slot_used bn_m in
       mret (if ua && ub && ur && um then CX_OK else CX_MEMORY_FULL)
     else no_slot [bn_a; bn_b; bn_r; bn_m]) in
  mret (error, (Z.to_nat bn_r, Z.to_nat bn_a, Z.to_nat bn_b, Z.to_nat bn_m)).

(** [nbytes] says whether the pointer of the result is not NULL. *)
Definition cx_mpi_bytes (bn_x : Z) (nbytes : bool) : P (Z * option Z) :=
  let! (error, x) := cx_bn_to_mpi bn_x in
  if truthy error then mret (error, None)
  else if negb nbytes then mret (CX_INVALID_PARAMETER, None)
  else let! n := cx_mpi_nbytes x in mret (CX_OK, Some n).

Definition cx_get_bn_size : P Z :=
  let! word := mgets mpi_word_size in size_to_mpi_word_bytes word.

(** ** Allocation *)

(** [None] for a NULL pointer. *)
Definition cx_mpi_destroy (bn_x : option Z) : P Z :=
  match bn_x with
  | None => mret CX_OK
  | Some index =>
      if negb (in_array index) then mret CX_OK
      else
        let! a := mgets cx_mpi_array in
        let! c := mlift (a !! Z.to_nat index) in
        match mpi c with
        | None => mret CX_OK
        | Some _ =>
            let! l := mgets local_bn_ctx in
            if negb l then mret CX_NOT_LOCKED
            else
              let! word := mgets mpi_word_size in
              do! mmodify (fun s => set_mpi_total_memory (w32 (mpi_total_memory s - size c)) s) in
              do! (if word =? 0 then mfault
                   else mmodify (fun s => set_mpi_words_count (w32 (mpi_words_count s - size c / word)) s)) in
              do! mmodify (set_cx_mpi_array (<[Z.to_nat index := mk_mpi None 0]> a)) in
              mret CX_OK
        end
  end.

(** [for (i = 0; i < MAX_MPI_ARRAY_ENTRIES; i++) cx_mpi_destroy(&i)]. *)
Fixpoint destroy_all (l : list Z) : P unit :=
  match l with
  | [] => mret tt
  | i :: l => do! cx_mpi_destroy (Some i) in destroy_all l
  end.

Definition cx_mpi_unlock : P Z :=
  do! destroy_all (seqZ 0 MAX_MPI_ARRAY_ENTRIES) in
  do! mmodify (set_local_bn_ctx false) in
  do! mmodify (set_mpi_total_memory 0) in
  do! mmodify (set_mpi_word_size 0) in
  do! mmodify (set_mpi_words_count 0) in
  mret CX_OK.

Definition cx_mpi_lock (word_size flags : Z) : P Z :=
  let! l := mgets local_bn_ctx in
  if l then mret CX_NOT_UNLOCKED
  else
    let! ok := call BN_CTX_new in
    if negb ok then mret CX_INTERNAL_ERROR
    else
      do! mmodify (set_local_bn_ctx true) in
      do! mmodify (set_mpi_total_memory 0) in
      do! mmodify (set_mpi_word_size (size_to_mpi_bytes word_size)) in
      do! mmodify (set_mpi_words_count 0) in
      mret CX_OK.

(** The first slot without a number. *)
Fixpoint free_slot (a : list cx_mpi) : option nat :=
  match a with
  | [] => None
  | c :: a => match mpi c with None => Some O | Some _ => S <$> free_slot a end
  end.

(** The number and its handle. *)
Definition cx_mpi_alloc (size : Z) : P (option mpi_ptr * Z) :=
  let! size := size_to_mpi_word_bytes size in
  let! total := mgets mpi_total_memory in
  if w32 (size + total) <=? MAX_MPI_BYTE_SIZE then
    let! a := mgets cx_mpi_array in
    match free_slot a with
    | None => mret (None, bn_none)
    | Some i =>
        let! ok := call BN_new in
        if negb ok then mret (None, bn_none)
        else
          let! word := mgets mpi_word_size in
          do! mmodify (set_cx_mpi_array (<[i := mk_mpi (Some 0) size]> a)) in
          do! mmodify (fun s => set_mpi_total_memory (w32 (mpi_total_memory s + size)) s) in
          do! (if word =? 0 then mfault
               else mmodify (fun s => set_mpi_words_count (w32 (mpi_words_count s + size / word)) s)) in
          mret (Some i, Z.of_nat i)
    end
  else mret (None, bn_none).

Definition cx_mpi_init (x : mpi_ptr) (bytes : list Z) (nbytes : Z) : P Z :=
  let! b := mlift (read_at bytes 0 nbytes) in
  let! ok := call_to x (BN_bin2bn b) in
  mret (internal ok).

Definition cx_mpi_alloc_init (size : Z) (bytes : list Z) (nbytes : Z) : P (option mpi_ptr * Z) :=
  let size := if size <? nbytes then nbytes else size in
  let! size := size_to_mpi_word_bytes size in
  let! (x, bn_x) := cx_mpi_alloc size in
  match x with
  | None => mret (None, bn_x)
  | Some x =>
      let! b := mlift (read_at bytes 0 nbytes) in
      let! ok := call_to x (BN_bin2bn b) in
      if ok then mret (Some x, bn_x)
      else do! cx_mpi_destroy (Some bn_x) in mret (None, bn_x)
  end.

(** ** Bytes *)

(** [BN_bn2binpad(x, buf, len)] in a local buffer. *)
Definition bytes_of (x : mpi_ptr) (len : Z) : P (option (list Z)) :=
  let! n := bn_get x in local_bytes len (BN_bn2binpad n len).

Definition cx_mpi_export (src : mpi_ptr) (dst : list Z) (dst_len : Z) : P (Z * list Z) :=
  let! src_len := cx_mpi_nbytes src in
  if MAX_MPI_BYTE_SIZE <? src_len then mret (CX_INVALID_PARAMETER, dst)
  else
    let! b := bytes_of src src_len in
    match b with
    | None => mret (CX_INTERNAL_ERROR, dst)
    | Some b =>
        let! dst :=
          (if dst_len <=? src_len then
             let! p := mlift (read_at b (src_len - dst_len) dst_len) in
             mlift (write_at dst 0 p)
           else
             let offset := dst_len - src_len in
             let! dst := mlift (memset_at dst 0 0 offset) in
             mlift (write_at dst offset b)) in
        mret (CX_OK, dst)
    end.

Definition cx_mpi_copy (dst src : mpi_ptr) : P Z :=
  if (dst =? src)%nat then mret CX_OK
  else
    let! dst_len := cx_mpi_nbytes src in
    if MAX_MPI_BYTE_SIZE <? dst_len then mret CX_INVALID_PARAMETER
    else
      let! (error, b) := cx_mpi_export src (zeros MAX_MPI_BYTE_SIZE) dst_len in
      if truthy error then mret error
      else
        let! b := mlift (read_at b 0 dst_len) in
        let! ok := call_to dst (BN_bin2bn b) in
        mret (internal ok).

Definition cx_mpi_set_u32 (x : mpi_ptr) (n : Z) : P unit :=
  let bytes := [Z.land (Z.shiftr n 24) 0xFF; Z.land (Z.shiftr n 16) 0xFF;
                Z.land (Z.shiftr n 8) 0xFF; Z.land (Z.shiftr n 0) 0xFF] in
  do! call_to x (BN_bin2bn bytes) in mret tt.

(** [value |= (uint32_t)(bytes[num_bytes - i - 1]) << shift] for the [n] last
    bytes. *)
Fixpoint u32_loop (bytes : list Z) (num_bytes : Z) (n : nat) (i value : Z) : option Z :=
  match n with
  | O => Some value
  | S n =>
      b ← bytes !! Z.to_nat (num_bytes - i - 1);
      u32_loop bytes num_bytes n (i + 1) (Z.lor value (w32 (Z.shiftl b (8 * i))))
  end.

Definition cx_mpi_get_u32 (x : mpi_ptr) : P Z :=
  let! n := bn_get x in
  if MAX_MPI_BYTE_SIZE <? BN_num_bytes n then mret CX_INVALID_PARAMETER
  else
    let bytes := BN_bn2bin n in
    let num_bytes := zlen bytes in
    mlift (u32_loop bytes num_bytes (Z.to_nat (Z.min num_bytes 4)) 0 0).

(** [for (i = 0; i < n; i++) if (bytes[i]) break]. *)
Fixpoint zero_prefix (bytes : list Z) (n : nat) (i : Z) : option Z :=
  match n with
  | O => Some i
  | S n => b ← bytes !! Z.to_nat i; if truthy b then Some i else zero_prefix bytes n (i + 1)
  end.

Definition cx_mpi_cmp_u32 (a : mpi_ptr) (b : Z) : P Z :=
  let! n := bn_get a in
  if MAX_MPI_BYTE_SIZE <? BN_num_bytes n then mret (CX_INVALID_PARAMETER - 2 ^ 32)
  else
    let bytes := BN_bn2bin n in
    let num_bytes := zlen bytes in
    let! i := mlift (zero_prefix bytes (Z.to_nat (num_bytes - 4)) 0) in
    if num_bytes - 4 <=? i then
      let num_bytes := if 4 <? num_bytes then 4 else num_bytes in
      let! value := mlift (u32_loop bytes num_bytes (Z.to_nat num_bytes) 0 0) in
      mret (if value <? b then -1 else if value =? b then 0 else 1)
    else mret 1.

(** [return CX_INVALID_PARAMETER] as an [int]. *)
Definition cx_mpi_cmp (a b : mpi_ptr) : P Z :=
  let! a_len := cx_mpi_nbytes a in
  let! b_len := cx_mpi_nbytes b in
  if (MAX_MPI_BYTE_SIZE <? a_len) || (MAX_MPI_BYTE_SIZE <? b_len)
  then mret (CX_INVALID_PARAMETER - 2 ^ 32)
  else if a_len =? b_len then
    let! a_ptr := bytes_of a a_len in
    match a_ptr with
    | None => mret (-1)
    | Some a_ptr =>
        let! b_ptr := bytes_of b b_len in
        match b_ptr with
        | None => mret (-1)
        | Some b_ptr => mret (memcmp a_ptr b_ptr)
        end
    end
  else mret (-1).

Definition cx_mpi_is_odd (a : mpi_ptr) : P bool := let! n := bn_get a in mret (BN_is_odd n).
Definition cx_mpi_is_one (a : mpi_ptr) : P bool := let! n := bn_get a in mret (BN_is_one n).
Definition cx_mpi_is_zero (a : mpi_ptr) : P bool := let! n := bn_get a in mret (BN_is_zero n).

(** ** Bits *)

Definition cx_mpi_tst_bit (x : mpi_ptr) (pos : Z) : P (Z * option bool) :=
  let! nbytes := cx_mpi_nbytes x in
  if w32 (w32 (nbytes * 8) - 1) <? pos then mret (CX_INVALID_PARAMETER, None)
  else let! n := bn_get x in mret (CX_OK, Some (BN_is_bit_set n pos)).

Definition cx_mpi_set_bit (x : mpi_ptr) (pos : Z) : P Z :=
  let! nbytes := cx_mpi_nbytes x in
  if w32 (w32 (nbytes * 8) - 1) <? pos then mret CX_INVALID_PARAMETER
  else
    let! n := bn_get x in
    let! ok := call_to x (BN_set_bit n pos) in
    mret (internal ok).

Definition cx_mpi_clr_bit (x : mpi_ptr) (pos : Z) : P Z :=
  let! n := bn_get x in
  let! ok := call_to x (BN_clear_bit n pos) in
  mret (internal ok).

(** The loop [p++; len--; if (len == 0) break;] over the bytes that are 0: what
    is left from [p] on, and the length; a byte that was not written is not read. *)
Fixpoint skip_zeros (p : list Z) (len : Z) : option (list Z * Z) :=
  match p with
  | [] => None
  | b :: p' =>
      if truthy b then Some (p, len)
      else
        let len := w32 (len - 1) in
        if len =? 0 then Some (p', len) else skip_zeros p' len
  end.

(** [while ((b & 0x80) == 0) { b = b << 1; len--; }] for a byte that is not
    zero. *)
Fixpoint top_bit (fuel : nat) (b len : Z) : Z :=
  match fuel with
  | O => len
  | S fuel => if Z.land b 0x80 =? 0 then top_bit fuel (w8 (Z.shiftl b 1)) (w32 (len - 1)) else len
  end.

Definition cx_mpi_cnt_bits (x : mpi_ptr) : P Z :=
  let! n := bn_get x in
  if MAX_MPI_BYTE_SIZE <? BN_num_bytes n then mret CX_INVALID_PARAMETER
  else
    let a := BN_bn2bin n in
    let! (p, len) := mlift (skip_zeros a (zlen a)) in
    if truthy len then
      let! b := mlift (p !! 0%nat) in
      mret (top_bit 8 b (w32 (len * 8)))
    else mret len.

Definition cx_mpi_shr (x : mpi_ptr) (n : Z) : P Z :=
  let! nbytes := cx_mpi_nbytes x in
  if w32 (nbytes * 8) <? n then mret CX_INVALID_PARAMETER
  else
    let! v := bn_get x in
    let! ok := call_to x (BN_rshift v n) in
    mret (internal ok).

Definition cx_mpi_shl (x : mpi_ptr) (n : Z) : P Z :=
  let! num_bytes := cx_mpi_nbytes x in
  if w32 (num_bytes * 8) <? n then mret CX_INVALID_PARAMETER
  else
    let! v := bn_get x in
    let! ok := call_to x (BN_lshift v n) in
    if negb ok then mret CX_INTERNAL_ERROR
    else
      let! res_bytes := cx_mpi_nbytes x in
      if MAX_MPI_BYTE_SIZE <? res_bytes then mret CX_INVALID_PARAMETER
      else if num_bytes <? res_bytes then
        let! v := bn_get x in
        let! bytes := local_bytes (BN_num_bytes v) (BN_bn2bin v) in
        let res_bytes := zlen bytes in
        if num_bytes <? res_bytes then
          let! b := mlift (read_at bytes (res_bytes - num_bytes) num_bytes) in
          let! ok := call_to x (BN_bin2bn b) in
          mret (internal ok)
        else mret CX_OK
      else mret CX_OK.

(** The loops of [cx_mpi_xor], [cx_mpi_or] and [cx_mpi_and]: the bytes of the
    longer number that face none go through [high]. *)
Definition bytewise (op : Z -> Z -> Z) (high : list Z -> list Z) (a b : list Z) : list Z :=
  if zlen b <=? zlen a then
    let j := zlen a - zlen b in high (ztake j a) ++ zip_with op (zdrop j a) b
  else
    let j := zlen b - zlen a in high (ztake j b) ++ zip_with op (zdrop j b) a.

(** What the three functions share; [checked] for the ones that compare the
    sizes with the one of the buffers. *)
Definition cx_mpi_bitwise (op : Z -> Z -> Z) (high : list Z -> list Z) (checked : bool)
    (r a b : mpi_ptr) : P Z :=
  let! a_len := cx_mpi_nbytes a in
  if checked && (MAX_MPI_BYTE_SIZE <? a_len) then mret CX_INVALID_PARAMETER
  else
    let! a_ptr := bytes_of a a_len in
    match a_ptr with
    | None => mret CX_MEMORY_FULL
    | Some a_ptr =>
        let! b_len := cx_mpi_nbytes b in
        if checked && (MAX_MPI_BYTE_SIZE <? b_len) then mret CX_INVALID_PARAMETER
        else
          let! b_ptr := bytes_of b b_len in
          match b_ptr with
          | None => mret CX_MEMORY_FULL
          | Some b_ptr =>
              let! ok := call_to r (BN_bin2bn (bytewise op high a_ptr b_ptr)) in
              mret (internal ok)
          end
    end.

Definition cx_mpi_xor (r a b : mpi_ptr) : P Z := cx_mpi_bitwise Z.lxor id true r a b.
Definition cx_mpi_or (r a b : mpi_ptr) : P Z := cx_mpi_bitwise Z.lor id true r a b.
Definition cx_mpi_and (r a b : mpi_ptr) : P Z :=
  cx_mpi_bitwise Z.land (fun p => zeros (zlen p)) false r a b.

(** ** Arithmetic *)

(** A call of two or three numbers as an error code. *)
Definition binary (f : BIGNUM -> BIGNUM -> E -> bool * BIGNUM * E) (r a b : mpi_ptr) : P Z :=
  let! m := bn_get a in
  let! n := bn_get b in
  let! ok := call_to r (f m n) in
  mret (internal ok).

Definition ternary (f : BIGNUM -> BIGNUM -> BIGNUM -> E -> bool * BIGNUM * E)
    (r a b n : mpi_ptr) : P Z :=
  let! x := bn_get a in
  let! y := bn_get b in
  let! m := bn_get n in
  let! ok := call_to r (f x y m) in
  mret (internal ok).

(** [len = cx_mpi_nbytes(a); if (len < cx_mpi_nbytes(b)) len = cx_mpi_nbytes(b)]. *)
Definition max_nbytes (a b : mpi_ptr) : P Z :=
  let! len := cx_mpi_nbytes a in
  let! b_len := cx_mpi_nbytes b in
  mret (if len <? b_len then b_len else len).

Definition cx_mpi_add (r a b : mpi_ptr) : P Z :=
  let! m := bn_get a in
  let! n := bn_get b in
  let! ok := call_to r (BN_add m n) in
  if negb ok then mret CX_INTERNAL_ERROR
  else
    let! len := max_nbytes a b in
    let! v := bn_get r in
    if len <? BN_num_bytes v then
      let! ok := call_to r (BN_mask_bits v (8 * len)) in
      mret (if ok then CX_CARRY else CX_INTERNAL_ERROR)
    else mret CX_OK.

Definition cx_mpi_inc (a : mpi_ptr) : P Z :=
  let! n := bn_get a in
  let! ok := call_to a (BN_add_word n 1) in
  mret (internal ok).

Definition cx_mpi_dec (a : mpi_ptr) : P Z :=
  let! n := bn_get a in
  let! ok := call_to a (BN_sub_word n 1) in
  mret (internal ok).

Definition cx_mpi_not (a : mpi_ptr) : P Z :=
  let! a_len := cx_mpi_nbytes a in
  if MAX_MPI_BYTE_SIZE <? a_len then mret CX_INVALID_PARAMETER
  else
    let! b := bytes_of a a_len in
    match b with
    | None => mret CX_INTERNAL_ERROR
    | Some b =>
        let! ok := call_to a (BN_bin2bn (map (fun x => w8 (Z.lnot x)) b)) in
        mret (internal ok)
    end.

Definition cx_mpi_neg (a : mpi_ptr) : P Z := check (cx_mpi_not a) (cx_mpi_inc a).

Definition cx_mpi_sub (r a b : mpi_ptr) : P Z :=
  let! m := bn_get a in
  let! n := bn_get b in
  let! ok := call_to r (BN_sub m n) in
  if negb ok then mret CX_INTERNAL_ERROR
  else
    let! v := bn_get r in
    if BN_is_negative v then
      do! bn_set r (BN_set_negative v 0) in
      let! len := max_nbytes a b in
      let! v := bn_get r in
      let! ok := (if len <? BN_num_bytes v then call_to r (BN_mask_bits v (8 * len)) else mret true) in
      if negb ok then mret CX_INTERNAL_ERROR
      else
        let! error := cx_mpi_neg r in
        mret (if error =? CX_OK then CX_CARRY else error)
    else mret CX_OK.

Definition cx_mpi_mul (r a b : mpi_ptr) : P Z := binary BN_mul r a b.
Definition cx_mpi_div (r d n : mpi_ptr) : P Z := binary BN_div_quotient r d n.
Definition cx_mpi_rem (r d n : mpi_ptr) : P Z := binary BN_div_remainder r d n.

Definition cx_mpi_rand (x : mpi_ptr) : P Z :=
  let! bytes := cx_mpi_nbytes x in
  let! ok := call_to x (BN_rand (w32 (bytes * 8))) in
  mret (internal ok).

(** [do ... while (BN_is_zero(r))], at most [fuel] times: [None] when the
    fuel runs out. *)
Fixpoint rng_loop (fuel : nat) (r n : mpi_ptr) : P (option Z) :=
  match fuel with
  | O => mret None
  | S fuel =>
      let! m := bn_get n in
      let! ok := call_to r (BN_rand_range m) in
      if negb ok then mret (Some CX_INTERNAL_ERROR)
      else
        let! v := bn_get r in
        if BN_is_zero v then rng_loop fuel r n else mret (Some CX_OK)
  end.

Definition cx_mpi_rng (fuel : nat) (r n : mpi_ptr) : P (option Z) :=
  let! m := bn_get n in
  if BN_is_one m || BN_is_zero m then mret (Some CX_INVALID_PARAMETER)
  else rng_loop fuel r n.

Definition cx_mpi_mod_invert_nprime (r a n : mpi_ptr) : P Z :=
  let! size := cx_mpi_nbytes n in
  let! (p, bn_p) := cx_mpi_alloc size in
  let! error :=
    match p with
    | None => mret CX_MEMORY_FULL
    | Some p =>
        let! m := bn_get n in
        let! ok := call_to p (BN_copy m) in
        let! ok := (if ok then let! v := bn_get p in call_to p (BN_sub_word v 2) else mret false) in
        let! ok :=
          (if ok then
             let! x := bn_get a in
             let! e := bn_get p in
             let! m := bn_get n in
             call_to r (BN_mod_exp x e m)
           else mret false) in
        mret (internal ok)
    end in
  do! cx_mpi_destroy (Some bn_p) in
  mret error.

Definition cx_mpi_mod_u32_invert (r : mpi_ptr) (e : Z) (n : mpi_ptr) : P Z :=
  do! cx_mpi_set_u32 r e in
  binary BN_mod_inverse r r n.

Definition cx_mpi_mod_add (r a b n : mpi_ptr) : P Z := ternary BN_mod_add r a b n.
Definition cx_mpi_mod_sub (r a b n : mpi_ptr) : P Z := ternary BN_mod_sub r a b n.

Definition cx_mpi_mod_mul (r a b n : mpi_ptr) : P Z :=
  let! odd := cx_mpi_is_odd n in
  if negb odd then mret CX_INVALID_PARAMETER_VALUE else ternary BN_mod_mul r a b n.

Definition cx_mpi_mod_sqrt (r a n : mpi_ptr) (sign : Z) : P Z :=
  let! x := bn_get a in
  let! p := bn_get n in
  let! ok := call_to r (BN_mod_sqrt x p) in
  if negb ok then mret CX_INTERNAL_ERROR
  else
    let! (_, set) := cx_mpi_tst_bit r 0 in
    let! set := mlift set in
    if Bool.eqb set (truthy sign) then mret CX_OK
    else
      let! p := bn_get n in
      let! v := bn_get r in
      let! ok := call_to r (BN_sub p v) in
      mret (internal ok).

Definition cx_mpi_mod_pow (r a e n : mpi_ptr) : P Z :=
  let! odd := cx_mpi_is_odd n in
  if negb odd then mret CX_INVALID_PARAMETER else ternary BN_mod_exp r a e n.

(** The error and [*prime]. *)
Definition cx_mpi_is_prime (x : mpi_ptr) : P (Z * bool) :=
  let! n := bn_get x in
  let! is_prime := call (BN_is_prime_ex n) in
  mret (if is_prime =? 1 then (CX_OK, true)
        else (if is_prime <? 0 then CX_INTERNAL_ERROR else CX_OK, false)).

(** [do ... while (is_prime == 0)], at most [fuel] times. *)
Fixpoint next_prime_loop (fuel : nat) (x : mpi_ptr) (x_size : Z) : P (option Z) :=
  match fuel with
  | O => mret None
  | S fuel =>
      let! n := bn_get x in
      let! ok := call_to x (BN_add_word n 2) in
      let! size := cx_mpi_nbytes x in
      if negb ok || (x_size <? size)
      then mret (Some (if x_size <? size then CX_OVERFLOW else CX_INTERNAL_ERROR))
      else
        let! n := bn_get x in
        let! is_prime := call (BN_is_prime_ex n) in
        if is_prime <? 0 then mret (Some CX_INTERNAL_ERROR)
        else if is_prime =? 0 then next_prime_loop fuel x x_size
        else mret (Some CX_OK)
  end.

Definition cx_mpi_next_prime (fuel : nat) (x : mpi_ptr) : P (option Z) :=
  let! odd := cx_mpi_is_odd x in
  let! ok := (if odd then mret true else let! n := bn_get x in call_to x (BN_add_word n 1)) in
  if negb ok then mret (Some CX_INTERNAL_ERROR)
  else let! x_size := cx_mpi_nbytes x in next_prime_loop fuel x x_size.

Definition cx_mpi_gf2_n_mul (r a b n h : mpi_ptr) : P Z := ternary BN_GF2m_mod_mul r a b n.

Definition MAX_BYTE_LEN : Z := 128.

Definition cx_mpi_reverse (x : mpi_ptr) (nbytes : Z) : P unit :=
  let! (_, buf) := cx_mpi_export x (zeros MAX_BYTE_LEN) nbytes in
  do! cx_mpi_set_u32 x 0 in
  let! b := mlift (read_at buf 0 nbytes) in
  do! cx_mpi_init x (rev b) nbytes in
  mret tt.

Definition cx_mpi_swap (a b : mpi_ptr) (c : Z) : P unit :=
  if truthy c then
    let! m := bn_get a in
    let! n := bn_get b in
    do! bn_set a n in
    bn_set b m
  else mret tt.

Definition cx_mpi_check_memory_full (x : option mpi_ptr) : Z :=
  match x with None => CX_MEMORY_FULL | Some _ => CX_OK end.
End mpi.

(** * Proofs *)

(** ** Slots *)

Section slots.
Context {E : Type}.
Implicit Types s : mpi_state E.

(** The number at a pointer, and its replacement. *)
Definition num s (x : mpi_ptr) : option BIGNUM := cx_mpi_array s !! x ≫= mpi.

Definition put (x : mpi_ptr) (n : BIGNUM) s : mpi_state E :=
  set_cx_mpi_array (alter (fun c => mk_mpi (Some n) (size c)) x (cx_mpi_array s)) s.

(** What a call leaves: a number in [r], and the state of OpenSSL. *)
Definition left_in (r : mpi_ptr) (n : BIGNUM) (e : E) s : mpi_state E := set_openssl e (put r n s).

Lemma num_put r n s : is_Some (num s r) -> num (put r n s) r = Some n.
Proof.
  intros [v H]. unfold num, put in *. cbn. rewrite list_lookup_alter_eq.
  destruct (cx_mpi_array s !! r); [done|]. discriminate H.
Qed.

Lemma num_put_ne r x n s : r <> x -> num (put r n s) x = num s x.
Proof. intros H. unfold num, put. cbn. by rewrite list_lookup_alter_ne. Qed.

Lemma put_put r n n' s : put r n (put r n' s) = put r n s.
Proof.
  unfold put. destruct s. cbn. by rewrite list_alter_alter_eq.
Qed.

Lemma left_left r n n' e e' s : left_in r n e (left_in r n' e' s) = left_in r n e s.
Proof. unfold left_in, put. destruct s. cbn. by rewrite list_alter_alter_eq. Qed.

Lemma num_left r n e s : is_Some (num s r) -> num (left_in r n e s) r = Some n.
Proof. apply num_put. Qed.

Lemma num_left_ne r x n e s : r <> x -> num (left_in r n e s) x = num s x.
Proof. apply num_put_ne. Qed.

Lemma num_left_some r x n e s : is_Some (num s x) -> is_Some (num (left_in r n e s) x).
Proof.
  intros H. destruct (decide (r = x)) as [->|Hne]; [by rewrite num_left|by rewrite num_left_ne].
Qed.

Lemma bn_get_run {B} x n (k : BIGNUM -> M (mpi_state E) B) s :
  num s x = Some n -> mbind (bn_get x) k s = k n s.
Proof.
  unfold num. intros H. unfold bn_get, mbind, mgets, mlift.
  destruct (cx_mpi_array s !! x) as [c|]; [|done]. cbn in H. by rewrite H.
Qed.

Lemma bn_set_run {B} x n (k : unit -> M (mpi_state E) B) s :
  is_Some (num s x) -> mbind (bn_set x n) k s = k tt (put x n s).
Proof.
  unfold num. intros [v H]. unfold bn_set, mbind, mgets, mlift, mmodify, put.
  destruct (cx_mpi_array s !! x) as [c|] eqn:Hx; [|done]. cbn in H. rewrite H.
  rewrite list_insert_alter. f_equal. f_equal. apply list_alter_ext; [|done]. intros c' Hc. by simplify_eq.
Qed.

Lemma call_to_run {B} r f ok n e (k : bool -> M (mpi_state E) B) s :
  is_Some (num s r) -> f (openssl s) = (ok, n, e) -> mbind (call_to r f) k s = k ok (left_in r n e s).
Proof.
  intros Hr Hf. unfold call_to, call. unfold mbind at 1. unfold mbind at 1. rewrite Hf.
  rewrite (bn_set_run r n (fun _ => mret ok) (set_openssl e s) Hr). unfold mret. by destruct s.
Qed.
End slots.

(** ** Sizes *)

Lemma num_bytes_nonneg n : 0 <= num_bytes n.
Proof.
  unfold num_bytes. destruct (n =? 0); [done|]. pose proof (Z.log2_nonneg (Z.abs n)). div_mod_lia.
Qed.

Lemma num_bytes_le n k : 0 <= n -> 0 <= k -> num_bytes n <= k <-> n < 256 ^ k.
Proof.
  intros Hn Hk. unfold num_bytes. rewrite Z.abs_eq by done. change 256 with (2 ^ 8). rewrite <- Z.pow_mul_r by lia.
  destruct (Z.eqb_spec n 0) as [->|Hz]; [split; [intros; by apply Z.pow_pos_nonneg; lia|done]|].
  rewrite Z.log2_lt_pow2 by lia. pose proof (Z.log2_nonneg n). split; intros; div_mod_lia.
Qed.

Lemma num_bytes_mono m n : 0 <= m <= n -> num_bytes m <= num_bytes n.
Proof.
  intros H. apply num_bytes_le; [lia|apply num_bytes_nonneg|].
  apply Z.le_lt_trans with n; [lia|]. apply num_bytes_le; [lia|apply num_bytes_nonneg|done].
Qed.

(** The numbers of bytes of a number in words of [W] bytes. *)
Definition nbytes (W n : Z) : Z := Z.max 1 ((num_bytes n + (W - 1)) / W) * W.

Definition word_ok (W : Z) : Prop := W mod 16 = 0 /\ 16 <= W <= MAX_MPI_BYTE_SIZE.

Lemma nbytes_bounds W n : word_ok W ->
  W <= nbytes W n /\ num_bytes n <= nbytes W n /\ nbytes W n mod 16 = 0 /\ nbytes W n mod W = 0 /\
  nbytes W n < num_bytes n + 2 * W.
Proof.
  intros [Hm HW]. unfold nbytes. pose proof (num_bytes_nonneg n).
  set (q := Z.max 1 _). assert ((num_bytes n + (W - 1)) / W <= q /\ 1 <= q /\
    (q = 1 \/ q = (num_bytes n + (W - 1)) / W)) as (Hq & H1 & Hc) by (unfold q; lia).
  assert (num_bytes n + (W - 1) = W * ((num_bytes n + (W - 1)) / W) + (num_bytes n + (W - 1)) mod W) as Hd
    by (apply Z.div_mod; lia). pose proof (Z.mod_pos_bound (num_bytes n + (W - 1)) W ltac:(lia)).
  split; [nia|]. split; [nia|]. split; [|split].
  - rewrite Z.mul_comm, Z.mul_mod, Hm by lia. done.
  - by apply Z.mod_mul; lia.
  - destruct Hc as [-> | Hc]; nia.
Qed.

Lemma nbytes_ge W n : word_ok W -> 16 <= W <= nbytes W n /\ num_bytes n <= nbytes W n.
Proof. intros HW. pose proof (nbytes_bounds W n HW). destruct HW. lia. Qed.

Lemma nbytes_mono W m n : word_ok W -> 0 <= m <= n -> nbytes W m <= nbytes W n.
Proof.
  intros [_ HW] H. unfold nbytes. apply num_bytes_mono in H.
  apply Z.mul_le_mono_nonneg_r; [lia|]. apply Z.max_le_compat_l, Z.div_le_mono; lia.
Qed.

Lemma nbytes_pow W n : word_ok W -> 0 <= n -> n < 256 ^ nbytes W n.
Proof. intros HW Hn. destruct (nbytes_bounds W n HW) as (? & ? & _). apply num_bytes_le; [done| |done]. destruct HW. lia. Qed.

Lemma nbytes_le W n k : word_ok W -> 0 <= n < 256 ^ k -> W <= k -> k mod W = 0 -> nbytes W n <= k.
Proof.
  intros [_ HW] [Hn Hlt] Hk Hm. unfold nbytes. apply num_bytes_le in Hlt as H; [|lia..]. clear Hlt.
  assert (k = k / W * W) as -> by (rewrite (Z.div_mod k W) at 1 by lia; lia).
  apply Z.mul_le_mono_nonneg_r; [lia|]. apply Z.max_lub; [apply Z.div_le_lower_bound; lia|].
  assert (k = W * (k / W)) as Hkw by (rewrite (Z.div_mod k W) at 1 by lia; lia).
  rewrite Hkw in H. apply Z.lt_succ_r, Z.div_lt_upper_bound; nia.
Qed.

Lemma size_to_mpi_bytes_ok n : 0 <= n < 2 ^ 31 ->
  size_to_mpi_bytes n = if n =? 0 then 16 else (n + 15) / 16 * 16.
Proof.
  intros Hn. unfold size_to_mpi_bytes, CX_MPI_WORD_BYTE_SIZE, w32.
  rewrite (Z.mod_small (n + 16)), Z.mod_small by lia.
  change (not32 (16 - 1)) with (Z.shiftl (Z.ones 28) 4).
  assert (Z.land (n + 16 - 1) (Z.shiftl (Z.ones 28) 4) = (n + 15) / 16 * 16) as ->.
  { replace (n + 16 - 1) with (n + 15) by lia. apply Z.bits_inj'. intros i Hi.
    rewrite Z.land_spec. change 16 with (2 ^ 4). rewrite <- Z.shiftr_div_pow2, <- Z.shiftl_mul_pow2 by lia.
    destruct (Z.ltb_spec i 4); [rewrite !Z.shiftl_spec_low by lia; apply andb_false_r|].
    rewrite !Z.shiftl_spec, Z.shiftr_spec by lia. replace (i - 4 + 4) with i by lia.
    destruct (Z.ltb_spec (i - 4) 28).
    - rewrite Z.ones_spec_low by lia. apply andb_true_r.
    - rewrite Z.ones_spec_high by lia. rewrite andb_false_r. symmetry. apply Z.testbit_false; [lia|].
      rewrite Z.div_small; [done|]. split; [lia|]. apply Z.lt_le_trans with (2 ^ 32); [lia|].
      apply Z.pow_le_mono_r; lia. }
  destruct (Z.eqb_spec n 0) as [->|Hz]; [done|]. destruct (Z.eqb_spec ((n + 15) / 16 * 16) 0); [|done]. div_mod_lia.
Qed.

(** A locked context with its size of words. *)
Record ready {E} (W : Z) (s : mpi_state E) : Prop := {
  rd_lock : local_bn_ctx s = true;
  rd_size : mpi_word_size s = W;
  rd_word : word_ok W;
}.

Lemma ready_left {E} W r n e (s : mpi_state E) : ready W s -> ready W (left_in r n e s).
Proof. intros []. by split. Qed.
Create HintDb mpi.
#[export] Hint Resolve ready_left : mpi.

Lemma word_bytes_run {E B} W n (k : Z -> M (mpi_state E) B) s :
  ready W s -> 0 < n < 2 ^ 31 -> mbind (size_to_mpi_word_bytes n) k s = k ((n + (W - 1)) / W * W) s.
Proof.
  intros [_ Hs [_ HW]] Hn. unfold size_to_mpi_word_bytes, MAX_MPI_BYTE_SIZE in *. unfold mbind, mgets. rewrite Hs.
  destruct (Z.eqb_spec n 0); [lia|]. destruct (Z.eqb_spec W 0); [lia|]. unfold mret, w32. f_equal.
  rewrite (Z.mod_small (W - 1)), (Z.mod_small (n + (W - 1))) by lia. apply Z.mod_small.
  pose proof (Z.div_mod (n + (W - 1)) W ltac:(lia)). pose proof (Z.mod_pos_bound (n + (W - 1)) W ltac:(lia)). nia.
Qed.

Section sizes.
Context {E : Type} `{!OpensslBn E, !OpensslLaws E}.
Implicit Types s : mpi_state E.

Lemma nbytes_run {B} W x n (k : Z -> M (mpi_state E) B) s :
  ready W s -> num s x = Some n -> num_bytes n <= 2 ^ 20 ->
  mbind (cx_mpi_nbytes x) k s = k (nbytes W n) s.
Proof.
  intros Hr Hx Hn. pose proof (num_bytes_nonneg n). pose proof Hr as [_ _ [Hm HW]].
  unfold cx_mpi_nbytes.
  assert (mbind (let! n := bn_get x in size_to_mpi_word_bytes (size_to_mpi_bytes (BN_num_bytes n))) k s
    = mbind (size_to_mpi_word_bytes (size_to_mpi_bytes (BN_num_bytes n))) k s) as ->.
  { unfold mbind at 1. by rewrite (bn_get_run _ _ _ _ Hx). }
  rewrite BN_num_bytes_spec, size_to_mpi_bytes_ok by lia. set (b := num_bytes n) in *.
  rewrite (word_bytes_run W); [|done|destruct (b =? 0) eqn:Hb; div_mod_lia].
  f_equal. unfold nbytes. fold b. f_equal. unfold MAX_MPI_BYTE_SIZE in HW.
  destruct (Z.eqb_spec b 0) as [->|Hz].
  - rewrite (Z.div_small (0 + (W - 1))) by lia.
    assert (W <= 16 + (W - 1) < 2 * W) as Hq by lia. symmetry. rewrite Z.max_l by lia.
    apply Z.div_unique with (16 + (W - 1) - W); lia.
  - assert (W = 16 * (W / 16)) as Hw by (rewrite (Z.div_mod W 16) at 1; lia). set (q := W / 16) in *.
    assert (1 <= (b + (W - 1)) / W) by (apply Z.div_le_lower_bound; lia). rewrite Z.max_r by lia.
    pose proof (Z.div_mod (b + (W - 1)) W ltac:(lia)). pose proof (Z.mod_pos_bound (b + (W - 1)) W ltac:(lia)).
    set (c := (b + (W - 1)) / W) in *. set (d := (b + 15) / 16).
    assert (16 * d <= b + 15 < 16 * d + 16) by (unfold d; div_mod_lia).
    symmetry. apply Z.div_unique with (d * 16 + (W - 1) - W * c); [left|]; nia.
Qed.
End sizes.

(** ** Sums, differences and bits *)

Section arithmetic.
Context {E : Type} `{!OpensslBn E, !OpensslLaws E}.
Implicit Types s : mpi_state E.

(** The numbers an operation may be given: at most 2048 bytes. *)
Definition value_ok (n : Z) : Prop := 0 <= n /\ num_bytes n <= MAX_MPI_BYTE_SIZE.

Lemma value_num_bytes n : value_ok n -> 0 <= num_bytes n <= MAX_MPI_BYTE_SIZE.
Proof. intros [H1 H2]. by split; [apply num_bytes_nonneg|]. Qed.

(** The outcome of an operation that leaves a number in [r]: OpenSSL failed,
    or the error and the number are the ones of [Q]. *)
Definition leaves (m : M (mpi_state E) Z) (r : mpi_ptr) (Q : Z -> Z -> Prop) s : Prop :=
  exists error v e, m s = Ret error (left_in r v e s) /\ (error = CX_INTERNAL_ERROR \/ Q error v).

Lemma call_leaves r f (Q : Z -> Z -> Prop) s : is_Some (num s r) ->
  (forall v e, f (openssl s) = (true, v, e) -> Q CX_OK v) ->
  leaves (let! ok := call_to r f in mret (internal ok)) r Q s.
Proof.
  intros Hr H. destruct (f (openssl s)) as [[ok v] e] eqn:Ef. exists (internal ok), v, e.
  split; [by rewrite (call_to_run _ _ _ _ _ _ _ Hr Ef)|]. destruct ok; [right; by apply (H v e)|by left].
Qed.

Lemma leaves_eq (m m' : M (mpi_state E) Z) r Q s : m s = m' s -> leaves m' r Q s -> leaves m r Q s.
Proof. unfold leaves. by intros ->. Qed.

Lemma binary_leaves f r a b m n (Q : Z -> Z -> Prop) s :
  is_Some (num s r) -> num s a = Some m -> num s b = Some n ->
  (forall e v e', f m n e = (true, v, e') -> Q CX_OK v) -> leaves (binary f r a b) r Q s.
Proof.
  intros Hr Ha Hb H. eapply leaves_eq; [unfold binary; by rewrite (bn_get_run _ _ _ _ Ha), (bn_get_run _ _ _ _ Hb)|].
  apply call_leaves; [done|]. intros v e. apply H.
Qed.

Lemma ternary_leaves f r a b n x y m (Q : Z -> Z -> Prop) s :
  is_Some (num s r) -> num s a = Some x -> num s b = Some y -> num s n = Some m ->
  (forall e v e', f x y m e = (true, v, e') -> Q CX_OK v) -> leaves (ternary f r a b n) r Q s.
Proof.
  intros Hr Ha Hb Hn H. eapply leaves_eq;
    [unfold ternary; by rewrite (bn_get_run _ _ _ _ Ha), (bn_get_run _ _ _ _ Hb), (bn_get_run _ _ _ _ Hn)|].
  apply call_leaves; [done|]. intros v e. apply H.
Qed.

Lemma max_nbytes_run {B} W a b m n (k : Z -> M (mpi_state E) B) s :
  ready W s -> num s a = Some m -> num s b = Some n -> num_bytes m <= 2 ^ 20 -> num_bytes n <= 2 ^ 20 ->
  mbind (max_nbytes a b) k s = k (Z.max (nbytes W m) (nbytes W n)) s.
Proof.
  intros Hr Ha Hb Hm Hn. unfold max_nbytes.
  assert (forall A B C (x : M (mpi_state E) A) (f : A -> M (mpi_state E) B) (g : B -> M (mpi_state E) C) s,
    mbind (mbind x f) g s = mbind x (fun v => mbind (f v) g) s) as Hassoc.
  { intros. unfold mbind. by destruct (x s0). }
  rewrite Hassoc, (nbytes_run W a m) by done. rewrite Hassoc, (nbytes_run W b n) by done.
  unfold mbind, mret. f_equal. destruct (Z.ltb_spec (nbytes W m) (nbytes W n)); lia.
Qed.

Lemma num_bytes_sum m n L : 0 <= m -> 0 <= n -> num_bytes m <= L -> num_bytes n <= L ->
  num_bytes (m + n) <= L + 1.
Proof.
  intros Hm Hn H1 H2. assert (0 <= L) as HL by (pose proof (num_bytes_nonneg m); lia).
  apply num_bytes_le in H1; [|lia..]. apply num_bytes_le in H2; [|lia..].
  apply num_bytes_le; [lia..|]. rewrite Z.pow_add_r by lia. lia.
Qed.

(** C32: the sum is kept in the size of the longer number, with the
    error [CX_CARRY] when it does not fit, provided that the result is another
    number than the operands. *)
Theorem mpi_add W r a b m n s :
  ready W s -> is_Some (num s r) -> num s a = Some m -> num s b = Some n -> value_ok m -> value_ok n ->
  r <> a -> r <> b ->
  let L := Z.max (nbytes W m) (nbytes W n) in
  leaves (cx_mpi_add r a b) r
    (fun error v => v = (m + n) mod 256 ^ L /\ error = if m + n <? 256 ^ L then CX_OK else CX_CARRY) s.
Proof.
  intros Hr Hsr Ha Hb Hm Hn Hra Hrb L.
  pose proof (value_num_bytes m Hm). pose proof (value_num_bytes n Hn). unfold MAX_MPI_BYTE_SIZE in *.
  pose proof (rd_word _ _ Hr) as HW. pose proof (nbytes_ge W m HW). pose proof (nbytes_ge W n HW).
  unfold leaves, cx_mpi_add. rewrite (bn_get_run _ _ _ _ Ha), (bn_get_run _ _ _ _ Hb).
  destruct (BN_add m n (openssl s)) as [[ok v] e] eqn:Eadd. rewrite (call_to_run r _ _ _ _ _ s Hsr Eadd).
  destruct ok; [|eexists _, v, e; split; [done|by left]]. apply BN_add_spec in Eadd as ->. cbn [negb].
  set (s1 := left_in r (m + n) e s). assert (is_Some (num s1 r)) as Hs1 by (by apply num_left_some).
  rewrite (max_nbytes_run W a b m n) by (unfold s1; try lia; rewrite ?num_left_ne by done; auto with mpi). fold L.
  rewrite (bn_get_run r (m + n)) by (by apply num_left). rewrite BN_num_bytes_spec.
  assert (0 <= L) as HL by lia. assert (0 <= m + n) as Hp by (destruct Hm, Hn; lia).
  pose proof (num_bytes_le (m + n) L Hp HL) as Hle. destruct (Z.ltb_spec L (num_bytes (m + n))) as [Hlt|Hlt].
  - destruct (BN_mask_bits (m + n) (8 * L) (openssl s1)) as [[ok v] e'] eqn:Em.
    rewrite (call_to_run r _ _ _ _ _ s1 Hs1 Em). exists (if ok then CX_CARRY else CX_INTERNAL_ERROR), v, e'.
    unfold s1. rewrite left_left. split; [done|]. destruct ok; [|by left]. right.
    apply BN_mask_bits_spec in Em as ->; [|lia..].
    rewrite Z.pow_mul_r by lia. split; [done|]. change (2 ^ 8) with 256. destruct (Z.ltb_spec (m + n) (256 ^ L)); [lia|done].
  - exists CX_OK, (m + n), e. split; [done|]. right. apply Hle in Hlt.
    split; [by rewrite Z.mod_small|]. destruct (Z.ltb_spec (m + n) (256 ^ L)); [done|lia].
Qed.

(** A sum in place is never cut and never reports a carry:
    the size of the first operand is taken after it was replaced by the sum. *)
Theorem mpi_add_in_place W a b m n s :
  ready W s -> num s a = Some m -> num s b = Some n -> value_ok m -> value_ok n ->
  leaves (cx_mpi_add a a b) a (fun error v => v = m + n /\ error = CX_OK) s.
Proof.
  intros Hr Ha Hb Hm Hn.
  pose proof (value_num_bytes m Hm). pose proof (value_num_bytes n Hn). unfold MAX_MPI_BYTE_SIZE in *.
  pose proof (rd_word _ _ Hr) as HW. assert (is_Some (num s a)) as Hsa by done.
  assert (num_bytes (m + n) <= 2049) as Hmn by (apply (num_bytes_sum m n 2048); apply Hm || apply Hn).
  unfold leaves, cx_mpi_add. rewrite (bn_get_run _ _ _ _ Ha), (bn_get_run _ _ _ _ Hb).
  destruct (BN_add m n (openssl s)) as [[ok v] e] eqn:Eadd. rewrite (call_to_run a _ _ _ _ _ s Hsa Eadd).
  destruct ok; [|eexists _, v, e; split; [done|by left]]. apply BN_add_spec in Eadd as ->. cbn [negb].
  set (s1 := left_in a (m + n) e s). assert (num s1 a = Some (m + n)) as Hs1 by (by apply num_left).
  assert (exists n', num s1 b = Some n' /\ num_bytes n' <= 2049) as (n' & Hb1 & Hn').
  { destruct (decide (a = b)) as [<-|Hne]; [by exists (m + n)|]. exists n. unfold s1. rewrite num_left_ne by done.
    split; [done|lia]. }
  rewrite (max_nbytes_run W a b (m + n) n') by (try lia; try done; unfold s1; auto with mpi).
  rewrite (bn_get_run a (m + n)) by done. rewrite BN_num_bytes_spec.
  pose proof (nbytes_ge W (m + n) HW) as [_ Hb2].
  destruct (Z.ltb_spec (Z.max (nbytes W (m + n)) (nbytes W n')) (num_bytes (m + n))); [lia|].
  exists CX_OK, (m + n), e. split; [done|]. by right.
Qed.

(** A number that the conversions to bytes take: its words fit a buffer. *)
Definition fits (W n : Z) : Prop := 0 <= n /\ nbytes W n <= MAX_MPI_BYTE_SIZE.

Lemma fits_value W n : word_ok W -> fits W n -> value_ok n.
Proof. intros HW [H1 H2]. pose proof (nbytes_ge W n HW). split; [done|lia]. Qed.

Lemma fits_le W m n : word_ok W -> 0 <= m <= n -> fits W n -> fits W m.
Proof. intros HW Hm [_ H]. split; [lia|]. pose proof (nbytes_mono W m n HW Hm). lia. Qed.

Lemma fits_small W n : word_ok W -> fits W n -> num_bytes n <= 2 ^ 20.
Proof. intros HW Hf. destruct (fits_value W n HW Hf) as [_ H]. unfold MAX_MPI_BYTE_SIZE in H. lia. Qed.

Lemma fits_run {B} W x n (k : Z -> M (mpi_state E) B) s :
  ready W s -> num s x = Some n -> fits W n -> mbind (cx_mpi_nbytes x) k s = k (nbytes W n) s.
Proof. intros Hr Hx Hf. apply (nbytes_run W); [done|done|]. by apply (fits_small W); [apply Hr|]. Qed.

Lemma fits_checked W n : fits W n -> (MAX_MPI_BYTE_SIZE <? nbytes W n) = false.
Proof. intros [_ H]. by apply Z.ltb_ge. Qed.

(** The bytes of a number, in its own size. *)
Definition bytes (W n : Z) : list Z := be_split (Z.to_nat (nbytes W n)) n.

Lemma bytes_run {B} W x n (k : option (list Z) -> M (mpi_state E) B) s :
  word_ok W -> num s x = Some n -> fits W n ->
  mbind (bytes_of x (nbytes W n)) k s = k (Some (bytes W n)) s.
Proof.
  intros HW Hx [Hn Hf]. pose proof (nbytes_ge W n HW) as [H1 H2].
  unfold bytes_of, mbind at 1. rewrite (bn_get_run _ _ _ _ Hx). unfold local_bytes.
  destruct (Z.leb_spec (nbytes W n) MAX_MPI_BYTE_SIZE); [|lia]. unfold mret.
  rewrite BN_bn2binpad_spec by lia. destruct (Z.leb_spec (num_bytes n) (nbytes W n)); [|lia].
  by rewrite Z.abs_eq.
Qed.

Lemma bytes_bytes W n : bytes_ok (bytes W n).
Proof. apply be_split_bytes. Qed.

Lemma bytes_zlen W n : word_ok W -> zlen (bytes W n) = nbytes W n.
Proof. intros HW. apply zlen_be_split. pose proof (nbytes_ge W n HW). lia. Qed.

Lemma bytes_value W n : word_ok W -> 0 <= n -> be_combine (bytes W n) = n.
Proof.
  intros HW Hn. pose proof (nbytes_ge W n HW). unfold bytes. rewrite be_combine_split, Z2Nat.id by lia.
  apply Z.mod_small. split; [done|]. by apply nbytes_pow.
Qed.

Lemma put_left r n s : put r n s = left_in r n (openssl s) s.
Proof. by destruct s. Qed.

Lemma be_combine_not l : bytes_ok l ->
  be_combine (map (fun x => w8 (Z.lnot x)) l) = 256 ^ zlen l - 1 - be_combine l.
Proof.
  induction 1 as [|x l Hx Hl IH]; [done|]. cbn [map]. rewrite !be_combine_cons, IH, zlen_cons.
  assert (zlen (map (fun x => w8 (Z.lnot x)) l) = zlen l) as -> by (unfold zlen; by rewrite length_map).
  assert (w8 (Z.lnot x) = 255 - x) as ->.
  { unfold w8. symmetry. apply Z.mod_unique with (-1); unfold Z.lnot, is_byte in *; lia. }
  pose proof (zlen_nonneg l). rewrite Z.pow_add_r by lia. lia.
Qed.

Lemma mpi_not W a m s : ready W s -> num s a = Some m -> fits W m ->
  leaves (cx_mpi_not a) a (fun error v => v = 256 ^ nbytes W m - 1 - m /\ error = CX_OK) s.
Proof.
  intros Hr Ha Hf. pose proof (rd_word _ _ Hr) as HW. eapply leaves_eq.
  { unfold cx_mpi_not. rewrite (fits_run W a m), (fits_checked W m), (bytes_run W a m) by done. reflexivity. }
  apply call_leaves; [done|]. intros v e Hv. apply BN_bin2bn_spec in Hv as ->. split; [|done].
  rewrite be_combine_not, bytes_zlen, bytes_value by (done || apply Hf || apply bytes_bytes). done.
Qed.

(** The negation is the two's complement in the size of the number,
    except that the one of 0 does not fit that size. *)
Lemma mpi_neg W a m s : ready W s -> num s a = Some m -> fits W m ->
  leaves (cx_mpi_neg a) a (fun error v => v = 256 ^ nbytes W m - m /\ error = CX_OK) s.
Proof.
  intros Hr Ha Hf. destruct (mpi_not W a m s Hr Ha Hf) as (err & v & e & E1 & H1).
  unfold leaves, cx_mpi_neg, check. rewrite (mbind_ret _ _ _ _ _ E1).
  destruct H1 as [-> | [-> ->]]; [eexists _, v, e; split; [done|by left]|]. cbn [truthy CX_OK Z.eqb negb].
  set (s1 := left_in _ _ _ _). assert (num s1 a = Some (256 ^ nbytes W m - 1 - m)) as H1 by (by apply num_left).
  edestruct (call_leaves a (BN_add_word (256 ^ nbytes W m - 1 - m) 1)
    (fun error v => v = 256 ^ nbytes W m - m /\ error = CX_OK) s1) as (err & v & e' & E2 & H2); [done| |].
  { intros v e' Hv. apply BN_add_word_spec in Hv. split; [lia|done]. }
  exists err, v, e'. split; [|done]. unfold cx_mpi_inc. rewrite (bn_get_run _ _ _ _ H1), E2. unfold s1.
  by rewrite left_left.
Qed.

(** The difference, or the error [CX_CARRY] and its two's complement:
    not in the size of the operands, but in the one of the absolute value of
    the difference. *)
Theorem mpi_sub W r a b m n s :
  ready W s -> is_Some (num s r) -> num s a = Some m -> num s b = Some n -> fits W m -> fits W n ->
  leaves (cx_mpi_sub r a b) r (fun error v =>
    if n <=? m then v = m - n /\ error = CX_OK
    else v = 256 ^ nbytes W (n - m) - (n - m) /\ error = CX_CARRY) s.
Proof.
  intros Hr Hsr Ha Hb Hm Hn. pose proof (rd_word _ _ Hr) as HW. destruct (Hm) as [Hm0 _]. destruct (Hn) as [Hn0 _].
  unfold leaves, cx_mpi_sub. rewrite (bn_get_run _ _ _ _ Ha), (bn_get_run _ _ _ _ Hb).
  destruct (BN_sub m n (openssl s)) as [[ok v] e] eqn:Es. rewrite (call_to_run r _ _ _ _ _ s Hsr Es).
  destruct ok; [|eexists _, v, e; split; [done|by left]]. apply BN_sub_spec in Es as ->. cbn [negb].
  set (s1 := left_in r (m - n) e s). rewrite (bn_get_run r (m - n)) by (by apply num_left).
  rewrite BN_is_negative_spec. destruct (Z.ltb_spec (m - n) 0) as [Hlt|Hge].
  - destruct (Z.leb_spec n m); [lia|]. set (d := n - m).
    rewrite BN_set_negative_0, bn_set_run by (by apply num_left_some). replace (Z.abs (m - n)) with d by lia.
    assert (put r d s1 = left_in r d e s) as -> by (by rewrite put_left; unfold s1; rewrite left_left).
    set (s2 := left_in r d e s). assert (ready W s2) as Hr2 by (by apply ready_left).
    assert (num s2 r = Some d) as Hd by (by apply num_left).
    assert (fits W d) as Hfd by (apply (fits_le W d n); [done|lia|done]).
    assert (forall x v, num s x = Some v -> fits W v -> exists v', num s2 x = Some v' /\ fits W v' /\
      (v' = v \/ v' = d)) as Hval.
    { intros x v Hx Hv. destruct (decide (r = x)) as [<-|Hne]; [exists d; auto|].
      exists v. unfold s2. rewrite num_left_ne by done. auto. }
    destruct (Hval a m Ha Hm) as (m' & Ha2 & Hm' & _). destruct (Hval b n Hb Hn) as (n' & Hb2 & Hn' & Hor).
    rewrite (max_nbytes_run W a b m' n') by (try done; by apply (fits_small W)).
    rewrite (bn_get_run r d) by done. rewrite BN_num_bytes_spec.
    assert (nbytes W d <= nbytes W n') as Hdn by (destruct Hor as [-> | ->]; [apply nbytes_mono; [done|lia]|lia]).
    pose proof (nbytes_ge W d HW) as [_ Hd2].
    destruct (Z.ltb_spec (Z.max (nbytes W m') (nbytes W n')) (num_bytes d)); [lia|].
    rewrite (mbind_ret (mret true) _ s2 true s2 eq_refl). cbn [negb].
    destruct (mpi_neg W r d s2 Hr2 Hd Hfd) as (err & v & e' & E2 & H2). rewrite (mbind_ret _ _ _ _ _ E2).
    eexists _, v, e'. unfold s2. rewrite left_left. split; [done|]. by destruct H2 as [-> | [-> ->]]; [left|right].
  - destruct (Z.leb_spec n m); [|lia]. exists CX_OK, (m - n), e. split; [done|]. by right.
Qed.

(** ** Operations on bits *)

Section bitwise.
Context (op : Z -> Z -> Z) (f : bool -> bool -> bool) (high : list Z -> list Z).
Hypothesis Hop : forall x y i, Z.testbit (op x y) i = f (Z.testbit x i) (Z.testbit y i).
Hypothesis Hf : f false false = false.
Hypothesis Hsym : forall x y, op x y = op y x.
Hypothesis Hhigh : forall p, bytes_ok p -> high p = zip_with op p (zeros (zlen p)).

Lemma zip_padded a b : bytes_ok a -> bytes_ok b -> zlen b <= zlen a ->
  be_combine (high (ztake (zlen a - zlen b) a) ++ zip_with op (zdrop (zlen a - zlen b) a) b)
  = op (be_combine a) (be_combine b).
Proof.
  intros Ha Hb Hl. pose proof (zlen_nonneg b). set (j := zlen a - zlen b) in *.
  rewrite Hhigh by (by apply Forall_take).
  assert (zlen (ztake j a) = j) as Hj by (apply zlen_ztake; lia). rewrite Hj.
  rewrite <- zip_with_app by (unfold zeros; rewrite length_replicate; unfold zlen in Hj; lia).
  rewrite ztake_zdrop, (be_combine_zip op f Hop Hf); [|done| |].
  - rewrite be_combine_app, be_combine_zeros. f_equal.
  - apply Forall_app. split; [apply zeros_bytes|done].
  - rewrite length_app. unfold zeros. rewrite length_replicate. unfold zlen in *. lia.
Qed.

Lemma bytewise_ok a b : bytes_ok a -> bytes_ok b ->
  be_combine (bytewise op high a b) = op (be_combine a) (be_combine b).
Proof.
  intros Ha Hb. unfold bytewise. destruct (Z.leb_spec (zlen b) (zlen a)); [by apply zip_padded|].
  rewrite zip_padded by (done || lia). apply Hsym.
Qed.

Lemma mpi_bitwise W checked r a b m n s :
  ready W s -> is_Some (num s r) -> num s a = Some m -> num s b = Some n -> fits W m -> fits W n ->
  leaves (cx_mpi_bitwise op high checked r a b) r (fun error v => v = op m n /\ error = CX_OK) s.
Proof.
  intros Hr Hsr Ha Hb Hm Hn. pose proof (rd_word _ _ Hr) as HW. eapply leaves_eq.
  { unfold cx_mpi_bitwise. rewrite (fits_run W a m), (fits_checked W m), andb_false_r by done.
    rewrite (bytes_run W a m), (fits_run W b n), (fits_checked W n), andb_false_r by done.
    rewrite (bytes_run W b n) by done. reflexivity. }
  apply call_leaves; [done|]. intros v e Hv. apply BN_bin2bn_spec in Hv as ->. split; [|done].
  rewrite bytewise_ok by apply bytes_bytes. by rewrite !bytes_value by (done || apply Hm || apply Hn).
Qed.
End bitwise.

Lemma zip_with_zeros (op : Z -> Z -> Z) p : (forall x, op x 0 = x) -> p = zip_with op p (zeros (zlen p)).
Proof.
  intros H. unfold zeros, zlen. rewrite Nat2Z.id. induction p as [|x p IH]; [done|]. cbn. by rewrite H, <- IH.
Qed.

Lemma zip_with_land p : zeros (zlen p) = zip_with Z.land p (zeros (zlen p)).
Proof.
  unfold zeros, zlen. rewrite Nat2Z.id. induction p as [|x p IH]; [done|]. cbn. by rewrite Z.land_0_r, <- IH.
Qed.

(** The exclusive or, the or and the and of the bytes are the ones
    of the numbers, whatever the sizes of the operands are and whichever of
    them is the result. *)
Theorem mpi_bits W r a b m n s :
  ready W s -> is_Some (num s r) -> num s a = Some m -> num s b = Some n -> fits W m -> fits W n ->
  leaves (cx_mpi_xor r a b) r (fun error v => v = Z.lxor m n /\ error = CX_OK) s /\
  leaves (cx_mpi_or r a b) r (fun error v => v = Z.lor m n /\ error = CX_OK) s /\
  leaves (cx_mpi_and r a b) r (fun error v => v = Z.land m n /\ error = CX_OK) s.
Proof.
  intros Hr Hsr Ha Hb Hm Hn. split_and!.
  - apply (mpi_bitwise Z.lxor xorb id Z.lxor_spec eq_refl Z.lxor_comm) with W; try done.
    intros p _. apply zip_with_zeros, Z.lxor_0_r.
  - apply (mpi_bitwise Z.lor orb id Z.lor_spec eq_refl Z.lor_comm) with W; try done.
    intros p _. apply zip_with_zeros, Z.lor_0_r.
  - apply (mpi_bitwise Z.land andb _ Z.land_spec eq_refl Z.land_comm) with W; try done.
    intros p _. apply zip_with_land.
Qed.

(** ** Comparisons *)

(** Numbers of the same size in words are compared; of two numbers
    of different sizes the first one is always reported to be the smaller. *)
Theorem mpi_cmp W a b m n s :
  ready W s -> num s a = Some m -> num s b = Some n -> fits W m -> fits W n ->
  cx_mpi_cmp a b s = Ret (if nbytes W m =? nbytes W n then sign_of m n else -1) s.
Proof.
  intros Hr Ha Hb Hm Hn. pose proof (rd_word _ _ Hr) as HW. unfold cx_mpi_cmp.
  rewrite (fits_run W a m), (fits_run W b n), !(fits_checked W) by done. cbn [orb].
  destruct (Z.eqb_spec (nbytes W m) (nbytes W n)) as [He|]; [|done].
  rewrite (bytes_run W a m), (bytes_run W b n) by done. unfold mret. f_equal.
  rewrite memcmp_spec, !bytes_value by (try apply bytes_bytes; try done; try apply Hm; try apply Hn;
    unfold bytes; rewrite !be_split_length; by rewrite He). done.
Qed.

(** ** Machine words *)

Lemma lookup_last (l : list Z) i : (i < length l)%nat -> l !! (length l - S i)%nat = rev l !! i.
Proof. intros H. rewrite rev_alt. symmetry. by apply reverse_lookup. Qed.

Lemma le_combine_take (l : list Z) i b : l !! i = Some b ->
  le_combine (take (S i) l) = le_combine (take i l) + 256 ^ Z.of_nat i * b.
Proof.
  revert i. induction l as [|x l IH]; intros [|i] H; try done; cbn [take le_combine lookup list_lookup] in *.
  - injection H as ->. rewrite take_0. cbn. lia.
  - rewrite (IH i H), Nat2Z.inj_succ, Z.pow_succ_r by lia. lia.
Qed.

Lemma u32_loop_ok l k i : bytes_ok l -> (i + k <= Nat.min (length l) 4)%nat ->
  u32_loop l (zlen l) k (Z.of_nat i) (le_combine (take i (rev l)))
  = Some (le_combine (take (i + k) (rev l))).
Proof.
  intros Hl. revert i. induction k as [|k IH]; intros i Hi; [by rewrite Nat.add_0_r|]. cbn [u32_loop].
  assert (bytes_ok (rev l)) as Hr by (by apply Forall_rev).
  destruct (lookup_lt_is_Some_2 (rev l) i) as [b Hb]; [rewrite length_rev; lia|].
  replace (Z.to_nat (zlen l - Z.of_nat i - 1)) with (length l - S i)%nat by (unfold zlen; lia).
  rewrite lookup_last, Hb by lia. cbn [option_bind base.mbind].
  assert (is_byte b) as Hbb by (by apply (Forall_lookup_1 is_byte _ _ _ Hr Hb)).
  pose proof (le_combine_bound (take i (rev l)) (Forall_take _ _ _ Hr)) as Hbound.
  assert (zlen (take i (rev l)) = Z.of_nat i) as Hz by (unfold zlen; rewrite length_take, length_rev; lia).
  rewrite Hz in Hbound. unfold w32. rewrite Z.shiftl_mul_pow2 by lia.
  assert (2 ^ (8 * Z.of_nat i) = 256 ^ Z.of_nat i) as Hp by (rewrite Z.pow_mul_r by lia; done).
  rewrite Z.mod_small; [|unfold is_byte in Hbb; assert (256 ^ Z.of_nat i <= 256 ^ 3) by (apply Z.pow_le_mono_r; lia); nia].
  rewrite Z.lor_comm, lor_disjoint by (rewrite ?Hp; lia). rewrite Hp.
  replace (b * 256 ^ Z.of_nat i + le_combine (take i (rev l))) with (le_combine (take (S i) (rev l)))
    by (rewrite (le_combine_take _ _ b Hb); lia).
  replace (Z.of_nat i + 1) with (Z.of_nat (S i)) by lia. rewrite IH by lia. do 3 f_equal. lia.
Qed.

Lemma take_le_split k n m : (k <= n)%nat -> take k (le_split n m) = le_split k m.
Proof.
  revert n m. induction k as [|k IH]; intros [|n] m H; try done; [lia|]. cbn. by rewrite IH by lia.
Qed.

Lemma mod_u32 m k : 0 <= m -> 0 <= k -> num_bytes m <= k \/ k = 4 -> m mod 256 ^ Z.min k 4 = w32 m.
Proof.
  intros Hm Hk H. unfold w32. change 4294967296 with (256 ^ 4). destruct (Z.leb_spec 4 k); [by rewrite Z.min_r|].
  rewrite Z.min_l by lia. destruct H as [H|H]; [|lia]. apply num_bytes_le in H; [|done..].
  rewrite !Z.mod_small; try done; split; try done. apply Z.lt_le_trans with (256 ^ k); [done|]. apply Z.pow_le_mono_r; lia.
Qed.

Lemma u32_of m : 0 <= m ->
  u32_loop (be_split (Z.to_nat (num_bytes m)) m) (num_bytes m) (Z.to_nat (Z.min (num_bytes m) 4)) 0 0 = Some (w32 m).
Proof.
  intros Hm. pose proof (num_bytes_nonneg m). set (n := Z.to_nat (num_bytes m)).
  assert (zlen (be_split n m) = num_bytes m) as Hz by (by apply zlen_be_split).
  rewrite <- Hz at 1. rewrite (u32_loop_ok _ _ 0 (be_split_bytes n m)) by (rewrite be_split_length; lia).
  f_equal. unfold be_split. rewrite rev_involutive, take_le_split, le_combine_split by lia.
  replace (Z.of_nat (0 + Z.to_nat (Z.min (num_bytes m) 4))) with (Z.min (num_bytes m) 4) by lia.
  apply mod_u32; [done|done|by left].
Qed.

Lemma bn2bin_zlen m : zlen (be_split (Z.to_nat (num_bytes m)) m) = num_bytes m.
Proof. apply zlen_be_split, num_bytes_nonneg. Qed.

(** The first byte of a number is not 0. *)
Lemma first_byte m : 0 < m -> exists b l, be_split (Z.to_nat (num_bytes m)) m = b :: l /\
  0 < b < 256 /\ zlen l = num_bytes m - 1 /\ b = m / 256 ^ (num_bytes m - 1).
Proof.
  intros Hm. pose proof (num_bytes_nonneg m).
  assert (num_bytes m <> 0) as Hne.
  { intros H0. assert (num_bytes m <= 0) as Hle by lia. apply num_bytes_le in Hle; lia. }
  set (k := Z.to_nat (num_bytes m - 1)). replace (Z.to_nat (num_bytes m)) with (1 + k)%nat by lia.
  rewrite be_split_app. assert (Z.of_nat k = num_bytes m - 1) as Hk by lia. rewrite Hk.
  assert (256 ^ num_bytes m = 256 ^ (num_bytes m - 1) * 256) as Hp.
  { replace (num_bytes m) with (num_bytes m - 1 + 1) at 1 by lia. rewrite Z.pow_add_r by lia. done. }
  assert (m < 256 ^ num_bytes m) by (apply num_bytes_le; lia).
  assert (256 ^ (num_bytes m - 1) <= m).
  { apply Z.nlt_ge. intros Hlt. apply num_bytes_le in Hlt; lia. }
  assert (0 < 256 ^ (num_bytes m - 1)) by (apply Z.pow_pos_nonneg; lia).
  set (b := m / 256 ^ (num_bytes m - 1)).
  assert (0 < b) by (apply Z.div_str_pos; lia). assert (b < 256) by (apply Z.div_lt_upper_bound; lia).
  exists b, (be_split k m). split; [|split; [done|]].
  - unfold be_split at 1. cbn [le_split rev app]. by rewrite Z.mod_small by lia.
  - split; [|done]. unfold zlen. rewrite be_split_length. lia.
Qed.

(** A number is compared with a word as an integer, and read as its
    32 low bits. *)
Theorem mpi_u32 a m b s :
  num s a = Some m -> value_ok m -> is_w32 b ->
  cx_mpi_cmp_u32 a b s = Ret (sign_of m b) s /\ cx_mpi_get_u32 a s = Ret (w32 m) s.
Proof.
  intros Ha [Hm Hn] Hb. pose proof (bn2bin_zlen m) as Hz.
  assert ((MAX_MPI_BYTE_SIZE <? BN_num_bytes m) = false) as Hmax by (rewrite BN_num_bytes_spec; by apply Z.ltb_ge).
  unfold cx_mpi_cmp_u32, cx_mpi_get_u32. rewrite !(bn_get_run _ _ _ _ Ha), Hmax, BN_bn2bin_spec, Z.abs_eq, Hz by done.
  split; [|unfold mlift; by rewrite u32_of].
  destruct (Z.ltb_spec 4 (num_bytes m)) as [Hlt|Hle].
  - destruct (first_byte m) as (x & l & Hl & Hx & _).
    { destruct (Z.eq_dec m 0) as [->|]; [done|lia]. }
    assert (zero_prefix (be_split (Z.to_nat (num_bytes m)) m) (Z.to_nat (num_bytes m - 4)) 0 = Some 0) as Hp.
    { rewrite Hl. destruct (Z.to_nat (num_bytes m - 4)); [done|].
      cbn [zero_prefix]. change ((x :: l) !! Z.to_nat 0) with (Some x). cbn [base.mbind option_bind]. unfold truthy.
      destruct (Z.eqb_spec x 0); [lia|done]. }
    rewrite (mlift_some _ _ _ _ Hp). destruct (Z.leb_spec (num_bytes m - 4) 0); [lia|]. unfold mret. f_equal.
    assert (256 ^ 4 <= m) by (apply Z.nlt_ge; intros Hs; apply num_bytes_le in Hs; lia).
    unfold is_w32, sign_of in *. destruct (Z.ltb_spec m b); [lia|]. destruct (Z.eqb_spec m b); lia.
  - replace (Z.to_nat (num_bytes m - 4)) with 0%nat by lia. cbn [zero_prefix].
    rewrite (mlift_some _ _ _ 0) by done. destruct (Z.leb_spec (num_bytes m - 4) 0); [|lia].
    pose proof (u32_of m Hm) as Hu. rewrite Z.min_l in Hu by done. rewrite (mlift_some _ _ _ _ Hu).
    apply num_bytes_le in Hle; [|lia..]. unfold w32. by rewrite Z.mod_small.
Qed.

Lemma mpi_set_u32 x n s : is_Some (num s x) -> is_w32 n ->
  exists v e, cx_mpi_set_u32 x n s = Ret tt (left_in x v e s) /\
    (v = n \/ exists e', BN_bin2bn (be_split 4 n) (openssl s) = (false, v, e')).
Proof.
  intros Hx Hn. unfold cx_mpi_set_u32.
  assert ([Z.land (Z.shiftr n 24) 255; Z.land (Z.shiftr n 16) 255; Z.land (Z.shiftr n 8) 255; Z.land (Z.shiftr n 0) 255]
    = be_split 4 n) as ->.
  { unfold be_split. cbn [le_split rev app]. change 255 with (Z.ones 8). rewrite !Z.land_ones, !Z.shiftr_div_pow2 by lia.
    change (2 ^ 8) with 256. change (2 ^ 0) with 1. rewrite Z.div_1_r, !Z.div_div by lia. done. }
  destruct (BN_bin2bn (be_split 4 n) (openssl s)) as [[ok v] e] eqn:Ef. exists v, e.
  rewrite (call_to_run _ _ _ _ _ _ _ Hx Ef). split; [done|]. destruct ok; [left|right; by exists e].
  apply BN_bin2bn_spec in Ef as ->. rewrite be_combine_split. by apply Z.mod_small.
Qed.

(** ** Positions of bits *)

Lemma top_bit_ok fuel b len : 0 < b < 256 -> 128 <= b * 2 ^ Z.of_nat fuel -> 7 - Z.log2 b <= len < 2 ^ 32 ->
  top_bit fuel b len = len - (7 - Z.log2 b).
Proof.
  revert b len. induction fuel as [|fuel IH]; intros b len Hb Hf Hl.
  - cbn [top_bit Z.of_nat] in *. assert (Z.log2 b = 7) as -> by (apply Z.log2_unique; lia). lia.
  - cbn [top_bit]. destruct (Z.ltb_spec b 128) as [Hlt|Hge].
    + assert (Z.land b 128 = 0) as ->.
      { change 128 with (2 ^ 7). rewrite <- (Z.mod_small b (2 ^ 7)) by lia. rewrite <- Z.land_ones by lia.
        by rewrite <- Z.land_assoc, Z.land_0_r. }
      assert (Z.log2 b < 7) by (apply Z.log2_lt_pow2; lia).
      cbn [Z.eqb]. rewrite Z.shiftl_mul_pow2 by lia. unfold w8, w32. rewrite (Z.mod_small (b * 2 ^ 1)) by lia.
      rewrite Z.mod_small by lia. rewrite Nat2Z.inj_succ, Z.pow_succ_r in Hf by lia.
      assert (Z.log2 (b * 2 ^ 1) = Z.log2 b + 1) as Hlog by (rewrite (Z.mul_comm b), Z.log2_double by lia; lia).
      rewrite IH by lia. lia.
    + assert (Z.log2 b = 7) as -> by (apply Z.log2_unique; lia).
      assert (Z.land b 128 <> 0) as Hne.
      { intros H. assert (Z.testbit (Z.land b 128) 7 = false) as Ht by (rewrite H; apply Z.bits_0).
        rewrite Z.land_spec in Ht. change (Z.testbit 128 7) with true in Ht. rewrite andb_true_r in Ht.
        apply Z.testbit_false in Ht; [|lia]. assert (b / 2 ^ 7 = 1) as Hd by (symmetry; apply Z.div_unique with (b - 128); lia).
        by rewrite Hd in Ht. }
      destruct (Z.eqb_spec (Z.land b 128) 0); [done|lia].
Qed.

(** The number of bits of a number is the one of its binary
    notation; the one of 0 reads a buffer that was not written. *)
Theorem mpi_cnt_bits x m s : num s x = Some m -> value_ok m ->
  cx_mpi_cnt_bits x s = if m =? 0 then Fault else Ret (Z.log2 m + 1) s.
Proof.
  intros Hx [Hm Hn]. unfold cx_mpi_cnt_bits. rewrite (bn_get_run _ _ _ _ Hx), BN_num_bytes_spec, BN_bn2bin_spec.
  rewrite Z.abs_eq by done. destruct (Z.ltb_spec MAX_MPI_BYTE_SIZE (num_bytes m)); [lia|].
  destruct (Z.eqb_spec m 0) as [->|Hne]; [done|]. destruct (first_byte m) as (b & l & -> & Hb & Hl & Hbd); [lia|].
  assert (zlen (b :: l) = num_bytes m) as -> by (rewrite zlen_cons; lia). pose proof (zlen_nonneg l).
  cbn [skip_zeros]. unfold truthy at 1. destruct (Z.eqb_spec b 0); [lia|]. cbn [negb].
  rewrite (mlift_some _ _ _ (b :: l, num_bytes m)) by done.
  unfold truthy. destruct (Z.eqb_spec (num_bytes m) 0); [lia|]. cbn [negb].
  rewrite (mlift_some _ _ _ b) by done. unfold mret. f_equal. unfold MAX_MPI_BYTE_SIZE, w32 in *.
  rewrite Z.mod_small by lia. assert (Z.log2 b = Z.log2 m - 8 * (num_bytes m - 1)) as Hlog.
  { rewrite Hbd. change 256 with (2 ^ 8). rewrite <- Z.pow_mul_r by lia. rewrite <- Z.shiftr_div_pow2 by lia.
    rewrite Z.log2_shiftr by lia. pose proof (Z.log2_nonneg m). assert (num_bytes m - 1 = Z.log2 m / 8) as Hq.
    { unfold num_bytes. destruct (Z.eqb_spec m 0); [lia|]. rewrite Z.abs_eq by lia. lia. }
    rewrite Hq. pose proof (Z.mul_div_le (Z.log2 m) 8 ltac:(lia)). lia. }
  pose proof (Z.log2_nonneg b). assert (Z.log2 b < 8) by (apply Z.log2_lt_pow2; lia).
  rewrite top_bit_ok; [lia|done| |lia]. change (2 ^ Z.of_nat 8) with 256. lia.
Qed.

Lemma in_size W m pos : word_ok W -> fits W m -> 0 <= pos ->
  (w32 (w32 (nbytes W m * 8) - 1) <? pos) = (8 * nbytes W m <=? pos).
Proof.
  intros HW [_ Hf] Hp. pose proof (nbytes_ge W m HW). unfold MAX_MPI_BYTE_SIZE, w32 in *.
  rewrite (Z.mod_small (nbytes W m * 8)), Z.mod_small by lia.
  destruct (Z.ltb_spec (nbytes W m * 8 - 1) pos), (Z.leb_spec (8 * nbytes W m) pos); lia.
Qed.

(** A bit is tested and set within the size of the number, and
    refused beyond; a bit is cleared without that check. *)
Theorem mpi_bit W x m pos s :
  ready W s -> num s x = Some m -> fits W m -> 0 <= pos ->
  let out := 8 * nbytes W m <=? pos in
  cx_mpi_tst_bit x pos s = Ret (if out then (CX_INVALID_PARAMETER, None) else (CX_OK, Some (Z.testbit m pos))) s /\
  (if out then cx_mpi_set_bit x pos s = Ret CX_INVALID_PARAMETER s
   else leaves (cx_mpi_set_bit x pos) x (fun error v => v = Z.setbit m pos /\ error = CX_OK) s) /\
  leaves (cx_mpi_clr_bit x pos) x (fun error v => v = Z.clearbit m pos /\ error = CX_OK) s.
Proof.
  intros Hr Hx Hf Hp out. pose proof (rd_word _ _ Hr) as HW. destruct (Hf) as [Hm _].
  unfold cx_mpi_tst_bit, cx_mpi_set_bit. rewrite !(fits_run W x m), in_size by done. fold out.
  split; [|split].
  - destruct out; [done|]. rewrite (bn_get_run _ _ _ _ Hx), BN_is_bit_set_spec, Z.abs_eq by done. done.
  - destruct out eqn:Ho; [done|]. eapply leaves_eq.
    { rewrite (fits_run W x m), in_size by done. fold out. rewrite Ho, (bn_get_run _ _ _ _ Hx). reflexivity. }
    apply call_leaves; [done|]. intros v e Hv. by apply BN_set_bit_spec in Hv.
  - eapply leaves_eq; [unfold cx_mpi_clr_bit; by rewrite (bn_get_run _ _ _ _ Hx)|].
    apply call_leaves; [done|]. intros v e Hv. by apply BN_clear_bit_spec in Hv.
Qed.

(** ** Shifts *)

Lemma size_bits W m : word_ok W -> fits W m -> w32 (nbytes W m * 8) = 8 * nbytes W m.
Proof.
  intros HW [_ Hf]. pose proof (nbytes_ge W m HW). unfold MAX_MPI_BYTE_SIZE, w32 in *. rewrite Z.mod_small; lia.
Qed.

Lemma mpi_shr W x m n s :
  ready W s -> num s x = Some m -> fits W m -> 0 <= n ->
  if 8 * nbytes W m <? n then cx_mpi_shr x n s = Ret CX_INVALID_PARAMETER s
  else leaves (cx_mpi_shr x n) x (fun error v => v = m / 2 ^ n /\ error = CX_OK) s.
Proof.
  intros Hr Hx Hf Hn. pose proof (rd_word _ _ Hr) as HW. destruct (Z.ltb_spec (8 * nbytes W m) n) as [Hlt|Hge].
  - unfold cx_mpi_shr. rewrite (fits_run W x m), size_bits by done. destruct (Z.ltb_spec (8 * nbytes W m) n); [done|lia].
  - eapply leaves_eq.
    { unfold cx_mpi_shr. rewrite (fits_run W x m), size_bits by done.
      destruct (Z.ltb_spec (8 * nbytes W m) n); [lia|]. rewrite (bn_get_run _ _ _ _ Hx). reflexivity. }
    apply call_leaves; [done|]. intros v e Hv. apply BN_rshift_spec in Hv; [done|done|apply Hf].
Qed.

(** The last bytes of a number. *)
Lemma last_bytes v L : 0 <= v -> 0 <= L < num_bytes v ->
  read_at (be_split (Z.to_nat (num_bytes v)) v) (num_bytes v - L) L = Some (be_split (Z.to_nat L) v).
Proof.
  intros Hv HL. rewrite read_at_ok by (rewrite ?bn2bin_zlen; lia). f_equal.
  unfold zdrop. replace (Z.to_nat (num_bytes v)) with (Z.to_nat (num_bytes v - L) + Z.to_nat L)%nat by lia.
  rewrite be_split_drop. apply ztake_all. rewrite zlen_be_split; lia.
Qed.

(** A shift to the left drops the bits that leave the size of the
    number; one that makes the number longer than a buffer is refused, but
    only after the number was shifted. *)
Theorem mpi_shl W x m n s :
  ready W s -> num s x = Some m -> fits W m -> 0 <= n ->
  let L := nbytes W m in
  if 8 * L <? n then cx_mpi_shl x n s = Ret CX_INVALID_PARAMETER s
  else leaves (cx_mpi_shl x n) x (fun error v =>
    if MAX_MPI_BYTE_SIZE <? nbytes W (m * 2 ^ n) then v = m * 2 ^ n /\ error = CX_INVALID_PARAMETER
    else v = (m * 2 ^ n) mod 256 ^ L /\ error = CX_OK) s.
Proof.
  intros Hr Hx Hf Hn L. pose proof (rd_word _ _ Hr) as HW. pose proof (Hf) as [Hm HL]. fold L in HL.
  pose proof (nbytes_bounds W m HW) as (HWL & _ & _ & HLW & _). fold L in HWL, HLW.
  pose proof (nbytes_ge W m HW) as [HW16 _]. fold L in HW16.
  unfold leaves, cx_mpi_shl. rewrite (fits_run W x m), size_bits by done. fold L.
  destruct (Z.ltb_spec (8 * L) n) as [Hlt|Hge]; [done|]. rewrite (bn_get_run _ _ _ _ Hx).
  destruct (BN_lshift m n (openssl s)) as [[ok v] e] eqn:Es. rewrite (call_to_run x _ _ _ _ _ s ltac:(done) Es).
  destruct ok; [|eexists _, v, e; split; [done|by left]]. apply BN_lshift_spec in Es as ->; [|done]. cbn [negb].
  set (v := m * 2 ^ n). assert (0 <= v) as Hv by (unfold v; apply Z.mul_nonneg_nonneg; [done|by apply Z.pow_nonneg]).
  set (s1 := left_in x v e s). assert (num s1 x = Some v) as Hx1 by (by apply num_left).
  assert (num_bytes v <= 2 * L) as Hvb.
  { apply num_bytes_le; [done|lia|]. replace (2 * L) with (L + L) by lia. rewrite Z.pow_add_r by lia. unfold v.
    assert (m < 256 ^ L) by (by apply nbytes_pow). assert (2 ^ n <= 256 ^ L).
    { change 256 with (2 ^ 8). rewrite <- Z.pow_mul_r by lia. apply Z.pow_le_mono_r; lia. }
    assert (0 < 2 ^ n) by (by apply Z.pow_pos_nonneg). nia. }
  unfold MAX_MPI_BYTE_SIZE in HL. rewrite (nbytes_run W x v) by (try done; try lia; by apply ready_left).
  destruct (Z.ltb_spec MAX_MPI_BYTE_SIZE (nbytes W v)) as [Hbig|Hsmall].
  { exists CX_INVALID_PARAMETER, v, e. split; [done|]. by right. }
  pose proof (nbytes_ge W v HW) as [_ Hvn].
  destruct (Z.ltb_spec L (nbytes W v)) as [Hlong|Hshort].
  - rewrite (bn_get_run _ _ _ _ Hx1), BN_num_bytes_spec, BN_bn2bin_spec, Z.abs_eq by done. unfold local_bytes.
    destruct (Z.leb_spec (num_bytes v) MAX_MPI_BYTE_SIZE); [|lia]. rewrite (mbind_ret (mret _) _ s1 _ s1 eq_refl).
    rewrite bn2bin_zlen. assert (L < num_bytes v) as Hlv.
    { apply Z.nle_gt. intros Hle. apply num_bytes_le in Hle; [|lia..].
      pose proof (nbytes_le W v L HW ltac:(lia) ltac:(lia) HLW). lia. }
    destruct (Z.ltb_spec L (num_bytes v)); [|lia]. rewrite (mlift_some _ _ _ _ (last_bytes v L Hv ltac:(lia))).
    destruct (call_leaves x (BN_bin2bn (be_split (Z.to_nat L) v)) (fun error w => w = v mod 256 ^ L /\ error = CX_OK) s1)
      as (err & w & e' & E1 & H1); [done| |].
    { intros w e' Hw. apply BN_bin2bn_spec in Hw as ->. rewrite be_combine_split, Z2Nat.id by lia. done. }
    exists err, w, e'. split; [|done]. rewrite E1. unfold s1. by rewrite left_left.
  - exists CX_OK, v, e. split; [done|]. right. split; [|done]. symmetry. apply Z.mod_small. split; [done|].
    apply Z.lt_le_trans with (256 ^ nbytes W v); [by apply nbytes_pow|]. apply Z.pow_le_mono_r; lia.
Qed.

(** ** Conversions *)

Lemma mpi_init x p s : is_Some (num s x) ->
  leaves (cx_mpi_init x p (zlen p)) x (fun error v => v = be_combine p /\ error = CX_OK) s.
Proof.
  intros Hx. eapply leaves_eq; [unfold cx_mpi_init; by rewrite (mlift_some _ _ _ _ (read_at_all p))|].
  apply call_leaves; [done|]. intros v e Hv. by apply BN_bin2bn_spec in Hv.
Qed.

(** A number is written on any number of bytes: with zeros before
    it, or without its first bytes. *)
Theorem mpi_export W x m dst n s :
  ready W s -> num s x = Some m -> fits W m -> 0 <= n <= zlen dst ->
  cx_mpi_export x dst n s = Ret (CX_OK, be_split (Z.to_nat n) m ++ zdrop n dst) s.
Proof.
  intros Hr Hx Hf Hn. pose proof (rd_word _ _ Hr) as HW. destruct (Hf) as [Hm _]. pose proof (nbytes_ge W m HW).
  unfold cx_mpi_export. rewrite (fits_run W x m), (fits_checked W m), (bytes_run W x m) by done.
  set (L := nbytes W m) in *. pose proof (bytes_zlen W m HW) as Hz. fold L in Hz.
  destruct (Z.leb_spec n L) as [Hle|Hgt].
  - assert (read_at (bytes W m) (L - n) n = Some (be_split (Z.to_nat n) m)) as Hread.
    { rewrite read_at_ok by lia. f_equal. unfold bytes, zdrop. fold L.
      replace (Z.to_nat L) with (Z.to_nat (L - n) + Z.to_nat n)%nat by lia.
      rewrite be_split_drop. apply ztake_all. rewrite zlen_be_split; lia. }
    unfold mbind at 1. rewrite (mlift_some _ _ _ _ Hread).
    unfold mlift. rewrite write_at_ok by (rewrite ?zlen_be_split; lia).
    rewrite zlen_be_split, ztake_0 by lia. done.
  - unfold mbind at 1. rewrite (mlift_some _ _ _ (zeros (n - L) ++ zdrop (n - L) dst)).
    2: { unfold memset_at. destruct (Z.leb_spec 0 (n - L)); [|lia]. fold (zeros (n - L)).
      rewrite write_at_ok by (rewrite ?zlen_zeros; lia). by rewrite zlen_zeros, ztake_0 by lia. }
    unfold mlift. rewrite write_at_ok; [|lia|].
    2: { rewrite zlen_app, zlen_zeros, zlen_zdrop, Hz by lia. lia. }
    unfold mret. do 2 f_equal. rewrite ztake_app_l by (rewrite zlen_zeros; lia).
    rewrite app_assoc. f_equal.
    + replace (Z.to_nat n) with (Z.to_nat (n - L) + Z.to_nat L)%nat by lia.
      rewrite be_split_small; [done|]. rewrite Z2Nat.id by lia. split; [done|by apply nbytes_pow].
    + rewrite Hz. unfold zdrop, zeros. rewrite drop_app_ge, length_replicate, drop_drop by (rewrite length_replicate; lia).
      f_equal. lia.
Qed.

Lemma mpi_copy W x y m s : ready W s -> is_Some (num s x) -> num s y = Some m -> fits W m -> x <> y ->
  leaves (cx_mpi_copy x y) x (fun error v => v = m /\ error = CX_OK) s.
Proof.
  intros Hr Hx Hy Hf Hne. pose proof (rd_word _ _ Hr) as HW. pose proof (nbytes_ge W m HW). pose proof Hf as [Hm HL].
  eapply leaves_eq.
  { unfold cx_mpi_copy. rewrite (proj2 (Nat.eqb_neq x y) Hne), (fits_run W y m), (fits_checked W m) by done.
    rewrite (mbind_ret _ _ _ _ _ (mpi_export W y m (zeros MAX_MPI_BYTE_SIZE) (nbytes W m) s Hr Hy Hf
      ltac:(rewrite zlen_zeros by done; lia))).
    change (truthy CX_OK) with false. cbv iota. fold (bytes W m).
    rewrite (mlift_some _ _ _ _ (read_at_prefix (bytes W m) _ _ (bytes_zlen W m HW))). reflexivity. }
  apply call_leaves; [done|]. intros v e Hv. apply BN_bin2bn_spec in Hv as ->. by rewrite bytes_value.
Qed.

(** ** Modular arithmetic *)

(** The modular operations compute in the integers modulo an odd
    number, and refuse an even one. *)
Theorem mpi_modular r a b n x y m s :
  is_Some (num s r) -> num s a = Some x -> num s b = Some y -> num s n = Some m -> 0 < m -> 0 <= y ->
  leaves (cx_mpi_mod_add r a b n) r (fun error v => v = (x + y) mod m /\ error = CX_OK) s /\
  leaves (cx_mpi_mod_sub r a b n) r (fun error v => v = (x - y) mod m /\ error = CX_OK) s /\
  (if Z.odd m then
     leaves (cx_mpi_mod_mul r a b n) r (fun error v => v = (x * y) mod m /\ error = CX_OK) s /\
     leaves (cx_mpi_mod_pow r a b n) r (fun error v => v = x ^ y mod m /\ error = CX_OK) s
   else
     cx_mpi_mod_mul r a b n s = Ret CX_INVALID_PARAMETER_VALUE s /\
     cx_mpi_mod_pow r a b n s = Ret CX_INVALID_PARAMETER s).
Proof.
  intros Hr Ha Hb Hn Hm Hy. split; [|split].
  - eapply ternary_leaves; [done..|]. intros e v e' Hv. by apply BN_mod_add_spec in Hv.
  - eapply ternary_leaves; [done..|]. intros e v e' Hv. by apply BN_mod_sub_spec in Hv.
  - assert (forall B (k : bool -> M (mpi_state E) B), mbind (cx_mpi_is_odd n) k s = k (Z.odd m) s) as Hodd.
    { intros B k. unfold cx_mpi_is_odd, mbind at 1. rewrite (bn_get_run _ _ _ _ Hn). unfold mret. by rewrite BN_is_odd_spec. }
    unfold cx_mpi_mod_mul, cx_mpi_mod_pow. destruct (Z.odd m) eqn:Ho.
    + split; (eapply leaves_eq; [rewrite Hodd; cbn [negb]; reflexivity|]);
        (eapply ternary_leaves; [done..|]); intros e v e' Hv.
      * by apply BN_mod_mul_spec in Hv.
      * by apply BN_mod_exp_spec in Hv.
    + by rewrite !Hodd.
Qed.

(** A square root modulo an odd number has the parity that is asked
    for; the root of 0 that is odd is the modulus itself. *)
Theorem mpi_mod_sqrt W r a n x m sign s :
  ready W s -> is_Some (num s r) -> num s a = Some x -> num s n = Some m -> r <> n ->
  fits W m -> 0 < m -> Z.odd m = true ->
  leaves (cx_mpi_mod_sqrt r a n sign) r
    (fun error v => (v * v) mod m = x mod m /\ 0 <= v <= m /\ Z.odd v = truthy sign /\ error = CX_OK) s.
Proof.
  intros Hr Hsr Ha Hn Hne Hf Hm Ho. pose proof (rd_word _ _ Hr) as HW. unfold leaves, cx_mpi_mod_sqrt.
  rewrite (bn_get_run _ _ _ _ Ha), (bn_get_run _ _ _ _ Hn).
  destruct (BN_mod_sqrt x m (openssl s)) as [[ok v] e] eqn:Es. rewrite (call_to_run r _ _ _ _ _ s Hsr Es).
  destruct ok; [|eexists _, v, e; split; [done|by left]]. apply BN_mod_sqrt_spec in Es as [Hv Hsq]; [|done]. cbn [negb].
  set (s1 := left_in r v e s). assert (num s1 r = Some v) as Hr1 by (by apply num_left).
  assert (num s1 n = Some m) as Hn1 by (unfold s1; by rewrite num_left_ne).
  assert (fits W v) as Hfv by (apply (fits_le W v m); [done|lia|done]).
  destruct (mpi_bit W r v 0 s1 (ready_left _ _ _ _ _ Hr) Hr1 Hfv ltac:(done)) as [Et _].
  pose proof (nbytes_ge W v HW). destruct (Z.leb_spec (8 * nbytes W v) 0); [lia|].
  rewrite (mbind_ret _ _ _ _ _ Et). cbv iota beta. rewrite (mlift_some _ _ _ (Z.testbit v 0)) by done.
  rewrite Z.bit0_odd. destruct (Bool.eqb (Z.odd v) (truthy sign)) eqn:Heq.
  - apply eqb_prop in Heq. exists CX_OK, v, e. split; [done|]. right. split_and!; [done|lia|lia|done|done].
  - apply eqb_false_iff in Heq. rewrite (bn_get_run _ _ _ _ Hn1), (bn_get_run _ _ _ _ Hr1).
    destruct (call_leaves r (BN_sub m v) (fun error w => (w * w) mod m = x mod m /\ 0 <= w <= m /\
      Z.odd w = truthy sign /\ error = CX_OK) s1) as (err & w & e' & E1 & H1); [done| |].
    + intros w e' Hw. apply BN_sub_spec in Hw as ->. split_and!; [|lia|lia| |done].
      * replace ((m - v) * (m - v)) with (v * v + (m - 2 * v) * m) by lia. by rewrite Z.mod_add by lia.
      * rewrite Z.odd_sub, Ho. by destruct (Z.odd v), (truthy sign).
    + exists err, w, e'. split; [|done]. rewrite E1. unfold s1. by rewrite left_left.
Qed.

(** ** Random numbers *)

(** The draws of the generator below [n] until the first one that is not 0:
    their number, the last one and the state that they leave. *)
Inductive drawn (n : Z) : E -> nat -> Z -> E -> Prop :=
  | drawn_last e v e' : BN_rand_range n e = (true, v, e') -> v <> 0 -> drawn n e 1 v e'
  | drawn_zero e e1 k v e' : BN_rand_range n e = (true, 0, e1) -> drawn n e1 k v e' -> drawn n e (S k) v e'.

Lemma drawn_range n e k v e' : 0 < n -> drawn n e k v e' -> 0 < v < n.
Proof. intros Hn. induction 1 as [e v e' Hd Hv|]; [|done]. apply BN_rand_range_spec in Hd; [lia|done]. Qed.

(** C39: the loop ends at the first draw that is not 0. *)
Theorem mpi_rng r n m k v e fuel s :
  is_Some (num s r) -> num s n = Some m -> r <> n -> 2 <= m -> drawn m (openssl s) k v e -> (k <= fuel)%nat ->
  cx_mpi_rng fuel r n s = Ret (Some CX_OK) (left_in r v e s) /\ 0 < v < m.
Proof.
  intros Hr Hn Hne Hm Hd Hk. split; [|by eapply drawn_range; [lia|]].
  unfold cx_mpi_rng. rewrite (bn_get_run _ _ _ _ Hn), BN_is_one_spec, BN_is_zero_spec.
  destruct (Z.eqb_spec m 1), (Z.eqb_spec m 0); try lia. cbn [orb].
  remember (openssl s) as e0 eqn:He0. revert s fuel Hr Hn Hk He0.
  induction Hd as [e0 v e Hd Hv|e0 e1 k v e Hd Hds IH]; intros s [|fuel] Hr Hn Hk He0; try lia; cbn [rng_loop];
    rewrite (bn_get_run _ _ _ _ Hn); subst e0; rewrite (call_to_run r _ _ _ _ _ s Hr Hd); cbn [negb];
    (erewrite bn_get_run by (by apply num_left)); rewrite BN_is_zero_spec.
  - by destruct (Z.eqb_spec v 0).
  - cbn [Z.eqb]. rewrite IH; [by rewrite left_left|by apply num_left_some|by rewrite num_left_ne|lia|done].
Qed.

(** ** The next prime *)

(** The size of any number is computed. *)
Lemma nbytes_total {B} W x (k : Z -> M (mpi_state E) B) s :
  ready W s -> is_Some (num s x) -> exists n, mbind (cx_mpi_nbytes x) k s = k n s.
Proof.
  intros [_ Hs [_ HW]] [v Hx]. unfold cx_mpi_nbytes, mbind at 1. rewrite (bn_get_run _ _ _ _ Hx).
  unfold size_to_mpi_word_bytes, mbind, mgets. rewrite Hs. set (b := size_to_mpi_bytes _).
  destruct (b =? 0); [by eexists|]. destruct (Z.eqb_spec W 0); [lia|]. by eexists.
Qed.

(** The first odd number from [k] on that the test accepts. *)
Definition first_accepted (k w : Z) : Prop :=
  k <= w /\ Z.odd w = true /\ (exists e, 0 < fst (BN_is_prime_ex w e)) /\
  (forall c, Z.odd c = true -> k <= c < w -> exists e, fst (BN_is_prime_ex c e) = 0).

Lemma first_accepted_here k e : Z.odd k = true -> 0 < fst (BN_is_prime_ex k e) -> first_accepted k k.
Proof. intros Ho Hp. split_and!; [lia|done|by exists e|]. intros c _ Hc. lia. Qed.

Lemma first_accepted_next k w e : Z.odd k = true -> fst (BN_is_prime_ex k e) = 0 -> first_accepted (k + 2) w ->
  first_accepted k w.
Proof.
  intros Ho Hp (Hle & Hw & Ha & Hr). split_and!; [lia|done|done|]. intros c Hc Hk.
  destruct (Z.eq_dec c k) as [->|Hne]; [by exists e|]. apply Hr; [done|].
  assert (c <> k + 1) by (intros ->; rewrite Z.odd_add, Ho in Hc; discriminate). lia.
Qed.

(** The numbers that are refused between two bounds. *)
Definition rejected (k n : Z) : Prop := forall c, Z.odd c = true -> k <= c < n -> exists e, fst (BN_is_prime_ex c e) = 0.

(** What a search among the odd numbers from [k] on, of [L] bytes at most,
    leaves: the first that is accepted; or, if all are refused, the first one
    that is too large; or an error, which a failure of OpenSSL explains. *)
Definition search_outcome (L k error v : Z) : Prop :=
  (error = CX_OK /\ first_accepted k v /\ v < 256 ^ L) \/
  (error = CX_OVERFLOW /\ v = 256 ^ L + 1 /\ rejected k (256 ^ L)) \/
  (error = CX_INTERNAL_ERROR /\ exists c e, Z.odd c = true /\ k <= c < 256 ^ L /\ fst (BN_is_prime_ex c e) < 0) \/
  ((error = CX_INTERNAL_ERROR \/ error = CX_OVERFLOW) /\
   exists a e, Z.odd a = true /\ k - 2 <= a < 256 ^ L /\ fst (fst (BN_add_word a 2 e)) = false).

Lemma odd_next k c : Z.odd k = true -> Z.odd c = true -> k <= c -> c = k \/ k + 2 <= c.
Proof.
  intros Ho Hc Hk. destruct (Z.eq_dec c k); [by left|right]. assert (c <> k + 1); [|lia].
  intros ->. by rewrite Z.odd_add, Ho in Hc.
Qed.

Lemma search_next L k e error v : Z.odd k = true -> fst (BN_is_prime_ex k e) = 0 -> search_outcome L (k + 2) error v ->
  search_outcome L k error v.
Proof.
  intros Ho Hp [(? & Hf & ?)|[(? & ? & Hr)|[(? & c & e' & Hc & Hk & He)|(? & a & e' & Ha & Hk & He)]]].
  - left. split; [done|]. split; [by apply (first_accepted_next _ _ e)|done].
  - right; left. split; [done|]. split; [done|]. intros c Hc Hk. destruct (odd_next k c Ho Hc) as [->|]; [lia|by exists e|]. apply Hr; [done|lia].
  - right; right; left. split; [done|]. exists c, e'. split_and!; done || lia.
  - right; right; right. split; [done|]. exists a, e'. split_and!; done || lia.
Qed.

(** The first odd number that is too large. *)
Lemma search_over L v : Z.odd v = true -> 0 < L -> v < 256 ^ L -> 256 ^ L <= v + 2 -> search_outcome L (v + 2) CX_OVERFLOW (v + 2).
Proof.
  intros Ho HL H1 H2. right; left. split; [done|]. split; [|intros c _ Hc; lia].
  assert (Z.odd (256 ^ L) = false) as Hodd by (rewrite <- Z.negb_even, Z.even_pow by lia; done).
  assert (v + 2 <> 256 ^ L) by (intros Heq; rewrite <- Heq, Z.odd_add, Ho in Hodd; discriminate). lia.
Qed.

Lemma next_prime_loop_ends W x L v s : ready W s -> num s x = Some v -> Z.odd v = true ->
  0 <= v -> W <= L <= MAX_MPI_BYTE_SIZE -> L mod W = 0 -> v < 256 ^ L ->
  exists fuel error w e, next_prime_loop fuel x L s = Ret (Some error) (left_in x w e s) /\ search_outcome L (v + 2) error w.
Proof.
  intros Hr Hx Ho Hv HL HLW Hlt. remember (Z.to_nat (256 ^ L - v)) as d eqn:Hd.
  revert v s Hr Hx Ho Hv Hlt Hd. induction d as [d IH] using lt_wf_ind; intros v s Hr Hx Ho Hv Hlt Hd.
  pose proof (rd_word _ _ Hr) as HW. assert (16 <= W) as HW16 by (destruct HW; lia). unfold MAX_MPI_BYTE_SIZE in HL.
  destruct (BN_add_word v 2 (openssl s)) as [[ok w] e] eqn:Ea.
  set (s1 := left_in x w e s). assert (ready W s1) as Hr1 by (by apply ready_left).
  assert (num s1 x = Some w) as Hx1 by (by apply num_left).
  assert (forall fuel, next_prime_loop (S fuel) x L s = mbind (cx_mpi_nbytes x) (fun size =>
    if negb ok || (L <? size) then mret (Some (if L <? size then CX_OVERFLOW else CX_INTERNAL_ERROR))
    else let! n := bn_get x in let! is_prime := call (BN_is_prime_ex n) in
      if is_prime <? 0 then mret (Some CX_INTERNAL_ERROR)
      else if is_prime =? 0 then next_prime_loop fuel x L else mret (Some CX_OK)) s1) as Hstep.
  { intros fuel. cbn [next_prime_loop]. by rewrite (bn_get_run _ _ _ _ Hx), (call_to_run x _ _ _ _ _ s ltac:(done) Ea). }
  destruct ok.
  - apply BN_add_word_spec in Ea as ->. cbn [negb orb] in Hstep.
    assert (num_bytes (v + 2) <= 2 ^ 20) as Hnb.
    { apply Z.le_trans with (L + 1); [|lia]. apply num_bytes_le; [lia|lia|]. rewrite Z.pow_add_r by lia. lia. }
    set (size := nbytes W (v + 2)). fold s1 in Hstep.
    assert (forall fuel, next_prime_loop (S fuel) x L s = _) as Hstep'
      by (intros fuel; rewrite Hstep, (nbytes_run W x (v + 2)) by done; fold size; reflexivity). clear Hstep.
    destruct (Z.ltb_spec L size) as [Hbig|Hsmall].
    + exists 1%nat, CX_OVERFLOW, (v + 2), e. rewrite Hstep'. split; [done|]. apply search_over; [done|lia|lia|].
      apply Z.nlt_ge. intros Hlt2. pose proof (nbytes_le W (v + 2) L HW ltac:(lia) ltac:(lia) HLW) as Hle. fold size in Hle. lia.
    + assert (v + 2 < 256 ^ L) as Hlt2.
      { apply Z.lt_le_trans with (256 ^ size); [apply nbytes_pow; [done|lia]|]. apply Z.pow_le_mono_r; lia. }
      assert (Z.odd (v + 2) = true) as Ho2 by (rewrite Z.odd_add; by rewrite Ho).
      destruct (BN_is_prime_ex (v + 2) (openssl s1)) as [p e'] eqn:Ep.
      set (s2 := set_openssl e' s1). assert (s2 = left_in x (v + 2) e' s) as Hs2 by (by destruct s).
      assert (forall fuel, next_prime_loop (S fuel) x L s =
        (if p <? 0 then mret (Some CX_INTERNAL_ERROR)
         else if p =? 0 then next_prime_loop fuel x L else mret (Some CX_OK)) s2) as Hgo.
      { intros fuel. rewrite Hstep', (bn_get_run _ _ _ _ Hx1). unfold mbind at 1, call at 1. by rewrite Ep. }
      destruct (Z.ltb_spec p 0) as [|Hp0].
      { exists 1%nat, CX_INTERNAL_ERROR, (v + 2), e'. rewrite Hgo, <- Hs2. split; [done|]. right; right; left. split; [done|].
        exists (v + 2), (openssl s1). rewrite Ep. split_and!; done || lia. }
      destruct (Z.eqb_spec p 0) as [Hp|Hp].
      * destruct (IH (Z.to_nat (256 ^ L - (v + 2))) ltac:(lia) (v + 2) s2) as (fuel & error & w & e2 & E2 & H2); try done.
        { rewrite Hs2. by apply ready_left. }
        { lia. }
        exists (S fuel), error, w, e2. rewrite Hgo, E2, Hs2, left_left. split; [done|].
        apply (search_next _ _ (openssl s1)); [done| |done]. rewrite Ep. cbn. lia.
      * exists 1%nat, CX_OK, (v + 2), e'. rewrite Hgo, <- Hs2. split; [done|]. left. split; [done|]. split; [|lia].
        apply (first_accepted_here _ (openssl s1)); [done|]. rewrite Ep. cbn. lia.
  - cbn [negb orb] in Hstep. destruct (nbytes_total W x (fun size =>
      mret (Some (if L <? size then CX_OVERFLOW else CX_INTERNAL_ERROR))) s1 Hr1 ltac:(done)) as [size Hsize].
    exists 1%nat, (if L <? size then CX_OVERFLOW else CX_INTERNAL_ERROR), w, e. rewrite Hstep, Hsize. split; [done|].
    right; right; right. split; [destruct (L <? size); auto|]. exists v, (openssl s). rewrite Ea. split_and!; done || lia.
Qed.

(** C12: the search ends, with the first odd number that the test of OpenSSL
    accepts, from the successor of the successor of the number (of its own
    successor when it is even, which is never tried: the next prime of 4 is 7),
    when there is one of the size of the number; with [CX_OVERFLOW] behind the
    last number of that size when the test refuses them all; and with another
    outcome only if a call of OpenSSL fails. *)
Theorem mpi_next_prime W x m s : ready W s -> num s x = Some m -> 0 <= m -> nbytes W (m + 1) <= MAX_MPI_BYTE_SIZE ->
  let start := if Z.odd m then m else m + 1 in
  exists fuel error v e, cx_mpi_next_prime fuel x s = Ret (Some error) (left_in x v e s) /\
    (search_outcome (nbytes W start) (start + 2) error v \/
     (error = CX_INTERNAL_ERROR /\ Z.odd m = false /\ fst (fst (BN_add_word m 1 (openssl s))) = false)).
Proof.
  intros Hr Hx Hm Hf start. pose proof (rd_word _ _ Hr) as HW.
  assert (forall k s', num s' x = Some k -> ready W s' -> (k = m \/ k = m + 1) -> Z.odd k = true ->
    exists fuel error v e, (let! x_size := cx_mpi_nbytes x in next_prime_loop fuel x x_size) s'
      = Ret (Some error) (left_in x v e s') /\ search_outcome (nbytes W k) (k + 2) error v) as Hloop.
  { intros k s' Hk Hr' Hkm Ho. assert (fits W k) as Hfk.
    { split; [lia|]. pose proof (nbytes_mono W k (m + 1) HW ltac:(lia)). lia. }
    pose proof (nbytes_ge W k HW). destruct (nbytes_bounds W k HW) as (_ & _ & _ & Hmod & _). destruct Hfk as [? Hle] eqn:Hfe. clear Hfe.
    destruct (next_prime_loop_ends W x (nbytes W k) k s' Hr' Hk Ho) as (fuel & error & v & e & E1 & H1);
      [lia|unfold MAX_MPI_BYTE_SIZE in *; lia|done|by apply nbytes_pow|].
    exists fuel, error, v, e. by rewrite (fits_run W x k) by done. }
  assert (forall fuel, cx_mpi_next_prime fuel x s = (let! ok := (if Z.odd m then mret true
    else let! n := bn_get x in call_to x (BN_add_word n 1)) in if negb ok then mret (Some CX_INTERNAL_ERROR)
    else let! x_size := cx_mpi_nbytes x in next_prime_loop fuel x x_size) s) as Hstart.
  { intros fuel. unfold cx_mpi_next_prime, cx_mpi_is_odd. unfold mbind at 1. unfold mbind at 2.
    rewrite (bn_get_run _ _ _ _ Hx). unfold mret at 1. by rewrite BN_is_odd_spec. }
  unfold start. destruct (Z.odd m) eqn:Ho.
  - destruct (Hloop m s Hx Hr ltac:(by left) Ho) as (fuel & error & v & e & E1 & H1).
    exists fuel, error, v, e. rewrite Hstart. split; [exact E1|by left].
  - destruct (BN_add_word m 1 (openssl s)) as [[ok v] e] eqn:Ea. set (s1 := left_in x v e s).
    assert (forall fuel, cx_mpi_next_prime fuel x s = (if negb ok then mret (Some CX_INTERNAL_ERROR)
      else let! x_size := cx_mpi_nbytes x in next_prime_loop fuel x x_size) s1) as Hstart'.
    { intros fuel. rewrite Hstart. unfold mbind at 1. rewrite (bn_get_run _ _ _ _ Hx).
      pose proof (call_to_run x _ _ _ _ (fun ok => mret ok) s ltac:(done) Ea) as Hc. unfold mbind, mret in Hc.
      destruct (call_to x (BN_add_word m 1) s) as [b s'| |]; [injection Hc as -> ->|done..]. done. }
    destruct ok.
    + apply BN_add_word_spec in Ea as ->.
      destruct (Hloop (m + 1) s1) as (fuel & error & v & e' & E1 & H1); [by apply num_left|by apply ready_left|by right| |].
      { rewrite Z.odd_add, Ho. done. }
      exists fuel, error, v, e'. rewrite Hstart'. cbn [negb]. rewrite E1. unfold s1. rewrite left_left. split; [done|by left].
    + exists 0%nat, CX_INTERNAL_ERROR, v, e. rewrite Hstart'. split; [done|]. by right.
Qed.
End arithmetic.

(** * Instances *)

Import Integers.

(** A context of words of 16 bytes, locked, that holds numbers of one word. *)
Definition holding (l : list Z) (e : env) : mpi_state env :=
  mk_mpi_state true (map (fun n => mk_mpi (Some n) 16) l ++ replicate (64 - length l) (mk_mpi None 0))
    (zlen l) 16 (16 * zlen l) e.

Lemma holding_ready l e : ready 16 (holding l e).
Proof. by split. Qed.

Lemma value_small n : 0 <= n < 256 ^ 16 -> value_ok n.
Proof. intros H. split; [lia|]. apply num_bytes_le; [lia|done|]. apply Z.lt_trans with (256 ^ 16); [lia|done]. Qed.

Lemma word_16 : word_ok 16.
Proof. done. Qed.

Lemma fits_16 n : 0 <= n < 256 ^ 16 -> fits 16 n.
Proof. intros H. split; [lia|]. pose proof (nbytes_le 16 n 16 word_16 H ltac:(lia) ltac:(done)). by unfold MAX_MPI_BYTE_SIZE; lia. Qed.
#[export] Hint Resolve holding_ready value_small fits_16 word_16 : mpi.

(** The sum of two numbers of 16 bytes that does not fit, in a third one. *)
Lemma mpi_add_witness :
  let L := Z.max (nbytes 16 (256 ^ 16 - 1)) (nbytes 16 2) in
  leaves (cx_mpi_add 2 0 1) 2
    (fun error v => v = (256 ^ 16 - 1 + 2) mod 256 ^ L /\ error = if 256 ^ 16 - 1 + 2 <? 256 ^ L then CX_OK else CX_CARRY)
    (holding [256 ^ 16 - 1; 2; 0] []).
Proof. apply mpi_add; try done; auto with mpi; by apply value_small. Defined.

(** The same sum in place keeps its seventeenth byte. *)
Lemma mpi_add_in_place_witness :
  leaves (cx_mpi_add 0 0 1) 0 (fun error v => v = 256 ^ 16 - 1 + 2 /\ error = CX_OK) (holding [256 ^ 16 - 1; 2] []).
Proof. apply (mpi_add_in_place 16); try done; auto with mpi; by apply value_small. Defined.

Lemma mpi_sub_witness :
  leaves (cx_mpi_sub 2 0 1) 2 (fun error v =>
    if 7 <=? 5 then v = 5 - 7 /\ error = CX_OK else v = 256 ^ nbytes 16 (7 - 5) - (7 - 5) /\ error = CX_CARRY)
    (holding [5; 7; 0] []).
Proof. apply (mpi_sub 16); try done; by apply fits_16. Defined.

Lemma mpi_bits_witness :
  leaves (cx_mpi_xor 2 0 1) 2 (fun error v => v = Z.lxor 300 7 /\ error = CX_OK) (holding [300; 7; 0] []) /\
  leaves (cx_mpi_or 2 0 1) 2 (fun error v => v = Z.lor 300 7 /\ error = CX_OK) (holding [300; 7; 0] []) /\
  leaves (cx_mpi_and 2 0 1) 2 (fun error v => v = Z.land 300 7 /\ error = CX_OK) (holding [300; 7; 0] []).
Proof. apply (mpi_bits 16); try done; by apply fits_16. Defined.

Lemma mpi_cmp_witness :
  cx_mpi_cmp 0 1 (holding [256 ^ 16; 1] []) =
    Ret (if nbytes 16 (256 ^ 16) =? nbytes 16 1 then sign_of (256 ^ 16) 1 else -1) (holding [256 ^ 16; 1] []).
Proof. apply mpi_cmp; try done. Defined.

Lemma mpi_rng_witness :
  cx_mpi_rng 2 1 0 (holding [10; 0] [20; 33]) = Ret (Some CX_OK) (left_in 1 3 [] (holding [10; 0] [20; 33])) /\ 0 < 3 < 10.
Proof.
  apply (mpi_rng 1 0 10 2 3 []); try done. apply (drawn_zero _ _ [33]); [done|]. by apply drawn_last.
Defined.

(** From 4, in the integers, whose calls do not fail. *)
Lemma mpi_next_prime_witness : exists fuel error v e,
  cx_mpi_next_prime fuel 0 (holding [4] []) = Ret (Some error) (left_in 0 v e (holding [4] [])) /\
  (search_outcome (nbytes 16 5) 7 error v \/
   (error = CX_INTERNAL_ERROR /\ Z.odd 4 = false /\ fst (fst (BN_add_word 4 1 (openssl (holding [4] [])))) = false)).
Proof. apply (mpi_next_prime 16 0 4); by vm_compute. Defined.
