(* ===== verification/CxBn.v ===== *)
(** The system calls on big numbers: [src/bolos/cx_bn.c]. An application locks a
    context, gets handles to numbers, and computes with the operations of
    CxMpi.v on the numbers of its handles. The theorems follow the memory of
    the context through any sequence of calls. *)

From S2P Require Import Prelude CxUtils OpensslBn BeBytes CxMpi.

(** * Operations *)

Section bn.
Context {E : Type} `{!OpensslBn E}.

Local Abbreviation P := (M (mpi_state E)).

(** [CX_CHECK] of a conversion of handles, then the operation on the numbers. *)
Definition with_mpi {X} (m : P (Z * X)) (k : X -> P Z) : P Z :=
  let! (error, x) := m in if truthy error then mret error else k x.

(** The same for an operation with an output, which an error leaves as it is. *)
Definition with_mpi_out {X A} (m : P (Z * X)) (k : X -> P (Z * option A)) : P (Z * option A) :=
  let! (error, x) := m in if truthy error then mret (error, None) else k x.

Definition sys_cx_bn_is_locked : P bool := mgets local_bn_ctx.
Definition sys_cx_bn_is_unlocked : P bool := let! l := mgets local_bn_ctx in mret (negb l).

Definition sys_cx_bn_lock (word_size flags : Z) : P Z := check cx_bn_unlocked (cx_mpi_lock word_size flags).
Definition sys_cx_bn_unlock : P Z := check cx_bn_locked cx_mpi_unlock.

(** The error and the handle. *)
Definition sys_cx_bn_alloc (size : Z) : P (Z * option Z) :=
  let! error := cx_bn_locked in
  if truthy error then mret (error, None)
  else
    let! (x, bn_x) := cx_mpi_alloc size in
    mret (match x with None => CX_MEMORY_FULL | Some _ => CX_OK end, Some bn_x).

Definition sys_cx_bn_destroy (bn_x : option Z) : P Z := cx_mpi_destroy bn_x.

Definition sys_cx_bn_init (bn_x : Z) (bytes : list Z) (nbytes : Z) : P Z :=
  with_mpi (cx_bn_to_mpi bn_x) (fun x => cx_mpi_init x bytes nbytes).

Definition sys_cx_bn_alloc_init (size : Z) (bytes : list Z) (nbytes : Z) : P (Z * option Z) :=
  let! (error, bn_x) := sys_cx_bn_alloc size in
  if truthy error then mret (error, bn_x)
  else
    let! x := mlift bn_x in
    let! error := sys_cx_bn_init x bytes nbytes in
    mret (error, Some x).

(** The error and the output. *)
Definition sys_cx_bn_export (bn_x : Z) (bytes : list Z) (nbytes : Z) : P (Z * list Z) :=
  let! (error, x) := cx_bn_to_mpi bn_x in
  if truthy error then mret (error, bytes) else cx_mpi_export x bytes nbytes.

Definition sys_cx_bn_copy (bn_a bn_b : Z) : P Z :=
  if bn_a =? bn_b then mret CX_OK
  else with_mpi (cx_bn_ab_to_mpi bn_a bn_b) (fun '(a, b) => cx_mpi_copy a b).

Definition sys_cx_bn_nbytes (bn_x : Z) (nbytes : bool) : P (Z * option Z) :=
  let! error := cx_bn_locked in
  if truthy error then mret (error, None) else cx_mpi_bytes bn_x nbytes.

Definition sys_cx_bn_set_u32 (bn_x n : Z) : P Z :=
  with_mpi (cx_bn_to_mpi bn_x) (fun x => do! cx_mpi_set_u32 x n in mret CX_OK).

Definition sys_cx_bn_get_u32 (bn_x : Z) : P (Z * option Z) :=
  with_mpi_out (cx_bn_to_mpi bn_x) (fun x => let! n := cx_mpi_get_u32 x in mret (CX_OK, Some n)).

Definition sys_cx_bn_cmp_u32 (bn_a b : Z) : P (Z * option Z) :=
  with_mpi_out (cx_bn_to_mpi bn_a) (fun a => let! d := cx_mpi_cmp_u32 a b in mret (CX_OK, Some d)).

Definition sys_cx_bn_cmp (bn_a bn_b : Z) : P (Z * option Z) :=
  with_mpi_out (cx_bn_ab_to_mpi bn_a bn_b) (fun '(a, b) => let! d := cx_mpi_cmp a b in mret (CX_OK, Some d)).

Definition sys_cx_bn_rand (bn_x : Z) : P Z := with_mpi (cx_bn_to_mpi bn_x) cx_mpi_rand.

Definition sys_cx_bn_rng (fuel : nat) (bn_r bn_n : Z) : P (option Z) :=
  let! (error, (r, n)) := cx_bn_ab_to_mpi bn_r bn_n in
  if truthy error then mret (Some error) else cx_mpi_rng fuel r n.

Definition sys_cx_bn_tst_bit (bn_x pos : Z) : P (Z * option bool) :=
  with_mpi_out (cx_bn_to_mpi bn_x) (fun x => cx_mpi_tst_bit x pos).

Definition sys_cx_bn_set_bit (bn_x pos : Z) : P Z := with_mpi (cx_bn_to_mpi bn_x) (fun x => cx_mpi_set_bit x pos).
Definition sys_cx_bn_clr_bit (bn_x pos : Z) : P Z := with_mpi (cx_bn_to_mpi bn_x) (fun x => cx_mpi_clr_bit x pos).

Definition sys_cx_bn_cnt_bits (bn_x : Z) : P (Z * option Z) :=
  with_mpi_out (cx_bn_to_mpi bn_x) (fun x => let! n := cx_mpi_cnt_bits x in mret (CX_OK, Some n)).

Definition sys_cx_bn_shr (bn_r n : Z) : P Z := with_mpi (cx_bn_to_mpi bn_r) (fun r => cx_mpi_shr r n).
Definition sys_cx_bn_shl (bn_r n : Z) : P Z := with_mpi (cx_bn_to_mpi bn_r) (fun r => cx_mpi_shl r n).

Definition sys_cx_bn_xor (bn_r bn_a bn_b : Z) : P Z :=
  with_mpi (cx_bn_rab_to_mpi bn_r bn_a bn_b) (fun '(r, a, b) => cx_mpi_xor r a b).
Definition sys_cx_bn_or (bn_r bn_a bn_b : Z) : P Z :=
  with_mpi (cx_bn_rab_to_mpi bn_r bn_a bn_b) (fun '(r, a, b) => cx_mpi_or r a b).
Definition sys_cx_bn_and (bn_r bn_a bn_b : Z) : P Z :=
  with_mpi (cx_bn_rab_to_mpi bn_r bn_a bn_b) (fun '(r, a, b) => cx_mpi_and r a b).
Definition sys_cx_bn_add (bn_r bn_a bn_b : Z) : P Z :=
  with_mpi (cx_bn_rab_to_mpi bn_r bn_a bn_b) (fun '(r, a, b) => cx_mpi_add r a b).
Definition sys_cx_bn_sub (bn_r bn_a bn_b : Z) : P Z :=
  with_mpi (cx_bn_rab_to_mpi bn_r bn_a bn_b) (fun '(r, a, b) => cx_mpi_sub r a b).
Definition sys_cx_bn_mul (bn_r bn_a bn_b : Z) : P Z :=
  with_mpi (cx_bn_rab_to_mpi bn_r bn_a bn_b) (fun '(r, a, b) => cx_mpi_mul r a b).

Definition sys_cx_bn_mod_add (bn_r bn_a bn_b bn_m : Z) : P Z :=
  with_mpi (cx_bn_rabm_to_mpi bn_r bn_a bn_b bn_m) (fun '(r, a, b, m) => cx_mpi_mod_add r a b m).
Definition sys_cx_bn_mod_sub (bn_r bn_a bn_b bn_m : Z) : P Z :=
  with_mpi (cx_bn_rabm_to_mpi bn_r bn_a bn_b bn_m) (fun '(r, a, b, m) => cx_mpi_mod_sub r a b m).
Definition sys_cx_bn_mod_mul (bn_r bn_a bn_b bn_m : Z) : P Z :=
  with_mpi (cx_bn_rabm_to_mpi bn_r bn_a bn_b bn_m) (fun '(r, a, b, m) => cx_mpi_mod_mul r a b m).

Definition sys_cx_bn_reduce (bn_r bn_d bn_n : Z) : P Z :=
  with_mpi (cx_bn_rab_to_mpi bn_r bn_d bn_n) (fun '(r, d, n) => cx_mpi_rem r d n).
Definition sys_cx_bn_mod_sqrt (bn_r bn_a bn_n sign : Z) : P Z :=
  with_mpi (cx_bn_rab_to_mpi bn_r bn_a bn_n) (fun '(r, a, n) => cx_mpi_mod_sqrt r a n sign).

Definition sys_cx_bn_is_odd (bn_a : Z) : P (Z * option bool) :=
  with_mpi_out (cx_bn_to_mpi bn_a) (fun a => let! b := cx_mpi_is_odd a in mret (CX_OK, Some b)).

Definition sys_cx_bn_mod_invert_nprime (bn_r bn_a bn_n : Z) : P Z :=
  with_mpi (cx_bn_rab_to_mpi bn_r bn_a bn_n) (fun '(r, a, n) => cx_mpi_mod_invert_nprime r a n).
Definition sys_cx_bn_mod_u32_invert (bn_r e bn_n : Z) : P Z :=
  with_mpi (cx_bn_ab_to_mpi bn_r bn_n) (fun '(r, n) => cx_mpi_mod_u32_invert r e n).

Definition sys_cx_bn_mod_pow (bn_r bn_a : Z) (bytes_e : list Z) (len_e bn_n : Z) : P Z :=
  let! size := cx_get_bn_size in
  let! (error, bn_e) := sys_cx_bn_alloc_init size bytes_e len_e in
  if truthy error then mret error
  else
    let! bn_e := mlift bn_e in
    with_mpi (cx_bn_rabm_to_mpi bn_r bn_a bn_e bn_n) (fun '(r, a, e, n) => cx_mpi_mod_pow r a e n).

Definition sys_cx_bn_mod_pow_bn (bn_r bn_a bn_e bn_n : Z) : P Z :=
  with_mpi (cx_bn_rabm_to_mpi bn_r bn_a bn_e bn_n) (fun '(r, a, e, n) => cx_mpi_mod_pow r a e n).

Definition sys_cx_bn_mod_pow2 (bn_r bn_a : Z) (bytes_e : list Z) (len_e bn_n : Z) : P Z :=
  sys_cx_bn_mod_pow bn_r bn_a bytes_e len_e bn_n.

Definition sys_cx_bn_is_prime (bn_x : Z) : P (Z * option bool) :=
  with_mpi_out (cx_bn_to_mpi bn_x) (fun x => let! (error, p) := cx_mpi_is_prime x in mret (error, Some p)).

Definition sys_cx_bn_next_prime (fuel : nat) (bn_x : Z) : P (option Z) :=
  let! (error, x) := cx_bn_to_mpi bn_x in
  if truthy error then mret (Some error) else cx_mpi_next_prime fuel x.

Definition sys_cx_bn_gf2_n_mul (bn_r bn_a bn_b bn_n bn_h : Z) : P Z :=
  with_mpi (cx_bn_rab_to_mpi bn_r bn_a bn_b) (fun '(r, a, b) =>
    with_mpi (cx_bn_ab_to_mpi bn_n bn_h) (fun '(n, h) => cx_mpi_gf2_n_mul r a b n h)).
End bn.

(** * The memory of a context *)

(** What the slots hold: the size of each number, in the words of the context
    when one is locked. *)
Record heap := mk_heap { word : option Z; held : list (option Z) }.

Definition held_size (o : option Z) : Z := match o with Some n => n | None => 0 end.
Definition used (l : list (option Z)) : Z := foldr (fun o n => held_size o + n) 0 l.

Definition heap0 : heap := mk_heap None (replicate 64 None).

(** A size in whole words, and one word for 0. *)
Definition round_to (W size : Z) : Z := if size =? 0 then W else (size + (W - 1)) / W * W.

Fixpoint first_free (l : list (option Z)) : option nat :=
  match l with
  | [] => None
  | None :: _ => Some O
  | Some _ :: l => S <$> first_free l
  end.

(** The calls of the interface. *)
Inductive bn_call :=
  | bn_is_locked
  | bn_is_unlocked
  | bn_lock (word_size flags : Z)
  | bn_unlock
  | bn_alloc (size : Z)
  | bn_destroy (x : option Z)
  | bn_init (x : Z) (bytes : list Z) (nbytes : Z)
  | bn_alloc_init (size : Z) (bytes : list Z) (nbytes : Z)
  | bn_export (x : Z) (dst : list Z) (nbytes : Z)
  | bn_copy (a b : Z)
  | bn_nbytes (x : Z) (nbytes : bool)
  | bn_set_u32 (x n : Z)
  | bn_get_u32 (x : Z)
  | bn_cmp_u32 (a b : Z)
  | bn_cmp (a b : Z)
  | bn_rand (x : Z)
  | bn_rng (r n : Z)
  | bn_tst_bit (x pos : Z)
  | bn_set_bit (x pos : Z)
  | bn_clr_bit (x pos : Z)
  | bn_cnt_bits (x : Z)
  | bn_shr (r n : Z)
  | bn_shl (r n : Z)
  | bn_xor (r a b : Z)
  | bn_or (r a b : Z)
  | bn_and (r a b : Z)
  | bn_add (r a b : Z)
  | bn_sub (r a b : Z)
  | bn_mul (r a b : Z)
  | bn_mod_add (r a b m : Z)
  | bn_mod_sub (r a b m : Z)
  | bn_mod_mul (r a b m : Z)
  | bn_reduce (r d n : Z)
  | bn_mod_sqrt (r a n sign : Z)
  | bn_is_odd (a : Z)
  | bn_mod_invert_nprime (r a n : Z)
  | bn_mod_u32_invert (r e n : Z)
  | bn_mod_pow (r a : Z) (e : list Z) (len : Z) (n : Z)
  | bn_mod_pow_bn (r a e n : Z)
  | bn_mod_pow2 (r a : Z) (e : list Z) (len : Z) (n : Z)
  | bn_is_prime (x : Z)
  | bn_next_prime (x : Z)
  | bn_gf2_n_mul (r a b n h : Z).

(** What the calls on the memory return, the error and the handle, and what
    every call makes of the memory; [mem] tells whether OpenSSL had some. *)
Definition alloc_spec (mem : bool) (size : Z) (h : heap) : Z * option Z * heap :=
  match word h with
  | None => (CX_NOT_LOCKED, None, h)
  | Some W =>
      let n := round_to W size in
      match first_free (held h) with
      | Some i =>
          if mem && (n + used (held h) <=? MAX_MPI_BYTE_SIZE)
          then (CX_OK, Some (Z.of_nat i), mk_heap (Some W) (<[i := Some n]> (held h)))
          else (CX_MEMORY_FULL, Some bn_none, h)
      | None => (CX_MEMORY_FULL, Some bn_none, h)
      end
  end.

Definition free_spec (x : option Z) (h : heap) : Z * option Z * heap :=
  (CX_OK, None,
   match x with
   | Some i => if in_array i then mk_heap (word h) (<[Z.to_nat i := None]> (held h)) else h
   | None => h
   end).

Definition mod_pow_spec (mem : bool) (h : heap) : heap :=
  match word h with None => h | Some W => snd (alloc_spec mem W h) end.

Definition bn_spec (mem : bool) (c : bn_call) (h : heap) : option (Z * option Z) * heap :=
  match c with
  | bn_lock word_size _ =>
      match word h with
      | Some _ => (Some (CX_NOT_UNLOCKED, None), h)
      | None =>
          if mem then (Some (CX_OK, None), mk_heap (Some (size_to_mpi_bytes word_size)) (held h))
          else (Some (CX_INTERNAL_ERROR, None), h)
      end
  | bn_unlock => (Some (match word h with None => CX_NOT_LOCKED | Some _ => CX_OK end, None), heap0)
  | bn_alloc size => let '(e, x, h) := alloc_spec mem size h in (Some (e, x), h)
  | bn_destroy x => let '(e, x, h) := free_spec x h in (Some (e, x), h)
  | bn_alloc_init size _ _ => (None, snd (alloc_spec mem size h))
  | bn_mod_pow _ _ _ _ _ | bn_mod_pow2 _ _ _ _ _ => (None, mod_pow_spec mem h)
  | _ => (None, h)
  end.

Section exec.
Context {E : Type} `{!OpensslBn E}.

Local Abbreviation P := (M (mpi_state E)).

(** A call, by its error and the handle that it writes; [None] when its loop
    has not ended within [fuel] steps. *)
Definition error_of (m : P Z) : P (option (Z * option Z)) := let! e := m in mret (Some (e, None)).
Definition output_of {A} (m : P (Z * A)) : P (option (Z * option Z)) := let! (e, _) := m in mret (Some (e, None)).
Definition handle_of (m : P (Z * option Z)) : P (option (Z * option Z)) := let! r := m in mret (Some r).
Definition loop_of (m : P (option Z)) : P (option (Z * option Z)) :=
  let! e := m in mret ((fun e => (e, None)) <$> e).
Definition test_of (m : P bool) : P (option (Z * option Z)) := let! _ := m in mret (Some (CX_OK, None)).

Definition bn_exec (fuel : nat) (c : bn_call) : P (option (Z * option Z)) :=
  match c with
  | bn_is_locked => test_of sys_cx_bn_is_locked
  | bn_is_unlocked => test_of sys_cx_bn_is_unlocked
  | bn_lock word_size flags => error_of (sys_cx_bn_lock word_size flags)
  | bn_unlock => error_of sys_cx_bn_unlock
  | bn_alloc size => handle_of (sys_cx_bn_alloc size)
  | bn_destroy x => error_of (sys_cx_bn_destroy x)
  | bn_init x bytes nbytes => error_of (sys_cx_bn_init x bytes nbytes)
  | bn_alloc_init size bytes nbytes => handle_of (sys_cx_bn_alloc_init size bytes nbytes)
  | bn_export x dst nbytes => output_of (sys_cx_bn_export x dst nbytes)
  | bn_copy a b => error_of (sys_cx_bn_copy a b)
  | bn_nbytes x nbytes => output_of (sys_cx_bn_nbytes x nbytes)
  | bn_set_u32 x n => error_of (sys_cx_bn_set_u32 x n)
  | bn_get_u32 x => output_of (sys_cx_bn_get_u32 x)
  | bn_cmp_u32 a b => output_of (sys_cx_bn_cmp_u32 a b)
  | bn_cmp a b => output_of (sys_cx_bn_cmp a b)
  | bn_rand x => error_of (sys_cx_bn_rand x)
  | bn_rng r n => loop_of (sys_cx_bn_rng fuel r n)
  | bn_tst_bit x pos => output_of (sys_cx_bn_tst_bit x pos)
  | bn_set_bit x pos => error_of (sys_cx_bn_set_bit x pos)
  | bn_clr_bit x pos => error_of (sys_cx_bn_clr_bit x pos)
  | bn_cnt_bits x => output_of (sys_cx_bn_cnt_bits x)
  | bn_shr r n => error_of (sys_cx_bn_shr r n)
  | bn_shl r n => error_of (sys_cx_bn_shl r n)
  | bn_xor r a b => error_of (sys_cx_bn_xor r a b)
  | bn_or r a b => error_of (sys_cx_bn_or r a b)
  | bn_and r a b => error_of (sys_cx_bn_and r a b)
  | bn_add r a b => error_of (sys_cx_bn_add r a b)
  | bn_sub r a b => error_of (sys_cx_bn_sub r a b)
  | bn_mul r a b => error_of (sys_cx_bn_mul r a b)
  | bn_mod_add r a b m => error_of (sys_cx_bn_mod_add r a b m)
  | bn_mod_sub r a b m => error_of (sys_cx_bn_mod_sub r a b m)
  | bn_mod_mul r a b m => error_of (sys_cx_bn_mod_mul r a b m)
  | bn_reduce r d n => error_of (sys_cx_bn_reduce r d n)
  | bn_mod_sqrt r a n sign => error_of (sys_cx_bn_mod_sqrt r a n sign)
  | bn_is_odd a => output_of (sys_cx_bn_is_odd a)
  | bn_mod_invert_nprime r a n => error_of (sys_cx_bn_mod_invert_nprime r a n)
  | bn_mod_u32_invert r e n => error_of (sys_cx_bn_mod_u32_invert r e n)
  | bn_mod_pow r a e len n => error_of (sys_cx_bn_mod_pow r a e len n)
  | bn_mod_pow_bn r a e n => error_of (sys_cx_bn_mod_pow_bn r a e n)
  | bn_mod_pow2 r a e len n => error_of (sys_cx_bn_mod_pow2 r a e len n)
  | bn_is_prime x => output_of (sys_cx_bn_is_prime x)
  | bn_next_prime x => loop_of (sys_cx_bn_next_prime fuel x)
  | bn_gf2_n_mul r a b n h => error_of (sys_cx_bn_gf2_n_mul r a b n h)
  end.

(** Whether OpenSSL has memory for the context or the number of a call. *)
Definition bn_memory (c : bn_call) (s : mpi_state E) : bool :=
  match c with
  | bn_lock _ _ => fst (BN_CTX_new (openssl s))
  | _ => fst (BN_new (openssl s))
  end.
End exec.

(** * Proofs *)

(** ** The books of a context *)

Definition held_of (l : list cx_mpi) : list (option Z) := (fun c => (fun _ => size c) <$> mpi c) <$> l.
Arguments held_of : simpl never.

Record books := mk_books {
  bk_lock : bool; bk_held : list (option Z); bk_words : Z; bk_word : Z; bk_total : Z }.

Section keeping.
Context {E : Type} `{!OpensslBn E}.
Implicit Types s : mpi_state E.

Definition books_of s : books :=
  mk_books (local_bn_ctx s) (held_of (cx_mpi_array s)) (mpi_words_count s) (mpi_word_size s) (mpi_total_memory s).

(** An operation on the numbers, which leaves the books as they are. *)
Local Abbreviation quiet m := (forall b, keeps (fun s => books_of s = b) m).

Lemma quiet_call {A} (f : E -> A * E) : quiet (call f).
Proof. intros b s Hs. unfold call. destruct (f (openssl s)). done. Qed.

Lemma held_of_set l x n c v : l !! x = Some c -> mpi c = Some v ->
  held_of (<[x := mk_mpi (Some n) (size c)]> l) = held_of l.
Proof.
  intros Hx Hv. unfold held_of. rewrite list_fmap_insert. apply list_insert_id.
  rewrite list_lookup_fmap, Hx. cbn. by rewrite Hv.
Qed.

Lemma quiet_bn_set x n : quiet (bn_set x n).
Proof.
  intros b s Hs. unfold bn_set, mbind, mgets, mlift, mmodify.
  destruct (cx_mpi_array s !! x) as [c|] eqn:Hx; [|done]. destruct (mpi c) as [v|] eqn:Hc; [|done].
  rewrite <- Hs. unfold books_of. cbn. f_equal. by apply held_of_set with v.
Qed.

#[local] Hint Resolve quiet_call quiet_bn_set : keeps.

Lemma quiet_call_to r f : quiet (call_to r f).
Proof. intros b. unfold call_to. keeps_auto. Qed.
#[local] Hint Resolve quiet_call_to : keeps.

Ltac quiet_auto :=
  unfold cx_mpi_nbytes, size_to_mpi_word_bytes, bytes_of, local_bytes, check,
    cx_bn_locked, slot_used, no_slot in *;
  keeps_auto.

Lemma quiet_bn_get x : quiet (bn_get x).
Proof. unfold bn_get. quiet_auto. Qed.
#[local] Hint Resolve quiet_bn_get : keeps.
Lemma quiet_nbytes x : quiet (cx_mpi_nbytes x).
Proof. quiet_auto. Qed.
Lemma quiet_bytes_of x len : quiet (bytes_of x len).
Proof. quiet_auto. Qed.
#[local] Hint Resolve quiet_nbytes quiet_bytes_of : keeps.

(** The conversions of handles. *)
Lemma quiet_to_mpi x : quiet (cx_bn_to_mpi x).
Proof. unfold cx_bn_to_mpi. quiet_auto. Qed.
Lemma quiet_ab_to_mpi a b : quiet (cx_bn_ab_to_mpi a b).
Proof. unfold cx_bn_ab_to_mpi. quiet_auto. Qed.
Lemma quiet_rab_to_mpi r a b : quiet (cx_bn_rab_to_mpi r a b).
Proof. unfold cx_bn_rab_to_mpi. quiet_auto. Qed.
Lemma quiet_rabm_to_mpi r a b m : quiet (cx_bn_rabm_to_mpi r a b m).
Proof. unfold cx_bn_rabm_to_mpi. quiet_auto. Qed.
#[local] Hint Resolve quiet_to_mpi quiet_ab_to_mpi quiet_rab_to_mpi quiet_rabm_to_mpi : keeps.

(** The operations on the numbers. *)
Lemma quiet_export x dst n : quiet (cx_mpi_export x dst n).
Proof. unfold cx_mpi_export. quiet_auto. Qed.
Lemma quiet_set_u32 x n : quiet (cx_mpi_set_u32 x n).
Proof. unfold cx_mpi_set_u32. quiet_auto. Qed.
Lemma quiet_tst_bit x n : quiet (cx_mpi_tst_bit x n).
Proof. unfold cx_mpi_tst_bit. quiet_auto. Qed.
Lemma quiet_max_nbytes a b : quiet (max_nbytes a b).
Proof. unfold max_nbytes. quiet_auto. Qed.
Lemma quiet_binary f r a b : quiet (binary f r a b).
Proof. unfold binary. quiet_auto. Qed.
Lemma quiet_ternary f r a b n : quiet (ternary f r a b n).
Proof. unfold ternary. quiet_auto. Qed.
Lemma quiet_is_odd a : quiet (cx_mpi_is_odd a).
Proof. unfold cx_mpi_is_odd. quiet_auto. Qed.
#[local] Hint Resolve quiet_export quiet_set_u32 quiet_tst_bit quiet_max_nbytes quiet_binary quiet_ternary
  quiet_is_odd : keeps.

Lemma quiet_neg a : quiet (cx_mpi_neg a).
Proof. unfold cx_mpi_neg, cx_mpi_not, cx_mpi_inc. quiet_auto. Qed.
Lemma quiet_rng_loop fuel r n : quiet (rng_loop fuel r n).
Proof. intros b. induction fuel as [|fuel IH]; cbn [rng_loop]; keeps_auto; exact IH. Qed.
Lemma quiet_next_prime_loop fuel x n : quiet (next_prime_loop fuel x n).
Proof. intros b. induction fuel as [|fuel IH]; cbn [next_prime_loop]; keeps_auto; exact IH. Qed.
#[local] Hint Resolve quiet_neg quiet_rng_loop quiet_next_prime_loop : keeps.

(** The calls that have nothing to do with the memory. *)
Definition arithmetic (c : bn_call) : bool :=
  match c with
  | bn_lock _ _ | bn_unlock | bn_alloc _ | bn_destroy _ | bn_alloc_init _ _ _
  | bn_mod_invert_nprime _ _ _ | bn_mod_pow _ _ _ _ _ | bn_mod_pow2 _ _ _ _ _ => false
  | _ => true
  end.

Create HintDb bn.
#[local] Hint Unfold
  sys_cx_bn_is_locked sys_cx_bn_is_unlocked sys_cx_bn_init sys_cx_bn_export sys_cx_bn_copy sys_cx_bn_nbytes
  sys_cx_bn_set_u32 sys_cx_bn_get_u32 sys_cx_bn_cmp_u32 sys_cx_bn_cmp sys_cx_bn_rand sys_cx_bn_rng
  sys_cx_bn_tst_bit sys_cx_bn_set_bit sys_cx_bn_clr_bit sys_cx_bn_cnt_bits sys_cx_bn_shr sys_cx_bn_shl
  sys_cx_bn_xor sys_cx_bn_or sys_cx_bn_and sys_cx_bn_add sys_cx_bn_sub sys_cx_bn_mul sys_cx_bn_mod_add
  sys_cx_bn_mod_sub sys_cx_bn_mod_mul sys_cx_bn_reduce sys_cx_bn_mod_sqrt sys_cx_bn_is_odd
  sys_cx_bn_mod_u32_invert sys_cx_bn_mod_pow_bn sys_cx_bn_is_prime sys_cx_bn_next_prime sys_cx_bn_gf2_n_mul
  cx_mpi_init cx_mpi_copy cx_mpi_get_u32 cx_mpi_cmp_u32 cx_mpi_cmp cx_mpi_rand cx_mpi_rng cx_mpi_set_bit
  cx_mpi_clr_bit cx_mpi_cnt_bits cx_mpi_shr cx_mpi_shl cx_mpi_bitwise cx_mpi_xor cx_mpi_or cx_mpi_and
  cx_mpi_add cx_mpi_sub cx_mpi_mul cx_mpi_mod_add cx_mpi_mod_sub cx_mpi_mod_mul cx_mpi_rem cx_mpi_mod_sqrt
  cx_mpi_mod_u32_invert cx_mpi_mod_pow cx_mpi_is_prime cx_mpi_next_prime cx_mpi_gf2_n_mul cx_mpi_bytes
  test_of error_of output_of loop_of handle_of with_mpi with_mpi_out check
  cx_bn_locked bytes_of local_bytes : bn.

Lemma quiet_exec fuel c : arithmetic c = true -> quiet (bn_exec fuel c).
Proof.
  intros Hc b. destruct c; try discriminate Hc; cbn [bn_exec]; clear Hc.
  all: autounfold with bn; keeps_auto.
Qed.

(** ** Allocation and release *)

Lemma gets_run {A B} (f : mpi_state E -> A) (k : A -> M (mpi_state E) B) s : mbind (mgets f) k s = k (f s) s.
Proof. done. Qed.

Lemma free_slot_held l : free_slot l = first_free (held_of l).
Proof.
  unfold held_of. induction l as [|c l IH]; [done|]. cbn. destruct (mpi c); [|done]. cbn. by rewrite IH.
Qed.

Lemma first_free_lookup l i : first_free l = Some i -> l !! i = Some None.
Proof.
  revert i. induction l as [|[n|] l IH]; intros i; cbn; [done| |by intros [= <-]].
  destruct (first_free l) as [j|]; [|done]. intros [= <-]. cbn. by apply IH.
Qed.

Definition alloc_books (i : nat) (n : Z) (b : books) : books :=
  mk_books (bk_lock b) (<[i := Some n]> (bk_held b)) (w32 (bk_words b + n / bk_word b)) (bk_word b)
    (w32 (bk_total b + n)).

Definition free_books (i : nat) (b : books) : books :=
  match bk_held b !! i with
  | Some (Some n) =>
      mk_books (bk_lock b) (<[i := None]> (bk_held b)) (w32 (bk_words b - n / bk_word b)) (bk_word b)
        (w32 (bk_total b - n))
  | _ => b
  end.

Lemma alloc_run size n s b :
  books_of s = b -> bk_word b <> 0 -> size_to_mpi_word_bytes size s = Ret n s ->
  exists s', match first_free (bk_held b) with
  | Some i =>
      if fst (BN_new (openssl s)) && (w32 (n + bk_total b) <=? MAX_MPI_BYTE_SIZE) then
        cx_mpi_alloc size s = Ret (Some i, Z.of_nat i) s' /\ books_of s' = alloc_books i n b /\
        num s' i = Some 0 /\ (forall y, y <> i -> num s' y = num s y)
      else cx_mpi_alloc size s = Ret (None, bn_none) s' /\ books_of s' = b /\ (forall y, num s' y = num s y)
  | None => cx_mpi_alloc size s = Ret (None, bn_none) s' /\ books_of s' = b /\ (forall y, num s' y = num s y)
  end.
Proof.
  intros <- Hw Hn. unfold cx_mpi_alloc. rewrite (mbind_ret _ _ _ _ _ Hn), gets_run.
  cbn [books_of bk_held bk_total bk_word] in *. rewrite <- free_slot_held.
  destruct (free_slot (cx_mpi_array s)) as [i|] eqn:Hi.
  2: { eexists. destruct (_ <=? _); [rewrite gets_run, Hi|]; done. }
  destruct (BN_new (openssl s)) as [ok e] eqn:Hnew. cbn [fst].
  destruct (w32 (n + mpi_total_memory s) <=? MAX_MPI_BYTE_SIZE) eqn:Hm.
  2: { rewrite andb_false_r. by eexists. }
  assert (forall B (k : bool -> M (mpi_state E) B), mbind (call BN_new) k s = k ok (set_openssl e s)) as Hcall
    by (intros; unfold mbind, call; by rewrite Hnew).
  rewrite andb_true_r. destruct ok; rewrite gets_run, Hi, Hcall; cbn [negb]; [|by eexists].
  rewrite gets_run. rewrite free_slot_held in Hi. unfold mbind, mmodify, mret. cbn.
  destruct (Z.eqb_spec (mpi_word_size s) 0) as [|_]; [done|].
  apply first_free_lookup in Hi. unfold held_of in Hi. rewrite list_lookup_fmap in Hi.
  eexists. split; [done|]. split.
  - unfold books_of, alloc_books, held_of. cbn. f_equal. by rewrite list_fmap_insert.
  - unfold num. cbn. split; [|intros y Hy; by rewrite list_lookup_insert_ne by done].
    rewrite list_lookup_insert_eq; [done|]. apply lookup_lt_is_Some_1. by destruct (cx_mpi_array s !! i).
Qed.

Lemma destroy_run i s b : books_of s = b -> length (bk_held b) = 64%nat ->
  (bk_lock b = true /\ bk_word b <> 0 \/ bk_held b !! Z.to_nat i = Some None) ->
  exists s', cx_mpi_destroy (Some i) s = Ret CX_OK s' /\
    books_of s' = (if in_array i then free_books (Z.to_nat i) b else b) /\
    (forall y, y <> Z.to_nat i -> num s' y = num s y).
Proof.
  intros <- Hlen Hl. unfold cx_mpi_destroy. cbn [books_of bk_held bk_lock bk_word] in *.
  unfold in_array, MAX_MPI_ARRAY_ENTRIES. destruct (Z.ltb_spec i 64) as [Hi|Hi]; cbn [negb]; [|by eexists].
  unfold held_of in Hlen. rewrite length_fmap in Hlen.
  destruct (lookup_lt_is_Some_2 (cx_mpi_array s) (Z.to_nat i)) as [c Hc]; [lia|].
  unfold mbind at 1, mgets. rewrite (mlift_some _ _ _ _ Hc). unfold free_books. cbn [bk_held books_of].
  unfold held_of in *. rewrite list_lookup_fmap, Hc in *. cbn in Hl |- *.
  destruct (mpi c) as [v|]; [|by eexists]. destruct Hl as [[Hl Hw]|]; [|done].
  unfold mbind, mgets, mmodify, mret. rewrite Hl. cbn [negb].
  destruct (Z.eqb_spec (mpi_word_size s) 0); [done|]. eexists. split; [done|]. split.
  - unfold books_of, held_of. cbn. f_equal; [done|]. by rewrite list_fmap_insert.
  - intros y Hy. unfold num. cbn. by rewrite list_lookup_insert_ne.
Qed.

Lemma free_alloc i n b : bk_held b !! i = Some None -> is_w32 (bk_words b) -> is_w32 (bk_total b) ->
  free_books i (alloc_books i n b) = b.
Proof.
  intros Hi Hw Ht. unfold free_books, alloc_books. cbn.
  rewrite list_lookup_insert_eq by (by apply lookup_lt_is_Some_1; rewrite Hi).
  rewrite list_insert_insert_eq, list_insert_id by done. destruct b as [l hl cw W t]. cbn in *. unfold w32, is_w32 in *.
  assert (forall x y, 0 <= x < 4294967296 -> ((x + y) mod 4294967296 - y) mod 4294967296 = x) as Hsub.
  { intros x y Hx. rewrite Zminus_mod_idemp_l. replace (x + y - y) with x by lia. by apply Z.mod_small. }
  by rewrite !Hsub.
Qed.
End keeping.

(** ** The memory, abstractly *)

Definition accounts (h : heap) : books :=
  match word h with
  | None => mk_books false (held h) 0 0 0
  | Some W => mk_books true (held h) (used (held h) / W) W (used (held h))
  end.

(** A number takes a positive number of words. *)
Definition held_ok (W : Z) (o : option Z) : Prop :=
  match o with Some n => 0 < n /\ n mod W = 0 | None => True end.

Record heap_ok (h : heap) : Prop := {
  ho_len : length (held h) = 64%nat;
  ho_word : match word h with
    | None => held h = replicate 64 None
    | Some W => 16 <= W <= 2 ^ 30 /\ W mod 16 = 0 /\ Forall (held_ok W) (held h) /\ used (held h) <= MAX_MPI_BYTE_SIZE
    end;
}.

(** The sizes of numbers and of words are less than a quarter of the addresses. *)
Definition bn_call_ok (c : bn_call) : Prop :=
  match c with
  | bn_lock word_size _ => 0 <= word_size < 2 ^ 30
  | bn_alloc size | bn_alloc_init size _ _ => 0 <= size < 2 ^ 30
  | _ => True
  end.

Lemma used_cons o l : used (o :: l) = held_size o + used l.
Proof. done. Qed.

Lemma used_insert l i o o' : l !! i = Some o -> used (<[i := o']> l) = used l - held_size o + held_size o'.
Proof.
  revert i. induction l as [|x l IH]; intros [|i] H; try done.
  - injection H as ->. change (<[0%nat := o']> (o :: l)) with (o' :: l). rewrite !used_cons. lia.
  - specialize (IH i H). change (<[S i := o']> (x :: l)) with (x :: <[i := o']> l). rewrite !used_cons. lia.
Qed.

Lemma held_nonneg W o : held_ok W o -> 0 <= held_size o.
Proof. destruct o; cbn; lia. Qed.

Lemma used_nonneg W l : Forall (held_ok W) l -> 0 <= used l.
Proof. induction 1 as [|o l Ho _ IH]; [done|]. apply held_nonneg in Ho. rewrite used_cons. lia. Qed.

Lemma used_ge W l i o : Forall (held_ok W) l -> l !! i = Some o -> held_size o <= used l.
Proof.
  intros Hl. revert i. induction Hl as [|x l Hx Hl IH]; intros [|i] H; try done; rewrite used_cons.
  - injection H as ->. pose proof (used_nonneg W l Hl). lia.
  - specialize (IH i H). apply held_nonneg in Hx. lia.
Qed.

Lemma used_mod W l : 0 < W -> Forall (held_ok W) l -> used l mod W = 0.
Proof.
  intros HW. induction 1 as [|o l Ho _ IH]; [done|]. rewrite used_cons.
  rewrite <- Z.add_mod_idemp_r, IH by lia. rewrite Z.add_0_r. destruct o; [apply Ho|done].
Qed.

Lemma round_to_ok W size : 0 < W -> 0 <= size -> W <= round_to W size /\ round_to W size mod W = 0 /\ size <= round_to W size.
Proof.
  intros HW Hs. unfold round_to. destruct (Z.eqb_spec size 0); [rewrite Z.mod_same; lia|].
  assert (1 <= (size + (W - 1)) / W) by (apply Z.div_le_lower_bound; lia).
  pose proof (Z.div_mod (size + (W - 1)) W ltac:(lia)). pose proof (Z.mod_pos_bound (size + (W - 1)) W ltac:(lia)).
  split; [nia|]. split; [by apply Z.mod_mul; lia|nia].
Qed.

Lemma round_to_self W : 0 < W -> round_to W W = W.
Proof.
  intros HW. unfold round_to. destruct (Z.eqb_spec W 0); [lia|]. replace ((W + (W - 1)) / W) with 1; [lia|].
  apply Z.div_unique with (W - 1); lia.
Qed.

Lemma round_to_mult W n : 0 < W -> 0 < n -> n mod W = 0 -> round_to W n = n.
Proof.
  intros HW Hn Hm. unfold round_to. destruct (Z.eqb_spec n 0); [lia|].
  assert (n = W * (n / W)) as Hd by (rewrite (Z.div_mod n W) at 1 by lia; lia).
  replace ((n + (W - 1)) / W) with (n / W); [lia|]. apply Z.div_unique with (W - 1); lia.
Qed.

Lemma alloc_ok mem size h : heap_ok h -> 0 <= size -> heap_ok (snd (alloc_spec mem size h)).
Proof.
  intros [Hl Hw] Hs. unfold alloc_spec. destruct (word h) as [W|] eqn:HW.
  2: { cbn [snd]. split; [done|]. by rewrite HW. }
  assert (heap_ok h) as Hh by (split; [done|by rewrite HW]). destruct Hw as (HW1 & Hm & Hf & Hu).
  destruct (first_free (held h)) as [i|] eqn:Hi; [|done]. destruct (_ && _) eqn:Hc; [|done].
  apply andb_true_iff in Hc as [_ Hc%Z.leb_le]. apply first_free_lookup in Hi.
  destruct (round_to_ok W size ltac:(lia) Hs) as (H1 & H2 & _). split; cbn; [by rewrite length_insert|].
  split_and!; try done; try lia. { apply Forall_insert; [done|]. cbn. split; [lia|done]. }
  rewrite (used_insert _ _ _ _ Hi). cbn. lia.
Qed.

Lemma free_ok x h : heap_ok h -> heap_ok (snd (free_spec x h)).
Proof.
  intros Hh. unfold free_spec. cbn [snd]. destruct x as [i|]; [|done]. destruct (in_array i) eqn:Hi; [|done].
  destruct Hh as [Hl Hw]. split; cbn; [by rewrite length_insert|]. destruct (word h) as [W|].
  - destruct Hw as (HW1 & Hm & Hf & Hu). split_and!; try done; try lia; [by apply Forall_insert|].
    destruct (held h !! Z.to_nat i) as [o|] eqn:Ho; [|by rewrite list_insert_ge by (by apply lookup_ge_None_1)].
    rewrite (used_insert _ _ _ _ Ho). assert (held_ok W o) as Hok by (by apply (Forall_lookup_1 _ _ _ _ Hf Ho)).
    apply held_nonneg in Hok. cbn. lia.
  - rewrite Hw. by rewrite insert_replicate.
Qed.

Lemma bn_spec_ok mem c h : heap_ok h -> bn_call_ok c -> heap_ok (snd (bn_spec mem c h)).
Proof.
  intros Hh Hc. destruct c; try exact Hh; cbn [bn_spec bn_call_ok] in *.
  - destruct (word h) eqn:Hw; [done|]. destruct mem; [|done]. destruct Hh as [Hl Hh]. rewrite Hw in Hh.
    split; cbn; [done|]. rewrite Hh, size_to_mpi_bytes_ok by lia. split_and!.
    + destruct (Z.eqb_spec word_size 0); div_mod_lia.
    + destruct (Z.eqb_spec word_size 0); div_mod_lia.
    + destruct (word_size =? 0); [done|]. by apply Z.mod_mul.
    + by apply Forall_replicate.
    + done.
  - split; done.
  - pose proof (alloc_ok mem size h Hh ltac:(lia)). by destruct (alloc_spec _ _ _) as [[? ?] ?].
  - pose proof (free_ok x h Hh). by destruct (free_spec _ _) as [[? ?] ?].
  - apply alloc_ok; [done|lia].
  - unfold mod_pow_spec. destruct (word h) as [W|] eqn:Hw; [|done]. apply alloc_ok; [done|].
    destruct Hh as [_ Hh]. rewrite Hw in Hh. lia.
  - unfold mod_pow_spec. destruct (word h) as [W|] eqn:Hw; [|done]. apply alloc_ok; [done|].
    destruct Hh as [_ Hh]. rewrite Hw in Hh. lia.
Qed.

Lemma accounts_w32 h : heap_ok h -> is_w32 (bk_words (accounts h)) /\ is_w32 (bk_total (accounts h)).
Proof.
  intros [_ Hw]. unfold accounts, is_w32. destruct (word h) as [W|]; [|done]. cbn.
  destruct Hw as (HW & _ & Hf & Hu). pose proof (used_nonneg W _ Hf). unfold MAX_MPI_BYTE_SIZE in Hu.
  split; [|lia]. split; [apply Z.div_pos; lia|]. apply Z.div_lt_upper_bound; lia.
Qed.

Lemma accounts_alloc h W i n : heap_ok h -> word h = Some W -> held h !! i = Some None -> 0 <= n -> n mod W = 0 ->
  n + used (held h) <= MAX_MPI_BYTE_SIZE ->
  alloc_books i n (accounts h) = accounts (mk_heap (Some W) (<[i := Some n]> (held h))).
Proof.
  intros [_ Hw] HW Hi Hn Hm Hu. rewrite HW in Hw. destruct Hw as (HW1 & _ & Hf & _).
  pose proof (used_nonneg W _ Hf). unfold MAX_MPI_BYTE_SIZE in Hu. unfold alloc_books, accounts. rewrite HW. cbn.
  rewrite (used_insert _ _ _ _ Hi). cbn [held_size]. rewrite Z.sub_0_r.
  assert (n = n / W * W) as Hn' by (rewrite (Z.div_mod n W) at 1 by lia; lia).
  assert ((used (held h) + n) / W = used (held h) / W + n / W) as -> by (rewrite Hn' at 1; apply Z.div_add; lia).
  unfold w32. rewrite (Z.mod_small (used (held h) + n)) by lia. rewrite Z.mod_small; [done|].
  assert (used (held h) / W <= used (held h)) by (apply Z.div_le_upper_bound; nia).
  assert (n / W <= n) by (apply Z.div_le_upper_bound; nia).
  pose proof (Z.div_pos n W ltac:(lia) ltac:(lia)). pose proof (Z.div_pos (used (held h)) W ltac:(lia) ltac:(lia)). lia.
Qed.

Lemma accounts_free h W i : heap_ok h -> word h = Some W -> (i < 64)%nat ->
  free_books i (accounts h) = accounts (mk_heap (Some W) (<[i := None]> (held h))).
Proof.
  intros [Hlen Hw] HW Hi. rewrite HW in Hw. destruct Hw as (HW1 & _ & Hf & Hu).
  destruct (lookup_lt_is_Some_2 (held h) i) as [o Ho]; [lia|]. unfold free_books, accounts. rewrite HW. cbn. rewrite Ho.
  rewrite (used_insert _ _ _ _ Ho). destruct o as [n|]; cbn [held_size].
  2: { rewrite list_insert_id by done. do 2 f_equal; lia. }
  pose proof (used_ge W _ _ _ Hf Ho) as Hge. cbn in Hge. destruct (Forall_lookup_1 _ _ _ _ Hf Ho) as [Hn Hm].
  unfold MAX_MPI_BYTE_SIZE in Hu. rewrite Z.add_0_r.
  assert (n = n / W * W) as Hn' by (rewrite (Z.div_mod n W) at 1 by lia; lia).
  assert ((used (held h) - n) / W = used (held h) / W - n / W) as ->.
  { replace (used (held h) - n) with (used (held h) + - (n / W) * W) by lia. rewrite Z.div_add by lia. lia. }
  assert (n / W <= used (held h) / W) by (apply Z.div_le_mono; lia).
  assert (used (held h) / W <= used (held h)) by (apply Z.div_le_upper_bound; nia).
  pose proof (Z.div_pos n W ltac:(lia) ltac:(lia)).
  unfold w32. by rewrite !Z.mod_small by lia.
Qed.

Section refinement.
Context {E : Type} `{!OpensslBn E}.
Implicit Types s : mpi_state E.

Local Abbreviation quiet m := (forall b, keeps (fun s => books_of s = b) m).

Lemma word_bytes_books h W size s : heap_ok h -> books_of s = accounts h -> word h = Some W -> 0 <= size <= 2 ^ 30 ->
  size_to_mpi_word_bytes size s = Ret (round_to W size) s.
Proof.
  intros [_ Hw] Hb HW Hs. unfold accounts in Hb. rewrite HW in *. injection Hb as _ _ _ HW' _. destruct Hw as (HW1 & _).
  unfold size_to_mpi_word_bytes, round_to. rewrite gets_run, HW'. destruct (size =? 0); [done|].
  destruct (Z.eqb_spec W 0); [lia|]. unfold mret, w32. f_equal.
  rewrite (Z.mod_small (W - 1)), (Z.mod_small (size + (W - 1))) by lia. apply Z.mod_small.
  pose proof (Z.mul_div_le (size + (W - 1)) W ltac:(lia)). pose proof (Z.div_pos (size + (W - 1)) W ltac:(lia) ltac:(lia)). nia.
Qed.

Lemma locked_run {B} h (k : Z -> M (mpi_state E) B) s : books_of s = accounts h ->
  mbind cx_bn_locked k s = k (match word h with Some _ => CX_OK | None => CX_NOT_LOCKED end) s.
Proof.
  intros Hb. unfold accounts in Hb. unfold cx_bn_locked, mbind, mgets, mret.
  destruct (word h); injection Hb as -> _ _ _ _; done.
Qed.

Lemma bn_alloc_refines h size s : heap_ok h -> books_of s = accounts h -> 0 <= size <= 2 ^ 30 ->
  exists s', sys_cx_bn_alloc size s = Ret (fst (alloc_spec (fst (BN_new (openssl s))) size h)) s' /\
    books_of s' = accounts (snd (alloc_spec (fst (BN_new (openssl s))) size h)).
Proof.
  intros Hh Hb Hs. unfold sys_cx_bn_alloc. rewrite (locked_run h) by done. unfold alloc_spec.
  destruct (word h) as [W|] eqn:HW; [|by exists s]. change (truthy CX_OK) with false. cbv iota.
  pose proof (word_bytes_books h W size s Hh Hb HW Hs) as Hsz. destruct (Hh) as [_ Hw]. rewrite HW in Hw.
  destruct Hw as (HW1 & _ & Hf & Hu). destruct (round_to_ok W size ltac:(lia) ltac:(lia)) as (H1 & H2 & _).
  pose proof (used_nonneg W _ Hf). unfold MAX_MPI_BYTE_SIZE in *.
  assert (round_to W size < 2 ^ 32 - 2048) as Hlt.
  { unfold round_to. destruct (size =? 0); [lia|]. pose proof (Z.mul_div_le (size + (W - 1)) W ltac:(lia)). lia. }
  destruct (alloc_run size (round_to W size) s (accounts h) Hb) as [s' Ha]; [unfold accounts; rewrite HW; cbn; lia|done|].
  assert (w32 (round_to W size + bk_total (accounts h)) = round_to W size + used (held h)) as Ht.
  { unfold accounts. rewrite HW. cbn. apply Z.mod_small. lia. }
  assert (bk_held (accounts h) = held h) as Hheld by (unfold accounts; by rewrite HW).
  rewrite Ht, Hheld in Ha. exists s'. destruct (first_free (held h)) as [i|] eqn:Hi.
  - unfold MAX_MPI_BYTE_SIZE in *. destruct (_ && _) eqn:Hc.
    + destruct Ha as (Ha & Hb' & _). rewrite (mbind_ret _ _ _ _ _ Ha). split; [done|]. cbn [snd]. rewrite Hb'.
      apply andb_true_iff in Hc as [_ Hc%Z.leb_le].
      apply accounts_alloc; try done; [by apply first_free_lookup|lia].
    + destruct Ha as (Ha & Hb' & _). rewrite (mbind_ret _ _ _ _ _ Ha). split; [done|]. by rewrite Hb'.
  - destruct Ha as (Ha & Hb' & _). rewrite (mbind_ret _ _ _ _ _ Ha). split; [done|]. by rewrite Hb'.
Qed.

Lemma bn_destroy_refines h x s : heap_ok h -> books_of s = accounts h ->
  exists s', sys_cx_bn_destroy x s = Ret CX_OK s' /\ books_of s' = accounts (snd (free_spec x h)).
Proof.
  intros Hh Hb. unfold sys_cx_bn_destroy, free_spec. destruct x as [i|]; [|by exists s]. cbn [snd].
  destruct (in_array i) eqn:Hi.
  2: { exists s. unfold cx_mpi_destroy. by rewrite Hi. }
  assert ((Z.to_nat i < 64)%nat) as Hlt by (unfold in_array, MAX_MPI_ARRAY_ENTRIES in Hi; lia).
  assert (bk_held (accounts h) = held h) as Hheld by (unfold accounts; by destruct (word h)).
  destruct (destroy_run i s (accounts h) Hb) as (s' & Hd & Hb' & _).
  { by rewrite Hheld, (ho_len _ Hh). }
  { rewrite Hheld. destruct Hh as [_ Hw]. unfold accounts. destruct (word h); [left; cbn; split; [done|lia]|].
    right. rewrite Hw. by apply lookup_replicate_2. }
  exists s'. rewrite Hd, Hi in *. split; [done|]. rewrite Hb'. destruct (word h) as [W|] eqn:HW; [by apply accounts_free|].
  destruct Hh as [_ Hw]. rewrite HW in Hw. unfold accounts, free_books. rewrite HW, Hw. cbn [bk_held word held].
  rewrite lookup_replicate_2 by done. by rewrite insert_replicate.
Qed.

Lemma destroy_all_refines k n h W s : heap_ok h -> books_of s = accounts h -> word h = Some W ->
  (k + n = 64)%nat -> take k (held h) = replicate k None ->
  exists s', destroy_all (seqZ (Z.of_nat k) (Z.of_nat n)) s = Ret tt s' /\
    books_of s' = accounts (mk_heap (Some W) (replicate 64 None)).
Proof.
  revert k h s. induction n as [|n IH]; intros k h s Hh Hb HW Hk Ht.
  - assert (held h = replicate 64 None) as Hheld.
    { assert (k = 64%nat) as -> by lia. rewrite take_ge in Ht; [done|]. by rewrite (ho_len _ Hh). }
    exists s. split; [done|]. rewrite Hb. unfold accounts. by rewrite HW, Hheld.
  - rewrite seqZ_cons by lia. cbn [destroy_all].
    destruct (bn_destroy_refines h (Some (Z.of_nat k)) s Hh Hb) as (s1 & Hd & Hb1). unfold sys_cx_bn_destroy in Hd.
    rewrite (mbind_ret _ _ _ _ _ Hd). pose proof (free_ok (Some (Z.of_nat k)) h Hh) as Hh1. unfold free_spec in *. cbn [snd] in *.
    assert (in_array (Z.of_nat k) = true) as Hin by (unfold in_array, MAX_MPI_ARRAY_ENTRIES; lia).
    rewrite Hin, Nat2Z.id in *. replace (Z.succ (Z.of_nat k)) with (Z.of_nat (S k)) by lia.
    replace (Z.pred (Z.of_nat (S n))) with (Z.of_nat n) by lia.
    apply (IH (S k) _ s1 Hh1 Hb1); [done|lia|]. cbn [held].
    rewrite (take_S_r _ _ None) by (apply list_lookup_insert_eq; rewrite (ho_len _ Hh); lia).
    rewrite take_insert_ge, Ht by lia. by rewrite <- replicate_S_end.
Qed.

Lemma bn_unlock_refines h s : heap_ok h -> books_of s = accounts h ->
  exists s', sys_cx_bn_unlock s = Ret (match word h with None => CX_NOT_LOCKED | Some _ => CX_OK end) s' /\
    books_of s' = accounts heap0.
Proof.
  intros Hh Hb. unfold sys_cx_bn_unlock, check. rewrite (locked_run h) by done. destruct (word h) as [W|] eqn:HW.
  - change (truthy CX_OK) with false. cbv iota. unfold cx_mpi_unlock.
    destruct (destroy_all_refines 0 64 h W s) as (s1 & Hd & Hb1); [done..|]. change (Z.of_nat 0) with 0 in Hd.
    change (Z.of_nat 64) with MAX_MPI_ARRAY_ENTRIES in Hd. rewrite (mbind_ret _ _ _ _ _ Hd). eexists. split; [done|].
    injection Hb1 as _ Hheld _ _ _. unfold books_of, accounts. cbn. by rewrite Hheld.
  - exists s. split; [done|]. rewrite Hb. destruct Hh as [_ Hw]. rewrite HW in Hw. unfold accounts. by rewrite HW, Hw.
Qed.

Lemma bn_lock_refines h word_size flags s : heap_ok h -> books_of s = accounts h ->
  exists s', error_of (sys_cx_bn_lock word_size flags) s
    = Ret (fst (bn_spec (fst (BN_CTX_new (openssl s))) (bn_lock word_size flags) h)) s' /\
    books_of s' = accounts (snd (bn_spec (fst (BN_CTX_new (openssl s))) (bn_lock word_size flags) h)).
Proof.
  intros Hh Hb. assert (local_bn_ctx s = match word h with Some _ => true | None => false end) as Hl.
  { unfold accounts in Hb. destruct (word h); by injection Hb as -> _ _ _ _. }
  unfold error_of, sys_cx_bn_lock, check, cx_bn_unlocked, cx_mpi_lock, bn_spec. cbn. unfold mbind at 1 2 3, mgets at 1.
  rewrite Hl. destruct (word h) as [W|] eqn:HW; [by eexists|]. unfold mret at 1. change (truthy CX_OK) with false. cbv iota.
  unfold mbind at 1, mgets at 1. rewrite Hl. unfold mbind at 1, call. destruct (BN_CTX_new (openssl s)) as [ok e]. cbn [fst].
  destruct ok; cbn [negb]; eexists; (split; [done|]); [|done].
  unfold accounts in Hb. rewrite HW in Hb. injection Hb as _ Hheld _ _ _. unfold books_of, accounts. cbn.
  destruct Hh as [_ Hw]. rewrite HW in Hw. by rewrite Hheld, Hw.
Qed.

(** An operation that leaves the memory of [h], when it returns. *)
Definition leads {A} (m : M (mpi_state E) A) (h : heap) s : Prop :=
  forall r s', m s = Ret r s' -> books_of s' = accounts h.

Lemma leads_keeps {A} (m : M (mpi_state E) A) h s :
  keeps (fun s => books_of s = accounts h) m -> books_of s = accounts h -> leads m h s.
Proof. intros Hk Hs r s' Hm. specialize (Hk s Hs). by rewrite Hm in Hk. Qed.

Lemma leads_bind {A B} (m : M (mpi_state E) A) (k : A -> M (mpi_state E) B) s a s1 h :
  m s = Ret a s1 -> leads (k a) h s1 -> leads (mbind m k) h s.
Proof. unfold leads. intros Hm Hk. by rewrite (mbind_ret _ _ _ _ _ Hm). Qed.

Lemma leads_alloc_init h size bytes n s : heap_ok h -> books_of s = accounts h -> 0 <= size <= 2 ^ 30 ->
  leads (sys_cx_bn_alloc_init size bytes n) (snd (alloc_spec (fst (BN_new (openssl s))) size h)) s.
Proof.
  intros Hh Hb Hs. destruct (bn_alloc_refines h size s Hh Hb Hs) as (s1 & Ha & Hb1).
  unfold sys_cx_bn_alloc_init. eapply leads_bind; [exact Ha|]. apply leads_keeps; [|done].
  unfold sys_cx_bn_init, with_mpi, cx_mpi_init. keeps_auto; eauto using quiet_to_mpi, quiet_call_to with keeps.
Qed.

Lemma bn_size_run h W {B} (k : Z -> M (mpi_state E) B) s : heap_ok h -> books_of s = accounts h -> word h = Some W ->
  mbind cx_get_bn_size k s = k W s.
Proof.
  intros Hh Hb HW. destruct (Hh) as [_ Hw]. rewrite HW in Hw. destruct Hw as (HW1 & _).
  assert (mpi_word_size s = W) as HWs by (unfold accounts in Hb; rewrite HW in Hb; by injection Hb).
  eapply mbind_ret. unfold cx_get_bn_size. rewrite gets_run, HWs, (word_bytes_books h W W s) by (done || lia).
  by rewrite round_to_self by lia.
Qed.

Lemma leads_mod_pow h r a bytes len n s : heap_ok h -> books_of s = accounts h ->
  leads (sys_cx_bn_mod_pow r a bytes len n) (mod_pow_spec (fst (BN_new (openssl s))) h) s.
Proof.
  intros Hh Hb. unfold sys_cx_bn_mod_pow, mod_pow_spec.
  assert (forall size h', leads (sys_cx_bn_alloc_init size bytes len) h' s ->
    leads (let! (error, bn_e) := sys_cx_bn_alloc_init size bytes len in
      if truthy error then mret error
      else let! bn_e := mlift bn_e in
        with_mpi (cx_bn_rabm_to_mpi r a bn_e n) (fun '(r, a, e, n) => cx_mpi_mod_pow r a e n)) h' s) as Hrest.
  { intros size h' Hl res s' Hm. unfold mbind at 1 in Hm. destruct (sys_cx_bn_alloc_init size bytes len s) as [x s1| |] eqn:Ha;
      [|done..]. apply Hl in Ha. revert Hm. apply leads_keeps; [|done]. unfold with_mpi, cx_mpi_mod_pow.
    keeps_auto; eauto using quiet_rabm_to_mpi, quiet_ternary, quiet_is_odd with keeps. }
  destruct (word h) as [W|] eqn:HW.
  - intros res s'. rewrite (bn_size_run h W) by done. destruct (Hh) as [_ Hw]. rewrite HW in Hw.
    apply Hrest, leads_alloc_init; [done|done|lia].
  - assert (mpi_word_size s = 0) as HWs by (unfold accounts in Hb; rewrite HW in Hb; by injection Hb).
    unfold cx_get_bn_size. eapply leads_bind; [rewrite gets_run, HWs; reflexivity|]. rewrite HWs. apply Hrest.
    replace h with (snd (alloc_spec (fst (BN_new (openssl s))) 0 h)) at 1 by (unfold alloc_spec; by rewrite HW).
    apply leads_alloc_init; [done|done|lia].
Qed.

Lemma nbytes_unlocked x s : mpi_word_size s = 0 -> cx_mpi_nbytes x s = Fault.
Proof.
  intros Hw. unfold cx_mpi_nbytes, mbind at 1. destruct (bn_get x s) as [n s'|e s'|] eqn:Hg; [| |done].
  - assert (s' = s) as ->.
    { revert Hg. unfold bn_get, mbind, mgets, mlift. destruct (_ !! x) as [c|]; [|done]. destruct (mpi c); [|done].
      by intros [= _ ->]. }
    unfold size_to_mpi_word_bytes. rewrite gets_run, Hw. set (b := size_to_mpi_bytes _).
    assert (b <> 0) as Hb by (unfold b, size_to_mpi_bytes; by destruct (_ =? 0) eqn:?; [|lia]).
    by destruct (Z.eqb_spec b 0).
  - revert Hg. unfold bn_get, mbind, mgets, mlift. destruct (_ !! x) as [c|]; [|done]. by destruct (mpi c).
Qed.

Lemma word_bytes_any size s : mpi_word_size s <> 0 -> exists n, size_to_mpi_word_bytes size s = Ret n s.
Proof.
  intros Hw. unfold size_to_mpi_word_bytes. rewrite gets_run. destruct (size =? 0); [by eexists|].
  destruct (Z.eqb_spec (mpi_word_size s) 0); [done|]. by eexists.
Qed.

(** A number that is allocated for the time of an operation. *)
Lemma leads_alloc_free h size (mid : option mpi_ptr -> M (mpi_state E) Z) s :
  heap_ok h -> books_of s = accounts h -> word h <> None -> (forall p, quiet (mid p)) ->
  leads (let! (p, bn_p) := cx_mpi_alloc size in
    let! error := mid p in
    do! cx_mpi_destroy (Some bn_p) in
    mret error) h s.
Proof.
  intros Hh Hb HW Hmid. destruct (word h) as [W|] eqn:HWs; [clear HW|done].
  pose proof (accounts_w32 h Hh) as [Hw1 Hw2]. destruct (Hh) as [Hlen Hw]. rewrite HWs in Hw. destruct Hw as (HW1 & _).
  assert (bk_word (accounts h) = W /\ bk_lock (accounts h) = true /\ bk_held (accounts h) = held h) as (HbW & Hbl & Hbh)
    by (unfold accounts; by rewrite HWs).
  destruct (word_bytes_any size s) as [m Hm].
  { change (mpi_word_size s) with (bk_word (books_of s)). rewrite Hb, HbW. lia. }
  destruct (alloc_run size m s (accounts h) Hb ltac:(rewrite HbW; lia) Hm) as [s2 Ha].
  assert (forall x bn b, cx_mpi_alloc size s = Ret (x, bn) s2 -> books_of s2 = b -> length (bk_held b) = 64%nat ->
    bk_lock b = true -> bk_word b = W -> (if in_array bn then free_books (Z.to_nat bn) b else b) = accounts h ->
    leads (let! (p, bn_p) := cx_mpi_alloc size in
      let! error := mid p in do! cx_mpi_destroy (Some bn_p) in mret error) h s) as Hgo.
  { intros x bn b Hal Hb2 Hl64 Hlock Hword Hfree. eapply leads_bind; [exact Hal|]. cbv beta iota. intros error s' Hrun.
    unfold mbind at 1 in Hrun. specialize (Hmid x b s2 Hb2). destruct (mid x s2) as [e s3| |]; [|done..].
    destruct (destroy_run bn s3 b Hmid Hl64) as (s4 & Hd & Hb4 & _); [left; split; [done|lia]|].
    rewrite (mbind_ret _ _ _ _ _ Hd) in Hrun. injection Hrun as _ <-. by rewrite Hb4. }
  rewrite Hbh in *. destruct (first_free (held h)) as [i|] eqn:Hi; [destruct (_ && _)|].
  - destruct Ha as (Ha & Hb2 & _). apply first_free_lookup in Hi. apply (Hgo _ _ _ Ha Hb2); try done.
    { cbn. by rewrite length_insert, Hbh. }
    assert (i < 64)%nat as Hlt by (apply lookup_lt_Some in Hi; lia).
    assert (in_array (Z.of_nat i) = true) as -> by (unfold in_array, MAX_MPI_ARRAY_ENTRIES; lia).
    rewrite Nat2Z.id. apply free_alloc; [by rewrite Hbh|done|done].
  - destruct Ha as (Ha & Hb2 & _). apply (Hgo _ _ _ Ha Hb2); try done. by rewrite Hbh.
  - destruct Ha as (Ha & Hb2 & _). apply (Hgo _ _ _ Ha Hb2); try done. by rewrite Hbh.
Qed.

Lemma leads_mod_invert h r a n s : heap_ok h -> books_of s = accounts h ->
  leads (sys_cx_bn_mod_invert_nprime r a n) h s.
Proof.
  intros Hh Hb res s' Hrun. unfold sys_cx_bn_mod_invert_nprime, with_mpi in Hrun. unfold mbind at 1 in Hrun.
  pose proof (quiet_rab_to_mpi r a n _ s Hb) as Hq. destruct (cx_bn_rab_to_mpi r a n s) as [[e [[x y] z]] s1| |]; [|done..].
  destruct (truthy e); [by injection Hrun as _ <-|]. revert Hrun. unfold cx_mpi_mod_invert_nprime.
  unfold mbind at 1. pose proof (quiet_nbytes z _ s1 Hq) as Hq2. destruct (word h) as [W|] eqn:HW.
  - destruct (cx_mpi_nbytes z s1) as [size s2| |]; [|done..]. intros Hrun.
    eapply (leads_alloc_free h size); [done|done|by rewrite HW| |exact Hrun].
    intros p. cbv beta. keeps_auto; eauto using quiet_bn_get, quiet_call_to.
  - rewrite nbytes_unlocked; [done|]. unfold accounts in Hq. rewrite HW in Hq. by injection Hq.
Qed.

(** One system call. *)
Lemma bn_step fuel c h s : heap_ok h -> books_of s = accounts h -> bn_call_ok c ->
  let (out, h') := bn_spec (bn_memory c s) c h in
  heap_ok h' /\
  (forall r s', bn_exec fuel c s = Ret r s' -> books_of s' = accounts h') /\
  (forall r, out = Some r -> exists s', bn_exec fuel c s = Ret out s').
Proof.
  intros Hh Hb Hc. destruct (bn_spec (bn_memory c s) c h) as [out h'] eqn:Hs.
  split; [change h' with (snd (out, h')); rewrite <- Hs; by apply bn_spec_ok|].
  destruct (arithmetic c) eqn:Ha.
  { assert (bn_spec (bn_memory c s) c h = (None, h)) as Hq by (by destruct c). rewrite Hq in Hs. injection Hs as <- <-.
    split; [|done]. apply leads_keeps; [by apply quiet_exec|done]. }
  assert (forall s1, bn_exec fuel c s = Ret out s1 -> books_of s1 = accounts h' ->
    leads (bn_exec fuel c) h' s /\ (forall r, out = Some r -> exists s', bn_exec fuel c s = Ret out s')) as Hruns.
  { intros s1 Hr Hb1. split; [|by exists s1]. intros r s' Hr'. rewrite Hr in Hr'. by injection Hr' as _ <-. }
  assert (forall (m : M (mpi_state E) Z), bn_exec fuel c = error_of m -> leads m h' s ->
    leads (bn_exec fuel c) h' s) as Herr.
  { intros m -> Hl r s' Hr. unfold error_of, mbind in Hr. destruct (m s) as [e s1| |] eqn:Hm; [|done..].
    injection Hr as _ <-. by apply (Hl e). }
  destruct c; try discriminate Ha; cbn [bn_spec bn_memory bn_call_ok] in *.
  - destruct (bn_lock_refines h word_size flags s Hh Hb) as (s1 & Hr & Hb1). cbn [bn_spec] in Hr, Hb1.
    rewrite Hs in Hr, Hb1. by apply (Hruns s1).
  - destruct (bn_unlock_refines h s Hh Hb) as (s1 & Hr & Hb1). injection Hs as <- <-. apply (Hruns s1); [|done].
    cbn [bn_exec]. unfold error_of. by rewrite (mbind_ret _ _ _ _ _ Hr).
  - destruct (bn_alloc_refines h size s Hh Hb ltac:(lia)) as (s1 & Hr & Hb1).
    destruct (alloc_spec _ size h) as [[e x] h1]. injection Hs as <- <-. apply (Hruns s1); [|done].
    cbn [bn_exec]. unfold handle_of. by rewrite (mbind_ret _ _ _ _ _ Hr).
  - destruct (bn_destroy_refines h x s Hh Hb) as (s1 & Hr & Hb1). unfold free_spec in Hs, Hb1. injection Hs as <- <-.
    apply (Hruns s1); [|done]. cbn [bn_exec]. unfold error_of. by rewrite (mbind_ret _ _ _ _ _ Hr).
  - injection Hs as <- <-. split; [|done]. pose proof (leads_alloc_init h size bytes nbytes s Hh Hb ltac:(lia)) as Hl.
    intros r s' Hr. cbn [bn_exec] in Hr. unfold handle_of, mbind in Hr.
    destruct (sys_cx_bn_alloc_init size bytes nbytes s) as [x s1| |] eqn:Hm; [|done..]. injection Hr as _ <-. by apply (Hl x).
  - injection Hs as <- <-. split; [|done]. eapply Herr; [reflexivity|]. by apply leads_mod_invert.
  - injection Hs as <- <-. split; [|done]. eapply Herr; [reflexivity|]. by apply leads_mod_pow.
  - injection Hs as <- <-. split; [|done]. eapply Herr; [reflexivity|]. by apply leads_mod_pow.
Qed.

(** ** Sequences of calls *)

Fixpoint bn_run (fuel : nat) (cs : list bn_call) : M (mpi_state E) (list (option (Z * option Z))) :=
  match cs with
  | [] => mret []
  | c :: cs =>
      let! r := bn_exec fuel c in
      let! rs := bn_run fuel cs in
      mret (r :: rs)
  end.

(** The same in the specification, for any memory of OpenSSL: a call on the
    memory gives the result that is specified, the others any one. *)
Inductive heap_run : list bn_call -> list (option (Z * option Z)) -> heap -> heap -> Prop :=
  | heap_nil h : heap_run [] [] h h
  | heap_cons mem c cs r rs h h' :
      (forall v, fst (bn_spec mem c h) = Some v -> r = Some v) ->
      heap_run cs rs (snd (bn_spec mem c h)) h' -> heap_run (c :: cs) (r :: rs) h h'.

(** C6: in every sequence of system calls that returns, the sizes that it asks
    for being below 2^30 ([bn_alloc_wraps] shows a larger one), whatever the
    calls do with the numbers, they manage the memory of the context as the
    specification says: a free slot and a size in
    whole words for each number, at most 2048 bytes in all, its release, the
    release of all by an unlock, and the accounts of the whole. The calls on
    the memory return what it says, and the two modular powers keep the number
    that they allocate for the exponent. *)
Theorem bn_run_refines fuel cs rs h s s' : heap_ok h -> books_of s = accounts h -> Forall bn_call_ok cs ->
  bn_run fuel cs s = Ret rs s' ->
  exists h', heap_run cs rs h h' /\ heap_ok h' /\ books_of s' = accounts h'.
Proof.
  intros Hh Hb Hc. revert rs h s Hh Hb. induction Hc as [|c cs Hc Hcs IH]; intros rs h s Hh Hb; cbn [bn_run].
  - intros [= <- <-]. exists h. by split; [constructor|].
  - unfold mbind at 1. destruct (bn_exec fuel c s) as [r s1| |] eqn:Hr; [|done..].
    unfold mbind at 1. destruct (bn_run fuel cs s1) as [rs1 s2| |] eqn:Hrs; [|done..]. intros [= <- <-].
    pose proof (bn_step fuel c h s Hh Hb Hc) as Hstep. destruct (bn_spec (bn_memory c s) c h) as [out h1] eqn:Hs.
    destruct Hstep as (Hh1 & Hb1 & Hout). destruct (IH rs1 h1 s1) as (h' & Hrun & Hh' & Hb'); [done|by apply (Hb1 r)|done|].
    exists h'. split; [|done]. apply (heap_cons (bn_memory c s)); rewrite Hs; [|done]. cbn [fst].
    intros v ->. destruct (Hout v eq_refl) as [s3 H3]. rewrite Hr in H3. by injection H3.
Qed.

(** ** The numbers that are left allocated *)

Lemma mod_pow_ok_room h W r a bytes len n s s' : heap_ok h -> books_of s = accounts h -> word h = Some W ->
  sys_cx_bn_mod_pow r a bytes len n s = Ret CX_OK s' ->
  exists h', heap_ok h' /\ word h' = Some W /\ used (held h') = used (held h) + W /\ books_of s' = accounts h'.
Proof.
  intros Hh Hb HW Hrun. pose proof (leads_mod_pow h r a bytes len n s Hh Hb _ _ Hrun) as Hb'.
  unfold mod_pow_spec in Hb'. rewrite HW in Hb'. destruct (Hh) as [_ Hw]. rewrite HW in Hw. destruct Hw as (HW1 & _ & Hf & _).
  pose proof (round_to_self W ltac:(lia)) as HWW. set (mem := fst (BN_new (openssl s))) in *.
  exists (snd (alloc_spec mem W h)). split; [apply alloc_ok; [done|lia]|].
  destruct (bn_alloc_refines h W s Hh Hb ltac:(lia)) as (s1 & Ha & _). fold mem in Ha.
  assert (fst (alloc_spec mem W h) <> (CX_MEMORY_FULL, Some bn_none)) as Hroom.
  { intros Hfull. rewrite Hfull in Ha. revert Hrun. unfold sys_cx_bn_mod_pow.
    rewrite (bn_size_run h W) by done. unfold sys_cx_bn_alloc_init. unfold mbind at 1.
    by rewrite (mbind_ret _ _ _ _ _ Ha). }
  assert (word (snd (alloc_spec mem W h)) = Some W /\ used (held (snd (alloc_spec mem W h))) = used (held h) + W) as [? ?].
  { revert Hroom. unfold alloc_spec. rewrite HW, HWW. destruct (first_free (held h)) as [i|] eqn:Hi; [|done].
    destruct (_ && _); [|done]. intros _. cbn [snd word held]. split; [done|].
    rewrite (used_insert _ _ _ _ (first_free_lookup _ _ Hi)). cbn [held_size]. lia. }
  by split_and!.
Qed.

Fixpoint mod_pows (calls : list (Z * Z * list Z * Z * Z)) : M (mpi_state E) (list Z) :=
  match calls with
  | [] => mret []
  | (r, a, e, len, n) :: calls =>
      let! error := sys_cx_bn_mod_pow r a e len n in
      let! errors := mod_pows calls in
      mret (error :: errors)
  end.

(** The modular power never releases the number that it allocates
    for the exponent. So in a locked context only as many powers succeed as
    words are left, whatever their operands are. *)
Theorem mod_pow_leaks h W calls s s' : heap_ok h -> books_of s = accounts h -> word h = Some W ->
  mod_pows calls s = Ret (replicate (length calls) CX_OK) s' ->
  mpi_total_memory s' = mpi_total_memory s + W * zlen calls /\
  mpi_total_memory s + W * zlen calls <= MAX_MPI_BYTE_SIZE.
Proof.
  assert (forall h s, books_of s = accounts h -> word h = Some W -> mpi_total_memory s = used (held h)) as Htotal
    by (intros h0 s0 H0 HW0; unfold accounts in H0; rewrite HW0 in H0; by injection H0).
  revert h s. induction calls as [|[[[[r a] e] len] n] calls IH]; intros h s Hh Hb HW; cbn [mod_pows length replicate].
  - intros [= <-]. rewrite (@zlen_nil (Z * Z * list Z * Z * Z)), (Htotal h s Hb HW). destruct Hh as [_ Hw].
    rewrite HW in Hw. lia.
  - unfold mbind at 1. destruct (sys_cx_bn_mod_pow r a e len n s) as [error s1| |] eqn:Hr; [|done..].
    unfold mbind at 1. destruct (mod_pows calls s1) as [errors s2| |] eqn:Hrs; [|done..].
    intros [= -> -> <-]. destruct (mod_pow_ok_room h W _ _ _ _ _ _ _ Hh Hb HW Hr) as (h1 & Hh1 & HW1 & Hu & Hb1).
    destruct (IH h1 s1 Hh1 Hb1 HW1 Hrs) as [H1 H2]. rewrite zlen_cons, (Htotal h s), (Htotal h1 s1) in * by done. lia.
Qed.

(** ** Handles *)

(** A handle that designates a number. *)
Definition live (h : heap) (x : Z) : bool :=
  match held h !! Z.to_nat x with Some (Some _) => true | _ => false end.

(** The error for the handles of a call. *)
Definition handle_error (h : heap) (l : list Z) : Z :=
  match word h with
  | None => CX_NOT_LOCKED
  | Some _ =>
      if forallb in_array l then if forallb (live h) l then CX_OK else CX_MEMORY_FULL
      else if existsb (fun x => x =? bn_none) l then CX_MEMORY_FULL else CX_INVALID_PARAMETER
  end.

Lemma slot_used_run {B} h x (k : bool -> M (mpi_state E) B) s : heap_ok h -> books_of s = accounts h ->
  in_array x = true -> mbind (slot_used x) k s = k (live h x) s.
Proof.
  intros Hh Hb Hx. assert (held_of (cx_mpi_array s) = held h) as Hheld
    by (unfold accounts in Hb; destruct (word h); by injection Hb).
  assert (Z.to_nat x < 64)%nat as Hlt by (unfold in_array, MAX_MPI_ARRAY_ENTRIES in Hx; lia).
  unfold slot_used, live. rewrite <- Hheld. unfold held_of. rewrite list_lookup_fmap.
  destruct (lookup_lt_is_Some_2 (cx_mpi_array s) (Z.to_nat x)) as [c Hc].
  { rewrite <- (length_fmap (fun c => (fun _ => size c) <$> mpi c)). fold (held_of (cx_mpi_array s)).
    by rewrite Hheld, (ho_len _ Hh). }
  unfold mbind at 1. rewrite gets_run, (mlift_some _ _ _ _ Hc), Hc. cbn. by destruct (mpi c).
Qed.

Ltac handles_tac h :=
  match goal with |- _ = Ret (?e, _) ?s => etransitivity; [apply (mbind_ret _ _ s e s)|reflexivity] end;
  unfold check, handle_error; rewrite (locked_run h) by done; destruct (word h) as [W|]; [|done];
  change (truthy CX_OK) with false; cbv iota; cbn [forallb]; rewrite ?andb_true_r, ?andb_assoc;
  let Hx := fresh in
  match goal with |- context [if ?b then _ else no_slot _] => destruct b eqn:Hx end; [|done];
  rewrite ?andb_true_iff in Hx; rewrite ?(slot_used_run h) by (done || apply Hx); reflexivity.

Lemma to_mpi_run h x s : heap_ok h -> books_of s = accounts h ->
  cx_bn_to_mpi x s = Ret (handle_error h [x], Z.to_nat x) s.
Proof. intros Hh Hb. unfold cx_bn_to_mpi. handles_tac h. Qed.

Lemma ab_to_mpi_run h a b s : heap_ok h -> books_of s = accounts h ->
  cx_bn_ab_to_mpi a b s = Ret (handle_error h [a; b], (Z.to_nat a, Z.to_nat b)) s.
Proof. intros Hh Hb. unfold cx_bn_ab_to_mpi. handles_tac h. Qed.

Lemma rab_to_mpi_run h r a b s : heap_ok h -> books_of s = accounts h ->
  cx_bn_rab_to_mpi r a b s = Ret (handle_error h [a; b; r], (Z.to_nat r, Z.to_nat a, Z.to_nat b)) s.
Proof. intros Hh Hb. unfold cx_bn_rab_to_mpi. handles_tac h. Qed.

Lemma rabm_to_mpi_run h r a b m s : heap_ok h -> books_of s = accounts h ->
  cx_bn_rabm_to_mpi r a b m s =
    Ret (handle_error h [a; b; r; m], (Z.to_nat r, Z.to_nat a, Z.to_nat b, Z.to_nat m)) s.
Proof. intros Hh Hb. unfold cx_bn_rabm_to_mpi. handles_tac h. Qed.
End refinement.

(** ** Through the handles *)

Section values.
Context {E : Type} `{!OpensslBn E, !OpensslLaws E}.
Implicit Types s : mpi_state E.

Lemma num_live h x v s : books_of s = accounts h -> num s (Z.to_nat x) = Some v -> live h x = true.
Proof.
  intros Hb Hx. assert (held_of (cx_mpi_array s) = held h) as Hheld
    by (unfold accounts in Hb; destruct (word h); by injection Hb).
  unfold live. rewrite <- Hheld. unfold held_of. rewrite list_lookup_fmap. unfold num in Hx.
  destruct (cx_mpi_array s !! Z.to_nat x) as [c|]; [|done]. cbn in *. by rewrite Hx.
Qed.

Lemma handles_ok h W l : word h = Some W -> Forall (fun x => in_array x = true /\ live h x = true) l ->
  handle_error h l = CX_OK.
Proof.
  intros HW Hl. unfold handle_error. rewrite HW.
  assert (forallb in_array l = true /\ forallb (live h) l = true) as [-> ->]; [|done].
  induction Hl as [|x l [H1 H2] _ [IH1 IH2]]; [done|]. cbn. by rewrite H1, H2, IH1, IH2.
Qed.

Lemma num_in_array h x v s : heap_ok h -> books_of s = accounts h -> num s (Z.to_nat x) = Some v ->
  in_array x = true.
Proof.
  intros Hh Hb Hx. pose proof (num_live h x v s Hb Hx) as Hl. unfold live in Hl.
  destruct (held h !! Z.to_nat x) eqn:Ho; [|done]. apply lookup_lt_Some in Ho. rewrite (ho_len _ Hh) in Ho.
  unfold in_array, MAX_MPI_ARRAY_ENTRIES. lia.
Qed.

Lemma ready_of h W x v s : heap_ok h -> books_of s = accounts h -> word h = Some W -> num s (Z.to_nat x) = Some v ->
  ready W s.
Proof.
  intros Hh Hb HW Hx. pose proof (num_live h x v s Hb Hx) as Hl. unfold live in Hl. destruct Hh as [_ Hw].
  unfold accounts in Hb. rewrite HW in *. destruct Hw as (HW1 & HW2 & Hf & Hu).
  assert (W <= MAX_MPI_BYTE_SIZE) as Hmax.
  { destruct (held h !! Z.to_nat x) as [[n|]|] eqn:Ho; try done. pose proof (used_ge W _ _ _ Hf Ho) as Hge. cbn in Hge.
    destruct (Forall_lookup_1 _ _ _ _ Hf Ho) as [Hn Hm]. rewrite (Z.div_mod n W) in Hge, Hn by lia.
    assert (0 < n / W) by nia. nia. }
  injection Hb as H1 _ _ H2 _. split; [done|done|]. split; [done|lia].
Qed.

(** The power in the number that was allocated. *)
Definition power_in (r a n p : mpi_ptr) : M (mpi_state E) Z :=
  let! m := bn_get n in
  let! ok := call_to p (BN_copy m) in
  let! ok := (if ok then let! v := bn_get p in call_to p (BN_sub_word v 2) else mret false) in
  let! ok := (if ok then
      let! x := bn_get a in let! e := bn_get p in let! m := bn_get n in call_to r (BN_mod_exp x e m)
    else mret false) in
  mret (internal ok).

Lemma quiet_power_in r a n p b : keeps (fun s => books_of s = b) (power_in r a n p).
Proof. unfold power_in. keeps_auto; eauto using quiet_bn_get, quiet_call_to. Qed.

Lemma invert_power p r a n x m s :
  is_Some (num s p) -> is_Some (num s r) -> num s a = Some x -> num s n = Some m -> p <> a -> p <> n -> 2 <= m ->
  exists ok s', power_in r a n p s = Ret (internal ok) s' /\
    (forall y, y <> r -> y <> p -> num s' y = num s y) /\
    (ok = true -> num s' r = Some (x ^ (m - 2) mod m)).
Proof.
  intros Hp Hr Ha Hn Hpa Hpn Hm. unfold power_in. rewrite (bn_get_run _ _ _ _ Hn).
  destruct (BN_copy m (openssl s)) as [[ok v] e] eqn:Ec. rewrite (call_to_run p _ _ _ _ _ s Hp Ec).
  set (s1 := left_in p v e s).
  assert (forall y, y <> p -> num s1 y = num s y) as H1 by (intros y Hy; unfold s1; by rewrite num_left_ne).
  destruct ok.
  2: { exists false, s1. split; [done|]. split; [intros y _ Hy; by apply H1|done]. }
  apply BN_copy_spec in Ec as ->. assert (num s1 p = Some m) as Hp1 by (by apply num_left).
  destruct (BN_sub_word m 2 (openssl s1)) as [[ok v] e2] eqn:Es.
  assert (forall B (k : bool -> M (mpi_state E) B), mbind (let! v := bn_get p in call_to p (BN_sub_word v 2)) k s1
    = k ok (left_in p v e2 s1)) as ->.
  { intros B k. pose proof (call_to_run p _ _ _ _ (fun ok => mret ok) s1 ltac:(by rewrite Hp1) Es) as Hc.
    unfold mbind at 1. rewrite (bn_get_run _ _ _ _ Hp1). unfold mbind, mret in Hc.
    destruct (call_to p (BN_sub_word m 2) s1); [by injection Hc as -> ->|done..]. }
  set (s2 := left_in p v e2 s1).
  assert (forall y, y <> p -> num s2 y = num s y) as H2 by (intros y Hy; unfold s2; rewrite num_left_ne by done; by apply H1).
  destruct ok.
  2: { exists false, s2. split; [done|]. split; [intros y _ Hy; by apply H2|done]. }
  apply BN_sub_word_spec in Es as ->. assert (num s2 p = Some (m - 2)) as Hp2 by (apply num_left; by rewrite Hp1).
  assert (is_Some (num s2 r)) as Hr2 by (by do 2 apply num_left_some).
  destruct (BN_mod_exp x (m - 2) m (openssl s2)) as [[ok v] e3] eqn:Ee.
  exists ok, (left_in r v e3 s2). split; [|split].
  - pose proof (call_to_run r _ _ _ _ (fun ok => mret ok) s2 Hr2 Ee) as Hc. unfold mbind at 1.
    rewrite (bn_get_run a x), (bn_get_run p (m - 2)), (bn_get_run n m) by (try done; by rewrite H2).
    unfold mbind, mret in Hc. destruct (call_to r (BN_mod_exp x (m - 2) m) s2); [by injection Hc as -> ->|done..].
  - intros y Hyr Hyp. rewrite num_left_ne by done. by apply H2.
  - intros ->. apply BN_mod_exp_spec in Ee as ->; [|lia..]. by apply num_left.
Qed.

(** No memory for a number of [n] bytes. *)
Definition lacks (h : heap) (n : Z) s : Prop :=
  first_free (held h) = None \/ fst (BN_new (openssl s)) = false \/ MAX_MPI_BYTE_SIZE < n + used (held h).

Lemma alloc_words h W n s : heap_ok h -> books_of s = accounts h -> word h = Some W ->
  W <= n <= MAX_MPI_BYTE_SIZE -> n mod W = 0 ->
  exists x bn s', cx_mpi_alloc n s = Ret (x, bn) s' /\
    match x with
    | Some i => bn = Z.of_nat i /\ num s i = None /\ num s' i = Some 0 /\ (forall y, y <> i -> num s' y = num s y) /\
        books_of s' = alloc_books i n (accounts h)
    | None => bn = bn_none /\ (forall y, num s' y = num s y) /\ lacks h n s
    end.
Proof.
  intros Hh Hb HW Hn Hm. unfold lacks. destruct (Hh) as [_ Hw]. rewrite HW in Hw. destruct Hw as (HW1 & _ & Hfo & Hu).
  pose proof (used_nonneg W _ Hfo). unfold MAX_MPI_BYTE_SIZE in Hn, Hu.
  assert (size_to_mpi_word_bytes n s = Ret n s) as Hsz.
  { rewrite (word_bytes_books h W) by (done || lia). by rewrite round_to_mult by lia. }
  assert (bk_word (accounts h) = W /\ bk_held (accounts h) = held h /\ bk_total (accounts h) = used (held h)) as (HbW & Hbh & Hbt)
    by (unfold accounts; by rewrite HW).
  destruct (alloc_run n n s (accounts h) Hb ltac:(rewrite HbW; lia) Hsz) as [s1 Hal]. rewrite Hbh, Hbt in Hal.
  assert (w32 (n + used (held h)) = n + used (held h)) as Hw32 by (apply Z.mod_small; lia). rewrite Hw32 in Hal.
  destruct (first_free (held h)) as [i|] eqn:Hi; [destruct (_ && _) eqn:Hc|].
  - destruct Hal as (Hal & Hb1 & Hi1 & Hnum). exists (Some i), (Z.of_nat i), s1. split_and!; try done.
    apply first_free_lookup in Hi. assert (held_of (cx_mpi_array s) = held h) as Hheld
      by (unfold accounts in Hb; rewrite HW in Hb; by injection Hb).
    rewrite <- Hheld in Hi. unfold held_of in Hi. rewrite list_lookup_fmap in Hi. unfold num.
    destruct (cx_mpi_array s !! i) as [c|]; [|done]. cbn in *. by destruct (mpi c).
  - destruct Hal as (Hal & _ & Hnum). exists None, bn_none, s1. split_and!; try done. right.
    apply andb_false_iff in Hc as [?|?%Z.leb_gt]; auto.
  - destruct Hal as (Hal & _ & Hnum). exists None, bn_none, s1. split_and!; auto.
Qed.

(** C13: the inverse modulo a prime is the power to the number less 2,
    computed in a number that is allocated for the time of the call: whatever
    happens, the memory is accounted for as before and the other numbers are
    unchanged. It fails for lack of memory only when there is none for a number
    of the size of the modulus. *)
Theorem bn_mod_invert_nprime_ok h W r a n x m s :
  heap_ok h -> books_of s = accounts h -> word h = Some W ->
  is_Some (num s (Z.to_nat r)) -> num s (Z.to_nat a) = Some x -> num s (Z.to_nat n) = Some m -> 2 <= m -> fits W m ->
  exists error s', sys_cx_bn_mod_invert_nprime r a n s = Ret error s' /\ books_of s' = accounts h /\
    (forall y, is_Some (num s y) -> y <> Z.to_nat r -> num s' y = num s y) /\
    (error = CX_OK /\ num s' (Z.to_nat r) = Some (x ^ (m - 2) mod m) \/ error = CX_INTERNAL_ERROR \/
     error = CX_MEMORY_FULL /\ num s' (Z.to_nat r) = num s (Z.to_nat r) /\
       lacks h (nbytes W m) s).
Proof.
  intros Hh Hb HW Hr Ha Hn Hm Hf. pose proof (ready_of h W n m s Hh Hb HW Hn) as Hrd.
  pose proof (rd_word _ _ Hrd) as HWok. pose proof (nbytes_bounds W m HWok) as (Hn1 & _ & _ & Hn3 & _). destruct (Hf) as [_ Hmax].
  enough (exists error s', sys_cx_bn_mod_invert_nprime r a n s = Ret error s' /\
    (forall y, is_Some (num s y) -> y <> Z.to_nat r -> num s' y = num s y) /\
    (error = CX_OK /\ num s' (Z.to_nat r) = Some (x ^ (m - 2) mod m) \/ error = CX_INTERNAL_ERROR \/
     error = CX_MEMORY_FULL /\ num s' (Z.to_nat r) = num s (Z.to_nat r) /\ lacks h (nbytes W m) s))
    as (error & s' & Hrun & Hrest).
  { exists error, s'. split; [done|]. split; [by apply (leads_mod_invert h r a n s Hh Hb error)|done]. }
  unfold sys_cx_bn_mod_invert_nprime, with_mpi. rewrite (mbind_ret _ _ _ _ _ (rab_to_mpi_run h r a n s Hh Hb)).
  destruct Hr as [vr Hr]. rewrite (handles_ok h W) by (try done; repeat constructor; eauto using num_live, num_in_array).
  change (truthy CX_OK) with false. cbv iota. unfold cx_mpi_mod_invert_nprime. rewrite (fits_run W _ m) by done.
  destruct (alloc_words h W (nbytes W m) s) as (p & bn & s1 & Hal & Hp); try done.
  rewrite (mbind_ret _ _ _ _ _ Hal). destruct p as [i|].
  2: { destruct Hp as (-> & Hnum & Hl). exists CX_MEMORY_FULL, s1. split; [done|].
    split; [intros; apply Hnum|]. right; right. split_and!; [done|apply Hnum|done]. }
  destruct Hp as (-> & Hi & Hi1 & Hnum & Hb1).
  assert (i <> Z.to_nat r /\ i <> Z.to_nat a /\ i <> Z.to_nat n) as (Hir & Hia & Hin) by (split_and!; congruence).
  destruct (invert_power i (Z.to_nat r) (Z.to_nat a) (Z.to_nat n) x m s1) as (ok & s2 & Hpow & Hother & Hv);
    rewrite ?Hnum by done; try done.
  pose proof (quiet_power_in (Z.to_nat r) (Z.to_nat a) (Z.to_nat n) i _ s1 Hb1) as Hb2. rewrite Hpow in Hb2.
  unfold power_in in Hpow. cbv iota. rewrite (mbind_ret _ _ _ _ _ Hpow).
  assert (bk_lock (accounts h) = true /\ bk_word (accounts h) = W /\ length (bk_held (accounts h)) = 64%nat) as (? & HbW & ?)
    by (unfold accounts; rewrite HW; cbn; by rewrite (ho_len _ Hh)).
  destruct (destroy_run (Z.of_nat i) s2 _ Hb2) as (s3 & Hd & _ & Hnum3); [cbn; by rewrite length_insert| |].
  { left. cbn. rewrite HbW. split; [done|]. destruct HWok. lia. }
  rewrite Nat2Z.id in Hnum3. rewrite (mbind_ret _ _ _ _ _ Hd). exists (internal ok), s3. split; [done|]. split.
  - intros y [v Hy] Hyr. assert (y <> i) as Hyi by congruence. by rewrite Hnum3, Hother, Hnum.
  - destruct ok; [left|right; by left]. split; [done|]. rewrite Hnum3 by done. by apply Hv.
Qed.

Lemma live_num h x s : books_of s = accounts h -> live h x = true -> is_Some (num s (Z.to_nat x)).
Proof.
  intros Hb Hl. assert (held_of (cx_mpi_array s) = held h) as Hheld
    by (unfold accounts in Hb; destruct (word h); by injection Hb).
  unfold live in Hl. rewrite <- Hheld in Hl. unfold held_of in Hl. rewrite list_lookup_fmap in Hl. unfold num.
  destruct (cx_mpi_array s !! Z.to_nat x) as [c|]; [|done]. cbn in *. by destruct (mpi c).
Qed.

(** A number is given through its handle. *)
Lemma bn_init_ok h W x bytes s : heap_ok h -> books_of s = accounts h -> word h = Some W ->
  live h x = true -> in_array x = true ->
  exists error s', sys_cx_bn_init x bytes (zlen bytes) s = Ret error s' /\ books_of s' = accounts h /\
    (error = CX_INTERNAL_ERROR \/ error = CX_OK /\ num s' (Z.to_nat x) = Some (be_combine bytes)).
Proof.
  intros Hh Hb HW Hl Hx. unfold sys_cx_bn_init, with_mpi. rewrite (mbind_ret _ _ _ _ _ (to_mpi_run h x s Hh Hb)).
  rewrite (handles_ok h W) by (try done; by repeat constructor). change (truthy CX_OK) with false. cbv iota.
  pose proof (live_num h x s Hb Hl) as Hn.
  destruct (mpi_init (Z.to_nat x) bytes s Hn) as (error & v & e & Hi & Hv). rewrite Hi. exists error, (left_in (Z.to_nat x) v e s).
  split; [done|]. split.
  - assert (keeps (fun s => books_of s = accounts h) (cx_mpi_init (Z.to_nat x) bytes (zlen bytes))) as Hk
      by (unfold cx_mpi_init; keeps_auto; eauto using quiet_call_to).
    specialize (Hk s Hb). by rewrite Hi in Hk.
  - destruct Hv as [-> | [-> ->]]; [by left|right]. split; [done|by apply num_left].
Qed.

(** The bytes given to a new number are the ones that an export
    of the same length gives back. *)
Theorem bn_roundtrip h W size bytes dst s : heap_ok h -> books_of s = accounts h -> word h = Some W ->
  0 <= size <= 2 ^ 30 -> bytes_ok bytes -> fits W (be_combine bytes) -> zlen dst = zlen bytes ->
  exists error x s', sys_cx_bn_alloc_init size bytes (zlen bytes) s = Ret (error, Some x) s' /\
    (error = CX_MEMORY_FULL \/ error = CX_INTERNAL_ERROR \/
     error = CX_OK /\ sys_cx_bn_export x dst (zlen bytes) s' = Ret (CX_OK, bytes) s').
Proof.
  intros Hh Hb HW Hs Hbytes Hf Hd. destruct (bn_alloc_refines h size s Hh Hb Hs) as (s1 & Ha & Hb1).
  unfold sys_cx_bn_alloc_init. set (mem := fst (BN_new (openssl s))) in *.
  pose proof (alloc_ok mem size h Hh ltac:(lia)) as Hh1. revert Ha Hb1 Hh1. unfold alloc_spec. rewrite HW.
  destruct (first_free (held h)) as [i|] eqn:Hi; [destruct (_ && _)|]; cbn [fst snd]; intros Ha Hb1 Hh1.
  2, 3: exists CX_MEMORY_FULL, bn_none, s1; rewrite (mbind_ret _ _ _ _ _ Ha); split; [done|by left].
  set (h1 := mk_heap _ _) in *. apply first_free_lookup in Hi.
  assert (i < 64)%nat as Hlt by (apply lookup_lt_Some in Hi; by rewrite (ho_len _ Hh) in Hi).
  assert (live h1 (Z.of_nat i) = true) as Hl.
  { unfold live. rewrite Nat2Z.id. cbn. rewrite list_lookup_insert_eq; [done|]. by rewrite (ho_len _ Hh). }
  assert (in_array (Z.of_nat i) = true) as Hin by (unfold in_array, MAX_MPI_ARRAY_ENTRIES; lia).
  destruct (bn_init_ok h1 W (Z.of_nat i) bytes s1) as (error & s2 & Hinit & Hb2 & He); try done.
  exists error, (Z.of_nat i), s2. rewrite (mbind_ret _ _ _ _ _ Ha). change (truthy CX_OK) with false. cbv iota.
  rewrite (mlift_some _ _ _ (Z.of_nat i)) by done. rewrite (mbind_ret _ _ _ _ _ Hinit). split; [done|]. right.
  destruct He as [-> | [-> Hv]]; [by left|right]. split; [done|]. unfold sys_cx_bn_export.
  rewrite (mbind_ret _ _ _ _ _ (to_mpi_run h1 _ s2 Hh1 Hb2)).
  rewrite (handles_ok h1 W) by (try done; by repeat constructor). change (truthy CX_OK) with false. cbv iota.
  pose proof (zlen_nonneg bytes). rewrite (mpi_export W _ (be_combine bytes)) by (done || lia || by apply (ready_of h1 W (Z.of_nat i) (be_combine bytes) s2)).
  rewrite <- Hd, zdrop_all, app_nil_r by lia. do 2 f_equal. apply be_split_combine; [done|]. rewrite Hd. unfold zlen. by rewrite Nat2Z.id.
Qed.
End values.

(** ** Handles and pointers *)

Section pointers.
Context {E : Type} `{!OpensslBn E}.
Implicit Types s : mpi_state E.

Definition points s (x : mpi_ptr) : Prop := is_Some (num s x).

Lemma points_ok h l x s : books_of s = accounts h -> handle_error h l = CX_OK -> x ∈ l -> points s (Z.to_nat x).
Proof.
  intros Hb Hl Hx. unfold handle_error in Hl. destruct (word h); [|done]. destruct (forallb in_array l); [|by destruct (existsb _ l)].
  destruct (forallb (live h) l) eqn:Hlive; [|done]. apply (live_num h); [done|].
  rewrite forallb_forall in Hlive. apply Hlive. by apply list_elem_of_In.
Qed.

(** C33: in a locked context the conversions accept the handles that
    designate numbers and only them; whatever the handles are, a conversion
    that succeeds gives pointers to numbers, to which the operations may be
    applied, and leaves the state as it is. *)
Theorem bn_handles h r a b m s : heap_ok h -> books_of s = accounts h ->
  (cx_bn_to_mpi r s = Ret (handle_error h [r], Z.to_nat r) s /\
   cx_bn_ab_to_mpi a b s = Ret (handle_error h [a; b], (Z.to_nat a, Z.to_nat b)) s /\
   cx_bn_rab_to_mpi r a b s = Ret (handle_error h [a; b; r], (Z.to_nat r, Z.to_nat a, Z.to_nat b)) s /\
   cx_bn_rabm_to_mpi r a b m s =
     Ret (handle_error h [a; b; r; m], (Z.to_nat r, Z.to_nat a, Z.to_nat b, Z.to_nat m)) s) /\
  (forall l, handle_error h l = CX_OK -> Forall (fun x => x < 64 /\ points s (Z.to_nat x)) l) /\
  (word h <> None -> forall l, Forall (fun x => x < 64 /\ points s (Z.to_nat x)) l -> handle_error h l = CX_OK).
Proof.
  intros Hh Hb. split; [|split].
  - split_and!; [by apply to_mpi_run|by apply ab_to_mpi_run|by apply rab_to_mpi_run|by apply rabm_to_mpi_run].
  - intros l Hl. apply Forall_forall. intros x Hx. split; [|by eapply points_ok].
    unfold handle_error in Hl. destruct (word h); [|done]. destruct (forallb in_array l) eqn:Ha; [|by destruct (existsb _ l)].
    rewrite forallb_forall in Ha. apply list_elem_of_In in Hx. apply Ha in Hx. unfold in_array, MAX_MPI_ARRAY_ENTRIES in Hx. lia.
  - intros HW l Hl. destruct (word h) as [W|] eqn:HWs; [|done]. apply (handles_ok h W); [done|].
    apply (Forall_impl _ _ _ Hl). intros x [Hx [v Hv]]. split; [unfold in_array, MAX_MPI_ARRAY_ENTRIES; lia|by eapply num_live].
Qed.

(** The check of an allocation is made in 32 bits: a size that wraps
    around with the memory in use passes, and the accounts start again from 0. *)
Theorem bn_alloc_wraps h W i s : heap_ok h -> books_of s = accounts h -> word h = Some W -> 2 ^ 32 mod W = 0 ->
  0 < used (held h) -> first_free (held h) = Some i -> fst (BN_new (openssl s)) = true ->
  exists s', sys_cx_bn_alloc (2 ^ 32 - used (held h)) s = Ret (CX_OK, Some (Z.of_nat i)) s' /\
    mpi_total_memory s' = 0 /\ held_of (cx_mpi_array s') = <[i := Some (2 ^ 32 - used (held h))]> (held h).
Proof.
  intros Hh Hb HW Hdiv Hu Hi Hnew. destruct (Hh) as [_ Hw]. rewrite HW in Hw. destruct Hw as (HW1 & _ & Hf & Hmax).
  unfold MAX_MPI_BYTE_SIZE in Hmax. set (u := used (held h)) in *. pose proof (used_mod W (held h) ltac:(lia) Hf) as Hum. fold u in Hum.
  assert (mpi_word_size s = W /\ mpi_total_memory s = u) as [HWs Ht]
    by (unfold accounts in Hb; rewrite HW in Hb; by injection Hb).
  assert (W <= u) as HWu by (rewrite (Z.div_mod u W) in Hu |- * by lia; assert (0 < u / W) by nia; nia).
  assert ((2 ^ 32 - u) mod W = 0) as Hm by (rewrite Zminus_mod, Hdiv, Hum; by apply Z.mod_0_l; lia).
  assert (size_to_mpi_word_bytes (2 ^ 32 - u) s = Ret (2 ^ 32 - u) s) as Hsz.
  { unfold size_to_mpi_word_bytes. rewrite gets_run, HWs. destruct (Z.eqb_spec (2 ^ 32 - u) 0); [lia|].
    destruct (Z.eqb_spec W 0); [lia|]. unfold mret, w32. f_equal.
    rewrite (Z.mod_small (W - 1)), (Z.mod_small (2 ^ 32 - u + (W - 1))) by lia.
    pose proof (round_to_mult W (2 ^ 32 - u) ltac:(lia) ltac:(lia) Hm) as Hr. unfold round_to in Hr.
    destruct (Z.eqb_spec (2 ^ 32 - u) 0); [lia|]. rewrite Hr. apply Z.mod_small. lia. }
  assert (bk_held (accounts h) = held h /\ bk_total (accounts h) = u) as [Hbh Hbt] by (unfold accounts; by rewrite HW).
  destruct (alloc_run (2 ^ 32 - u) (2 ^ 32 - u) s (accounts h) Hb) as [s1 Hal]; [unfold accounts; rewrite HW; cbn; lia|done|].
  rewrite Hbh, Hbt, Hi, Hnew in Hal. replace (w32 (2 ^ 32 - u + u)) with 0 in Hal by (by replace (2 ^ 32 - u + u) with (2 ^ 32) by lia).
  destruct Hal as (Hal & Hb1 & _). exists s1. unfold sys_cx_bn_alloc. rewrite (locked_run h) by done. rewrite HW.
  change (truthy CX_OK) with false. cbv iota. rewrite (mbind_ret _ _ _ _ _ Hal). split; [done|].
  unfold alloc_books in Hb1. rewrite Hbt, Hbh in Hb1. injection Hb1 as _ -> _ _ ->. split; [|done].
  by replace (u + (2 ^ 32 - u)) with (2 ^ 32) by lia.
Qed.
End pointers.

(** * Instances *)

Import Integers.

(** The memory of [holding]. *)
Definition holding_heap (n : nat) : heap := mk_heap (Some 16) (replicate n (Some 16) ++ replicate (64 - n) None).

Lemma holding_heap_ok n : (n <= 64)%nat -> heap_ok (holding_heap n).
Proof.
  intros Hn. assert (forall k, used (replicate k (@None Z)) = 0) as Hnone by (by induction k).
  assert (used (held (holding_heap n)) = 16 * Z.of_nat n) as Hu.
  { unfold holding_heap. cbn [held]. generalize (64 - n)%nat. intros k. induction n as [|n IH].
    - apply Hnone.
    - cbn [replicate app]. rewrite used_cons, IH by lia. cbn [held_size]. lia. }
  split.
  - unfold holding_heap. cbn. rewrite length_app, !length_replicate. lia.
  - cbn [word holding_heap]. split_and!; [lia..|done| |].
    + apply Forall_app. split; by apply Forall_replicate.
    + rewrite Hu. unfold MAX_MPI_BYTE_SIZE. lia.
Qed.

(** The state before any call. *)
Definition not_locked : mpi_state env := mk_mpi_state false (replicate 64 (mk_mpi None 0)) 0 0 0 [].

Lemma bn_run_refines_witness :
  exists rs s', bn_run 4 [bn_lock 32 0; bn_alloc 40; bn_alloc_init 32 [1; 0; 7] 3; bn_destroy (Some 0); bn_alloc 4000; bn_unlock; bn_alloc 1]
    not_locked = Ret rs s' /\
  exists h', heap_run [bn_lock 32 0; bn_alloc 40; bn_alloc_init 32 [1; 0; 7] 3; bn_destroy (Some 0); bn_alloc 4000; bn_unlock; bn_alloc 1]
    rs heap0 h' /\ heap_ok h' /\ books_of s' = accounts h'.
Proof.
  eexists _, _. split; [by vm_compute|]. apply (bn_run_refines 4 _ _ heap0 not_locked).
  - by split.
  - by vm_compute.
  - repeat (constructor; [cbn; lia|]). constructor.
  - by vm_compute.
Defined.

Lemma mod_pow_leaks_witness : exists s' : mpi_state env,
  mpi_total_memory s' = mpi_total_memory (holding [2; 7; 0] []) + 16 * zlen [(2, 0, [3], 1, 1); (2, 2, [2], 1, 1)] /\
  mpi_total_memory (holding [2; 7; 0] []) + 16 * zlen [(2, 0, [3], 1, 1); (2, 2, [2], 1, 1)] <= MAX_MPI_BYTE_SIZE.
Proof.
  eexists. apply (mod_pow_leaks (holding_heap 3) 16 _ (holding [2; 7; 0] [])); [apply holding_heap_ok; lia|by vm_compute|done|by vm_compute].
Defined.

(** The inverse of 3 modulo 7. *)
Lemma bn_mod_invert_nprime_ok_witness : exists error s',
  sys_cx_bn_mod_invert_nprime 2 0 1 (holding [3; 7; 0] []) = Ret error s' /\ books_of s' = accounts (holding_heap 3) /\
  (forall y, is_Some (num (holding [3; 7; 0] []) y) -> y <> Z.to_nat 2 -> num s' y = num (holding [3; 7; 0] []) y) /\
  (error = CX_OK /\ num s' (Z.to_nat 2) = Some (3 ^ (7 - 2) mod 7) \/ error = CX_INTERNAL_ERROR \/
   error = CX_MEMORY_FULL /\ num s' (Z.to_nat 2) = num (holding [3; 7; 0] []) (Z.to_nat 2) /\
     lacks (holding_heap 3) (nbytes 16 7) (holding [3; 7; 0] [])).
Proof.
  apply (bn_mod_invert_nprime_ok _ 16); try done; apply holding_heap_ok; lia.
Defined.

Lemma bn_roundtrip_witness : exists error x s',
  sys_cx_bn_alloc_init 16 [0; 1; 255] (zlen [0; 1; 255]) (holding [3] []) = Ret (error, Some x) s' /\
  (error = CX_MEMORY_FULL \/ error = CX_INTERNAL_ERROR \/
   error = CX_OK /\ sys_cx_bn_export x [9; 9; 9] (zlen [0; 1; 255]) s' = Ret (CX_OK, [0; 1; 255]) s').
Proof.
  apply (bn_roundtrip (holding_heap 1) 16); try done; [apply holding_heap_ok; lia|].
  by repeat (constructor; [by unfold is_byte|]).
Defined.

Lemma bn_handles_witness :
  (cx_bn_to_mpi 1 (holding [3; 4] []) = Ret (handle_error (holding_heap 2) [1], Z.to_nat 1) (holding [3; 4] []) /\
   cx_bn_ab_to_mpi 0 1 (holding [3; 4] [])
     = Ret (handle_error (holding_heap 2) [0; 1], (Z.to_nat 0, Z.to_nat 1)) (holding [3; 4] []) /\
   cx_bn_rab_to_mpi 1 0 1 (holding [3; 4] [])
     = Ret (handle_error (holding_heap 2) [0; 1; 1], (Z.to_nat 1, Z.to_nat 0, Z.to_nat 1)) (holding [3; 4] []) /\
   cx_bn_rabm_to_mpi 1 0 1 2 (holding [3; 4] [])
     = Ret (handle_error (holding_heap 2) [0; 1; 1; 2], (Z.to_nat 1, Z.to_nat 0, Z.to_nat 1, Z.to_nat 2)) (holding [3; 4] [])) /\
  (forall l, handle_error (holding_heap 2) l = CX_OK -> Forall (fun x => x < 64 /\ points (holding [3; 4] []) (Z.to_nat x)) l) /\
  (word (holding_heap 2) <> None -> forall l, Forall (fun x => x < 64 /\ points (holding [3; 4] []) (Z.to_nat x)) l ->
     handle_error (holding_heap 2) l = CX_OK).
Proof. apply bn_handles; [apply holding_heap_ok; lia|by vm_compute]. Defined.

Lemma bn_alloc_wraps_witness : exists s',
  sys_cx_bn_alloc (2 ^ 32 - used (held (holding_heap 2))) (holding [3; 4] []) = Ret (CX_OK, Some (Z.of_nat 2)) s' /\
  mpi_total_memory s' = 0 /\
  held_of (cx_mpi_array s') = <[2%nat := Some (2 ^ 32 - used (held (holding_heap 2)))]> (held (holding_heap 2)).
Proof. apply (bn_alloc_wraps _ 16); try done. apply holding_heap_ok; lia. Defined.
