(* ===== verification/Field25519.v ===== *)
(** The field of Curve25519: the first half of [src/bolos/cx_curve25519.c]. An
    element is ten signed limbs of 26 and 25 bits in turn; the arithmetic on
    [int32_t] and [int64_t] is checked, an overflow being undefined behaviour.
    Each operation computes its result modulo 2^255 - 19 and stays within the
    bounds that the next one asks for. *)

From S2P Require Import Prelude CxUtils BeBytes.

(** * Operations *)

Definition p25519 : Z := 2 ^ 255 - 19.

(** The results of signed operations, when they do not overflow. *)
Definition i32 (x : Z) : option Z := if (- 2 ^ 31 <=? x) && (x <? 2 ^ 31) then Some x else None.
Definition i64 (x : Z) : option Z := if (- 2 ^ 63 <=? x) && (x <? 2 ^ 63) then Some x else None.

(** The conversions to signed integers. *)
Definition s32 (x : Z) : Z := (x + 2 ^ 31) mod 2 ^ 32 - 2 ^ 31.
Definition s64 (x : Z) : Z := (x + 2 ^ 63) mod 2 ^ 64 - 2 ^ 63.

Definition shl64 (x n : Z) : Z := w64 (Z.shiftl x n).

(** [int32_t[10]]. *)
Record fe := mk_fe {
  fe0 : Z; fe1 : Z; fe2 : Z; fe3 : Z; fe4 : Z; fe5 : Z; fe6 : Z; fe7 : Z; fe8 : Z; fe9 : Z }.

Definition kBottom25Bits : Z := 0x1ffffff.
Definition kBottom26Bits : Z := 0x3ffffff.
Definition kTop39Bits : Z := s64 0xfffffffffe000000.
Definition kTop38Bits : Z := s64 0xfffffffffc000000.

Definition load_3 (s : list Z) : option Z :=
  b0 ← s !! 0%nat; b1 ← s !! 1%nat; b2 ← s !! 2%nat;
  Some (Z.lor (Z.lor b0 (shl64 b1 8)) (shl64 b2 16)).

Definition load_4 (s : list Z) : option Z :=
  b0 ← s !! 0%nat; b1 ← s !! 1%nat; b2 ← s !! 2%nat; b3 ← s !! 3%nat;
  Some (Z.lor (Z.lor (Z.lor b0 (shl64 b1 8)) (shl64 b2 16)) (shl64 b3 24)).

(** The carries from a limb of 26 bits, from one of 25, and from the last one
    to the first: the two limbs that they leave. *)
Definition carry26 (h h' : Z) : option (Z * Z) :=
  carry ← i64 (h + Z.shiftl 1 25);
  h' ← i64 (h' + Z.shiftr carry 26);
  h ← i64 (h - Z.land carry kTop38Bits);
  Some (h, h').

Definition carry25 (h h' : Z) : option (Z * Z) :=
  carry ← i64 (h + Z.shiftl 1 24);
  h' ← i64 (h' + Z.shiftr carry 25);
  h ← i64 (h - Z.land carry kTop39Bits);
  Some (h, h').

Definition carry_around (h9 h0 : Z) : option (Z * Z) :=
  carry9 ← i64 (h9 + Z.shiftl 1 24);
  x ← i64 (Z.shiftr carry9 25 * 19);
  h0 ← i64 (h0 + x);
  h9 ← i64 (h9 - Z.land carry9 kTop39Bits);
  Some (h9, h0).

(** [h[0] = h0] and so on. *)
Definition fe_store (h0 h1 h2 h3 h4 h5 h6 h7 h8 h9 : Z) : fe :=
  mk_fe (s32 h0) (s32 h1) (s32 h2) (s32 h3) (s32 h4) (s32 h5) (s32 h6) (s32 h7) (s32 h8) (s32 h9).

(** The carries of [fe_frombytes] and [fe_mul121666]. *)
Definition fe_carry (h0 h1 h2 h3 h4 h5 h6 h7 h8 h9 : Z) : option fe :=
  '(h9, h0) ← carry_around h9 h0;
  '(h1, h2) ← carry25 h1 h2;
  '(h3, h4) ← carry25 h3 h4;
  '(h5, h6) ← carry25 h5 h6;
  '(h7, h8) ← carry25 h7 h8;
  '(h0, h1) ← carry26 h0 h1;
  '(h2, h3) ← carry26 h2 h3;
  '(h4, h5) ← carry26 h4 h5;
  '(h6, h7) ← carry26 h6 h7;
  '(h8, h9) ← carry26 h8 h9;
  Some (fe_store h0 h1 h2 h3 h4 h5 h6 h7 h8 h9).

Definition fe_frombytes (s : list Z) : option fe :=
  h0 ← load_4 s;
  l1 ← load_3 (drop 4 s);
  l2 ← load_3 (drop 7 s);
  l3 ← load_3 (drop 10 s);
  l4 ← load_3 (drop 13 s);
  h5 ← load_4 (drop 16 s);
  l6 ← load_3 (drop 20 s);
  l7 ← load_3 (drop 23 s);
  l8 ← load_3 (drop 26 s);
  l9 ← load_3 (drop 29 s);
  fe_carry (s64 h0) (s64 (shl64 l1 6)) (s64 (shl64 l2 5)) (s64 (shl64 l3 3)) (s64 (shl64 l4 2))
    (s64 h5) (s64 (shl64 l6 7)) (s64 (shl64 l7 5)) (s64 (shl64 l8 4)) (s64 (shl64 (Z.land l9 8388607) 2)).

(** [q = (h + q) >> n]. *)
Definition quot_step (h n q : Z) : option Z := x ← i32 (h + q); Some (Z.shiftr x n).

(** [h' += h >> n; h &= mask]. *)
Definition carry_mask (h h' n mask : Z) : option (Z * Z) :=
  h' ← i32 (h' + Z.shiftr h n); Some (s32 (Z.land h mask), h').

(** The quotient by the prime. *)
Definition fe_quot (h : fe) : option Z :=
  let '(mk_fe h0 h1 h2 h3 h4 h5 h6 h7 h8 h9) := h in
  x ← i32 (19 * h9);
  y ← i32 (x + Z.shiftl 1 24);
  q ← quot_step h0 26 (Z.shiftr y 25);
  q ← quot_step h1 25 q;
  q ← quot_step h2 26 q;
  q ← quot_step h3 25 q;
  q ← quot_step h4 26 q;
  q ← quot_step h5 25 q;
  q ← quot_step h6 26 q;
  q ← quot_step h7 25 q;
  q ← quot_step h8 26 q;
  quot_step h9 25 q.

(** The byte that two limbs share: [(h >> n) | ((uint32_t)(h') << m)]. *)
Definition shared_byte (h n h' m : Z) : Z := w8 (Z.lor (w32 (Z.shiftr h n)) (w32 (Z.shiftl (w32 h') m))).
Definition limb_byte (h n : Z) : Z := w8 (Z.shiftr h n).

Definition limb_bytes (h0 h1 h2 h3 h4 h5 h6 h7 h8 h9 : Z) : list Z :=
  [limb_byte h0 0; limb_byte h0 8; limb_byte h0 16; shared_byte h0 24 h1 2;
   limb_byte h1 6; limb_byte h1 14; shared_byte h1 22 h2 3;
   limb_byte h2 5; limb_byte h2 13; shared_byte h2 21 h3 5;
   limb_byte h3 3; limb_byte h3 11; shared_byte h3 19 h4 6;
   limb_byte h4 2; limb_byte h4 10; limb_byte h4 18;
   limb_byte h5 0; limb_byte h5 8; limb_byte h5 16; shared_byte h5 24 h6 1;
   limb_byte h6 7; limb_byte h6 15; shared_byte h6 23 h7 3;
   limb_byte h7 5; limb_byte h7 13; shared_byte h7 21 h8 4;
   limb_byte h8 4; limb_byte h8 12; shared_byte h8 20 h9 6;
   limb_byte h9 2; limb_byte h9 10; limb_byte h9 18].

Definition fe_tobytes (h : fe) : option (list Z) :=
  q ← fe_quot h;
  let '(mk_fe h0 h1 h2 h3 h4 h5 h6 h7 h8 h9) := h in
  x ← i32 (19 * q);
  h0 ← i32 (h0 + x);
  '(h0, h1) ← carry_mask h0 h1 26 kBottom26Bits;
  '(h1, h2) ← carry_mask h1 h2 25 kBottom25Bits;
  '(h2, h3) ← carry_mask h2 h3 26 kBottom26Bits;
  '(h3, h4) ← carry_mask h3 h4 25 kBottom25Bits;
  '(h4, h5) ← carry_mask h4 h5 26 kBottom26Bits;
  '(h5, h6) ← carry_mask h5 h6 25 kBottom25Bits;
  '(h6, h7) ← carry_mask h6 h7 26 kBottom26Bits;
  '(h7, h8) ← carry_mask h7 h8 25 kBottom25Bits;
  '(h8, h9) ← carry_mask h8 h9 26 kBottom26Bits;
  let h9 := s32 (Z.land h9 kBottom25Bits) in
  Some (limb_bytes h0 h1 h2 h3 h4 h5 h6 h7 h8 h9).

Definition fe_copy (f : fe) : fe := f.
Definition fe_0 : fe := mk_fe 0 0 0 0 0 0 0 0 0 0.
Definition fe_1 : fe := mk_fe 1 0 0 0 0 0 0 0 0 0.

(** The loops over the limbs: the result may be an operand, which is read one
    limb at a time before that limb is written. *)
Definition fe_map2 (op : Z -> Z -> option Z) (f g : fe) : option fe :=
  h0 ← op (fe0 f) (fe0 g); h1 ← op (fe1 f) (fe1 g); h2 ← op (fe2 f) (fe2 g); h3 ← op (fe3 f) (fe3 g);
  h4 ← op (fe4 f) (fe4 g); h5 ← op (fe5 f) (fe5 g); h6 ← op (fe6 f) (fe6 g); h7 ← op (fe7 f) (fe7 g);
  h8 ← op (fe8 f) (fe8 g); h9 ← op (fe9 f) (fe9 g);
  Some (mk_fe h0 h1 h2 h3 h4 h5 h6 h7 h8 h9).

Definition fe_add (f g : fe) : option fe := fe_map2 (fun x y => i32 (x + y)) f g.
Definition fe_sub (f g : fe) : option fe := fe_map2 (fun x y => i32 (x - y)) f g.

(** A sum, from left to right. The products of two [int32_t] fit in 64 bits. *)
Definition sum64 (l : list Z) : option Z := foldl (fun acc x => a ← acc; i64 (a + x)) (Some 0) l.

(** The carries of [fe_mul] and [fe_sq]. *)
Definition fe_carry_product (h0 h1 h2 h3 h4 h5 h6 h7 h8 h9 : Z) : option fe :=
  '(h0, h1) ← carry26 h0 h1;
  '(h4, h5) ← carry26 h4 h5;
  '(h1, h2) ← carry25 h1 h2;
  '(h5, h6) ← carry25 h5 h6;
  '(h2, h3) ← carry26 h2 h3;
  '(h6, h7) ← carry26 h6 h7;
  '(h3, h4) ← carry25 h3 h4;
  '(h7, h8) ← carry25 h7 h8;
  '(h4, h5) ← carry26 h4 h5;
  '(h8, h9) ← carry26 h8 h9;
  '(h9, h0) ← carry_around h9 h0;
  '(h0, h1) ← carry26 h0 h1;
  Some (fe_store h0 h1 h2 h3 h4 h5 h6 h7 h8 h9).

Definition fe_mul (f g : fe) : option fe :=
  let '(mk_fe f0 f1 f2 f3 f4 f5 f6 f7 f8 f9) := f in
  let '(mk_fe g0 g1 g2 g3 g4 g5 g6 g7 g8 g9) := g in
  g1_19 ← i32 (19 * g1);
  g2_19 ← i32 (19 * g2);
  g3_19 ← i32 (19 * g3);
  g4_19 ← i32 (19 * g4);
  g5_19 ← i32 (19 * g5);
  g6_19 ← i32 (19 * g6);
  g7_19 ← i32 (19 * g7);
  g8_19 ← i32 (19 * g8);
  g9_19 ← i32 (19 * g9);
  f1_2 ← i32 (2 * f1);
  f3_2 ← i32 (2 * f3);
  f5_2 ← i32 (2 * f5);
  f7_2 ← i32 (2 * f7);
  f9_2 ← i32 (2 * f9);
  h0 ← sum64 [f0 * g0; f1_2 * g9_19; f2 * g8_19; f3_2 * g7_19; f4 * g6_19; f5_2 * g5_19; f6 * g4_19;
    f7_2 * g3_19; f8 * g2_19; f9_2 * g1_19];
  h1 ← sum64 [f0 * g1; f1 * g0; f2 * g9_19; f3 * g8_19; f4 * g7_19; f5 * g6_19; f6 * g5_19;
    f7 * g4_19; f8 * g3_19; f9 * g2_19];
  h2 ← sum64 [f0 * g2; f1_2 * g1; f2 * g0; f3_2 * g9_19; f4 * g8_19; f5_2 * g7_19; f6 * g6_19;
    f7_2 * g5_19; f8 * g4_19; f9_2 * g3_19];
  h3 ← sum64 [f0 * g3; f1 * g2; f2 * g1; f3 * g0; f4 * g9_19; f5 * g8_19; f6 * g7_19; f7 * g6_19;
    f8 * g5_19; f9 * g4_19];
  h4 ← sum64 [f0 * g4; f1_2 * g3; f2 * g2; f3_2 * g1; f4 * g0; f5_2 * g9_19; f6 * g8_19; f7_2 * g7_19;
    f8 * g6_19; f9_2 * g5_19];
  h5 ← sum64 [f0 * g5; f1 * g4; f2 * g3; f3 * g2; f4 * g1; f5 * g0; f6 * g9_19; f7 * g8_19; f8 * g7_19; f9 * g6_19];
  h6 ← sum64 [f0 * g6; f1_2 * g5; f2 * g4; f3_2 * g3; f4 * g2; f5_2 * g1; f6 * g0; f7_2 * g9_19;
    f8 * g8_19; f9_2 * g7_19];
  h7 ← sum64 [f0 * g7; f1 * g6; f2 * g5; f3 * g4; f4 * g3; f5 * g2; f6 * g1; f7 * g0; f8 * g9_19; f9 * g8_19];
  h8 ← sum64 [f0 * g8; f1_2 * g7; f2 * g6; f3_2 * g5; f4 * g4; f5_2 * g3; f6 * g2; f7_2 * g1; f8 * g0; f9_2 * g9_19];
  h9 ← sum64 [f0 * g9; f1 * g8; f2 * g7; f3 * g6; f4 * g5; f5 * g4; f6 * g3; f7 * g2; f8 * g1; f9 * g0];
  fe_carry_product h0 h1 h2 h3 h4 h5 h6 h7 h8 h9.

Definition fe_sq (f : fe) : option fe :=
  let '(mk_fe f0 f1 f2 f3 f4 f5 f6 f7 f8 f9) := f in
  f0_2 ← i32 (2 * f0);
  f1_2 ← i32 (2 * f1);
  f2_2 ← i32 (2 * f2);
  f3_2 ← i32 (2 * f3);
  f4_2 ← i32 (2 * f4);
  f5_2 ← i32 (2 * f5);
  f6_2 ← i32 (2 * f6);
  f7_2 ← i32 (2 * f7);
  f5_38 ← i32 (38 * f5);
  f6_19 ← i32 (19 * f6);
  f7_38 ← i32 (38 * f7);
  f8_19 ← i32 (19 * f8);
  f9_38 ← i32 (38 * f9);
  h0 ← sum64 [f0 * f0; f1_2 * f9_38; f2_2 * f8_19; f3_2 * f7_38; f4_2 * f6_19; f5 * f5_38];
  h1 ← sum64 [f0_2 * f1; f2 * f9_38; f3_2 * f8_19; f4 * f7_38; f5_2 * f6_19];
  h2 ← sum64 [f0_2 * f2; f1_2 * f1; f3_2 * f9_38; f4_2 * f8_19; f5_2 * f7_38; f6 * f6_19];
  h3 ← sum64 [f0_2 * f3; f1_2 * f2; f4 * f9_38; f5_2 * f8_19; f6 * f7_38];
  h4 ← sum64 [f0_2 * f4; f1_2 * f3_2; f2 * f2; f5_2 * f9_38; f6_2 * f8_19; f7 * f7_38];
  h5 ← sum64 [f0_2 * f5; f1_2 * f4; f2_2 * f3; f6 * f9_38; f7_2 * f8_19];
  h6 ← sum64 [f0_2 * f6; f1_2 * f5_2; f2_2 * f4; f3_2 * f3; f7_2 * f9_38; f8 * f8_19];
  h7 ← sum64 [f0_2 * f7; f1_2 * f6; f2_2 * f5; f3_2 * f4; f8 * f9_38];
  h8 ← sum64 [f0_2 * f8; f1_2 * f7_2; f2_2 * f6; f3_2 * f5_2; f4 * f4; f9 * f9_38];
  h9 ← sum64 [f0_2 * f9; f1_2 * f8; f2_2 * f7; f3_2 * f6; f4_2 * f5];
  fe_carry_product h0 h1 h2 h3 h4 h5 h6 h7 h8 h9.

(** [for (i = 0; i < n; ++i) fe_sq(t, t)]. *)
Fixpoint fe_sq_n (n : nat) (t : fe) : option fe :=
  match n with
  | O => Some t
  | S n => t ← fe_sq t; fe_sq_n n t
  end.

Definition fe_invert (z : fe) : option fe :=
  t0 ← fe_sq z;
  t1 ← fe_sq t0;
  t1 ← fe_sq t1;
  t1 ← fe_mul z t1;
  t0 ← fe_mul t0 t1;
  t2 ← fe_sq t0;
  t1 ← fe_mul t1 t2;
  t2 ← fe_sq t1;
  t2 ← fe_sq_n 4 t2;
  t1 ← fe_mul t2 t1;
  t2 ← fe_sq t1;
  t2 ← fe_sq_n 9 t2;
  t2 ← fe_mul t2 t1;
  t3 ← fe_sq t2;
  t3 ← fe_sq_n 19 t3;
  t2 ← fe_mul t3 t2;
  t2 ← fe_sq_n 10 t2;
  t1 ← fe_mul t2 t1;
  t2 ← fe_sq t1;
  t2 ← fe_sq_n 49 t2;
  t2 ← fe_mul t2 t1;
  t3 ← fe_sq t2;
  t3 ← fe_sq_n 99 t3;
  t2 ← fe_mul t3 t2;
  t2 ← fe_sq t2;
  t2 ← fe_sq_n 49 t2;
  t1 ← fe_mul t2 t1;
  t1 ← fe_sq t1;
  t1 ← fe_sq_n 4 t1;
  fe_mul t1 t0.

(** [b] is 0 or 1; the mask is an [unsigned int]. *)
Definition cswap_limb (b f g : Z) : Z * Z :=
  let x := Z.lxor f g in
  let x := s32 (Z.land (w32 x) (w32 (0 - b))) in
  (Z.lxor f x, Z.lxor g x).

Definition fe_cswap (f g : fe) (b : Z) : fe * fe :=
  let '(f0, g0) := cswap_limb b (fe0 f) (fe0 g) in
  let '(f1, g1) := cswap_limb b (fe1 f) (fe1 g) in
  let '(f2, g2) := cswap_limb b (fe2 f) (fe2 g) in
  let '(f3, g3) := cswap_limb b (fe3 f) (fe3 g) in
  let '(f4, g4) := cswap_limb b (fe4 f) (fe4 g) in
  let '(f5, g5) := cswap_limb b (fe5 f) (fe5 g) in
  let '(f6, g6) := cswap_limb b (fe6 f) (fe6 g) in
  let '(f7, g7) := cswap_limb b (fe7 f) (fe7 g) in
  let '(f8, g8) := cswap_limb b (fe8 f) (fe8 g) in
  let '(f9, g9) := cswap_limb b (fe9 f) (fe9 g) in
  (mk_fe f0 f1 f2 f3 f4 f5 f6 f7 f8 f9, mk_fe g0 g1 g2 g3 g4 g5 g6 g7 g8 g9).

(** The products by 121666 fit in 64 bits. *)
Definition fe_mul121666 (f : fe) : option fe :=
  let '(mk_fe f0 f1 f2 f3 f4 f5 f6 f7 f8 f9) := f in
  fe_carry (f0 * 121666) (f1 * 121666) (f2 * 121666) (f3 * 121666) (f4 * 121666)
    (f5 * 121666) (f6 * 121666) (f7 * 121666) (f8 * 121666) (f9 * 121666).

(** * Proofs *)

(** ** Checked arithmetic *)

Lemma i32_ok x : - 2 ^ 31 <= x < 2 ^ 31 -> i32 x = Some x.
Proof. intros H. unfold i32. destruct (Z.leb_spec (- 2 ^ 31) x), (Z.ltb_spec x (2 ^ 31)); [done|lia..]. Qed.

Lemma i64_ok x : - 2 ^ 63 <= x < 2 ^ 63 -> i64 x = Some x.
Proof. intros H. unfold i64. destruct (Z.leb_spec (- 2 ^ 63) x), (Z.ltb_spec x (2 ^ 63)); [done|lia..]. Qed.

Lemma s32_ok x : - 2 ^ 31 <= x < 2 ^ 31 -> s32 x = x.
Proof. intros H. unfold s32. rewrite Z.mod_small by lia. lia. Qed.

Lemma s64_ok x : - 2 ^ 63 <= x < 2 ^ 63 -> s64 x = x.
Proof. intros H. unfold s64. rewrite Z.mod_small by lia. lia. Qed.

Lemma land_high c n : 0 <= n -> Z.land c (- 2 ^ n) = 2 ^ n * (c / 2 ^ n).
Proof.
  intros Hn. assert (- 2 ^ n = Z.lnot (Z.ones n)) as -> by (rewrite Z.ones_equiv; unfold Z.lnot; lia).
  rewrite <- Z.ldiff_land, Z.ldiff_ones_r by done. rewrite Z.shiftl_mul_pow2, Z.shiftr_div_pow2 by done. lia.
Qed.

Lemma rounded_quot H h A : 0 < H -> - A <= h <= A -> exists q, (h + H) / (2 * H) = q /\
  - H <= h - 2 * H * q <= H /\ - (A / (2 * H) + 1) <= q <= A / (2 * H) + 1.
Proof.
  intros HH Hh. exists ((h + H) / (2 * H)). split; [done|].
  pose proof (Z.div_mod (h + H) (2 * H) ltac:(lia)) as Hd. pose proof (Z.mod_pos_bound (h + H) (2 * H) ltac:(lia)) as Hm.
  pose proof (Z.div_mod A (2 * H) ltac:(lia)) as HdA. pose proof (Z.mod_pos_bound A (2 * H) ltac:(lia)) as HmA.
  generalize dependent ((h + H) / (2 * H)). generalize dependent ((h + H) mod (2 * H)).
  generalize dependent (A / (2 * H)). generalize dependent (A mod (2 * H)). intros. split; [lia|nia].
Qed.

(** A carry leaves a balanced limb and moves the rest to the next one. *)
Lemma carry26_ok h h' A B : - A <= h <= A -> - B <= h' <= B -> A < 2 ^ 62 -> B < 2 ^ 62 ->
  exists a b, carry26 h h' = Some (a, b) /\ a + 2 ^ 26 * b = h + 2 ^ 26 * h' /\ - 2 ^ 25 <= a <= 2 ^ 25 /\
    - (B + A / 2 ^ 26 + 1) <= b <= B + A / 2 ^ 26 + 1.
Proof.
  intros Hh Hh' HA HB. unfold carry26. change (Z.shiftl 1 25) with (2 ^ 25). change kTop38Bits with (- 2 ^ 26).
  rewrite i64_ok by lia. cbn [option_bind base.mbind]. rewrite Z.shiftr_div_pow2, land_high by lia.
  destruct (rounded_quot (2 ^ 25) h A ltac:(lia) Hh) as (q & Hq & Ha & Hb). change (2 * 2 ^ 25) with (2 ^ 26) in *.
  rewrite Hq. assert (A / 2 ^ 26 <= 2 ^ 36) by (apply Z.div_le_upper_bound; lia).
  generalize dependent (A / 2 ^ 26). intros x Hb Hx. rewrite i64_ok by lia. cbn [option_bind base.mbind].
  rewrite i64_ok by lia. exists (h - 2 ^ 26 * q), (h' + q). split; [done|]. lia.
Qed.

Lemma carry25_ok h h' A B : - A <= h <= A -> - B <= h' <= B -> A < 2 ^ 62 -> B < 2 ^ 62 ->
  exists a b, carry25 h h' = Some (a, b) /\ a + 2 ^ 25 * b = h + 2 ^ 25 * h' /\ - 2 ^ 24 <= a <= 2 ^ 24 /\
    - (B + A / 2 ^ 25 + 1) <= b <= B + A / 2 ^ 25 + 1.
Proof.
  intros Hh Hh' HA HB. unfold carry25. change (Z.shiftl 1 24) with (2 ^ 24). change kTop39Bits with (- 2 ^ 25).
  rewrite i64_ok by lia. cbn [option_bind base.mbind]. rewrite Z.shiftr_div_pow2, land_high by lia.
  destruct (rounded_quot (2 ^ 24) h A ltac:(lia) Hh) as (q & Hq & Ha & Hb). change (2 * 2 ^ 24) with (2 ^ 25) in *.
  rewrite Hq. assert (A / 2 ^ 25 <= 2 ^ 37) by (apply Z.div_le_upper_bound; lia).
  generalize dependent (A / 2 ^ 25). intros x Hb Hx. rewrite i64_ok by lia. cbn [option_bind base.mbind].
  rewrite i64_ok by lia. exists (h - 2 ^ 25 * q), (h' + q). split; [done|]. lia.
Qed.

(** The carry of the last limb counts for 19 in the first one. *)
Lemma carry_around_ok h h' A B : - A <= h <= A -> - B <= h' <= B -> A < 2 ^ 62 -> B < 2 ^ 61 ->
  exists a b c, carry_around h h' = Some (a, b) /\ a = h - 2 ^ 25 * c /\ b = h' + 19 * c /\ - 2 ^ 24 <= a <= 2 ^ 24 /\
    - (B + 19 * (A / 2 ^ 25 + 1)) <= b <= B + 19 * (A / 2 ^ 25 + 1).
Proof.
  intros Hh Hh' HA HB. unfold carry_around. change (Z.shiftl 1 24) with (2 ^ 24). change kTop39Bits with (- 2 ^ 25).
  rewrite i64_ok by lia. cbn [option_bind base.mbind]. rewrite Z.shiftr_div_pow2, land_high by lia.
  destruct (rounded_quot (2 ^ 24) h A ltac:(lia) Hh) as (q & Hq & Ha & Hb). change (2 * 2 ^ 24) with (2 ^ 25) in *.
  rewrite Hq. assert (A / 2 ^ 25 <= 2 ^ 37) by (apply Z.div_le_upper_bound; lia).
  generalize dependent (A / 2 ^ 25). intros x Hb Hx.
  rewrite (i64_ok (q * 19)) by lia. cbn [option_bind base.mbind]. rewrite i64_ok by lia. cbn [option_bind base.mbind].
  rewrite i64_ok by lia. exists (h - 2 ^ 25 * q), (h' + q * 19), q. split; [done|]. lia.
Qed.

(** ** Values and bounds *)

Definition fe_val (f : fe) : Z :=
  fe0 f + 2 ^ 26 * fe1 f + 2 ^ 51 * fe2 f + 2 ^ 77 * fe3 f + 2 ^ 102 * fe4 f + 2 ^ 128 * fe5 f +
  2 ^ 153 * fe6 f + 2 ^ 179 * fe7 f + 2 ^ 204 * fe8 f + 2 ^ 230 * fe9 f.

(** The limbs of 26 bits are within [A], the ones of 25 within [B]. *)
Record within (A B : Z) (f : fe) : Prop := {
  wi0 : - A <= fe0 f <= A; wi1 : - B <= fe1 f <= B; wi2 : - A <= fe2 f <= A; wi3 : - B <= fe3 f <= B;
  wi4 : - A <= fe4 f <= A; wi5 : - B <= fe5 f <= B; wi6 : - A <= fe6 f <= A; wi7 : - B <= fe7 f <= B;
  wi8 : - A <= fe8 f <= A; wi9 : - B <= fe9 f <= B }.

(** 1.01 times 2^25 and 2^24, what the products leave; 1.1 times, what
    [fe_frombytes] and [fe_mul121666] leave; 1.1 times 2^26 and 2^25, what the
    sums leave; 1.65 times, what the products take. *)
Definition tight : fe -> Prop := within 33889976 16944988.
Definition carried : fe -> Prop := within 36909875 18454937.
Definition summed : fe -> Prop := within 73819750 36909875.
Definition loose : fe -> Prop := within 110729625 55364812.

Lemma within_mono A B A' B' f : within A B f -> A <= A' -> B <= B' -> within A' B' f.
Proof. intros [] HA HB. split; lia. Qed.

(** Equality modulo the prime. *)
Record eqp (a b : Z) : Prop := { eqp_mods : a mod p25519 = b mod p25519 }.
Infix "≡p" := eqp (at level 70).

#[export] Instance eqp_equivalence : Equivalence eqp.
Proof. split; [done| |]; [intros a b []|intros a b c [] []]; split; congruence. Qed.
#[export] Instance eqp_add : Proper (eqp ==> eqp ==> eqp) Z.add.
Proof. intros a b [H] c d [H']. split. by apply Zplus_eqm. Qed.
#[export] Instance eqp_sub : Proper (eqp ==> eqp ==> eqp) Z.sub.
Proof. intros a b [H] c d [H']. split. by apply Zminus_eqm. Qed.
#[export] Instance eqp_mul : Proper (eqp ==> eqp ==> eqp) Z.mul.
Proof. intros a b [H] c d [H']. split. by apply Zmult_eqm. Qed.

Lemma eqp_plus a b k : a = b + p25519 * k -> a ≡p b.
Proof. intros ->. split. by rewrite (Z.mul_comm p25519), Z.mod_add by done. Qed.

Lemma eqp_mod a : a mod p25519 ≡p a.
Proof. split. by apply Zmod_mod. Qed.

#[export] Instance eqp_pow : Proper (eqp ==> eq ==> eqp) Z.pow.
Proof.
  intros a b Hab n _ <-. destruct (Z.ltb_spec n 0) as [|Hn]; [by rewrite !Z.pow_neg_r by done|].
  revert n Hn. apply natlike_ind; [done|]. intros n Hn IH. rewrite !Z.pow_succ_r by done. by apply eqp_mul.
Qed.

(** ** The chains of carries *)

(** Runs a carry of two limbs that are within [A] and [B]. *)
Ltac run_carry lem A B :=
  lazymatch goal with
  | |- context [?f ?h ?h' ≫= _] =>
      let E := fresh in let Hv := fresh "Hv" in let Ha := fresh "Ha" in let Hb := fresh "Hb" in
      let a := fresh "a" in let b := fresh "b" in
      destruct (lem h h' A B ltac:(lia) ltac:(lia) ltac:(done) ltac:(done)) as (a & b & E & Hv & Ha & Hb);
      rewrite E; clear E; cbn [option_bind base.mbind];
      match type of Hb with context [?n / ?m] => let v := eval vm_compute in (n / m) in change (n / m) with v in Hb end
  end.

(** Keeps the equations. *)
Ltac drop_bounds := repeat match goal with H : _ <= _ <= _ |- _ => clear H end.

Lemma fe_carry_ok h0 h1 h2 h3 h4 h5 h6 h7 h8 h9 :
  within (2 ^ 44) (2 ^ 44) (mk_fe h0 h1 h2 h3 h4 h5 h6 h7 h8 h9) ->
  exists f, fe_carry h0 h1 h2 h3 h4 h5 h6 h7 h8 h9 = Some f /\ carried f /\
    fe_val f ≡p fe_val (mk_fe h0 h1 h2 h3 h4 h5 h6 h7 h8 h9).
Proof.
  intros []. cbn [fe0 fe1 fe2 fe3 fe4 fe5 fe6 fe7 fe8 fe9] in *. unfold fe_carry.
  destruct (carry_around_ok h9 h0 (2 ^ 44) (2 ^ 44)) as (a9 & a0 & c & E & H9 & H0 & Hb9 & Hb0); [done..|].
  rewrite E; clear E; cbn [option_bind base.mbind].
  change (2 ^ 44 / 2 ^ 25) with 524288 in Hb0.
  run_carry carry25_ok (2 ^ 44) (2 ^ 44). run_carry carry25_ok (2 ^ 44) (2 ^ 44).
  run_carry carry25_ok (2 ^ 44) (2 ^ 44). run_carry carry25_ok (2 ^ 44) (2 ^ 44).
  run_carry carry26_ok (2 ^ 45) (2 ^ 24). run_carry carry26_ok (2 ^ 45) (2 ^ 24).
  run_carry carry26_ok (2 ^ 45) (2 ^ 24). run_carry carry26_ok (2 ^ 45) (2 ^ 24).
  run_carry carry26_ok (2 ^ 45) (2 ^ 24).
  unfold fe_store. rewrite !s32_ok by lia. eexists. split; [done|]. split; [split; cbn; lia|].
  apply eqp_plus with (- c). unfold fe_val. cbn [fe0 fe1 fe2 fe3 fe4 fe5 fe6 fe7 fe8 fe9]. unfold p25519.
  drop_bounds. lia.
Qed.

Lemma fe_carry_product_ok h0 h1 h2 h3 h4 h5 h6 h7 h8 h9 :
  within (3 * 2 ^ 59) (2 ^ 60) (mk_fe h0 h1 h2 h3 h4 h5 h6 h7 h8 h9) ->
  exists f, fe_carry_product h0 h1 h2 h3 h4 h5 h6 h7 h8 h9 = Some f /\ tight f /\
    fe_val f ≡p fe_val (mk_fe h0 h1 h2 h3 h4 h5 h6 h7 h8 h9).
Proof.
  intros []. cbn [fe0 fe1 fe2 fe3 fe4 fe5 fe6 fe7 fe8 fe9] in *. unfold fe_carry_product.
  run_carry carry26_ok (3 * 2 ^ 59) (2 ^ 60). run_carry carry26_ok (3 * 2 ^ 59) (2 ^ 60).
  run_carry carry25_ok (2 ^ 61) (3 * 2 ^ 59). run_carry carry25_ok (2 ^ 61) (3 * 2 ^ 59).
  run_carry carry26_ok (2 ^ 61) (2 ^ 60). run_carry carry26_ok (2 ^ 61) (2 ^ 60).
  run_carry carry25_ok (2 ^ 61) (2 ^ 25). run_carry carry25_ok (2 ^ 61) (3 * 2 ^ 59).
  run_carry carry26_ok (2 ^ 37) (2 ^ 24). run_carry carry26_ok (2 ^ 61) (2 ^ 60).
  lazymatch goal with
  | |- context [carry_around ?h ?h' ≫= _] =>
      destruct (carry_around_ok h h' (2 ^ 61) (2 ^ 25)) as (a9' & a0' & c & E & H9 & H0 & Hb9 & Hb0'); [lia..|]
  end.
  rewrite E; clear E; cbn [option_bind base.mbind]. change (2 ^ 61 / 2 ^ 25) with 68719476736 in Hb0'.
  run_carry carry26_ok (2 ^ 41) (2 ^ 24).
  unfold fe_store. rewrite !s32_ok by lia. eexists. split; [done|]. split; [split; cbn; lia|].
  apply eqp_plus with (- c). unfold fe_val. cbn [fe0 fe1 fe2 fe3 fe4 fe5 fe6 fe7 fe8 fe9]. unfold p25519.
  drop_bounds. lia.
Qed.

(** ** Sums and products *)

Lemma fe_add_ok f g A B A' B' : within A B f -> within A' B' g -> A + A' < 2 ^ 31 -> B + B' < 2 ^ 31 ->
  exists h, fe_add f g = Some h /\ within (A + A') (B + B') h /\ fe_val h = fe_val f + fe_val g.
Proof.
  intros [] [] HA HB. unfold fe_add, fe_map2. rewrite !i32_ok by lia. cbn [option_bind base.mbind].
  eexists. split; [done|]. split; [split; cbn; lia|]. unfold fe_val. cbn [fe0 fe1 fe2 fe3 fe4 fe5 fe6 fe7 fe8 fe9].
  ring.
Qed.

Lemma fe_sub_ok f g A B A' B' : within A B f -> within A' B' g -> A + A' < 2 ^ 31 -> B + B' < 2 ^ 31 ->
  exists h, fe_sub f g = Some h /\ within (A + A') (B + B') h /\ fe_val h = fe_val f - fe_val g.
Proof.
  intros [] [] HA HB. unfold fe_sub, fe_map2. rewrite !i32_ok by lia. cbn [option_bind base.mbind].
  eexists. split; [done|]. split; [split; cbn; lia|]. unfold fe_val. cbn [fe0 fe1 fe2 fe3 fe4 fe5 fe6 fe7 fe8 fe9].
  ring.
Qed.

(** The sum of a list, and a bound of its partial sums. *)
Definition zsum (l : list Z) : Z := foldr Z.add 0 l.

Lemma sum64_from l acc bs : Forall2 (fun x b => - b <= x <= b) l bs -> forall B, - B <= acc <= B -> B + zsum bs < 2 ^ 63 ->
  foldl (fun acc x => a ← acc; i64 (a + x)) (Some acc) l = Some (acc + zsum l) /\
  - (B + zsum bs) <= acc + zsum l <= B + zsum bs.
Proof.
  intros H. revert acc. induction H as [|x b l bs Hx Hl IH]; intros acc B Hacc HB; cbn [foldl zsum foldr] in *.
  - rewrite Z.add_0_r. split; [done|lia].
  - fold (zsum l) (zsum bs) in *.
    assert (0 <= zsum bs) as Hpos.
    { clear -Hl. induction Hl as [|y c l bs Hy _ IH]; [done|]. cbn. fold (zsum bs). lia. }
    cbn [option_bind base.mbind]. rewrite i64_ok by lia. destruct (IH (acc + x) (B + b)) as [-> ?]; [lia..|].
    split; [f_equal; lia|lia].
Qed.

Lemma sum64_ok l bs C : Forall2 (fun x b => - b <= x <= b) l bs -> zsum bs <= C -> C < 2 ^ 63 ->
  sum64 l = Some (zsum l) /\ - C <= zsum l <= C.
Proof.
  intros H HC HM. destruct (sum64_from l 0 bs H 0 ltac:(lia) ltac:(lia)) as [E Hb]. unfold sum64. rewrite E.
  rewrite Z.add_0_l in *. split; [done|lia].
Qed.

Lemma mul_within a b A B : - A <= a <= A -> - B <= b <= B -> - (A * B) <= a * b <= A * B.
Proof. intros Ha Hb. nia. Qed.

Ltac run_sum C :=
  lazymatch goal with
  | |- context [sum64 ?l ≫= _] =>
      let F := fresh in let E := fresh in let Hb := fresh "Hb" in
      eassert (Forall2 (fun x b => - b <= x <= b) l _) as F
        by (repeat (constructor; [apply mul_within; eassumption|]); constructor);
      destruct (sum64_ok l _ C F ltac:(by vm_compute) ltac:(done)) as [E Hb];
      rewrite E; clear E F; cbn [option_bind base.mbind]
  end.

(** The multiples of the limbs that the code computes first. *)
Lemma times_within k a A : 0 <= k -> - A <= a <= A -> - (k * A) <= k * a <= k * A.
Proof. intros Hk Ha. nia. Qed.

Ltac run_times k A :=
  lazymatch goal with
  | |- context [i32 (k * ?a) ≫= _] =>
      let H := fresh in pose proof (times_within k a A ltac:(done) ltac:(assumption)) as H;
      rewrite (i32_ok (k * a)) by lia; cbn [option_bind base.mbind]
  end.

Ltac run_carries :=
  lazymatch goal with
  | |- context [fe_carry_product ?h0 ?h1 ?h2 ?h3 ?h4 ?h5 ?h6 ?h7 ?h8 ?h9] =>
      destruct (fe_carry_product_ok h0 h1 h2 h3 h4 h5 h6 h7 h8 h9) as (h & E & Ht & Hv); [split; assumption|]
  end.

Lemma fe_mul_ok f g : loose f -> loose g ->
  exists h, fe_mul f g = Some h /\ tight h /\ fe_val h ≡p fe_val f * fe_val g.
Proof.
  destruct f as [f0 f1 f2 f3 f4 f5 f6 f7 f8 f9], g as [g0 g1 g2 g3 g4 g5 g6 g7 g8 g9]. intros [] [].
  cbn [fe0 fe1 fe2 fe3 fe4 fe5 fe6 fe7 fe8 fe9] in *. unfold fe_mul.
  do 4 (run_times 19 55364812; run_times 19 110729625). run_times 19 55364812. do 5 run_times 2 55364812.
  do 5 (run_sum (3 * 2 ^ 59); run_sum (2 ^ 60)).
  run_carries.
  exists h. split; [exact E|]. split; [exact Ht|]. rewrite Hv. clear.
  apply eqp_plus with (- (
    (2 * (f1 * g9) + f2 * g8 + 2 * (f3 * g7) + f4 * g6 + 2 * (f5 * g5) + f6 * g4 + 2 * (f7 * g3) + f8 * g2 + 2 * (f9 * g1)) +
    2 ^ 26 * (f2 * g9 + f3 * g8 + f4 * g7 + f5 * g6 + f6 * g5 + f7 * g4 + f8 * g3 + f9 * g2) +
    2 ^ 51 * (2 * (f3 * g9) + f4 * g8 + 2 * (f5 * g7) + f6 * g6 + 2 * (f7 * g5) + f8 * g4 + 2 * (f9 * g3)) +
    2 ^ 77 * (f4 * g9 + f5 * g8 + f6 * g7 + f7 * g6 + f8 * g5 + f9 * g4) +
    2 ^ 102 * (2 * (f5 * g9) + f6 * g8 + 2 * (f7 * g7) + f8 * g6 + 2 * (f9 * g5)) +
    2 ^ 128 * (f6 * g9 + f7 * g8 + f8 * g7 + f9 * g6) +
    2 ^ 153 * (2 * (f7 * g9) + f8 * g8 + 2 * (f9 * g7)) +
    2 ^ 179 * (f8 * g9 + f9 * g8) +
    2 ^ 204 * (2 * (f9 * g9)))).
  unfold fe_val, zsum, p25519. cbn [fe0 fe1 fe2 fe3 fe4 fe5 fe6 fe7 fe8 fe9 foldr]. ring.
Qed.

Lemma fe_sq_ok f : loose f -> exists h, fe_sq f = Some h /\ tight h /\ fe_val h ≡p fe_val f * fe_val f.
Proof.
  destruct f as [f0 f1 f2 f3 f4 f5 f6 f7 f8 f9]. intros [].
  cbn [fe0 fe1 fe2 fe3 fe4 fe5 fe6 fe7 fe8 fe9] in *. unfold fe_sq.
  do 4 (run_times 2 110729625; run_times 2 55364812).
  run_times 38 55364812; run_times 19 110729625; run_times 38 55364812; run_times 19 110729625; run_times 38 55364812.
  do 5 (run_sum (3 * 2 ^ 59); run_sum (2 ^ 60)). run_carries.
  exists h. split; [exact E|]. split; [exact Ht|]. rewrite Hv. clear.
  apply eqp_plus with (- (
    (2 * (f1 * f9) + f2 * f8 + 2 * (f3 * f7) + f4 * f6 + 2 * (f5 * f5) + f6 * f4 + 2 * (f7 * f3) + f8 * f2 + 2 * (f9 * f1)) +
    2 ^ 26 * (f2 * f9 + f3 * f8 + f4 * f7 + f5 * f6 + f6 * f5 + f7 * f4 + f8 * f3 + f9 * f2) +
    2 ^ 51 * (2 * (f3 * f9) + f4 * f8 + 2 * (f5 * f7) + f6 * f6 + 2 * (f7 * f5) + f8 * f4 + 2 * (f9 * f3)) +
    2 ^ 77 * (f4 * f9 + f5 * f8 + f6 * f7 + f7 * f6 + f8 * f5 + f9 * f4) +
    2 ^ 102 * (2 * (f5 * f9) + f6 * f8 + 2 * (f7 * f7) + f8 * f6 + 2 * (f9 * f5)) +
    2 ^ 128 * (f6 * f9 + f7 * f8 + f8 * f7 + f9 * f6) +
    2 ^ 153 * (2 * (f7 * f9) + f8 * f8 + 2 * (f9 * f7)) +
    2 ^ 179 * (f8 * f9 + f9 * f8) +
    2 ^ 204 * (2 * (f9 * f9)))).
  unfold fe_val, zsum, p25519. cbn [fe0 fe1 fe2 fe3 fe4 fe5 fe6 fe7 fe8 fe9 foldr]. ring.
Qed.

Lemma fe_mul121666_ok f : summed f ->
  exists h, fe_mul121666 f = Some h /\ carried h /\ fe_val h ≡p 121666 * fe_val f.
Proof.
  destruct f as [f0 f1 f2 f3 f4 f5 f6 f7 f8 f9]. intros []. cbn [fe0 fe1 fe2 fe3 fe4 fe5 fe6 fe7 fe8 fe9] in *.
  unfold fe_mul121666. lazymatch goal with
  | |- context [fe_carry ?h0 ?h1 ?h2 ?h3 ?h4 ?h5 ?h6 ?h7 ?h8 ?h9] =>
      destruct (fe_carry_ok h0 h1 h2 h3 h4 h5 h6 h7 h8 h9) as (h & E & Hc & Hv); [split; cbn; lia|]
  end.
  exists h. split; [exact E|]. split; [exact Hc|]. rewrite Hv.
  unfold fe_val. cbn [fe0 fe1 fe2 fe3 fe4 fe5 fe6 fe7 fe8 fe9]. apply eqp_plus with 0. ring.
Qed.

(** ** Bytes *)

Lemma lor_shl64 a b n : 0 <= n <= 24 -> 0 <= a < 2 ^ n -> is_byte b -> Z.lor a (shl64 b n) = a + 2 ^ n * b.
Proof.
  intros Hn Ha Hb. unfold shl64, w64. unfold is_byte in Hb. rewrite Z.shiftl_mul_pow2 by lia.
  assert (2 ^ n <= 2 ^ 24) by (apply Z.pow_le_mono_r; lia). rewrite Z.mod_small by nia.
  rewrite Z.lor_comm, lor_disjoint by lia. lia.
Qed.

Lemma load_3_ok b0 b1 b2 l : is_byte b0 -> is_byte b1 -> is_byte b2 ->
  load_3 (b0 :: b1 :: b2 :: l) = Some (b0 + 2 ^ 8 * b1 + 2 ^ 16 * b2).
Proof.
  intros H0 H1 H2. unfold load_3. cbn [lookup list_lookup option_bind base.mbind]. unfold is_byte in *.
  rewrite (lor_shl64 b0 b1 8) by (unfold is_byte; lia). by rewrite (lor_shl64 _ b2 16) by (unfold is_byte; lia).
Qed.

Lemma load_4_ok b0 b1 b2 b3 l : is_byte b0 -> is_byte b1 -> is_byte b2 -> is_byte b3 ->
  load_4 (b0 :: b1 :: b2 :: b3 :: l) = Some (b0 + 2 ^ 8 * b1 + 2 ^ 16 * b2 + 2 ^ 24 * b3).
Proof.
  intros H0 H1 H2 H3. unfold load_4. cbn [lookup list_lookup option_bind base.mbind]. unfold is_byte in *.
  rewrite (lor_shl64 b0 b1 8) by (unfold is_byte; lia). rewrite (lor_shl64 _ b2 16) by (unfold is_byte; lia).
  by rewrite (lor_shl64 _ b3 24) by (unfold is_byte; lia).
Qed.

(** A value shifted into its limb. *)
Lemma shifted x n : 0 <= n <= 7 -> 0 <= x < 2 ^ 32 -> s64 (shl64 x n) = 2 ^ n * x.
Proof.
  intros Hn Hx. unfold shl64, w64. rewrite Z.shiftl_mul_pow2 by lia.
  assert (2 ^ n <= 2 ^ 7) by (apply Z.pow_le_mono_r; lia). assert (0 < 2 ^ n) by (apply Z.pow_pos_nonneg; lia).
  rewrite Z.mod_small by nia. rewrite s64_ok by nia. lia.
Qed.

Lemma mod_high L T : 0 <= L < 2 ^ 232 -> (L + 2 ^ 232 * T) mod 2 ^ 255 = L + 2 ^ 232 * (T mod 2 ^ 23).
Proof.
  intros HL. pose proof (Z.div_mod T (2 ^ 23) ltac:(lia)) as Hd. pose proof (Z.mod_pos_bound T (2 ^ 23) ltac:(lia)).
  symmetry. apply Z.mod_unique with (T / 2 ^ 23); [left|]; lia.
Qed.

(** A point given in bytes: its top bit is ignored. *)
Lemma fe_frombytes_ok s : bytes_ok s -> length s = 32%nat ->
  exists f, fe_frombytes s = Some f /\ carried f /\ fe_val f ≡p le_combine s mod 2 ^ 255.
Proof.
  intros Hs Hl. do 32 (destruct s as [|? s]; [discriminate Hl|]). destruct s; [|discriminate Hl]. clear Hl.
  inv_bytes. unfold fe_frombytes. cbn [drop].
  rewrite !load_3_ok, !load_4_ok by assumption. cbn [option_bind base.mbind].
  change 8388607 with (Z.ones 23). rewrite Z.land_ones by lia.
  match goal with |- context [shl64 (?x mod 2 ^ 23) 2] => pose proof (Z.mod_pos_bound x (2 ^ 23) ltac:(lia)) end.
  unfold is_byte in *. rewrite !shifted by lia. rewrite !s64_ok by lia.
  lazymatch goal with
  | |- context [fe_carry ?h0 ?h1 ?h2 ?h3 ?h4 ?h5 ?h6 ?h7 ?h8 ?h9] =>
      destruct (fe_carry_ok h0 h1 h2 h3 h4 h5 h6 h7 h8 h9) as (h & E & Hc & Hv); [split; cbn; lia|]
  end.
  exists h. split; [exact E|]. split; [exact Hc|]. rewrite Hv. clear h E Hc Hv.
  set (T := z28 + 2 ^ 8 * z29 + 2 ^ 16 * z30) in *.
  set (low := [z; z0; z1; z2; z3; z4; z5; z6; z7; z8; z9; z10; z11; z12; z13; z14; z15; z16; z17; z18; z19; z20; z21; z22; z23; z24; z25; z26; z27]).
  assert (le_combine [z; z0; z1; z2; z3; z4; z5; z6; z7; z8; z9; z10; z11; z12; z13; z14; z15; z16; z17; z18; z19; z20;
    z21; z22; z23; z24; z25; z26; z27; z28; z29; z30] = le_combine low + 2 ^ 232 * T) as ->
    by (unfold low, T; cbn [le_combine]; ring).
  rewrite mod_high by (apply (le_combine_bound low); unfold low; repeat (constructor; [assumption|]); constructor).
  apply eqp_plus with 0. unfold low, fe_val. cbn [fe0 fe1 fe2 fe3 fe4 fe5 fe6 fe7 fe8 fe9 le_combine]. ring.
Qed.

(** ** The quotient by the prime *)

(** One step of the division of a sum of limbs, the lowest ones first. *)
Lemma quot_step_ok h n a m : 0 <= n -> 0 < m -> - 2 ^ 28 <= h <= 2 ^ 28 -> - 2 ^ 28 <= a / m <= 2 ^ 28 -> 2 ^ 25 <= 2 ^ n ->
  quot_step h n (a / m) = Some ((a + m * h) / (m * 2 ^ n)) /\ - 2 ^ 28 <= (a + m * h) / (m * 2 ^ n) <= 2 ^ 28.
Proof.
  intros Hn Hm Hh Ha Hp. unfold quot_step. rewrite i32_ok by lia. cbn [option_bind base.mbind].
  rewrite Z.shiftr_div_pow2 by done.
  assert ((a + m * h) / (m * 2 ^ n) = (h + a / m) / 2 ^ n) as ->.
  { rewrite <- Z.div_div by lia. rewrite (Z.mul_comm m h), Z.div_add by lia. f_equal. lia. }
  split; [done|]. split; [apply Z.div_le_lower_bound|apply Z.div_le_upper_bound]; lia.
Qed.

Ltac quot_once :=
  lazymatch goal with
  | Hq : _ <= _ / _ <= _ |- context [quot_step ?h ?n (?a / ?m)] =>
      let E := fresh in let H' := fresh in
      destruct (quot_step_ok h n a m ltac:(done) ltac:(done) ltac:(lia) Hq ltac:(done)) as [E H'];
      rewrite E; clear E Hq; cbn [option_bind base.mbind]
  end.

Lemma fe_quot_sum f : summed f ->
  fe_quot f = Some (((19 * fe9 f + 2 ^ 24) / 2 ^ 25 + fe_val f) / 2 ^ 255).
Proof.
  destruct f as [h0 h1 h2 h3 h4 h5 h6 h7 h8 h9]. intros []. cbn [fe0 fe1 fe2 fe3 fe4 fe5 fe6 fe7 fe8 fe9] in *.
  unfold fe_quot. rewrite i32_ok by lia. cbn [option_bind base.mbind]. change (Z.shiftl 1 24) with (2 ^ 24).
  rewrite i32_ok by lia. cbn [option_bind base.mbind]. rewrite Z.shiftr_div_pow2 by lia.
  assert (- 2 ^ 28 <= (19 * h9 + 2 ^ 24) / 2 ^ 25 <= 2 ^ 28) as H
    by (split; [apply Z.div_le_lower_bound|apply Z.div_le_upper_bound]; lia).
  set (q0 := (19 * h9 + 2 ^ 24) / 2 ^ 25) in *. clearbody q0. rewrite <- (Z.div_1_r q0) in H |- *.
  do 10 quot_once.
  rewrite Z.div_1_r. f_equal. f_equal. unfold fe_val. cbn [fe0 fe1 fe2 fe3 fe4 fe5 fe6 fe7 fe8 fe9]. ring.
Qed.

(** The quotient that is estimated from the last limb is the exact one. *)
Lemma fe_quot_ok f : summed f -> fe_quot f = Some (fe_val f / p25519) /\ - 2 <= fe_val f / p25519 <= 2.
Proof.
  intros Hf. rewrite (fe_quot_sum f Hf).
  pose proof (Z.div_mod (fe_val f) p25519 ltac:(done)) as Hd.
  pose proof (Z.mod_pos_bound (fe_val f) p25519 ltac:(done)) as Hr.
  set (q := fe_val f / p25519) in *. set (r := fe_val f mod p25519) in *. clearbody q r.
  pose proof (Z.div_mod (19 * fe9 f + 2 ^ 24) (2 ^ 25) ltac:(done)) as Hd0.
  pose proof (Z.mod_pos_bound (19 * fe9 f + 2 ^ 24) (2 ^ 25) ltac:(done)) as Hr0.
  set (q0 := (19 * fe9 f + 2 ^ 24) / 2 ^ 25) in *. set (r0 := (19 * fe9 f + 2 ^ 24) mod 2 ^ 25) in *. clearbody q0 r0.
  assert (exists L, fe_val f = L + 2 ^ 230 * fe9 f /\ - 2 ^ 231 <= L <= 2 ^ 231) as (L & HL & HLb).
  { exists (fe_val f - 2 ^ 230 * fe9 f). split; [lia|]. unfold fe_val. destruct Hf. lia. }
  assert (- 2 <= q <= 2) as Hq.
  { unfold p25519 in *. destruct Hf as [_ _ _ _ _ _ _ _ _ H9]. clear Hd0 Hr0. lia. }
  split; [|done]. f_equal. symmetry. apply Z.div_unique with (q0 - 19 * q + r); [left|unfold p25519 in Hd; lia].
  unfold p25519 in *. lia.
Qed.

(** ** The canonical bytes *)

Lemma carry_mask_ok h h' n : 0 <= n <= 26 -> - 2 ^ 30 <= h <= 2 ^ 30 -> - 2 ^ 28 <= h' <= 2 ^ 28 -> 2 ^ 25 <= 2 ^ n ->
  carry_mask h h' n (2 ^ n - 1) = Some (h mod 2 ^ n, h' + h / 2 ^ n) /\
  0 <= h mod 2 ^ n < 2 ^ n /\ h = h mod 2 ^ n + 2 ^ n * (h / 2 ^ n) /\ - 2 ^ 30 <= h' + h / 2 ^ n <= 2 ^ 30.
Proof.
  intros Hn Hh Hh' Hp. assert (0 < 2 ^ n) as Hpos by lia. assert (2 ^ n <= 2 ^ 26) by (apply Z.pow_le_mono_r; lia).
  assert (- 32 <= h / 2 ^ n <= 32) as Hq by (split; [apply Z.div_le_lower_bound|apply Z.div_le_upper_bound]; lia).
  pose proof (Z.mod_pos_bound h (2 ^ n) Hpos) as Hm. pose proof (Z.div_mod h (2 ^ n) ltac:(lia)) as Hd.
  split; [|split_and!; lia].
  unfold carry_mask. rewrite Z.shiftr_div_pow2, i32_ok by lia. cbn [option_bind base.mbind].
  assert (2 ^ n - 1 = Z.ones n) as -> by (rewrite Z.ones_equiv; lia). rewrite Z.land_ones by lia. by rewrite s32_ok by lia.
Qed.

Lemma limb_byte_eq h n : 0 <= n -> limb_byte h n = (h / 2 ^ n) mod 256.
Proof. intros Hn. unfold limb_byte, w8. by rewrite Z.shiftr_div_pow2. Qed.

Lemma shared_byte_eq h n h' m k : 0 <= n -> 0 <= m -> m + k = 8 -> 0 <= k -> 0 <= h < 2 ^ 26 -> 0 <= h' < 2 ^ 26 ->
  h / 2 ^ n < 2 ^ m -> shared_byte h n h' m = h / 2 ^ n + 2 ^ m * (h' mod 2 ^ k).
Proof.
  intros Hn Hm Hk Hk0 Hh Hh' Hlt. unfold shared_byte, w8, w32. change 4294967296 with (2 ^ 32).
  assert (0 < 2 ^ n) by (apply Z.pow_pos_nonneg; lia). assert (0 < 2 ^ k) by (apply Z.pow_pos_nonneg; lia).
  assert (2 ^ m <= 2 ^ 8) by (apply Z.pow_le_mono_r; lia). assert (0 < 2 ^ m) by (apply Z.pow_pos_nonneg; lia).
  assert (0 <= h / 2 ^ n) as Hge by (apply Z.div_pos; lia).
  rewrite Z.shiftr_div_pow2, Z.shiftl_mul_pow2 by lia. rewrite (Z.mod_small h' (2 ^ 32)) by lia.
  rewrite (Z.mod_small (h / 2 ^ n) (2 ^ 32)) by lia.
  assert ((h' * 2 ^ m) mod 2 ^ 32 = h' mod 2 ^ (32 - m) * 2 ^ m) as ->.
  { rewrite <- Z.mul_mod_distr_r by (try apply Z.pow_nonzero; lia). f_equal. rewrite <- Z.pow_add_r by lia. f_equal. lia. }
  assert (256 = 2 ^ m * 2 ^ k) as Hp by (rewrite <- Z.pow_add_r, Hk by lia; done).
  assert (h' mod 2 ^ k = (h' mod 2 ^ (32 - m)) mod 2 ^ k) as ->.
  { symmetry. apply Z.mod_mod_divide. exists (2 ^ (32 - m - k)). rewrite <- Z.pow_add_r by lia. f_equal. lia. }
  generalize (h' mod 2 ^ (32 - m)). intros x. rewrite Z.lor_comm, lor_disjoint by lia.
  pose proof (Z.div_mod x (2 ^ k) ltac:(lia)) as Hd. pose proof (Z.mod_pos_bound x (2 ^ k) ltac:(lia)) as Hb.
  symmetry. apply Z.mod_unique with (x / 2 ^ k); [left|rewrite Hp]; nia.
Qed.

(** The bytes of a limb between the ones that it shares. *)
Lemma split_limb k k1 k2 h : 0 <= k -> k1 = k + 8 -> k2 = k + 16 -> h = h mod 2 ^ k + 2 ^ k * ((h / 2 ^ k) mod 256) +
  2 ^ k1 * ((h / 2 ^ k1) mod 256) + 2 ^ k2 * (h / 2 ^ k2).
Proof.
  intros Hk -> ->. rewrite !Z.pow_add_r by lia. assert (0 < 2 ^ k) by (apply Z.pow_pos_nonneg; lia).
  change (2 ^ 8) with 256. change (2 ^ 16) with (256 * 256). rewrite Z.mul_assoc, <- !Z.div_div by lia.
  pose proof (Z.div_mod h (2 ^ k) ltac:(lia)) as H1. set (a := h / 2 ^ k) in *.
  pose proof (Z.div_mod a 256 ltac:(lia)) as H2. set (b := a / 256) in *. pose proof (Z.div_mod b 256 ltac:(lia)) as H3. nia.
Qed.

Ltac split_once k h :=
  let k1 := eval vm_compute in (k + 8) in let k2 := eval vm_compute in (k + 16) in
  let H := fresh in pose proof (split_limb k k1 k2 h ltac:(done) ltac:(done) ltac:(done)) as H;
  change 256 with (2 ^ 8) in H; revert H;
  generalize (h mod 2 ^ k) ((h / 2 ^ k) mod 2 ^ 8) ((h / 2 ^ k1) mod 2 ^ 8) (h / 2 ^ k2); intros ? ? ? ? ->.

Lemma limb_bytes_ok h0 h1 h2 h3 h4 h5 h6 h7 h8 h9 :
  0 <= h0 < 2 ^ 26 -> 0 <= h1 < 2 ^ 25 -> 0 <= h2 < 2 ^ 26 -> 0 <= h3 < 2 ^ 25 -> 0 <= h4 < 2 ^ 26 ->
  0 <= h5 < 2 ^ 25 -> 0 <= h6 < 2 ^ 26 -> 0 <= h7 < 2 ^ 25 -> 0 <= h8 < 2 ^ 26 -> 0 <= h9 < 2 ^ 25 ->
  le_combine (limb_bytes h0 h1 h2 h3 h4 h5 h6 h7 h8 h9) = fe_val (mk_fe h0 h1 h2 h3 h4 h5 h6 h7 h8 h9).
Proof.
  intros H0 H1 H2 H3 H4 H5 H6 H7 H8 H9. unfold limb_bytes.
  assert (forall h n m, 0 <= n -> h < 2 ^ n * 2 ^ m -> h / 2 ^ n < 2 ^ m) as Hdiv
    by (intros; apply Z.div_lt_upper_bound; [by apply Z.pow_pos_nonneg|done]).
  rewrite (shared_byte_eq h0 24 h1 2 6), (shared_byte_eq h1 22 h2 3 5), (shared_byte_eq h2 21 h3 5 3),
    (shared_byte_eq h3 19 h4 6 2), (shared_byte_eq h5 24 h6 1 7), (shared_byte_eq h6 23 h7 3 5),
    (shared_byte_eq h7 21 h8 4 4), (shared_byte_eq h8 20 h9 6 2) by (lia || (apply Hdiv; lia)).
  rewrite !limb_byte_eq by lia. rewrite (Z.mod_small (h4 / 2 ^ 18)), (Z.mod_small (h9 / 2 ^ 18))
    by (split; [apply Z.div_pos; lia|apply (Hdiv _ 18 8); lia]).
  rewrite (Z.div_1_r h0 : h0 / 2 ^ 0 = h0), (Z.div_1_r h5 : h5 / 2 ^ 0 = h5).
  clear. unfold fe_val. cbn [fe0 fe1 fe2 fe3 fe4 fe5 fe6 fe7 fe8 fe9 le_combine]. change 256 with (2 ^ 8).
  split_once 8 h0. split_once 6 h1. split_once 5 h2. split_once 3 h3. split_once 2 h4.
  split_once 8 h5. split_once 7 h6. split_once 5 h7. split_once 4 h8. split_once 2 h9. ring.
Qed.

Lemma limb_bytes_bytes h0 h1 h2 h3 h4 h5 h6 h7 h8 h9 : bytes_ok (limb_bytes h0 h1 h2 h3 h4 h5 h6 h7 h8 h9).
Proof. unfold limb_bytes. repeat (constructor; [by apply Z.mod_pos_bound|]). constructor. Qed.

Ltac mask_once :=
  lazymatch goal with
  | |- context [carry_mask ?h ?h' ?n _ ≫= _] =>
      let E := fresh in let Hb := fresh "Hb" in let Hd := fresh "Hd" in let Hr := fresh "Hr" in
      destruct (carry_mask_ok h h' n ltac:(done) ltac:(lia) ltac:(lia) ltac:(done)) as (E & Hb & Hd & Hr);
      change (2 ^ n - 1) with (if n =? 26 then kBottom26Bits else kBottom25Bits) in E; cbv [Z.eqb Pos.eqb] in E;
      rewrite E; clear E; cbn [option_bind base.mbind]; revert Hb Hd Hr;
      generalize (h mod 2 ^ n) (h / 2 ^ n); intros ? ? Hb Hd Hr
  end.

(** The bytes of an element are the ones of its value between 0 and the prime. *)
Lemma fe_tobytes_ok f : summed f -> fe_tobytes f = Some (le_split 32 (fe_val f mod p25519)).
Proof.
  intros Hf. unfold fe_tobytes. destruct (fe_quot_ok f Hf) as [-> Hq]. cbn [option_bind base.mbind].
  pose proof (Z.div_mod (fe_val f) p25519 ltac:(done)) as Hd. pose proof (Z.mod_pos_bound (fe_val f) p25519 ltac:(done)) as Hm.
  revert Hq Hd Hm. generalize (fe_val f / p25519) (fe_val f mod p25519). intros q r Hq Hd Hm.
  destruct f as [h0 h1 h2 h3 h4 h5 h6 h7 h8 h9]. destruct Hf. cbn [fe0 fe1 fe2 fe3 fe4 fe5 fe6 fe7 fe8 fe9] in *.
  rewrite i32_ok by lia. cbn [option_bind base.mbind]. rewrite i32_ok by lia. cbn [option_bind base.mbind].
  do 9 mask_once.
  lazymatch goal with |- context [limb_bytes _ _ _ _ _ _ _ _ _ (s32 (Z.land ?x _))] => set (h := x) in * end.
  change kBottom25Bits with (Z.ones 25). rewrite Z.land_ones by lia.
  pose proof (Z.div_mod h (2 ^ 25) ltac:(done)) as Hdh. pose proof (Z.mod_pos_bound h (2 ^ 25) ltac:(done)) as Hmh.
  rewrite s32_ok by lia. revert Hdh Hmh. generalize (h mod 2 ^ 25) (h / 2 ^ 25). subst h. intros l t Hdh Hmh.
  lazymatch goal with |- Some ?l = _ => set (bytes := l) in * end.
  assert (le_combine bytes = r) as <-.
  { subst bytes. rewrite limb_bytes_ok by lia. unfold fe_val, p25519 in *.
    cbn [fe0 fe1 fe2 fe3 fe4 fe5 fe6 fe7 fe8 fe9] in *.
    match goal with |- ?R = r => assert (R = r + 2 ^ 255 * (q - t)) as HR; [clear - Hd Hdh Hd0 Hd1 Hd2 Hd3 Hd4 Hd5 Hd6 Hd7 Hd8; lia|];
      assert (0 <= R < 2 ^ 255) as HRb; [|generalize dependent R; intros; lia] end.
    lia. }
  symmetry. f_equal. apply le_split_combine; [apply limb_bytes_bytes|done].
Qed.

(** ** Powers *)

Lemma tight_carried f : tight f -> carried f.
Proof. intros H. by eapply within_mono. Qed.
Lemma tight_summed f : tight f -> summed f.
Proof. intros H. by eapply within_mono. Qed.
Lemma tight_loose f : tight f -> loose f.
Proof. intros H. by eapply within_mono. Qed.
Lemma carried_loose f : carried f -> loose f.
Proof. intros H. by eapply within_mono. Qed.
Lemma summed_loose f : summed f -> loose f.
Proof. intros H. by eapply within_mono. Qed.

Create HintDb limbs.
#[export] Hint Resolve tight_carried tight_summed tight_loose carried_loose summed_loose : limbs.

(** [f] can be multiplied, and is a power of [z] modulo the prime. *)
Record power (z k : Z) (f : fe) : Prop := { pw_loose : loose f; pw_val : fe_val f ≡p z ^ k }.

Lemma fe_mul_power z i j f g : 0 <= i -> 0 <= j -> power z i f -> power z j g ->
  exists h, fe_mul f g = Some h /\ power z (i + j) h.
Proof.
  intros Hi Hj [Hf Hvf] [Hg Hvg]. destruct (fe_mul_ok f g) as (h & E & Ht & Hv); [done..|].
  exists h. split; [exact E|]. split; [by apply tight_loose|]. by rewrite Hv, Hvf, Hvg, Z.pow_add_r.
Qed.

Lemma fe_sq_power z i f : 0 <= i -> power z i f -> exists h, fe_sq f = Some h /\ power z (2 * i) h.
Proof.
  intros Hi [Hf Hvf]. destruct (fe_sq_ok f) as (h & E & Ht & Hv); [done|].
  exists h. split; [exact E|]. split; [by apply tight_loose|]. rewrite Hv, Hvf, <- Z.pow_add_r by done. by rewrite Z.add_diag.
Qed.

Lemma fe_sq_n_power n z i f : 0 <= i -> power z i f -> exists h, fe_sq_n n f = Some h /\ power z (2 ^ Z.of_nat n * i) h.
Proof.
  revert i f. induction n as [|n IH]; intros i f Hi Hf; cbn [fe_sq_n].
  - exists f. rewrite Z.mul_1_l. by split.
  - destruct (fe_sq_power z i f Hi Hf) as (g & -> & Hg). cbn [option_bind base.mbind].
    destruct (IH (2 * i) g ltac:(lia) Hg) as (h & E & Hh). exists h. split; [exact E|].
    rewrite Nat2Z.inj_succ, Z.pow_succ_r by lia. by rewrite (Z.mul_comm 2 (2 ^ _)), <- Z.mul_assoc.
Qed.

Ltac named_power k :=
  let v := eval vm_compute in k in
  lazymatch goal with H : power _ k _ |- _ => change k with v in H end.

Ltac run_power :=
  cbn [option_bind base.mbind];
  lazymatch goal with
  | H : power ?z ?i ?f |- context [fe_sq ?f] =>
      destruct (fe_sq_power z i f ltac:(done) H) as (? & -> & ?); named_power (2 * i)
  | H : power ?z ?i ?f |- context [fe_sq_n ?n ?f] =>
      destruct (fe_sq_n_power n z i f ltac:(done) H) as (? & -> & ?); named_power (2 ^ Z.of_nat n * i)
  | H : power ?z ?i ?f, H' : power ?z ?j ?g |- context [fe_mul ?f ?g] =>
      destruct (fe_mul_power z i j f g ltac:(done) ltac:(done) H H') as (? & -> & ?); named_power (i + j)
  end.

(** The chain of squares and products computes the power [p - 2]. *)
Lemma fe_invert_ok z : loose z -> exists h, fe_invert z = Some h /\ power (fe_val z) (p25519 - 2) h.
Proof.
  intros Hz. assert (power (fe_val z) 1 z) as H by (split; [done|by rewrite Z.pow_1_r]).
  unfold fe_invert. do 30 run_power. eexists. split; [done|]. by change (p25519 - 2) with (Z.pos (2 ^ 255 - 21)%positive).
Qed.

(** ** The conditional swap *)

Definition is_int32 (x : Z) : Prop := - 2 ^ 31 <= x < 2 ^ 31.

Lemma s32_w32 x : is_int32 x -> s32 (w32 x) = x.
Proof.
  intros Hx. unfold s32, w32, is_int32 in *. change 4294967296 with (2 ^ 32). rewrite Zplus_mod_idemp_l.
  rewrite Z.mod_small by lia. lia.
Qed.

Lemma lxor_int32 x y : is_int32 x -> is_int32 y -> is_int32 (Z.lxor x y).
Proof.
  unfold is_int32. intros Hx Hy.
  assert (forall z, - 2 ^ 31 <= z < 2 ^ 31 <-> Z.shiftr z 31 = 0 \/ Z.shiftr z 31 = -1) as Hs.
  { intros z. rewrite Z.shiftr_div_pow2 by lia. pose proof (Z.div_mod z (2 ^ 31) ltac:(done)) as Hd.
    pose proof (Z.mod_pos_bound z (2 ^ 31) ltac:(done)) as Hm. lia. }
  apply Hs. rewrite Z.shiftr_lxor. apply Hs in Hx, Hy. destruct Hx as [-> | ->], Hy as [-> | ->]; cbn; auto.
Qed.

Lemma cswap_limb_ok b f g : is_int32 f -> is_int32 g ->
  cswap_limb (Z.b2z b) f g = if b then (g, f) else (f, g).
Proof.
  intros Hf Hg. unfold cswap_limb. destruct b; cbn [Z.b2z].
  - change (w32 (0 - 1)) with (Z.ones 32). rewrite Z.land_ones by done. change (2 ^ 32) with 4294967296.
    assert (w32 (Z.lxor f g) mod 4294967296 = w32 (Z.lxor f g)) as -> by by apply Z.mod_mod.
    rewrite s32_w32 by by apply lxor_int32.
    f_equal; [|rewrite (Z.lxor_comm f g)]; rewrite <- Z.lxor_assoc, Z.lxor_nilpotent; apply Z.lxor_0_l.
  - change (w32 (0 - 0)) with 0. rewrite Z.land_0_r. change (s32 0) with 0. by rewrite !Z.lxor_0_r.
Qed.

Lemma fe_cswap_ok b f g : loose f -> loose g -> fe_cswap f g (Z.b2z b) = if b then (g, f) else (f, g).
Proof.
  intros [] []. unfold fe_cswap. rewrite !cswap_limb_ok by (unfold is_int32; lia). by destruct b, f, g.
Qed.

(** C21: c-fe_bytes_roundtrip: an element read from 32 bytes is written as the
    canonical representative of its value: the bytes of the integer, its top
    bit ignored, modulo 2^255 - 19; the bytes of a reduced integer come back as
    they are. *)
Theorem fe_bytes_roundtrip s : bytes_ok s -> length s = 32%nat ->
  (fe_frombytes s ≫= fe_tobytes) = Some (le_split 32 (le_combine s mod 2 ^ 255 mod p25519)) /\
  (le_combine s < p25519 -> (fe_frombytes s ≫= fe_tobytes) = Some s).
Proof.
  intros Hs Hl. destruct (fe_frombytes_ok s Hs Hl) as (f & -> & Hf & Hv). cbn [option_bind base.mbind].
  assert (summed f) as Hsum by by eapply within_mono. rewrite fe_tobytes_ok by done.
  rewrite (eqp_mods _ _ Hv). split; [done|]. intros Hlt. pose proof (le_combine_bound s Hs) as Hb.
  rewrite (Z.mod_small (le_combine s)) by (unfold p25519 in Hlt; lia). rewrite Z.mod_small by lia.
  f_equal. by apply le_split_combine.
Qed.

Lemma fe_bytes_roundtrip_witness :
  (fe_frombytes (le_split 32 (2 ^ 255 - 18)) ≫= fe_tobytes) = Some (le_split 32 1) /\
  (fe_frombytes (le_split 32 (2 ^ 200 + 5)) ≫= fe_tobytes) = Some (le_split 32 (2 ^ 200 + 5)).
Proof.
  split; [rewrite (proj1 (fe_bytes_roundtrip (le_split 32 (2 ^ 255 - 18)) (le_split_bytes _ _) eq_refl)); vm_compute; reflexivity|].
  apply (proj2 (fe_bytes_roundtrip (le_split 32 (2 ^ 200 + 5)) (le_split_bytes _ _) eq_refl)). vm_compute. reflexivity.
Defined.
