(* ===== verification/Curve25519.v ===== *)
(** The scalar multiplication on Curve25519: the second half of
    [src/bolos/cx_curve25519.c]. The code runs the Montgomery ladder with a
    conditional swap that is put off from one bit to the next, on the limbs of
    [Field25519]; here it is shown to compute the ladder of the textbook over
    the integers modulo 2^255 - 19, without any signed overflow. *)

From S2P Require Import Prelude CxUtils BeBytes Field25519.

(** * Operations *)

(** The variables of [curve25519_scalar_mult_generic] that the loop changes. *)
Record ladder := mk_ladder { lad_x2 : fe; lad_z2 : fe; lad_x3 : fe; lad_z3 : fe; lad_swap : Z }.

(** The body of the loop after the swaps. *)
Definition ladder_step (x1 x2 z2 x3 z3 : fe) : option (fe * fe * fe * fe) :=
  tmp0 ← fe_sub x3 z3;
  tmp1 ← fe_sub x2 z2;
  x2 ← fe_add x2 z2;
  z2 ← fe_add x3 z3;
  z3 ← fe_mul tmp0 x2;
  z2 ← fe_mul z2 tmp1;
  tmp0 ← fe_sq tmp1;
  tmp1 ← fe_sq x2;
  x3 ← fe_add z3 z2;
  z2 ← fe_sub z3 z2;
  x2 ← fe_mul tmp1 tmp0;
  tmp1 ← fe_sub tmp1 tmp0;
  z2 ← fe_sq z2;
  z3 ← fe_mul121666 tmp1;
  x3 ← fe_sq x3;
  tmp0 ← fe_add tmp0 z3;
  z3 ← fe_mul x1 z2;
  z2 ← fe_mul tmp1 tmp0;
  Some (x2, z2, x3, z3).

Definition ladder_body (e : list Z) (x1 : fe) (pos : Z) (s : ladder) : option ladder :=
  byte ← e !! Z.to_nat (pos / 8);
  let b := Z.land 1 (Z.shiftr byte (Z.land pos 7)) in
  let swap := Z.lxor (lad_swap s) b in
  let '(x2, x3) := fe_cswap (lad_x2 s) (lad_x3 s) swap in
  let '(z2, z3) := fe_cswap (lad_z2 s) (lad_z3 s) swap in
  '(x2, z2, x3, z3) ← ladder_step x1 x2 z2 x3 z3;
  Some (mk_ladder x2 z2 x3 z3 b).

(** [for (pos = n - 1; pos >= 0; --pos)]. *)
Fixpoint ladder_loop (e : list Z) (x1 : fe) (n : nat) (s : ladder) : option ladder :=
  match n with
  | O => Some s
  | S n => s ← ladder_body e x1 (Z.of_nat n) s; ladder_loop e x1 n s
  end.

Definition curve25519_scalar_mult_generic (scalar point : list Z) : option (list Z) :=
  let e := scalar in
  x1 ← fe_frombytes point;
  let x2 := fe_1 in
  let z2 := fe_0 in
  let x3 := fe_copy x1 in
  let z3 := fe_1 in
  s ← ladder_loop e x1 255 (mk_ladder x2 z2 x3 z3 0);
  let '(x2, _) := fe_cswap (lad_x2 s) (lad_x3 s) (lad_swap s) in
  let '(z2, _) := fe_cswap (lad_z2 s) (lad_z3 s) (lad_swap s) in
  z2 ← fe_invert z2;
  x2 ← fe_mul x2 z2;
  fe_tobytes x2.

(** The loop of [reverse_int], from the indices [first] and [last]; an access
    out of the buffer, and a loop that does not stop within [fuel], give [None]. *)
Fixpoint reverse_loop (fuel first last : nat) (l : list Z) : option (list Z) :=
  match fuel with
  | O => None
  | S fuel =>
      if (first =? last)%nat then Some l
      else
        let last := (last - 1)%nat in
        if (first =? last)%nat then Some l
        else
          tmp ← l !! last;
          x ← l !! first;
          reverse_loop fuel (first + 1) last (<[first := tmp]> (<[last := x]> l))
  end.

Definition reverse_int (l : list Z) : option (list Z) := reverse_loop 33 0 32 l.

(** The contents of [out], and the value returned. *)
Definition scalarmult_curve25519 (scalar point : list Z) : option (list Z * Z) :=
  scalar_big ← reverse_int scalar;
  point_big ← reverse_int point;
  out ← curve25519_scalar_mult_generic scalar_big point_big;
  out ← reverse_int out;
  Some (out, if bool_decide (replicate 32 0 = out) then -1 else 0).

(** * The ladder of the textbook *)

(** A point of the Montgomery curve [y^2 = x^3 + 486662 x^2 + x] is given by
    its abscissa [X / Z]. *)
Definition xdbl (P : Z * Z) : Z * Z :=
  let '(x, z) := P in
  ((x ^ 2 - z ^ 2) ^ 2 mod p25519, (4 * x * z * (x ^ 2 + 486662 * x * z + z ^ 2)) mod p25519).

(** The sum of two points whose difference has the abscissa [u]. *)
Definition xadd (u : Z) (P Q : Z * Z) : Z * Z :=
  let '(x2, z2) := P in let '(x3, z3) := Q in
  (4 * (x2 * x3 - z2 * z3) ^ 2 mod p25519, (4 * u * (x2 * z3 - z2 * x3) ^ 2) mod p25519).

(** From [(n P, (n + 1) P)] to [(2 n P, (2 n + 1) P)] or [((2 n + 1) P, (2 n + 2) P)]. *)
Definition xstep (u : Z) (b : bool) (s : (Z * Z) * (Z * Z)) : (Z * Z) * (Z * Z) :=
  let '(P, Q) := s in if b then (xadd u P Q, xdbl Q) else (xdbl P, xadd u P Q).

(** The bits [n - 1] to 0 of [k]. *)
Fixpoint xladder (u k : Z) (n : nat) (s : (Z * Z) * (Z * Z)) : (Z * Z) * (Z * Z) :=
  match n with
  | O => s
  | S n => xladder u k n (xstep u (Z.testbit k (Z.of_nat n)) s)
  end.

(** Fast powers modulo the prime: the inverse of a value is its power [p - 2]. *)
Fixpoint pow_mod_p (x : Z) (n : positive) : Z :=
  match n with
  | xH => x mod p25519
  | xO n => let y := pow_mod_p x n in (y * y) mod p25519
  | xI n => let y := pow_mod_p x n in (y * y * x) mod p25519
  end.

(** The abscissa of [k] times the point of abscissa [u], for the 255 low bits
    of [k]; 0 for the point at infinity. *)
Definition x25519 (k u : Z) : Z :=
  let '((x, z), _) := xladder u k 255 ((1, 0), (u, 1)) in
  (x * pow_mod_p z (Z.to_pos (p25519 - 2))) mod p25519.

(** * Proofs *)

(** ** Bits and bytes *)

Lemma reverse_int_ok l : length l = 32%nat -> reverse_int l = Some (rev l).
Proof. intros Hl. do 32 (destruct l as [|? l]; [discriminate Hl|]). destruct l; [reflexivity|discriminate Hl]. Qed.

Lemma testbit_byte b n : is_byte b -> 8 <= n -> Z.testbit b n = false.
Proof.
  unfold is_byte. intros Hb Hn. rewrite Z.testbit_false by lia. rewrite Z.div_small; [done|].
  pose proof (Z.pow_le_mono_r 2 8 n ltac:(lia) Hn). lia.
Qed.

Lemma le_combine_testbit l pos : bytes_ok l -> 0 <= pos < 8 * zlen l -> exists b, l !! Z.to_nat (pos / 8) = Some b /\
  Z.testbit b (pos mod 8) = Z.testbit (le_combine l) pos.
Proof.
  intros Hl. revert pos. induction Hl as [|b l Hb Hl IH]; intros pos Hpos; [rewrite (@zlen_nil Z) in Hpos; lia|].
  rewrite zlen_cons in Hpos. cbn [le_combine].
  assert (b + 256 * le_combine l = Z.lor (Z.shiftl (le_combine l) 8) b) as ->.
  { rewrite Z.shiftl_mul_pow2 by lia. change 256 with (2 ^ 8). rewrite lor_disjoint by (unfold is_byte in Hb; lia). lia. }
  rewrite Z.lor_spec, Z.shiftl_spec by lia. destruct (Z.ltb_spec pos 8) as [Hlt|Hge].
  - exists b. rewrite Z.div_small, Z.mod_small by lia. split; [done|]. by rewrite (Z.testbit_neg_r _ (pos - 8)) by lia.
  - rewrite (testbit_byte b pos) by done. rewrite orb_false_r.
    assert (pos / 8 = (pos - 8) / 8 + 1) as -> by (rewrite <- Z.div_add by lia; f_equal; lia).
    assert (pos mod 8 = (pos - 8) mod 8) as -> by (rewrite <- (Z.mod_add (pos - 8) 1) by lia; f_equal; lia).
    assert (0 <= (pos - 8) / 8) by (apply Z.div_pos; lia).
    rewrite Z2Nat.inj_add by lia. change (Z.to_nat 1) with 1%nat. rewrite Nat.add_comm. cbn [Nat.add lookup list_lookup].
    apply IH. lia.
Qed.

Lemma land_bit b n : 0 <= n -> Z.land 1 (Z.shiftr b n) = Z.b2z (Z.testbit b n).
Proof.
  intros Hn. rewrite Z.land_comm. change 1 with (Z.ones 1) at 1. rewrite Z.land_ones by lia.
  change (2 ^ 1) with 2. rewrite <- Z.bit0_mod, Z.shiftr_spec by lia. by rewrite Z.add_0_l.
Qed.

(** ** The step of the ladder *)

(** A pair of elements is the abscissa [P] of a point. *)
Record abscissa (x z : fe) (P : Z * Z) : Prop := {
  abs_x : carried x; abs_z : carried z; abs_X : fe_val x ≡p fst P; abs_Z : fe_val z ≡p snd P }.

Lemma fe_carried_add f g : carried f -> carried g ->
  exists h, fe_add f g = Some h /\ summed h /\ fe_val h = fe_val f + fe_val g.
Proof.
  intros Hf Hg. destruct (fe_add_ok f g _ _ _ _ Hf Hg) as (h & E & Hh & Hv); [done..|]. exists h.
  split; [exact E|]. split; [by eapply within_mono|exact Hv].
Qed.

Lemma fe_carried_sub f g : carried f -> carried g ->
  exists h, fe_sub f g = Some h /\ summed h /\ fe_val h = fe_val f - fe_val g.
Proof.
  intros Hf Hg. destruct (fe_sub_ok f g _ _ _ _ Hf Hg) as (h & E & Hh & Hv); [done..|]. exists h.
  split; [exact E|]. split; [by eapply within_mono|exact Hv].
Qed.

Ltac run_field lem :=
  let h := fresh "h" in let E := fresh in let Hb := fresh "Hb" in let Hv := fresh "Hv" in
  edestruct lem as (h & E & Hb & Hv);
  [..|rewrite E; clear E; cbn [option_bind base.mbind]]; [by eauto with limbs..|].

Ltac run_op :=
  lazymatch goal with
  | |- context [fe_add ?f ?g ≫= _] => run_field (fe_carried_add f g)
  | |- context [fe_sub ?f ?g ≫= _] => run_field (fe_carried_sub f g)
  | |- context [fe_mul ?f ?g ≫= _] => run_field (fe_mul_ok f g)
  | |- context [fe_sq ?f ≫= _] => run_field (fe_sq_ok f)
  | |- context [fe_mul121666 ?f ≫= _] => run_field (fe_mul121666_ok f)
  end.

(** Replaces the values of the elements by what is known of them. *)
Ltac eval_fe :=
  repeat match goal with
  | H : fe_val ?h = _ |- context [fe_val ?h] => rewrite H
  | H : fe_val ?h ≡p _ |- context [fe_val ?h] => rewrite H
  end; apply eqp_plus with 0; ring.

Lemma ladder_step_ok x1 x2 z2 x3 z3 u P Q : carried x1 -> fe_val x1 ≡p u -> abscissa x2 z2 P -> abscissa x3 z3 Q ->
  exists x2' z2' x3' z3', ladder_step x1 x2 z2 x3 z3 = Some (x2', z2', x3', z3') /\
    abscissa x2' z2' (xdbl P) /\ abscissa x3' z3' (xadd u P Q).
Proof.
  intros Hx1 Hu [Hx2 Hz2 HX2 HZ2] [Hx3 Hz3 HX3 HZ3]. destruct P as [X2 Z2], Q as [X3 Z3]. cbn [fst snd] in *.
  unfold ladder_step. do 18 run_op. do 4 eexists. split; [reflexivity|]. unfold xdbl, xadd.
  split; (split; cbn [fst snd]; [by eauto with limbs|by eauto with limbs|rewrite eqp_mod; eval_fe|rewrite eqp_mod; eval_fe]).
Qed.

Lemma xadd_comm u P Q : xadd u P Q = xadd u Q P.
Proof. destruct P as [x z], Q as [x' z']. unfold xadd. do 2 f_equal; ring. Qed.

(** ** The loop *)

(** The variables of the loop hold the points [R] of the ladder, swapped when
    [lad_swap] says so. *)
Record represents (s : ladder) (b : bool) (R : (Z * Z) * (Z * Z)) : Prop := {
  rep_swap : lad_swap s = Z.b2z b;
  rep_2 : abscissa (lad_x2 s) (lad_z2 s) (if b then snd R else fst R);
  rep_3 : abscissa (lad_x3 s) (lad_z3 s) (if b then fst R else snd R) }.

Lemma cswap_carried b f g : carried f -> carried g -> fe_cswap f g (Z.b2z b) = if b then (g, f) else (f, g).
Proof. intros Hf Hg. apply fe_cswap_ok; by apply carried_loose. Qed.

(** The swap that is due for the bit [b']. *)
Lemma represents_swap s b b' R : represents s b R -> exists x2 z2 x3 z3,
  fe_cswap (lad_x2 s) (lad_x3 s) (Z.lxor (lad_swap s) (Z.b2z b')) = (x2, x3) /\
  fe_cswap (lad_z2 s) (lad_z3 s) (Z.lxor (lad_swap s) (Z.b2z b')) = (z2, z3) /\
  abscissa x2 z2 (if b' then snd R else fst R) /\ abscissa x3 z3 (if b' then fst R else snd R).
Proof.
  intros [-> H2 H3]. assert (Z.lxor (Z.b2z b) (Z.b2z b') = Z.b2z (xorb b b')) as -> by by destruct b, b'.
  pose proof (abs_x _ _ _ H2). pose proof (abs_z _ _ _ H2). pose proof (abs_x _ _ _ H3). pose proof (abs_z _ _ _ H3).
  rewrite !cswap_carried by done. destruct b, b'; cbn [xorb]; repeat eexists; done || apply H2 || apply H3.
Qed.

Lemma ladder_body_ok e x1 u pos s b R : bytes_ok e -> 0 <= pos < 8 * zlen e -> carried x1 -> fe_val x1 ≡p u ->
  represents s b R -> exists s', ladder_body e x1 pos s = Some s' /\
    represents s' (Z.testbit (le_combine e) pos) (xstep u (Z.testbit (le_combine e) pos) R).
Proof.
  intros He Hpos Hx Hu Hs. unfold ladder_body. destruct (le_combine_testbit e pos He Hpos) as (byte & -> & Hbit).
  cbn [option_bind base.mbind]. change 7 with (Z.ones 3). rewrite Z.land_ones by lia.
  pose proof (Z.mod_pos_bound pos 8 ltac:(lia)). rewrite land_bit by (change (2 ^ 3) with 8; lia).
  change (2 ^ 3) with 8. rewrite Hbit. generalize (Z.testbit (le_combine e) pos). intros b'.
  destruct (represents_swap s b b' R Hs) as (x2 & z2 & x3 & z3 & -> & -> & H2 & H3).
  destruct (ladder_step_ok x1 x2 z2 x3 z3 u _ _ Hx Hu H2 H3) as (x2' & z2' & x3' & z3' & -> & H2' & H3').
  eexists. split; [reflexivity|]. destruct R as [P Q]. split; [done| |]; unfold xstep; cbn [lad_x2 lad_z2 lad_x3 lad_z3].
  - by destruct b'.
  - destruct b'; cbn [fst snd] in *; [|done]. by rewrite xadd_comm.
Qed.

Lemma ladder_loop_ok e x1 u n s b R : bytes_ok e -> Z.of_nat n <= 8 * zlen e -> carried x1 -> fe_val x1 ≡p u ->
  represents s b R -> exists s' b', ladder_loop e x1 n s = Some s' /\ represents s' b' (xladder u (le_combine e) n R).
Proof.
  intros He Hn Hx Hu. revert s b R Hn. induction n as [|n IH]; intros s b R Hn Hs; [by exists s, b|].
  cbn [ladder_loop xladder]. destruct (ladder_body_ok e x1 u (Z.of_nat n) s b R) as (s' & -> & Hs'); [done|lia|done..|].
  cbn [option_bind base.mbind]. eapply IH; [lia|exact Hs'].
Qed.

(** ** The result *)

Lemma pow_mod_p_ok x n : pow_mod_p x n ≡p x ^ Z.pos n.
Proof.
  induction n as [n IH|n IH|]; cbn [pow_mod_p]; cbv zeta; rewrite eqp_mod; [rewrite IH..|by rewrite Z.pow_1_r].
  - rewrite Pos2Z.inj_xI, Z.pow_add_r, Z.pow_mul_r, Z.pow_1_r, Z.pow_2_r by lia. by rewrite <- Z.pow_mul_l.
  - rewrite Pos2Z.inj_xO, Z.pow_mul_r, Z.pow_2_r by lia. by rewrite <- Z.pow_mul_l.
Qed.

Lemma start_represents x1 u : carried x1 -> fe_val x1 ≡p u ->
  represents (mk_ladder fe_1 fe_0 (fe_copy x1) fe_1 0) false ((1, 0), (u, 1)).
Proof. intros Hx Hu. split; [done|split; done..]. Qed.

Lemma generic_ok scalar point : bytes_ok scalar -> length scalar = 32%nat -> bytes_ok point -> length point = 32%nat ->
  curve25519_scalar_mult_generic scalar point =
  Some (le_split 32 (x25519 (le_combine scalar) (le_combine point mod 2 ^ 255))).
Proof.
  intros Hs Hsl Hp Hpl. unfold curve25519_scalar_mult_generic. cbv zeta.
  destruct (fe_frombytes_ok point Hp Hpl) as (x1 & -> & Hx & Hu). cbn [option_bind base.mbind].
  destruct (ladder_loop_ok scalar x1 _ 255 _ false _ Hs ltac:(unfold zlen; rewrite Hsl; done) Hx Hu (start_represents x1 _ Hx Hu))
    as (s & b & -> & Hrep).
  cbn [option_bind base.mbind].
  destruct (represents_swap s b false _ Hrep) as (x2 & z2 & x3 & z3 & E & E' & [Hx2 Hz2 HX HZ] & _).
  cbn [Z.b2z] in E, E'. rewrite Z.lxor_0_r in E, E'. rewrite E, E'.
  destruct (fe_invert_ok z2) as (i & -> & [Hi Hiv]); [by apply carried_loose|]. cbn [option_bind base.mbind].
  destruct (fe_mul_ok x2 i) as (o & -> & Ho & Hv); [by apply carried_loose|done|]. cbn [option_bind base.mbind].
  rewrite fe_tobytes_ok by by apply tight_summed. unfold x25519.
  destruct (xladder _ _ 255 _) as [[X Z] R]. cbn [fst snd] in *. do 2 f_equal.
  apply eqp_mods. rewrite Hv, HX, Hiv, HZ, pow_mod_p_ok. by rewrite Z2Pos.id.
Qed.

Lemma x25519_bound k u : 0 <= x25519 k u < p25519.
Proof. unfold x25519. destruct (xladder u k 255 _) as [[X Z] R]. by apply Z.mod_pos_bound. Qed.

Lemma scalarmult_run scalar point : bytes_ok scalar -> length scalar = 32%nat ->
  bytes_ok point -> length point = 32%nat ->
  let x := x25519 (be_combine scalar) (be_combine point mod 2 ^ 255) in
  scalarmult_curve25519 scalar point = Some (be_split 32 x, if x =? 0 then -1 else 0).
Proof.
  intros Hs Hsl Hp Hpl. cbv zeta. unfold scalarmult_curve25519. rewrite !reverse_int_ok by done.
  cbn [option_bind base.mbind].
  rewrite generic_ok by (try apply bytes_ok_rev; rewrite ?length_rev; done). cbn [option_bind base.mbind].
  change (le_combine (rev ?l)) with (be_combine l).
  set (x := x25519 (be_combine scalar) (be_combine point mod 2 ^ 255)).
  assert (0 <= x < p25519) as Hx by apply x25519_bound. clearbody x.
  rewrite reverse_int_ok by apply le_split_length. cbn [option_bind base.mbind].
  change (rev (le_split 32 x)) with (be_split 32 x). do 2 f_equal.
  destruct (Z.eqb_spec x 0) as [-> | Hne]; [by rewrite bool_decide_true by done|].
  rewrite bool_decide_false; [done|]. intros E. apply (f_equal be_combine) in E. rewrite be_combine_split in E.
  change (be_combine (replicate 32 0)) with 0 in E. unfold p25519 in Hx. rewrite Z.mod_small in E by (cbn; lia). lia.
Qed.

(** C7: c-scalarmult_curve25519_ok: for a scalar and an abscissa of 32 bytes,
    [scalarmult_curve25519] never overflows a signed integer and gives, most
    significant byte first, the abscissa that the Montgomery ladder of the
    textbook computes modulo 2^255 - 19 for the scalar as it is (neither clamped
    nor reduced, its top bit and the one of the abscissa apart); it returns -1
    exactly when that abscissa is 0. *)
Theorem scalarmult_curve25519_ok scalar point : bytes_ok scalar -> length scalar = 32%nat ->
  bytes_ok point -> length point = 32%nat ->
  let x := x25519 (be_combine scalar) (be_combine point mod 2 ^ 255) in
  scalarmult_curve25519 scalar point = Some (be_split 32 x, if x =? 0 then -1 else 0).
Proof. by apply scalarmult_run. Qed.

(** The scalar of the second test of [test_scalar_mult_curve25519] in
    [tests/c/syscalls/test_ec.c], which multiplies the base point, of abscissa 9. *)
Definition test_scalar : Z := 0x4507A3D5C434D830CA32F6161A2365F2811DF9E04651971BBF7FABE11C374957.

Lemma scalarmult_curve25519_ok_witness :
  (let x := x25519 test_scalar 9 in
   scalarmult_curve25519 (be_split 32 test_scalar) (be_split 32 9) = Some (be_split 32 x, if x =? 0 then -1 else 0)) /\
  scalarmult_curve25519 (be_split 32 test_scalar) (replicate 32 0) = Some (replicate 32 0, -1).
Proof.
  split.
  - exact (scalarmult_curve25519_ok (be_split 32 test_scalar) (be_split 32 9) (be_split_bytes _ _) eq_refl (be_split_bytes _ _) eq_refl).
  - rewrite (scalarmult_curve25519_ok (be_split 32 test_scalar) (replicate 32 0));
      [vm_compute; reflexivity|apply be_split_bytes|reflexivity|by apply Forall_replicate|reflexivity].
Defined.
