(* ===== verification/ModArith.v ===== *)
(** Arithmetic modulo a prime, as the computations on curves need it: equality
    modulo a number as a setoid, the inverse by a power, square roots; and a
    criterion of primality, with which the modulus 2^255 - 19 is checked. *)

From Stdlib Require Import Znumtheory Zdivisibility ZmodInv.
From S2P Require Import Prelude OpensslBn.

(** * Equality modulo a number *)

Record eqv (m a b : Z) : Prop := { eqv_mods : a mod m = b mod m }.

#[export] Instance eqv_equivalence m : Equivalence (eqv m).
Proof. split; [done| |]; [intros a b []|intros a b c [] []]; split; congruence. Qed.
#[export] Instance eqv_add m : Proper (eqv m ==> eqv m ==> eqv m) Z.add.
Proof. intros a b [H] c d [H']. split. by apply Zplus_eqm. Qed.
#[export] Instance eqv_sub m : Proper (eqv m ==> eqv m ==> eqv m) Z.sub.
Proof. intros a b [H] c d [H']. split. by apply Zminus_eqm. Qed.
#[export] Instance eqv_mul m : Proper (eqv m ==> eqv m ==> eqv m) Z.mul.
Proof. intros a b [H] c d [H']. split. by apply Zmult_eqm. Qed.
#[export] Instance eqv_pow m : Proper (eqv m ==> eq ==> eqv m) Z.pow.
Proof.
  intros a b Hab n _ <-. destruct (Z.ltb_spec n 0) as [|Hn]; [by rewrite !Z.pow_neg_r by done|].
  revert n Hn. apply natlike_ind; [done|]. intros n Hn IH. rewrite !Z.pow_succ_r by done. by apply eqv_mul.
Qed.

Lemma eqv_mod m a : eqv m (a mod m) a.
Proof. split. apply Zmod_mod. Qed.

Lemma eqv_eq m a b : a = b -> eqv m a b.
Proof. by intros ->. Qed.

(** The power by which the code inverts. *)
Definition inverse (p a : Z) : Z := a ^ (p - 2).

Lemma inverse_ok p a : Z.prime p -> a mod p <> 0 -> eqv p (a * inverse p a) 1.
Proof.
  intros Hp Ha. pose proof (Z.prime_ge_2 _ Hp). split. unfold inverse. rewrite <- Z.pow_succ_r by lia.
  replace (Z.succ (p - 2)) with (p - 1) by lia. rewrite (Z.fermat_nz p a Hp Ha), Z.mod_small by lia. done.
Qed.

(** The reductions inside a sum of products disappear. *)
Ltac mod_ring := apply eqv_mods; repeat setoid_rewrite eqv_mod; apply eqv_eq; ring.

(** * Roots modulo a prime *)

Section roots.
Context (p : Z) (Hp : Z.prime p).

Lemma prime_product a b : (a * b) mod p = 0 -> a mod p = 0 \/ b mod p = 0.
Proof.
  pose proof (Z.prime_ge_2 p Hp). rewrite !Z.mod_divide by lia. by apply Z.divide_prime_mul.
Qed.

Lemma eqv_0 a : eqv p a 0 <-> a mod p = 0.
Proof. pose proof (Z.prime_ge_2 p Hp). split; [intros [H1]; by rewrite H1|intros H1; split; by rewrite H1, Z.mod_0_l by lia]. Qed.

(** The two roots of a number differ by their parity. *)
Lemma same_root x y : Z.odd p = true -> 0 <= x < p -> 0 <= y < p -> (x * x) mod p = (y * y) mod p -> Z.odd x = Z.odd y -> x = y.
Proof.
  intros Ho Hx Hy Hxy Hpar.
  assert (((x - y) * (x + y)) mod p = 0) as H.
  { replace ((x - y) * (x + y)) with (x * x - y * y) by ring. rewrite Zminus_mod, Hxy, Z.sub_diag. by apply Z.mod_0_l; lia. }
  apply prime_product in H as [H|H]; rewrite Z.mod_divide in H by lia; destruct H as [k Hk]; [assert (k = 0) by nia; nia|].
  assert (k = 0 \/ k = 1) as [-> | ->] by nia; [lia|]. exfalso. assert (x = p - y) as -> by lia.
  rewrite Z.odd_sub, Ho in Hpar. by destruct (Z.odd y).
Qed.

(** A quotient that is a square comes from a product that is one. *)
Lemma quotient_of_product a b c : b mod p <> 0 -> eqv p (c * b) a -> eqv p (a * inverse p b) c.
Proof.
  intros Hb Hc. rewrite <- Hc, <- Z.mul_assoc. rewrite (inverse_ok p b Hp Hb). by rewrite Z.mul_1_r.
Qed.

Lemma product_of_quotient a b c : b mod p <> 0 -> eqv p (a * inverse p b) c -> eqv p (c * b) a.
Proof.
  intros Hb Hc. rewrite <- Hc, <- Z.mul_assoc, (Z.mul_comm (inverse p b)). rewrite (inverse_ok p b Hp Hb). by rewrite Z.mul_1_r.
Qed.
End roots.

Lemma fermat_cases p z : Z.prime p -> eqv p (z ^ (p - 1)) (if z mod p =? 0 then 0 else 1).
Proof.
  intros Hp. pose proof (Z.prime_ge_2 p Hp). destruct (Z.eqb_spec (z mod p) 0) as [Hz|Hz].
  - rewrite (proj2 (eqv_0 p Hp z) Hz). apply eqv_eq. apply Z.pow_0_l. lia.
  - split. rewrite (Z.fermat_nz p z Hp Hz), Z.mod_small by lia. done.
Qed.

(** * Primality *)

(** An element whose power [q] is 1 modulo the prime [r] is 1 when [q] does not divide [r - 1]. *)
Lemma power_one r q b : Z.prime r -> Z.prime q -> ~ (q | r - 1) -> eqv r (b ^ q) 1 -> eqv r b 1.
Proof.
  intros Hr Hq Hn H. pose proof (Z.prime_ge_2 r Hr). pose proof (Z.prime_ge_2 q Hq).
  assert (b mod r <> 0) as Hb0.
  { intros E%(eqv_0 r Hr). rewrite E, Z.pow_0_l in H by lia. destruct H as [H]. rewrite Z.mod_0_l, Z.mod_1_l in H by lia. lia. }
  assert (eqv r (b ^ (r - 1)) 1) as Hf by (rewrite fermat_cases by done; by rewrite (proj2 (Z.eqb_neq _ _) Hb0)).
  destruct (Z.Bezout_coprime q (r - 1) (Z.coprime_prime_l q (r - 1) Hq Hn)) as (u & v & Huv).
  (* exponents that are not negative: u + n (r - 1) and n q - v *)
  set (n := Z.abs u + Z.abs v). assert ((u + n * (r - 1)) * q = 1 + (n * q - v) * (r - 1)) as He by lia.
  assert (0 <= u + n * (r - 1) /\ 0 <= n * q - v) as [Hn1 Hn2] by (unfold n; nia).
  transitivity (b ^ (1 + (n * q - v) * (r - 1))).
  - rewrite Z.pow_add_r, Z.pow_1_r, (Z.mul_comm (n * q - v)), Z.pow_mul_r by nia. rewrite Hf, Z.pow_1_l, Z.mul_1_r by done. done.
  - rewrite <- He, Z.mul_comm, Z.pow_mul_r by lia. rewrite H, Z.pow_1_l by done. done.
Qed.

(** A power from the high bits of the exponent, for a small base. *)
Fixpoint power_mod (a m : Z) (n : positive) : Z :=
  match n with
  | xH => a mod m
  | xO n => let y := power_mod a m n in (y * y) mod m
  | xI n => let y := power_mod a m n in (a * (y * y)) mod m
  end.

Lemma power_mod_ok a m n : 0 < n -> power_mod a m (Z.to_pos n) = a ^ n mod m.
Proof.
  intros Hn. assert (forall q, eqv m (power_mod a m q) (a ^ Zpos q)) as H.
  { induction q as [q IH|q IH|]; cbn [power_mod]; cbv zeta; rewrite eqv_mod, ?IH; apply eqv_eq; [| |by rewrite Z.pow_1_r].
    - rewrite Pos2Z.inj_xI, Z.add_1_r, Z.pow_succ_r, Z.pow_twice_r by lia. ring.
    - rewrite Pos2Z.inj_xO, Z.pow_twice_r by lia. ring. }
  specialize (H (Z.to_pos n)). rewrite Z2Pos.id in H by lia. destruct H as [<-].
  destruct (Z.to_pos n); cbn [power_mod]; by rewrite Zmod_mod.
Qed.

(** Pocklington's criterion: [qs] are primes that divide [p - 1] and whose product is
    more than the root of [p], [a] an element whose order they divide. *)
Definition pocklington (p a : Z) (qs : list Z) : bool :=
  let F := foldr Z.mul 1 qs in
  (1 <? p) && (p <? F * F) && (power_mod a p (Z.to_pos (p - 1)) =? 1) && bool_decide (NoDup qs) &&
  forallb (fun q => ((p - 1) mod q =? 0) && (Z.gcd (power_mod a p (Z.to_pos ((p - 1) / q)) - 1) p =? 1)) qs.

Lemma divide_product l m : Forall Z.prime l -> NoDup l -> Forall (fun q => (q | m)) l -> (foldr Z.mul 1 l | m).
Proof.
  induction l as [|q l IH]; [by intros; apply Z.divide_1_l|]. rewrite !Forall_cons, NoDup_cons. intros [Hq Hl] [Hn Hd] [Dq Dl].
  cbn [foldr]. specialize (IH Hl Hd Dl). destruct IH as [k ->]. apply Z.mul_divide_mono_r.
  assert (Z.coprime q (foldr Z.mul 1 l)) as Hc.
  { clear -Hq Hl Hn. induction l as [|x l IH]; [apply Z.coprime_1_r|]. cbn [foldr]. rewrite not_elem_of_cons in Hn.
    apply Forall_cons in Hl as [Hx Hl]. apply Z.coprime_mul_r; [|apply IH; tauto]. apply Z.coprime_prime_l; [done|].
    intros H. apply Z.divide_prime_prime in H; [|done..]. tauto. }
  apply Z.gauss with (foldr Z.mul 1 l); [by rewrite Z.mul_comm|done].
Qed.

(** A number that is not a prime has a prime divisor up to its root. *)
Lemma prime_divisor n : 1 < n -> ~ Z.prime n -> exists r, Z.prime r /\ (r | n) /\ r * r <= n.
Proof.
  induction n as [n IH] using (well_founded_induction (Z.lt_wf 0)). intros Hn Hp.
  assert (exists d, 1 < d < n /\ (d | n) /\ d * d <= n) as (d & Hd & Hdn & Hdd).
  { destruct (not_prime_divide n Hn) as (k & Hk & [j Hj]); [by rewrite <- prime_alt|].
    destruct (Z.le_gt_cases (k * k) n); [exists k|exists j]; (split; [nia|split; [|nia]]); [by exists j|exists k; lia]. }
  destruct (prime_dec d) as [Hpd|Hpd]; rewrite <- prime_alt in Hpd; [by exists d|].
  destruct (IH d ltac:(lia) ltac:(lia) Hpd) as (r & Hr & Hrd & Hrr). exists r. split; [done|]. split; [by transitivity d|lia].
Qed.

Lemma eqv_divide r p a b : (r | p) -> eqv p a b -> eqv r a b.
Proof.
  intros Hr [H]. split. destruct (Z.eq_dec r 0) as [->|Hr0]; [destruct Hr as [k ->]; by rewrite Z.mul_0_r in H|].
  assert (p <> 0 -> (r | a - b)) as Hab.
  { intros Hp. transitivity p; [done|]. apply Z.mod_divide; [done|]. by rewrite Zminus_mod, H, Z.sub_diag, Z.mod_0_l. }
  destruct (Z.eq_dec p 0) as [->|Hp]; [rewrite !Z.mod_0_r in H; by rewrite H|]. destruct (Hab Hp) as [k Hk].
  replace a with (b + k * r) by lia. by rewrite Z.mod_add.
Qed.

Theorem pocklington_prime p a qs : Forall Z.prime qs -> 0 <= a -> pocklington p a qs = true -> Z.prime p.
Proof.
  intros Hqs Ha H. unfold pocklington in H. rewrite !andb_true_iff, !Z.ltb_lt, Z.eqb_eq, bool_decide_eq_true, forallb_forall in H.
  destruct H as ((((Hp1 & HF) & Hone) & Hd) & Hall). set (F := foldr Z.mul 1 qs) in *.
  destruct (prime_dec p) as [Hp|Hp]; rewrite <- prime_alt in Hp; [done|]. exfalso.
  destruct (prime_divisor p Hp1 Hp) as (r & Hr & Hrp & Hrr). pose proof (Z.prime_ge_2 r Hr).
  rewrite power_mod_ok in Hone by lia.
  assert (Forall (fun q => (q | r - 1)) qs) as Hdiv.
  { rewrite Forall_forall in Hqs |- *. intros q Hq. specialize (Hqs q Hq). pose proof (Z.prime_ge_2 q Hqs).
    apply list_elem_of_In in Hq. specialize (Hall q Hq). rewrite andb_true_iff, !Z.eqb_eq in Hall. destruct Hall as [Hm Hg].
    destruct (decide ((r - 1) mod q = 0)) as [Hdec|Hn]; [by apply Z.mod_divide in Hdec; [|lia]|]. exfalso.
    rewrite Z.mod_divide in Hn by lia. set (m := (p - 1) / q) in *.
    assert (p - 1 = m * q) as Hpm by (unfold m; rewrite (Z.div_mod (p - 1) q) at 1 by lia; lia).
    assert (0 < m) by (pose proof (Z.prime_ge_2 q Hqs); nia). rewrite power_mod_ok in Hg by lia.
    assert (eqv r (a ^ m) 1) as Ham.
    { apply (power_one r q); [done..|]. rewrite <- Z.pow_mul_r, <- Hpm by lia. apply (eqv_divide r p); [done|].
      split. by rewrite Hone, Z.mod_1_l by lia. }
    assert ((r | a ^ m mod p - 1)) as Hgr.
    { apply Z.mod_divide; [lia|]. apply (proj1 (eqv_0 r Hr _)). transitivity (a ^ m - 1); [|by rewrite Ham].
      apply eqv_sub; [|done]. apply (eqv_divide r p); [done|]. apply eqv_mod. }
    pose proof (Z.gcd_greatest _ _ _ Hgr Hrp) as H3. rewrite Hg in H3. apply Z.divide_1_r_nonneg in H3; lia. }
  pose proof (divide_product qs (r - 1) Hqs Hd Hdiv) as H4. fold F in H4. apply Z.divide_pos_le in H4; [|lia].
  assert (0 <= F) by (unfold F; clear -Hqs; induction Hqs as [|q l Hq _ IH]; cbn; [lia|]; pose proof (Z.prime_ge_2 q Hq); nia). nia.
Qed.

(** ** The field of the curves 25519 *)

Lemma small_prime p : Integers.is_prime p = true -> Z.prime p.
Proof.
  intros H. unfold Integers.is_prime in H. rewrite andb_true_iff, Z.leb_le, negb_true_iff in H. destruct H as [Hp H].
  destruct (prime_dec p) as [Hd|Hd]; rewrite <- prime_alt in Hd; [done|]. exfalso.
  destruct (prime_divisor p ltac:(lia) Hd) as (r & Hr & Hrp & Hrr). pose proof (Z.prime_ge_2 r Hr).
  assert (existsb (fun d => p mod d =? 0) (seqZ 2 (Z.sqrt p - 1)) = true) as H'; [|congruence].
  apply existsb_exists. exists r. split; [|apply Z.eqb_eq, Z.mod_divide; [lia|done]].
  apply list_elem_of_In, elem_of_seqZ. assert (r <= Z.sqrt p) by (apply Z.sqrt_le_square; lia). lia.
Qed.

Ltac by_pocklington a qs := apply (pocklington_prime _ a qs); [|done|vm_compute; reflexivity];
  repeat (apply Forall_cons; split); [..|apply Forall_nil_2];
  first [assumption | apply small_prime; vm_compute; reflexivity].

Lemma prime_1919519569386763 : Z.prime 1919519569386763.
Proof. by_pocklington 2 [8574133; 127]. Qed.

Lemma prime_75445702479781427272750846543864801 : Z.prime 75445702479781427272750846543864801.
Proof. pose proof prime_1919519569386763. by_pocklington 2 [1919519569386763; 75707]. Qed.

Lemma prime_q25519 : Z.prime 74058212732561358302231226437062788676166966415465897661863160754340907.
Proof. pose proof prime_75445702479781427272750846543864801. by_pocklington 2 [75445702479781427272750846543864801; 1923133]. Qed.

Lemma prime_25519 : Z.prime (2 ^ 255 - 19).
Proof. pose proof prime_q25519. by_pocklington 2 [74058212732561358302231226437062788676166966415465897661863160754340907]. Qed.
