(* ===== verification/MpiSlots.v ===== *)
(** Computations on the numbers of a context: which numbers a piece of code
    uses, what it leaves in them, and that the memory that it takes is given
    back. The files on curves compute with [cx_mpi.c] in this way: a state
    [holds] a list of values in a list of slots, each operation on them
    replaces one of the values, and new slots come at the end of the list. *)

From S2P Require Import Prelude CxUtils OpensslBn BeBytes CxMpi CxBn.

(** * Operations *)

(** The code that computes with temporary numbers allocates them one after the
    other and stops at the first failure, the handles that it did not allocate
    being -1; it destroys them all before it returns. *)
Section temporaries.
Context {E : Type} `{!OpensslBn E}.
Local Abbreviation P := (M (mpi_state E)).

(** The handles of the numbers that are not allocated, when the code initialises
    them: the use of an uninitialised one is undefined. *)
Definition handles_left (init : bool) (k : nat) : P (list Z) :=
  if init || (k =? 0)%nat then mret (replicate k bn_none) else mfault.

(** [k] numbers: their pointers, their handles and whether all were allocated. *)
Fixpoint alloc_all (init : bool) (size : Z) (k : nat) : P (list nat * list Z * bool) :=
  match k with
  | O => mret ([], [], true)
  | S k =>
      let! (x, bn) := cx_mpi_alloc size in
      match x with
      | None => let! bns := handles_left init k in mret ([], bn :: bns, false)
      | Some x => let! (xs, bns, ok) := alloc_all init size k in mret (x :: xs, bn :: bns, ok)
      end
  end.

(** A number that holds [modulus] and [k] others, for [body]; the handles are destroyed in the given order. *)
Definition with_numbers {X} (full : X) (init : bool) (size : Z) (modulus : list Z) (k : nat) (order : list Z -> list Z)
    (body : nat -> list nat -> P X) : P X :=
  let! (p, bn_p) := cx_mpi_alloc_init size modulus size in
  let! (r, bns) :=
    match p with
    | None => let! bns := handles_left init k in mret (full, bn_p :: bns)
    | Some p =>
        let! (xs, bns, ok) := alloc_all init size k in
        let! r := (if ok then body p xs else mret full) in
        mret (r, bn_p :: bns)
    end in
  do! destroy_all (order bns) in
  mret r.
End temporaries.

(** * The numbers of a computation *)

(** The slots [xs] hold [vs]; what the other slots hold is [o], and the memory of the context is [h]. *)
Record holds {E} (W : Z) (h : heap) (o : nat -> option Z) (xs : list nat) (vs : list Z) (s : mpi_state E) : Prop := {
  hs_heap : heap_ok h;
  hs_word : word h = Some W;
  hs_size : word_ok W;
  hs_books : books_of s = accounts h;
  hs_distinct : NoDup xs;
  hs_nums : map (num s) xs = map Some vs;
  hs_frame : forall x, x ∉ xs -> num s x = o x }.

Section holds.
Context {E : Type} `{!OpensslBn E, !OpensslLaws E, !OpensslReliable E}.
Implicit Types s : mpi_state E.
Local Abbreviation P := (M (mpi_state E)).

Lemma holds_ready W h o xs vs s : holds W h o xs vs s -> ready W s.
Proof.
  intros [_ Hw Hs Hb _ _ _]. unfold accounts in Hb. rewrite Hw in Hb. injection Hb as H1 _ _ H2 _. by split.
Qed.

Lemma holds_length W h o xs vs s : holds W h o xs vs s -> length vs = length xs.
Proof. intros [_ _ _ _ _ Hn _]. apply (f_equal length) in Hn. by rewrite !length_map in Hn. Qed.

Lemma holds_num W h o xs vs s i x v : holds W h o xs vs s -> xs !! i = Some x -> vs !! i = Some v -> num s x = Some v.
Proof.
  intros [_ _ _ _ _ Hn _] Hx Hv. assert (map (num s) xs !! i = Some (num s x)) as H by (by rewrite list_lookup_fmap, Hx).
  rewrite Hn, list_lookup_fmap, Hv in H. by injection H.
Qed.

Lemma books_left r v e s : is_Some (num s r) -> books_of (left_in r v e s) = books_of s.
Proof.
  intros Hr. pose proof (quiet_call_to r (fun _ => (true, v, e)) (books_of s) s eq_refl) as H.
  pose proof (call_to_run r (fun _ => (true, v, e)) true v e (fun b => mret b) s Hr eq_refl) as Hrun.
  unfold mret, mbind in Hrun. destruct (call_to r _ s) as [b s'| |]; [|done|done]. by injection Hrun as _ <-.
Qed.

(** One of the numbers is replaced. *)
Lemma holds_left W h o xs vs s i x v e : holds W h o xs vs s -> xs !! i = Some x ->
  holds W h o xs (<[i := v]> vs) (left_in x v e s).
Proof.
  intros Hh Hx. pose proof (holds_length _ _ _ _ _ _ Hh) as Hl. destruct Hh as [Hok Hw Hs Hb Hd Hn Hf].
  assert (is_Some (num s x)) as Hsome.
  { destruct (lookup_lt_is_Some_2 vs i) as [u Hu]; [rewrite Hl; by apply lookup_lt_Some in Hx|].
    exists u. assert (map (num s) xs !! i = Some (num s x)) as H by (by rewrite list_lookup_fmap, Hx).
    rewrite Hn, list_lookup_fmap, Hu in H. by injection H. }
  split; try done.
  - by rewrite books_left.
  - apply list_eq. intros j. rewrite !list_lookup_fmap. destruct (decide (j = i)) as [->|Hne].
    + rewrite Hx, list_lookup_insert_eq by (rewrite Hl; by apply lookup_lt_Some in Hx). cbn. f_equal. by apply num_left.
    + rewrite list_lookup_insert_ne by done. apply (f_equal (fun l => l !! j)) in Hn. rewrite !list_lookup_fmap in Hn.
      destruct (xs !! j) as [y|] eqn:Hy; [|done]. cbn in Hn |- *. rewrite <- Hn. f_equal. apply num_left_ne. intros ->.
      destruct Hne. by apply (NoDup_lookup xs j i y).
  - intros y Hy. rewrite num_left_ne; [by apply Hf|]. intros ->. by apply Hy, (list_elem_of_lookup_2 xs i).
Qed.

(** ** Operations *)

Section steps.
Context (W : Z) (h : heap) (o : nat -> option Z) (xs : list nat).
Context {B : Type} (Q : B -> mpi_state E -> Prop).

Lemma wp_get i x v vs (k : Z -> P B) s : holds W h o xs vs s -> xs !! i = Some x -> vs !! i = Some v ->
  wp (k v) Q s -> wp (mbind (bn_get x) k) Q s.
Proof. intros Hh Hx Hv H. unfold wp. rewrite (bn_get_run x v); [done|]. by apply (holds_num W h o xs vs s i). Qed.

Lemma wp_call i x f vs (k : bool -> P B) s : holds W h o xs vs s -> xs !! i = Some x ->
  (forall ok v e, f (openssl s) = (ok, v, e) -> wp (k ok) Q (left_in x v e s)) -> wp (mbind (call_to x f) k) Q s.
Proof.
  intros Hh Hx H. destruct (f (openssl s)) as [[ok v] e] eqn:Ef. specialize (H ok v e eq_refl). unfold wp.
  rewrite (call_to_run x f ok v e); [done| |done].
  destruct (lookup_lt_is_Some_2 vs i) as [u Hu]; [rewrite (holds_length _ _ _ _ _ _ Hh); by apply lookup_lt_Some in Hx|].
  exists u. by apply (holds_num W h o xs vs s i).
Qed.

(** A call that succeeds and whose result is known. *)
Lemma wp_call_ok i x f v vs (k : bool -> P B) s : holds W h o xs vs s -> xs !! i = Some x ->
  (exists n e, f (openssl s) = (true, n, e)) -> (forall n e, f (openssl s) = (true, n, e) -> n = v) ->
  (forall s, holds W h o xs (<[i := v]> vs) s -> wp (k true) Q s) -> wp (mbind (call_to x f) k) Q s.
Proof.
  intros Hh Hx (n & e & Hf) Hn H. eapply wp_call; [done..|]. intros ok v' e' Hf'. rewrite Hf in Hf'. injection Hf' as <- <- <-.
  rewrite (Hn _ _ Hf). apply H. by apply holds_left.
Qed.

Lemma wp_leaves i r (m : P Z) R vs (k : Z -> P B) s : holds W h o xs vs s -> xs !! i = Some r -> leaves m r R s ->
  (forall error v s, error = CX_INTERNAL_ERROR \/ R error v -> holds W h o xs (<[i := v]> vs) s -> wp (k error) Q s) ->
  wp (mbind m k) Q s.
Proof.
  intros Hh Hr (error & v & e & Hm & HR) H. unfold wp. rewrite (mbind_ret _ _ _ _ _ Hm).
  apply (H error v); [done|by apply holds_left].
Qed.

Lemma wp_ternary f i j l n r a b m x y z v vs (k : Z -> P B) s : holds W h o xs vs s ->
  xs !! i = Some r -> xs !! j = Some a -> xs !! l = Some b -> xs !! n = Some m ->
  vs !! j = Some x -> vs !! l = Some y -> vs !! n = Some z ->
  (forall e, exists u e', f x y z e = (true, u, e')) -> (forall e u e', f x y z e = (true, u, e') -> u = v) ->
  (forall s, holds W h o xs (<[i := v]> vs) s -> wp (k CX_OK) Q s) -> wp (mbind (ternary f r a b m) k) Q s.
Proof.
  intros Hh Hr Ha Hb Hm Hx Hy Hz Hf Hv H. unfold ternary.
  do 3 (apply wp_assoc; eapply wp_get; [done..|]). apply wp_assoc. eapply wp_call_ok; [done..|apply Hf|intros n' e'; apply Hv|].
  intros s' Hs'. by apply H.
Qed.

Lemma wp_mod_add i j l n r a b m x y z vs (k : Z -> P B) s : holds W h o xs vs s ->
  xs !! i = Some r -> xs !! j = Some a -> xs !! l = Some b -> xs !! n = Some m ->
  vs !! j = Some x -> vs !! l = Some y -> vs !! n = Some z -> 0 < z ->
  (forall s, holds W h o xs (<[i := (x + y) mod z]> vs) s -> wp (k CX_OK) Q s) -> wp (mbind (cx_mpi_mod_add r a b m) k) Q s.
Proof.
  intros Hh Hr Ha Hb Hm Hx Hy Hz Hp. apply (wp_ternary BN_mod_add i j l n r a b m x y z); try done.
  - intros e. by apply BN_mod_add_succeeds.
  - intros e u e'. by apply BN_mod_add_spec.
Qed.

Lemma wp_mod_sub i j l n r a b m x y z vs (k : Z -> P B) s : holds W h o xs vs s ->
  xs !! i = Some r -> xs !! j = Some a -> xs !! l = Some b -> xs !! n = Some m ->
  vs !! j = Some x -> vs !! l = Some y -> vs !! n = Some z -> 0 < z ->
  (forall s, holds W h o xs (<[i := (x - y) mod z]> vs) s -> wp (k CX_OK) Q s) -> wp (mbind (cx_mpi_mod_sub r a b m) k) Q s.
Proof.
  intros Hh Hr Ha Hb Hm Hx Hy Hz Hp. apply (wp_ternary BN_mod_sub i j l n r a b m x y z); try done.
  - intros e. by apply BN_mod_sub_succeeds.
  - intros e u e'. by apply BN_mod_sub_spec.
Qed.

Lemma wp_mod_mul i j l n r a b m x y z vs (k : Z -> P B) s : holds W h o xs vs s ->
  xs !! i = Some r -> xs !! j = Some a -> xs !! l = Some b -> xs !! n = Some m ->
  vs !! j = Some x -> vs !! l = Some y -> vs !! n = Some z -> 0 < z -> Z.odd z = true ->
  (forall s, holds W h o xs (<[i := (x * y) mod z]> vs) s -> wp (k CX_OK) Q s) -> wp (mbind (cx_mpi_mod_mul r a b m) k) Q s.
Proof.
  intros Hh Hr Ha Hb Hm Hx Hy Hz Hp Ho H. unfold cx_mpi_mod_mul, cx_mpi_is_odd. apply wp_assoc, wp_assoc.
  eapply wp_get; [done..|]. unfold wp at 1. rewrite mbind_mret, BN_is_odd_spec, Ho. cbn [negb].
  apply (wp_ternary BN_mod_mul i j l n r a b m x y z ((x * y) mod z) vs); try done.
  - intros e. by apply BN_mod_mul_succeeds.
  - intros e u e'. by apply BN_mod_mul_spec.
Qed.

Lemma wp_init i x bytes n b vs (k : Z -> P B) s : holds W h o xs vs s -> xs !! i = Some x -> read_at bytes 0 n = Some b ->
  (forall s, holds W h o xs (<[i := be_combine b]> vs) s -> wp (k CX_OK) Q s) -> wp (mbind (cx_mpi_init x bytes n) k) Q s.
Proof.
  intros Hh Hx Hb H. unfold cx_mpi_init. apply wp_assoc. unfold wp at 1. rewrite (mlift_some _ _ _ _ Hb). apply wp_assoc.
  eapply wp_call_ok; [done..|by apply BN_bin2bn_succeeds|intros n' e'; by apply BN_bin2bn_spec|]. intros s' Hs'. by apply H.
Qed.

Lemma wp_set_u32 i x n vs (k : unit -> P B) s : holds W h o xs vs s -> xs !! i = Some x -> is_w32 n ->
  (forall s, holds W h o xs (<[i := n]> vs) s -> wp (k tt) Q s) -> wp (mbind (cx_mpi_set_u32 x n) k) Q s.
Proof.
  intros Hh Hx Hn H. destruct (lookup_lt_is_Some_2 vs i) as [u Hu];
    [rewrite (holds_length _ _ _ _ _ _ Hh); by apply lookup_lt_Some in Hx|].
  destruct (mpi_set_u32 x n s) as (v & e & Hs & Hv); [exists u; by apply (holds_num W h o xs vs s i)|done|].
  unfold wp. rewrite (mbind_ret _ _ _ _ _ Hs). apply H. destruct Hv as [->|[e' Hf]]; [by apply holds_left|].
  destruct (BN_bin2bn_succeeds (be_split 4 n) (openssl s)) as (n' & e2 & Hok). by rewrite Hok in Hf.
Qed.

Lemma wp_cmp_u32 i x v n vs (k : Z -> P B) s : holds W h o xs vs s -> xs !! i = Some x -> vs !! i = Some v ->
  value_ok v -> is_w32 n -> wp (k (sign_of v n)) Q s -> wp (mbind (cx_mpi_cmp_u32 x n) k) Q s.
Proof.
  intros Hh Hx Hv Hok Hn H. pose proof (holds_num _ _ _ _ _ _ _ _ _ Hh Hx Hv) as Hnum. unfold wp.
  by rewrite (mbind_ret _ _ _ _ _ (proj1 (mpi_u32 x v n s Hnum Hok Hn))).
Qed.

Lemma wp_copy i j r a v vs (k : Z -> P B) s : holds W h o xs vs s -> xs !! i = Some r -> xs !! j = Some a ->
  vs !! j = Some v -> fits W v -> i <> j ->
  (forall s, holds W h o xs (<[i := v]> vs) s -> wp (k CX_OK) Q s) -> wp (mbind (cx_mpi_copy r a) k) Q s.
Proof.
  intros Hh Hr Ha Hv Hf Hij H. pose proof (holds_ready _ _ _ _ _ _ Hh) as Hrd. pose proof (rd_word _ _ Hrd) as HW.
  pose proof (holds_num _ _ _ _ _ _ _ _ _ Hh Ha Hv) as Hnum. pose proof (nbytes_ge W v HW).
  assert (r <> a) as Hne. { intros ->. apply Hij. by apply (NoDup_lookup xs i j a (hs_distinct _ _ _ _ _ _ Hh)). }
  unfold cx_mpi_copy. rewrite (proj2 (Nat.eqb_neq r a) Hne). apply wp_assoc. unfold wp at 1.
  rewrite (fits_run W a v), (fits_checked W v) by done. apply wp_assoc. unfold wp at 1.
  rewrite (mbind_ret _ _ _ _ _ (mpi_export W a v (zeros MAX_MPI_BYTE_SIZE) (nbytes W v) s Hrd Hnum Hf
    ltac:(rewrite zlen_zeros by done; destruct Hf; lia))).
  change (truthy CX_OK) with false. cbv iota. fold (bytes W v). apply wp_assoc. unfold wp at 1.
  rewrite (mlift_some _ _ _ _ (read_at_prefix (bytes W v) _ _ (bytes_zlen W v HW))). apply wp_assoc.
  eapply wp_call_ok; [done..|by apply BN_bin2bn_succeeds| |intros s' Hs'; by apply H].
  intros n' e' Hv'. apply BN_bin2bn_spec in Hv' as ->. apply bytes_value; [done|apply Hf].
Qed.

Lemma wp_tst_bit i x pos v vs (k : Z * option bool -> P B) s : holds W h o xs vs s -> xs !! i = Some x -> vs !! i = Some v ->
  fits W v -> 0 <= pos < 128 -> wp (k (CX_OK, Some (Z.testbit v pos))) Q s -> wp (mbind (cx_mpi_tst_bit x pos) k) Q s.
Proof.
  intros Hh Hx Hv Hf Hp H. pose proof (holds_ready _ _ _ _ _ _ Hh) as Hrd. pose proof (nbytes_ge W v (rd_word _ _ Hrd)).
  destruct (mpi_bit W x v pos s Hrd (holds_num _ _ _ _ _ _ _ _ _ Hh Hx Hv) Hf ltac:(lia)) as [Ht _].
  destruct (Z.leb_spec (8 * nbytes W v) pos); [lia|]. unfold wp. by rewrite (mbind_ret _ _ _ _ _ Ht).
Qed.

Lemma wp_export i x v dst n vs (k : Z * list Z -> P B) s : holds W h o xs vs s -> xs !! i = Some x -> vs !! i = Some v ->
  fits W v -> 0 <= n <= zlen dst -> wp (k (CX_OK, be_split (Z.to_nat n) v ++ zdrop n dst)) Q s -> wp (mbind (cx_mpi_export x dst n) k) Q s.
Proof.
  intros Hh Hx Hv Hf Hn H. unfold wp. rewrite (mbind_ret _ _ _ _ _ (mpi_export W x v dst n s (holds_ready _ _ _ _ _ _ Hh)
    (holds_num _ _ _ _ _ _ _ _ _ Hh Hx Hv) Hf Hn)). exact H.
Qed.

Lemma holds_len vs s i x : holds W h o xs vs s -> xs !! i = Some x -> exists v, vs !! i = Some v /\ num s x = Some v.
Proof.
  intros Hh Hx. destruct (lookup_lt_is_Some_2 vs i) as [v Hv]; [rewrite (holds_length _ _ _ _ _ _ Hh); by apply lookup_lt_Some in Hx|].
  exists v. split; [done|]. by apply (holds_num W h o xs vs s i).
Qed.

Lemma wp_set i x v vs (k : unit -> P B) s : holds W h o xs vs s -> xs !! i = Some x ->
  (forall s, holds W h o xs (<[i := v]> vs) s -> wp (k tt) Q s) -> wp (mbind (bn_set x v) k) Q s.
Proof.
  intros Hh Hx H. destruct (holds_len _ _ _ _ Hh Hx) as (u & _ & Hu). unfold wp. rewrite (bn_set_run x v) by (by exists u).
  apply H. rewrite put_left. by apply holds_left.
Qed.

(** Two numbers are exchanged. *)
Lemma wp_swap i j a b x y c vs (k : unit -> P B) s : holds W h o xs vs s -> xs !! i = Some a -> xs !! j = Some b ->
  vs !! i = Some x -> vs !! j = Some y ->
  (forall s, holds W h o xs (if truthy c then <[j := x]> (<[i := y]> vs) else vs) s -> wp (k tt) Q s) ->
  wp (mbind (cx_mpi_swap a b c) k) Q s.
Proof.
  intros Hh Ha Hb Hx Hy H. unfold cx_mpi_swap. destruct (truthy c); [|unfold wp; rewrite mbind_mret; by apply H].
  do 2 (apply wp_assoc; eapply wp_get; [done..|]). apply wp_assoc. eapply wp_set; [done..|]. intros s1 Hs1.
  eapply wp_set; [done..|]. exact H.
Qed.

Lemma wp_rem i j n r a m x z vs (k : Z -> P B) s : holds W h o xs vs s -> xs !! i = Some r -> xs !! j = Some a -> xs !! n = Some m ->
  vs !! j = Some x -> vs !! n = Some z -> 0 <= x -> 0 < z ->
  (forall s, holds W h o xs (<[i := x mod z]> vs) s -> wp (k CX_OK) Q s) -> wp (mbind (cx_mpi_rem r a m) k) Q s.
Proof.
  intros Hh Hr Ha Hm Hx Hz Hpos Hp H. unfold cx_mpi_rem, binary. do 2 (apply wp_assoc; eapply wp_get; [done..|]).
  apply wp_assoc. eapply (wp_call_ok i r _ (x mod z)); [done..|by apply BN_div_remainder_succeeds| |intros s' Hs'; by apply H].
  intros n' e' Hv. apply BN_div_remainder_spec in Hv as ->. apply Z.rem_mod_nonneg; lia.
Qed.

(** A difference that is not negative. *)
Lemma wp_sub i j n r a b x y vs (k : Z -> P B) s : holds W h o xs vs s -> xs !! i = Some r -> xs !! j = Some a -> xs !! n = Some b ->
  vs !! j = Some x -> vs !! n = Some y -> y <= x ->
  (forall s, holds W h o xs (<[i := x - y]> vs) s -> wp (k CX_OK) Q s) -> wp (mbind (cx_mpi_sub r a b) k) Q s.
Proof.
  intros Hh Hr Ha Hb Hx Hy Hle H. unfold cx_mpi_sub. do 2 (apply wp_assoc; eapply wp_get; [done..|]). apply wp_assoc.
  eapply (wp_call_ok i r _ (x - y)); [done..|apply BN_sub_succeeds|intros n' e'; apply BN_sub_spec|]. intros s1 Hs1. cbn [negb].
  apply wp_assoc. eapply wp_get; [exact Hs1|done|apply list_lookup_insert_eq; rewrite (holds_length _ _ _ _ _ _ Hh); by apply lookup_lt_Some in Hr|].
  rewrite BN_is_negative_spec. destruct (Z.ltb_spec (x - y) 0); [lia|]. unfold wp. rewrite mbind_mret. by apply H.
Qed.

Lemma wp_shr i x v n vs (k : Z -> P B) s : holds W h o xs vs s -> xs !! i = Some x -> vs !! i = Some v -> fits W v -> 0 <= n <= 128 ->
  (forall s, holds W h o xs (<[i := v / 2 ^ n]> vs) s -> wp (k CX_OK) Q s) -> wp (mbind (cx_mpi_shr x n) k) Q s.
Proof.
  intros Hh Hx Hv Hf Hn H. pose proof (holds_ready _ _ _ _ _ _ Hh) as Hrd. pose proof (rd_word _ _ Hrd) as HW.
  pose proof (nbytes_ge W v HW). pose proof (holds_num _ _ _ _ _ _ _ _ _ Hh Hx Hv) as Hnum. unfold cx_mpi_shr.
  apply wp_assoc. unfold wp at 1. rewrite (fits_run W x v), size_bits by done.
  destruct (Z.ltb_spec (8 * nbytes W v) n); [lia|]. apply wp_assoc. eapply wp_get; [done..|]. apply wp_assoc.
  eapply (wp_call_ok i x _ (v / 2 ^ n)); [done..|apply BN_rshift_succeeds; lia|
    intros n' e'; apply BN_rshift_spec; [lia|apply Hf]|]. intros s' Hs'. by apply H.
Qed.

(** The bytes of a number are reversed. *)
Lemma wp_reverse i x v n vs (k : unit -> P B) s : holds W h o xs vs s -> xs !! i = Some x -> vs !! i = Some v -> fits W v ->
  0 <= n <= MAX_BYTE_LEN ->
  (forall s, holds W h o xs (<[i := le_combine (be_split (Z.to_nat n) v)]> vs) s -> wp (k tt) Q s) ->
  wp (mbind (cx_mpi_reverse x n) k) Q s.
Proof.
  intros Hh Hx Hv Hf Hn H. unfold cx_mpi_reverse. apply wp_assoc. eapply wp_export; [done..|rewrite zlen_zeros; lia|].
  apply wp_assoc. eapply (wp_set_u32 i x 0); [done..|]. intros s1 Hs1. apply wp_assoc. unfold wp at 1.
  assert (zlen (be_split (Z.to_nat n) v) = n) as Hz by (apply zlen_be_split; lia).
  rewrite (mlift_some _ _ _ _ (read_at_prefix (be_split (Z.to_nat n) v) _ _ Hz)). apply wp_assoc.
  eapply (wp_init i x _ _ (rev (be_split (Z.to_nat n) v))); [done..| |].
  - assert (zlen (rev (be_split (Z.to_nat n) v)) = n) as Hr by (unfold zlen in *; by rewrite length_rev).
    rewrite <- Hr at 2. apply read_at_all.
  - intros s2 Hs2. unfold wp. rewrite mbind_mret. apply H. rewrite list_insert_insert_eq in Hs2. unfold be_combine in Hs2. by rewrite rev_involutive in Hs2.
Qed.

(** The only call that may fail is the one that looks for a root. *)
Lemma wp_mod_sqrt i j n r a m x z sign vs (k : Z -> P B) s : holds W h o xs vs s ->
  xs !! i = Some r -> xs !! j = Some a -> xs !! n = Some m -> vs !! j = Some x -> vs !! n = Some z -> i <> n ->
  fits W z -> 0 < z -> Z.odd z = true ->
  (forall error v s, (error = CX_INTERNAL_ERROR /\ exists e u e', BN_mod_sqrt x z e = (false, u, e')) \/
     ((v * v) mod z = x mod z /\ 0 <= v <= z /\ Z.odd v = truthy sign /\ error = CX_OK) ->
     holds W h o xs (<[i := v]> vs) s -> wp (k error) Q s) ->
  wp (mbind (cx_mpi_mod_sqrt r a m sign) k) Q s.
Proof.
  intros Hh Hr Ha Hm Hx Hz Hin Hf Hp Ho H. unfold cx_mpi_mod_sqrt. do 2 (apply wp_assoc; eapply wp_get; [done..|]).
  apply wp_assoc. eapply wp_call; [done..|]. intros ok v e Hsq. pose proof (holds_left _ _ _ _ _ _ i r v e Hh Hr) as Hh1.
  destruct ok; cbn [negb]; [|apply (H CX_INTERNAL_ERROR v); [left; split; [done|by eexists _, _, _]|done]].
  apply BN_mod_sqrt_spec in Hsq as [Hv Hsq]; [|done].
  assert (forall v', (<[i:=v']> vs) !! i = Some v' /\ (<[i:=v']> vs) !! n = Some z) as Hlook.
  { intros v'. split; [|by rewrite list_lookup_insert_ne]. apply list_lookup_insert_eq.
    rewrite (holds_length _ _ _ _ _ _ Hh). by apply lookup_lt_Some in Hr. }
  apply wp_assoc. eapply wp_tst_bit; [exact Hh1|done|apply Hlook|apply (fits_le W v z); [by destruct Hh|lia|done]|done|]. cbv iota beta.
  apply wp_assoc. unfold wp at 1. rewrite (mlift_some _ _ _ (Z.testbit v 0)) by done. rewrite Z.bit0_odd.
  destruct (Bool.eqb (Z.odd v) (truthy sign)) eqn:Heq.
  - apply eqb_prop in Heq. apply (H CX_OK v); [right; split_and!; [done|lia|lia|done|done]|done].
  - apply eqb_false_iff in Heq. apply wp_assoc. eapply wp_get; [exact Hh1|done|apply Hlook|].
    apply wp_assoc. eapply wp_get; [exact Hh1|done|apply Hlook|]. apply wp_assoc.
    eapply (wp_call_ok _ _ _ (z - v)); [exact Hh1|done|apply BN_sub_succeeds|intros n' e'; apply BN_sub_spec|].
    intros s' Hs'. rewrite list_insert_insert_eq in Hs'. apply (H CX_OK (z - v)); [right|done]. split_and!; [|lia|lia| |done].
    + replace ((z - v) * (z - v)) with (v * v + (z - 2 * v) * z) by lia. by rewrite Z.mod_add by lia.
    + rewrite Z.odd_sub, Ho. by destruct (Z.odd v), (truthy sign).
Qed.
End steps.

(** ** Memory *)

(** The slots that are free. *)
Definition free_slots (l : list (option Z)) : nat := length (filter (fun o => (o = None)) l).

(** There is room for [n] more numbers of [size] bytes. *)
Definition room (n : nat) (W size : Z) (h : heap) : Prop :=
  (n <= free_slots (held h))%nat /\ Z.of_nat n * round_to W size + used (held h) <= MAX_MPI_BYTE_SIZE.

Lemma first_free_none l : first_free l = None -> free_slots l = 0%nat.
Proof.
  unfold free_slots. induction l as [|[n|] l IH]; [done| |done]. cbn [first_free]. intros H.
  rewrite filter_cons_False by done. apply IH. by destruct (first_free l).
Qed.

Lemma free_slots_insert l i n : l !! i = Some None -> free_slots l = S (free_slots (<[i := Some n]> l)).
Proof.
  unfold free_slots. revert i. induction l as [|x l IH]; intros [|i] H; try done.
  - injection H as ->. change (<[0%nat := Some n]> (None :: l)) with (Some n :: l).
    by rewrite filter_cons_True, filter_cons_False by done.
  - specialize (IH i H). change (<[S i := Some n]> (x :: l)) with (x :: <[i := Some n]> l).
    destruct x; [by rewrite !filter_cons_False by done|]. rewrite !filter_cons_True by done. cbn [length]. by rewrite IH.
Qed.

(** The memory with numbers of [n] bytes in the slots [ys]. *)
Definition taking (n : Z) (ys : list nat) (h : heap) : heap :=
  mk_heap (word h) (fold_left (fun l y => <[y := Some n]> l) ys (held h)).

Lemma taking_app n ys y h : taking n (ys ++ [y]) h = mk_heap (word h) (<[y := Some n]> (held (taking n ys h))).
Proof. unfold taking. by rewrite fold_left_app. Qed.

Lemma room_taking k n W size i h : room (S k) W size h -> n = round_to W size -> held h !! i = Some None ->
  room k W size (mk_heap (word h) (<[i := Some n]> (held h))).
Proof.
  intros [H1 H2] -> Hi. split; cbn [held].
  - rewrite (free_slots_insert _ _ (round_to W size) Hi) in H1. lia.
  - rewrite (used_insert _ _ _ _ Hi). cbn [held_size]. lia.
Qed.

Lemma room_less m n W size h : (n <= m)%nat -> word_ok W -> 0 <= size -> room m W size h -> room n W size h.
Proof. intros Hn [_ HW] Hs [H1 H2]. destruct (round_to_ok W size ltac:(lia) Hs) as [Hr _]. split; [lia|]. nia. Qed.

Lemma held_none h x s : books_of s = accounts h -> held h !! x = Some None -> num s x = None.
Proof.
  intros Hb Hx. destruct (num s x) as [v|] eqn:Hn; [|done].
  pose proof (num_live h (Z.of_nat x) v s Hb) as Hl. rewrite Nat2Z.id in Hl. specialize (Hl Hn). unfold live in Hl.
  by rewrite Nat2Z.id, Hx in Hl.
Qed.

Lemma held_some h x v s : books_of s = accounts h -> num s x = Some v -> exists n, held h !! x = Some (Some n).
Proof.
  intros Hb Hx. pose proof (num_live h (Z.of_nat x) v s Hb) as Hl. rewrite Nat2Z.id in Hl. specialize (Hl Hx). unfold live in Hl.
  rewrite Nat2Z.id in Hl. destruct (held h !! x) as [[n|]|]; [by exists n|done|done].
Qed.

(** A number is allocated: it is 0, in a slot that was free. *)
Lemma holds_alloc W h o xs vs s size k : holds W h o xs vs s -> 0 <= size <= 2 ^ 30 -> room (S k) W size h ->
  exists i s', cx_mpi_alloc size s = Ret (Some i, Z.of_nat i) s' /\ held h !! i = Some None /\ o i = None /\ (i ∉ xs) /\
    holds W (mk_heap (word h) (<[i := Some (round_to W size)]> (held h))) o (xs ++ [i]) (vs ++ [0]) s'.
Proof.
  intros Hh Hsize Hroom. pose proof (holds_length _ _ _ _ _ _ Hh) as Hlen. pose proof Hh as [Hok Hw HW Hb Hd Hn Hf].
  pose proof (word_bytes_books h W size s Hok Hb Hw Hsize) as Hsz.
  destruct (first_free (held h)) as [i|] eqn:Hi; [|apply first_free_none in Hi; destruct Hroom; lia].
  pose proof (first_free_lookup _ _ Hi) as Hfree. assert (bk_word (accounts h) = W /\ bk_held (accounts h) = held h /\
    bk_total (accounts h) = used (held h)) as (HbW & Hbh & Hbt) by (unfold accounts; by rewrite Hw).
  pose proof Hok as [_ Hh2]. rewrite Hw in Hh2. destruct Hh2 as (HW1 & _ & Hfo & Hu). pose proof (used_nonneg W _ Hfo).
  destruct (round_to_ok W size ltac:(lia) ltac:(lia)) as (Hr1 & Hr2 & _). pose proof Hroom as [_ Hroom2]. unfold MAX_MPI_BYTE_SIZE in *.
  assert (round_to W size + used (held h) <= 2048) by nia.
  destruct (alloc_run size (round_to W size) s (accounts h) Hb ltac:(rewrite HbW; lia) Hsz) as [s' Ha].
  rewrite Hbh, Hbt, Hi, BN_new_succeeds in Ha. replace (w32 (round_to W size + used (held h))) with (round_to W size + used (held h)) in Ha
    by (symmetry; apply Z.mod_small; lia).
  unfold MAX_MPI_BYTE_SIZE in Ha. destruct (Z.leb_spec (round_to W size + used (held h)) 2048); [|lia]. cbn [andb] in Ha.
  destruct Ha as (Ha & Hb' & Hnum & Hother). pose proof (held_none h i s Hb Hfree) as Hnone.
  assert (i ∉ xs) as Hnot.
  { intros Hin. apply list_elem_of_lookup in Hin as [j Hj].
    destruct (lookup_lt_is_Some_2 vs j) as [u Hu']; [rewrite Hlen; by apply lookup_lt_Some in Hj|].
    by rewrite (holds_num W h o xs vs s j i u Hh Hj Hu') in Hnone. }
  exists i, s'. split; [done|]. split; [done|]. split; [by rewrite <- Hf|]. split; [done|].
  assert (heap_ok (mk_heap (word h) (<[i := Some (round_to W size)]> (held h)))) as Hok'.
  { pose proof (alloc_ok true size h Hok ltac:(lia)) as Hal. unfold alloc_spec in Hal. rewrite Hw, Hi in Hal.
    unfold MAX_MPI_BYTE_SIZE in Hal. destruct (Z.leb_spec (round_to W size + used (held h)) 2048) in Hal; [|lia].
    cbn [andb snd] in Hal. by rewrite <- Hw in Hal. }
  split; try done.
  - rewrite Hb', Hw. apply (accounts_alloc h W); try done; unfold MAX_MPI_BYTE_SIZE; lia.
  - apply NoDup_app. split; [done|]. split; [|apply NoDup_singleton]. intros x Hx ->%list_elem_of_singleton. done.
  - rewrite !map_app. f_equal; [|cbn; by rewrite Hnum]. rewrite <- Hn. apply map_ext_in. intros x Hx%list_elem_of_In.
    apply Hother. by intros ->.
  - intros x Hx. rewrite not_elem_of_app in Hx. destruct Hx as [Hx1 Hx2]. rewrite Hother, Hf; [done|done|].
    intros ->. by apply Hx2, list_elem_of_singleton.
Qed.

(** A number is freed: its slot is as it was before it was allocated. *)
Lemma holds_free W h o l1 i l2 v1 v v2 s : holds W h o (l1 ++ i :: l2) (v1 ++ v :: v2) s -> length v1 = length l1 -> o i = None ->
  exists s', cx_mpi_destroy (Some (Z.of_nat i)) s = Ret CX_OK s' /\
    holds W (mk_heap (word h) (<[i := None]> (held h))) o (l1 ++ l2) (v1 ++ v2) s'.
Proof.
  intros Hh Hlen Ho. pose proof Hh as [Hok Hw HW Hb Hd Hn Hf].
  assert (num s i = Some v) as Hv by (apply (holds_num W h o _ _ s (length l1) i v Hh);
    [by rewrite list_lookup_middle|by rewrite <- Hlen, list_lookup_middle]).
  destruct (held_some h i v s Hb Hv) as [n Hi]. pose proof (ho_len _ Hok) as H64.
  assert ((i < 64)%nat) as Hlt by (rewrite <- H64; by apply lookup_lt_Some in Hi).
  assert (bk_lock (accounts h) = true /\ bk_word (accounts h) = W /\ bk_held (accounts h) = held h) as (Hbl & HbW & Hbh)
    by (unfold accounts; by rewrite Hw).
  destruct (destroy_run (Z.of_nat i) s (accounts h) Hb) as (s' & Hrun & Hb' & Hother).
  { by rewrite Hbh. }
  { left. split; [done|]. rewrite HbW. destruct HW. lia. }
  rewrite Nat2Z.id in Hb', Hother. assert (in_array (Z.of_nat i) = true) as Hin by (unfold in_array, MAX_MPI_ARRAY_ENTRIES; lia).
  rewrite Hin, (accounts_free h W i Hok Hw Hlt), <- Hw in Hb'. exists s'. split; [done|].
  assert (heap_ok (mk_heap (word h) (<[i := None]> (held h)))) as Hok'.
  { pose proof (free_ok (Some (Z.of_nat i)) h Hok) as Hfr. unfold free_spec in Hfr. by rewrite Hin, Nat2Z.id in Hfr. }
  apply NoDup_app in Hd as (Hd1 & Hd2 & Hd3). apply NoDup_cons in Hd3 as [Hd3 Hd4].
  assert (i ∉ l1 ++ l2) as Hnot.
  { rewrite not_elem_of_app. split; [|done]. intros Hi1. apply (Hd2 i Hi1). by left. }
  split; try done.
  - apply NoDup_app. split; [done|]. split; [|done]. intros x Hx Hx2. apply (Hd2 x Hx). by right.
  - rewrite !map_app in Hn |- *. cbn [map] in Hn. apply app_inj_1 in Hn as [Hn1 Hn2]; [|by rewrite !length_map].
    injection Hn2 as _ Hn2. rewrite <- Hn1, <- Hn2. f_equal; apply map_ext_in; intros x Hx%list_elem_of_In; apply Hother;
      intros ->; apply Hnot, elem_of_app; auto.
  - intros x Hx. destruct (decide (x = i)) as [->|Hne].
    + rewrite Ho. apply (held_none _ i s' Hb'). cbn [held]. by rewrite list_lookup_insert_eq by (rewrite H64; done).
    + rewrite Hother by done. apply Hf. rewrite not_elem_of_app in Hx |- *. rewrite not_elem_of_cons. intuition.
Qed.

Lemma round_to_twice W size : 0 < W -> 0 <= size -> round_to W (round_to W size) = round_to W size.
Proof. intros HW Hs. destruct (round_to_ok W size HW Hs) as (H1 & H2 & _). apply round_to_mult; lia. Qed.

Lemma holds_alloc_all init W size k : forall h o xs vs s, holds W h o xs vs s -> 0 <= size <= 2 ^ 30 -> room k W size h ->
  exists ys s', alloc_all init size k s = Ret (ys, map Z.of_nat ys, true) s' /\ length ys = k /\
    Forall (fun y => o y = None /\ held h !! y = Some None) ys /\ NoDup ys /\
    (forall n, room (k + n) W size h -> room n W size (taking (round_to W size) ys h)) /\
    holds W (taking (round_to W size) ys h) o (xs ++ ys) (vs ++ replicate k 0) s'.
Proof.
  induction k as [|k IH]; intros h o xs vs s Hh Hs Hroom.
  { exists [], s. rewrite !app_nil_r. split_and!; try done; [constructor|]. by destruct h. }
  destruct (holds_alloc W h o xs vs s size k Hh Hs Hroom) as (i & s1 & Ha & Hi & Ho & Hx & Hh1).
  set (h1 := mk_heap (word h) (<[i := Some (round_to W size)]> (held h))) in *.
  assert (room k W size h1) as Hroom1 by (by apply room_taking).
  destruct (IH h1 o _ _ s1 Hh1 Hs Hroom1) as (ys & s' & Hall & Hlen & Hys & Hnd & Hr & Hh').
  exists (i :: ys), s'. cbn [alloc_all]. rewrite (mbind_ret _ _ _ _ _ Ha), (mbind_ret _ _ _ _ _ Hall).
  assert (i ∉ ys) as Hni.
  { intros Hin. rewrite Forall_forall in Hys. destruct (Hys i Hin) as [_ Hi']. unfold h1 in Hi'. cbn [held] in Hi'.
    by rewrite list_lookup_insert_eq in Hi' by (by apply lookup_lt_Some in Hi). }
  split; [done|]. split; [cbn; by f_equal|]. split; [|split; [by apply NoDup_cons|]].
  - apply Forall_cons. split; [done|]. rewrite !Forall_forall in *. intros y Hy. destruct (Hys y Hy) as [Hy1 Hy2].
    split; [done|]. unfold h1 in Hy2. cbn [held] in Hy2. rewrite list_lookup_insert_ne in Hy2; [done|]. by intros ->.
  - split.
    + intros n Hn. apply (Hr n). by apply (room_taking (k + n)).
    + rewrite <- !app_assoc in Hh'. exact Hh'.
Qed.

Lemma holds_alloc_init W h o xs vs s size k bytes : holds W h o xs vs s -> 0 <= size <= 2 ^ 20 -> zlen bytes = size ->
  room (S k) W size h ->
  exists i s', cx_mpi_alloc_init size bytes size s = Ret (Some i, Z.of_nat i) s' /\ held h !! i = Some None /\ o i = None /\ (i ∉ xs) /\
    holds W (mk_heap (word h) (<[i := Some (round_to W size)]> (held h))) o (xs ++ [i]) (vs ++ [be_combine bytes]) s'.
Proof.
  intros Hh Hs Hl Hroom. pose proof Hh as [Hok Hw HW Hb Hd Hn Hf]. pose proof (holds_length _ _ _ _ _ _ Hh) as Hlen.
  pose proof HW as [_ HW2]. unfold MAX_MPI_BYTE_SIZE in HW2. destruct (round_to_ok W size ltac:(lia) ltac:(lia)) as (H1 & H2 & _).
  pose proof (round_to_twice W size ltac:(lia) ltac:(lia)) as Htw. destruct (Hroom) as [Hr1 Hr2]. unfold MAX_MPI_BYTE_SIZE in Hr2.
  pose proof Hok as [_ Hh2]. rewrite Hw in Hh2. destruct Hh2 as (_ & _ & Hfo & _). pose proof (used_nonneg W _ Hfo).
  assert (round_to W size <= 2048) by nia.
  destruct (holds_alloc W h o xs vs s (round_to W size) k Hh) as (i & s1 & Ha & Hi & Ho & Hx & Hh1); [lia|unfold room; by rewrite Htw|].
  rewrite Htw in Hh1. unfold cx_mpi_alloc_init. rewrite Z.ltb_irrefl.
  rewrite (mbind_ret _ _ _ _ _ (word_bytes_books h W size s Hok Hb Hw ltac:(lia))), (mbind_ret _ _ _ _ _ Ha).
  rewrite <- Hl, (mlift_some _ _ _ _ (read_at_all bytes)).
  destruct (BN_bin2bn_succeeds bytes (openssl s1)) as (n & e & He). pose proof (BN_bin2bn_spec _ _ _ _ He) as ->.
  assert ((xs ++ [i]) !! length xs = Some i) as Hidx by (by rewrite lookup_app_r, Nat.sub_diag).
  pose proof (holds_left _ _ _ _ _ _ (length xs) i (be_combine bytes) e Hh1 Hidx) as Hh2.
  rewrite (call_to_run i _ true (be_combine bytes) e); [|exists 0|done].
  2: { apply (holds_num _ _ _ _ _ _ (length xs) i 0 Hh1 Hidx). rewrite <- Hlen. by rewrite lookup_app_r, Nat.sub_diag. }
  exists i, (left_in i (be_combine bytes) e s1). split_and!; try done. rewrite Hl.
  rewrite <- Hlen, insert_app_r_alt, Nat.sub_diag in Hh2 by done. exact Hh2.
Qed.

(** The numbers are freed in any order. *)
Definition freeing (ys : list nat) (h : heap) : heap := mk_heap (word h) (fold_left (fun l y => <[y := None]> l) ys (held h)).

Lemma holds_free_all W o xs vs zs : forall h ys ws s, holds W h o (xs ++ ys) (vs ++ ws) s -> length vs = length xs ->
  Forall (fun y => o y = None) ys -> zs ≡ₚ ys ->
  exists s', destroy_all (map Z.of_nat zs) s = Ret tt s' /\ holds W (freeing zs h) o xs vs s'.
Proof.
  induction zs as [|z zs IH]; intros h ys ws s Hh Hlen Ho Hp.
  - apply Permutation_nil_l in Hp as <-. exists s. split; [reflexivity|]. rewrite app_nil_r in Hh.
    pose proof (holds_length _ _ _ _ _ _ Hh) as Hl. rewrite length_app in Hl. destruct ws; [|cbn in Hl; lia].
    rewrite app_nil_r in Hh. by destruct h.
  - assert (z ∈ ys) as Hz by (rewrite <- Hp; by left). apply list_elem_of_split in Hz as (l1 & l2 & ->).
    assert (zs ≡ₚ l1 ++ l2) as Hp' by (apply (Permutation_cons_inv (a := z)); by rewrite Hp, Permutation_middle).
    pose proof (holds_length _ _ _ _ _ _ Hh) as Hl. rewrite !length_app in Hl. cbn [length] in Hl.
    destruct (lookup_lt_is_Some_2 ws (length l1)) as [w Hw]; [lia|].
    rewrite <- (take_drop_middle ws _ _ Hw) in Hh. rewrite !app_assoc in Hh.
    destruct (holds_free W h o (xs ++ l1) z l2 (vs ++ take (length l1) ws) w (drop (S (length l1)) ws) s Hh) as (s1 & Hd & Hh1).
    { rewrite !length_app, length_take. lia. }
    { rewrite Forall_app, Forall_cons in Ho. tauto. }
    rewrite <- !app_assoc in Hh1.
    destruct (IH _ _ _ _ Hh1 Hlen) as (s' & Hall & Hh'); [|done|].
    { rewrite Forall_app, Forall_cons in Ho. rewrite Forall_app. tauto. }
    exists s'. cbn [map destroy_all]. by rewrite (mbind_ret _ _ _ _ _ Hd).
Qed.

Lemma inserts_lookup {A} (v : A) (ys : list nat) : forall (l : list A) (j : nat),
  fold_left (fun l y => <[y := v]> l) ys l !! j = if decide (j ∈ ys) then (fun _ => v) <$> l !! j else l !! j.
Proof.
  induction ys as [|y ys IH]; intros l j; cbn [fold_left]; [by rewrite decide_False by apply not_elem_of_nil|]. rewrite IH.
  destruct (decide (j = y)) as [->|Hne].
  - rewrite (decide_True (P := y ∈ y :: ys)) by left. destruct (l !! y) as [u|] eqn:Hu.
    + rewrite list_lookup_insert_eq by (by apply lookup_lt_Some in Hu). by destruct (decide _).
    + rewrite list_insert_ge by (by apply lookup_ge_None_1). rewrite Hu. by destruct (decide _).
  - rewrite list_lookup_insert_ne by done. destruct (decide (j ∈ ys)); destruct (decide (j ∈ y :: ys)) as [H|H]; try done.
    + destruct H. by right.
    + apply elem_of_cons in H as [|]; done.
Qed.

(** Numbers that are allocated then freed. *)
Lemma freeing_taking n ys zs h : zs ≡ₚ ys -> Forall (fun y => held h !! y = Some None) ys -> freeing zs (taking n ys h) = h.
Proof.
  intros Hp Hys. destruct h as [w l]. unfold freeing, taking. cbn [held word] in *. f_equal. apply list_eq. intros j.
  rewrite !inserts_lookup. rewrite Forall_forall in Hys. destruct (decide (j ∈ zs)) as [H|H]; rewrite Hp in H.
  - rewrite decide_True by done. by rewrite (Hys j H).
  - by rewrite decide_False.
Qed.

Lemma rev_order (f : nat -> Z) l : exists zs, rev (map f l) = map f zs /\ zs ≡ₚ l.
Proof. exists (rev l). split; [by rewrite map_rev|symmetry; apply Permutation_rev]. Qed.

Lemma same_order (f : nat -> Z) l : exists zs, map f l = map f zs /\ zs ≡ₚ l.
Proof. by exists l. Qed.

(** A computation with temporary numbers gives their memory back, whatever it does with them. *)
Lemma wp_with_numbers {X} (full : X) init W h o xs vs s size modulus k order (body : nat -> list nat -> P X)
  (R : X -> list Z -> Prop) :
  holds W h o xs vs s -> 0 <= size <= 2 ^ 20 -> zlen modulus = size -> room (S k) W size h ->
  (forall (f : nat -> Z) l, exists zs, order (map f l) = map f zs /\ zs ≡ₚ l) ->
  (forall p ys h' s', length ys = k -> (forall n, room (S k + n) W size h -> room n W size h') ->
    holds W h' o (xs ++ p :: ys) (vs ++ be_combine modulus :: replicate k 0) s' ->
    wp (body p ys) (fun error s'' => exists vs' ws, length vs' = length xs /\
      holds W h' o (xs ++ p :: ys) (vs' ++ ws) s'' /\ R error vs') s') ->
  wp (with_numbers full init size modulus k order body) (fun error s'' => exists vs', holds W h o xs vs' s'' /\ R error vs') s.
Proof.
  intros Hh Hs Hl Hroom Hord2 Hbody. unfold with_numbers.
  destruct (holds_alloc_init W h o xs vs s size k modulus Hh Hs Hl Hroom) as (p & s1 & Ha & Hp & Hop & Hxp & Hh1).
  set (n := round_to W size) in *. set (h1 := mk_heap (word h) (<[p := Some n]> (held h))) in *.
  unfold wp. rewrite (mbind_ret _ _ _ _ _ Ha). cbv iota beta.
  destruct (holds_alloc_all init W size k h1 o _ _ s1 Hh1 ltac:(lia) ltac:(by apply room_taking)) as (ys & s2 & Hall & Hk & Hys & Hnd & Hr & Hh2).
  rewrite <- !app_assoc in Hh2. cbn [app] in Hh2. fold n in Hh2, Hr.
  assert (forall m, room (S k + m) W size h -> room m W size (taking n ys h1)) as Hr'
    by (intros m Hm; apply Hr; by apply (room_taking (k + m))).
  specialize (Hbody p ys _ s2 Hk Hr' Hh2). unfold wp in Hbody.
  destruct (body p ys s2) as [error s3| |] eqn:Eb; [|done|done]. destruct Hbody as (vs' & ws & Hlen & Hh3 & HR).
  assert (mbind (alloc_all init size k) (fun '(xs, bns, ok) => let! error := (if ok then body p xs else mret full) in
      mret (error, Z.of_nat p :: bns)) s1 = Ret (error, map Z.of_nat (p :: ys)) s3) as Hmid.
  { rewrite (mbind_ret _ _ _ _ _ Hall). cbv iota beta. rewrite (mbind_ret _ _ _ _ _ Eb). done. }
  rewrite (mbind_ret _ _ _ _ _ Hmid). cbv iota beta.
  assert (p ∉ ys) as Hpy.
  { intros Hin. rewrite Forall_forall in Hys. destruct (Hys p Hin) as [_ Hi']. unfold h1 in Hi'. cbn [held] in Hi'.
    by rewrite list_lookup_insert_eq in Hi' by (by apply lookup_lt_Some in Hp). }
  assert (exists zs, order (map Z.of_nat (p :: ys)) = map Z.of_nat zs /\ zs ≡ₚ p :: ys) as (zs & -> & Hzs).
  { apply Hord2. }
  destruct (holds_free_all W o xs vs' zs _ (p :: ys) ws s3 Hh3 Hlen) as (s4 & Hd & Hh4); [|done|].
  { apply Forall_cons. split; [done|]. eapply Forall_impl; [exact Hys|]. by intros y [??]. }
  rewrite (mbind_ret _ _ _ _ _ Hd). unfold mret. exists vs'. split; [|done].
  change (taking n ys h1) with (taking n (p :: ys) h) in Hh4. rewrite freeing_taking in Hh4; [done|done|].
  apply Forall_cons. split; [done|]. rewrite Forall_forall in *. intros y Hy. destruct (Hys y Hy) as [_ Hy2]. unfold h1 in Hy2. cbn [held] in Hy2.
  rewrite list_lookup_insert_ne in Hy2; [done|]. by intros ->.
Qed.

Lemma round_to_mono W m n : 0 < W -> 0 < m <= n -> round_to W m <= round_to W n.
Proof.
  intros HW Hm. unfold round_to. destruct (Z.eqb_spec m 0); [lia|]. destruct (Z.eqb_spec n 0); [lia|].
  apply Z.mul_le_mono_nonneg_r; [lia|]. apply Z.div_le_mono; lia.
Qed.

Lemma nbytes_round W n size : word_ok W -> 0 < size -> num_bytes n <= size -> nbytes W n <= round_to W size.
Proof.
  intros [_ HW] Hs Hn. unfold nbytes, round_to. destruct (Z.eqb_spec size 0); [lia|]. apply Z.mul_le_mono_nonneg_r; [lia|].
  apply Z.max_lub; [apply Z.div_le_lower_bound; lia|]. apply Z.div_le_mono; lia.
Qed.

(** The inverse takes a number for the time of the call. *)
Lemma wp_mod_invert W h o xs {B} (Q : B -> mpi_state E -> Prop) i j n r a m x z size vs (k : Z -> P B) s :
  holds W h o xs vs s -> xs !! i = Some r -> xs !! j = Some a -> xs !! n = Some m -> vs !! j = Some x -> vs !! n = Some z ->
  2 <= z -> num_bytes z <= size -> size <= 2 ^ 20 -> i <> n -> i <> j -> room 1 W size h ->
  (forall s, holds W h o xs (<[i := x ^ (z - 2) mod z]> vs) s -> wp (k CX_OK) Q s) ->
  wp (mbind (cx_mpi_mod_invert_nprime r a m) k) Q s.
Proof.
  intros Hh Hr Ha Hm Hx Hz H2 Hnb Hsize Hin Hij Hroom H. pose proof (holds_length _ _ _ _ _ _ Hh) as Hlen.
  pose proof Hh as [Hok Hw HW _ _ _ _]. pose proof HW as [_ HW2]. pose proof (num_bytes_nonneg z).
  assert (0 < num_bytes z) as Hpos by (apply Z.nle_gt; intros Hle; apply num_bytes_le in Hle; [cbn in Hle|..]; lia).
  pose proof (nbytes_round W z size HW ltac:(lia) Hnb) as Hle. pose proof (nbytes_bounds W z HW) as (_ & _ & _ & Hmod & _).
  pose proof (nbytes_ge W z HW) as [[HW1 HWn] _]. destruct Hroom as [Hr1 Hr2].
  assert (round_to W (nbytes W z) = nbytes W z) as Hrt by (apply round_to_mult; lia).
  pose proof Hok as [_ Hok2]. rewrite Hw in Hok2. destruct Hok2 as (_ & _ & Hfo & _). pose proof (used_nonneg W _ Hfo).
  unfold MAX_MPI_BYTE_SIZE in *. assert (fits W z) as Hfit by (split; [lia|unfold MAX_MPI_BYTE_SIZE; lia]).
  destruct (holds_alloc W h o xs vs s (nbytes W z) 0 Hh ltac:(lia)) as (t & s1 & Hal & Ht & Hot & Hnot & Hh1);
    [split; [done|rewrite Hrt; unfold MAX_MPI_BYTE_SIZE; lia]|].
  unfold cx_mpi_mod_invert_nprime. apply wp_assoc. unfold wp at 1.
  rewrite (fits_run W m z) by (done || by apply (holds_ready _ _ _ _ _ _ Hh) || by apply (holds_num _ _ _ _ _ _ n m z Hh)).
  apply wp_assoc. unfold wp at 1. rewrite (mbind_ret _ _ _ _ _ Hal). cbv iota beta.
  assert (forall i x, xs !! i = Some x -> (xs ++ [t]) !! i = Some x) as Hxs by (intros; by apply lookup_app_l_Some).
  assert (forall i v u, vs !! i = Some v -> (vs ++ [u]) !! i = Some v) as Hvs by (intros; by apply lookup_app_l_Some).
  assert ((xs ++ [t]) !! length xs = Some t) as Htx by (by rewrite lookup_app_r, Nat.sub_diag).
  assert (forall u, (vs ++ [u]) !! length xs = Some u) as Htv by (intros; rewrite <- Hlen; by rewrite lookup_app_r, Nat.sub_diag).
  assert (forall u u', <[length xs := u']> (vs ++ [u]) = vs ++ [u']) as Hins
    by (intros; rewrite <- Hlen, insert_app_r_alt, Nat.sub_diag by done; done).
  do 2 apply wp_assoc. eapply (wp_get _ _ _ _ _ n); [exact Hh1|by apply Hxs|by apply Hvs|].
  apply wp_assoc. eapply wp_call_ok; [exact Hh1|exact Htx|apply BN_copy_succeeds|intros n' e'; apply BN_copy_spec|].
  intros s2 Hh2. rewrite Hins in Hh2. do 2 apply wp_assoc. eapply wp_get; [exact Hh2|exact Htx|apply Htv|].
  eapply (wp_call_ok _ _ _ _ _ (length xs) t _ (z - 2)); [exact Hh2|exact Htx|apply BN_sub_word_succeeds|intros n' e'; apply BN_sub_word_spec|].
  intros s3 Hh3. rewrite Hins in Hh3. do 2 apply wp_assoc. eapply (wp_get _ _ _ _ _ j); [exact Hh3|by apply Hxs|by apply Hvs|].
  apply wp_assoc. eapply wp_get; [exact Hh3|exact Htx|apply Htv|].
  apply wp_assoc. eapply (wp_get _ _ _ _ _ n); [exact Hh3|by apply Hxs|by apply Hvs|].
  eapply (wp_call_ok _ _ _ _ _ i r _ (x ^ (z - 2) mod z));
    [exact Hh3|by apply Hxs|apply BN_mod_exp_succeeds; lia|intros n' e'; apply BN_mod_exp_spec; lia|].
  intros s4 Hh4. unfold wp at 1. rewrite mbind_mret. cbn [internal].
  assert (<[i := x ^ (z - 2) mod z]> (vs ++ [z - 2]) = <[i := x ^ (z - 2) mod z]> vs ++ (z - 2) :: []) as Hvs4
    by (apply insert_app_l; rewrite Hlen; by apply lookup_lt_Some in Hr).
  rewrite Hvs4 in Hh4. destruct (holds_free W _ o xs t [] _ _ [] s4 Hh4) as (s5 & Hd & Hh5); [by rewrite length_insert|done|].
  apply wp_assoc. unfold wp at 1. rewrite (mbind_ret _ _ _ _ _ Hd), mbind_mret. apply H. rewrite !app_nil_r in Hh5. cbn [held word] in Hh5.
  rewrite list_insert_insert_eq, list_insert_id in Hh5 by done. by destruct h.
Qed.
End holds.

(** ** Some of the numbers *)

Section parts.
Context {E : Type}.
Implicit Types s : mpi_state E.

Lemma holds_part W h o xs ys vs ws s : length vs = length xs -> holds W h o (xs ++ ys) (vs ++ ws) s -> holds W h (num s) xs vs s.
Proof.
  intros Hl [Hok Hw HW Hb Hd Hn Hf]. rewrite !map_app in Hn. apply app_inj_1 in Hn as [Hn _]; [|by rewrite !length_map].
  apply NoDup_app in Hd as (Hd & _). by split.
Qed.

Lemma holds_rejoin W h o xs ys vs ws s vs' s' : length vs = length xs -> holds W h o (xs ++ ys) (vs ++ ws) s ->
  holds W h (num s) xs vs' s' -> holds W h o (xs ++ ys) (vs' ++ ws) s'.
Proof.
  intros Hl [_ _ _ _ Hd Hn Hf] [Hok Hw HW Hb _ Hn' Hf']. split; try done.
  - rewrite !map_app in Hn |- *. apply app_inj_1 in Hn as [_ Hn]; [|by rewrite !length_map]. rewrite Hn', <- Hn. f_equal.
    apply map_ext_in. intros x Hx%list_elem_of_In. apply Hf'. apply NoDup_app in Hd as (_ & Hd & _). intros Hin. by apply (Hd x).
  - intros x Hx. rewrite <- Hf by done. apply Hf'. rewrite not_elem_of_app in Hx. tauto.
Qed.

Lemma holds_swap W h o xs ys vs ws s : length vs = length xs -> holds W h o (xs ++ ys) (vs ++ ws) s ->
  holds W h o (ys ++ xs) (ws ++ vs) s.
Proof.
  intros Hl [Hok Hw HW Hb Hd Hn Hf]. rewrite !map_app in Hn. apply app_inj_1 in Hn as [Hn1 Hn2]; [|by rewrite !length_map].
  split; try done.
  - by rewrite (Permutation_app_comm ys xs).
  - by rewrite !map_app, Hn1, Hn2.
  - intros x Hx. apply Hf. rewrite not_elem_of_app in Hx |- *. tauto.
Qed.
End parts.

(** ** Stepping *)

Lemma wp_mret {S A B} (a : A) (k : A -> M S B) Q s : wp (k a) Q s -> wp (mbind (mret a) k) Q s.
Proof. done. Qed.

(** The rank of a slot in an explicit list. *)
Ltac rank_in x l :=
  lazymatch l with
  | x :: _ => constr:(0%nat)
  | _ :: ?l => let n := rank_in x l in constr:(S n)
  end.

(** Goes through the next operation: the state that it leaves takes the name of the one before. *)
Ltac holds_update H s :=
  clear dependent s; intros s H; cbv beta iota zeta delta [insert list_insert] in H.

Ltac mpi_step :=
  lazymatch goal with
  | H : holds _ _ _ ?xs _ ?s |- wp (mbind (cx_mpi_mod_add ?r ?a ?b ?m) _) _ ?s =>
      let i := rank_in r xs in let j := rank_in a xs in let l := rank_in b xs in let n := rank_in m xs in
      eapply (wp_mod_add _ _ _ _ _ i j l n r a b m); [exact H|reflexivity..|try assumption|holds_update H s]
  | H : holds _ _ _ ?xs _ ?s |- wp (mbind (cx_mpi_mod_sub ?r ?a ?b ?m) _) _ ?s =>
      let i := rank_in r xs in let j := rank_in a xs in let l := rank_in b xs in let n := rank_in m xs in
      eapply (wp_mod_sub _ _ _ _ _ i j l n r a b m); [exact H|reflexivity..|try assumption|holds_update H s]
  | H : holds _ _ _ ?xs _ ?s |- wp (mbind (cx_mpi_mod_mul ?r ?a ?b ?m) _) _ ?s =>
      let i := rank_in r xs in let j := rank_in a xs in let l := rank_in b xs in let n := rank_in m xs in
      eapply (wp_mod_mul _ _ _ _ _ i j l n r a b m); [exact H|reflexivity..|try assumption|try assumption|holds_update H s]
  | H : holds _ _ _ ?xs _ ?s |- wp (mbind (cx_mpi_init ?x ?p ?n) _) _ ?s =>
      let i := rank_in x xs in eapply (wp_init _ _ _ _ _ i x p n); [exact H|reflexivity|try eassumption|holds_update H s]
  | H : holds _ _ _ ?xs _ ?s |- wp (mbind (cx_mpi_set_u32 ?x ?n) _) _ ?s =>
      let i := rank_in x xs in eapply (wp_set_u32 _ _ _ _ _ i x n); [exact H|reflexivity|done|holds_update H s]
  | H : holds _ _ _ ?xs _ ?s |- wp (mbind (cx_mpi_cmp_u32 ?x ?n) _) _ ?s =>
      let i := rank_in x xs in eapply (wp_cmp_u32 _ _ _ _ _ i x _ n); [exact H|reflexivity|reflexivity|try assumption|done|]
  | H : holds _ _ _ ?xs _ ?s |- wp (mbind (cx_mpi_copy ?r ?a) _) _ ?s =>
      let i := rank_in r xs in let j := rank_in a xs in
      eapply (wp_copy _ _ _ _ _ i j r a); [exact H|reflexivity|reflexivity|reflexivity|try assumption|discriminate|holds_update H s]
  | H : holds _ _ _ ?xs _ ?s |- wp (mbind (cx_mpi_mod_invert_nprime ?r ?a ?m) _) _ ?s =>
      let i := rank_in r xs in let j := rank_in a xs in let n := rank_in m xs in
      eapply (wp_mod_invert _ _ _ _ _ i j n r a m);
        [exact H|reflexivity..|try assumption|try eassumption|try assumption|discriminate|discriminate|try assumption|holds_update H s]
  | H : holds _ _ _ ?xs _ ?s |- wp (mbind (cx_mpi_export ?x ?dst ?n) _) _ ?s =>
      let i := rank_in x xs in eapply (wp_export _ _ _ _ _ i x _ dst n); [exact H|reflexivity|reflexivity|try assumption|try assumption|]
  | H : holds _ _ _ ?xs _ ?s |- wp (mbind (cx_mpi_tst_bit ?x ?n) _) _ ?s =>
      let i := rank_in x xs in eapply (wp_tst_bit _ _ _ _ _ i x n _); [exact H|reflexivity|reflexivity|try assumption|done|]
  | H : holds _ _ _ ?xs _ ?s |- wp (mbind (cx_mpi_swap ?a ?b ?c) _) _ ?s =>
      let i := rank_in a xs in let j := rank_in b xs in
      eapply (wp_swap _ _ _ _ _ i j a b _ _ c); [exact H|reflexivity|reflexivity|reflexivity|reflexivity|holds_update H s]
  | H : holds _ _ _ ?xs _ ?s |- wp (mbind (cx_mpi_rem ?r ?a ?m) _) _ ?s =>
      let i := rank_in r xs in let j := rank_in a xs in let n := rank_in m xs in
      eapply (wp_rem _ _ _ _ _ i j n r a m); [exact H|reflexivity..|try assumption|try assumption|holds_update H s]
  | H : holds _ _ _ ?xs _ ?s |- wp (mbind (cx_mpi_sub ?r ?a ?b) _) _ ?s =>
      let i := rank_in r xs in let j := rank_in a xs in let n := rank_in b xs in
      eapply (wp_sub _ _ _ _ _ i j n r a b); [exact H|reflexivity..|try assumption|holds_update H s]
  | H : holds _ _ _ ?xs _ ?s |- wp (mbind (cx_mpi_shr ?x ?n) _) _ ?s =>
      let i := rank_in x xs in eapply (wp_shr _ _ _ _ _ i x _ n); [exact H|reflexivity|reflexivity|try assumption|done|holds_update H s]
  | H : holds _ _ _ ?xs _ ?s |- wp (mbind (cx_mpi_reverse ?x ?n) _) _ ?s =>
      let i := rank_in x xs in eapply (wp_reverse _ _ _ _ _ i x _ n); [exact H|reflexivity|reflexivity|try assumption|try assumption|holds_update H s]
  | |- wp (mbind (check _ _) _) _ _ => unfold check at 1; apply wp_assoc
  | |- wp (mbind (if truthy CX_OK then _ else _) _) _ _ => change (truthy CX_OK) with false; cbv iota
  | |- wp (mbind (mret _) _) _ _ => apply wp_mret
  end.

(** The end of a step, and the last operation of a computation. *)
Lemma wp_last {S A} (m : M S A) Q s : wp (mbind m mret) Q s -> wp m Q s.
Proof. unfold wp, mbind. by destruct (m s). Qed.
