(* ===== verification/CxEcTables.v ===== *)
(** The domains of the elliptic curves: the constants of
    [src/bolos/cx_ec_domain.c], byte for byte, with the numbers of the curves in
    the second SDK ([src/bolos/cx_ec.h]). *)

From S2P Require Import Prelude CxUtils BeBytes.

(** * The curves *)

Definition CX_CURVE_WEIERSTRASS_START : Z := 0x20.
Definition CX_CURVE_SECP256K1 : Z := 0x21.
Definition CX_CURVE_SECP256R1 : Z := 0x22.
Definition CX_CURVE_SECP384R1 : Z := 0x23.
Definition CX_CURVE_SECP521R1 : Z := 0x24.
Definition CX_CURVE_BrainPoolP256T1 : Z := 0x31.
Definition CX_CURVE_BrainPoolP256R1 : Z := 0x32.
Definition CX_CURVE_BrainPoolP320T1 : Z := 0x33.
Definition CX_CURVE_BrainPoolP320R1 : Z := 0x34.
Definition CX_CURVE_BrainPoolP384T1 : Z := 0x35.
Definition CX_CURVE_BrainPoolP384R1 : Z := 0x36.
Definition CX_CURVE_BrainPoolP512T1 : Z := 0x37.
Definition CX_CURVE_BrainPoolP512R1 : Z := 0x38.
Definition CX_CURVE_BLS12_381_G1 : Z := 0x39.
Definition CX_CURVE_Stark256 : Z := 0x51.
Definition CX_CURVE_BLS12_377_G1 : Z := 0x52.
Definition CX_CURVE_PALLAS : Z := 0x53.
Definition CX_CURVE_VESTA : Z := 0x54.
Definition CX_CURVE_WEIERSTRASS_END : Z := 0x6F.
Definition CX_CURVE_TWISTED_EDWARDS_START : Z := 0x70.
Definition CX_CURVE_Ed25519 : Z := 0x71.
Definition CX_CURVE_Ed448 : Z := 0x72.
Definition CX_CURVE_EdBLS12 : Z := 0x73.
Definition CX_CURVE_JUBJUB : Z := 0x74.
Definition CX_CURVE_TWISTED_EDWARDS_END : Z := 0x7F.
Definition CX_CURVE_MONTGOMERY_START : Z := 0x80.
Definition CX_CURVE_Curve25519 : Z := 0x81.
Definition CX_CURVE_Curve448 : Z := 0x82.
Definition CX_CURVE_MONTGOMERY_END : Z := 0x8F.

(** [struct cx_curve_domain_s]: the pointers are the arrays they point to. *)
Record cx_curve_domain_t := mk_domain {
  dom_curve : Z; dom_bit_size : Z; dom_length : Z;
  dom_a : list Z; dom_b : list Z; dom_p : list Z; dom_Gx : list Z; dom_Gy : list Z; dom_n : list Z; dom_h : list Z;
  dom_Hn : list Z; dom_Hp : list Z }.

Definition BLS12_381_SIZE_u8 : Z := 48.
Definition BLS12_377_SIZE_u8 : Z := 48.
Definition EDBLS12_377_SIZE_u8 : Z := 32.
Definition PASTA_SIZE_u8 : Z := 32.

(** * The constants *)

Definition C_cofactor_1 : list Z :=
  [0; 0; 0; 0x01].
Definition C_cofactor_4 : list Z :=
  [0; 0; 0; 0x04].
Definition C_cofactor_8 : list Z :=
  [0; 0; 0; 0x08].
Definition C_cx_secp256k1_a : list Z :=
  [0; 0; 0; 0; 0; 0; 0; 0; 0; 0; 0; 0; 0; 0; 0; 0;
   0; 0; 0; 0; 0; 0; 0; 0; 0; 0; 0; 0; 0; 0; 0; 0].
Definition C_cx_secp256k1_b : list Z :=
  [0; 0; 0; 0; 0; 0; 0; 0; 0; 0; 0; 0; 0; 0; 0; 0;
   0; 0; 0; 0; 0; 0; 0; 0; 0; 0; 0; 0; 0; 0; 0; 0x07].
Definition C_cx_secp256k1_p : list Z :=
  [0xff; 0xff; 0xff; 0xff; 0xff; 0xff; 0xff; 0xff; 0xff; 0xff; 0xff; 0xff; 0xff; 0xff; 0xff; 0xff;
   0xff; 0xff; 0xff; 0xff; 0xff; 0xff; 0xff; 0xff; 0xff; 0xff; 0xff; 0xfe; 0xff; 0xff; 0xfc; 0x2f].
Definition C_cx_secp256k1_Hp : list Z :=
  [0; 0; 0; 0; 0; 0; 0; 0; 0; 0; 0; 0; 0; 0; 0; 0;
   0; 0; 0; 0; 0; 0; 0; 0x01; 0; 0; 0x07; 0xa2; 0; 0x0e; 0x90; 0xa1].
Definition C_cx_secp256k1_Gx : list Z :=
  [0x79; 0xbe; 0x66; 0x7e; 0xf9; 0xdc; 0xbb; 0xac; 0x55; 0xa0; 0x62; 0x95; 0xce; 0x87; 0x0b; 0x07;
   0x02; 0x9b; 0xfc; 0xdb; 0x2d; 0xce; 0x28; 0xd9; 0x59; 0xf2; 0x81; 0x5b; 0x16; 0xf8; 0x17; 0x98].
Definition C_cx_secp256k1_Gy : list Z :=
  [0x48; 0x3a; 0xda; 0x77; 0x26; 0xa3; 0xc4; 0x65; 0x5d; 0xa4; 0xfb; 0xfc; 0x0e; 0x11; 0x08; 0xa8;
   0xfd; 0x17; 0xb4; 0x48; 0xa6; 0x85; 0x54; 0x19; 0x9c; 0x47; 0xd0; 0x8f; 0xfb; 0x10; 0xd4; 0xb8].
Definition C_cx_secp256k1_n : list Z :=
  [0xff; 0xff; 0xff; 0xff; 0xff; 0xff; 0xff; 0xff; 0xff; 0xff; 0xff; 0xff; 0xff; 0xff; 0xff; 0xfe;
   0xba; 0xae; 0xdc; 0xe6; 0xaf; 0x48; 0xa0; 0x3b; 0xbf; 0xd2; 0x5e; 0x8c; 0xd0; 0x36; 0x41; 0x41].
Definition C_cx_secp256k1_Hn : list Z :=
  [0x9d; 0x67; 0x1c; 0xd5; 0x81; 0xc6; 0x9b; 0xc5; 0xe6; 0x97; 0xf5; 0xe4; 0x5b; 0xcd; 0x07; 0xc6;
   0x74; 0x14; 0x96; 0xc2; 0x0e; 0x7c; 0xf8; 0x78; 0x89; 0x6c; 0xf2; 0x14; 0x67; 0xd7; 0xd1; 0x40].
Definition C_cx_secp256k1_h : list Z := C_cofactor_1.

Definition C_cx_secp256k1 : cx_curve_domain_t := {|
  dom_curve := CX_CURVE_SECP256K1; dom_bit_size := 256; dom_length := 32;
  dom_a := C_cx_secp256k1_a; dom_b := C_cx_secp256k1_b; dom_p := C_cx_secp256k1_p; dom_Gx := C_cx_secp256k1_Gx; dom_Gy := C_cx_secp256k1_Gy;
  dom_n := C_cx_secp256k1_n; dom_h := C_cx_secp256k1_h; dom_Hn := C_cx_secp256k1_Hn; dom_Hp := C_cx_secp256k1_Hp |}.

Definition C_cx_secp256r1_a : list Z :=
  [0xff; 0xff; 0xff; 0xff; 0; 0; 0; 0x01; 0; 0; 0; 0; 0; 0; 0; 0;
   0; 0; 0; 0; 0xff; 0xff; 0xff; 0xff; 0xff; 0xff; 0xff; 0xff; 0xff; 0xff; 0xff; 0xfc].
Definition C_cx_secp256r1_b : list Z :=
  [0x5a; 0xc6; 0x35; 0xd8; 0xaa; 0x3a; 0x93; 0xe7; 0xb3; 0xeb; 0xbd; 0x55; 0x76; 0x98; 0x86; 0xbc;
   0x65; 0x1d; 0x06; 0xb0; 0xcc; 0x53; 0xb0; 0xf6; 0x3b; 0xce; 0x3c; 0x3e; 0x27; 0xd2; 0x60; 0x4b].
Definition C_cx_secp256r1_p : list Z :=
  [0xff; 0xff; 0xff; 0xff; 0; 0; 0; 0x01; 0; 0; 0; 0; 0; 0; 0; 0;
   0; 0; 0; 0; 0xff; 0xff; 0xff; 0xff; 0xff; 0xff; 0xff; 0xff; 0xff; 0xff; 0xff; 0xff].
Definition C_cx_secp256r1_Hp : list Z :=
  [0; 0; 0; 0x04; 0xff; 0xff; 0xff; 0xfd; 0xff; 0xff; 0xff; 0xff; 0xff; 0xff; 0xff; 0xfe;
   0xff; 0xff; 0xff; 0xfb; 0xff; 0xff; 0xff; 0xff; 0; 0; 0; 0; 0; 0; 0; 0x03].
Definition C_cx_secp256r1_Gx : list Z :=
  [0x6b; 0x17; 0xd1; 0xf2; 0xe1; 0x2c; 0x42; 0x47; 0xf8; 0xbc; 0xe6; 0xe5; 0x63; 0xa4; 0x40; 0xf2;
   0x77; 0x03; 0x7d; 0x81; 0x2d; 0xeb; 0x33; 0xa0; 0xf4; 0xa1; 0x39; 0x45; 0xd8; 0x98; 0xc2; 0x96].
Definition C_cx_secp256r1_Gy : list Z :=
  [0x4f; 0xe3; 0x42; 0xe2; 0xfe; 0x1a; 0x7f; 0x9b; 0x8e; 0xe7; 0xeb; 0x4a; 0x7c; 0x0f; 0x9e; 0x16;
   0x2b; 0xce; 0x33; 0x57; 0x6b; 0x31; 0x5e; 0xce; 0xcb; 0xb6; 0x40; 0x68; 0x37; 0xbf; 0x51; 0xf5].
Definition C_cx_secp256r1_n : list Z :=
  [0xff; 0xff; 0xff; 0xff; 0; 0; 0; 0; 0xff; 0xff; 0xff; 0xff; 0xff; 0xff; 0xff; 0xff;
   0xbc; 0xe6; 0xfa; 0xad; 0xa7; 0x17; 0x9e; 0x84; 0xf3; 0xb9; 0xca; 0xc2; 0xfc; 0x63; 0x25; 0x51].
Definition C_cx_secp256r1_Hn : list Z :=
  [0x66; 0xe1; 0x2d; 0x94; 0xf3; 0xd9; 0x56; 0x20; 0x28; 0x45; 0xb2; 0x39; 0x2b; 0x6b; 0xec; 0x59;
   0x46; 0x99; 0x79; 0x9c; 0x49; 0xbd; 0x6f; 0xa6; 0x83; 0x24; 0x4c; 0x95; 0xbe; 0x79; 0xee; 0xa2].
Definition C_cx_secp256r1_h : list Z := C_cofactor_1.

Definition C_cx_secp256r1 : cx_curve_domain_t := {|
  dom_curve := CX_CURVE_SECP256R1; dom_bit_size := 256; dom_length := 32;
  dom_a := C_cx_secp256r1_a; dom_b := C_cx_secp256r1_b; dom_p := C_cx_secp256r1_p; dom_Gx := C_cx_secp256r1_Gx; dom_Gy := C_cx_secp256r1_Gy;
  dom_n := C_cx_secp256r1_n; dom_h := C_cx_secp256r1_h; dom_Hn := C_cx_secp256r1_Hn; dom_Hp := C_cx_secp256r1_Hp |}.

Definition C_cx_secp384r1_a : list Z :=
  [0xff; 0xff; 0xff; 0xff; 0xff; 0xff; 0xff; 0xff; 0xff; 0xff; 0xff; 0xff; 0xff; 0xff; 0xff; 0xff;
   0xff; 0xff; 0xff; 0xff; 0xff; 0xff; 0xff; 0xff; 0xff; 0xff; 0xff; 0xff; 0xff; 0xff; 0xff; 0xfe;
   0xff; 0xff; 0xff; 0xff; 0; 0; 0; 0; 0; 0; 0; 0; 0xff; 0xff; 0xff; 0xfc].
Definition C_cx_secp384r1_b : list Z :=
  [0xb3; 0x31; 0x2f; 0xa7; 0xe2; 0x3e; 0xe7; 0xe4; 0x98; 0x8e; 0x05; 0x6b; 0xe3; 0xf8; 0x2d; 0x19;
   0x18; 0x1d; 0x9c; 0x6e; 0xfe; 0x81; 0x41; 0x12; 0x03; 0x14; 0x08; 0x8f; 0x50; 0x13; 0x87; 0x5a;
   0xc6; 0x56; 0x39; 0x8d; 0x8a; 0x2e; 0xd1; 0x9d; 0x2a; 0x85; 0xc8; 0xed; 0xd3; 0xec; 0x2a; 0xef].
Definition C_cx_secp384r1_p : list Z :=
  [0xff; 0xff; 0xff; 0xff; 0xff; 0xff; 0xff; 0xff; 0xff; 0xff; 0xff; 0xff; 0xff; 0xff; 0xff; 0xff;
   0xff; 0xff; 0xff; 0xff; 0xff; 0xff; 0xff; 0xff; 0xff; 0xff; 0xff; 0xff; 0xff; 0xff; 0xff; 0xfe;
   0xff; 0xff; 0xff; 0xff; 0; 0; 0; 0; 0; 0; 0; 0; 0xff; 0xff; 0xff; 0xff].
Definition C_cx_secp384r1_Hp : list Z :=
  [0; 0; 0; 0; 0; 0; 0; 0; 0; 0; 0; 0; 0; 0; 0; 0x01;
   0; 0; 0; 0x02; 0; 0; 0; 0; 0xff; 0xff; 0xff; 0xfe; 0; 0; 0; 0;
   0; 0; 0; 0x02; 0; 0; 0; 0; 0xff; 0xff; 0xff; 0xfe; 0; 0; 0; 0x01].
Definition C_cx_secp384r1_Gx : list Z :=
  [0xaa; 0x87; 0xca; 0x22; 0xbe; 0x8b; 0x05; 0x37; 0x8e; 0xb1; 0xc7; 0x1e; 0xf3; 0x20; 0xad; 0x74;
   0x6e; 0x1d; 0x3b; 0x62; 0x8b; 0xa7; 0x9b; 0x98; 0x59; 0xf7; 0x41; 0xe0; 0x82; 0x54; 0x2a; 0x38;
   0x55; 0x02; 0xf2; 0x5d; 0xbf; 0x55; 0x29; 0x6c; 0x3a; 0x54; 0x5e; 0x38; 0x72; 0x76; 0x0a; 0xb7].
Definition C_cx_secp384r1_Gy : list Z :=
  [0x36; 0x17; 0xde; 0x4a; 0x96; 0x26; 0x2c; 0x6f; 0x5d; 0x9e; 0x98; 0xbf; 0x92; 0x92; 0xdc; 0x29;
   0xf8; 0xf4; 0x1d; 0xbd; 0x28; 0x9a; 0x14; 0x7c; 0xe9; 0xda; 0x31; 0x13; 0xb5; 0xf0; 0xb8; 0xc0;
   0x0a; 0x60; 0xb1; 0xce; 0x1d; 0x7e; 0x81; 0x9d; 0x7a; 0x43; 0x1d; 0x7c; 0x90; 0xea; 0x0e; 0x5f].
Definition C_cx_secp384r1_n : list Z :=
  [0xff; 0xff; 0xff; 0xff; 0xff; 0xff; 0xff; 0xff; 0xff; 0xff; 0xff; 0xff; 0xff; 0xff; 0xff; 0xff;
   0xff; 0xff; 0xff; 0xff; 0xff; 0xff; 0xff; 0xff; 0xc7; 0x63; 0x4d; 0x81; 0xf4; 0x37; 0x2d; 0xdf;
   0x58; 0x1a; 0x0d; 0xb2; 0x48; 0xb0; 0xa7; 0x7a; 0xec; 0xec; 0x19; 0x6a; 0xcc; 0xc5; 0x29; 0x73].
Definition C_cx_secp384r1_Hn : list Z :=
  [0x0c; 0x84; 0xee; 0x01; 0x2b; 0x39; 0xbf; 0x21; 0x3f; 0xb0; 0x5b; 0x7a; 0x28; 0x26; 0x68; 0x95;
   0xd4; 0x0d; 0x49; 0x17; 0x4a; 0xab; 0x1c; 0xc5; 0xbc; 0x3e; 0x48; 0x3a; 0xfc; 0xb8; 0x29; 0x47;
   0xff; 0x3d; 0x81; 0xe5; 0xdf; 0x1a; 0xa4; 0x19; 0x2d; 0x31; 0x9b; 0x24; 0x19; 0xb4; 0x09; 0xa9].
Definition C_cx_secp384r1_h : list Z := C_cofactor_1.

Definition C_cx_secp384r1 : cx_curve_domain_t := {|
  dom_curve := CX_CURVE_SECP384R1; dom_bit_size := 384; dom_length := 48;
  dom_a := C_cx_secp384r1_a; dom_b := C_cx_secp384r1_b; dom_p := C_cx_secp384r1_p; dom_Gx := C_cx_secp384r1_Gx; dom_Gy := C_cx_secp384r1_Gy;
  dom_n := C_cx_secp384r1_n; dom_h := C_cx_secp384r1_h; dom_Hn := C_cx_secp384r1_Hn; dom_Hp := C_cx_secp384r1_Hp |}.

Definition C_cx_secp521r1_a : list Z :=
  [0x01; 0xff; 0xff; 0xff; 0xff; 0xff; 0xff; 0xff; 0xff; 0xff; 0xff; 0xff; 0xff; 0xff; 0xff; 0xff;
   0xff; 0xff; 0xff; 0xff; 0xff; 0xff; 0xff; 0xff; 0xff; 0xff; 0xff; 0xff; 0xff; 0xff; 0xff; 0xff;
   0xff; 0xff; 0xff; 0xff; 0xff; 0xff; 0xff; 0xff; 0xff; 0xff; 0xff; 0xff; 0xff; 0xff; 0xff; 0xff;
   0xff; 0xff; 0xff; 0xff; 0xff; 0xff; 0xff; 0xff; 0xff; 0xff; 0xff; 0xff; 0xff; 0xff; 0xff; 0xff;
   0xff; 0xfc].
Definition C_cx_secp521r1_b : list Z :=
  [0; 0x51; 0x95; 0x3e; 0xb9; 0x61; 0x8e; 0x1c; 0x9a; 0x1f; 0x92; 0x9a; 0x21; 0xa0; 0xb6; 0x85;
   0x40; 0xee; 0xa2; 0xda; 0x72; 0x5b; 0x99; 0xb3; 0x15; 0xf3; 0xb8; 0xb4; 0x89; 0x91; 0x8e; 0xf1;
   0x09; 0xe1; 0x56; 0x19; 0x39; 0x51; 0xec; 0x7e; 0x93; 0x7b; 0x16; 0x52; 0xc0; 0xbd; 0x3b; 0xb1;
   0xbf; 0x07; 0x35; 0x73; 0xdf; 0x88; 0x3d; 0x2c; 0x34; 0xf1; 0xef; 0x45; 0x1f; 0xd4; 0x6b; 0x50;
   0x3f; 0].
Definition C_cx_secp521r1_p : list Z :=
  [0x01; 0xff; 0xff; 0xff; 0xff; 0xff; 0xff; 0xff; 0xff; 0xff; 0xff; 0xff; 0xff; 0xff; 0xff; 0xff;
   0xff; 0xff; 0xff; 0xff; 0xff; 0xff; 0xff; 0xff; 0xff; 0xff; 0xff; 0xff; 0xff; 0xff; 0xff; 0xff;
   0xff; 0xff; 0xff; 0xff; 0xff; 0xff; 0xff; 0xff; 0xff; 0xff; 0xff; 0xff; 0xff; 0xff; 0xff; 0xff;
   0xff; 0xff; 0xff; 0xff; 0xff; 0xff; 0xff; 0xff; 0xff; 0xff; 0xff; 0xff; 0xff; 0xff; 0xff; 0xff;
   0xff; 0xff].
Definition C_cx_secp521r1_Hp : list Z :=
  [0; 0; 0; 0; 0; 0; 0; 0; 0; 0; 0; 0; 0; 0; 0; 0;
   0; 0; 0; 0; 0; 0; 0; 0; 0; 0; 0; 0; 0; 0; 0; 0;
   0; 0; 0; 0; 0x40; 0; 0; 0; 0; 0; 0; 0; 0; 0; 0; 0;
   0; 0; 0; 0; 0; 0; 0; 0; 0; 0; 0; 0; 0; 0; 0; 0;
   0; 0].
Definition C_cx_secp521r1_Gx : list Z :=
  [0; 0xc6; 0x85; 0x8e; 0x06; 0xb7; 0x04; 0x04; 0xe9; 0xcd; 0x9e; 0x3e; 0xcb; 0x66; 0x23; 0x95;
   0xb4; 0x42; 0x9c; 0x64; 0x81; 0x39; 0x05; 0x3f; 0xb5; 0x21; 0xf8; 0x28; 0xaf; 0x60; 0x6b; 0x4d;
   0x3d; 0xba; 0xa1; 0x4b; 0x5e; 0x77; 0xef; 0xe7; 0x59; 0x28; 0xfe; 0x1d; 0xc1; 0x27; 0xa2; 0xff;
   0xa8; 0xde; 0x33; 0x48; 0xb3; 0xc1; 0x85; 0x6a; 0x42; 0x9b; 0xf9; 0x7e; 0x7e; 0x31; 0xc2; 0xe5;
   0xbd; 0x66].
Definition C_cx_secp521r1_Gy : list Z :=
  [0x01; 0x18; 0x39; 0x29; 0x6a; 0x78; 0x9a; 0x3b; 0xc0; 0x04; 0x5c; 0x8a; 0x5f; 0xb4; 0x2c; 0x7d;
   0x1b; 0xd9; 0x98; 0xf5; 0x44; 0x49; 0x57; 0x9b; 0x44; 0x68; 0x17; 0xaf; 0xbd; 0x17; 0x27; 0x3e;
   0x66; 0x2c; 0x97; 0xee; 0x72; 0x99; 0x5e; 0xf4; 0x26; 0x40; 0xc5; 0x50; 0xb9; 0x01; 0x3f; 0xad;
   0x07; 0x61; 0x35; 0x3c; 0x70; 0x86; 0xa2; 0x72; 0xc2; 0x40; 0x88; 0xbe; 0x94; 0x76; 0x9f; 0xd1;
   0x66; 0x50].
Definition C_cx_secp521r1_n : list Z :=
  [0x01; 0xff; 0xff; 0xff; 0xff; 0xff; 0xff; 0xff; 0xff; 0xff; 0xff; 0xff; 0xff; 0xff; 0xff; 0xff;
   0xff; 0xff; 0xff; 0xff; 0xff; 0xff; 0xff; 0xff; 0xff; 0xff; 0xff; 0xff; 0xff; 0xff; 0xff; 0xff;
   0xff; 0xfa; 0x51; 0x86; 0x87; 0x83; 0xbf; 0x2f; 0x96; 0x6b; 0x7f; 0xcc; 0x01; 0x48; 0xf7; 0x09;
   0xa5; 0xd0; 0x3b; 0xb5; 0xc9; 0xb8; 0x89; 0x9c; 0x47; 0xae; 0xbb; 0x6f; 0xb7; 0x1e; 0x91; 0x38;
   0x64; 0x09].
Definition C_cx_secp521r1_Hn : list Z :=
  [0x01; 0xbc; 0xcf; 0xf3; 0xd1; 0x42; 0xb7; 0x75; 0x6e; 0x3e; 0xdd; 0x6e; 0x23; 0xd8; 0x2e; 0x49;
   0xc7; 0xdc; 0x81; 0x3d; 0; 0xeb; 0xc5; 0x45; 0x05; 0x9b; 0x80; 0x5c; 0xc3; 0x49; 0x42; 0x90;
   0xa7; 0xc8; 0x18; 0x47; 0x42; 0xd7; 0; 0xe0; 0x81; 0x09; 0x4e; 0x89; 0x3c; 0x9c; 0xf6; 0x52;
   0x22; 0x7d; 0x46; 0x5b; 0x9f; 0x72; 0x66; 0xb4; 0x7e; 0xe7; 0xf0; 0x56; 0x21; 0x96; 0x51; 0x92;
   0x0b; 0xb5].
Definition C_cx_secp521r1_h : list Z := C_cofactor_1.

Definition C_cx_secp521r1 : cx_curve_domain_t := {|
  dom_curve := CX_CURVE_SECP521R1; dom_bit_size := 521; dom_length := 66;
  dom_a := C_cx_secp521r1_a; dom_b := C_cx_secp521r1_b; dom_p := C_cx_secp521r1_p; dom_Gx := C_cx_secp521r1_Gx; dom_Gy := C_cx_secp521r1_Gy;
  dom_n := C_cx_secp521r1_n; dom_h := C_cx_secp521r1_h; dom_Hn := C_cx_secp521r1_Hn; dom_Hp := C_cx_secp521r1_Hp |}.

Definition C_cx_BrainpoolP256r1_a : list Z :=
  [0x7d; 0x5a; 0x09; 0x75; 0xfc; 0x2c; 0x30; 0x57; 0xee; 0xf6; 0x75; 0x30; 0x41; 0x7a; 0xff; 0xe7;
   0xfb; 0x80; 0x55; 0xc1; 0x26; 0xdc; 0x5c; 0x6c; 0xe9; 0x4a; 0x4b; 0x44; 0xf3; 0x30; 0xb5; 0xd9].
Definition C_cx_BrainpoolP256r1_b : list Z :=
  [0x26; 0xdc; 0x5c; 0x6c; 0xe9; 0x4a; 0x4b; 0x44; 0xf3; 0x30; 0xb5; 0xd9; 0xbb; 0xd7; 0x7c; 0xbf;
   0x95; 0x84; 0x16; 0x29; 0x5c; 0xf7; 0xe1; 0xce; 0x6b; 0xcc; 0xdc; 0x18; 0xff; 0x8c; 0x07; 0xb6].
Definition C_cx_BrainpoolP256r1_p : list Z :=
  [0xa9; 0xfb; 0x57; 0xdb; 0xa1; 0xee; 0xa9; 0xbc; 0x3e; 0x66; 0x0a; 0x90; 0x9d; 0x83; 0x8d; 0x72;
   0x6e; 0x3b; 0xf6; 0x23; 0xd5; 0x26; 0x20; 0x28; 0x20; 0x13; 0x48; 0x1d; 0x1f; 0x6e; 0x53; 0x77].
Definition C_cx_BrainpoolP256r1_Hp : list Z :=
  [0x47; 0x17; 0xaa; 0x21; 0xe5; 0x95; 0x7f; 0xa8; 0xa1; 0xec; 0xda; 0xcd; 0x6b; 0x1a; 0xc8; 0x07;
   0x5c; 0xce; 0x4c; 0x26; 0x61; 0x4d; 0x4f; 0x4d; 0x8c; 0xfe; 0xdf; 0x7b; 0xa6; 0x46; 0x5b; 0x6c].
Definition C_cx_BrainpoolP256r1_Gx : list Z :=
  [0x8b; 0xd2; 0xae; 0xb9; 0xcb; 0x7e; 0x57; 0xcb; 0x2c; 0x4b; 0x48; 0x2f; 0xfc; 0x81; 0xb7; 0xaf;
   0xb9; 0xde; 0x27; 0xe1; 0xe3; 0xbd; 0x23; 0xc2; 0x3a; 0x44; 0x53; 0xbd; 0x9a; 0xce; 0x32; 0x62].
Definition C_cx_BrainpoolP256r1_Gy : list Z :=
  [0x54; 0x7e; 0xf8; 0x35; 0xc3; 0xda; 0xc4; 0xfd; 0x97; 0xf8; 0x46; 0x1a; 0x14; 0x61; 0x1d; 0xc9;
   0xc2; 0x77; 0x45; 0x13; 0x2d; 0xed; 0x8e; 0x54; 0x5c; 0x1d; 0x54; 0xc7; 0x2f; 0x04; 0x69; 0x97].
Definition C_cx_BrainpoolP256r1_n : list Z :=
  [0xa9; 0xfb; 0x57; 0xdb; 0xa1; 0xee; 0xa9; 0xbc; 0x3e; 0x66; 0x0a; 0x90; 0x9d; 0x83; 0x8d; 0x71;
   0x8c; 0x39; 0x7a; 0xa3; 0xb5; 0x61; 0xa6; 0xf7; 0x90; 0x1e; 0x0e; 0x82; 0x97; 0x48; 0x56; 0xa7].
Definition C_cx_BrainpoolP256r1_Hn : list Z :=
  [0x0b; 0x25; 0xf1; 0xb9; 0xc3; 0x23; 0x67; 0x62; 0x9b; 0x7f; 0x25; 0xe7; 0x6c; 0x81; 0x5c; 0xb0;
   0xf3; 0x5d; 0x17; 0x6a; 0x11; 0x34; 0xe4; 0xa0; 0xe1; 0xd8; 0xd8; 0xde; 0x33; 0x12; 0xfc; 0xa6].
Definition C_cx_BrainpoolP256r1_h : list Z := C_cofactor_1.

Definition C_cx_BrainpoolP256r1 : cx_curve_domain_t := {|
  dom_curve := CX_CURVE_BrainPoolP256R1; dom_bit_size := 256; dom_length := 32;
  dom_a := C_cx_BrainpoolP256r1_a; dom_b := C_cx_BrainpoolP256r1_b; dom_p := C_cx_BrainpoolP256r1_p; dom_Gx := C_cx_BrainpoolP256r1_Gx; dom_Gy := C_cx_BrainpoolP256r1_Gy;
  dom_n := C_cx_BrainpoolP256r1_n; dom_h := C_cx_BrainpoolP256r1_h; dom_Hn := C_cx_BrainpoolP256r1_Hn; dom_Hp := C_cx_BrainpoolP256r1_Hp |}.

Definition C_cx_BrainpoolP256t1_a : list Z :=
  [0xa9; 0xfb; 0x57; 0xdb; 0xa1; 0xee; 0xa9; 0xbc; 0x3e; 0x66; 0x0a; 0x90; 0x9d; 0x83; 0x8d; 0x72;
   0x6e; 0x3b; 0xf6; 0x23; 0xd5; 0x26; 0x20; 0x28; 0x20; 0x13; 0x48; 0x1d; 0x1f; 0x6e; 0x53; 0x74].
Definition C_cx_BrainpoolP256t1_b : list Z :=
  [0x66; 0x2c; 0x61; 0xc4; 0x30; 0xd8; 0x4e; 0xa4; 0xfe; 0x66; 0xa7; 0x73; 0x3d; 0x0b; 0x76; 0xb7;
   0xbf; 0x93; 0xeb; 0xc4; 0xaf; 0x2f; 0x49; 0x25; 0x6a; 0xe5; 0x81; 0x01; 0xfe; 0xe9; 0x2b; 0x04].
Definition C_cx_BrainpoolP256t1_p : list Z :=
  [0xa9; 0xfb; 0x57; 0xdb; 0xa1; 0xee; 0xa9; 0xbc; 0x3e; 0x66; 0x0a; 0x90; 0x9d; 0x83; 0x8d; 0x72;
   0x6e; 0x3b; 0xf6; 0x23; 0xd5; 0x26; 0x20; 0x28; 0x20; 0x13; 0x48; 0x1d; 0x1f; 0x6e; 0x53; 0x77].
Definition C_cx_BrainpoolP256t1_Hp : list Z :=
  [0x47; 0x17; 0xaa; 0x21; 0xe5; 0x95; 0x7f; 0xa8; 0xa1; 0xec; 0xda; 0xcd; 0x6b; 0x1a; 0xc8; 0x07;
   0x5c; 0xce; 0x4c; 0x26; 0x61; 0x4d; 0x4f; 0x4d; 0x8c; 0xfe; 0xdf; 0x7b; 0xa6; 0x46; 0x5b; 0x6c].
Definition C_cx_BrainpoolP256t1_Gx : list Z :=
  [0xa3; 0xe8; 0xeb; 0x3c; 0xc1; 0xcf; 0xe7; 0xb7; 0x73; 0x22; 0x13; 0xb2; 0x3a; 0x65; 0x61; 0x49;
   0xaf; 0xa1; 0x42; 0xc4; 0x7a; 0xaf; 0xbc; 0x2b; 0x79; 0xa1; 0x91; 0x56; 0x2e; 0x13; 0x05; 0xf4].
Definition C_cx_BrainpoolP256t1_Gy : list Z :=
  [0x2d; 0x99; 0x6c; 0x82; 0x34; 0x39; 0xc5; 0x6d; 0x7f; 0x7b; 0x22; 0xe1; 0x46; 0x44; 0x41; 0x7e;
   0x69; 0xbc; 0xb6; 0xde; 0x39; 0xd0; 0x27; 0; 0x1d; 0xab; 0xe8; 0xf3; 0x5b; 0x25; 0xc9; 0xbe].
Definition C_cx_BrainpoolP256t1_n : list Z :=
  [0xa9; 0xfb; 0x57; 0xdb; 0xa1; 0xee; 0xa9; 0xbc; 0x3e; 0x66; 0x0a; 0x90; 0x9d; 0x83; 0x8d; 0x71;
   0x8c; 0x39; 0x7a; 0xa3; 0xb5; 0x61; 0xa6; 0xf7; 0x90; 0x1e; 0x0e; 0x82; 0x97; 0x48; 0x56; 0xa7].
Definition C_cx_BrainpoolP256t1_Hn : list Z :=
  [0x0b; 0x25; 0xf1; 0xb9; 0xc3; 0x23; 0x67; 0x62; 0x9b; 0x7f; 0x25; 0xe7; 0x6c; 0x81; 0x5c; 0xb0;
   0xf3; 0x5d; 0x17; 0x6a; 0x11; 0x34; 0xe4; 0xa0; 0xe1; 0xd8; 0xd8; 0xde; 0x33; 0x12; 0xfc; 0xa6].
Definition C_cx_BrainpoolP256t1_h : list Z := C_cofactor_1.

Definition C_cx_BrainpoolP256t1 : cx_curve_domain_t := {|
  dom_curve := CX_CURVE_BrainPoolP256T1; dom_bit_size := 256; dom_length := 32;
  dom_a := C_cx_BrainpoolP256t1_a; dom_b := C_cx_BrainpoolP256t1_b; dom_p := C_cx_BrainpoolP256t1_p; dom_Gx := C_cx_BrainpoolP256t1_Gx; dom_Gy := C_cx_BrainpoolP256t1_Gy;
  dom_n := C_cx_BrainpoolP256t1_n; dom_h := C_cx_BrainpoolP256t1_h; dom_Hn := C_cx_BrainpoolP256t1_Hn; dom_Hp := C_cx_BrainpoolP256t1_Hp |}.

Definition C_cx_BrainpoolP320r1_a : list Z :=
  [0x3e; 0xe3; 0x0b; 0x56; 0x8f; 0xba; 0xb0; 0xf8; 0x83; 0xcc; 0xeb; 0xd4; 0x6d; 0x3f; 0x3b; 0xb8;
   0xa2; 0xa7; 0x35; 0x13; 0xf5; 0xeb; 0x79; 0xda; 0x66; 0x19; 0x0e; 0xb0; 0x85; 0xff; 0xa9; 0xf4;
   0x92; 0xf3; 0x75; 0xa9; 0x7d; 0x86; 0x0e; 0xb4].
Definition C_cx_BrainpoolP320r1_b : list Z :=
  [0x52; 0x08; 0x83; 0x94; 0x9d; 0xfd; 0xbc; 0x42; 0xd3; 0xad; 0x19; 0x86; 0x40; 0x68; 0x8a; 0x6f;
   0xe1; 0x3f; 0x41; 0x34; 0x95; 0x54; 0xb4; 0x9a; 0xcc; 0x31; 0xdc; 0xcd; 0x88; 0x45; 0x39; 0x81;
   0x6f; 0x5e; 0xb4; 0xac; 0x8f; 0xb1; 0xf1; 0xa6].
Definition C_cx_BrainpoolP320r1_p : list Z :=
  [0xd3; 0x5e; 0x47; 0x20; 0x36; 0xbc; 0x4f; 0xb7; 0xe1; 0x3c; 0x78; 0x5e; 0xd2; 0x01; 0xe0; 0x65;
   0xf9; 0x8f; 0xcf; 0xa6; 0xf6; 0xf4; 0x0d; 0xef; 0x4f; 0x92; 0xb9; 0xec; 0x78; 0x93; 0xec; 0x28;
   0xfc; 0xd4; 0x12; 0xb1; 0xf1; 0xb3; 0x2e; 0x27].
Definition C_cx_BrainpoolP320r1_Hp : list Z :=
  [0x40; 0x3a; 0x05; 0x6e; 0x97; 0xa2; 0xc0; 0x9c; 0xdb; 0xc2; 0x1a; 0x81; 0x77; 0x27; 0xa6; 0xd4;
   0xc5; 0x3a; 0xa9; 0x67; 0x5c; 0x40; 0; 0xf4; 0x10; 0x26; 0x0b; 0x24; 0xef; 0x82; 0x14; 0x48;
   0xb4; 0xe0; 0x40; 0x50; 0xad; 0x8b; 0x40; 0x0d].
Definition C_cx_BrainpoolP320r1_Gx : list Z :=
  [0x43; 0xbd; 0x7e; 0x9a; 0xfb; 0x53; 0xd8; 0xb8; 0x52; 0x89; 0xbc; 0xc4; 0x8e; 0xe5; 0xbf; 0xe6;
   0xf2; 0x01; 0x37; 0xd1; 0x0a; 0x08; 0x7e; 0xb6; 0xe7; 0x87; 0x1e; 0x2a; 0x10; 0xa5; 0x99; 0xc7;
   0x10; 0xaf; 0x8d; 0x0d; 0x39; 0xe2; 0x06; 0x11].
Definition C_cx_BrainpoolP320r1_Gy : list Z :=
  [0x14; 0xfd; 0xd0; 0x55; 0x45; 0xec; 0x1c; 0xc8; 0xab; 0x40; 0x93; 0x24; 0x7f; 0x77; 0x27; 0x5e;
   0x07; 0x43; 0xff; 0xed; 0x11; 0x71; 0x82; 0xea; 0xa9; 0xc7; 0x78; 0x77; 0xaa; 0xac; 0x6a; 0xc7;
   0xd3; 0x52; 0x45; 0xd1; 0x69; 0x2e; 0x8e; 0xe1].
Definition C_cx_BrainpoolP320r1_n : list Z :=
  [0xd3; 0x5e; 0x47; 0x20; 0x36; 0xbc; 0x4f; 0xb7; 0xe1; 0x3c; 0x78; 0x5e; 0xd2; 0x01; 0xe0; 0x65;
   0xf9; 0x8f; 0xcf; 0xa5; 0xb6; 0x8f; 0x12; 0xa3; 0x2d; 0x48; 0x2e; 0xc7; 0xee; 0x86; 0x58; 0xe9;
   0x86; 0x91; 0x55; 0x5b; 0x44; 0xc5; 0x93; 0x11].
Definition C_cx_BrainpoolP320r1_Hn : list Z :=
  [0xa7; 0x0d; 0x3d; 0xb6; 0xd2; 0x66; 0x8a; 0x95; 0x3b; 0x53; 0x96; 0xfe; 0xb0; 0x0b; 0x95; 0x14;
   0x07; 0xad; 0x16; 0x66; 0x45; 0x8b; 0xcc; 0x15; 0xdd; 0x86; 0x02; 0x95; 0xe4; 0xa3; 0xf1; 0xa0;
   0xb9; 0xb6; 0xac; 0x1d; 0x66; 0x16; 0x3f; 0x17].
Definition C_cx_BrainpoolP320r1_h : list Z := C_cofactor_1.

Definition C_cx_BrainpoolP320r1 : cx_curve_domain_t := {|
  dom_curve := CX_CURVE_BrainPoolP320R1; dom_bit_size := 320; dom_length := 40;
  dom_a := C_cx_BrainpoolP320r1_a; dom_b := C_cx_BrainpoolP320r1_b; dom_p := C_cx_BrainpoolP320r1_p; dom_Gx := C_cx_BrainpoolP320r1_Gx; dom_Gy := C_cx_BrainpoolP320r1_Gy;
  dom_n := C_cx_BrainpoolP320r1_n; dom_h := C_cx_BrainpoolP320r1_h; dom_Hn := C_cx_BrainpoolP320r1_Hn; dom_Hp := C_cx_BrainpoolP320r1_Hp |}.

Definition C_cx_BrainpoolP320t1_a : list Z :=
  [0xd3; 0x5e; 0x47; 0x20; 0x36; 0xbc; 0x4f; 0xb7; 0xe1; 0x3c; 0x78; 0x5e; 0xd2; 0x01; 0xe0; 0x65;
   0xf9; 0x8f; 0xcf; 0xa6; 0xf6; 0xf4; 0x0d; 0xef; 0x4f; 0x92; 0xb9; 0xec; 0x78; 0x93; 0xec; 0x28;
   0xfc; 0xd4; 0x12; 0xb1; 0xf1; 0xb3; 0x2e; 0x24].
Definition C_cx_BrainpoolP320t1_b : list Z :=
  [0xa7; 0xf5; 0x61; 0xe0; 0x38; 0xeb; 0x1e; 0xd5; 0x60; 0xb3; 0xd1; 0x47; 0xdb; 0x78; 0x20; 0x13;
   0x06; 0x4c; 0x19; 0xf2; 0x7e; 0xd2; 0x7c; 0x67; 0x80; 0xaa; 0xf7; 0x7f; 0xb8; 0xa5; 0x47; 0xce;
   0xb5; 0xb4; 0xfe; 0xf4; 0x22; 0x34; 0x03; 0x53].
Definition C_cx_BrainpoolP320t1_p : list Z :=
  [0xd3; 0x5e; 0x47; 0x20; 0x36; 0xbc; 0x4f; 0xb7; 0xe1; 0x3c; 0x78; 0x5e; 0xd2; 0x01; 0xe0; 0x65;
   0xf9; 0x8f; 0xcf; 0xa6; 0xf6; 0xf4; 0x0d; 0xef; 0x4f; 0x92; 0xb9; 0xec; 0x78; 0x93; 0xec; 0x28;
   0xfc; 0xd4; 0x12; 0xb1; 0xf1; 0xb3; 0x2e; 0x27].
Definition C_cx_BrainpoolP320t1_Hp : list Z :=
  [0x40; 0x3a; 0x05; 0x6e; 0x97; 0xa2; 0xc0; 0x9c; 0xdb; 0xc2; 0x1a; 0x81; 0x77; 0x27; 0xa6; 0xd4;
   0xc5; 0x3a; 0xa9; 0x67; 0x5c; 0x40; 0; 0xf4; 0x10; 0x26; 0x0b; 0x24; 0xef; 0x82; 0x14; 0x48;
   0xb4; 0xe0; 0x40; 0x50; 0xad; 0x8b; 0x40; 0x0d].
Definition C_cx_BrainpoolP320t1_Gx : list Z :=
  [0x92; 0x5b; 0xe9; 0xfb; 0x01; 0xaf; 0xc6; 0xfb; 0x4d; 0x3e; 0x7d; 0x49; 0x90; 0x01; 0x0f; 0x81;
   0x34; 0x08; 0xab; 0x10; 0x6c; 0x4f; 0x09; 0xcb; 0x7e; 0xe0; 0x78; 0x68; 0xcc; 0x13; 0x6f; 0xff;
   0x33; 0x57; 0xf6; 0x24; 0xa2; 0x1b; 0xed; 0x52].
Definition C_cx_BrainpoolP320t1_Gy : list Z :=
  [0x63; 0xba; 0x3a; 0x7a; 0x27; 0x48; 0x3e; 0xbf; 0x66; 0x71; 0xdb; 0xef; 0x7a; 0xbb; 0x30; 0xeb;
   0xee; 0x08; 0x4e; 0x58; 0xa0; 0xb0; 0x77; 0xad; 0x42; 0xa5; 0xa0; 0x98; 0x9d; 0x1e; 0xe7; 0x1b;
   0x1b; 0x9b; 0xc0; 0x45; 0x5f; 0xb0; 0xd2; 0xc3].
Definition C_cx_BrainpoolP320t1_n : list Z :=
  [0xd3; 0x5e; 0x47; 0x20; 0x36; 0xbc; 0x4f; 0xb7; 0xe1; 0x3c; 0x78; 0x5e; 0xd2; 0x01; 0xe0; 0x65;
   0xf9; 0x8f; 0xcf; 0xa5; 0xb6; 0x8f; 0x12; 0xa3; 0x2d; 0x48; 0x2e; 0xc7; 0xee; 0x86; 0x58; 0xe9;
   0x86; 0x91; 0x55; 0x5b; 0x44; 0xc5; 0x93; 0x11].
Definition C_cx_BrainpoolP320t1_Hn : list Z :=
  [0xa7; 0x0d; 0x3d; 0xb6; 0xd2; 0x66; 0x8a; 0x95; 0x3b; 0x53; 0x96; 0xfe; 0xb0; 0x0b; 0x95; 0x14;
   0x07; 0xad; 0x16; 0x66; 0x45; 0x8b; 0xcc; 0x15; 0xdd; 0x86; 0x02; 0x95; 0xe4; 0xa3; 0xf1; 0xa0;
   0xb9; 0xb6; 0xac; 0x1d; 0x66; 0x16; 0x3f; 0x17].
Definition C_cx_BrainpoolP320t1_h : list Z := C_cofactor_1.

Definition C_cx_BrainpoolP320t1 : cx_curve_domain_t := {|
  dom_curve := CX_CURVE_BrainPoolP320T1; dom_bit_size := 320; dom_length := 40;
  dom_a := C_cx_BrainpoolP320t1_a; dom_b := C_cx_BrainpoolP320t1_b; dom_p := C_cx_BrainpoolP320t1_p; dom_Gx := C_cx_BrainpoolP320t1_Gx; dom_Gy := C_cx_BrainpoolP320t1_Gy;
  dom_n := C_cx_BrainpoolP320t1_n; dom_h := C_cx_BrainpoolP320t1_h; dom_Hn := C_cx_BrainpoolP320t1_Hn; dom_Hp := C_cx_BrainpoolP320t1_Hp |}.

Definition C_cx_BrainpoolP384r1_a : list Z :=
  [0x7b; 0xc3; 0x82; 0xc6; 0x3d; 0x8c; 0x15; 0x0c; 0x3c; 0x72; 0x08; 0x0a; 0xce; 0x05; 0xaf; 0xa0;
   0xc2; 0xbe; 0xa2; 0x8e; 0x4f; 0xb2; 0x27; 0x87; 0x13; 0x91; 0x65; 0xef; 0xba; 0x91; 0xf9; 0x0f;
   0x8a; 0xa5; 0x81; 0x4a; 0x50; 0x3a; 0xd4; 0xeb; 0x04; 0xa8; 0xc7; 0xdd; 0x22; 0xce; 0x28; 0x26].
Definition C_cx_BrainpoolP384r1_b : list Z :=
  [0x04; 0xa8; 0xc7; 0xdd; 0x22; 0xce; 0x28; 0x26; 0x8b; 0x39; 0xb5; 0x54; 0x16; 0xf0; 0x44; 0x7c;
   0x2f; 0xb7; 0x7d; 0xe1; 0x07; 0xdc; 0xd2; 0xa6; 0x2e; 0x88; 0x0e; 0xa5; 0x3e; 0xeb; 0x62; 0xd5;
   0x7c; 0xb4; 0x39; 0x02; 0x95; 0xdb; 0xc9; 0x94; 0x3a; 0xb7; 0x86; 0x96; 0xfa; 0x50; 0x4c; 0x11].
Definition C_cx_BrainpoolP384r1_p : list Z :=
  [0x8c; 0xb9; 0x1e; 0x82; 0xa3; 0x38; 0x6d; 0x28; 0x0f; 0x5d; 0x6f; 0x7e; 0x50; 0xe6; 0x41; 0xdf;
   0x15; 0x2f; 0x71; 0x09; 0xed; 0x54; 0x56; 0xb4; 0x12; 0xb1; 0xda; 0x19; 0x7f; 0xb7; 0x11; 0x23;
   0xac; 0xd3; 0xa7; 0x29; 0x90; 0x1d; 0x1a; 0x71; 0x87; 0x47; 0; 0x13; 0x31; 0x07; 0xec; 0x53].
Definition C_cx_BrainpoolP384r1_Hp : list Z :=
  [0x36; 0xbf; 0x68; 0x83; 0x17; 0x8d; 0xf8; 0x42; 0xd5; 0xc6; 0xef; 0x3b; 0xa5; 0x7e; 0x05; 0x2c;
   0x62; 0x14; 0x01; 0x91; 0x99; 0x18; 0xd5; 0xaf; 0x8e; 0x28; 0xf9; 0x9c; 0xc9; 0x94; 0x08; 0x99;
   0x53; 0x52; 0x83; 0x34; 0x3d; 0x7f; 0xd9; 0x65; 0x08; 0x7c; 0xef; 0xff; 0x40; 0xb6; 0x4b; 0xde].
Definition C_cx_BrainpoolP384r1_Gx : list Z :=
  [0x1d; 0x1c; 0x64; 0xf0; 0x68; 0xcf; 0x45; 0xff; 0xa2; 0xa6; 0x3a; 0x81; 0xb7; 0xc1; 0x3f; 0x6b;
   0x88; 0x47; 0xa3; 0xe7; 0x7e; 0xf1; 0x4f; 0xe3; 0xdb; 0x7f; 0xca; 0xfe; 0x0c; 0xbd; 0x10; 0xe8;
   0xe8; 0x26; 0xe0; 0x34; 0x36; 0xd6; 0x46; 0xaa; 0xef; 0x87; 0xb2; 0xe2; 0x47; 0xd4; 0xaf; 0x1e].
Definition C_cx_BrainpoolP384r1_Gy : list Z :=
  [0x8a; 0xbe; 0x1d; 0x75; 0x20; 0xf9; 0xc2; 0xa4; 0x5c; 0xb1; 0xeb; 0x8e; 0x95; 0xcf; 0xd5; 0x52;
   0x62; 0xb7; 0x0b; 0x29; 0xfe; 0xec; 0x58; 0x64; 0xe1; 0x9c; 0x05; 0x4f; 0xf9; 0x91; 0x29; 0x28;
   0x0e; 0x46; 0x46; 0x21; 0x77; 0x91; 0x81; 0x11; 0x42; 0x82; 0x03; 0x41; 0x26; 0x3c; 0x53; 0x15].
Definition C_cx_BrainpoolP384r1_n : list Z :=
  [0x8c; 0xb9; 0x1e; 0x82; 0xa3; 0x38; 0x6d; 0x28; 0x0f; 0x5d; 0x6f; 0x7e; 0x50; 0xe6; 0x41; 0xdf;
   0x15; 0x2f; 0x71; 0x09; 0xed; 0x54; 0x56; 0xb3; 0x1f; 0x16; 0x6e; 0x6c; 0xac; 0x04; 0x25; 0xa7;
   0xcf; 0x3a; 0xb6; 0xaf; 0x6b; 0x7f; 0xc3; 0x10; 0x3b; 0x88; 0x32; 0x02; 0xe9; 0x04; 0x65; 0x65].
Definition C_cx_BrainpoolP384r1_Hn : list Z :=
  [0x0c; 0xe8; 0x94; 0x1a; 0x61; 0x4e; 0x97; 0xc2; 0x8f; 0x88; 0x6d; 0xc9; 0x65; 0x16; 0x5f; 0xdb;
   0x57; 0x4a; 0x74; 0xcb; 0x52; 0xd7; 0x48; 0xff; 0x2a; 0x92; 0x7e; 0x3b; 0x98; 0x02; 0x68; 0x8a;
   0x37; 0x26; 0x4e; 0x20; 0x2f; 0x2b; 0x6b; 0x6e; 0xac; 0x4e; 0xd3; 0xa2; 0xde; 0x77; 0x1c; 0x8e].
Definition C_cx_BrainpoolP384r1_h : list Z := C_cofactor_1.

Definition C_cx_BrainpoolP384r1 : cx_curve_domain_t := {|
  dom_curve := CX_CURVE_BrainPoolP384R1; dom_bit_size := 384; dom_length := 48;
  dom_a := C_cx_BrainpoolP384r1_a; dom_b := C_cx_BrainpoolP384r1_b; dom_p := C_cx_BrainpoolP384r1_p; dom_Gx := C_cx_BrainpoolP384r1_Gx; dom_Gy := C_cx_BrainpoolP384r1_Gy;
  dom_n := C_cx_BrainpoolP384r1_n; dom_h := C_cx_BrainpoolP384r1_h; dom_Hn := C_cx_BrainpoolP384r1_Hn; dom_Hp := C_cx_BrainpoolP384r1_Hp |}.

Definition C_cx_BrainpoolP384t1_a : list Z :=
  [0x8c; 0xb9; 0x1e; 0x82; 0xa3; 0x38; 0x6d; 0x28; 0x0f; 0x5d; 0x6f; 0x7e; 0x50; 0xe6; 0x41; 0xdf;
   0x15; 0x2f; 0x71; 0x09; 0xed; 0x54; 0x56; 0xb4; 0x12; 0xb1; 0xda; 0x19; 0x7f; 0xb7; 0x11; 0x23;
   0xac; 0xd3; 0xa7; 0x29; 0x90; 0x1d; 0x1a; 0x71; 0x87; 0x47; 0; 0x13; 0x31; 0x07; 0xec; 0x50].
Definition C_cx_BrainpoolP384t1_b : list Z :=
  [0x7f; 0x51; 0x9e; 0xad; 0xa7; 0xbd; 0xa8; 0x1b; 0xd8; 0x26; 0xdb; 0xa6; 0x47; 0x91; 0x0f; 0x8c;
   0x4b; 0x93; 0x46; 0xed; 0x8c; 0xcd; 0xc6; 0x4e; 0x4b; 0x1a; 0xbd; 0x11; 0x75; 0x6d; 0xce; 0x1d;
   0x20; 0x74; 0xaa; 0x26; 0x3b; 0x88; 0x80; 0x5c; 0xed; 0x70; 0x35; 0x5a; 0x33; 0xb4; 0x71; 0xee].
Definition C_cx_BrainpoolP384t1_p : list Z :=
  [0x8c; 0xb9; 0x1e; 0x82; 0xa3; 0x38; 0x6d; 0x28; 0x0f; 0x5d; 0x6f; 0x7e; 0x50; 0xe6; 0x41; 0xdf;
   0x15; 0x2f; 0x71; 0x09; 0xed; 0x54; 0x56; 0xb4; 0x12; 0xb1; 0xda; 0x19; 0x7f; 0xb7; 0x11; 0x23;
   0xac; 0xd3; 0xa7; 0x29; 0x90; 0x1d; 0x1a; 0x71; 0x87; 0x47; 0; 0x13; 0x31; 0x07; 0xec; 0x53].
Definition C_cx_BrainpoolP384t1_Hp : list Z :=
  [0x36; 0xbf; 0x68; 0x83; 0x17; 0x8d; 0xf8; 0x42; 0xd5; 0xc6; 0xef; 0x3b; 0xa5; 0x7e; 0x05; 0x2c;
   0x62; 0x14; 0x01; 0x91; 0x99; 0x18; 0xd5; 0xaf; 0x8e; 0x28; 0xf9; 0x9c; 0xc9; 0x94; 0x08; 0x99;
   0x53; 0x52; 0x83; 0x34; 0x3d; 0x7f; 0xd9; 0x65; 0x08; 0x7c; 0xef; 0xff; 0x40; 0xb6; 0x4b; 0xde].
Definition C_cx_BrainpoolP384t1_Gx : list Z :=
  [0x18; 0xde; 0x98; 0xb0; 0x2d; 0xb9; 0xa3; 0x06; 0xf2; 0xaf; 0xcd; 0x72; 0x35; 0xf7; 0x2a; 0x81;
   0x9b; 0x80; 0xab; 0x12; 0xeb; 0xd6; 0x53; 0x17; 0x24; 0x76; 0xfe; 0xcd; 0x46; 0x2a; 0xab; 0xff;
   0xc4; 0xff; 0x19; 0x1b; 0x94; 0x6a; 0x5f; 0x54; 0xd8; 0xd0; 0xaa; 0x2f; 0x41; 0x88; 0x08; 0xcc].
Definition C_cx_BrainpoolP384t1_Gy : list Z :=
  [0x25; 0xab; 0x05; 0x69; 0x62; 0xd3; 0x06; 0x51; 0xa1; 0x14; 0xaf; 0xd2; 0x75; 0x5a; 0xd3; 0x36;
   0x74; 0x7f; 0x93; 0x47; 0x5b; 0x7a; 0x1f; 0xca; 0x3b; 0x88; 0xf2; 0xb6; 0xa2; 0x08; 0xcc; 0xfe;
   0x46; 0x94; 0x08; 0x58; 0x4d; 0xc2; 0xb2; 0x91; 0x26; 0x75; 0xbf; 0x5b; 0x9e; 0x58; 0x29; 0x28].
Definition C_cx_BrainpoolP384t1_n : list Z :=
  [0x8c; 0xb9; 0x1e; 0x82; 0xa3; 0x38; 0x6d; 0x28; 0x0f; 0x5d; 0x6f; 0x7e; 0x50; 0xe6; 0x41; 0xdf;
   0x15; 0x2f; 0x71; 0x09; 0xed; 0x54; 0x56; 0xb3; 0x1f; 0x16; 0x6e; 0x6c; 0xac; 0x04; 0x25; 0xa7;
   0xcf; 0x3a; 0xb6; 0xaf; 0x6b; 0x7f; 0xc3; 0x10; 0x3b; 0x88; 0x32; 0x02; 0xe9; 0x04; 0x65; 0x65].
Definition C_cx_BrainpoolP384t1_Hn : list Z :=
  [0x0c; 0xe8; 0x94; 0x1a; 0x61; 0x4e; 0x97; 0xc2; 0x8f; 0x88; 0x6d; 0xc9; 0x65; 0x16; 0x5f; 0xdb;
   0x57; 0x4a; 0x74; 0xcb; 0x52; 0xd7; 0x48; 0xff; 0x2a; 0x92; 0x7e; 0x3b; 0x98; 0x02; 0x68; 0x8a;
   0x37; 0x26; 0x4e; 0x20; 0x2f; 0x2b; 0x6b; 0x6e; 0xac; 0x4e; 0xd3; 0xa2; 0xde; 0x77; 0x1c; 0x8e].
Definition C_cx_BrainpoolP384t1_h : list Z := C_cofactor_1.

Definition C_cx_BrainpoolP384t1 : cx_curve_domain_t := {|
  dom_curve := CX_CURVE_BrainPoolP384T1; dom_bit_size := 384; dom_length := 48;
  dom_a := C_cx_BrainpoolP384t1_a; dom_b := C_cx_BrainpoolP384t1_b; dom_p := C_cx_BrainpoolP384t1_p; dom_Gx := C_cx_BrainpoolP384t1_Gx; dom_Gy := C_cx_BrainpoolP384t1_Gy;
  dom_n := C_cx_BrainpoolP384t1_n; dom_h := C_cx_BrainpoolP384t1_h; dom_Hn := C_cx_BrainpoolP384t1_Hn; dom_Hp := C_cx_BrainpoolP384t1_Hp |}.

Definition C_cx_BrainpoolP512r1_a : list Z :=
  [0x78; 0x30; 0xa3; 0x31; 0x8b; 0x60; 0x3b; 0x89; 0xe2; 0x32; 0x71; 0x45; 0xac; 0x23; 0x4c; 0xc5;
   0x94; 0xcb; 0xdd; 0x8d; 0x3d; 0xf9; 0x16; 0x10; 0xa8; 0x34; 0x41; 0xca; 0xea; 0x98; 0x63; 0xbc;
   0x2d; 0xed; 0x5d; 0x5a; 0xa8; 0x25; 0x3a; 0xa1; 0x0a; 0x2e; 0xf1; 0xc9; 0x8b; 0x9a; 0xc8; 0xb5;
   0x7f; 0x11; 0x17; 0xa7; 0x2b; 0xf2; 0xc7; 0xb9; 0xe7; 0xc1; 0xac; 0x4d; 0x77; 0xfc; 0x94; 0xca].
Definition C_cx_BrainpoolP512r1_b : list Z :=
  [0x3d; 0xf9; 0x16; 0x10; 0xa8; 0x34; 0x41; 0xca; 0xea; 0x98; 0x63; 0xbc; 0x2d; 0xed; 0x5d; 0x5a;
   0xa8; 0x25; 0x3a; 0xa1; 0x0a; 0x2e; 0xf1; 0xc9; 0x8b; 0x9a; 0xc8; 0xb5; 0x7f; 0x11; 0x17; 0xa7;
   0x2b; 0xf2; 0xc7; 0xb9; 0xe7; 0xc1; 0xac; 0x4d; 0x77; 0xfc; 0x94; 0xca; 0xdc; 0x08; 0x3e; 0x67;
   0x98; 0x40; 0x50; 0xb7; 0x5e; 0xba; 0xe5; 0xdd; 0x28; 0x09; 0xbd; 0x63; 0x80; 0x16; 0xf7; 0x23].
Definition C_cx_BrainpoolP512r1_p : list Z :=
  [0xaa; 0xdd; 0x9d; 0xb8; 0xdb; 0xe9; 0xc4; 0x8b; 0x3f; 0xd4; 0xe6; 0xae; 0x33; 0xc9; 0xfc; 0x07;
   0xcb; 0x30; 0x8d; 0xb3; 0xb3; 0xc9; 0xd2; 0x0e; 0xd6; 0x63; 0x9c; 0xca; 0x70; 0x33; 0x08; 0x71;
   0x7d; 0x4d; 0x9b; 0; 0x9b; 0xc6; 0x68; 0x42; 0xae; 0xcd; 0xa1; 0x2a; 0xe6; 0xa3; 0x80; 0xe6;
   0x28; 0x81; 0xff; 0x2f; 0x2d; 0x82; 0xc6; 0x85; 0x28; 0xaa; 0x60; 0x56; 0x58; 0x3a; 0x48; 0xf3].
Definition C_cx_BrainpoolP512r1_Hp : list Z :=
  [0x3c; 0x4c; 0x9d; 0x05; 0xa9; 0xff; 0x64; 0x50; 0x20; 0x2e; 0x19; 0x40; 0x20; 0x56; 0xee; 0xcc;
   0xa1; 0x6d; 0xaa; 0x5f; 0xd4; 0x2b; 0xff; 0x83; 0x19; 0x48; 0x6f; 0xd8; 0xd5; 0x89; 0x80; 0x57;
   0xe0; 0xc1; 0x9a; 0x77; 0x83; 0x51; 0x4a; 0x25; 0x53; 0xb7; 0xf9; 0xbc; 0x90; 0x5a; 0xff; 0xd3;
   0x79; 0x3f; 0xb1; 0x30; 0x27; 0x15; 0x79; 0x05; 0x49; 0xad; 0x14; 0x4a; 0x61; 0x58; 0xf2; 0x05].
Definition C_cx_BrainpoolP512r1_Gx : list Z :=
  [0x81; 0xae; 0xe4; 0xbd; 0xd8; 0x2e; 0xd9; 0x64; 0x5a; 0x21; 0x32; 0x2e; 0x9c; 0x4c; 0x6a; 0x93;
   0x85; 0xed; 0x9f; 0x70; 0xb5; 0xd9; 0x16; 0xc1; 0xb4; 0x3b; 0x62; 0xee; 0xf4; 0xd0; 0x09; 0x8e;
   0xff; 0x3b; 0x1f; 0x78; 0xe2; 0xd0; 0xd4; 0x8d; 0x50; 0xd1; 0x68; 0x7b; 0x93; 0xb9; 0x7d; 0x5f;
   0x7c; 0x6d; 0x50; 0x47; 0x40; 0x6a; 0x5e; 0x68; 0x8b; 0x35; 0x22; 0x09; 0xbc; 0xb9; 0xf8; 0x22].
Definition C_cx_BrainpoolP512r1_Gy : list Z :=
  [0x7d; 0xde; 0x38; 0x5d; 0x56; 0x63; 0x32; 0xec; 0xc0; 0xea; 0xbf; 0xa9; 0xcf; 0x78; 0x22; 0xfd;
   0xf2; 0x09; 0xf7; 0; 0x24; 0xa5; 0x7b; 0x1a; 0xa0; 0; 0xc5; 0x5b; 0x88; 0x1f; 0x81; 0x11;
   0xb2; 0xdc; 0xde; 0x49; 0x4a; 0x5f; 0x48; 0x5e; 0x5b; 0xca; 0x4b; 0xd8; 0x8a; 0x27; 0x63; 0xae;
   0xd1; 0xca; 0x2b; 0x2f; 0xa8; 0xf0; 0x54; 0x06; 0x78; 0xcd; 0x1e; 0x0f; 0x3a; 0xd8; 0x08; 0x92].
Definition C_cx_BrainpoolP512r1_n : list Z :=
  [0xaa; 0xdd; 0x9d; 0xb8; 0xdb; 0xe9; 0xc4; 0x8b; 0x3f; 0xd4; 0xe6; 0xae; 0x33; 0xc9; 0xfc; 0x07;
   0xcb; 0x30; 0x8d; 0xb3; 0xb3; 0xc9; 0xd2; 0x0e; 0xd6; 0x63; 0x9c; 0xca; 0x70; 0x33; 0x08; 0x70;
   0x55; 0x3e; 0x5c; 0x41; 0x4c; 0xa9; 0x26; 0x19; 0x41; 0x86; 0x61; 0x19; 0x7f; 0xac; 0x10; 0x47;
   0x1d; 0xb1; 0xd3; 0x81; 0x08; 0x5d; 0xda; 0xdd; 0xb5; 0x87; 0x96; 0x82; 0x9c; 0xa9; 0; 0x69].
Definition C_cx_BrainpoolP512r1_Hn : list Z :=
  [0xa7; 0x94; 0x58; 0x6a; 0x71; 0x84; 0x07; 0xb0; 0x95; 0xdf; 0x1b; 0x4c; 0x19; 0x4b; 0x2e; 0x56;
   0x72; 0x3c; 0x37; 0xa2; 0x2f; 0x16; 0xbb; 0xdf; 0xd7; 0xf9; 0xcc; 0x26; 0x3b; 0x79; 0x0d; 0xe3;
   0xa6; 0xf2; 0x30; 0xc7; 0x2f; 0x02; 0x07; 0xe8; 0x3e; 0xc6; 0x4b; 0xd0; 0x33; 0xb7; 0x62; 0x7f;
   0x08; 0x86; 0xb7; 0x58; 0x95; 0x28; 0x3d; 0xdd; 0xd2; 0xa3; 0x68; 0x1e; 0xcd; 0xa8; 0x16; 0x71].
Definition C_cx_BrainpoolP512r1_h : list Z := C_cofactor_1.

Definition C_cx_BrainpoolP512r1 : cx_curve_domain_t := {|
  dom_curve := CX_CURVE_BrainPoolP512R1; dom_bit_size := 512; dom_length := 64;
  dom_a := C_cx_BrainpoolP512r1_a; dom_b := C_cx_BrainpoolP512r1_b; dom_p := C_cx_BrainpoolP512r1_p; dom_Gx := C_cx_BrainpoolP512r1_Gx; dom_Gy := C_cx_BrainpoolP512r1_Gy;
  dom_n := C_cx_BrainpoolP512r1_n; dom_h := C_cx_BrainpoolP512r1_h; dom_Hn := C_cx_BrainpoolP512r1_Hn; dom_Hp := C_cx_BrainpoolP512r1_Hp |}.

Definition C_cx_BrainpoolP512t1_a : list Z :=
  [0xaa; 0xdd; 0x9d; 0xb8; 0xdb; 0xe9; 0xc4; 0x8b; 0x3f; 0xd4; 0xe6; 0xae; 0x33; 0xc9; 0xfc; 0x07;
   0xcb; 0x30; 0x8d; 0xb3; 0xb3; 0xc9; 0xd2; 0x0e; 0xd6; 0x63; 0x9c; 0xca; 0x70; 0x33; 0x08; 0x71;
   0x7d; 0x4d; 0x9b; 0; 0x9b; 0xc6; 0x68; 0x42; 0xae; 0xcd; 0xa1; 0x2a; 0xe6; 0xa3; 0x80; 0xe6;
   0x28; 0x81; 0xff; 0x2f; 0x2d; 0x82; 0xc6; 0x85; 0x28; 0xaa; 0x60; 0x56; 0x58; 0x3a; 0x48; 0xf0].
Definition C_cx_BrainpoolP512t1_b : list Z :=
  [0x7c; 0xbb; 0xbc; 0xf9; 0x44; 0x1c; 0xfa; 0xb7; 0x6e; 0x18; 0x90; 0xe4; 0x68; 0x84; 0xea; 0xe3;
   0x21; 0xf7; 0x0c; 0x0b; 0xcb; 0x49; 0x81; 0x52; 0x78; 0x97; 0x50; 0x4b; 0xec; 0x3e; 0x36; 0xa6;
   0x2b; 0xcd; 0xfa; 0x23; 0x04; 0x97; 0x65; 0x40; 0xf6; 0x45; 0; 0x85; 0xf2; 0xda; 0xe1; 0x45;
   0xc2; 0x25; 0x53; 0xb4; 0x65; 0x76; 0x36; 0x89; 0x18; 0x0e; 0xa2; 0x57; 0x18; 0x67; 0x42; 0x3e].
Definition C_cx_BrainpoolP512t1_p : list Z :=
  [0xaa; 0xdd; 0x9d; 0xb8; 0xdb; 0xe9; 0xc4; 0x8b; 0x3f; 0xd4; 0xe6; 0xae; 0x33; 0xc9; 0xfc; 0x07;
   0xcb; 0x30; 0x8d; 0xb3; 0xb3; 0xc9; 0xd2; 0x0e; 0xd6; 0x63; 0x9c; 0xca; 0x70; 0x33; 0x08; 0x71;
   0x7d; 0x4d; 0x9b; 0; 0x9b; 0xc6; 0x68; 0x42; 0xae; 0xcd; 0xa1; 0x2a; 0xe6; 0xa3; 0x80; 0xe6;
   0x28; 0x81; 0xff; 0x2f; 0x2d; 0x82; 0xc6; 0x85; 0x28; 0xaa; 0x60; 0x56; 0x58; 0x3a; 0x48; 0xf3].
Definition C_cx_BrainpoolP512t1_Hp : list Z :=
  [0x3c; 0x4c; 0x9d; 0x05; 0xa9; 0xff; 0x64; 0x50; 0x20; 0x2e; 0x19; 0x40; 0x20; 0x56; 0xee; 0xcc;
   0xa1; 0x6d; 0xaa; 0x5f; 0xd4; 0x2b; 0xff; 0x83; 0x19; 0x48; 0x6f; 0xd8; 0xd5; 0x89; 0x80; 0x57;
   0xe0; 0xc1; 0x9a; 0x77; 0x83; 0x51; 0x4a; 0x25; 0x53; 0xb7; 0xf9; 0xbc; 0x90; 0x5a; 0xff; 0xd3;
   0x79; 0x3f; 0xb1; 0x30; 0x27; 0x15; 0x79; 0x05; 0x49; 0xad; 0x14; 0x4a; 0x61; 0x58; 0xf2; 0x05].
Definition C_cx_BrainpoolP512t1_Gx : list Z :=
  [0x64; 0x0e; 0xce; 0x5c; 0x12; 0x78; 0x87; 0x17; 0xb9; 0xc1; 0xba; 0x06; 0xcb; 0xc2; 0xa6; 0xfe;
   0xba; 0x85; 0x84; 0x24; 0x58; 0xc5; 0x6d; 0xde; 0x9d; 0xb1; 0x75; 0x8d; 0x39; 0xc0; 0x31; 0x3d;
   0x82; 0xba; 0x51; 0x73; 0x5c; 0xdb; 0x3e; 0xa4; 0x99; 0xaa; 0x77; 0xa7; 0xd6; 0x94; 0x3a; 0x64;
   0xf7; 0xa3; 0xf2; 0x5f; 0xe2; 0x6f; 0x06; 0xb5; 0x1b; 0xaa; 0x26; 0x96; 0xfa; 0x90; 0x35; 0xda].
Definition C_cx_BrainpoolP512t1_Gy : list Z :=
  [0x5b; 0x53; 0x4b; 0xd5; 0x95; 0xf5; 0xaf; 0x0f; 0xa2; 0xc8; 0x92; 0x37; 0x6c; 0x84; 0xac; 0xe1;
   0xbb; 0x4e; 0x30; 0x19; 0xb7; 0x16; 0x34; 0xc0; 0x11; 0x31; 0x15; 0x9c; 0xae; 0x03; 0xce; 0xe9;
   0xd9; 0x93; 0x21; 0x84; 0xbe; 0xef; 0x21; 0x6b; 0xd7; 0x1d; 0xf2; 0xda; 0xdf; 0x86; 0xa6; 0x27;
   0x30; 0x6e; 0xcf; 0xf9; 0x6d; 0xbb; 0x8b; 0xac; 0xe1; 0x98; 0xb6; 0x1e; 0; 0xf8; 0xb3; 0x32].
Definition C_cx_BrainpoolP512t1_n : list Z :=
  [0xaa; 0xdd; 0x9d; 0xb8; 0xdb; 0xe9; 0xc4; 0x8b; 0x3f; 0xd4; 0xe6; 0xae; 0x33; 0xc9; 0xfc; 0x07;
   0xcb; 0x30; 0x8d; 0xb3; 0xb3; 0xc9; 0xd2; 0x0e; 0xd6; 0x63; 0x9c; 0xca; 0x70; 0x33; 0x08; 0x70;
   0x55; 0x3e; 0x5c; 0x41; 0x4c; 0xa9; 0x26; 0x19; 0x41; 0x86; 0x61; 0x19; 0x7f; 0xac; 0x10; 0x47;
   0x1d; 0xb1; 0xd3; 0x81; 0x08; 0x5d; 0xda; 0xdd; 0xb5; 0x87; 0x96; 0x82; 0x9c; 0xa9; 0; 0x69].
Definition C_cx_BrainpoolP512t1_Hn : list Z :=
  [0xa7; 0x94; 0x58; 0x6a; 0x71; 0x84; 0x07; 0xb0; 0x95; 0xdf; 0x1b; 0x4c; 0x19; 0x4b; 0x2e; 0x56;
   0x72; 0x3c; 0x37; 0xa2; 0x2f; 0x16; 0xbb; 0xdf; 0xd7; 0xf9; 0xcc; 0x26; 0x3b; 0x79; 0x0d; 0xe3;
   0xa6; 0xf2; 0x30; 0xc7; 0x2f; 0x02; 0x07; 0xe8; 0x3e; 0xc6; 0x4b; 0xd0; 0x33; 0xb7; 0x62; 0x7f;
   0x08; 0x86; 0xb7; 0x58; 0x95; 0x28; 0x3d; 0xdd; 0xd2; 0xa3; 0x68; 0x1e; 0xcd; 0xa8; 0x16; 0x71].
Definition C_cx_BrainpoolP512t1_h : list Z := C_cofactor_1.

Definition C_cx_BrainpoolP512t1 : cx_curve_domain_t := {|
  dom_curve := CX_CURVE_BrainPoolP512T1; dom_bit_size := 512; dom_length := 64;
  dom_a := C_cx_BrainpoolP512t1_a; dom_b := C_cx_BrainpoolP512t1_b; dom_p := C_cx_BrainpoolP512t1_p; dom_Gx := C_cx_BrainpoolP512t1_Gx; dom_Gy := C_cx_BrainpoolP512t1_Gy;
  dom_n := C_cx_BrainpoolP512t1_n; dom_h := C_cx_BrainpoolP512t1_h; dom_Hn := C_cx_BrainpoolP512t1_Hn; dom_Hp := C_cx_BrainpoolP512t1_Hp |}.

Definition C_cx_Stark256_a : list Z :=
  [0; 0; 0; 0; 0; 0; 0; 0; 0; 0; 0; 0; 0; 0; 0; 0;
   0; 0; 0; 0; 0; 0; 0; 0; 0; 0; 0; 0; 0; 0; 0; 0x01].
Definition C_cx_Stark256_b : list Z :=
  [0x06; 0xf2; 0x14; 0x13; 0xef; 0xbe; 0x40; 0xde; 0x15; 0x0e; 0x59; 0x6d; 0x72; 0xf7; 0xa8; 0xc5;
   0x60; 0x9a; 0xd2; 0x6c; 0x15; 0xc9; 0x15; 0xc1; 0xf4; 0xcd; 0xfc; 0xb9; 0x9c; 0xee; 0x9e; 0x89].
Definition C_cx_Stark256_p : list Z :=
  [0x08; 0; 0; 0; 0; 0; 0; 0x11; 0; 0; 0; 0; 0; 0; 0; 0;
   0; 0; 0; 0; 0; 0; 0; 0; 0; 0; 0; 0; 0; 0; 0; 0x01].
Definition C_cx_Stark256_Hp : list Z :=
  [0x07; 0xff; 0xd4; 0xab; 0x5e; 0; 0x88; 0x10; 0xff; 0xff; 0xff; 0xff; 0xff; 0x6f; 0x80; 0;
   0; 0; 0; 0x01; 0x33; 0x0f; 0xff; 0xff; 0xff; 0xff; 0xfd; 0x73; 0x7e; 0; 0x04; 0x01].
Definition C_cx_Stark256_n : list Z :=
  [0x08; 0; 0; 0; 0; 0; 0; 0x10; 0xff; 0xff; 0xff; 0xff; 0xff; 0xff; 0xff; 0xff;
   0xb7; 0x81; 0x12; 0x6d; 0xca; 0xe7; 0xb2; 0x32; 0x1e; 0x66; 0xa2; 0x41; 0xad; 0xc6; 0x4d; 0x2f].
Definition C_cx_Stark256_Hn : list Z :=
  [0x07; 0xd9; 0xe5; 0x7c; 0x23; 0x33; 0x76; 0x6e; 0xba; 0xf0; 0xab; 0x4c; 0xf7; 0x8b; 0xba; 0xbb;
   0x50; 0x9c; 0xf6; 0x4d; 0x14; 0xce; 0x60; 0xb9; 0x60; 0x21; 0xb3; 0xf1; 0xea; 0x1c; 0x68; 0x8d].
Definition C_cx_Stark256_Gx : list Z :=
  [0x01; 0xef; 0x15; 0xc1; 0x85; 0x99; 0x97; 0x1b; 0x7b; 0xec; 0xed; 0x41; 0x5a; 0x40; 0xf0; 0xc7;
   0xde; 0xac; 0xfd; 0x9b; 0x0d; 0x18; 0x19; 0xe0; 0x3d; 0x72; 0x3d; 0x8b; 0xc9; 0x43; 0xcf; 0xca].
Definition C_cx_Stark256_Gy : list Z :=
  [0; 0x56; 0x68; 0x06; 0x0a; 0xa4; 0x97; 0x30; 0xb7; 0xbe; 0x48; 0x01; 0xdf; 0x46; 0xec; 0x62;
   0xde; 0x53; 0xec; 0xd1; 0x1a; 0xbe; 0x43; 0xa3; 0x28; 0x73; 0; 0x0c; 0x36; 0xe8; 0xdc; 0x1f].
Definition C_cx_Stark256_h : list Z := C_cofactor_1.

Definition C_cx_Stark256 : cx_curve_domain_t := {|
  dom_curve := CX_CURVE_Stark256; dom_bit_size := 252; dom_length := 32;
  dom_a := C_cx_Stark256_a; dom_b := C_cx_Stark256_b; dom_p := C_cx_Stark256_p; dom_Gx := C_cx_Stark256_Gx; dom_Gy := C_cx_Stark256_Gy;
  dom_n := C_cx_Stark256_n; dom_h := C_cx_Stark256_h; dom_Hn := C_cx_Stark256_Hn; dom_Hp := C_cx_Stark256_Hp |}.

Definition C_cx_BLS12_381_G1_a : list Z := [0] ++ zeros (BLS12_381_SIZE_u8 - 1).
Definition C_cx_BLS12_381_G1_b : list Z :=
  [0; 0; 0; 0; 0; 0; 0; 0; 0; 0; 0; 0; 0; 0; 0; 0;
   0; 0; 0; 0; 0; 0; 0; 0; 0; 0; 0; 0; 0; 0; 0; 0;
   0; 0; 0; 0; 0; 0; 0; 0; 0; 0; 0; 0; 0; 0; 0; 0x04].
Definition C_cx_BLS12_381_G1_p : list Z :=
  [0x1a; 0x01; 0x11; 0xea; 0x39; 0x7f; 0xe6; 0x9a; 0x4b; 0x1b; 0xa7; 0xb6; 0x43; 0x4b; 0xac; 0xd7;
   0x64; 0x77; 0x4b; 0x84; 0xf3; 0x85; 0x12; 0xbf; 0x67; 0x30; 0xd2; 0xa0; 0xf6; 0xb0; 0xf6; 0x24;
   0x1e; 0xab; 0xff; 0xfe; 0xb1; 0x53; 0xff; 0xff; 0xb9; 0xfe; 0xff; 0xff; 0xff; 0xff; 0xaa; 0xab].
Definition C_cx_BLS12_381_G1_Hp : list Z :=
  [0x11; 0x98; 0x8f; 0xe5; 0x92; 0xca; 0xe3; 0xaa; 0x9a; 0x79; 0x3e; 0x85; 0xb5; 0x19; 0x95; 0x2d;
   0x67; 0xeb; 0x88; 0xa9; 0x93; 0x9d; 0x83; 0xc0; 0x8d; 0xe5; 0x47; 0x6c; 0x4c; 0x95; 0xb6; 0xd5;
   0x0a; 0x76; 0xe6; 0xa6; 0x09; 0xd1; 0x04; 0xf1; 0xf4; 0xdf; 0x1f; 0x34; 0x1c; 0x34; 0x17; 0x46].
Definition C_cx_BLS12_381_G1_n : list Z :=
  [0; 0; 0; 0; 0; 0; 0; 0; 0; 0; 0; 0; 0; 0; 0; 0;
   0x73; 0xed; 0xa7; 0x53; 0x29; 0x9d; 0x7d; 0x48; 0x33; 0x39; 0xd8; 0x08; 0x09; 0xa1; 0xd8; 0x05;
   0x53; 0xbd; 0xa4; 0x02; 0xff; 0xfe; 0x5b; 0xfe; 0xff; 0xff; 0xff; 0xff; 0; 0; 0; 0x01].
Definition C_cx_BLS12_381_G1_Hn : list Z :=
  [0; 0; 0; 0; 0; 0; 0; 0; 0; 0; 0; 0; 0; 0; 0; 0;
   0x6e; 0x2a; 0x5b; 0xb9; 0xc8; 0xdb; 0x33; 0xe9; 0x73; 0xd1; 0x3c; 0x71; 0xc7; 0xb5; 0xf4; 0x18;
   0x1b; 0x3e; 0x0d; 0x18; 0x8c; 0xf0; 0x69; 0x90; 0xc6; 0x2c; 0x18; 0x07; 0x43; 0x9b; 0x73; 0xaf].
Definition C_cx_BLS12_381_G1_Gx : list Z :=
  [0x17; 0xf1; 0xd3; 0xa7; 0x31; 0x97; 0xd7; 0x94; 0x26; 0x95; 0x63; 0x8c; 0x4f; 0xa9; 0xac; 0x0f;
   0xc3; 0x68; 0x8c; 0x4f; 0x97; 0x74; 0xb9; 0x05; 0xa1; 0x4e; 0x3a; 0x3f; 0x17; 0x1b; 0xac; 0x58;
   0x6c; 0x55; 0xe8; 0x3f; 0xf9; 0x7a; 0x1a; 0xef; 0xfb; 0x3a; 0xf0; 0x0a; 0xdb; 0x22; 0xc6; 0xbb].
Definition C_cx_BLS12_381_G1_Gy : list Z :=
  [0x08; 0xb3; 0xf4; 0x81; 0xe3; 0xaa; 0xa0; 0xf1; 0xa0; 0x9e; 0x30; 0xed; 0x74; 0x1d; 0x8a; 0xe4;
   0xfc; 0xf5; 0xe0; 0x95; 0xd5; 0xd0; 0x0a; 0xf6; 0; 0xdb; 0x18; 0xcb; 0x2c; 0x04; 0xb3; 0xed;
   0xd0; 0x3c; 0xc7; 0x44; 0xa2; 0x88; 0x8a; 0xe4; 0x0c; 0xaa; 0x23; 0x29; 0x46; 0xc5; 0xe7; 0xe1].
Definition C_cx_BLS12_381_G1_h : list Z :=
  [0; 0; 0; 0x01].

Definition C_cx_BLS12_381_G1 : cx_curve_domain_t := {|
  dom_curve := CX_CURVE_BLS12_381_G1; dom_bit_size := 381; dom_length := BLS12_381_SIZE_u8;
  dom_a := C_cx_BLS12_381_G1_a; dom_b := C_cx_BLS12_381_G1_b; dom_p := C_cx_BLS12_381_G1_p; dom_Gx := C_cx_BLS12_381_G1_Gx; dom_Gy := C_cx_BLS12_381_G1_Gy;
  dom_n := C_cx_BLS12_381_G1_n; dom_h := C_cx_BLS12_381_G1_h; dom_Hn := C_cx_BLS12_381_G1_Hn; dom_Hp := C_cx_BLS12_381_G1_Hp |}.

Definition C_cx_BLS12_377_G1_a : list Z := [0] ++ zeros (BLS12_377_SIZE_u8 - 1).
Definition C_cx_BLS12_377_G1_b : list Z :=
  [0; 0; 0; 0; 0; 0; 0; 0; 0; 0; 0; 0; 0; 0; 0; 0;
   0; 0; 0; 0; 0; 0; 0; 0; 0; 0; 0; 0; 0; 0; 0; 0;
   0; 0; 0; 0; 0; 0; 0; 0; 0; 0; 0; 0; 0; 0; 0; 0x01].
Definition C_cx_BLS12_377_G1_p : list Z :=
  [0x01; 0xae; 0x3a; 0x46; 0x17; 0xc5; 0x10; 0xea; 0xc6; 0x3b; 0x05; 0xc0; 0x6c; 0xa1; 0x49; 0x3b;
   0x1a; 0x22; 0xd9; 0xf3; 0; 0xf5; 0x13; 0x8f; 0x1e; 0xf3; 0x62; 0x2f; 0xba; 0x09; 0x48; 0;
   0x17; 0x0b; 0x5d; 0x44; 0x30; 0; 0; 0; 0x85; 0x08; 0xc0; 0; 0; 0; 0; 0x01].
Definition C_cx_BLS12_377_G1_Hp : list Z :=
  [0; 0x6d; 0xfc; 0xcb; 0x1e; 0x91; 0x4b; 0x88; 0x83; 0x7e; 0x92; 0xf0; 0x41; 0x79; 0x0b; 0xf9;
   0xbf; 0xdf; 0x7d; 0x03; 0x82; 0x7d; 0xc3; 0xac; 0x22; 0xa5; 0xf1; 0x11; 0x62; 0xd6; 0xb4; 0x6d;
   0x03; 0x29; 0xfc; 0xaa; 0xb0; 0x04; 0x31; 0xb1; 0xb7; 0x86; 0x68; 0x6c; 0x94; 0; 0xcd; 0x22].
Definition C_cx_BLS12_377_G1_n : list Z :=
  [0; 0; 0; 0; 0; 0; 0; 0; 0; 0; 0; 0; 0; 0; 0; 0;
   0x12; 0xab; 0x65; 0x5e; 0x9a; 0x2c; 0xa5; 0x56; 0x60; 0xb4; 0x4d; 0x1e; 0x5c; 0x37; 0xb0; 0x01;
   0x59; 0xaa; 0x76; 0xfe; 0xd0; 0; 0; 0x01; 0x0a; 0x11; 0x80; 0; 0; 0; 0; 0x01].
Definition C_cx_BLS12_377_G1_Hn : list Z :=
  [0; 0; 0; 0; 0; 0; 0; 0; 0; 0; 0; 0; 0; 0; 0; 0;
   0x06; 0x01; 0xdf; 0xa5; 0x55; 0xc4; 0x8d; 0xda; 0xb1; 0xe5; 0x5e; 0xf6; 0xf1; 0xc9; 0xd7; 0x13;
   0x62; 0x4d; 0x23; 0xff; 0xae; 0x27; 0x16; 0x99; 0x6a; 0x42; 0x95; 0xc9; 0x0f; 0x65; 0x45; 0x4c].
Definition C_cx_BLS12_377_G1_Gx : list Z :=
  [0; 0x88; 0x48; 0xde; 0xfe; 0x74; 0x0a; 0x67; 0xc8; 0xfc; 0x62; 0x25; 0xbf; 0x87; 0xff; 0x54;
   0x85; 0x95; 0x1e; 0x2c; 0xaa; 0x9d; 0x41; 0xbb; 0x18; 0x82; 0x82; 0xc8; 0xbd; 0x37; 0xcb; 0x5c;
   0xd5; 0x48; 0x15; 0x12; 0xff; 0xcd; 0x39; 0x4e; 0xea; 0xb9; 0xb1; 0x6e; 0xb2; 0x1b; 0xe9; 0xef].
Definition C_cx_BLS12_377_G1_Gy : list Z :=
  [0x01; 0x91; 0x4a; 0x69; 0xc5; 0x10; 0x2e; 0xff; 0x1f; 0x67; 0x4f; 0x5d; 0x30; 0xaf; 0xee; 0xc4;
   0xbd; 0x7f; 0xb3; 0x48; 0xca; 0x3e; 0x52; 0xd9; 0x6d; 0x18; 0x2a; 0xd4; 0x4f; 0xb8; 0x23; 0x05;
   0xc2; 0xfe; 0x3d; 0x36; 0x34; 0xa9; 0x59; 0x1a; 0xfd; 0x82; 0xde; 0x55; 0x55; 0x9c; 0x8e; 0xa6].
Definition C_cx_BLS12_377_G1_h : list Z :=
  [0; 0; 0; 0; 0; 0; 0; 0; 0; 0; 0; 0; 0; 0; 0; 0;
   0; 0; 0; 0; 0; 0; 0; 0; 0; 0; 0; 0; 0; 0; 0; 0;
   0x17; 0x0b; 0x5d; 0x44; 0x30; 0; 0; 0; 0; 0; 0; 0; 0; 0; 0; 0].

Definition C_cx_BLS12_377_G1 : cx_curve_domain_t := {|
  dom_curve := CX_CURVE_BLS12_377_G1; dom_bit_size := 377; dom_length := BLS12_377_SIZE_u8;
  dom_a := C_cx_BLS12_377_G1_a; dom_b := C_cx_BLS12_377_G1_b; dom_p := C_cx_BLS12_377_G1_p; dom_Gx := C_cx_BLS12_377_G1_Gx; dom_Gy := C_cx_BLS12_377_G1_Gy;
  dom_n := C_cx_BLS12_377_G1_n; dom_h := C_cx_BLS12_377_G1_h; dom_Hn := C_cx_BLS12_377_G1_Hn; dom_Hp := C_cx_BLS12_377_G1_Hp |}.

Definition C_cx_Pallas_a : list Z :=
  [0; 0; 0; 0; 0; 0; 0; 0; 0; 0; 0; 0; 0; 0; 0; 0;
   0; 0; 0; 0; 0; 0; 0; 0; 0; 0; 0; 0; 0; 0; 0; 0].
Definition C_cx_Pallas_b : list Z :=
  [0; 0; 0; 0; 0; 0; 0; 0; 0; 0; 0; 0; 0; 0; 0; 0;
   0; 0; 0; 0; 0; 0; 0; 0; 0; 0; 0; 0; 0; 0; 0; 0x05].
Definition C_cx_Pallas_p : list Z :=
  [0x40; 0; 0; 0; 0; 0; 0; 0; 0; 0; 0; 0; 0; 0; 0; 0;
   0x22; 0x46; 0x98; 0xfc; 0x09; 0x4c; 0xf9; 0x1b; 0x99; 0x2d; 0x30; 0xed; 0; 0; 0; 0x01].
Definition C_cx_Pallas_Hp : list Z :=
  [0x09; 0x6d; 0x41; 0xaf; 0x7b; 0x9c; 0xb7; 0x14; 0x77; 0x97; 0xa9; 0x9b; 0xc3; 0xc9; 0x5d; 0x18;
   0xd7; 0xd3; 0x0d; 0xbd; 0x8b; 0x0d; 0xe0; 0xe7; 0x8c; 0x78; 0xec; 0xb3; 0; 0; 0; 0x0f].
Definition C_cx_Pallas_Gx : list Z :=
  [0x01; 0x47; 0x33; 0xb2; 0x83; 0x27; 0x25; 0x74; 0xe2; 0x39; 0x31; 0xf3; 0x58; 0xa0; 0x35; 0x4b;
   0x7b; 0xcd; 0x5c; 0x76; 0x5c; 0xc1; 0xfc; 0xea; 0xcc; 0x3b; 0x3d; 0x1a; 0x0c; 0x49; 0x5c; 0x9e].
Definition C_cx_Pallas_Gy : list Z :=
  [0x3a; 0x7b; 0x89; 0x5f; 0x5e; 0x1f; 0xa9; 0x1d; 0x82; 0x6f; 0x72; 0xea; 0x26; 0xb5; 0xc9; 0x0b;
   0x1b; 0xae; 0x77; 0xd1; 0x29; 0xf5; 0xec; 0xc1; 0x37; 0x89; 0x24; 0xd7; 0x43; 0xf4; 0xb6; 0x78].
Definition C_cx_Pallas_n : list Z :=
  [0x40; 0; 0; 0; 0; 0; 0; 0; 0; 0; 0; 0; 0; 0; 0; 0;
   0x22; 0x46; 0x98; 0xfc; 0x09; 0x94; 0xa8; 0xdd; 0x8c; 0x46; 0xeb; 0x21; 0; 0; 0; 0x01].
Definition C_cx_Pallas_Hn : list Z :=
  [0x09; 0x6d; 0x41; 0xaf; 0x7c; 0xcf; 0xda; 0xa9; 0x7f; 0xae; 0x23; 0x10; 0x04; 0xcc; 0xf5; 0x90;
   0x67; 0xbb; 0x43; 0x3d; 0x89; 0x1a; 0x16; 0xe3; 0xfc; 0x96; 0x78; 0xff; 0; 0; 0; 0x0f].
Definition C_cx_Pallas_h : list Z := [0; 0; 0; 0x01] ++ zeros (PASTA_SIZE_u8 - 4).

Definition C_cx_Pallas : cx_curve_domain_t := {|
  dom_curve := CX_CURVE_PALLAS; dom_bit_size := 255; dom_length := 32;
  dom_a := C_cx_Pallas_a; dom_b := C_cx_Pallas_b; dom_p := C_cx_Pallas_p; dom_Gx := C_cx_Pallas_Gx; dom_Gy := C_cx_Pallas_Gy;
  dom_n := C_cx_Pallas_n; dom_h := C_cx_Pallas_h; dom_Hn := C_cx_Pallas_Hn; dom_Hp := C_cx_Pallas_Hp |}.

Definition C_cx_Vesta_a : list Z :=
  [0; 0; 0; 0; 0; 0; 0; 0; 0; 0; 0; 0; 0; 0; 0; 0;
   0; 0; 0; 0; 0; 0; 0; 0; 0; 0; 0; 0; 0; 0; 0; 0].
Definition C_cx_Vesta_b : list Z :=
  [0; 0; 0; 0; 0; 0; 0; 0; 0; 0; 0; 0; 0; 0; 0; 0;
   0; 0; 0; 0; 0; 0; 0; 0; 0; 0; 0; 0; 0; 0; 0; 0x05].
Definition C_cx_Vesta_p : list Z :=
  [0x40; 0; 0; 0; 0; 0; 0; 0; 0; 0; 0; 0; 0; 0; 0; 0;
   0x22; 0x46; 0x98; 0xfc; 0x09; 0x94; 0xa8; 0xdd; 0x8c; 0x46; 0xeb; 0x21; 0; 0; 0; 0x01].
Definition C_cx_Vesta_Hp : list Z :=
  [0x09; 0x6d; 0x41; 0xaf; 0x7c; 0xcf; 0xda; 0xa9; 0x7f; 0xae; 0x23; 0x10; 0x04; 0xcc; 0xf5; 0x90;
   0x67; 0xbb; 0x43; 0x3d; 0x89; 0x1a; 0x16; 0xe3; 0xfc; 0x96; 0x78; 0xff; 0; 0; 0; 0x0f].
Definition C_cx_Vesta_Gx : list Z :=
  [0x2d; 0x39; 0x96; 0xe1; 0x8f; 0x13; 0x4b; 0xd9; 0x3a; 0xec; 0x73; 0xc9; 0xb9; 0x84; 0xdb; 0xf2;
   0x70; 0x74; 0xe5; 0x44; 0x02; 0x9e; 0x4a; 0xc1; 0x22; 0xfb; 0x21; 0x9f; 0xde; 0x2b; 0x20; 0xeb].
Definition C_cx_Vesta_Gy : list Z :=
  [0x2a; 0xfa; 0xa4; 0x3f; 0x3c; 0x90; 0x2b; 0x3d; 0x19; 0xad; 0xc0; 0xb9; 0x0a; 0xa1; 0xe9; 0xa3;
   0x7d; 0x55; 0xc7; 0x3d; 0x77; 0x53; 0xf7; 0x22; 0xf3; 0x4d; 0x45; 0x6e; 0x53; 0x08; 0x54; 0xf0].
Definition C_cx_Vesta_n : list Z :=
  [0x40; 0; 0; 0; 0; 0; 0; 0; 0; 0; 0; 0; 0; 0; 0; 0;
   0x22; 0x46; 0x98; 0xfc; 0x09; 0x4c; 0xf9; 0x1b; 0x99; 0x2d; 0x30; 0xed; 0; 0; 0; 0x01].
Definition C_cx_Vesta_Hn : list Z :=
  [0x09; 0x6d; 0x41; 0xaf; 0x7b; 0x9c; 0xb7; 0x14; 0x77; 0x97; 0xa9; 0x9b; 0xc3; 0xc9; 0x5d; 0x18;
   0xd7; 0xd3; 0x0d; 0xbd; 0x8b; 0x0d; 0xe0; 0xe7; 0x8c; 0x78; 0xec; 0xb3; 0; 0; 0; 0x0f].
Definition C_cx_Vesta_h : list Z := [0; 0; 0; 0x01] ++ zeros (PASTA_SIZE_u8 - 4).

Definition C_cx_Vesta : cx_curve_domain_t := {|
  dom_curve := CX_CURVE_VESTA; dom_bit_size := 255; dom_length := 32;
  dom_a := C_cx_Vesta_a; dom_b := C_cx_Vesta_b; dom_p := C_cx_Vesta_p; dom_Gx := C_cx_Vesta_Gx; dom_Gy := C_cx_Vesta_Gy;
  dom_n := C_cx_Vesta_n; dom_h := C_cx_Vesta_h; dom_Hn := C_cx_Vesta_Hn; dom_Hp := C_cx_Vesta_Hp |}.

Definition C_cx_Ed25519_a : list Z :=
  [0x7f; 0xff; 0xff; 0xff; 0xff; 0xff; 0xff; 0xff; 0xff; 0xff; 0xff; 0xff; 0xff; 0xff; 0xff; 0xff;
   0xff; 0xff; 0xff; 0xff; 0xff; 0xff; 0xff; 0xff; 0xff; 0xff; 0xff; 0xff; 0xff; 0xff; 0xff; 0xec].
Definition C_cx_Ed25519_d : list Z :=
  [0x52; 0x03; 0x6c; 0xee; 0x2b; 0x6f; 0xfe; 0x73; 0x8c; 0xc7; 0x40; 0x79; 0x77; 0x79; 0xe8; 0x98;
   0; 0x70; 0x0a; 0x4d; 0x41; 0x41; 0xd8; 0xab; 0x75; 0xeb; 0x4d; 0xca; 0x13; 0x59; 0x78; 0xa3].
Definition C_cx_Ed25519_q : list Z :=
  [0x7f; 0xff; 0xff; 0xff; 0xff; 0xff; 0xff; 0xff; 0xff; 0xff; 0xff; 0xff; 0xff; 0xff; 0xff; 0xff;
   0xff; 0xff; 0xff; 0xff; 0xff; 0xff; 0xff; 0xff; 0xff; 0xff; 0xff; 0xff; 0xff; 0xff; 0xff; 0xed].
Definition C_cx_Ed25519_Hq : list Z :=
  [0; 0; 0; 0; 0; 0; 0; 0; 0; 0; 0; 0; 0; 0; 0; 0;
   0; 0; 0; 0; 0; 0; 0; 0; 0; 0; 0; 0; 0; 0; 0x05; 0xa4].
Definition C_cx_Ed25519_Bx : list Z :=
  [0x21; 0x69; 0x36; 0xd3; 0xcd; 0x6e; 0x53; 0xfe; 0xc0; 0xa4; 0xe2; 0x31; 0xfd; 0xd6; 0xdc; 0x5c;
   0x69; 0x2c; 0xc7; 0x60; 0x95; 0x25; 0xa7; 0xb2; 0xc9; 0x56; 0x2d; 0x60; 0x8f; 0x25; 0xd5; 0x1a].
Definition C_cx_Ed25519_By : list Z :=
  [0x66; 0x66; 0x66; 0x66; 0x66; 0x66; 0x66; 0x66; 0x66; 0x66; 0x66; 0x66; 0x66; 0x66; 0x66; 0x66;
   0x66; 0x66; 0x66; 0x66; 0x66; 0x66; 0x66; 0x66; 0x66; 0x66; 0x66; 0x66; 0x66; 0x66; 0x66; 0x58].
Definition C_cx_Ed25519_l : list Z :=
  [0x10; 0; 0; 0; 0; 0; 0; 0; 0; 0; 0; 0; 0; 0; 0; 0;
   0x14; 0xde; 0xf9; 0xde; 0xa2; 0xf7; 0x9c; 0xd6; 0x58; 0x12; 0x63; 0x1a; 0x5c; 0xf5; 0xd3; 0xed].
Definition C_cx_Ed25519_Hl : list Z :=
  [0x03; 0x99; 0x41; 0x1b; 0x7c; 0x30; 0x9a; 0x3d; 0xce; 0xec; 0x73; 0xd2; 0x17; 0xf5; 0xbe; 0x65;
   0xd0; 0x0e; 0x1b; 0xa7; 0x68; 0x85; 0x93; 0x47; 0xa4; 0x06; 0x11; 0xe3; 0x44; 0x9c; 0x0f; 0x01].
Definition C_cx_Ed25519_h : list Z := C_cofactor_8.

Definition C_cx_Ed25519 : cx_curve_domain_t := {|
  dom_curve := CX_CURVE_Ed25519; dom_bit_size := 256; dom_length := 32;
  dom_a := C_cx_Ed25519_a; dom_b := C_cx_Ed25519_d; dom_p := C_cx_Ed25519_q; dom_Gx := C_cx_Ed25519_Bx; dom_Gy := C_cx_Ed25519_By;
  dom_n := C_cx_Ed25519_l; dom_h := C_cx_Ed25519_h; dom_Hn := C_cx_Ed25519_Hl; dom_Hp := C_cx_Ed25519_Hq |}.

Definition C_cx_Ed448_a : list Z :=
  [0; 0; 0; 0; 0; 0; 0; 0; 0; 0; 0; 0; 0; 0; 0; 0;
   0; 0; 0; 0; 0; 0; 0; 0; 0; 0; 0; 0; 0; 0; 0; 0;
   0; 0; 0; 0; 0; 0; 0; 0; 0; 0; 0; 0; 0; 0; 0; 0;
   0; 0; 0; 0; 0; 0; 0; 0; 0x01].
Definition C_cx_Ed448_d : list Z :=
  [0; 0xff; 0xff; 0xff; 0xff; 0xff; 0xff; 0xff; 0xff; 0xff; 0xff; 0xff; 0xff; 0xff; 0xff; 0xff;
   0xff; 0xff; 0xff; 0xff; 0xff; 0xff; 0xff; 0xff; 0xff; 0xff; 0xff; 0xff; 0xfe; 0xff; 0xff; 0xff;
   0xff; 0xff; 0xff; 0xff; 0xff; 0xff; 0xff; 0xff; 0xff; 0xff; 0xff; 0xff; 0xff; 0xff; 0xff; 0xff;
   0xff; 0xff; 0xff; 0xff; 0xff; 0xff; 0xff; 0x67; 0x56].
Definition C_cx_Ed448_q : list Z :=
  [0; 0xff; 0xff; 0xff; 0xff; 0xff; 0xff; 0xff; 0xff; 0xff; 0xff; 0xff; 0xff; 0xff; 0xff; 0xff;
   0xff; 0xff; 0xff; 0xff; 0xff; 0xff; 0xff; 0xff; 0xff; 0xff; 0xff; 0xff; 0xfe; 0xff; 0xff; 0xff;
   0xff; 0xff; 0xff; 0xff; 0xff; 0xff; 0xff; 0xff; 0xff; 0xff; 0xff; 0xff; 0xff; 0xff; 0xff; 0xff;
   0xff; 0xff; 0xff; 0xff; 0xff; 0xff; 0xff; 0xff; 0xff].
Definition C_cx_Ed448_Hq : list Z :=
  [0; 0; 0; 0; 0; 0; 0; 0; 0; 0; 0; 0; 0x03; 0; 0; 0;
   0; 0; 0; 0; 0; 0; 0; 0; 0; 0; 0; 0; 0; 0; 0; 0;
   0; 0; 0; 0; 0; 0; 0; 0; 0x02; 0; 0; 0; 0; 0; 0; 0;
   0; 0; 0; 0; 0; 0; 0; 0; 0].
Definition C_cx_Ed448_Bx : list Z :=
  [0; 0x4f; 0x19; 0x70; 0xc6; 0x6b; 0xed; 0x0d; 0xed; 0x22; 0x1d; 0x15; 0xa6; 0x22; 0xbf; 0x36;
   0xda; 0x9e; 0x14; 0x65; 0x70; 0x47; 0x0f; 0x17; 0x67; 0xea; 0x6d; 0xe3; 0x24; 0xa3; 0xd3; 0xa4;
   0x64; 0x12; 0xae; 0x1a; 0xf7; 0x2a; 0xb6; 0x65; 0x11; 0x43; 0x3b; 0x80; 0xe1; 0x8b; 0; 0x93;
   0x8e; 0x26; 0x26; 0xa8; 0x2b; 0xc7; 0x0c; 0xc0; 0x5e].
Definition C_cx_Ed448_By : list Z :=
  [0; 0x69; 0x3f; 0x46; 0x71; 0x6e; 0xb6; 0xbc; 0x24; 0x88; 0x76; 0x20; 0x37; 0x56; 0xc9; 0xc7;
   0x62; 0x4b; 0xea; 0x73; 0x73; 0x6c; 0xa3; 0x98; 0x40; 0x87; 0x78; 0x9c; 0x1e; 0x05; 0xa0; 0xc2;
   0xd7; 0x3a; 0xd3; 0xff; 0x1c; 0xe6; 0x7c; 0x39; 0xc4; 0xfd; 0xbd; 0x13; 0x2c; 0x4e; 0xd7; 0xc8;
   0xad; 0x98; 0x08; 0x79; 0x5b; 0xf2; 0x30; 0xfa; 0x14].
Definition C_cx_Ed448_l : list Z :=
  [0; 0x3f; 0xff; 0xff; 0xff; 0xff; 0xff; 0xff; 0xff; 0xff; 0xff; 0xff; 0xff; 0xff; 0xff; 0xff;
   0xff; 0xff; 0xff; 0xff; 0xff; 0xff; 0xff; 0xff; 0xff; 0xff; 0xff; 0xff; 0xff; 0x7c; 0xca; 0x23;
   0xe9; 0xc4; 0x4e; 0xdb; 0x49; 0xae; 0xd6; 0x36; 0x90; 0x21; 0x6c; 0xc2; 0x72; 0x8d; 0xc5; 0x8f;
   0x55; 0x23; 0x78; 0xc2; 0x92; 0xab; 0x58; 0x44; 0xf3].
Definition C_cx_Ed448_Hl : list Z :=
  [0; 0x1a; 0x9c; 0xc1; 0x4b; 0xa3; 0xc4; 0x7c; 0x44; 0xae; 0x17; 0xcf; 0x72; 0xc9; 0x86; 0x0f;
   0xaa; 0x10; 0x75; 0x50; 0xba; 0x94; 0xd0; 0xe8; 0x08; 0xf1; 0x0a; 0x98; 0xef; 0x88; 0xe1; 0x5b;
   0xb4; 0x8b; 0xd8; 0x27; 0xde; 0x12; 0x7c; 0xe5; 0xf2; 0x3e; 0x0a; 0xa6; 0x8d; 0x30; 0xdb; 0xb9;
   0x89; 0xbb; 0xec; 0xff; 0xc3; 0x3c; 0x3a; 0x37; 0x8c].
Definition C_cx_Ed448_h : list Z := C_cofactor_4.

Definition C_cx_Ed448 : cx_curve_domain_t := {|
  dom_curve := CX_CURVE_Ed448; dom_bit_size := 448; dom_length := 57;
  dom_a := C_cx_Ed448_a; dom_b := C_cx_Ed448_d; dom_p := C_cx_Ed448_q; dom_Gx := C_cx_Ed448_Bx; dom_Gy := C_cx_Ed448_By;
  dom_n := C_cx_Ed448_l; dom_h := C_cx_Ed448_h; dom_Hn := C_cx_Ed448_Hl; dom_Hp := C_cx_Ed448_Hq |}.

Definition C_cx_EdBLS12_a : list Z :=
  [0x12; 0xab; 0x65; 0x5e; 0x9a; 0x2c; 0xa5; 0x56; 0x60; 0xb4; 0x4d; 0x1e; 0x5c; 0x37; 0xb0; 0x01;
   0x59; 0xaa; 0x76; 0xfe; 0xd0; 0; 0; 0x01; 0x0a; 0x11; 0x80; 0; 0; 0; 0; 0].
Definition C_cx_EdBLS12_d : list Z :=
  [0; 0; 0; 0; 0; 0; 0; 0; 0; 0; 0; 0; 0; 0; 0; 0;
   0; 0; 0; 0; 0; 0; 0; 0; 0; 0; 0; 0; 0; 0; 0x0b; 0xcd].
Definition C_cx_EdBLS12_q : list Z :=
  [0x12; 0xab; 0x65; 0x5e; 0x9a; 0x2c; 0xa5; 0x56; 0x60; 0xb4; 0x4d; 0x1e; 0x5c; 0x37; 0xb0; 0x01;
   0x59; 0xaa; 0x76; 0xfe; 0xd0; 0; 0; 0x01; 0x0a; 0x11; 0x80; 0; 0; 0; 0; 0x01].
Definition C_cx_EdBLS12_Hq : list Z :=
  [0x01; 0x1f; 0xda; 0xe7; 0xef; 0xf1; 0xc9; 0x39; 0xa7; 0xcc; 0; 0x8f; 0xe5; 0xdc; 0x85; 0x93;
   0xcc; 0x2c; 0x27; 0xb5; 0x88; 0x60; 0x59; 0x1f; 0x25; 0xd5; 0x77; 0xba; 0xb8; 0x61; 0x85; 0x7b].
Definition C_cx_EdBLS12_Gx : list Z :=
  [0x09; 0xf1; 0xb5; 0xa5; 0xba; 0xf6; 0xac; 0xf0; 0x6f; 0xed; 0x91; 0xc9; 0xae; 0x9e; 0xbf; 0xa0;
   0x60; 0x68; 0xdd; 0x28; 0x35; 0x79; 0x09; 0x80; 0x89; 0x4e; 0x23; 0x28; 0xf3; 0xeb; 0xca; 0x05].
Definition C_cx_EdBLS12_Gy : list Z :=
  [0x09; 0xa2; 0x0d; 0xf3; 0x65; 0x71; 0xac; 0x3c; 0xd9; 0x06; 0xb2; 0x56; 0x08; 0x0b; 0xa8; 0x45;
   0x44; 0x53; 0xc1; 0x77; 0xaa; 0xf3; 0x13; 0x1b; 0xb5; 0x0a; 0x67; 0xbf; 0x1a; 0x80; 0x67; 0x81].
Definition C_cx_EdBLS12_n : list Z :=
  [0x04; 0xaa; 0xd9; 0x57; 0xa6; 0x8b; 0x29; 0x55; 0x98; 0x2d; 0x13; 0x47; 0x97; 0x0d; 0xec; 0;
   0x52; 0x93; 0xa3; 0xaf; 0xc4; 0x3c; 0x8a; 0xfe; 0xb9; 0x5a; 0xee; 0x9a; 0xc3; 0x3f; 0xd9; 0xff].
Definition C_cx_EdBLS12_Hn : list Z :=
  [0x47; 0xad; 0xa1; 0xee; 0xf0; 0x2d; 0x84; 0x1c; 0xa0; 0x60; 0x49; 0xcc; 0xd0; 0x27; 0xa2; 0x1f;
   0x63; 0x9c; 0x3f; 0x57; 0xa7; 0x3d; 0xa7; 0x33; 0x75; 0x69; 0x9c; 0xd6; 0xa5; 0x5d; 0x45; 0x0e].
Definition C_cx_EdBLS12_h : list Z :=
  [0; 0; 0; 0x04].

Definition C_cx_EdBLS12 : cx_curve_domain_t := {|
  dom_curve := CX_CURVE_EdBLS12; dom_bit_size := 256; dom_length := EDBLS12_377_SIZE_u8;
  dom_a := C_cx_EdBLS12_a; dom_b := C_cx_EdBLS12_d; dom_p := C_cx_EdBLS12_q; dom_Gx := C_cx_EdBLS12_Gx; dom_Gy := C_cx_EdBLS12_Gy;
  dom_n := C_cx_EdBLS12_n; dom_h := C_cx_EdBLS12_h; dom_Hn := C_cx_EdBLS12_Hn; dom_Hp := C_cx_EdBLS12_Hq |}.

Definition C_cx_Jubjub_a : list Z :=
  [0x73; 0xed; 0xa7; 0x53; 0x29; 0x9d; 0x7d; 0x48; 0x33; 0x39; 0xd8; 0x08; 0x09; 0xa1; 0xd8; 0x05;
   0x53; 0xbd; 0xa4; 0x02; 0xff; 0xfe; 0x5b; 0xfe; 0xff; 0xff; 0xff; 0xff; 0; 0; 0; 0].
Definition C_cx_Jubjub_d : list Z :=
  [0x2a; 0x93; 0x18; 0xe7; 0x4b; 0xfa; 0x2b; 0x48; 0xf5; 0xfd; 0x92; 0x07; 0xe6; 0xbd; 0x7f; 0xd4;
   0x29; 0x2d; 0x7f; 0x6d; 0x37; 0x57; 0x9d; 0x26; 0x01; 0x06; 0x5f; 0xd6; 0xd6; 0x34; 0x3e; 0xb1].
Definition C_cx_Jubjub_q : list Z :=
  [0x73; 0xed; 0xa7; 0x53; 0x29; 0x9d; 0x7d; 0x48; 0x33; 0x39; 0xd8; 0x08; 0x09; 0xa1; 0xd8; 0x05;
   0x53; 0xbd; 0xa4; 0x02; 0xff; 0xfe; 0x5b; 0xfe; 0xff; 0xff; 0xff; 0xff; 0; 0; 0; 0x01].
Definition C_cx_Jubjub_Hq : list Z :=
  [0x07; 0x48; 0xd9; 0xd9; 0x9f; 0x59; 0xff; 0x11; 0x05; 0xd3; 0x14; 0x96; 0x72; 0x54; 0x39; 0x8f;
   0x2b; 0x6c; 0xed; 0xcb; 0x87; 0x92; 0x5c; 0x23; 0xc9; 0x99; 0xe9; 0x90; 0xf3; 0xf2; 0x9c; 0x6d].
Definition C_cx_Jubjub_Gx : list Z :=
  [0x11; 0xda; 0xfe; 0x5d; 0x23; 0xe1; 0x21; 0x80; 0x86; 0xa3; 0x65; 0xb9; 0x9f; 0xbf; 0x3d; 0x3b;
   0xe7; 0x2f; 0x6a; 0xfd; 0x7d; 0x1f; 0x72; 0x62; 0x3e; 0x6b; 0x07; 0x14; 0x92; 0xd1; 0x12; 0x2b].
Definition C_cx_Jubjub_Gy : list Z :=
  [0x1d; 0x52; 0x3c; 0xf1; 0xdd; 0xab; 0x1a; 0x17; 0x93; 0x13; 0x2e; 0x78; 0xc8; 0x66; 0xc0; 0xc3;
   0x3e; 0x26; 0xba; 0x5c; 0xc2; 0x20; 0xfe; 0xd7; 0xcc; 0x3f; 0x87; 0x0e; 0x59; 0xd2; 0x92; 0xaa].
Definition C_cx_Jubjub_n : list Z :=
  [0x0e; 0x7d; 0xb4; 0xea; 0x65; 0x33; 0xaf; 0xa9; 0x06; 0x67; 0x3b; 0x01; 0x01; 0x34; 0x3b; 0;
   0xa6; 0x68; 0x20; 0x93; 0xcc; 0xc8; 0x10; 0x82; 0xd0; 0x97; 0x0e; 0x5e; 0xd6; 0xf7; 0x2c; 0xb7].
Definition C_cx_Jubjub_Hn : list Z :=
  [0x04; 0xf6; 0x54; 0x7b; 0x8d; 0x12; 0x76; 0x88; 0x69; 0xda; 0xb7; 0xfa; 0xc0; 0x26; 0xe9; 0xa5;
   0x51; 0xb0; 0xce; 0xf0; 0x9c; 0xe3; 0xfc; 0x26; 0x67; 0x71; 0x9a; 0xa4; 0x95; 0xe5; 0x77; 0x31].
Definition C_cx_Jubjub_h : list Z :=
  [0; 0; 0; 0x08].

Definition C_cx_Jubjub : cx_curve_domain_t := {|
  dom_curve := CX_CURVE_JUBJUB; dom_bit_size := 256; dom_length := 32;
  dom_a := C_cx_Jubjub_a; dom_b := C_cx_Jubjub_d; dom_p := C_cx_Jubjub_q; dom_Gx := C_cx_Jubjub_Gx; dom_Gy := C_cx_Jubjub_Gy;
  dom_n := C_cx_Jubjub_n; dom_h := C_cx_Jubjub_h; dom_Hn := C_cx_Jubjub_Hn; dom_Hp := C_cx_Jubjub_Hq |}.

Definition C_cx_Curve25519_a : list Z :=
  [0; 0; 0; 0; 0; 0; 0; 0; 0; 0; 0; 0; 0; 0; 0; 0;
   0; 0; 0; 0; 0; 0; 0; 0; 0; 0; 0; 0; 0; 0x07; 0x6d; 0x06].
Definition C_cx_Curve25519_b : list Z :=
  [0; 0; 0; 0; 0; 0; 0; 0; 0; 0; 0; 0; 0; 0; 0; 0;
   0; 0; 0; 0; 0; 0; 0; 0; 0; 0; 0; 0; 0; 0; 0; 0x01].
Definition C_cx_Curve25519_p : list Z :=
  [0x7f; 0xff; 0xff; 0xff; 0xff; 0xff; 0xff; 0xff; 0xff; 0xff; 0xff; 0xff; 0xff; 0xff; 0xff; 0xff;
   0xff; 0xff; 0xff; 0xff; 0xff; 0xff; 0xff; 0xff; 0xff; 0xff; 0xff; 0xff; 0xff; 0xff; 0xff; 0xed].
Definition C_cx_Curve25519_Hp : list Z :=
  [0; 0; 0; 0; 0; 0; 0; 0; 0; 0; 0; 0; 0; 0; 0; 0;
   0; 0; 0; 0; 0; 0; 0; 0; 0; 0; 0; 0; 0; 0; 0x05; 0xa4].
Definition C_cx_Curve25519_Gx : list Z :=
  [0; 0; 0; 0; 0; 0; 0; 0; 0; 0; 0; 0; 0; 0; 0; 0;
   0; 0; 0; 0; 0; 0; 0; 0; 0; 0; 0; 0; 0; 0; 0; 0x09].
Definition C_cx_Curve25519_Gy : list Z :=
  [0x5f; 0x51; 0xe6; 0x5e; 0x47; 0x5f; 0x79; 0x4b; 0x1f; 0xe1; 0x22; 0xd3; 0x88; 0xb7; 0x2e; 0xb3;
   0x6d; 0xc2; 0xb2; 0x81; 0x92; 0x83; 0x9e; 0x4d; 0xd6; 0x16; 0x3a; 0x5d; 0x81; 0x31; 0x2c; 0x14].
Definition C_cx_Curve25519_n : list Z :=
  [0x10; 0; 0; 0; 0; 0; 0; 0; 0; 0; 0; 0; 0; 0; 0; 0;
   0x14; 0xde; 0xf9; 0xde; 0xa2; 0xf7; 0x9c; 0xd6; 0x58; 0x12; 0x63; 0x1a; 0x5c; 0xf5; 0xd3; 0xed].
Definition C_cx_Curve25519_Hn : list Z :=
  [0x03; 0x99; 0x41; 0x1b; 0x7c; 0x30; 0x9a; 0x3d; 0xce; 0xec; 0x73; 0xd2; 0x17; 0xf5; 0xbe; 0x65;
   0xd0; 0x0e; 0x1b; 0xa7; 0x68; 0x85; 0x93; 0x47; 0xa4; 0x06; 0x11; 0xe3; 0x44; 0x9c; 0x0f; 0x01].
Definition C_cx_Curve25519_h : list Z := C_cofactor_8.

Definition C_cx_Curve25519 : cx_curve_domain_t := {|
  dom_curve := CX_CURVE_Curve25519; dom_bit_size := 256; dom_length := 32;
  dom_a := C_cx_Curve25519_a; dom_b := C_cx_Curve25519_b; dom_p := C_cx_Curve25519_p; dom_Gx := C_cx_Curve25519_Gx; dom_Gy := C_cx_Curve25519_Gy;
  dom_n := C_cx_Curve25519_n; dom_h := C_cx_Curve25519_h; dom_Hn := C_cx_Curve25519_Hn; dom_Hp := C_cx_Curve25519_Hp |}.

Definition C_cx_Curve448_a : list Z :=
  [0; 0; 0; 0; 0; 0; 0; 0; 0; 0; 0; 0; 0; 0; 0; 0;
   0; 0; 0; 0; 0; 0; 0; 0; 0; 0; 0; 0; 0; 0; 0; 0;
   0; 0; 0; 0; 0; 0; 0; 0; 0; 0; 0; 0; 0; 0; 0; 0;
   0; 0; 0; 0; 0; 0x02; 0x62; 0xa6].
Definition C_cx_Curve448_b : list Z :=
  [0; 0; 0; 0; 0; 0; 0; 0; 0; 0; 0; 0; 0; 0; 0; 0;
   0; 0; 0; 0; 0; 0; 0; 0; 0; 0; 0; 0; 0; 0; 0; 0;
   0; 0; 0; 0; 0; 0; 0; 0; 0; 0; 0; 0; 0; 0; 0; 0;
   0; 0; 0; 0; 0; 0; 0; 0x01].
Definition C_cx_Curve448_p : list Z :=
  [0xff; 0xff; 0xff; 0xff; 0xff; 0xff; 0xff; 0xff; 0xff; 0xff; 0xff; 0xff; 0xff; 0xff; 0xff; 0xff;
   0xff; 0xff; 0xff; 0xff; 0xff; 0xff; 0xff; 0xff; 0xff; 0xff; 0xff; 0xfe; 0xff; 0xff; 0xff; 0xff;
   0xff; 0xff; 0xff; 0xff; 0xff; 0xff; 0xff; 0xff; 0xff; 0xff; 0xff; 0xff; 0xff; 0xff; 0xff; 0xff;
   0xff; 0xff; 0xff; 0xff; 0xff; 0xff; 0xff; 0xff].
Definition C_cx_Curve448_Hp : list Z :=
  [0; 0; 0; 0; 0; 0; 0; 0; 0; 0; 0; 0x03; 0; 0; 0; 0;
   0; 0; 0; 0; 0; 0; 0; 0; 0; 0; 0; 0; 0; 0; 0; 0;
   0; 0; 0; 0; 0; 0; 0; 0x02; 0; 0; 0; 0; 0; 0; 0; 0;
   0; 0; 0; 0; 0; 0; 0; 0].
Definition C_cx_Curve448_Gx : list Z :=
  [0; 0; 0; 0; 0; 0; 0; 0; 0; 0; 0; 0; 0; 0; 0; 0;
   0; 0; 0; 0; 0; 0; 0; 0; 0; 0; 0; 0; 0; 0; 0; 0;
   0; 0; 0; 0; 0; 0; 0; 0; 0; 0; 0; 0; 0; 0; 0; 0;
   0; 0; 0; 0; 0; 0; 0; 0x05].
Definition C_cx_Curve448_Gy : list Z :=
  [0x7d; 0x23; 0x5d; 0x12; 0x95; 0xf5; 0xb1; 0xf6; 0x6c; 0x98; 0xab; 0x6e; 0x58; 0x32; 0x6f; 0xce;
   0xcb; 0xae; 0x5d; 0x34; 0xf5; 0x55; 0x45; 0xd0; 0x60; 0xf7; 0x5d; 0xc2; 0x8d; 0xf3; 0xf6; 0xed;
   0xb8; 0x02; 0x7e; 0x23; 0x46; 0x43; 0x0d; 0x21; 0x13; 0x12; 0xc4; 0xb1; 0x50; 0x67; 0x7a; 0xf7;
   0x6f; 0xd7; 0x22; 0x3d; 0x45; 0x7b; 0x5b; 0x1a].
Definition C_cx_Curve448_n : list Z :=
  [0x3f; 0xff; 0xff; 0xff; 0xff; 0xff; 0xff; 0xff; 0xff; 0xff; 0xff; 0xff; 0xff; 0xff; 0xff; 0xff;
   0xff; 0xff; 0xff; 0xff; 0xff; 0xff; 0xff; 0xff; 0xff; 0xff; 0xff; 0xff; 0x7c; 0xca; 0x23; 0xe9;
   0xc4; 0x4e; 0xdb; 0x49; 0xae; 0xd6; 0x36; 0x90; 0x21; 0x6c; 0xc2; 0x72; 0x8d; 0xc5; 0x8f; 0x55;
   0x23; 0x78; 0xc2; 0x92; 0xab; 0x58; 0x44; 0xf3].
Definition C_cx_Curve448_Hn : list Z :=
  [0x1a; 0x9c; 0xc1; 0x4b; 0xa3; 0xc4; 0x7c; 0x44; 0xae; 0x17; 0xcf; 0x72; 0xc9; 0x86; 0x0f; 0xaa;
   0x10; 0x75; 0x50; 0xba; 0x94; 0xd0; 0xe8; 0x08; 0xf1; 0x0a; 0x98; 0xef; 0x88; 0xe1; 0x5b; 0xb4;
   0x8b; 0xd8; 0x27; 0xde; 0x12; 0x7c; 0xe5; 0xf2; 0x3e; 0x0a; 0xa6; 0x8d; 0x30; 0xdb; 0xb9; 0x89;
   0xbb; 0xec; 0xff; 0xc3; 0x3c; 0x3a; 0x37; 0x8c].
Definition C_cx_Curve448_h : list Z := C_cofactor_4.

Definition C_cx_Curve448 : cx_curve_domain_t := {|
  dom_curve := CX_CURVE_Curve448; dom_bit_size := 448; dom_length := 56;
  dom_a := C_cx_Curve448_a; dom_b := C_cx_Curve448_b; dom_p := C_cx_Curve448_p; dom_Gx := C_cx_Curve448_Gx; dom_Gy := C_cx_Curve448_Gy;
  dom_n := C_cx_Curve448_n; dom_h := C_cx_Curve448_h; dom_Hn := C_cx_Curve448_Hn; dom_Hp := C_cx_Curve448_Hp |}.

(** [C_cx_allCurves]. *)
Definition C_cx_allCurves : list cx_curve_domain_t :=
  [C_cx_secp256k1; C_cx_secp256r1; C_cx_secp384r1; C_cx_secp521r1;
   C_cx_BrainpoolP256r1; C_cx_BrainpoolP256t1; C_cx_BrainpoolP320r1; C_cx_BrainpoolP320t1;
   C_cx_BrainpoolP384r1; C_cx_BrainpoolP384t1; C_cx_BrainpoolP512r1; C_cx_BrainpoolP512t1;
   C_cx_Stark256; C_cx_BLS12_381_G1; C_cx_BLS12_377_G1; C_cx_Pallas;
   C_cx_Vesta; C_cx_Ed25519; C_cx_Ed448; C_cx_EdBLS12;
   C_cx_Jubjub; C_cx_Curve25519; C_cx_Curve448].
