(* ===== verification/CxEcDomain.v ===== *)
(** The domains of the curves: the functions of [src/bolos/cx_ec_domain.c] over
    the constants of CxEcTables.v. The theorems say that the constants are
    those of curves with their generators, and that the system calls give
    them out; they are what the computations on points rely on. *)

From S2P Require Import Prelude CxUtils OpensslBn BeBytes CxMpi CxBn CxEcTables.

(** * Operations *)

Definition CX_EC_INFINITE_POINT : Z := 0xFFFFFF41.
Definition CX_EC_INVALID_POINT : Z := 0xFFFFFFA2.
Definition CX_EC_INVALID_CURVE : Z := 0xFFFFFFA3.

(** [CX_CURVE_RANGE] for the three types of curves. *)
Definition curve_range (i start end_ : Z) : bool := (start <? i) && (i <? end_).
Definition is_weierstrass (c : Z) : bool := curve_range c CX_CURVE_WEIERSTRASS_START CX_CURVE_WEIERSTRASS_END.
Definition is_twisted_edwards (c : Z) : bool := curve_range c CX_CURVE_TWISTED_EDWARDS_START CX_CURVE_TWISTED_EDWARDS_END.
Definition is_montgomery (c : Z) : bool := curve_range c CX_CURVE_MONTGOMERY_START CX_CURVE_MONTGOMERY_END.

Definition cx_ecdomain (curve : Z) : option cx_curve_domain_t :=
  find (fun d => dom_curve d =? curve) C_cx_allCurves.

(** The error and [*length]. *)
Definition sys_cx_ecdomain_parameters_length (curve : Z) : Z * option Z :=
  match cx_ecdomain curve with
  | None => (CX_EC_INVALID_CURVE, None)
  | Some domain => (CX_OK, Some (dom_length domain))
  end.

Definition sys_cx_ecdomain_size (curve : Z) : Z * option Z :=
  match cx_ecdomain curve with
  | None => (CX_EC_INVALID_CURVE, None)
  | Some domain => (CX_OK, Some (dom_bit_size domain))
  end.

Definition CX_CURVE_PARAM_A : Z := 1.
Definition CX_CURVE_PARAM_B : Z := 2.
Definition CX_CURVE_PARAM_Field : Z := 3.
Definition CX_CURVE_PARAM_Gx : Z := 4.
Definition CX_CURVE_PARAM_Gy : Z := 5.
Definition CX_CURVE_PARAM_Order : Z := 6.
Definition CX_CURVE_PARAM_Cofactor : Z := 7.

Definition sys_cx_ecdomain_param_ptr (domain : cx_curve_domain_t) (id : Z) : option (list Z) :=
  if id =? CX_CURVE_PARAM_A then Some (dom_a domain)
  else if id =? CX_CURVE_PARAM_B then Some (dom_b domain)
  else if id =? CX_CURVE_PARAM_Field then Some (dom_p domain)
  else if id =? CX_CURVE_PARAM_Gx then Some (dom_Gx domain)
  else if id =? CX_CURVE_PARAM_Gy then Some (dom_Gy domain)
  else if id =? CX_CURVE_PARAM_Order then Some (dom_n domain)
  else if id =? CX_CURVE_PARAM_Cofactor then Some (dom_h domain)
  else None.

(** [memmove(p, ptr, n)]. *)
Definition memmove_from (p ptr : list Z) (n : Z) : option (list Z) := b ← read_at ptr 0 n; write_at p 0 b.

(** The error and the buffer at [p]; [None] for an access out of a buffer. *)
Definition sys_cx_ecdomain_parameter (curve id : Z) (p : list Z) (p_len : Z) : option (Z * list Z) :=
  match cx_ecdomain curve with
  | None => Some (CX_EC_INVALID_CURVE, p)
  | Some domain =>
      match sys_cx_ecdomain_param_ptr domain id with
      | None => Some (CX_INVALID_PARAMETER, p)
      | Some ptr =>
          if p_len <? dom_length domain then Some (CX_INVALID_PARAMETER, p)
          else p ← memmove_from p ptr (if id =? CX_CURVE_PARAM_Cofactor then 4 else dom_length domain); Some (CX_OK, p)
      end
  end.

Definition sys_cx_ecdomain_generator (curve : Z) (Gx Gy : list Z) (len : Z) : option (Z * list Z * list Z) :=
  match cx_ecdomain curve with
  | None => Some (CX_EC_INVALID_CURVE, Gx, Gy)
  | Some domain =>
      if len <? dom_length domain then Some (CX_INVALID_PARAMETER, Gx, Gy)
      else
        Gx ← memmove_from Gx (dom_Gx domain) (dom_length domain);
        Gy ← memmove_from Gy (dom_Gy domain) (dom_length domain);
        Some (CX_OK, Gx, Gy)
  end.

(** The numbers that OpenSSL gives to the curves that it knows. *)
Inductive curve_nid :=
| NID_undef | NID_secp256k1 | NID_X9_62_prime256v1 | NID_secp384r1 | NID_secp521r1 | NID_ED25519
| NID_brainpoolP256r1 | NID_brainpoolP256t1 | NID_brainpoolP320r1 | NID_brainpoolP320t1
| NID_brainpoolP384r1 | NID_brainpoolP384t1 | NID_brainpoolP512r1 | NID_brainpoolP512t1.

(** [None] when the process exits with a message. *)
Definition cx_nid_from_curve (curve : Z) : option curve_nid :=
  if curve =? CX_CURVE_SECP256K1 then Some NID_secp256k1
  else if curve =? CX_CURVE_SECP256R1 then Some NID_X9_62_prime256v1
  else if curve =? CX_CURVE_SECP384R1 then Some NID_secp384r1
  else if curve =? CX_CURVE_Ed25519 then Some NID_ED25519
  else if curve =? CX_CURVE_BrainPoolP256R1 then Some NID_brainpoolP256r1
  else if curve =? CX_CURVE_BrainPoolP256T1 then Some NID_brainpoolP256t1
  else if curve =? CX_CURVE_BrainPoolP320R1 then Some NID_brainpoolP320r1
  else if curve =? CX_CURVE_BrainPoolP320T1 then Some NID_brainpoolP320t1
  else if curve =? CX_CURVE_BrainPoolP384R1 then Some NID_brainpoolP384r1
  else if curve =? CX_CURVE_BrainPoolP384T1 then Some NID_brainpoolP384t1
  else if curve =? CX_CURVE_BrainPoolP512R1 then Some NID_brainpoolP512r1
  else if curve =? CX_CURVE_BrainPoolP512T1 then Some NID_brainpoolP512t1
  else if curve =? CX_CURVE_Stark256 then Some NID_undef
  else if curve =? CX_CURVE_BLS12_381_G1 then Some NID_undef
  else if curve =? CX_CURVE_BLS12_377_G1 then Some NID_undef
  else if curve =? CX_CURVE_SECP521R1 then Some NID_secp521r1
  else if curve =? CX_CURVE_EdBLS12 then Some NID_undef
  else if curve =? CX_CURVE_PALLAS then Some NID_undef
  else if curve =? CX_CURVE_VESTA then Some NID_undef
  else if curve =? CX_CURVE_JUBJUB then Some NID_undef
  else None.

(** ** Points *)

(** A point in memory is three handles; [cx_mpi_ecpoint_t] has their numbers. *)
Record cx_ecpoint_t := mk_ecpoint { ec_x : Z; ec_y : Z; ec_z : Z; ec_curve : Z }.
Record cx_mpi_ecpoint_t := mk_mpi_ecpoint { pt_x : nat; pt_y : nat; pt_z : nat; pt_curve : Z }.

Section domain.
Context {E : Type} `{!OpensslBn E}.
Local Abbreviation P := (M (mpi_state E)).

Definition sys_cx_ecdomain_parameter_bn (curve id bn_p : Z) : P Z :=
  match cx_ecdomain curve with
  | None => mret CX_EC_INVALID_CURVE
  | Some domain =>
      with_mpi (cx_bn_to_mpi bn_p) (fun p =>
        match sys_cx_ecdomain_param_ptr domain id with
        | None => mret CX_INVALID_PARAMETER
        | Some ptr =>
            let! b := mlift (read_at ptr 0 (if id =? CX_CURVE_PARAM_Cofactor then 4 else dom_length domain)) in
            do! call_to p (BN_bin2bn b) in mret CX_OK
        end)
  end.

(** [cx_ecpoint.c]: the error and the point. *)
Definition cx_mpi_ecpoint_from_ecpoint (Q : cx_ecpoint_t) : P (Z * cx_mpi_ecpoint_t) :=
  match cx_ecdomain (ec_curve Q) with
  | None => mret (CX_EC_INVALID_CURVE, mk_mpi_ecpoint 0 0 0 0)
  | Some _ =>
      let! (error, (x, y, z)) := cx_bn_rab_to_mpi (ec_x Q) (ec_y Q) (ec_z Q) in
      mret (error, mk_mpi_ecpoint x y z (ec_curve Q))
  end.

Definition sys_cx_ecdomain_generator_bn (curve : Z) (ec_P : cx_ecpoint_t) : P Z :=
  check cx_bn_locked
    match cx_ecdomain curve with
    | None => mret CX_EC_INVALID_CURVE
    | Some domain =>
        if negb (curve =? ec_curve ec_P) then mret CX_EC_INVALID_POINT
        else
          let! (error, P) := cx_mpi_ecpoint_from_ecpoint ec_P in
          if negb (error =? CX_OK) then mret CX_EC_INVALID_POINT
          else
            let! b := mlift (read_at (dom_Gx domain) 0 (dom_length domain)) in
            do! call_to (pt_x P) (BN_bin2bn b) in
            let! b := mlift (read_at (dom_Gy domain) 0 (dom_length domain)) in
            do! call_to (pt_y P) (BN_bin2bn b) in
            do! cx_mpi_set_u32 (pt_z P) 1 in
            mret CX_OK
    end.
End domain.

(** * The curves *)

(** The parameters as numbers. *)
Definition a_of d : Z := be_combine (dom_a d).
Definition b_of d : Z := be_combine (dom_b d).
Definition p_of d : Z := be_combine (dom_p d).
Definition n_of d : Z := be_combine (dom_n d).
Definition Gx_of d : Z := be_combine (dom_Gx d).
Definition Gy_of d : Z := be_combine (dom_Gy d).

(** The first four bytes, all that the code reads. *)
Definition h_of d : Z := be_combine (ztake 4 (dom_h d)).

(** What an affine point of each type of curve verifies: [y^2 = x^3 + a x + b],
    [a x^2 + y^2 = 1 + d x^2 y^2] and [b y^2 = x^3 + a x^2 + x]. *)
Definition equation d (x y : Z) : Z :=
  let a := a_of d in
  let b := b_of d in
  if is_weierstrass (dom_curve d) then y * y - (x * x * x + a * x + b)
  else if is_twisted_edwards (dom_curve d) then a * (x * x) + y * y - (1 + b * (x * x) * (y * y))
  else b * (y * y) - (x * x * x + a * (x * x) + x).

Definition on_curve d (x y : Z) : bool := equation d x y mod p_of d =? 0.

(** The curve has no singular point. *)
Definition smooth d : bool :=
  let a := a_of d in
  let b := b_of d in
  let D := if is_weierstrass (dom_curve d) then 4 * (a * a * a) + 27 * (b * b)
           else if is_twisted_edwards (dom_curve d) then a * b * (a - b) else b * (a * a - 4) in
  negb (D mod p_of d =? 0).

(** The constant of the Montgomery multiplication modulo [m], for numbers in words of 16 bytes. *)
Definition montgomery_constant d (m : Z) : Z := 2 ^ (2 * (128 * ((dom_length d + 15) / 16))) mod m.

(** The theorem of Hasse on the number of points: h n is p + 1 up to the double of the root of p. *)
Definition hasse d : bool :=
  let t := h_of d * n_of d - (p_of d + 1) in t * t <=? 4 * p_of d.

(** The type of the curve, the lengths of its arrays, its constants and its generator. *)
Definition domain_okb d : bool :=
  forallb (fun l => (zlen l =? dom_length d) && forallb (fun b => (0 <=? b) && (b <? 256)) l)
    [dom_a d; dom_b d; dom_p d; dom_Gx d; dom_Gy d; dom_n d; dom_Hn d; dom_Hp d] &&
  (4 <=? zlen (dom_h d)) && forallb (fun b => (0 <=? b) && (b <? 256)) (dom_h d) &&
  (is_weierstrass (dom_curve d) || is_twisted_edwards (dom_curve d) || is_montgomery (dom_curve d)) &&
  Z.odd (p_of d) && Z.odd (n_of d) && (32 <=? dom_length d) && (dom_length d <=? 66) &&
  (p_of d <? 2 ^ dom_bit_size d) && (dom_bit_size d <=? 8 * dom_length d) &&
  (negb (is_weierstrass (dom_curve d)) || (2 ^ (dom_bit_size d - 1) <=? p_of d)) &&
  (2 ^ 250 <? p_of d) && (2 ^ 250 <? n_of d) && forallb (fun v => v <? p_of d) [a_of d; b_of d; Gx_of d; Gy_of d] &&
  on_curve d (Gx_of d) (Gy_of d) && smooth d &&
  (be_combine (dom_Hp d) =? montgomery_constant d (p_of d)).

(** What [domain_okb] decides. *)
Record domain_ok d : Prop := {
  do_arrays : Forall (fun l => zlen l = dom_length d /\ bytes_ok l)
    [dom_a d; dom_b d; dom_p d; dom_Gx d; dom_Gy d; dom_n d; dom_Hn d; dom_Hp d];
  do_cofactor : 4 <= zlen (dom_h d) /\ bytes_ok (dom_h d);
  do_type : is_weierstrass (dom_curve d) || is_twisted_edwards (dom_curve d) || is_montgomery (dom_curve d) = true;
  do_odd : Z.odd (p_of d) = true /\ Z.odd (n_of d) = true;
  do_length : 32 <= dom_length d <= 66;
  do_size : 2 ^ 250 < p_of d < 2 ^ dom_bit_size d /\ dom_bit_size d <= 8 * dom_length d;
  do_exact : is_weierstrass (dom_curve d) = true -> 2 ^ (dom_bit_size d - 1) <= p_of d;
  do_order : 2 ^ 250 < n_of d;
  do_reduced : Forall (fun v => v < p_of d) [a_of d; b_of d; Gx_of d; Gy_of d];
  do_generator : on_curve d (Gx_of d) (Gy_of d) = true;
  do_smooth : smooth d = true;
  do_Hp : be_combine (dom_Hp d) = montgomery_constant d (p_of d) }.

Lemma bytes_okb l : forallb (fun b => (0 <=? b) && (b <? 256)) l = true -> bytes_ok l.
Proof. intros H. apply Forall_forall. intros b Hb%list_elem_of_In. pose proof (proj1 (forallb_forall _ _) H b Hb). unfold is_byte. lia. Qed.

Lemma forallb_Forall {A} (f : A -> bool) (P : A -> Prop) l : (forall x, f x = true -> P x) -> forallb f l = true -> Forall P l.
Proof. intros HP. induction l as [|x l IH]; cbn [forallb]; [by intros|]. intros [Hx Hl]%andb_true_iff. apply Forall_cons; auto. Qed.

Lemma domain_okb_ok d : domain_okb d = true -> domain_ok d.
Proof.
  intros H. unfold domain_okb in H. rewrite !andb_true_iff, !Z.leb_le, !Z.ltb_lt, Z.eqb_eq in H.
  destruct H as ((((((((((((((((Harr & Hh4) & Hh) & Hty) & Hop) & Hon) & Hl1) & Hl2) & Hp) & Hbits) & Hex) & Hp1) & Hn1) & Hred) & Hgen) & Hsm) & HHp).
  split; try assumption; try (split; assumption).
  - revert Harr. apply forallb_Forall. intros l [Hl Hb]%andb_true_iff. split; [by apply Z.eqb_eq|by apply bytes_okb].
  - split; [assumption|by apply bytes_okb].
  - split; [split|]; assumption.
  - intros Hw. rewrite Hw in Hex. cbn [negb orb] in Hex. by apply Z.leb_le.
  - revert Hred. apply forallb_Forall. intros v. apply Z.ltb_lt.
Qed.

(** The curves whose cofactor does not fit in four bytes, and the one with a wrong constant. *)
Definition large_cofactor : list Z := [CX_CURVE_BLS12_381_G1; CX_CURVE_BLS12_377_G1].

Definition constants_okb d : bool :=
  domain_okb d && Bool.eqb (hasse d) (negb (existsb (Z.eqb (dom_curve d)) large_cofactor)) &&
  Bool.eqb (be_combine (dom_Hn d) =? montgomery_constant d (n_of d)) (negb (dom_curve d =? CX_CURVE_EdBLS12)).

Lemma constants_checked : forallb constants_okb C_cx_allCurves = true.
Proof. vm_compute. reflexivity. Qed.

Lemma domain_of d : d ∈ C_cx_allCurves -> domain_ok d.
Proof.
  intros Hd%list_elem_of_In. pose proof (proj1 (forallb_forall _ _) constants_checked d Hd) as H.
  unfold constants_okb in H. apply domain_okb_ok. by destruct (domain_okb d).
Qed.

(** C11: c-domains_ok: every curve of [C_cx_allCurves] has parameters of its length,
    an odd modulus of its number of bits, an equation without singular point
    that its generator verifies, and the constant of Montgomery of its
    modulus; the cofactor times the order is in the interval of Hasse but for
    the two curves whose cofactor does not fit in the four bytes that are read,
    and the constant of Montgomery of the order is right but for one curve. *)
Theorem domains_ok : Forall (fun d => domain_ok d /\ (hasse d = true <-> dom_curve d ∉ large_cofactor) /\
  (be_combine (dom_Hn d) = montgomery_constant d (n_of d) <-> dom_curve d <> CX_CURVE_EdBLS12)) C_cx_allCurves.
Proof.
  apply Forall_forall. intros d Hd. split; [by apply domain_of|]. apply list_elem_of_In in Hd.
  pose proof (proj1 (forallb_forall _ _) constants_checked d Hd) as H. unfold constants_okb in H.
  apply andb_true_iff in H as [H H2%eqb_prop]. apply andb_true_iff in H as [_ H1%eqb_prop]. split.
  - rewrite H1, negb_true_iff, <- not_true_iff_false, existsb_exists. split.
    + intros Hn Hin%list_elem_of_In. apply Hn. exists (dom_curve d). split; [done|by apply Z.eqb_refl].
    + intros Hn (c & Hc & Heq%Z.eqb_eq). apply Hn, list_elem_of_In. by rewrite Heq.
  - rewrite <- Z.eqb_eq, H2, negb_true_iff, Z.eqb_neq. done.
Qed.

(** ** The lookup *)

Lemma curves_distinct : NoDup (map dom_curve C_cx_allCurves).
Proof. apply (bool_decide_eq_true_1 (NoDup (map dom_curve C_cx_allCurves))). vm_compute. reflexivity. Qed.

Lemma find_distinct {A} (f : A -> Z) l d : NoDup (map f l) -> d ∈ l -> find (fun x => f x =? f d) l = Some d.
Proof.
  induction l as [|x l IH]; [by intros _ ?%not_elem_of_nil|]. cbn [map find]. intros [Hx Hl]%NoDup_cons Hd.
  apply elem_of_cons in Hd as [->|Hd]; [by rewrite Z.eqb_refl|]. destruct (Z.eqb_spec (f x) (f d)) as [E|]; [|by apply IH].
  destruct Hx. rewrite E. by apply (list_elem_of_fmap_2 f).
Qed.

Lemma cx_ecdomain_ok c d : cx_ecdomain c = Some d <-> d ∈ C_cx_allCurves /\ dom_curve d = c.
Proof.
  unfold cx_ecdomain. split.
  - intros [H ->%Z.eqb_eq]%find_some. by apply list_elem_of_In in H.
  - intros [Hd <-]. by apply (find_distinct dom_curve), Hd; apply curves_distinct.
Qed.

Lemma ecdomain_ok c d : cx_ecdomain c = Some d -> domain_ok d.
Proof. intros [H _]%cx_ecdomain_ok. by apply domain_of. Qed.

(** ** The calls *)

(** The parameters of a curve by their numbers in [cx_curve_dom_param_t]: the
    coefficients, the modulus, the generator, its order and the four bytes of the cofactor. *)
Definition parameters d : list (Z * list Z) :=
  [(1, dom_a d); (2, dom_b d); (3, dom_p d); (4, dom_Gx d); (5, dom_Gy d); (6, dom_n d); (7, ztake 4 (dom_h d))].

Definition param_bytes d (id : Z) : option (list Z) := snd <$> find (fun p => fst p =? id) (parameters d).

Lemma param_ptr_ok d id ptr : domain_ok d -> sys_cx_ecdomain_param_ptr d id = Some ptr ->
  bytes_ok ptr /\ if id =? CX_CURVE_PARAM_Cofactor then ptr = dom_h d else zlen ptr = dom_length d.
Proof.
  intros [Ha [_ Hh] _ _ _ _ _ _ _ _ _ _]. rewrite !Forall_cons in Ha.
  destruct Ha as ([La Ba] & [Lb Bb] & [Lp Bp] & [Lx Bx] & [Ly By] & [Ln Bn] & _).
  unfold sys_cx_ecdomain_param_ptr. intros H.
  repeat match type of H with (if ?id =? ?k then _ else _) = _ => destruct (Z.eqb_spec id k) as [->|]; [by injection H as <-|] end.
  done.
Qed.

Lemma param_bytes_ptr d id :
  param_bytes d id = (if id =? CX_CURVE_PARAM_Cofactor then ztake 4 else fun l => l) <$> sys_cx_ecdomain_param_ptr d id.
Proof.
  unfold param_bytes, parameters, sys_cx_ecdomain_param_ptr. cbn [find fst]. rewrite !(Z.eqb_sym _ id).
  unfold CX_CURVE_PARAM_A, CX_CURVE_PARAM_B, CX_CURVE_PARAM_Field, CX_CURVE_PARAM_Gx, CX_CURVE_PARAM_Gy, CX_CURVE_PARAM_Order,
    CX_CURVE_PARAM_Cofactor.
  repeat match goal with |- context [if id =? ?k then _ else _] => destruct (Z.eqb_spec id k) as [->|]; [done|] end. done.
Qed.

Lemma param_read d id ptr : domain_ok d -> sys_cx_ecdomain_param_ptr d id = Some ptr -> exists b,
  read_at ptr 0 (if id =? CX_CURVE_PARAM_Cofactor then 4 else dom_length d) = Some b /\ param_bytes d id = Some b /\
  bytes_ok b /\ zlen b = if id =? CX_CURVE_PARAM_Cofactor then 4 else dom_length d.
Proof.
  intros Hd Hp. destruct (param_ptr_ok d id ptr Hd Hp) as [Hb Hl]. rewrite param_bytes_ptr, Hp. cbn [fmap option_fmap option_map].
  destruct (id =? CX_CURVE_PARAM_Cofactor).
  - subst ptr. destruct (do_cofactor _ Hd) as [H4 _]. exists (ztake 4 (dom_h d)). rewrite read_at_ok, zdrop_0 by lia.
    split_and!; [done|done|by apply Forall_take|]. rewrite zlen_ztake; lia.
  - exists ptr. rewrite <- Hl, read_at_all. done.
Qed.

Lemma memmove_ok p ptr n b : read_at ptr 0 n = Some b -> n <= zlen p -> memmove_from p ptr n = Some (b ++ zdrop n p).
Proof.
  intros Hr Hn. unfold memmove_from. rewrite Hr. cbn [option_bind base.mbind]. pose proof (read_at_length _ _ _ _ Hr) as Hl.
  pose proof (zlen_nonneg b). rewrite write_at_ok by lia. by rewrite ztake_0, Z.add_0_l, Hl.
Qed.

(** C30: c-ecdomain_calls: on a buffer of the announced length, the system calls give
    the bytes of the parameter that has the number and leave the rest of the buffer, refuse an
    unknown curve, an unknown parameter or a buffer that is shorter than the
    numbers of the curve, the one of the cofactor too, and never read or
    write out of an array. *)
Theorem ecdomain_calls curve id p Gx Gy len : 0 <= len <= zlen p -> len <= zlen Gx -> len <= zlen Gy ->
  let out b p := b ++ zdrop (zlen b) p in
  sys_cx_ecdomain_parameter curve id p len =
    Some (match cx_ecdomain curve with
          | None => (CX_EC_INVALID_CURVE, p)
          | Some d => match param_bytes d id with
                      | Some b => if dom_length d <=? len then (CX_OK, out b p) else (CX_INVALID_PARAMETER, p)
                      | None => (CX_INVALID_PARAMETER, p)
                      end
          end) /\
  sys_cx_ecdomain_generator curve Gx Gy len =
    Some (match cx_ecdomain curve with
          | None => (CX_EC_INVALID_CURVE, Gx, Gy)
          | Some d => if dom_length d <=? len then (CX_OK, out (dom_Gx d) Gx, out (dom_Gy d) Gy)
                      else (CX_INVALID_PARAMETER, Gx, Gy)
          end) /\
  (forall d, cx_ecdomain curve = Some d <-> d ∈ C_cx_allCurves /\ dom_curve d = curve) /\
  (forall d, cx_ecdomain curve = Some d -> sys_cx_ecdomain_parameters_length curve = (CX_OK, Some (dom_length d)) /\
    on_curve d (be_combine (dom_Gx d)) (be_combine (dom_Gy d)) = true).
Proof.
  intros Hp Hx Hy out. pose proof (cx_ecdomain_ok curve) as Hfind.
  unfold sys_cx_ecdomain_parameter, sys_cx_ecdomain_generator, sys_cx_ecdomain_parameters_length.
  destruct (cx_ecdomain curve) as [d|] eqn:Ed; [|done]. pose proof (ecdomain_ok _ _ Ed) as Hd. pose proof (do_length _ Hd).
  split_and!.
  - destruct (sys_cx_ecdomain_param_ptr d id) as [ptr|] eqn:Ep.
    2: { by rewrite param_bytes_ptr, Ep. }
    destruct (param_read d id ptr Hd Ep) as (b & Hr & -> & _ & Hl).
    rewrite Z.leb_antisym. destruct (Z.ltb_spec len (dom_length d)); cbn [negb]; [done|].
    rewrite (memmove_ok _ _ _ _ Hr) by (destruct (id =? _); lia). cbn [option_bind base.mbind]. unfold out. by rewrite Hl.
  - rewrite Z.leb_antisym. destruct (Z.ltb_spec len (dom_length d)); cbn [negb]; [done|].
    destruct (param_read d CX_CURVE_PARAM_Gx (dom_Gx d) Hd eq_refl) as (b & Hr & [= <-] & _ & Hl).
    destruct (param_read d CX_CURVE_PARAM_Gy (dom_Gy d) Hd eq_refl) as (b & Hr' & [= <-] & _ & Hl').
    cbn [Z.eqb Pos.eqb CX_CURVE_PARAM_Gx CX_CURVE_PARAM_Gy CX_CURVE_PARAM_Cofactor] in *.
    rewrite (memmove_ok _ _ _ _ Hr), (memmove_ok _ _ _ _ Hr') by lia. cbn [option_bind base.mbind]. unfold out. by rewrite Hl, Hl'.
  - intros d'. rewrite <- Hfind. done.
  - intros d' [= <-]. split; [done|]. apply (do_generator _ Hd).
Qed.

(** The process exits on the curves whose points OpenSSL and
    the generic curves do not take: Ed448 and the curves of Montgomery. *)
Lemma nid_from_curve : Forall (fun d => cx_nid_from_curve (dom_curve d) = None <->
  dom_curve d = CX_CURVE_Ed448 \/ is_montgomery (dom_curve d) = true) C_cx_allCurves.
Proof.
  unfold C_cx_allCurves. repeat (apply Forall_cons; split); [..|apply Forall_nil_2];
    (split; [intros H; try discriminate H; (by left) || (by right)|intros [H|H]; try discriminate H; reflexivity]).
Qed.

Lemma ecdomain_calls_witness :
  sys_cx_ecdomain_parameter CX_CURVE_SECP256K1 CX_CURVE_PARAM_Cofactor (replicate 33 0xaa) 33
    = Some (CX_OK, [0; 0; 0; 1] ++ replicate 29 0xaa) /\
  sys_cx_ecdomain_parameter CX_CURVE_SECP256K1 CX_CURVE_PARAM_Cofactor (replicate 31 0xaa) 31
    = Some (CX_INVALID_PARAMETER, replicate 31 0xaa).
Proof.
  split.
  - rewrite (proj1 (ecdomain_calls CX_CURVE_SECP256K1 CX_CURVE_PARAM_Cofactor (replicate 33 0xaa) (replicate 33 0) (replicate 33 0) 33
      ltac:(by vm_compute) ltac:(by vm_compute) ltac:(by vm_compute))). reflexivity.
  - rewrite (proj1 (ecdomain_calls CX_CURVE_SECP256K1 CX_CURVE_PARAM_Cofactor (replicate 31 0xaa) (replicate 31 0) (replicate 31 0) 31
      ltac:(by vm_compute) ltac:(by vm_compute) ltac:(by vm_compute))). reflexivity.
Defined.
