(* ===== verification/CxEcCurves.v ===== *)
(** Computations on the curves with the numbers of a context:
    [src/bolos/cx_weierstrass.c], the parts of [cx_twisted_edwards.c] and
    [cx_montgomery.c] that solve the equation of a curve for one of the
    coordinates or check it, and the normalisation of [cx_ecpoint.c]. *)

From Stdlib Require Import Zdivisibility.
From S2P Require Import Prelude CxUtils OpensslBn BeBytes ModArith CxMpi CxBn MpiSlots CxEcTables CxEcDomain.

(** * Operations *)

Section curves.
Context {E : Type} `{!OpensslBn E}.
Local Abbreviation P := (M (mpi_state E)).

(** The end of the three functions: [y] is the root of [sq] of the parity of [sign]. *)
Definition recover_root (y sq p : nat) (sign : Z) : P Z :=
  let! c := cx_mpi_cmp_u32 sq 0 in
  let! refused := (if c =? 0 then do! cx_mpi_set_u32 y 0 in mret (truthy sign) else mret false) in
  if refused : bool then mret CX_INVALID_PARAMETER else cx_mpi_mod_sqrt y sq p sign.

(** [cx_weierstrass.c]. *)
Definition cx_weierstrass_recover_y (A : cx_mpi_ecpoint_t) (sign : Z) : P Z :=
  match cx_ecdomain (pt_curve A) with
  | None => mret CX_INVALID_PARAMETER
  | Some domain =>
      let sz := dom_length domain in
      with_numbers CX_MEMORY_FULL true sz (dom_p domain) 3 (@rev Z) (fun p xs =>
        match xs with
        | [sqy; t1; t2] =>
            do! cx_mpi_init sqy (dom_b domain) sz in
            do! cx_mpi_init t1 (dom_a domain) sz in
            do! cx_mpi_mod_mul t2 t1 (pt_x A) p in
            do! cx_mpi_mod_add sqy sqy t2 p in
            do! cx_mpi_mod_mul t1 (pt_x A) (pt_x A) p in
            do! cx_mpi_mod_mul t2 t1 (pt_x A) p in
            do! cx_mpi_mod_add sqy sqy t2 p in
            recover_root (pt_y A) sqy p sign
        | _ => mfault
        end)
  end.

(** [cx_twisted_edwards.c]. *)
Definition cx_twisted_edwards_recover_x (A : cx_mpi_ecpoint_t) (sign : Z) : P Z :=
  match cx_ecdomain (pt_curve A) with
  | None => mret CX_INVALID_PARAMETER
  | Some domain =>
      let sz := dom_length domain in
      with_numbers CX_MEMORY_FULL true sz (dom_p domain) 3 (@rev Z) (fun p xs =>
        match xs with
        | [t1; t2; t3] =>
            do! cx_mpi_mod_mul t3 (pt_y A) (pt_y A) p in
            do! cx_mpi_init t1 (dom_b domain) sz in
            do! cx_mpi_mod_mul t2 t3 t1 p in
            do! cx_mpi_init t1 (dom_a domain) sz in
            do! cx_mpi_mod_sub t2 t2 t1 p in
            do! cx_mpi_mod_invert_nprime t1 t2 p in
            do! cx_mpi_mod_mul t3 (pt_y A) (pt_y A) p in
            do! cx_mpi_set_u32 t2 1 in
            do! cx_mpi_mod_sub t2 t3 t2 p in
            do! cx_mpi_mod_mul t3 t2 t1 p in
            recover_root (pt_x A) t3 p sign
        | _ => mfault
        end)
  end.

(** [cx_montgomery.c]. *)
Definition cx_montgomery_recover_y (A : cx_mpi_ecpoint_t) (sign : Z) : P Z :=
  match cx_ecdomain (pt_curve A) with
  | None => mret CX_INVALID_PARAMETER
  | Some domain =>
      let sz := dom_length domain in
      with_numbers CX_MEMORY_FULL true sz (dom_p domain) 4 (@rev Z) (fun p xs =>
        match xs with
        | [sqy; t1; t2; t3] =>
            do! cx_mpi_init sqy (dom_b domain) sz in
            do! cx_mpi_mod_invert_nprime t3 sqy p in
            do! cx_mpi_mod_mul t2 (pt_x A) (pt_x A) p in
            do! cx_mpi_init t1 (dom_a domain) sz in
            do! cx_mpi_mod_mul sqy t1 t2 p in
            do! cx_mpi_mod_add sqy sqy (pt_x A) p in
            do! cx_mpi_mod_mul t1 t2 (pt_x A) p in
            do! cx_mpi_mod_add t2 sqy t1 p in
            do! cx_mpi_mod_mul sqy t2 t3 p in
            recover_root (pt_y A) sqy p sign
        | _ => mfault
        end)
  end.

(** The error, and [*is_on_curve] when it is written. *)
Definition cx_montgomery_is_point_on_curve (A : cx_mpi_ecpoint_t) : P (Z * option bool) :=
  match cx_ecdomain (pt_curve A) with
  | None => mret (CX_INVALID_PARAMETER, None)
  | Some domain =>
      let! c := cx_mpi_cmp_u32 (pt_z A) 0 in
      if c =? 0 then mret (CX_EC_INFINITE_POINT, None)
      else
        let sz := dom_length domain in
        with_numbers (CX_MEMORY_FULL, None) true sz (dom_p domain) 7 (fun bns => bns) (fun n xs =>
          match xs with
          | [a; b; x; y; r1; r2; r3] =>
              let! error :=
                check (cx_mpi_init a (dom_a domain) sz) (
                check (cx_mpi_init b (dom_b domain) sz) (
                check (cx_mpi_copy x (pt_x A)) (
                check (cx_mpi_copy y (pt_y A)) (
                check (cx_mpi_mod_mul r1 x x n) (
                check (cx_mpi_mod_mul r2 y y n) (
                check (cx_mpi_mod_mul r3 r2 b n) (
                check (cx_mpi_mod_mul b r1 x n) (
                check (cx_mpi_mod_mul r2 r1 a n) (
                check (cx_mpi_mod_add a r2 x n) (
                check (cx_mpi_mod_add r2 a b n) (
                       cx_mpi_mod_sub a r2 r3 n))))))))))) in
              if truthy error then mret (error, None)
              else let! c := cx_mpi_cmp_u32 a 0 in mret (error, Some (c =? 0))
          | _ => mfault
          end)
  end.

(** [cx_ecpoint.c]: the handles of the temporary numbers are not initialised. *)
Definition cx_mpi_ecpoint_normalize (A : cx_mpi_ecpoint_t) : P Z :=
  match cx_ecdomain (pt_curve A) with
  | None => mret CX_EC_INVALID_CURVE
  | Some domain =>
      let! c := cx_mpi_cmp_u32 (pt_z A) 0 in
      if c =? 0 then
        do! cx_mpi_set_u32 (pt_x A) 0 in
        do! cx_mpi_set_u32 (pt_y A) 1 in
        do! cx_mpi_set_u32 (pt_z A) 0 in
        mret CX_EC_INFINITE_POINT
      else
        let! c := cx_mpi_cmp_u32 (pt_z A) 1 in
        if c =? 0 then mret CX_OK
        else
          let sz := dom_length domain in
          with_numbers CX_MEMORY_FULL false sz (dom_p domain) 3
            (fun bns => match bns with [bp; binvz; b1; b2] => [b1; b2; binvz; bp] | _ => bns end) (fun p xs =>
            match xs with
            | [invz; tmp1; tmp2] =>
                do! cx_mpi_mod_invert_nprime invz (pt_z A) p in
                let! error :=
                  (if is_weierstrass (pt_curve A) then
                     check (cx_mpi_mod_mul tmp1 invz invz p) (
                     check (cx_mpi_mod_mul tmp2 (pt_x A) tmp1 p) (
                     check (cx_mpi_copy (pt_x A) tmp2) (
                     check (cx_mpi_mod_mul (pt_z A) tmp1 invz p) (
                     check (cx_mpi_mod_mul tmp2 (pt_y A) (pt_z A) p) (
                            cx_mpi_copy (pt_y A) tmp2)))))
                   else if is_twisted_edwards (pt_curve A) || is_montgomery (pt_curve A) then
                     check (cx_mpi_mod_mul tmp1 (pt_x A) invz p) (
                     check (cx_mpi_copy (pt_x A) tmp1) (
                     check (cx_mpi_mod_mul tmp1 (pt_y A) invz p) (
                            cx_mpi_copy (pt_y A) tmp1)))
                   else mret CX_EC_INVALID_CURVE) in
                do! (if error =? CX_OK then cx_mpi_set_u32 (pt_z A) 1 else mret tt) in
                mret error
            | _ => mfault
            end)
  end.
End curves.

(** * Proofs *)

(** ** Numbers modulo the field *)

Lemma field_bounds d : domain_ok d -> 2 ^ 250 < p_of d < 2 ^ 528.
Proof.
  intros [_ _ _ _ Hl [[H1 H2] H3] _ _ _ _ _ _]. split; [done|]. apply Z.lt_le_trans with (2 ^ dom_bit_size d); [done|].
  apply Z.pow_le_mono_r; lia.
Qed.

(** What the computations need of the modulus. *)
Lemma field_ok d W : domain_ok d -> word_ok W ->
  0 < p_of d /\ 2 <= p_of d /\ Z.odd (p_of d) = true /\ fits W (p_of d) /\ num_bytes (p_of d) <= dom_length d /\ dom_length d <= 2 ^ 20.
Proof.
  intros Hd HW. pose proof (field_bounds d Hd) as [H1 H2]. pose proof (do_length _ Hd) as Hl.
  destruct (do_odd _ Hd) as [Ho _]. pose proof (do_size _ Hd) as [[_ Hbits] Hb8].
  assert (num_bytes (p_of d) <= dom_length d) as Hnb.
  { apply num_bytes_le; [lia|lia|]. change 256 with (2 ^ 8). rewrite <- Z.pow_mul_r by lia.
    apply Z.lt_le_trans with (2 ^ dom_bit_size d); [done|]. apply Z.pow_le_mono_r; lia. }
  assert (0 < p_of d) by (apply Z.lt_trans with (2 ^ 250); [by vm_compute|done]).
  assert (fits W (p_of d)) as Hf.
  { split; [lia|]. pose proof (nbytes_round W (p_of d) (dom_length d) HW ltac:(lia) Hnb) as Hr.
    destruct HW as [_ HW]. unfold round_to in Hr. unfold MAX_MPI_BYTE_SIZE in *.
    destruct (Z.eqb_spec (dom_length d) 0); [lia|]. pose proof (Z.div_mod (dom_length d + (W - 1)) W ltac:(lia)).
    pose proof (Z.mod_pos_bound (dom_length d + (W - 1)) W ltac:(lia)).
    assert (1 <= (dom_length d + (W - 1)) / W) by (apply Z.div_le_lower_bound; lia).
    destruct (Z.le_gt_cases W 1024); [nia|]. assert ((dom_length d + (W - 1)) / W = 1); [|nia].
    symmetry. apply Z.div_unique with (dom_length d - 1); lia. }
  split_and!; try done; try lia.
Qed.

Lemma small_fits W m n : word_ok W -> fits W m -> 0 <= n < m -> fits W n /\ value_ok n.
Proof. intros HW Hm Hn. assert (fits W n) by (apply (fits_le W n m); [done|lia|done]). split; [done|by apply (fits_value W)]. Qed.

(** ** Roots *)

Section proofs.
Context {E : Type} `{!OpensslBn E, !OpensslLaws E, !OpensslReliable E}.
Implicit Types s : mpi_state E.
Local Abbreviation P := (M (mpi_state E)).

(** The outcome of the search of a root of [sq]: the root of the parity of
    [sign]; a refusal of the root 0 that would be odd; no root, if OpenSSL says so. *)
Definition rooted (sq p sign error y : Z) : Prop :=
  (error = CX_OK /\ (y * y) mod p = sq mod p /\ 0 <= y < p /\ Z.odd y = truthy sign) \/
  (error = CX_INVALID_PARAMETER /\ sq mod p = 0 /\ y = 0 /\ truthy sign = true) \/
  (error = CX_INTERNAL_ERROR /\ exists (e : E) u e', BN_mod_sqrt (sq mod p) p e = (false, u, e')).

Lemma wp_recover_root W h o xs vs s i j n y sqn pn sq p sign (Q : Z -> mpi_state E -> Prop) :
  holds W h o xs vs s -> xs !! i = Some y -> xs !! j = Some sqn -> xs !! n = Some pn ->
  vs !! j = Some (sq mod p) -> vs !! n = Some p -> i <> j -> i <> n -> 0 < p -> Z.odd p = true -> fits W p ->
  (forall error v s, rooted sq p sign error v -> holds W h o xs (<[i := v]> vs) s -> Q error s) ->
  wp (recover_root y sqn pn sign) Q s.
Proof.
  intros Hh Hy Hsq Hp Vsq Vp Hij Hin Hpos Hodd Hfit HQ. unfold recover_root.
  assert (word_ok W) as HW by (by destruct Hh). pose proof (Z.mod_pos_bound sq p Hpos) as Hb.
  destruct (small_fits W p (sq mod p) HW Hfit Hb) as [_ Hval].
  eapply (wp_cmp_u32 _ _ _ _ _ j); [done..|]. unfold sign_of.
  assert (Hroot : forall vs' s', holds W h o xs vs' s' -> vs' !! j = Some (sq mod p) -> vs' !! n = Some p ->
    (forall v, <[i := v]> vs' = <[i := v]> vs) -> (sq mod p = 0 -> truthy sign = false) ->
    wp (cx_mpi_mod_sqrt y sqn pn sign) Q s').
  { intros vs' s' Hh' Vsq' Vp' Hins Hz. apply wp_last.
    eapply (wp_mod_sqrt _ _ _ _ _ i j n y sqn pn (sq mod p) p); [done..|].
    intros error v s2 Hr Hs2. apply wp_ret. rewrite Hins in Hs2. apply (HQ error v); [|done].
    destruct Hr as [[-> (e & u & e' & Hf)]|(Hr & Hv & Ho & ->)]; [right; right; split; [done|by exists e, u, e']|left].
    split; [done|]. split; [by rewrite Hr, Zmod_mod|]. split; [|done].
    destruct (Z.eq_dec v p) as [->|]; [|lia]. exfalso. rewrite Z_mod_mult, Zmod_mod in Hr. rewrite Hodd in Ho. by rewrite Hz in Ho. }
  destruct (Z.ltb_spec (sq mod p) 0); [lia|]. destruct (Z.eqb_spec (sq mod p) 0) as [E0|E0]; cbn [Z.eqb].
  - apply wp_assoc. eapply (wp_set_u32 _ _ _ _ _ i y 0); [done..|]. intros s' Hs'. unfold wp at 1. rewrite mbind_mret.
    destruct (truthy sign) eqn:Esign; cbv iota.
    + change (wp (mret CX_INVALID_PARAMETER) Q s'). apply wp_ret. apply (HQ _ 0); [right; by left|done].
    + change (wp (cx_mpi_mod_sqrt y sqn pn sign) Q s'). eapply Hroot; [done|by rewrite list_lookup_insert_ne|by rewrite list_lookup_insert_ne| |done].
      intros v. by rewrite list_insert_insert_eq.
  - unfold wp at 1. rewrite mbind_mret. change (wp (cx_mpi_mod_sqrt y sqn pn sign) Q s). by eapply Hroot.
Qed.

(** The right-hand side of the equation of a curve, for the coordinate that is solved. *)
Definition weierstrass_rhs d (x : Z) : Z := x * x * x + a_of d * x + b_of d.

Lemma param_reads d : domain_ok d -> let n := dom_length d in
  read_at (dom_a d) 0 n = Some (dom_a d) /\ read_at (dom_b d) 0 n = Some (dom_b d) /\ zlen (dom_p d) = n.
Proof.
  intros [Ha _ _ _ _ _ _ _ _ _ _ _] n. rewrite !Forall_cons in Ha. destruct Ha as ([La _] & [Lb _] & [Lp _] & _).
  unfold n. split_and!; [rewrite <- La|rewrite <- Lb|done]; apply read_at_all.
Qed.

(** The numbers of a point and of the computation. *)
Lemma split_three {A} (l : list A) : length l = 3%nat -> exists a b c, l = [a; b; c].
Proof. destruct l as [|a [|b [|c [|]]]]; try done. intros _. by exists a, b, c. Qed.

Lemma wp_weierstrass_recover_y W h o x y z vx vy vz c d sign s :
  cx_ecdomain c = Some d -> holds W h o [x; y; z] [vx; vy; vz] s -> room 4 W (dom_length d) h ->
  wp (cx_weierstrass_recover_y (mk_mpi_ecpoint x y z c) sign) (fun error s' => exists vy',
    holds W h o [x; y; z] [vx; vy'; vz] s' /\ rooted (weierstrass_rhs d vx) (p_of d) sign error vy') s.
Proof.
  intros Hc Hh Hroom. pose proof (ecdomain_ok _ _ Hc) as Hd. assert (word_ok W) as HW by (by destruct Hh).
  destruct (field_ok d W Hd HW) as (Hpos & _ & Hodd & Hfit & _ & Hlen). destruct (param_reads d Hd) as (Ra & Rb & Lp).
  pose proof (do_length _ Hd). unfold cx_weierstrass_recover_y. cbn [pt_curve pt_x pt_y]. rewrite Hc. cbv zeta.
  eapply wp_mono; [eapply (wp_with_numbers _ _ _ _ _ _ _ _ _ _ 3 _ _ (fun error vs => exists vy', vs = [vx; vy'; vz] /\
    rooted (weierstrass_rhs d vx) (p_of d) sign error vy')); [exact Hh|lia|exact Lp|exact Hroom|apply rev_order|]|].
  - intros p xs h' s' Hxs _ Hs'. destruct (split_three _ Hxs) as (sqy & t1 & t2 & ->). cbn [app replicate] in Hs'. fold (p_of d) in Hs'.
    repeat mpi_step. fold (a_of d) (b_of d) in Hs'.
    eapply (wp_recover_root _ _ _ _ _ _ 1 4 3 _ _ _ (weierstrass_rhs d vx)); [exact Hs'|reflexivity..| |reflexivity|lia|lia|done|done|done|].
    + cbn. f_equal. unfold weierstrass_rhs. mod_ring.
    + intros error v s2 Hr Hs2. cbn in Hs2. eexists [vx; v; vz], _. split; [done|]. split; [exact Hs2|]. by exists v.
  - intros error s' (vs & Hs' & vy' & -> & Hr). by exists vy'.
Qed.

Lemma split_four {A} (l : list A) : length l = 4%nat -> exists a b c d, l = [a; b; c; d].
Proof. destruct l as [|a [|b [|c [|d [|]]]]]; try done. intros _. by exists a, b, c, d. Qed.

(** [x^2 = (y^2 - 1) / (d y^2 - a)]. *)
Definition edwards_rhs d (y : Z) : Z := (y * y - 1) * inverse (p_of d) (y * y * b_of d - a_of d).

Lemma wp_twisted_edwards_recover_x W h o x y z vx vy vz c d sign s :
  cx_ecdomain c = Some d -> holds W h o [x; y; z] [vx; vy; vz] s -> room 5 W (dom_length d) h ->
  wp (cx_twisted_edwards_recover_x (mk_mpi_ecpoint x y z c) sign) (fun error s' => exists vx',
    holds W h o [x; y; z] [vx'; vy; vz] s' /\ rooted (edwards_rhs d vy) (p_of d) sign error vx') s.
Proof.
  intros Hc Hh Hroom. pose proof (ecdomain_ok _ _ Hc) as Hd. assert (word_ok W) as HW by (by destruct Hh).
  destruct (field_ok d W Hd HW) as (Hpos & Hp2 & Hodd & Hfit & Hnb & Hlen). destruct (param_reads d Hd) as (Ra & Rb & Lp).
  pose proof (do_length _ Hd). unfold cx_twisted_edwards_recover_x. cbn [pt_curve pt_x pt_y]. rewrite Hc. cbv zeta.
  eapply wp_mono; [eapply (wp_with_numbers _ _ _ _ _ _ _ _ _ _ 3 _ _ (fun error vs => exists vx', vs = [vx'; vy; vz] /\
    rooted (edwards_rhs d vy) (p_of d) sign error vx')); [exact Hh|lia|exact Lp|apply (room_less 5); [lia|done|lia|done]|apply rev_order|]|].
  - intros p xs h' s' Hxs Hroom' Hs'. specialize (Hroom' 1%nat Hroom). destruct (split_three _ Hxs) as (t1 & t2 & t3 & ->).
    cbn [app replicate] in Hs'. fold (p_of d) in Hs'. repeat mpi_step. fold (a_of d) (b_of d) in Hs'.
    eapply (wp_recover_root _ _ _ _ _ _ 0 6 3 _ _ _ (edwards_rhs d vy)); [exact Hs'|reflexivity..| |reflexivity|lia|lia|done|done|done|].
    + cbn. f_equal. unfold edwards_rhs, inverse. mod_ring.
    + intros error v s2 Hr Hs2. cbn in Hs2. eexists [v; vy; vz], _. split; [done|]. split; [exact Hs2|]. by exists v.
  - intros error s' (vs & Hs' & vx' & -> & Hr). by exists vx'.
Qed.

(** [y^2 = (x^3 + a x^2 + x) / b]. *)
Definition montgomery_rhs d (x : Z) : Z := (x * x * x + a_of d * (x * x) + x) * inverse (p_of d) (b_of d).

Lemma wp_montgomery_recover_y W h o x y z vx vy vz c d sign s :
  cx_ecdomain c = Some d -> holds W h o [x; y; z] [vx; vy; vz] s -> room 6 W (dom_length d) h ->
  wp (cx_montgomery_recover_y (mk_mpi_ecpoint x y z c) sign) (fun error s' => exists vy',
    holds W h o [x; y; z] [vx; vy'; vz] s' /\ rooted (montgomery_rhs d vx) (p_of d) sign error vy') s.
Proof.
  intros Hc Hh Hroom. pose proof (ecdomain_ok _ _ Hc) as Hd. assert (word_ok W) as HW by (by destruct Hh).
  destruct (field_ok d W Hd HW) as (Hpos & Hp2 & Hodd & Hfit & Hnb & Hlen). destruct (param_reads d Hd) as (Ra & Rb & Lp).
  pose proof (do_length _ Hd). unfold cx_montgomery_recover_y. cbn [pt_curve pt_x pt_y]. rewrite Hc. cbv zeta.
  eapply wp_mono; [eapply (wp_with_numbers _ _ _ _ _ _ _ _ _ _ 4 _ _ (fun error vs => exists vy', vs = [vx; vy'; vz] /\
    rooted (montgomery_rhs d vx) (p_of d) sign error vy')); [exact Hh|lia|exact Lp|apply (room_less 6); [lia|done|lia|done]|apply rev_order|]|].
  - intros p xs h' s' Hxs Hroom' Hs'. specialize (Hroom' 1%nat Hroom). destruct (split_four _ Hxs) as (sqy & t1 & t2 & t3 & ->).
    cbn [app replicate] in Hs'. fold (p_of d) in Hs'. repeat mpi_step. fold (a_of d) (b_of d) in Hs'.
    eapply (wp_recover_root _ _ _ _ _ _ 1 4 3 _ _ _ (montgomery_rhs d vx)); [exact Hs'|reflexivity..| |reflexivity|lia|lia|done|done|done|].
    + cbn. f_equal. unfold montgomery_rhs, inverse. mod_ring.
    + intros error v s2 Hr Hs2. cbn in Hs2. eexists [vx; v; vz], _. split; [done|]. split; [exact Hs2|]. by exists v.
  - intros error s' (vs & Hs' & vy' & -> & Hr). by exists vy'.
Qed.

(** ** Points *)

Lemma on_curve_montgomery d x y : is_montgomery (dom_curve d) = true ->
  on_curve d x y = ((b_of d * (y * y) - (x * x * x + a_of d * (x * x) + x)) mod p_of d =? 0).
Proof.
  intros H. unfold on_curve, equation. unfold is_montgomery, is_weierstrass, is_twisted_edwards, curve_range in *.
  rewrite andb_true_iff, !Z.ltb_lt in H. unfold CX_CURVE_MONTGOMERY_START, CX_CURVE_MONTGOMERY_END, CX_CURVE_WEIERSTRASS_START,
    CX_CURVE_WEIERSTRASS_END, CX_CURVE_TWISTED_EDWARDS_START, CX_CURVE_TWISTED_EDWARDS_END in *.
  destruct (Z.ltb_spec (dom_curve d) 0x6f); [lia|]. destruct (Z.ltb_spec (dom_curve d) 0x7f); [lia|]. by rewrite !andb_false_r.
Qed.

Lemma split_seven {A} (l : list A) : length l = 7%nat -> exists a b c d e f g, l = [a; b; c; d; e; f; g].
Proof. destruct l as [|a [|b [|c [|d [|e [|f [|g [|]]]]]]]]; try done. intros _. by exists a, b, c, d, e, f, g. Qed.

Lemma mod_opp_eqb p a : 0 < p -> (- a mod p =? 0) = (a mod p =? 0).
Proof.
  intros Hp. destruct (Z.eqb_spec (a mod p) 0) as [Ea|Ea].
  - by rewrite Z_mod_zero_opp_full.
  - apply Z.eqb_neq. intros H. apply Ea. rewrite <- (Z.opp_involutive a). by apply Z_mod_zero_opp_full.
Qed.

Lemma normalize_order (f : nat -> Z) l : exists zs,
  match map f l with [bp; binvz; b1; b2] => [b1; b2; binvz; bp] | _ => map f l end = map f zs /\ zs ≡ₚ l.
Proof.
  destruct l as [|a [|b [|c [|e [|]]]]]; try by eexists. exists [c; e; b; a]. split; [done|].
  rewrite (Permutation_app_comm [c; e] [b; a]). cbn. by rewrite (perm_swap a b).
Qed.

Lemma sign_of_0 v : 0 <= v -> (sign_of v 0 =? 0) = (v =? 0).
Proof. intros H. unfold sign_of. destruct (Z.ltb_spec v 0); [lia|]. by destruct (v =? 0). Qed.

Lemma wp_montgomery_on_curve W h o x y z vx vy vz c d s :
  cx_ecdomain c = Some d -> is_montgomery c = true -> holds W h o [x; y; z] [vx; vy; vz] s ->
  Forall (fits W) [vx; vy; vz] -> room 8 W (dom_length d) h ->
  wp (cx_montgomery_is_point_on_curve (mk_mpi_ecpoint x y z c)) (fun '(error, on) s' =>
    holds W h o [x; y; z] [vx; vy; vz] s' /\
    if vz =? 0 then error = CX_EC_INFINITE_POINT /\ on = None else error = CX_OK /\ on = Some (on_curve d vx vy)) s.
Proof.
  intros Hc Hm Hh Hfits Hroom. pose proof (ecdomain_ok _ _ Hc) as Hd. assert (word_ok W) as HW by (by destruct Hh).
  rewrite !Forall_cons in Hfits. destruct Hfits as (Fx & Fy & Fz & _). pose proof (fits_value W vz HW Fz).
  destruct (field_ok d W Hd HW) as (Hpos & _ & Hodd & Hfit & _ & Hlen). destruct (param_reads d Hd) as (Ra & Rb & Lp).
  pose proof (do_length _ Hd). unfold cx_montgomery_is_point_on_curve. cbn [pt_curve pt_x pt_y pt_z]. rewrite Hc.
  mpi_step. rewrite sign_of_0 by apply Fz. destruct (vz =? 0); [by apply wp_ret|]. cbv zeta.
  eapply wp_mono; [eapply (wp_with_numbers _ _ _ _ _ _ _ _ _ _ 7 _ _ (fun '(error, on) vs => vs = [vx; vy; vz] /\ error = CX_OK /\
    on = Some (on_curve d vx vy))); [exact Hh|lia|exact Lp|exact Hroom|apply same_order|]|].
  - intros p xs h' s' Hxs _ Hs'. destruct (split_seven _ Hxs) as (a & b & x' & y' & r1 & r2 & r3 & ->).
    cbn [app replicate] in Hs'. fold (p_of d) in Hs'. repeat mpi_step. apply wp_last. repeat mpi_step.
    fold (a_of d) (b_of d) in Hs'. apply wp_assoc. destruct (small_fits W (p_of d) _ HW Hfit (Z.mod_pos_bound
      ((((((vx * vx) mod p_of d * a_of d) mod p_of d + vx) mod p_of d + ((vx * vx) mod p_of d * vx) mod p_of d) mod p_of d)
        - ((vy * vy) mod p_of d * b_of d) mod p_of d) (p_of d) Hpos)) as [_ Hval].
    mpi_step. rewrite sign_of_0 by apply Hval. apply wp_mret, wp_ret. eexists [vx; vy; vz], _. split; [done|]. split; [exact Hs'|].
    split_and!; [done|done|]. f_equal. rewrite on_curve_montgomery by (by rewrite (proj2 (proj1 (cx_ecdomain_ok _ _) Hc))).
    rewrite <- (mod_opp_eqb (p_of d) (b_of d * (vy * vy) - _)) by done. f_equal. mod_ring.
  - intros [error on] s' (vs & Hs' & -> & -> & ->). done.
Qed.

(** The affine coordinates of [(x : y : z)]. *)
Definition affine c p (x y z : Z) : Z * Z :=
  let i := inverse p z in
  if is_weierstrass c then ((x * (i * i)) mod p, (y * (i * i * i)) mod p) else ((x * i) mod p, (y * i) mod p).

Lemma curve_types d : domain_ok d -> is_weierstrass (dom_curve d) = false ->
  is_twisted_edwards (dom_curve d) || is_montgomery (dom_curve d) = true.
Proof. intros [_ _ H _ _ _ _ _ _ _ _ _] Hw. by rewrite Hw in H. Qed.

Lemma wp_normalize W h o x y z vx vy vz c d s :
  cx_ecdomain c = Some d -> holds W h o [x; y; z] [vx; vy; vz] s -> Forall (fits W) [vx; vy; vz] ->
  room 5 W (dom_length d) h ->
  wp (cx_mpi_ecpoint_normalize (mk_mpi_ecpoint x y z c)) (fun error s' =>
    if vz =? 0 then error = CX_EC_INFINITE_POINT /\ holds W h o [x; y; z] [0; 1; 0] s'
    else error = CX_OK /\ holds W h o [x; y; z]
      (if vz =? 1 then [vx; vy; vz] else let (x', y') := affine c (p_of d) vx vy vz in [x'; y'; 1]) s') s.
Proof.
  intros Hc Hh Hfits Hroom. pose proof (ecdomain_ok _ _ Hc) as Hd. assert (word_ok W) as HW by (by destruct Hh).
  rewrite !Forall_cons in Hfits. destruct Hfits as (Fx & Fy & Fz & _). pose proof (fits_value W vz HW Fz).
  destruct (field_ok d W Hd HW) as (Hpos & Hp2 & Hodd & Hfit & Hnb & Hlen). destruct (param_reads d Hd) as (Ra & Rb & Lp).
  pose proof (do_length _ Hd). unfold cx_mpi_ecpoint_normalize. cbn [pt_curve pt_x pt_y pt_z]. rewrite Hc.
  mpi_step. rewrite sign_of_0 by apply Fz. destruct (Z.eqb_spec vz 0) as [->|Hz].
  { repeat mpi_step. by apply wp_ret. }
  mpi_step. assert ((sign_of vz 1 =? 0) = (vz =? 1)) as ->.
  { unfold sign_of. destruct (Z.ltb_spec vz 1); destruct (Z.eqb_spec vz 1); try done; lia. }
  destruct (Z.eqb_spec vz 1) as [->|Hz1]; [by apply wp_ret|]. cbv zeta.
  eapply wp_mono; [eapply (wp_with_numbers _ _ _ _ _ _ _ _ _ _ 3 _ _ (fun error vs => error = CX_OK /\
    vs = let (x', y') := affine c (p_of d) vx vy vz in [x'; y'; 1]));
    [exact Hh|lia|exact Lp|by apply (room_less 5); [lia|done|lia|done]|apply normalize_order|]|].
  - intros p xs h' s' Hxs Hroom' Hs'. specialize (Hroom' 1%nat Hroom). destruct (split_three _ Hxs) as (iz & t1 & t2 & ->).
    assert (forall a, fits W (a mod p_of d)) as Hmod by (intros a; apply (small_fits W (p_of d)); [done..|by apply Z.mod_pos_bound]).
    cbn [app replicate] in Hs'. fold (p_of d) in Hs'. mpi_step. unfold affine.
    destruct (is_weierstrass c) eqn:Ew; [|rewrite <- (proj2 (proj1 (cx_ecdomain_ok _ _) Hc)), (curve_types d Hd)
      by (by rewrite (proj2 (proj1 (cx_ecdomain_ok _ _) Hc)))].
    + repeat mpi_step; try apply Hmod. change (CX_OK =? CX_OK) with true. cbv iota. mpi_step. apply wp_ret.
      eexists [_; _; _], _. split; [|split; [exact Hs'|]]; [done|]. split; [done|]. unfold inverse. f_equal; [mod_ring|f_equal; mod_ring].
    + repeat mpi_step; try apply Hmod. change (CX_OK =? CX_OK) with true. cbv iota. mpi_step. apply wp_ret.
      eexists [_; _; _], _. split; [|split; [exact Hs'|]]; [done|]. split; [done|]. unfold inverse. f_equal; [mod_ring|f_equal; mod_ring].
  - intros error s' (vs & Hs' & -> & ->). done.
Qed.
End proofs.
