(* ===== verification/CxEcPoint.v ===== *)
(** The system calls on the points of the curves: [src/bolos/cx_ecpoint.c] over
    the computations of CxEcCurves.v. A point of an application is three
    handles to numbers of the context; it is given by affine coordinates and
    may be projective after a computation. The calls on groups of OpenSSL
    (sums and multiples of points of the Weierstrass curves) are not here. *)

From Stdlib Require Import Zdivisibility ZmodInv.
From S2P Require Import Prelude CxUtils OpensslBn BeBytes ModArith CxMpi CxBn MpiSlots CxEcTables CxEcDomain CxEcCurves.

(** * Operations *)

Section ecpoint.
Context {E : Type} `{!OpensslBn E}.
Local Abbreviation P := (M (mpi_state E)).

(** [sys_cx_bn_alloc(&x, size)] with [bn] in [x]. *)
Definition bn_alloc_at (bn size : Z) : P (Z * Z) :=
  let! (error, bn_x) := sys_cx_bn_alloc size in mret (error, default bn bn_x).

(** The end of [sys_cx_ecpoint_alloc] when there is an error: the point keeps its handles. *)
Definition ecpoint_failed (error : Z) (p : cx_ecpoint_t) : P (Z * cx_ecpoint_t) :=
  do! sys_cx_bn_destroy (Some (ec_z p)) in
  do! sys_cx_bn_destroy (Some (ec_y p)) in
  do! sys_cx_bn_destroy (Some (ec_x p)) in
  mret (error, p).

(** The error and [*P]. *)
Definition sys_cx_ecpoint_alloc (p : cx_ecpoint_t) (curve : Z) : P (Z * cx_ecpoint_t) :=
  let c := ec_curve p in
  let! error := cx_bn_locked in
  if truthy error then ecpoint_failed error (mk_ecpoint bn_none bn_none bn_none c)
  else
    match cx_ecdomain curve with
    | None => mret (CX_EC_INVALID_CURVE, mk_ecpoint bn_none bn_none bn_none c)
    | Some domain =>
        let! size := size_to_mpi_word_bytes (dom_length domain) in
        let! (error, x) := bn_alloc_at bn_none size in
        if truthy error then ecpoint_failed error (mk_ecpoint x bn_none bn_none c)
        else
          let! (error, y) := bn_alloc_at bn_none size in
          if truthy error then ecpoint_failed error (mk_ecpoint x y bn_none c)
          else
            let! (error, z) := bn_alloc_at bn_none size in
            if truthy error then ecpoint_failed error (mk_ecpoint x y z c)
            else mret (error, mk_ecpoint x y z curve)
    end.

(** The error and [*P], which is cleared; [None] for a NULL pointer. *)
Definition sys_cx_ecpoint_destroy (p : option cx_ecpoint_t) : P (Z * option cx_ecpoint_t) :=
  match p with
  | None => mret (CX_OK, None)
  | Some p =>
      let! error :=
        check cx_bn_locked (
        check (sys_cx_bn_destroy (Some (ec_x p))) (
        check (sys_cx_bn_destroy (Some (ec_y p))) (
               sys_cx_bn_destroy (Some (ec_z p))))) in
      mret (error, Some (mk_ecpoint 0 0 0 0))
  end.

Definition sys_cx_ecpoint_init (ec_P : cx_ecpoint_t) (x : list Z) (x_len : Z) (y : list Z) (y_len : Z) : P Z :=
  with_mpi (cx_mpi_ecpoint_from_ecpoint ec_P) (fun p =>
    let! b := mlift (read_at x 0 x_len) in
    do! call_to (pt_x p) (BN_bin2bn b) in
    let! b := mlift (read_at y 0 y_len) in
    do! call_to (pt_y p) (BN_bin2bn b) in
    do! cx_mpi_set_u32 (pt_z p) 1 in
    mret CX_OK).

Definition sys_cx_ecpoint_init_bn (ec_P : cx_ecpoint_t) (bn_x bn_y : Z) : P Z :=
  with_mpi (cx_mpi_ecpoint_from_ecpoint ec_P) (fun p =>
  with_mpi (cx_bn_to_mpi bn_x) (fun xy =>
    check (cx_mpi_copy (pt_x p) xy) (
  with_mpi (cx_bn_to_mpi bn_y) (fun xy =>
    check (cx_mpi_copy (pt_y p) xy) (
    do! cx_mpi_set_u32 (pt_z p) 1 in
    mret CX_OK))))).

Definition cx_ecpoint_normalize (ec_P : cx_ecpoint_t) : P (Z * cx_mpi_ecpoint_t) :=
  let! (error, p) := cx_mpi_ecpoint_from_ecpoint ec_P in
  if truthy error then mret (error, p)
  else let! error := cx_mpi_ecpoint_normalize p in mret (error, p).

(** [None] for a NULL pointer. *)
Definition export_bn (bn : option Z) (x : nat) (k : P Z) : P Z :=
  match bn with
  | None => k
  | Some bn => with_mpi (cx_bn_to_mpi bn) (fun xy => check (cx_mpi_copy xy x) k)
  end.

Definition sys_cx_ecpoint_export_bn (ec_P : cx_ecpoint_t) (bn_x bn_y : option Z) : P Z :=
  with_mpi (cx_ecpoint_normalize ec_P) (fun p =>
    export_bn bn_x (pt_x p) (export_bn bn_y (pt_y p) (mret CX_OK))).

(** The error and the buffers; [None] for a NULL pointer. *)
Definition sys_cx_ecpoint_export (ec_P : cx_ecpoint_t) (x : option (list Z)) (x_len : Z) (y : option (list Z)) (y_len : Z)
  : P (Z * option (list Z) * option (list Z)) :=
  let! (error, p) := cx_ecpoint_normalize ec_P in
  if truthy error then mret (error, x, y)
  else
    let! (error, x) :=
      match x with
      | None => mret (CX_OK, None)
      | Some x => let! (error, x) := cx_mpi_export (pt_x p) x x_len in mret (error, Some x)
      end in
    if truthy error then mret (error, x, y)
    else
      let! (error, y) :=
        match y with
        | None => mret (CX_OK, None)
        | Some y => let! (error, y) := cx_mpi_export (pt_y p) y y_len in mret (error, Some y)
        end in
      mret (error, x, y).

(** The error and [*is_equal]. *)
Definition sys_cx_ecpoint_cmp (ec_P ec_Q : cx_ecpoint_t) : P (Z * option bool) :=
  with_mpi_out (cx_ecpoint_normalize ec_P) (fun p =>
  with_mpi_out (cx_ecpoint_normalize ec_Q) (fun q =>
    let! px := bn_get (pt_x p) in
    let! qx := bn_get (pt_x q) in
    let! py := bn_get (pt_y p) in
    let! qy := bn_get (pt_y q) in
    mret (CX_OK, Some ((pt_curve p =? pt_curve q) && (BN_cmp px qx =? 0) && (BN_cmp py qy =? 0))))).

Definition sys_cx_ecpoint_neg (ec_P : cx_ecpoint_t) : P Z :=
  with_mpi (cx_mpi_ecpoint_from_ecpoint ec_P) (fun p =>
    match cx_ecdomain (pt_curve p) with
    | None => mret CX_EC_INVALID_CURVE
    | Some domain =>
        let! (n, bn_n) := cx_mpi_alloc_init (dom_length domain) (dom_p domain) (dom_length domain) in
        match n with
        | None => mret CX_MEMORY_FULL
        | Some n =>
            let coord :=
              if is_weierstrass (pt_curve p) then Some (pt_y p)
              else if is_twisted_edwards (pt_curve p) then Some (pt_x p)
              else if is_montgomery (pt_curve p) then Some (pt_y p) else None in
            let! error :=
              match coord with
              | None => mret CX_EC_INVALID_POINT
              | Some coord => do! cx_mpi_sub coord n coord in mret CX_OK
              end in
            do! cx_mpi_destroy (Some bn_n) in
            mret error
        end
    end).

(** What a compressed point holds: one coordinate, and the parity of the other. *)
Definition compress_coordinates (p : cx_mpi_ecpoint_t) : option (nat * nat) :=
  if is_weierstrass (pt_curve p) then Some (pt_x p, pt_y p)
  else if is_twisted_edwards (pt_curve p) then Some (pt_y p, pt_x p)
  else if is_montgomery (pt_curve p) then Some (pt_x p, pt_y p) else None.

(** The error, the buffer and [*sign]. *)
Definition sys_cx_ecpoint_compress (ec_P : cx_ecpoint_t) (xy_compressed : list Z) (xy_compressed_len : Z)
  : P (Z * list Z * option Z) :=
  let! (error, p) := cx_ecpoint_normalize ec_P in
  if truthy error then mret (error, xy_compressed, None)
  else
    match compress_coordinates p with
    | None => mret (CX_EC_INVALID_CURVE, xy_compressed, Some 0)
    | Some (kept, parity) =>
        let! (error, out) := cx_mpi_export kept xy_compressed xy_compressed_len in
        if truthy error then mret (error, out, None)
        else
          let! (error, set) := cx_mpi_tst_bit parity 0 in
          if truthy error then mret (error, out, None)
          else mret (error, out, Some (if default false set then 1 else 0))
    end.

Definition sys_cx_ecpoint_decompress (ec_P : cx_ecpoint_t) (xy_compressed : list Z) (xy_compressed_len sign : Z) : P Z :=
  with_mpi (cx_mpi_ecpoint_from_ecpoint ec_P) (fun p =>
    if is_weierstrass (pt_curve p) then
      do! cx_mpi_init (pt_x p) xy_compressed xy_compressed_len in
      do! cx_mpi_set_u32 (pt_y p) 0 in
      do! cx_mpi_set_u32 (pt_z p) 1 in
      cx_weierstrass_recover_y p sign
    else if is_twisted_edwards (pt_curve p) then
      do! cx_mpi_set_u32 (pt_x p) 0 in
      do! cx_mpi_init (pt_y p) xy_compressed xy_compressed_len in
      do! cx_mpi_set_u32 (pt_z p) 1 in
      cx_twisted_edwards_recover_x p sign
    else if is_montgomery (pt_curve p) then
      do! cx_mpi_init (pt_x p) xy_compressed xy_compressed_len in
      do! cx_mpi_set_u32 (pt_y p) 0 in
      do! cx_mpi_set_u32 (pt_z p) 1 in
      cx_montgomery_recover_y p sign
    else mret CX_EC_INVALID_CURVE).

(** The error and [*is_infinite]. *)
Definition sys_cx_ecpoint_is_at_infinity (ec_P : cx_ecpoint_t) : P (Z * option bool) :=
  with_mpi_out (cx_mpi_ecpoint_from_ecpoint ec_P) (fun p =>
    let! c := cx_mpi_cmp_u32 (pt_x p) 0 in
    let! infinite :=
      (if c =? 0 then
         let! c := cx_mpi_cmp_u32 (pt_y p) 1 in
         if c =? 0 then let! c := cx_mpi_cmp_u32 (pt_z p) 0 in mret (c =? 0) else mret false
       else mret false) in
    mret (CX_OK, Some infinite)).

(** The errors of the copies are not looked at. *)
Definition cx_mpi_ecpoint_copy (p q : cx_mpi_ecpoint_t) : P cx_mpi_ecpoint_t :=
  do! cx_mpi_copy (pt_x p) (pt_x q) in
  do! cx_mpi_copy (pt_y p) (pt_y q) in
  do! cx_mpi_copy (pt_z p) (pt_z q) in
  mret (mk_mpi_ecpoint (pt_x p) (pt_y p) (pt_z p) (pt_curve q)).
End ecpoint.

(** * Proofs *)

(** The coordinate that a compressed point keeps and the one that is solved. *)
Definition kept_of (c : Z) (xy : Z * Z) : Z := if is_twisted_edwards c then snd xy else fst xy.
Definition solved_of (c : Z) (xy : Z * Z) : Z := if is_twisted_edwards c then fst xy else snd xy.
Definition point_of (c k v : Z) : Z * Z := if is_twisted_edwards c then (v, k) else (k, v).

(** The square of the solved coordinate. *)
Definition solved_rhs d (k : Z) : Z :=
  if is_weierstrass (dom_curve d) then weierstrass_rhs d k
  else if is_twisted_edwards (dom_curve d) then edwards_rhs d k else montgomery_rhs d k.

(** The ranges of the numbers of curves do not overlap. *)
Lemma weierstrass_not_edwards c : is_weierstrass c = true -> is_twisted_edwards c = false.
Proof.
  unfold is_weierstrass, is_twisted_edwards, curve_range, CX_CURVE_WEIERSTRASS_START, CX_CURVE_WEIERSTRASS_END,
    CX_CURVE_TWISTED_EDWARDS_START, CX_CURVE_TWISTED_EDWARDS_END. lia.
Qed.

(** In a twisted Edwards curve, [a b] has no root. The certificate of a curve is
    [(s, g, r)] where [g] has the order [2^s], the power of two in [p - 1],
    and [r] is a root of [a b g]. *)
Definition certificate (c : Z) : nat * Z * Z :=
  if c =? CX_CURVE_Ed25519 then
    (2%nat, 0x2b8324804fc1df0b2b4d00993dfbd7a72f431806ad2fe478c4ee1b274a0ea0b0,
     0x7f9fc7820e794ddf7a006aa05bc9db32568d16f14f5434a82e885b1924614b82)
  else if c =? CX_CURVE_Ed448 then
    (1%nat, 0xfffffffffffffffffffffffffffffffffffffffffffffffffffffffefffffffffffffffffffffffffffffffffffffffffffffffffffffffe,
     0xdd269d0414db0897c409728dd05d955f5e0e58475a472ab49b5d287e6973eb457c65990b0291212d9fcc840955df31ad69bd10f0baa8d8c9)
  else if c =? CX_CURVE_EdBLS12 then
    (47%nat, 0xf4f58d6b338db36480b0da08d4ff39be5c1f1b84059d4cd726869aaa623875c,
     0xa1f8cd41b075e50bec378ff4b686f16a5547060daa5304a63c09fde5d4d79da)
  else
    (32%nat, 0x212d79e5b416b6f0fd56dc8d168d6c0c4024ff270b3e0941b788f500b912f1f,
     0x3fa9c4aa41c223fe95a0e29f73a991a09be58b1ee101570a4926babbd37efe7a).

(** What the certificate [(S s, g, r)] shows of [c]. *)
Definition rootless (p c : Z) (cert : nat * Z * Z) : bool :=
  let '(s, g, r) := cert in
  (0 <? s)%nat && ((p - 1) mod 2 ^ Z.of_nat s =? 0) && Z.odd ((p - 1) / 2 ^ Z.of_nat s) &&
  (Nat.iter (s - 1) (fun x => (x * x) mod p) g =? p - 1) && ((c * g) mod p =? (r * r) mod p) && negb (c mod p =? 0).

Lemma rootless_checked : forallb (fun d =>
  if is_twisted_edwards (dom_curve d) then rootless (p_of d) (a_of d * b_of d) (certificate (dom_curve d)) else true)
  C_cx_allCurves = true.
Proof. vm_compute. reflexivity. Qed.

Lemma iter_squares p n g : eqv p (Nat.iter n (fun x => (x * x) mod p) g) (g ^ 2 ^ Z.of_nat n).
Proof.
  induction n as [|n IH]; [apply eqv_eq; cbn; lia|].
  change (Nat.iter (S n) ?f g) with (f (Nat.iter n f g)). cbv beta. rewrite eqv_mod, IH.
  rewrite Nat2Z.inj_succ, Z.pow_succ_r, <- Z.pow_add_r by lia. apply eqv_eq. f_equal. lia.
Qed.

(** The exponent of Euler's criterion, cut at the power of two. *)
Lemma half_order p s : (p - 1) mod 2 ^ Z.of_nat (S s) = 0 -> let t := (p - 1) / 2 ^ Z.of_nat (S s) in
  p - 1 = 2 * (2 ^ Z.of_nat s * t) /\ (0 <= p - 1 -> 0 <= t /\ 0 <= 2 ^ Z.of_nat s * t).
Proof.
  intros H t. pose proof (Z.div_mod (p - 1) (2 ^ Z.of_nat (S s)) (Z.pow_nonzero 2 (Z.of_nat (S s)) ltac:(lia) ltac:(lia))) as Hd.
  fold t in Hd. rewrite H, Z.add_0_r, Nat2Z.inj_succ, Z.pow_succ_r, <- Z.mul_assoc in Hd by apply Nat2Z.is_nonneg. split; [done|].
  intros Hp. assert (0 <= t) by (apply Z.div_pos; [done|by apply Z.pow_pos_nonneg]).
  split; [done|]. apply Z.mul_nonneg_nonneg; [by apply Z.pow_nonneg|done].
Qed.

Lemma rootless_ok p c cert y : Z.prime p -> 2 < p -> rootless p c cert = true -> (y * y) mod p <> c mod p.
Proof.
  destruct cert as [[s g] r]. intros Hp H2 H Hy. unfold rootless in H. rewrite !andb_true_iff, negb_true_iff, !Z.eqb_eq, Z.eqb_neq in H.
  destruct H as (((((Hs%Nat.ltb_lt & Hdiv) & Hodd) & Hg) & Hr) & Hc). destruct s as [|s]; [by inversion Hs|].
  rewrite Nat.sub_succ, Nat.sub_0_r in Hg. apply half_order in Hdiv as [Hp1 Hpos]. specialize (Hpos ltac:(clear -H2; lia)) as [Ht He].
  set (t := (p - 1) / 2 ^ Z.of_nat (S s)) in *. set (e := 2 ^ Z.of_nat s * t) in *.
  assert (eqv p (g ^ e) (-1)) as Hge.
  { unfold e. rewrite Z.pow_mul_r by (done || by apply Z.pow_nonneg). rewrite <- iter_squares, Hg.
    assert (eqv p (p - 1) (-1)) as -> by (split; replace (p - 1) with (-1 + 1 * p) by (clear; ring); apply Z_mod_plus_full).
    apply eqv_eq. change (-1) with (Z.opp 1). rewrite Z.pow_opp_odd by (by apply Z.odd_spec). by rewrite Z.pow_1_l. }
  assert (y mod p <> 0) as Hy0. { intros Hz. apply Hc. by rewrite <- Hy, Zmult_mod, Hz, Z.mul_0_l. }
  assert (eqv p (r ^ (p - 1)) (-1)) as Hr1.
  { rewrite Hp1, Z.pow_mul_r, Z.pow_2_r by done. assert (eqv p (r * r) (c * g)) as -> by (by split).
    assert (eqv p c (y * y)) as -> by (by split). rewrite Z.pow_mul_l, Hge, <- Z.pow_2_r, <- Z.pow_mul_r, <- Hp1 by done.
    rewrite fermat_cases by done. by rewrite (proj2 (Z.eqb_neq _ _) Hy0). }
  rewrite fermat_cases in Hr1 by done. destruct Hr1 as [Hr1]. clear -Hr1 H2. replace (-1) with (p - 1 + -1 * p) in Hr1 by ring.
  rewrite Z_mod_plus_full, (Z.mod_small (p - 1)), Z.mod_small in Hr1 by (destruct (_ =? _); lia). destruct (_ =? _); lia.
Qed.

(** ** The equation of a curve, solved *)

Section equation.
Context d (Hin : d ∈ C_cx_allCurves) (Hp : Z.prime (p_of d)).
Local Abbreviation p := (p_of d).

Lemma edwards_denominator k : is_twisted_edwards (dom_curve d) = true -> (k * k * b_of d - a_of d) mod p <> 0.
Proof using Hin Hp.
  intros He Hk. pose proof (proj1 (forallb_forall _ _) rootless_checked d (proj1 (list_elem_of_In _ _) Hin)) as Hc. cbn beta in Hc. rewrite He in Hc.
  pose proof (field_bounds d (domain_of d Hin)) as [H250 _].
  apply (rootless_ok _ _ _ (k * b_of d) Hp) in Hc; [|apply Z.lt_trans with (2 ^ 250); [by vm_compute|done]]. apply Hc. apply eqv_mods.
  apply (eqv_0 p Hp) in Hk. transitivity ((k * k * b_of d - a_of d + a_of d) * b_of d); [apply eqv_eq; ring|]. by rewrite Hk.
Qed.

Lemma montgomery_denominator : is_montgomery (dom_curve d) = true -> b_of d mod p <> 0.
Proof using Hin Hp.
  intros Hm Hb. pose proof (do_smooth _ (domain_of d Hin)) as Hs. unfold smooth in Hs. rewrite negb_true_iff, Z.eqb_neq in Hs.
  assert (is_weierstrass (dom_curve d) = false /\ is_twisted_edwards (dom_curve d) = false) as [Hw He].
  { unfold is_weierstrass, is_twisted_edwards, is_montgomery, curve_range, CX_CURVE_WEIERSTRASS_START, CX_CURVE_WEIERSTRASS_END,
      CX_CURVE_TWISTED_EDWARDS_START, CX_CURVE_TWISTED_EDWARDS_END, CX_CURVE_MONTGOMERY_START, CX_CURVE_MONTGOMERY_END in *. lia. }
  rewrite Hw, He in Hs. cbv zeta in Hs. apply Hs, (proj1 (eqv_0 p Hp _)). apply (eqv_0 p Hp) in Hb. by rewrite Hb.
Qed.

(** A point is on the curve when the square of one coordinate is what the other one says. *)
Lemma on_curve_solved k v : let (x, y) := point_of (dom_curve d) k v in
  on_curve d x y = true <-> (v * v) mod p = solved_rhs d k mod p.
Proof using Hin Hp.
  pose proof (do_type _ (domain_of d Hin)) as Hty. unfold point_of, on_curve, equation, solved_rhs.
  destruct (is_weierstrass (dom_curve d)) eqn:Ew; [rewrite (weierstrass_not_edwards _ Ew)|destruct (is_twisted_edwards (dom_curve d)) eqn:Ee];
    rewrite Z.eqb_eq, <- (eqv_0 p Hp); cbn beta zeta.
  - unfold weierstrass_rhs. split.
    + intros H. apply eqv_mods. transitivity (v * v - (k * k * k + a_of d * k + b_of d) + (k * k * k + a_of d * k + b_of d)); [apply eqv_eq; ring|].
      rewrite H. apply eqv_eq; ring.
    + intros H. assert (eqv p (v * v) (k * k * k + a_of d * k + b_of d)) as -> by (by split). apply eqv_eq; ring.
  - pose proof (edwards_denominator k Ee) as Hden. unfold edwards_rhs. split.
    + intros H. apply eqv_mods. symmetry. apply (quotient_of_product p Hp); [done|].
      transitivity (k * k - 1 - (a_of d * (v * v) + k * k - (1 + b_of d * (v * v) * (k * k)))); [apply eqv_eq; ring|].
      rewrite H. apply eqv_eq; ring.
    + intros H. assert (eqv p (v * v * (k * k * b_of d - a_of d)) (k * k - 1)) as H1
        by (apply (product_of_quotient p Hp); [done|by split]).
      transitivity (k * k - 1 - v * v * (k * k * b_of d - a_of d)); [apply eqv_eq; ring|]. rewrite H1. apply eqv_eq; ring.
  - pose proof (montgomery_denominator Hty) as Hden. unfold montgomery_rhs. split.
    + intros H. apply eqv_mods. symmetry. apply (quotient_of_product p Hp); [done|].
      transitivity (b_of d * (v * v) - (k * k * k + a_of d * (k * k) + k) + (k * k * k + a_of d * (k * k) + k)); [apply eqv_eq; ring|].
      rewrite H. apply eqv_eq; ring.
    + intros H. assert (eqv p (v * v * b_of d) (k * k * k + a_of d * (k * k) + k)) as H1
        by (apply (product_of_quotient p Hp); [done|by split]).
      transitivity (v * v * b_of d - (k * k * k + a_of d * (k * k) + k)); [apply eqv_eq; ring|]. rewrite H1. apply eqv_eq; ring.
Qed.
End equation.

(** ** Points in memory *)

Definition slots_of (p : cx_ecpoint_t) : list nat := [Z.to_nat (ec_x p); Z.to_nat (ec_y p); Z.to_nat (ec_z p)].
Definition mpi_of (p : cx_ecpoint_t) : cx_mpi_ecpoint_t :=
  mk_mpi_ecpoint (Z.to_nat (ec_x p)) (Z.to_nat (ec_y p)) (Z.to_nat (ec_z p)) (ec_curve p).

Section proofs.
Context {E : Type} `{!OpensslBn E, !OpensslLaws E, !OpensslReliable E}.
Implicit Types s : mpi_state E.
Local Abbreviation P := (M (mpi_state E)).

Lemma holds_handle W h o xs vs s x : holds W h o xs vs s -> Z.to_nat x ∈ xs -> in_array x = true /\ live h x = true.
Proof.
  intros Hh Hx. apply list_elem_of_lookup in Hx as [i Hi]. destruct (lookup_lt_is_Some_2 vs i) as [v Hv];
    [rewrite (holds_length _ _ _ _ _ _ Hh); by apply lookup_lt_Some in Hi|].
  pose proof (holds_num _ _ _ _ _ _ _ _ _ Hh Hi Hv) as Hn. destruct Hh as [Hok _ _ Hb _ _ _].
  split; [by apply (num_in_array h x v s)|by apply (num_live h x v s)].
Qed.

Lemma from_ecpoint_run W h o p d vs s : cx_ecdomain (ec_curve p) = Some d -> holds W h o (slots_of p) vs s ->
  cx_mpi_ecpoint_from_ecpoint p s = Ret (CX_OK, mpi_of p) s.
Proof.
  intros Hc Hh. pose proof Hh as [Hok _ _ Hb _ _ _]. unfold cx_mpi_ecpoint_from_ecpoint. rewrite Hc.
  rewrite (mbind_ret _ _ _ _ _ (rab_to_mpi_run h (ec_x p) (ec_y p) (ec_z p) s Hok Hb)).
  rewrite (handles_ok h W); [done|apply Hh|]. pose proof (fun x => holds_handle W h o _ _ s x Hh) as H. unfold slots_of in H.
  repeat (apply Forall_cons; split); [apply H; auto using list_elem_of_here, list_elem_of_further..|by apply Forall_nil_2].
Qed.

Lemma wp_point W h o p d vs s {B} (Q : B -> mpi_state E -> Prop) k : cx_ecdomain (ec_curve p) = Some d ->
  holds W h o (slots_of p) vs s -> wp (k (CX_OK, mpi_of p)) Q s -> wp (mbind (cx_mpi_ecpoint_from_ecpoint p) k) Q s.
Proof. intros Hc Hh H. unfold wp. by rewrite (mbind_ret _ _ _ _ _ (from_ecpoint_run W h o p d vs s Hc Hh)). Qed.

(** *** Decompression *)

Lemma wp_decompress W h o p d vx vy vz bytes len b sign s : cx_ecdomain (ec_curve p) = Some d ->
  holds W h o (slots_of p) [vx; vy; vz] s -> read_at bytes 0 len = Some b -> room 6 W (dom_length d) h ->
  wp (sys_cx_ecpoint_decompress p bytes len sign) (fun error s' => exists v, 
    holds W h o (slots_of p) (let (x, y) := point_of (ec_curve p) (be_combine b) v in [x; y; 1]) s' /\
    rooted (E := E) (solved_rhs d (be_combine b)) (p_of d) sign error v) s.
Proof.
  intros Hc Hh Hb Hroom. pose proof (ecdomain_ok _ _ Hc) as Hd. assert (word_ok W) as HW by (by destruct Hh).
  pose proof (do_length _ Hd). pose proof (do_type _ Hd) as Hty. unfold solved_rhs. rewrite (proj2 (proj1 (cx_ecdomain_ok _ _) Hc)) in Hty |- *.
  unfold sys_cx_ecpoint_decompress, with_mpi. eapply wp_point; [done..|]. cbv iota beta. unfold mpi_of, slots_of in *.
  change (truthy CX_OK) with false. cbv iota. cbn [pt_curve pt_x pt_y pt_z]. unfold point_of.
  destruct (is_weierstrass (ec_curve p)) eqn:Ew; [|destruct (is_twisted_edwards (ec_curve p)) eqn:Ee].
  - rewrite (weierstrass_not_edwards _ Ew). repeat mpi_step. eapply wp_mono;
      [eapply (wp_weierstrass_recover_y W h o _ _ _ _ _ _ _ d); [done|exact Hh|apply (room_less 6); [lia|done|lia|done]]|]. intros error s' (v & H1 & H2). by exists v.
  - repeat mpi_step. eapply wp_mono;
      [eapply (wp_twisted_edwards_recover_x W h o _ _ _ _ _ _ _ d); [done|exact Hh|apply (room_less 6); [lia|done|lia|done]]|]. intros error s' (v & H1 & H2). by exists v.
  - cbn [orb] in Hty. rewrite Hty. repeat mpi_step. eapply wp_mono;
      [eapply (wp_montgomery_recover_y W h o _ _ _ _ _ _ _ d); [done|exact Hh|apply (room_less 6); [lia|done|lia|done]]|]. intros error s' (v & H1 & H2). by exists v.
Qed.

(** The coordinate [v] completes [k] to a point of the curve, with the parity of [sign]. *)
Definition completes d (k sign v : Z) : Prop :=
  0 <= v < p_of d /\ Z.odd v = truthy sign /\ (let (x, y) := point_of (dom_curve d) k v in on_curve d x y = true).

Lemma completes_unique d k sign u v : d ∈ C_cx_allCurves -> Z.prime (p_of d) -> completes d k sign u -> completes d k sign v -> u = v.
Proof.
  intros Hin Hp (Hu & Ou & Cu) (Hv & Ov & Cv). pose proof (on_curve_solved d Hin Hp k) as Hon.
  apply (same_root (p_of d) Hp); [apply (domain_of d Hin)|done|done| |congruence].
  pose proof (Hon u) as Hon1. pose proof (Hon v) as Hon2. destruct (point_of _ k u), (point_of _ k v).
  rewrite (proj1 Hon1 Cu). by rewrite (proj1 Hon2 Cv).
Qed.

(** What the search of the root gives. *)
Lemma rooted_completes d k sign error v : d ∈ C_cx_allCurves -> Z.prime (p_of d) ->
  rooted (E := E) (solved_rhs d k) (p_of d) sign error v ->
  error = CX_OK /\ completes d k sign v \/ error <> CX_OK /\ forall u, ~ completes d k sign u.
Proof using OpensslReliable0.
  intros Hin Hp Hr. pose proof (on_curve_solved d Hin Hp k) as Hon.
  assert (forall u, completes d k sign u -> (u * u) mod p_of d = solved_rhs d k mod p_of d) as Hroot.
  { intros u (_ & _ & Cu). pose proof (Hon u) as Hon1. destruct (point_of _ k u). by apply Hon1. }
  destruct Hr as [(-> & Hv & Hb & Ho)|[(-> & Hz & -> & Ho)|(-> & e & u & e' & Hf)]]; [left|right|right].
  - split; [done|]. split; [done|]. split; [done|]. pose proof (Hon v) as Hon1. destruct (point_of _ k v). by apply Hon1.
  - split; [done|]. intros u Hu. pose proof (Hroot u Hu) as H1. destruct Hu as (Hu & Ou & _). rewrite Hz in H1.
    apply (prime_product _ Hp) in H1 as [H1|H1]; rewrite Z.mod_small in H1 by done; subst u; cbn in Ou; congruence.
  - split; [done|]. intros w Hw. pose proof (Z.prime_ge_2 _ Hp).
    destruct (BN_mod_sqrt_succeeds (solved_rhs d k mod p_of d) (p_of d) e Hp) as (n & e2 & H2); [|congruence].
    exists w. rewrite Zmod_mod. by apply Hroot.
Qed.

(** C10: c-decompress_ok: when the modulus is a prime, a decompression succeeds
    exactly when the given coordinate is the one of a point of the curve whose
    other coordinate has the given parity, and leaves that point, the only
    one; an error is reported otherwise, and the memory is given back. *)
Theorem decompress_ok W h o p d vx vy vz bytes len b sign s : cx_ecdomain (ec_curve p) = Some d -> Z.prime (p_of d) ->
  holds W h o (slots_of p) [vx; vy; vz] s -> read_at bytes 0 len = Some b -> room 6 W (dom_length d) h ->
  exists error v s', sys_cx_ecpoint_decompress p bytes len sign s = Ret error s' /\
    holds W h o (slots_of p) (let (x, y) := point_of (ec_curve p) (be_combine b) v in [x; y; 1]) s' /\
    (error = CX_OK /\ completes d (be_combine b) sign v \/
     error <> CX_OK /\ forall u, ~ completes d (be_combine b) sign u).
Proof.
  intros Hc Hp Hh Hb Hroom. pose proof (wp_decompress W h o p d vx vy vz bytes len b sign s Hc Hh Hb Hroom) as H.
  apply wp_ret_inv in H as (error & s' & Hrun & v & Hs' & Hr). exists error, v, s'. split; [done|]. split; [done|].
  apply cx_ecdomain_ok in Hc as [Hin _]. by apply rooted_completes.
Qed.

(** *** Compression *)

(** The affine coordinates of what the slots of a point hold. *)
Definition coordinates d (vx vy vz : Z) : Z * Z := if vz =? 1 then (vx, vy) else affine (dom_curve d) (p_of d) vx vy vz.

Lemma fits_of d W v : domain_ok d -> word_ok W -> 0 <= v < p_of d -> fits W v.
Proof. intros Hd HW Hv. destruct (field_ok d W Hd HW) as (_ & _ & _ & Hf & _). by apply (small_fits W (p_of d)). Qed.

Lemma coordinates_reduced d vx vy vz : 0 < p_of d -> vz <> 1 ->
  let (x, y) := coordinates d vx vy vz in 0 <= x < p_of d /\ 0 <= y < p_of d.
Proof.
  intros Hp Hz. unfold coordinates, affine. rewrite (proj2 (Z.eqb_neq _ _) Hz).
  destruct (is_weierstrass _); split; by apply Z.mod_pos_bound.
Qed.

Lemma wp_ecpoint_normalize W h o p d vx vy vz s {B} (Q : B -> mpi_state E -> Prop) k : cx_ecdomain (ec_curve p) = Some d ->
  holds W h o (slots_of p) [vx; vy; vz] s -> Forall (fits W) [vx; vy; vz] -> room 5 W (dom_length d) h -> vz <> 0 ->
  (forall s, holds W h o (slots_of p) (let (x, y) := coordinates d vx vy vz in [x; y; 1]) s -> wp (k (CX_OK, mpi_of p)) Q s) ->
  wp (mbind (cx_ecpoint_normalize p) k) Q s.
Proof.
  intros Hc Hh Hf Hroom Hz H. unfold cx_ecpoint_normalize. apply wp_assoc. eapply wp_point; [done..|]. cbv iota beta.
  change (truthy CX_OK) with false. cbv iota. apply wp_assoc, wp_bind. eapply wp_mono; [by eapply (wp_normalize W h o _ _ _ _ _ _ _ d)|].
  intros error s'. rewrite (proj2 (Z.eqb_neq _ _) Hz). intros [-> Hs']. apply wp_mret. apply H.
  unfold coordinates. rewrite (proj2 (proj1 (cx_ecdomain_ok _ _) Hc)). unfold mpi_of in Hs'.
  destruct (Z.eqb_spec vz 1) as [->|]; [done|]. by destruct (affine _ _ _ _ _).
Qed.

Lemma compress_slots p : is_weierstrass (ec_curve p) || is_twisted_edwards (ec_curve p) || is_montgomery (ec_curve p) = true ->
  compress_coordinates (mpi_of p) =
    Some (if is_twisted_edwards (ec_curve p) then (Z.to_nat (ec_y p), Z.to_nat (ec_x p)) else (Z.to_nat (ec_x p), Z.to_nat (ec_y p))).
Proof.
  intros H. unfold compress_coordinates. cbn [pt_curve pt_x pt_y mpi_of].
  destruct (is_weierstrass (ec_curve p)) eqn:Ew; [by rewrite (weierstrass_not_edwards _ Ew)|].
  destruct (is_twisted_edwards (ec_curve p)); [done|]. cbn in H. by rewrite H.
Qed.

(** The bytes of one coordinate and the parity of the other. *)
Lemma wp_compress W h o p d vx vy vz buf len s {B} (Q : B -> mpi_state E -> Prop) k : cx_ecdomain (ec_curve p) = Some d ->
  holds W h o (slots_of p) [vx; vy; vz] s -> Forall (fits W) [vx; vy; vz] -> room 5 W (dom_length d) h -> vz <> 0 ->
  0 <= len <= zlen buf ->
  let xy := coordinates d vx vy vz in
  (0 <= fst xy < p_of d -> 0 <= snd xy < p_of d -> forall s, holds W h o (slots_of p) [fst xy; snd xy; 1] s ->
     wp (k (CX_OK, be_split (Z.to_nat len) (kept_of (dom_curve d) xy) ++ zdrop len buf,
            Some (Z.b2z (Z.odd (solved_of (dom_curve d) xy))))) Q s) ->
  0 <= fst xy < p_of d -> 0 <= snd xy < p_of d -> wp (mbind (sys_cx_ecpoint_compress p buf len) k) Q s.
Proof.
  intros Hc Hh Hf Hroom Hz Hlen xy H Hx Hy. specialize (H Hx Hy). pose proof (ecdomain_ok _ _ Hc) as Hd.
  assert (word_ok W) as HW by (by destruct Hh). pose proof (do_type _ Hd) as Hty.
  pose proof (fits_of d W _ Hd HW Hx) as Fx. pose proof (fits_of d W _ Hd HW Hy) as Fy.
  unfold sys_cx_ecpoint_compress. apply wp_assoc. eapply wp_ecpoint_normalize; [done..|]. clear dependent s. intros s Hs.
  fold xy in Hs. destruct xy as [x y]. cbn [fst snd] in *. cbv iota beta. change (truthy CX_OK) with false. cbv iota.
  unfold kept_of, solved_of in H. cbn [fst snd] in H.
  rewrite (proj2 (proj1 (cx_ecdomain_ok _ _) Hc)) in *. rewrite compress_slots by done. unfold slots_of in Hs.
  destruct (is_twisted_edwards (ec_curve p)); apply wp_assoc; mpi_step; cbv iota beta; mpi_step; apply wp_assoc; mpi_step;
    cbv iota beta; mpi_step; apply wp_mret; rewrite Z.bit0_odd; specialize (H s Hs); cbn [default]; by destruct (Z.odd _).
Qed.

(** The compression of one point and its decompression into another one. *)
Definition compress_then_decompress (p q : cx_ecpoint_t) (buf : list Z) (len : Z) : P (Z * Z) :=
  let! (error, out, sign) := sys_cx_ecpoint_compress p buf len in
  let! sign := mlift sign in
  let! error' := sys_cx_ecpoint_decompress q out len sign in
  mret (error, error').

Lemma point_of_kept c xy : point_of c (kept_of c xy) (solved_of c xy) = xy.
Proof. unfold point_of, kept_of, solved_of. destruct xy. by destruct (is_twisted_edwards c). Qed.

Lemma below_length d len v : domain_ok d -> dom_length d <= len -> 0 <= v < p_of d -> v mod 256 ^ len = v.
Proof.
  intros Hd Hl Hv. pose proof (do_length _ Hd). pose proof (do_size _ Hd) as [[_ Hp] Hb]. apply Z.mod_small. split; [lia|].
  apply Z.lt_trans with (p_of d); [lia|]. apply Z.lt_le_trans with (2 ^ dom_bit_size d); [done|].
  change 256 with (2 ^ 8). rewrite <- Z.pow_mul_r by lia. apply Z.pow_le_mono_r; lia.
Qed.

(** C9: c-compress_decompress: a point of a curve over a prime field, affine or
    projective, is compressed without error into a buffer of the length of the
    curve or more, and decompressed into the same affine point. *)
Theorem compress_decompress W h o p q d vx vy vz wx wy wz buf len s : cx_ecdomain (ec_curve p) = Some d -> ec_curve q = ec_curve p ->
  Z.prime (p_of d) -> holds W h o (slots_of p ++ slots_of q) ([vx; vy; vz] ++ [wx; wy; wz]) s -> Forall (fits W) [vx; vy; vz] ->
  room 6 W (dom_length d) h -> vz <> 0 -> dom_length d <= len <= zlen buf ->
  let (x, y) := coordinates d vx vy vz in
  0 <= x < p_of d -> 0 <= y < p_of d -> on_curve d x y = true ->
  exists s', compress_then_decompress p q buf len s = Ret (CX_OK, CX_OK) s' /\
    holds W h o (slots_of p ++ slots_of q) ([x; y; 1] ++ [x; y; 1]) s'.
Proof.
  intros Hc Hq Hp Hh Hf Hroom Hz Hlen. destruct (coordinates d vx vy vz) as [x y] eqn:Exy. intros Hx Hy Hon.
  pose proof (ecdomain_ok _ _ Hc) as Hd. pose proof (do_length _ Hd) as Hlength. assert (word_ok W) as HW by (by destruct Hh).
  destruct (proj1 (cx_ecdomain_ok _ _) Hc) as [Hin Hcurve]. set (c := dom_curve d) in *.
  assert (wp (compress_then_decompress p q buf len) (fun r s' => r = (CX_OK, CX_OK) /\
    holds W h o (slots_of p ++ slots_of q) ([x; y; 1] ++ [x; y; 1]) s') s) as Hwp.
  2: { apply wp_ret_inv in Hwp as (r & s' & Hrun & -> & Hs'). by exists s'. }
  unfold compress_then_decompress. eapply (wp_compress W h (num s) p d vx vy vz);
    [done|by eapply holds_part|done|apply (room_less 6); [lia|done|lia|done]|done|lia| |by rewrite Exy|by rewrite Exy].
  rewrite Exy. cbn [fst snd]. intros _ _ s1 Hs1. pose proof (holds_rejoin W h o (slots_of p) (slots_of q) [vx; vy; vz] [wx; wy; wz] s _ s1 eq_refl Hh Hs1) as Hs2.
  apply holds_swap in Hs2; [|done].
  fold c. set (k := kept_of c (x, y)). set (v := solved_of c (x, y)). unfold wp at 1. rewrite (mlift_some _ _ _ (Z.b2z (Z.odd v))) by done.
  assert (0 <= k < p_of d /\ 0 <= v < p_of d) as [Hk Hv] by (unfold k, v, kept_of, solved_of; by destruct (is_twisted_edwards c)).
  assert (zlen (be_split (Z.to_nat len) k) = len) as Hsplit by (apply zlen_be_split; lia).
  eapply wp_bind, wp_mono; [eapply (wp_decompress W h (num s1) q d wx wy wz _ _ (be_split (Z.to_nat len) k))|].
  - by rewrite Hq.
  - by eapply holds_part.
  - by apply read_at_prefix.
  - done.
  - intros error s' (v' & Hs' & Hr). apply wp_ret. rewrite Hq, <- Hcurve in Hs'. rewrite be_combine_split, Z2Nat.id, (below_length d) in Hs', Hr by (done || lia).
    assert (completes d k (Z.b2z (Z.odd v)) v) as Hcomp.
    { split; [done|]. split; [by destruct (Z.odd v)|]. fold c. unfold k, v. by rewrite point_of_kept. }
    apply rooted_completes in Hr as [[-> Hv']|[_ Hno]]; [|by destruct (Hno v)|done|done].
    rewrite (completes_unique d k _ v' v) in Hs' by done. fold c in Hs'. unfold k, v in Hs'. rewrite point_of_kept in Hs'.
    split; [done|]. apply holds_swap; [done|]. by apply (holds_rejoin W h o (slots_of q) (slots_of p) [wx; wy; wz] [x; y; 1] s1).
Qed.

(** *** Memory *)

Lemma holds_locked W h o xs vs s {B} (k : Z -> P B) : holds W h o xs vs s -> mbind cx_bn_locked k s = k CX_OK s.
Proof. intros [_ Hw _ Hb _ _ _]. by rewrite (locked_run h k s Hb), Hw. Qed.

Lemma holds_bn_alloc W h o xs vs s size k bn : holds W h o xs vs s -> 0 <= size <= 2 ^ 30 -> room (S k) W size h ->
  exists i s', bn_alloc_at bn size s = Ret (CX_OK, Z.of_nat i) s' /\ held h !! i = Some None /\ o i = None /\ 
    holds W (mk_heap (word h) (<[i := Some (round_to W size)]> (held h))) o (xs ++ [i]) (vs ++ [0]) s'.
Proof.
  intros Hh Hs Hroom. destruct (holds_alloc W h o xs vs s size k Hh Hs Hroom) as (i & s' & Ha & Hi & Ho & _ & Hh').
  exists i, s'. split; [|done]. unfold bn_alloc_at, sys_cx_bn_alloc. rewrite mbind_assoc, (holds_locked W h o xs vs) by done.
  change (truthy CX_OK) with false. cbv iota. rewrite mbind_assoc. by rewrite (mbind_ret _ _ _ _ _ Ha).
Qed.

(** A point is allocated: three numbers that were free. *)
Lemma holds_ecpoint_alloc W h o xs vs s p curve d k : cx_ecdomain curve = Some d -> holds W h o xs vs s -> room (3 + k) W (dom_length d) h ->
  exists q s', sys_cx_ecpoint_alloc p curve s = Ret (CX_OK, q) s' /\ ec_curve q = curve /\
    map Z.of_nat (slots_of q) = [ec_x q; ec_y q; ec_z q] /\
    Forall (fun y => o y = None /\ held h !! y = Some None) (slots_of q) /\
    room k W (dom_length d) (taking (round_to W (dom_length d)) (slots_of q) h) /\
    holds W (taking (round_to W (dom_length d)) (slots_of q) h) o (xs ++ slots_of q) (vs ++ [0; 0; 0]) s'.
Proof.
  intros Hc Hh Hroom. pose proof (ecdomain_ok _ _ Hc) as Hd. pose proof (do_length _ Hd) as Hl. pose proof Hh as [Hok Hw [_ HW] Hb _ _ _].
  pose proof Hok as [_ Hok2]. rewrite Hw in Hok2. destruct Hok2 as (_ & _ & Hfo & _). pose proof (used_nonneg W _ Hfo).
  set (n := round_to W (dom_length d)) in *. pose proof (round_to_twice W (dom_length d) ltac:(lia) ltac:(lia)) as Htw. fold n in Htw.
  assert (0 <= n <= 2 ^ 30) as Hn by (destruct (round_to_ok W (dom_length d) ltac:(lia) ltac:(lia)); destruct Hroom as [_ Hr]; unfold MAX_MPI_BYTE_SIZE in Hr; fold n in Hr; unfold n in *; nia).
  assert (forall j h', room j W (dom_length d) h' -> room j W n h') as Hrn by (intros j h'; unfold room; by rewrite Htw).
  destruct (holds_bn_alloc W h o xs vs s n (2 + k) bn_none Hh Hn (Hrn _ _ Hroom)) as (x & s1 & A1 & I1 & O1 & H1). rewrite Htw in H1.
  apply (room_taking (2 + k) n) with (i := x) in Hroom; [|done|done].
  destruct (holds_bn_alloc _ _ _ _ _ s1 n (1 + k) bn_none H1 Hn (Hrn _ _ Hroom)) as (y & s2 & A2 & I2 & O2 & H2). rewrite Htw in H2.
  apply (room_taking (1 + k) n) with (i := y) in Hroom; [|done|done].
  destruct (holds_bn_alloc _ _ _ _ _ s2 n k bn_none H2 Hn (Hrn _ _ Hroom)) as (z & s3 & A3 & I3 & O3 & H3). rewrite Htw in H3.
  apply (room_taking k n) with (i := z) in Hroom; [|done|done]. cbn [held] in I2, I3.
  assert (forall i j (l : list (option Z)), <[i := Some n]> l !! j = Some None -> l !! j = Some None) as Hfree.
  { intros i j l. destruct (decide (i = j)) as [->|]; [|by rewrite list_lookup_insert_ne].
    intros Hi. destruct (decide (j < length l)%nat); [by rewrite list_lookup_insert_eq in Hi|by rewrite list_insert_ge in Hi by lia]. }
  exists (mk_ecpoint (Z.of_nat x) (Z.of_nat y) (Z.of_nat z) curve), s3. unfold sys_cx_ecpoint_alloc, slots_of.
  cbn [ec_x ec_y ec_z ec_curve]. rewrite !Nat2Z.id. split.
  - rewrite (holds_locked W h o xs vs) by done. change (truthy CX_OK) with false. cbv iota. rewrite Hc.
    rewrite (mbind_ret _ _ _ _ _ (word_bytes_books h W (dom_length d) s Hok Hb Hw ltac:(lia))). fold n.
    rewrite (mbind_ret _ _ _ _ _ A1). change (truthy CX_OK) with false. cbv iota beta.
    rewrite (mbind_ret _ _ _ _ _ A2). change (truthy CX_OK) with false. cbv iota beta. by rewrite (mbind_ret _ _ _ _ _ A3).
  - split; [done|]. split; [done|]. split; [|split].
    + repeat (apply Forall_cons; split); [by split|split; [done|by eapply Hfree]|split; [done|by do 2 eapply Hfree]|by apply Forall_nil_2].
    + exact Hroom.
    + by rewrite <- !app_assoc in H3.
Qed.

(** A point is destroyed: its numbers are freed. *)
Lemma holds_ecpoint_destroy W h o xs vs p x y z s : holds W h o (xs ++ slots_of p) (vs ++ [x; y; z]) s -> length vs = length xs ->
  map Z.of_nat (slots_of p) = [ec_x p; ec_y p; ec_z p] -> Forall (fun y => o y = None) (slots_of p) ->
  exists s', sys_cx_ecpoint_destroy (Some p) s = Ret (CX_OK, Some (mk_ecpoint 0 0 0 0)) s' /\
    holds W (freeing (slots_of p) h) o xs vs s'.
Proof.
  intros Hh Hl [= Ex Ey Ez] Ho. unfold slots_of in *. rewrite !Forall_cons in Ho. destruct Ho as (Ox & Oy & Oz & _).
  destruct (holds_free W h o xs _ _ vs _ _ s Hh Hl Ox) as (s1 & D1 & H1). destruct (holds_free W _ o xs _ _ vs _ _ s1 H1 Hl Oy) as (s2 & D2 & H2).
  destruct (holds_free W _ o xs _ _ vs _ _ s2 H2 Hl Oz) as (s3 & D3 & H3). rewrite Ex in D1. rewrite Ey in D2. rewrite Ez in D3.
  exists s3. rewrite !app_nil_r in H3. split; [|exact H3]. unfold sys_cx_ecpoint_destroy, check, sys_cx_bn_destroy. rewrite !mbind_assoc.
  rewrite (holds_locked W _ o _ _ s) by done. change (truthy CX_OK) with false. cbv iota.
  rewrite mbind_assoc, (mbind_ret _ _ _ _ _ D1). change (truthy CX_OK) with false. cbv iota.
  rewrite mbind_assoc, (mbind_ret _ _ _ _ _ D2). change (truthy CX_OK) with false. cbv iota. by rewrite (mbind_ret _ _ _ _ _ D3).
Qed.
End proofs.

(** * Examples *)

Import Integers.

(** The numbers [vs] in the first slots of a context in words of 16 bytes. *)
Lemma holding_holds vs : (length vs <= 64)%nat -> books_of (holding vs []) = accounts (holding_heap (length vs)) ->
  map (num (holding vs [])) (seq 0 (length vs)) = map Some vs ->
  holds 16 (holding_heap (length vs)) (num (holding vs [])) (seq 0 (length vs)) vs (holding vs []).
Proof. intros Hl Hb Hn. split; try done; [by apply holding_heap_ok|apply NoDup_ListNoDup, seq_NoDup]. Qed.

Definition ed25519_point (n : Z) : cx_ecpoint_t := mk_ecpoint n (n + 1) (n + 2) CX_CURVE_Ed25519.

Lemma p_of_ed25519 : p_of C_cx_Ed25519 = 2 ^ 255 - 19.
Proof. vm_compute. reflexivity. Qed.

(** The generator of Ed25519 from its ordinate: its abscissa is even. *)
Lemma decompress_ok_witness : exists error v s',
  sys_cx_ecpoint_decompress (ed25519_point 0) (dom_Gy C_cx_Ed25519) 32 0 (holding [0; 0; 0] []) = Ret error s' /\
  holds 16 (holding_heap 3) (num (holding [0; 0; 0] [])) (slots_of (ed25519_point 0))
    (let (x, y) := point_of CX_CURVE_Ed25519 (be_combine (dom_Gy C_cx_Ed25519)) v in [x; y; 1]) s' /\
  (error = CX_OK /\ completes C_cx_Ed25519 (be_combine (dom_Gy C_cx_Ed25519)) 0 v \/
   error <> CX_OK /\ forall u, ~ completes C_cx_Ed25519 (be_combine (dom_Gy C_cx_Ed25519)) 0 u).
Proof.
  apply (decompress_ok 16 (holding_heap 3) _ (ed25519_point 0) C_cx_Ed25519 0 0 0).
  - reflexivity.
  - rewrite p_of_ed25519. apply prime_25519.
  - apply (holding_holds [0; 0; 0]); [cbn; lia|by vm_compute|by vm_compute].
  - reflexivity.
  - split; vm_compute; [lia|discriminate].
Defined.

(** The generator with the coordinate [z] = 1 goes through its compressed form of 40 bytes. *)
Lemma compress_decompress_witness : exists s',
  compress_then_decompress (ed25519_point 0) (ed25519_point 3) (zeros 40) 40
    (holding ([Gx_of C_cx_Ed25519; Gy_of C_cx_Ed25519; 1] ++ [5; 6; 7]) []) = Ret (CX_OK, CX_OK) s' /\
  holds 16 (holding_heap 6) (num (holding ([Gx_of C_cx_Ed25519; Gy_of C_cx_Ed25519; 1] ++ [5; 6; 7]) []))
    (slots_of (ed25519_point 0) ++ slots_of (ed25519_point 3))
    ([Gx_of C_cx_Ed25519; Gy_of C_cx_Ed25519; 1] ++ [Gx_of C_cx_Ed25519; Gy_of C_cx_Ed25519; 1]) s'.
Proof.
  refine (compress_decompress 16 (holding_heap 6) _ (ed25519_point 0) (ed25519_point 3) C_cx_Ed25519
    (Gx_of C_cx_Ed25519) (Gy_of C_cx_Ed25519) 1 5 6 7 (zeros 40) 40 _ _ _ _ _ _ _ _ _ _ _ _).
  - reflexivity.
  - reflexivity.
  - rewrite p_of_ed25519. apply prime_25519.
  - apply (holding_holds ([Gx_of C_cx_Ed25519; Gy_of C_cx_Ed25519; 1] ++ [5; 6; 7])); [cbn; lia|by vm_compute|by vm_compute].
  - repeat (apply Forall_cons; split); [..|by apply Forall_nil_2]; split; vm_compute; discriminate.
  - split; vm_compute; [lia|discriminate].
  - discriminate.
  - split; vm_compute; discriminate.
  - split; vm_compute; [discriminate|reflexivity].
  - split; vm_compute; [discriminate|reflexivity].
  - vm_compute. reflexivity.
Defined.
