(* ===== verification/CxMontgomery.v ===== *)
(** The functions X25519 and X448: the scalar multiplication of
    [src/bolos/cx_montgomery.c] on the abscissas of the Montgomery curves, with
    the numbers of a context, and the system calls of [cx_ecpoint.c] on it. It
    is shown to be the ladder of the textbook on a decoded scalar, and so to
    agree with the other implementation of the program, on limbs, that
    Curve25519.v models. *)

From S2P Require Import Prelude CxUtils OpensslBn BeBytes ModArith CxMpi CxBn MpiSlots CxEcTables CxEcDomain CxEcCurves CxEcPoint.
From S2P Require Import Field25519 Curve25519.

(** * Operations *)

Definition MAX_MONT_BYTE_LEN : Z := 56.

(** [k[k_len - 1 - pos / 8] >> (pos % 8) & 1]. *)
Definition cx_internal_get_bit (k : list Z) (k_len pos : Z) : option Z :=
  c ← k !! Z.to_nat (w32 (w32 (k_len - 1) - pos / 8));
  Some (Z.land (w8 (Z.shiftr c (pos mod 8))) 1).

(** The loop reads the whole buffer, from its end. *)
Definition cx_is_buffer_zero (buffer : list Z) (buffer_len : Z) : option bool :=
  b ← read_at buffer 0 buffer_len;
  Some (negb (foldr (fun x i => i || truthy x) false b)).

(** The bytes of [rev]. *)
Definition cx_reverse_buffer (buf rev_buf : list Z) (buf_len : Z) : option (list Z) :=
  rev_buf ← memset_at rev_buf 0 0 buf_len;
  b ← read_at buf 0 buf_len;
  write_at rev_buf 0 (rev b).

(** [buf[i] = f(buf[i])]. *)
Definition buf_update (buf : list Z) (i : nat) (f : Z -> Z) : option (list Z) :=
  x ← buf !! i; Some (<[i := w8 (f x)]> buf).

Definition cx_decode_scalar (curve : Z) (k k_enc : list Z) (k_len : Z) : option (list Z) :=
  b ← read_at k 0 k_len;
  buf ← write_at (zeros MAX_MONT_BYTE_LEN) 0 b;
  buf ← (if curve =? CX_CURVE_Curve25519 then
           buf ← buf_update buf 0 (fun x => Z.land x 0xF8);
           buf ← buf_update buf 31 (fun x => Z.land x 0x7F);
           buf_update buf 31 (fun x => Z.lor x 0x40)
         else
           buf ← buf_update buf 0 (fun x => Z.land x 0xFC);
           buf_update buf 55 (fun x => Z.lor x 0x80));
  cx_reverse_buffer buf k_enc k_len.

Section montgomery.
Context {E : Type} `{!OpensslBn E}.
Local Abbreviation P := (M (mpi_state E)).

Definition cx_decode_coordinate (curve : Z) (u : nat) (nbytes : Z) : P unit :=
  do! (if curve =? CX_CURVE_Curve25519 then
         let! (_, buf) := cx_mpi_export u (zeros MAX_MONT_BYTE_LEN) nbytes in
         let! buf := mlift (buf_update buf 31 (fun x => Z.land x 0x7F)) in
         do! cx_mpi_init u buf nbytes in
         mret tt
       else mret tt) in
  cx_mpi_reverse u nbytes.

(** The numbers of the ladder. *)
Record mont_numbers := mk_mont {
  mo_n : nat; mo_a : nat; mo_v0 : nat; mo_v1 : nat; mo_v2 : nat; mo_v3 : nat; mo_x : nat;
  mo_P1 : cx_mpi_ecpoint_t; mo_P2 : cx_mpi_ecpoint_t }.

(** The body of the loop after the swaps. *)
Definition mont_step (r : mont_numbers) : P unit :=
  let '(mk_mont n a v0 v1 v2 v3 x P1 P2) := r in
  do! cx_mpi_mod_add v1 (pt_x P1) (pt_z P1) n in
  do! cx_mpi_mod_sub v2 (pt_x P1) (pt_z P1) n in
  do! cx_mpi_mod_sub (pt_x P1) (pt_x P2) (pt_z P2) n in
  do! cx_mpi_mod_mul (pt_z P1) (pt_x P1) v1 n in
  do! cx_mpi_mod_add (pt_x P1) (pt_x P2) (pt_z P2) n in
  do! cx_mpi_mod_mul (pt_x P2) (pt_x P1) v2 n in
  do! cx_mpi_mod_sub (pt_x P1) (pt_z P1) (pt_x P2) n in
  do! cx_mpi_mod_mul v3 (pt_x P1) (pt_x P1) n in
  do! cx_mpi_mod_mul (pt_z P2) x v3 n in
  do! cx_mpi_mod_add (pt_z P1) (pt_z P1) (pt_x P2) n in
  do! cx_mpi_mod_mul (pt_x P2) (pt_z P1) (pt_z P1) n in
  do! cx_mpi_mod_mul v3 v1 v1 n in
  do! cx_mpi_mod_add v3 v3 v0 n in
  do! cx_mpi_mod_mul v1 v2 v2 n in
  do! cx_mpi_mod_mul (pt_x P1) v3 v1 n in
  do! cx_mpi_mod_sub v1 v3 v1 n in
  do! cx_mpi_mod_mul v2 v1 a n in
  do! cx_mpi_mod_add v2 v2 v3 n in
  do! cx_mpi_mod_mul (pt_z P1) v1 v2 n in
  mret tt.

(** [for (i = k - 1; i >= 0; i--)], and the last [swap]. *)
Fixpoint mont_loop (scalar_copy : list Z) (scalar_len : Z) (r : mont_numbers) (k : nat) (swap : Z) : P Z :=
  match k with
  | O => mret swap
  | S i =>
      let! bit := mlift (cx_internal_get_bit scalar_copy scalar_len (Z.of_nat i)) in
      do! cx_mpi_swap (pt_x (mo_P1 r)) (pt_x (mo_P2 r)) (Z.lxor swap bit) in
      do! cx_mpi_swap (pt_z (mo_P1 r)) (pt_z (mo_P2 r)) (Z.lxor swap bit) in
      do! mont_step r in
      mont_loop scalar_copy scalar_len r i bit
  end.

(** From the decoding of the abscissa to the affine result. *)
Definition mont_compute (curve : Z) (domain : cx_curve_domain_t) (nbytes : Z) (u : nat) (scalar : list Z) (scalar_len : Z)
    (r : mont_numbers) : P Z :=
  let '(mk_mont n a v0 v1 v2 v3 x P1 P2) := r in
  do! cx_decode_coordinate curve u nbytes in
  let! scalar_copy := mlift (cx_decode_scalar curve scalar (zeros MAX_MONT_BYTE_LEN) scalar_len) in
  do! cx_mpi_rem (pt_x P2) u n in
  do! cx_mpi_set_u32 (pt_x P1) 1 in
  do! cx_mpi_set_u32 (pt_z P1) 0 in
  do! cx_mpi_set_u32 (pt_z P2) 1 in
  do! cx_mpi_init v1 (dom_a domain) nbytes in
  do! cx_mpi_set_u32 v2 2 in
  do! cx_mpi_sub v1 v1 v2 in
  do! cx_mpi_shr v1 2 in
  do! cx_mpi_copy x (pt_x P2) in
  do! cx_mpi_copy a v1 in
  let bit_pos := dom_bit_size domain - 1 in
  let bit_pos := if curve =? CX_CURVE_Curve25519 then bit_pos - 1 else bit_pos in
  do! cx_mpi_set_u32 v0 0 in
  let! swap := mont_loop scalar_copy scalar_len r (Z.to_nat (bit_pos + 1)) 0 in
  do! cx_mpi_swap (pt_x P1) (pt_x P2) swap in
  do! cx_mpi_swap (pt_z P1) (pt_z P2) swap in
  check (cx_mpi_mod_invert_nprime v1 (pt_z P1) n) (
         cx_mpi_mod_mul u v1 (pt_x P1) n).

(** A failure before the allocation of the second point leaves handles that are
    not initialised and that the end of the function destroys: it is undefined. *)
Definition cx_montgomery_mul_coordinate (curve : Z) (u_coordinate : nat) (scalar : list Z) (scalar_len : Z) : P Z :=
  let! zero := mlift (cx_is_buffer_zero scalar scalar_len) in
  if zero : bool then mret CX_EC_INFINITE_POINT
  else
    match cx_ecdomain curve with
    | None => mret CX_INVALID_PARAMETER
    | Some domain =>
        if negb (curve =? CX_CURVE_Curve448) && negb (curve =? CX_CURVE_Curve25519) then mret CX_INVALID_PARAMETER
        else
          let nbytes := w8 (dom_length domain) in
          let! (n, bn_n) := cx_mpi_alloc_init nbytes (dom_p domain) nbytes in
          match n with
          | None => mfault
          | Some n =>
              let! (xs, bns, ok) := alloc_all false nbytes 6 in
              if negb ok then mfault
              else
                let! (error, ec_P1) := sys_cx_ecpoint_alloc (mk_ecpoint 0 0 0 0) curve in
                if truthy error then mfault
                else
                  let! (error, ec_P2) := sys_cx_ecpoint_alloc (mk_ecpoint 0 0 0 0) curve in
                  let! error :=
                    (if truthy error then mret error
                     else
                       with_mpi (cx_mpi_ecpoint_from_ecpoint ec_P1) (fun P1 =>
                       with_mpi (cx_mpi_ecpoint_from_ecpoint ec_P2) (fun P2 =>
                         match xs with
                         | [a; v0; v1; v2; v3; x] =>
                             mont_compute curve domain nbytes u_coordinate scalar scalar_len (mk_mont n a v0 v1 v2 v3 x P1 P2)
                         | _ => mfault
                         end))) in
                  do! destroy_all (bn_n :: bns) in
                  do! sys_cx_ecpoint_destroy (Some ec_P1) in
                  do! sys_cx_ecpoint_destroy (Some ec_P2) in
                  mret error
          end
    end.

(** [cx_ecpoint.c]: [allocated] says whether [malloc] succeeds; the bytes of
    [u] are not used, and the error of the multiplication is not returned. *)
Definition ecpoint_mul_coordinate (curve : Z) (allocated : bool) (bn_u : Z) (k : list Z) (k_len : Z) : P Z :=
  with_mpi (cx_bn_to_mpi bn_u) (fun u =>
    let! nbytes := cx_mpi_nbytes u in
    if negb allocated then mret CX_MEMORY_FULL
    else
      let! n := bn_get u in
      match BN_bn2binpad n nbytes with
      | Some _ => do! cx_montgomery_mul_coordinate curve u k k_len in mret CX_OK
      | None => mret CX_INTERNAL_ERROR
      end).

Definition sys_cx_ecpoint_x25519 : bool -> Z -> list Z -> Z -> P Z := ecpoint_mul_coordinate CX_CURVE_Curve25519.
Definition sys_cx_ecpoint_x448 : bool -> Z -> list Z -> Z -> P Z := ecpoint_mul_coordinate CX_CURVE_Curve448.
End montgomery.

(** * The ladder of the textbook *)

(** On the curve [b y^2 = x^3 + A x^2 + x] modulo [p], as in Curve25519.v for one of them. *)
Definition mont_dbl (p A : Z) (P : Z * Z) : Z * Z :=
  let '(x, z) := P in
  ((x ^ 2 - z ^ 2) ^ 2 mod p, (4 * x * z * (x ^ 2 + A * x * z + z ^ 2)) mod p).

Definition mont_add (p u : Z) (P Q : Z * Z) : Z * Z :=
  let '(x2, z2) := P in let '(x3, z3) := Q in
  (4 * (x2 * x3 - z2 * z3) ^ 2 mod p, (4 * u * (x2 * z3 - z2 * x3) ^ 2) mod p).

Definition mont_next (p A u : Z) (b : bool) (s : (Z * Z) * (Z * Z)) : (Z * Z) * (Z * Z) :=
  let '(P, Q) := s in if b then (mont_add p u P Q, mont_dbl p A Q) else (mont_dbl p A P, mont_add p u P Q).

Fixpoint mont_ladder (p A u k : Z) (n : nat) (s : (Z * Z) * (Z * Z)) : (Z * Z) * (Z * Z) :=
  match n with
  | O => s
  | S n => mont_ladder p A u k n (mont_next p A u (Z.testbit k (Z.of_nat n)) s)
  end.

(** The abscissa of the multiple by the [n] low bits of [k]. *)
Definition mont_multiple (p A u k : Z) (n : nat) : Z :=
  let '((x, z), _) := mont_ladder p A u k n ((1, 0), (u, 1)) in (x * inverse p z) mod p.

(** The scalar of RFC 7748: multiple of the cofactor, with its top bit set; and the abscissa. *)
Definition clamped (curve k : Z) : Z :=
  if curve =? CX_CURVE_Curve25519 then 2 ^ 254 + 8 * ((k mod 2 ^ 254) / 8) else 2 ^ 447 + 4 * ((k mod 2 ^ 447) / 4).

Definition decoded (curve u : Z) : Z := if curve =? CX_CURVE_Curve25519 then u mod 2 ^ 255 else u.

(** * Proofs *)

(** ** Bytes *)

Lemma le_combine_last l x : le_combine (l ++ [x]) = le_combine l + 256 ^ zlen l * x.
Proof. rewrite le_combine_app. cbn [le_combine]. by rewrite Z.mul_0_r, Z.add_0_r. Qed.

(** The last byte is reduced. *)
Lemma le_combine_mod l x m : bytes_ok l -> 0 < m -> le_combine (l ++ [x mod m]) = le_combine (l ++ [x]) mod (256 ^ zlen l * m).
Proof.
  intros Hl Hm. rewrite !le_combine_last. pose proof (le_combine_bound l Hl) as B. pose proof (Z.mod_pos_bound x m Hm).
  apply Z.mod_unique with (x / m); [left; nia|]. rewrite (Z.div_mod x m) at 1 by lia. lia.
Qed.

(** The first byte is cut. *)
Lemma le_combine_cut x l m : 0 < m -> (m | 256) -> le_combine (m * (x / m) :: l) = m * (le_combine (x :: l) / m).
Proof.
  intros Hm [k Hk]. cbn [le_combine]. rewrite Hk.
  replace (x + k * m * le_combine l) with (x + (k * le_combine l) * m) by ring. rewrite Z.div_add by lia. ring.
Qed.

Lemma for_bytes f x : forallb f (seqZ 0 256) = true -> is_byte x -> f x = true.
Proof. intros H Hx. rewrite forallb_forall in H. apply H, list_elem_of_In, elem_of_seqZ. unfold is_byte in Hx. lia. Qed.

Lemma mask_bytes x : is_byte x ->
  w8 (Z.land x 0xF8) = 8 * (x / 8) /\ w8 (Z.land x 0xFC) = 4 * (x / 4) /\ w8 (Z.land x 0x7F) = x mod 128 /\
  w8 (Z.lor (x mod 128) 0x40) = 64 + x mod 64 /\ w8 (Z.lor x 0x80) = 128 + x mod 128.
Proof.
  intros Hx. rewrite <- !Z.eqb_eq, <- !andb_true_iff.
  apply (for_bytes (fun x => (w8 (Z.land x 0xF8) =? 8 * (x / 8)) && ((w8 (Z.land x 0xFC) =? 4 * (x / 4)) &&
    ((w8 (Z.land x 0x7F) =? x mod 128) && ((w8 (Z.lor (x mod 128) 0x40) =? 64 + x mod 64) && (w8 (Z.lor x 0x80) =? 128 + x mod 128)))))
    x); [by vm_compute|done].
Qed.

Lemma buf_update_at l1 x l2 f : buf_update (l1 ++ x :: l2) (length l1) f = Some (l1 ++ w8 (f x) :: l2).
Proof.
  unfold buf_update. rewrite list_lookup_middle by done. cbn [option_bind base.mbind]. f_equal.
  by rewrite insert_app_r_alt, Nat.sub_diag by done.
Qed.

Lemma read_at_prefix' (l : list Z) n : zlen l = n -> read_at l 0 n = Some l.
Proof. intros <-. apply read_at_all. Qed.

Lemma split_ends (k : list Z) : 2 <= zlen k -> exists x mid y, k = x :: mid ++ [y].
Proof.
  intros H. destruct k as [|x k]; [rewrite (@zlen_nil Z) in H; lia|]. rewrite zlen_cons in H.
  destruct (@exists_last _ k) as (mid & y & ->); [intros ->; rewrite (@zlen_nil Z) in H; lia|]. by exists x, mid, y.
Qed.

Lemma reverse_buffer_ok l r buf n : zlen l = n -> n <= zlen buf ->
  cx_reverse_buffer (l ++ r) buf n = Some (rev l ++ zdrop n buf).
Proof.
  intros Hl Hn. pose proof (zlen_nonneg l). unfold cx_reverse_buffer, memset_at. destruct (Z.leb_spec 0 n); [|lia].
  rewrite write_at_ok by (rewrite ?zlen_replicate; lia). rewrite zlen_replicate, Z2Nat.id, Z.add_0_l by lia. cbn [option_bind base.mbind].
  rewrite (read_at_prefix l r n Hl). cbn [option_bind base.mbind]. assert (zlen (rev l) = n) as Hr by (unfold zlen in *; by rewrite length_rev).
  rewrite ztake_0. cbn [app]. rewrite write_at_ok by (rewrite ?zlen_app, ?zlen_replicate, ?zlen_zdrop by lia; lia).
  rewrite ztake_0, Hr, Z.add_0_l. cbn [app]. do 2 f_equal. rewrite zdrop_app_l; [done|]. rewrite zlen_replicate. lia.
Qed.

(** The low bits of the first byte are cleared, the bit [M] of the last one is set and the ones above it are cleared. *)
Lemma clamp_bytes x mid y c M N : bytes_ok (x :: mid) -> 0 < c -> (c | 256) -> 0 < M -> N = 256 ^ zlen (x :: mid) * M -> (c | N) ->
  le_combine (c * (x / c) :: mid ++ [M + y mod M]) = N + c * (le_combine (x :: mid ++ [y]) mod N / c).
Proof.
  intros Hb Hc Hd HM -> [k Hk]. rewrite le_combine_cut by done. rewrite !app_comm_cons, <- le_combine_mod, !le_combine_last by done.
  rewrite Z.mul_add_distr_l, Hk, Z.add_assoc, (Z.add_comm _ (k * c)), <- Z.add_assoc, (Z.add_comm (k * c)), Z.div_add by lia. lia.
Qed.

(** The lengths of the two curves. *)
Definition mont_length (curve : Z) : Z := if curve =? CX_CURVE_Curve25519 then 32 else 56.

Lemma decode_scalar_ok curve n k : (curve = CX_CURVE_Curve25519 \/ curve = CX_CURVE_Curve448) -> n = mont_length curve ->
  zlen k = n -> bytes_ok k ->
  exists l, cx_decode_scalar curve k (zeros MAX_MONT_BYTE_LEN) n = Some (rev l ++ zdrop n (zeros MAX_MONT_BYTE_LEN)) /\
    bytes_ok l /\ zlen l = n /\ le_combine l = clamped curve (le_combine k).
Proof.
  intros Hc En Hk Hb. assert (2 <= n <= 56) as Hn by (rewrite En; destruct Hc as [->| ->]; cbn; lia).
  destruct (split_ends k) as (x & mid & y & ->); [lia|].
  pose proof Hb as [Hx Hb']%Forall_cons. apply Forall_app in Hb' as [Hmid Hy]. apply Forall_cons in Hy as [Hy _].
  destruct (mask_bytes x Hx) as (E1 & E2 & _). destruct (mask_bytes y Hy) as (_ & _ & E3 & E4 & E5).
  assert (zlen mid = n - 2) as Hl by (rewrite zlen_cons, zlen_app, zlen_cons, (@zlen_nil Z) in Hk; lia).
  pose proof (le_combine_bound _ Hmid) as Bm. rewrite Hl in Bm. unfold is_byte in Hx, Hy.
  unfold cx_decode_scalar. rewrite (read_at_prefix' _ n Hk). cbn [option_bind base.mbind].
  rewrite write_at_ok by (rewrite ?Hk, ?zlen_zeros; unfold MAX_MONT_BYTE_LEN; lia). rewrite ztake_0, Z.add_0_l, Hk.
  cbn [app option_bind base.mbind]. set (tail := zdrop n (zeros MAX_MONT_BYTE_LEN)).
  assert (forall a b, (a :: mid ++ [b]) ++ tail = (a :: mid) ++ b :: tail) as Hassoc by (intros; cbn [app]; by rewrite <- app_assoc).
  assert (forall a b, exists l, cx_reverse_buffer ((a :: mid) ++ b :: tail) (zeros MAX_MONT_BYTE_LEN) n = Some (rev l ++ tail) /\
    zlen l = n /\ l = a :: mid ++ [b]) as Hrev.
  { intros a b. exists (a :: mid ++ [b]). assert (zlen (a :: mid ++ [b]) = n) as Hz
      by (rewrite zlen_cons, zlen_app, zlen_cons, (@zlen_nil Z); lia). split; [|done].
    rewrite <- Hassoc.
    apply reverse_buffer_ok; [done|]. rewrite zlen_zeros; unfold MAX_MONT_BYTE_LEN; lia. }
  change (x :: (mid ++ [y]) ++ tail) with ((x :: mid ++ [y]) ++ tail). rewrite Hassoc.
  pose proof (fun f => buf_update_at [] x (mid ++ y :: tail) f) as U0. cbn [app length] in U0.
  assert (forall a b f, buf_update ((a :: mid) ++ b :: tail) (Z.to_nat (n - 1)) f = Some ((a :: mid) ++ w8 (f b) :: tail)) as U1.
  { intros a b f. rewrite <- (buf_update_at (a :: mid) b tail f). f_equal. cbn [length]. unfold zlen in Hl. lia. }
  unfold clamped. destruct Hc as [->| ->]; subst n; cbn [mont_length Z.eqb Pos.eqb CX_CURVE_Curve25519 CX_CURVE_Curve448] in *.
  - change ((x :: mid) ++ y :: tail) with (x :: mid ++ y :: tail). rewrite U0. cbn [option_bind base.mbind].
    change (Z.to_nat (32 - 1)) with 31%nat in U1.
    change (?a :: mid ++ y :: tail) with ((a :: mid) ++ y :: tail). rewrite U1. cbn [option_bind base.mbind]. rewrite U1. cbn [option_bind base.mbind].
    rewrite E1, E3, E4. destruct (Hrev (8 * (x / 8)) (64 + y mod 64)) as (l & -> & Hzl & ->). eexists. split; [done|].
    assert (0 <= x / 8 < 32) by (split; [apply Z.div_pos; lia|apply Z.div_lt_upper_bound; lia]). pose proof (Z.mod_pos_bound y 64 ltac:(lia)).
    split; [|split; [done|]].
    { apply Forall_cons. split; [unfold is_byte; lia|]. apply Forall_app. split; [done|]. apply Forall_cons. split; [unfold is_byte; lia|by apply Forall_nil_2]. }
    apply clamp_bytes; [by apply Forall_cons|lia|by exists 32|lia|rewrite zlen_cons, Hl; reflexivity|by exists (2 ^ 251)].
  - change ((x :: mid) ++ y :: tail) with (x :: mid ++ y :: tail). rewrite U0. cbn [option_bind base.mbind].
    change (Z.to_nat (56 - 1)) with 55%nat in U1.
    change (?a :: mid ++ y :: tail) with ((a :: mid) ++ y :: tail). rewrite U1. cbn [option_bind base.mbind].
    rewrite E2, E5. destruct (Hrev (4 * (x / 4)) (128 + y mod 128)) as (l & -> & Hzl & ->). eexists. split; [done|].
    assert (0 <= x / 4 < 64) by (split; [apply Z.div_pos; lia|apply Z.div_lt_upper_bound; lia]). pose proof (Z.mod_pos_bound y 128 ltac:(lia)).
    split; [|split; [done|]].
    { apply Forall_cons. split; [unfold is_byte; lia|]. apply Forall_app. split; [done|]. apply Forall_cons. split; [unfold is_byte; lia|by apply Forall_nil_2]. }
    apply clamp_bytes; [by apply Forall_cons|lia|by exists 64|lia|rewrite zlen_cons, Hl; reflexivity|by exists (2 ^ 445)].
Qed.

Lemma get_bit_ok l r n i : bytes_ok l -> zlen l = n -> 0 <= i < 8 * n -> n <= 2 ^ 20 ->
  cx_internal_get_bit (rev l ++ r) n i = Some (Z.b2z (Z.testbit (le_combine l) i)).
Proof.
  intros Hb Hl Hi Hn. destruct (le_combine_testbit l i Hb ltac:(lia)) as (b & Hlook & <-).
  assert (0 <= i / 8 < n) as Hd by (split; [apply Z.div_pos; lia|apply Z.div_lt_upper_bound; lia]).
  unfold cx_internal_get_bit, w32. rewrite !(Z.mod_small _ 4294967296) by (rewrite ?(Z.mod_small _ 4294967296) by lia; lia).
  unfold zlen in Hl. rewrite lookup_app_l by (rewrite length_rev; lia).
  assert (rev l !! Z.to_nat (n - 1 - i / 8) = Some b) as ->.
  { rewrite rev_alt. apply reverse_lookup_Some. split; [|lia]. rewrite <- Hlook. f_equal. lia. }
  cbn [option_bind base.mbind]. do 2 f_equal. pose proof (Z.mod_pos_bound i 8 ltac:(lia)).
  assert (is_byte b) as Hbyte by (apply (Forall_lookup_1 _ _ _ _ Hb Hlook)). unfold is_byte in Hbyte.
  unfold w8. rewrite (Z.mod_small (Z.shiftr b (i mod 8))), Z.land_comm; [apply land_bit; lia|]. rewrite Z.shiftr_div_pow2 by lia.
  pose proof (Z.pow_pos_nonneg 2 (i mod 8) ltac:(lia) ltac:(lia)).
  split; [apply Z.div_pos; lia|]. apply Z.le_lt_trans with b; [|lia]. apply Z.div_le_upper_bound; nia.
Qed.

Section proofs.
Context {E : Type} `{!OpensslBn E, !OpensslLaws E, !OpensslReliable E}.
Implicit Types s : mpi_state E.
Local Abbreviation P := (M (mpi_state E)).

Lemma wp_mont_step W h o xs u n a v0 v1 v2 v3 x x1 y1 z1 x2 y2 z2 c1 c2 U p A24 w1 w2 w3 X X1 Y1 Z1 X2 Y2 Z2 s
  {B} (Q : B -> mpi_state E -> Prop) k :
  xs = [u; n; a; v0; v1; v2; v3; x; x1; y1; z1; x2; y2; z2] -> 0 < p -> Z.odd p = true ->
  holds W h o xs [U; p; A24; 0; w1; w2; w3; X; X1; Y1; Z1; X2; Y2; Z2] s ->
  (forall w1 w2 w3 s, holds W h o xs [U; p; A24; 0; w1; w2; w3; X;
     fst (mont_dbl p (4 * A24 + 2) (X1, Z1)); Y1; snd (mont_dbl p (4 * A24 + 2) (X1, Z1));
     fst (mont_add p X (X1, Z1) (X2, Z2)); Y2; snd (mont_add p X (X1, Z1) (X2, Z2))] s -> wp (k tt) Q s) ->
  wp (mbind (mont_step (mk_mont n a v0 v1 v2 v3 x (mk_mpi_ecpoint x1 y1 z1 c1) (mk_mpi_ecpoint x2 y2 z2 c2))) k) Q s.
Proof.
  intros -> Hp Ho Hs H. unfold mont_step. cbn [pt_x pt_y pt_z]. do 19 (apply wp_assoc; mpi_step). apply wp_mret.
  assert (forall w1 w2 w3 e1 e2 e3 e4, holds W h o [u; n; a; v0; v1; v2; v3; x; x1; y1; z1; x2; y2; z2]
      [U; p; A24; 0; w1; w2; w3; X; e1; Y1; e2; e3; Y2; e4] s ->
      e1 = fst (mont_dbl p (4 * A24 + 2) (X1, Z1)) -> e2 = snd (mont_dbl p (4 * A24 + 2) (X1, Z1)) ->
      e3 = fst (mont_add p X (X1, Z1) (X2, Z2)) -> e4 = snd (mont_add p X (X1, Z1) (X2, Z2)) -> wp (k tt) Q s) as H'
    by (intros ? ? ? ? ? ? ? H1 -> -> -> ->; by eapply H).
  eapply H'; [exact Hs|..]; unfold mont_dbl, mont_add; cbn [fst snd]; mod_ring.
Qed.

Lemma mont_add_comm p u R S : mont_add p u R S = mont_add p u S R.
Proof. destruct R as [x z], S as [x' z']. unfold mont_add. do 2 f_equal; ring. Qed.

Lemma xor_bits b b' : Z.lxor (Z.b2z b) (Z.b2z b') = Z.b2z (xorb b b').
Proof. by destruct b, b'. Qed.

Lemma truthy_bit b : truthy (Z.b2z b) = b.
Proof. by destruct b. Qed.

(** The two points of the ladder, exchanged when [b] says so. *)
Definition exchanged (b : bool) (R : (Z * Z) * (Z * Z)) : (Z * Z) * (Z * Z) := if b then (snd R, fst R) else R.

(** What the numbers hold: [w1], [w2] and [w3] are not looked at. *)
Definition mont_values (U p A24 w1 w2 w3 X Y1 Y2 : Z) (R : (Z * Z) * (Z * Z)) : list Z :=
  [U; p; A24; 0; w1; w2; w3; X; fst (fst R); Y1; snd (fst R); fst (snd R); Y2; snd (snd R)].

Lemma wp_exchange W h o xs u n a v0 v1 v2 v3 x x1 y1 z1 x2 y2 z2 U p A24 w1 w2 w3 X Y1 Y2 R b b' s {B} (Q : B -> mpi_state E -> Prop) k :
  xs = [u; n; a; v0; v1; v2; v3; x; x1; y1; z1; x2; y2; z2] ->
  holds W h o xs (mont_values U p A24 w1 w2 w3 X Y1 Y2 (exchanged b R)) s ->
  (forall s, holds W h o xs (mont_values U p A24 w1 w2 w3 X Y1 Y2 (exchanged b' R)) s -> wp (k tt) Q s) ->
  wp (mbind (cx_mpi_swap x1 x2 (Z.lxor (Z.b2z b) (Z.b2z b'))) (fun _ =>
      mbind (cx_mpi_swap z1 z2 (Z.lxor (Z.b2z b) (Z.b2z b'))) k)) Q s.
Proof.
  intros -> Hs H. unfold mont_values in *. rewrite xor_bits. mpi_step. rewrite truthy_bit in Hs. destruct R as [[rx rz] [qx qz]].
  destruct b, b'; cbn [exchanged fst snd xorb] in *; mpi_step; rewrite truthy_bit in Hs; cbv iota in Hs; by apply H.
Qed.

Lemma wp_mont_loop W h o xs u n a v0 v1 v2 v3 x x1 y1 z1 x2 y2 z2 c1 c2 U p A24 X Y1 Y2 e len K m (Q : Z -> mpi_state E -> Prop) :
  let r := mk_mont n a v0 v1 v2 v3 x (mk_mpi_ecpoint x1 y1 z1 c1) (mk_mpi_ecpoint x2 y2 z2 c2) in
  xs = [u; n; a; v0; v1; v2; v3; x; x1; y1; z1; x2; y2; z2] -> 0 < p -> Z.odd p = true ->
  (forall i, (i < m)%nat -> cx_internal_get_bit e len (Z.of_nat i) = Some (Z.b2z (Z.testbit K (Z.of_nat i)))) ->
  forall w1 w2 w3 b R s, holds W h o xs (mont_values U p A24 w1 w2 w3 X Y1 Y2 (exchanged b R)) s ->
  (forall w1 w2 w3 b s, holds W h o xs (mont_values U p A24 w1 w2 w3 X Y1 Y2
     (exchanged b (mont_ladder p (4 * A24 + 2) X K m R))) s -> Q (Z.b2z b) s) ->
  wp (mont_loop e len r m (Z.b2z b)) Q s.
Proof.
  intros r Hxs Hp Ho. induction m as [|m IH]; intros Hbits w1 w2 w3 b R s Hs H; [apply wp_ret; by eapply H|].
  cbn [mont_loop]. unfold wp at 1. rewrite (mlift_some _ _ _ _ (Hbits m ltac:(lia))). cbn [mo_P1 mo_P2 r pt_x pt_z].
  set (b' := Z.testbit K (Z.of_nat m)) in *.
  eapply wp_exchange; [exact Hxs|exact Hs|]. clear dependent s. intros s Hs. destruct R as [R1 R2].
  eapply wp_mont_step; [exact Hxs|done|done|exact Hs|]. clear dependent s. intros w1' w2' w3' s Hs.
  apply (IH ltac:(intros; apply Hbits; lia) w1' w2' w3' b' (mont_next p (4 * A24 + 2) X b' (R1, R2))); [|exact H].
  unfold mont_values. rewrite <- !surjective_pairing in Hs. unfold mont_next. destruct b'; cbn [exchanged fst snd] in *; [|exact Hs].
  rewrite (mont_add_comm _ _ R1). exact Hs.
Qed.

(** ** The numbers *)

Lemma fits_bytes W n v : word_ok W -> 1 <= n <= 1024 -> 0 <= v < 256 ^ n -> fits W v.
Proof.
  intros HW Hn Hv. split; [lia|]. assert (num_bytes v <= n) as Hnb by (apply num_bytes_le; lia).
  pose proof (nbytes_round W v n HW ltac:(lia) Hnb) as Hr. destruct HW as [_ HW]. unfold round_to, MAX_MPI_BYTE_SIZE in *.
  destruct (Z.eqb_spec n 0); [lia|]. pose proof (Z.div_mod (n + (W - 1)) W ltac:(lia)). pose proof (Z.mod_pos_bound (n + (W - 1)) W ltac:(lia)).
  destruct (Z.le_gt_cases W 1024); [nia|]. assert ((n + (W - 1)) / W = 1); [|nia]. symmetry. apply Z.div_unique with (n - 1); lia.
Qed.

(** The last byte of the abscissa of the curve 25519 loses its top bit. *)
Lemma decode_bytes (l : list Z) : zlen l = 32 -> bytes_ok l -> exists l', buf_update (l ++ zdrop 32 (zeros MAX_MONT_BYTE_LEN)) 31 (fun x => Z.land x 0x7F)
    = Some (l' ++ zdrop 32 (zeros MAX_MONT_BYTE_LEN)) /\ zlen l' = 32 /\ bytes_ok l' /\ le_combine l' = le_combine l mod 2 ^ 255.
Proof.
  intros Hl Hb. destruct (split_ends l ltac:(lia)) as (x & mid & y & ->). set (tail := zdrop 32 _).
  rewrite app_comm_cons in Hb. apply Forall_app in Hb as [Hb Hy]. apply Forall_cons in Hy as [Hy _].
  destruct (mask_bytes y Hy) as (_ & _ & E3 & _). pose proof (Z.mod_pos_bound y 128 ltac:(lia)).
  rewrite zlen_cons, zlen_app, zlen_cons, (@zlen_nil Z) in Hl. exists ((x :: mid) ++ [y mod 128]). split; [|split; [|split]].
  - pose proof (buf_update_at (x :: mid) y tail (fun x => Z.land x 0x7F)) as U. cbv beta in U. rewrite E3 in U.
    replace (length (x :: mid)) with 31%nat in U by (unfold zlen in Hl; cbn [length]; lia).
    rewrite <- app_assoc. cbn [app] in U |- *. by rewrite <- app_assoc.
  - rewrite zlen_app, !zlen_cons, (@zlen_nil Z). lia.
  - apply Forall_app. split; [done|]. apply Forall_cons. split; [unfold is_byte; lia|by apply Forall_nil_2].
  - rewrite le_combine_mod by (done || lia). f_equal. rewrite zlen_cons. replace (zlen mid) with 30 by lia. reflexivity.
Qed.

Lemma wp_decode_coordinate W h o xs i u v vs curve n s {B} (Q : B -> mpi_state E -> Prop) k :
  (curve = CX_CURVE_Curve25519 \/ curve = CX_CURVE_Curve448) -> n = mont_length curve ->
  holds W h o xs vs s -> xs !! i = Some u -> vs !! i = Some v -> fits W v ->
  (forall s, holds W h o xs (<[i := decoded curve (le_combine (be_split (Z.to_nat n) v))]> vs) s -> wp (k tt) Q s) ->
  wp (mbind (cx_decode_coordinate curve u n) k) Q s.
Proof.
  intros Hc En Hs Hu Hv Hf H. assert (word_ok W) as HW by (by destruct Hs). unfold cx_decode_coordinate, decoded in *.
  assert (32 <= n <= 56) as Hn by (rewrite En; destruct Hc as [->| ->]; cbn; lia).
  destruct Hc as [->| ->]; cbn [mont_length Z.eqb Pos.eqb CX_CURVE_Curve25519 CX_CURVE_Curve448] in *; subst n.
  2: { apply wp_assoc, wp_mret. eapply wp_reverse; [done..|by unfold MAX_BYTE_LEN|exact H]. }
  do 2 apply wp_assoc. eapply wp_export; [done..|rewrite zlen_zeros; unfold MAX_MONT_BYTE_LEN; lia|]. cbv iota beta. apply wp_assoc.
  destruct (decode_bytes (be_split (Z.to_nat 32) v)) as (l & Hl & Hz & Hb & Hval); [by apply zlen_be_split|apply be_split_bytes|].
  unfold wp at 1. rewrite (mlift_some _ _ _ _ Hl). apply wp_assoc. eapply wp_init; [done..|by apply read_at_prefix|].
  clear dependent s. intros s Hs. apply wp_mret. pose proof (be_combine_bound l Hb) as Hbound. rewrite Hz in Hbound.
  eapply wp_reverse; [exact Hs|done| |by apply (fits_bytes W 32)|by unfold MAX_BYTE_LEN|].
  { apply list_lookup_insert_eq. by apply lookup_lt_Some in Hv. }
  clear dependent s. intros s Hs. apply H. rewrite list_insert_insert_eq in Hs. rewrite <- Hval.
  rewrite be_split_combine in Hs; [done|done|]. unfold zlen in Hz. lia.
Qed.

Lemma mont_facts curve d : (curve = CX_CURVE_Curve25519 \/ curve = CX_CURVE_Curve448) -> cx_ecdomain curve = Some d ->
  dom_length d = mont_length curve /\ 2 <= a_of d /\ 4 * ((a_of d - 2) / 2 ^ 2) + 2 = a_of d /\ dom_bit_size d = 8 * mont_length curve.
Proof. intros [-> | ->] [= <-]; (split; [reflexivity|split; [by vm_compute|split; [by vm_compute|reflexivity]]]). Qed.

(** The number of bits of the scalar. *)
Definition mont_bits (curve : Z) : nat := if curve =? CX_CURVE_Curve25519 then 255%nat else 448%nat.

Lemma wp_mont_compute W h o u n a v0 v1 v2 v3 x x1 y1 z1 x2 y2 z2 c1 c2 U curve d len scalar s :
  let xs := [u; n; a; v0; v1; v2; v3; x; x1; y1; z1; x2; y2; z2] in
  (curve = CX_CURVE_Curve25519 \/ curve = CX_CURVE_Curve448) -> cx_ecdomain curve = Some d -> len = mont_length curve ->
  holds W h o xs [U; p_of d; 0; 0; 0; 0; 0; 0; 0; 0; 0; 0; 0; 0] s -> fits W U -> zlen scalar = len -> bytes_ok scalar ->
  room 1 W len h ->
  wp (mont_compute curve d len u scalar len (mk_mont n a v0 v1 v2 v3 x (mk_mpi_ecpoint x1 y1 z1 c1) (mk_mpi_ecpoint x2 y2 z2 c2)))
    (fun error s' => error = CX_OK /\ exists ws, length ws = 13%nat /\ holds W h o xs
       (mont_multiple (p_of d) (a_of d) (decoded curve (le_combine (be_split (Z.to_nat len) U)) mod p_of d)
          (clamped curve (le_combine scalar)) (mont_bits curve) :: ws) s') s.
Proof.
  intros xs Hc Hd En Hs Hf Hsl Hsb Hroom. unfold xs in *. pose proof (ecdomain_ok _ _ Hd) as Hdom.
  assert (word_ok W) as HW by (by destruct Hs). destruct (field_ok d W Hdom HW) as (Hpos & Hp2 & Hodd & Hfit & Hnb & Hlen).
  destruct (mont_facts curve d Hc Hd) as (Fl & F2 & F4 & Fb). destruct (param_reads d Hdom) as (Ra & _ & _). rewrite Fl, <- En in Ra, Hnb, Hlen.
  assert (32 <= len <= 56) as Hln by (rewrite En; destruct Hc as [->| ->]; cbn; lia).
  destruct (decode_scalar_ok curve len scalar Hc En Hsl Hsb) as (l & Hl & Hlb & Hlz & Hlv).
  assert (forall v, 0 <= v < p_of d -> fits W v) as Hfits by (intros v Hv; by apply (small_fits W (p_of d))).
  assert (Forall (fun v => v < p_of d) [a_of d; b_of d; Gx_of d; Gy_of d]) as [Ha _]%Forall_cons by apply Hdom.
  unfold mont_compute. cbn [pt_x pt_z]. 
  eapply (wp_decode_coordinate W h o _ 0 u U _ curve len); [done..|]. holds_update Hs s.
  set (X := decoded curve (le_combine (be_split (Z.to_nat len) U))) in *.
  assert (0 <= X) as HX.
  { pose proof (le_combine_bound (be_split (Z.to_nat len) U) (be_split_bytes _ _)). unfold X, decoded. destruct (_ =? _); [by apply Z.mod_pos_bound|lia]. }
  apply wp_bind, (wp_lift _ _ _ _ Hl).
  repeat mpi_step; fold (a_of d) in *; [apply Hfits; lia|apply Hfits; by apply Z.mod_pos_bound|apply Hfits|].
  { split; [apply Z.div_pos; lia|]. apply Z.le_lt_trans with (a_of d - 2); [|lia]. apply Z.div_le_upper_bound; lia. }
  assert (Z.to_nat ((if curve =? CX_CURVE_Curve25519 then dom_bit_size d - 1 - 1 else dom_bit_size d - 1) + 1) = mont_bits curve) as ->
    by (rewrite Fb; unfold mont_bits, mont_length; by destruct (_ =? _)).
  assert (forall i, (i < mont_bits curve)%nat -> cx_internal_get_bit (rev l ++ zdrop len (zeros MAX_MONT_BYTE_LEN)) len (Z.of_nat i)
    = Some (Z.b2z (Z.testbit (clamped curve (le_combine scalar)) (Z.of_nat i)))) as Hbits.
  { intros i Hi. rewrite <- Hlv. apply get_bit_ok; [done|done| |lia]. revert Hi. unfold mont_bits. rewrite En. unfold mont_length.
    destruct (_ =? _); lia. }
  eapply wp_bind, (wp_mont_loop W h o _ u n a v0 v1 v2 v3 x x1 y1 z1 x2 y2 z2 c1 c2 X (p_of d) ((a_of d - 2) / 2 ^ 2)
    (X mod p_of d) 0 0 _ _ (clamped curve (le_combine scalar)) _ _ eq_refl Hpos Hodd Hbits _ _ _ false ((1, 0), (X mod p_of d, 1)));
    [exact Hs|].
  clear dependent s. intros w1 w2 w3 b s Hs. rewrite F4 in Hs.
  set (K := clamped curve (le_combine scalar)) in *. set (m := mont_bits curve) in *.
  destruct (mont_ladder (p_of d) (a_of d) (X mod p_of d) K m ((1, 0), (X mod p_of d, 1))) as [[rx rz] R2] eqn:Elad.
  assert (Z.b2z b = Z.lxor (Z.b2z b) (Z.b2z false)) as -> by (by rewrite Z.lxor_0_r).
  eapply (wp_exchange W h o _ u n a v0 v1 v2 v3 x x1 y1 z1 x2 y2 z2 _ _ _ _ _ _ _ _ _ _ b false); [reflexivity|exact Hs|].
  clear dependent s. intros s Hs. unfold mont_values in Hs. cbn [exchanged fst snd] in Hs. apply wp_last. mpi_step. mpi_step. mpi_step. mpi_step.
  apply wp_ret. split; [done|]. unfold mont_multiple. rewrite Elad.
  assert ((rx * inverse (p_of d) rz) mod p_of d = (rz ^ (p_of d - 2) mod p_of d * rx) mod p_of d) as -> by (unfold inverse; mod_ring).
  eexists. split; [|exact Hs]. done.
Qed.

(** ** The whole function *)

Lemma buffer_zero_ok k n : zlen k = n -> bytes_ok k -> cx_is_buffer_zero k n = Some (le_combine k =? 0).
Proof.
  intros Hl Hb. unfold cx_is_buffer_zero. rewrite (read_at_prefix' k n Hl). cbn [option_bind base.mbind]. f_equal. clear Hl.
  induction Hb as [|x l Hx Hb IH]; [done|]. cbn [foldr le_combine]. pose proof (le_combine_bound l Hb).
  unfold is_byte, truthy in *. destruct (foldr _ false l); cbn [orb negb] in *.
  - destruct (Z.eqb_spec (le_combine l) 0); [done|]. symmetry. apply Z.eqb_neq. lia.
  - destruct (Z.eqb_spec (le_combine l) 0); [|done]. destruct (Z.eqb_spec x 0); cbn [negb]; symmetry; [apply Z.eqb_eq|apply Z.eqb_neq]; lia.
Qed.

Lemma mont_is_mont curve : (curve = CX_CURVE_Curve25519 \/ curve = CX_CURVE_Curve448) ->
  negb (curve =? CX_CURVE_Curve448) && negb (curve =? CX_CURVE_Curve25519) = false /\ exists d, cx_ecdomain curve = Some d.
Proof. intros [-> | ->]; (split; [reflexivity|by eexists]). Qed.

(** What is left in [u]. *)
Definition mont_result curve d (len U k : Z) : Z :=
  mont_multiple (p_of d) (a_of d) (decoded curve (le_combine (be_split (Z.to_nat len) U)) mod p_of d) (clamped curve k) (mont_bits curve).

Lemma split_six {A} (l : list A) : length l = 6%nat -> exists a b c d e f, l = [a; b; c; d; e; f].
Proof. destruct l as [|a [|b [|c [|d [|e [|f [|]]]]]]]; try done. intros _. by exists a, b, c, d, e, f. Qed.

(** A group of numbers goes to the end. *)
Lemma holds_shift W h o l1 ys l2 v1 ws v2 s : length v1 = length l1 -> length ws = length ys ->
  holds W h o (l1 ++ ys ++ l2) (v1 ++ ws ++ v2) s -> holds W h o ((l1 ++ l2) ++ ys) ((v1 ++ v2) ++ ws) s.
Proof.
  intros H1 H2 [Hok Hw HW Hb Hd Hn Hf]. rewrite !map_app in Hn. apply app_inj_1 in Hn as [Hn1 Hn]; [|by rewrite !length_map].
  apply app_inj_1 in Hn as [Hn2 Hn3]; [|by rewrite !length_map]. split; try done.
  - by rewrite <- app_assoc, (Permutation_app_comm l2 ys).
  - by rewrite !map_app, Hn1, Hn2, Hn3.
  - intros x Hx. apply Hf. rewrite !not_elem_of_app in Hx |- *. tauto.
Qed.

Lemma holds_middle W h o l1 ys l2 v1 ws v2 s : length v1 = length l1 -> length ws = length ys ->
  holds W h o (l1 ++ ys ++ l2) (v1 ++ ws ++ v2) s -> exists o', holds W h o' ys ws s.
Proof.
  intros H1 H2 Hh. apply holds_shift in Hh; [|done|done]. pose proof (holds_length _ _ _ _ _ _ Hh) as Hl. rewrite !length_app in Hl.
  apply holds_swap in Hh; [|rewrite !length_app; lia]. exists (num s). by eapply holds_part.
Qed.

Lemma taking_free n ys h y : held (taking n ys h) !! y = Some None -> held h !! y = Some None.
Proof. unfold taking. cbn [held]. rewrite inserts_lookup. destruct (decide _); [by destruct (_ !! y)|done]. Qed.

Lemma taking_both n xs ys h : taking n ys (taking n xs h) = taking n (xs ++ ys) h.
Proof. unfold taking. cbn [held word]. by rewrite fold_left_app. Qed.

Lemma freeing_both xs ys h : freeing ys (freeing xs h) = freeing (xs ++ ys) h.
Proof. unfold freeing. cbn [held word]. by rewrite fold_left_app. Qed.

(** Numbers and two points are given back in the order of the end of the function. *)
Lemma holds_give_back W h o u ns p q v ws s : holds W h o ([u] ++ ns ++ slots_of p ++ slots_of q) (v :: ws) s ->
  length ws = (length ns + 6)%nat -> Forall (fun y => o y = None) (ns ++ slots_of p ++ slots_of q) ->
  map Z.of_nat (slots_of p) = [ec_x p; ec_y p; ec_z p] -> map Z.of_nat (slots_of q) = [ec_x q; ec_y q; ec_z q] ->
  exists s1 s2 s3, destroy_all (map Z.of_nat ns) s = Ret tt s1 /\
    sys_cx_ecpoint_destroy (Some p) s1 = Ret (CX_OK, Some (mk_ecpoint 0 0 0 0)) s2 /\
    sys_cx_ecpoint_destroy (Some q) s2 = Ret (CX_OK, Some (mk_ecpoint 0 0 0 0)) s3 /\
    holds W (freeing (ns ++ slots_of p ++ slots_of q) h) o [u] [v] s3.
Proof.
  intros Hh Hl Ho Hp Hq. apply Forall_app in Ho as [On Ho]. apply Forall_app in Ho as [Op Oq].
  assert (exists w1 x1 y1 z1 x2 y2 z2, ws = w1 ++ [x1; y1; z1] ++ [x2; y2; z2] /\ length w1 = length ns) as
    (w1 & x1 & y1 & z1 & x2 & y2 & z2 & -> & Hw1).
  { exists (take (length ns) ws). destruct (split_six (drop (length ns) ws)) as (x1 & y1 & z1 & x2 & y2 & z2 & Hd); [rewrite length_drop; lia|].
    exists x1, y1, z1, x2, y2, z2. split; [|rewrite length_take; lia]. change ([x1; y1; z1] ++ _) with [x1; y1; z1; x2; y2; z2].
    by rewrite <- Hd, take_drop. }
  change (v :: _) with ([v] ++ w1 ++ [x1; y1; z1] ++ [x2; y2; z2]) in Hh. apply holds_shift in Hh; [|done|done].
  destruct (holds_free_all W o _ _ ns h ns w1 s Hh eq_refl On (reflexivity _)) as (s1 & D1 & H1).
  apply (holds_shift W _ o [u] (slots_of p) (slots_of q) [v]) in H1; [|done|done].
  destruct (holds_ecpoint_destroy W _ o _ _ p x1 y1 z1 s1 H1 eq_refl Hp Op) as (s2 & D2 & H2).
  destruct (holds_ecpoint_destroy W _ o [u] [v] q x2 y2 z2 s2 H2 eq_refl Hq Oq) as (s3 & D3 & H3).
  exists s1, s2, s3. by rewrite !freeing_both in H3.
Qed.

Lemma wp_mul_coordinate W h o u U curve d len scalar s :
  (curve = CX_CURVE_Curve25519 \/ curve = CX_CURVE_Curve448) -> cx_ecdomain curve = Some d -> len = mont_length curve ->
  holds W h o [u] [U] s -> fits W U -> zlen scalar = len -> bytes_ok scalar -> room 14 W len h ->
  exists error s', cx_montgomery_mul_coordinate curve u scalar len s = Ret error s' /\
    if le_combine scalar =? 0 then error = CX_EC_INFINITE_POINT /\ s' = s
    else error = CX_OK /\ holds W h o [u] [mont_result curve d len U (le_combine scalar)] s'.
Proof.
  intros Hc Hd En Hs Hf Hsl Hsb Hroom. assert (word_ok W) as HW by (by destruct Hs).
  destruct (mont_facts curve d Hc Hd) as (Fl & _). destruct (param_reads d (ecdomain_ok _ _ Hd)) as (_ & _ & Lp). rewrite Fl, <- En in Lp.
  assert (32 <= len <= 56) as Hln by (rewrite En; destruct Hc as [->| ->]; cbn; lia). destruct (mont_is_mont curve Hc) as [Hm _].
  unfold cx_montgomery_mul_coordinate. rewrite (mlift_some _ _ _ _ (buffer_zero_ok _ _ Hsl Hsb)).
  destruct (Z.eqb_spec (le_combine scalar) 0) as [|Hnz]; [by eexists _, _|]. rewrite Hd, Hm.
  replace (w8 (dom_length d)) with len by (rewrite Fl, <- En; symmetry; apply Z.mod_small; lia).
  assert (0 <= len <= 2 ^ 20 /\ 0 <= len <= 2 ^ 30) as [Hl20 Hl30] by lia. set (N := round_to W len).
  destruct (holds_alloc_init W h o _ _ s len 13 (dom_p d) Hs Hl20 Lp Hroom) as (n & s1 & A1 & I1 & O1 & _ & H1).
  apply (room_taking 13 N W len n) in Hroom; [|done|done]. rewrite (mbind_ret _ _ _ _ _ A1). cbv iota beta. fold N in H1.
  change (mk_heap (word h) (<[n := Some N]> (held h))) with (taking N [n] h) in *.
  assert (room 6 W len (taking N [n] h)) as Hroom6 by (apply (room_less 13 6); [lia|done|lia|done]).
  destruct (holds_alloc_all false W len 6 _ o _ _ s1 H1 Hl30 Hroom6) as (ys & s2 & A2 & L2 & F2 & _ & R2 & H2).
  apply (R2 7%nat) in Hroom. rewrite (mbind_ret _ _ _ _ _ A2). cbv iota beta. cbn [negb]. fold N in H2, Hroom. rewrite taking_both in H2, Hroom.
  assert (dom_length d = len) as Edl by lia.
  destruct (holds_ecpoint_alloc W _ o _ _ s2 (mk_ecpoint 0 0 0 0) curve d 4 Hd H2) as (P1 & s3 & A3 & C3 & M3 & F3 & R3 & H3);
    [by rewrite Edl|]. rewrite Edl in R3, H3. fold N in R3, H3. rewrite taking_both in R3, H3.
  destruct (holds_ecpoint_alloc W _ o _ _ s3 (mk_ecpoint 0 0 0 0) curve d 1 Hd H3) as (P2 & s4 & A4 & C4 & M4 & F4 & R4 & H4);
    [by rewrite Edl|]. rewrite Edl in R4, H4. fold N in R4, H4. rewrite taking_both in R4, H4.
  rewrite (mbind_ret _ _ _ _ _ A3). change (truthy CX_OK) with false. cbv iota beta. rewrite (mbind_ret _ _ _ _ _ A4).
  change (truthy CX_OK) with false. cbv iota beta.
  set (hf := taking N _ h) in H4, R4.
  assert (holds W hf o ([u] ++ (n :: ys) ++ slots_of P1 ++ slots_of P2) ([U] ++ (be_combine (dom_p d) :: replicate 6 0) ++ [0; 0; 0] ++ [0; 0; 0]) s4) as H4'.
  { revert H4. rewrite <- !app_assoc. cbn [app]. done. }

  destruct (split_six ys L2) as (a & v0 & v1 & v2 & v3 & x & ->). cbv beta iota.
  assert (exists r s5, with_mpi (cx_mpi_ecpoint_from_ecpoint P1) (fun Q1 => with_mpi (cx_mpi_ecpoint_from_ecpoint P2) (fun Q2 =>
      mont_compute curve d len u scalar len (mk_mont n a v0 v1 v2 v3 x Q1 Q2))) s4 = Ret r s5 /\ r = CX_OK /\
      exists ws, length ws = 13%nat /\ holds W hf o ([u] ++ (n :: [a; v0; v1; v2; v3; x]) ++ slots_of P1 ++ slots_of P2)
        (mont_result curve d len U (le_combine scalar) :: ws) s5) as (r & s5 & A5 & -> & ws & Lws & H5).
  { apply wp_ret_inv. unfold with_mpi.
    destruct (holds_middle W hf o ([u] ++ [n; a; v0; v1; v2; v3; x]) (slots_of P1) (slots_of P2)
      ([U] ++ [be_combine (dom_p d); 0; 0; 0; 0; 0; 0]) [0; 0; 0] [0; 0; 0] s4 eq_refl eq_refl H4') as [o1 M1].
    destruct (holds_middle W hf o ([u] ++ [n; a; v0; v1; v2; v3; x] ++ slots_of P1) (slots_of P2) []
      ([U] ++ [be_combine (dom_p d); 0; 0; 0; 0; 0; 0] ++ [0; 0; 0]) [0; 0; 0] [] s4 eq_refl eq_refl) as [o2 M2]; [by rewrite <- app_assoc|].
    eapply (wp_point W hf _ P1 d); [by rewrite C3|exact M1|]. cbv iota beta. change (truthy CX_OK) with false. cbv iota.
    eapply (wp_point W hf _ P2 d); [by rewrite C4|exact M2|]. cbv iota beta. change (truthy CX_OK) with false. cbv iota. unfold mpi_of.
    by eapply (wp_mont_compute W hf o u n a v0 v1 v2 v3 x _ _ _ _ _ _ _ _ U curve d len scalar). }
  rewrite (mbind_ret _ _ _ _ _ A5). cbv beta.
  assert (forall l ys h', Forall (fun y => o y = None /\ held (taking N l h') !! y = Some None) ys -> Forall (fun y => o y = None /\ held h' !! y = Some None) ys) as Hfree.
  { intros l l' h' Hl. eapply Forall_impl; [exact Hl|]. intros y [Hy1 Hy2]. split; [done|by apply taking_free in Hy2]. }
  assert (Forall (fun y => o y = None /\ held h !! y = Some None) ((n :: [a; v0; v1; v2; v3; x]) ++ slots_of P1 ++ slots_of P2)) as Hall.
  { repeat apply Forall_app_2; [apply Forall_cons; split; [done|by eapply Hfree]|by eapply Hfree|by eapply Hfree]. }
  destruct (holds_give_back W hf o u _ P1 P2 _ ws s5 H5 Lws) as (s6 & s7 & s8 & D1 & D2 & D3 & H8); [|done|done|].
  { eapply Forall_impl; [exact Hall|]. by intros ? [? _]. }
  change (Z.of_nat n :: map Z.of_nat [a; v0; v1; v2; v3; x]) with (map Z.of_nat (n :: [a; v0; v1; v2; v3; x])).
  rewrite (mbind_ret _ _ _ _ _ D1), (mbind_ret _ _ _ _ _ D2), (mbind_ret _ _ _ _ _ D3). exists CX_OK, s8. split; [done|]. split; [done|].
  unfold hf in H8. rewrite freeing_taking in H8; [done|by rewrite <- !app_assoc|].
  rewrite <- !app_assoc. eapply Forall_impl; [exact Hall|]. by intros ? [_ ?].
Qed.
(** ** The system calls *)

Lemma mul_coordinate_call W h o bn_u U curve d len k s :
  (curve = CX_CURVE_Curve25519 \/ curve = CX_CURVE_Curve448) -> cx_ecdomain curve = Some d -> len = mont_length curve ->
  holds W h o [Z.to_nat bn_u] [U] s -> fits W U -> zlen k = len -> bytes_ok k -> room 14 W len h ->
  exists s', ecpoint_mul_coordinate curve true bn_u k len s = Ret CX_OK s' /\
    holds W h o [Z.to_nat bn_u] [if le_combine k =? 0 then U else mont_result curve d len U (le_combine k)] s'.
Proof.
  intros Hc Hd En Hs Hf Hl Hb Hroom. pose proof Hs as [Hok Hw HW Hbooks _ _ _].
  destruct (wp_mul_coordinate W h o _ U curve d len k s Hc Hd En Hs Hf Hl Hb Hroom) as (error & s' & Hrun & H). exists s'.
  assert (num s (Z.to_nat bn_u) = Some U) as Hn by (by apply (holds_num W h o [Z.to_nat bn_u] [U] s 0)).
  split.
  - unfold ecpoint_mul_coordinate, with_mpi. rewrite (mbind_ret _ _ _ _ _ (to_mpi_run h bn_u s Hok Hbooks)).
    rewrite (handles_ok h W); [|done|].
    2: { apply Forall_cons. split; [|by apply Forall_nil_2]. apply (holds_handle W h o [Z.to_nat bn_u] [U] s bn_u Hs), list_elem_of_here. }
    change (truthy CX_OK) with false. cbv iota beta. rewrite (fits_run W _ U) by (done || by eapply holds_ready). cbn [negb].
    rewrite (bn_get_run _ _ _ _ Hn). pose proof (nbytes_ge W U HW). destruct Hf as [Hf1 Hf2].
    rewrite BN_bn2binpad_spec by lia. destruct (Z.leb_spec (num_bytes U) (nbytes W U)); [|lia].
    by rewrite (mbind_ret _ _ _ _ _ Hrun).
  - destruct (_ =? 0); destruct H as [_ H]; [by subst s'|done].
Qed.
End proofs.

(** ** Numbers with the same remainder *)

Definition eqv_points (p : Z) (R S : (Z * Z) * (Z * Z)) : Prop :=
  eqv p (fst (fst R)) (fst (fst S)) /\ eqv p (snd (fst R)) (snd (fst S)) /\
  eqv p (fst (snd R)) (fst (snd S)) /\ eqv p (snd (snd R)) (snd (snd S)).

Lemma mont_next_eqv p A u v b R S : eqv p u v -> eqv_points p R S -> eqv_points p (mont_next p A u b R) (mont_next p A v b S).
Proof.
  intros Hu. destruct R as [[x1 z1] [x2 z2]], S as [[x1' z1'] [x2' z2']]. unfold eqv_points, mont_next, mont_dbl, mont_add.
  cbn [fst snd]. intros (H1 & H2 & H3 & H4).
  destruct b; cbn [fst snd]; rewrite !eqv_mod; split_and!; by rewrite ?H1, ?H2, ?H3, ?H4, ?Hu.
Qed.

Lemma mont_ladder_eqv p A u v k n : eqv p u v -> forall R S, eqv_points p R S ->
  eqv_points p (mont_ladder p A u k n R) (mont_ladder p A v k n S).
Proof. intros Hu. induction n as [|n IH]; intros R S HR; [done|]. cbn [mont_ladder]. by apply IH, mont_next_eqv. Qed.

Lemma mont_multiple_eqv p A u v k n : eqv p u v -> mont_multiple p A u k n = mont_multiple p A v k n.
Proof.
  intros Hu. unfold mont_multiple. pose proof (mont_ladder_eqv p A u v k n Hu ((1, 0), (u, 1)) ((1, 0), (v, 1))) as H.
  destruct (mont_ladder p A u k n _) as [[x z] R], (mont_ladder p A v k n _) as [[x' z'] R'].
  destruct H as (H1 & H2 & _); [by split_and!|]. cbn [fst snd] in *. apply eqv_mods. unfold inverse. by rewrite H1, H2.
Qed.

Lemma xladder_is_mont u k n : forall R, xladder u k n R = mont_ladder p25519 486662 u k n R.
Proof.
  induction n as [|n IH]; intros [R S]; [done|]. cbn [xladder mont_ladder]. rewrite IH. f_equal.
Qed.

Lemma x25519_is_mont k u : x25519 k u = mont_multiple p25519 486662 u k 255.
Proof.
  unfold x25519, mont_multiple. rewrite xladder_is_mont. destruct (mont_ladder _ _ _ _ 255 _) as [[x z] R].
  apply eqv_mods. assert (eqv p25519 (pow_mod_p z (Z.to_pos (p25519 - 2))) (inverse p25519 z)) as ->; [|done].
  split. apply Field25519.eqp_mods. rewrite pow_mod_p_ok. by rewrite Z2Pos.id.
Qed.

Lemma clamped_bound k : 0 <= clamped CX_CURVE_Curve25519 k < 2 ^ 255.
Proof.
  unfold clamped. cbn [Z.eqb Pos.eqb CX_CURVE_Curve25519]. pose proof (Z.mod_pos_bound k (2 ^ 254) ltac:(lia)).
  pose proof (Z.mul_div_le (k mod 2 ^ 254) 8 ltac:(lia)). pose proof (Z.div_pos (k mod 2 ^ 254) 8 ltac:(lia) ltac:(lia)). lia.
Qed.

Lemma p_of_curve25519 : p_of C_cx_Curve25519 = p25519 /\ a_of C_cx_Curve25519 = 486662.
Proof. by vm_compute. Qed.

Lemma p_of_curve448 : p_of C_cx_Curve448 = 2 ^ 448 - 2 ^ 224 - 1 /\ a_of C_cx_Curve448 = 156326.
Proof. by vm_compute. Qed.

Section calls.
Context {E : Type} `{!OpensslBn E, !OpensslLaws E, !OpensslReliable E}.

(** C8: c-x25519_agrees: the system call X25519 on a number of a context, whose
    bytes are an abscissa with the least significant byte first: the scalar,
    in the same order, is clamped, and the number becomes the abscissa of the
    multiple by the ladder of the textbook, which is also what
    [scalarmult_curve25519] gives from the bytes of the clamped scalar and of
    the abscissa. A scalar of zeros leaves the number and is no error. *)
Theorem x25519_agrees W h o bn_u U k (s : mpi_state E) : holds W h o [Z.to_nat bn_u] [U] s -> fits W U -> zlen k = 32 -> bytes_ok k ->
  room 14 W 32 h ->
  let scalar := clamped CX_CURVE_Curve25519 (le_combine k) in
  exists R s', sys_cx_ecpoint_x25519 true bn_u k 32 s = Ret CX_OK s' /\ holds W h o [Z.to_nat bn_u] [R] s' /\
    if le_combine k =? 0 then R = U
    else R = x25519 scalar (le_combine (be_split 32 U) mod 2 ^ 255) /\
      scalarmult_curve25519 (be_split 32 scalar) (rev (be_split 32 U)) = Some (be_split 32 R, if R =? 0 then -1 else 0).
Proof.
  intros Hs Hf Hl Hb Hroom scalar.
  destruct (mul_coordinate_call W h o bn_u U CX_CURVE_Curve25519 C_cx_Curve25519 32 k s (or_introl eq_refl) eq_refl eq_refl Hs Hf Hl Hb Hroom)
    as (s' & Hrun & Hs').
  eexists _, s'. split; [exact Hrun|]. split; [exact Hs'|]. destruct (_ =? 0); [done|]. unfold mont_result.
  destruct p_of_curve25519 as [-> ->]. fold scalar. change (decoded _ ?x) with (x mod 2 ^ 255). change (Z.to_nat 32) with 32%nat. change (mont_bits _) with 255%nat.
  rewrite (mont_multiple_eqv _ _ _ _ _ _ (eqv_mod _ _)), <- x25519_is_mont. split; [done|].
  rewrite scalarmult_run; [|apply be_split_bytes|apply be_split_length|apply bytes_ok_rev, be_split_bytes|rewrite length_rev; apply be_split_length].
  rewrite be_combine_split. change (be_combine (rev ?l)) with (le_combine (rev (rev l))). rewrite rev_involutive.
  rewrite (Z.mod_small scalar); [done|]. pose proof (clamped_bound (le_combine k)). fold scalar in H. split; [lia|].
  apply Z.lt_trans with (2 ^ 255); [lia|]. by vm_compute.
Qed.

(** C29: c-x448_ok: the system call X448, in the same way: the ladder over the
    448 bits of the clamped scalar, modulo 2^448 - 2^224 - 1. *)
Theorem x448_ok W h o bn_u U k (s : mpi_state E) : holds W h o [Z.to_nat bn_u] [U] s -> fits W U -> zlen k = 56 -> bytes_ok k ->
  room 14 W 56 h ->
  exists s', sys_cx_ecpoint_x448 true bn_u k 56 s = Ret CX_OK s' /\ holds W h o [Z.to_nat bn_u]
    [if le_combine k =? 0 then U
     else mont_multiple (2 ^ 448 - 2 ^ 224 - 1) 156326 (le_combine (be_split 56 U)) (clamped CX_CURVE_Curve448 (le_combine k)) 448] s'.
Proof.
  intros Hs Hf Hl Hb Hroom.
  destruct (mul_coordinate_call W h o bn_u U CX_CURVE_Curve448 C_cx_Curve448 56 k s (or_intror eq_refl) eq_refl eq_refl Hs Hf Hl Hb Hroom)
    as (s' & Hrun & Hs').
  exists s'. split; [exact Hrun|]. unfold mont_result in Hs'. destruct p_of_curve448 as [Hp Ha]. rewrite Hp, Ha in Hs'.
  change (decoded _ ?x) with x in Hs'. change (Z.to_nat 56) with 56%nat in Hs'. change (mont_bits _) with 448%nat in Hs'.
  by rewrite (mont_multiple_eqv _ _ _ _ _ _ (eqv_mod _ _)) in Hs'.
Qed.
End calls.

(** * Examples *)

Import Integers.

(** The base point of abscissa 9, its byte first, and the scalar of the test. *)
Definition base_abscissa (n : Z) : Z := be_combine (le_split (Z.to_nat n) 9).

Lemma x25519_agrees_witness : exists R s',
  sys_cx_ecpoint_x25519 true 0 (le_split 32 test_scalar) 32 (holding [base_abscissa 32] []) = Ret CX_OK s' /\
  holds 16 (holding_heap 1) (num (holding [base_abscissa 32] [])) [Z.to_nat 0] [R] s' /\
  R = x25519 (clamped CX_CURVE_Curve25519 test_scalar) 9.
Proof.
  destruct (x25519_agrees 16 (holding_heap 1) (num (holding [base_abscissa 32] [])) 0 (base_abscissa 32) (le_split 32 test_scalar)
    (holding [base_abscissa 32] [])) as (R & s' & H1 & H2 & H3).
  - apply (holding_holds [base_abscissa 32]); [cbn; lia|by vm_compute|by vm_compute].
  - split; vm_compute; discriminate.
  - reflexivity.
  - apply le_split_bytes.
  - split; vm_compute; [lia|discriminate].
  - exists R, s'. split; [exact H1|]. split; [exact H2|]. assert (le_combine (le_split 32 test_scalar) = test_scalar) as E1 by (vm_compute; reflexivity).
    assert (le_combine (be_split 32 (base_abscissa 32)) mod 2 ^ 255 = 9) as E2 by (vm_compute; reflexivity). rewrite E1, E2 in H3.
    rewrite (proj2 (Z.eqb_neq test_scalar 0) ltac:(discriminate)) in H3. exact (proj1 H3).
Defined.

Lemma x448_ok_witness : exists s',
  sys_cx_ecpoint_x448 true 0 (le_split 56 test_scalar) 56 (holding [base_abscissa 56] []) = Ret CX_OK s' /\
  holds 16 (holding_heap 1) (num (holding [base_abscissa 56] [])) [Z.to_nat 0]
    [mont_multiple (2 ^ 448 - 2 ^ 224 - 1) 156326 9 (clamped CX_CURVE_Curve448 test_scalar) 448] s'.
Proof.
  destruct (x448_ok 16 (holding_heap 1) (num (holding [base_abscissa 56] [])) 0 (base_abscissa 56) (le_split 56 test_scalar)
    (holding [base_abscissa 56] [])) as (s' & H1 & H2).
  - apply (holding_holds [base_abscissa 56]); [cbn; lia|by vm_compute|by vm_compute].
  - split; vm_compute; discriminate.
  - reflexivity.
  - apply le_split_bytes.
  - split; vm_compute; [lia|discriminate].
  - exists s'. split; [exact H1|]. assert (le_combine (le_split 56 test_scalar) = test_scalar) as E1 by (vm_compute; reflexivity).
    assert (le_combine (be_split 56 (base_abscissa 56)) = 9) as E2 by (vm_compute; reflexivity). rewrite E1, E2 in H2.
    rewrite (proj2 (Z.eqb_neq test_scalar 0) ltac:(discriminate)) in H2. exact H2.
Defined.
