(* ===== verification/SigDer.v ===== *)
(** The encoding of ECDSA signatures: [asn1_read_len], [asn1_read_tag],
    [asn1_parse_integer], [spec_cx_ecfp_decode_sig_der] and
    [spec_cx_ecfp_encode_sig_der] of [src/bolos/cx_ec.c]. The decoder moves a
    pointer in the signature: it is the state of the operations, an offset in
    the object that holds the signature, and a read out of this object is a
    [Fault]. The reference is DER (X.690). *)

From S2P Require Import Prelude CxUtils BeBytes.

(** * Operations *)

Section decode.
(** The object in memory, and the pointer behind the signature. *)
Context (buf : list Z) (end_ : Z).

Definition deref (p : Z) : M Z Z := mlift (if 0 <=? p then buf !! Z.to_nat p else None).
Definition pointer : M Z Z := mgets id.
Definition advance (n : Z) : M Z unit := mmodify (Z.add n).

(** The bytes of a length in its long form; [None] for a refusal. *)
Fixpoint read_len_loop (lenleft : nat) (len : Z) : M Z (option Z) :=
  match lenleft with
  | O => mret (Some len)
  | S lenleft' =>
      if truthy (Z.shiftr len 24) then mret None
      else
        let! p := pointer in
        let! b := deref p in
        let len := w32 (Z.lor (w32 (Z.shiftl len 8)) b) in
        if end_ - p <? w32 (len + Z.of_nat lenleft) then mret None
        else
          do! advance 1 in
          read_len_loop lenleft' len
  end.

Definition asn1_read_len : M Z (option Z) :=
  let! p := pointer in
  if end_ <=? p then mret None
  else
    let! b1 := deref p in
    do! advance 1 in
    if b1 =? 0xff then mret None
    else if Z.land b1 0x80 =? 0 then mret (Some b1)
    else if b1 =? 0x80 then mret None
    else
      let lenleft := Z.land b1 0x7f in
      let! p := pointer in
      if end_ - p <? lenleft then mret None
      else
        let! b := deref p in
        if b =? 0 then mret None
        else if 4 <? lenleft then mret None
        else
          let! r := read_len_loop (Z.to_nat lenleft) 0 in
          match r with
          | None => mret None
          | Some len => if len <? 128 then mret None else mret (Some len)
          end.

Definition asn1_read_tag (tag : Z) : M Z (option Z) :=
  let! p := pointer in
  if end_ - p <? 1 then mret None
  else
    let! b := deref p in
    if negb (b =? tag) then mret None
    else
      do! advance 1 in
      asn1_read_len.

(** [while ( **p == 0 && *p != end && len > 0)]: the length that is left. *)
Fixpoint skip_zeros (len : nat) : M Z Z :=
  let! p := pointer in
  let! b := deref p in
  if (b =? 0) && negb (p =? end_) then
    match len with
    | O => mret 0
    | S len => do! advance 1 in skip_zeros len
    end
  else mret (Z.of_nat len).

(** The pointer to the integer and its length. *)
Definition asn1_parse_integer : M Z (option (Z * Z)) :=
  let! r := asn1_read_tag 0x02 in
  match r with
  | None => mret None
  | Some len =>
      let! p := pointer in
      let! b := deref p in
      if Z.land b 0x80 =? 0x80 then mret None
      else
        let! prepended := (if (b =? 0) && (2 <=? len)
                           then let! b1 := deref (p + 1) in mret (Z.land b1 0x80 =? 0)
                           else mret false) in
        if prepended then mret None
        else
          let! len := skip_zeros (Z.to_nat len) in
          let! n := pointer in
          do! advance len in
          mret (Some (n, len))
  end.

(** The pointers to the two integers and their lengths, or a refusal. *)
Definition decode_sig (max_size : Z) : M Z (option (Z * Z * Z * Z)) :=
  let! seq := asn1_read_tag 0x30 in
  match seq with
  | None => mret None
  | Some len =>
      let! p := pointer in
      if negb (p + len =? end_) then mret None
      else
        let! ri := asn1_parse_integer in
        match ri with
        | None => mret None
        | Some (r, r_len) =>
            let! si := asn1_parse_integer in
            match si with
            | None => mret None
            | Some (s, s_len) =>
                let! p := pointer in
                if negb (p =? end_) then mret None
                else if (max_size <? r_len) || (max_size <? s_len) then mret None
                else mret (Some (r, r_len, s, s_len))
            end
        end
  end.
End decode.

(** The object [buf] starts with the [input_len] bytes of the signature. What
    the code leaves in [*r], [*r_len], [*s], [*s_len] when it refuses a
    signature is not used by its callers. *)
Definition spec_cx_ecfp_decode_sig_der (buf : list Z) (input_len max_size : Z) : outcome Z (option (Z * Z * Z * Z)) :=
  decode_sig buf input_len max_size 0.

(** [while (( *r == 0) && r_len)]: the bytes that are left; the byte behind the
    integer is read when all of them are null. *)
Fixpoint strip_zeros (r : list Z) : option (list Z) :=
  match r with
  | [] => None
  | b :: r' => if b =? 0 then strip_zeros r' else Some r
  end.

Definition is_negative (r : list Z) : option bool :=
  b ← r !! 0%nat; Some (truthy (Z.land b 0x80)).

(** [sig[offset + k] = v], and the copy of an integer. *)
Definition sig_write (off : Z) (l : list Z) : M (list Z) unit :=
  let! sig := mgets id in
  let! sig := mlift (write_at sig off l) in
  mmodify (fun _ => sig).

(** Writes an integer at [offset]; its length with its sign. *)
Definition encode_integer (offset : Z) (r : list Z) : M (list Z) Z :=
  let r_len := zlen r in
  let! neg := mlift (is_negative r) in
  let! r_len := (if neg then
                   do! sig_write (offset + 2) [0] in
                   do! sig_write (offset + 3) r in
                   mret (r_len + 1)
                 else
                   do! sig_write (offset + 2) r in
                   mret r_len) in
  do! sig_write offset [0x02] in
  do! sig_write (offset + 1) [w8 r_len] in
  mret r_len.

(** The state is the object at [sig]; the result is the value that is returned. *)
Definition spec_cx_ecfp_encode_sig_der (sig_len : Z) (r s : list Z) : M (list Z) Z :=
  let! r := mlift (strip_zeros r) in
  let! s := mlift (strip_zeros s) in
  if (zlen r =? 0) || (zlen s =? 0) then mret 0
  else
    let offset := 3 * 2 + zlen r + zlen s in
    let! neg_r := mlift (is_negative r) in
    let offset := if neg_r : bool then offset + 1 else offset in
    let! neg_s := mlift (is_negative s) in
    let offset := if neg_s : bool then offset + 1 else offset in
    if sig_len <? offset then mret 0
    else
      let! r_len := encode_integer 2 r in
      let! s_len := encode_integer (2 + (2 + r_len)) s in
      do! sig_write 0 [0x30] in
      do! sig_write 1 [w8 (2 + r_len + 2 + s_len)] in
      mret (2 + w8 (2 + r_len + 2 + s_len)).

(** * DER *)

(** The octets of a length: the short form, or the shortest long one. *)
Definition der_length (n : Z) : list Z :=
  if n <? 128 then [n]
  else
    let k := if n <? 256 then 1%nat else if n <? 65536 then 2%nat else if n <? 16777216 then 3%nat else 4%nat in
    (0x80 + Z.of_nat k) :: be_split k n.

Definition der_tlv (tag : Z) (contents : list Z) : list Z := tag :: der_length (zlen contents) ++ contents.

(** The contents of the INTEGER of an unsigned number without leading zeros. *)
Definition der_unsigned (v : list Z) : list Z :=
  match v with
  | [] => [0]
  | b :: _ => if b <? 128 then v else 0 :: v
  end.

Definition der_signature (r s : list Z) : list Z :=
  der_tlv 0x30 (der_tlv 0x02 (der_unsigned r) ++ der_tlv 0x02 (der_unsigned s)).

(** * Proofs *)

(** ** Bits of a byte *)

Lemma byte_forall (P : Z -> bool) : forallb P (map Z.of_nat (seq 0 256)) = true -> forall b, is_byte b -> P b = true.
Proof.
  intros H b Hb. unfold is_byte in Hb. rewrite forallb_forall in H. apply H. apply in_map_iff.
  exists (Z.to_nat b). split; [lia|]. apply in_seq. lia.
Qed.

Lemma bytes_ok_dec l : forallb (fun b => (0 <=? b) && (b <? 256)) l = true -> bytes_ok l.
Proof.
  intros H. apply Forall_forall. intros b Hb. apply list_elem_of_In in Hb. apply (proj1 (forallb_forall _ _) H) in Hb.
  unfold is_byte. lia.
Qed.

Lemma land_high_bit b : is_byte b -> Z.land b 0x80 = if b <? 128 then 0 else 0x80.
Proof.
  intros Hb. apply Z.eqb_eq. revert b Hb.
  apply (byte_forall (fun b => Z.land b 0x80 =? if b <? 128 then 0 else 0x80)). by vm_compute.
Qed.

Lemma land_low_bits b : is_byte b -> 128 <= b -> Z.land b 0x7f = b - 128.
Proof.
  intros Hb H. change 0x7f with (Z.ones 7). rewrite Z.land_ones by lia. unfold is_byte in Hb.
  symmetry. apply Z.mod_unique with 1; lia.
Qed.

Lemma shift_in len b : 0 <= len < 2 ^ 24 -> is_byte b -> w32 (Z.lor (w32 (Z.shiftl len 8)) b) = 256 * len + b.
Proof.
  intros Hl Hb. unfold is_byte in Hb. unfold w32. rewrite Z.shiftl_mul_pow2 by lia. rewrite (Z.mod_small (len * 2 ^ 8)) by lia.
  rewrite lor_disjoint by lia. rewrite Z.mod_small by lia. lia.
Qed.

Lemma truthy_shiftr len : 0 <= len -> truthy (Z.shiftr len 24) = (2 ^ 24 <=? len).
Proof.
  intros Hl. unfold truthy. rewrite Z.shiftr_div_pow2 by lia. pose proof (Z.div_mod len (2 ^ 24) ltac:(lia)).
  pose proof (Z.mod_pos_bound len (2 ^ 24) ltac:(lia)). destruct (Z.leb_spec (2 ^ 24) len), (Z.eqb_spec (len / 2 ^ 24) 0); cbn; lia.
Qed.

(** ** DER lengths *)

(** The long form of a length is its shortest big-endian form. *)
Lemma der_length_long bs : bytes_ok bs -> (1 <= length bs <= 4)%nat -> nth 0 bs 0 <> 0 -> 128 <= be_combine bs ->
  der_length (be_combine bs) = (0x80 + zlen bs) :: bs.
Proof.
  intros Hb Hl Hne Hn. unfold der_length. destruct (Z.ltb_spec (be_combine bs) 128); [lia|]. clear H.
  assert (forall k, k = length bs -> (0x80 + Z.of_nat k) :: be_split k (be_combine bs) = (0x80 + zlen bs) :: bs) as Hk.
  { intros k ->. by rewrite be_split_combine. }
  destruct bs as [|b bs]; [cbn in Hl; lia|]. cbn [nth] in Hne. inversion Hb as [|? ? Hbb Hbs]; subst.
  pose proof (le_combine_bound (rev bs) (bytes_ok_rev _ Hbs)) as Hbound. fold (be_combine bs) in Hbound.
  unfold zlen in Hbound; rewrite length_rev in Hbound; fold (zlen bs) in Hbound. rewrite be_combine_cons in *. unfold is_byte in Hbb.
  destruct bs as [|b1 [|b2 [|b3 [|]]]]; cbn [length] in Hl; try lia; apply Hk;
    [change (zlen []) with 0 in *|change (zlen [b1]) with 1 in *|change (zlen [b1; b2]) with 2 in *|change (zlen [b1; b2; b3]) with 3 in *];
    repeat match goal with |- context [?x <? ?y] => destruct (Z.ltb_spec x y) end; done || lia.
Qed.

Lemma der_length_short n : n < 128 -> der_length n = [n].
Proof. intros H. unfold der_length. by rewrite (proj2 (Z.ltb_lt n 128) H). Qed.

(** Every length has one of the two forms. *)
Lemma der_length_cases n : 0 <= n < 2 ^ 32 -> (n < 128 /\ der_length n = [n]) \/
  exists bs, bytes_ok bs /\ (1 <= length bs <= 4)%nat /\ nth 0 bs 0 <> 0 /\ n = be_combine bs /\ 128 <= n /\
    der_length n = (0x80 + zlen bs) :: bs.
Proof.
  intros Hn. destruct (Z.ltb_spec n 128) as [|H]; [left; split; [done|by apply der_length_short]|right].
  set (k := if n <? 256 then 1%nat else if n <? 65536 then 2%nat else if n <? 16777216 then 3%nat else 4%nat).
  assert (256 ^ (Z.of_nat k - 1) <= n < 256 ^ Z.of_nat k /\ (1 <= k <= 4)%nat) as [Hb Hk].
  { unfold k. repeat match goal with |- context [?x <? ?y] => destruct (Z.ltb_spec x y) end; cbn; lia. }
  exists (be_split k n). split; [apply be_split_bytes|]. rewrite be_split_length. split; [done|].
  split; [|split; [by rewrite be_combine_split, Z.mod_small by lia|split; [done|]]].
  - destruct k as [|k]; [lia|]. assert (S k = 1 + k)%nat as E by lia. rewrite E at 1. rewrite be_split_app. cbn.
    intros H0. rewrite Nat2Z.inj_succ in Hb. replace (Z.succ (Z.of_nat k) - 1) with (Z.of_nat k) in Hb by lia.
    rewrite Z.pow_succ_r in Hb by lia. assert (0 < 256 ^ Z.of_nat k) by (apply Z.pow_pos_nonneg; lia).
    rewrite Z.mod_small in H0 by (split; [apply Z.div_pos; lia|apply Z.div_lt_upper_bound; lia]).
    assert (1 <= n / 256 ^ Z.of_nat k) by (apply Z.div_le_lower_bound; lia). lia.
  - unfold der_length. rewrite (proj2 (Z.ltb_ge n 128) H). fold k. cbv zeta. unfold zlen. by rewrite be_split_length.
Qed.

(** ** What the decoder accepts *)

Section accepts.
Context (buf : list Z) (end_ : Z).
Context (Hbuf : bytes_ok buf) (Hend : end_ <= zlen buf).

(** An outcome: a result that satisfies [Q], or a read beyond the object when
    less than two bytes follow the signature in it. *)
Definition reads {A} (o : outcome Z A) (Q : A -> Z -> Prop) : Prop :=
  match o with
  | Ret a s => Q a s
  | Throw _ _ => False
  | Fault => zlen buf < end_ + 2
  end.

Lemma reads_ret {A} (a : A) s (Q : A -> Z -> Prop) : Q a s -> reads (mret a s) Q.
Proof. done. Qed.

Lemma reads_bind {A B} (m : M Z A) (k : A -> M Z B) s Q R :
  reads (m s) Q -> (forall a s', Q a s' -> reads (k a s') R) -> reads (mbind m k s) R.
Proof. unfold reads, mbind. destruct (m s); intros H Hk; [by apply Hk|done|done]. Qed.

Lemma reads_pointer {B} (k : Z -> M Z B) s R : reads (k s s) R -> reads (mbind pointer k s) R.
Proof. done. Qed.

Lemma reads_advance {B} n (k : unit -> M Z B) s R : reads (k tt (n + s)) R -> reads (mbind (advance n) k s) R.
Proof. done. Qed.

Lemma reads_deref {B} (k : Z -> M Z B) p s R : 0 <= p <= end_ + 1 ->
  (forall b, is_byte b -> zdrop p buf = b :: zdrop (p + 1) buf -> reads (k b s) R) -> reads (mbind (deref buf p) k s) R.
Proof.
  intros Hp Hk. unfold reads, mbind, deref, mlift. rewrite (proj2 (Z.leb_le 0 p)) by lia.
  destruct (buf !! Z.to_nat p) as [b|] eqn:E; [|apply lookup_ge_None in E; unfold zlen; lia].
  apply Hk; [by eapply Forall_lookup_1 in E|]. unfold zdrop. rewrite (drop_S buf b _ E). do 2 f_equal. lia.
Qed.

(** Reads within the signature are within the object. *)
Lemma runs_deref {B} (k : Z -> M Z B) p s R : 0 <= p < end_ ->
  (forall b, is_byte b -> zdrop p buf = b :: zdrop (p + 1) buf -> reads (k b s) R) -> reads (mbind (deref buf p) k s) R.
Proof. intros Hp. apply reads_deref. lia. Qed.

Lemma read_len_loop_reads k p len : 0 <= p -> p + Z.of_nat k <= end_ -> 0 <= len < 2 ^ 32 ->
  reads (read_len_loop buf end_ k len p) (fun r p' => forall n, r = Some n -> exists bs, length bs = k /\ bytes_ok bs /\
    zdrop p buf = bs ++ zdrop p' buf /\ p' = p + Z.of_nat k /\ n = len * 256 ^ Z.of_nat k + be_combine bs /\ n < 2 ^ 32).
Proof.
  revert p len. induction k as [|k IH]; intros p len Hp He Hl; cbn [read_len_loop].
  - apply reads_ret. intros n [= <-]. exists []. change (be_combine []) with 0. split_and!; done || lia || constructor.
  - rewrite truthy_shiftr by lia. destruct (Z.leb_spec (2 ^ 24) len) as [|Hlt]; [by apply reads_ret|].
    apply reads_pointer, runs_deref; [lia|]. intros b Hb Hd. cbv zeta. rewrite shift_in by (done || lia).
    destruct (_ <? _); [by apply reads_ret|]. apply reads_advance. unfold is_byte in Hb.
    pose proof (IH (1 + p) (256 * len + b) ltac:(lia) ltac:(lia) ltac:(lia)) as H. unfold reads in *.
    destruct (read_len_loop _ _ _ _ _) as [r p'| |]; [|done..]. intros n Hr.
    destruct (H n Hr) as (bs & Hbl & Hbs & Hbd & -> & -> & Hn). exists (b :: bs).
    split; [by cbn; f_equal|]. split; [by constructor|]. split; [by rewrite Hd, (Z.add_comm p 1), Hbd|].
    split; [lia|]. split; [|done].
    rewrite be_combine_cons, Nat2Z.inj_succ, Z.pow_succ_r by lia. unfold zlen. rewrite Hbl. lia.
Qed.

(** What a length that is accepted looks like. *)
Definition len_at (p : Z) (r : option Z) (p' : Z) : Prop := forall n, r = Some n ->
  0 <= n < 2 ^ 32 /\ zdrop p buf = der_length n ++ zdrop p' buf /\ p' = p + zlen (der_length n) /\ p' <= end_.

Lemma asn1_read_len_reads p : 0 <= p -> reads (asn1_read_len buf end_ p) (len_at p).
Proof.
  intros Hp. unfold asn1_read_len. apply reads_pointer. destruct (Z.leb_spec end_ p) as [|Hlt]; [by apply reads_ret|].
  apply runs_deref; [lia|]. intros b Hb Hd. apply reads_advance. destruct (b =? 255); [by apply reads_ret|].
  rewrite land_high_bit by done. unfold is_byte in Hb. destruct (Z.ltb_spec b 128) as [Hs|Hs]; cbn [Z.eqb].
  { apply reads_ret. intros n [= <-]. rewrite der_length_short by done. rewrite Hd. change (zlen [b]) with 1.
    rewrite (Z.add_comm p). split_and!; try done; lia. }
  destruct (Z.eqb_spec b 128) as [|Hne]; [by apply reads_ret|]. cbv zeta. rewrite land_low_bits by done.
  apply reads_pointer. destruct (Z.ltb_spec (end_ - (1 + p)) (b - 128)) as [|Hroom]; [by apply reads_ret|].
  apply runs_deref; [lia|]. intros b1 Hb1 Hd1. destruct (Z.eqb_spec b1 0) as [|Hb0]; [by apply reads_ret|].
  destruct (Z.ltb_spec 4 (b - 128)) as [|Hfour]; [by apply reads_ret|].
  eapply reads_bind; [apply read_len_loop_reads; lia|]. cbv beta. intros r p' Hr.
  destruct r as [n|]; [|by apply reads_ret]. destruct (Z.ltb_spec n 128) as [|Hn]; [by apply reads_ret|].
  apply reads_ret. intros ? [= <-]. destruct (Hr n eq_refl) as (bs & Hl & Hbs & Hbd & -> & -> & Hn').
  rewrite Z.mul_0_l, Z.add_0_l in *. assert (zlen bs = b - 128) as Hzl by (unfold zlen; lia).
  assert (nth 0 bs 0 <> 0) as Hhead.
  { destruct bs as [|x bs]; [cbn in Hl; lia|]. cbn [nth]. rewrite Hd1 in Hbd. cbn [app] in Hbd. congruence. }
  rewrite (der_length_long bs Hbs ltac:(lia) Hhead Hn). rewrite Hd, (Z.add_comm p 1), Hbd, zlen_cons, Hzl.
  split; [lia|]. split; [cbn [app]; f_equal; lia|]. split; lia.
Qed.

Lemma asn1_read_tag_reads tag p : 0 <= p -> reads (asn1_read_tag buf end_ tag p) (fun r p' => forall n, r = Some n ->
  0 <= n < 2 ^ 32 /\ zdrop p buf = tag :: der_length n ++ zdrop p' buf /\ p' = p + 1 + zlen (der_length n) /\ p' <= end_).
Proof.
  intros Hp. unfold asn1_read_tag. apply reads_pointer. destruct (Z.ltb_spec (end_ - p) 1) as [|Hlt]; [by apply reads_ret|].
  apply runs_deref; [lia|]. intros b Hb Hd. destruct (Z.eqb_spec b tag) as [->|]; [|by apply reads_ret]. cbn [negb].
  apply reads_advance. pose proof (asn1_read_len_reads (1 + p) ltac:(lia)) as H. unfold reads in *.
  destruct (asn1_read_len _ _ _) as [r p'| |]; [|done..]. intros n Hr. destruct (H n Hr) as (Hn & Hd' & Hp' & He).
  rewrite Hd, (Z.add_comm p 1), Hd'. split_and!; [lia..|done|lia|done].
Qed.
(** The value [v] that the decoder gives to the contents [body] of an INTEGER:
    these are the ones of DER, but for an empty value. *)
Definition integer_of (v body : list Z) : Prop :=
  (nth 0 v 0 <> 0 /\ body = der_unsigned v) \/ (v = [] /\ (body = [] \/ body = [0])).

Lemma zdrop_body p n : 0 <= p -> 0 <= n -> p + n <= end_ -> exists body, zlen body = n /\ bytes_ok body /\
  zdrop p buf = body ++ zdrop (p + n) buf.
Proof.
  intros Hp Hn He. exists (ztake n (zdrop p buf)). rewrite <- (zdrop_zdrop n p) by done. rewrite ztake_zdrop.
  rewrite zlen_ztake by (rewrite zlen_zdrop; lia). split_and!; [done| |done]. by apply Forall_take, Forall_drop.
Qed.

(** The zeros that are skipped, and why the loop stops. *)
Lemma skip_zeros_reads len p : 0 <= p <= end_ -> reads (skip_zeros buf end_ len p) (fun l p' =>
  0 <= l <= Z.of_nat len /\ p' = p + (Z.of_nat len - l) /\ p' <= end_ /\
  zdrop p buf = zeros (Z.of_nat len - l) ++ zdrop p' buf /\ (p' = end_ \/ l = 0 \/ nth 0 (zdrop p' buf) 0 <> 0)).
Proof.
  revert p. induction len as [|len IH]; intros p Hp; cbn [skip_zeros]; apply reads_pointer, reads_deref; try lia;
    intros b Hb Hd.
  - assert (reads (mret 0 p) (fun l p' => 0 <= l <= Z.of_nat 0 /\ p' = p + (Z.of_nat 0 - l) /\ p' <= end_ /\
      zdrop p buf = zeros (Z.of_nat 0 - l) ++ zdrop p' buf /\ (p' = end_ \/ l = 0 \/ nth 0 (zdrop p' buf) 0 <> 0)))
      by (apply reads_ret; split_and!; done || lia || auto).
    by destruct (_ && _).
  - destruct (Z.eqb_spec b 0) as [->|Hne], (Z.eqb_spec p end_) as [->|Hpe]; cbn [andb negb];
      try (apply reads_ret; rewrite Z.sub_diag, Z.add_0_r; rewrite ?Hd; split_and!; done || lia || auto; fail).
    apply reads_advance. pose proof (IH (1 + p) ltac:(lia)) as H. unfold reads in *.
    destruct (skip_zeros _ _ _ _) as [l p'| |]; [|done..]. destruct H as (Hl & -> & He & Hz & Hstop).
    split; [lia|]. split; [lia|]. split; [lia|]. split; [|done].
    rewrite Hd, (Z.add_comm p 1), Hz. change (0 :: zeros (Z.of_nat len - l) ++ ?x) with ((0 :: zeros (Z.of_nat len - l)) ++ x).
    f_equal. replace (Z.of_nat (S len) - l) with (1 + (Z.of_nat len - l)) by lia. by rewrite zeros_app by lia.
Qed.

(** The part of [asn1_parse_integer] behind the length. *)
Definition integer_body (len : Z) : M Z (option (Z * Z)) :=
  let! p := pointer in
  let! b := deref buf p in
  if Z.land b 0x80 =? 0x80 then mret None
  else
    let! prepended := (if (b =? 0) && (2 <=? len)
                       then let! b1 := deref buf (p + 1) in mret (Z.land b1 0x80 =? 0)
                       else mret false) in
    if prepended then mret None
    else
      let! len := skip_zeros buf end_ (Z.to_nat len) in
      let! n := pointer in
      do! advance len in
      mret (Some (n, len)).

(** What precedes the loop leaves at most one null byte to skip. *)
Lemma integer_of_body v k b1 rest b : 0 <= k -> bytes_ok v -> b < 128 -> 0 <= b -> zeros k ++ v = b :: rest ->
  (b = 0 -> 2 <= k + zlen v -> exists l, rest = b1 :: l /\ 128 <= b1) ->
  (v = [] \/ nth 0 v 0 <> 0) -> integer_of v (zeros k ++ v).
Proof.
  intros Hk Hv Hb Hb0 E Hpre Hstop.
  assert (k = 0 \/ k = 1 \/ exists k', 0 <= k' /\ k = 2 + k') as [-> | [-> | (k' & Hk' & ->)]].
  { destruct (Z.eq_dec k 0); [by left|]. destruct (Z.eq_dec k 1); [by right; left|]. right. right. exists (k - 2). lia. }
  - change (zeros 0 ++ v) with v in *. subst v. destruct Hstop as [|Hne]; [done|]. left. split; [done|]. cbn [nth der_unsigned].
    by rewrite (proj2 (Z.ltb_lt b 128) Hb).
  - change (zeros 1 ++ v) with (0 :: v) in *. injection E as <- <-. destruct Hstop as [-> | Hne]; [by right; auto|]. left.
    split; [done|]. destruct v as [|x v]; [done|]. destruct (Hpre eq_refl) as (l & [= <- <-] & Hx); [rewrite zlen_cons; pose proof (zlen_nonneg v); lia|].
    cbn [der_unsigned]. by rewrite (proj2 (Z.ltb_ge x 128) Hx).
  - rewrite zeros_app in E by lia. change (zeros 2) with [0; 0] in E. cbn [app] in E. injection E as <- <-.
    destruct (Hpre eq_refl) as (l & [= <- _] & Hx); [pose proof (zlen_nonneg v); lia|]. lia.
Qed.
(** An INTEGER that is accepted at [p], with its contents of [len] bytes. *)
Definition integer_at (p len n l p' : Z) : Prop :=
  p' = p + len /\ p' = n + l /\ p <= n /\ 0 <= l /\ (p' <= end_ -> exists v body, integer_of v body /\ bytes_ok v /\
    zlen v = l /\ zlen body = len /\ zdrop n buf = v ++ zdrop p' buf /\ zdrop p buf = body ++ zdrop p' buf).

Lemma integer_at_intro p len l p' b rest : 0 <= p -> 0 <= len -> is_byte b -> b < 128 -> zdrop p buf = b :: rest ->
  (b = 0 -> 2 <= len -> exists b1 l, rest = b1 :: l /\ 128 <= b1) ->
  0 <= l <= len -> p' = p + (len - l) -> p' <= end_ -> zdrop p buf = zeros (len - l) ++ zdrop p' buf ->
  (p' = end_ \/ l = 0 \/ nth 0 (zdrop p' buf) 0 <> 0) -> integer_at p len p' l (p' + l).
Proof.
  intros Hp Hlen Hb Hlow Hd Hpre Hl -> He Hz Hstop. split; [lia|]. split; [done|]. split; [lia|]. split; [lia|].
  intros Hin. destruct (zdrop_body (p + (len - l)) l) as (v & Hvl & Hv & Hvd); [lia..|].
  assert (zlen (zeros (len - l) ++ v) = len) as Hbl by (rewrite zlen_app, zlen_zeros by lia; lia).
  assert (zdrop p buf = (zeros (len - l) ++ v) ++ zdrop (p + (len - l) + l) buf) as Hbd by (by rewrite Hz, Hvd, app_assoc).
  exists v, (zeros (len - l) ++ v). split; [|done].
  assert (v = [] \/ nth 0 v 0 <> 0) as Hs.
  { destruct v as [|x v]; [by left|right]. rewrite Hvd in Hstop. rewrite zlen_cons in Hvl. pose proof (zlen_nonneg v).
    destruct Hstop as [|[|]]; [lia|lia|done]. }
  clear Hz. rename Hbd into Hz.
  destruct (zeros (len - l) ++ v) as [|x body] eqn:E.
  { destruct v; [|by destruct (zeros _)]. right. auto. }
  rewrite Hd in Hz. injection Hz as <- Hrest. rewrite <- E.
  destruct body as [|y body].
  - apply (integer_of_body v (len - l) 0 [] b); try done; [lia|apply Hb|]. intros _ H2. apply (f_equal zlen) in E.
    rewrite zlen_app, zlen_zeros in E by lia. change (zlen [b]) with 1 in E. lia.
  - apply (integer_of_body v (len - l) y (y :: body) b); try done; [lia|apply Hb|]. intros Hb0 H2. exists body.
    split; [done|]. destruct (Hpre Hb0 ltac:(lia)) as (b1 & l1 & E1 & Hb1). rewrite E1 in Hrest. injection Hrest as <- _. done.
Qed.

Lemma integer_body_reads p len : 0 <= p <= end_ -> 0 <= len ->
  reads (integer_body len p) (fun r p' => forall n l, r = Some (n, l) -> integer_at p len n l p').
Proof.
  intros Hp Hlen. unfold integer_body. apply reads_pointer, reads_deref; [lia|]. intros b Hb Hd.
  rewrite land_high_bit by done. destruct (Z.ltb_spec b 128) as [Hlow|]; [|by apply reads_ret]. cbn [Z.eqb].
  apply reads_bind with (fun prepended p' => p' = p /\ (prepended = false -> b = 0 -> 2 <= len ->
    exists b1 l, zdrop (p + 1) buf = b1 :: l /\ 128 <= b1)).
  { destruct (Z.eqb_spec b 0) as [->|], (Z.leb_spec 2 len); cbn [andb]; try (apply reads_ret; split; [done|lia]).
    apply reads_deref; [lia|]. intros b1 Hb1 Hd1. apply reads_ret. split; [done|]. rewrite land_high_bit by done.
    destruct (Z.ltb_spec b1 128); [done|]. intros _ _ _. by eauto. }
  intros prepended ? [-> Hpre]. destruct prepended; [by apply reads_ret|]. specialize (Hpre eq_refl).
  eapply reads_bind; [by apply skip_zeros_reads|]. cbv beta. intros l p' (Hl & Hp' & He & Hz & Hstop).
  rewrite Z2Nat.id in * by done.
  apply reads_pointer, reads_advance, reads_ret. intros ? ? [= <- <-]. rewrite Z.add_comm.
  destruct Hp. by apply (integer_at_intro p len l p' b (zdrop (p + 1) buf)).
Qed.

Lemma parse_integer_body : asn1_parse_integer buf end_ =
  (let! r := asn1_read_tag buf end_ 0x02 in match r with None => mret None | Some len => integer_body len end).
Proof. reflexivity. Qed.

Lemma asn1_parse_integer_reads p : 0 <= p -> reads (asn1_parse_integer buf end_ p) (fun r p' => forall n l, r = Some (n, l) ->
  p < p' /\ p' = n + l /\ 0 <= n /\ 0 <= l /\ (p' <= end_ -> exists v body, integer_of v body /\ bytes_ok v /\ zlen v = l /\
    zdrop n buf = v ++ zdrop p' buf /\ zdrop p buf = der_tlv 0x02 body ++ zdrop p' buf)).
Proof.
  intros Hp. rewrite parse_integer_body. eapply reads_bind; [by apply asn1_read_tag_reads|]. cbv beta. intros r p1 Hr.
  destruct r as [len|]; [|by apply reads_ret]. destruct (Hr len eq_refl) as (Hlen & Hd & Hp1 & He).
  pose proof (zlen_nonneg (der_length len)).
  pose proof (integer_body_reads p1 len ltac:(lia) ltac:(lia)) as H1. unfold reads in *.
  destruct (integer_body len p1) as [r p'| |]; [|done..]. intros n l Hn. destruct (H1 n l Hn) as (-> & Hnl & Hpn & Hl & Hin).
  split; [lia|]. split; [done|]. split; [lia|]. split; [done|]. intros Hle.
  destruct (Hin Hle) as (v & body & Hi & Hv & Hvl & Hbl & Hvd & Hbd). exists v, body. split_and!; try done.
  unfold der_tlv. rewrite Hbl, Hd, Hbd. cbn [app]. by rewrite <- app_assoc.
Qed.
(** The value found at a place of the object. *)
Lemma read_value n v rest : 0 <= n -> zdrop n buf = v ++ rest -> n + zlen v <= zlen buf -> read_at buf n (zlen v) = Some v.
Proof.
  intros Hn Hd Hb. pose proof (zlen_nonneg v). unfold read_at. rewrite (proj2 (Z.leb_le 0 n)), (proj2 (Z.leb_le 0 (zlen v))) by done.
  rewrite (proj2 (Z.leb_le _ _) Hb). cbn [andb]. rewrite Hd. by rewrite ztake_app_l.
Qed.

(** What a signature that is accepted is. *)
Definition signature_at (max r r_len s s_len : Z) : Prop :=
  r_len <= max /\ s_len <= max /\ exists vr br vs bs,
    read_at buf r r_len = Some vr /\ read_at buf s s_len = Some vs /\ integer_of vr br /\ integer_of vs bs /\
    ztake end_ buf = der_tlv 0x30 (der_tlv 0x02 br ++ der_tlv 0x02 bs).

Lemma decode_sig_reads max : 0 <= end_ -> reads (decode_sig buf end_ max 0) (fun res _ => forall r rl s sl,
  res = Some (r, rl, s, sl) -> signature_at max r rl s sl).
Proof.
  intros He0. unfold decode_sig. eapply reads_bind; [by apply asn1_read_tag_reads|]. cbv beta. intros res p1 Hr.
  destruct res as [len|]; [|by apply reads_ret]. destruct (Hr len eq_refl) as (Hlen & Hd & Hp1 & He). clear Hr.
  pose proof (zlen_nonneg (der_length len)). apply reads_pointer. destruct (Z.eqb_spec (p1 + len) end_) as [Hseq|]; [|by apply reads_ret].
  cbn [negb]. eapply reads_bind; [apply asn1_parse_integer_reads; lia|]. cbv beta. intros ri p2 Hr.
  destruct ri as [[r rl]|]; [|by apply reads_ret]. destruct (Hr r rl eq_refl) as (Hp2 & Hrl & Hr0 & Hl0 & Hin). clear Hr.
  eapply reads_bind; [apply asn1_parse_integer_reads; lia|]. cbv beta. intros si p3 Hs.
  destruct si as [[s sl]|]; [|by apply reads_ret]. destruct (Hs s sl eq_refl) as (Hp3 & Hsl & Hs0 & Hl1 & Hin'). clear Hs.
  apply reads_pointer. destruct (Z.eqb_spec p3 end_) as [->|]; [|by apply reads_ret]. cbn [negb].
  destruct (Z.ltb_spec max rl), (Z.ltb_spec max sl); try by apply reads_ret. apply reads_ret. intros ? ? ? ? [= <- <- <- <-].
  destruct Hin as (vr & br & Hir & _ & Hvr & Hdr & Hbr); [lia|]. destruct Hin' as (vs & bs & His & _ & Hvs & Hds & Hbs); [lia|].
  split; [done|]. split; [done|]. exists vr, br, vs, bs.
  split; [rewrite <- Hvr; by apply (read_value r vr _ Hr0 Hdr); lia|].
  split; [rewrite <- Hvs; by apply (read_value s vs _ Hs0 Hds); lia|]. split; [done|]. split; [done|].
  rewrite Hbs, app_assoc in Hbr. set (c := der_tlv 2 br ++ der_tlv 2 bs) in *.
  assert (zlen c = len) as Hc.
  { apply (f_equal zlen) in Hbr. rewrite zlen_app, !zlen_zdrop in Hbr by lia. lia. }
  unfold der_tlv at 1. rewrite Hc. rewrite Hbr, zdrop_0 in Hd. rewrite Hd at 1.
  rewrite app_comm_cons, app_assoc. rewrite ztake_app_l; [done|]. rewrite <- app_comm_cons, zlen_cons, zlen_app. lia.
Qed.
End accepts.

Lemma integer_of_value v body : v <> [] -> integer_of v body -> body = der_unsigned v.
Proof. by intros Hv [[_ ->]|[-> _]]. Qed.

(** C36: a signature that [spec_cx_ecfp_decode_sig_der] accepts is a SEQUENCE of
    two INTEGERs within the size that is asked, with lengths in their shortest
    form and nothing behind, and each integer that is given bytes is in the one
    form of DER: no sign bit, no superfluous zero. When both are, the
    signature is the DER encoding of the two values. An INTEGER that is given
    no bytes, the value 0, holds one null byte, as in DER, or no contents at
    all, which is not DER and is accepted nevertheless. At most two bytes
    behind the signature are read, and nothing fails when the object holds them. *)
Theorem der_decode_strict buf n max : bytes_ok buf -> 0 <= n <= zlen buf ->
  (n + 2 <= zlen buf -> exists res p, spec_cx_ecfp_decode_sig_der buf n max = Ret res p) /\
  (forall r rl s sl p, spec_cx_ecfp_decode_sig_der buf n max = Ret (Some (r, rl, s, sl)) p ->
    signature_at buf n max r rl s sl /\
    (forall vr vs, read_at buf r rl = Some vr -> read_at buf s sl = Some vs -> vr <> [] -> vs <> [] ->
      ztake n buf = der_signature vr vs)).
Proof.
  intros Hb Hn. pose proof (decode_sig_reads buf n Hb ltac:(lia) max ltac:(lia)) as H.
  unfold reads, spec_cx_ecfp_decode_sig_der in *. destruct (decode_sig buf n max 0) as [res p| |]; [|done|].
  - split; [by eauto|]. intros r rl s sl p' [= -> ->]. pose proof (H r rl s sl eq_refl) as Hsig. split; [done|].
    destruct Hsig as (_ & _ & vr & br & vs & bs & -> & -> & Hr & Hs & ->). intros ? ? [= <-] [= <-] Hvr Hvs.
    unfold der_signature. by rewrite (integer_of_value vr br), (integer_of_value vs bs).
  - split; [lia|done].
Qed.

Lemma der_decode_strict_witness :
  (exists res p, spec_cx_ecfp_decode_sig_der [0x30; 2; 2; 1; 0; 0] 4 32 = Ret res p) /\
  ztake 9 [0x30; 7; 2; 1; 5; 2; 2; 0; 0x81] = der_signature [5] [0x81] /\
  spec_cx_ecfp_decode_sig_der [0x30; 2; 2; 1] 4 32 = Fault.
Proof.
  split; [apply (der_decode_strict [0x30; 2; 2; 1; 0; 0] 4 32); [by apply bytes_ok_dec|by vm_compute|by vm_compute]|].
  split; [|reflexivity].
  apply (proj2 (der_decode_strict [0x30; 7; 2; 1; 5; 2; 2; 0; 0x81] 9 32 (bytes_ok_dec [0x30; 7; 2; 1; 5; 2; 2; 0; 0x81] eq_refl) ltac:(by vm_compute))
    4 1 8 1 9); reflexivity || discriminate.
Defined.

(** ** What the encoder writes *)

Lemma write_mid (pre x post src : list Z) off : off = zlen pre -> zlen src = zlen x ->
  write_at (pre ++ x ++ post) off src = Some (pre ++ src ++ post).
Proof.
  intros -> Hl. pose proof (zlen_nonneg pre). pose proof (zlen_nonneg x). pose proof (zlen_nonneg post).
  rewrite write_at_ok by (rewrite ?zlen_app; lia). rewrite ztake_app_l by done.
  rewrite <- zdrop_zdrop by (rewrite ?Hl; lia). rewrite zdrop_app_l by done. by rewrite zdrop_app_l.
Qed.

Lemma sig_write_bind {A} (pre x post src : list Z) off sig (k : unit -> M (list Z) A) :
  sig = pre ++ x ++ post -> off = zlen pre -> zlen src = zlen x ->
  mbind (sig_write off src) k sig = k tt (pre ++ src ++ post).
Proof.
  intros -> Ho Hl. unfold sig_write, mbind, mgets, mlift, mmodify, id. cbv beta iota.
  by rewrite (write_mid pre x post src off Ho Hl).
Qed.

(** The integer as the encoder writes it: its length is one byte. *)
Definition tlv8 (tag : Z) (body : list Z) : list Z := tag :: w8 (zlen body) :: body.

Lemma tlv8_short tag body : zlen body < 128 -> tlv8 tag body = der_tlv tag body.
Proof.
  intros H. unfold tlv8, der_tlv. rewrite der_length_short by done. pose proof (zlen_nonneg body).
  unfold w8. by rewrite Z.mod_small by lia.
Qed.

(** An integer without leading zeros, with at least one byte. *)
Definition stripped (v : list Z) : Prop := bytes_ok v /\ nth 0 v 0 <> 0.

Lemma stripped_cons v : stripped v -> exists b l, v = b :: l /\ is_byte b /\ b <> 0.
Proof. intros [Hb Hn]. destruct v as [|b l]; [done|]. exists b, l. split; [done|]. split; [by inversion Hb|done]. Qed.

Lemma is_negative_ok v : stripped v -> is_negative v = Some (negb (nth 0 v 0 <? 128)).
Proof.
  intros H. destruct (stripped_cons v H) as (b & l & -> & Hb & _). unfold is_negative. cbn [lookup list_lookup option_bind base.mbind nth].
  rewrite land_high_bit by done. by destruct (b <? 128).
Qed.

Lemma der_unsigned_sign v : stripped v -> der_unsigned v = if nth 0 v 0 <? 128 then v else 0 :: v.
Proof. intros H. by destruct (stripped_cons v H) as (b & l & -> & _). Qed.

Lemma encode_integer_ok pre x post v offset : offset = zlen pre -> stripped v -> zlen x = 2 + zlen (der_unsigned v) ->
  encode_integer offset v (pre ++ x ++ post) = Ret (zlen (der_unsigned v)) (pre ++ tlv8 0x02 (der_unsigned v) ++ post).
Proof.
  intros -> Hv Hx. unfold encode_integer. rewrite (mlift_some _ _ _ _ (is_negative_ok v Hv)). rewrite der_unsigned_sign in * by done.
  assert (exists x0 x1 x', x = x0 :: x1 :: x' /\ zlen x' = zlen (if nth 0 v 0 <? 128 then v else 0 :: v)) as (x0 & x1 & x' & -> & Hx').
  { destruct x as [|x0 [|x1 x']]; rewrite ?zlen_cons, ?zlen_nil in Hx;
      [pose proof (zlen_nonneg (if nth 0 v 0 <? 128 then v else 0 :: v)); lia..|]. exists x0, x1, x'. split; [done|lia]. }
  clear Hx. destruct (nth 0 v 0 <? 128); cbn [negb].
  - rewrite mbind_assoc. rewrite (sig_write_bind (pre ++ [x0; x1]) x' post) by (rewrite <- ?app_assoc, ?zlen_app; done).
    rewrite mbind_mret. rewrite (sig_write_bind pre [x0] (x1 :: v ++ post)) by (rewrite <- ?app_assoc; done).
    rewrite (sig_write_bind (pre ++ [2]) [x1] (v ++ post)) by (rewrite <- ?app_assoc, ?zlen_app; done).
    unfold tlv8. rewrite <- app_assoc. done.
  - destruct x' as [|y x']; [rewrite zlen_cons in Hx'; change (zlen (@nil Z)) with 0 in Hx'; pose proof (zlen_nonneg v); lia|].
    rewrite !zlen_cons in Hx'. rewrite mbind_assoc.
    rewrite (sig_write_bind (pre ++ [x0; x1]) [y] (x' ++ post)) by (rewrite <- ?app_assoc, ?zlen_app; done).
    rewrite mbind_assoc.
    rewrite (sig_write_bind (pre ++ [x0; x1; 0]) x' post) by (rewrite <- ?app_assoc, ?zlen_app; done || lia).
    rewrite mbind_mret. rewrite (sig_write_bind pre [x0] (x1 :: 0 :: v ++ post)) by (rewrite <- ?app_assoc; done).
    rewrite (sig_write_bind (pre ++ [2]) [x1] (0 :: v ++ post)) by (rewrite <- ?app_assoc, ?zlen_app; done).
    unfold tlv8. rewrite <- app_assoc, zlen_cons, Z.add_comm. done.
Qed.

Lemma strip_zeros_ok r v : bytes_ok r -> strip_zeros r = Some v -> stripped v /\ be_combine v = be_combine r /\ zlen v <= zlen r.
Proof.
  intros Hr. revert v. induction Hr as [|b r Hb Hr IH]; intros v E; [done|]. cbn [strip_zeros] in E. rewrite be_combine_cons, zlen_cons.
  destruct (Z.eqb_spec b 0) as [->|Hne]; [destruct (IH v E) as (Hs & Hv & Hl); split_and!; [done|lia|lia]|].
  injection E as <-. rewrite be_combine_cons, zlen_cons. split_and!; [split; [by constructor|done]|done|lia].
Qed.

(** The signature as the encoder writes it. *)
Definition signature8 (r s : list Z) : list Z :=
  tlv8 0x30 (tlv8 0x02 (der_unsigned r) ++ tlv8 0x02 (der_unsigned s)).

Lemma zlen_der_unsigned v : stripped v -> zlen (der_unsigned v) = zlen v + (if negb (nth 0 v 0 <? 128) then 1 else 0).
Proof. intros H. rewrite der_unsigned_sign by done. destruct (nth 0 v 0 <? 128); cbn [negb]; rewrite ?zlen_cons; lia. Qed.

Lemma zlen_tlv8 tag body : zlen (tlv8 tag body) = 2 + zlen body.
Proof. unfold tlv8. rewrite !zlen_cons. lia. Qed.

(** With room for it, the encoder writes the signature and returns its length. *)
Lemma encode_sig_ok r s vr vs x post sig_len : bytes_ok r -> bytes_ok s -> strip_zeros r = Some vr -> strip_zeros s = Some vs ->
  zlen x = zlen (signature8 vr vs) -> zlen (signature8 vr vs) <= sig_len -> zlen (signature8 vr vs) < 258 ->
  spec_cx_ecfp_encode_sig_der sig_len r s (x ++ post) = Ret (zlen (signature8 vr vs)) (signature8 vr vs ++ post).
Proof.
  intros Hr Hs Er Es Hx Hlen Hsmall. destruct (strip_zeros_ok r vr Hr Er) as (Hvr & _ & _), (strip_zeros_ok s vs Hs Es) as (Hvs & _ & _).
  unfold spec_cx_ecfp_encode_sig_der. rewrite (mlift_some _ _ _ _ Er), (mlift_some _ _ _ _ Es).
  destruct (stripped_cons vr Hvr) as (b & l & Evr & _), (stripped_cons vs Hvs) as (b' & l' & Evs & _).
  pose proof (zlen_nonneg l). pose proof (zlen_nonneg l').
  assert (zlen vr = 1 + zlen l) as Hlr by (by rewrite Evr, zlen_cons). assert (zlen vs = 1 + zlen l') as Hls by (by rewrite Evs, zlen_cons).
  destruct (Z.eqb_spec (zlen vr) 0); [lia|]. destruct (Z.eqb_spec (zlen vs) 0); [lia|]. cbn [orb]. cbv zeta.
  rewrite (mlift_some _ _ _ _ (is_negative_ok vr Hvr)), (mlift_some _ _ _ _ (is_negative_ok vs Hvs)).
  pose proof (zlen_der_unsigned vr Hvr) as Hdr. pose proof (zlen_der_unsigned vs Hvs) as Hds.
  unfold signature8 in *. rewrite zlen_tlv8, zlen_app, !zlen_tlv8 in *.
  match goal with |- context [sig_len <? ?o] => destruct (Z.ltb_spec sig_len o) as [Hlt|_] end.
  { exfalso. destruct (nth 0 vr 0 <? 128), (nth 0 vs 0 <? 128); cbn [negb] in *; lia. }
  set (dr := der_unsigned vr) in *. set (ds := der_unsigned vs) in *.
  pose proof (zlen_nonneg dr). pose proof (zlen_nonneg ds).
  assert (exists x0 x1 xr xs, x = x0 :: x1 :: xr ++ xs /\ zlen xr = 2 + zlen dr /\ zlen xs = 2 + zlen ds) as (x0 & x1 & xr & xs & -> & Hxr & Hxs).
  {
    destruct x as [|x0 [|x1 x']]; rewrite ?zlen_cons, ?(@zlen_nil Z) in Hx; [lia..|].
    exists x0, x1, (ztake (2 + zlen dr) x'), (zdrop (2 + zlen dr) x').
    rewrite ztake_zdrop, zlen_ztake, zlen_zdrop by lia. split_and!; [done|done|lia]. }
  assert ((x0 :: x1 :: xr ++ xs) ++ post = [x0; x1] ++ xr ++ xs ++ post) as -> by (cbn [app]; by rewrite <- app_assoc).
  rewrite (mbind_ret _ _ _ _ _ (encode_integer_ok [x0; x1] xr (xs ++ post) vr 2 eq_refl Hvr Hxr)). fold dr.
  assert ([x0; x1] ++ tlv8 2 dr ++ xs ++ post = ([x0; x1] ++ tlv8 2 dr) ++ xs ++ post) as -> by (by rewrite <- app_assoc).
  rewrite (mbind_ret _ _ _ _ _ (encode_integer_ok ([x0; x1] ++ tlv8 2 dr) xs post vs (2 + (2 + zlen dr))
    ltac:(by rewrite zlen_app, zlen_tlv8) Hvs Hxs)). fold ds.
  rewrite (sig_write_bind [] [x0] (x1 :: tlv8 2 dr ++ tlv8 2 ds ++ post)) by (rewrite <- ?app_assoc; done).
  rewrite (sig_write_bind [0x30] [x1] (tlv8 2 dr ++ tlv8 2 ds ++ post)) by (rewrite <- ?app_assoc; done).
  assert (2 + zlen dr + 2 + zlen ds = zlen (tlv8 2 dr ++ tlv8 2 ds)) as -> by (rewrite zlen_app, !zlen_tlv8; lia).
  unfold mret. f_equal; [unfold w8; rewrite zlen_app, !zlen_tlv8; rewrite Z.mod_small; lia|].
  unfold tlv8 at 5. cbn [app]. by rewrite <- app_assoc.
Qed.

(** ** Decoding what the encoder wrote *)

Section decodes.
Context (buf : list Z) (end_ : Z).

Lemma deref_bind {A} p b l s (k : Z -> M Z A) : 0 <= p -> zdrop p buf = b :: l -> mbind (deref buf p) k s = k b s.
Proof.
  intros Hp Hd. unfold mbind, deref, mlift. rewrite (proj2 (Z.leb_le 0 p) Hp).
  assert (buf !! Z.to_nat p = Some b) as ->; [|done]. rewrite <- (Nat.add_0_r (Z.to_nat p)), <- lookup_drop.
  unfold zdrop in Hd. by rewrite Hd.
Qed.

Lemma zdrop_next p b l : 0 <= p -> zdrop p buf = b :: l -> zdrop (1 + p) buf = l.
Proof. intros Hp Hd. rewrite Z.add_comm, <- zdrop_zdrop by lia. by rewrite Hd. Qed.

Lemma zdrop_skip p a l : 0 <= p -> zdrop p buf = a ++ l -> zdrop (p + zlen a) buf = l.
Proof. intros Hp Hd. pose proof (zlen_nonneg a). rewrite <- zdrop_zdrop by lia. rewrite Hd. by apply zdrop_app_l. Qed.

Lemma mbind_pointer {A} (k : Z -> M Z A) s : mbind pointer k s = k s s.
Proof. done. Qed.

Lemma mbind_advance {A} n (k : unit -> M Z A) s : mbind (advance n) k s = k tt (n + s).
Proof. done. Qed.

(** A tag with a length in its short form. *)
Lemma asn1_read_tag_run tag p n l : 0 <= p -> zdrop p buf = tag :: n :: l -> p + 2 <= end_ -> 0 <= n < 128 ->
  asn1_read_tag buf end_ tag p = Ret (Some n) (p + 2).
Proof.
  intros Hp Hd He Hn. unfold asn1_read_tag. rewrite mbind_pointer. destruct (Z.ltb_spec (end_ - p) 1); [lia|].
  rewrite (deref_bind p tag (n :: l)) by done. rewrite Z.eqb_refl. cbn [negb].
  rewrite mbind_advance. unfold asn1_read_len. rewrite mbind_pointer. destruct (Z.leb_spec end_ (1 + p)); [lia|].
  rewrite (deref_bind (1 + p) n l) by (lia || by eapply zdrop_next). rewrite mbind_advance.
  destruct (Z.eqb_spec n 255); [lia|]. rewrite land_high_bit by (unfold is_byte; lia).
  rewrite (proj2 (Z.ltb_lt n 128)) by lia. cbn [Z.eqb]. unfold mret. f_equal. lia.
Qed.

Lemma skip_zeros_stop len p b l : 0 <= p -> zdrop p buf = b :: l -> b <> 0 ->
  skip_zeros buf end_ len p = Ret (Z.of_nat len) p.
Proof.
  intros Hp Hd Hb. destruct len; cbn [skip_zeros]; rewrite mbind_pointer, (deref_bind p b l) by done; by rewrite (proj2 (Z.eqb_neq b 0) Hb).
Qed.

Lemma integer_body_run v p l : stripped v -> 0 <= p -> zdrop p buf = der_unsigned v ++ l -> p + zlen (der_unsigned v) <= end_ ->
  integer_body buf end_ (zlen (der_unsigned v)) p =
  Ret (Some (p + (zlen (der_unsigned v) - zlen v), zlen v)) (p + zlen (der_unsigned v)).
Proof.
  intros Hv Hp Hd He. destruct (stripped_cons v Hv) as (b & v' & -> & Hb & Hne). unfold is_byte in Hb.
  pose proof (zlen_nonneg v'). pose proof (zlen_cons b v') as Hl. cbn [der_unsigned] in *.
  unfold integer_body. rewrite mbind_pointer. destruct (Z.ltb_spec b 128) as [Hlow|Hhigh].
  - cbn [app] in Hd. rewrite (deref_bind p b (v' ++ l)) by done. rewrite land_high_bit by (unfold is_byte; lia).
    rewrite (proj2 (Z.ltb_lt b 128)) by done. cbn [Z.eqb]. rewrite (proj2 (Z.eqb_neq b 0) Hne). cbn [andb].
    rewrite mbind_mret. rewrite (mbind_ret _ _ _ _ _ (skip_zeros_stop _ _ _ _ Hp Hd Hne)). rewrite Z2Nat.id by lia.
    rewrite mbind_pointer, mbind_advance. unfold mret. f_equal; [do 2 f_equal; lia|lia].
  - cbn [app] in Hd. rewrite (deref_bind p 0 (b :: v' ++ l)) by done. change (Z.land 0 128 =? 128) with false.
    rewrite (zlen_cons 0 (b :: v')) in *. destruct (Z.leb_spec 2 (1 + zlen (b :: v'))); [|lia]. cbn [Z.eqb andb].
    assert (zdrop (1 + p) buf = b :: v' ++ l) as Hd1 by by eapply zdrop_next. cbv iota.
    rewrite mbind_assoc, (deref_bind (p + 1) b (v' ++ l)) by (lia || by rewrite Z.add_comm).
    rewrite mbind_mret, land_high_bit by (unfold is_byte; lia). rewrite (proj2 (Z.ltb_ge b 128)) by done.
    change (128 =? 0) with false. cbv iota.
    assert (skip_zeros buf end_ (Z.to_nat (1 + zlen (b :: v'))) p = Ret (zlen (b :: v')) (1 + p)) as E.
    { rewrite Z2Nat.inj_add by lia. change (Z.to_nat 1) with 1%nat. cbn [Nat.add skip_zeros]. rewrite mbind_pointer.
      rewrite (deref_bind p 0 (b :: v' ++ l)) by done. destruct (Z.eqb_spec p end_); [lia|]. cbn [Z.eqb andb negb].
      rewrite mbind_advance. rewrite (skip_zeros_stop _ (1 + p) b (v' ++ l)) by (done || lia).
      by rewrite Z2Nat.id by lia. }
    rewrite (mbind_ret _ _ _ _ _ E), mbind_pointer, mbind_advance. unfold mret. f_equal; [do 2 f_equal; lia|lia].
Qed.

Lemma asn1_parse_integer_run v p l : stripped v -> 0 <= p -> zlen (der_unsigned v) < 128 ->
  zdrop p buf = der_tlv 0x02 (der_unsigned v) ++ l -> p + 2 + zlen (der_unsigned v) <= end_ ->
  asn1_parse_integer buf end_ p =
  Ret (Some (p + 2 + (zlen (der_unsigned v) - zlen v), zlen v)) (p + 2 + zlen (der_unsigned v)).
Proof.
  intros Hv Hp Hs Hd He. pose proof (zlen_nonneg (der_unsigned v)). rewrite parse_integer_body.
  unfold der_tlv in Hd. rewrite der_length_short in Hd by done. cbn [app] in Hd.
  rewrite (mbind_ret _ _ _ _ _ (asn1_read_tag_run 2 p _ _ Hp Hd ltac:(lia) ltac:(lia))).
  apply (integer_body_run v (p + 2) l); [done|lia| |lia]. rewrite <- zdrop_zdrop by lia. by rewrite Hd.
Qed.

(** The value of an integer that was written. *)
Lemma read_integer v p l : stripped v -> 0 <= p -> zdrop p buf = der_unsigned v ++ l -> p + zlen (der_unsigned v) <= zlen buf ->
  read_at buf (p + (zlen (der_unsigned v) - zlen v)) (zlen v) = Some v.
Proof.
  intros Hv Hp Hd Hl. rewrite der_unsigned_sign in * by done. pose proof (zlen_nonneg v).
  destruct (nth 0 v 0 <? 128).
  - rewrite Z.sub_diag, Z.add_0_r. by apply (read_value buf p v l).
  - rewrite zlen_cons in *. apply (read_value buf _ v l); [lia| |lia]. replace (p + (1 + zlen v - zlen v)) with (1 + p) by lia.
    by eapply zdrop_next.
Qed.
End decodes.

Lemma decode_signature vr vs post max : stripped vr -> stripped vs -> zlen (signature8 vr vs) < 130 -> zlen vr <= max -> zlen vs <= max ->
  exists r s, spec_cx_ecfp_decode_sig_der (signature8 vr vs ++ post) (zlen (signature8 vr vs)) max =
    Ret (Some (r, zlen vr, s, zlen vs)) (zlen (signature8 vr vs)) /\
    read_at (signature8 vr vs ++ post) r (zlen vr) = Some vr /\ read_at (signature8 vr vs ++ post) s (zlen vs) = Some vs.
Proof.
  intros Hvr Hvs Hs Hr Hsz. pose proof (zlen_nonneg (der_unsigned vr)). pose proof (zlen_nonneg (der_unsigned vs)).
  unfold signature8 in *. rewrite zlen_tlv8, zlen_app, !zlen_tlv8 in *.
  rewrite (tlv8_short 2), (tlv8_short 2), tlv8_short by (rewrite ?zlen_app; unfold der_tlv; rewrite ?der_length_short, ?zlen_cons, ?zlen_app by lia;
    rewrite ?zlen_cons; change (zlen (@nil Z)) with 0; lia).
  set (dr := der_unsigned vr) in *. set (ds := der_unsigned vs) in *.
  assert (der_tlv 2 dr = 2 :: zlen dr :: dr /\ der_tlv 2 ds = 2 :: zlen ds :: ds) as [Er Es]
    by (unfold der_tlv; by rewrite !der_length_short by lia).
  set (n := 2 + zlen dr + (2 + zlen ds)) in *.
  assert (der_tlv 48 (der_tlv 2 dr ++ der_tlv 2 ds) = 48 :: n :: der_tlv 2 dr ++ der_tlv 2 ds) as E.
  { unfold der_tlv at 1. assert (zlen (der_tlv 2 dr ++ der_tlv 2 ds) = n) as ->; [|by rewrite der_length_short by lia].
    rewrite zlen_app, Er, Es, !zlen_cons. lia. }
  rewrite E. set (buf := (48 :: n :: der_tlv 2 dr ++ der_tlv 2 ds) ++ post).
  assert (zdrop 0 buf = 48 :: n :: (der_tlv 2 dr ++ der_tlv 2 ds) ++ post) as Hd0 by done.
  assert (zdrop 2 buf = der_tlv 2 dr ++ der_tlv 2 ds ++ post) as Hd2 by (change (zdrop 2 buf) with ((der_tlv 2 dr ++ der_tlv 2 ds) ++ post); by rewrite app_assoc).
  assert (zdrop (2 + 2 + zlen dr) buf = der_tlv 2 ds ++ post) as Hd3.
  { replace (2 + 2 + zlen dr) with (2 + zlen (der_tlv 2 dr)) by (rewrite Er, !zlen_cons; lia). by apply zdrop_skip. }
  assert (zlen buf = 2 + n + zlen post) as Hlb by (unfold buf, n; rewrite !zlen_app, !zlen_cons, !zlen_app, Er, Es, !zlen_cons; lia).
  pose proof (zlen_nonneg post).
  exists (2 + 2 + (zlen dr - zlen vr)), (2 + 2 + zlen dr + 2 + (zlen ds - zlen vs)). split; [|split].
  - unfold spec_cx_ecfp_decode_sig_der, decode_sig. change (2 + (2 + zlen dr + (2 + zlen ds))) with (2 + n).
    rewrite (mbind_ret _ _ _ _ _ (asn1_read_tag_run buf (2 + n) 48 0 n _ ltac:(done) Hd0 ltac:(lia) ltac:(lia))).
    rewrite mbind_pointer. change (0 + 2) with 2. rewrite Z.eqb_refl. cbn [negb].
    rewrite (mbind_ret _ _ _ _ _ (asn1_parse_integer_run buf (2 + n) vr 2 _ Hvr ltac:(done) ltac:(fold dr; lia) Hd2 ltac:(fold dr; lia))).
    fold dr. rewrite (mbind_ret _ _ _ _ _ (asn1_parse_integer_run buf (2 + n) vs (2 + 2 + zlen dr) _ Hvs ltac:(lia) ltac:(fold ds; lia) Hd3 ltac:(fold ds; lia))).
    fold ds. rewrite mbind_pointer. replace (2 + 2 + zlen dr + 2 + zlen ds) with (2 + n) by lia. rewrite Z.eqb_refl. cbn [negb].
    destruct (Z.ltb_spec max (zlen vr)), (Z.ltb_spec max (zlen vs)); [lia..|done].
  - apply (read_integer buf vr (2 + 2) (der_tlv 2 ds ++ post)); [done|lia| |fold dr; lia].
    rewrite <- zdrop_zdrop by lia. by rewrite Hd2, Er.
  - apply (read_integer buf vs (2 + 2 + zlen dr + 2) post); [done|lia| |fold ds; lia].
    rewrite <- zdrop_zdrop by lia. by rewrite Hd3, Es.
Qed.

Lemma strip_zeros_some r : bytes_ok r -> be_combine r <> 0 -> exists v, strip_zeros r = Some v.
Proof.
  intros Hr. induction Hr as [|b r Hb Hr IH]; [by intros []|]. cbn [strip_zeros]. rewrite be_combine_cons.
  destruct (Z.eqb_spec b 0) as [->|]; [intros H; apply IH; lia|by eauto].
Qed.

Lemma zlen_signature8 vr vs : stripped vr -> stripped vs ->
  6 + zlen vr + zlen vs <= zlen (signature8 vr vs) <= 8 + zlen vr + zlen vs.
Proof.
  intros Hr Hs. unfold signature8. rewrite zlen_tlv8, zlen_app, !zlen_tlv8, !zlen_der_unsigned by done.
  destruct (nth 0 vr 0 <? 128), (nth 0 vs 0 <? 128); cbn [negb]; lia.
Qed.

(** Encodes in a buffer that is large enough. *)
Lemma encode_in_buffer r s vr vs sig sig_len : bytes_ok r -> bytes_ok s -> strip_zeros r = Some vr -> strip_zeros s = Some vs ->
  zlen (signature8 vr vs) <= sig_len -> sig_len <= zlen sig -> zlen (signature8 vr vs) < 258 ->
  exists post, spec_cx_ecfp_encode_sig_der sig_len r s sig = Ret (zlen (signature8 vr vs)) (signature8 vr vs ++ post).
Proof.
  intros Hr Hs Er Es Hl Hsig Hsmall. pose proof (zlen_nonneg (signature8 vr vs)).
  exists (zdrop (zlen (signature8 vr vs)) sig). rewrite <- (ztake_zdrop (zlen (signature8 vr vs)) sig) at 1.
  apply encode_sig_ok; try done. apply zlen_ztake. lia.
Qed.

(** C16: c-der_roundtrip: two integers that are not 0, of at most 121 bytes together,
    are encoded by [spec_cx_ecfp_encode_sig_der] as DER prescribes, and
    [spec_cx_ecfp_decode_sig_der] finds them again without reading beyond the
    signature: their values are those of the integers, their leading zeros
    dropped. *)
Theorem der_roundtrip r s sig sig_len max : bytes_ok r -> bytes_ok s -> be_combine r <> 0 -> be_combine s <> 0 ->
  zlen r + zlen s <= 121 -> 8 + zlen r + zlen s <= sig_len -> sig_len <= zlen sig -> zlen r <= max -> zlen s <= max ->
  exists n out vr vs pr ps, spec_cx_ecfp_encode_sig_der sig_len r s sig = Ret n out /\
    ztake n out = der_signature vr vs /\ be_combine vr = be_combine r /\ be_combine vs = be_combine s /\
    spec_cx_ecfp_decode_sig_der out n max = Ret (Some (pr, zlen vr, ps, zlen vs)) n /\
    read_at out pr (zlen vr) = Some vr /\ read_at out ps (zlen vs) = Some vs.
Proof.
  intros Hr Hs Hr0 Hs0 Hsum Hlen Hsig Hmr Hms.
  destruct (strip_zeros_some r Hr Hr0) as (vr & Er), (strip_zeros_some s Hs Hs0) as (vs & Es).
  destruct (strip_zeros_ok r vr Hr Er) as (Hvr & Hval & Hlr), (strip_zeros_ok s vs Hs Es) as (Hvs & Hval' & Hls).
  pose proof (zlen_signature8 vr vs Hvr Hvs) as Hn. pose proof (zlen_nonneg vr). pose proof (zlen_nonneg vs).
  destruct (encode_in_buffer r s vr vs sig sig_len) as (post & E); [done..|lia|lia|lia|].
  destruct (decode_signature vr vs post max) as (pr & ps & Ed & Epr & Eps); [done..|lia|lia|lia|].
  exists (zlen (signature8 vr vs)), (signature8 vr vs ++ post), vr, vs, pr, ps. split; [done|]. split; [|done].
  rewrite ztake_app_l by done. unfold signature8, der_signature in *. rewrite zlen_tlv8, zlen_app, !zlen_tlv8 in Hn.
  rewrite (tlv8_short 2), (tlv8_short 2) by (pose proof (zlen_nonneg (der_unsigned vr)); pose proof (zlen_nonneg (der_unsigned vs)); lia).
  apply tlv8_short. rewrite <- !tlv8_short by (pose proof (zlen_nonneg (der_unsigned vr)); pose proof (zlen_nonneg (der_unsigned vs)); lia).
  rewrite zlen_app, !zlen_tlv8. lia.
Qed.

Lemma der_roundtrip_witness : exists n out vr vs pr ps,
  spec_cx_ecfp_encode_sig_der 12 [0; 5] [0x81; 7] (zeros 12) = Ret n out /\
  ztake n out = der_signature vr vs /\ be_combine vr = 5 /\ be_combine vs = 0x8107 /\
  spec_cx_ecfp_decode_sig_der out n 32 = Ret (Some (pr, zlen vr, ps, zlen vs)) n /\
  read_at out pr (zlen vr) = Some vr /\ read_at out ps (zlen vs) = Some vs.
Proof.
  apply (der_roundtrip [0; 5] [0x81; 7] (zeros 12) 12 32);
    solve [by apply bytes_ok_dec | by vm_compute | intros H; by vm_compute in H].
Defined.

(** ** Signatures that are too long *)

(** A length of 128 or more that is written as one byte is refused. *)
Lemma long_length_refused n x l : 128 <= n < 256 -> is_byte x -> l = 48 :: w8 n :: 2 :: x :: zdrop 4 l -> zlen l >= 2 + n ->
  exists p, asn1_read_tag l (2 + n) 48 0 = Ret None p.
Proof.
  intros Hn Hx Hl Hlen. unfold w8 in Hl. rewrite Z.mod_small in Hl by lia. unfold is_byte in Hx.
  assert (zdrop 0 l = 48 :: n :: 2 :: x :: zdrop 4 l) as Hd0 by done.
  assert (zdrop 1 l = n :: 2 :: x :: zdrop 4 l) as Hd1 by (by rewrite Hl at 1).
  assert (zdrop 2 l = 2 :: x :: zdrop 4 l) as Hd2 by (by rewrite Hl at 1).
  assert (zdrop 3 l = x :: zdrop 4 l) as Hd3 by (by rewrite Hl at 1). clear Hl.
  unfold asn1_read_tag. rewrite mbind_pointer. destruct (Z.ltb_spec (2 + n - 0) 1); [lia|].
  rewrite (deref_bind l 0 _ _ _ _ ltac:(done) Hd0). cbn [Z.eqb Pos.eqb negb]. rewrite mbind_advance. unfold asn1_read_len.
  rewrite mbind_pointer. destruct (Z.leb_spec (2 + n) (1 + 0)); [lia|]. rewrite (deref_bind l 1 _ _ _ _ ltac:(done) Hd1).
  rewrite mbind_advance. destruct (Z.eqb_spec n 255); [by eexists|]. rewrite land_high_bit by (unfold is_byte; lia).
  rewrite (proj2 (Z.ltb_ge n 128)) by lia. cbn [Z.eqb]. destruct (Z.eqb_spec n 128); [by eexists|]. cbv zeta.
  rewrite land_low_bits by (unfold is_byte; lia). rewrite mbind_pointer. change (1 + (1 + 0)) with 2.
  destruct (Z.ltb_spec (2 + n - 2) (n - 128)); [lia|]. rewrite (deref_bind l 2 _ _ _ _ ltac:(done) Hd2). cbn [Z.eqb].
  destruct (Z.ltb_spec 4 (n - 128)); [by eexists|].
  assert (exists k, Z.to_nat (n - 128) = S k) as (k & Ek) by (exists (Z.to_nat (n - 129)); lia).
  assert (exists r p, read_len_loop l (2 + n) (Z.to_nat (n - 128)) 0 2 = Ret r p /\ (r = None \/ r = Some 2)) as (r & p & E & Hr).
  { rewrite Ek. cbn [read_len_loop]. change (truthy (Z.shiftr 0 24)) with false. cbv iota.
    rewrite mbind_pointer, (deref_bind l 2 _ _ _ _ ltac:(done) Hd2). cbv zeta.
    change (w32 (Z.lor (w32 (Z.shiftl 0 8)) 2)) with 2. destruct (_ <? _); [by eauto|]. rewrite mbind_advance.
    destruct k as [|k]; cbn [read_len_loop]; [by eauto|]. change (truthy (Z.shiftr 2 24)) with false. cbv iota.
    rewrite mbind_pointer. change (1 + 2) with 3. rewrite (deref_bind l 3 _ _ _ _ ltac:(done) Hd3). cbv zeta.
    rewrite shift_in by (unfold is_byte; lia). unfold w32. rewrite Z.mod_small by lia.
    destruct (Z.ltb_spec (2 + n - 3) (256 * 2 + x + Z.of_nat (S k))); [by eauto|lia]. }
  rewrite (mbind_ret _ _ _ _ _ E). destruct Hr as [-> | ->]; [by eexists|]. by eexists.
Qed.

(** C37: c-der_long_refused: two integers whose signature has 128 bytes of contents or
    more (two of 62 bytes, so most signatures on a curve of 512 bits) are
    written with the length in one byte, which DER reserves for another use:
    the encoder reports a success, and the decoder refuses what it wrote. *)
Theorem der_long_refused r s sig sig_len max : bytes_ok r -> bytes_ok s -> nth 0 r 0 <> 0 -> nth 0 s 0 <> 0 ->
  124 <= zlen r + zlen s <= 249 -> 8 + zlen r + zlen s <= sig_len -> sig_len <= zlen sig ->
  exists n out p, spec_cx_ecfp_encode_sig_der sig_len r s sig = Ret n out /\ 0 < n /\
    spec_cx_ecfp_decode_sig_der out n max = Ret None p.
Proof.
  intros Hr Hs Hr0 Hs0 Hsum Hlen Hsig. assert (stripped r /\ stripped s) as [Hvr Hvs] by done.
  assert (strip_zeros r = Some r /\ strip_zeros s = Some s) as [Er Es].
  { destruct (stripped_cons r Hvr) as (b & l & -> & _ & Hb), (stripped_cons s Hvs) as (b' & l' & -> & _ & Hb').
    cbn [strip_zeros]. by rewrite (proj2 (Z.eqb_neq b 0) Hb), (proj2 (Z.eqb_neq b' 0) Hb'). }
  pose proof (zlen_signature8 r s Hvr Hvs) as Hn.
  destruct (encode_in_buffer r s r s sig sig_len) as (post & E); [done..|lia|lia|lia|].
  exists (zlen (signature8 r s)), (signature8 r s ++ post). rewrite E. set (n := zlen (signature8 r s) - 2).
  assert (zlen (signature8 r s) = 2 + n) as Hn2 by (unfold n; lia).
  destruct (long_length_refused n (w8 (zlen (der_unsigned r))) (signature8 r s ++ post)) as (p & Ed).
  - lia.
  - by apply Z.mod_pos_bound.
  - assert (n = zlen (tlv8 2 (der_unsigned r) ++ tlv8 2 (der_unsigned s))) as ->; [|done].
    unfold n, signature8. rewrite zlen_tlv8. lia.
  - rewrite zlen_app, Hn2. pose proof (zlen_nonneg post). lia.
  - exists p. split; [done|]. split; [lia|]. unfold spec_cx_ecfp_decode_sig_der, decode_sig. rewrite Hn2.
    by rewrite (mbind_ret _ _ _ _ _ Ed).
Qed.

Lemma der_long_refused_witness : exists n out p,
  spec_cx_ecfp_encode_sig_der 140 (replicate 64 0x7f) (replicate 64 0x80) (zeros 140) = Ret n out /\ 0 < n /\
  spec_cx_ecfp_decode_sig_der out n 64 = Ret None p.
Proof.
  apply (der_long_refused (replicate 64 0x7f) (replicate 64 0x80) (zeros 140) 140 64);
    solve [by apply bytes_ok_dec | by vm_compute | split; by vm_compute].
Defined.
