(* ===== verification/HdPath.v ===== *)
(** Which keys an application may derive: the check of the paths of
    [src/bolos/os_bip32.c] ([os_perso_derive_node_bip32_check_path]) and the one
    of [src/bolos/hdkey/src/hdkey_validate.c], which replaces it for the newer
    system call. Both read the parameter [derivation_path] of the application: a
    mask of the curves that it may use, then entries. An entry is the number of
    its indices, with their values, or, with the bit 7, the number of bytes of a
    SLIP-21 label, with its bytes. *)

From S2P Require Import Prelude CxUtils BeBytes SigDer.

(** * Operations *)

(** ** Reading the paths *)

(** [path[i]], in the memory at [path]. *)
Definition path_index (path : list Z) (i : Z) : option Z := l ← read_at path (4 * i) 4; Some (le_combine l).

(** [memcmp(path, derive_path + off, n) == 0]. *)
Definition memcmp_eq (path derive_path : list Z) (off n : Z) : option bool :=
  x ← read_at path 0 n; y ← read_at derive_path off n; Some (bool_decide (x = y)).

Definition HDKEY_BIP32_WILDCARD_VALUE : Z := 0x7fffffff.
Definition BIP32_WILDCARD_VALUE : Z := 0x7fffffff.

(** The loop over the indices of the entry at [off], from the one of rank [i]. *)
Fixpoint check_indices (path derive_path : list Z) (off i : Z) (n : nat) : option bool :=
  match n with
  | O => Some true
  | S n =>
      allowed_prefix ← U4BE derive_path (off + 1 + 4 * i);
      index ← path_index path i;
      if negb (index =? allowed_prefix) && negb (allowed_prefix =? BIP32_WILDCARD_VALUE) then Some false
      else check_indices path derive_path off (i + 1) n
  end.

(** Is one of the indices hardened? *)
Fixpoint any_hardened (path : list Z) (i : Z) (n : nat) : option bool :=
  match n with
  | O => Some false
  | S n =>
      index ← path_index path i;
      if truthy (Z.land index 0x80000000) then Some true else any_hardened path (i + 1) n
  end.

(** ** [os_perso_derive_node_bip32_check_path] *)

Definition HDW_NORMAL : Z := 0.
Definition HDW_ED25519_SLIP10 : Z := 1.
Definition HDW_SLIP21 : Z := 2.

(** The curves are numbered in two ways, by the SDK: this one is of the first SDK. *)
Definition CX_CURVE_256K1 : Z := 0x21.
Definition CX_CURVE_256R1 : Z := 0x22.
Definition CX_CURVE_Ed25519 : Z := 0x41.

Definition DERIVE_AUTH_256K1 : Z := 0x01.
Definition DERIVE_AUTH_256R1 : Z := 0x02.
Definition DERIVE_AUTH_ED25519 : Z := 0x04.
Definition DERIVE_AUTH_SLIP21 : Z := 0x08.

Definition SWO_PAR_VAL_13 : Z := 0x4213.
Definition SWO_PAR_VAL_14 : Z := 0x4214.
Definition SWO_PAR_VAL_15 : Z := 0x4215.

(** [while ((checkOffset < derive_path_length) && !pathValid)]. *)
Fixpoint check_loop (fuel : nat) (slip21Request : bool) (path : list Z) (pathLength : Z) (derive_path : list Z)
    (checkOffset : Z) : option bool :=
  if negb (checkOffset <? zlen derive_path) then Some false
  else
    match fuel with
    | O => None
    | S fuel =>
        subPathLength ← derive_path !! Z.to_nat checkOffset;
        let slip21Marker := negb (Z.land subPathLength 0x80 =? 0) in
        let subPathLength := Z.land subPathLength 0x7f in
        pathValid ← (if subPathLength <=? pathLength then
                       if negb (Bool.eqb slip21Marker slip21Request) then Some false
                       else if slip21Request then memcmp_eq path derive_path (checkOffset + 1) subPathLength
                       else check_indices path derive_path checkOffset 0 (Z.to_nat subPathLength)
                     else Some false);
        let checkOffset := w32 (checkOffset + (1 + (if slip21Marker then 1 else 4) * subPathLength)) in
        if pathValid : bool then Some true
        else check_loop fuel slip21Request path pathLength derive_path checkOffset
    end.

Definition bip32_curve_mask (mode curve : Z) : option Z :=
  if mode =? HDW_SLIP21 then Some DERIVE_AUTH_SLIP21
  else if curve =? CX_CURVE_256K1 then Some DERIVE_AUTH_256K1
  else if curve =? CX_CURVE_256R1 then Some DERIVE_AUTH_256R1
  else if curve =? CX_CURVE_Ed25519 then Some DERIVE_AUTH_ED25519
  else None.

(** [app_path] is what [get_app_derivation_path] gives. *)
Definition os_perso_derive_node_bip32_check_path (mode curve : Z) (path : list Z) (pathLength : Z) (fromApp : bool)
    (app_path : list Z) : M unit unit :=
  let derive_path := if fromApp then app_path else [] in
  let! pathValid :=
    (if zlen derive_path =? 0 then mret true
     else
       match bip32_curve_mask mode curve with
       | None => mthrow SWO_PAR_VAL_13
       | Some curveMask =>
           let! mask := mlift (derive_path !! 0%nat) in
           if negb (Z.land mask curveMask =? curveMask) then mthrow SWO_PAR_VAL_14
           else if 1 <? zlen derive_path then
             mlift (check_loop (length derive_path) (mode =? HDW_SLIP21) path pathLength derive_path 1)
           else mret true
       end) in
  if pathValid : bool then mret tt else mthrow SWO_PAR_VAL_15.

(** ** [hdkey_validate.c] *)

Inductive os_result_t :=
| OS_SUCCESS | OS_ERR_BAD_PARAM | OS_ERR_BAD_LEN | OS_ERR_BAD_STATE | OS_ERR_ACCESS_DENIED | OS_ERR_NOT_FOUND
| OS_ERR_NOT_IMPLEMENTED | OS_ERR_NOT_SUPPORTED | OS_ERR_NO_MEMORY | OS_ERR_SHORT_BUFFER | OS_ERR_BUSY | OS_ERR_CANCEL
| OS_ERR_TIMEOUT | OS_ERR_OVERFLOW | OS_ERR_CRYPTO_INTERNAL | OS_ERR_INTEGRITY | OS_ERR_SIGNATURE | OS_ERR_EMPTY
| OS_ERR_BAD_FORMAT | OS_ERR_FORBIDDEN.

#[export] Instance os_result_eq_dec : EqDecision os_result_t.
Proof. solve_decision. Defined.

Definition HDKEY_DERIVE_MODE_BLS12377_ALEO : Z := 0x08.
Definition HDKEY_DERIVE_MODE_ZIP32_SAPLING : Z := 0x10.
Definition HDKEY_DERIVE_MODE_ZIP32_ORCHARD : Z := 0x20.
Definition HDKEY_DERIVE_AUTH_BLS12377G1 : Z := 0x20.
Definition HDKEY_DERIVE_AUTH_ZIP32 : Z := 0x40.

(** The numbers of the second SDK. *)
Definition SDK2_CURVE_Ed25519 : Z := 0x71.
Definition SDK2_CURVE_BLS12_377_G1 : Z := 0x52.
Definition SDK2_CURVE_JUBJUB : Z := 0x74.

Definition APPLICATION_FLAG_DERIVE_MASTER : Z := 0x10.
Definition BOLOS_APP_IDX : Z := 0xff.

(** The parameters that are validated; [path] is the memory at the pointer, if it is not NULL. *)
Record HDKEY_params_t := mk_params { hd_mode : Z; hd_curve : Z; hd_path_len : Z; hd_path : option (list Z) }.

(** An operation on the parameters: [None] for an access out of the buffers. *)
Definition hdkey_validate_params (mode : Z) (path : option (list Z)) : option os_result_t :=
  if (mode =? HDW_SLIP21) && bool_decide (path = None) then Some OS_ERR_BAD_PARAM
  else
    bad ← (if mode =? HDW_SLIP21 then p ← path; b ← p !! 0%nat; Some (negb (b =? 0)) else Some false);
    if bad : bool then Some OS_ERR_BAD_FORMAT
    else if negb (Z.land mode (w32 (mode - 1)) =? 0) then Some OS_ERR_BAD_PARAM
    else Some OS_SUCCESS.

Definition memory (path : option (list Z)) : list Z := default [] path.

Definition hdkey_validate_hardened (app_flags mode app_idx : Z) (path : option (list Z)) (path_len : Z) : option os_result_t :=
  if negb (mode =? HDW_SLIP21) && negb (app_idx =? BOLOS_APP_IDX) && negb (truthy (Z.land app_flags APPLICATION_FLAG_DERIVE_MASTER))
  then
    hardened ← any_hardened (memory path) 0 (Z.to_nat path_len);
    Some (if hardened : bool then OS_SUCCESS else OS_ERR_BAD_PARAM)
  else Some OS_SUCCESS.

Definition hdkey_curve_mask (mode curve : Z) : os_result_t * Z :=
  if mode =? HDW_SLIP21 then (OS_SUCCESS, DERIVE_AUTH_SLIP21)
  else if mode =? HDKEY_DERIVE_MODE_BLS12377_ALEO then
    if curve =? SDK2_CURVE_BLS12_377_G1 then (OS_SUCCESS, HDKEY_DERIVE_AUTH_BLS12377G1) else (OS_ERR_BAD_PARAM, 0)
  else if mode =? HDKEY_DERIVE_MODE_ZIP32_SAPLING then
    if curve =? SDK2_CURVE_JUBJUB then (OS_SUCCESS, HDKEY_DERIVE_AUTH_ZIP32) else (OS_ERR_BAD_PARAM, 0)
  else if mode =? HDKEY_DERIVE_MODE_ZIP32_ORCHARD then (OS_SUCCESS, HDKEY_DERIVE_AUTH_ZIP32)
  else if curve =? CX_CURVE_256K1 then (OS_SUCCESS, DERIVE_AUTH_256K1)
  else if curve =? CX_CURVE_256R1 then (OS_SUCCESS, DERIVE_AUTH_256R1)
  else if curve =? SDK2_CURVE_Ed25519 then (OS_SUCCESS, DERIVE_AUTH_ED25519)
  else (OS_ERR_NOT_IMPLEMENTED, 0).

Definition hdkey_validate_curve (mode curve app_curve_mask : Z) : os_result_t :=
  let '(os_error, curve_mask) := hdkey_curve_mask mode curve in
  if decide (os_error = OS_SUCCESS) then
    if negb (Z.land app_curve_mask curve_mask =? curve_mask) then OS_ERR_NOT_FOUND else OS_SUCCESS
  else os_error.

Definition hdkey_match_slip21_subpath (params : HDKEY_params_t) (derive_path : list Z) (check_offset sub_path_length : Z) : option bool :=
  memcmp_eq (memory (hd_path params)) derive_path (check_offset + 1) sub_path_length.

Definition hdkey_match_bip32_subpath (params : HDKEY_params_t) (derive_path : list Z) (check_offset sub_path_length : Z) : option bool :=
  check_indices (memory (hd_path params)) derive_path check_offset 0 (Z.to_nat sub_path_length).

(** [while ((check_offset < derive_path_length) && !path_valid)]. *)
Fixpoint validate_loop (fuel : nat) (params : HDKEY_params_t) (derive_path : list Z) (check_offset : Z) : option bool :=
  if negb (check_offset <? zlen derive_path) then Some false
  else
    match fuel with
    | O => None
    | S fuel =>
        sub_path_length ← derive_path !! Z.to_nat check_offset;
        let slip21_marker := negb (Z.land sub_path_length 0x80 =? 0) in
        let slip21_request := hd_mode params =? HDW_SLIP21 in
        let entry_size := if slip21_marker then 1 else 4 in
        let sub_path_length := Z.land sub_path_length 0x7f in
        if zlen derive_path <? w32 (check_offset + 1 + entry_size * sub_path_length) then Some false
        else if (hd_path_len params <? sub_path_length) || negb (Bool.eqb slip21_marker slip21_request) then
          validate_loop fuel params derive_path (w32 (check_offset + (1 + entry_size * sub_path_length)))
        else
          path_valid ← (if slip21_request then hdkey_match_slip21_subpath params derive_path check_offset sub_path_length
                        else hdkey_match_bip32_subpath params derive_path check_offset sub_path_length);
          if path_valid : bool then Some true
          else validate_loop fuel params derive_path (w32 (check_offset + (1 + entry_size * sub_path_length)))
    end.

Definition hdkey_validate_path (params : HDKEY_params_t) (app_idx : Z) (app_path : list Z) : option os_result_t :=
  let derive_path := if negb (app_idx =? BOLOS_APP_IDX) then app_path else [] in
  if zlen derive_path =? 0 then Some OS_SUCCESS
  else if zlen derive_path =? 1 then Some OS_SUCCESS
  else
    mask ← derive_path !! 0%nat;
    if decide (hdkey_validate_curve (hd_mode params) (hd_curve params) mask = OS_SUCCESS) then
      path_valid ← validate_loop (length derive_path) params derive_path 1;
      Some (if path_valid : bool then OS_SUCCESS else OS_ERR_FORBIDDEN)
    else Some OS_ERR_FORBIDDEN.

(** [params] is [None] for the NULL pointer. *)
Definition HDKEY_VALIDATE_secure_context (app_flags : Z) (app_path : list Z) (params : option HDKEY_params_t) : option os_result_t :=
  let app_idx := 0 in
  match params with
  | None => Some OS_ERR_BAD_PARAM
  | Some params =>
      if negb (Z.land (hd_path_len params) 0xF0000000 =? 0) then Some OS_ERR_OVERFLOW
      else
        r ← hdkey_validate_params (hd_mode params) (hd_path params);
        if decide (r = OS_SUCCESS) then
          r ← hdkey_validate_hardened app_flags (hd_mode params) app_idx (hd_path params) (hd_path_len params);
          if decide (r = OS_SUCCESS) then hdkey_validate_path params app_idx app_path else Some r
        else Some r
  end.

(** The status words that [sys_hdkey_derive] makes of the results. *)
Definition hdkey_status (r : os_result_t) : Z :=
  match r with
  | OS_SUCCESS => 0x0000
  | OS_ERR_ACCESS_DENIED => 0x550B
  | OS_ERR_NOT_FOUND => 0x4214
  | OS_ERR_INTEGRITY => 0x521D
  | OS_ERR_OVERFLOW => 0x420E
  | OS_ERR_BAD_FORMAT => 0x4210
  | OS_ERR_NOT_IMPLEMENTED => 0x4213
  | OS_ERR_FORBIDDEN => 0x4215
  | OS_ERR_CRYPTO_INTERNAL => 0x3308
  | OS_ERR_SHORT_BUFFER => 0x4212
  | _ => 0x420E
  end.

(** * The authorisation, in the abstract *)

Inductive entry :=
| Indices (prefix : list Z)
| Label (prefix : list Z).

Inductive request :=
| ByIndices (path : list Z)
| ByLabel (path : list Z).

(** The path of a request starts with the one of an entry, in which an index may
    be the wildcard. *)
Fixpoint indices_match (prefix path : list Z) : bool :=
  match prefix, path with
  | [], _ => true
  | w :: prefix, p :: path => ((p =? w) || (w =? HDKEY_BIP32_WILDCARD_VALUE)) && indices_match prefix path
  | _ :: _, [] => false
  end.

Definition permits (r : request) (e : entry) : bool :=
  match e, r with
  | Indices prefix, ByIndices path => indices_match prefix path
  | Label prefix, ByLabel path => bool_decide (prefix `prefix_of` path)
  | _, _ => false
  end.

(** How the entries are stored, and how a request is given. *)
Definition entry_bytes (e : entry) : list Z :=
  match e with
  | Indices prefix => zlen prefix :: concat (map (be_split 4) prefix)
  | Label prefix => (0x80 + zlen prefix) :: prefix
  end.

Definition entry_ok (e : entry) : Prop :=
  match e with
  | Indices prefix => zlen prefix < 128 /\ Forall is_w32 prefix
  | Label prefix => zlen prefix < 128
  end.

Definition entries_bytes (es : list entry) : list Z := concat (map entry_bytes es).

Definition request_bytes (r : request) : list Z :=
  match r with
  | ByIndices path => concat (map (le_split 4) path)
  | ByLabel path => path
  end.

Definition request_len (r : request) : Z :=
  match r with
  | ByIndices path => zlen path
  | ByLabel path => zlen path
  end.

Definition is_label (r : request) : bool := match r with ByLabel _ => true | ByIndices _ => false end.

Definition request_ok (r : request) : Prop := match r with ByIndices path => Forall is_w32 path | ByLabel _ => True end.

(** * Proofs *)

(** ** Reading an index *)

Lemma lookup_zdrop {A} (l : list A) o k : 0 <= o -> 0 <= k -> zdrop o l !! Z.to_nat k = l !! Z.to_nat (o + k).
Proof. intros Ho Hk. unfold zdrop. rewrite lookup_drop. f_equal. lia. Qed.

Lemma lor_be32 b0 b1 b2 b3 : is_byte b0 -> is_byte b1 -> is_byte b2 -> is_byte b3 ->
  Z.lor (Z.lor (Z.lor (w32 (Z.shiftl b0 24)) (Z.shiftl b1 16)) (Z.shiftl b2 8)) b3 = be_combine [b0; b1; b2; b3].
Proof.
  unfold is_byte. intros H0 H1 H2 H3. rewrite !Z.shiftl_mul_pow2 by lia. unfold w32. rewrite Z.mod_small by lia.
  rewrite (lor_disjoint (b1 * 2 ^ 16) b0 24) by lia.
  replace (b0 * 2 ^ 24 + b1 * 2 ^ 16) with ((b0 * 2 ^ 8 + b1) * 2 ^ 16) by lia.
  rewrite (lor_disjoint (b2 * 2 ^ 8) _ 16) by lia.
  replace ((b0 * 2 ^ 8 + b1) * 2 ^ 16 + b2 * 2 ^ 8) with ((b0 * 2 ^ 16 + b1 * 2 ^ 8 + b2) * 2 ^ 8) by lia.
  rewrite (lor_disjoint b3 _ 8) by lia. unfold be_combine. cbn [rev app le_combine]. lia.
Qed.

Lemma U4BE_split buf o w rest : 0 <= o -> is_w32 w -> zdrop o buf = be_split 4 w ++ rest -> U4BE buf o = Some w.
Proof.
  intros Ho Hw Hd. unfold U4BE. replace o with (o + 0) at 1 by lia. rewrite <- !lookup_zdrop by lia. rewrite Hd.
  pose proof (be_split_bytes 4 w) as Hb. pose proof (be_combine_split 4 w) as Hv. rewrite Z.mod_small in Hv by exact Hw.
  assert (exists b0 b1 b2 b3, be_split 4 w = [b0; b1; b2; b3]) as (b0 & b1 & b2 & b3 & E) by (do 4 eexists; reflexivity).
  rewrite E in *. inv_bytes. change (Z.to_nat 0) with 0%nat. change (Z.to_nat 1) with 1%nat. change (Z.to_nat 2) with 2%nat.
  change (Z.to_nat 3) with 3%nat. cbn [app lookup list_lookup].
  by rewrite lor_be32, Hv by done.
Qed.

Lemma path_index_split path i w rest : 0 <= i -> is_w32 w -> zdrop (4 * i) path = le_split 4 w ++ rest ->
  path_index path i = Some w.
Proof.
  intros Hi Hw Hd. unfold path_index. assert (read_at path (4 * i) 4 = Some (le_split 4 w)) as ->.
  { apply (read_value path (4 * i) (le_split 4 w) rest); [lia|done|].
    apply (f_equal zlen) in Hd. rewrite zlen_app in Hd. pose proof (zlen_nonneg rest).
    unfold zlen in *. unfold zdrop in Hd. rewrite length_drop, le_split_length in *. lia. }
  cbn [option_bind base.mbind]. rewrite le_combine_split. by rewrite Z.mod_small.
Qed.

(** ** The match of an entry *)

Lemma check_indices_ok derive_path path off i prefix ws rest rest' : 0 <= off -> 0 <= i ->
  Forall is_w32 prefix -> Forall is_w32 ws ->
  zdrop (off + 1 + 4 * i) derive_path = concat (map (be_split 4) prefix) ++ rest ->
  zdrop (4 * i) path = concat (map (le_split 4) ws) ++ rest' -> zlen prefix <= zlen ws ->
  check_indices path derive_path off i (length prefix) = Some (indices_match prefix ws).
Proof.
  intros Ho. revert i ws. induction prefix as [|w prefix IH]; intros i ws Hi Hp Hw Hd Hd' Hl; [done|].
  destruct ws as [|p ws]; [rewrite zlen_cons in Hl; change (zlen (@nil Z)) with 0 in Hl; pose proof (zlen_nonneg prefix); lia|].
  rewrite !zlen_cons in Hl. inversion Hp; subst. inversion Hw; subst. cbn [map concat] in Hd, Hd'. rewrite <- app_assoc in Hd, Hd'.
  cbn [length check_indices indices_match]. rewrite (U4BE_split derive_path (off + 1 + 4 * i) w _ ltac:(lia) ltac:(done) Hd). cbn [option_bind base.mbind].
  rewrite (path_index_split path i p _ Hi ltac:(done) Hd'). cbn [option_bind base.mbind]. fold BIP32_WILDCARD_VALUE.
  change HDKEY_BIP32_WILDCARD_VALUE with BIP32_WILDCARD_VALUE. destruct (p =? w), (w =? BIP32_WILDCARD_VALUE); cbn [negb andb orb];
    try done; (apply IH; [lia|done|done| | |lia]).
  all: try (replace (off + 1 + 4 * (i + 1)) with (off + 1 + 4 * i + zlen (be_split 4 w)) by (rewrite (zlen_be_split 4) by lia; lia); apply zdrop_skip; [lia|done]).
  all: replace (4 * (i + 1)) with (4 * i + zlen (le_split 4 p)) by (unfold zlen; rewrite le_split_length; lia); apply zdrop_skip; [lia|done].
Qed.

Lemma memcmp_eq_ok derive_path path off prefix label rest rest' : 0 <= off ->
  zdrop (off + 1) derive_path = prefix ++ rest -> path = label ++ rest' -> off + 1 + zlen prefix <= zlen derive_path ->
  zlen prefix <= zlen label ->
  memcmp_eq path derive_path (off + 1) (zlen prefix) = Some (bool_decide (prefix `prefix_of` label)).
Proof.
  intros Ho Hd -> Hb Hl. pose proof (zlen_nonneg prefix). unfold memcmp_eq.
  rewrite (read_value derive_path (off + 1) prefix rest) by (done || lia).
  rewrite read_at_ok by (rewrite ?zlen_app; pose proof (zlen_nonneg rest'); lia). cbn [option_bind base.mbind]. f_equal.
  apply bool_decide_ext. rewrite zdrop_0. unfold ztake. rewrite take_app_le by (unfold zlen in *; lia).
  assert (Z.to_nat (zlen prefix) = length prefix) as -> by (unfold zlen; lia). split.
  - intros <-. apply prefix_take.
  - intros [k ->]. apply take_app_length.
Qed.

(** ** The loops over the entries *)

Lemma entry_marker e : entry_ok e -> exists b l, entry_bytes e = b :: l /\ is_byte b /\
  negb (Z.land b 0x80 =? 0) = (match e with Label _ => true | Indices _ => false end) /\
  Z.land b 0x7f = (match e with Label p => zlen p | Indices p => zlen p end) /\
  zlen (entry_bytes e) = 1 + (match e with Label _ => 1 | Indices _ => 4 end) * Z.land b 0x7f.
Proof.
  destruct e as [prefix|prefix]; cbn [entry_ok entry_bytes].
  - intros [Hl Hp]. pose proof (zlen_nonneg prefix). exists (zlen prefix), (concat (map (be_split 4) prefix)).
    assert (is_byte (zlen prefix)) as Hb by (unfold is_byte; lia). split; [done|]. split; [done|].
    rewrite land_high_bit by done. rewrite (proj2 (Z.ltb_lt _ _) Hl).
    assert (Z.land (zlen prefix) 0x7f = zlen prefix) as ->
      by (change 0x7f with (Z.ones 7); rewrite Z.land_ones by lia; apply Z.mod_small; lia).
    split; [done|]. split; [done|]. rewrite zlen_cons. f_equal. clear. induction prefix as [|w prefix IH]; [done|].
    cbn [map concat]. rewrite zlen_app, IH, zlen_cons. rewrite (zlen_be_split 4) by lia. lia.
  - intros Hl. pose proof (zlen_nonneg prefix). exists (0x80 + zlen prefix), prefix.
    assert (is_byte (0x80 + zlen prefix)) as Hb by (unfold is_byte; lia). split; [done|]. split; [done|].
    rewrite land_high_bit, land_low_bits by (done || lia). destruct (Z.ltb_spec (0x80 + zlen prefix) 128); [lia|].
    split; [done|]. split; [lia|]. rewrite zlen_cons. lia.
Qed.

Section loops.
Context (r : request) (rest : list Z) (Hr : request_ok r).
Context (derive_path : list Z).
Context (Hshort : zlen derive_path < 2 ^ 31).

Lemma entry_match off e tail : 0 <= off -> entry_ok e -> zdrop off derive_path = entry_bytes e ++ tail ->
  let n := match e with Label p => zlen p | Indices p => zlen p end in n <= request_len r ->
  match e, is_label r with
  | Label _, true => memcmp_eq (request_bytes r ++ rest) derive_path (off + 1) n = Some (permits r e)
  | Indices _, false => check_indices (request_bytes r ++ rest) derive_path off 0 (Z.to_nat n) = Some (permits r e)
  | _, _ => permits r e = false
  end.
Proof.
  intros Ho He Hd n Hn. destruct e as [prefix|prefix], r as [ws|label]; cbn [is_label permits entry_bytes request_len request_bytes] in *; try done.
  - destruct He as [_ Hp]. subst n. replace (Z.to_nat (zlen prefix)) with (length prefix) by (unfold zlen; lia).
    apply (check_indices_ok _ _ _ _ _ ws tail rest); try done. rewrite Z.add_0_r, Z.add_comm. by eapply zdrop_next.
  - apply (memcmp_eq_ok _ _ _ prefix label tail rest); try done; [rewrite Z.add_comm; by eapply zdrop_next|].
    apply (f_equal zlen) in Hd. rewrite zlen_app, zlen_cons in Hd. pose proof (zlen_nonneg tail). pose proof (zlen_nonneg prefix).
    rewrite zlen_zdrop in Hd; [lia|]. unfold zlen, zdrop in *. rewrite length_drop in Hd. lia.
Qed.
Lemma permits_longer e : request_len r < (match e with Label p => zlen p | Indices p => zlen p end) -> permits r e = false.
Proof.
  destruct e as [prefix|prefix], r as [ws|label]; cbn [request_len permits]; intros H; try done.
  - clear Hr. revert ws H. induction prefix as [|w prefix IH]; intros ws H; [change (zlen (@nil Z)) with 0 in H; pose proof (zlen_nonneg ws); lia|].
    destruct ws as [|p ws]; cbn [indices_match]; [done|]. rewrite !zlen_cons in H. rewrite IH by lia. apply andb_false_r.
  - apply bool_decide_false. intros [k ->]. rewrite zlen_app in H. pose proof (zlen_nonneg k). lia.
Qed.

Lemma entries_nil off : 0 <= off -> zdrop off derive_path = [] -> negb (off <? zlen derive_path) = true.
Proof.
  intros Ho Hd. apply (f_equal zlen) in Hd. unfold zdrop, zlen in Hd. rewrite length_drop in Hd. cbn in Hd.
  destruct (Z.ltb_spec off (zlen derive_path)); [unfold zlen in *; lia|done].
Qed.

(** The entry at [off], and the next one. *)
Lemma next_entry off e es : 0 <= off -> entry_ok e -> zdrop off derive_path = entries_bytes (e :: es) ->
  exists b, derive_path !! Z.to_nat off = Some b /\ negb (off <? zlen derive_path) = false /\
    negb (Z.land b 0x80 =? 0) = (match e with Label _ => true | Indices _ => false end) /\
    Z.land b 0x7f = (match e with Label p => zlen p | Indices p => zlen p end) /\
    let next := off + (1 + (if negb (Z.land b 0x80 =? 0) then 1 else 4) * Z.land b 0x7f) in
    w32 next = next /\ 0 <= next <= zlen derive_path /\ zdrop next derive_path = entries_bytes es.
Proof.
  intros Ho He Hd. unfold entries_bytes in Hd. cbn [map concat] in Hd. fold (entries_bytes es) in Hd.
  destruct (entry_marker e He) as (b & l & E & Hb & Hm & Hn & Hl). exists b.
  assert (off < zlen derive_path) as Hlt.
  { apply (f_equal zlen) in Hd. rewrite E in Hd. unfold zdrop, zlen in *. rewrite length_drop in Hd. cbn [length app] in Hd. lia. }
  assert (derive_path !! Z.to_nat off = Some b) as Hlook.
  { rewrite <- (Z.add_0_r off), <- lookup_zdrop by lia. by rewrite Hd, E. }
  split; [done|]. split; [by rewrite (proj2 (Z.ltb_lt _ _) Hlt)|]. split; [done|]. split; [done|]. cbv zeta. rewrite Hm.
  assert (zlen (entry_bytes e) = 1 + (if match e with Label _ => true | Indices _ => false end then 1 else 4) * Z.land b 0x7f) as Hl'
    by (by destruct e).
  rewrite <- Hl'. pose proof (zlen_nonneg (entry_bytes e)) as Hnn.
  assert (off + zlen (entry_bytes e) <= zlen derive_path).
  { apply (f_equal zlen) in Hd. rewrite zlen_app, zlen_zdrop in Hd by lia. pose proof (zlen_nonneg (entries_bytes es)). lia. }
  split; [unfold w32; apply Z.mod_small; lia|]. split; [lia|]. by apply zdrop_skip.
Qed.

Lemma check_loop_ok fuel off es : 0 <= off -> Forall entry_ok es -> zdrop off derive_path = entries_bytes es ->
  (length es <= fuel)%nat ->
  check_loop fuel (is_label r) (request_bytes r ++ rest) (request_len r) derive_path off = Some (existsb (permits r) es).
Proof.
  intros Ho Hes. revert fuel off Ho. induction Hes as [|e es He Hes IH]; intros fuel off Ho Hd Hf.
  - destruct fuel; cbn [check_loop]; by rewrite (entries_nil off Ho Hd).
  - destruct fuel as [|fuel]; [cbn in Hf; lia|]. cbn [check_loop existsb length] in *.
    destruct (next_entry off e es Ho He Hd) as (b & -> & -> & Hm & Hn & Hw & Hnext & Hd'). cbn [option_bind base.mbind].
    cbv zeta. rewrite Hw. pose proof (entry_match off e (entries_bytes es) Ho He Hd) as Hmatch. pose proof (permits_longer e) as Hlong.
    specialize (IH fuel _ (proj1 Hnext) Hd' ltac:(lia)). rewrite Hm in *. rewrite Hn in *. cbv zeta in Hmatch.
    destruct (Z.leb_spec (match e with Label p => zlen p | Indices p => zlen p end) (request_len r)) as [Hle|Hgt].
    + specialize (Hmatch Hle). destruct e, (is_label r); cbn [Bool.eqb negb] in *; rewrite Hmatch; cbn [option_bind base.mbind];
        try exact IH; destruct (permits r _); done || exact IH.
    + rewrite (Hlong Hgt). cbn [option_bind base.mbind]. exact IH.
Qed.

Lemma validate_loop_ok params fuel off es : 0 <= off -> Forall entry_ok es -> zdrop off derive_path = entries_bytes es ->
  (length es <= fuel)%nat -> (hd_mode params =? HDW_SLIP21) = is_label r -> hd_path_len params = request_len r ->
  memory (hd_path params) = request_bytes r ++ rest ->
  validate_loop fuel params derive_path off = Some (existsb (permits r) es).
Proof.
  intros Ho Hes Hd Hf Hmode Hlen Hmem. revert fuel off Ho Hd Hf. induction Hes as [|e es He Hes IH]; intros fuel off Ho Hd Hf.
  - destruct fuel; cbn [validate_loop]; by rewrite (entries_nil off Ho Hd).
  - destruct fuel as [|fuel]; [cbn in Hf; lia|]. cbn [validate_loop existsb length] in *.
    destruct (next_entry off e es Ho He Hd) as (b & -> & -> & Hm & Hn & Hw & Hnext & Hd'). cbn [option_bind base.mbind].
    cbv zeta. unfold hdkey_match_slip21_subpath, hdkey_match_bip32_subpath. rewrite <- Z.add_assoc, Hw, Hmode, Hlen, Hmem.
    rewrite (proj2 (Z.ltb_ge _ _) (proj2 Hnext)).
    pose proof (entry_match off e (entries_bytes es) Ho He Hd) as Hmatch. pose proof (permits_longer e) as Hlong.
    specialize (IH fuel _ (proj1 Hnext) Hd' ltac:(lia)). rewrite Hm in *. rewrite Hn in *. cbv zeta in Hmatch.
    destruct (Z.ltb_spec (request_len r) (match e with Label p => zlen p | Indices p => zlen p end)) as [Hgt|Hle]; cbn [orb].
    + rewrite (Hlong Hgt). exact IH.
    + specialize (Hmatch Hle). destruct e, (is_label r); cbn [Bool.eqb negb] in *; rewrite Hmatch; cbn [option_bind base.mbind];
        try exact IH; destruct (permits r _); done || exact IH.
Qed.
End loops.

Lemma entries_length es : Forall entry_ok es -> (length es <= length (entries_bytes es))%nat.
Proof.
  induction 1 as [|e es He Hes IH]; [done|]. unfold entries_bytes in *. cbn [map concat length]. rewrite length_app.
  destruct (entry_marker e He) as (b & l & -> & _). cbn [length]. lia.
Qed.

(** What the older check says of the request [r] on [curve] to an application with these entries. *)
Definition bip32_verdict (mode curve : Z) (r : request) (mask : Z) (es : list entry) : outcome unit unit :=
  match bip32_curve_mask mode curve with
  | None => Throw SWO_PAR_VAL_13 tt
  | Some m =>
      if negb (Z.land mask m =? m) then Throw SWO_PAR_VAL_14 tt
      else if bool_decide (es = []) || existsb (permits r) es then Ret tt tt
      else Throw SWO_PAR_VAL_15 tt
  end.

Lemma check_path_ok mode curve r rest mask es : (mode =? HDW_SLIP21) = is_label r -> request_ok r ->
  Forall entry_ok es -> zlen (entries_bytes es) < 2 ^ 30 ->
  os_perso_derive_node_bip32_check_path mode curve (request_bytes r ++ rest) (request_len r) true (mask :: entries_bytes es) tt =
  bip32_verdict mode curve r mask es.
Proof.
  intros Hmode Hr Hes Hlen. pose proof (zlen_nonneg (entries_bytes es)). unfold bip32_verdict, os_perso_derive_node_bip32_check_path.
  rewrite zlen_cons. destruct (Z.eqb_spec (1 + zlen (entries_bytes es)) 0); [lia|].
  destruct (bip32_curve_mask mode curve) as [m|]; [|done]. unfold mbind, mlift, mret, mthrow. cbn [lookup list_lookup].
  destruct (negb (Z.land mask m =? m)); [done|]. pose proof (entries_length es Hes).
  destruct es as [|e es]; [done|]. rewrite bool_decide_false by done. cbn [orb].
  destruct (entry_marker e (Forall_inv Hes)) as (b & l & E & _).
  assert (0 < zlen (entries_bytes (e :: es))).
  { unfold entries_bytes. cbn [map concat]. rewrite E, zlen_app, zlen_cons. pose proof (zlen_nonneg l). pose proof (zlen_nonneg (concat (map entry_bytes es))). lia. }
  destruct (Z.ltb_spec 1 (1 + zlen (entries_bytes (e :: es)))); [|lia]. rewrite Hmode.
  rewrite (check_loop_ok r rest Hr (mask :: entries_bytes (e :: es)) ltac:(rewrite zlen_cons; lia) _ 1 (e :: es)) by (done || (cbn [length] in *; lia)).
  by destruct (existsb (permits r) (e :: es)).
Qed.

(** C34: c-bip32_path_refines: for an application whose parameter lists the entries
    [es] behind the mask of its curves, the check of [os_bip32.c] returns
    exactly when the curve is in the mask and one of the entries permits the
    path (or when there is no entry), and raises the exception of what fails
    first otherwise. *)
Theorem bip32_path_refines mode curve r rest mask es : (mode =? HDW_SLIP21) = is_label r -> request_ok r ->
  Forall entry_ok es -> zlen (entries_bytes es) < 2 ^ 30 ->
  os_perso_derive_node_bip32_check_path mode curve (request_bytes r ++ rest) (request_len r) true (mask :: entries_bytes es) tt =
  bip32_verdict mode curve r mask es.
Proof. apply check_path_ok. Qed.

(** The high bits of a word. *)
Lemma land_high_mask x n : is_w32 x -> 0 <= n <= 32 -> (Z.land x (2 ^ 32 - 2 ^ n) =? 0) = (x <? 2 ^ n).
Proof.
  unfold is_w32. intros Hx Hn. assert (0 < 2 ^ n) by (apply Z.pow_pos_nonneg; lia).
  assert (Z.land x (2 ^ 32 - 2 ^ n) = x / 2 ^ n * 2 ^ n) as ->.
  { assert (2 ^ 32 - 2 ^ n = Z.shiftl (Z.ones (32 - n)) n) as ->.
    { rewrite Z.shiftl_mul_pow2, Z.ones_equiv, <- Z.sub_1_r, Z.mul_sub_distr_r, <- Z.pow_add_r by lia. f_equal; [f_equal; lia|lia]. }
    rewrite <- Z.shiftl_mul_pow2, <- Z.shiftr_div_pow2 by lia. apply Z.bits_inj'. intros i Hi.
    rewrite Z.land_spec, !Z.shiftl_spec by lia. destruct (Z.ltb_spec i n) as [Hlt|Hge].
    { rewrite !(Z.testbit_neg_r _ (i - n)) by lia. apply andb_false_r. }
    rewrite Z.shiftr_spec by lia. replace (i - n + n) with i by lia. destruct (Z.ltb_spec i 32).
    - rewrite Z.ones_spec_low by lia. apply andb_true_r.
    - rewrite (small_high x 32) by lia. done. }
  pose proof (Z.div_mod x (2 ^ n) ltac:(lia)). pose proof (Z.mod_pos_bound x (2 ^ n) ltac:(lia)).
  destruct (Z.ltb_spec x (2 ^ n)); [by rewrite Z.div_small by lia|]. assert (1 <= x / 2 ^ n) by (apply Z.div_le_lower_bound; lia).
  apply Z.eqb_neq. nia.
Qed.

Lemma hardened_bit w : is_w32 w -> truthy (Z.land w 0x80000000) = (2 ^ 31 <=? w).
Proof.
  intros Hw. unfold truthy. change 0x80000000 with (2 ^ 32 - 2 ^ 31). rewrite land_high_mask by (done || lia).
  by rewrite Z.leb_antisym.
Qed.

Lemma existsb_hardened path i ws rest : 0 <= i -> Forall is_w32 ws -> zdrop (4 * i) path = concat (map (le_split 4) ws) ++ rest ->
  any_hardened path i (length ws) = Some (existsb (fun w => 2 ^ 31 <=? w) ws).
Proof.
  intros Hi Hw. revert i Hi. induction Hw as [|w ws Hw Hws IH]; intros i Hi Hd; [done|]. cbn [map concat] in Hd. rewrite <- app_assoc in Hd.
  cbn [length any_hardened existsb]. rewrite (path_index_split path i w _ Hi Hw Hd). cbn [option_bind base.mbind].
  rewrite hardened_bit by done.
  destruct (2 ^ 31 <=? w); [done|]. apply IH; [lia|].
  replace (4 * (i + 1)) with (4 * i + zlen (le_split 4 w)) by (unfold zlen; rewrite le_split_length; lia). apply zdrop_skip; [lia|done].
Qed.

(** What the newer check answers for the entries [es]. *)
Definition path_result (params : HDKEY_params_t) (r : request) (mask : Z) (es : list entry) : os_result_t :=
  if bool_decide (es = []) then OS_SUCCESS
  else if bool_decide (hdkey_validate_curve (hd_mode params) (hd_curve params) mask = OS_SUCCESS) && existsb (permits r) es
  then OS_SUCCESS
  else OS_ERR_FORBIDDEN.

(** The parameters hold the request [r], and its memory may go on with [rest]. *)
Record holds_request (params : HDKEY_params_t) (r : request) (rest : list Z) : Prop := {
  hr_mode : (hd_mode params =? HDW_SLIP21) = is_label r;
  hr_len : hd_path_len params = request_len r;
  hr_path : hd_path params = Some (request_bytes r ++ rest);
  hr_ok : request_ok r }.

Lemma hdkey_validate_path_ok params r rest mask es : holds_request params r rest -> Forall entry_ok es ->
  zlen (entries_bytes es) < 2 ^ 30 ->
  hdkey_validate_path params 0 (mask :: entries_bytes es) = Some (path_result params r mask es).
Proof.
  intros [Hmode Hlen Hpath Hr] Hes Hsize. pose proof (zlen_nonneg (entries_bytes es)). unfold hdkey_validate_path, path_result.
  change (negb (0 =? BOLOS_APP_IDX)) with true. cbv iota. rewrite zlen_cons.
  destruct (Z.eqb_spec (1 + zlen (entries_bytes es)) 0); [lia|]. pose proof (entries_length es Hes).
  destruct es as [|e es]; [done|]. rewrite bool_decide_false by done.
  destruct (entry_marker e (Forall_inv Hes)) as (b & l & E & _).
  assert (0 < zlen (entries_bytes (e :: es))).
  { unfold entries_bytes. cbn [map concat]. rewrite E, zlen_app, zlen_cons. pose proof (zlen_nonneg l). pose proof (zlen_nonneg (concat (map entry_bytes es))). lia. }
  destruct (Z.eqb_spec (1 + zlen (entries_bytes (e :: es))) 1); [lia|]. cbn [lookup list_lookup option_bind base.mbind].
  destruct (decide _) as [Hc|Hc]; [rewrite bool_decide_true by done|by rewrite bool_decide_false by done].
  rewrite (validate_loop_ok r rest Hr (mask :: entries_bytes (e :: es)) ltac:(rewrite zlen_cons; lia) params _ 1 (e :: es))
    by (done || (cbn [length] in *; lia) || (by rewrite Hpath)).
  by destruct (existsb (permits r) (e :: es)).
Qed.

(** C14: c-hdkey_context_refines: [HDKEY_VALIDATE_secure_context] refuses paths of
    2^28 indices or more, SLIP-21 labels that do not start with a null byte,
    several modes at once and, without the master flag, paths without a hardened
    index; it then accepts exactly the requests that one of the entries of the
    application permits on a curve of its mask, and every request when there is
    no entry. *)
Theorem hdkey_context_refines app_flags params r rest mask es : holds_request params r rest -> Forall entry_ok es ->
  zlen (entries_bytes es) < 2 ^ 30 -> is_w32 (request_len r) -> (is_label r = true -> request_bytes r ++ rest <> []) ->
  HDKEY_VALIDATE_secure_context app_flags (mask :: entries_bytes es) (Some params) = Some (
    if 2 ^ 28 <=? request_len r then OS_ERR_OVERFLOW
    else if is_label r && negb (nth 0 (request_bytes r ++ rest) 0 =? 0) then OS_ERR_BAD_FORMAT
    else if negb (Z.land (hd_mode params) (w32 (hd_mode params - 1)) =? 0) then OS_ERR_BAD_PARAM
    else
      match r with
      | ByIndices path =>
          if negb (truthy (Z.land app_flags APPLICATION_FLAG_DERIVE_MASTER)) && negb (existsb (fun w => 2 ^ 31 <=? w) path)
          then OS_ERR_BAD_PARAM else path_result params r mask es
      | ByLabel _ => path_result params r mask es
      end).
Proof.
  intros Hreq Hes Hsize Hlen Hne. pose proof (hdkey_validate_path_ok params r rest mask es Hreq Hes Hsize) as Hp.
  destruct Hreq as [Hmode Hl Hpath Hr]. unfold HDKEY_VALIDATE_secure_context. rewrite Hl.
  change 0xF0000000 with (2 ^ 32 - 2 ^ 28). rewrite land_high_mask by (done || lia).
  rewrite <- Z.leb_antisym. destruct (2 ^ 28 <=? request_len r); [done|].
  unfold hdkey_validate_params. rewrite Hmode, Hpath. rewrite bool_decide_false by done. rewrite andb_false_r.
  assert ((if is_label r then p ← Some (request_bytes r ++ rest); b ← p !! 0%nat; Some (negb (b =? 0)) else Some false) =
    Some (is_label r && negb (nth 0 (request_bytes r ++ rest) 0 =? 0))) as ->.
  { destruct (is_label r); [|done]. specialize (Hne eq_refl). by destruct (request_bytes r ++ rest). }
  cbn [option_bind base.mbind]. destruct (is_label r && _); [done|]. destruct (negb (Z.land _ _ =? 0)); [done|].
  cbn [option_bind base.mbind]. rewrite decide_True by done. unfold hdkey_validate_hardened. rewrite Hmode.
  destruct r as [ws|label]; cbn [is_label negb andb request_len request_bytes memory default option_bind base.mbind from_option id] in *;
    [|by rewrite decide_True].
  change (negb (0 =? BOLOS_APP_IDX)) with true. cbn [andb]. destruct (truthy _); cbn [negb andb option_bind base.mbind];
    [by rewrite decide_True|].
  replace (Z.to_nat (zlen ws)) with (length ws) by (unfold zlen; lia).
  rewrite (existsb_hardened (concat (map (le_split 4) ws) ++ rest) 0 ws rest) by done. cbn [option_bind base.mbind].
  destruct (existsb _ ws); cbn [negb]; [by rewrite decide_True|by rewrite decide_False].
Qed.

(** ** Safety of the newer check *)











(** ** The two checks *)

(** The curves that both checks know, with their numbers in the two SDKs. *)
Definition same_curve (curve curve2 : Z) : Prop :=
  (curve = CX_CURVE_256K1 /\ curve2 = CX_CURVE_256K1) \/ (curve = CX_CURVE_256R1 /\ curve2 = CX_CURVE_256R1) \/
  (curve = CX_CURVE_Ed25519 /\ curve2 = SDK2_CURVE_Ed25519).

(** The modes of the older system call. *)
Definition older_mode (mode : Z) : Prop := mode = HDW_NORMAL \/ mode = HDW_ED25519_SLIP10 \/ mode = HDW_SLIP21.

Lemma same_mask mode curve curve2 mask : older_mode mode -> same_curve curve curve2 -> exists m,
  bip32_curve_mask mode curve = Some m /\
  (hdkey_validate_curve mode curve2 mask = OS_SUCCESS <-> Z.land mask m = m).
Proof.
  intros Hmode Hcurve.
  assert (exists m, bip32_curve_mask mode curve = Some m /\ hdkey_curve_mask mode curve2 = (OS_SUCCESS, m)) as (m & Hm & Hm2).
  { by destruct Hmode as [-> | [-> | ->]], Hcurve as [[-> ->] | [[-> ->] | [-> ->]]]; eexists. }
  exists m. split; [done|]. unfold hdkey_validate_curve. rewrite Hm2, decide_True by done.
  destruct (Z.eqb_spec (Z.land mask m) m); by cbn [negb].
Qed.

(** C15: c-hd_checks_agree: on the modes and curves that both know, the check of the
    paths of [hdkey_validate.c] accepts what the one of [os_bip32.c] does when
    the application lists entries. When it lists none, the newer check accepts
    every curve, the older one only those of the mask. When the last entry is
    cut, the newer check refuses it, the older one reads beyond the parameter. *)
Theorem hd_checks_agree params curve r rest mask es : holds_request params r rest -> Forall entry_ok es ->
  zlen (entries_bytes es) < 2 ^ 30 -> older_mode (hd_mode params) -> same_curve curve (hd_curve params) ->
  let older := os_perso_derive_node_bip32_check_path (hd_mode params) curve (request_bytes r ++ rest) (request_len r) true in
  (es <> [] -> hdkey_validate_path params 0 (mask :: entries_bytes es) = Some OS_SUCCESS <->
    older (mask :: entries_bytes es) tt = Ret tt tt) /\
  hdkey_validate_path params 0 [mask] = Some OS_SUCCESS /\
  (older [mask] tt = Ret tt tt <-> hdkey_validate_curve (hd_mode params) (hd_curve params) mask = OS_SUCCESS) /\
  (forall n, 0 < n < 128 -> n <= request_len r -> is_label r = false ->
    hdkey_validate_path params 0 [mask; n] = Some OS_ERR_FORBIDDEN /\
    (hdkey_validate_curve (hd_mode params) (hd_curve params) mask = OS_SUCCESS -> older [mask; n] tt = Fault)).
Proof.
  intros Hreq Hes Hsize Hmode Hcurve older. pose proof (fun es => hdkey_validate_path_ok params r rest mask es Hreq) as Hnew.
  destruct Hreq as [Hm Hl Hp Hr]. destruct (same_mask (hd_mode params) curve (hd_curve params) mask Hmode Hcurve) as (m & Em & Hmask).
  assert (forall es, Forall entry_ok es -> zlen (entries_bytes es) < 2 ^ 30 -> older (mask :: entries_bytes es) tt =
    if negb (Z.land mask m =? m) then Throw SWO_PAR_VAL_14 tt else if bool_decide (es = []) || existsb (permits r) es then Ret tt tt
    else Throw SWO_PAR_VAL_15 tt) as Hold.
  { intros es' Hes' Hs'. unfold older. rewrite check_path_ok by done. unfold bip32_verdict. by rewrite Em. }
  split_and!.
  - intros Hne. rewrite Hnew, Hold by done. unfold path_result. rewrite bool_decide_false by done. cbn [orb].
    destruct (Z.eqb_spec (Z.land mask m) m) as [E|E]; cbn [negb].
    + rewrite bool_decide_true by by apply Hmask. cbn [andb]. by destruct (existsb _ es).
    + rewrite bool_decide_false; [done|]. by intros H%Hmask.
  - exact (Hnew [] (Forall_nil_2 _) ltac:(done)).
  - change (older [mask] tt) with (older (mask :: entries_bytes []) tt). rewrite (Hold [] (Forall_nil_2 _) ltac:(done)). rewrite bool_decide_true by done. cbn [orb]. rewrite Hmask.
    by destruct (Z.eqb_spec (Z.land mask m) m).
  - intros n Hn Hnl Hlab. rewrite Hlab in Hm. assert (is_byte n) as Hb by (unfold is_byte; lia).
    assert (Z.land n 0x7f = n) as Hland by (change 0x7f with (Z.ones 7); rewrite Z.land_ones by lia; apply Z.mod_small; lia).
    assert (Z.land n 0x80 = 0) as Hhigh by (rewrite land_high_bit by done; by rewrite (proj2 (Z.ltb_lt n 128)) by lia).
    split.
    + unfold hdkey_validate_path. change (negb (0 =? BOLOS_APP_IDX)) with true. cbv iota. change (zlen [mask; n]) with 2. cbn [Z.eqb Pos.eqb].
      cbn [lookup list_lookup option_bind base.mbind]. destruct (decide _); [|done]. cbn [length validate_loop].
      change (zlen [mask; n]) with 2. change (negb (1 <? 2)) with false. cbv iota. change (Z.to_nat 1) with 1%nat. cbn [lookup list_lookup option_bind base.mbind].
      rewrite Hhigh, Hland. cbn [Z.eqb negb]. cbv zeta. unfold w32. rewrite Z.mod_small by lia.
      destruct (Z.ltb_spec 2 (1 + 1 + 4 * n)); [done|lia].
    + intros Hc%Hmask. unfold older, os_perso_derive_node_bip32_check_path. change (zlen [mask; n]) with 2. cbn [Z.eqb].
      rewrite Em. unfold mbind, mlift, mret, mthrow. cbn [lookup list_lookup]. rewrite Hc, Z.eqb_refl. cbn [negb].
      change (1 <? 2) with true. cbv iota. cbn [length check_loop]. change (zlen [mask; n]) with 2. change (negb (1 <? 2)) with false. cbv iota.
      change (Z.to_nat 1) with 1%nat. cbn [lookup list_lookup option_bind base.mbind]. rewrite Hhigh, Hland, Hm. cbn [Z.eqb negb Bool.eqb].
      rewrite (proj2 (Z.leb_le n (request_len r)) Hnl). assert (exists k, Z.to_nat n = S k) as (k & ->) by (exists (Z.to_nat (n - 1)); lia).
      cbn [check_indices]. by change (U4BE [mask; n] (1 + 1 + 4 * 0)) with (@None Z).
Qed.

(** ** Concrete applications *)

(** The path [44'/0'], an application that may use it on secp256k1, and the
    label of SLIP-21 of the tests. *)
Definition test_entries : list entry := [Indices [0x8000002c; 0x80000000]; Label [0; 0x4c; 0x45]].
Definition test_request : request := ByIndices [0x8000002c; 0x80000000; 5].
Definition test_params : HDKEY_params_t := mk_params 0 CX_CURVE_256K1 3 (Some (request_bytes test_request)).

Lemma test_words_ok ws : forallb (fun w => (0 <=? w) && (w <? 2 ^ 32)) ws = true -> Forall is_w32 ws.
Proof. intros H. apply Forall_forall. intros w Hw%list_elem_of_In. pose proof (proj1 (forallb_forall _ _) H w Hw). unfold is_w32. lia. Qed.

Lemma test_entries_ok : Forall entry_ok test_entries.
Proof.
  apply Forall_cons. split; [split; [reflexivity|by apply test_words_ok]|]. apply Forall_cons. split; [reflexivity|apply Forall_nil_2].
Qed.

Lemma test_request_ok : request_ok test_request.
Proof. by apply test_words_ok. Qed.

Lemma test_params_holds : holds_request test_params test_request [].
Proof. split; [reflexivity|reflexivity|reflexivity|exact test_request_ok]. Qed.

Lemma bip32_path_refines_witness :
  os_perso_derive_node_bip32_check_path 0 CX_CURVE_256K1 (request_bytes test_request) 3 true (1 :: entries_bytes test_entries) tt = Ret tt tt /\
  os_perso_derive_node_bip32_check_path 0 CX_CURVE_256K1 (request_bytes (ByIndices [0x8000002d; 0])) 2 true (1 :: entries_bytes test_entries) tt
    = Throw SWO_PAR_VAL_15 tt.
Proof.
  split.
  - pose proof (bip32_path_refines 0 CX_CURVE_256K1 test_request [] 1 test_entries eq_refl) as H. rewrite app_nil_r in H.
    exact (eq_trans (H test_request_ok test_entries_ok ltac:(by vm_compute)) eq_refl).
  - pose proof (bip32_path_refines 0 CX_CURVE_256K1 (ByIndices [0x8000002d; 0]) [] 1 test_entries eq_refl) as H. rewrite app_nil_r in H.
    exact (eq_trans (H (test_words_ok [0x8000002d; 0] eq_refl) test_entries_ok ltac:(by vm_compute)) eq_refl).
Defined.

Lemma hdkey_context_refines_witness :
  HDKEY_VALIDATE_secure_context 0 (1 :: entries_bytes test_entries) (Some test_params) = Some OS_SUCCESS /\
  HDKEY_VALIDATE_secure_context 0 (2 :: entries_bytes test_entries) (Some test_params) = Some OS_ERR_FORBIDDEN.
Proof.
  split.
  - rewrite (hdkey_context_refines 0 test_params test_request [] 1 test_entries test_params_holds); [reflexivity|exact test_entries_ok|by vm_compute|by vm_compute|discriminate].
  - rewrite (hdkey_context_refines 0 test_params test_request [] 2 test_entries test_params_holds); [reflexivity|exact test_entries_ok|by vm_compute|by vm_compute|discriminate].
Defined.


Lemma hd_checks_agree_witness :
  hdkey_validate_path test_params 0 [0] = Some OS_SUCCESS /\
  ~ os_perso_derive_node_bip32_check_path 0 CX_CURVE_256K1 (request_bytes test_request ++ []) 3 true [0] tt = Ret tt tt /\
  os_perso_derive_node_bip32_check_path 0 CX_CURVE_256K1 (request_bytes test_request ++ []) 3 true [1; 2] tt = Fault.
Proof.
  pose proof (fun mask => hd_checks_agree test_params CX_CURVE_256K1 test_request [] mask test_entries test_params_holds test_entries_ok
    ltac:(by vm_compute) ltac:(by left) ltac:(by left)) as H. split; [apply (H 0)|]. split.
  - intros E. apply (H 0) in E. by vm_compute in E.
  - apply (H 1); [lia|by vm_compute|reflexivity|by vm_compute].
Defined.
